(* ===== verification/_CoqProject ===== *)
-Q . S2P
Prelude.v
CString.v
AuthText.v
TextTheorems.v
Acl.v
AclFrame.v
AclSafety.v
AclProtocol.v
AclTheorems.v
Pdu.v
LoginText.v
Io.v
IoTheorems.v
Timer.v
Login.v
LoginReq.v
LoginSafety.v
LoginReqSafety.v
LoginDriver.v
LoginTheorems.v
SessionSetup.v
SessionTheorems.v
StateM.v
Initiator.v
InitiatorInv.v
InitiatorSafety.v
InitiatorLogin.v
InitiatorEvents.v
InitiatorTasks.v
InitiatorRequests.v
InitiatorHistory.v
InitiatorAccount.v
InitiatorTheorems.v
ListHead.v
Actor.v
ActorSpec.v
ActorRefine.v
ActorPoll.v
ActorTheorems.v
Idbm.v
IdbmTables.v
IdbmOps.v
IdbmParse.v
IdbmUpdate.v
IdbmRestore.v
IdbmFiles.v
IdbmLock.v
IdbmTheorems.v
NetConfig.v
NetConfigTheorems.v
StrBuffer.v
Discovery.v
DiscoverySafety.v
DiscoveryRoundtrip.v
DiscoveryDriver.v
DiscoveryTheorems.v
DiscoverySession.v
DiscoverySetup.v
Md5Sine.v
Md5.v
Md5Theorems.v
Iname.v
Ipc.v
IpcTheorems.v
SessionInfo.v
SessionInfoTheorems.v
IdbmWalk.v
IdbmWalkTheorems.v
SessionMgmt.v
SessionMgmtTheorems.v
