(* ===== verification/Prelude.v ===== *)
(** * Open-iSCSI: a verification of the initiator

    Open-iSCSI is the user-space side of the Linux iSCSI initiator.  The daemon
    [iscsid] logs in to a target: it opens a connection, exchanges login PDUs
    that carry [key=value] texts, authenticates itself and, when configured,
    the target with CHAP, negotiates the operational parameters and hands the
    connection to the kernel.  This development models that core.

    ** The parts of the program and their files

    - [Prelude]: record update, machine integers ([u8], [u32], [i32]: a w-bit
      integer is a [Z] and its wrap-around is written out), C buffers as
      [list Z] with checked access, strings, tactics, general lemmas.
    - [CString] (utils/sysdeps/sysdeps.c): [strlcpy], [strlcat], and the libc
      functions that the sources call ([strtoul], [atoi], [strchr], ...).
    - [AuthText], [TextTheorems] (usr/auth.c, lines 219-505): hex and base64
      text of the CHAP values.
    - [Acl] (usr/auth.c, usr/auth.h): the authentication client.  The record
      [iscsi_acl] is the C structure; each [acl_] function is a definition that
      passes the client.  [AclFrame]: what an operation leaves alone;
      [AclSafety]: the invariant [acl_wf] and that every operation keeps it;
      [AclProtocol]: the protocol argument, by induction on sequences of calls;
      [AclTheorems]: the properties.
    - [Pdu] (include/iscsi_proto.h): headers as 48 bytes; [LoginText]
      (usr/login.c): adding and finding text keys.
    - [Io], [IoTheorems] (usr/io.c): sending and receiving a PDU over a socket
      whose results are a list of events.
    - [Timer] (usr/iscsi_timer.c).
    - [Login] (usr/login.c, lines 129-779): the keys of the target and
      [iscsi_process_login_response]; [LoginReq] (lines 781-1618): requests and
      [iscsi_login].  [LoginSafety], [LoginReqSafety], [LoginDriver]: the
      invariants of the session and their preservation; [LoginTheorems]: the
      properties, and a complete login with mutual CHAP that is run by the
      kernel.
    - [SessionSetup], [SessionTheorems] (usr/initiator_common.c and the
      [create_conn] functions of the drivers): credentials, operational
      parameters and the tables of kernel parameters of a session.
    - [Initiator] (usr/initiator.c, parts of usr/mgmt_ipc.c, usr/netlink.c and
      usr/scsi.c): the session state machine.  A handler is a computation of
      the monad of [StateM] on a [world]: the session with its event contexts
      and timers, the requests of the clients that wait, the answers written.
      [event] and [run_events] are the histories of the daemon.
      [InitiatorInv]: the invariant; [InitiatorSafety], [InitiatorLogin],
      [InitiatorEvents], [InitiatorTasks], [InitiatorRequests],
      [InitiatorHistory]: that every handler runs and keeps it;
      [InitiatorAccount]: an interface [RespectsSteps] for relations that all
      handlers respect, with the account of the requests as instance, and which
      steps write no answer;
      [InitiatorTheorems]: the properties and a login run from the request to
      the answer.
    - [ListHead] (include/list.h): circular lists in a heap; [Actor]
      (usr/actor.c): the scheduler on top of them.  [ActorSpec]: the scheduler
      with plain lists; [ActorRefine], [ActorPoll]: the first implements the
      second; [ActorTheorems]: the properties.
    - The record database (usr/idbm.c, usr/idbm.h, usr/idbm_fields.h and the
      records of usr/iface.c).  [Idbm]: the macros of the tables, printing, the
      parser and updates; a record in memory is a map from the paths of its
      fields to values.  [IdbmTables]: the tables of parameters.  [IdbmOps]: the
      defaults, the lock, and the operations on the files of nodes, discovery
      sources and interfaces, over a map from paths to files.  [IdbmParse],
      [IdbmUpdate], [IdbmRestore]: printing and parsing agree for every table
      of the class [RecordTable]; [IdbmFiles]: the tables are such tables, and
      what writing and reading a node record does; [IdbmLock]: the lock is
      released; [IdbmTheorems]: the properties and the defects found.
    - [NetConfig] (usr/iface.c from line 1163, [iface_apply_net_config] of
      usr/iscsiadm.c, the search for a host in usr/iscsi_sysfs.c): the
      configuration of an offload adapter; [NetConfigTheorems]: counting and
      filling of its parameters agree, and where they do not.
    - SendTargets discovery (usr/discovery.c).  [StrBuffer]
      (usr/local_strings.c): growing string buffers; [Discovery]: the text
      requests and responses and the parser of the targets; [DiscoverySafety]:
      the parser stays inside its buffer and its scans end;
      [DiscoveryRoundtrip]: it finds the targets of a well-formed text however
      the text is broken; [DiscoveryDriver]: the session (connect, log in, try
      again, take down), the connect of usr/io.c, and the exchange with the
      target; [DiscoveryTheorems]: properties of the exchange and the defects
      of the parser; [DiscoverySession]: properties of the session and of the
      run; [DiscoverySetup]: [discovery_sendtargets] as a whole, with complete
      runs.
    - [Md5] (utils/md5.c): the digest functions, and the algorithm of RFC 1321
      as reference ([Rfc]), with the constants defined by the sine on real
      numbers and computed by the interval arithmetic of [Md5Sine];
      [Md5Theorems]: they agree.  [Iname]
      (utils/iscsi-iname.c): the program that makes a name of the initiator.
    - [Ipc], [IpcTheorems] (usr/mgmt_ipc.c, usr/iscsid_req.c): the requests of
      clients and the answers, on the side of the daemon up to the handlers, and
      on the side of the client.
    - [IdbmWalk], [IdbmWalkTheorems] (usr/idbm.c, [idbm_for_each_*]; the
      functions of usr/iscsiadm.c that collect records): walks over the
      directories of the database.
    - [SessionInfo], [SessionInfoTheorems] (usr/iscsi_sysfs.c, usr/iscsi_util.c,
      usr/session_info.c): the sessions of the kernel, read from sysfs, compared
      with records and linked in a list; the children of
      [iscsi_sysfs_for_each_session].
    - [SessionMgmt], [SessionMgmtTheorems] (usr/session_mgmt.c and the commands of
      usr/iscsiadm.c on top of it): logging in to and out of lists of portals,
      with the requests of [Ipc], the records of [IdbmWalk] and the sessions of
      [SessionInfo].

    ** How code becomes definitions

    A function that touches memory returns an [option]: [None] is an access
    outside a buffer or of a NULL pointer (undefined behaviour in C), so that
    "the result is [Some]" is memory safety.  Errors that the C code reports
    are values of its own status types.  Structures are passed in and out.
    Pointers into a message are offsets.  A connection is session->conn[0]:
    ISCSI_CONN_MAX is 1.

    What is not in this repository is a parameter: the digests and the random
    bytes of OpenSSL ([AuthEnv], with the lengths that the code relies on in
    [AuthEnvOk]), [getaddrinfo] and the success of [malloc] ([LoginEnv]).
    Results of [read], [writev], [poll] and of the clock are inputs of the run
    ([read_event], [write_event], [poll_result], [login_round]); the theorems
    quantify over all of them.  The daemon asks the kernel, the transport,
    sysfs and the system through [ask], whose answers (return codes, values,
    kernel events that arrive in between) come from an arbitrary function of
    the call and its position; [ext_ok] says that memory is granted and that
    the kernel does not refuse to destroy a connection or a session, and
    [failed_logout_dangles] shows why the code needs it.  When a session is
    released while one of its timers or event contexts is queued, the world
    remembers it ([w_loose]), and a later run of the scheduler is an access to
    released memory.  [DbEnv] holds the root
    of the database, what the file system refuses although it is possible, and
    when another process has the lock; its files are the state.  [DiscKernel]
    answers the calls of discovery as functions of the calls made before.

    ** What the theorems show

    - Authentication: a login that must authenticate the target succeeds only
      if a PDU of the target carried the right digest over a fresh challenge
      (end to end for [iscsi_login], and for the client alone under every
      sequence of calls); a verdict is final, a negotiation has at most eleven
      messages, the T bit ends it, malformed messages fail.
    - Memory safety of the client, of the login, of the text decoders and of
      the PDU functions, for any data from the network.
    - The rules of the login stages, the digest negotiation, the limits, the
      request headers.
    - The daemon, over every history of requests, kernel events and timers: no
      access to released memory and no queued actor of a released session, no
      logged-in session without the evidence of the target's identity, a timer
      behind every pending connection, the answer to a first login that cannot
      succeed.  The histories are those of transports that log in in user space
      ([software_login]; an offloaded login is modelled, and
      [offload_failure_dangles] shows what its failure leaves behind), with
      arguments and kernel messages of the right form ([well_formed_event]), an
      environment that grants memory and destruction ([ext_ok]), from a daemon
      without a session ([idle]).
    - The scheduler: refinement of the abstract queue, sorted timers, every due
      actor runs.
    - The parameters of a session are within the protocol's limits, and the
      kernel gets exactly those that the transport supports.
    - The record database: a node record that is written is read back, its
      identity survives every verified change of parameters, the lock is
      released (except by the deletions of [deletion_kept_lock]), the
      parser is safe on short lines (and overflows on long ones); a walk visits
      every record once.
    - The commands on sessions: a list of the sessions is complete and grouped by
      target; what children report agrees with one process up to the sessions
      whose child was not forked or was killed; whatever the daemon answers,
      every request sent is waited for or dropped once, exactly the sockets on
      which poll failed stay open, success is reported only when nothing failed,
      and a portal gets the sessions it lacks.
    - The network configuration of an adapter fits the table allocated for it,
      for interfaces with a port and proper switches.
    - SendTargets discovery: the records are exactly the portals of the target's
      text, whatever the responses and pieces it comes in; any bytes are
      handled inside the buffers; a refusing portal is tried reopen_max + 1
      times.
    - Requests to the daemon: only root gets one handled, a string of the
      configuration reaches the client unchanged, notifications overrun their
      payload.
    - The MD5 code computes the digest of RFC 1321 for every message and every
      division of it into pieces; names of iscsi-iname fit into 223 characters.
    - Round trips: binary values as text, keys of a message block, text keys of
      a PDU, PDUs over a fragmented stream.

    ** Fuel and bounds

    [scan_text], [auth_key_loop] and [enum_keys] have fuel equal to the length
    of the scanned text or to the number of keys; [login_memory_safe] shows
    that it is enough (running out of it would be [None]).  [login_loop] and
    [poll_rsp] end with the list of rounds that they consume: such a run is a
    prefix of the behaviour and its result is [Waiting], not a verdict.  The
    loop of [actor_poll] has the bound that [due_actor_runs] proves sufficient.
    [config_loop] has as fuel the length of the file, which [parser_buffers]
    shows to be enough; [lock_loop] counts the 3000 attempts of the code.
    [update_chunks] has the length of the data, enough by [md5_correct].
    [find_records] and [address_lines] have the length of the text, which
    [discovery_memory_safe] shows to be enough.  [attempts] and [discover] have
    fuel because a target can redirect for ever; [refused_portal] needs
    reopen_max + 3.

    ** Not modelled

    Logging; the textual form of debug states ([acl_dbg_status_to_text]);
    signal handlers and alarms, of which only the effect on the result of a
    call is an event; opening, binding and polling sockets; more than one
    session at a time in the daemon (sessions share only the list in which they
    are looked up); the walk over the directory of interfaces (the interfaces it
    finds are an argument of [login_by_startup]) and the search of an interface
    by its network binding; the printing of lists and trees; iSNS, SLP, firmware and
    offloaded discovery, and the loop of discoveryd, which call libraries and
    adapters outside of this repository; in discovery an allocation fails or
    not by its size.  A directory has the names it had when it was opened; what a
    child of [iscsi_sysfs_for_each_session] does outside its memory is not seen.
    The components outside this list (the options of the command line tool, most
    of netlink and the tree of sysfs, iscsiuio, libopeniscsiusr, firmware tables) are
    not modelled or are input and output around system calls. *)
From Stdlib Require Import Lia ZArith.
From stdpp Require Import base tactics numbers list strings option.

(** ** Record update

    The C sources update structures field by field ([client->phase = ...]).
    [r <| f := v |>] is that update.  A record type declares its fields once,
    through an instance of [Eta]; the update of each field is found from it. *)
Class Eta (R : Type) := eta_fields : R -> R.

Class FieldUpdate {R T : Type} (proj : R -> T) := update_field : (T -> T) -> R -> R.

Ltac solve_field_update :=
  match goal with
  | |- @FieldUpdate ?R ?T ?proj =>
      let e := constr:(_ : Eta R) in
      let e := eval cbv delta [eta_fields] in e in
      let e := match e with | ?x => eval unfold x in x | _ => e end in
      let b := constr:(fun (g : T -> T) (r : R) =>
        ltac:(let t := eval cbv beta in (e r) in
              let h := eval pattern (proj r) in t in
              match h with
              | ?k _ => let u := eval cbv beta in (k (g (proj r))) in exact u
              end)) in
      exact b
  end.

#[export] Hint Extern 0 (FieldUpdate _) => solve_field_update : typeclass_instances.

Declare Scope iscsi_scope.
Delimit Scope iscsi_scope with iscsi.
Notation "r <| f := v |>" := (update_field (proj := f) (fun _ => v) r)
  (at level 1, left associativity, f at level 9, v at level 200) : iscsi_scope.
Open Scope iscsi_scope.

(** ** Machine integers

    Integers are kept in [Z]; these are the conversions the C code performs
    when a value is stored into a narrower or a signed type. *)
Definition wrap (w : Z) (z : Z) : Z := (z mod 2 ^ w)%Z.

Definition swrap (w : Z) (z : Z) : Z := ((z + 2 ^ (w - 1)) mod 2 ^ w - 2 ^ (w - 1))%Z.

Definition u8 : Z -> Z := wrap 8.
Definition u16 : Z -> Z := wrap 16.
Definition u32 : Z -> Z := wrap 32.
Definition u64 : Z -> Z := wrap 64.
Definition i32 : Z -> Z := swrap 32.

(** A C truth value. *)
Definition truth (z : Z) : bool := negb (Z.eqb z 0).

(** ** Characters and strings

    A [char] is a [Z] in [0, 255]; a C string is the list of the characters
    before its terminating NUL. *)
Definition is_byte (b : Z) : Prop := (0 <= b < 256)%Z.

#[export] Instance is_byte_dec b : Decision (is_byte b).
Proof. unfold is_byte. apply _. Defined.

Definition NUL : Z := 0.

Definition char (a : Ascii.ascii) : Z := Z.of_N (Ascii.N_of_ascii a).

Arguments char a%_char_scope.

Definition str (s : string) : list Z := char <$> String.list_ascii_of_string s.

Arguments str s%_string_scope.

(** No NUL inside: the list is the content of a C string. *)
Definition no_nul (s : list Z) : Prop := Forall (fun c => c <> NUL) s.

#[export] Instance no_nul_dec s : Decision (no_nul s).
Proof. unfold no_nul. apply _. Defined.

(** ** Memory

    A buffer is the list of its bytes.  An access outside of it is undefined
    behaviour in C; the model makes it visible: operations on buffers live in
    the option monad and [None] means that the code left a buffer (or ran out
    of fuel, where a function has fuel). *)
Definition buf_set (b : list Z) (i : nat) (v : Z) : option (list Z) :=
  if decide (i < length b) then Some (<[i := v]> b) else None.

(** [memcpy(b + off, l, length l)]. *)
Definition splice (b : list Z) (off : nat) (l : list Z) : list Z :=
  take off b ++ l ++ drop (off + length l) b.

Definition buf_write (b : list Z) (off : nat) (l : list Z) : option (list Z) :=
  if decide (off + length l <= length b) then Some (splice b off l) else None.

(** [memcmp] and array reads: the first [n] elements of an array. *)
Definition buf_prefix {A} (b : list A) (n : nat) : option (list A) :=
  if decide (n <= length b) then Some (take n b) else None.

(** The C string that starts at the head of a list of bytes. *)
Fixpoint cstr_of (b : list Z) : option (list Z) :=
  match b with
  | [] => None
  | c :: b' => if decide (c = NUL) then Some [] else s ← cstr_of b'; Some (c :: s)
  end.

Definition cstr (b : list Z) (off : nat) : option (list Z) := cstr_of (drop off b).

(** ** Tactics and hints *)
Create HintDb iscsi.
Create Rewrite HintDb len.

(** Take apart an equation [m = Some x] of the option monad. *)
Ltac inv_opt :=
  repeat match goal with
  | H : mbind _ ?m = Some _ |- _ =>
      let E := fresh "E" in destruct m eqn:E; cbn [mbind option_bind] in H; [|discriminate H]
  | H : Some _ = Some _ |- _ => injection H; clear H; intros; subst
  | H : None = Some _ |- _ => discriminate H
  | H : (_, _) = (_, _) |- _ => injection H; clear H; intros; subst
  | p : (_ * _)%type |- _ => destruct p
  end.

(** Run through the branches of an equation [m = Some x]. *)
Ltac branch_opt := repeat (progress inv_opt || (case_match; try discriminate)).

(** Run the first step of a computation whose result is known. *)
Lemma bind_ret {A B} (x : A) (f : A -> option B) : mbind f (Some x) = f x.
Proof. done. Qed.

(** ** Lemmas on machine integers *)
Lemma wrap_range w z : (0 <= w)%Z -> (0 <= wrap w z < 2 ^ w)%Z.
Proof. intros. apply Z.mod_pos_bound. lia. Qed.

Lemma wrap_small w z : (0 <= z < 2 ^ w)%Z -> wrap w z = z.
Proof. apply Z.mod_small. Qed.

Lemma swrap_small w z : (0 < w)%Z -> (- 2 ^ (w - 1) <= z < 2 ^ (w - 1))%Z -> swrap w z = z.
Proof.
  intros Hw Hz. unfold swrap.
  assert (2 ^ w = 2 * 2 ^ (w - 1))%Z as E.
  { rewrite <- Z.pow_succ_r by lia. f_equal. lia. }
  rewrite Z.mod_small; lia.
Qed.

Lemma i32_small z : (- 2 ^ 31 <= z < 2 ^ 31)%Z -> i32 z = z.
Proof. intros Hz. apply swrap_small; [lia |]. exact Hz. Qed.

Lemma swrap_range w z : (0 < w)%Z -> (- 2 ^ (w - 1) <= swrap w z < 2 ^ (w - 1))%Z.
Proof.
  intros Hw. unfold swrap.
  assert (2 ^ w = 2 * 2 ^ (w - 1))%Z as E.
  { rewrite <- Z.pow_succ_r by lia. f_equal. lia. }
  pose proof (Z.mod_pos_bound (z + 2 ^ (w - 1)) (2 ^ w) ltac:(lia)). lia.
Qed.

Lemma lor_shiftl_add a b k :
  (0 <= k)%Z -> (0 <= b < 2 ^ k)%Z -> Z.lor (Z.shiftl a k) b = (a * 2 ^ k + b)%Z.
Proof.
  intros Hk Hb. rewrite <- Z.add_nocarry_lor; [by rewrite Z.shiftl_mul_pow2 by lia|].
  apply Z.bits_inj'. intros i Hi. rewrite Z.land_spec, Z.bits_0.
  destruct (Z.lt_ge_cases i k) as [Hlt|Hge].
  - by rewrite Z.shiftl_spec_low.
  - destruct (Z.eq_dec b 0%Z) as [->|Hz]; [by rewrite Z.bits_0, andb_false_r|].
    rewrite (Z.bits_above_log2 b i), andb_false_r; [done|lia|].
    apply Z.log2_lt_pow2; [lia|]. pose proof (Z.pow_le_mono_r 2 k i). lia.
Qed.

(** A decidable fact about every number below a bound, by evaluation. *)
Lemma Z_range_check (P : Z -> Prop) `{forall z, Decision (P z)} n :
  bool_decide (Forall P (seqZ 0 n)) = true -> forall z, (0 <= z < n)%Z -> P z.
Proof. intros Hb%bool_decide_eq_true z Hz. rewrite Forall_seqZ in Hb. apply Hb. lia. Qed.

(** ** Lemmas on strings and buffers *)
Lemma no_nul_app s t : no_nul (s ++ t) <-> no_nul s /\ no_nul t.
Proof. apply Forall_app. Qed.

Lemma no_nul_cons c s : no_nul (c :: s) <-> c <> NUL /\ no_nul s.
Proof. apply Forall_cons_iff. Qed.

Lemma no_nul_take n s : no_nul s -> no_nul (take n s).
Proof. apply Forall_take. Qed.

Lemma no_nul_drop n s : no_nul s -> no_nul (drop n s).
Proof. apply Forall_drop. Qed.

Lemma char_range a : is_byte (char a).
Proof.
  unfold is_byte, char. pose proof (Ascii.N_ascii_bounded a). lia.
Qed.

Lemma buf_set_Some b i v : i < length b -> buf_set b i v = Some (<[i := v]> b).
Proof. intros. unfold buf_set. by rewrite decide_True. Qed.

Lemma buf_set_inv b i v b' :
  buf_set b i v = Some b' -> i < length b /\ b' = <[i := v]> b.
Proof. unfold buf_set. case_decide; naive_solver. Qed.

Lemma length_splice b off l : off + length l <= length b -> length (splice b off l) = length b.
Proof. intros. unfold splice. rewrite !length_app, length_take, length_drop. lia. Qed.

Lemma buf_write_Some b off l :
  off + length l <= length b -> buf_write b off l = Some (splice b off l).
Proof. intros. unfold buf_write. by rewrite decide_True. Qed.

Lemma buf_write_inv b off l b' :
  buf_write b off l = Some b' -> off + length l <= length b /\ b' = splice b off l.
Proof. unfold buf_write. case_decide; naive_solver. Qed.

Lemma buf_write_length b off l b' : buf_write b off l = Some b' -> length b' = length b.
Proof. intros [? ->]%buf_write_inv. by apply length_splice. Qed.

Lemma buf_prefix_inv {A} (b : list A) n p :
  buf_prefix b n = Some p -> n <= length b /\ p = take n b.
Proof. unfold buf_prefix. case_decide; naive_solver. Qed.

Lemma buf_prefix_Some {A} (b : list A) n : n <= length b -> buf_prefix b n = Some (take n b).
Proof. intros. unfold buf_prefix. by rewrite decide_True. Qed.

Lemma splice_nil b off : splice b off [] = b.
Proof. unfold splice. simpl. rewrite Nat.add_0_r. apply take_drop. Qed.

Lemma splice_cons b off x l :
  off < length b -> splice (<[off := x]> b) (S off) l = splice b off (x :: l).
Proof.
  intros Hlt. unfold splice. simpl.
  rewrite (take_S_r _ _ x) by (by apply list_lookup_insert_eq).
  rewrite take_insert_ge by lia.
  rewrite drop_insert_lt by lia.
  rewrite <- app_assoc. simpl. do 4 f_equal. lia.
Qed.

Lemma splice_one b off x : off < length b -> <[off := x]> b = splice b off [x].
Proof. intros. by rewrite <- splice_cons, splice_nil. Qed.

Lemma take_splice b off l n :
  n <= off -> off <= length b -> take n (splice b off l) = take n b.
Proof.
  intros. unfold splice. rewrite take_app_le by (rewrite length_take; lia).
  rewrite take_take. f_equal. lia.
Qed.

Lemma drop_splice b off l : off <= length b -> drop off (splice b off l) = l ++ drop (off + length l) b.
Proof.
  intros. unfold splice. rewrite drop_app_ge by (rewrite length_take; lia).
  rewrite length_take, Nat.min_l by lia. by rewrite Nat.sub_diag.
Qed.

Lemma take_splice_0 b l : take (length l) (splice b 0 l) = l.
Proof. unfold splice. rewrite take_0, app_nil_l. apply take_app_length. Qed.

Lemma splice_app b off l k :
  off + length l + length k <= length b ->
  splice (splice b off l) (off + length l) k = splice b off (l ++ k).
Proof.
  intros Hlen. unfold splice at 1.
  unfold splice.
  rewrite (take_app_ge (take off b)) by (rewrite length_take; lia).
  rewrite length_take, Nat.min_l by lia.
  replace (off + length l - off) with (length l) by lia.
  rewrite take_app_le by lia. rewrite firstn_all.
  rewrite drop_app_ge by (rewrite length_take; lia).
  rewrite length_take, Nat.min_l by lia.
  replace (off + length l + length k - off) with (length l + length k) by lia.
  rewrite drop_app_ge by lia. rewrite drop_drop, length_app, <- !app_assoc.
  do 4 f_equal. lia.
Qed.

Lemma cstr_of_app s rest : no_nul s -> cstr_of (s ++ NUL :: rest) = Some s.
Proof.
  induction s as [|c s IH]; intros Hs; [done|].
  apply no_nul_cons in Hs as [Hc Hs]. simpl. rewrite decide_False by done. by rewrite IH.
Qed.

Lemma cstr_of_inv b s :
  cstr_of b = Some s -> no_nul s /\ exists rest, b = s ++ NUL :: rest.
Proof.
  revert s. induction b as [|c b IH]; simpl; intros s H; [done|].
  case_decide as Hc.
  - simplify_eq. split; [constructor|]. by exists b.
  - destruct (cstr_of b) as [t|]; simplify_option_eq.
    destruct (IH t eq_refl) as [Ht [rest ->]]. split; [by apply no_nul_cons|].
    by exists rest.
Qed.

Lemma cstr_inv b off s :
  cstr b off = Some s ->
  no_nul s /\ off + length s < length b /\ exists rest, drop off b = s ++ NUL :: rest.
Proof.
  unfold cstr. intros [Hs [rest E]]%cstr_of_inv. split; [done|]. split; [|eauto].
  apply (f_equal length) in E. rewrite length_drop, length_app in E. simpl in E. lia.
Qed.

Lemma cstr_of_is_Some b : NUL ∈ b -> is_Some (cstr_of b).
Proof.
  induction b as [|c b IH]; simpl; [by intros ?%elem_of_nil|].
  intros H. case_decide; [eauto|]. apply elem_of_cons in H as [?|H]; [congruence|].
  destruct (IH H) as [s ->]. simpl. eauto.
Qed.

Lemma cstr_splice b off s :
  no_nul s -> off + length s < length b -> cstr (splice b off (s ++ [NUL])) off = Some s.
Proof.
  intros Hs Hl. unfold cstr. rewrite drop_splice by lia.
  rewrite <- app_assoc. by apply cstr_of_app.
Qed.

(** A string that ends before a changed region is unchanged. *)
Lemma cstr_splice_before b off l k s :
  cstr b k = Some s -> k + length s < off -> off <= length b ->
  cstr (splice b off l) k = Some s.
Proof.
  intros (Hs & Hlen & rest & E)%cstr_inv Hk Hoff. unfold cstr.
  assert (drop k (splice b off l) = take (off - k) (drop k b) ++ drop off (splice b off l)) as ->.
  { rewrite <- (take_drop off (splice b off l)) at 1.
    rewrite take_splice by lia.
    rewrite drop_app_le by (rewrite length_take; lia).
    f_equal. rewrite take_drop_commute. do 2 f_equal. lia. }
  rewrite E. rewrite take_app_ge by lia.
  replace (off - k - length s) with (S (off - k - length s - 1)) by lia.
  cbn [take]. rewrite <- app_assoc. by apply cstr_of_app.
Qed.

#[export] Hint Rewrite @length_app @length_take @length_drop @length_replicate @length_insert
  @length_nil @length_cons : len.
#[export] Hint Resolve no_nul_take no_nul_drop buf_write_length : iscsi.
