(* ===== verification/CString.v ===== *)
(** * C strings and numbers in text

    The string functions the initiator uses: [strlcpy] and [strlcat] as
    utils/sysdeps/sysdeps.c implements them, and the C library's [strtoul],
    [atoi], [strchr], [strrchr] and decimal printing.  The theorems give the
    bounds of the copying functions and the agreement of printing with parsing. *)
From S2P Require Import Prelude.
From Stdlib Require Import Ascii Lia ZArith.
From stdpp Require Import base tactics numbers list strings option.

(** ** utils/sysdeps/sysdeps.c *)

(** The loop [while ((ch = *p++)) { if (bytes+1 < size) *q++ = ch; bytes++; }],
    shared by both functions. *)
Fixpoint copy_loop (dst : list Z) (q bytes : nat) (src : list Z) (size : nat)
    : option (list Z * nat * nat) :=
  match src with
  | [] => Some (dst, q, bytes)
  | ch :: src' =>
      if decide (bytes + 1 < size) then
        dst' ← buf_set dst q ch;
        copy_loop dst' (S q) (S bytes) src' size
      else copy_loop dst q (S bytes) src' size
  end.

(** [strlcpy(dst + off, src, size)]: the new buffer and the returned length. *)
Definition strlcpy (dst : list Z) (off : nat) (src : list Z) (size : nat)
    : option (list Z * nat) :=
  '(dst1, q, bytes) ← copy_loop dst off 0 src size;
  if decide (size = 0) then Some (dst1, bytes)
  else dst2 ← buf_set dst1 q NUL; Some (dst2, bytes).

(** The first loop of [strlcat]: [while (bytes < size && *q)].  [todo] is
    [size - bytes]. *)
Fixpoint strlcat_skip (dst : list Z) (q : nat) (todo : nat) : option nat :=
  match todo with
  | O => Some q
  | S todo' =>
      c ← dst !! q;
      if decide (c = NUL) then Some q else strlcat_skip dst (S q) todo'
  end.

Definition strlcat (dst : list Z) (src : list Z) (size : nat) : option (list Z * nat) :=
  bytes ← strlcat_skip dst 0 size;
  if decide (bytes = size) then Some (dst, bytes + length src)
  else
    '(dst1, q, bytes1) ← copy_loop dst bytes bytes src size;
    dst2 ← buf_set dst1 q NUL;
    Some (dst2, bytes1).

(** ** The C library *)
Definition isspace (c : Z) : bool := Z.eqb c 32 || (Z.leb 9 c && Z.leb c 13).

(** The value of a digit in a base up to 36. *)
Definition digit_val (base c : Z) : option Z :=
  let v := if Z.leb 48 c && Z.leb c 57 then (c - 48)%Z
           else if Z.leb 97 c && Z.leb c 122 then (c - 87)%Z
           else if Z.leb 65 c && Z.leb c 90 then (c - 55)%Z
           else 99%Z in
  if Z.ltb v base then Some v else None.

Fixpoint skip_space (s : list Z) : list Z :=
  match s with
  | c :: s' => if isspace c then skip_space s' else s
  | [] => []
  end.

(** The longest prefix of digits: its value after [acc], and what follows it. *)
Fixpoint scan_digits (base : Z) (s : list Z) (acc : Z) : Z * list Z :=
  match s with
  | c :: s' =>
      match digit_val base c with
      | Some d => scan_digits base s' (acc * base + d)
      | None => (acc, s)
      end
  | [] => (acc, [])
  end.

Definition ULONG_MAX : Z := 2 ^ 64 - 1.
Definition LONG_MAX : Z := 2 ^ 63 - 1.

Definition split_sign (s : list Z) : bool * list Z :=
  match s with
  | c :: s' => if Z.eqb c (char "-") then (true, s')
               else if Z.eqb c (char "+") then (false, s') else (false, s)
  | [] => (false, [])
  end.

(** The base of a number and its text without the [0x] prefix. *)
Definition split_base (base : Z) (s : list Z) : Z * list Z :=
  match s with
  | z :: x :: d :: s' =>
      if (Z.eqb base 16 || Z.eqb base 0) && Z.eqb z (char "0")
         && (Z.eqb x (char "x") || Z.eqb x (char "X"))
         && bool_decide (is_Some (digit_val 16 d))
      then (16%Z, d :: s')
      else if Z.eqb base 0 then (if Z.eqb z (char "0") then (8%Z, s) else (10%Z, s))
      else (base, s)
  | z :: _ => if Z.eqb base 0 then (if Z.eqb z (char "0") then (8%Z, s) else (10%Z, s))
              else (base, s)
  | [] => (if Z.eqb base 0 then 10%Z else base, s)
  end.

(** Sign, digits and end of a number; [None] when there is no digit. *)
Definition scan_number (s : list Z) (base : Z) : option (bool * Z * list Z) :=
  let '(neg, t) := split_sign (skip_space s) in
  let '(b, u) := split_base base t in
  match u with
  | c :: _ => if bool_decide (is_Some (digit_val b c))
              then let '(v, rest) := scan_digits b u 0 in Some (neg, v, rest)
              else None
  | [] => None
  end.

(** [strtoul(s, &end, base)]: the value and the text at [end]. *)
Definition strtoul (s : list Z) (base : Z) : Z * list Z :=
  match scan_number s base with
  | Some (neg, v, rest) =>
      if Z.ltb ULONG_MAX v then (ULONG_MAX, rest)
      else ((if neg : bool then u64 (- v) else v), rest)
  | None => (0%Z, s)
  end.

(** [atoi(s)]: [strtol] in base 10, cut down to an [int]. *)
Definition atoi (s : list Z) : Z :=
  match scan_number s 10 with
  | Some (neg, v, _) =>
      i32 (if neg : bool then Z.max (- LONG_MAX - 1) (- v) else Z.min LONG_MAX v)
  | None => 0%Z
  end.

(** [printf("%lu", n)] for [n >= 0]. *)
Fixpoint dec_digits (fuel : nat) (n : Z) (acc : list Z) : list Z :=
  match fuel with
  | O => acc
  | S fuel' =>
      let acc' := (48 + n mod 10)%Z :: acc in
      if Z.ltb n 10 then acc' else dec_digits fuel' (n / 10) acc'
  end.

Definition fmt_lu (n : Z) : list Z := dec_digits (S (Z.to_nat (Z.log2 n))) n [].

(** [printf("%d", z)]. *)
Definition fmt_d (z : Z) : list Z :=
  if Z.ltb z 0 then char "-" :: fmt_lu (- z) else fmt_lu z.

(** [strchr]: the offset of the first [c]; the terminating NUL counts. *)
Fixpoint strchr (s : list Z) (c : Z) : option nat :=
  match s with
  | [] => if decide (c = NUL) then Some 0 else None
  | x :: s' => if decide (x = c) then Some 0 else S <$> strchr s' c
  end.

(** [strrchr]: the offset of the last [c]. *)
Fixpoint strrchr (s : list Z) (c : Z) : option nat :=
  match s with
  | [] => if decide (c = NUL) then Some 0 else None
  | x :: s' => match strrchr s' c with
               | Some i => Some (S i)
               | None => if decide (x = c) then Some 0 else None
               end
  end.

(** ** Copying stays in bounds and truncates *)
Lemma copy_loop_spec src : forall dst q bytes size,
  q + (size - 1 - bytes) <= length dst ->
  copy_loop dst q bytes src size =
    Some (splice dst q (take (size - 1 - bytes) src),
          q + length (take (size - 1 - bytes) src), bytes + length src).
Proof.
  induction src as [|ch src IH]; intros dst q bytes size Hlen; simpl.
  { rewrite take_nil, splice_nil. simpl. by rewrite !Nat.add_0_r. }
  case_decide as Hb.
  - rewrite buf_set_Some by lia. cbn [mbind option_bind].
    rewrite IH by (rewrite length_insert; lia).
    replace (size - 1 - bytes) with (S (size - 1 - S bytes)) by lia. cbn [take].
    rewrite splice_cons by lia. cbn [length]. do 2 f_equal; [f_equal|]; lia.
  - rewrite IH by lia.
    replace (size - 1 - bytes) with 0 by lia. replace (size - 1 - S bytes) with 0 by lia.
    cbn [take]. do 2 f_equal. lia.
Qed.

Lemma strlcpy_spec dst off src size :
  0 < size -> off + size <= length dst ->
  strlcpy dst off src size =
    Some (splice dst off (take (size - 1) src ++ [NUL]), length src).
Proof.
  intros Hs Hl. unfold strlcpy. rewrite copy_loop_spec by lia.
  rewrite Nat.sub_0_r. cbn [mbind option_bind]. rewrite decide_False by lia.
  assert (length (take (size - 1) src) <= size - 1) by (rewrite length_take; lia).
  rewrite buf_set_Some by (rewrite length_splice; lia). cbn [mbind option_bind].
  rewrite splice_one by (rewrite length_splice; lia).
  rewrite splice_app by (simpl; lia). done.
Qed.

(** The copy is a NUL-terminated prefix of the source. *)
Lemma strlcpy_cstr dst off src size :
  no_nul src -> 0 < size -> off + size <= length dst ->
  exists dst', strlcpy dst off src size = Some (dst', length src) /\
    length dst' = length dst /\ cstr dst' off = Some (take (size - 1) src).
Proof.
  intros Hsrc Hs Hl. eexists. split; [by apply strlcpy_spec|].
  assert (length (take (size - 1) src) <= size - 1) by (rewrite length_take; lia).
  split.
  - apply length_splice. rewrite length_app. simpl. lia.
  - apply cstr_splice; [by apply no_nul_take|lia].
Qed.

Lemma strlcat_skip_spec dst : forall todo q s,
  cstr_of (drop q dst) = Some s -> length s < todo ->
  strlcat_skip dst q todo = Some (q + length s).
Proof.
  induction todo as [|todo IH]; intros q s Hs Hl; [lia|]. simpl.
  destruct (drop q dst) as [|c rest] eqn:E; [done|].
  assert (dst !! q = Some c) as ->.
  { rewrite <- (Nat.add_0_r q), <- lookup_drop, E. done. }
  simpl in Hs |- *. case_decide as Hc.
  - simplify_eq. simpl. f_equal. lia.
  - destruct (cstr_of rest) as [t|] eqn:Et; simplify_option_eq.
    rewrite (IH (S q) t); [simpl; f_equal; lia| |simpl in Hl; lia].
    rewrite <- Et. f_equal. replace (S q) with (q + 1) by lia.
    rewrite <- drop_drop, E. done.
Qed.

Lemma strlcat_spec dst s src size :
  cstr dst 0 = Some s -> length s < size -> size <= length dst ->
  strlcat dst src size =
    Some (splice dst (length s) (take (size - 1 - length s) src ++ [NUL]),
          length s + length src).
Proof.
  intros Hs Hl Hd. unfold strlcat.
  rewrite (strlcat_skip_spec _ _ 0 s) by done. cbn [mbind option_bind].
  rewrite Nat.add_0_l, decide_False by lia.
  rewrite copy_loop_spec by lia. cbn [mbind option_bind].
  assert (length (take (size - 1 - length s) src) <= size - 1 - length s)
    by (rewrite length_take; lia).
  rewrite buf_set_Some by (rewrite length_splice; lia). cbn [mbind option_bind].
  rewrite splice_one by (rewrite length_splice; lia).
  rewrite splice_app by (simpl; lia). done.
Qed.

(** [strlcat] appends: the result is the concatenation cut at [size - 1]. *)
Lemma strlcat_cstr dst s src size :
  cstr dst 0 = Some s -> no_nul src -> length s < size -> size <= length dst ->
  exists dst', strlcat dst src size = Some (dst', length s + length src) /\
    length dst' = length dst /\ cstr dst' 0 = Some (take (size - 1) (s ++ src)).
Proof.
  intros Hs Hsrc Hl Hd. eexists. split; [by apply strlcat_spec|].
  pose proof (cstr_inv _ _ _ Hs) as (Hns & _ & rest & E).
  rewrite drop_0 in E.
  assert (length (take (size - 1 - length s) src) <= size - 1 - length s)
    by (rewrite length_take; lia).
  split; [apply length_splice; rewrite length_app; simpl; lia|].
  unfold cstr. rewrite drop_0. unfold splice. rewrite E at 1.
  rewrite take_app_length. rewrite <- app_assoc, app_assoc.
  rewrite (take_app_ge s) by lia. apply cstr_of_app.
  apply no_nul_app. split; [done|by apply no_nul_take].
Qed.

(** ** Printing and parsing numbers agree *)
Lemma digit_val_dec d : (0 <= d < 10)%Z -> digit_val 10 (48 + d) = Some d.
Proof.
  intros Hd. unfold digit_val.
  replace (Z.leb 48 (48 + d)) with true by lia.
  replace (Z.leb (48 + d) 57) with true by lia. cbn [andb].
  replace (48 + d - 48)%Z with d by lia. by replace (Z.ltb d 10) with true by lia.
Qed.

Lemma scan_dec_digits : forall fuel n acc rest,
  (0 <= n < 2 ^ Z.of_nat fuel)%Z ->
  exists k, (0 < k)%Z /\ forall a,
    scan_digits 10 (dec_digits fuel n acc ++ rest) a =
    scan_digits 10 (acc ++ rest) (a * k + n).
Proof.
  induction fuel as [|fuel IH]; intros n acc rest Hn.
  { exists 1%Z. split; [lia|]. intros a. simpl. f_equal. simpl in Hn. lia. }
  cbn [dec_digits].
  pose proof (Z.mod_pos_bound n 10 ltac:(lia)) as Hm.
  destruct (Z.ltb_spec n 10) as [Hlt|Hge].
  - exists 10%Z. split; [lia|]. intros a. cbn [app scan_digits].
    rewrite digit_val_dec by lia. f_equal. rewrite Z.mod_small; lia.
  - destruct (IH (n / 10)%Z ((48 + n mod 10)%Z :: acc) rest) as [k [Hk Hscan]].
    { rewrite Nat2Z.inj_succ, Z.pow_succ_r in Hn by lia.
      split; [apply Z.div_pos; lia|]. apply Z.div_lt_upper_bound; lia. }
    exists (k * 10)%Z. split; [lia|]. intros a. rewrite Hscan. cbn [app scan_digits].
    rewrite digit_val_dec by lia. f_equal.
    pose proof (Z.div_mod n 10 ltac:(lia)). lia.
Qed.

Lemma fmt_lu_fuel n : (0 <= n)%Z -> (n < 2 ^ Z.of_nat (S (Z.to_nat (Z.log2 n))))%Z.
Proof.
  intros Hn. pose proof (Z.log2_nonneg n) as Hl.
  rewrite Nat2Z.inj_succ, Z2Nat.id by lia.
  destruct (Z.eq_dec n 0%Z) as [->|Hz]; [done|]. apply Z.log2_spec. lia.
Qed.

Lemma dec_digits_nonempty fuel n acc : dec_digits (S fuel) n acc <> [].
Proof.
  revert n acc. induction fuel as [|fuel IH]; intros n acc; cbn [dec_digits]; case_match; try done.
  apply IH.
Qed.

Lemma dec_digits_Forall fuel : forall n acc,
  Forall (fun c => 48 <= c <= 57)%Z acc -> Forall (fun c => 48 <= c <= 57)%Z (dec_digits fuel n acc).
Proof.
  induction fuel as [|fuel IH]; intros n acc Ha; cbn [dec_digits]; [done|].
  assert (Forall (fun c => 48 <= c <= 57)%Z ((48 + n mod 10)%Z :: acc)).
  { apply Forall_cons_iff. split; [|done]. pose proof (Z.mod_pos_bound n 10 ltac:(lia)). lia. }
  case_match; [done|]. by apply IH.
Qed.

(** What is printed is a nonempty string of decimal digits. *)
Lemma fmt_lu_digits n :
  fmt_lu n <> [] /\ Forall (fun c => 48 <= c <= 57)%Z (fmt_lu n).
Proof.
  unfold fmt_lu. split; [apply dec_digits_nonempty|]. by apply dec_digits_Forall.
Qed.

Lemma fmt_lu_no_nul n : no_nul (fmt_lu n).
Proof.
  destruct (fmt_lu_digits n) as [_ H]. eapply Forall_impl; [|exact H].
  intros c Hc. unfold NUL. simpl in Hc. lia.
Qed.

(** A number that was printed is scanned up to its end. *)
Lemma scan_number_fmt_lu n rest :
  (0 <= n)%Z -> match rest with [] => True | c :: _ => digit_val 10 c = None end ->
  scan_number (fmt_lu n ++ rest) 10 = Some (false, n, rest).
Proof.
  intros Hn Hrest. destruct (fmt_lu_digits n) as [Hne Hall].
  destruct (scan_dec_digits (S (Z.to_nat (Z.log2 n))) n [] rest) as [k [Hk Hscan]].
  { split; [lia|]. apply fmt_lu_fuel. lia. }
  specialize (Hscan 0%Z). rewrite Z.mul_0_l, Z.add_0_l in Hscan.
  fold (fmt_lu n) in Hscan. rewrite app_nil_l in Hscan.
  unfold scan_number.
  destruct (fmt_lu n) as [|c s]; [done|]. apply Forall_cons_iff in Hall as [Hc _].
  cbn [app]. cbn [skip_space].
  assert (isspace c = false) as -> by (unfold isspace; lia).
  unfold split_sign. change (char "-") with 45%Z. change (char "+") with 43%Z.
  replace (Z.eqb c 45) with false by lia. replace (Z.eqb c 43) with false by lia.
  assert (split_base 10 (c :: s ++ rest) = (10%Z, c :: s ++ rest)) as ->.
  { unfold split_base. by destruct (s ++ rest) as [|? [|? ?]]. }
  assert (is_Some (digit_val 10 c)) as Hd.
  { exists (c - 48)%Z. rewrite <- digit_val_dec by lia. f_equal. lia. }
  rewrite bool_decide_true by done.
  cbn [app] in Hscan. rewrite Hscan.
  assert (scan_digits 10 rest n = (n, rest)) as ->; [|done].
  destruct rest as [|r rest']; [done|]. simpl. by rewrite Hrest.
Qed.

(** [strtoul] reads back what [%lu] printed, and stops right after it. *)
Lemma strtoul_fmt_lu n rest :
  (0 <= n <= ULONG_MAX)%Z ->
  match rest with [] => True | c :: _ => digit_val 10 c = None end ->
  strtoul (fmt_lu n ++ rest) 10 = (n, rest).
Proof.
  intros Hn Hrest. unfold strtoul. rewrite scan_number_fmt_lu by (done || lia).
  by replace (Z.ltb ULONG_MAX n) with false by lia.
Qed.

(** [atoi] reads back what [%d] printed. *)
Lemma atoi_fmt_lu n : (0 <= n < 2 ^ 31)%Z -> atoi (fmt_lu n) = n.
Proof.
  intros Hn. unfold atoi. rewrite <- (app_nil_r (fmt_lu n)), scan_number_fmt_lu by (done || lia).
  rewrite Z.min_r by (unfold LONG_MAX; lia). apply i32_small. lia.
Qed.

Lemma scan_fmt_lu n : (0 <= n)%Z -> scan_number (fmt_lu n) 10 = Some (false, n, []).
Proof. intros Hn. rewrite <- (app_nil_r (fmt_lu n)) at 1. by rewrite scan_number_fmt_lu. Qed.

(** ** Finding characters *)

(** A string ends before the first NUL behind it. *)
Lemma cstr_before data pdu_end off :
  data !! pdu_end = Some NUL -> off <= pdu_end ->
  exists s, cstr data off = Some s /\ no_nul s /\ off + length s <= pdu_end.
Proof.
  intros Hnul Hoff.
  assert (drop off data !! (pdu_end - off) = Some NUL) as Hd.
  { rewrite lookup_drop. by replace (off + (pdu_end - off)) with pdu_end by lia. }
  destruct (cstr_of_is_Some (drop off data)) as [s Es]; [by eapply list_elem_of_lookup_2|].
  exists s. split; [done|]. apply cstr_of_inv in Es as [Hn [rest E]]. split; [done|].
  destruct (decide (off + length s <= pdu_end)); [done|].
  rewrite E, lookup_app_l in Hd by lia. apply list_elem_of_lookup_2 in Hd.
  unfold no_nul in Hn. rewrite Forall_forall in Hn. destruct (Hn NUL); [by apply list_elem_of_In|done].
Qed.

Lemma strrchr_bound s c i : c <> NUL -> strrchr s c = Some i -> i < length s.
Proof.
  revert i. induction s as [|x s IH]; intros i Hc H; cbn in H; [by rewrite decide_False in H|].
  destruct (strrchr s c) as [j|].
  - injection H as <-. specialize (IH j Hc eq_refl). cbn. lia.
  - case_decide; [|done]. injection H as <-. cbn. lia.
Qed.

Lemma strrchr_none c b : c <> NUL -> c ∉ b -> strrchr b c = None.
Proof.
  intros Hc. induction b as [|y b IH]; intros Hb; cbn; [by rewrite decide_False|].
  apply not_elem_of_cons in Hb as [Hy Hb]. rewrite IH by done. by rewrite decide_False.
Qed.

Lemma strrchr_last a c b : c <> NUL -> c ∉ b -> strrchr (a ++ c :: b) c = Some (length a).
Proof.
  intros Hc Hb. induction a as [|x a IH]; cbn [strrchr app].
  - by rewrite strrchr_none, decide_True.
  - by rewrite IH.
Qed.

#[export] Hint Resolve fmt_lu_no_nul : iscsi.
