(* ===== verification/AuthText.v ===== *)
(** * Text encodings of the authentication library (usr/auth.c)

    CHAP values travel as text: numbers in decimal or hexadecimal, binary
    values as [0x] hexadecimal or [0b] base 64.  This file models the
    conversions and proves that decoding stays inside the receiving buffer,
    that it inverts the encoder of this side, and that it decodes base 64. *)
From S2P Require Import Prelude CString.
From Stdlib Require Import Ascii Lia ZArith.
From stdpp Require Import base tactics numbers list strings option.

Definition AUTH_STR_MAX_LEN : nat := 256.
Definition AUTH_STR_BLOCK_MAX_LEN : nat := 1024.
Definition AUTH_LARGE_BINARY_MAX_LEN : nat := 1024.

Definition acl_hexstring : list Z := str "0123456789abcdefABCDEF".
Definition acl_base64_string : list Z :=
  str "ABCDEFGHIJKLMNOPQRSTUVWXYZabcdefghijklmnopqrstuvwxyz0123456789+/".

(** ** Operations *)

(** The number, or [None] for the error result 1. *)
Definition acl_text_to_number (text : list Z) : option Z :=
  let '(number, rest) :=
    match text with
    | c0 :: c1 :: text' =>
        if Z.eqb c0 (char "0") && (Z.eqb c1 (char "x") || Z.eqb c1 (char "X"))
        then strtoul text' 16 else strtoul text 10
    | _ => strtoul text 10
    end in
  match text, rest with
  | _ :: _, [] => Some number
  | _, _ => None
  end.

(** The loop over [len < max_len] that looks for the terminating NUL;
    [todo] is [max_len - len]. *)
Fixpoint chk_string_loop (s : list Z) (len todo : nat) {struct todo} : option nat :=
  match todo with
  | O => None
  | S todo' => match s with
               | [] => Some len
               | _ :: s' => chk_string_loop s' (S len) todo'
               end
  end.

(** [Some len] is the result 0 with [*out_len = len]; [s] is [None] for NULL. *)
Definition acl_chk_string (s : option (list Z)) (max_len : nat) : option nat :=
  match s with
  | None => None
  | Some s => chk_string_loop s 0 max_len
  end.

Definition acl_str_index (s : list Z) (c : Z) : Z :=
  match strchr s c with
  | Some i => Z.of_nat i
  | None => -1
  end.

(** The loop of [acl_data_to_text]: status and buffer. *)
Fixpoint data_to_text_loop (data buf : list Z) (text text_length : nat) : option (Z * list Z) :=
  match data with
  | [] => b ← buf_set buf text NUL; Some (0%Z, b)
  | n :: data' =>
      if decide (text_length < 3) then b ← buf_set buf text NUL; Some (1%Z, b)
      else
        h ← acl_hexstring !! Z.to_nat (Z.land (Z.shiftr n 4) 15);
        l ← acl_hexstring !! Z.to_nat (Z.land n 15);
        b1 ← buf_set buf text h;
        b2 ← buf_set b1 (S text) l;
        data_to_text_loop data' b2 (S (S text)) (text_length - 2)
  end.

(** [acl_data_to_text(data, length data, buf + text, text_length)]. *)
Definition acl_data_to_text (data buf : list Z) (text text_length : nat) : option (Z * list Z) :=
  if decide (text_length = 0) then Some (1%Z, buf)
  else if decide (data = []) then b ← buf_set buf text NUL; Some (1%Z, b)
  else if decide (text_length < 3) then b ← buf_set buf text NUL; Some (1%Z, b)
  else
    b1 ← buf_set buf text (char "0");
    b2 ← buf_set b1 (S text) (char "x");
    data_to_text_loop data b2 (S (S text)) (text_length - 2).

(** The value of a hexadecimal digit: [i = acl_str_index(acl_hexstring, c)],
    [None] when [i < 0]. *)
Definition hex_nibble (c : Z) : option Z :=
  let i := acl_str_index acl_hexstring c in
  if Z.ltb i 0 then None else Some (if Z.ltb 15 i then i - 6 else i)%Z.

(** The loop of [acl_hex_to_data]: status, buffer and [data_length]. *)
Fixpoint hex_to_data_loop (text data : list Z) (d data_length : nat)
    : option (Z * list Z * nat) :=
  match text with
  | [] => Some (0%Z, data, data_length)
  | [_] => Some (1%Z, data, data_length)
  | c1 :: c2 :: text' =>
      match hex_nibble c1, hex_nibble c2 with
      | Some n1, Some n2 =>
          if decide (data_length < 1) then Some (1%Z, data, data_length)
          else
            data' ← buf_set data d (u8 (Z.lor (Z.shiftl n1 4) n2));
            hex_to_data_loop text' data' (S d) (data_length - 1)
      | _, _ => Some (1%Z, data, data_length)
      end
  end.

(** What both decoders do at their end: [if (data_length >= *data_lenp)
    return 1; *data_lenp = *data_lenp - data_length; return 0]. *)
Definition decode_end (r : Z * list Z * nat) (data_len : nat) : Z * list Z * nat :=
  let '(status, data, data_length) := r in
  if decide (status <> 0%Z) then (status, data, data_len)
  else if decide (data_len <= data_length) then (1%Z, data, data_len)
  else (0%Z, data, data_len - data_length).

(** Status, buffer and [*data_lenp]. *)
Definition acl_hex_to_data (text : list Z) (text_length : nat) (data : list Z) (data_len : nat)
    : option (Z * list Z * nat) :=
  if decide (Nat.odd text_length) then
    match text with
    | [] => None
    | c :: text' =>
        match hex_nibble c with
        | None => Some (1%Z, data, data_len)
        | Some n2 =>
            if decide (data_len < 1) then Some (1%Z, data, data_len)
            else
              data' ← buf_set data 0 n2;
              r ← hex_to_data_loop text' data' 1 (data_len - 1);
              Some (decode_end r data_len)
        end
    end
  else
    r ← hex_to_data_loop text data 0 data_len;
    Some (decode_end r data_len).

(** The first loop of [acl_base64_to_data]; [n] and [count] as in the code,
    [d] is the offset of [data].  The result is [inr] of the state at the end
    of the loop or [inl] of the buffer when the loop returned 1. *)
Fixpoint base64_loop (text data : list Z) (d data_length : nat) (n : Z) (count : nat)
    : option (list Z + (list Z * list Z * nat * nat * Z * nat)) :=
  match text with
  | [] => Some (inr (text, data, d, data_length, n, count))
  | c :: text' =>
      if decide (c = char "=") then Some (inr (text, data, d, data_length, n, count))
      else
        let i := acl_str_index acl_base64_string c in
        if Z.ltb i 0 then Some (inl data)
        else
          let n' := Z.lor (Z.shiftl n 6) i in
          if decide (4 <= S count) then
            if decide (data_length < 3) then Some (inl data)
            else
              d1 ← buf_set data d (u8 (Z.shiftr n' 16));
              d2 ← buf_set d1 (S d) (u8 (Z.shiftr n' 8));
              d3 ← buf_set d2 (S (S d)) (u8 n');
              base64_loop text' d3 (S (S (S d))) (data_length - 3) 0 0
          else base64_loop text' data d data_length n' (S count)
  end.

(** The bytes that remain after the loop, by [count]: [None] is the error 1. *)
Definition base64_tail (n : Z) (count : nat) : option (list Z) :=
  match count with
  | 0 => Some []
  | 2 => Some [u8 (Z.shiftr n 4)]
  | 3 => Some [u8 (Z.shiftr (Z.shiftr n 2) 8); u8 (Z.shiftr n 2)]
  | _ => None
  end.

Definition acl_base64_to_data (text data : list Z) (data_len : nat)
    : option (Z * list Z * nat) :=
  r ← base64_loop text data 0 data_len 0 0;
  match r with
  | inl data1 => Some (1%Z, data1, data_len)
  | inr (rest, data1, d, data_length, n, count) =>
      if decide (Forall (fun c => c = char "=") rest) then
        match base64_tail n count with
        | None => Some (1%Z, data1, data_len)
        | Some tail =>
            if decide (data_length < length tail) then Some (1%Z, data1, data_len)
            else
              data2 ← buf_write data1 d tail;
              Some (decode_end (0%Z, data2, data_length - length tail) data_len)
        end
      else Some (1%Z, data1, data_len)
  end.

(** Status, buffer and [*data_length]. *)
Definition acl_text_to_data (text : list Z) (data : list Z) (data_len : nat)
    : option (Z * list Z * nat) :=
  match acl_chk_string (Some text) (2 + 2 * AUTH_LARGE_BINARY_MAX_LEN + 1) with
  | None => Some (1%Z, data, data_len)
  | Some text_length =>
      match text with
      | c0 :: c1 :: text' =>
          if decide (c0 = char "0" /\ (c1 = char "x" \/ c1 = char "X")) then
            acl_hex_to_data text' (text_length - 2) data data_len
          else if decide (c0 = char "0" /\ (c1 = char "b" \/ c1 = char "B")) then
            acl_base64_to_data text' data data_len
          else Some (1%Z, data, data_len)
      | _ => Some (1%Z, data, data_len)
      end
  end.

(** ** Specifications of the encodings *)

(** The two digits of a byte, and the text of a binary value. *)
Definition hex2 (n : Z) : list Z :=
  default [] (h ← acl_hexstring !! Z.to_nat (Z.land (Z.shiftr n 4) 15);
              l ← acl_hexstring !! Z.to_nat (Z.land n 15);
              Some [h; l]).

Fixpoint hex_digits (data : list Z) : list Z :=
  match data with
  | [] => []
  | n :: data' => hex2 n ++ hex_digits data'
  end.

Definition hex_text (data : list Z) : list Z := str "0x" ++ hex_digits data.

(** Base 64 of RFC 4648, with padding. *)
Definition b64_char (i : Z) : Z := default NUL (acl_base64_string !! Z.to_nat i).

Fixpoint b64_encode (data : list Z) : list Z :=
  match data with
  | [] => []
  | [a] => [b64_char (a / 4); b64_char (a mod 4 * 16); char "="; char "="]
  | [a; b] => [b64_char (a / 4); b64_char (a mod 4 * 16 + b / 16);
               b64_char (b mod 16 * 4); char "="]
  | a :: b :: c :: data' =>
      [b64_char (a / 4); b64_char (a mod 4 * 16 + b / 16);
       b64_char (b mod 16 * 4 + c / 64); b64_char (c mod 64)] ++ b64_encode data'
  end%Z.

(** ** Lemmas on digits *)
Lemma hex_digit_ok n :
  is_byte n -> exists h l, hex2 n = [h; l] /\
    acl_hexstring !! Z.to_nat (Z.land (Z.shiftr n 4) 15) = Some h /\
    acl_hexstring !! Z.to_nat (Z.land n 15) = Some l /\
    hex_nibble h = Some (n / 16)%Z /\ hex_nibble l = Some (n mod 16)%Z /\
    h <> NUL /\ l <> NUL.
Proof.
  intros Hn.
  exists (default NUL (acl_hexstring !! Z.to_nat (Z.land (Z.shiftr n 4) 15))),
    (default NUL (acl_hexstring !! Z.to_nat (Z.land n 15))).
  revert n Hn. apply (Z_range_check _ 256). vm_compute. reflexivity.
Qed.

Lemma b64_char_ok i :
  (0 <= i < 64)%Z -> acl_str_index acl_base64_string (b64_char i) = i /\
    b64_char i <> char "=" /\ b64_char i <> NUL.
Proof. revert i. apply (Z_range_check _ 64). vm_compute. reflexivity. Qed.

Lemma hex_nibble_range c n : hex_nibble c = Some n -> (0 <= n < 17)%Z.
Proof.
  unfold hex_nibble, acl_str_index.
  assert (forall s i, strchr s c = Some i -> i <= length s) as Hlen.
  { induction s as [|x s IH]; simpl; intros i; case_decide; intros; simplify_eq; [lia..|].
    destruct (strchr s c); simplify_eq/=. specialize (IH _ eq_refl). lia. }
  destruct (strchr acl_hexstring c) as [i|] eqn:E; [|done].
  apply Hlen in E. change (length acl_hexstring) with 22 in E.
  case_match; intros; simplify_eq. case_match; lia.
Qed.

Lemma hex_digits_length data : Forall is_byte data -> length (hex_digits data) = 2 * length data.
Proof.
  induction 1 as [|n data Hn _ IH]; [done|]. simpl.
  destruct (hex_digit_ok n Hn) as (h & l & -> & _). simpl. lia.
Qed.

Lemma hex_digits_no_nul data : Forall is_byte data -> no_nul (hex_digits data).
Proof.
  induction 1 as [|n data Hn _ IH]; [constructor|]. simpl.
  destruct (hex_digit_ok n Hn) as (h & l & -> & _ & _ & _ & _ & Hh & Hl). simpl.
  apply no_nul_cons. split; [done|]. apply no_nul_cons. done.
Qed.

Lemma hex_text_no_nul data : Forall is_byte data -> no_nul (hex_text data).
Proof.
  intros. apply no_nul_app. split; [by apply (bool_decide_unpack _)|by apply hex_digits_no_nul].
Qed.

Lemma acl_chk_string_spec s max_len :
  acl_chk_string (Some s) max_len = if decide (length s < max_len) then Some (length s) else None.
Proof.
  unfold acl_chk_string.
  assert (forall todo s len, chk_string_loop s len todo =
    if decide (length s < todo) then Some (len + length s) else None) as H.
  { induction todo as [|todo IH]; intros t len; [case_decide; [lia|done]|].
    destruct t as [|c t]; cbn [chk_string_loop length].
    - case_decide; [f_equal; lia|lia].
    - rewrite IH. repeat case_decide; try lia; [f_equal; lia|done]. }
  rewrite H. done.
Qed.

(** ** Encoding *)
Lemma data_to_text_loop_spec data : forall buf text tl,
  Forall is_byte data -> 0 < tl -> text + tl <= length buf ->
  data_to_text_loop data buf text tl =
    Some (if decide (2 * length data < tl) then 0%Z else 1%Z,
          splice buf text (hex_digits (take ((tl - 1) / 2) data) ++ [NUL])).
Proof.
  induction data as [|n data IH]; intros buf text tl Hb Hpos Hbuf; cbn [data_to_text_loop].
  { rewrite buf_set_Some, take_nil by lia. cbn. by rewrite decide_True, splice_one by lia. }
  apply Forall_cons_iff in Hb as [Hn Hb]. cbn [length]. case_decide as Htl.
  { replace ((tl - 1) / 2) with 0 by (symmetry; apply Nat.div_small; lia).
    rewrite buf_set_Some, decide_False by lia. cbn. by rewrite splice_one by lia. }
  destruct (hex_digit_ok n Hn) as (h & l & E2 & -> & -> & _). cbn [mbind option_bind].
  rewrite buf_set_Some by lia. cbn [mbind option_bind].
  rewrite buf_set_Some by (rewrite length_insert; lia). cbn [mbind option_bind].
  rewrite IH by (rewrite ?length_insert; done || lia).
  replace ((tl - 1) / 2) with (S ((tl - 2 - 1) / 2)).
  2: { replace (tl - 1) with ((tl - 2 - 1) + 1 * 2) by lia. rewrite Nat.div_add by lia. lia. }
  cbn [take hex_digits]. rewrite E2. rewrite !splice_cons by (rewrite ?length_insert; lia).
  f_equal. f_equal. repeat case_decide; lia || done.
Qed.

Lemma acl_data_to_text_full data buf text tl :
  data <> [] -> Forall is_byte data -> 3 <= tl -> text + tl <= length buf ->
  acl_data_to_text data buf text tl =
    Some (if decide (2 + 2 * length data < tl) then 0%Z else 1%Z,
          splice buf text (hex_text (take ((tl - 3) / 2) data) ++ [NUL])).
Proof.
  intros Hne Hb Htl Hbuf. unfold acl_data_to_text. rewrite !decide_False by (done || lia).
  rewrite buf_set_Some by lia. cbn [mbind option_bind].
  rewrite buf_set_Some by (rewrite length_insert; lia). cbn [mbind option_bind].
  rewrite data_to_text_loop_spec by (rewrite ?length_insert; done || lia).
  rewrite !splice_cons by (rewrite ?length_insert; lia).
  replace (tl - 2 - 1) with (tl - 3) by lia. f_equal. f_equal. repeat case_decide; lia || done.
Qed.

(** The text of a nonempty value that fits is its hexadecimal form. *)
Lemma acl_data_to_text_spec data buf text tl :
  data <> [] -> Forall is_byte data -> 2 + 2 * length data < tl -> text + tl <= length buf ->
  acl_data_to_text data buf text tl = Some (0%Z, splice buf text (hex_text data ++ [NUL])).
Proof.
  intros. rewrite acl_data_to_text_full by (done || lia). rewrite decide_True by lia.
  rewrite take_ge; [done|]. apply Nat.div_le_lower_bound; lia.
Qed.

Lemma hex_text_length data : Forall is_byte data -> length (hex_text data) = 2 + 2 * length data.
Proof. intros. unfold hex_text. rewrite length_app, hex_digits_length by done. done. Qed.

(** Whatever its arguments, the encoder changes only the room it is given
    and leaves a C string there. *)
Lemma acl_data_to_text_room data buf text tl :
  Forall is_byte data -> 0 < tl -> text + tl <= length buf ->
  exists st s, acl_data_to_text data buf text tl = Some (st, splice buf text (s ++ [NUL])) /\
    (st = 0%Z \/ st = 1%Z) /\ no_nul s /\ length s < tl /\ length s <= 2 + 2 * length data.
Proof.
  intros Hb Hpos Hbuf.
  destruct (decide (data = [] \/ tl < 3)) as [Hshort|Hlong].
  - exists 1%Z, []. split_and!; [|by right|constructor|simpl; lia..].
    unfold acl_data_to_text. rewrite decide_False by lia.
    rewrite buf_set_Some by lia. cbn. rewrite <- splice_one by lia.
    destruct Hshort as [->|?]; [by rewrite decide_True|].
    repeat case_decide; done.
  - assert (Forall is_byte (take ((tl - 3) / 2) data)) by by apply Forall_take.
    eexists _, _. split; [apply acl_data_to_text_full; naive_solver lia|].
    split; [case_decide; auto|]. split; [by apply hex_text_no_nul|].
    rewrite hex_text_length by done. rewrite length_take.
    pose proof (Nat.Div0.mul_div_le (tl - 3) 2). split; lia.
Qed.

(** ** Decoding stays in bounds *)
Lemma u8_byte z : is_byte (u8 z).
Proof. apply wrap_range. lia. Qed.

#[export] Hint Resolve u8_byte : iscsi.

(** What a decoder loop leaves: a status, and [out] written at [d]. *)
Lemma hex_to_data_loop_bounds data_length : forall text data d,
  d + data_length <= length data ->
  exists st out, hex_to_data_loop text data d data_length =
      Some (st, splice data d out, data_length - length out) /\
    length out <= data_length /\ Forall is_byte out /\ (st = 0%Z \/ st = 1%Z).
Proof.
  induction data_length as [|n IH]; intros text data d Hlen.
  all: destruct text as [|c1 [|c2 text]];
    [exists 0%Z, []|exists 1%Z, []|cbn [hex_to_data_loop]];
    try (rewrite splice_nil; simpl; by auto with lia).
  all: destruct (hex_nibble c1) as [n1|]; [destruct (hex_nibble c2) as [n2|]|];
    try (exists 1%Z, []; rewrite splice_nil; simpl; by auto with lia).
  rewrite decide_False, buf_set_Some by lia. cbn [mbind option_bind]. rewrite Nat.sub_succ, Nat.sub_0_r.
  destruct (IH text (<[d:=u8 (Z.lor (Z.shiftl n1 4) n2)]> data) (S d)) as (st & out & -> & Ho & Hb & Hst).
  { rewrite length_insert. lia. }
  exists st, (u8 (Z.lor (Z.shiftl n1 4) n2) :: out). rewrite splice_cons by lia. split_and!; auto.
  - simpl. lia.
  - apply Forall_cons_iff. auto with iscsi.
Qed.

Lemma base64_loop_bounds text : forall data d data_length n count,
  d + data_length <= length data ->
  exists out, length out <= data_length /\ Forall is_byte out /\
    (base64_loop text data d data_length n count = Some (inl (splice data d out)) \/
     exists rest n' count', base64_loop text data d data_length n count =
       Some (inr (rest, splice data d out, d + length out, data_length - length out, n', count'))).
Proof.
  induction text as [|c text IH]; intros data d dl n count Hlen; cbn [base64_loop].
  { exists []. rewrite splice_nil. simpl. rewrite Nat.add_0_r, Nat.sub_0_r.
    split_and!; [lia|constructor|]. right. by eexists _, _, _. }
  case_decide.
  { exists []. rewrite splice_nil. simpl. rewrite Nat.add_0_r, Nat.sub_0_r.
    split_and!; [lia|constructor|]. right. by eexists _, _, _. }
  case_match; [exists []; rewrite splice_nil; simpl; by auto with lia|].
  case_decide; [|by apply IH].
  case_decide; [exists []; rewrite splice_nil; simpl; by auto with lia|].
  set (n' := Z.lor _ _).
  rewrite buf_set_Some by lia. cbn [mbind option_bind].
  rewrite buf_set_Some by (rewrite ?length_insert; lia). cbn [mbind option_bind].
  rewrite buf_set_Some by (rewrite ?length_insert; lia). cbn [mbind option_bind].
  set (data' := <[_ := _]> _).
  destruct (IH data' (S (S (S d))) (dl - 3) 0%Z 0) as (out & Ho & Hb & Hr).
  { subst data'. rewrite !length_insert. lia. }
  exists (u8 (Z.shiftr n' 16) :: u8 (Z.shiftr n' 8) :: u8 n' :: out). simpl.
  assert (splice data' (S (S (S d))) out =
    splice data d (u8 (Z.shiftr n' 16) :: u8 (Z.shiftr n' 8) :: u8 n' :: out)) as E.
  { subst data'. rewrite !splice_cons by (rewrite ?length_insert; lia). done. }
  rewrite <- E. split_and!; [lia|repeat (apply Forall_cons_iff; split; auto with iscsi)|].
  destruct Hr as [->|(rest & n'' & c' & ->)]; [by left|right].
  exists rest, n'', c'.
  replace (S (S (S d)) + length out) with (d + S (S (S (length out)))) by lia.
  by replace (dl - 3 - length out) with (dl - S (S (S (length out)))) by lia.
Qed.

Lemma decode_end_bounds st data out data_len :
  (st = 0%Z \/ st = 1%Z) -> length out <= data_len ->
  exists st' n', decode_end (st, splice data 0 out, data_len - length out) data_len =
      (st', splice data 0 out, n') /\
    (st' = 0%Z /\ st = 0%Z /\ n' = length out /\ 0 < n' \/ st' = 1%Z /\ n' = data_len).
Proof.
  intros Hst Ho. unfold decode_end. repeat case_decide.
  - exists st, data_len. naive_solver.
  - exists 1%Z, data_len. naive_solver.
  - exists 0%Z, (data_len - (data_len - length out)). split; [done|]. left.
    destruct Hst as [-> | ->]; [|done]. split_and!; lia || done.
Qed.

(** Decoding any text writes at most [data_len] bytes, reports their number on
    success and never reports an empty value. *)
Lemma acl_text_to_data_bounds text data data_len :
  data_len <= length data ->
  exists st out n', acl_text_to_data text data data_len = Some (st, splice data 0 out, n') /\
    length out <= data_len /\ Forall is_byte out /\
    (st = 0%Z /\ n' = length out /\ 0 < n' \/ st = 1%Z /\ n' = data_len).
Proof.
  intros Hlen. unfold acl_text_to_data. rewrite acl_chk_string_spec.
  assert (exists st out n', Some (1%Z, data, data_len) = Some (st, splice data 0 out, n') /\
    length out <= data_len /\ Forall is_byte out /\
    (st = 0%Z /\ n' = length out /\ 0 < n' \/ st = 1%Z /\ n' = data_len)) as Herr.
  { exists 1%Z, [], data_len. rewrite splice_nil. split_and!; auto. simpl. lia. }
  case_decide as Hl; [|done]. destruct text as [|c0 [|c1 text]]; [done..|].
  case_decide; [|case_decide; [|done]].
  - unfold acl_hex_to_data. case_decide as Hodd.
    + destruct text as [|c text]; [by simpl in Hodd|].
      destruct (hex_nibble c) as [n2|] eqn:Hn; [|done]. case_decide; [done|].
      rewrite buf_set_Some by lia. cbn [mbind option_bind].
      destruct (hex_to_data_loop_bounds (data_len - 1) text (<[0:=n2]> data) 1)
        as (st & out & -> & Ho & Hb & Hst); [rewrite length_insert; lia|].
      cbn [mbind option_bind]. rewrite splice_cons by lia.
      replace (data_len - 1 - length out) with (data_len - length (n2 :: out)) by (simpl; lia).
      destruct (decode_end_bounds st data (n2 :: out) data_len) as (st' & n' & -> & Hr);
        [done|simpl; lia|].
      exists st', (n2 :: out), n'. split_and!; [done|simpl; lia| |naive_solver].
      apply Forall_cons_iff. split; [|done]. apply hex_nibble_range in Hn. unfold is_byte. lia.
    + destruct (hex_to_data_loop_bounds data_len text data 0) as (st & out & -> & Ho & Hb & Hst); [lia|].
      cbn [mbind option_bind].
      destruct (decode_end_bounds st data out data_len) as (st' & n' & -> & Hr); [done..|].
      exists st', out, n'. naive_solver.
  - unfold acl_base64_to_data.
    destruct (base64_loop_bounds text data 0 data_len 0 0) as (out & Ho & Hb & [->|(rest & n & cnt & ->)]);
      [lia| |]; cbn [mbind option_bind].
    { exists 1%Z, out, data_len. auto 10. }
    assert (exists st out' n', Some (1%Z, splice data 0 out, data_len) = Some (st, splice data 0 out', n') /\
      length out' <= data_len /\ Forall is_byte out' /\
      (st = 0%Z /\ n' = length out' /\ 0 < n' \/ st = 1%Z /\ n' = data_len)) as Herr2.
    { exists 1%Z, out, data_len. auto 10. }
    case_decide; [|done].
    destruct (base64_tail n cnt) as [tail|] eqn:Htail; [|done]. case_decide; [done|].
    rewrite buf_write_Some by (rewrite length_splice; lia). cbn [mbind option_bind].
    rewrite splice_app by lia.
    replace (data_len - length out - length tail) with (data_len - length (out ++ tail))
      by (rewrite length_app; lia).
    destruct (decode_end_bounds 0 data (out ++ tail) data_len) as (st' & n' & -> & Hr);
      [by left|rewrite length_app; lia|].
    exists st', (out ++ tail), n'. split_and!; [done|rewrite length_app; lia| |naive_solver].
    apply Forall_app. split; [done|].
    unfold base64_tail in Htail. repeat case_match; simplify_eq;
      repeat (apply Forall_cons_iff; split; auto with iscsi); constructor.
Qed.

(** ** Round trips *)
Lemma hex_to_data_loop_digits data : forall buf d data_length,
  Forall is_byte data -> length data <= data_length -> d + data_length <= length buf ->
  hex_to_data_loop (hex_digits data) buf d data_length =
    Some (0%Z, splice buf d data, data_length - length data).
Proof.
  induction data as [|n data IH]; intros buf d dl Hb Hlen Hbuf.
  { simpl. by rewrite splice_nil, Nat.sub_0_r. }
  apply Forall_cons_iff in Hb as [Hn Hb]. cbn [length] in Hlen. cbn [hex_digits].
  destruct (hex_digit_ok n Hn) as (h & l & -> & _ & _ & Hh & Hl & _).
  cbn [app hex_to_data_loop]. rewrite Hh, Hl, decide_False, buf_set_Some by lia.
  cbn [mbind option_bind]. unfold is_byte in Hn.
  pose proof (Z.mod_pos_bound n 16 ltac:(lia)).
  rewrite lor_shiftl_add by lia.
  replace (n / 16 * 2 ^ 4 + n mod 16)%Z with n
    by (pose proof (Z.div_mod n 16 ltac:(lia)); lia).
  unfold u8. rewrite wrap_small by lia.
  rewrite IH by (rewrite ?length_insert; done || lia).
  rewrite splice_cons by lia. cbn [length]. do 2 f_equal. lia.
Qed.

Lemma hex_text_decodes data buf data_len :
  data <> [] -> Forall is_byte data -> length data <= AUTH_LARGE_BINARY_MAX_LEN ->
  length data <= data_len -> data_len <= length buf ->
  acl_text_to_data (hex_text data) buf data_len = Some (0%Z, splice buf 0 data, length data).
Proof.
  intros Hne Hb Hmax Hlen Hbuf. unfold acl_text_to_data.
  rewrite acl_chk_string_spec, hex_text_length, decide_True by (done || unfold AUTH_LARGE_BINARY_MAX_LEN in *; lia).
  cbn [hex_text app str]. cbv [hex_text str]. cbn [app fmap list_fmap String.list_ascii_of_string].
  rewrite decide_True by auto.
  replace (2 + 2 * length data - 2) with (2 * length data) by lia.
  unfold acl_hex_to_data. rewrite decide_False.
  2: { rewrite Nat.odd_mul. simpl. auto. }
  rewrite hex_to_data_loop_digits by (done || lia). cbn [mbind option_bind].
  assert (0 < length data) by (destruct data; simpl; [done|lia]).
  unfold decode_end. rewrite decide_False, decide_False by lia || auto.
  do 2 f_equal. lia.
Qed.

(** A number that was printed with [%lu] is read back. *)
Lemma acl_text_to_number_fmt n :
  (0 <= n <= ULONG_MAX)%Z -> acl_text_to_number (fmt_lu n) = Some n.
Proof.
  intros Hn. pose proof (strtoul_fmt_lu n [] Hn I) as Hs. rewrite app_nil_r in Hs.
  destruct (fmt_lu_digits n) as [Hne Hall]. unfold acl_text_to_number.
  destruct (fmt_lu n) as [|c [|c1 s]]; [done| |]; [by rewrite Hs|].
  apply Forall_cons_iff in Hall as [Hc Hall]. apply Forall_cons_iff in Hall as [Hc1 _].
  change (char "x") with 120%Z. change (char "X") with 88%Z.
  replace (Z.eqb c1 120) with false by lia. replace (Z.eqb c1 88) with false by lia.
  rewrite andb_false_r. by rewrite Hs.
Qed.

Lemma base64_loop_char i t data d dl n count :
  (0 <= i < 64)%Z -> count < 3 ->
  base64_loop (b64_char i :: t) data d dl n count = base64_loop t data d dl (n * 64 + i) (S count).
Proof.
  intros Hi Hc. cbn [base64_loop]. destruct (b64_char_ok i Hi) as (-> & Hne & _).
  rewrite decide_False by done. replace (Z.ltb i 0) with false by lia.
  rewrite decide_False by lia. by rewrite lor_shiftl_add by lia.
Qed.

Lemma base64_loop_char4 i t data d dl n :
  (0 <= i < 64)%Z -> 3 <= dl -> d + dl <= length data ->
  base64_loop (b64_char i :: t) data d dl n 3 =
    base64_loop t (splice data d [u8 (Z.shiftr (n * 64 + i) 16); u8 (Z.shiftr (n * 64 + i) 8);
                                  u8 (n * 64 + i)]) (d + 3) (dl - 3) 0 0.
Proof.
  intros Hi Hd Hl. cbn [base64_loop]. destruct (b64_char_ok i Hi) as (-> & Hne & _).
  rewrite decide_False by done. replace (Z.ltb i 0) with false by lia.
  rewrite decide_True, decide_False by lia. rewrite lor_shiftl_add by lia.
  change (2 ^ 6)%Z with 64%Z.
  rewrite buf_set_Some by lia. cbn [mbind option_bind].
  rewrite buf_set_Some by (rewrite ?length_insert; lia). cbn [mbind option_bind].
  rewrite buf_set_Some by (rewrite ?length_insert; lia). cbn [mbind option_bind].
  rewrite <- !splice_cons, splice_nil by (rewrite ?length_insert; lia).
  f_equal. lia.
Qed.

Ltac solve_u8 :=
  unfold u8, wrap; rewrite ?Z.shiftr_div_pow2 by lia; unfold is_byte in *;
  repeat match goal with
  | |- context [(2 ^ ?k)%Z] => let v := eval vm_compute in (2 ^ k)%Z in change (2 ^ k)%Z with v
  end; Z.div_mod_to_equations; lia.

Lemma b64_group a b c :
  is_byte a -> is_byte b -> is_byte c ->
  let n := (((0 * 64 + a / 4) * 64 + (a mod 4 * 16 + b / 16)) * 64
            + (b mod 16 * 4 + c / 64))%Z in
  u8 (Z.shiftr (n * 64 + c mod 64) 16) = a /\ u8 (Z.shiftr (n * 64 + c mod 64) 8) = b /\
  u8 (n * 64 + c mod 64) = c.
Proof. intros Ha Hb Hc n. subst n. split_and!; solve_u8. Qed.

Lemma b64_digits a b c :
  is_byte a -> is_byte b -> is_byte c ->
  (0 <= a / 4 < 64 /\ 0 <= a mod 4 * 16 < 64 /\ 0 <= a mod 4 * 16 + b / 16 < 64 /\
   0 <= b mod 16 * 4 < 64 /\ 0 <= b mod 16 * 4 + c / 64 < 64 /\ 0 <= c mod 64 < 64)%Z.
Proof. unfold is_byte. intros. Z.div_mod_to_equations. lia. Qed.

Lemma base64_loop_encode k : forall data buf d dl,
  length data <= k -> Forall is_byte data -> length data <= dl -> d + dl <= length buf ->
  exists full tail rest n cnt, data = full ++ tail /\
    base64_loop (b64_encode data) buf d dl 0 0 =
      Some (inr (rest, splice buf d full, d + length full, dl - length full, n, cnt)) /\
    Forall (fun c => c = char "=") rest /\ base64_tail n cnt = Some tail.
Proof.
  induction k as [|k IH]; intros data buf d dl Hk Hb Hdl Hbuf.
  { destruct data; [|simpl in Hk; lia]. exists [], [], [], 0%Z, 0. simpl.
    rewrite splice_nil, Nat.add_0_r, Nat.sub_0_r. split_and!; auto. }
  destruct data as [|a [|b [|c data]]].
  - exists [], [], [], 0%Z, 0. simpl.
    rewrite splice_nil, Nat.add_0_r, Nat.sub_0_r. split_and!; auto.
  - apply Forall_cons_iff in Hb as [Ha _]. pose proof (b64_digits a a a Ha Ha Ha) as Hd.
    exists [], [a], [char "="; char "="], ((0 * 64 + a / 4) * 64 + a mod 4 * 16)%Z, 2.
    cbn [b64_encode]. rewrite !base64_loop_char by lia.
    rewrite splice_nil, Nat.add_0_r, Nat.sub_0_r. split_and!; auto.
    cbn [base64_tail]. do 2 f_equal. solve_u8.
  - apply Forall_cons_iff in Hb as [Ha Hb]. apply Forall_cons_iff in Hb as [Hb _].
    pose proof (b64_digits a b b Ha Hb Hb) as Hd.
    exists [], [a; b], [char "="],
      (((0 * 64 + a / 4) * 64 + (a mod 4 * 16 + b / 16)) * 64 + b mod 16 * 4)%Z, 3.
    cbn [b64_encode]. rewrite !base64_loop_char by lia.
    rewrite splice_nil, Nat.add_0_r, Nat.sub_0_r. split_and!; auto.
    cbn [base64_tail]. do 2 f_equal; [|f_equal]; solve_u8.
  - do 3 (apply Forall_cons_iff in Hb as [?Hx Hb]).
    pose proof (b64_digits a b c Hx Hx0 Hx1) as Hd. cbn [length] in *.
    cbn [b64_encode app]. rewrite !base64_loop_char by lia.
    rewrite base64_loop_char4 by lia.
    destruct (b64_group a b c Hx Hx0 Hx1) as (-> & -> & ->).
    destruct (IH data (splice buf d [a; b; c]) (d + 3) (dl - 3))
      as (full & tail & rest & n & cnt & Hdat & -> & Hrest & Htail);
      [lia|done|lia|rewrite length_splice; simpl; lia|].
    exists (a :: b :: c :: full), tail, rest, n, cnt. split_and!; try done; [by rewrite Hdat|].
    assert (length full <= length data) by (rewrite Hdat, length_app; lia).
    change (d + 3) with (d + length [a; b; c]) at 1.
    rewrite splice_app by (simpl; lia). cbn [app length].
    replace (d + 3 + length full) with (d + S (S (S (length full)))) by lia.
    by replace (dl - 3 - length full) with (dl - S (S (S (length full)))) by lia.
Qed.

Lemma b64_encode_length k : forall data, length data <= k ->
  length (b64_encode data) <= 2 * length data + 2.
Proof.
  induction k as [|k IH]; intros data Hk; [destruct data; simpl in *; lia|].
  destruct data as [|a [|b [|c data]]]; cbn [b64_encode length app] in *; try lia.
  specialize (IH data). lia.
Qed.

Lemma base64_text_decodes data buf data_len :
  data <> [] -> Forall is_byte data -> length data < AUTH_LARGE_BINARY_MAX_LEN ->
  length data <= data_len -> data_len <= length buf ->
  acl_text_to_data (str "0b" ++ b64_encode data) buf data_len =
    Some (0%Z, splice buf 0 data, length data).
Proof.
  intros Hne Hb Hmax Hlen Hbuf. unfold acl_text_to_data, AUTH_LARGE_BINARY_MAX_LEN in *.
  pose proof (b64_encode_length _ data (le_n _)).
  rewrite acl_chk_string_spec, length_app. change (length (str "0b")) with 2.
  rewrite decide_True by lia.
  cbv [str]. cbn [app fmap list_fmap String.list_ascii_of_string].
  rewrite decide_False, decide_True by (vm_compute; naive_solver).
  unfold acl_base64_to_data.
  destruct (base64_loop_encode _ data buf 0 data_len (le_n _) Hb Hlen ltac:(lia))
    as (full & tail & rest & n & cnt & Hd & -> & Hrest & Htail).
  assert (length data = length full + length tail) by (rewrite Hd, length_app; lia).
  assert (0 < length data) by (destruct data; simpl; [done|lia]).
  cbn [mbind option_bind]. rewrite decide_True, Htail, decide_False by (done || lia).
  rewrite buf_write_Some by (rewrite length_splice; lia). cbn [mbind option_bind].
  rewrite splice_app, <- Hd by lia. unfold decode_end.
  rewrite decide_False, decide_False by (lia || auto). do 2 f_equal. lia.
Qed.
