(* ===== verification/TextTheorems.v ===== *)
(** * Properties of the text encodings and string routines

    The theorems about the encoders and decoders of usr/auth.c and the string
    copies of utils/sysdeps/sysdeps.c. *)
From S2P Require Import Prelude CString AuthText.
From Stdlib Require Import Ascii Lia ZArith.
From stdpp Require Import base tactics numbers list strings option.

(** C37: a binary value written by [acl_data_to_text] into a large enough
    buffer is a C string that [acl_text_to_data] decodes to the same bytes. *)
Theorem binary_text_roundtrip data buf text tl out n :
  data <> [] -> Forall is_byte data -> length data <= AUTH_LARGE_BINARY_MAX_LEN ->
  2 + 2 * length data < tl -> text + tl <= length buf -> length data <= n -> n <= length out ->
  exists buf' s, acl_data_to_text data buf text tl = Some (0%Z, buf') /\ cstr buf' text = Some s /\
    acl_text_to_data s out n = Some (0%Z, splice out 0 data, length data).
Proof.
  intros Hne Hb Hmax Htl Hbuf Hn Hout. eexists _, (hex_text data).
  split; [by apply acl_data_to_text_spec|]. split.
  - apply cstr_splice; [by apply hex_text_no_nul|]. rewrite hex_text_length by done. lia.
  - by apply hex_text_decodes.
Qed.

Lemma binary_text_roundtrip_witness :
  exists buf' s, acl_data_to_text [0; 171; 255]%Z (replicate 20 9%Z) 5 10 = Some (0%Z, buf') /\
    cstr buf' 5 = Some s /\
    acl_text_to_data s (replicate 4 7%Z) 3 = Some (0%Z, [0; 171; 255; 7]%Z, 3).
Proof.
  apply (binary_text_roundtrip [0; 171; 255]%Z (replicate 20 9%Z) 5 10 (replicate 4 7%Z) 3);
    try done; try (apply (bool_decide_unpack _); vm_compute; exact I); simpl; lia.
Defined.

(** the base64 decoder inverts the base64 encoding of RFC 4648. *)
Theorem base64_decodes data buf data_len :
  data <> [] -> Forall is_byte data -> length data < AUTH_LARGE_BINARY_MAX_LEN ->
  length data <= data_len -> data_len <= length buf ->
  acl_text_to_data (str "0b" ++ b64_encode data) buf data_len =
    Some (0%Z, splice buf 0 data, length data).
Proof. apply base64_text_decodes. Qed.

Lemma base64_decodes_witness :
  acl_text_to_data (str "0bSGVsbG8=") (replicate 8 0%Z) 8 =
    Some (0%Z, splice (replicate 8 0%Z) 0 (str "Hello"), 5).
Proof.
  apply (base64_decodes (str "Hello") (replicate 8 0%Z) 8); try done;
    try (apply (bool_decide_unpack _); vm_compute; exact I); simpl; lia.
Defined.

(** whatever text the peer sends, the decoder stays inside the output
    buffer, writes bytes only, and reports either success with the exact
    length of what it wrote or status 1. *)
Theorem text_decoder_bounds text data data_len :
  data_len <= length data ->
  exists st out n', acl_text_to_data text data data_len = Some (st, splice data 0 out, n') /\
    length out <= data_len /\ Forall is_byte out /\
    (st = 0%Z /\ n' = length out /\ 0 < n' \/ st = 1%Z /\ n' = data_len).
Proof. apply acl_text_to_data_bounds. Qed.

Lemma text_decoder_bounds_witness :
  exists st out n', acl_text_to_data (str "0x12345") (replicate 4 0%Z) 2 =
    Some (st, splice (replicate 4 0%Z) 0 out, n') /\ length out <= 2 /\ Forall is_byte out /\
    (st = 0%Z /\ n' = length out /\ 0 < n' \/ st = 1%Z /\ n' = 2).
Proof. apply (text_decoder_bounds (str "0x12345") (replicate 4 0%Z) 2). simpl. lia. Defined.

(** [strlcpy] copies the longest prefix that fits, always terminates it,
    and returns the length of the source; [strlcat] does the same behind the
    string that is already there. *)
Theorem strlcpy_strlcat_correct dst s src size :
  cstr dst 0 = Some s -> no_nul src -> length s < size -> size <= length dst ->
  (exists dst', strlcpy dst 0 src size = Some (dst', length src) /\ length dst' = length dst /\
     cstr dst' 0 = Some (take (size - 1) src)) /\
  (exists dst', strlcat dst src size = Some (dst', length s + length src) /\ length dst' = length dst /\
     cstr dst' 0 = Some (take (size - 1) (s ++ src))).
Proof.
  intros Hs Hsrc Hlt Hd. split; [apply strlcpy_cstr; [done|lia|lia]|by apply strlcat_cstr].
Qed.

Lemma strlcpy_strlcat_correct_witness :
  exists dst', strlcat (str "ab" ++ replicate 3 0%Z) (str "cdefg") 5 = Some (dst', 7) /\
    cstr dst' 0 = Some (str "abcd").
Proof.
  destruct (strlcpy_strlcat_correct (str "ab" ++ replicate 3 0%Z) (str "ab") (str "cdefg") 5)
    as [_ (dst' & H1 & _ & H2)]; [reflexivity|by apply (bool_decide_unpack _)|simpl; lia|simpl; lia|].
  exists dst'. split; [exact H1|exact H2].
Defined.
