(* ===== verification/Acl.v ===== *)
(** * The authentication client (usr/auth.c, usr/auth.h): data and operations

    [iscsi_acl] is the state of one CHAP negotiation.  Every function of
    usr/auth.c is a definition of the same name.  The OpenSSL library that the
    code calls is a parameter, the class [AuthEnv]; what the code relies on
    about it is the class [AuthEnvOk]. *)
From S2P Require Import Prelude CString AuthText.
From Stdlib Require Import Ascii Lia ZArith.
From stdpp Require Import base tactics numbers list strings option.

(** ** Constants and enumerations (usr/auth.h)

    A structure is zeroed by [memset], so an enumeration type also has the
    value 0 that some C enumerations do not name: the [_0] constructors. *)
Definition AUTH_RECV_END_MAX_COUNT : nat := 10.
Definition ACL_SIGNATURE : Z := 0x5984B2E3.
Definition AUTH_CHAP_RSP_MAX : nat := 32.
Definition AUTH_CHAP_MD5_RSP_LEN : nat := 16.
Definition AUTH_CHAP_SHA1_RSP_LEN : nat := 20.
Definition AUTH_CHAP_SHA256_RSP_LEN : nat := 32.
Definition AUTH_CHAP_SHA3_256_RSP_LEN : nat := 32.

Definition AUTH_KEY_TYPE_NONE : Z := -1.
Definition AUTH_KEY_TYPE_AUTH_METHOD : nat := 0.
Definition AUTH_KEY_TYPE_CHAP_ALG : nat := 1.
Definition AUTH_KEY_TYPE_CHAP_USERNAME : nat := 2.
Definition AUTH_KEY_TYPE_CHAP_RSP : nat := 3.
Definition AUTH_KEY_TYPE_CHAP_IDENTIFIER : nat := 4.
Definition AUTH_KEY_TYPE_CHAP_CHALLENGE : nat := 5.
Definition AUTH_KEY_TYPE_MAX_COUNT : nat := 6.
Definition AUTH_KEY_TYPE_FIRST : Z := 0.
Definition AUTH_KEY_TYPE_LAST : Z := 5.

Definition AUTH_OPTION_REJECT : Z := -2.
Definition AUTH_OPTION_NOT_PRESENT : Z := -1.
Definition AUTH_OPTION_NONE : Z := 1.
Definition AUTH_METHOD_CHAP : Z := 2.
Definition AUTH_METHOD_MAX_COUNT : nat := 2.
Definition AUTH_CHAP_ALG_MD5 : Z := 5.
Definition AUTH_CHAP_ALG_SHA1 : Z := 6.
Definition AUTH_CHAP_ALG_SHA256 : Z := 7.
Definition AUTH_CHAP_ALG_SHA3_256 : Z := 8.
Definition AUTH_CHAP_ALG_MAX_COUNT : nat := 5.

Inductive auth_neg_role := AUTH_NEG_ROLE_0 | AUTH_NEG_ROLE_ORIGINATOR | AUTH_NEG_ROLE_RESPONDER.

Inductive auth_status :=
| AUTH_STATUS_NO_ERROR | AUTH_STATUS_ERROR | AUTH_STATUS_PASS | AUTH_STATUS_FAIL
| AUTH_STATUS_CONTINUE.

Inductive auth_dbg_status :=
| AUTH_DBG_STATUS_NOT_SET
| AUTH_DBG_STATUS_AUTH_PASS | AUTH_DBG_STATUS_AUTH_RMT_FALSE
| AUTH_DBG_STATUS_AUTH_FAIL
| AUTH_DBG_STATUS_AUTH_METHOD_BAD | AUTH_DBG_STATUS_CHAP_ALG_BAD
| AUTH_DBG_STATUS_PASSWD_DECRYPT_FAILED | AUTH_DBG_STATUS_PASSWD_TOO_SHORT_WITH_NO_IPSEC
| AUTH_DBG_STATUS_AUTH_SERVER_ERROR | AUTH_DBG_STATUS_AUTH_STATUS_BAD
| AUTH_DBG_STATUS_AUTHPASS_NOT_VALID | AUTH_DBG_STATUS_SEND_DUP_SET_KEY_VALUE
| AUTH_DBG_STATUS_SEND_STR_TOO_LONG | AUTH_DBG_STATUS_SEND_TOO_MUCH_DATA
| AUTH_DBG_STATUS_AUTH_METHOD_EXPECTED | AUTH_DBG_STATUS_CHAP_ALG_EXPECTED
| AUTH_DBG_STATUS_CHAP_IDENTIFIER_EXPECTED | AUTH_DBG_STATUS_CHAP_CHALLENGE_EXPECTED
| AUTH_DBG_STATUS_CHAP_RSP_EXPECTED | AUTH_DBG_STATUS_CHAP_USERNAME_EXPECTED
| AUTH_DBG_STATUS_AUTH_METHOD_NOT_PRESENT | AUTH_DBG_STATUS_AUTH_METHOD_REJECT
| AUTH_DBG_STATUS_AUTH_METHOD_NONE | AUTH_DBG_STATUS_CHAP_ALG_REJECT
| AUTH_DBG_STATUS_CHAP_CHALLENGE_REFLECTED | AUTH_DBG_STATUS_PASSWD_IDENTICAL
| AUTH_DBG_STATUS_LOCAL_PASSWD_NOT_SET
| AUTH_DBG_STATUS_CHAP_IDENTIFIER_BAD | AUTH_DBG_STATUS_CHALLENGE_BAD
| AUTH_DBG_STATUS_CHAP_RSP_BAD | AUTH_DBG_STATUS_UNEXPECTED_KEY_PRESENT
| AUTH_DBG_STATUS_T_BIT_SET_ILLEGAL | AUTH_DBG_STATUS_T_BIT_SET_PREMATURE
| AUTH_DBG_STATUS_RECV_MSG_COUNT_LIMIT | AUTH_DBG_STATUS_RECV_DUP_SET_KEY_VALUE
| AUTH_DBG_STATUS_RECV_STR_TOO_LONG | AUTH_DBG_STATUS_RECV_TOO_MUCH_DATA.

Inductive auth_node_type := TYPE_0 | TYPE_INITIATOR | TYPE_TARGET.

Inductive auth_phase :=
| AUTH_PHASE_0 | AUTH_PHASE_CONFIGURE | AUTH_PHASE_NEGOTIATE | AUTH_PHASE_AUTHENTICATE
| AUTH_PHASE_DONE | AUTH_PHASE_ERROR.

Inductive auth_local_state :=
| AUTH_LOCAL_STATE_0 | AUTH_LOCAL_STATE_SEND_ALG | AUTH_LOCAL_STATE_RECV_ALG
| AUTH_LOCAL_STATE_RECV_CHALLENGE | AUTH_LOCAL_STATE_DONE | AUTH_LOCAL_STATE_ERROR.

Inductive auth_rmt_state :=
| AUTH_RMT_STATE_0 | AUTH_RMT_STATE_SEND_ALG | AUTH_RMT_STATE_SEND_CHALLENGE
| AUTH_RMT_STATE_RECV_RSP | AUTH_RMT_STATE_DONE | AUTH_RMT_STATE_ERROR.

#[export] Instance auth_neg_role_eq_dec : EqDecision auth_neg_role.
Proof. solve_decision. Defined.
#[export] Instance auth_status_eq_dec : EqDecision auth_status.
Proof. solve_decision. Defined.
#[export] Instance auth_dbg_status_eq_dec : EqDecision auth_dbg_status.
Proof. solve_decision. Defined.
#[export] Instance auth_node_type_eq_dec : EqDecision auth_node_type.
Proof. solve_decision. Defined.
#[export] Instance auth_phase_eq_dec : EqDecision auth_phase.
Proof. solve_decision. Defined.
#[export] Instance auth_local_state_eq_dec : EqDecision auth_local_state.
Proof. solve_decision. Defined.
#[export] Instance auth_rmt_state_eq_dec : EqDecision auth_rmt_state.
Proof. solve_decision. Defined.

(** ** Structures

    A [char *] into a string block is an offset in that block. *)
Record auth_key := mk_auth_key {
  present : bool; processed : bool; value_set : bool; string_at : option nat
}.
#[export] Instance eta_auth_key : Eta auth_key := fun k =>
  mk_auth_key (present k) (processed k) (value_set k) (string_at k).

Record auth_large_binary_key := mk_large_binary {
  lb_length : nat; large_binary : list Z
}.
#[export] Instance eta_large_binary : Eta auth_large_binary_key := fun k =>
  mk_large_binary (lb_length k) (large_binary k).

Record auth_key_block := mk_key_block {
  transit_bit : bool; dup_set : bool; str_too_long : bool; too_much_data : bool;
  blk_length : nat; str_block : list Z; key : list auth_key
}.
#[export] Instance eta_key_block : Eta auth_key_block := fun b =>
  mk_key_block (transit_bit b) (dup_set b) (str_too_long b) (too_much_data b)
    (blk_length b) (str_block b) (key b).

(** The part of the session that [session_handle] gives access to: the
    credentials expected from the target. *)
Record auth_session := mk_auth_session {
  username_in : list Z; password_in : list Z; password_in_length : Z
}.

(** [rand_pos] counts the calls of [RAND_bytes]; it is the only field that
    the C structure does not have. *)
Record iscsi_acl := mk_acl {
  signature : Z;
  node_type : auth_node_type;
  auth_method_count : nat;
  auth_method_list : list Z;
  auth_method_neg_role : auth_neg_role;
  chap_alg_count : nat;
  chap_alg_list : list Z;
  auth_rmt : Z;
  username : list Z;
  passwd_present : bool;
  passwd_length : nat;
  passwd_data : list Z;
  chap_challenge_len : nat;
  ip_sec : Z;
  auth_method_valid_count : nat;
  auth_method_valid_list : list Z;
  auth_method_valid_neg_role : auth_neg_role;
  recv_in_progress_flag : bool;
  recv_end_count : nat;
  session_handle : option auth_session;
  phase : auth_phase;
  local_state : auth_local_state;
  rmt_state : auth_rmt_state;
  rmt_auth_status : auth_status;
  dbg_status : auth_dbg_status;
  negotiated_auth_method : Z;
  negotiated_chap_alg : Z;
  auth_rsp_flag : bool;
  auth_server_error_flag : bool;
  transit_bit_sent_flag : bool;
  send_chap_identifier : Z;
  send_chap_challenge : auth_large_binary_key;
  chap_username : list Z;
  recv_chap_challenge_status : Z;
  recv_chap_challenge : auth_large_binary_key;
  scratch_key_value : list Z;
  recv_key_block : auth_key_block;
  send_key_block : auth_key_block;
  rand_pos : nat
}.
#[export] Instance eta_acl : Eta iscsi_acl := fun c =>
  mk_acl (signature c) (node_type c) (auth_method_count c) (auth_method_list c)
    (auth_method_neg_role c) (chap_alg_count c) (chap_alg_list c) (auth_rmt c) (username c)
    (passwd_present c) (passwd_length c) (passwd_data c) (chap_challenge_len c) (ip_sec c)
    (auth_method_valid_count c) (auth_method_valid_list c) (auth_method_valid_neg_role c)
    (recv_in_progress_flag c) (recv_end_count c) (session_handle c) (phase c) (local_state c)
    (rmt_state c) (rmt_auth_status c) (dbg_status c) (negotiated_auth_method c)
    (negotiated_chap_alg c) (auth_rsp_flag c) (auth_server_error_flag c)
    (transit_bit_sent_flag c) (send_chap_identifier c) (send_chap_challenge c)
    (chap_username c) (recv_chap_challenge_status c) (recv_chap_challenge c)
    (scratch_key_value c) (recv_key_block c) (send_key_block c) (rand_pos c).

(** ** The environment: OpenSSL and the ABI

    [EVP_DigestInit_ex alg]: a digest context for the algorithm can be made;
    [EVP_digest alg msg]: the digest of the bytes passed to
    [EVP_DigestUpdate]; [RAND_bytes k n]: what the [k]-th call of
    [RAND_bytes(buf, n)] stores, [None] when it fails. *)
Class AuthEnv := {
  EVP_DigestInit_ex : Z -> bool;
  EVP_digest : Z -> list Z -> list Z;
  RAND_bytes : nat -> nat -> option (list Z);
  sizeof_iscsi_acl : nat
}.

(** The digest length of each CHAP algorithm. *)
Definition chap_rsp_len (alg : Z) : nat :=
  if decide (alg = AUTH_CHAP_ALG_MD5) then AUTH_CHAP_MD5_RSP_LEN
  else if decide (alg = AUTH_CHAP_ALG_SHA1) then AUTH_CHAP_SHA1_RSP_LEN
  else if decide (alg = AUTH_CHAP_ALG_SHA256) then AUTH_CHAP_SHA256_RSP_LEN
  else AUTH_CHAP_SHA3_256_RSP_LEN.

Definition is_chap_alg (alg : Z) : Prop :=
  alg = AUTH_CHAP_ALG_MD5 \/ alg = AUTH_CHAP_ALG_SHA1 \/
  alg = AUTH_CHAP_ALG_SHA256 \/ alg = AUTH_CHAP_ALG_SHA3_256.

#[export] Instance is_chap_alg_dec alg : Decision (is_chap_alg alg).
Proof. unfold is_chap_alg. apply _. Defined.

Class AuthEnvOk (E : AuthEnv) : Prop := {
  EVP_digest_length : forall alg msg,
    is_chap_alg alg -> length (EVP_digest alg msg) = chap_rsp_len alg;
  EVP_digest_bytes : forall alg msg, Forall is_byte (EVP_digest alg msg);
  RAND_bytes_ok : forall k n l,
    RAND_bytes k n = Some l -> length l = n /\ Forall is_byte l
}.

Section Operations.
Context `{Env : AuthEnv}.

(** ** Hashing (auth_hash_init, auth_hash_update, auth_hash_final)

    A context is the algorithm and the bytes hashed so far. *)
Record hash_ctx := mk_hash_ctx { h_alg : Z; h_data : list Z }.

Definition auth_hash_init (chap_alg : Z) : option hash_ctx :=
  if decide (is_chap_alg chap_alg) then
    if EVP_DigestInit_ex chap_alg then Some (mk_hash_ctx chap_alg []) else None
  else None.

Definition auth_hash_update (ctx : hash_ctx) (data : list Z) : hash_ctx :=
  mk_hash_ctx (h_alg ctx) (h_data ctx ++ data).

(** The digest is stored at the start of [hash]. *)
Definition auth_hash_final (hash : list Z) (ctx : hash_ctx) : option (list Z) :=
  buf_write hash 0 (EVP_digest (h_alg ctx) (h_data ctx)).

(** [acl_data]: copies the (unencrypted) password; status 0 is [Some]. *)
Definition acl_data (out_data : list Z) (out_length : nat) (in_data : list Z) (in_length : nat)
    : option (Z * list Z * nat) :=
  if decide (out_length < in_length) then Some (1%Z, out_data, out_length)
  else
    d ← buf_prefix in_data in_length;
    o ← buf_write out_data 0 d;
    Some (0%Z, o, in_length).

(** [acl_chap_compute_rsp]: the debug status and the response buffer. *)
Definition acl_chap_compute_rsp (client : iscsi_acl) (rmt_auth : bool) (id : Z)
    (challenge_data : list Z) (response_data : list Z)
    : option (auth_dbg_status * list Z) :=
  if negb (passwd_present client) then
    Some (AUTH_DBG_STATUS_LOCAL_PASSWD_NOT_SET, response_data)
  else
    match auth_hash_init (negotiated_chap_alg client) with
    | None => Some (AUTH_DBG_STATUS_AUTH_FAIL, response_data)
    | Some context =>
        let context := auth_hash_update context [u8 id] in
        '(st, out_data, out_length) ←
          acl_data (replicate AUTH_STR_MAX_LEN 0%Z) AUTH_STR_MAX_LEN
            (passwd_data client) (passwd_length client);
        if decide (st <> 0%Z) then
          Some (AUTH_DBG_STATUS_PASSWD_DECRYPT_FAILED, response_data)
        else if decide (rmt_auth = false /\ truth (ip_sec client) = false /\ out_length < 12) then
          Some (AUTH_DBG_STATUS_PASSWD_TOO_SHORT_WITH_NO_IPSEC, response_data)
        else
          secret ← buf_prefix out_data out_length;
          let context := auth_hash_update context secret in
          let context := auth_hash_update context challenge_data in
          r ← auth_hash_final response_data context;
          Some (AUTH_DBG_STATUS_NOT_SET, r)
    end.

(** [acl_chap_auth_request]: authenticates the response of the target.
    [response_data] is the 256-byte buffer, [rsp_length] its used part. *)
Definition acl_chap_auth_request (client : iscsi_acl) (name : list Z) (id : Z)
    (challenge_data response_data : list Z) (rsp_length : nat) : option auth_status :=
  session ← session_handle client;
  let verify_data := replicate (chap_challenge_len client) 0%Z in
  if decide (username_in session = []) then Some AUTH_STATUS_FAIL
  else if decide (name <> username_in session) then Some AUTH_STATUS_FAIL
  else if decide (password_in_length session < 1)%Z then Some AUTH_STATUS_FAIL
  else
    p0 ← password_in session !! 0;
    if decide (p0 = NUL) then Some AUTH_STATUS_FAIL
    else if decide (rsp_length <> length verify_data) then Some AUTH_STATUS_FAIL
    else
      match auth_hash_init (negotiated_chap_alg client) with
      | None => Some AUTH_STATUS_FAIL
      | Some context =>
          verify_data1 ← buf_set verify_data 0 (u8 id);
          id_byte ← buf_prefix verify_data1 1;
          secret ← buf_prefix (password_in session) (Z.to_nat (password_in_length session));
          let context := auth_hash_update context id_byte in
          let context := auth_hash_update context secret in
          let context := auth_hash_update context challenge_data in
          verify_data2 ← auth_hash_final verify_data1 context;
          rsp ← buf_prefix response_data (length verify_data);
          Some (if decide (rsp = verify_data2) then AUTH_STATUS_PASS else AUTH_STATUS_FAIL)
      end.

(** ** Options *)
Definition acl_none_option_name : list Z := str "None".
Definition acl_authmethod_set_chap_alg_list : list Z := str "CHAP".
Definition acl_reject_option_name : list Z := str "Reject".

Definition acl_chk_auth_mthd_optn (val : Z) : bool :=
  negb (bool_decide (val = AUTH_OPTION_NONE \/ val = AUTH_METHOD_CHAP)).

Definition acl_authmethod_optn_to_text (value : Z) : option (list Z) :=
  if decide (value = AUTH_OPTION_REJECT) then Some acl_reject_option_name
  else if decide (value = AUTH_OPTION_NONE) then Some acl_none_option_name
  else if decide (value = AUTH_METHOD_CHAP) then Some acl_authmethod_set_chap_alg_list
  else None.

Definition acl_chk_chap_alg_optn (chap_algorithm : Z) : bool :=
  negb (bool_decide (chap_algorithm = AUTH_OPTION_NONE \/ is_chap_alg chap_algorithm)).

(** ** Key blocks *)
Definition zero_key : auth_key := mk_auth_key false false false None.

(** [memset(key_blk, 0, ...)] with the block pointer kept. *)
Definition acl_init_key_blk (key_blk : auth_key_block) : auth_key_block :=
  mk_key_block false false false false 0 (str_block key_blk)
    (replicate AUTH_KEY_TYPE_MAX_COUNT zero_key).

Definition acl_set_key_value (key_blk : auth_key_block) (key_type : nat)
    (key_val : option (list Z)) : option auth_key_block :=
  k ← key key_blk !! key_type;
  if value_set k then Some (key_blk <| dup_set := true |>)
  else
    let k := k <| value_set := true |> in
    let key_blk := key_blk <| key := <[key_type := k]> (key key_blk) |> in
    match key_val with
    | None => Some key_blk
    | Some v =>
        match acl_chk_string key_val AUTH_STR_MAX_LEN with
        | None => Some (key_blk <| str_too_long := true |>)
        | Some len =>
            let length := len + 1 in
            if decide (AUTH_STR_BLOCK_MAX_LEN < blk_length key_blk + length) then
              Some (key_blk <| too_much_data := true |>)
            else
              let string := blk_length key_blk in
              '(block, n) ← strlcpy (str_block key_blk) string v length;
              let key_blk := key_blk <| str_block := block |> in
              if decide (length <= n) then Some (key_blk <| too_much_data := true |>)
              else
                let key_blk := key_blk <| blk_length := blk_length key_blk + length |> in
                let k := k <| string_at := Some string |> <| present := true |> in
                Some (key_blk <| key := <[key_type := k]> (key key_blk) |>)
        end
    end.

(** The value is the C string in the block; [None] is NULL. *)
Definition acl_get_key_val (key_blk : auth_key_block) (key_type : nat)
    : option (option (list Z) * auth_key_block) :=
  k ← key key_blk !! key_type;
  let k := k <| processed := true |> in
  let key_blk := key_blk <| key := <[key_type := k]> (key key_blk) |> in
  if negb (present k) then Some (None, key_blk)
  else
    off ← string_at k;
    v ← cstr (str_block key_blk) off;
    Some (Some v, key_blk).

(** ** Negotiation of list options

    [while (key_val != NUL && key_val != ',') scratch[length++] = ...]. *)
Fixpoint copy_token (key_val scratch : list Z) (len : nat) : option (list Z * list Z * nat) :=
  match key_val with
  | [] => Some ([], scratch, len)
  | c :: key_val' =>
      if decide (c = char ",") then Some (key_val, scratch, len)
      else s ← buf_set scratch len c; copy_token key_val' s (S len)
  end.

(** The outer loop of [acl_chk_key] and [acl_chk_chap_alg_key]: the value the
    first acceptable token stands for, and the scratch buffer. *)
Fixpoint scan_tokens (fuel : nat) (key_val scratch : list Z) (accept : list Z -> option Z)
    : option (option Z * list Z) :=
  match key_val with
  | [] => Some (None, scratch)
  | _ =>
      match fuel with
      | O => None
      | S fuel' =>
          '(rest, scratch1, len) ← copy_token key_val scratch 0;
          let rest := match rest with [] => [] | _ :: r => r end in
          scratch2 ← buf_set scratch1 len NUL;
          token ← cstr scratch2 0;
          match accept token with
          | Some v => Some (Some v, scratch2)
          | None => scan_tokens fuel' rest scratch2 accept
          end
      end
  end.

(** The first option whose text is the token. *)
Fixpoint match_option (options : list Z) (value_to_text : Z -> option (list Z)) (token : list Z)
    : option Z :=
  match options with
  | [] => None
  | o :: options' =>
      if decide (value_to_text o = Some token) then Some o
      else match_option options' value_to_text token
  end.

(** The negotiated option and the client. *)
Definition acl_chk_key (client : iscsi_acl) (key_type : nat) (option_count : nat)
    (option_list : list Z) (value_to_text : Z -> option (list Z)) : option (Z * iscsi_acl) :=
  '(key_val, blk) ← acl_get_key_val (recv_key_block client) key_type;
  let client := client <| recv_key_block := blk |> in
  match key_val with
  | None => Some (AUTH_OPTION_NOT_PRESENT, client)
  | Some v =>
      options ← buf_prefix option_list option_count;
      '(found, scratch) ← scan_tokens (length v) v (scratch_key_value client)
                            (match_option options value_to_text);
      let client := client <| scratch_key_value := scratch |> in
      Some (default AUTH_OPTION_REJECT found, client)
  end.

(** The loop of [acl_set_key] from index [i]. *)
Fixpoint set_key_loop (i : nat) (options : list Z) (value_to_text : Z -> option (list Z))
    (scratch : list Z) : option (list Z) :=
  match options with
  | [] => Some scratch
  | o :: options' =>
      match value_to_text o with
      | None => set_key_loop (S i) options' value_to_text scratch
      | Some s =>
          if decide (i = 0) then
            '(scratch1, _) ← strlcpy scratch 0 s AUTH_STR_MAX_LEN;
            set_key_loop (S i) options' value_to_text scratch1
          else
            '(scratch1, _) ← strlcat scratch (str ",") AUTH_STR_MAX_LEN;
            '(scratch2, _) ← strlcat scratch1 s AUTH_STR_MAX_LEN;
            set_key_loop (S i) options' value_to_text scratch2
      end
  end.

(** Sets a key of the send block. *)
Definition set_send_key (client : iscsi_acl) (key_type : nat) (v : option (list Z))
    : option iscsi_acl :=
  blk ← acl_set_key_value (send_key_block client) key_type v;
  Some (client <| send_key_block := blk |>).

(** Sets a key of the send block to the string in the scratch buffer. *)
Definition set_send_key_scratch (client : iscsi_acl) (key_type : nat) : option iscsi_acl :=
  v ← cstr (scratch_key_value client) 0;
  set_send_key client key_type (Some v).

Definition acl_set_key (client : iscsi_acl) (key_type option_count : nat)
    (option_list : list Z) (value_to_text : Z -> option (list Z)) : option iscsi_acl :=
  options ← buf_prefix option_list option_count;
  match options with
  | [] => set_send_key client key_type (Some acl_none_option_name)
  | [o] =>
      if decide (o = AUTH_OPTION_NOT_PRESENT) then set_send_key client key_type None
      else
        scratch ← set_key_loop 0 options value_to_text (scratch_key_value client);
        set_send_key_scratch (client <| scratch_key_value := scratch |>) key_type
  | _ =>
      scratch ← set_key_loop 0 options value_to_text (scratch_key_value client);
      set_send_key_scratch (client <| scratch_key_value := scratch |>) key_type
  end.

Definition acl_chk_auth_method_key (client : iscsi_acl) : option iscsi_acl :=
  '(o, client) ← acl_chk_key client AUTH_KEY_TYPE_AUTH_METHOD
      (auth_method_valid_count client) (auth_method_valid_list client)
      acl_authmethod_optn_to_text;
  Some (client <| negotiated_auth_method := o |>).

Definition acl_set_auth_method_key (client : iscsi_acl) (auth_method_count : nat)
    (auth_method_list : list Z) : option iscsi_acl :=
  acl_set_key client AUTH_KEY_TYPE_AUTH_METHOD auth_method_count auth_method_list
    acl_authmethod_optn_to_text.

(** The number a CHAP_A token stands for, when it is in the configured list. *)
Definition match_chap_alg (algs : list Z) (token : list Z) : option Z :=
  number ← acl_text_to_number token;
  if decide (number ∈ (u64 <$> algs)) then Some number else None.

Definition acl_chk_chap_alg_key (client : iscsi_acl) : option iscsi_acl :=
  '(key_val, blk) ← acl_get_key_val (recv_key_block client) AUTH_KEY_TYPE_CHAP_ALG;
  let client := client <| recv_key_block := blk |> in
  match key_val with
  | None => Some (client <| negotiated_chap_alg := AUTH_OPTION_NOT_PRESENT |>)
  | Some v =>
      algs ← buf_prefix (chap_alg_list client) (chap_alg_count client);
      '(found, scratch) ← scan_tokens (length v) v (scratch_key_value client)
                            (match_chap_alg algs);
      let client := client <| scratch_key_value := scratch |> in
      match found with
      | None => Some (client <| negotiated_chap_alg := AUTH_OPTION_REJECT |>)
      | Some number =>
          let client := client <| negotiated_chap_alg := i32 number |> in
          Some (if decide (is_chap_alg number)
                then client <| chap_challenge_len := chap_rsp_len number |> else client)
      end
  end.

(** The loop of [acl_set_chap_alg_key]; [s] is a [char[20]]. *)
Fixpoint set_chap_alg_loop (i : nat) (algs : list Z) (scratch : list Z) : option (list Z) :=
  match algs with
  | [] => Some scratch
  | a :: algs' =>
      let s := take 19 (fmt_lu (u64 a)) in
      if decide (i = 0) then
        '(scratch1, _) ← strlcpy scratch 0 s AUTH_STR_MAX_LEN;
        set_chap_alg_loop (S i) algs' scratch1
      else
        '(scratch1, _) ← strlcat scratch (str ",") AUTH_STR_MAX_LEN;
        '(scratch2, _) ← strlcat scratch1 s AUTH_STR_MAX_LEN;
        set_chap_alg_loop (S i) algs' scratch2
  end.

Definition acl_set_chap_alg_key (client : iscsi_acl) (chap_alg_count : nat)
    (chap_alg_list : list Z) : option iscsi_acl :=
  algs ← buf_prefix chap_alg_list chap_alg_count;
  if decide (algs = [] \/ algs = [AUTH_OPTION_NOT_PRESENT]) then
    set_send_key client AUTH_KEY_TYPE_CHAP_ALG None
  else if decide (algs = [AUTH_OPTION_REJECT]) then
    set_send_key client AUTH_KEY_TYPE_CHAP_ALG (Some acl_reject_option_name)
  else
    scratch ← set_chap_alg_loop 0 algs (scratch_key_value client);
    set_send_key_scratch (client <| scratch_key_value := scratch |>) AUTH_KEY_TYPE_CHAP_ALG.

(** ** Phases *)
Definition acl_next_phase (client : iscsi_acl) : iscsi_acl :=
  match phase client with
  | AUTH_PHASE_CONFIGURE => client <| phase := AUTH_PHASE_NEGOTIATE |>
  | AUTH_PHASE_NEGOTIATE =>
      let client := client <| phase := AUTH_PHASE_AUTHENTICATE |> in
      let m := negotiated_auth_method client in
      if decide (m = AUTH_OPTION_REJECT \/ m = AUTH_OPTION_NOT_PRESENT \/ m = AUTH_OPTION_NONE) then
        let client := client <| local_state := AUTH_LOCAL_STATE_DONE |>
                             <| rmt_state := AUTH_RMT_STATE_DONE |> in
        let client :=
          if truth (auth_rmt client) then
            client <| rmt_auth_status := AUTH_STATUS_FAIL |> <| phase := AUTH_PHASE_DONE |>
          else client <| rmt_auth_status := AUTH_STATUS_PASS |> in
        if decide (m = AUTH_OPTION_REJECT) then
          client <| dbg_status := AUTH_DBG_STATUS_AUTH_METHOD_REJECT |>
        else if decide (m = AUTH_OPTION_NOT_PRESENT) then
          client <| dbg_status := AUTH_DBG_STATUS_AUTH_METHOD_NOT_PRESENT |>
        else client <| dbg_status := AUTH_DBG_STATUS_AUTH_METHOD_NONE |>
      else if decide (m = AUTH_METHOD_CHAP) then
        client <| local_state := AUTH_LOCAL_STATE_SEND_ALG |>
               <| rmt_state := AUTH_RMT_STATE_SEND_ALG |>
      else
        client <| local_state := AUTH_LOCAL_STATE_DONE |>
               <| rmt_state := AUTH_RMT_STATE_DONE |>
               <| rmt_auth_status := AUTH_STATUS_FAIL |>
               <| dbg_status := AUTH_DBG_STATUS_AUTH_METHOD_BAD |>
  | AUTH_PHASE_AUTHENTICATE => client <| phase := AUTH_PHASE_DONE |>
  | _ => client <| phase := AUTH_PHASE_ERROR |>
  end.

(** [local_state = ERROR; dbg_status = d; break]. *)
Definition local_error (client : iscsi_acl) (d : auth_dbg_status) : iscsi_acl :=
  client <| local_state := AUTH_LOCAL_STATE_ERROR |> <| dbg_status := d |>.

(** [acl_local_auth], case [AUTH_LOCAL_STATE_RECV_CHALLENGE]. *)
Definition local_recv_challenge (client : iscsi_acl) : option iscsi_acl :=
  '(id_val, blk) ← acl_get_key_val (recv_key_block client) AUTH_KEY_TYPE_CHAP_IDENTIFIER;
  '(challenge_val, blk) ← acl_get_key_val blk AUTH_KEY_TYPE_CHAP_CHALLENGE;
  let client := client <| recv_key_block := blk |> in
  match id_val, challenge_val with
  | None, None =>
      if decide (node_type client = TYPE_TARGET) then
        Some (client <| local_state := AUTH_LOCAL_STATE_DONE |>)
      else Some (local_error client AUTH_DBG_STATUS_CHAP_IDENTIFIER_EXPECTED)
  | None, Some _ => Some (local_error client AUTH_DBG_STATUS_CHAP_IDENTIFIER_EXPECTED)
  | Some _, None => Some (local_error client AUTH_DBG_STATUS_CHAP_CHALLENGE_EXPECTED)
  | Some id_text, Some _ =>
      match acl_text_to_number id_text with
      | None => Some (local_error client AUTH_DBG_STATUS_CHAP_IDENTIFIER_BAD)
      | Some number =>
          if decide (255 < number)%Z then
            Some (local_error client AUTH_DBG_STATUS_CHAP_IDENTIFIER_BAD)
          else if decide (recv_chap_challenge_status client <> 0%Z) then
            Some (local_error client AUTH_DBG_STATUS_CHALLENGE_BAD)
          else
            challenge ← buf_prefix (large_binary (recv_chap_challenge client))
                                   (lb_length (recv_chap_challenge client));
            own ← buf_prefix (large_binary (send_chap_challenge client))
                             (lb_length (send_chap_challenge client));
            if decide (node_type client = TYPE_TARGET /\ challenge = own) then
              Some (local_error client AUTH_DBG_STATUS_CHAP_CHALLENGE_REFLECTED)
            else
              '(dbg, response_data) ← acl_chap_compute_rsp client false number challenge
                                        (replicate AUTH_CHAP_RSP_MAX 0%Z);
              if decide (dbg <> AUTH_DBG_STATUS_NOT_SET) then Some (local_error client dbg)
              else
                response ← buf_prefix response_data (chap_challenge_len client);
                '(_, scratch) ← acl_data_to_text response (scratch_key_value client) 0 AUTH_STR_MAX_LEN;
                let client := client <| scratch_key_value := scratch |> in
                client ← set_send_key_scratch client AUTH_KEY_TYPE_CHAP_RSP;
                name ← cstr (username client) 0;
                client ← set_send_key client AUTH_KEY_TYPE_CHAP_USERNAME (Some name);
                Some (client <| local_state := AUTH_LOCAL_STATE_DONE |>)
      end
  end.

(** [acl_local_auth], case [AUTH_LOCAL_STATE_RECV_ALG], which falls through. *)
Definition local_recv_alg (client : iscsi_acl) : option iscsi_acl :=
  client ← acl_chk_chap_alg_key client;
  client ← (if decide (node_type client = TYPE_TARGET)
            then acl_set_chap_alg_key client 1 [negotiated_chap_alg client]
            else Some client);
  if decide (negotiated_chap_alg client = AUTH_OPTION_NOT_PRESENT) then
    Some (local_error client AUTH_DBG_STATUS_CHAP_ALG_EXPECTED)
  else if decide (negotiated_chap_alg client = AUTH_OPTION_REJECT) then
    Some (local_error client AUTH_DBG_STATUS_CHAP_ALG_REJECT)
  else if decide (¬ is_chap_alg (negotiated_chap_alg client)) then
    Some (local_error client AUTH_DBG_STATUS_CHAP_ALG_BAD)
  else if decide (node_type client = TYPE_TARGET) then
    Some (client <| local_state := AUTH_LOCAL_STATE_RECV_CHALLENGE |>)
  else local_recv_challenge client.

Definition acl_local_auth (client : iscsi_acl) : option iscsi_acl :=
  match local_state client with
  | AUTH_LOCAL_STATE_SEND_ALG =>
      if decide (node_type client = TYPE_INITIATOR) then
        client ← acl_set_chap_alg_key client (chap_alg_count client) (chap_alg_list client);
        Some (client <| local_state := AUTH_LOCAL_STATE_RECV_ALG |>)
      else local_recv_alg client
  | AUTH_LOCAL_STATE_RECV_ALG => local_recv_alg client
  | AUTH_LOCAL_STATE_RECV_CHALLENGE => local_recv_challenge client
  | AUTH_LOCAL_STATE_DONE => Some client
  | _ => Some (client <| phase := AUTH_PHASE_ERROR |>)
  end.

Definition rmt_error (client : iscsi_acl) (d : auth_dbg_status) : iscsi_acl :=
  client <| rmt_state := AUTH_RMT_STATE_ERROR |> <| dbg_status := d |>.

(** [acl_rmt_auth], case [AUTH_RMT_STATE_SEND_CHALLENGE]. *)
Definition rmt_send_challenge (client : iscsi_acl) : option iscsi_acl :=
  if negb (truth (auth_rmt client)) then
    Some (client <| rmt_auth_status := AUTH_STATUS_PASS |>
                 <| dbg_status := AUTH_DBG_STATUS_AUTH_RMT_FALSE |>
                 <| rmt_state := AUTH_RMT_STATE_DONE |>)
  else
    let rnd := RAND_bytes (rand_pos client) 1 in
    let client := client <| rand_pos := S (rand_pos client) |> in
    match rnd with
    | None => Some (rmt_error client AUTH_DBG_STATUS_AUTH_FAIL)
    | Some id_data =>
        id ← id_data !! 0;
        let client := client <| send_chap_identifier := id |> in
        '(scratch, _) ← strlcpy (scratch_key_value client) 0 (fmt_lu id) AUTH_STR_MAX_LEN;
        let client := client <| scratch_key_value := scratch |> in
        client ← set_send_key_scratch client AUTH_KEY_TYPE_CHAP_IDENTIFIER;
        let client := client <| send_chap_challenge :=
          (send_chap_challenge client) <| lb_length := chap_challenge_len client |> |> in
        let rnd := RAND_bytes (rand_pos client) (lb_length (send_chap_challenge client)) in
        let client := client <| rand_pos := S (rand_pos client) |> in
        match rnd with
        | None => Some (rmt_error client AUTH_DBG_STATUS_AUTH_FAIL)
        | Some bytes =>
            lb ← buf_write (large_binary (send_chap_challenge client)) 0 bytes;
            let client := client <| send_chap_challenge :=
              (send_chap_challenge client) <| large_binary := lb |> |> in
            client ← set_send_key client AUTH_KEY_TYPE_CHAP_CHALLENGE (Some []);
            Some (client <| rmt_state := AUTH_RMT_STATE_RECV_RSP |>)
        end
    end.

(** The end of case [AUTH_RMT_STATE_RECV_RSP]: the status is recorded. *)
Definition rmt_record_status (client : iscsi_acl) (status : auth_status) : iscsi_acl :=
  let client := client <| rmt_auth_status := status |> <| auth_rsp_flag := true |> in
  let client :=
    if auth_server_error_flag client then
      client <| rmt_auth_status := AUTH_STATUS_FAIL |>
             <| dbg_status := AUTH_DBG_STATUS_AUTH_SERVER_ERROR |>
    else match rmt_auth_status client with
         | AUTH_STATUS_PASS => client <| dbg_status := AUTH_DBG_STATUS_AUTH_PASS |>
         | AUTH_STATUS_FAIL => client <| dbg_status := AUTH_DBG_STATUS_AUTH_FAIL |>
         | _ => client <| rmt_auth_status := AUTH_STATUS_FAIL |>
                       <| dbg_status := AUTH_DBG_STATUS_AUTH_STATUS_BAD |>
         end in
  client <| rmt_state := AUTH_RMT_STATE_DONE |>.

(** Whether the response of the target is the one this side would compute
    with its own password. *)
Definition rmt_same_password (client : iscsi_acl) (challenge response_data : list Z)
    (rsp_len : nat) : option bool :=
  if decide (rsp_len = chap_challenge_len client) then
    '(dbg, my_rsp_data) ← acl_chap_compute_rsp client true (send_chap_identifier client)
                            challenge (replicate AUTH_CHAP_RSP_MAX 0%Z);
    if decide (dbg = AUTH_DBG_STATUS_NOT_SET) then
      mine ← buf_prefix my_rsp_data (chap_challenge_len client);
      theirs ← buf_prefix response_data (chap_challenge_len client);
      Some (bool_decide (mine = theirs))
    else Some false
  else Some false.

(** [acl_rmt_auth], case [AUTH_RMT_STATE_RECV_RSP]. *)
Definition rmt_recv_rsp (client : iscsi_acl) : option iscsi_acl :=
  '(rsp_val, blk) ← acl_get_key_val (recv_key_block client) AUTH_KEY_TYPE_CHAP_RSP;
  '(name_val, blk) ← acl_get_key_val blk AUTH_KEY_TYPE_CHAP_USERNAME;
  let client := client <| recv_key_block := blk |> in
  match rsp_val, name_val with
  | None, _ => Some (rmt_error client AUTH_DBG_STATUS_CHAP_RSP_EXPECTED)
  | Some _, None => Some (rmt_error client AUTH_DBG_STATUS_CHAP_USERNAME_EXPECTED)
  | Some rsp_text, Some name_text =>
      '(status, response_data, rsp_len) ←
        acl_text_to_data rsp_text (replicate AUTH_STR_MAX_LEN 0%Z) AUTH_STR_MAX_LEN;
      if decide (status <> 0%Z) then Some (rmt_error client AUTH_DBG_STATUS_CHAP_RSP_BAD)
      else
        challenge ← buf_prefix (large_binary (send_chap_challenge client))
                               (lb_length (send_chap_challenge client));
        same ← rmt_same_password client challenge response_data rsp_len;
        if same : bool then Some (rmt_error client AUTH_DBG_STATUS_PASSWD_IDENTICAL)
        else
          '(name_buf, _) ← strlcpy (chap_username client) 0 name_text AUTH_STR_MAX_LEN;
          let client := client <| chap_username := name_buf |> in
          name ← cstr name_buf 0;
          status ← acl_chap_auth_request client name (send_chap_identifier client)
                     challenge response_data rsp_len;
          Some (rmt_record_status client status)
  end.

Definition acl_rmt_auth (client : iscsi_acl) : option iscsi_acl :=
  match rmt_state client with
  | AUTH_RMT_STATE_SEND_ALG =>
      if decide (node_type client = TYPE_INITIATOR) then
        Some (client <| rmt_state := AUTH_RMT_STATE_SEND_CHALLENGE |>)
      else rmt_send_challenge client
  | AUTH_RMT_STATE_SEND_CHALLENGE => rmt_send_challenge client
  | AUTH_RMT_STATE_RECV_RSP => rmt_recv_rsp client
  | AUTH_RMT_STATE_DONE => Some client
  | _ => Some (client <| phase := AUTH_PHASE_ERROR |>)
  end.

(** [rmt_auth_status = FAIL; phase = DONE; dbg_status = d]. *)
Definition auth_fail (client : iscsi_acl) (d : auth_dbg_status) : iscsi_acl :=
  client <| rmt_auth_status := AUTH_STATUS_FAIL |> <| phase := AUTH_PHASE_DONE |>
         <| dbg_status := d |>.

Definition set_send_transit (client : iscsi_acl) (b : bool) : iscsi_acl :=
  client <| send_key_block := (send_key_block client) <| transit_bit := b |> |>.

Definition acl_hand_shake (client : iscsi_acl) : iscsi_acl :=
  let T := transit_bit (recv_key_block client) in
  if decide (phase client = AUTH_PHASE_DONE) then client
  else if decide (node_type client = TYPE_INITIATOR /\ T = true
                  /\ transit_bit_sent_flag client = false) then
    auth_fail client AUTH_DBG_STATUS_T_BIT_SET_ILLEGAL
  else if decide (phase client = AUTH_PHASE_NEGOTIATE) then
    if decide (node_type client = TYPE_INITIATOR) then set_send_transit client true else client
  else if decide (rmt_state client = AUTH_RMT_STATE_RECV_RSP \/
                  rmt_state client = AUTH_RMT_STATE_DONE) then
    if decide (node_type client = TYPE_INITIATOR) then
      if T then
        if decide (rmt_state client <> AUTH_RMT_STATE_DONE) then
          auth_fail client AUTH_DBG_STATUS_T_BIT_SET_PREMATURE
        else acl_next_phase client
      else set_send_transit client true
    else if decide (rmt_state client = AUTH_RMT_STATE_DONE /\
                    rmt_auth_status client <> AUTH_STATUS_PASS) then acl_next_phase client
    else if T then acl_next_phase (set_send_transit client true)
    else client
  else if decide (node_type client = TYPE_INITIATOR /\ T = true) then
    auth_fail client AUTH_DBG_STATUS_T_BIT_SET_PREMATURE
  else client.

(** A received key that no code looked at. *)
Definition key_unprocessed (k : auth_key) : bool := present k && negb (processed k).

(** [acl_rcv_end_status]: the checks of the send block and of the received keys. *)
Definition rcv_end_check_keys (client : iscsi_acl) (st : auth_status)
    : auth_status * iscsi_acl :=
  if decide (st = AUTH_STATUS_CONTINUE \/ st = AUTH_STATUS_PASS) then
    if dup_set (send_key_block client) then
      (AUTH_STATUS_FAIL, auth_fail client AUTH_DBG_STATUS_SEND_DUP_SET_KEY_VALUE)
    else if str_too_long (send_key_block client) then
      (AUTH_STATUS_FAIL, auth_fail client AUTH_DBG_STATUS_SEND_STR_TOO_LONG)
    else if too_much_data (send_key_block client) then
      (AUTH_STATUS_FAIL, auth_fail client AUTH_DBG_STATUS_SEND_TOO_MUCH_DATA)
    else if existsb key_unprocessed (key (recv_key_block client)) then
      (AUTH_STATUS_FAIL, auth_fail client AUTH_DBG_STATUS_UNEXPECTED_KEY_PRESENT)
    else (st, client)
  else (st, client).

(** [acl_rcv_end_status]: on error the send keys are suppressed, except a
    target's rejection of AuthMethod or CHAP_A. *)
Definition rcv_end_suppress (client : iscsi_acl) : option iscsi_acl :=
  if decide (node_type client = TYPE_TARGET) then
    '(m, blk) ← acl_get_key_val (send_key_block client) AUTH_KEY_TYPE_AUTH_METHOD;
    '(a, blk) ← match m with
                | Some _ => Some (None, blk)
                | None => acl_get_key_val blk AUTH_KEY_TYPE_CHAP_ALG
                end;
    let client := client <| send_key_block := acl_init_key_blk blk |> in
    if decide (is_Some m /\ negotiated_auth_method client = AUTH_OPTION_REJECT) then
      set_send_key client AUTH_KEY_TYPE_AUTH_METHOD (Some acl_reject_option_name)
    else if decide (is_Some a /\ negotiated_chap_alg client = AUTH_OPTION_REJECT) then
      set_send_key client AUTH_KEY_TYPE_CHAP_ALG (Some acl_reject_option_name)
    else Some client
  else Some (client <| send_key_block := acl_init_key_blk (send_key_block client) |>).

Definition acl_rcv_end_status (client : iscsi_acl) : option (auth_status * iscsi_acl) :=
  if decide (phase client = AUTH_PHASE_ERROR) then Some (AUTH_STATUS_ERROR, client)
  else
    let '(st, client) :=
      if decide (phase client = AUTH_PHASE_DONE) then
        let client :=
          if decide (truth (auth_rmt client) = true /\ auth_rsp_flag client = false /\
                     rmt_auth_status client = AUTH_STATUS_PASS)
          then client <| rmt_auth_status := AUTH_STATUS_FAIL |>
                      <| dbg_status := AUTH_DBG_STATUS_AUTHPASS_NOT_VALID |>
          else client in
        (rmt_auth_status client, client)
      else (AUTH_STATUS_CONTINUE, client) in
    let '(st, client) := rcv_end_check_keys client st in
    client ← (if decide (st <> AUTH_STATUS_PASS /\ st <> AUTH_STATUS_CONTINUE)
              then rcv_end_suppress client else Some client);
    Some (st, client <| recv_in_progress_flag := false |>).

(** ** The interface to the login code

    [if (!client || client->signature != ACL_SIGNATURE) return ERROR]: [None]
    is a NULL pointer. *)
Definition with_client (client : option iscsi_acl)
    (f : iscsi_acl -> option (auth_status * iscsi_acl)) : option (auth_status * option iscsi_acl) :=
  match client with
  | None => Some (AUTH_STATUS_ERROR, None)
  | Some c =>
      if decide (signature c <> ACL_SIGNATURE) then Some (AUTH_STATUS_ERROR, Some c)
      else '(st, c') ← f c; Some (st, Some c')
  end.

(** [client->phase = AUTH_PHASE_ERROR; return AUTH_STATUS_ERROR]. *)
Definition phase_error (c : iscsi_acl) : auth_status * iscsi_acl :=
  (AUTH_STATUS_ERROR, c <| phase := AUTH_PHASE_ERROR |>).

Definition recv_begin (c : iscsi_acl) : auth_status * iscsi_acl :=
  if decide (phase c = AUTH_PHASE_ERROR) then (AUTH_STATUS_ERROR, c)
  else if decide (phase c = AUTH_PHASE_DONE) then phase_error c
  else if recv_in_progress_flag c then phase_error c
  else
    let c := c <| recv_in_progress_flag := true |> in
    let c := if decide (phase c = AUTH_PHASE_CONFIGURE) then acl_next_phase c else c in
    let c := c <| transit_bit_sent_flag := transit_bit (send_key_block c) |> in
    let c := c <| recv_key_block := acl_init_key_blk (recv_key_block c) |> in
    let c := c <| send_key_block := acl_init_key_blk (send_key_block c) |> in
    (AUTH_STATUS_NO_ERROR, c).

Definition acl_recv_begin (client : option iscsi_acl) : option (auth_status * option iscsi_acl) :=
  with_client client (fun c => Some (recv_begin c)).

(** [acl_recv_end]: the checks of the received message, up to the first switch. *)
Definition recv_end_checks (c : iscsi_acl) : iscsi_acl :=
  if decide (AUTH_RECV_END_MAX_COUNT < recv_end_count c) then
    auth_fail c AUTH_DBG_STATUS_RECV_MSG_COUNT_LIMIT
  else if dup_set (recv_key_block c) then auth_fail c AUTH_DBG_STATUS_RECV_DUP_SET_KEY_VALUE
  else if str_too_long (recv_key_block c) then auth_fail c AUTH_DBG_STATUS_RECV_STR_TOO_LONG
  else if too_much_data (recv_key_block c) then auth_fail c AUTH_DBG_STATUS_RECV_TOO_MUCH_DATA
  else c.

(** [acl_recv_end], first switch, case [AUTH_PHASE_NEGOTIATE]: the client and
    [next_phase_flag]. *)
Definition recv_end_negotiate (c : iscsi_acl) : option (iscsi_acl * bool) :=
  c ← acl_chk_auth_method_key c;
  if decide (auth_method_valid_neg_role c = AUTH_NEG_ROLE_RESPONDER) then
    if decide (negotiated_auth_method c = AUTH_OPTION_NOT_PRESENT /\
               (truth (auth_rmt c) = true \/ transit_bit (recv_key_block c) = false)) then
      let c := c <| auth_method_valid_neg_role := AUTH_NEG_ROLE_ORIGINATOR |> in
      c ← acl_set_auth_method_key c (auth_method_valid_count c) (auth_method_valid_list c);
      Some (c, false)
    else
      c ← (if decide (negotiated_auth_method c = AUTH_OPTION_NOT_PRESENT) then Some c
           else acl_set_auth_method_key c 1 [negotiated_auth_method c]);
      if decide (node_type c = TYPE_INITIATOR) then Some (acl_next_phase c, false)
      else Some (c, true)
  else if decide (negotiated_auth_method c = AUTH_OPTION_NOT_PRESENT) then
    Some (auth_fail c AUTH_DBG_STATUS_AUTH_METHOD_EXPECTED, false)
  else Some (acl_next_phase c, false).

(** [acl_recv_end], second switch, case [AUTH_PHASE_AUTHENTICATE]. *)
Definition recv_end_authenticate (c : iscsi_acl) : option iscsi_acl :=
  c ← acl_local_auth c;
  c ← (if decide (local_state c <> AUTH_LOCAL_STATE_ERROR) then acl_rmt_auth c else Some c);
  Some (if decide (local_state c = AUTH_LOCAL_STATE_ERROR \/ rmt_state c = AUTH_RMT_STATE_ERROR)
        then c <| rmt_auth_status := AUTH_STATUS_FAIL |> <| phase := AUTH_PHASE_DONE |>
        else c).

(** [acl_recv_end] after the second switch. *)
Definition recv_end_finish (c : iscsi_acl) : option (auth_status * iscsi_acl) :=
  acl_rcv_end_status (acl_hand_shake c).

(** [acl_recv_end] from the second switch on. *)
Definition recv_end_second (c : iscsi_acl) (next_phase_flag : bool)
    : option (auth_status * iscsi_acl) :=
  match phase c with
  | AUTH_PHASE_NEGOTIATE => recv_end_finish (if next_phase_flag then acl_next_phase c else c)
  | AUTH_PHASE_AUTHENTICATE => c ← recv_end_authenticate c; recv_end_finish c
  | AUTH_PHASE_DONE => recv_end_finish c
  | _ => Some (phase_error c)
  end.

Definition recv_end (c : iscsi_acl) (session : auth_session) : option (auth_status * iscsi_acl) :=
  if decide (phase c = AUTH_PHASE_ERROR) then Some (AUTH_STATUS_ERROR, c)
  else if negb (recv_in_progress_flag c) then Some (phase_error c)
  else
    let c := recv_end_checks c in
    let c := c <| recv_end_count := S (recv_end_count c) |>
               <| session_handle := Some session |> in
    match phase c with
    | AUTH_PHASE_NEGOTIATE =>
        '(c, next_phase_flag) ← recv_end_negotiate c; recv_end_second c next_phase_flag
    | AUTH_PHASE_AUTHENTICATE | AUTH_PHASE_DONE => recv_end_second c false
    | _ => Some (phase_error c)
    end.

Definition acl_recv_end (client : option iscsi_acl) (session : auth_session)
    : option (auth_status * option iscsi_acl) :=
  with_client client (fun c => recv_end c session).

Definition key_names : list (list Z) :=
  [str "AuthMethod"; str "CHAP_A"; str "CHAP_N"; str "CHAP_R"; str "CHAP_I"; str "CHAP_C"].

Definition acl_get_key_name (key_type : Z) : option (list Z) :=
  if decide (key_type < AUTH_KEY_TYPE_FIRST \/ AUTH_KEY_TYPE_LAST < key_type)%Z then None
  else key_names !! Z.to_nat key_type.

Definition acl_get_next_key_type (key_type : Z) : auth_status * Z :=
  if decide (AUTH_KEY_TYPE_LAST <= key_type)%Z then (AUTH_STATUS_ERROR, key_type)
  else if decide (key_type < AUTH_KEY_TYPE_FIRST)%Z then (AUTH_STATUS_NO_ERROR, AUTH_KEY_TYPE_FIRST)
  else (AUTH_STATUS_NO_ERROR, key_type + 1)%Z.

Definition recv_key_value (c : iscsi_acl) (key_type : Z) (user_key_val : list Z)
    : option (auth_status * iscsi_acl) :=
  if decide (phase c <> AUTH_PHASE_NEGOTIATE /\ phase c <> AUTH_PHASE_AUTHENTICATE) then
    Some (phase_error c)
  else if decide (key_type < AUTH_KEY_TYPE_FIRST \/ AUTH_KEY_TYPE_LAST < key_type)%Z then
    Some (phase_error c)
  else
    '(c, v) ←
      (if decide (key_type = Z.of_nat AUTH_KEY_TYPE_CHAP_CHALLENGE) then
         '(st, lb, len) ← acl_text_to_data user_key_val (large_binary (recv_chap_challenge c))
                            AUTH_LARGE_BINARY_MAX_LEN;
         Some (c <| recv_chap_challenge := mk_large_binary len lb |>
                 <| recv_chap_challenge_status := st |>, [])
       else Some (c, user_key_val));
    blk ← acl_set_key_value (recv_key_block c) (Z.to_nat key_type) (Some v);
    Some (AUTH_STATUS_NO_ERROR, c <| recv_key_block := blk |>).

Definition acl_recv_key_value (client : option iscsi_acl) (key_type : Z) (user_key_val : list Z)
    : option (auth_status * option iscsi_acl) :=
  with_client client (fun c => recv_key_value c key_type user_key_val).

(** The phases in which values are sent. *)
Definition can_send (c : iscsi_acl) : bool :=
  match phase c with
  | AUTH_PHASE_CONFIGURE | AUTH_PHASE_NEGOTIATE | AUTH_PHASE_AUTHENTICATE | AUTH_PHASE_DONE => true
  | _ => false
  end.

(** [acl_send_key_val(client, key_type, &key_present, buf + off, max_length)]:
    status, [key_present], buffer and client. *)
Definition acl_send_key_val (client : option iscsi_acl) (key_type : Z) (key_present : bool)
    (buf : list Z) (off max_length : nat)
    : option (auth_status * bool * list Z * option iscsi_acl) :=
  match client with
  | None => Some (AUTH_STATUS_ERROR, key_present, buf, None)
  | Some c =>
      let err c := Some (AUTH_STATUS_ERROR, key_present, buf, Some (c <| phase := AUTH_PHASE_ERROR |>)) in
      if decide (signature c <> ACL_SIGNATURE) then
        Some (AUTH_STATUS_ERROR, key_present, buf, client)
      else if negb (can_send c) then err c
      else if decide (key_type < AUTH_KEY_TYPE_FIRST \/ AUTH_KEY_TYPE_LAST < key_type)%Z then err c
      else
        '(key_val, blk) ← acl_get_key_val (send_key_block c) (Z.to_nat key_type);
        let c := c <| send_key_block := blk |> in
        match key_val with
        | None => Some (AUTH_STATUS_NO_ERROR, false, buf, Some c)
        | Some v =>
            '(failed, buf') ←
              (if decide (key_type = Z.of_nat AUTH_KEY_TYPE_CHAP_CHALLENGE) then
                 d ← buf_prefix (large_binary (send_chap_challenge c))
                                (lb_length (send_chap_challenge c));
                 '(st, b) ← acl_data_to_text d buf off max_length;
                 Some (bool_decide (st <> 0%Z), b)
               else
                 '(b, n) ← strlcpy buf off v max_length;
                 Some (bool_decide (max_length <= n), b));
            if failed : bool then
              Some (AUTH_STATUS_ERROR, key_present, buf', Some (c <| phase := AUTH_PHASE_ERROR |>))
            else Some (AUTH_STATUS_NO_ERROR, true, buf', Some c)
        end
  end.

Definition recv_transit_bit (c : iscsi_acl) (value : Z) : auth_status * iscsi_acl :=
  if decide (phase c <> AUTH_PHASE_NEGOTIATE /\ phase c <> AUTH_PHASE_AUTHENTICATE) then
    phase_error c
  else (AUTH_STATUS_NO_ERROR,
        c <| recv_key_block := (recv_key_block c) <| transit_bit := truth value |> |>).

Definition acl_recv_transit_bit (client : option iscsi_acl) (value : Z)
    : option (auth_status * option iscsi_acl) :=
  with_client client (fun c => Some (recv_transit_bit c value)).

(** Status, [*value] and client. *)
Definition acl_send_transit_bit (client : option iscsi_acl) (value : bool)
    : auth_status * bool * option iscsi_acl :=
  match client with
  | None => (AUTH_STATUS_ERROR, value, None)
  | Some c =>
      if decide (signature c <> ACL_SIGNATURE) then (AUTH_STATUS_ERROR, value, client)
      else if negb (can_send c) then
        (AUTH_STATUS_ERROR, value, Some (c <| phase := AUTH_PHASE_ERROR |>))
      else (AUTH_STATUS_NO_ERROR, transit_bit (send_key_block c), client)
  end.

(** ** Configuration *)

(** [acl_set_option_list] after the signature test: status, client, and the
    option list and count of the client. *)
Definition acl_set_option_list (c : iscsi_acl) (opt_count : nat) (opt_list : list Z)
    (clnt_optn_count : nat) (clnt_optn_list : list Z) (optn_max_count : nat)
    (chk_option : Z -> bool) (chk_list : nat -> list Z -> bool)
    : option (auth_status * iscsi_acl * list Z * nat) :=
  let err := (AUTH_STATUS_ERROR, c <| phase := AUTH_PHASE_ERROR |>, clnt_optn_list, clnt_optn_count) in
  if decide (phase c <> AUTH_PHASE_CONFIGURE \/ optn_max_count < opt_count) then Some err
  else
    opts ← buf_prefix opt_list opt_count;
    if existsb chk_option opts then Some err
    else if decide (¬ NoDup opts) then Some err
    else if chk_list opt_count opt_list then Some err
    else if decide (length clnt_optn_list < opt_count) then None
    else Some (AUTH_STATUS_NO_ERROR, c, opts ++ drop opt_count clnt_optn_list, opt_count).

(** The loop of the source returns 0 whatever it finds. *)
Definition acl_chk_auth_method_list (option_count : nat) (option_list : list Z) : bool :=
  if decide (option_count < 2) then true
  else bool_decide (option_list !! (option_count - 1) <> Some AUTH_OPTION_NONE).

(** The methods to offer or accept. *)
Definition auth_method_filter (c : iscsi_acl) (method : Z) : bool :=
  let opt :=
    match node_type c with
    | TYPE_INITIATOR => if truth (auth_rmt c) then 1
                        else if negb (passwd_present c) then 2 else 0
    | TYPE_TARGET => if truth (auth_rmt c) then 1 else 2
    | TYPE_0 => 0
    end in
  match opt with
  | 1 => bool_decide (method <> AUTH_OPTION_NONE)
  | 2 => bool_decide (method = AUTH_OPTION_NONE)
  | _ => true
  end.

(** [acl_set_auth_method_valid]: the filtered list is stored and the send block reset. *)
Definition valid_methods (c : iscsi_acl) (valid : list Z) : iscsi_acl :=
  c <| auth_method_valid_list := valid ++ drop (length valid) (auth_method_valid_list c) |>
    <| auth_method_valid_count := length valid |>
    <| send_key_block := acl_init_key_blk (send_key_block c) |>.

(** [acl_set_auth_method_valid]: the T bit and the role of this side. *)
Definition valid_role (c : iscsi_acl) : iscsi_acl :=
  if decide (node_type c = TYPE_INITIATOR) then
    if truth (auth_rmt c) then
      (set_send_transit c false) <| auth_method_valid_neg_role := AUTH_NEG_ROLE_ORIGINATOR |>
    else
      (set_send_transit c true) <| auth_method_valid_neg_role := auth_method_neg_role c |>
  else (set_send_transit c false) <| auth_method_valid_neg_role := AUTH_NEG_ROLE_RESPONDER |>.

Definition acl_set_auth_method_valid (c : iscsi_acl) : option iscsi_acl :=
  methods ← buf_prefix (auth_method_list c) (auth_method_count c);
  let valid := List.filter (auth_method_filter c) methods in
  if decide (length (auth_method_valid_list c) < length valid) then None
  else
    let c := valid_role (valid_methods c valid) in
    if decide (auth_method_valid_neg_role c = AUTH_NEG_ROLE_ORIGINATOR) then
      acl_set_auth_method_key c (auth_method_valid_count c) (auth_method_valid_list c)
    else acl_set_auth_method_key c 1 [AUTH_OPTION_NOT_PRESENT].

Definition acl_set_auth_method_list (c : iscsi_acl) (option_count : nat) (option_list : list Z)
    : option (auth_status * iscsi_acl) :=
  '(st, c, l, n) ← acl_set_option_list c option_count option_list (auth_method_count c)
                     (auth_method_list c) AUTH_METHOD_MAX_COUNT acl_chk_auth_mthd_optn
                     acl_chk_auth_method_list;
  let c := c <| auth_method_list := l |> <| auth_method_count := n |> in
  if decide (st <> AUTH_STATUS_NO_ERROR) then Some (st, c)
  else c ← acl_set_auth_method_valid c; Some (AUTH_STATUS_NO_ERROR, c).

Definition acl_chk_chap_alg_list (option_count : nat) (option_list : list Z) : bool :=
  bool_decide (option_count < 1).

Definition set_chap_alg_list (c : iscsi_acl) (option_count : nat) (option_list : list Z)
    : option (auth_status * iscsi_acl) :=
  '(st, c, l, n) ← acl_set_option_list c option_count option_list (chap_alg_count c)
                     (chap_alg_list c) AUTH_CHAP_ALG_MAX_COUNT acl_chk_chap_alg_optn
                     acl_chk_chap_alg_list;
  Some (st, c <| chap_alg_list := l |> <| chap_alg_count := n |>).

Definition acl_set_chap_alg_list (client : option iscsi_acl) (option_count : nat)
    (option_list : list Z) : option (auth_status * option iscsi_acl) :=
  with_client client (fun c => set_chap_alg_list c option_count option_list).

(** [acl_init_chap_digests]: the configured algorithms that the crypto library
    supports, in order; their number is the returned value. *)
Definition acl_init_chap_digests (chap_algs : list Z) : list Z :=
  List.filter (fun alg => bool_decide (is_chap_alg alg) && EVP_DigestInit_ex alg) chap_algs.

(** [memset(client, 0, sizeof( *client))]: no block is attached. *)
Definition zero_blk : auth_key_block :=
  mk_key_block false false false false 0 [] (replicate AUTH_KEY_TYPE_MAX_COUNT zero_key).

Definition zero_acl (pos : nat) : iscsi_acl :=
  mk_acl 0 TYPE_0 0 (replicate AUTH_METHOD_MAX_COUNT 0%Z) AUTH_NEG_ROLE_0
    0 (replicate AUTH_CHAP_ALG_MAX_COUNT 0%Z) 0 (replicate AUTH_STR_MAX_LEN 0%Z)
    false 0 (replicate AUTH_STR_MAX_LEN 0%Z) 0 0
    0 (replicate AUTH_METHOD_MAX_COUNT 0%Z) AUTH_NEG_ROLE_0
    false 0 None AUTH_PHASE_0 AUTH_LOCAL_STATE_0 AUTH_RMT_STATE_0 AUTH_STATUS_NO_ERROR
    AUTH_DBG_STATUS_NOT_SET 0 0 false false false
    0 (mk_large_binary 0 []) (replicate AUTH_STR_MAX_LEN 0%Z) 0 (mk_large_binary 0 [])
    (replicate AUTH_STR_MAX_LEN 0%Z) zero_blk zero_blk pos.

(** A buffer descriptor: [None] for a NULL address, else the length. *)
Definition desc_ok (buff_desc : list (option nat)) : bool :=
  bool_decide (buff_desc =
    [Some sizeof_iscsi_acl; Some AUTH_STR_BLOCK_MAX_LEN; Some AUTH_STR_BLOCK_MAX_LEN;
     Some AUTH_LARGE_BINARY_MAX_LEN; Some AUTH_LARGE_BINARY_MAX_LEN]).

(** [acl_init]: the zeroed client with its four buffers attached. *)
Definition init_buffers (pos : nat) : iscsi_acl :=
  (zero_acl pos) <| recv_key_block := zero_blk <| str_block := replicate AUTH_STR_BLOCK_MAX_LEN 0%Z |> |>
    <| send_key_block := zero_blk <| str_block := replicate AUTH_STR_BLOCK_MAX_LEN 0%Z |> |>
    <| recv_chap_challenge := mk_large_binary 0 (replicate AUTH_LARGE_BINARY_MAX_LEN 0%Z) |>
    <| send_chap_challenge := mk_large_binary 0 (replicate AUTH_LARGE_BINARY_MAX_LEN 0%Z) |>.

(** [acl_init]: the assignments before the first configuration call. *)
Definition init_fields (node : auth_node_type) (c : iscsi_acl) : iscsi_acl :=
  c <| signature := ACL_SIGNATURE |> <| node_type := node |> <| auth_rmt := 1%Z |>
    <| passwd_present := false |> <| ip_sec := 0%Z |>
    <| phase := AUTH_PHASE_CONFIGURE |>
    <| negotiated_auth_method := AUTH_OPTION_NOT_PRESENT |>
    <| negotiated_chap_alg := AUTH_OPTION_NOT_PRESENT |>
    <| auth_method_neg_role :=
         if decide (node = TYPE_INITIATOR) then AUTH_NEG_ROLE_ORIGINATOR
         else AUTH_NEG_ROLE_RESPONDER |>.

(** [c] is the memory of the client before the call. *)
Definition acl_init (node : auth_node_type) (buf_desc_count : Z) (buff_desc : list (option nat))
    (c : iscsi_acl) : option (auth_status * iscsi_acl) :=
  if decide (buf_desc_count <> 5%Z) then Some (AUTH_STATUS_ERROR, c)
  else if negb (desc_ok buff_desc) then Some (AUTH_STATUS_ERROR, c)
  else
    let c := init_buffers (rand_pos c) in
    if decide (node <> TYPE_INITIATOR /\ node <> TYPE_TARGET) then Some (phase_error c)
    else
      '(st, c) ← acl_set_auth_method_list (init_fields node c) 2 [AUTH_METHOD_CHAP; AUTH_OPTION_NONE];
      if decide (st <> AUTH_STATUS_NO_ERROR) then Some (phase_error c)
      else Some (AUTH_STATUS_NO_ERROR, c).

Definition acl_finish (client : option iscsi_acl) : option (auth_status * option iscsi_acl) :=
  with_client client (fun c => Some (AUTH_STATUS_NO_ERROR, zero_acl (rand_pos c))).

Definition set_user_name (c : iscsi_acl) (name : option (list Z)) : option (auth_status * iscsi_acl) :=
  if decide (phase c <> AUTH_PHASE_CONFIGURE \/ acl_chk_string name AUTH_STR_MAX_LEN = None) then
    Some (phase_error c)
  else match name with
       | None => b ← buf_set (username c) 0 NUL; Some (AUTH_STATUS_NO_ERROR, c <| username := b |>)
       | Some s =>
           '(b, n) ← strlcpy (username c) 0 s AUTH_STR_MAX_LEN;
           let c := c <| username := b |> in
           if decide (AUTH_STR_MAX_LEN <= n) then Some (phase_error c)
           else Some (AUTH_STATUS_NO_ERROR, c)
       end.

Definition acl_set_user_name (client : option iscsi_acl) (name : option (list Z))
    : option (auth_status * option iscsi_acl) :=
  with_client client (fun c => set_user_name c name).

Definition set_passwd (c : iscsi_acl) (pw_data : list Z) (pw_len : nat)
    : option (auth_status * iscsi_acl) :=
  if decide (phase c <> AUTH_PHASE_CONFIGURE \/ AUTH_STR_MAX_LEN < pw_len) then Some (phase_error c)
  else
    d ← buf_prefix pw_data pw_len;
    b ← buf_write (passwd_data c) 0 d;
    let c := c <| passwd_data := b |> <| passwd_length := pw_len |> <| passwd_present := true |> in
    c ← acl_set_auth_method_valid c;
    Some (AUTH_STATUS_NO_ERROR, c).

Definition acl_set_passwd (client : option iscsi_acl) (pw_data : list Z) (pw_len : nat)
    : option (auth_status * option iscsi_acl) :=
  with_client client (fun c => set_passwd c pw_data pw_len).

Definition set_auth_rmt (c : iscsi_acl) (rmt : Z) : option (auth_status * iscsi_acl) :=
  if decide (phase c <> AUTH_PHASE_CONFIGURE) then Some (phase_error c)
  else
    c ← acl_set_auth_method_valid (c <| auth_rmt := rmt |>);
    Some (AUTH_STATUS_NO_ERROR, c).

Definition acl_set_auth_rmt (client : option iscsi_acl) (rmt : Z)
    : option (auth_status * option iscsi_acl) :=
  with_client client (fun c => set_auth_rmt c rmt).

Definition set_ip_sec (c : iscsi_acl) (v : Z) : auth_status * iscsi_acl :=
  if decide (phase c <> AUTH_PHASE_CONFIGURE) then phase_error c
  else (AUTH_STATUS_NO_ERROR, c <| ip_sec := v |>).

Definition acl_set_ip_sec (client : option iscsi_acl) (v : Z)
    : option (auth_status * option iscsi_acl) :=
  with_client client (fun c => Some (set_ip_sec c v)).

(** Status, [*value] on success, client. *)
Definition get_dbg_status (c : iscsi_acl) : auth_status * iscsi_acl :=
  if decide (phase c <> AUTH_PHASE_DONE) then phase_error c
  else (AUTH_STATUS_NO_ERROR, c).

Definition acl_get_dbg_status (client : option iscsi_acl) : option (auth_status * option iscsi_acl) :=
  with_client client (fun c => Some (get_dbg_status c)).

End Operations.
