(* ===== verification/AclFrame.v ===== *)
(** * What the operations of the authentication client leave unchanged

    [ctl_of] is the part of the client that controls the protocol.  The
    operations that only move text between buffers keep it; the frame lemmas
    of this file say so, and give the local state in which the two halves of
    the authentication end. *)
From S2P Require Import Prelude CString AuthText Acl.
From Stdlib Require Import Ascii Lia ZArith.
From stdpp Require Import base tactics numbers list strings option.

(** The value of a key that a message carried. *)
Definition key_value (b : auth_key_block) (kt : nat) : option (list Z) :=
  k ← key b !! kt;
  if present k then off ← string_at k; cstr (str_block b) off else None.

Definition key_values (b : auth_key_block) : list (option (list Z)) :=
  key_value b <$> seq 0 AUTH_KEY_TYPE_MAX_COUNT.

Record acl_ctl := mk_ctl {
  ctl_signature : Z;
  ctl_node_type : auth_node_type;
  ctl_auth_rmt : Z;
  ctl_session : option auth_session;
  ctl_phase : auth_phase;
  ctl_rmt_state : auth_rmt_state;
  ctl_rmt_auth_status : auth_status;
  ctl_auth_rsp_flag : bool;
  ctl_server_error : bool;
  ctl_transit_sent : bool;
  ctl_in_progress : bool;
  ctl_count : nat;
  ctl_neg_role : auth_neg_role;
  ctl_identifier : Z;
  ctl_challenge : auth_large_binary_key;
  ctl_method : Z;
  ctl_recv_transit : bool;
  ctl_send_transit : bool;
  ctl_recv_keys : list (option (list Z));
  ctl_own_role : auth_neg_role;
  ctl_rand_pos : nat
}.

#[export] Instance eta_ctl : Eta acl_ctl := fun k =>
  mk_ctl (ctl_signature k) (ctl_node_type k) (ctl_auth_rmt k) (ctl_session k) (ctl_phase k)
    (ctl_rmt_state k) (ctl_rmt_auth_status k) (ctl_auth_rsp_flag k) (ctl_server_error k)
    (ctl_transit_sent k) (ctl_in_progress k) (ctl_count k) (ctl_neg_role k) (ctl_identifier k)
    (ctl_challenge k) (ctl_method k) (ctl_recv_transit k) (ctl_send_transit k) (ctl_recv_keys k)
    (ctl_own_role k) (ctl_rand_pos k).

Definition ctl_of (c : iscsi_acl) : acl_ctl :=
  mk_ctl (signature c) (node_type c) (auth_rmt c) (session_handle c) (phase c) (rmt_state c)
    (rmt_auth_status c) (auth_rsp_flag c) (auth_server_error_flag c) (transit_bit_sent_flag c)
    (recv_in_progress_flag c) (recv_end_count c) (auth_method_valid_neg_role c)
    (send_chap_identifier c) (send_chap_challenge c) (negotiated_auth_method c)
    (transit_bit (recv_key_block c)) (transit_bit (send_key_block c))
    (key_values (recv_key_block c)) (auth_method_neg_role c) (rand_pos c).

(** The same control part and the same local state. *)
Definition same_ctl (c c' : iscsi_acl) : Prop :=
  ctl_of c' = ctl_of c /\ local_state c' = local_state c.

#[export] Instance same_ctl_refl : Reflexive same_ctl.
Proof. done. Qed.

#[export] Instance same_ctl_trans : Transitive same_ctl.
Proof. intros c1 c2 c3 [H1 H2] [H3 H4]. split; congruence. Qed.

(** The field equations of [ctl_of c' = ctl_of c]. *)
Lemma ctl_eq c c' :
  ctl_of c' = ctl_of c ->
  (signature c' = signature c /\ node_type c' = node_type c /\ auth_rmt c' = auth_rmt c /\
   session_handle c' = session_handle c /\ phase c' = phase c /\ rmt_state c' = rmt_state c /\
   rmt_auth_status c' = rmt_auth_status c /\ auth_rsp_flag c' = auth_rsp_flag c /\
   auth_server_error_flag c' = auth_server_error_flag c) /\
  (transit_bit_sent_flag c' = transit_bit_sent_flag c /\
   recv_in_progress_flag c' = recv_in_progress_flag c /\ recv_end_count c' = recv_end_count c /\
   auth_method_valid_neg_role c' = auth_method_valid_neg_role c /\
   send_chap_identifier c' = send_chap_identifier c /\
   send_chap_challenge c' = send_chap_challenge c /\
   negotiated_auth_method c' = negotiated_auth_method c /\
   transit_bit (recv_key_block c') = transit_bit (recv_key_block c) /\
   transit_bit (send_key_block c') = transit_bit (send_key_block c)) /\
  (key_values (recv_key_block c') = key_values (recv_key_block c) /\
   auth_method_neg_role c' = auth_method_neg_role c /\ rand_pos c' = rand_pos c).
Proof.
  intros H. split_and!; [
    exact (f_equal ctl_signature H) | exact (f_equal ctl_node_type H) |
    exact (f_equal ctl_auth_rmt H) | exact (f_equal ctl_session H) | exact (f_equal ctl_phase H) |
    exact (f_equal ctl_rmt_state H) | exact (f_equal ctl_rmt_auth_status H) |
    exact (f_equal ctl_auth_rsp_flag H) | exact (f_equal ctl_server_error H) |
    exact (f_equal ctl_transit_sent H) | exact (f_equal ctl_in_progress H) |
    exact (f_equal ctl_count H) | exact (f_equal ctl_neg_role H) |
    exact (f_equal ctl_identifier H) | exact (f_equal ctl_challenge H) |
    exact (f_equal ctl_method H) | exact (f_equal ctl_recv_transit H) |
    exact (f_equal ctl_send_transit H) | exact (f_equal ctl_recv_keys H) |
    exact (f_equal ctl_own_role H) | exact (f_equal ctl_rand_pos H) ].
Qed.

Ltac ctl_eqs H := apply ctl_eq in H;
  destruct H as ((? & ? & ? & ? & ? & ? & ? & ? & ?) & (? & ? & ? & ? & ? & ? & ? & ? & ?) & ? & ? & ?).

(** Prove [ctl_of c' = ctl_of c] field by field. *)
Ltac ctl_solve := unfold ctl_of; cbn -[key_values]; congruence.

Lemma ctl_keep_phase c c' :
  ctl_of c' = ctl_of c ->
  ctl_of c' = ctl_of (c <| phase := phase c' |>) /\ phase c' = phase c.
Proof.
  intros H. assert (phase c' = phase c) as Hp by (by ctl_eqs H).
  split; [|done]. rewrite H, Hp. by destruct c.
Qed.

(** ** Key blocks *)
Lemma set_key_value_transit b kt v b' :
  acl_set_key_value b kt v = Some b' -> transit_bit b' = transit_bit b.
Proof. unfold acl_set_key_value. intros H. branch_opt; done. Qed.

(** Looking a key up only marks it as processed. *)
Lemma get_key_val_frame b kt v b' :
  acl_get_key_val b kt = Some (v, b') ->
  transit_bit b' = transit_bit b /\ key_values b' = key_values b /\ v = key_value b kt.
Proof.
  unfold acl_get_key_val. intros H.
  destruct (key b !! kt) as [k|] eqn:Hk; [|done]. cbn [mbind option_bind] in H.
  set (b1 := b <| key := _ |>) in H.
  assert (b' = b1) as -> by (clearbody b1; branch_opt; done).
  assert (v = key_value b kt) as Hv.
  { unfold key_value. rewrite Hk. cbn in *. destruct (present k); cbn in H; [|by simplify_eq].
    destruct (string_at k) as [off|]; cbn in *; [|done].
    by destruct (cstr (str_block b) off); cbn in H; simplify_eq. }
  split_and!; [done| |done]. apply list_fmap_ext. intros _ i _. unfold key_value.
  destruct (decide (i = kt)) as [->|Hne].
  - subst b1. cbn. rewrite list_lookup_insert_eq by (by eapply lookup_lt_Some). by rewrite Hk.
  - subst b1. cbn. by rewrite list_lookup_insert_ne.
Qed.

Lemma set_send_key_frame c kt v c' : set_send_key c kt v = Some c' -> same_ctl c c'.
Proof.
  unfold set_send_key. intros H. inv_opt. apply set_key_value_transit in E. split; [ctl_solve|done].
Qed.

Lemma set_send_key_scratch_frame c kt c' : set_send_key_scratch c kt = Some c' -> same_ctl c c'.
Proof. unfold set_send_key_scratch. intros H. inv_opt. by eapply set_send_key_frame. Qed.

Lemma same_ctl_scratch c sc c' : same_ctl (c <| scratch_key_value := sc |>) c' -> same_ctl c c'.
Proof. done. Qed.

Hint Resolve set_send_key_frame set_send_key_scratch_frame same_ctl_scratch : iscsi.

Lemma set_key_frame c kt n l t c' : acl_set_key c kt n l t = Some c' -> same_ctl c c'.
Proof. unfold acl_set_key. intros H. branch_opt; eauto with iscsi. Qed.

Lemma set_chap_alg_key_frame c n l c' : acl_set_chap_alg_key c n l = Some c' -> same_ctl c c'.
Proof. unfold acl_set_chap_alg_key. intros H. branch_opt; eauto with iscsi. Qed.

Lemma chk_key_frame c kt n l t o c' : acl_chk_key c kt n l t = Some (o, c') -> same_ctl c c'.
Proof.
  unfold acl_chk_key. intros H. inv_opt. apply get_key_val_frame in E as (Ht & Hk & _).
  branch_opt; (split; [ctl_solve|done]).
Qed.

Lemma chk_auth_method_key_frame c c' :
  acl_chk_auth_method_key c = Some c' ->
  exists c1 m, same_ctl c c1 /\ c' = c1 <| negotiated_auth_method := m |>.
Proof.
  unfold acl_chk_auth_method_key. intros H. inv_opt. apply chk_key_frame in E. eauto.
Qed.

Lemma chk_chap_alg_key_frame c c' : acl_chk_chap_alg_key c = Some c' -> same_ctl c c'.
Proof.
  unfold acl_chk_chap_alg_key. intros H. inv_opt. apply get_key_val_frame in E as (Ht & Hk & _).
  branch_opt; (split; [ctl_solve|done]).
Qed.

(** ** The local half of the authentication *)
Section Frames.
Context `{Env : AuthEnv}.

(** The local states in which an initiator has handled the challenge. *)
Definition local_done (ls : auth_local_state) : Prop :=
  ls = AUTH_LOCAL_STATE_DONE \/ ls = AUTH_LOCAL_STATE_ERROR.

Lemma local_recv_challenge_frame c c' :
  local_recv_challenge c = Some c' -> ctl_of c' = ctl_of c /\ local_done (local_state c').
Proof.
  unfold local_recv_challenge. intros H. inv_opt.
  apply get_key_val_frame in E as (Ht1 & Hk1 & _).
  apply get_key_val_frame in E0 as (Ht2 & Hk2 & _).
  branch_opt; unfold local_done.
  all: try (split; [ctl_solve|by auto]).
  match goal with
  | H1 : set_send_key_scratch _ _ = Some _, H2 : set_send_key _ _ _ = Some _ |- _ =>
      apply set_send_key_scratch_frame in H1 as [H1 _]; apply set_send_key_frame in H2 as [H2 _];
      split; [|by left]; transitivity (ctl_of i); [exact H2|];
      rewrite H1; clear H1 H2; ctl_solve
  end.
Qed.

Lemma local_recv_alg_frame c c' :
  local_recv_alg c = Some c' -> ctl_of c' = ctl_of c /\
  (node_type c = TYPE_INITIATOR -> local_done (local_state c')).
Proof.
  unfold local_recv_alg. intros H. inv_opt. apply chk_chap_alg_key_frame in E as [E El].
  assert (ctl_of i0 = ctl_of c) as E1.
  { clear H. rewrite <- E. case_decide; [|by injection E0 as ->].
    by apply set_chap_alg_key_frame in E0 as [E0 _]. }
  clear E0. assert (node_type i0 = node_type c) as Hn by (by ctl_eqs E1).
  unfold local_done. branch_opt; try (split; [exact E1|by auto]).
  - split; [exact E1|]. congruence.
  - apply local_recv_challenge_frame in H as [Hc Hd]. split; [congruence|done].
Qed.

Lemma local_auth_frame c c' :
  acl_local_auth c = Some c' ->
  ctl_of c' = ctl_of (c <| phase := phase c' |>) /\
  (phase c' = phase c \/ phase c' = AUTH_PHASE_ERROR).
Proof.
  intros H. assert (ctl_of c' = ctl_of c \/ c' = c <| phase := AUTH_PHASE_ERROR |>) as [Hc| ->].
  - unfold acl_local_auth in H. destruct (local_state c); try (by injection H as <-; auto).
    + case_decide; [|apply local_recv_alg_frame in H as [? _]; by left].
      destruct (acl_set_chap_alg_key c _ _) eqn:E; [|discriminate]. injection H as <-.
      apply set_chap_alg_key_frame in E as [E _]. left. exact E.
    + apply local_recv_alg_frame in H as [? _]. by left.
    + apply local_recv_challenge_frame in H as [? _]. by left.
  - apply ctl_keep_phase in Hc as [Hc Hp]. auto.
  - auto.
Qed.

(** The progress of the local half on an initiator. *)
Lemma local_auth_initiator c c' :
  node_type c = TYPE_INITIATOR -> acl_local_auth c = Some c' ->
  match local_state c with
  | AUTH_LOCAL_STATE_SEND_ALG => local_state c' = AUTH_LOCAL_STATE_RECV_ALG /\ phase c' = phase c
  | AUTH_LOCAL_STATE_RECV_ALG | AUTH_LOCAL_STATE_RECV_CHALLENGE =>
      local_done (local_state c') /\ phase c' = phase c
  | AUTH_LOCAL_STATE_DONE => c' = c
  | _ => local_state c' = local_state c /\ phase c' = AUTH_PHASE_ERROR
  end.
Proof.
  intros Hn H. unfold acl_local_auth in H.
  destruct (local_state c) eqn:El; try (by injection H as <-).
  - rewrite decide_True in H by done.
    destruct (acl_set_chap_alg_key c _ _) eqn:E; [|discriminate]. injection H as <-.
    apply set_chap_alg_key_frame in E as [E _]. by ctl_eqs E.
  - apply local_recv_alg_frame in H as [H Hd]. ctl_eqs H. auto.
  - apply local_recv_challenge_frame in H as [H Hd]. ctl_eqs H. auto.
Qed.

End Frames.
