(* ===== verification/AclSafety.v ===== *)
(** * Memory safety of the authentication client

    [acl_wf] is the well-formedness invariant of [iscsi_acl]: the sizes of its
    arrays, the place of every key value in its string block, the agreement of
    the digest length with the negotiated algorithm.  Every operation of
    usr/auth.c preserves it and, started from it, never leaves a buffer. *)
From S2P Require Import Prelude CString AuthText Acl AclFrame.
From Stdlib Require Import Ascii Lia ZArith.
From stdpp Require Import base tactics numbers list strings option.

(** ** The invariant *)
Definition key_wf (b : auth_key_block) (k : auth_key) : Prop :=
  present k = true -> exists off s, string_at k = Some off /\ cstr (str_block b) off = Some s /\
    off + length s < blk_length b /\ length s < AUTH_STR_MAX_LEN.

Record blk_wf (b : auth_key_block) : Prop := {
  wf_block : length (str_block b) = AUTH_STR_BLOCK_MAX_LEN;
  wf_blk_length : blk_length b <= AUTH_STR_BLOCK_MAX_LEN;
  wf_keys : length (key b) = AUTH_KEY_TYPE_MAX_COUNT;
  wf_key : forall i k, key b !! i = Some k -> key_wf b k
}.

(** A NUL-terminated [char[256]]. *)
Definition str_wf (b : list Z) : Prop := length b = AUTH_STR_MAX_LEN /\ is_Some (cstr b 0).

Record lb_wf (b : auth_large_binary_key) : Prop := {
  wf_lb : length (large_binary b) = AUTH_LARGE_BINARY_MAX_LEN;
  wf_lb_length : lb_length b <= AUTH_LARGE_BINARY_MAX_LEN;
  wf_lb_bytes : Forall is_byte (large_binary b)
}.

(** The values in the list of algorithms; 0 is an unused element. *)
Definition alg_value (a : Z) : Prop := a = 0%Z \/ a = AUTH_OPTION_NONE \/ is_chap_alg a.

Record acl_wf (c : iscsi_acl) : Prop := {
  wf_methods : length (auth_method_list c) = AUTH_METHOD_MAX_COUNT /\
               auth_method_count c <= AUTH_METHOD_MAX_COUNT;
  wf_valid : length (auth_method_valid_list c) = AUTH_METHOD_MAX_COUNT /\
             auth_method_valid_count c <= AUTH_METHOD_MAX_COUNT;
  wf_algs : length (chap_alg_list c) = AUTH_CHAP_ALG_MAX_COUNT /\
            chap_alg_count c <= AUTH_CHAP_ALG_MAX_COUNT;
  wf_alg_values : Forall alg_value (chap_alg_list c);
  wf_username : str_wf (username c);
  wf_passwd : length (passwd_data c) = AUTH_STR_MAX_LEN /\ passwd_length c <= AUTH_STR_MAX_LEN;
  wf_chap_username : length (chap_username c) = AUTH_STR_MAX_LEN;
  wf_scratch : str_wf (scratch_key_value c);
  wf_challenge_len : chap_challenge_len c <= AUTH_CHAP_RSP_MAX;
  wf_alg_len : is_chap_alg (negotiated_chap_alg c) ->
               chap_challenge_len c = chap_rsp_len (negotiated_chap_alg c);
  wf_recv_challenge : lb_wf (recv_chap_challenge c);
  wf_send_challenge : lb_wf (send_chap_challenge c);
  wf_recv_blk : blk_wf (recv_key_block c);
  wf_send_blk : blk_wf (send_key_block c)
}.

(** The expected credentials: [char password_in[256]] and its length. *)
Definition session_wf (s : auth_session) : Prop :=
  length (password_in s) = AUTH_STR_MAX_LEN /\ (password_in_length s <= 256)%Z.

(** [m] succeeds with a result that satisfies [P]. *)
Definition safe {A} (m : option A) (P : A -> Prop) : Prop := exists a, m = Some a /\ P a.

Lemma safe_ret {A} (a : A) (P : A -> Prop) : P a -> safe (Some a) P.
Proof. intros. by exists a. Qed.

Lemma safe_bind {A B} (m : option A) (f : A -> option B) (Q : A -> Prop) (P : B -> Prop) :
  safe m Q -> (forall a, Q a -> safe (f a) P) -> safe (mbind f m) P.
Proof. intros (a & -> & Ha) H. cbn. auto. Qed.

Lemma safe_impl {A} (m : option A) (P Q : A -> Prop) :
  safe m P -> (forall a, P a -> Q a) -> safe m Q.
Proof. intros (a & -> & Ha) H. exists a. auto. Qed.

(** A key type is below the number of key types. *)
Ltac kt_lt := apply (bool_decide_unpack _); reflexivity.

(** Keep the parts of [acl_wf] that an update does not touch. *)
Ltac wf_update H := destruct H; constructor; cbn; try done.

(** ** Key blocks *)
Lemma key_wf_zero b : key_wf b zero_key.
Proof. by intros ?. Qed.

Lemma init_key_blk_wf b : length (str_block b) = AUTH_STR_BLOCK_MAX_LEN -> blk_wf (acl_init_key_blk b).
Proof.
  intros Hl. constructor; [done|cbn; lia|done|].
  intros i k Hk. change (replicate AUTH_KEY_TYPE_MAX_COUNT zero_key !! i = Some k) in Hk.
  apply lookup_replicate in Hk as [-> _]. apply key_wf_zero.
Qed.

(** Changing flags of a block or of its keys keeps it well formed. *)
Lemma blk_wf_same b b' :
  blk_wf b -> str_block b' = str_block b -> blk_length b' = blk_length b ->
  length (key b') = length (key b) ->
  (forall i k, key b' !! i = Some k -> exists k0, key b !! i = Some k0 /\
     (present k = true -> present k0 = true /\ string_at k = string_at k0)) ->
  blk_wf b'.
Proof.
  intros [H1 H2 H3 H4] Es El Ek Hk. constructor; [by rewrite Es|by rewrite El|by rewrite Ek|].
  intros i k (k0 & Hk0 & Hp)%Hk Hpres. destruct (Hp Hpres) as [Hp0 ->].
  rewrite Es, El. by apply (H4 i k0).
Qed.

Lemma blk_wf_insert b kt k0 k :
  blk_wf b -> key b !! kt = Some k0 ->
  (present k = true -> present k0 = true /\ string_at k = string_at k0) ->
  blk_wf (b <| key := <[kt := k]> (key b) |>).
Proof.
  intros Hb Hk0 Hk. apply (blk_wf_same b); cbn; try done; [by rewrite length_insert|].
  intros i k' Hi. destruct (decide (i = kt)) as [->|Hne].
  - rewrite list_lookup_insert_eq in Hi by (by eapply lookup_lt_Some). simplify_eq. eauto.
  - rewrite list_lookup_insert_ne in Hi by done. eauto.
Qed.

Lemma blk_wf_flags b b' :
  blk_wf b -> str_block b' = str_block b -> blk_length b' = blk_length b -> key b' = key b ->
  blk_wf b'.
Proof. intros Hb Es El Ek. apply (blk_wf_same b); try done; rewrite Ek; eauto. Qed.

Lemma get_key_val_safe b kt :
  blk_wf b -> kt < AUTH_KEY_TYPE_MAX_COUNT ->
  safe (acl_get_key_val b kt) (fun '(v, b') => blk_wf b' /\ transit_bit b' = transit_bit b /\
    (forall s, v = Some s -> no_nul s /\ length s < AUTH_STR_MAX_LEN)).
Proof.
  intros Hb Hkt. unfold acl_get_key_val.
  destruct (lookup_lt_is_Some_2 (key b) kt) as [k Hk]; [by rewrite (wf_keys _ Hb)|].
  rewrite Hk. cbn [mbind option_bind].
  assert (blk_wf (b <| key := <[kt := k <| processed := true |>]> (key b) |>)) as Hb'.
  { by apply (blk_wf_insert _ _ k). }
  destruct (present k) eqn:Hp; cbn; rewrite Hp; cbn [negb].
  - destruct (wf_key _ Hb kt k Hk Hp) as (off & s & -> & Hs & _ & Hlen).
    cbn. rewrite Hs. cbn. apply safe_ret. split_and!; try done.
    intros s' [= <-]. split; [|done]. by apply cstr_inv in Hs as [? _].
  - apply safe_ret. by split_and!.
Qed.

Lemma set_key_value_safe b kt v :
  blk_wf b -> kt < AUTH_KEY_TYPE_MAX_COUNT -> (forall s, v = Some s -> no_nul s) ->
  safe (acl_set_key_value b kt v) (fun b' => blk_wf b' /\ transit_bit b' = transit_bit b).
Proof.
  intros Hb Hkt Hv. unfold acl_set_key_value.
  destruct (lookup_lt_is_Some_2 (key b) kt) as [k Hk]; [by rewrite (wf_keys _ Hb)|].
  rewrite Hk. cbn [mbind option_bind].
  case_match; [apply safe_ret; split; [by apply (blk_wf_flags b)|done]|].
  set (b1 := b <| key := _ |>).
  assert (blk_wf b1) as Hb1 by (by apply (blk_wf_insert _ _ k)).
  assert (transit_bit b1 = transit_bit b) as Htb by done. clearbody b1.
  destruct v as [s|]; [|by apply safe_ret].
  rewrite acl_chk_string_spec. case_decide as Hlen.
  2: { apply safe_ret. split; [by apply (blk_wf_flags b1)|done]. }
  case_decide as Hroom; [apply safe_ret; split; [by apply (blk_wf_flags b1)|done]|].
  pose proof (wf_block _ Hb1) as Hblk. specialize (Hv s eq_refl).
  rewrite strlcpy_spec by lia. cbn [mbind option_bind].
  rewrite decide_False by lia. apply safe_ret. split; [|done].
  replace (length s + 1 - 1) with (length s) by lia. rewrite take_ge by lia.
  assert (kt < length (key b1)) as Hlt by (rewrite (wf_keys _ Hb1); done).
  constructor; cbn.
  - rewrite length_splice; [done|]. rewrite length_app. simpl. lia.
  - lia.
  - rewrite length_insert. apply Hb1.
  - intros i k' Hi Hp. destruct (decide (i = kt)) as [->|Hne].
    + rewrite list_lookup_insert_eq in Hi by done. simplify_eq. cbn.
      exists (blk_length b1), s. split_and!; [done| |lia|done].
      apply cstr_splice; [done|lia].
    + rewrite list_lookup_insert_ne in Hi by done.
      destruct (wf_key _ Hb1 i k' Hi Hp) as (off & t & Hoff & Ht & Hbnd & Hmax).
      exists off, t. split_and!; [done| |cbn; lia|done].
      apply cstr_splice_before; [done|lia|lia].
Qed.

(** ** Scanning and building option lists *)
Lemma copy_token_spec s : forall scratch len,
  len + length s <= length scratch ->
  exists tok rest, s = tok ++ rest /\
    (rest = [] \/ exists r, rest = char "," :: r) /\
    copy_token s scratch len = Some (rest, splice scratch len tok, len + length tok).
Proof.
  induction s as [|c s IH]; intros scratch len Hl; cbn [copy_token].
  { exists [], []. rewrite splice_nil, Nat.add_0_r. auto. }
  cbn [length] in Hl. case_decide as Hc.
  { exists [], (c :: s). rewrite splice_nil, Nat.add_0_r. subst c. eauto. }
  rewrite buf_set_Some by lia. cbn [mbind option_bind].
  destruct (IH (<[len := c]> scratch) (S len)) as (tok & rest & -> & Hr & ->).
  { rewrite length_insert. lia. }
  exists (c :: tok), rest. rewrite splice_cons by lia.
  replace (S len + length tok) with (len + length (c :: tok)) by (simpl; lia). done.
Qed.

Lemma scan_tokens_safe accept fuel : forall v scratch,
  str_wf scratch -> no_nul v -> length v < AUTH_STR_MAX_LEN -> length v <= fuel ->
  safe (scan_tokens fuel v scratch accept) (fun '(r, scratch') => str_wf scratch' /\
    (forall x, r = Some x -> exists tok, accept tok = Some x)).
Proof.
  induction fuel as [|fuel IH]; intros v scratch Hwf0 Hv Hlen Hf.
  { destruct v; [|simpl in Hf; lia]. by apply safe_ret. }
  destruct v as [|c v]; [by apply safe_ret|]. cbn [scan_tokens]. destruct Hwf0 as [Hs Hnul].
  destruct (copy_token_spec (c :: v) scratch 0) as (tok & rest & Ev & Hr & ->); [lia|].
  cbn [mbind option_bind Nat.add].
  assert (length (c :: v) = length tok + length rest) as El by (rewrite Ev, length_app; lia).
  assert (buf_set (splice scratch 0 tok) (length tok) NUL =
          Some (splice scratch 0 (tok ++ [NUL]))) as ->.
  { rewrite buf_set_Some, splice_one by (rewrite length_splice; lia). f_equal.
    apply (splice_app scratch 0). simpl. lia. }
  cbn [mbind option_bind].
  apply (f_equal no_nul) in Ev. rewrite Ev in Hv. apply no_nul_app in Hv as [Htok Hrest].
  assert (str_wf (splice scratch 0 (tok ++ [NUL]))) as Hwf.
  { split; [rewrite length_splice; [done|rewrite length_app; simpl; lia]|].
    rewrite cstr_splice; eauto. lia. }
  rewrite cstr_splice by (done || lia). cbn [mbind option_bind].
  destruct (accept tok) as [x|] eqn:Hacc.
  { apply safe_ret. split; [done|]. intros ? [= <-]. eauto. }
  cbn [length] in *. apply IH; [done| | |].
  - destruct Hr as [->|[r ->]]; [constructor|]. by apply no_nul_cons in Hrest as [_ ?].
  - destruct Hr as [->|[r ->]]; cbn [length] in *; lia.
  - destruct Hr as [->|[r ->]]; cbn [length] in *; [lia|lia].
Qed.

Lemma strlcpy_str_wf b s : str_wf b -> no_nul s -> safe (strlcpy b 0 s AUTH_STR_MAX_LEN) (fun '(b', n) => str_wf b').
Proof.
  intros [Hl Hn] Hs. unfold AUTH_STR_MAX_LEN in *.
  destruct (strlcpy_cstr b 0 s 256) as (b' & -> & Hl' & Hc); [done|lia|lia|].
  apply safe_ret. split; [by rewrite Hl'|by rewrite Hc].
Qed.

Lemma strlcat_str_wf b s : str_wf b -> no_nul s -> safe (strlcat b s AUTH_STR_MAX_LEN) (fun '(b', n) => str_wf b').
Proof.
  intros [Hl [t Ht]] Hs. unfold AUTH_STR_MAX_LEN in *.
  pose proof (cstr_inv _ _ _ Ht) as (_ & Hlt & _).
  destruct (strlcat_cstr b t s 256) as (b' & -> & Hl' & Hc); [done|done|lia|lia|].
  apply safe_ret. split; [by rewrite Hl'|by rewrite Hc].
Qed.

Lemma comma_no_nul : no_nul (str ",").
Proof. by apply (bool_decide_unpack _). Qed.

Lemma append_option_safe b s (k : list Z -> option (list Z)) :
  str_wf b -> no_nul s -> (forall b', str_wf b' -> safe (k b') str_wf) ->
  safe ('(b1, _) ← strlcat b (str ",") AUTH_STR_MAX_LEN;
        '(b2, _) ← strlcat b1 s AUTH_STR_MAX_LEN; k b2) str_wf.
Proof.
  intros Hb Hs Hk.
  eapply safe_bind; [apply strlcat_str_wf; [done|apply comma_no_nul]|]. intros [b1 ?] Hb1.
  eapply safe_bind; [by apply strlcat_str_wf|]. intros [b2 ?] Hb2. by apply Hk.
Qed.

Lemma set_key_loop_safe to_text options :
  (forall o s, to_text o = Some s -> no_nul s) ->
  forall i scratch, str_wf scratch -> safe (set_key_loop i options to_text scratch) str_wf.
Proof.
  intros Ht. induction options as [|o options IH]; intros i scratch Hs; cbn [set_key_loop];
    [by apply safe_ret|].
  destruct (to_text o) as [s|] eqn:Ho; [|by apply IH]. apply Ht in Ho. case_decide.
  - eapply safe_bind; [by apply strlcpy_str_wf|]. intros [b1 ?] Hb1. by apply IH.
  - apply append_option_safe; [done|done|]. intros b' Hb'. by apply IH.
Qed.

Lemma set_chap_alg_loop_safe algs :
  forall i scratch, str_wf scratch -> safe (set_chap_alg_loop i algs scratch) str_wf.
Proof.
  induction algs as [|a algs IH]; intros i scratch Hs; cbn [set_chap_alg_loop];
    [by apply safe_ret|].
  assert (no_nul (take 19 (fmt_lu (u64 a)))) by auto with iscsi. case_decide.
  - eapply safe_bind; [by apply strlcpy_str_wf|]. intros [b1 ?] Hb1. by apply IH.
  - apply append_option_safe; [done|done|]. intros b' Hb'. by apply IH.
Qed.

Lemma authmethod_text_no_nul o s : acl_authmethod_optn_to_text o = Some s -> no_nul s.
Proof.
  unfold acl_authmethod_optn_to_text.
  repeat case_decide; intros; simplify_eq; by apply (bool_decide_unpack _).
Qed.

(** ** Updates that keep the invariant *)
Lemma wf_set_send c b : acl_wf c -> blk_wf b -> acl_wf (c <| send_key_block := b |>).
Proof. intros H Hb. wf_update H. Qed.

Lemma wf_set_recv c b : acl_wf c -> blk_wf b -> acl_wf (c <| recv_key_block := b |>).
Proof. intros H Hb. wf_update H. Qed.

Lemma wf_set_scratch c b : acl_wf c -> str_wf b -> acl_wf (c <| scratch_key_value := b |>).
Proof. intros H Hb. wf_update H. Qed.

Lemma wf_set_phase c p : acl_wf c -> acl_wf (c <| phase := p |>).
Proof. intros H. wf_update H. Qed.

#[export] Hint Resolve wf_set_send wf_set_recv wf_set_scratch wf_set_phase wf_recv_blk wf_send_blk
  wf_scratch : iscsi.

Lemma set_send_key_safe c kt v :
  acl_wf c -> kt < AUTH_KEY_TYPE_MAX_COUNT -> (forall s, v = Some s -> no_nul s) ->
  safe (set_send_key c kt v) acl_wf.
Proof.
  intros Hc Hkt Hv. unfold set_send_key.
  eapply safe_bind; [apply set_key_value_safe; eauto with iscsi|].
  intros b [Hb _]. apply safe_ret. auto with iscsi.
Qed.

Lemma set_send_key_scratch_safe c kt :
  acl_wf c -> kt < AUTH_KEY_TYPE_MAX_COUNT -> safe (set_send_key_scratch c kt) acl_wf.
Proof.
  intros Hc Hkt. unfold set_send_key_scratch.
  destruct (wf_scratch _ Hc) as [_ [s Hs]]. rewrite Hs. cbn [mbind option_bind].
  apply set_send_key_safe; [done|done|]. intros ? [= <-]. by apply cstr_inv in Hs as [? _].
Qed.

Lemma acl_set_key_safe c kt n l to_text :
  acl_wf c -> kt < AUTH_KEY_TYPE_MAX_COUNT -> n <= length l ->
  (forall o s, to_text o = Some s -> no_nul s) ->
  safe (acl_set_key c kt n l to_text) acl_wf.
Proof.
  intros Hc Hkt Hn Ht. unfold acl_set_key. rewrite buf_prefix_Some by done. cbn [mbind option_bind].
  assert (forall opts, safe (scratch ← set_key_loop 0 opts to_text (scratch_key_value c);
    set_send_key_scratch (c <| scratch_key_value := scratch |>) kt) acl_wf) as Hloop.
  { intros opts. eapply safe_bind; [apply set_key_loop_safe; eauto with iscsi|].
    intros b Hb. apply set_send_key_scratch_safe; auto with iscsi. }
  destruct (take n l) as [|o [|]]; [| |apply Hloop].
  - apply set_send_key_safe; [done|done|]. intros ? [= <-]. by apply (bool_decide_unpack _).
  - case_decide; [|apply Hloop]. by apply set_send_key_safe.
Qed.

Lemma acl_set_chap_alg_key_safe c n l :
  acl_wf c -> n <= length l -> safe (acl_set_chap_alg_key c n l) acl_wf.
Proof.
  intros Hc Hn. unfold acl_set_chap_alg_key. rewrite buf_prefix_Some by done. cbn [mbind option_bind].
  case_decide; [by apply set_send_key_safe; [|kt_lt|]|].
  case_decide.
  - apply set_send_key_safe; [done|kt_lt|].
    intros ? [= <-]. by apply (bool_decide_unpack _).
  - eapply safe_bind; [apply set_chap_alg_loop_safe; eauto with iscsi|].
    intros b Hb. apply set_send_key_scratch_safe; auto with iscsi.
    kt_lt.
Qed.

(** ** The operations *)
Section Safety.
Context `{Env : AuthEnv} {EnvOk : AuthEnvOk Env}.

Lemma acl_chk_key_safe c kt n l to_text :
  acl_wf c -> kt < AUTH_KEY_TYPE_MAX_COUNT -> n <= length l ->
  safe (acl_chk_key c kt n l to_text) (fun '(_, c') => acl_wf c').
Proof.
  intros Hc Hkt Hn. unfold acl_chk_key.
  eapply safe_bind; [apply get_key_val_safe; eauto with iscsi|]. intros [v b] (Hb & _ & Hv).
  destruct v as [v|]; [|apply safe_ret; auto with iscsi].
  destruct (Hv v eq_refl) as [Hnul Hlen].
  rewrite buf_prefix_Some by done. cbn [mbind option_bind].
  eapply safe_bind; [apply scan_tokens_safe; [exact (wf_scratch _ Hc)|done..]|].
  intros [r sc] [Hsc _]. apply safe_ret. auto with iscsi.
Qed.

Lemma acl_chk_auth_method_key_safe c : acl_wf c -> safe (acl_chk_auth_method_key c) acl_wf.
Proof.
  intros Hc. unfold acl_chk_auth_method_key. destruct (wf_valid _ Hc).
  eapply safe_bind; [apply acl_chk_key_safe; [done|kt_lt|lia]|].
  intros [o c'] Hc'. apply safe_ret. wf_update Hc'.
Qed.

Lemma acl_set_auth_method_key_safe c n l :
  acl_wf c -> n <= length l -> safe (acl_set_auth_method_key c n l) acl_wf.
Proof.
  intros Hc Hn. apply acl_set_key_safe; [done|kt_lt|done|]. apply authmethod_text_no_nul.
Qed.

Lemma chap_rsp_len_max alg : 1 <= chap_rsp_len alg <= AUTH_CHAP_RSP_MAX.
Proof. unfold chap_rsp_len. repeat case_decide; by vm_compute; lia. Qed.

Lemma alg_value_int a : alg_value a -> i32 (u64 a) = a /\ u64 a = a.
Proof.
  unfold alg_value, is_chap_alg. intros H.
  assert (0 <= a < 9)%Z as Ha by (repeat destruct H as [H|H]; subst a; vm_compute; intuition congruence).
  unfold i32, u64. rewrite !wrap_small by lia. rewrite swrap_small by lia. done.
Qed.

Lemma acl_chk_chap_alg_key_safe c : acl_wf c -> safe (acl_chk_chap_alg_key c) acl_wf.
Proof.
  intros Hc. unfold acl_chk_chap_alg_key.
  eapply safe_bind; [apply get_key_val_safe; [by apply wf_recv_blk|kt_lt]|].
  intros [v b] (Hb & _ & Hv). apply (wf_set_recv _ b) in Hc; [|done].
  set (c1 := c <| recv_key_block := b |>) in *. clearbody c1. clear c.
  destruct v as [v|]; [|apply safe_ret; wf_update Hc; intros H'; vm_compute in H'; intuition congruence].
  destruct (Hv v eq_refl) as [Hnul Hlen].
  rewrite buf_prefix_Some by (destruct (wf_algs _ Hc); lia). cbn [mbind option_bind].
  eapply safe_bind; [apply scan_tokens_safe; [exact (wf_scratch _ Hc)|done..]|].
  intros [r sc] [Hsc Hr]. apply (wf_set_scratch _ sc) in Hc; [|done].
  set (c2 := c1 <| scratch_key_value := sc |>) in *.
  assert (chap_alg_list c1 = chap_alg_list c2) as El by done. rewrite El in Hr.
  clearbody c2.
  destruct r as [number|].
  2: { apply safe_ret. wf_update Hc. intros H'; vm_compute in H'; intuition congruence. }
  destruct (Hr number eq_refl) as [tok Htok]. unfold match_chap_alg in Htok.
  destruct (acl_text_to_number tok) as [m|]; cbn in Htok; [|done].
  case_decide as Hin; simplify_eq.
  apply list_elem_of_fmap in Hin as (a & -> & Ha).
  assert (alg_value a) as Hav.
  { pose proof (Forall_take _ (chap_alg_count c1) _ (wf_alg_values _ Hc)) as Hall.
    rewrite Forall_forall in Hall. by apply Hall, list_elem_of_In. }
  destruct (alg_value_int a Hav) as [-> ->].
  apply safe_ret. pose proof (chap_rsp_len_max a). case_decide; wf_update Hc; lia.
Qed.

Lemma acl_next_phase_wf c : acl_wf c -> acl_wf (acl_next_phase c).
Proof.
  intros H. unfold acl_next_phase. repeat case_match; try case_decide; repeat case_match; wf_update H.
Qed.

Lemma hash_init_inv alg ctx :
  auth_hash_init alg = Some ctx -> is_chap_alg alg /\ ctx = mk_hash_ctx alg [].
Proof. unfold auth_hash_init. case_decide; [|done]. case_match; [|done]. naive_solver. Qed.

Lemma hash_final_safe buf ctx :
  is_chap_alg (h_alg ctx) -> chap_rsp_len (h_alg ctx) <= length buf ->
  safe (auth_hash_final buf ctx) (fun b => b = splice buf 0 (EVP_digest (h_alg ctx) (h_data ctx))
    /\ length b = length buf).
Proof.
  intros Ha Hl. unfold auth_hash_final.
  rewrite buf_write_Some by (rewrite EVP_digest_length; done || lia).
  apply safe_ret. split; [done|]. apply length_splice. rewrite EVP_digest_length; [lia|done].
Qed.

Lemma Forall_splice (P : Z -> Prop) b off l :
  Forall P b -> Forall P l -> Forall P (splice b off l).
Proof.
  intros. unfold splice. apply Forall_app. split; [by apply Forall_take|].
  apply Forall_app. split; [done|by apply Forall_drop].
Qed.

Lemma compute_rsp_safe c rmt id challenge resp :
  acl_wf c -> length resp = AUTH_CHAP_RSP_MAX -> Forall is_byte resp ->
  safe (acl_chap_compute_rsp c rmt id challenge resp) (fun '(_, r) =>
    length r = AUTH_CHAP_RSP_MAX /\ Forall is_byte r).
Proof.
  intros Hc Hl Hb. unfold acl_chap_compute_rsp.
  case_match; [by apply safe_ret|].
  destruct (auth_hash_init (negotiated_chap_alg c)) as [ctx|] eqn:Hi; [|by apply safe_ret].
  apply hash_init_inv in Hi as [Halg ->].
  destruct (wf_passwd _ Hc) as [Hpd Hpl]. unfold acl_data.
  rewrite decide_False by lia. rewrite buf_prefix_Some by lia. cbn [mbind option_bind].
  rewrite buf_write_Some by (rewrite length_take, length_replicate; lia). cbn [mbind option_bind].
  rewrite decide_False by auto. case_decide; [by apply safe_ret|].
  rewrite buf_prefix_Some.
  2: { rewrite length_splice; rewrite ?length_take, length_replicate; lia. }
  cbn [mbind option_bind].
  pose proof (chap_rsp_len_max (negotiated_chap_alg c)).
  eapply safe_bind; [apply hash_final_safe; [done|simpl; lia]|]. intros r [-> Hlen].
  apply safe_ret. split; [lia|]. apply Forall_splice; [done|apply EVP_digest_bytes].
Qed.

Lemma auth_request_safe c s name id challenge resp n :
  acl_wf c -> session_handle c = Some s -> session_wf s -> length resp = AUTH_STR_MAX_LEN ->
  safe (acl_chap_auth_request c name id challenge resp n) (fun _ => True).
Proof.
  intros Hc Hs [Hp1 Hp2] Hr. unfold acl_chap_auth_request. rewrite Hs. cbn [mbind option_bind].
  case_decide; [by apply safe_ret|]. case_decide; [by apply safe_ret|].
  case_decide; [by apply safe_ret|].
  destruct (lookup_lt_is_Some_2 (password_in s) 0) as [p0 ->]; [rewrite Hp1; kt_lt|].
  cbn [mbind option_bind].
  case_decide; [by apply safe_ret|]. case_decide; [by apply safe_ret|].
  destruct (auth_hash_init (negotiated_chap_alg c)) as [ctx|] eqn:Hi; [|by apply safe_ret].
  apply hash_init_inv in Hi as [Halg ->].
  pose proof (wf_alg_len _ Hc Halg) as Elen. pose proof (chap_rsp_len_max (negotiated_chap_alg c)).
  rewrite buf_set_Some by (rewrite length_replicate; lia). cbn [mbind option_bind].
  rewrite (buf_prefix_Some (password_in s)) by (rewrite Hp1; unfold AUTH_STR_MAX_LEN; lia).
  rewrite (buf_prefix_Some _ 1) by (rewrite length_insert, length_replicate; lia). cbn [mbind option_bind].
  eapply safe_bind; [apply hash_final_safe; [done|simpl; rewrite length_insert, length_replicate; lia]|].
  intros r _. rewrite buf_prefix_Some. { by apply safe_ret. }
  rewrite length_replicate, Hr, Elen. unfold AUTH_STR_MAX_LEN, AUTH_CHAP_RSP_MAX in *. lia.
Qed.

Lemma local_error_wf c d : acl_wf c -> acl_wf (local_error c d).
Proof. intros H. wf_update H. Qed.

Lemma rmt_error_wf c d : acl_wf c -> acl_wf (rmt_error c d).
Proof. intros H. wf_update H. Qed.

Lemma auth_fail_wf c d : acl_wf c -> acl_wf (auth_fail c d).
Proof. intros H. wf_update H. Qed.

Hint Resolve local_error_wf rmt_error_wf auth_fail_wf acl_next_phase_wf : iscsi.

Lemma local_recv_challenge_safe c : acl_wf c -> safe (local_recv_challenge c) acl_wf.
Proof.
  intros Hc. unfold local_recv_challenge.
  eapply safe_bind; [apply get_key_val_safe; [by apply wf_recv_blk|kt_lt]|].
  intros [v b] (Hb & _ & Hv).
  eapply safe_bind; [apply get_key_val_safe; [done|kt_lt]|].
  intros [v' b'] (Hb' & _ & Hv'). apply (wf_set_recv _ b') in Hc; [|done].
  set (c1 := c <| recv_key_block := b' |>) in *. clearbody c1.
  destruct v as [id_text|], v' as [ch|]; try (apply safe_ret; auto with iscsi).
  2: { case_decide; apply safe_ret; auto with iscsi. wf_update Hc. }
  destruct (acl_text_to_number id_text); [|apply safe_ret; auto with iscsi].
  case_decide; [apply safe_ret; auto with iscsi|].
  case_decide; [apply safe_ret; auto with iscsi|].
  destruct (wf_recv_challenge _ Hc). destruct (wf_send_challenge _ Hc).
  rewrite !buf_prefix_Some by lia. cbn [mbind option_bind].
  case_decide; [apply safe_ret; auto with iscsi|].
  eapply safe_bind.
  { apply compute_rsp_safe; [done|by rewrite length_replicate|]. apply Forall_replicate. by vm_compute. }
  intros [dbg r] [Hlen Hbytes]. case_decide; [apply safe_ret; auto with iscsi|].
  pose proof (wf_challenge_len _ Hc). rewrite buf_prefix_Some by lia. cbn [mbind option_bind].
  destruct (wf_scratch _ Hc) as [Hs1 _].
  destruct (acl_data_to_text_room (take (chap_challenge_len c1) r) (scratch_key_value c1) 0 AUTH_STR_MAX_LEN)
    as (st & s & -> & _ & Hns & Hlt); [by apply Forall_take|kt_lt|lia|]. cbn [mbind option_bind].
  eapply safe_bind; [apply set_send_key_scratch_safe; [|kt_lt]|].
  { apply wf_set_scratch; [done|]. split.
    - rewrite length_splice; [done|rewrite length_app; simpl; lia].
    - rewrite cstr_splice; [eauto|done|lia]. }
  intros c2 Hc2. destruct (wf_username _ Hc2) as [_ [name Hn]]. rewrite Hn. cbn [mbind option_bind].
  eapply safe_bind; [apply set_send_key_safe; [done|kt_lt|]|].
  { intros ? [= <-]. by apply cstr_inv in Hn as [? _]. }
  intros c3 Hc3. apply safe_ret. wf_update Hc3.
Qed.

Lemma local_recv_alg_safe c : acl_wf c -> safe (local_recv_alg c) acl_wf.
Proof.
  intros Hc. unfold local_recv_alg.
  eapply safe_bind; [by apply acl_chk_chap_alg_key_safe|]. intros c1 Hc1.
  eapply safe_bind.
  { instantiate (1 := acl_wf). case_decide; [|by apply safe_ret].
    apply acl_set_chap_alg_key_safe; [done|simpl; lia]. }
  intros c2 Hc2. repeat case_decide; try (apply safe_ret; auto with iscsi); [|by apply local_recv_challenge_safe].
  wf_update Hc2.
Qed.

Lemma acl_local_auth_safe c : acl_wf c -> safe (acl_local_auth c) acl_wf.
Proof.
  intros Hc. unfold acl_local_auth.
  destruct (local_state c); try (apply safe_ret; by auto with iscsi);
    try (by apply local_recv_alg_safe); try (by apply local_recv_challenge_safe).
  case_decide; [|by apply local_recv_alg_safe]. destruct (wf_algs _ Hc).
  eapply safe_bind; [apply acl_set_chap_alg_key_safe; [done|lia]|].
  intros c1 Hc1. apply safe_ret. wf_update Hc1.
Qed.

Lemma rmt_send_challenge_safe c : acl_wf c -> safe (rmt_send_challenge c) acl_wf.
Proof.
  intros Hc. unfold rmt_send_challenge. case_match; [apply safe_ret; wf_update Hc|].
  assert (acl_wf (c <| rand_pos := S (rand_pos c) |>)) as Hc1 by (wf_update Hc).
  destruct (RAND_bytes (rand_pos c) 1) as [l|] eqn:Hr; [|apply safe_ret; auto with iscsi].
  apply RAND_bytes_ok in Hr as [Hl Hb]. destruct l as [|id [|]]; simplify_eq/=. cbn [mbind option_bind].
  eapply safe_bind; [apply strlcpy_str_wf; [by apply (wf_scratch _ Hc)|auto with iscsi]|].
  intros [sc n] Hsc.
  eapply safe_bind; [apply set_send_key_scratch_safe; [wf_update Hc1|kt_lt]|].
  intros c2 Hc2. pose proof (wf_challenge_len _ Hc2) as Hlen.
  destruct (wf_send_challenge _ Hc2) as [Hs1 Hs2 Hs3].
  assert (AUTH_CHAP_RSP_MAX <= AUTH_LARGE_BINARY_MAX_LEN) by kt_lt.
  case_match eqn:Hr2; [|].
  2: { apply safe_ret, rmt_error_wf. wf_update Hc2. constructor; cbn; [done|lia|done]. }
  apply RAND_bytes_ok in Hr2 as [Hl2 Hb2]. cbn in Hl2.
  cbn. rewrite buf_write_Some by lia. cbn [mbind option_bind].
  eapply safe_bind; [apply set_send_key_safe; [|kt_lt|]|].
  - wf_update Hc2. constructor; cbn; [|lia|by apply Forall_splice].
    rewrite length_splice by lia. done.
  - intros ? [= <-]. constructor.
  - intros c3 Hc3. apply safe_ret. wf_update Hc3.
Qed.

Lemma rmt_record_status_wf c st : acl_wf c -> acl_wf (rmt_record_status c st).
Proof. intros H. unfold rmt_record_status. cbn. repeat case_match; wf_update H. Qed.

Lemma rmt_same_password_safe c challenge resp n :
  acl_wf c -> length resp = AUTH_STR_MAX_LEN ->
  safe (rmt_same_password c challenge resp n) (fun _ => True).
Proof.
  intros Hc Hl. unfold rmt_same_password. pose proof (wf_challenge_len _ Hc).
  case_decide; [|by apply safe_ret].
  eapply safe_bind.
  { apply compute_rsp_safe; [done|by rewrite length_replicate|]. apply Forall_replicate. by vm_compute. }
  intros [d r] [Hr _]. case_decide; [|by apply safe_ret].
  assert (AUTH_CHAP_RSP_MAX <= AUTH_STR_MAX_LEN) by kt_lt.
  rewrite (buf_prefix_Some resp) by lia. rewrite buf_prefix_Some by lia. by apply safe_ret.
Qed.

(** The client holds a session when it authenticates the target. *)
Definition has_session (c : iscsi_acl) : Prop := exists s, session_handle c = Some s /\ session_wf s.

Lemma rmt_recv_rsp_safe c : acl_wf c -> has_session c -> safe (rmt_recv_rsp c) acl_wf.
Proof.
  intros Hc (s & Hs & Hsw). unfold rmt_recv_rsp.
  eapply safe_bind; [apply get_key_val_safe; [by apply wf_recv_blk|kt_lt]|].
  intros [v b] (Hb & _ & Hv).
  eapply safe_bind; [apply get_key_val_safe; [done|kt_lt]|].
  intros [v' b'] (Hb' & _ & Hv'). apply (wf_set_recv _ b') in Hc; [|done].
  set (c1 := c <| recv_key_block := b' |>) in *.
  assert (session_handle c1 = Some s) as Hs1 by done. clearbody c1.
  destruct v as [rsp_text|]; [|apply safe_ret; auto with iscsi].
  destruct v' as [name_text|]; [|apply safe_ret; auto with iscsi].
  destruct (acl_text_to_data_bounds rsp_text (replicate AUTH_STR_MAX_LEN 0%Z) AUTH_STR_MAX_LEN)
    as (st & out & n & -> & Hout & _ & Hst); [by rewrite length_replicate|]. cbn [mbind option_bind].
  case_decide; [apply safe_ret; auto with iscsi|].
  destruct (wf_send_challenge _ Hc). rewrite buf_prefix_Some by lia. cbn [mbind option_bind].
  assert (length (splice (replicate AUTH_STR_MAX_LEN 0%Z) 0 out) = AUTH_STR_MAX_LEN) as Hlen.
  { rewrite length_splice; rewrite length_replicate; [done|lia]. }
  eapply safe_bind; [by apply rmt_same_password_safe|]. intros [] _;
    [apply safe_ret; auto with iscsi|].
  destruct (Hv' name_text eq_refl) as [Hnn Hnl]. pose proof (wf_chap_username _ Hc) as Hcu.
  destruct (strlcpy_cstr (chap_username c1) 0 name_text AUTH_STR_MAX_LEN)
    as (nb & -> & Hnb & Hnc); [done|kt_lt|lia|]. cbn [mbind option_bind].
  rewrite Hnc. cbn [mbind option_bind].
  assert (acl_wf (c1 <| chap_username := nb |>)) as Hc2 by (wf_update Hc; lia).
  eapply safe_bind; [by apply (auth_request_safe _ s)|]. intros st' _.
  apply safe_ret. by apply rmt_record_status_wf.
Qed.

Lemma acl_rmt_auth_safe c : acl_wf c -> has_session c -> safe (acl_rmt_auth c) acl_wf.
Proof.
  intros Hc Hs. unfold acl_rmt_auth.
  destruct (rmt_state c); try (apply safe_ret; by auto with iscsi);
    try (by apply rmt_send_challenge_safe); try (by apply rmt_recv_rsp_safe).
  case_decide; [|by apply rmt_send_challenge_safe]. apply safe_ret. wf_update Hc.
Qed.

Lemma set_send_transit_wf c t : acl_wf c -> acl_wf (set_send_transit c t).
Proof.
  intros H. apply wf_set_send; [done|]. apply (blk_wf_flags (send_key_block c)); [|done..].
  by apply wf_send_blk.
Qed.

Hint Resolve set_send_transit_wf rmt_record_status_wf : iscsi.

Lemma acl_hand_shake_wf c : acl_wf c -> acl_wf (acl_hand_shake c).
Proof. intros H. unfold acl_hand_shake. repeat case_match; auto with iscsi. Qed.

Lemma rcv_end_suppress_safe c : acl_wf c -> safe (rcv_end_suppress c) acl_wf.
Proof.
  intros Hc. pose proof (wf_send_blk _ Hc) as Hb. unfold rcv_end_suppress. case_decide.
  2: { apply safe_ret, wf_set_send; [done|]. apply init_key_blk_wf, Hb. }
  eapply safe_bind; [apply get_key_val_safe; [done|kt_lt]|]. intros [m b1] (Hb1 & _ & _).
  eapply (safe_bind _ _ (fun '(_, b2) => blk_wf b2)).
  { destruct m; [by apply safe_ret|].
    eapply safe_impl; [apply get_key_val_safe; [done|kt_lt]|]. by intros [? ?] [? _]. }
  intros [a b2] Hb2.
  assert (acl_wf (c <| send_key_block := acl_init_key_blk b2 |>)) as Hc1.
  { apply wf_set_send; [done|]. apply init_key_blk_wf, Hb2. }
  repeat case_decide; [..|by apply safe_ret]; apply set_send_key_safe; try kt_lt; try done;
    intros ? [= <-]; by apply (bool_decide_unpack _).
Qed.

Lemma acl_rcv_end_status_safe c : acl_wf c -> safe (acl_rcv_end_status c) (fun '(_, c') => acl_wf c').
Proof.
  intros Hc. unfold acl_rcv_end_status. case_decide; [by apply safe_ret|].
  destruct (if decide (phase c = AUTH_PHASE_DONE) then _ else _) as [st c1] eqn:E1.
  assert (acl_wf c1) as Hc1.
  { case_decide; [|by simplify_eq]. injection E1 as _ <-. case_decide; [wf_update Hc|done]. }
  destruct (rcv_end_check_keys c1 st) as [st' c2] eqn:E2.
  assert (acl_wf c2) as Hc2.
  { unfold rcv_end_check_keys in E2. repeat case_match; simplify_eq; auto with iscsi. }
  clear E1 E2. eapply (safe_bind _ _ acl_wf).
  { case_decide; [by apply rcv_end_suppress_safe|by apply safe_ret]. }
  intros c3 Hc3. apply safe_ret. wf_update Hc3.
Qed.

Lemma wf_init_blks c t :
  acl_wf c -> acl_wf (c <| transit_bit_sent_flag := t |>
    <| recv_key_block := acl_init_key_blk (recv_key_block c) |>
    <| send_key_block := acl_init_key_blk (send_key_block c) |>).
Proof.
  intros Hc. pose proof (wf_recv_blk _ Hc) as [Hr _ _ _]. pose proof (wf_send_blk _ Hc) as [Hs _ _ _].
  wf_update Hc; by apply init_key_blk_wf.
Qed.

Lemma recv_begin_wf c : acl_wf c -> acl_wf (recv_begin c).2.
Proof.
  intros Hc. unfold recv_begin. case_decide; [done|]. case_decide; [by apply wf_set_phase|].
  case_match; [by apply wf_set_phase|].
  assert (acl_wf (c <| recv_in_progress_flag := true |>)) as Hc1 by wf_update Hc.
  case_decide; [apply acl_next_phase_wf in Hc1|]; exact (wf_init_blks _ _ Hc1).
Qed.

Lemma recv_end_checks_wf c : acl_wf c -> acl_wf (recv_end_checks c).
Proof. intros H. unfold recv_end_checks. repeat case_match; auto with iscsi. Qed.

Lemma recv_end_negotiate_safe c : acl_wf c -> safe (recv_end_negotiate c) (fun '(c', _) => acl_wf c').
Proof.
  intros Hc. unfold recv_end_negotiate.
  eapply safe_bind; [by apply acl_chk_auth_method_key_safe|]. intros c1 Hc1.
  case_decide; [case_decide|case_decide; apply safe_ret; auto with iscsi].
  - assert (acl_wf (c1 <| auth_method_valid_neg_role := AUTH_NEG_ROLE_ORIGINATOR |>)) as Hc2
      by wf_update Hc1.
    destruct (wf_valid _ Hc2).
    eapply safe_bind; [apply acl_set_auth_method_key_safe; [done|lia]|].
    intros c3 Hc3. by apply safe_ret.
  - eapply (safe_bind _ _ acl_wf).
    { case_decide; [by apply safe_ret|]. apply acl_set_auth_method_key_safe; [done|simpl; lia]. }
    intros c2 Hc2. case_decide; apply safe_ret; auto with iscsi.
Qed.

Lemma recv_end_authenticate_safe c : acl_wf c -> has_session c -> safe (recv_end_authenticate c) acl_wf.
Proof.
  intros Hc (s & Hs & Hsw). unfold recv_end_authenticate.
  destruct (acl_local_auth_safe c Hc) as (c1 & E & Hc1). rewrite E. cbn [mbind option_bind].
  apply local_auth_frame in E as [E _]. ctl_eqs E. cbn in *.
  eapply (safe_bind _ _ acl_wf).
  { case_decide; [|by apply safe_ret]. apply acl_rmt_auth_safe; [done|]. exists s. by split; [congruence|]. }
  intros c2 Hc2. apply safe_ret. case_decide; [wf_update Hc2|done].
Qed.

Lemma recv_end_second_safe c b :
  acl_wf c -> has_session c -> safe (recv_end_second c b) (fun '(_, c') => acl_wf c').
Proof.
  intros Hc Hs. unfold recv_end_second.
  assert (forall c1, acl_wf c1 -> safe (recv_end_finish c1) (fun '(_, c') => acl_wf c')) as Hfin.
  { intros c1 Hc1. by apply acl_rcv_end_status_safe, acl_hand_shake_wf. }
  destruct (phase c); try (apply safe_ret; cbn; by auto with iscsi).
  - apply Hfin. case_match; auto with iscsi.
  - eapply safe_bind; [by apply recv_end_authenticate_safe|]. auto.
  - auto.
Qed.

Lemma next_phase_session c : session_handle (acl_next_phase c) = session_handle c.
Proof. unfold acl_next_phase. repeat case_match; done. Qed.

Lemma recv_end_negotiate_session c c' b :
  recv_end_negotiate c = Some (c', b) -> session_handle c' = session_handle c.
Proof.
  unfold recv_end_negotiate. intros H. inv_opt.
  apply chk_auth_method_key_frame in E as (c1 & m & [Hc _] & ->). ctl_eqs Hc.
  branch_opt; rewrite ?next_phase_session; try done;
    match goal with
    | E : acl_set_auth_method_key _ _ _ = Some _ |- _ =>
        apply set_key_frame in E as [E _]; apply ctl_eq in E as ((_ & _ & _ & E & _) & _); rewrite E
    end; done.
Qed.

Lemma recv_end_safe c s :
  acl_wf c -> session_wf s -> safe (recv_end c s) (fun '(_, c') => acl_wf c').
Proof.
  intros Hc Hs. unfold recv_end. case_decide; [by apply safe_ret|].
  case_match; [apply safe_ret; cbn; auto with iscsi|].
  apply recv_end_checks_wf in Hc.
  assert (acl_wf ((recv_end_checks c) <| recv_end_count := S (recv_end_count (recv_end_checks c)) |>
                    <| session_handle := Some s |>)) as Hc1 by wf_update Hc.
  set (c1 := _ <| session_handle := Some s |>) in *.
  assert (has_session c1) as Hs1 by (by exists s). clearbody c1.
  destruct (phase c1); try (apply safe_ret; cbn; by auto with iscsi); try (by apply recv_end_second_safe).
  destruct (recv_end_negotiate_safe c1 Hc1) as ([c2 b] & E & Hc2). rewrite E. cbn [mbind option_bind].
  apply recv_end_second_safe; [done|].
  destruct Hs1 as (s1 & E1 & ?). exists s1. apply recv_end_negotiate_session in E. by rewrite E.
Qed.

(** ** Keys and bits of a message *)
Lemma phase_error_wf c : acl_wf c -> acl_wf (phase_error c).2.
Proof. apply wf_set_phase. Qed.

Hint Resolve phase_error_wf : iscsi.

Lemma recv_key_value_safe c kt v :
  acl_wf c -> no_nul v -> safe (recv_key_value c kt v) (fun '(_, c') => acl_wf c').
Proof.
  intros Hc Hv. unfold recv_key_value.
  case_decide; [apply safe_ret; cbn; auto with iscsi|].
  case_decide as Hkt; [apply safe_ret; cbn; auto with iscsi|].
  assert (Z.to_nat kt < AUTH_KEY_TYPE_MAX_COUNT) as Hlt.
  { unfold AUTH_KEY_TYPE_FIRST, AUTH_KEY_TYPE_LAST, AUTH_KEY_TYPE_MAX_COUNT in *. lia. }
  eapply (safe_bind _ _ (fun '(c', v') => acl_wf c' /\ no_nul v')).
  { case_decide; [|by apply safe_ret]. destruct (wf_recv_challenge _ Hc) as [H1 H2 H3].
    destruct (acl_text_to_data_bounds v (large_binary (recv_chap_challenge c))
      AUTH_LARGE_BINARY_MAX_LEN) as (st & out & n & -> & Hout & Hb & Hst); [lia|].
    cbn [mbind option_bind]. apply safe_ret. split; [|constructor].
    wf_update Hc. constructor; cbn; [rewrite length_splice; lia|lia|by apply Forall_splice]. }
  intros [c1 v1] [Hc1 Hv1].
  eapply safe_bind; [apply set_key_value_safe; [by apply wf_recv_blk|done|by intros ? [= <-]]|].
  intros b [Hb _]. apply safe_ret. auto with iscsi.
Qed.

Lemma recv_transit_bit_wf c v : acl_wf c -> acl_wf (recv_transit_bit c v).2.
Proof.
  intros Hc. unfold recv_transit_bit. case_decide; [by apply phase_error_wf|].
  apply wf_set_recv; [done|]. apply (blk_wf_flags (recv_key_block c)); [|done..].
  by apply wf_recv_blk.
Qed.

(** What a client pointer must satisfy: an initialised client is well formed. *)
Definition acl_ok (client : option iscsi_acl) : Prop :=
  forall c, client = Some c -> signature c = ACL_SIGNATURE -> acl_wf c.

Lemma with_client_safe client f :
  acl_ok client -> (forall c, acl_wf c -> safe (f c) (fun '(_, c') => acl_wf c')) ->
  safe (with_client client f) (fun '(_, client') => acl_ok client').
Proof.
  intros Hok Hf. unfold with_client. destruct client as [c|]; [|apply safe_ret; by intros ? [=]].
  case_decide as Hs; [by apply safe_ret|].
  eapply safe_bind; [apply Hf, Hok; [done|]|].
  { destruct (decide (signature c = ACL_SIGNATURE)); [done|contradiction]. }
  intros [st c'] Hc'. apply safe_ret. by intros ? [= <-].
Qed.

Ltac same_buf := apply safe_ret; split; [by auto with iscsi|left; by split].

(** The longest value of a key: a challenge in hexadecimal, or a string. *)
Definition send_val_max (kt : Z) : nat :=
  if decide (kt = Z.of_nat AUTH_KEY_TYPE_CHAP_CHALLENGE) then 2 + 2 * AUTH_LARGE_BINARY_MAX_LEN
  else AUTH_STR_MAX_LEN - 1.

(** [acl_send_key_val] writes inside the room it is given. *)
Lemma acl_send_key_val_safe client kt kp buf off max :
  acl_ok client -> 0 < max -> off + max <= length buf ->
  safe (acl_send_key_val client kt kp buf off max) (fun '(st, kp', buf', client') =>
    acl_ok client' /\
    (buf' = buf /\ (st = AUTH_STATUS_NO_ERROR -> kp' = false) \/
     exists s, no_nul s /\ length s < max /\ length s <= send_val_max kt /\
       buf' = splice buf off (s ++ [NUL]))).
Proof.
  intros Hok Hpos Hmax. unfold acl_send_key_val.
  destruct client as [c|]; [|same_buf]. case_decide as Hs; [same_buf|].
  assert (acl_wf c) as Hc.
  { apply Hok; [done|]. by destruct (decide (signature c = ACL_SIGNATURE)). }
  assert (forall c1, acl_wf c1 -> acl_ok (Some c1)) as Hret by (by intros c1 Hc1 ? [= <-]).
  case_match; [same_buf|].
  case_decide as Hkt; [same_buf|].
  eapply safe_bind; [apply get_key_val_safe; [by apply wf_send_blk|]|].
  { unfold AUTH_KEY_TYPE_FIRST, AUTH_KEY_TYPE_LAST, AUTH_KEY_TYPE_MAX_COUNT in *. lia. }
  intros [v b] (Hb & _ & Hv). apply (wf_set_send _ b) in Hc; [|done].
  set (c1 := c <| send_key_block := b |>) in *. clearbody c1.
  destruct v as [v|]; [|same_buf].
  eapply (safe_bind _ _ (fun '(_, buf') =>
    exists s, no_nul s /\ length s < max /\ length s <= send_val_max kt /\
      buf' = splice buf off (s ++ [NUL]))).
  - unfold send_val_max. case_decide.
    + destruct (wf_send_challenge _ Hc). rewrite buf_prefix_Some by lia. cbn [mbind option_bind].
      destruct (acl_data_to_text_room (take (lb_length (send_chap_challenge c1))
        (large_binary (send_chap_challenge c1))) buf off max) as (st & s & -> & _ & Hn & Hl & Hl2);
        [by apply Forall_take|done|done|]. apply safe_ret. exists s. rewrite length_take in Hl2.
      split_and!; [done..| |done]. lia.
    + destruct (Hv v eq_refl) as [Hn Hl]. rewrite strlcpy_spec by lia. apply safe_ret.
      eexists. split_and!; [|..|done]; [auto with iscsi|..]; rewrite length_take;
        unfold AUTH_STR_MAX_LEN, AUTH_LARGE_BINARY_MAX_LEN in *; lia.
  - intros [[] buf'] Hbuf; apply safe_ret; auto with iscsi.
Qed.

(** ** Configuration *)
Lemma set_option_list_safe c n l cn cl max chk chk_list :
  acl_wf c -> n <= length l -> max <= length cl -> cn <= max ->
  safe (acl_set_option_list c n l cn cl max chk chk_list) (fun '(st, c', cl', cn') =>
    acl_wf c' /\ length cl' = length cl /\ cn' <= max /\
    (st = AUTH_STATUS_NO_ERROR -> cl' = take n l ++ drop n cl /\ cn' = n /\ n <= max /\
       Forall (fun o => chk o = false) (take n l)) /\
    (st <> AUTH_STATUS_NO_ERROR -> cl' = cl)).
Proof.
  intros Hc Hl Hmax Hcn. unfold acl_set_option_list. cbv zeta.
  case_decide as Hp; [apply safe_ret; split_and!; by auto with iscsi|].
  rewrite buf_prefix_Some by done. cbn [mbind option_bind].
  destruct (existsb chk (take n l)) eqn:He; [apply safe_ret; split_and!; by auto with iscsi|].
  case_decide; [apply safe_ret; split_and!; by auto with iscsi|].
  destruct (chk_list n l); [apply safe_ret; split_and!; by auto with iscsi|].
  rewrite decide_False by lia. apply safe_ret. split_and!; [done| |lia| |done].
  - rewrite length_app, length_take, length_drop. lia.
  - intros _. split_and!; [done|done|lia|]. apply Forall_forall. intros o Ho.
    destruct (chk o) eqn:Hk; [|done].
    assert (existsb chk (take n l) = true) by (apply existsb_exists; eauto). congruence.
Qed.

Lemma filter_le (f : Z -> bool) l : length (List.filter f l) <= length l.
Proof. induction l as [|x l IH]; simpl; [lia|]. destruct (f x); simpl; lia. Qed.

Lemma valid_methods_wf c valid :
  acl_wf c -> length valid <= AUTH_METHOD_MAX_COUNT -> acl_wf (valid_methods c valid).
Proof.
  intros Hc Hl. destruct (wf_valid _ Hc) as [Hv1 Hv2]. pose proof (wf_send_blk _ Hc) as [Hs _ _ _].
  wf_update Hc; [|by apply init_key_blk_wf]. split; [|done]. rewrite length_app, length_drop. lia.
Qed.

Lemma valid_role_wf c : acl_wf c -> acl_wf (valid_role c).
Proof.
  intros Hc. unfold valid_role. case_decide; [case_match|];
    match goal with |- acl_wf ((set_send_transit _ ?t) <| _ := _ |>) =>
      pose proof (set_send_transit_wf c t Hc) as H'; wf_update H' end.
Qed.

(** The methods kept are at most as many as the list holds. *)
Lemma valid_methods_count c :
  acl_wf c ->
  length (List.filter (auth_method_filter c) (take (auth_method_count c) (auth_method_list c)))
    <= AUTH_METHOD_MAX_COUNT.
Proof.
  intros Hc. destruct (wf_methods _ Hc). etrans; [apply filter_le|]. rewrite length_take. lia.
Qed.

Lemma set_auth_method_valid_safe c : acl_wf c -> safe (acl_set_auth_method_valid c) acl_wf.
Proof.
  intros Hc. unfold acl_set_auth_method_valid. destruct (wf_methods _ Hc) as [Hm1 Hm2].
  destruct (wf_valid _ Hc) as [Hv1 Hv2]. pose proof (valid_methods_count c Hc) as Hlen.
  rewrite buf_prefix_Some, bind_ret by lia. cbv zeta. rewrite decide_False by lia.
  apply (valid_methods_wf c) in Hlen as Hc1; [|done]. apply valid_role_wf in Hc1.
  destruct (wf_valid _ Hc1). case_decide; (apply acl_set_auth_method_key_safe; [done|simpl; lia]).
Qed.

Lemma set_auth_method_list_safe c n l :
  acl_wf c -> n <= length l -> safe (acl_set_auth_method_list c n l) (fun '(_, c') => acl_wf c').
Proof.
  intros Hc Hl. unfold acl_set_auth_method_list. destruct (wf_methods _ Hc).
  eapply safe_bind; [apply set_option_list_safe; [done|done|lia|lia]|].
  intros [[[st c1] l1] n1] (Hc1 & Hl1 & Hn1 & _).
  assert (acl_wf (c1 <| auth_method_list := l1 |> <| auth_method_count := n1 |>)) as Hc2.
  { wf_update Hc1. lia. }
  case_decide; [by apply safe_ret|].
  eapply safe_bind; [by apply set_auth_method_valid_safe|]. intros c3 Hc3. by apply safe_ret.
Qed.

Lemma set_chap_alg_list_safe c n l :
  acl_wf c -> n <= length l -> safe (set_chap_alg_list c n l) (fun '(_, c') => acl_wf c').
Proof.
  intros Hc Hl. unfold set_chap_alg_list. destruct (wf_algs _ Hc).
  eapply safe_bind; [apply set_option_list_safe; [done|done|lia|lia]|].
  intros [[[st c1] l1] n1] (Hc1 & Hl1 & Hn1 & Hok & Hbad). apply safe_ret.
  wf_update Hc1; [lia|]. pose proof (wf_alg_values _ Hc) as Hv.
  destruct (decide (st = AUTH_STATUS_NO_ERROR)) as [E|E]; [|by rewrite Hbad].
  destruct (Hok E) as (-> & _ & _ & Hall). apply Forall_app. split; [|by apply Forall_drop].
  revert Hall. apply Forall_impl. intros o. unfold acl_chk_chap_alg_optn, alg_value.
  rewrite negb_false_iff, bool_decide_eq_true. tauto.
Qed.

Lemma set_user_name_safe c name :
  acl_wf c -> (forall s, name = Some s -> no_nul s) ->
  safe (set_user_name c name) (fun '(_, c') => acl_wf c').
Proof.
  intros Hc Hn. unfold set_user_name. case_decide; [apply safe_ret; cbn; auto with iscsi|].
  destruct (wf_username _ Hc) as [Hl Hu]. destruct name as [s|].
  - eapply safe_bind; [apply strlcpy_str_wf; [by apply (wf_username _ Hc)|auto]|].
    intros [b n] Hb. assert (acl_wf (c <| username := b |>)) as Hc1 by wf_update Hc.
    case_decide; apply safe_ret; cbn; auto with iscsi.
  - assert (0 < length (username c)) by (rewrite Hl; kt_lt).
    rewrite buf_set_Some by done. apply safe_ret.
    assert (str_wf (<[0 := NUL]> (username c))) as Hb.
    { split; [by rewrite length_insert|]. destruct (username c); [simpl in *; lia|]. exists []. reflexivity. }
    wf_update Hc.
Qed.

Lemma set_passwd_safe c pw n :
  acl_wf c -> n <= length pw -> safe (set_passwd c pw n) (fun '(_, c') => acl_wf c').
Proof.
  intros Hc Hn. unfold set_passwd. case_decide; [apply safe_ret; cbn; auto with iscsi|].
  destruct (wf_passwd _ Hc) as [Hp1 Hp2]. rewrite buf_prefix_Some by done. cbn [mbind option_bind].
  assert (0 + length (take n pw) <= length (passwd_data c)) as Hroom by (rewrite length_take; lia).
  rewrite buf_write_Some by done. cbn [mbind option_bind].
  eapply safe_bind; [apply set_auth_method_valid_safe|intros c1 Hc1; by apply safe_ret].
  wf_update Hc. split; [|lia]. by rewrite length_splice.
Qed.

Lemma set_auth_rmt_safe c rmt : acl_wf c -> safe (set_auth_rmt c rmt) (fun '(_, c') => acl_wf c').
Proof.
  intros Hc. unfold set_auth_rmt. case_decide; [apply safe_ret; cbn; auto with iscsi|].
  eapply safe_bind; [apply set_auth_method_valid_safe; wf_update Hc|].
  intros c1 Hc1. by apply safe_ret.
Qed.

Lemma set_ip_sec_wf c v : acl_wf c -> acl_wf (set_ip_sec c v).2.
Proof. intros Hc. unfold set_ip_sec. case_decide; [by apply phase_error_wf|]. wf_update Hc. Qed.

Lemma get_dbg_status_wf c : acl_wf c -> acl_wf (get_dbg_status c).2.
Proof. intros Hc. unfold get_dbg_status. case_decide; [by apply phase_error_wf|done]. Qed.

(** ** Initialisation *)
Lemma zero_str_wf : str_wf (replicate AUTH_STR_MAX_LEN 0%Z).
Proof. split; [by rewrite length_replicate|]. exists []. reflexivity. Qed.

Lemma zero_blk_wf : blk_wf (zero_blk <| str_block := replicate AUTH_STR_BLOCK_MAX_LEN 0%Z |>).
Proof.
  exact (init_key_blk_wf (zero_blk <| str_block := replicate AUTH_STR_BLOCK_MAX_LEN 0%Z |>)
           (length_replicate _ _)).
Qed.

Lemma zero_lb_wf : lb_wf (mk_large_binary 0 (replicate AUTH_LARGE_BINARY_MAX_LEN 0%Z)).
Proof.
  constructor; cbn [lb_length large_binary]; [apply length_replicate|lia|].
  apply Forall_replicate. done.
Qed.

Lemma init_client_wf node pos : acl_wf (init_fields node (init_buffers pos)).
Proof.
  constructor.
  - split; [reflexivity|apply Nat.le_0_l].
  - split; [reflexivity|apply Nat.le_0_l].
  - split; [reflexivity|apply Nat.le_0_l].
  - by apply (bool_decide_unpack _).
  - exact zero_str_wf.
  - split; [reflexivity|apply Nat.le_0_l].
  - reflexivity.
  - exact zero_str_wf.
  - apply Nat.le_0_l.
  - intros H. exfalso. revert H. by apply (bool_decide_unpack _).
  - exact zero_lb_wf.
  - exact zero_lb_wf.
  - exact zero_blk_wf.
  - exact zero_blk_wf.
Qed.

Lemma acl_init_safe node n desc c :
  acl_ok (Some c) -> safe (acl_init node n desc c) (fun '(st, c') =>
    acl_ok (Some c') /\ (st = AUTH_STATUS_NO_ERROR -> acl_wf c')).
Proof.
  intros Hok. unfold acl_init. case_decide; [by apply safe_ret|].
  destruct (negb (desc_ok desc)); [by apply safe_ret|].
  case_decide; [apply safe_ret; split; [by intros ? [= <-]|done]|].
  eapply safe_bind; [apply set_auth_method_list_safe; [apply init_client_wf|simpl; lia]|].
  intros [st c2] Hc2. case_decide; apply safe_ret.
  - split; [|done]. intros ? [= <-] _. by apply phase_error_wf.
  - split; [|done]. by intros ? [= <-] _.
Qed.

Lemma acl_finish_safe client :
  acl_ok client -> safe (acl_finish client) (fun '(_, client') => acl_ok client').
Proof.
  intros Hok. unfold acl_finish, with_client. destruct client as [c|]; [|by apply safe_ret].
  case_decide; [by apply safe_ret|]. apply safe_ret. by intros ? [= <-].
Qed.

End Safety.
