(* ===== verification/AclProtocol.v ===== *)
(** * The authentication protocol

    What a sequence of calls of the authentication interface guarantees: the
    state invariant [ctl_inv], its preservation by every operation, and the
    evidence behind a PASS. *)
From S2P Require Import Prelude CString AuthText Acl AclFrame AclSafety.
From Stdlib Require Import Ascii Lia ZArith.
From stdpp Require Import base tactics numbers list strings option.

Section Protocol.
Context `{Env : AuthEnv} {EnvOk : AuthEnvOk Env}.

(** The identifier and the challenge the client sent are the results of two
    consecutive calls of [RAND_bytes], made after the [start]-th. *)
Definition fresh_challenge (start : nat) (pos : nat) (id : Z) (challenge : list Z) : Prop :=
  exists k, start <= k /\ S k < pos /\ RAND_bytes k 1 = Some [id] /\
    RAND_bytes (S k) (length challenge) = Some challenge.

Definition sent_challenge (b : auth_large_binary_key) : list Z := take (lb_length b) (large_binary b).

(** The invariant of the protocol state; [V] is what a PASS stands for. *)
Record ctl_inv (start : nat) (V : Prop) (k : acl_ctl) : Prop := {
  inv_config : ctl_phase k = AUTH_PHASE_CONFIGURE ->
    ctl_rmt_auth_status k = AUTH_STATUS_NO_ERROR /\ ctl_rmt_state k = AUTH_RMT_STATE_0;
  inv_pass : truth (ctl_auth_rmt k) = true -> ctl_rmt_auth_status k = AUTH_STATUS_PASS -> V;
  inv_role : ctl_node_type k = TYPE_INITIATOR ->
    ctl_own_role k = AUTH_NEG_ROLE_ORIGINATOR /\ ctl_neg_role k = AUTH_NEG_ROLE_ORIGINATOR;
  inv_done : ctl_node_type k = TYPE_INITIATOR ->
    ctl_phase k = AUTH_PHASE_DONE \/ ctl_rmt_state k = AUTH_RMT_STATE_DONE ->
    ctl_rmt_auth_status k = AUTH_STATUS_PASS \/ ctl_rmt_auth_status k = AUTH_STATUS_FAIL;
  inv_fresh : ctl_rmt_state k = AUTH_RMT_STATE_RECV_RSP ->
    fresh_challenge start (ctl_rand_pos k) (ctl_identifier k) (sent_challenge (ctl_challenge k));
  inv_start : start <= ctl_rand_pos k
}.

Lemma ctl_inv_mono start (V V' : Prop) k : (V -> V') -> ctl_inv start V k -> ctl_inv start V' k.
Proof. intros HV []. constructor; auto. Qed.

(** Prove the invariant of an updated client from that of the client. *)
Ltac inv_update H :=
  destruct H; constructor; cbn -[key_values] in *; intros;
  first [assumption | congruence | by auto | intuition congruence | idtac].

Lemma inv_phase_error start V c :
  ctl_inv start V (ctl_of c) -> ctl_inv start V (ctl_of (c <| phase := AUTH_PHASE_ERROR |>)).
Proof. intros H. inv_update H. Qed.

Lemma inv_auth_fail start V c d :
  ctl_inv start V (ctl_of c) -> ctl_inv start V (ctl_of (auth_fail c d)).
Proof. intros H. inv_update H. Qed.

Lemma inv_next_phase start V c :
  ctl_inv start V (ctl_of c) -> 
  phase c <> AUTH_PHASE_AUTHENTICATE \/ (node_type c = TYPE_INITIATOR -> rmt_state c = AUTH_RMT_STATE_DONE) ->
  ctl_inv start V (ctl_of (acl_next_phase c)).
Proof.
  intros H Hd. unfold acl_next_phase. destruct (phase c) eqn:Hp; try (inv_update H; fail).
  cbv zeta. case_decide.
  2: { case_decide; inv_update H. }
  assert (forall d, ctl_inv start V (ctl_of
    ((if truth (auth_rmt c) then c <| phase := AUTH_PHASE_AUTHENTICATE |>
        <| local_state := AUTH_LOCAL_STATE_DONE |> <| rmt_state := AUTH_RMT_STATE_DONE |>
        <| rmt_auth_status := AUTH_STATUS_FAIL |> <| phase := AUTH_PHASE_DONE |>
      else c <| phase := AUTH_PHASE_AUTHENTICATE |>
        <| local_state := AUTH_LOCAL_STATE_DONE |> <| rmt_state := AUTH_RMT_STATE_DONE |>
        <| rmt_auth_status := AUTH_STATUS_PASS |>) <| dbg_status := d |>))) as Hd'.
  { intros d. destruct (truth (auth_rmt c)) eqn:Hr; inv_update H. }
  repeat case_decide; apply Hd'.
Qed.

(** ** The remote half of the authentication *)

(** The message that [c] received answers the challenge that the client sent
    with the credentials of the session. *)
Definition chap_verified (start : nat) (s : auth_session) (c : iscsi_acl) (alg : Z) : Prop :=
  exists rsp_text id challenge buf n,
    key_value (recv_key_block c) AUTH_KEY_TYPE_CHAP_USERNAME = Some (username_in s) /\
    username_in s <> [] /\ (1 <= password_in_length s)%Z /\ is_chap_alg alg /\
    fresh_challenge start (rand_pos c) id challenge /\
    key_value (recv_key_block c) AUTH_KEY_TYPE_CHAP_RSP = Some rsp_text /\
    acl_text_to_data rsp_text (replicate AUTH_STR_MAX_LEN 0%Z) AUTH_STR_MAX_LEN = Some (0%Z, buf, n) /\
    take n buf = EVP_digest alg
      (u8 id :: take (Z.to_nat (password_in_length s)) (password_in s) ++ challenge).

(** The answer of the authentication request, both ways. *)
Lemma auth_request_spec c s name id challenge resp n :
  acl_wf c -> session_handle c = Some s -> session_wf s -> length resp = AUTH_STR_MAX_LEN ->
  acl_chap_auth_request c name id challenge resp n = Some AUTH_STATUS_PASS <->
  username_in s <> [] /\ name = username_in s /\ (1 <= password_in_length s)%Z /\
  password_in s !! 0 <> Some NUL /\ is_chap_alg (negotiated_chap_alg c) /\
  EVP_DigestInit_ex (negotiated_chap_alg c) = true /\
  n = chap_challenge_len c /\
  take n resp = EVP_digest (negotiated_chap_alg c)
    (u8 id :: take (Z.to_nat (password_in_length s)) (password_in s) ++ challenge).
Proof.
  intros Hc Hs [Hp1 Hp2] Hr. unfold acl_chap_auth_request. rewrite Hs. cbn [mbind option_bind].
  rewrite length_replicate. unfold AUTH_STR_MAX_LEN in *.
  destruct (lookup_lt_is_Some_2 (password_in s) 0) as [p0 Hp0]; [lia|].
  case_decide; [naive_solver|]. case_decide; [naive_solver|].
  case_decide; [split; [done|lia]|]. rewrite Hp0. cbn [mbind option_bind].
  case_decide; [naive_solver|]. case_decide; [naive_solver|].
  unfold auth_hash_init. case_decide as Ha; [|naive_solver].
  destruct (EVP_DigestInit_ex (negotiated_chap_alg c)) eqn:Hi; [|naive_solver].
  pose proof (wf_alg_len _ Hc Ha) as Hlen. pose proof (chap_rsp_len_max (negotiated_chap_alg c)).
  unfold AUTH_CHAP_RSP_MAX in *.
  rewrite buf_set_Some by (rewrite length_replicate; lia). cbn [mbind option_bind].
  rewrite (buf_prefix_Some _ 1) by (rewrite length_insert, length_replicate; lia).
  cbn [mbind option_bind].
  rewrite (buf_prefix_Some (password_in s)) by lia. cbn [mbind option_bind].
  unfold auth_hash_final, auth_hash_update. cbn [h_alg h_data app].
  destruct (chap_challenge_len c) as [|m] eqn:Em; [lia|]. cbn [replicate insert list_insert take].
  set (dg := EVP_digest _ _).
  assert (length dg = S m) as Hdg by (subst dg; rewrite EVP_digest_length by done; lia).
  assert (splice (u8 id :: replicate m 0%Z) 0 dg = dg) as Hsp.
  { unfold splice. rewrite (drop_ge (u8 id :: replicate m 0%Z))
      by (cbn [length]; rewrite length_replicate; lia). by rewrite app_nil_r. }
  rewrite buf_write_Some, Hsp by (cbn [length]; rewrite length_replicate; lia). cbn [mbind option_bind].
  rewrite buf_prefix_Some by lia. cbn [mbind option_bind].
  assert (dg = EVP_digest (negotiated_chap_alg c)
    (u8 id :: take (Z.to_nat (password_in_length s)) (password_in s) ++ challenge)) as Edg.
  { subst dg. by rewrite take_0. }
  rewrite Edg. case_decide; split; intros Hx; try done; [|naive_solver].
  split_and!; try done; [lia|congruence|congruence].
Qed.

Lemma key_values_lookup b b' kt :
  key_values b' = key_values b -> kt < AUTH_KEY_TYPE_MAX_COUNT -> key_value b' kt = key_value b kt.
Proof.
  intros H Hlt. apply (f_equal (fun l => l !! kt)) in H. unfold key_values in H.
  rewrite !list_lookup_fmap, lookup_seq_lt in H by done. by injection H.
Qed.

Lemma chap_verified_frame start s c c' alg :
  key_values (recv_key_block c') = key_values (recv_key_block c) -> rand_pos c' = rand_pos c ->
  chap_verified start s c' alg -> chap_verified start s c alg.
Proof.
  intros Hk Hr (t & id & ch & b & n & H1 & H2 & H3 & H4 & H5 & H6 & H7 & H8).
  exists t, id, ch, b, n. rewrite <- !(key_values_lookup _ _ _ Hk) by kt_lt. rewrite <- Hr. by split_and!.
Qed.

Lemma record_status_ctl c st :
  negotiated_chap_alg (rmt_record_status c st) = negotiated_chap_alg c /\
  local_state (rmt_record_status c st) = local_state c /\
  exists st', (st' = AUTH_STATUS_PASS \/ st' = AUTH_STATUS_FAIL) /\
    ctl_of (rmt_record_status c st) =
      ctl_of (c <| rmt_state := AUTH_RMT_STATE_DONE |> <| rmt_auth_status := st' |>
                <| auth_rsp_flag := true |>) /\
    (st' = AUTH_STATUS_PASS -> st = AUTH_STATUS_PASS).
Proof.
  split; [|split]; [by unfold rmt_record_status; repeat case_match..|].
  exists (if auth_server_error_flag c then AUTH_STATUS_FAIL
          else if decide (st = AUTH_STATUS_PASS) then AUTH_STATUS_PASS else AUTH_STATUS_FAIL).
  unfold rmt_record_status.
  destruct (auth_server_error_flag c) eqn:Hf, st; cbn -[key_values]; rewrite Hf;
    (split; [by auto|split; [done|done]]).
Qed.

(** What a received response does to the client. *)
Lemma rmt_recv_rsp_inv start s c c' :
  acl_wf c -> session_handle c = Some s -> session_wf s ->
  fresh_challenge start (rand_pos c) (send_chap_identifier c) (sent_challenge (send_chap_challenge c)) ->
  rmt_recv_rsp c = Some c' ->
  negotiated_chap_alg c' = negotiated_chap_alg c /\ local_state c' = local_state c /\
  (ctl_of c' = ctl_of (c <| rmt_state := AUTH_RMT_STATE_ERROR |>) \/
   exists st, (st = AUTH_STATUS_PASS \/ st = AUTH_STATUS_FAIL) /\
     ctl_of c' = ctl_of (c <| rmt_state := AUTH_RMT_STATE_DONE |> <| rmt_auth_status := st |>
                           <| auth_rsp_flag := true |>) /\
     (st = AUTH_STATUS_PASS -> chap_verified start s c (negotiated_chap_alg c))).
Proof.
  intros Hc Hs Hsw Hf H. unfold rmt_recv_rsp in H.
  destruct (get_key_val_safe (recv_key_block c) AUTH_KEY_TYPE_CHAP_RSP) as ([v b] & E & Hb & _);
    [by apply wf_recv_blk|kt_lt|].
  destruct (get_key_val_safe b AUTH_KEY_TYPE_CHAP_USERNAME) as ([v' b'] & E' & Hb' & _ & Hv');
    [done|kt_lt|].
  rewrite E in H. cbn [mbind option_bind] in H. rewrite E' in H. cbn [mbind option_bind] in H.
  apply get_key_val_frame in E as (Ht & Hk & Ev). apply get_key_val_frame in E' as (Ht' & Hk' & Ev').
  set (c1 := c <| recv_key_block := b' |>) in *.
  assert (acl_wf c1) as Hc1 by (by apply wf_set_recv).
  assert (forall d (P : Prop), negotiated_chap_alg (rmt_error c1 d) = negotiated_chap_alg c /\
    local_state (rmt_error c1 d) = local_state c /\
    (ctl_of (rmt_error c1 d) = ctl_of (c <| rmt_state := AUTH_RMT_STATE_ERROR |>) \/ P)) as Herr.
  { intros d P. split; [done|]. split; [done|]. left. unfold c1. ctl_solve. }
  destruct v as [rsp_text|]; [|injection H as <-; by apply Herr].
  destruct v' as [name|]; [|injection H as <-; by apply Herr].
  destruct (acl_text_to_data_bounds rsp_text (replicate AUTH_STR_MAX_LEN 0%Z) AUTH_STR_MAX_LEN)
    as (st & out & n & Etd & Hout & _ & Hst); [by rewrite length_replicate|].
  rewrite Etd in H. cbn [mbind option_bind] in H.
  case_decide as Hst0; [injection H as <-; by apply Herr|].
  destruct (wf_send_challenge _ Hc). rewrite buf_prefix_Some in H by (cbn; lia). cbn [mbind option_bind] in H.
  destruct (rmt_same_password c1 _ _ _) as [[]|]; [injection H as <-; by apply Herr| |done].
  cbn [mbind option_bind] in H. destruct (Hv' name eq_refl) as [Hnn Hnl].
  assert (length (chap_username c1) = AUTH_STR_MAX_LEN) as Hul by (by apply wf_chap_username).
  destruct (strlcpy_cstr (chap_username c1) 0 name AUTH_STR_MAX_LEN) as (nb & En & Hnb & Hnc);
    [done|kt_lt|lia|]. rewrite En in H. cbn [mbind option_bind] in H. rewrite Hnc in H.
  cbn [mbind option_bind] in H. rewrite take_ge in H by lia.
  set (c2 := c1 <| chap_username := nb |>) in *.
  assert (acl_wf c2) as Hc2 by (wf_update Hc1; lia).
  change (send_chap_identifier c1) with (send_chap_identifier c) in H.
  change (take _ _) with (sent_challenge (send_chap_challenge c)) in H.
  destruct (acl_chap_auth_request c2 _ _ _ _ _) as [stt|] eqn:Ereq; [|done].
  injection H as <-. assert (st = 0%Z) as -> by (destruct (decide (st = 0%Z)); [done|contradiction]).
  assert (stt = AUTH_STATUS_PASS -> chap_verified start s c (negotiated_chap_alg c)) as Hver.
  { intros ->. apply (auth_request_spec c2 s) in Ereq; try done.
    2: { rewrite length_splice; rewrite length_replicate; [done|lia]. }
    destruct Ereq as (H1 & -> & H2 & H3 & H4 & H5 & H6 & H7).
    exists rsp_text, (send_chap_identifier c), (sent_challenge (send_chap_challenge c)).
    eexists _, n. split_and!; try done.
    rewrite Ev'. symmetry. apply key_values_lookup; [by symmetry|kt_lt]. }
  destruct (record_status_ctl c2 stt) as (Ha & Hl & st' & Hst' & Ectl & Hp).
  split; [done|]. split; [done|]. right. exists st'. split; [done|]. split; [|by auto].
  rewrite Ectl. unfold c2, c1. ctl_solve.
Qed.

(** A step of the remote half that leaves it waiting or in error. *)
Lemma inv_remote_step start V c c' :
  ctl_inv start V (ctl_of c) -> phase c <> AUTH_PHASE_CONFIGURE -> phase c <> AUTH_PHASE_DONE ->
  phase c' = phase c -> node_type c' = node_type c -> auth_rmt c' = auth_rmt c ->
  rmt_auth_status c' = rmt_auth_status c -> auth_method_neg_role c' = auth_method_neg_role c ->
  auth_method_valid_neg_role c' = auth_method_valid_neg_role c -> rand_pos c <= rand_pos c' ->
  (rmt_state c' = AUTH_RMT_STATE_SEND_CHALLENGE \/ rmt_state c' = AUTH_RMT_STATE_ERROR \/
   rmt_state c' = AUTH_RMT_STATE_RECV_RSP /\
   fresh_challenge start (rand_pos c') (send_chap_identifier c')
     (sent_challenge (send_chap_challenge c'))) ->
  ctl_inv start V (ctl_of c').
Proof.
  intros [] Hp Hp' E1 E2 E3 E4 E5 E6 Hr Hst. constructor; cbn in *; rewrite ?E1, ?E2, ?E3, ?E4, ?E5, ?E6;
    intros; auto; [congruence| | |lia]; destruct Hst as [Hst|[Hst|[Hst Hf]]]; by destruct_or?; try congruence.
Qed.

(** The challenge is drawn here. *)
Lemma rmt_send_challenge_inv start V c c' :
  ctl_inv start V (ctl_of c) -> phase c <> AUTH_PHASE_CONFIGURE -> phase c <> AUTH_PHASE_DONE ->
  rmt_send_challenge c = Some c' ->
  ctl_inv start V (ctl_of c') /\ negotiated_chap_alg c' = negotiated_chap_alg c /\
  local_state c' = local_state c /\ phase c' = phase c.
Proof.
  intros Hi Hp Hp' H. unfold rmt_send_challenge in H.
  destruct (truth (auth_rmt c)) eqn:Hr; cbn [negb] in H.
  2: { injection H as <-. split; [|done]. inv_update Hi. }
  destruct (RAND_bytes (rand_pos c) 1) as [l|] eqn:E1.
  2: { injection H as <-. split; [|done]. apply (inv_remote_step _ _ c); cbn; auto. }
  pose proof (RAND_bytes_ok _ _ _ E1) as [Hl1 _]. destruct l as [|id [|]]; simplify_eq/=.
  destruct (strlcpy (scratch_key_value c) 0 (fmt_lu id) AUTH_STR_MAX_LEN) as [[sc n]|]; [|done].
  cbn [mbind option_bind] in H.
  destruct (set_send_key_scratch _ _) as [c1|] eqn:E2; [|done]. cbn [mbind option_bind] in H.
  assert (negotiated_chap_alg c1 = negotiated_chap_alg c) as Ha1.
  { unfold set_send_key_scratch, set_send_key in E2. by inv_opt. }
  apply set_send_key_scratch_frame in E2 as [E2 El]. cbn in El.
  cbn -[buf_write] in H. destruct (RAND_bytes (rand_pos c1) (chap_challenge_len c1)) as [bytes|] eqn:E3.
  2: { injection H as <-. ctl_eqs E2. cbn -[key_values] in *. split_and!; try done.
       apply (inv_remote_step _ _ c); cbn; auto; lia. }
  pose proof (RAND_bytes_ok _ _ _ E3) as [Hl3 _].
  destruct (buf_write _ 0 bytes) as [lb|] eqn:E4; [|done]. cbn [mbind option_bind] in H.
  destruct (set_send_key _ _ _) as [c2|] eqn:E5; [|done]. injection H as <-.
  assert (negotiated_chap_alg c2 = negotiated_chap_alg c1) as Ha2.
  { unfold set_send_key in E5. by inv_opt. }
  apply set_send_key_frame in E5 as [E5 El2]. cbn in El2.
  ctl_eqs E2. ctl_eqs E5. cbn -[key_values] in *. apply buf_write_inv in E4 as [Hroom ->].
  split_and!; try congruence. apply (inv_remote_step _ _ c); cbn; try congruence; [lia|].
  do 2 right. split; [done|].
  assert (send_chap_challenge c2 = mk_large_binary (chap_challenge_len c1)
    (splice (large_binary (send_chap_challenge c1)) 0 bytes)) as -> by done.
  assert (sent_challenge (mk_large_binary (chap_challenge_len c1)
    (splice (large_binary (send_chap_challenge c1)) 0 bytes)) = bytes) as ->.
  { unfold sent_challenge. cbn. rewrite <- Hl3. apply take_splice_0. }
  exists (rand_pos c). destruct Hi. cbn in *. split_and!; [done|lia|congruence|].
  rewrite Hl3. congruence.
Qed.

Lemma rmt_auth_inv start V s c c' :
  acl_wf c -> session_handle c = Some s -> session_wf s ->
  ctl_inv start V (ctl_of c) -> phase c <> AUTH_PHASE_CONFIGURE -> phase c <> AUTH_PHASE_DONE ->
  acl_rmt_auth c = Some c' ->
  ctl_inv start (V \/ chap_verified start s c (negotiated_chap_alg c)) (ctl_of c') /\
  negotiated_chap_alg c' = negotiated_chap_alg c /\ local_state c' = local_state c.
Proof.
  intros Hc Hs Hsw Hi Hp Hp' H.
  assert (ctl_inv start (V \/ chap_verified start s c (negotiated_chap_alg c)) (ctl_of c)) as Hi'.
  { eapply ctl_inv_mono; [|exact Hi]. auto. }
  assert (forall c0, rmt_send_challenge c = Some c0 ->
    ctl_inv start (V \/ chap_verified start s c (negotiated_chap_alg c)) (ctl_of c0) /\
    negotiated_chap_alg c0 = negotiated_chap_alg c /\ local_state c0 = local_state c) as Hsend.
  { intros c0 Hc0. apply (rmt_send_challenge_inv start _ _ _ Hi') in Hc0 as (? & ? & ? & _); auto. }
  unfold acl_rmt_auth in H.
  destruct (rmt_state c) eqn:Er.
  2: case_decide; [|by apply Hsend]. 3: by apply Hsend.
  2: { injection H as <-. split; [|by auto]. apply (inv_remote_step _ _ c); cbn; auto. }
  2: { apply (rmt_recv_rsp_inv start s) in H as (Ha & Hl & Hcase); try done.
       2: { apply Hi. done. }
       destruct Hcase as [E|(st & Hst & E & Hv)].
       - split_and!; try done. rewrite E.
         apply (inv_remote_step _ _ c); cbn; auto.
       - split_and!; try done. rewrite E.
         destruct Hi. constructor; cbn in *; intros; auto; try congruence. }
  all: injection H as <-; split; [|by auto]; auto using inv_phase_error.
Qed.

(** The second switch of [acl_recv_end], phase AUTHENTICATE. *)
Lemma recv_end_authenticate_inv start V s c c' :
  acl_wf c -> session_handle c = Some s -> session_wf s ->
  ctl_inv start V (ctl_of c) -> phase c = AUTH_PHASE_AUTHENTICATE ->
  recv_end_authenticate c = Some c' ->
  ctl_inv start (V \/ chap_verified start s c (negotiated_chap_alg c')) (ctl_of c').
Proof.
  intros Hc Hs Hsw Hi Hp H. unfold recv_end_authenticate in H.
  destruct (acl_local_auth_safe c Hc) as (c1 & E1 & Hc1). rewrite E1 in H. cbn [mbind option_bind] in H.
  apply local_auth_frame in E1 as [E1 Hp1].
  assert (key_values (recv_key_block c1) = key_values (recv_key_block c) /\ rand_pos c1 = rand_pos c /\
    session_handle c1 = session_handle c) as (Hk & Hr & Hs1) by (by ctl_eqs E1).
  assert (ctl_inv start V (ctl_of c1)) as Hi1.
  { rewrite E1. destruct Hp1 as [-> | ->]; [|by apply inv_phase_error]. by destruct c. }
  destruct (if decide (local_state c1 <> AUTH_LOCAL_STATE_ERROR) then _ else _) as [c2|] eqn:E2; [|done].
  injection H as <-.
  assert (ctl_inv start (V \/ chap_verified start s c (negotiated_chap_alg c2)) (ctl_of c2)) as Hi2.
  { case_decide; [|injection E2 as <-; eapply ctl_inv_mono; [|exact Hi1]; auto].
    apply (rmt_auth_inv start V s) in E2 as (Hi2 & -> & _); try congruence.
    - eapply ctl_inv_mono; [|exact Hi2]. intros [?|?]; [by left|right]. by eapply chap_verified_frame.
    - destruct Hp1; congruence.
    - destruct Hp1; congruence. }
  clear E2. case_decide; [|done]. inv_update Hi2.
Qed.

(** ** The end of a message *)
Lemma inv_send_transit start V c b :
  ctl_inv start V (ctl_of c) -> ctl_inv start V (ctl_of (set_send_transit c b)).
Proof. intros H. inv_update H. Qed.

Lemma hand_shake_inv start V c :
  ctl_inv start V (ctl_of c) -> ctl_inv start V (ctl_of (acl_hand_shake c)).
Proof.
  intros H. unfold acl_hand_shake. destruct (transit_bit (recv_key_block c)); repeat case_decide;
    auto using inv_auth_fail, inv_send_transit.
  all: apply inv_next_phase; auto using inv_send_transit; right; cbn; intros; tauto.
Qed.

Lemma suppress_frame c c' :
  rcv_end_suppress c = Some c' ->
  ctl_of c' = ctl_of (set_send_transit c false) /\ negotiated_chap_alg c' = negotiated_chap_alg c.
Proof.
  unfold rcv_end_suppress. intros H. case_decide; [|by injection H as <-].
  destruct (acl_get_key_val (send_key_block c) _) as [[m b1]|]; [|done]. cbn [mbind option_bind] in H.
  destruct (match m with Some _ => _ | None => _ end) as [[a b2]|]; [|done].
  cbn [mbind option_bind] in H.
  set (c1 := c <| send_key_block := acl_init_key_blk b2 |>) in H.
  assert (ctl_of c1 = ctl_of (set_send_transit c false) /\
          negotiated_chap_alg c1 = negotiated_chap_alg c) as [E1 E2] by done.
  assert (forall kt v, set_send_key c1 kt v = Some c' -> ctl_of c' = ctl_of (set_send_transit c false) /\
    negotiated_chap_alg c' = negotiated_chap_alg c) as Hset.
  { intros kt v Hk. split; [apply set_send_key_frame in Hk as [-> _]; done|].
    unfold set_send_key in Hk. by inv_opt. }
  clearbody c1. repeat case_decide; eauto. by injection H as <-.
Qed.

(** The status of a message and the state it leaves. *)
Lemma rcv_end_status_inv start V c st c' :
  ctl_inv start V (ctl_of c) -> acl_rcv_end_status c = Some (st, c') ->
  ctl_inv start V (ctl_of c') /\ negotiated_chap_alg c' = negotiated_chap_alg c /\
  (st = AUTH_STATUS_PASS -> phase c' = AUTH_PHASE_DONE /\ rmt_auth_status c' = AUTH_STATUS_PASS) /\
  (st = AUTH_STATUS_CONTINUE -> phase c <> AUTH_PHASE_DONE /\ phase c <> AUTH_PHASE_ERROR /\
     phase c' = phase c \/ rmt_auth_status c = AUTH_STATUS_CONTINUE) /\
  (st = AUTH_STATUS_FAIL -> phase c' = AUTH_PHASE_DONE) /\
  (st = AUTH_STATUS_ERROR -> phase c' = AUTH_PHASE_ERROR \/ rmt_auth_status c = AUTH_STATUS_ERROR /\ phase c = AUTH_PHASE_DONE) /\
  recv_end_count c' = recv_end_count c /\ auth_rmt c' = auth_rmt c /\ node_type c' = node_type c.
Proof.
  intros Hi H. unfold acl_rcv_end_status in H.
  case_decide as Hpe; [injection H as <- <-; split_and!; by auto|].
  destruct (if decide (phase c = AUTH_PHASE_DONE) then _ else _) as [st1 c1] eqn:E1.
  assert (ctl_inv start V (ctl_of c1) /\ negotiated_chap_alg c1 = negotiated_chap_alg c /\
    phase c1 = phase c /\ recv_end_count c1 = recv_end_count c /\ auth_rmt c1 = auth_rmt c /\
    node_type c1 = node_type c /\
    (phase c = AUTH_PHASE_DONE /\ st1 = rmt_auth_status c1 /\
       (rmt_auth_status c1 = rmt_auth_status c \/ rmt_auth_status c1 = AUTH_STATUS_FAIL) \/
     phase c <> AUTH_PHASE_DONE /\ st1 = AUTH_STATUS_CONTINUE))
    as (Hi1 & Ea1 & Ep1 & Ec1 & Er1 & En1 & Hst1).
  { clear H. case_decide; injection E1 as <- <-; [|by auto 10].
    case_decide; (split; [|split_and!; try done; left; split_and!; by auto]); [|done]. inv_update Hi. }
  clear E1. destruct (rcv_end_check_keys c1 st1) as [st2 c2] eqn:E2.
  assert (c2 = c1 /\ st2 = st1 \/ exists d, c2 = auth_fail c1 d /\ st2 = AUTH_STATUS_FAIL) as Hc2.
  { clear H. unfold rcv_end_check_keys in E2. repeat case_match; simplify_eq; eauto. }
  assert (ctl_inv start V (ctl_of c2)) as Hi2 by (destruct Hc2 as [[-> _]|(d & -> & _)]; auto using inv_auth_fail).
  destruct (if decide (st2 <> _ /\ _) then _ else _) as [c3|] eqn:E3; [|done].
  injection H as <- <-.
  assert (ctl_of c3 = ctl_of c2 \/ ctl_of c3 = ctl_of (set_send_transit c2 false)) as Hctl.
  { case_decide; [|by injection E3 as ->; left]. right. by apply suppress_frame in E3 as [? _]. }
  assert (negotiated_chap_alg c3 = negotiated_chap_alg c2) as Ea3.
  { clear Hctl. case_decide; [|by injection E3 as ->]. by apply suppress_frame in E3 as [_ ?]. }
  assert (ctl_inv start V (ctl_of c3)) as Hi3 by (destruct Hctl as [-> | ->]; auto using inv_send_transit).
  assert (phase c3 = phase c2 /\ rmt_auth_status c3 = rmt_auth_status c2 /\
    recv_end_count c3 = recv_end_count c2 /\ auth_rmt c3 = auth_rmt c2 /\
    node_type c3 = node_type c2) as (Ep3 & Es3 & Ec3 & Er3 & En3)
    by (destruct Hctl as [E|E]; by ctl_eqs E).
  split; [inv_update Hi3|]. cbn. rewrite Ea3, Ep3, Es3, Ec3, Er3, En3.
  destruct Hc2 as [[-> ->]|(d & -> & ->)]; cbn; [|by split_and!].
  destruct Hst1 as [(Hd & -> & Hcc)|[Hd ->]]; split_and!; auto; try congruence;
    intros E; try (split; congruence); right; destruct Hcc; try split; congruence.
Qed.

(** What no step of a message touches, and what the negotiation of the method
    does not touch either. *)
Definition same_fixed (c c' : iscsi_acl) : Prop :=
  node_type c' = node_type c /\ auth_rmt c' = auth_rmt c /\ session_handle c' = session_handle c /\
  recv_end_count c' = recv_end_count c /\
  transit_bit (recv_key_block c') = transit_bit (recv_key_block c).

Definition same_message (c c' : iscsi_acl) : Prop :=
  same_fixed c c' /\ rand_pos c' = rand_pos c /\
  key_values (recv_key_block c') = key_values (recv_key_block c).

#[local] Instance same_fixed_trans : Transitive same_fixed.
Proof. intros c1 c2 c3 (?&?&?&?&?) (?&?&?&?&?). unfold same_fixed. split_and!; congruence. Qed.

#[local] Instance same_message_trans : Transitive same_message.
Proof.
  intros c1 c2 c3 (?&?&?) (?&?&?). unfold same_message.
  split_and!; [by transitivity c2|congruence|congruence].
Qed.

Lemma rmt_recv_rsp_fixed c c' : rmt_recv_rsp c = Some c' -> same_fixed c c' /\ phase c' = phase c.
Proof.
  unfold rmt_recv_rsp. intros H.
  destruct (acl_get_key_val (recv_key_block c) _) as [[v b]|] eqn:E; [|done]. cbn [mbind option_bind] in H.
  destruct (acl_get_key_val b _) as [[v' b']|] eqn:E'; [|done]. cbn [mbind option_bind] in H.
  apply get_key_val_frame in E as (Ht & _). apply get_key_val_frame in E' as (Ht' & _).
  assert (same_fixed c (c <| recv_key_block := b' |>)) as Hf.
  { unfold same_fixed. cbn. split_and!; congruence. }
  assert (phase (c <| recv_key_block := b' |>) = phase c) as Hp by done.
  set (c1 := c <| recv_key_block := b' |>) in *. clearbody c1. unfold rmt_error, rmt_record_status in H.
  branch_opt; exact (conj Hf Hp).
Qed.

Lemma rmt_send_challenge_fixed c c' :
  rmt_send_challenge c = Some c' -> same_fixed c c' /\ phase c' = phase c.
Proof.
  unfold rmt_send_challenge, set_send_key_scratch, set_send_key, rmt_error. intros H.
  branch_opt; by split_and!.
Qed.

Lemma rmt_auth_fixed c c' :
  acl_rmt_auth c = Some c' -> same_fixed c c' /\ (phase c' = phase c \/ phase c' = AUTH_PHASE_ERROR).
Proof.
  unfold acl_rmt_auth. intros H.
  destruct (rmt_state c); try case_decide;
    try (injection H as <-; split; [by split_and!|by auto]);
    first [apply rmt_recv_rsp_fixed in H as [? ?]|apply rmt_send_challenge_fixed in H as [? ?]]; auto.
Qed.

Lemma same_ctl_message c c' : ctl_of c' = ctl_of c -> same_message c c'.
Proof. intros H. ctl_eqs H. by split_and!. Qed.

Lemma next_phase_message c : same_message c (acl_next_phase c).
Proof. unfold acl_next_phase. repeat case_match; by split_and!. Qed.

Lemma next_phase_negotiate c :
  phase c = AUTH_PHASE_NEGOTIATE ->
  phase (acl_next_phase c) = AUTH_PHASE_AUTHENTICATE \/ phase (acl_next_phase c) = AUTH_PHASE_DONE.
Proof. intros H. unfold acl_next_phase. rewrite H. cbv zeta. repeat case_match; auto. Qed.

Lemma negotiate_inv start V c c' b :
  ctl_inv start V (ctl_of c) -> phase c = AUTH_PHASE_NEGOTIATE ->
  recv_end_negotiate c = Some (c', b) ->
  ctl_inv start V (ctl_of c') /\ same_message c c' /\
  (node_type c = TYPE_INITIATOR -> phase c' = AUTH_PHASE_AUTHENTICATE \/ phase c' = AUTH_PHASE_DONE).
Proof.
  intros Hi Hp H. unfold recv_end_negotiate in H.
  destruct (acl_chk_auth_method_key c) as [c0|] eqn:E; [|done]. cbn [mbind option_bind] in H.
  apply chk_auth_method_key_frame in E as (c1 & m & [Ec _] & ->).
  set (c2 := c1 <| negotiated_auth_method := m |>) in *.
  assert (ctl_inv start V (ctl_of c2)) as Hi2 by (rewrite <- Ec in Hi; inv_update Hi).
  assert (same_message c c2) as Hm2 by exact (same_ctl_message _ _ Ec).
  assert (phase c2 = AUTH_PHASE_NEGOTIATE) as Hp2 by (unfold c2; ctl_eqs Ec; cbn; congruence).
  assert (node_type c2 = node_type c) as Hn2 by apply Hm2. clearbody c2. clear Ec c1.
  pose proof (next_phase_message c2) as Hnm. pose proof (next_phase_negotiate c2 Hp2) as Hnp.
  case_decide as Hrole.
  2: { case_decide; injection H as <- <-; split_and!; auto using inv_auth_fail.
       - apply inv_next_phase; [done|left; congruence].
       - by transitivity c2. }
  assert (node_type c2 <> TYPE_INITIATOR) as Hnt.
  { intros Hn. destruct (inv_role _ _ _ Hi2 Hn) as [_ ?]. cbn in *. congruence. }
  case_decide as Hnp2.
  - set (c3 := c2 <| auth_method_valid_neg_role := _ |>) in H.
    destruct (acl_set_auth_method_key c3 _ _) as [c4|] eqn:E4; [|done]. injection H as <- <-.
    apply set_key_frame in E4 as [E4 _].
    assert (ctl_inv start V (ctl_of c3)) as Hi3 by inv_update Hi2.
    split_and!; [by rewrite E4| |congruence].
    transitivity c2; [done|]. apply same_ctl_message in E4. exact E4.
  - destruct (if decide (negotiated_auth_method c2 = _) then _ else _) as [c3|] eqn:E3; [|done].
    cbn [mbind option_bind] in H.
    assert (ctl_of c3 = ctl_of c2) as Ec3.
    { clear H Hnp2. case_decide; [by injection E3 as ->|]. by apply set_key_frame in E3 as [? _]. }
    assert (same_message c2 c3) as Hm3 by (by apply same_ctl_message).
    rewrite decide_False in H by (destruct Hm3 as [[] _]; congruence). injection H as <- <-.
    split_and!; [by rewrite Ec3|by transitivity c2|congruence].
Qed.

Lemma recv_end_authenticate_fixed c c' :
  recv_end_authenticate c = Some c' ->
  same_fixed c c' /\ (phase c' = phase c \/ phase c' = AUTH_PHASE_ERROR \/ phase c' = AUTH_PHASE_DONE).
Proof.
  intros H. unfold recv_end_authenticate in H.
  destruct (acl_local_auth c) as [c1|] eqn:E1; [|done]. cbn [mbind option_bind] in H.
  apply local_auth_frame in E1 as [E1 Hp1].
  assert (same_fixed c c1) as H1 by (ctl_eqs E1; by split_and!). clear E1.
  destruct (if decide (local_state c1 <> AUTH_LOCAL_STATE_ERROR) then _ else _) as [c2|] eqn:E2; [|done].
  injection H as <-.
  assert (same_fixed c c2 /\ (phase c2 = phase c \/ phase c2 = AUTH_PHASE_ERROR)) as [H2 Hp2].
  { case_decide; [|by injection E2 as <-]. apply rmt_auth_fixed in E2 as [H2 Hp2].
    split; [by transitivity c1|]. destruct Hp2 as [-> | ->]; auto. }
  clear E2. case_decide; [|destruct Hp2; auto]. split; [exact H2|by auto].
Qed.

Lemma hand_shake_transit c :
  node_type c = TYPE_INITIATOR -> transit_bit (recv_key_block c) = true ->
  phase c <> AUTH_PHASE_NEGOTIATE -> phase c <> AUTH_PHASE_CONFIGURE ->
  phase (acl_hand_shake c) = AUTH_PHASE_DONE \/ phase (acl_hand_shake c) = AUTH_PHASE_ERROR.
Proof.
  intros Hn Ht Hp Hp'. unfold acl_hand_shake. rewrite Ht. repeat case_decide; try (by left); try tauto.
  unfold acl_next_phase. destruct (phase c); auto; done.
Qed.

Lemma hand_shake_fixed c : same_fixed c (acl_hand_shake c).
Proof.
  unfold acl_hand_shake. repeat case_match; try (by split_and!);
    exact (proj1 (next_phase_message _)).
Qed.

(** The outcome of a message: [c] before, [c'] after, [st] the status. *)
Record message_outcome (c c' : iscsi_acl) (st : auth_status) : Prop := {
  out_pass : st = AUTH_STATUS_PASS ->
    phase c' = AUTH_PHASE_DONE /\ rmt_auth_status c' = AUTH_STATUS_PASS;
  out_fail : st = AUTH_STATUS_FAIL -> phase c' = AUTH_PHASE_DONE;
  out_continue : node_type c = TYPE_INITIATOR -> st = AUTH_STATUS_CONTINUE ->
    transit_bit (recv_key_block c) = false;
  out_status : node_type c = TYPE_INITIATOR -> st <> AUTH_STATUS_NO_ERROR;
  out_error : node_type c = TYPE_INITIATOR -> st = AUTH_STATUS_ERROR -> phase c' = AUTH_PHASE_ERROR;
  out_rmt : auth_rmt c' = auth_rmt c;
  out_node : node_type c' = node_type c;
  out_count : st <> AUTH_STATUS_ERROR -> recv_end_count c' = recv_end_count c
}.

Lemma recv_end_finish_outcome start V c0 c st c' :
  ctl_inv start V (ctl_of c) -> same_fixed c0 c ->
  (node_type c0 = TYPE_INITIATOR -> phase c <> AUTH_PHASE_NEGOTIATE /\ phase c <> AUTH_PHASE_CONFIGURE) ->
  recv_end_finish c = Some (st, c') ->
  ctl_inv start V (ctl_of c') /\ negotiated_chap_alg c' = negotiated_chap_alg c /\
  message_outcome c0 c' st.
Proof.
  intros Hi Hf Hp H. unfold recv_end_finish in H. pose proof (hand_shake_fixed c) as Hhf.
  apply (hand_shake_inv start V) in Hi. pose proof (hand_shake_transit c) as Ht.
  assert (negotiated_chap_alg (acl_hand_shake c) = negotiated_chap_alg c) as Ha.
  { unfold acl_hand_shake, acl_next_phase. repeat case_match; done. }
  set (c1 := acl_hand_shake c) in *. clearbody c1.
  pose proof (rcv_end_status_inv _ _ _ _ _ Hi H) as (Hi' & Ha' & Hpass & Hcont & Hfail & Herr & Hcnt & Hrmt & Hnode).
  split; [done|]. split; [congruence|].
  assert (same_fixed c0 c1) as (Hn & Hr & Hs & Hcount & Htb) by (by transitivity c).
  assert (node_type c0 = TYPE_INITIATOR -> phase c1 = AUTH_PHASE_DONE ->
    rmt_auth_status c1 = AUTH_STATUS_PASS \/ rmt_auth_status c1 = AUTH_STATUS_FAIL) as Hd.
  { intros H0 H1. apply (inv_done _ _ _ Hi); cbn; [congruence|by left]. }
  constructor; auto; try congruence.
  - intros H0 Hst. destruct (transit_bit (recv_key_block c0)) eqn:E; [|done].
    destruct Hf as (F1 & F2 & F3 & F4 & F5). destruct (Hp H0) as [P1 P2].
    destruct Ht as [Ht|Ht]; [congruence..| |]; destruct (Hcont Hst) as [(Q1 & Q2 & Q3)|Q]; try congruence.
    + destruct (Hd H0 Ht); congruence.
    + clear -H Hst Ht. unfold acl_rcv_end_status in H. rewrite decide_True in H by done.
      injection H as <- <-. discriminate.
  - intros H0 ->. unfold acl_rcv_end_status in H. case_decide as Hpe; [by injection H|].
    destruct (if decide (phase c1 = AUTH_PHASE_DONE) then _ else _) as [st1 c2] eqn:E1.
    destruct (rcv_end_check_keys c2 st1) as [st2 c3] eqn:E2.
    destruct (if decide (st2 <> _ /\ _) then _ else _) as [c4|] eqn:E3; [|done]. injection H as -> _.
    assert (st1 = AUTH_STATUS_NO_ERROR) as -> by (clear E1 E3; unfold rcv_end_check_keys in E2; by repeat case_match; simplify_eq).
    clear E2 E3. case_decide; [|done]. injection E1 as E1 _. case_decide; [done|].
    destruct Hd; congruence.
  - intros H0 Hst. destruct (Herr Hst) as [?|[Hre Hpd]]; [done|]. destruct (Hd H0 Hpd); congruence.
Qed.

Lemma phase_error_outcome start V c :
  ctl_inv start V (ctl_of c) ->
  ctl_inv start V (ctl_of (phase_error c).2) /\ message_outcome c (phase_error c).2 AUTH_STATUS_ERROR.
Proof. intros Hi. split; [by apply inv_phase_error|by constructor]. Qed.

Lemma recv_end_second_inv start V s c b st c' :
  acl_wf c -> session_handle c = Some s -> session_wf s -> ctl_inv start V (ctl_of c) ->
  (node_type c = TYPE_INITIATOR -> phase c <> AUTH_PHASE_NEGOTIATE) ->
  recv_end_second c b = Some (st, c') ->
  ctl_inv start (V \/ chap_verified start s c (negotiated_chap_alg c')) (ctl_of c') /\
  message_outcome c c' st.
Proof.
  intros Hc Hs Hsw Hi Hn H. unfold recv_end_second in H.
  assert (forall P : Prop, ctl_inv start (V \/ P) (ctl_of c)) as Hm.
  { intros P. eapply ctl_inv_mono; [|exact Hi]. auto. }
  destruct (phase c) eqn:Hp; try (injection H as <- <-; by apply phase_error_outcome).
  - eapply recv_end_finish_outcome in H as (Hi' & Ha & Ho);
      [by split; [exact Hi'|exact Ho]| | |intros Hn'; by destruct (Hn Hn')].
    + destruct b; [|by apply Hm]. apply inv_next_phase; [by apply Hm|left; congruence].
    + destruct b; [apply next_phase_message|by split_and!].
  - destruct (recv_end_authenticate c) as [c1|] eqn:E; [|done]. cbn [mbind option_bind] in H.
    pose proof (recv_end_authenticate_fixed _ _ E) as [Hf Hph].
    eapply recv_end_authenticate_inv in E; try done.
    eapply recv_end_finish_outcome in H as (Hi' & Ha & Ho); [|exact E|exact Hf|].
    + rewrite Ha. by split.
    + intros _. destruct Hph as [-> |[-> | ->]]; split; congruence.
  - eapply recv_end_finish_outcome in H as (Hi' & Ha & Ho);
      [by split; [exact Hi'|exact Ho]|apply Hm|by split_and!|intros _; split; congruence].
Qed.

(** The client after the checks at the start of [acl_recv_end]. *)
Definition message_start (c : iscsi_acl) (s : auth_session) : iscsi_acl :=
  (recv_end_checks c) <| recv_end_count := S (recv_end_count (recv_end_checks c)) |>
    <| session_handle := Some s |>.

Lemma message_start_inv start V c s :
  acl_wf c -> ctl_inv start V (ctl_of c) ->
  acl_wf (message_start c s) /\ ctl_inv start V (ctl_of (message_start c s)) /\
  same_message (c <| recv_end_count := S (recv_end_count c) |> <| session_handle := Some s |>)
    (message_start c s).
Proof.
  intros Hc Hi. unfold message_start. split_and!.
  - apply recv_end_checks_wf in Hc. wf_update Hc.
  - assert (ctl_inv start V (ctl_of (recv_end_checks c))) as Hi0.
    { unfold recv_end_checks. repeat case_match; auto using inv_auth_fail. }
    inv_update Hi0.
  - unfold recv_end_checks. repeat case_match; by split_and!.
Qed.

Lemma outcome_same c0 c c' st :
  same_fixed c0 c -> message_outcome c c' st -> message_outcome c0 c' st.
Proof.
  intros (H1 & H2 & H3 & H4 & H5) []. rewrite H1 in *. constructor; auto; try congruence.
  - rewrite <- H5. auto.
  - intros. rewrite <- H4. auto.
Qed.

(** [acl_recv_end] keeps the invariant, and a new PASS has evidence. *)
Lemma recv_end_inv start V s c st c' :
  acl_wf c -> session_wf s -> ctl_inv start V (ctl_of c) -> recv_end c s = Some (st, c') ->
  ctl_inv start (V \/ chap_verified start s c (negotiated_chap_alg c')) (ctl_of c') /\
  message_outcome (c <| recv_end_count := S (recv_end_count c) |> <| session_handle := Some s |>) c' st.
Proof.
  intros Hc Hsw Hi H. unfold recv_end in H.
  assert (forall P : Prop, ctl_inv start (V \/ P) (ctl_of c)) as Hm.
  { intros P. eapply ctl_inv_mono; [|exact Hi]. auto. }
  case_decide as Hpe; [injection H as <- <-; split; [apply Hm|by constructor]|].
  destruct (recv_in_progress_flag c) eqn:Hprog; cbn [negb] in H.
  2: { injection H as <- <-. split; [apply inv_phase_error, Hm|by constructor]. }
  destruct (message_start_inv start V c s Hc Hi) as (Hc1 & Hi1 & Hf1 & Hr1 & Hk1).
  fold (message_start c s) in H.
  assert (session_handle (message_start c s) = Some s) as Hs1 by done.
  set (c1 := message_start c s) in *. clearbody c1. cbv zeta in H.
  assert (forall c2 b, acl_wf c2 -> ctl_inv start V (ctl_of c2) -> same_message c1 c2 ->
    (node_type c2 = TYPE_INITIATOR -> phase c2 <> AUTH_PHASE_NEGOTIATE) ->
    recv_end_second c2 b = Some (st, c') ->
    ctl_inv start (V \/ chap_verified start s c (negotiated_chap_alg c')) (ctl_of c') /\
    message_outcome (c <| recv_end_count := S (recv_end_count c) |> <| session_handle := Some s |>) c' st)
    as Hsecond.
  { intros c2 b Hc2 Hi2 (Hf2 & Hr2 & Hk2) Hn H2.
    eapply (recv_end_second_inv start V s) in H2 as [Hi' Ho]; try done.
    - split.
      + eapply ctl_inv_mono; [|exact Hi']. intros [?|?]; [by left|right].
        eapply chap_verified_frame; [| |done]; [by rewrite Hk2, Hk1|by rewrite Hr2, Hr1].
      + eapply outcome_same; [|exact Ho]. by transitivity c1.
    - destruct Hf2 as (_ & _ & -> & _). done. }
  destruct (phase c1) eqn:Hp1.
  all: try (injection H as <- <-; split; [apply inv_phase_error; eapply ctl_inv_mono; [|exact Hi1]; auto|];
            eapply outcome_same; [exact Hf1|by constructor]).
  2,3: apply (Hsecond c1 false); try done; congruence.
  destruct (recv_end_negotiate_safe c1 Hc1) as ([c2 b] & E & Hc2). rewrite E in H.
  cbn [mbind option_bind] in H. apply (negotiate_inv start V) in E as (Hi2 & Hm2 & Hph); try done.
  apply (Hsecond c2 b); try done. intros Hn. destruct Hm2 as ((Hn2 & _) & _).
  destruct Hph; congruence.
Qed.

(** A message that fails the first checks is answered with FAIL. *)
Definition bad_message (c : iscsi_acl) : Prop :=
  AUTH_RECV_END_MAX_COUNT < recv_end_count c \/ dup_set (recv_key_block c) = true \/
  str_too_long (recv_key_block c) = true \/ too_much_data (recv_key_block c) = true.

Lemma recv_end_bad_message c s :
  acl_wf c -> phase c <> AUTH_PHASE_ERROR -> recv_in_progress_flag c = true -> bad_message c ->
  exists c', recv_end c s = Some (AUTH_STATUS_FAIL, c') /\ phase c' = AUTH_PHASE_DONE /\
    recv_in_progress_flag c' = false.
Proof.
  intros Hc Hpe Hprog Hbad. unfold recv_end. rewrite decide_False by done. rewrite Hprog. cbn [negb].
  assert (exists d, recv_end_checks c = auth_fail c d) as [d ->].
  { unfold recv_end_checks. destruct Hbad as [Hb|[Hb|[Hb|Hb]]].
    - rewrite decide_True by done. eauto.
    - case_decide; [eauto|]. rewrite Hb. eauto.
    - case_decide; [eauto|]. case_match; [eauto|]. rewrite Hb. eauto.
    - case_decide; [eauto|]. case_match; [eauto|]. case_match; [eauto|]. rewrite Hb. eauto. }
  set (c1 := (auth_fail c d) <| recv_end_count := _ |> <| session_handle := _ |>).
  assert (acl_wf c1) as Hc1 by (wf_update Hc).
  assert (phase c1 = AUTH_PHASE_DONE /\ rmt_auth_status c1 = AUTH_STATUS_FAIL) as [Hp Hr] by done.
  clearbody c1. cbv zeta. rewrite Hp. unfold recv_end_second. rewrite Hp.
  unfold recv_end_finish, acl_hand_shake. rewrite decide_True by done.
  unfold acl_rcv_end_status. rewrite decide_False by congruence. rewrite decide_True by done.
  rewrite decide_False by (rewrite Hr; intuition congruence). rewrite Hr.
  change (rcv_end_check_keys c1 AUTH_STATUS_FAIL) with (AUTH_STATUS_FAIL, c1).
  cbv beta iota. rewrite decide_True by done.
  destruct (rcv_end_suppress_safe c1 Hc1) as (c2 & E & _). rewrite E. cbn.
  eexists. split; [done|]. cbn. apply suppress_frame in E as [E _]. ctl_eqs E. cbn in *. split; congruence.
Qed.

(** ** Calls of the interface *)
Inductive acl_call :=
| CSetUserName (name : option (list Z))
| CSetPasswd (pw : list Z) (len : nat)
| CSetAuthRmt (rmt : Z)
| CSetIpSec (v : Z)
| CSetChapAlgList (n : nat) (l : list Z)
| CRecvBegin
| CRecvTransitBit (v : Z)
| CRecvKeyValue (key_type : Z) (v : list Z)
| CRecvEnd (s : auth_session)
| CSendKeyVal (key_type : Z) (buf : list Z) (off max_length : nat)
| CSendTransitBit
| CGetDbgStatus
| CFinish.

(** The arguments a C caller can pass: strings have no NUL inside, a length
    is not larger than its array. *)
Definition call_ok (call : acl_call) : Prop :=
  match call with
  | CSetUserName name => from_option no_nul True name
  | CSetPasswd pw len => len <= length pw
  | CSetChapAlgList n l => n <= length l
  | CRecvKeyValue _ v => no_nul v
  | CRecvEnd s => session_wf s
  | CSendKeyVal _ buf off max => 0 < max /\ off + max <= length buf
  | _ => True
  end.

#[global] Instance call_ok_dec call : Decision (call_ok call).
Proof.
  destruct call as [[s|]| | | | | | | | | | | |]; cbn; unfold session_wf; apply _.
Defined.

Definition acl_exec (call : acl_call) (client : option iscsi_acl)
    : option (auth_status * option iscsi_acl) :=
  match call with
  | CSetUserName name => acl_set_user_name client name
  | CSetPasswd pw len => acl_set_passwd client pw len
  | CSetAuthRmt rmt => acl_set_auth_rmt client rmt
  | CSetIpSec v => acl_set_ip_sec client v
  | CSetChapAlgList n l => acl_set_chap_alg_list client n l
  | CRecvBegin => acl_recv_begin client
  | CRecvTransitBit v => acl_recv_transit_bit client v
  | CRecvKeyValue kt v => acl_recv_key_value client kt v
  | CRecvEnd s => acl_recv_end client s
  | CSendKeyVal kt buf off max =>
      '(st, _, _, client') ← acl_send_key_val client kt false buf off max; Some (st, client')
  | CSendTransitBit => let '(st, _, client') := acl_send_transit_bit client false in Some (st, client')
  | CGetDbgStatus => acl_get_dbg_status client
  | CFinish => acl_finish client
  end.

(** A run, with its log: the call, the client before, the status, the client after. *)
Record log_entry := mk_entry {
  e_call : acl_call; e_before : option iscsi_acl; e_status : auth_status; e_after : option iscsi_acl
}.

Fixpoint acl_run (calls : list acl_call) (client : option iscsi_acl)
    : option (list log_entry * option iscsi_acl) :=
  match calls with
  | [] => Some ([], client)
  | call :: calls' =>
      '(st, client') ← acl_exec call client;
      '(log, final) ← acl_run calls' client';
      Some (mk_entry call client st client' :: log, final)
  end.

Lemma acl_exec_safe call client :
  acl_ok client -> call_ok call ->
  safe (acl_exec call client) (fun '(_, client') => acl_ok client').
Proof.
  intros Hok Hcall. destruct call; cbn [acl_exec] in *; cbn in Hcall;
    try (by apply acl_finish_safe);
    try (apply with_client_safe; [done|]; intros c Hc);
    try (apply set_user_name_safe; [done|]; by intros s ->);
    eauto using set_passwd_safe, set_auth_rmt_safe, set_chap_alg_list_safe,
      recv_key_value_safe, recv_end_safe;
    try (apply safe_ret; cbn).
  - destruct (set_ip_sec c v) eqn:E. change i with (a, i).2. rewrite <- E. by apply set_ip_sec_wf.
  - destruct (recv_begin c) eqn:E. change i with (a, i).2. rewrite <- E. by apply recv_begin_wf.
  - destruct (recv_transit_bit c v) eqn:E. change i with (a, i).2. rewrite <- E. by apply recv_transit_bit_wf.
  - destruct Hcall as [Hpos Hroom].
    eapply safe_bind; [by apply acl_send_key_val_safe|]. intros [[[st kp] b] client'] [Hok' _].
    by apply safe_ret.
  - unfold acl_send_transit_bit. destruct client as [c|]; [|by apply safe_ret].
    repeat case_match; simplify_eq; apply safe_ret; try done.
    intros ? [= <-] Hs. apply wf_set_phase, Hok; [done|exact Hs].
  - destruct (get_dbg_status c) eqn:E. change i with (a, i).2. rewrite <- E. by apply get_dbg_status_wf.
Qed.

Lemma acl_run_safe calls : forall client,
  acl_ok client -> Forall call_ok calls ->
  safe (acl_run calls client) (fun '(log, client') => acl_ok client' /\ length log = length calls).
Proof.
  induction calls as [|call calls IH]; intros client Hok Hcalls; cbn [acl_run]; [by apply safe_ret|].
  apply Forall_cons_iff in Hcalls as [Hcall Hcalls].
  eapply safe_bind; [by apply acl_exec_safe|]. intros [st client'] Hok'.
  eapply safe_bind; [by apply IH|]. intros [log final] [Hf Hl]. apply safe_ret. split; [done|].
  cbn. lia.
Qed.

(** ** The invariant along a run *)
Lemma ctl_set_valid c valid :
  ctl_of (valid_methods c valid) = ctl_of (set_send_transit c false).
Proof. by destruct c. Qed.

Lemma ctl_set_passwd c d n p :
  ctl_of (c <| passwd_data := d |> <| passwd_length := n |> <| passwd_present := p |>) = ctl_of c.
Proof. by destruct c. Qed.

(** The invariant once the role for AuthMethod is the originator's. *)
Definition role_inv (start : nat) (V : Prop) (c : iscsi_acl) : Prop :=
  ctl_inv start V ((ctl_of c) <| ctl_neg_role := AUTH_NEG_ROLE_ORIGINATOR |>).

Lemma inv_role_inv start V c : ctl_inv start V (ctl_of c) -> role_inv start V c.
Proof. intros []. constructor; cbn -[key_values] in *; auto. intuition. Qed.

Lemma inv_set_role start V c t r :
  role_inv start V c -> (node_type c = TYPE_INITIATOR -> r = AUTH_NEG_ROLE_ORIGINATOR) ->
  ctl_inv start V (ctl_of ((set_send_transit c t) <| auth_method_valid_neg_role := r |>)).
Proof. intros [] Hr. destruct c. constructor; cbn -[key_values] in *; auto. intuition. Qed.

(** The role for AuthMethod is recomputed: nothing is assumed of it. *)
Lemma set_auth_method_valid_inv start V c c' :
  role_inv start V c -> acl_set_auth_method_valid c = Some c' ->
  ctl_inv start V (ctl_of c') /\ same_fixed c c' /\ phase c' = phase c /\ signature c' = signature c.
Proof.
  intros Hi H. unfold acl_set_auth_method_valid in H.
  destruct (buf_prefix (auth_method_list c) _) as [l|]; [|done]. cbn [mbind option_bind] in H.
  case_decide; [done|]. cbv zeta in H.
  set (c1 := valid_methods c _) in H.
  assert (ctl_of c1 = ctl_of (set_send_transit c false)) as Ec1 by apply ctl_set_valid.
  clearbody c1.
  assert (role_inv start V c1) as Hi1.
  { unfold role_inv. rewrite Ec1. destruct Hi. constructor; cbn -[key_values] in *; auto. }
  assert (same_fixed c c1 /\ phase c1 = phase c /\ signature c1 = signature c) as (Hf1 & Hp1 & Hs1).
  { ctl_eqs Ec1. by split_and!. }
  set (c2 := valid_role c1) in H.
  assert (ctl_inv start V (ctl_of c2) /\ same_fixed c1 c2 /\ phase c2 = phase c1 /\
          signature c2 = signature c1) as (Hi2 & Hf2 & Hp2 & Hs2).
  { clear H. subst c2. unfold valid_role. case_decide as Hn; [case_match|]; (split; [|by split_and!]); apply inv_set_role; try done.
    intros _. by apply (inv_role _ _ _ Hi1). }
  clearbody c2.
  assert (exists n l', acl_set_auth_method_key c2 n l' = Some c') as (n & l' & Hk)
    by (case_decide; eauto).
  apply set_key_frame in Hk as [Hk _]. rewrite Hk. split; [done|].
  pose proof (proj1 (same_ctl_message _ _ Hk)) as Hf3. ctl_eqs Hk.
  split; [|split; congruence]. transitivity c1; [done|]. by transitivity c2.
Qed.

(** What a client pointer must satisfy along a run. *)
Definition client_inv (start : nat) (V : Prop) (client : option iscsi_acl) : Prop :=
  forall c, client = Some c -> signature c = ACL_SIGNATURE -> ctl_inv start V (ctl_of c).

Lemma with_client_inv start V V' client f st client' :
  acl_ok client -> client_inv start V client ->
  (forall c c', acl_wf c -> ctl_inv start V (ctl_of c) -> client = Some c -> client' = Some c' ->
    f c = Some (st, c') -> ctl_inv start V' (ctl_of c')) ->
  (V -> V') -> with_client client f = Some (st, client') -> client_inv start V' client'.
Proof.
  intros Hok Hi Hf HV H. unfold with_client in H. destruct client as [c|]; [|by injection H as _ <-].
  case_decide as Hs; [injection H as _ <-; intros c0 [= <-] ?; by destruct Hs|].
  assert (signature c = ACL_SIGNATURE) as Hsig by (by destruct (decide (signature c = ACL_SIGNATURE))).
  destruct (f c) as [[st' c']|] eqn:E; [|done]. injection H as <- <-.
  intros ? [= <-] _. eapply Hf; eauto.
Qed.

Definition entry_verified (start : nat) (e : log_entry) : Prop :=
  exists s c c', e_call e = CRecvEnd s /\ e_before e = Some c /\ e_after e = Some c' /\
    chap_verified start s c (negotiated_chap_alg c').

Lemma phase_error_inv start V c : ctl_inv start V (ctl_of c) -> ctl_inv start V (ctl_of (phase_error c).2).
Proof. apply inv_phase_error. Qed.

Lemma set_user_name_inv start V c name st c' :
  ctl_inv start V (ctl_of c) -> set_user_name c name = Some (st, c') -> ctl_inv start V (ctl_of c').
Proof.
  intros Hi H. unfold set_user_name in H.
  assert (forall b, ctl_inv start V (ctl_of (c <| username := b |>))) as Hu by (intros b; inv_update Hi).
  case_decide; [injection H as <- <-; by apply inv_phase_error|].
  destruct name as [s|].
  - destruct (strlcpy _ _ _ _) as [[b n]|]; [|done]. cbn [mbind option_bind] in H.
    case_decide; injection H as <- <-; auto using inv_phase_error.
  - destruct (buf_set _ _ _); [|done]. injection H as <- <-. auto.
Qed.

Lemma set_passwd_inv start V c pw n st c' :
  ctl_inv start V (ctl_of c) -> set_passwd c pw n = Some (st, c') -> ctl_inv start V (ctl_of c').
Proof.
  intros Hi H. unfold set_passwd in H. case_decide; [injection H as <- <-; by apply inv_phase_error|].
  apply bind_Some in H as (pw' & _ & H). apply bind_Some in H as (d & _ & H).
  apply bind_Some in H as (c1 & E & H). injection H as <- <-.
  apply (set_auth_method_valid_inv start V) in E as [E _]; [exact E|].
  apply inv_role_inv. rewrite ctl_set_passwd. exact Hi.
Qed.

Lemma set_auth_rmt_spec start V c rmt st c' :
  ctl_inv start V (ctl_of c) -> set_auth_rmt c rmt = Some (st, c') ->
  ctl_inv start V (ctl_of c') /\ (st = AUTH_STATUS_NO_ERROR -> auth_rmt c' = rmt).
Proof.
  intros Hi H. unfold set_auth_rmt in H.
  case_decide as Hp; [injection H as <- <-; split; [by apply inv_phase_error|done]|].
  assert (phase c = AUTH_PHASE_CONFIGURE) as Hp' by (by destruct (decide (phase c = AUTH_PHASE_CONFIGURE))).
  destruct (acl_set_auth_method_valid _) as [c1|] eqn:E; [|done]. injection H as <- <-.
  eapply (set_auth_method_valid_inv start V) in E as (E & Hf & _);
    [split; [exact E|intros _; exact (proj1 (proj2 Hf))]|]. apply inv_role_inv.
  pose proof (inv_config _ _ _ Hi Hp') as [Hns _]. cbn in Hns. inv_update Hi.
Qed.

Lemma set_auth_rmt_inv start V c rmt st c' :
  ctl_inv start V (ctl_of c) -> set_auth_rmt c rmt = Some (st, c') -> ctl_inv start V (ctl_of c').
Proof. intros Hi H. by eapply set_auth_rmt_spec. Qed.

Lemma set_chap_alg_list_inv start V c n l st c' :
  ctl_inv start V (ctl_of c) -> set_chap_alg_list c n l = Some (st, c') -> ctl_inv start V (ctl_of c').
Proof.
  intros Hi H. unfold set_chap_alg_list in H.
  destruct (acl_set_option_list _ _ _ _ _ _ _ _) as [[[[st1 c1] l1] n1]|] eqn:E; [|done].
  injection H as <- <-.
  assert (c1 = c \/ c1 = c <| phase := AUTH_PHASE_ERROR |>) as Hc1.
  { unfold acl_set_option_list in E. cbv zeta in E. branch_opt; auto. }
  assert (ctl_inv start V (ctl_of c1)) as Hi1 by (destruct Hc1 as [-> | ->]; auto using inv_phase_error).
  inv_update Hi1.
Qed.

Lemma recv_begin_inv start V c :
  ctl_inv start V (ctl_of c) -> ctl_inv start V (ctl_of (recv_begin c).2).
Proof.
  intros Hi. unfold recv_begin. case_decide; [done|]. case_decide; [by apply inv_phase_error|].
  case_match; [by apply inv_phase_error|]. cbv zeta.
  set (c1 := if decide (phase _ = AUTH_PHASE_CONFIGURE) then _ else _).
  assert (ctl_inv start V (ctl_of (c <| recv_in_progress_flag := true |>))) as Hi0 by inv_update Hi.
  assert (ctl_inv start V (ctl_of c1)) as Hi1.
  { subst c1. case_decide as Hp; [|done]. apply inv_next_phase; [done|left; cbn in *; congruence]. }
  clearbody c1. inv_update Hi1.
Qed.

Lemma recv_key_value_inv start V c kt v st c' :
  ctl_inv start V (ctl_of c) -> recv_key_value c kt v = Some (st, c') -> ctl_inv start V (ctl_of c').
Proof.
  intros Hi H. unfold recv_key_value in H.
  case_decide; [injection H as <- <-; by apply inv_phase_error|].
  case_decide; [injection H as <- <-; by apply inv_phase_error|].
  destruct (if decide (kt = _) then _ else _) as [[c1 v1]|] eqn:E; [|done]. cbn [mbind option_bind] in H.
  destruct (acl_set_key_value _ _ _) as [b|]; [|done]. injection H as <- <-.
  assert (ctl_inv start V (ctl_of c1)) as Hi1.
  { case_decide; [|by simplify_eq].
    destruct (acl_text_to_data _ _ _) as [[[st lb] n]|]; [|done]. injection E as <- <-. inv_update Hi. }
  inv_update Hi1.
Qed.

Lemma recv_transit_bit_inv start V c v :
  ctl_inv start V (ctl_of c) -> ctl_inv start V (ctl_of (recv_transit_bit c v).2).
Proof. intros Hi. unfold recv_transit_bit. case_decide; [by apply inv_phase_error|]. inv_update Hi. Qed.

Lemma send_key_val_inv start V client kt kp buf off max st kp' buf' client' :
  client_inv start V client ->
  acl_send_key_val client kt kp buf off max = Some (st, kp', buf', client') ->
  client_inv start V client'.
Proof.
  intros Hi H. unfold acl_send_key_val in H. destruct client as [c|]; [|by injection H as _ _ _ <-].
  case_decide as Hs; [by injection H as _ _ _ <-|].
  assert (ctl_inv start V (ctl_of c)) as Hc.
  { apply Hi; [done|]. by destruct (decide (signature c = ACL_SIGNATURE)). }
  assert (forall c1, ctl_inv start V (ctl_of c1) -> client_inv start V (Some c1)) as Hret
    by (by intros c1 Hc1 ? [= <-]).
  case_match; [injection H as _ _ _ <-; auto using inv_phase_error|].
  case_decide; [injection H as _ _ _ <-; auto using inv_phase_error|].
  destruct (acl_get_key_val _ _) as [[v b]|]; [|done]. cbn [mbind option_bind] in H.
  assert (ctl_inv start V (ctl_of (c <| send_key_block := b |>))) as Hc1 by inv_update Hc.
  set (c1 := c <| send_key_block := b |>) in *. clearbody c1.
  destruct v as [v|]; [|injection H as _ _ _ <-; auto].
  destruct (if decide (kt = _) then _ else _) as [[f b1]|]; [|done]. cbn [mbind option_bind] in H.
  destruct f; injection H as _ _ _ <-; auto using inv_phase_error.
Qed.

Lemma acl_exec_inv start V call client st client' :
  acl_ok client -> call_ok call -> client_inv start V client ->
  acl_exec call client = Some (st, client') ->
  client_inv start (V \/ entry_verified start (mk_entry call client st client')) client'.
Proof.
  intros Hok Hcall Hi H.
  assert (V -> V \/ entry_verified start (mk_entry call client st client')) as HV by auto.
  assert (client_inv start (V \/ entry_verified start (mk_entry call client st client')) client) as Hi'.
  { intros c Hc Hs. eapply ctl_inv_mono; [exact HV|by apply Hi]. }
  destruct call; cbn [acl_exec] in H; cbn [call_ok] in Hcall.
  all: try (eapply (with_client_inv start _ _ client) in H; [exact H|done|exact Hi'| |done]; clear Hi H;
    intros c c' Hc Hi -> -> H).
  - by eapply set_user_name_inv.
  - by eapply set_passwd_inv.
  - by eapply set_auth_rmt_inv.
  - injection H as H. unfold set_ip_sec in H.
    case_decide; injection H as <- <-; [by apply inv_phase_error|inv_update Hi].
  - by eapply set_chap_alg_list_inv.
  - injection H as H. apply (f_equal snd) in H. cbn in H. subst c'. by apply recv_begin_inv.
  - injection H as H. apply (f_equal snd) in H. cbn in H. subst c'. by apply recv_transit_bit_inv.
  - by eapply recv_key_value_inv.
  - eapply recv_end_inv in H as [H _]; [|done|done|exact Hi]. eapply ctl_inv_mono; [|exact H].
    intros [?|Hv]; [done|right]. exists s, c, c'. by split_and!.
  - destruct (acl_send_key_val _ _ _ _ _ _) as [[[[st1 kp] b] cl]|] eqn:E; [|done].
    injection H as <- <-. by eapply send_key_val_inv.
  - unfold acl_send_transit_bit in H. destruct client as [c|]; [|by injection H as _ <-].
    repeat case_match; simplify_eq; try done.
    intros ? [= <-] Hs. apply inv_phase_error, Hi'; [done|exact Hs].
  - injection H as H. unfold get_dbg_status in H. case_decide; injection H as <- <-; [by apply inv_phase_error|done].
  - injection H as <- <-. clear -Hi. destruct Hi. constructor; cbn in *; intros; by destruct_or?.
Qed.

Lemma acl_run_inv start V calls : forall client log client',
  acl_ok client -> Forall call_ok calls -> client_inv start V client ->
  acl_run calls client = Some (log, client') ->
  acl_ok client' /\ client_inv start (V \/ Exists (entry_verified start) log) client'.
Proof.
  revert V. induction calls as [|call calls IH]; intros V client log client' Hok Hcalls Hi H; cbn [acl_run] in H.
  { injection H as <- <-. split; [done|]. intros c Hc Hs. eapply ctl_inv_mono; [|by apply Hi]. auto. }
  apply Forall_cons_iff in Hcalls as [Hcall Hcalls].
  destruct (acl_exec_safe call client Hok Hcall) as ([st cl1] & E & Hok1). rewrite E in H.
  cbn [mbind option_bind] in H. destruct (acl_run calls cl1) as [[log1 cl2]|] eqn:E1; [|done].
  injection H as <- <-. eapply acl_exec_inv in E; try done.
  destruct (IH _ _ _ _ Hok1 Hcalls E E1) as [Hok2 Hi2]. split; [done|].
  intros c Hc Hs. eapply ctl_inv_mono; [|by apply Hi2].
  rewrite Exists_cons. tauto.
Qed.

(** The client that [acl_init] hands to [acl_set_auth_method_list]. *)
Lemma init_ctl_inv k pos :
  ctl_phase k = AUTH_PHASE_CONFIGURE -> ctl_rmt_auth_status k = AUTH_STATUS_NO_ERROR ->
  ctl_rmt_state k = AUTH_RMT_STATE_0 -> ctl_own_role k = AUTH_NEG_ROLE_ORIGINATOR ->
  ctl_rand_pos k = pos -> ctl_inv pos False (k <| ctl_neg_role := AUTH_NEG_ROLE_ORIGINATOR |>).
Proof.
  intros H1 H2 H3 H4 H5. destruct k. cbn in *. subst.
  constructor; cbn; intros; try done. by destruct_or?.
Qed.

Lemma set_auth_method_list_inv start V c n l c' :
  role_inv start V c -> acl_set_auth_method_list c n l = Some (AUTH_STATUS_NO_ERROR, c') ->
  ctl_inv start V (ctl_of c') /\ same_fixed c c' /\ phase c' = phase c /\ signature c' = signature c.
Proof.
  intros Hi H. apply bind_Some in H as ([[[st c1] l1] n1] & E & H). cbv beta iota zeta in H.
  case_decide as Hst; [by injection H as -> _|].
  apply bind_Some in H as (c2 & E2 & H). injection H as <-.
  assert (c1 = c) as ->.
  { unfold acl_set_option_list in E. cbv zeta in E. branch_opt; try done; by destruct Hst. }
  apply (set_auth_method_valid_inv start V) in E2 as (Hi2 & Hf2 & Hp2 & Hs2); [by auto|exact Hi].
Qed.

Lemma acl_init_inv desc c c' :
  acl_init TYPE_INITIATOR 5 desc c = Some (AUTH_STATUS_NO_ERROR, c') ->
  ctl_inv (rand_pos c) False (ctl_of c') /\ signature c' = ACL_SIGNATURE /\
  phase c' = AUTH_PHASE_CONFIGURE /\ node_type c' = TYPE_INITIATOR /\ recv_end_count c' = 0.
Proof.
  unfold acl_init. rewrite decide_False by lia. intros H.
  destruct (negb (desc_ok desc)); [discriminate|]. rewrite decide_False in H by (intros []; congruence).
  apply bind_Some in H as ([st c1] & E & H). case_decide as Hst; [discriminate|].
  injection H as <-. destruct (decide (st = AUTH_STATUS_NO_ERROR)) as [->|]; [|contradiction].
  apply (set_auth_method_list_inv (rand_pos c) False) in E as (Hi & (F1 & _ & _ & F4 & _) & Hp & Hs).
  - rewrite Hp, Hs, F1, F4. split; [exact Hi|]. split_and!; reflexivity.
  - apply init_ctl_inv; reflexivity.
Qed.

(** ** Calls other than [acl_recv_end] *)
Definition is_recv_end (call : acl_call) : bool :=
  match call with CRecvEnd _ => true | _ => false end.

(** They give no verdict and keep the role and the message count; a client
    whose negotiation is over stays so. *)
Definition over (c : iscsi_acl) : Prop :=
  phase c = AUTH_PHASE_ERROR \/ phase c = AUTH_PHASE_DONE /\ recv_in_progress_flag c = false.

Record quiet (st : auth_status) (c c' : iscsi_acl) : Prop := {
  quiet_status : st = AUTH_STATUS_NO_ERROR \/ st = AUTH_STATUS_ERROR;
  quiet_node : node_type c' = node_type c;
  quiet_count : recv_end_count c' = recv_end_count c;
  quiet_over : over c -> over c'
}.

Lemma quiet_phase_error c : quiet AUTH_STATUS_ERROR c (c <| phase := AUTH_PHASE_ERROR |>).
Proof. constructor; [by right|done|done|by left]. Qed.

Ltac quiet_same := constructor; [by auto|done|done|]; cbn; unfold over; intros; intuition congruence.

Lemma set_valid_quiet c c' :
  acl_set_auth_method_valid c = Some c' ->
  node_type c' = node_type c /\ recv_end_count c' = recv_end_count c.
Proof.
  unfold acl_set_auth_method_valid. intros H. apply bind_Some in H as (l & _ & H).
  case_decide; [done|]. cbv zeta in H.
  set (c1 := valid_methods c _) in H.
  assert (node_type c1 = node_type c /\ recv_end_count c1 = recv_end_count c) as [<- <-]
    by (split; reflexivity). clearbody c1.
  set (c2 := valid_role c1) in H.
  assert (node_type c2 = node_type c1 /\ recv_end_count c2 = recv_end_count c1) as [<- <-].
  { clear H. subst c2. unfold valid_role. case_decide; [case_match|]; split; reflexivity. }
  clearbody c2. assert (exists n l', acl_set_auth_method_key c2 n l' = Some c') as (n & l' & Hk)
    by (case_decide; eauto).
  apply set_key_frame in Hk as [Hk _]. by ctl_eqs Hk.
Qed.

(** The setters: they act in phase CONFIGURE only. *)
Lemma setter_quiet c c0 c' :
  phase c = AUTH_PHASE_CONFIGURE -> node_type c0 = node_type c -> recv_end_count c0 = recv_end_count c ->
  acl_set_auth_method_valid c0 = Some c' -> quiet AUTH_STATUS_NO_ERROR c c'.
Proof.
  intros Hp Hn Hc [Hn' Hc']%set_valid_quiet. constructor; [by left|congruence|congruence|].
  intros [?|[? _]]; congruence.
Qed.

Lemma set_passwd_quiet c pw n st c' : set_passwd c pw n = Some (st, c') -> quiet st c c'.
Proof.
  intros H. unfold set_passwd in H.
  case_decide as Hp; [injection H as <- <-; apply quiet_phase_error|].
  apply bind_Some in H as (pw' & _ & H). apply bind_Some in H as (d & _ & H).
  apply bind_Some in H as (c1 & E & H). injection H as <- <-.
  refine (setter_quiet c _ c1 _ _ _ E); try reflexivity.
  destruct (decide (phase c = AUTH_PHASE_CONFIGURE)); tauto.
Qed.

Lemma set_auth_rmt_quiet c rmt st c' : set_auth_rmt c rmt = Some (st, c') -> quiet st c c'.
Proof.
  intros H. unfold set_auth_rmt in H.
  case_decide as Hp; [injection H as <- <-; apply quiet_phase_error|].
  apply bind_Some in H as (c1 & E & H). injection H as <- <-.
  refine (setter_quiet c _ c1 _ _ _ E); try reflexivity.
  destruct (decide (phase c = AUTH_PHASE_CONFIGURE)); tauto.
Qed.

Lemma set_user_name_quiet c name st c' : set_user_name c name = Some (st, c') -> quiet st c c'.
Proof.
  intros H. unfold set_user_name in H.
  case_decide as Hp; [injection H as <- <-; apply quiet_phase_error|].
  destruct name as [s|].
  - apply bind_Some in H as ([b n] & _ & H). cbv zeta in H.
    case_decide; injection H as <- <-; [constructor; [by right|done|done|by left]|quiet_same].
  - apply bind_Some in H as (b & _ & H). injection H as <- <-. quiet_same.
Qed.

Lemma set_chap_alg_list_quiet c n l st c' : set_chap_alg_list c n l = Some (st, c') -> quiet st c c'.
Proof.
  intros H. unfold set_chap_alg_list in H. apply bind_Some in H as ([[[st1 c1] l1] n1] & E & H).
  injection H as <- <-. unfold acl_set_option_list in E. cbv zeta in E. branch_opt;
    first [quiet_same | constructor; [by right|done|done|by left]].
Qed.

Lemma recv_begin_quiet c : quiet (recv_begin c).1 c (recv_begin c).2.
Proof.
  unfold recv_begin. case_decide; [quiet_same|]. case_decide; [apply quiet_phase_error|].
  case_match; [apply quiet_phase_error|]. cbv zeta.
  constructor; [by left| | |intros [?|[? ?]]; contradiction];
    (case_decide; [|done]); unfold acl_next_phase; repeat case_match; done.
Qed.

Lemma recv_key_value_quiet c kt v st c' : recv_key_value c kt v = Some (st, c') -> quiet st c c'.
Proof.
  intros H. unfold recv_key_value in H. case_decide; [injection H as <- <-; apply quiet_phase_error|].
  case_decide; [injection H as <- <-; apply quiet_phase_error|].
  apply bind_Some in H as ([c1 v1] & E & H). apply bind_Some in H as (b & _ & H). injection H as <- <-.
  assert (quiet AUTH_STATUS_NO_ERROR c c1) as [].
  { case_decide; [|injection E as <- <-; quiet_same].
    apply bind_Some in E as ([[st lb] n] & _ & E). injection E as <- <-. quiet_same. }
  constructor; auto.
Qed.

(** A call other than [acl_recv_end] is quiet, or leaves no usable client. *)
Lemma acl_exec_quiet call client st client' :
  is_recv_end call = false -> acl_exec call client = Some (st, client') ->
  (st = AUTH_STATUS_NO_ERROR \/ st = AUTH_STATUS_ERROR) /\
  (forall c', client' = Some c' -> signature c' = ACL_SIGNATURE ->
    exists c, client = Some c /\ signature c = ACL_SIGNATURE /\ quiet st c c').
Proof.
  intros Hcall H.
  assert (forall f, (forall c c', f c = Some (st, c') -> quiet st c c' \/
      (st = AUTH_STATUS_NO_ERROR /\ signature c' <> ACL_SIGNATURE)) ->
    with_client client f = Some (st, client') ->
    (st = AUTH_STATUS_NO_ERROR \/ st = AUTH_STATUS_ERROR) /\
    (forall c', client' = Some c' -> signature c' = ACL_SIGNATURE ->
      exists c, client = Some c /\ signature c = ACL_SIGNATURE /\ quiet st c c')) as Hw.
  { intros f Hf Hq. unfold with_client in Hq. destruct client as [c|]; [|injection Hq as <- <-; split; [by right|by intros]].
    case_decide as Hs; [injection Hq as <- <-; split; [by right|]; intros ? [= <-] ?; contradiction|].
    apply bind_Some in Hq as ([st1 c1] & E & Hq). injection Hq as -> <-.
    destruct (Hf c c1 E) as [Hqu|[-> Hsig]].
    - split; [apply Hqu|]. intros ? [= <-] _. eauto.
    - split; [by left|]. by intros ? [= <-]. }
  destruct call; try discriminate Hcall; cbn [acl_exec] in H.
  all: try (eapply Hw; [|exact H]; intros c c' E).
  - left. eapply set_user_name_quiet; exact E.
  - left. eapply set_passwd_quiet; exact E.
  - left. eapply set_auth_rmt_quiet; exact E.
  - left. injection E as E. unfold set_ip_sec in E.
    case_decide; injection E as <- <-; [apply quiet_phase_error|quiet_same].
  - left. eapply set_chap_alg_list_quiet; exact E.
  - left. injection E as E. pose proof (recv_begin_quiet c) as Hq. by rewrite E in Hq.
  - left. injection E as E. unfold recv_transit_bit in E.
    case_decide; injection E as <- <-; [apply quiet_phase_error|quiet_same].
  - left. eapply recv_key_value_quiet; exact E.
  - apply bind_Some in H as ([[[st1 kp] b] cl] & E & H). injection H as -> ->.
    unfold acl_send_key_val in E. destruct client as [c|]; [|injection E as <- _ _ <-; split; [by right|by intros]].
    case_decide as Hs; [injection E as <- _ _ <-; split; [by right|]; intros ? [= <-] ?; contradiction|].
    case_match; [injection E as <- _ _ <-; split; [by right|]; intros ? [= <-] _; eauto using quiet_phase_error|].
    case_decide; [injection E as <- _ _ <-; split; [by right|]; intros ? [= <-] _; eauto using quiet_phase_error|].
    apply bind_Some in E as ([v b1] & _ & E). destruct v as [v|].
    + apply bind_Some in E as ([f b2] & _ & E). destruct f; injection E as <- _ _ <-.
      * split; [by right|]. intros ? [= <-] _. exists c. split; [done|]. split; [done|].
        constructor; [by right|done|done|by left].
      * split; [by left|]. intros ? [= <-] _. exists c. split; [done|]. split; [done|]. quiet_same.
    + injection E as <- _ _ <-. split; [by left|]. intros ? [= <-] _. exists c. split; [done|]. split; [done|]. quiet_same.
  - unfold acl_send_transit_bit in H. destruct client as [c|]; [|injection H as <- <-; split; [by right|by intros]].
    repeat case_match; simplify_eq; (split; [by auto|]); intros ? [= <-] Hs; try contradiction;
      exists c; (split; [done|]); (split; [done|]); [apply quiet_phase_error|quiet_same].
  - left. injection E as E. unfold get_dbg_status in E.
    case_decide; injection E as <- <-; [apply quiet_phase_error|quiet_same].
  - right. injection E as <- <-. done.
Qed.

(** [acl_recv_end] on a client whose negotiation is over. *)
Lemma recv_end_over c s : over c -> recv_end c s = Some (AUTH_STATUS_ERROR, c <| phase := AUTH_PHASE_ERROR |>).
Proof.
  intros Ho. unfold recv_end. case_decide as Hp.
  - f_equal. f_equal. rewrite <- Hp. by destruct c.
  - destruct Ho as [?|[_ ->]]; [contradiction|done].
Qed.

(** A verdict ends the negotiation. *)
Lemma recv_end_verdict c s st c' :
  recv_end c s = Some (st, c') -> st = AUTH_STATUS_PASS \/ st = AUTH_STATUS_FAIL -> over c'.
Proof.
  intros H Hst.
  assert (forall c1, recv_end_finish c1 = Some (st, c') -> over c') as Hfin.
  { intros c1 Hf. unfold recv_end_finish in Hf. set (c2 := acl_hand_shake c1) in Hf. clearbody c2.
    unfold acl_rcv_end_status in Hf. case_decide; [injection Hf as <- <-; destruct Hst; congruence|].
    destruct (if decide (phase c2 = AUTH_PHASE_DONE) then _ else _) as [st1 c3] eqn:E1.
    destruct (rcv_end_check_keys c3 st1) as [st2 c4] eqn:E2.
    apply bind_Some in Hf as (c5 & E3 & Hf). injection Hf as -> <-. right. split; [|done]. cbn.
    assert (phase c4 = AUTH_PHASE_DONE) as Hp4.
    { unfold rcv_end_check_keys in E2. repeat case_match; simplify_eq; try done;
        destruct Hst; congruence. }
    case_decide; [|by injection E3 as <-]. apply suppress_frame in E3 as [E3 _].
    ctl_eqs E3. cbn in *. congruence. }
  assert (forall c1 b, recv_end_second c1 b = Some (st, c') -> over c') as Hsec.
  { intros c1 b Hs. unfold recv_end_second in Hs.
    destruct (phase c1); try (injection Hs as <- <-; by left); eauto.
    apply bind_Some in Hs as (c2 & _ & Hs). eauto. }
  unfold recv_end in H. case_decide; [injection H as <- <-; by left|].
  case_match; [injection H as <- <-; by left|]. cbv zeta in H.
  match type of H with match phase ?x with _ => _ end = _ => set (c1 := x) in H; clearbody c1 end.
  destruct (phase c1); try (injection H as <- <-; by left); eauto.
  apply bind_Some in H as ([c2 b] & _ & H). eauto.
Qed.

End Protocol.
