(* ===== verification/AclTheorems.v ===== *)
(** * Properties of the authentication client

    The theorems about usr/auth.c, proved from the lemmas of AclSafety and
    AclProtocol, with a concrete environment that runs a mutual CHAP
    authentication for the witnesses. *)
From S2P Require Import Prelude CString AuthText Acl AclFrame AclSafety AclProtocol.
From Stdlib Require Import Ascii Lia ZArith.
From stdpp Require Import base tactics numbers list strings option.

(** ** A concrete environment

    A checksum as digest and a counter as random generator: enough to run the
    protocol. *)
Module Toy.

Definition digest (alg : Z) (msg : list Z) : list Z :=
  replicate (chap_rsp_len alg) (foldr Z.add 0 msg mod 256)%Z.

#[export] Instance env : AuthEnv := {|
  EVP_DigestInit_ex := fun _ => true;
  EVP_digest := digest;
  RAND_bytes := fun k n => Some (replicate n ((Z.of_nat k + 1) mod 256)%Z);
  sizeof_iscsi_acl := 2000
|}.

#[export] Instance env_ok : AuthEnvOk env.
Proof.
  constructor.
  - intros alg msg _. apply length_replicate.
  - intros alg msg. apply Forall_replicate. unfold is_byte. apply Z.mod_pos_bound. lia.
  - intros k n l [= <-]. split; [apply length_replicate|]. apply Forall_replicate.
    unfold is_byte. apply Z.mod_pos_bound. lia.
Qed.

Definition desc : list (option nat) := [Some 2000; Some 1024; Some 1024; Some 1024; Some 1024].

(** Uninitialised memory: not zero, and not a signature. *)
Definition memory : iscsi_acl := (zero_acl 3) <| phase := AUTH_PHASE_DONE |> <| signature := 77%Z |>.

Definition client0 : iscsi_acl :=
  default memory (snd <$> acl_init TYPE_INITIATOR 5 desc memory).

Definition pad (s : list Z) : list Z := s ++ replicate (256 - length s) 0%Z.

Definition session : auth_session := mk_auth_session (str "target") (pad (str "othersecret!")) 12.

Definition configure : list acl_call :=
  [CSetUserName (Some (str "initiator")); CSetPasswd (str "secretsecret") 12;
   CSetChapAlgList 2 [AUTH_CHAP_ALG_SHA256; AUTH_CHAP_ALG_MD5]; CSetIpSec 1; CSetAuthRmt 1].

Definition message (T : Z) (keys : list (Z * list Z)) : list acl_call :=
  CRecvBegin :: CRecvTransitBit T :: ((fun '(k, v) => CRecvKeyValue k v) <$> keys).

(** The first two messages of the target and the first two answers. *)
Definition exchange : list acl_call :=
  configure ++ message 0 [(0%Z, str "CHAP")] ++ [CRecvEnd session] ++
  message 0 [(1%Z, str "5"); (4%Z, str "7"); (5%Z, str "0x0102030405060708")] ++ [CRecvEnd session].

Definition response (secret : list Z) : list Z :=
  hex_text (EVP_digest AUTH_CHAP_ALG_MD5 (4%Z :: secret ++ replicate 16 5%Z)).

(** The third message of the target. *)
Definition answer (T : Z) (secret : list Z) : list acl_call :=
  message T [(2%Z, str "target"); (3%Z, response secret)].

Definition run (calls : list acl_call) : list log_entry * option iscsi_acl :=
  default ([], None) (acl_run calls (Some client0)).

Definition good : list acl_call := exchange ++ answer 128 (str "othersecret!").

Definition verdict (calls : list acl_call) : option auth_status :=
  '(_, client) ← acl_run calls (Some client0);
  '(st, _) ← acl_exec (CRecvEnd session) client;
  Some st.

Example mutual_chap_passes : verdict good = Some AUTH_STATUS_PASS.
Proof. vm_compute. reflexivity. Qed.

Example wrong_secret_fails : verdict (exchange ++ answer 128 (str "wrong")) = Some AUTH_STATUS_FAIL.
Proof. vm_compute. reflexivity. Qed.

Example reflected_secret_fails : verdict (exchange ++ answer 128 (str "secretsecret")) = Some AUTH_STATUS_FAIL.
Proof. vm_compute. reflexivity. Qed.

Definition final (calls : list acl_call) : option iscsi_acl :=
  default None (snd <$> acl_exec (CRecvEnd session) (run calls).2).

(** The client after [calls]. *)
Definition state (calls : list acl_call) : iscsi_acl := default memory (run calls).2.

Lemma session_ok : session_wf session.
Proof. split; [reflexivity|]. cbn. lia. Qed.

Lemma good_ok : Forall call_ok good.
Proof. apply (bool_decide_unpack _). vm_compute. exact I. Qed.

End Toy.

(** ** Lemmas on runs *)
Section Runs.
Context `{Env : AuthEnv} {EnvOk : AuthEnvOk Env}.

(** [acl_init] does not depend on the memory it is given. *)
Lemma acl_init_wf node n desc c c1 :
  acl_init node n desc c = Some (AUTH_STATUS_NO_ERROR, c1) -> acl_wf c1.
Proof.
  intros H. destruct (acl_init_safe node n desc (zero_acl (rand_pos c))) as ([st c'] & E & _ & Hwf).
  { by intros ? [= <-]. }
  enough (Some (st, c') = Some (AUTH_STATUS_NO_ERROR, c1)) as [= -> ->] by auto.
  rewrite <- E, <- H. unfold acl_init in *. case_decide; [discriminate|].
  destruct (negb (desc_ok desc)); [discriminate|]. reflexivity.
Qed.

Lemma acl_init_ok node n desc c c1 :
  acl_init node n desc c = Some (AUTH_STATUS_NO_ERROR, c1) -> acl_ok (Some c1).
Proof. intros H%acl_init_wf. by intros ? [= <-]. Qed.

Lemma init_client_inv desc c c1 :
  acl_init TYPE_INITIATOR 5 desc c = Some (AUTH_STATUS_NO_ERROR, c1) ->
  client_inv (rand_pos c) False (Some c1).
Proof. intros [H _]%acl_init_inv. by intros ? [= <-]. Qed.

(** [acl_recv_end] through the pointer. *)
Lemma exec_recv_end client s st client' :
  acl_exec (CRecvEnd s) client = Some (st, client') -> st <> AUTH_STATUS_ERROR ->
  exists c c', client = Some c /\ client' = Some c' /\ signature c = ACL_SIGNATURE /\
    recv_end c s = Some (st, c').
Proof.
  cbn [acl_exec]. unfold acl_recv_end, with_client. intros H Hst.
  destruct client as [c|]; [|congruence].
  case_decide as Hs; [congruence|]. apply bind_Some in H as ([st1 c1] & E & H). injection H as -> <-.
  exists c, c1. by split_and!.
Qed.

Lemma acl_run_app calls1 calls2 : forall client,
  acl_run (calls1 ++ calls2) client =
    '(log1, client1) ← acl_run calls1 client;
    '(log2, client2) ← acl_run calls2 client1;
    Some (log1 ++ log2, client2).
Proof.
  induction calls1 as [|call calls1 IH]; intros client; cbn [acl_run app mbind option_bind].
  { destruct (acl_run calls2 client) as [[log2 client2]|]; done. }
  destruct (acl_exec call client) as [[st client1]|]; [|done]. cbn [mbind option_bind].
  rewrite IH. destruct (acl_run calls1 client1) as [[log1 client2]|]; [|done]. cbn [mbind option_bind].
  destruct (acl_run calls2 client2) as [[log2 client3]|]; done.
Qed.

(** No call gives a verdict or asks for another message once the negotiation
    is over. *)
Definition verdict_entry (e : log_entry) : Prop :=
  e_status e = AUTH_STATUS_PASS \/ e_status e = AUTH_STATUS_FAIL \/ e_status e = AUTH_STATUS_CONTINUE.

Definition client_over (client : option iscsi_acl) : Prop :=
  forall c, client = Some c -> signature c = ACL_SIGNATURE -> over c.

Lemma exec_over call client st client' :
  client_over client -> acl_exec call client = Some (st, client') ->
  (st = AUTH_STATUS_NO_ERROR \/ st = AUTH_STATUS_ERROR) /\ client_over client'.
Proof.
  intros Ho H. destruct (is_recv_end call) eqn:Hr.
  - destruct call; try discriminate. cbn [acl_exec] in H. unfold acl_recv_end, with_client in H.
    destruct client as [c|]; [|injection H as <- <-; by split; [right|]].
    case_decide as Hs; [injection H as <- <-; by split; [right|]|].
    rewrite recv_end_over in H by (apply Ho; [done|]; by destruct (decide (signature c = ACL_SIGNATURE))).
    injection H as <- <-. split; [by right|]. intros ? [= <-] _. by left.
  - destruct (acl_exec_quiet _ _ _ _ Hr H) as [Hst Hq]. split; [done|].
    intros c' Hc' Hs. destruct (Hq c' Hc' Hs) as (c & Hc & Hsig & Hquiet).
    by apply (quiet_over _ _ _ Hquiet), (Ho c).
Qed.

Lemma run_over calls : forall client log client',
  client_over client -> acl_run calls client = Some (log, client') ->
  Forall (fun e => ~ verdict_entry e) log.
Proof.
  induction calls as [|call calls IH]; intros client log client' Ho H; cbn [acl_run] in H.
  { injection H as <- <-. constructor. }
  apply bind_Some in H as ([st cl1] & E & H). apply bind_Some in H as ([log1 cl2] & E1 & H).
  injection H as <- <-. destruct (exec_over _ _ _ _ Ho E) as [Hst Ho1].
  constructor; [|by eapply IH]. unfold verdict_entry. cbn. destruct Hst as [-> | ->]; intuition congruence.
Qed.

(** The number of messages that were answered with CONTINUE. *)
Definition continues (log : list log_entry) : nat :=
  length (filter (fun e => e_status e = AUTH_STATUS_CONTINUE) log).

Lemma continues_none log : Forall (fun e => ~ verdict_entry e) log -> continues log = 0.
Proof.
  induction 1 as [|e log He _ IH]; [done|]. unfold continues.
  rewrite filter_cons_False; [exact IH|]. intros Hc. apply He. by do 2 right.
Qed.

Lemma recv_end_continue start V s c c' :
  acl_wf c -> session_wf s -> ctl_inv start V (ctl_of c) -> node_type c = TYPE_INITIATOR ->
  recv_end c s = Some (AUTH_STATUS_CONTINUE, c') ->
  recv_end_count c <= AUTH_RECV_END_MAX_COUNT /\ recv_end_count c' = S (recv_end_count c).
Proof.
  intros Hc Hs Hi Hn H. split.
  - destruct (decide (recv_end_count c <= AUTH_RECV_END_MAX_COUNT)) as [|Hgt]; [done|].
    destruct (recv_end_bad_message c s Hc) as (c2 & E & _).
    + intros Hp. unfold recv_end in H. rewrite decide_True in H by done. discriminate.
    + unfold recv_end in H. case_decide; [discriminate|]. by destruct (recv_in_progress_flag c).
    + left. lia.
    + congruence.
  - apply (recv_end_inv start V) in H as [_ Ho]; try done. by apply (out_count _ _ _ Ho).
Qed.

(** A client that can still answer CONTINUE [11 - k] times at most. *)
Definition client_count (k : nat) (client : option iscsi_acl) : Prop :=
  forall c, client = Some c -> signature c = ACL_SIGNATURE ->
    node_type c = TYPE_INITIATOR /\ k <= recv_end_count c.

Lemma exec_count start V k call client st client' :
  acl_ok client -> call_ok call -> client_inv start V client -> client_count k client ->
  acl_exec call client = Some (st, client') ->
  (st = AUTH_STATUS_CONTINUE -> k <= AUTH_RECV_END_MAX_COUNT) /\
  (client_over client' \/ client_count (if decide (st = AUTH_STATUS_CONTINUE) then S k else k) client').
Proof.
  intros Hok Hcall Hi Hk H. destruct (is_recv_end call) eqn:Hr.
  - destruct call as [| | | | | | | |s| | | |]; try discriminate. cbn [acl_exec] in H.
    unfold acl_recv_end, with_client in H. destruct client as [c|]; [|injection H as <- <-; by split; [|left]].
    case_decide as Hs.
    { injection H as <- <-. split; [done|]. left. intros ? [= <-] ?. contradiction. }
    apply bind_Some in H as ([st1 c1] & E & H). injection H as -> <-.
    specialize (Hok c eq_refl Hs). specialize (Hi c eq_refl Hs). destruct (Hk c eq_refl Hs) as [Hn Hkc].
    pose proof (recv_end_inv start V s c st c1 Hok Hcall Hi E) as [_ Ho].
    case_decide as Hst.
    { subst st. destruct (recv_end_continue start V s c c1) as [Hb Hc1]; try done.
      split; [lia|]. right. intros ? [= <-] _. split; [|lia]. by rewrite (out_node _ _ _ Ho). }
    split; [done|]. left. intros ? [= <-] _. destruct st.
    + by destruct (out_status _ _ _ Ho Hn).
    + left. by apply (out_error _ _ _ Ho).
    + eapply recv_end_verdict; [exact E|by left].
    + eapply recv_end_verdict; [exact E|by right].
    + done.
  - destruct (acl_exec_quiet _ _ _ _ Hr H) as [Hst Hq]. rewrite decide_False by (destruct Hst; congruence).
    split; [by destruct Hst; congruence|]. right. intros c' Hc' Hs.
    destruct (Hq c' Hc' Hs) as (c & Hc & Hsig & []). destruct (Hk c Hc Hsig). split; [congruence|lia].
Qed.

(** The role of the client along a run. *)
Definition client_initiator (client : option iscsi_acl) : Prop :=
  forall c, client = Some c -> signature c = ACL_SIGNATURE -> node_type c = TYPE_INITIATOR.

Lemma exec_node start V call client st client' :
  acl_ok client -> call_ok call -> client_inv start V client -> client_initiator client ->
  acl_exec call client = Some (st, client') -> client_initiator client'.
Proof.
  intros Hok Hcall Hi Hn H. destruct (is_recv_end call) eqn:Hr.
  - destruct call as [| | | | | | | |s| | | |]; try discriminate. cbn [acl_exec] in H.
    unfold acl_recv_end, with_client in H. destruct client as [c|]; [|by injection H as <- <-].
    case_decide as Hs; [by injection H as <- <-|].
    apply bind_Some in H as ([st1 c1] & E & H). injection H as -> <-. intros ? [= <-] _.
    apply (recv_end_inv start V) in E as [_ Ho]; auto. rewrite (out_node _ _ _ Ho). exact (Hn c eq_refl Hs).
  - destruct (acl_exec_quiet _ _ _ _ Hr H) as [_ Hq]. intros c' Hc' Hs.
    destruct (Hq c' Hc' Hs) as (c & Hc & Hsig & []). rewrite quiet_node. exact (Hn c Hc Hsig).
Qed.

Lemma run_node start V calls : forall client log client',
  acl_ok client -> Forall call_ok calls -> client_inv start V client -> client_initiator client ->
  acl_run calls client = Some (log, client') -> client_initiator client'.
Proof.
  revert V. induction calls as [|call calls IH]; intros V client log client' Hok Hcalls Hi Hn H;
    cbn [acl_run] in H; [by injection H as <- <-|].
  apply Forall_cons_iff in Hcalls as [Hcall Hcalls].
  apply bind_Some in H as ([st cl1] & E & H). apply bind_Some in H as ([log1 cl2] & E1 & H).
  injection H as <- <-.
  destruct (acl_exec_safe call client Hok Hcall) as ([st' cl'] & E' & Hok1). rewrite E in E'.
  injection E' as <- <-. pose proof (exec_node start V _ _ _ _ Hok Hcall Hi Hn E) as Hn1.
  eapply acl_exec_inv in E; try done. by eapply (IH _ cl1).
Qed.

Lemma run_count start V calls : forall k client log client',
  acl_ok client -> Forall call_ok calls -> client_inv start V client -> client_count k client ->
  acl_run calls client = Some (log, client') -> continues log <= S AUTH_RECV_END_MAX_COUNT - k.
Proof.
  revert V. induction calls as [|call calls IH]; intros V k client log client' Hok Hcalls Hi Hk H;
    cbn [acl_run] in H.
  { injection H as <- <-. cbn. lia. }
  apply Forall_cons_iff in Hcalls as [Hcall Hcalls].
  apply bind_Some in H as ([st cl1] & E & H). apply bind_Some in H as ([log1 cl2] & E1 & H).
  injection H as <- <-.
  destruct (acl_exec_safe call client Hok Hcall) as ([st' cl'] & E' & Hok1). rewrite E in E'.
  injection E' as <- <-. destruct (exec_count start V k _ _ _ _ Hok Hcall Hi Hk E) as [Hst Hnext].
  eapply acl_exec_inv in E; try done. unfold continues. rewrite filter_cons. cbn [e_status].
  destruct Hnext as [Hover|Hnext].
  - apply run_over, continues_none in E1; [|done]. unfold continues in E1.
    case_decide as Hc; cbn [length]; rewrite E1; [|lia]. specialize (Hst Hc). lia.
  - pose proof (IH _ _ _ _ _ Hok1 Hcalls E Hnext E1) as Hle. unfold continues in Hle.
    case_decide as Hc; cbn [length]; [|lia]. specialize (Hst Hc). lia.
Qed.

End Runs.

(** ** Storing and reading key values *)
Definition clean (b : auth_key_block) : Prop :=
  dup_set b = false /\ str_too_long b = false /\ too_much_data b = false.

Lemma key_value_insert_same b kt k k0 kt' :
  key b !! kt = Some k0 -> present k = present k0 -> string_at k = string_at k0 ->
  key_value (b <| key := <[kt := k]> (key b) |>) kt' = key_value b kt'.
Proof.
  intros Hk Hp Hs. unfold key_value. cbn. destruct (decide (kt' = kt)) as [->|Hne].
  - rewrite list_lookup_insert_eq by (by eapply lookup_lt_Some). rewrite Hk. cbn. by rewrite Hp, Hs.
  - by rewrite list_lookup_insert_ne.
Qed.

(** A value that was stored without an error flag is the value read back, and
    the other keys are unchanged. *)
Lemma set_key_value_get b kt v b' :
  blk_wf b -> no_nul v -> acl_set_key_value b kt (Some v) = Some b' -> clean b' ->
  clean b /\ key_value b' kt = Some v /\ (forall kt', kt' <> kt -> key_value b' kt' = key_value b kt').
Proof.
  intros Hb Hv H Hclean. unfold acl_set_key_value in H.
  destruct (key b !! kt) as [k|] eqn:Hk; [|done]. cbn [mbind option_bind] in H.
  case_match; [injection H as <-; by destruct Hclean|].
  set (b1 := b <| key := _ |>) in H.
  assert (blk_wf b1) as Hb1 by (by apply (blk_wf_insert _ _ k)).
  assert (forall kt', key_value b1 kt' = key_value b kt') as Hsame.
  { intros kt'. by eapply key_value_insert_same. }
  assert (clean b1 <-> clean b) as Hcl by done.
  assert (kt < length (key b1)) as Hlt.
  { subst b1. cbn. rewrite length_insert. by eapply lookup_lt_Some. }
  clearbody b1. rewrite acl_chk_string_spec in H.
  case_decide as Hlen; [|injection H as <-; by destruct Hclean as (_ & ? & _)].
  case_decide as Hroom; [injection H as <-; by destruct Hclean as (_ & _ & ?)|].
  pose proof (wf_block _ Hb1) as Hblk. rewrite strlcpy_spec in H by lia.
  apply bind_Some in H as ([blk n] & [= <- <-] & H). rewrite decide_False in H by lia.
  injection H as <-. split; [by apply Hcl|].
  replace (length v + 1 - 1) with (length v) by lia. rewrite take_ge by lia.
  split; [|intros kt' Hne; rewrite <- Hsame]; unfold key_value; cbn.
  - rewrite list_lookup_insert_eq by done. cbn. apply cstr_splice; [done|lia].
  - rewrite list_lookup_insert_ne by done.
    destruct (key b1 !! kt') as [k'|] eqn:Hk'; [|done]. cbn. destruct (present k') eqn:Hp; [|done].
    destruct (wf_key _ Hb1 kt' k' Hk' Hp) as (off & t & -> & Ht & Hbnd & _). cbn. rewrite Ht.
    apply cstr_splice_before; [done|lia|lia].
Qed.

(** The methods as text, and the list the loop of [acl_set_key] builds. *)
Definition method_text (l : list Z) : list Z :=
  match omap acl_authmethod_optn_to_text l with
  | [] => []
  | s :: l' => s ++ concat ((fun t => str "," ++ t) <$> l')
  end.

Lemma set_key_loop_append options : forall i scratch s,
  length scratch = AUTH_STR_MAX_LEN -> cstr scratch 0 = Some s -> 0 < i ->
  Forall (fun o => is_Some (acl_authmethod_optn_to_text o)) options ->
  length s + length (concat ((fun t => str "," ++ t) <$> omap acl_authmethod_optn_to_text options))
    < AUTH_STR_MAX_LEN ->
  exists scratch', set_key_loop i options acl_authmethod_optn_to_text scratch = Some scratch' /\
    length scratch' = AUTH_STR_MAX_LEN /\
    cstr scratch' 0 = Some (s ++ concat ((fun t => str "," ++ t) <$> omap acl_authmethod_optn_to_text options)).
Proof.
  induction options as [|o options IH]; intros i scratch s Hl Hs Hi Hall Hlen.
  { exists scratch. cbn. by rewrite app_nil_r. }
  apply Forall_cons_iff in Hall as [[t Ht] Hall]. cbn [set_key_loop omap list_omap] in *. rewrite Ht in *.
  rewrite decide_False by lia. cbn [fmap list_fmap concat] in *. rewrite length_app in Hlen.
  change (length (str "," ++ t)) with (S (length t)) in Hlen.
  assert (no_nul t) as Hnt by (by eapply authmethod_text_no_nul).
  destruct (strlcat_cstr scratch s (str ",") AUTH_STR_MAX_LEN) as (b1 & -> & Hl1 & Hc1);
    [done|apply comma_no_nul|lia|lia|]. cbn [mbind option_bind].
  rewrite take_ge in Hc1 by (rewrite length_app; change (length (str ",")) with 1; lia).
  destruct (strlcat_cstr b1 (s ++ str ",") t AUTH_STR_MAX_LEN) as (b2 & -> & Hl2 & Hc2);
    [done|done|rewrite length_app; change (length (str ",")) with 1; lia|lia|]. cbn [mbind option_bind].
  rewrite take_ge in Hc2 by (rewrite !length_app; change (length (str ",")) with 1; lia).
  destruct (IH (S i) b2 ((s ++ str ",") ++ t)) as (b3 & E3 & Hl3 & Hc3); [lia|done|lia|done| |].
  { rewrite !length_app. change (length (str ",")) with 1. lia. }
  exists b3. split; [done|]. split; [done|]. rewrite Hc3, <- !app_assoc. done.
Qed.

(** A value fits in a fresh block. *)
Lemma set_key_value_fresh b t kt v :
  length (str_block b) = AUTH_STR_BLOCK_MAX_LEN -> kt < AUTH_KEY_TYPE_MAX_COUNT -> no_nul v ->
  length v < AUTH_STR_MAX_LEN ->
  exists b', acl_set_key_value ((acl_init_key_blk b) <| transit_bit := t |>) kt (Some v) = Some b' /\
    key_value b' kt = Some v /\ transit_bit b' = t.
Proof.
  intros Hb Hkt Hv Hlen. unfold AUTH_STR_MAX_LEN, AUTH_STR_BLOCK_MAX_LEN in *.
  set (b0 := (acl_init_key_blk b) <| transit_bit := t |>).
  assert (blk_wf b0 /\ clean b0 /\ blk_length b0 = 0) as (Hwf & Hcl & Hl0).
  { split; [|done]. apply (blk_wf_flags (acl_init_key_blk b)); [by apply init_key_blk_wf|done..]. }
  assert (key b0 !! kt = Some zero_key) as Hk by (by apply lookup_replicate_2).
  assert (transit_bit b0 = t) as Ht by done. clearbody b0.
  destruct (set_key_value_safe b0 kt (Some v)) as (b' & E & _ & Ht'); [done|done|by intros ? [= <-]|].
  exists b'. split; [done|]. split; [|congruence].
  eapply set_key_value_get; [exact Hwf|done|exact E|].
  unfold acl_set_key_value in E. rewrite Hk in E. cbn [mbind option_bind value_set zero_key] in E.
  set (b1 := b0 <| key := _ |>) in E.
  assert (clean b1 /\ blk_length b1 = 0 /\ length (str_block b1) = 1024) as (Hc1 & Hl1 & Hs1).
  { split; [exact Hcl|]. split; [exact Hl0|]. exact (wf_block _ Hwf). }
  clearbody b1. rewrite acl_chk_string_spec, decide_True in E by (unfold AUTH_STR_MAX_LEN; lia).
  rewrite decide_False in E by (unfold AUTH_STR_BLOCK_MAX_LEN; lia).
  rewrite strlcpy_spec in E by lia. apply bind_Some in E as ([blk n] & [= <- <-] & E).
  rewrite decide_False in E by lia. injection E as <-. exact Hc1.
Qed.

Lemma set_auth_method_key_text c b t n l :
  acl_wf c -> send_key_block c = (acl_init_key_blk b) <| transit_bit := t |> ->
  length (str_block b) = AUTH_STR_BLOCK_MAX_LEN -> n <= length l -> take n l <> [] ->
  Forall (fun o => is_Some (acl_authmethod_optn_to_text o)) (take n l) ->
  length (method_text (take n l)) < AUTH_STR_MAX_LEN ->
  exists c', acl_set_auth_method_key c n l = Some c' /\
    key_value (send_key_block c') AUTH_KEY_TYPE_AUTH_METHOD = Some (method_text (take n l)) /\
    transit_bit (send_key_block c') = t.
Proof.
  intros Hc Hblk Hb Hn Hne Hall Hlen. unfold acl_set_auth_method_key, acl_set_key.
  rewrite buf_prefix_Some by done. cbn [mbind option_bind].
  destruct (take n l) as [|o options]; [done|]. clear Hne.
  apply Forall_cons_iff in Hall as [[s Hs] Hall]. destruct (wf_scratch _ Hc) as [Hsl _].
  assert (no_nul s) as Hns by (by eapply authmethod_text_no_nul).
  assert (exists scratch, set_key_loop 0 (o :: options) acl_authmethod_optn_to_text (scratch_key_value c)
      = Some scratch /\ length scratch = AUTH_STR_MAX_LEN /\
      cstr scratch 0 = Some (method_text (o :: options))) as (sc & Eloop & Hl & Htext).
  { unfold method_text in *. cbn [set_key_loop omap list_omap] in *. rewrite Hs in *.
    rewrite length_app in Hlen. rewrite decide_True by done.
    destruct (strlcpy_cstr (scratch_key_value c) 0 s AUTH_STR_MAX_LEN) as (b1 & -> & Hl1 & Hc1);
      [done|kt_lt|lia|]. cbn [mbind option_bind]. rewrite take_ge in Hc1 by lia.
    apply set_key_loop_append; [congruence|done|lia|done|lia]. }
  assert (no_nul (method_text (o :: options))) as Hnn by (by apply cstr_inv in Htext as [? _]).
  destruct (set_key_value_fresh b t AUTH_KEY_TYPE_AUTH_METHOD (method_text (o :: options)))
    as (b' & Eb & Hk & Ht); [done|kt_lt|done|done|].
  exists (c <| scratch_key_value := sc |> <| send_key_block := b' |>). split; [|done].
  assert (set_send_key_scratch (c <| scratch_key_value := sc |>) AUTH_KEY_TYPE_AUTH_METHOD =
    Some (c <| scratch_key_value := sc |> <| send_key_block := b' |>)) as Hset.
  { unfold set_send_key_scratch. change (scratch_key_value (c <| scratch_key_value := sc |>)) with sc.
    rewrite Htext. cbn [mbind option_bind]. unfold set_send_key.
    change (send_key_block (c <| scratch_key_value := sc |>)) with (send_key_block c).
    rewrite Hblk, Eb. done. }
  rewrite Eloop. cbn [mbind option_bind]. rewrite Hset.
  destruct options; [|done]. rewrite decide_False; [done|]. intros ->. discriminate Hs.
Qed.

(** The role and the send block of an originating initiator. *)
Lemma valid_role_initiator c :
  node_type c = TYPE_INITIATOR -> auth_method_neg_role c = AUTH_NEG_ROLE_ORIGINATOR ->
  auth_method_valid_neg_role (valid_role c) = AUTH_NEG_ROLE_ORIGINATOR /\
  send_key_block (valid_role c) = (send_key_block c) <| transit_bit := negb (truth (auth_rmt c)) |> /\
  auth_method_valid_list (valid_role c) = auth_method_valid_list c /\
  auth_method_valid_count (valid_role c) = auth_method_valid_count c.
Proof.
  intros Hn Hr. unfold valid_role. rewrite decide_True by done.
  destruct (truth (auth_rmt c)); split_and!; try reflexivity. exact Hr.
Qed.

Lemma set_valid_offer c valid :
  acl_wf c -> node_type c = TYPE_INITIATOR -> auth_method_neg_role c = AUTH_NEG_ROLE_ORIGINATOR ->
  List.filter (auth_method_filter c) (take (auth_method_count c) (auth_method_list c)) = valid ->
  valid <> [] -> Forall (fun o => is_Some (acl_authmethod_optn_to_text o)) valid ->
  length (method_text valid) < AUTH_STR_MAX_LEN ->
  exists c', acl_set_auth_method_valid c = Some c' /\
    key_value (send_key_block c') AUTH_KEY_TYPE_AUTH_METHOD = Some (method_text valid) /\
    transit_bit (send_key_block c') = negb (truth (auth_rmt c)).
Proof.
  intros Hc Hn Hrole Hval Hne Hall Hlen. unfold acl_set_auth_method_valid.
  destruct (wf_methods _ Hc) as [Hm1 Hm2]. destruct (wf_valid _ Hc) as [Hv1 Hv2].
  pose proof (valid_methods_count c Hc) as Hvl. rewrite Hval in Hvl.
  rewrite buf_prefix_Some, bind_ret by lia. cbv zeta. rewrite Hval. rewrite decide_False by lia.
  pose proof (valid_role_wf _ (valid_methods_wf c valid Hc Hvl)) as Hwf.
  destruct (valid_role_initiator (valid_methods c valid) Hn Hrole) as (X1 & X2 & X3 & X4).
  rewrite decide_True by exact X1. rewrite X3, X4.
  assert (take (auth_method_valid_count (valid_methods c valid))
    (auth_method_valid_list (valid_methods c valid)) = valid) as Htake by apply take_app_length.
  destruct (set_auth_method_key_text (valid_role (valid_methods c valid)) (send_key_block c)
    (negb (truth (auth_rmt c))) (auth_method_valid_count (valid_methods c valid))
    (auth_method_valid_list (valid_methods c valid))) as (c3 & E3 & K3 & T3); rewrite ?Htake; try done.
  - apply (wf_send_blk _ Hc).
  - change (length valid <= length (valid ++ drop (length valid) (auth_method_valid_list c))).
    rewrite length_app. lia.
  - exists c3. rewrite Htake in K3. done.
Qed.

(** ** The response to the target's challenge *)
Section Response.
Context `{Env : AuthEnv} {EnvOk : AuthEnvOk Env}.

Definition own_secret (c : iscsi_acl) : list Z := take (passwd_length c) (passwd_data c).

Lemma compute_rsp_spec c id challenge r :
  acl_wf c ->
  acl_chap_compute_rsp c false id challenge (replicate AUTH_CHAP_RSP_MAX 0%Z) =
    Some (AUTH_DBG_STATUS_NOT_SET, r) ->
  passwd_present c = true /\ is_chap_alg (negotiated_chap_alg c) /\
  (truth (ip_sec c) = true \/ 12 <= passwd_length c) /\
  take (chap_challenge_len c) r =
    EVP_digest (negotiated_chap_alg c) (u8 id :: own_secret c ++ challenge).
Proof.
  intros Hc H. unfold acl_chap_compute_rsp in H.
  destruct (passwd_present c); [|done]. cbn [negb] in H.
  destruct (auth_hash_init (negotiated_chap_alg c)) as [ctx|] eqn:Hi; [|done].
  apply hash_init_inv in Hi as [Ha ->]. split; [done|]. split; [done|].
  destruct (wf_passwd _ Hc) as [Hp1 Hp2]. unfold acl_data in H. rewrite decide_False in H by lia.
  rewrite buf_prefix_Some in H by lia. cbn [mbind option_bind] in H.
  assert (length (take (passwd_length c) (passwd_data c)) = passwd_length c) as Hlen
    by (rewrite length_take; lia).
  rewrite buf_write_Some in H by (rewrite length_replicate, Hlen; lia). cbn [mbind option_bind] in H.
  rewrite decide_False in H by (by intros []). case_decide as Hsec; [done|].
  split; [destruct (truth (ip_sec c)); [by left|right; destruct (decide (12 <= passwd_length c)); [done|];
          exfalso; apply Hsec; split_and!; [done|done|lia]]|].
  assert (buf_prefix (splice (replicate AUTH_STR_MAX_LEN 0%Z) 0 (take (passwd_length c) (passwd_data c)))
    (passwd_length c) = Some (own_secret c)) as Hsecret.
  { rewrite buf_prefix_Some; [|rewrite length_splice; rewrite length_replicate; lia].
    f_equal. unfold own_secret. rewrite <- Hlen at 1. apply take_splice_0. }
  rewrite Hsecret in H. cbn [mbind option_bind] in H.
  unfold auth_hash_update in H. cbn [h_alg h_data app] in H. apply bind_Some in H as (r1 & E & H).
  injection H as <-. unfold auth_hash_final in E. cbn [h_alg h_data] in E.
  apply buf_write_inv in E as [_ ->]. pose proof (wf_alg_len _ Hc Ha) as ->.
  rewrite <- (EVP_digest_length (negotiated_chap_alg c) ((u8 id :: own_secret c) ++ challenge)) by done.
  by rewrite take_splice_0.
Qed.

Lemma set_send_key_get c kt v c' :
  acl_wf c -> no_nul v -> set_send_key c kt (Some v) = Some c' -> clean (send_key_block c') ->
  clean (send_key_block c) /\ key_value (send_key_block c') kt = Some v /\
  (forall kt', kt' <> kt -> key_value (send_key_block c') kt' = key_value (send_key_block c) kt') /\
  username c' = username c.
Proof.
  intros Hc Hv H Hcl. unfold set_send_key in H. apply bind_Some in H as (b & E & [= <-]).
  destruct (set_key_value_get _ _ _ _ (wf_send_blk _ Hc) Hv E Hcl) as (H1 & H2 & H3). by split_and!.
Qed.

(** The response and the name are put in the send block. *)
Lemma send_response_spec c dg c' :
  acl_wf c -> dg <> [] -> Forall is_byte dg -> length dg <= AUTH_CHAP_RSP_MAX ->
  ('(_, scratch) ← acl_data_to_text dg (scratch_key_value c) 0 AUTH_STR_MAX_LEN;
   client ← set_send_key_scratch (c <| scratch_key_value := scratch |>) AUTH_KEY_TYPE_CHAP_RSP;
   name ← cstr (username client) 0;
   client ← set_send_key client AUTH_KEY_TYPE_CHAP_USERNAME (Some name);
   Some (client <| local_state := AUTH_LOCAL_STATE_DONE |>)) = Some c' ->
  clean (send_key_block c') ->
  key_value (send_key_block c') AUTH_KEY_TYPE_CHAP_RSP = Some (hex_text dg) /\
  key_value (send_key_block c') AUTH_KEY_TYPE_CHAP_USERNAME = cstr (username c) 0.
Proof.
  intros Hc Hne Hb Hl H Hcl. unfold AUTH_CHAP_RSP_MAX in Hl.
  destruct (wf_scratch _ Hc) as [Hsl _]. unfold AUTH_STR_MAX_LEN in *.
  rewrite acl_data_to_text_spec in H by (done || lia). cbn [mbind option_bind] in H.
  assert (no_nul (hex_text dg)) as Hnn by (by apply hex_text_no_nul).
  assert (length (hex_text dg) < length (scratch_key_value c)) as Hroom
    by (rewrite hex_text_length by done; lia).
  apply bind_Some in H as (c2 & E2 & H). unfold set_send_key_scratch in E2.
  set (c1 := c <| scratch_key_value := _ |>) in E2.
  assert (cstr (scratch_key_value c1) 0 = Some (hex_text dg)) as Es by (apply cstr_splice; done || lia).
  rewrite Es in E2. cbn [mbind option_bind] in E2.
  assert (acl_wf c1) as Hc1.
  { apply wf_set_scratch; [done|]. split; [rewrite length_splice; [done|rewrite length_app; cbn [length]; lia]|].
    rewrite cstr_splice by (done || lia). eauto. }
  assert (acl_wf c2) as Hc2.
  { destruct (set_send_key_safe c1 AUTH_KEY_TYPE_CHAP_RSP (Some (hex_text dg))) as (c2' & E & Hw);
      [done|kt_lt|by intros ? [= <-]|]. by rewrite E2 in E; injection E as <-. }
  apply bind_Some in H as (name & Ename & H). apply bind_Some in H as (c3 & E3 & [= <-]). cbn in Hcl |- *.
  assert (no_nul name) as Hnm by (by apply cstr_inv in Ename as [? _]).
  destruct (set_send_key_get c2 _ _ _ Hc2 Hnm E3 Hcl) as (Hcl2 & Hk3 & Ho3 & _).
  destruct (set_send_key_get c1 _ _ _ Hc1 Hnn E2 Hcl2) as (_ & Hk2 & _ & Hu2).
  rewrite Hk3, Ho3 by (by apply (bool_decide_unpack _)). split; [done|].
  rewrite <- Ename, Hu2. done.
Qed.

(** What the initiator sends when it has accepted the challenge. *)
Lemma local_response c c' :
  acl_wf c -> node_type c = TYPE_INITIATOR -> local_recv_challenge c = Some c' ->
  local_state c' = AUTH_LOCAL_STATE_DONE -> clean (send_key_block c') ->
  exists id_text id,
    key_value (recv_key_block c) AUTH_KEY_TYPE_CHAP_IDENTIFIER = Some id_text /\
    acl_text_to_number id_text = Some id /\ (id <= 255)%Z /\ recv_chap_challenge_status c = 0%Z /\
    is_chap_alg (negotiated_chap_alg c) /\ (truth (ip_sec c) = true \/ 12 <= passwd_length c) /\
    key_value (send_key_block c') AUTH_KEY_TYPE_CHAP_RSP = Some (hex_text
      (EVP_digest (negotiated_chap_alg c)
         (u8 id :: own_secret c ++ sent_challenge (recv_chap_challenge c)))) /\
    key_value (send_key_block c') AUTH_KEY_TYPE_CHAP_USERNAME = cstr (username c) 0.
Proof.
  intros Hc Hn H Hst Hcl. unfold local_recv_challenge in H.
  apply bind_Some in H as ([v b] & E & H). apply bind_Some in H as ([v' b'] & E' & H).
  assert (blk_wf b') as Hb'.
  { destruct (get_key_val_safe (recv_key_block c) AUTH_KEY_TYPE_CHAP_IDENTIFIER) as ([? ?] & X & Hb & _);
      [by apply wf_recv_blk|kt_lt|]. rewrite E in X. injection X as <- <-.
    destruct (get_key_val_safe b AUTH_KEY_TYPE_CHAP_CHALLENGE) as ([? ?] & X & Hb' & _); [done|kt_lt|].
    rewrite E' in X. by injection X as <- <-. }
  apply get_key_val_frame in E as (_ & _ & Ev). cbv zeta in H.
  set (c1 := c <| recv_key_block := b' |>) in H.
  assert (acl_wf c1) as Hc1 by (by apply wf_set_recv).
  assert (forall d, local_state (local_error c1 d) <> AUTH_LOCAL_STATE_DONE) as Herr by done.
  destruct v as [id_text|], v' as [ch|];
    [|injection H as <-; by destruct (Herr AUTH_DBG_STATUS_CHAP_CHALLENGE_EXPECTED)
     |injection H as <-; by destruct (Herr AUTH_DBG_STATUS_CHAP_IDENTIFIER_EXPECTED)
     |rewrite decide_False in H by (subst c1; cbn; congruence); injection H as <-;
      by destruct (Herr AUTH_DBG_STATUS_CHAP_IDENTIFIER_EXPECTED)].
  destruct (acl_text_to_number id_text) as [id|] eqn:Hid; [|injection H as <-; by destruct (Herr AUTH_DBG_STATUS_CHAP_IDENTIFIER_BAD)].
  case_decide as H255; [injection H as <-; by destruct (Herr AUTH_DBG_STATUS_CHAP_IDENTIFIER_BAD)|].
  case_decide as Hcs; [injection H as <-; by destruct (Herr AUTH_DBG_STATUS_CHALLENGE_BAD)|].
  apply bind_Some in H as (challenge & Ech & H). apply buf_prefix_inv in Ech as [_ ->].
  apply bind_Some in H as (own & _ & H).
  rewrite decide_False in H by (subst c1; cbn; intros []; congruence).
  apply bind_Some in H as ([dbg r] & Ecr & H).
  case_decide as Hdbg; [injection H as <-; done|]. subst dbg.
  apply (compute_rsp_spec c1) in Ecr as (_ & Ha & Hsec & Hr); [|done].
  apply bind_Some in H as (rsp & Er & H). apply buf_prefix_inv in Er as [Hrl ->].
  rewrite Hr in H. apply (send_response_spec c1) in H as [Hk1 Hk2]; try done.
  - exists id_text, id. split_and!; try done. lia.
  - intros Hnil. apply (f_equal length) in Hnil. rewrite EVP_digest_length in Hnil by done.
    pose proof (chap_rsp_len_max (negotiated_chap_alg c1)). change (length ([] : list Z)) with 0 in Hnil. lia.
  - apply EVP_digest_bytes.
  - rewrite EVP_digest_length by done. apply chap_rsp_len_max.
Qed.

End Response.

(** ** The properties *)
Section Properties.
Context `{Env : AuthEnv} {EnvOk : AuthEnvOk Env}.

(** C5: when an initiator that authenticates its target reports PASS, some
    message of that negotiation (not necessarily the last) carried the
    configured user name and the digest of the identifier and challenge that
    the client had drawn at random since [acl_init], keyed with the configured
    incoming password: no sequence of calls and of messages of the target
    reaches PASS without it. *)
Theorem mutual_auth_evidence desc c0 c1 calls log client s client' :
  acl_init TYPE_INITIATOR 5 desc c0 = Some (AUTH_STATUS_NO_ERROR, c1) ->
  Forall call_ok calls -> session_wf s ->
  acl_run calls (Some c1) = Some (log, client) ->
  (forall c, client = Some c -> truth (auth_rmt c) = true) ->
  acl_exec (CRecvEnd s) client = Some (AUTH_STATUS_PASS, client') ->
  Exists (entry_verified (rand_pos c0))
    (log ++ [mk_entry (CRecvEnd s) client AUTH_STATUS_PASS client']).
Proof.
  intros Hinit Hcalls Hs Hrun Hrmt Hend.
  pose proof (acl_init_ok _ _ _ _ _ Hinit) as Hok. pose proof (init_client_inv _ _ _ Hinit) as Hi.
  destruct (acl_run_inv _ _ _ _ _ _ Hok Hcalls Hi Hrun) as [Hok1 Hi1].
  destruct (exec_recv_end _ _ _ _ Hend) as (c & c' & -> & -> & Hsig & E); [done|].
  specialize (Hok1 c eq_refl Hsig). specialize (Hi1 c eq_refl Hsig).
  apply (recv_end_inv _ _ _ _ _ _ Hok1 Hs Hi1) in E as [Hi2 Ho].
  destruct (out_pass _ _ _ Ho eq_refl) as [_ Hpass].
  rewrite Exists_app, Exists_cons.
  destruct (inv_pass _ _ _ Hi2) as [[[]|He]|Hv].
  - cbn. rewrite (out_rmt _ _ _ Ho). exact (Hrmt c eq_refl).
  - exact Hpass.
  - by left.
  - right. left. exists s, c, c'. by split_and!.
Qed.

(** C8: after a successful [acl_init], on any memory, no sequence of calls of
    the interface, with any data from the network, leaves a buffer of the
    client, and the client stays well formed. *)
Theorem acl_memory_safe node n desc c0 c1 calls :
  acl_init node n desc c0 = Some (AUTH_STATUS_NO_ERROR, c1) -> Forall call_ok calls ->
  exists log client, acl_run calls (Some c1) = Some (log, client) /\ acl_ok client /\
    length log = length calls.
Proof.
  intros Hinit Hcalls.
  destruct (acl_run_safe calls (Some c1)) as ([log client] & E & Hok & Hl);
    [by eapply acl_init_ok|done|eauto].
Qed.

(** C30: a T bit from the target is never answered with CONTINUE: an initiator
    in any reachable state gives a verdict or an error. *)
Theorem transit_bit_ends_negotiation desc c0 c1 calls log c s st client' :
  acl_init TYPE_INITIATOR 5 desc c0 = Some (AUTH_STATUS_NO_ERROR, c1) ->
  Forall call_ok calls -> session_wf s ->
  acl_run calls (Some c1) = Some (log, Some c) ->
  transit_bit (recv_key_block c) = true ->
  acl_exec (CRecvEnd s) (Some c) = Some (st, client') -> st <> AUTH_STATUS_CONTINUE.
Proof.
  intros Hinit Hcalls Hs Hrun Ht Hend ->.
  pose proof (acl_init_ok _ _ _ _ _ Hinit) as Hok. pose proof (init_client_inv _ _ _ Hinit) as Hi.
  destruct (acl_run_inv _ _ _ _ _ _ Hok Hcalls Hi Hrun) as [Hok1 Hi1].
  destruct (exec_recv_end _ _ _ _ Hend) as (? & c' & [= <-] & -> & Hsig & E); [done|].
  apply acl_init_inv in Hinit as (_ & Hsig1 & _ & Hn1 & _).
  assert (node_type c = TYPE_INITIATOR) as Hn.
  { eapply run_node; [exact Hok|exact Hcalls|exact Hi| |exact Hrun|done|done]. by intros ? [= <-]. }
  specialize (Hok1 c eq_refl Hsig). specialize (Hi1 c eq_refl Hsig).
  apply (recv_end_inv _ _ _ _ _ _ Hok1 Hs Hi1) in E as [_ Ho].
  pose proof (out_continue _ _ _ Ho Hn eq_refl) as Hf. cbn in Hf. congruence.
Qed.

(** C29: an initiator asks for at most eleven more messages in one negotiation,
    whatever the target sends: the login does not go on for ever. *)
Theorem negotiation_is_bounded desc c0 c1 calls log client :
  acl_init TYPE_INITIATOR 5 desc c0 = Some (AUTH_STATUS_NO_ERROR, c1) ->
  Forall call_ok calls -> acl_run calls (Some c1) = Some (log, client) ->
  continues log <= 11.
Proof.
  intros Hinit Hcalls Hrun. pose proof (acl_init_ok _ _ _ _ _ Hinit) as Hok.
  pose proof (init_client_inv _ _ _ Hinit) as Hi.
  apply acl_init_inv in Hinit as (_ & _ & _ & Hn & Hc).
  eapply (run_count _ _ _ 0) in Hrun; try done. intros ? [= <-] _. split; [done|lia].
Qed.

(** C31: a verdict is final: after PASS or FAIL no call of any later sequence
    gives a verdict or asks for a message, until the client is initialised
    again. *)
Theorem verdict_is_final client s st client' calls log client'' :
  acl_exec (CRecvEnd s) client = Some (st, client') ->
  st = AUTH_STATUS_PASS \/ st = AUTH_STATUS_FAIL ->
  acl_run calls client' = Some (log, client'') ->
  Forall (fun e => ~ verdict_entry e) log.
Proof.
  intros Hend Hst Hrun. eapply run_over; [|exact Hrun].
  destruct (exec_recv_end _ _ _ _ Hend) as (c & c' & -> & -> & _ & E); [by destruct Hst; congruence|].
  intros ? [= <-] _. by eapply recv_end_verdict.
Qed.

(** a message with a repeated key, a value that is too long, too much
    data, or beyond the message limit gives FAIL and ends the negotiation. *)
Theorem malformed_message_fails c s :
  acl_wf c -> signature c = ACL_SIGNATURE -> phase c <> AUTH_PHASE_ERROR ->
  recv_in_progress_flag c = true -> bad_message c ->
  exists c', acl_recv_end (Some c) s = Some (AUTH_STATUS_FAIL, Some c') /\ over c'.
Proof.
  intros Hc Hs Hp Hprog Hbad. destruct (recv_end_bad_message c s) as (c' & E & Hd & Hf); try done.
  exists c'. split; [|by right]. unfold acl_recv_end, with_client.
  rewrite decide_False by (by intros []). by rewrite E.
Qed.

(** [acl_chap_auth_request] answers PASS exactly when the name is the
    configured one, credentials are configured, the algorithm is supported,
    and the response is the digest, of the right length, of identifier,
    password and challenge. *)
Theorem auth_request_exact c s name id challenge resp n :
  acl_wf c -> session_handle c = Some s -> session_wf s -> length resp = AUTH_STR_MAX_LEN ->
  acl_chap_auth_request c name id challenge resp n = Some AUTH_STATUS_PASS <->
  username_in s <> [] /\ name = username_in s /\ (1 <= password_in_length s)%Z /\
  password_in s !! 0 <> Some NUL /\ is_chap_alg (negotiated_chap_alg c) /\
  EVP_DigestInit_ex (negotiated_chap_alg c) = true /\ n = chap_challenge_len c /\
  take n resp = EVP_digest (negotiated_chap_alg c)
    (u8 id :: take (Z.to_nat (password_in_length s)) (password_in s) ++ challenge).
Proof. apply auth_request_spec. Qed.

(** a key value stored in a message block without raising an error flag is
    read back unchanged, and no other key of the block changes. *)
Theorem key_block_roundtrip b kt v b' :
  blk_wf b -> no_nul v -> acl_set_key_value b kt (Some v) = Some b' -> clean b' ->
  key_value b' kt = Some v /\ (forall kt', kt' <> kt -> key_value b' kt' = key_value b kt').
Proof. intros. by eapply set_key_value_get. Qed.

(** The AuthMethod list that an initiator offers: only CHAP when it
    authenticates the target (no downgrade to None), "CHAP,None" when it has a
    password of its own, None otherwise; the T bit is offered exactly when the
    target is not authenticated. *)
Theorem offered_methods c rmt :
  acl_wf c -> node_type c = TYPE_INITIATOR -> auth_method_neg_role c = AUTH_NEG_ROLE_ORIGINATOR ->
  phase c = AUTH_PHASE_CONFIGURE -> auth_method_count c = 2 ->
  auth_method_list c = [AUTH_METHOD_CHAP; AUTH_OPTION_NONE] ->
  exists c', set_auth_rmt c rmt = Some (AUTH_STATUS_NO_ERROR, c') /\
    key_value (send_key_block c') AUTH_KEY_TYPE_AUTH_METHOD =
      Some (if truth rmt then str "CHAP" else if passwd_present c then str "CHAP,None" else str "None") /\
    transit_bit (send_key_block c') = negb (truth rmt).
Proof.
  intros Hc Hn Hr Hp Hcount Hlist. unfold set_auth_rmt. rewrite decide_False by (by intros []).
  set (c1 := c <| auth_rmt := rmt |>).
  assert (acl_wf c1) as Hc1 by (wf_update Hc).
  destruct (set_valid_offer c1 (if truth rmt then [AUTH_METHOD_CHAP]
    else if passwd_present c then [AUTH_METHOD_CHAP; AUTH_OPTION_NONE] else [AUTH_OPTION_NONE]))
    as (c' & E & Hk & Ht); try done.
  - unfold auth_method_filter, c1. cbn. rewrite Hn, Hcount, Hlist. cbn.
    destruct (truth rmt); [done|]. by destruct (passwd_present c).
  - by destruct (truth rmt), (passwd_present c).
  - destruct (truth rmt), (passwd_present c); repeat constructor; eexists; reflexivity.
  - destruct (truth rmt), (passwd_present c); kt_lt.
  - exists c'. rewrite E. split; [done|]. split; [|done]. rewrite Hk.
    by destruct (truth rmt), (passwd_present c).
Qed.

(** C32: the response of the initiator: when it accepts a challenge, the CHAP_R
    it sends is the text of the digest of identifier, own password and
    challenge, which the decoder reads back, the CHAP_N is the configured user
    name, and without IPsec the password has at least twelve bytes. *)
Theorem chap_response_correct c c' :
  acl_wf c -> node_type c = TYPE_INITIATOR -> local_recv_challenge c = Some c' ->
  local_state c' = AUTH_LOCAL_STATE_DONE -> clean (send_key_block c') ->
  exists id_text id digest text,
    key_value (recv_key_block c) AUTH_KEY_TYPE_CHAP_IDENTIFIER = Some id_text /\
    acl_text_to_number id_text = Some id /\ (id <= 255)%Z /\
    digest = EVP_digest (negotiated_chap_alg c)
      (u8 id :: own_secret c ++ sent_challenge (recv_chap_challenge c)) /\
    key_value (send_key_block c') AUTH_KEY_TYPE_CHAP_RSP = Some text /\
    (forall buf, AUTH_STR_MAX_LEN <= length buf ->
       acl_text_to_data text buf AUTH_STR_MAX_LEN = Some (0%Z, splice buf 0 digest, length digest)) /\
    key_value (send_key_block c') AUTH_KEY_TYPE_CHAP_USERNAME = cstr (username c) 0 /\
    (truth (ip_sec c) = true \/ 12 <= passwd_length c).
Proof.
  intros Hc Hn H Hst Hcl.
  destruct (local_response c c' Hc Hn H Hst Hcl) as (t & id & H1 & H2 & H3 & _ & Ha & H4 & H5 & H6).
  pose proof (chap_rsp_len_max (negotiated_chap_alg c)) as Hmax. unfold AUTH_CHAP_RSP_MAX in Hmax.
  eexists t, id, _, _. split_and!; [done|done|done|reflexivity|exact H5| |done|done].
  intros buf Hbuf. unfold AUTH_STR_MAX_LEN in *. apply hex_text_decodes; [|apply EVP_digest_bytes|..|done].
  - intros Hnil. apply (f_equal length) in Hnil. rewrite EVP_digest_length in Hnil by done.
    change (length ([] : list Z)) with 0 in Hnil. lia.
  - rewrite EVP_digest_length by done. unfold AUTH_LARGE_BINARY_MAX_LEN. lia.
  - rewrite EVP_digest_length by done. lia.
Qed.

End Properties.

(** ** Witnesses *)
#[local] Existing Instance Toy.env.
#[local] Existing Instance Toy.env_ok.

Lemma mutual_auth_evidence_witness :
  Exists (entry_verified (rand_pos Toy.memory)) ((Toy.run Toy.good).1 ++
    [mk_entry (CRecvEnd Toy.session) (Toy.run Toy.good).2 AUTH_STATUS_PASS (Toy.final Toy.good)]).
Proof.
  apply (mutual_auth_evidence Toy.desc Toy.memory Toy.client0 Toy.good).
  - vm_compute. reflexivity.
  - exact Toy.good_ok.
  - exact Toy.session_ok.
  - vm_compute. reflexivity.
  - intros c. vm_compute. intros [= <-]. reflexivity.
  - vm_compute. reflexivity.
Defined.

Lemma acl_memory_safe_witness :
  exists log client, acl_run Toy.good (Some Toy.client0) = Some (log, client) /\ acl_ok client /\
    length log = length Toy.good.
Proof.
  apply (acl_memory_safe TYPE_INITIATOR 5 Toy.desc Toy.memory); [vm_compute; reflexivity|exact Toy.good_ok].
Defined.

(** A T bit on the second message: the target ends the stage too early. *)
Lemma transit_bit_ends_negotiation_witness :
  let calls := Toy.configure ++ Toy.message 0 [(0%Z, str "CHAP")] ++ [CRecvEnd Toy.session] ++
    Toy.message 128 [(1%Z, str "5"); (4%Z, str "7"); (5%Z, str "0x0102030405060708")] in
  transit_bit (recv_key_block (Toy.state calls)) = true /\ AUTH_STATUS_FAIL <> AUTH_STATUS_CONTINUE.
Proof.
  cbv zeta. split; [vm_compute; reflexivity|].
  match goal with |- _ => set (calls := Toy.configure ++ Toy.message 0 [(0%Z, str "CHAP")] ++
    [CRecvEnd Toy.session] ++
    Toy.message 128 [(1%Z, str "5"); (4%Z, str "7"); (5%Z, str "0x0102030405060708")]) end.
  eapply (transit_bit_ends_negotiation Toy.desc Toy.memory Toy.client0 calls (Toy.run calls).1
    (Toy.state calls) Toy.session _ (Toy.final calls)).
  - vm_compute. reflexivity.
  - apply (bool_decide_unpack _). vm_compute. exact I.
  - exact Toy.session_ok.
  - vm_compute. reflexivity.
  - vm_compute. reflexivity.
  - vm_compute. reflexivity.
Defined.

Lemma negotiation_is_bounded_witness : continues (Toy.run Toy.good).1 <= 11.
Proof.
  apply (negotiation_is_bounded Toy.desc Toy.memory Toy.client0 Toy.good _ (Toy.run Toy.good).2);
    [vm_compute; reflexivity|exact Toy.good_ok|vm_compute; reflexivity].
Defined.

Lemma verdict_is_final_witness :
  Forall (fun e => ~ verdict_entry e)
    (default ([], None) (acl_run (Toy.answer 128 (str "othersecret!") ++ [CRecvEnd Toy.session])
       (Toy.final Toy.good))).1.
Proof.
  apply (verdict_is_final (Toy.run Toy.good).2 Toy.session AUTH_STATUS_PASS (Toy.final Toy.good)
    (Toy.answer 128 (str "othersecret!") ++ [CRecvEnd Toy.session]) _
    (default ([], None) (acl_run (Toy.answer 128 (str "othersecret!") ++ [CRecvEnd Toy.session])
       (Toy.final Toy.good))).2).
  - vm_compute. reflexivity.
  - by left.
  - vm_compute. reflexivity.
Defined.

(** A well-formed client, from a run. *)
Lemma toy_state_wf calls :
  Forall call_ok calls -> (Toy.run calls).2 = Some (Toy.state calls) ->
  acl_run calls (Some Toy.client0) = Some (Toy.run calls) ->
  signature (Toy.state calls) = ACL_SIGNATURE -> acl_wf (Toy.state calls).
Proof.
  intros Hok Hst Hrun Hsig.
  destruct (acl_run_safe calls (Some Toy.client0)) as ([log client] & E & Hwf & _); [|done|].
  - eapply (acl_init_ok TYPE_INITIATOR 5 Toy.desc Toy.memory). vm_compute. reflexivity.
  - rewrite Hrun in E. injection E as E. rewrite E in Hst. cbn in Hst. by apply Hwf.
Qed.

(** The target repeats CHAP_I. *)
Lemma malformed_message_fails_witness :
  exists c', acl_recv_end (Some (Toy.state (Toy.exchange ++
      Toy.message 0 [(4%Z, str "1"); (4%Z, str "2")]))) Toy.session =
    Some (AUTH_STATUS_FAIL, Some c') /\ over c'.
Proof.
  apply malformed_message_fails; [apply toy_state_wf| | | |].
  - apply (bool_decide_unpack _). vm_compute. exact I.
  - vm_compute. reflexivity.
  - vm_compute. reflexivity.
  - vm_compute. reflexivity.
  - vm_compute. reflexivity.
  - vm_compute. discriminate.
  - vm_compute. reflexivity.
  - right. left. vm_compute. reflexivity.
Defined.

Lemma toy_exchange_wf : acl_wf (Toy.state Toy.exchange).
Proof.
  apply toy_state_wf; [apply (bool_decide_unpack _); vm_compute; exact I|vm_compute; reflexivity..].
Qed.

Lemma auth_request_exact_witness :
  acl_chap_auth_request (Toy.state Toy.exchange) (str "target") 4 (replicate 16 5%Z)
    (replicate 256 (foldr Z.add 4 (str "othersecret!" ++ replicate 16 5)%Z mod 256)%Z) 16
  = Some AUTH_STATUS_PASS.
Proof.
  apply (auth_request_exact (Toy.state Toy.exchange) Toy.session (str "target")).
  - exact toy_exchange_wf.
  - vm_compute. reflexivity.
  - exact Toy.session_ok.
  - vm_compute. reflexivity.
  - split_and!; try (apply (bool_decide_unpack _); vm_compute; exact I); vm_compute; reflexivity.
Defined.

Lemma key_block_roundtrip_witness :
  let b := acl_init_key_blk (send_key_block Toy.client0) in
  exists b', acl_set_key_value b 2 (Some (str "name")) = Some b' /\ key_value b' 2 = Some (str "name").
Proof.
  cbv zeta. eexists. split; [vm_compute; reflexivity|].
  eapply (key_block_roundtrip (acl_init_key_blk (send_key_block Toy.client0)) 2 (str "name")).
  - apply init_key_blk_wf. vm_compute. reflexivity.
  - apply (bool_decide_unpack _). vm_compute. exact I.
  - vm_compute. reflexivity.
  - vm_compute. split_and!; reflexivity.
Defined.

Lemma toy_client0_wf : acl_wf Toy.client0.
Proof. eapply (acl_init_wf TYPE_INITIATOR 5 Toy.desc Toy.memory). vm_compute. reflexivity. Qed.

Lemma offered_methods_witness :
  exists c', set_auth_rmt Toy.client0 1 = Some (AUTH_STATUS_NO_ERROR, c') /\
    key_value (send_key_block c') AUTH_KEY_TYPE_AUTH_METHOD = Some (str "CHAP") /\
    transit_bit (send_key_block c') = false.
Proof.
  apply (offered_methods Toy.client0 1); [exact toy_client0_wf|vm_compute; reflexivity..].
Defined.

(** The second message again, on an empty send block. *)
Definition toy_challenged : iscsi_acl :=
  (Toy.state Toy.exchange) <| send_key_block := acl_init_key_blk (send_key_block (Toy.state Toy.exchange)) |>.

Lemma chap_response_correct_witness :
  exists text, key_value (send_key_block (default Toy.memory (local_recv_challenge toy_challenged)))
    AUTH_KEY_TYPE_CHAP_RSP = Some text.
Proof.
  destruct (chap_response_correct toy_challenged (default Toy.memory (local_recv_challenge toy_challenged)))
    as (t & id & dg & text & _ & _ & _ & _ & H & _).
  - apply wf_set_send; [exact toy_exchange_wf|]. apply init_key_blk_wf. vm_compute. reflexivity.
  - vm_compute. reflexivity.
  - vm_compute. reflexivity.
  - vm_compute. reflexivity.
  - vm_compute. split_and!; reflexivity.
  - exists text. exact H.
Defined.
