(* ===== verification/Pdu.v ===== *)
(** * PDU headers (include/iscsi_proto.h)

    A basic header segment is 48 bytes, viewed through several structures
    ([iscsi_hdr], [iscsi_login], [iscsi_login_rsp]).  The model keeps the 48
    bytes; a field is a range of offsets, numbers are big endian. *)
From S2P Require Import Prelude.
From Stdlib Require Import Lia ZArith.
From stdpp Require Import base tactics numbers list strings option.

Definition HDR_LEN : nat := 48.

(** Offsets of the fields that the login code uses. *)
Definition OFF_opcode : nat := 0.
Definition OFF_flags : nat := 1.
Definition OFF_max_version : nat := 2.
Definition OFF_active_version : nat := 3.
Definition OFF_hlength : nat := 4.
Definition OFF_dlength : nat := 5.
Definition OFF_isid : nat := 8.
Definition OFF_tsih : nat := 14.
Definition OFF_cid : nat := 20.
Definition OFF_cmdsn : nat := 24.
Definition OFF_statsn : nat := 24.
Definition OFF_exp_statsn : nat := 28.
Definition OFF_exp_cmdsn : nat := 28.
Definition OFF_max_cmdsn : nat := 32.
Definition OFF_status_class : nat := 36.
Definition OFF_status_detail : nat := 37.

Definition zero_hdr : list Z := replicate HDR_LEN 0%Z.

(** A one-byte field. *)
Definition hdr8 (h : list Z) (off : nat) : Z := nth off h 0%Z.

Definition hdr_put (h : list Z) (off : nat) (l : list Z) : list Z := splice h off l.

(** Big-endian numbers: [htons], [htonl], [ntohs], [ntohl]. *)
Fixpoint be_bytes (n : nat) (v : Z) : list Z :=
  match n with
  | O => []
  | S n' => (Z.land (Z.shiftr v (8 * Z.of_nat n')) 255) :: be_bytes n' v
  end.

Definition be_val (l : list Z) : Z := foldl (fun acc b => Z.lor (Z.shiftl acc 8) b) 0%Z l.

Definition hdr16 (h : list Z) (off : nat) : Z := be_val (take 2 (drop off h)).
Definition hdr32 (h : list Z) (off : nat) : Z := be_val (take 4 (drop off h)).

(** [ntoh24(h->dlength)] and [hton24(h->dlength, v)]. *)
Definition ntoh24 (h : list Z) : Z :=
  Z.lor (Z.lor (Z.shiftl (hdr8 h OFF_dlength) 16) (Z.shiftl (hdr8 h (OFF_dlength + 1)) 8))
        (hdr8 h (OFF_dlength + 2)).

Definition hton24 (h : list Z) (v : Z) : list Z :=
  hdr_put h OFF_dlength
    [Z.land (Z.shiftr v 16) 255; Z.land (Z.shiftr v 8) 255; Z.land v 255].

(** ** Lemmas *)
Lemma nth_splice h off l i :
  off + length l <= length h ->
  nth i (splice h off l) 0%Z =
    if decide (off <= i < off + length l) then nth (i - off) l 0%Z else nth i h 0%Z.
Proof.
  intros Hl. unfold splice. case_decide as Hi.
  - rewrite app_nth2 by (rewrite length_take; lia). rewrite length_take, Nat.min_l by lia.
    by rewrite app_nth1 by lia.
  - destruct (decide (i < off)).
    + rewrite app_nth1 by (rewrite length_take; lia). rewrite nth_firstn; by destruct (Nat.ltb_spec i off); [|lia].
    + rewrite app_nth2 by (rewrite length_take; lia). rewrite length_take, Nat.min_l by lia.
      rewrite app_nth2 by lia. destruct (decide (i < length h)).
      * rewrite nth_skipn. f_equal. lia.
      * rewrite !nth_overflow; [done|lia|rewrite length_drop; lia].
Qed.

Lemma length_hdr_put h off l : off + length l <= length h -> length (hdr_put h off l) = length h.
Proof. apply length_splice. Qed.

Lemma length_hton24 h v : length h = HDR_LEN -> length (hton24 h v) = HDR_LEN.
Proof. intros Hh. unfold hton24. rewrite length_hdr_put; [done|]. rewrite Hh. cbn. unfold HDR_LEN. lia. Qed.

Lemma hdr8_put h off l i :
  off + length l <= length h ->
  hdr8 (hdr_put h off l) i =
    if decide (off <= i < off + length l) then nth (i - off) l 0%Z else hdr8 h i.
Proof. apply nth_splice. Qed.

Lemma hdr8_hton24 h v i :
  length h = HDR_LEN -> i < OFF_dlength \/ OFF_dlength + 3 <= i -> hdr8 (hton24 h v) i = hdr8 h i.
Proof.
  intros Hh Hi. unfold hton24. rewrite hdr8_put by (rewrite Hh; cbn; unfold HDR_LEN; lia).
  cbn [length]. case_decide; [lia|done].
Qed.

Lemma ntoh24_hton24 h v : length h = HDR_LEN -> (0 <= v < 2 ^ 24)%Z -> ntoh24 (hton24 h v) = v.
Proof.
  intros Hh Hv. unfold ntoh24, hton24, OFF_dlength.
  rewrite !hdr8_put by (rewrite Hh; cbn; unfold HDR_LEN; lia). cbn [length].
  repeat (case_decide; [|lia]). cbn.
  apply Z.bits_inj'. intros n Hn. rewrite !Z.lor_spec.
  assert (forall m, (0 <= m)%Z -> Z.testbit 255 m = (m <? 8)%Z) as H255.
  { intros m Hm. change 255%Z with (Z.ones 8). destruct (Z.ltb_spec m 8).
    - rewrite Z.ones_spec_low by lia. done.
    - rewrite Z.ones_spec_high by lia. done. }
  assert (24 <= n -> Z.testbit v n = false)%Z as Hhigh.
  { intros Hge. destruct (Z.eq_dec v 0%Z) as [->|Hz]; [apply Z.bits_0|].
    apply Z.bits_above_log2; [lia|]. assert (Z.log2 v < 24)%Z by (apply Z.log2_lt_pow2; lia). lia. }
  rewrite Z.land_spec, H255 by done.
  destruct (Z.lt_ge_cases n 8) as [H8|H8].
  - rewrite !Z.shiftl_spec_low by lia. destruct (Z.ltb_spec n 8); [|lia]. by rewrite andb_true_r.
  - destruct (Z.ltb_spec n 8); [lia|]. rewrite andb_false_r, orb_false_r.
    rewrite (Z.shiftl_spec_high _ 8) by lia. rewrite Z.land_spec, H255, Z.shiftr_spec by lia.
    replace (n - 8 + 8)%Z with n by lia.
    destruct (Z.lt_ge_cases n 16) as [H16|H16].
    + rewrite Z.shiftl_spec_low by lia. destruct (Z.ltb_spec (n - 8) 8); [|lia]. by rewrite andb_true_r.
    + destruct (Z.ltb_spec (n - 8) 8); [lia|]. rewrite andb_false_r, orb_false_r.
      rewrite Z.shiftl_spec_high by lia. rewrite Z.land_spec, H255, Z.shiftr_spec by lia.
      replace (n - 16 + 16)%Z with n by lia. destruct (Z.ltb_spec (n - 16) 8); [by rewrite andb_true_r|].
      rewrite andb_false_r. symmetry. apply Hhigh. lia.
Qed.

Lemma ntoh24_range h : Forall is_byte h -> (0 <= ntoh24 h < 2 ^ 24)%Z.
Proof.
  intros Hh. assert (forall i, is_byte (hdr8 h i)) as Hb.
  { intros i. unfold hdr8. destruct (nth_in_or_default i h 0%Z) as [Hin|E].
    - by apply (proj1 (Forall_forall _ _) Hh).
    - rewrite E. done. }
  unfold ntoh24, is_byte in *. pose proof (Hb OFF_dlength). pose proof (Hb (OFF_dlength + 1)).
  pose proof (Hb (OFF_dlength + 2)).
  assert (Z.lor (Z.shiftl (hdr8 h OFF_dlength) 16) (Z.shiftl (hdr8 h (OFF_dlength + 1)) 8) =
    Z.shiftl (Z.lor (Z.shiftl (hdr8 h OFF_dlength) 8) (hdr8 h (OFF_dlength + 1))) 8) as ->.
  { rewrite Z.shiftl_lor, Z.shiftl_shiftl by lia. done. }
  rewrite (lor_shiftl_add _ _ 8) by lia. rewrite lor_shiftl_add by lia. lia.
Qed.
