(* ===== verification/LoginText.v ===== *)
(** * Text keys of login PDUs (usr/login.c)

    [iscsi_add_text] appends "param=value" to the data of a PDU,
    [iscsi_find_key_value] looks for a key in received data.  A pointer into
    the data is an offset. *)
From S2P Require Import Prelude CString Pdu.
From Stdlib Require Import Ascii Lia ZArith.
From stdpp Require Import base tactics numbers list strings option.

Definition ISCSI_TEXT_SEPARATOR : Z := char "=".

(** The bytes of one key. *)
Definition text_pair (param value : list Z) : list Z :=
  param ++ ISCSI_TEXT_SEPARATOR :: value ++ [NUL].

(** The result is the returned int as a bool, the header and the data. *)
Definition iscsi_add_text (pdu data : list Z) (max_data_length : Z) (param value : list Z)
    : option (bool * list Z * list Z) :=
  let param_len := length param in
  let value_len := length value in
  let length := (Z.of_nat param_len + 1 + Z.of_nat value_len + 1)%Z in
  let pdu_length := ntoh24 pdu in
  if decide (pdu_length + length >= max_data_length)%Z then Some (false, pdu, data)
  else
    let text := Z.to_nat pdu_length in
    data ← buf_write data text param;
    let text := text + param_len in
    data ← buf_set data text ISCSI_TEXT_SEPARATOR;
    let text := S text in
    data ← buf_write data text value;
    let text := text + value_len in
    data ← buf_set data text NUL;
    Some (true, hton24 pdu (pdu_length + length), data).

(** A sequence of calls of the shape [if (!iscsi_add_text(...)) return 0;]. *)
Fixpoint add_texts (pdu data : list Z) (max_data_length : Z) (l : list (list Z * list Z))
    : option (bool * list Z * list Z) :=
  match l with
  | [] => Some (true, pdu, data)
  | (param, value) :: l' =>
      '(ok, pdu, data) ← iscsi_add_text pdu data max_data_length param value;
      if ok : bool then add_texts pdu data max_data_length l' else Some (false, pdu, data)
  end.

(** The first loop of [iscsi_find_key_value]: [None] inside when it returned 0. *)
Fixpoint match_param (param data : list Z) (text pdu_end : nat) : option (option nat) :=
  match param with
  | [] => Some (Some text)
  | c :: param' =>
      if decide (pdu_end <= text) then Some None
      else
        b ← data !! text;
        if decide (b = NUL) then Some None
        else if decide (c <> b) then Some None
        else match_param param' data (S text) pdu_end
  end.

(** The second loop, over [n = pdu_end - text] bytes. *)
Fixpoint scan_value (n : nat) (data : list Z) (text : nat) : option nat :=
  match n with
  | O => Some text
  | S n' =>
      b ← data !! text;
      if decide (b = NUL) then Some text else scan_value n' data (S text)
  end.

(** [value_start] and [value_end], or [None] inside when the result is 0. *)
Definition iscsi_find_key_value (param data : list Z) (pdu pdu_end : nat)
    : option (option (nat * nat)) :=
  m ← match_param param data pdu pdu_end;
  match m with
  | None => Some None
  | Some text =>
      if decide (pdu_end <= text) then Some None
      else
        b ← data !! text;
        if decide (b = NUL \/ b <> ISCSI_TEXT_SEPARATOR) then Some None
        else
          value_end ← scan_value (pdu_end - text) data text;
          Some (Some (S text, value_end))
  end.

(** ** Appending *)
Lemma text_pair_length param value : length (text_pair param value) = length param + length value + 2.
Proof. unfold text_pair. rewrite length_app. cbn. rewrite length_app. cbn. lia. Qed.

Lemma iscsi_add_text_spec pdu data max param value :
  length pdu = HDR_LEN -> (0 <= ntoh24 pdu)%Z -> (max <= Z.of_nat (length data))%Z -> (max <= 2 ^ 24)%Z ->
  iscsi_add_text pdu data max param value =
    if decide (ntoh24 pdu + Z.of_nat (length (text_pair param value)) < max)%Z then
      Some (true, hton24 pdu (ntoh24 pdu + Z.of_nat (length (text_pair param value))),
            splice data (Z.to_nat (ntoh24 pdu)) (text_pair param value))
    else Some (false, pdu, data).
Proof.
  intros Hpdu H0 Hmax H24. unfold iscsi_add_text. rewrite text_pair_length.
  replace (Z.of_nat (length param + length value + 2))
    with (Z.of_nat (length param) + 1 + Z.of_nat (length value) + 1)%Z by lia.
  repeat case_decide; try lia; [done|]. cbv zeta. set (t := Z.to_nat (ntoh24 pdu)).
  assert (t + length param + length value + 2 < length data) as Hroom by lia.
  rewrite buf_write_Some, bind_ret by lia.
  rewrite buf_set_Some, splice_one, bind_ret by (rewrite length_splice; lia).
  rewrite splice_app by (cbn [length]; lia).
  rewrite buf_write_Some, bind_ret by (rewrite length_splice; rewrite ?length_app; cbn [length]; lia).
  replace (S (t + length param)) with (t + length (param ++ [ISCSI_TEXT_SEPARATOR]))
    by (rewrite length_app; cbn [length]; lia).
  rewrite splice_app by (rewrite length_app; cbn [length]; lia).
  rewrite buf_set_Some, splice_one, bind_ret
    by (rewrite length_splice; rewrite ?length_app; cbn [length]; lia).
  replace (t + length (param ++ [ISCSI_TEXT_SEPARATOR]) + length value)
    with (t + length ((param ++ [ISCSI_TEXT_SEPARATOR]) ++ value)) by (rewrite !length_app; lia).
  rewrite splice_app by (rewrite !length_app; cbn [length]; lia).
  unfold text_pair. by rewrite <- !app_assoc.
Qed.

(** ** Looking up *)
Lemma match_param_safe param data : forall text pdu_end,
  pdu_end <= length data -> exists r, match_param param data text pdu_end = Some r /\
    (forall t, r = Some t -> t = text + length param /\ t <= Nat.max text pdu_end /\
       take (length param) (drop text data) = param).
Proof.
  induction param as [|c param IH]; intros text pdu_end Hend; cbn [match_param].
  { eexists. split; [done|]. intros t [= <-]. cbn. split; [lia|]. split; [lia|done]. }
  case_decide as Ht; [eexists; by split|].
  destruct (lookup_lt_is_Some_2 data text) as [b Hb]; [lia|]. rewrite Hb, bind_ret.
  case_decide; [eexists; by split|]. case_decide as Hcb; [eexists; by split|].
  destruct (IH (S text) pdu_end Hend) as (r & -> & Hr). exists r. split; [done|].
  intros t E. destruct (Hr t E) as (-> & Hle & Htk). split; [cbn; lia|]. split; [lia|].
  rewrite (drop_S _ _ _ Hb). cbn. rewrite Htk. f_equal. by destruct (decide (c = b)).
Qed.

Lemma scan_value_safe data : forall n text,
  text + n <= length data -> exists e, scan_value n data text = Some e /\ text <= e <= text + n /\
    no_nul (take (e - text) (drop text data)) /\ (e < text + n -> data !! e = Some NUL).
Proof.
  induction n as [|n IH]; intros text Hn; cbn [scan_value].
  { exists text. rewrite Nat.sub_diag. split; [done|]. split; [lia|]. split; [constructor|lia]. }
  destruct (lookup_lt_is_Some_2 data text) as [b Hb]; [lia|]. rewrite Hb, bind_ret.
  case_decide as Hnul.
  - exists text. rewrite Nat.sub_diag. split; [done|]. split; [lia|]. split; [constructor|]. by subst b.
  - destruct (IH (S text)) as (e & -> & He & Hn' & Hl); [lia|]. exists e. split; [done|].
    split; [lia|]. split; [|intros; apply Hl; lia].
    rewrite (drop_S _ _ _ Hb). replace (e - text) with (S (e - S text)) by lia. cbn.
    apply no_nul_cons. done.
Qed.

(** What a successful lookup says: the key is at [text], the value has no NUL
    and ends at the end of the data or at a NUL. *)
Lemma find_key_value_safe param data text pdu_end :
  pdu_end <= length data ->
  exists r, iscsi_find_key_value param data text pdu_end = Some r /\
    (forall vs ve, r = Some (vs, ve) ->
       vs = text + length param + 1 /\ vs <= ve <= pdu_end /\
       take (length param + 1) (drop text data) = param ++ [ISCSI_TEXT_SEPARATOR] /\
       no_nul (take (ve - vs) (drop vs data)) /\ (ve < pdu_end -> data !! ve = Some NUL)).
Proof.
  intros Hend. unfold iscsi_find_key_value.
  destruct (match_param_safe param data text pdu_end Hend) as (m & -> & Hm). rewrite bind_ret.
  destruct m as [t|]; [|eexists; by split].
  destruct (Hm t eq_refl) as (Et & Hle & Htk). case_decide; [eexists; by split|].
  destruct (lookup_lt_is_Some_2 data t) as [b Hb]; [lia|]. rewrite Hb, bind_ret.
  case_decide as Hsep; [eexists; by split|].
  assert (b = ISCSI_TEXT_SEPARATOR) as ->.
  { destruct (decide (b = ISCSI_TEXT_SEPARATOR)); [done|]. exfalso. apply Hsep. by right. }
  destruct (scan_value_safe data (pdu_end - t) t) as (e & Es & He & Hn & Hl); [lia|].
  rewrite Es, bind_ret.
  assert (t < e) as Hte.
  { destruct (decide (t < e)); [done|]. assert (e = t) as -> by lia.
    rewrite Hl in Hb by lia. discriminate Hb. }
  eexists. split; [done|]. intros vs ve [= <- <-]. split; [lia|]. split; [lia|]. split; [|split].
  - rewrite <- take_take_drop, Htk. f_equal. rewrite drop_drop, <- Et, (drop_S _ _ _ Hb). done.
  - rewrite (drop_S _ _ _ Hb) in Hn. replace (e - t) with (S (e - S t)) in Hn by lia.
    cbn in Hn. by apply no_nul_cons in Hn as [_ ?].
  - intros. apply Hl. lia.
Qed.

Lemma match_param_complete param data rest : forall text pdu_end,
  no_nul param -> drop text data = param ++ rest -> text + length param <= pdu_end ->
  match_param param data text pdu_end = Some (Some (text + length param)).
Proof.
  revert rest. induction param as [|c param IH]; intros rest text pdu_end Hn E Hl; cbn [match_param].
  { cbn. do 2 f_equal. lia. }
  apply no_nul_cons in Hn as [Hc Hn]. cbn in Hl. rewrite decide_False by lia.
  assert (data !! text = Some c) as Hb.
  { rewrite <- (Nat.add_0_r text), <- lookup_drop, E. done. }
  rewrite Hb, bind_ret. rewrite decide_False by done. rewrite decide_False by (by intros []).
  rewrite (drop_S _ _ _ Hb) in E. injection E as E.
  rewrite (IH rest) by (done || lia). cbn. do 2 f_equal. lia.
Qed.

Lemma scan_value_complete data rest v : forall n text,
  no_nul v -> drop text data = v ++ NUL :: rest -> length v < n ->
  scan_value n data text = Some (text + length v).
Proof.
  induction v as [|c v IH]; intros n text Hn E Hl; (destruct n as [|n]; [cbn in Hl; lia|]); cbn [scan_value].
  - assert (data !! text = Some NUL) as -> by (by rewrite <- (Nat.add_0_r text), <- lookup_drop, E).
    rewrite bind_ret, decide_True by done. f_equal. cbn. lia.
  - apply no_nul_cons in Hn as [Hc Hn]. cbn in Hl.
    assert (data !! text = Some c) as Hb by (by rewrite <- (Nat.add_0_r text), <- lookup_drop, E).
    rewrite Hb, bind_ret. rewrite decide_False by done. rewrite (drop_S _ _ _ Hb) in E. injection E as E.
    rewrite IH by (done || lia). cbn. f_equal. lia.
Qed.

(** A key that is in the data is found, with its value. *)
Lemma find_key_value_complete param value data rest text pdu_end :
  no_nul param -> no_nul value -> drop text data = text_pair param value ++ rest ->
  text + length param + 1 + length value < pdu_end ->
  iscsi_find_key_value param data text pdu_end =
    Some (Some (text + length param + 1, text + length param + 1 + length value)).
Proof.
  intros Hp Hv E Hl. unfold text_pair in E. rewrite <- app_assoc in E. unfold iscsi_find_key_value.
  rewrite (match_param_complete param data _ text pdu_end Hp E) by lia. rewrite bind_ret.
  rewrite decide_False by lia.
  assert (drop (text + length param) data = ISCSI_TEXT_SEPARATOR :: value ++ NUL :: rest) as Ed.
  { rewrite <- drop_drop, E, drop_app_length. cbn. by rewrite <- app_assoc. }
  assert (data !! (text + length param) = Some ISCSI_TEXT_SEPARATOR) as ->
    by (by rewrite <- (Nat.add_0_r (text + length param)), <- lookup_drop, Ed).
  rewrite bind_ret, decide_False by (intros [H|H]; [discriminate H|by destruct H]).
  rewrite (scan_value_complete data rest (ISCSI_TEXT_SEPARATOR :: value)).
  - rewrite bind_ret. do 3 f_equal; cbn; lia.
  - apply no_nul_cons. split; [done|exact Hv].
  - rewrite Ed. done.
  - cbn. lia.
Qed.
