(* ===== verification/Io.v ===== *)
(** * Sending and receiving PDUs (usr/io.c)

    [iscsi_io_send_pdu] and [iscsi_io_recv_pdu].  The socket is a parameter:
    the list of the results of the system calls to come, so that every way of
    cutting the byte stream in pieces is covered. *)
From S2P Require Import Prelude Pdu.
From Stdlib Require Import Lia ZArith.
From stdpp Require Import base tactics numbers list strings option.

Definition ISCSI_PAD_LEN : Z := 4.
Definition EAGAIN : Z := 11.

(** ** Receiving *)

(** What a [read] finds: bytes that have arrived, [EAGAIN], the end of the
    stream, another error, or the alarm. *)
Inductive read_event := RBytes (l : list Z) | REagain | REof | RError | RTimeout.

(** A loop that reads [want] bytes: whether it succeeded, the bytes it got and
    the events left.  When nothing more happens the alarm goes off. *)
Fixpoint read_loop (net : list read_event) (got : list Z) (want : nat)
    : bool * list Z * list read_event :=
  match net with
  | [] => (false, got, [])
  | REagain :: net' => read_loop net' got want
  | (REof | RError | RTimeout) :: net' => (false, got, net')
  | RBytes l :: net' =>
      let n := want - length got in
      if decide (l = []) then (false, got, net')
      else if decide (n < length l) then (true, got ++ take n l, RBytes (drop n l) :: net')
      else if decide (length l = n) then (true, got ++ l, net')
      else read_loop net' (got ++ l) want
  end.

(** The kernel transport brackets a transfer; these are the results of
    [ipc->recv_pdu_begin] and [ipc->recv_pdu_end]. *)
Record ipc_results := mk_ipc { ipc_begin : Z; ipc_end : Z }.

(** [-EAGAIN], [-EIO], or the number of bytes read. *)
Inductive recv_status := RecvAgain | RecvFailed | RecvOk (n : nat).

(** The status, the header, the data and the events left. *)
Definition recv_done (use_ipc : bool) (ipc : ipc_results) (failed : bool) (n : nat)
    (hdr data : list Z) (net : list read_event)
    : recv_status * list Z * list Z * list read_event :=
  let failed := failed || (use_ipc && truth (ipc_end ipc)) in
  ((if failed then RecvFailed else RecvOk n), hdr, data, net).

(** The part after the header: data and padding. *)
Definition recv_data (use_ipc : bool) (ipc : ipc_results) (hdr data : list Z) (max_data_length : Z)
    (net : list read_event) : option (recv_status * list Z * list Z * list read_event) :=
  let dlength := ntoh24 hdr in
  if decide (hdr8 hdr OFF_hlength <> 0%Z) then Some (recv_done use_ipc ipc true 0 hdr data net)
  else if decide (dlength = 0%Z) then Some (recv_done use_ipc ipc false HDR_LEN hdr data net)
  else if decide (max_data_length < dlength)%Z then Some (recv_done use_ipc ipc true 0 hdr data net)
  else
    let '(ok, got, net) := read_loop net [] (Z.to_nat dlength) in
    data ← buf_write data 0 got;
    if negb ok then Some (recv_done use_ipc ipc true 0 hdr data net)
    else
      let pad := (dlength mod ISCSI_PAD_LEN)%Z in
      if truth pad && negb use_ipc then
        let '(ok, _, net) := read_loop net [] (Z.to_nat (ISCSI_PAD_LEN - pad)) in
        Some (recv_done use_ipc ipc (negb ok) (HDR_LEN + Z.to_nat dlength) hdr data net)
      else Some (recv_done use_ipc ipc false (HDR_LEN + Z.to_nat dlength) hdr data net).

Definition iscsi_io_recv_pdu (use_ipc : bool) (ipc : ipc_results) (hdr data : list Z)
    (max_data_length : Z) (net : list read_event)
    : option (recv_status * list Z * list Z * list read_event) :=
  data ← buf_write data 0 (replicate (Z.to_nat max_data_length) 0%Z);
  if decide (use_ipc = true /\ ipc_begin ipc = - EAGAIN)%Z then Some (RecvAgain, hdr, data, net)
  else if decide (use_ipc = true /\ ipc_begin ipc < 0)%Z then
    Some (recv_done use_ipc ipc true 0 hdr data net)
  else
    let '(ok, got, net) := read_loop net [] HDR_LEN in
    hdr ← buf_write hdr 0 got;
    if negb ok then Some (recv_done use_ipc ipc true 0 hdr data net)
    else recv_data use_ipc ipc hdr data max_data_length net.

(** ** Sending *)

(** What a [writev] does: it takes at most [k] bytes, or fails with [EAGAIN],
    with another error, or the alarm goes off. *)
Inductive write_event := WBytes (k : nat) | WEagain | WError | WTimeout.

(** The loop on the header: success, the bytes put on the wire, the events left. *)
Fixpoint write_header (net : list write_event) (header : list Z) : bool * list Z * list write_event :=
  match header with
  | [] => (true, [], net)
  | _ =>
      match net with
      | [] => (false, [], [])
      | WEagain :: net' => write_header net' header
      | (WError | WTimeout) :: net' => (false, [], net')
      | WBytes k :: net' =>
          let rc := Nat.min k (length header) in
          if decide (rc = 0) then (false, [], net')
          else
            let '(ok, out, net'') := write_header net' (drop rc header) in
            (ok, take rc header ++ out, net'')
      end
  end.

(** The loop on the data: every [writev] is given what is left of the data and
    the whole padding; [remaining] counts the bytes of both. *)
Fixpoint write_data (net : list write_event) (data pad : list Z) (remaining : Z)
    : bool * list Z * list write_event :=
  if decide (remaining <= 0)%Z then (true, [], net)
  else
    match net with
    | [] => (false, [], [])
    | WEagain :: net' => write_data net' data pad remaining
    | (WError | WTimeout) :: net' => (false, [], net')
    | WBytes k :: net' =>
        let rc := Nat.min k (length (data ++ pad)) in
        if decide (rc = 0) then (false, [], net')
        else
          let '(ok, out, net'') := write_data net' (drop rc data) pad (remaining - Z.of_nat rc) in
          (ok, take rc (data ++ pad) ++ out, net'')
    end.

Definition pad_bytes (pdu_length : Z) : Z :=
  if decide (pdu_length mod ISCSI_PAD_LEN <> 0)%Z then (ISCSI_PAD_LEN - pdu_length mod ISCSI_PAD_LEN)%Z
  else 0%Z.

(** Success, and the bytes put on the wire.  [end_rc] is the result of
    [ipc->send_pdu_end].  An additional header segment would be read behind
    the header: no caller sends one. *)
Definition iscsi_io_send_pdu (use_ipc : bool) (end_rc : Z) (hdr data : list Z) (net : list write_event)
    : option (bool * list Z * list write_event) :=
  let pdu_length := (Z.of_nat HDR_LEN + hdr8 hdr OFF_hlength + ntoh24 hdr)%Z in
  let pad := replicate (Z.to_nat (pad_bytes pdu_length)) 0%Z in
  if decide (hdr8 hdr OFF_hlength <> 0%Z) then None
  else
    let '(ok, out1, net) := write_header net hdr in
    if negb ok then Some (false, out1, net)
    else
      d ← buf_prefix data (Z.to_nat (ntoh24 hdr));
      let '(ok, out2, net) := write_data net d pad (ntoh24 hdr + Z.of_nat (length pad)) in
      Some (ok && negb (use_ipc && truth end_rc), out1 ++ out2, net).

(** ** Lemmas *)

(** The bytes a clean connection delivers, in order. *)
Definition clean_in (net : list read_event) : Prop :=
  Forall (fun e => match e with RBytes l => l <> [] | REagain => True | _ => False end) net.

Definition stream (net : list read_event) : list Z :=
  concat ((fun e => match e with RBytes l => l | _ => [] end) <$> net).

Lemma read_loop_clean net : forall got want,
  clean_in net -> length got < want -> want <= length got + length (stream net) ->
  exists net', read_loop net got want = (true, got ++ take (want - length got) (stream net), net') /\
    clean_in net' /\ stream net' = drop (want - length got) (stream net).
Proof.
  induction net as [|e net IH]; intros got want Hc Hg Hw; [cbn in Hw; lia|].
  apply Forall_cons_iff in Hc as [He Hc]. destruct e as [l| | | |]; try contradiction; cbn [read_loop].
  - unfold stream in *. cbn [fmap list_fmap concat] in *. rewrite length_app in Hw.
    rewrite decide_False by done. case_decide as Hlt.
    + eexists. rewrite take_app_le by lia. split; [done|]. cbn [fmap list_fmap concat].
      rewrite drop_app_le by lia. split; [|done]. apply Forall_cons_iff. split; [|done].
      intros E. apply (f_equal length) in E. rewrite length_drop in E. cbn in E. lia.
    + case_decide as Heq.
      * exists net. rewrite take_app_le, drop_app_le by lia. rewrite take_ge, drop_ge by lia. done.
      * destruct (IH (got ++ l) want Hc) as (net' & -> & Hc' & Es); [rewrite length_app; lia..|].
        exists net'. rewrite length_app in *. rewrite take_app_ge, drop_app_ge by lia.
        replace (want - (length got + length l)) with (want - length got - length l) in * by lia.
        split; [by rewrite <- app_assoc|]. done.
  - destruct (IH got want Hc Hg Hw) as (net' & -> & Hc' & Es). exists net'. done.
Qed.

(** However a loop ends, it never returns more than it was asked for. *)
Lemma read_loop_length net : forall got want,
  length got < want -> length (read_loop net got want).1.2 <= want.
Proof.
  induction net as [|e net IH]; intros got want Hg; cbn; [lia|].
  destruct e as [l| | | |]; cbn; try lia; [|by apply IH]. case_decide; [cbn; lia|].
  case_decide; [cbn; rewrite length_app, length_take; lia|].
  case_decide; [cbn; rewrite length_app; lia|]. apply IH. rewrite length_app. lia.
Qed.

Lemma read_loop_ok_length net : forall got want,
  length got < want -> (read_loop net got want).1.1 = true -> length (read_loop net got want).1.2 = want.
Proof.
  induction net as [|e net IH]; intros got want Hg; cbn; [done|].
  destruct e as [l| | | |]; cbn; try done; [|by apply IH]. case_decide; [done|].
  case_decide; [cbn; rewrite length_app, length_take; lia|].
  case_decide; [cbn; rewrite length_app; lia|]. apply IH. rewrite length_app. lia.
Qed.

(** What arrives is bytes. *)
Definition event_bytes (e : read_event) : Prop :=
  match e with RBytes l => Forall is_byte l | _ => True end.

Definition net_bytes (net : list read_event) : Prop := Forall event_bytes net.

#[export] Instance event_bytes_dec e : Decision (event_bytes e).
Proof. destruct e; apply _. Defined.

#[export] Instance net_bytes_dec net : Decision (net_bytes net).
Proof. unfold net_bytes. apply _. Defined.

Lemma read_loop_bytes net : forall got want,
  net_bytes net -> Forall is_byte got ->
  Forall is_byte (read_loop net got want).1.2 /\ net_bytes (read_loop net got want).2.
Proof.
  induction net as [|e net IH]; intros got want Hn Hg; [done|].
  apply Forall_cons_iff in Hn as [He Hn]. destruct e as [l| | | |]; cbn; auto.
  case_decide; [done|]. case_decide; [|case_decide; cbn].
  - cbn. split; [apply Forall_app; split; [done|by apply Forall_take]|].
    apply Forall_cons_iff. split; [by apply Forall_drop|done].
  - split; [by apply Forall_app|done].
  - apply IH; [done|by apply Forall_app].
Qed.

(** What was received, as the login code relies on it. *)
Record received (max : nat) (old_data hdr data : list Z) : Prop := {
  rcv_hdr : length hdr = HDR_LEN;
  rcv_bytes : Forall is_byte hdr;
  rcv_len : Z.to_nat (ntoh24 hdr) <= max;
  rcv_data : length data = length old_data;
  rcv_zero : forall i, Z.to_nat (ntoh24 hdr) <= i < max -> data !! i = Some 0%Z
}.

Lemma splice_zero_tail data max l i :
  max <= length data -> length l <= i < max ->
  splice (splice data 0 (replicate max 0%Z)) 0 l !! i = Some 0%Z.
Proof.
  intros Hm Hi. unfold splice at 1. rewrite take_0, app_nil_l.
  rewrite lookup_app_r by lia. rewrite lookup_drop.
  replace (0 + length l + (i - length l)) with i by lia.
  unfold splice. rewrite take_0, app_nil_l. rewrite lookup_app_l by (rewrite length_replicate; lia).
  apply lookup_replicate_2. lia.
Qed.

(** The outcome of a receive: the buffers keep their sizes, and a success
    leaves a PDU. *)
Definition recv_outcome (max : nat) (data : list Z)
    (r : option (recv_status * list Z * list Z * list read_event)) : Prop :=
  exists st hdr' data' net', r = Some (st, hdr', data', net') /\ length hdr' = HDR_LEN /\
    length data' = length data /\ net_bytes net' /\
    (forall n, st = RecvOk n -> received max data hdr' data').

Lemma recv_failed use_ipc ipc max data n h d net :
  length h = HDR_LEN -> length d = length data -> net_bytes net ->
  recv_outcome max data (Some (recv_done use_ipc ipc true n h d net)).
Proof. intros H1 H2 H3. eexists _, _, _, _. split; [reflexivity|]. by split_and!. Qed.

Lemma recv_received use_ipc ipc max data f n h d net :
  received max data h d -> net_bytes net ->
  recv_outcome max data (Some (recv_done use_ipc ipc f n h d net)).
Proof.
  intros Hr Hn. eexists _, _, _, _. split; [reflexivity|]. destruct Hr. by split_and!.
Qed.

Lemma recv_data_safe use_ipc ipc hdr data max net :
  length hdr = HDR_LEN -> Forall is_byte hdr -> max <= length data -> net_bytes net ->
  recv_outcome max data
    (recv_data use_ipc ipc hdr (splice data 0 (replicate max 0%Z)) (Z.of_nat max) net).
Proof.
  intros Hh Hb Hm Hnb. unfold recv_data. set (z := splice data 0 (replicate max 0%Z)).
  assert (length z = length data) as Hz by (apply length_splice; rewrite length_replicate; lia).
  pose proof (ntoh24_range hdr Hb) as Hr.
  assert (forall l, length l = Z.to_nat (ntoh24 hdr) -> length l <= max ->
    received max data hdr (splice z 0 l)) as Hrec.
  { intros l Hl Hle. constructor; try done; [lia|rewrite length_splice; lia|].
    intros i Hi. apply splice_zero_tail; lia. }
  case_decide; [by apply recv_failed|].
  case_decide as H0.
  { apply recv_received; [|done]. rewrite <- (splice_nil z 0). apply Hrec; [by rewrite H0|cbn; lia]. }
  case_decide as Hbig; [by apply recv_failed|].
  assert (0 < Z.to_nat (ntoh24 hdr)) as Hpos by lia.
  pose proof (read_loop_length net [] (Z.to_nat (ntoh24 hdr)) Hpos) as Hl.
  pose proof (read_loop_ok_length net [] (Z.to_nat (ntoh24 hdr)) Hpos) as Hok.
  pose proof (read_loop_bytes net [] (Z.to_nat (ntoh24 hdr)) Hnb (List.Forall_nil _)) as [_ Hnb1].
  destruct (read_loop net [] (Z.to_nat (ntoh24 hdr))) as [[ok got] net1]. cbn in Hl, Hok, Hnb1.
  rewrite buf_write_Some, bind_ret by lia. destruct ok; cbn [negb].
  2: { apply recv_failed; [done| |done]. rewrite length_splice; lia. }
  assert (received max data hdr (splice z 0 got)) as Hd by (apply Hrec; [by apply Hok|lia]).
  case_match; [|by apply recv_received].
  match goal with |- context [read_loop net1 [] ?w] =>
    pose proof (read_loop_bytes net1 [] w Hnb1 (List.Forall_nil _)) as [_ Hnb2] end.
  destruct (read_loop net1 _ _) as [[ok2 ?] net2]. by apply recv_received.
Qed.

(** For any sequence of events the receiver stays in its buffers, and when it
    succeeds the header announces the data, which is followed by zeros. *)
Lemma recv_pdu_safe use_ipc ipc hdr data max net :
  length hdr = HDR_LEN -> max <= length data -> net_bytes net ->
  recv_outcome max data (iscsi_io_recv_pdu use_ipc ipc hdr data (Z.of_nat max) net).
Proof.
  intros Hh Hm Hn. unfold iscsi_io_recv_pdu. rewrite Nat2Z.id.
  rewrite buf_write_Some, bind_ret by (rewrite length_replicate; lia).
  assert (length (splice data 0 (replicate max 0%Z)) = length data) as Hz
    by (apply length_splice; rewrite length_replicate; lia).
  case_decide; [eexists _, _, _, _; split; [reflexivity|]; by split_and!|].
  case_decide; [by apply recv_failed|].
  assert (0 < HDR_LEN) as H48 by (unfold HDR_LEN; lia).
  pose proof (read_loop_length net [] HDR_LEN H48) as Hl.
  pose proof (read_loop_ok_length net [] HDR_LEN H48) as Hok.
  pose proof (read_loop_bytes net [] HDR_LEN Hn (List.Forall_nil _)) as [Hb Hnb].
  destruct (read_loop net [] HDR_LEN) as [[ok got] net1]. cbn in Hl, Hok, Hb, Hnb.
  rewrite buf_write_Some, bind_ret by lia.
  assert (length (splice hdr 0 got) = HDR_LEN) as Hh1 by (rewrite length_splice; lia).
  destruct ok; cbn [negb]; [|by apply recv_failed]. apply recv_data_safe; [done| |done|done].
  unfold splice. rewrite drop_ge by (rewrite Hok by done; lia). rewrite take_0, app_nil_l, app_nil_r. done.
Qed.
