(* ===== verification/IoTheorems.v ===== *)
(** * Properties of sending and receiving PDUs (usr/io.c) *)
From S2P Require Import Prelude Pdu Io.
From Stdlib Require Import Lia ZArith.
From stdpp Require Import base tactics numbers list strings option.

(** ** Receiving *)

(** The bytes of a PDU on the wire. *)
Definition wire (hdr data : list Z) : list Z :=
  hdr ++ data ++ replicate (Z.to_nat (pad_bytes (Z.of_nat (length data)))) 0%Z.

Lemma pad_bytes_range n : (0 <= pad_bytes n < 4)%Z.
Proof. unfold pad_bytes, ISCSI_PAD_LEN. pose proof (Z.mod_pos_bound n 4). case_decide; lia. Qed.

(** Reading [want] bytes off a clean connection, whatever the pieces. *)
Lemma read_exactly net want :
  clean_in net -> 0 < want <= length (stream net) ->
  exists net', read_loop net [] want = (true, take want (stream net), net') /\
    clean_in net' /\ stream net' = drop want (stream net).
Proof.
  intros Hc Hw. destruct (read_loop_clean net [] want Hc) as (net' & E & Hc' & Es); [cbn; lia..|].
  exists net'. cbn [length] in *. rewrite Nat.sub_0_r in *. rewrite app_nil_l in E. done.
Qed.

Lemma recv_data_clean ipc hdr z data rest net max :
  hdr8 hdr OFF_hlength = 0%Z -> ntoh24 hdr = Z.of_nat (length data) ->
  (Z.of_nat (length data) <= max)%Z -> length data <= length z -> clean_in net ->
  stream net = data ++ replicate (Z.to_nat (pad_bytes (Z.of_nat (length data)))) 0%Z ++ rest ->
  exists net', recv_data false ipc hdr z max net =
      Some (RecvOk (HDR_LEN + length data), hdr, splice z 0 data, net') /\
    clean_in net' /\ stream net' = rest.
Proof.
  intros Hh Hdl Hmax Hz Hc Es. unfold recv_data. rewrite Hdl.
  rewrite decide_False by (intros Hx; by apply Hx). unfold recv_done. cbn [andb orb negb].
  case_decide as H0.
  { assert (data = []) as -> by (destruct data; [done|cbn in H0; lia]).
    exists net. rewrite splice_nil, Nat.add_0_r. split; [done|]. split; [done|]. rewrite Es. done. }
  rewrite decide_False by lia. rewrite Nat2Z.id.
  destruct (read_exactly net (length data) Hc) as (net1 & -> & Hc1 & Es1).
  { rewrite Es, length_app. lia. }
  rewrite Es, take_app_length, buf_write_Some, bind_ret by lia. rewrite Es, drop_app_length in Es1.
  pose proof (pad_bytes_range (Z.of_nat (length data))) as Hp. unfold pad_bytes in *.
  destruct (truth (Z.of_nat (length data) mod ISCSI_PAD_LEN)) eqn:Ht; cbn [andb negb];
    unfold truth in Ht.
  - apply negb_true_iff, Z.eqb_neq in Ht. rewrite decide_True in Es1, Hp by done.
    destruct (read_exactly net1 (Z.to_nat (ISCSI_PAD_LEN - Z.of_nat (length data) mod ISCSI_PAD_LEN)) Hc1)
      as (net2 & -> & Hc2 & Es2).
    { rewrite Es1, length_app, length_replicate. pose proof (Z.mod_pos_bound (Z.of_nat (length data)) 4).
      unfold ISCSI_PAD_LEN in *. lia. }
    exists net2. split; [done|]. split; [done|]. rewrite Es2, Es1. apply drop_app_length'.
    by rewrite length_replicate.
  - apply negb_false_iff, Z.eqb_eq in Ht. rewrite decide_False in Es1 by (intros Hx; by apply Hx). exists net1. done.
Qed.

(** A PDU on a clean connection. *)
Lemma recv_pdu_clean ipc hdr0 buf hdr data rest net max :
  length hdr0 = HDR_LEN -> length hdr = HDR_LEN -> hdr8 hdr OFF_hlength = 0%Z ->
  ntoh24 hdr = Z.of_nat (length data) -> length data <= max -> max <= length buf ->
  clean_in net -> stream net = wire hdr data ++ rest ->
  exists net', iscsi_io_recv_pdu false ipc hdr0 buf (Z.of_nat max) net =
      Some (RecvOk (HDR_LEN + length data), hdr,
            data ++ replicate (max - length data) 0%Z ++ drop max buf, net') /\
    clean_in net' /\ stream net' = rest.
Proof.
  intros Hl0 Hl Hh Hdl Hd Hmax Hc Es. unfold iscsi_io_recv_pdu. rewrite Nat2Z.id.
  rewrite buf_write_Some, bind_ret by (rewrite length_replicate; lia).
  do 2 rewrite decide_False by (by intros []).
  unfold wire in Es. rewrite <- !app_assoc in Es.
  destruct (read_exactly net HDR_LEN Hc) as (net1 & -> & Hc1 & Es1).
  { rewrite Es, length_app, Hl. unfold HDR_LEN. lia. }
  assert (take HDR_LEN (stream net) = hdr) as Hhdr by (rewrite Es, <- Hl; apply take_app_length).
  assert (splice hdr0 0 hdr = hdr) as Hs.
  { unfold splice. rewrite take_0, drop_ge, app_nil_r by lia. done. }
  rewrite Hhdr, buf_write_Some, bind_ret by lia. rewrite Hs. cbn [negb].
  rewrite Es, <- Hl, drop_app_length in Es1.
  set (z := splice buf 0 (replicate max 0%Z)).
  destruct (recv_data_clean ipc hdr z data rest net1 (Z.of_nat max)) as (net2 & E & Hc2 & Es2);
    [done|done|lia| |done|done|].
  { unfold z. rewrite length_splice; rewrite ?length_replicate; lia. }
  exists net2. split; [|done]. rewrite E. do 2 f_equal.
  assert (splice z 0 data = data ++ replicate (max - length data) 0%Z ++ drop max buf) as ->; [|done].
  unfold z, splice. rewrite !take_0, !app_nil_l, !Nat.add_0_l, length_replicate. f_equal.
  rewrite drop_app_le by (rewrite length_replicate; lia). by rewrite drop_replicate.
Qed.

(** C36: a PDU is reassembled from any sequence of pieces in which TCP delivers
    it, with EAGAIN in between: the header and the data are exactly what was
    sent, the rest of the buffer is zero, the padding is consumed and what
    follows is left for the next call. *)
Theorem recv_reassembles ipc hdr0 buf hdr data rest net max :
  length hdr0 = HDR_LEN -> length hdr = HDR_LEN -> hdr8 hdr OFF_hlength = 0%Z ->
  ntoh24 hdr = Z.of_nat (length data) -> length data <= max -> max <= length buf ->
  clean_in net -> stream net = wire hdr data ++ rest ->
  exists net', iscsi_io_recv_pdu false ipc hdr0 buf (Z.of_nat max) net =
      Some (RecvOk (HDR_LEN + length data), hdr,
            data ++ replicate (max - length data) 0%Z ++ drop max buf, net') /\
    clean_in net' /\ stream net' = rest.
Proof. apply recv_pdu_clean. Qed.

(** whatever happens on the connection, receiving a PDU ends, writes only
    into the header and the data buffer, and reports success only for a
    complete header without additional segments' data and a data segment that
    fits, followed by zeros. *)
Theorem recv_is_bounded use_ipc ipc hdr data max net :
  length hdr = HDR_LEN -> max <= length data -> net_bytes net ->
  exists st hdr' data' net', iscsi_io_recv_pdu use_ipc ipc hdr data (Z.of_nat max) net =
      Some (st, hdr', data', net') /\ length hdr' = HDR_LEN /\ length data' = length data /\
    (forall n, st = RecvOk n -> Forall is_byte hdr' /\ Z.to_nat (ntoh24 hdr') <= max /\
       forall i, Z.to_nat (ntoh24 hdr') <= i < max -> data' !! i = Some 0%Z).
Proof.
  intros Hh Hm Hn. destruct (recv_pdu_safe use_ipc ipc hdr data max net Hh Hm Hn)
    as (st & hdr' & data' & net' & E & H1 & H2 & _ & H3).
  exists st, hdr', data', net'. split_and!; [done..|]. intros n Hst. destruct (H3 n Hst). by split_and!.
Qed.

(** ** Sending *)
Lemma write_header_all header : forall net out net',
  write_header net header = (true, out, net') -> out = header.
Proof.
  intros net. revert header. induction net as [|e net IH]; intros header out net' H;
    (destruct header as [|x header]; [by injection H as <- <-|]); [discriminate H|].
  cbn [write_header] in H. destruct e as [k| | |]; try discriminate H; [|by apply IH in H].
  set (h := x :: header) in *. case_decide; [discriminate H|].
  destruct (write_header net _) as [[ok out'] net''] eqn:E. injection H as -> <- <-.
  apply IH in E as ->. apply take_drop.
Qed.

(** Zeros in front of zeros. *)
Lemma replicate_app m n (x : Z) : replicate m x ++ replicate n x = replicate (m + n) x.
Proof. induction m; cbn; [done|]. by f_equal. Qed.

(** The rest of the padding: at least [r] and less than [r + p] bytes. *)
Lemma write_pad p : forall net (r : Z) out net',
  write_data net [] (replicate p 0%Z) r = (true, out, net') ->
  exists m, out = replicate m 0%Z /\ (Z.max 0 r <= Z.of_nat m <= Z.max 0 (r + Z.of_nat p - 1))%Z.
Proof.
  induction net as [|e net IH]; intros r out net' H; cbn [write_data] in H;
    (case_decide as Hr; [injection H as <- <-; exists 0; split; [done|lia]|]); [discriminate H|].
  destruct e as [k| | |]; try discriminate H; [|by apply IH in H].
  rewrite app_nil_l, length_replicate, drop_nil in H. case_decide as Hrc; [discriminate H|].
  destruct (write_data net [] _ _) as [[ok out'] net''] eqn:E. injection H as -> <- <-.
  apply IH in E as (m & -> & Hm). rewrite take_replicate, replicate_app. eexists. split; [done|]. lia.
Qed.

Lemma write_data_all p : forall net d out net',
  write_data net d (replicate p 0%Z) (Z.of_nat (length d + p)) = (true, out, net') ->
  exists m, out = d ++ replicate m 0%Z /\ p <= m <= p + (p - 1).
Proof.
  induction net as [|e net IH]; intros d out net' H.
  all: destruct (decide (length d + p = 0)) as [Hz|Hz].
  1,3: assert (d = [] /\ p = 0) as [-> ->] by (split; [destruct d; [done|cbn in Hz; lia]|lia]);
    cbn in H; injection H as <- <-; exists 0; split; [done|lia].
  all: cbn [write_data] in H; rewrite decide_False in H by lia.
  { discriminate H. }
  destruct e as [k| | |]; try discriminate H; [|by apply IH in H].
  rewrite length_app, length_replicate in H. case_decide as Hrc; [discriminate H|].
  set (rc := Nat.min k (length d + p)) in *.
  destruct (write_data net (drop rc d) _ _) as [[ok out'] net''] eqn:E. injection H as -> <- <-.
  destruct (decide (rc <= length d)) as [Hle|Hgt].
  - replace (Z.of_nat (length d + p) - Z.of_nat rc)%Z with (Z.of_nat (length (drop rc d) + p)) in E
      by (rewrite length_drop; lia).
    apply IH in E as (m & -> & Hm). exists m. split; [|done].
    rewrite take_app_le, app_assoc, take_drop by lia. done.
  - rewrite drop_ge in E by lia. apply write_pad in E as (m & -> & Hm).
    exists (rc - length d + m). split; [|subst rc; lia].
    rewrite take_app_ge, take_replicate, <- app_assoc, replicate_app by lia. do 2 f_equal. lia.
Qed.

(** A connection that takes whatever it is given. *)
Definition unsplit (n : nat) (net : list write_event) : Prop :=
  Forall (fun e => match e with WBytes k => n <= k | _ => True end) net.

Lemma write_header_unsplit n : forall net h out net',
  write_header net h = (true, out, net') -> unsplit n net -> unsplit n net'.
Proof.
  induction net as [|e net IH]; intros h out net' H Hu;
    (destruct h as [|x h]; [by injection H as <- <-|]); [discriminate H|].
  apply Forall_cons_iff in Hu as [He Hu]. cbn [write_header] in H.
  destruct e as [k| | |]; try discriminate H; [|by eapply IH].
  case_decide; [discriminate H|]. destruct (write_header net _) as [[ok o] n''] eqn:E.
  injection H as -> <- <-. by eapply IH.
Qed.

Lemma write_data_unsplit p : forall net d out net',
  unsplit (length d + p) net -> 0 < length d + p ->
  write_data net d (replicate p 0%Z) (Z.of_nat (length d + p)) = (true, out, net') ->
  out = d ++ replicate p 0%Z.
Proof.
  induction net as [|e net IH]; intros d out net' Hu Hz H; cbn [write_data] in H;
    rewrite decide_False in H by lia; [discriminate H|]. apply Forall_cons_iff in Hu as [He Hu].
  destruct e as [k| | |]; try discriminate H; [|by eapply IH].
  rewrite length_app, length_replicate, Nat.min_r in H by lia. case_decide; [discriminate H|].
  replace (Z.of_nat (length d + p) - Z.of_nat (length d + p))%Z with 0%Z in H by lia.
  destruct (write_data net _ _ 0) as [[ok out'] net''] eqn:E. injection H as -> <- <-.
  assert (out' = []) as -> by (by destruct net; injection E as <- <-).
  rewrite app_nil_r. apply take_ge. rewrite length_app, length_replicate. lia.
Qed.

(** C40: when sending a PDU succeeds, the wire got the header and the data,
    once and in order, followed by zeros that reach the next multiple of four;
    exactly the padding when no write is cut, and at most [pad - 1] further
    zero bytes when a write ends inside the padding. *)
Theorem send_puts_pdu_on_wire use_ipc rc hdr data net out net' :
  length hdr = HDR_LEN -> (0 <= ntoh24 hdr)%Z ->
  iscsi_io_send_pdu use_ipc rc hdr data net = Some (true, out, net') ->
  let d := take (Z.to_nat (ntoh24 hdr)) data in
  let p := Z.to_nat (pad_bytes (ntoh24 hdr)) in
  exists m, out = hdr ++ d ++ replicate m 0%Z /\ p <= m <= p + (p - 1) /\
    (unsplit (length hdr + length d + p) net -> out = wire hdr d).
Proof.
  intros Hl H0 H d p. unfold iscsi_io_send_pdu in H. case_decide as Hh; [done|].
  assert (pad_bytes (Z.of_nat HDR_LEN + hdr8 hdr OFF_hlength + ntoh24 hdr) = pad_bytes (ntoh24 hdr)) as Hp.
  { rewrite Hh. unfold pad_bytes, HDR_LEN, ISCSI_PAD_LEN.
    replace (Z.of_nat 48 + 0 + ntoh24 hdr)%Z with (ntoh24 hdr + 12 * 4)%Z by lia. by rewrite Z_mod_plus_full. }
  rewrite Hp in H. fold p in H. destruct (write_header net hdr) as [[ok1 out1] net1] eqn:E1.
  destruct ok1; cbn [negb] in H; [|discriminate H]. pose proof (write_header_all _ _ _ _ E1) as ->.
  apply bind_Some in H as (d' & Ed & H). apply buf_prefix_inv in Ed as [Hd ->]. fold d in H.
  assert (length d = Z.to_nat (ntoh24 hdr)) as Hld by (unfold d; rewrite length_take; lia).
  replace (ntoh24 hdr + Z.of_nat (length (replicate p 0%Z)))%Z with (Z.of_nat (length d + p)) in H
    by (rewrite length_replicate; lia).
  destruct (write_data net1 d _ _) as [[ok2 out2] net2] eqn:E2.
  injection H as Hok <- <-. apply andb_true_iff in Hok as [-> _].
  destruct (write_data_all _ _ _ _ _ E2) as (m & Em & Hm). exists m. split; [by rewrite Em|]. split; [done|].
  intros Hu. unfold wire. rewrite Hld, Z2Nat.id by done. fold p. f_equal.
  destruct (decide (length d + p = 0)) as [Hz|Hz].
  { rewrite Em. by replace m with p by lia. }
  eapply write_data_unsplit; [|lia|exact E2].
  eapply Forall_impl; [|by eapply write_header_unsplit]. intros [k| | |] Hk; [cbn in Hk|done..]. lia.
Qed.

(** A write that ends inside the padding: the whole padding is sent again, and
    the PDU of 52 bytes takes 53 on the wire. *)
Example split_padding_sent_again :
  iscsi_io_send_pdu false 0 (hton24 zero_hdr 1) [65%Z] [WBytes 48; WBytes 2; WBytes 3] =
    Some (true, hton24 zero_hdr 1 ++ [65%Z] ++ replicate 4 0%Z, []).
Proof. vm_compute. reflexivity. Qed.

(** ** Witnesses *)
Definition demo_hdr : list Z := hton24 zero_hdr 5.
Definition demo_wire : list Z := wire demo_hdr [1; 2; 3; 4; 5]%Z.

Lemma recv_reassembles_witness :
  exists net', iscsi_io_recv_pdu false (mk_ipc 0 0) zero_hdr (replicate 10 9%Z) (Z.of_nat 8)
      [RBytes (take 20 demo_wire); REagain; RBytes (take 30 (drop 20 demo_wire)); 
       RBytes (drop 50 demo_wire ++ [77%Z])] =
    Some (RecvOk 53, demo_hdr, [1; 2; 3; 4; 5; 0; 0; 0; 9; 9]%Z, net') /\ clean_in net' /\ stream net' = [77%Z].
Proof.
  apply (recv_reassembles (mk_ipc 0 0) zero_hdr (replicate 10 9%Z) demo_hdr [1; 2; 3; 4; 5]%Z [77%Z]
    [RBytes (take 20 demo_wire); REagain; RBytes (take 30 (drop 20 demo_wire));
     RBytes (drop 50 demo_wire ++ [77%Z])] 8); try reflexivity.
  - cbn. lia.
  - cbn. lia.
  - repeat constructor; discriminate.
Defined.

Lemma recv_is_bounded_witness :
  exists st hdr' data' net', iscsi_io_recv_pdu false (mk_ipc 0 0) zero_hdr (replicate 10 9%Z) (Z.of_nat 8)
      [RBytes demo_wire; REof] = Some (st, hdr', data', net') /\ length hdr' = HDR_LEN /\ length data' = 10.
Proof.
  destruct (recv_is_bounded false (mk_ipc 0 0) zero_hdr (replicate 10 9%Z) 8 [RBytes demo_wire; REof])
    as (st & hdr' & data' & net' & E & H1 & H2 & _); [reflexivity|cbn; lia| |].
  - apply (bool_decide_unpack _). vm_compute. exact I.
  - exists st, hdr', data', net'. split; [exact E|]. split; [exact H1|exact H2].
Defined.

Lemma send_puts_pdu_on_wire_witness :
  exists m, demo_wire = demo_hdr ++ [1; 2; 3; 4; 5]%Z ++ replicate m 0%Z /\ 3 <= m <= 5.
Proof.
  destruct (send_puts_pdu_on_wire false 0 demo_hdr [1; 2; 3; 4; 5; 6]%Z [WBytes 10; WEagain; WBytes 100; WBytes 100]
    demo_wire []) as (m & E & Hm & _); [reflexivity|vm_compute; discriminate|vm_compute; reflexivity|].
  exists m. split; [exact E|]. exact Hm.
Defined.
