(* ===== verification/Timer.v ===== *)
(** * Timers (usr/iscsi_timer.c)

    A [struct timeval] is a record of two [Z]s; a NULL timer is [None].  The
    clock is a parameter: [now] is what [gettimeofday] stores. *)
From S2P Require Import Prelude.
From Stdlib Require Import Lia ZArith.
From stdpp Require Import base tactics numbers list option.

Record timeval := mk_timeval { tv_sec : Z; tv_usec : Z }.

#[export] Instance timeval_eq_dec : EqDecision timeval.
Proof. solve_decision. Defined.

Definition iscsi_timer_clear : timeval := mk_timeval 0 0.

(** The new value of the timer. *)
Definition iscsi_timer_set (now : timeval) (seconds : Z) : timeval :=
  mk_timeval (tv_sec now + seconds) (tv_usec now).

(** [timer == NULL || (timer->tv_sec == 0 && timer->tv_usec == 0)]. *)
Definition no_timer (timer : option timeval) : bool :=
  match timer with
  | None => true
  | Some t => bool_decide (tv_sec t = 0%Z /\ tv_usec t = 0%Z)
  end.

(** The comparison that both functions make with the clock. *)
Definition reached (now t : timeval) : bool :=
  bool_decide (tv_sec t < tv_sec now)%Z
  || (bool_decide (tv_sec now = tv_sec t) && bool_decide (tv_usec t <= tv_usec now)%Z).

Definition iscsi_timer_expired (now : timeval) (timer : option timeval) : bool :=
  match timer with
  | None => false
  | Some t => if no_timer timer then false else reached now t
  end.

(** [msecs] is an [int]. *)
Definition iscsi_timer_msecs_until (now : timeval) (timer : option timeval) : Z :=
  match timer with
  | None => (-1)%Z
  | Some t =>
      if no_timer timer then (-1)%Z
      else if reached now t then 0%Z
      else
        let partial := (tv_usec t - tv_usec now)%Z in
        if decide (partial < 0)%Z then
          let partial := (partial + 1000 * 1000)%Z in
          let msecs := i32 (Z.quot (partial + 500) 1000) in
          i32 (msecs + (tv_sec t - tv_sec now - 1) * 1000)
        else
          let msecs := i32 (Z.quot (partial + 500) 1000) in
          i32 (msecs + (tv_sec t - tv_sec now) * 1000)
  end.

(** ** Specification: instants in microseconds *)
Definition usecs (t : timeval) : Z := (tv_sec t * 1000000 + tv_usec t)%Z.

(** [gettimeofday] keeps the microseconds below a million. *)
Definition timeval_ok (t : timeval) : Prop := (0 <= tv_usec t < 1000000)%Z.

Lemma reached_spec now t : timeval_ok now -> timeval_ok t -> reached now t = bool_decide (usecs t <= usecs now)%Z.
Proof.
  unfold timeval_ok, reached, usecs. intros H1 H2. apply eq_bool_prop_intro.
  rewrite orb_True, andb_True, !bool_decide_spec. lia.
Qed.

(** The delay left, in milliseconds, rounded to the nearest. *)
Lemma msecs_until_nearest now t :
  timeval_ok now -> timeval_ok t -> no_timer (Some t) = false -> reached now t = false ->
  (usecs t - usecs now < 2147483647 * 1000)%Z ->
  iscsi_timer_msecs_until now (Some t) = ((usecs t - usecs now + 500) / 1000)%Z.
Proof.
  intros H1 H2 Hn Hr Hb. pose proof Hr as Hr'. rewrite reached_spec in Hr' by done.
  apply bool_decide_eq_false in Hr'. unfold iscsi_timer_msecs_until. rewrite Hn, Hr.
  unfold timeval_ok in *. unfold usecs in *.
  assert (forall a b s, 0 <= a < 1000000 -> 0 <= s -> a + 500 + s * 1000000 < 2147483648 * 1000 ->
    b = (a + 500 + s * 1000000) ->
    i32 (i32 (Z.quot (a + 500) 1000) + s * 1000) = b / 1000)%Z as Hgen.
  { intros a b s Ha Hs Hle ->. rewrite Z.quot_div_nonneg by lia.
    replace (a + 500 + s * 1000000)%Z with (a + 500 + (s * 1000) * 1000)%Z by lia.
    rewrite Z.div_add by lia.
    assert (0 <= (a + 500) / 1000 < 1001)%Z
      by (split; [apply Z.div_pos; lia|apply Z.div_lt_upper_bound; lia]).
    assert ((a + 500) / 1000 + s * 1000 < 2147483648)%Z.
    { rewrite <- Z.div_add by lia. apply Z.div_lt_upper_bound; lia. }
    rewrite (i32_small ((a + 500) / 1000)) by lia. apply i32_small. lia. }
  cbv zeta. case_decide; apply Hgen; lia.
Qed.

(** A timer that was set is reported as expired exactly when its instant
    has been reached, and [iscsi_timer_msecs_until] is 0 from then on; before
    it is the delay left rounded to the nearest millisecond (the [int] does
    not overflow for delays below 2^31 ms), so at most 500 microseconds away
    from it.  A cleared or NULL timer never expires and waits forever. *)
Theorem timer_correct (now t : timeval) :
  timeval_ok now -> timeval_ok t -> t <> iscsi_timer_clear ->
  (usecs t - usecs now < 2147483647 * 1000)%Z ->
  iscsi_timer_expired now (Some t) = bool_decide (usecs t <= usecs now)%Z /\
  (usecs t <= usecs now -> iscsi_timer_msecs_until now (Some t) = 0)%Z /\
  (usecs now < usecs t ->
     iscsi_timer_msecs_until now (Some t) = (usecs t - usecs now + 500) / 1000 /\
     Z.abs (1000 * iscsi_timer_msecs_until now (Some t) - (usecs t - usecs now)) <= 500)%Z /\
  iscsi_timer_expired now None = false /\ iscsi_timer_expired now (Some iscsi_timer_clear) = false /\
  iscsi_timer_msecs_until now None = (-1)%Z /\
  iscsi_timer_msecs_until now (Some iscsi_timer_clear) = (-1)%Z.
Proof.
  intros H1 H2 Ht Hb.
  assert (no_timer (Some t) = false) as Hn.
  { apply bool_decide_eq_false. intros [E1 E2]. apply Ht. destruct t. cbn in *. by subst. }
  split; [|split; [|split; [|done]]].
  - unfold iscsi_timer_expired. rewrite Hn. by apply reached_spec.
  - intros Hle. unfold iscsi_timer_msecs_until. rewrite Hn, reached_spec by done.
    by rewrite bool_decide_eq_true_2.
  - intros Hlt. rewrite msecs_until_nearest; [|done..| |done].
    + split; [done|]. pose proof (Z.div_mod (usecs t - usecs now + 500) 1000).
      pose proof (Z.mod_pos_bound (usecs t - usecs now + 500) 1000). lia.
    + rewrite reached_spec by done. apply bool_decide_eq_false. lia.
Qed.

Lemma timer_correct_witness :
  iscsi_timer_msecs_until (mk_timeval 7 999600) (Some (iscsi_timer_set (mk_timeval 5 400) 3)) = 1%Z /\
  iscsi_timer_expired (mk_timeval 8 400) (Some (iscsi_timer_set (mk_timeval 5 400) 3)) = true.
Proof.
  destruct (timer_correct (mk_timeval 7 999600) (iscsi_timer_set (mk_timeval 5 400) 3))
    as (_ & _ & H & _); [vm_compute; split; congruence..|discriminate|vm_compute; reflexivity|].
  destruct (timer_correct (mk_timeval 8 400) (iscsi_timer_set (mk_timeval 5 400) 3))
    as (H' & _); [vm_compute; split; congruence..|discriminate|vm_compute; reflexivity|].
  split; [|exact H']. destruct H as [H _]; [vm_compute; reflexivity|]. exact H.
Defined.
