(* ===== verification/Login.v ===== *)
(** * The login phase (usr/login.c): data and operations

    [iscsi_session] and [iscsi_conn] have the fields that the login code uses
    (usr/initiator.h).  [ISCSI_CONN_MAX] is 1, so a session has one
    connection.  [data] is the buffer of the PDU text, a [char *] into it is
    an offset.  Every function of usr/login.c is a definition of the same
    name; a long one is cut at its [else if]s. *)
From S2P Require Import Prelude CString AuthText Acl Pdu LoginText Io.
From Stdlib Require Import Ascii Lia ZArith.
From stdpp Require Import base tactics numbers list strings option.

(** ** Constants (include/iscsi_proto.h, usr/initiator.h) *)
Definition ISCSI_INITIAL_LOGIN_STAGE : Z := -1.
Definition ISCSI_SECURITY_NEGOTIATION_STAGE : Z := 0.
Definition ISCSI_OP_PARMS_NEGOTIATION_STAGE : Z := 1.
Definition ISCSI_FULL_FEATURE_PHASE : Z := 3.

Definition ISCSI_FLAG_LOGIN_TRANSIT : Z := 0x80.
Definition ISCSI_FLAG_LOGIN_CURRENT_STAGE_MASK : Z := 0x0C.
Definition ISCSI_FLAG_LOGIN_NEXT_STAGE_MASK : Z := 0x03.

Definition ISCSI_DRAFT20_VERSION : Z := 0.
Definition ISCSI_LISTEN_PORT : Z := 3260.
Definition ISCSI_OP_LOGIN : Z := 0x03.
Definition ISCSI_OP_IMMEDIATE : Z := 0x40.
Definition ISCSI_OP_LOGIN_RSP : Z := 0x23.
Definition ISCSI_STATUS_CLS_SUCCESS : Z := 0.
Definition ISCSI_STATUS_CLS_REDIRECT : Z := 1.
Definition ISCSI_STATUS_CLS_INITIATOR_ERR : Z := 2.
Definition ISCSI_DEF_MAX_RECV_SEG_LEN : Z := 8192.

Definition ISCSI_SESSION_TYPE_NORMAL : Z := 0.
Definition ISCSI_SESSION_TYPE_DISCOVERY : Z := 1.

Definition ISCSI_DIGEST_NONE : Z := 0.
Definition ISCSI_DIGEST_CRC32C : Z := 1.
Definition ISCSI_DIGEST_CRC32C_NONE : Z := 2.
Definition ISCSI_DIGEST_NONE_CRC32C : Z := 3.

Definition IRRELEVANT_MAXCONNECTIONS : Z := 0x01.
Definition IRRELEVANT_INITIALR2T : Z := 0x02.
Definition IRRELEVANT_IMMEDIATEDATA : Z := 0x04.
Definition IRRELEVANT_MAXBURSTLENGTH : Z := 0x08.
Definition IRRELEVANT_FIRSTBURSTLENGTH : Z := 0x10.
Definition IRRELEVANT_MAXOUTSTANDINGR2T : Z := 0x20.
Definition IRRELEVANT_DATAPDUINORDER : Z := 0x40.
Definition IRRELEVANT_DATASEQUENCEINORDER : Z := 0x80.

Inductive iscsi_login_status :=
| LOGIN_OK | LOGIN_IO_ERROR | LOGIN_FAILED | LOGIN_VERSION_MISMATCH | LOGIN_NEGOTIATION_FAILED
| LOGIN_AUTHENTICATION_FAILED | LOGIN_REDIRECTION_FAILED | LOGIN_INVALID_PDU | LOGIN_REDIRECT.

#[export] Instance login_status_eq_dec : EqDecision iscsi_login_status.
Proof. solve_decision. Defined.

(** ** Structures *)
Record iscsi_conn := mk_conn {
  current_stage : Z;
  next_stage : Z;
  partial_response : Z;
  saddr : list Z;
  login_timeout : Z;
  auth_timeout : Z;
  active_timeout : Z;
  exp_statsn : Z;
  hdrdgst_en : Z;
  datadgst_en : Z;
  max_recv_dlength : Z;
  max_xmit_dlength : Z
}.
#[export] Instance eta_conn : Eta iscsi_conn := fun c =>
  mk_conn (current_stage c) (next_stage c) (partial_response c) (saddr c) (login_timeout c)
    (auth_timeout c) (active_timeout c) (exp_statsn c) (hdrdgst_en c) (datadgst_en c)
    (max_recv_dlength c) (max_xmit_dlength c).

(** The negotiated parameters of the session. *)
Record session_params := mk_params {
  imm_data_en : Z;
  initial_r2t_en : Z;
  max_r2t : Z;
  first_burst : Z;
  max_burst : Z;
  pdu_inorder_en : Z;
  dataseq_inorder_en : Z;
  def_time2wait : Z;
  def_time2retain : Z
}.
#[export] Instance eta_params : Eta session_params := fun p =>
  mk_params (imm_data_en p) (initial_r2t_en p) (max_r2t p) (first_burst p) (max_burst p)
    (pdu_inorder_en p) (dataseq_inorder_en p) (def_time2wait p) (def_time2retain p).

(** [rdma] is [t->template->rdma], [rec_max_xmit] is
    [nrec.conn[0].iscsi.MaxXmitDataSegmentLength].  Strings are held by
    content; [session_in] are the credentials expected from the target;
    [auth_client_block] is the client that [auth_buffers[0]] points to.
    [malloc_pos] counts the calls of [malloc]; the C structure has no such
    field. *)
Record iscsi_session := mk_session {
  rdma : bool;
  use_ipc : bool;
  rec_max_xmit : Z;
  irrelevant_keys_bitmap : Z;
  cmdsn : Z;
  exp_cmdsn : Z;
  max_cmdsn : Z;
  params : session_params;
  type : Z;
  portal_group_tag : Z;
  isid : list Z;
  tsih : Z;
  target_name : list Z;
  target_alias : option (list Z);
  initiator_name : option (list Z);
  initiator_alias : option (list Z);
  auth_client_block : iscsi_acl;
  num_auth_buffers : Z;
  auth_buffers : list (option nat);
  bidirectional_auth : Z;
  s_username : list Z;
  s_password : list Z;
  s_password_length : Z;
  session_in : auth_session;
  chap_algs : list Z;
  conn : iscsi_conn;
  malloc_pos : nat
}.
#[export] Instance eta_session : Eta iscsi_session := fun s =>
  mk_session (rdma s) (use_ipc s) (rec_max_xmit s) (irrelevant_keys_bitmap s) (cmdsn s)
    (exp_cmdsn s) (max_cmdsn s) (params s) (type s) (portal_group_tag s) (isid s) (tsih s)
    (target_name s) (target_alias s) (initiator_name s) (initiator_alias s)
    (auth_client_block s) (num_auth_buffers s) (auth_buffers s) (bidirectional_auth s)
    (s_username s) (s_password s) (s_password_length s) (session_in s) (chap_algs s) (conn s)
    (malloc_pos s).

(** ** The environment

    [getaddrinfo host port]: the socket address, [None] on an error;
    [malloc k]: whether the [k]-th allocation succeeds. *)
Class LoginEnv := {
  getaddrinfo : list Z -> list Z -> option (list Z);
  malloc : nat -> bool
}.

Section Operations.
Context `{AEnv : AuthEnv} `{LEnv : LoginEnv}.

(** [num_auth_buffers > 0 ? auth_buffers[0].address : NULL]. *)
Definition auth_client_of (s : iscsi_session) : option iscsi_acl :=
  if decide (0 < num_auth_buffers s)%Z then Some (auth_client_block s) else None.

(** The client is updated in place. *)
Definition put_client (s : iscsi_session) (client : option iscsi_acl) : iscsi_session :=
  match client with
  | Some c => s <| auth_client_block := c |>
  | None => s
  end.

Definition put_conn (s : iscsi_session) (c : iscsi_conn) : iscsi_session := s <| conn := c |>.

(** ** Received text

    The result of a key handler: the login status, the session, the data and
    the text pointer. *)
Definition key_result : Type := iscsi_login_status * iscsi_session * list Z * nat.

(** [if (iscsi_find_key_value(param, text, end, &value, &value_end)) ... else ...]. *)
Definition on_key (param data : list Z) (text pdu_end : nat)
    (found : nat -> nat -> option key_result) (other : option key_result) : option key_result :=
  r ← iscsi_find_key_value param data text pdu_end;
  match r with
  | Some (value, value_end) => found value value_end
  | None => other
  end.

(** [strtoul(value, NULL, 0)]. *)
Definition key_number (data : list Z) (value : nat) : option Z :=
  s ← cstr data value; Some (strtoul s 0).1.

(** The loop of [get_auth_key_type]: [fuel] bounds the number of key types. *)
Fixpoint auth_key_loop (fuel : nat) (keytype : Z) (s : iscsi_session) (auth_client : option iscsi_acl)
    (data : list Z) (text pdu_end : nat) : option key_result :=
  match fuel with
  | O => None
  | S fuel' =>
      let '(st, keytype) := acl_get_next_key_type keytype in
      if decide (st <> AUTH_STATUS_NO_ERROR) then Some (LOGIN_NEGOTIATION_FAILED, s, data, text)
      else
        key ← acl_get_key_name keytype;
        on_key key data text pdu_end
          (fun value value_end =>
             v ← cstr data value;
             '(st, client) ← acl_recv_key_value auth_client keytype v;
             let s := put_client s client in
             if decide (st <> AUTH_STATUS_NO_ERROR) then Some (LOGIN_NEGOTIATION_FAILED, s, data, text)
             else Some (LOGIN_OK, s, data, value_end))
          (auth_key_loop fuel' keytype s auth_client data text pdu_end)
  end.

Definition get_auth_key_type (s : iscsi_session) (auth_client : option iscsi_acl) (data : list Z)
    (text pdu_end : nat) : option key_result :=
  auth_key_loop 7 AUTH_KEY_TYPE_NONE s auth_client data text pdu_end.

Definition resolve_address (host port : list Z) : option (list Z) := getaddrinfo host port.

(** [if ((p = strrchr(address, c))) { *p = NUL; p++; }]: the data and [p]. *)
Definition cut_last (data : list Z) (address : nat) (c : Z) : option (list Z * option nat) :=
  a ← cstr data address;
  match strrchr a c with
  | Some i => data ← buf_set data (address + i) NUL; Some (data, Some (address + i + 1))
  | None => Some (data, None)
  end.

(** The returned int, the session and the data. *)
Definition iscsi_update_address (s : iscsi_session) (data : list Z) (address : nat)
    : option (bool * iscsi_session * list Z) :=
  '(data, tag) ← cut_last data address (char ",");
  '(data, port) ← cut_last data address (char ":");
  port_text ← match port with
              | Some p => cstr data p
              | None => Some (fmt_d ISCSI_LISTEN_PORT)
              end;
  c ← data !! address;
  bracket ←
    (if decide (c = char "[") then
       a ← cstr data address;
       match strchr a (char "]") with
       | None => Some None
       | Some i => data ← buf_set data (address + i) NUL; Some (Some (data, S address))
       end
     else Some (Some (data, address)));
  match bracket with
  | None => Some (false, s, data)
  | Some (data, address) =>
      host ← cstr data address;
      match resolve_address host port_text with
      | None => Some (false, s, data)
      | Some addr =>
          let s := put_conn s ((conn s) <| saddr := addr |>) in
          match tag with
          | None => Some (true, s, data)
          | Some t => v ← cstr data t; Some (true, s <| portal_group_tag := atoi v |>, data)
          end
      end
  end.

(** The branch on TargetAddress, the same in both stages. *)
Definition key_address (s : iscsi_session) (data : list Z) (text : nat) (value value_end : nat)
    : option key_result :=
  '(ok, s, data) ← iscsi_update_address s data value;
  if ok : bool then Some (LOGIN_OK, s, data, value_end)
  else Some (LOGIN_REDIRECTION_FAILED, s, data, text).

(** The branch on TargetPortalGroupTag, the same in both stages. *)
Definition key_tpgt (s : iscsi_session) (data : list Z) (value value_end : nat) : option key_result :=
  n ← key_number data value;
  Some (LOGIN_OK, s <| portal_group_tag := i32 n |>, data, value_end).

(** [malloc(size + 1)], [memcpy] and the NUL: the alias, or NULL. *)
Definition set_alias (s : iscsi_session) (data : list Z) (value value_end : nat)
    : option (iscsi_session * bool) :=
  let size := value_end - value in
  let ok := malloc (malloc_pos s) in
  let s := s <| malloc_pos := S (malloc_pos s) |> in
  if ok then
    a ← buf_prefix (drop value data) size;
    Some (s <| target_alias := Some a |>, true)
  else Some (s <| target_alias := None |>, false).

Definition get_security_text_keys (s : iscsi_session) (auth_client : option iscsi_acl) (data : list Z)
    (text pdu_end : nat) : option key_result :=
  on_key (str "TargetAlias") data text pdu_end
    (fun value value_end =>
       '(s, _) ← set_alias s data value value_end;
       Some (LOGIN_OK, s, data, value_end))
  (on_key (str "TargetAddress") data text pdu_end (key_address s data text)
  (on_key (str "TargetPortalGroupTag") data text pdu_end (key_tpgt s data)
  (get_auth_key_type s auth_client data text pdu_end))).

(** ** Operational keys: [get_op_params_text_keys] *)

(** [strcmp(value, "Yes") == 0]. *)
Definition key_yes (data : list Z) (value : nat) : option Z :=
  s ← cstr data value; Some (if decide (s = str "Yes") then 1%Z else 0%Z).

(** A key that only a normal session negotiates; a discovery session marks it
    as irrelevant. *)
Definition normal_key (s : iscsi_session) (bit : Z) (data : list Z) (value_end : nat)
    (set : option iscsi_session) : option key_result :=
  s ← (if decide (type s = ISCSI_SESSION_TYPE_NORMAL) then set
       else Some (s <| irrelevant_keys_bitmap := Z.lor (irrelevant_keys_bitmap s) bit |>));
  Some (LOGIN_OK, s, data, value_end).

(** A flag set to 1 when the value is Yes. *)
Definition flag_key (s : iscsi_session) (bit : Z) (data : list Z)
    (set : Z -> session_params -> session_params) (value value_end : nat) : option key_result :=
  normal_key s bit data value_end
    (v ← key_yes data value; Some (s <| params := set v (params s) |>)).

(** A number stored in an [uint32_t]. *)
Definition number_key (s : iscsi_session) (bit : Z) (data : list Z)
    (set : Z -> session_params -> session_params) (value value_end : nat) : option key_result :=
  normal_key s bit data value_end
    (n ← key_number data value; Some (s <| params := set (u32 n) (params s) |>)).

(** Accept the key and go on. *)
Definition skip_key (s : iscsi_session) (data : list Z) (value value_end : nat) : option key_result :=
  Some (LOGIN_OK, s, data, value_end).

(** The branch on TargetAlias. *)
Definition op_alias (s : iscsi_session) (data : list Z) (value value_end : nat) : option key_result :=
  v ← buf_prefix (drop value data) (value_end - value);
  if decide (target_alias s = Some v) then Some (LOGIN_OK, s, data, value_end)
  else
    '(s, _) ← set_alias s data value value_end;
    Some (LOGIN_OK, s, data, value_end).

(** The branch on MaxRecvDataSegmentLength: a zero in the node record means to
    use what the target gave. *)
Definition op_max_recv (s : iscsi_session) (data : list Z) (value value_end : nat) : option key_result :=
  if decide (type s = ISCSI_SESSION_TYPE_DISCOVERY \/ rdma s = false) then
    n ← key_number data value;
    let tgt_max_xmit := i32 n in
    let c := conn s in
    let c := if decide (rec_max_xmit s = 0 \/ tgt_max_xmit < i32 (max_xmit_dlength c))%Z
             then c <| max_xmit_dlength := u32 tgt_max_xmit |> else c in
    Some (LOGIN_OK, put_conn s c, data, value_end)
  else Some (LOGIN_OK, s, data, value_end).

(** The branches on HeaderDigest and DataDigest: [cur] is the configured
    value, [set] stores the new one. *)
Definition digest_key (s : iscsi_session) (data : list Z) (text : nat) (cur : Z)
    (set : Z -> iscsi_conn -> iscsi_conn) (value value_end : nat) : option key_result :=
  v ← cstr data value;
  if decide (v = str "None") then
    if decide (cur <> ISCSI_DIGEST_CRC32C) then
      Some (LOGIN_OK, put_conn s (set ISCSI_DIGEST_NONE (conn s)), data, value_end)
    else Some (LOGIN_NEGOTIATION_FAILED, s, data, text)
  else if decide (v = str "CRC32C") then
    if decide (cur <> ISCSI_DIGEST_NONE) then
      Some (LOGIN_OK, put_conn s (set ISCSI_DIGEST_CRC32C (conn s)), data, value_end)
    else Some (LOGIN_NEGOTIATION_FAILED, s, data, text)
  else Some (LOGIN_NEGOTIATION_FAILED, s, data, text).

(** A key that must have one of the values [ok]; else [err] is returned. *)
Definition must_be (s : iscsi_session) (data : list Z) (text : nat) (ok : list (list Z))
    (err : iscsi_login_status) (value value_end : nat) : option key_result :=
  v ← cstr data value;
  if decide (v ∈ ok) then Some (LOGIN_OK, s, data, value_end) else Some (err, s, data, text).

(** The branch on MaxConnections. *)
Definition op_max_connections (s : iscsi_session) (data : list Z) (text value value_end : nat)
    : option key_result :=
  if decide (type s = ISCSI_SESSION_TYPE_NORMAL) then
    must_be s data text [str "1"] LOGIN_NEGOTIATION_FAILED value value_end
  else normal_key s IRRELEVANT_MAXCONNECTIONS data value_end (Some s).

(** The branch on RDMAExtensions. *)
Definition op_rdma_extensions (s : iscsi_session) (data : list Z) (text value value_end : nat)
    : option key_result :=
  if rdma s then must_be s data text [str "Yes"] LOGIN_NEGOTIATION_FAILED value value_end
  else Some (LOGIN_OK, s, data, value_end).

(** [MIN(cur, strtoul(value, NULL, 0))] on an rdma transport. *)
Definition rdma_min (s : iscsi_session) (data : list Z) (cur : Z)
    (set : Z -> iscsi_conn -> iscsi_conn) (value value_end : nat) : option key_result :=
  if rdma s then
    n ← key_number data value;
    Some (LOGIN_OK, put_conn s (set (u32 (Z.min cur n)) (conn s)), data, value_end)
  else Some (LOGIN_OK, s, data, value_end).

(** From MaxOutstandingR2T to the end. *)
Definition op_keys_4 (s : iscsi_session) (data : list Z) (text pdu_end : nat) : option key_result :=
  on_key (str "MaxOutstandingR2T") data text pdu_end
    (number_key s IRRELEVANT_MAXOUTSTANDINGR2T data (fun n p => p <| max_r2t := n |>))
  (on_key (str "MaxConnections") data text pdu_end (op_max_connections s data text)
  (on_key (str "ErrorRecoveryLevel") data text pdu_end
    (must_be s data text [str "0"] LOGIN_NEGOTIATION_FAILED)
  (on_key (str "RDMAExtensions") data text pdu_end (op_rdma_extensions s data text)
  (on_key (str "InitiatorRecvDataSegmentLength") data text pdu_end
    (rdma_min s data (max_recv_dlength (conn s)) (fun n c => c <| max_recv_dlength := n |>))
  (on_key (str "TargetRecvDataSegmentLength") data text pdu_end
    (rdma_min s data (max_xmit_dlength (conn s)) (fun n c => c <| max_xmit_dlength := n |>))
  (on_key (str "X-com.cisco.protocol") data text pdu_end
    (must_be s data text [str "NotUnderstood"; str "Reject"; str "Irrelevant"; str "draft20"]
       LOGIN_VERSION_MISMATCH)
  (on_key (str "X-com.cisco.PingTimeout") data text pdu_end (skip_key s data)
  (on_key (str "X-com.cisco.sendAsyncText") data text pdu_end (skip_key s data)
  (Some (LOGIN_NEGOTIATION_FAILED, s, data, text)))))))))).

(** From DefaultTime2Wait to DataSequenceInOrder. *)
Definition op_keys_3 (s : iscsi_session) (data : list Z) (text pdu_end : nat) : option key_result :=
  on_key (str "DefaultTime2Wait") data text pdu_end
    (fun value value_end =>
       n ← key_number data value;
       Some (LOGIN_OK, s <| params := (params s) <| def_time2wait := u32 n |> |>, data, value_end))
  (on_key (str "DefaultTime2Retain") data text pdu_end
    (fun value value_end =>
       n ← key_number data value;
       Some (LOGIN_OK, s <| params := (params s) <| def_time2retain := u32 n |> |>, data, value_end))
  (on_key (str "OFMarker") data text pdu_end (skip_key s data)
  (on_key (str "OFMarkInt") data text pdu_end (skip_key s data)
  (on_key (str "IFMarker") data text pdu_end (skip_key s data)
  (on_key (str "IFMarkInt") data text pdu_end (skip_key s data)
  (on_key (str "DataPDUInOrder") data text pdu_end
    (flag_key s IRRELEVANT_DATAPDUINORDER data (fun v p => p <| pdu_inorder_en := v |>))
  (on_key (str "DataSequenceInOrder") data text pdu_end
    (flag_key s IRRELEVANT_DATASEQUENCEINORDER data (fun v p => p <| dataseq_inorder_en := v |>))
  (op_keys_4 s data text pdu_end)))))))).

(** HeaderDigest and DataDigest. *)
Definition op_keys_2 (s : iscsi_session) (data : list Z) (text pdu_end : nat) : option key_result :=
  on_key (str "HeaderDigest") data text pdu_end
    (digest_key s data text (hdrdgst_en (conn s)) (fun d c => c <| hdrdgst_en := d |>))
  (on_key (str "DataDigest") data text pdu_end
    (digest_key s data text (datadgst_en (conn s)) (fun d c => c <| datadgst_en := d |>))
  (op_keys_3 s data text pdu_end)).

(** From InitialR2T to MaxBurstLength. *)
Definition op_keys_1 (s : iscsi_session) (data : list Z) (text pdu_end : nat) : option key_result :=
  on_key (str "InitialR2T") data text pdu_end
    (flag_key s IRRELEVANT_INITIALR2T data (fun v p => p <| initial_r2t_en := v |>))
  (on_key (str "ImmediateData") data text pdu_end
    (flag_key s IRRELEVANT_IMMEDIATEDATA data (fun v p => p <| imm_data_en := v |>))
  (on_key (str "MaxRecvDataSegmentLength") data text pdu_end (op_max_recv s data)
  (on_key (str "FirstBurstLength") data text pdu_end
    (number_key s IRRELEVANT_FIRSTBURSTLENGTH data (fun n p => p <| first_burst := n |>))
  (on_key (str "MaxBurstLength") data text pdu_end
    (number_key s IRRELEVANT_MAXBURSTLENGTH data (fun n p => p <| max_burst := n |>))
  (op_keys_2 s data text pdu_end))))).

Definition get_op_params_text_keys (s : iscsi_session) (data : list Z) (text pdu_end : nat)
    : option key_result :=
  on_key (str "TargetAlias") data text pdu_end (op_alias s data)
  (on_key (str "TargetAddress") data text pdu_end (key_address s data text)
  (on_key (str "TargetPortalGroupTag") data text pdu_end (key_tpgt s data)
  (op_keys_1 s data text pdu_end))).

(** ** The login response *)

(** The data segment length and the T bit of a response. *)
Definition rsp_transit (login_rsp : list Z) : Z := Z.land (hdr8 login_rsp OFF_flags) ISCSI_FLAG_LOGIN_TRANSIT.

Definition rsp_current_stage (login_rsp : list Z) : Z :=
  Z.shiftr (Z.land (hdr8 login_rsp OFF_flags) ISCSI_FLAG_LOGIN_CURRENT_STAGE_MASK) 2.

Definition rsp_next_stage (login_rsp : list Z) : Z :=
  Z.land (hdr8 login_rsp OFF_flags) ISCSI_FLAG_LOGIN_NEXT_STAGE_MASK.

(** The status and the session. *)
Definition check_security_stage_status (s : iscsi_session) (auth_client : option iscsi_acl)
    : option (iscsi_login_status * iscsi_session) :=
  '(st, client) ← acl_recv_end auth_client (session_in s);
  let s := put_client s client in
  match st with
  | AUTH_STATUS_CONTINUE | AUTH_STATUS_PASS => Some (LOGIN_OK, s)
  | _ =>
      '(_, client) ← acl_get_dbg_status client;
      Some (LOGIN_AUTHENTICATION_FAILED, put_client s client)
  end.

(** [while ((text < end) && ( *text == NUL)) text++], over [n = end - text] bytes. *)
Fixpoint skip_nuls (n : nat) (data : list Z) (text : nat) : option nat :=
  match n with
  | O => Some text
  | S n' =>
      b ← data !! text;
      if decide (b = NUL) then skip_nuls n' data (S text) else Some text
  end.

(** The loop that scans the text data. *)
Fixpoint scan_text (fuel : nat) (s : iscsi_session) (data : list Z) (text pdu_end : nat)
    : option (iscsi_login_status * iscsi_session * list Z) :=
  if decide (pdu_end <= text) then Some (LOGIN_OK, s, data)
  else
    match fuel with
    | O => None
    | S fuel' =>
        text ← skip_nuls (pdu_end - text) data text;
        if decide (pdu_end <= text) then Some (LOGIN_OK, s, data)
        else
          let stage := current_stage (conn s) in
          if decide (stage = ISCSI_SECURITY_NEGOTIATION_STAGE) then
            '(ret, s, data, text) ← get_security_text_keys s (auth_client_of s) data text pdu_end;
            if decide (ret <> LOGIN_OK) then Some (ret, s, data)
            else scan_text fuel' s data text pdu_end
          else if decide (stage = ISCSI_OP_PARMS_NEGOTIATION_STAGE) then
            '(ret, s, data, text) ← get_op_params_text_keys s data text pdu_end;
            if decide (ret <> LOGIN_OK) then Some (ret, s, data)
            else scan_text fuel' s data text pdu_end
          else Some (LOGIN_FAILED, s, data)
    end.

(** The sanity checks of a response whose status is success. *)
Definition check_login_rsp (s : iscsi_session) (login_rsp : list Z) : iscsi_login_status :=
  if decide (hdr8 login_rsp OFF_status_class = ISCSI_STATUS_CLS_SUCCESS) then
    if decide (hdr8 login_rsp OFF_active_version <> ISCSI_DRAFT20_VERSION) then LOGIN_VERSION_MISMATCH
    else if decide (rsp_current_stage login_rsp <> current_stage (conn s)) then LOGIN_INVALID_PDU
    else if truth (rsp_transit login_rsp) &&
            bool_decide (rsp_next_stage login_rsp <= current_stage (conn s))%Z then LOGIN_INVALID_PDU
    else LOGIN_OK
  else LOGIN_OK.

(** [acl_recv_begin] and [acl_recv_transit_bit], in the security stage. *)
Definition begin_security (s : iscsi_session) (transit : Z) : option (iscsi_login_status * iscsi_session) :=
  if decide (current_stage (conn s) = ISCSI_SECURITY_NEGOTIATION_STAGE) then
    '(st, client) ← acl_recv_begin (auth_client_of s);
    let s := put_client s client in
    if decide (st <> AUTH_STATUS_NO_ERROR) then Some (LOGIN_FAILED, s)
    else
      '(st, client) ← acl_recv_transit_bit client transit;
      let s := put_client s client in
      if decide (st <> AUTH_STATUS_NO_ERROR) then Some (LOGIN_FAILED, s) else Some (LOGIN_OK, s)
  else Some (LOGIN_OK, s).

(** The PDU fields are recorded and the stage advances. *)
Definition record_rsp (s : iscsi_session) (login_rsp : list Z) : iscsi_session :=
  let s := s <| tsih := hdr16 login_rsp OFF_tsih |> <| exp_cmdsn := hdr32 login_rsp OFF_exp_cmdsn |>
             <| max_cmdsn := hdr32 login_rsp OFF_max_cmdsn |> in
  let s := if decide (hdr8 login_rsp OFF_status_class = ISCSI_STATUS_CLS_SUCCESS)
           then put_conn s ((conn s) <| exp_statsn := u32 (hdr32 login_rsp OFF_statsn + 1) |>)
           else s in
  if truth (rsp_transit login_rsp) then
    (put_conn s ((conn s) <| partial_response := 0%Z |> <| current_stage := rsp_next_stage login_rsp |>))
      <| irrelevant_keys_bitmap := 0%Z |>
  else put_conn s ((conn s) <| partial_response := 1%Z |>).

Definition iscsi_process_login_response (s : iscsi_session) (login_rsp data : list Z)
    (max_data_length : Z) : option (iscsi_login_status * iscsi_session * list Z) :=
  let pdu_end := Z.to_nat (ntoh24 login_rsp + 1) in
  if decide (max_data_length <= ntoh24 login_rsp + 1)%Z then Some (LOGIN_FAILED, s, data)
  else
    data ← buf_set data pdu_end NUL;
    let chk := check_login_rsp s login_rsp in
    if decide (chk <> LOGIN_OK) then Some (chk, s, data)
    else
      '(ret, s) ← begin_security s (rsp_transit login_rsp);
      if decide (ret <> LOGIN_OK) then Some (ret, s, data)
      else
        '(ret, s, data) ← scan_text pdu_end s data 0 pdu_end;
        if decide (ret <> LOGIN_OK) then Some (ret, s, data)
        else
          '(ret, s) ← (if decide (current_stage (conn s) = ISCSI_SECURITY_NEGOTIATION_STAGE)
                       then check_security_stage_status s (auth_client_of s)
                       else Some (LOGIN_OK, s));
          if decide (ret <> LOGIN_OK) then Some (ret, s, data)
          else Some (LOGIN_OK, record_rsp s login_rsp, data).

End Operations.
