(* ===== verification/LoginReq.v ===== *)
(** * The login phase (usr/login.c): requests and the driver

    The request side of usr/login.c: the text of the two negotiation stages,
    the login PDU, the preparation of the authentication client, and
    [iscsi_login_begin], [iscsi_login_req], [iscsi_login_rsp], [iscsi_login].
    A filling function returns its int as a bool, the header and the data. *)
From S2P Require Import Prelude CString AuthText Acl Pdu LoginText Io Timer Login.
From Stdlib Require Import Ascii Lia ZArith.
From stdpp Require Import base tactics numbers list strings option.

Definition EIO : Z := 5.
Definition POLLIN : Z := 1.
Definition POLLPRI : Z := 2.
Definition POLLERR : Z := 8.
Definition POLLHUP : Z := 16.
Definition POLLNVAL : Z := 32.

(** [c->data] is [c->buffer], [c->login_rsp] is [c->pdu], [c->cid] is 0.
    [ctx_auth_client] tells whether [c->auth_client] is not NULL. *)
Record login_context := mk_ctx {
  buffer : list Z;
  bufsize : Z;
  status_class : Z;
  status_detail : Z;
  ctx_auth_client : bool;
  pdu : list Z;
  received_pdu : Z;
  max_data_length : Z;
  timeout : Z;
  final : Z;
  ret : iscsi_login_status
}.
#[export] Instance eta_ctx : Eta login_context := fun c =>
  mk_ctx (buffer c) (bufsize c) (status_class c) (status_detail c) (ctx_auth_client c) (pdu c)
    (received_pdu c) (max_data_length c) (timeout c) (final c) (ret c).

(** ** Text of the operational stage *)

(** [session->flag ? "Yes" : "No"]. *)
Definition yes_no (z : Z) : list Z := if truth z then str "Yes" else str "No".

(** [sprintf(value, "%d", n)] of an [uint32_t]. *)
Definition sprintf_d (n : Z) : list Z := fmt_d (i32 n).

Definition add_params_normal_session (s : iscsi_session) (pdu data : list Z) (max_data_length : Z)
    : option (bool * list Z * list Z) :=
  let p := params s in
  add_texts pdu data max_data_length
    [ (str "InitialR2T", yes_no (initial_r2t_en p));
      (str "ImmediateData", yes_no (imm_data_en p));
      (str "MaxBurstLength", sprintf_d (max_burst p));
      (str "FirstBurstLength", sprintf_d (first_burst p));
      (str "MaxOutstandingR2T", sprintf_d (max_r2t p));
      (str "MaxConnections", str "1");
      (str "DataPDUInOrder", str "Yes");
      (str "DataSequenceInOrder", str "Yes") ].

Definition add_params_transport_specific (s : iscsi_session) (pdu data : list Z) (max_data_length : Z)
    : option (bool * list Z * list Z) :=
  if decide (type s = ISCSI_SESSION_TYPE_DISCOVERY \/ rdma s = false) then
    add_texts pdu data max_data_length
      [ (str "MaxRecvDataSegmentLength", sprintf_d (max_recv_dlength (conn s))) ]
  else
    add_texts pdu data max_data_length
      [ (str "InitiatorRecvDataSegmentLength", sprintf_d (max_recv_dlength (conn s)));
        (str "TargetRecvDataSegmentLength", sprintf_d (max_xmit_dlength (conn s)));
        (str "RDMAExtensions", str "Yes") ].

(** The keys of the bitmap, in the order in which they are answered. *)
Definition irrelevant_table : list (Z * list Z) :=
  [ (IRRELEVANT_MAXCONNECTIONS, str "MaxConnections");
    (IRRELEVANT_INITIALR2T, str "InitialR2T");
    (IRRELEVANT_IMMEDIATEDATA, str "ImmediateData");
    (IRRELEVANT_MAXBURSTLENGTH, str "MaxBurstLength");
    (IRRELEVANT_FIRSTBURSTLENGTH, str "FirstBurstLength");
    (IRRELEVANT_MAXOUTSTANDINGR2T, str "MaxOutstandingR2T");
    (IRRELEVANT_DATAPDUINORDER, str "DataPDUInOrder");
    (IRRELEVANT_DATASEQUENCEINORDER, str "DataSequenceInOrder") ].

Definition irrelevant_texts (bitmap : Z) : list (list Z * list Z) :=
  (fun e => (e.2, str "Irrelevant")) <$>
    List.filter (fun e => truth (Z.land bitmap e.1)) irrelevant_table.

Definition check_irrelevant_keys (s : iscsi_session) (pdu data : list Z) (max_data_length : Z)
    : option (bool * list Z * list Z) :=
  add_texts pdu data max_data_length (irrelevant_texts (irrelevant_keys_bitmap s)).

(** The switch, the same for both digests. *)
Definition digest_text (digest : Z) : list Z :=
  if decide (digest = ISCSI_DIGEST_NONE) then str "None"
  else if decide (digest = ISCSI_DIGEST_CRC32C) then str "CRC32C"
  else if decide (digest = ISCSI_DIGEST_CRC32C_NONE) then str "CRC32C,None"
  else str "None,CRC32C".

Definition fill_crc_digest_text (c : iscsi_conn) (pdu data : list Z) (max_data_length : Z)
    : option (bool * list Z * list Z) :=
  add_texts pdu data max_data_length
    [ (str "HeaderDigest", digest_text (hdrdgst_en c)); (str "DataDigest", digest_text (datadgst_en c)) ].

(** [if (!f(...)) return 0; ...]. *)
Definition and_fill (r : option (bool * list Z * list Z))
    (k : list Z -> list Z -> option (bool * list Z * list Z)) : option (bool * list Z * list Z) :=
  '(ok, pdu, data) ← r;
  if ok : bool then k pdu data else Some (false, pdu, data).

(** The keys offered the first time in the stage, after the digests. *)
Definition fill_op_offer (s : iscsi_session) (pdu data : list Z) (max_data_length : Z)
    : option (bool * list Z * list Z) :=
  and_fill
    (add_texts pdu data max_data_length
       [ (str "DefaultTime2Wait", sprintf_d (def_time2wait (params s)));
         (str "DefaultTime2Retain", sprintf_d (def_time2retain (params s)));
         (str "IFMarker", str "No"); (str "OFMarker", str "No");
         (str "ErrorRecoveryLevel", str "0") ])
    (fun pdu data =>
       if decide (type s = ISCSI_SESSION_TYPE_NORMAL) then
         and_fill (add_params_normal_session s pdu data max_data_length)
           (fun pdu data => add_params_transport_specific s pdu data max_data_length)
       else
         add_texts pdu data max_data_length
           [ (str "MaxRecvDataSegmentLength", sprintf_d (max_recv_dlength (conn s))) ]).

(** The stages set on entry; [*transit] is set to 1. *)
Definition fill_op_stage (s : iscsi_session) : iscsi_session :=
  put_conn s ((conn s) <| current_stage := ISCSI_OP_PARMS_NEGOTIATION_STAGE |>
                       <| next_stage := ISCSI_FULL_FEATURE_PHASE |>).

Definition fill_op_params_text (s : iscsi_session) (pdu data : list Z) (max_data_length : Z)
    : option (bool * iscsi_session * list Z * list Z) :=
  let s := fill_op_stage s in
  let is_rdma := bool_decide (type s = ISCSI_SESSION_TYPE_NORMAL) && rdma s in
  '(ok, pdu, data) ←
    (if negb (truth (partial_response (conn s))) then
       and_fill (if is_rdma then Some (true, pdu, data)
                 else fill_crc_digest_text (conn s) pdu data max_data_length)
         (fun pdu data => fill_op_offer s pdu data max_data_length)
     else
       and_fill (check_irrelevant_keys s pdu data max_data_length)
         (fun pdu data => if is_rdma then fill_crc_digest_text (conn s) pdu data max_data_length
                          else Some (true, pdu, data)));
  Some (ok, s, pdu, data).

Section Requests.
Context `{AEnv : AuthEnv} `{LEnv : LoginEnv}.

(** ** Text of the security stage *)

(** [max_length] is an [unsigned int]. *)
Definition enum_auth_keys (auth_client : option iscsi_acl) (pdu data : list Z) (max_data_length keytype : Z)
    : option (option iscsi_acl * list Z * list Z) :=
  let key := default [] (acl_get_key_name keytype) in
  let key_length := length key in
  let pdu_length := ntoh24 pdu in
  let auth_value := Z.to_nat pdu_length + key_length + 1 in
  let max_length := u32 (max_data_length - (pdu_length + Z.of_nat key_length + 1)) in
  '(rc, present, data, client) ←
    acl_send_key_val auth_client keytype false data auth_value (Z.to_nat max_length);
  if decide (rc = AUTH_STATUS_NO_ERROR /\ present = true) then
    data ← buf_write data (Z.to_nat pdu_length) key;
    data ← buf_set data (Z.to_nat pdu_length + key_length) ISCSI_TEXT_SEPARATOR;
    v ← cstr data auth_value;
    Some (client,
          hton24 pdu (pdu_length + Z.of_nat key_length + 1 + (Z.of_nat (length v) + 1)), data)
  else Some (client, pdu, data).

(** [while (acl_get_next_key_type(&keytype) == AUTH_STATUS_NO_ERROR)]: [fuel]
    bounds the number of key types. *)
Fixpoint enum_keys (fuel : nat) (keytype : Z) (auth_client : option iscsi_acl) (pdu data : list Z)
    (max_data_length : Z) : option (option iscsi_acl * list Z * list Z) :=
  match fuel with
  | O => None
  | S fuel' =>
      let '(st, keytype) := acl_get_next_key_type keytype in
      if decide (st <> AUTH_STATUS_NO_ERROR) then Some (auth_client, pdu, data)
      else
        '(auth_client, pdu, data) ← enum_auth_keys auth_client pdu data max_data_length keytype;
        enum_keys fuel' keytype auth_client pdu data max_data_length
  end.

(** The stage that the security stage asks for. *)
Definition security_next_stage (s : iscsi_session) (transit : bool) : Z :=
  if transit then
    if decide (type s = ISCSI_SESSION_TYPE_DISCOVERY) then
      if decide (hdrdgst_en (conn s) <> ISCSI_DIGEST_NONE \/ datadgst_en (conn s) <> ISCSI_DIGEST_NONE \/
                 max_recv_dlength (conn s) <> ISCSI_DEF_MAX_RECV_SEG_LEN)
      then ISCSI_OP_PARMS_NEGOTIATION_STAGE else ISCSI_FULL_FEATURE_PHASE
    else ISCSI_OP_PARMS_NEGOTIATION_STAGE
  else ISCSI_SECURITY_NEGOTIATION_STAGE.

(** The int, [*transit], the session, the header and the data. *)
Definition fill_security_params_text (s : iscsi_session) (pdu : list Z) (auth_client : option iscsi_acl)
    (data : list Z) (max_data_length : Z) (transit : bool)
    : option (bool * bool * iscsi_session * list Z * list Z) :=
  let '(rc, transit, client) := acl_send_transit_bit auth_client transit in
  let s := put_client s client in
  if decide (rc <> AUTH_STATUS_NO_ERROR) then Some (false, transit, s, pdu, data)
  else
    let s := put_conn s ((conn s) <| next_stage := security_next_stage s transit |>) in
    '(client, pdu, data) ← enum_keys 7 AUTH_KEY_TYPE_NONE client pdu data max_data_length;
    Some (true, transit, put_client s client, pdu, data).

(** ** The login PDU *)

(** The fixed fields of the header. *)
Definition login_header (s : iscsi_session) : list Z :=
  let h := hdr_put zero_hdr OFF_opcode [Z.lor ISCSI_OP_LOGIN ISCSI_OP_IMMEDIATE] in
  let h := hdr_put h OFF_isid (isid s) in
  let h := hdr_put h OFF_cmdsn (be_bytes 4 (cmdsn s)) in
  hdr_put h OFF_exp_statsn (be_bytes 4 (exp_statsn (conn s))).

(** A string pointer that is not NULL and does not point to an empty string. *)
Definition non_empty (o : option (list Z)) : option (list Z) :=
  match o with
  | Some [] | None => None
  | Some (c :: l) => Some (c :: l)
  end.

(** The keys of the first PDU; [None] when there is no initiator name. *)
Definition first_texts (s : iscsi_session) : option (list (list Z * list Z)) :=
  match non_empty (initiator_name s) with
  | None => None
  | Some name =>
      Some ((str "InitiatorName", name)
        :: match non_empty (initiator_alias s) with
           | Some alias => [(str "InitiatorAlias", alias)]
           | None => []
           end
        ++ (if decide (target_name s <> [] /\ type s = ISCSI_SESSION_TYPE_NORMAL)
            then [(str "TargetName", target_name s)] else [])
        ++ [(str "SessionType", if decide (type s = ISCSI_SESSION_TYPE_DISCOVERY)
                                then str "Discovery" else str "Normal")])
  end.

(** The first PDU: its keys and the stage to start in. *)
Definition first_pdu (s : iscsi_session) (pdu data : list Z) (max_data_length : Z)
    : option (bool * iscsi_session * list Z * list Z) :=
  match first_texts s with
  | None => Some (false, s, pdu, data)
  | Some texts =>
      '(ok, pdu, data) ← add_texts pdu data max_data_length texts;
      if ok : bool then
        let stage := if auth_client_of s then ISCSI_SECURITY_NEGOTIATION_STAGE
                     else ISCSI_OP_PARMS_NEGOTIATION_STAGE in
        Some (true, put_conn s ((conn s) <| current_stage := stage |> <| next_stage := stage |>), pdu, data)
      else Some (false, s, pdu, data)
  end.

(** The switch on the stage: the int, [transit], the session, the header and the data. *)
Definition fill_stage (s : iscsi_session) (pdu data : list Z) (max_data_length : Z)
    : option (bool * bool * iscsi_session * list Z * list Z) :=
  let stage := current_stage (conn s) in
  if decide (stage = ISCSI_OP_PARMS_NEGOTIATION_STAGE) then
    '(ok, s, pdu, data) ← fill_op_params_text s pdu data max_data_length;
    Some (ok, true, s, pdu, data)
  else if decide (stage = ISCSI_SECURITY_NEGOTIATION_STAGE) then
    fill_security_params_text s pdu (auth_client_of s) data max_data_length false
  else Some (false, false, s, pdu, data).

Definition login_flags (c : iscsi_conn) (transit : bool) : Z :=
  let flags := u8 (Z.lor 0 (Z.shiftl (current_stage c) 2)) in
  if transit then u8 (Z.lor (u8 (Z.lor flags (next_stage c))) ISCSI_FLAG_LOGIN_TRANSIT)
  else u8 (Z.lor flags (current_stage c)).

(** The int, the session, the header and the data. *)
Definition iscsi_make_login_pdu (s : iscsi_session) (data : list Z) (max_data_length : Z)
    : option (bool * iscsi_session * list Z * list Z) :=
  let hdr := login_header s in
  '(ok, s, hdr, data) ←
    (if decide (current_stage (conn s) = ISCSI_INITIAL_LOGIN_STAGE)
     then first_pdu s hdr data max_data_length else Some (true, s, hdr, data));
  if negb ok then Some (false, s, hdr, data)
  else
    '(ok, transit, s, hdr, data) ← fill_stage s hdr data max_data_length;
    if negb ok then Some (false, s, hdr, data)
    else Some (true, s, hdr_put hdr OFF_flags [login_flags (conn s) transit], data).

(** ** Preparing the authentication client *)

(** [end:] the client is finished, the login has failed. *)
Definition auth_end (s : iscsi_session) (client : option iscsi_acl)
    : option (iscsi_login_status * iscsi_session) :=
  '(_, client) ← acl_finish client;
  Some (LOGIN_FAILED, put_client s client).

(** [if (cond && f(auth_client, ...) != AUTH_STATUS_NO_ERROR) goto end;]. *)
Definition auth_step (s : iscsi_session) (client : option iscsi_acl) (cond : bool)
    (f : option iscsi_acl -> option (auth_status * option iscsi_acl))
    (k : option iscsi_acl -> option (iscsi_login_status * iscsi_session))
    : option (iscsi_login_status * iscsi_session) :=
  if cond then
    '(st, client) ← f client;
    if decide (st <> AUTH_STATUS_NO_ERROR) then auth_end s client else k client
  else k client.

(** The configuration calls of [check_for_authentication], after [acl_init]. *)
Definition configure_client (s : iscsi_session) (client : option iscsi_acl)
    : option (iscsi_login_status * iscsi_session) :=
  p0 ← s_password s !! 0;
  let algs := acl_init_chap_digests (take AUTH_CHAP_ALG_MAX_COUNT (chap_algs s)) in
  auth_step s client (bool_decide (s_username s <> []))
    (fun c => acl_set_user_name c (Some (s_username s))) (fun client =>
  auth_step s client (bool_decide (p0 <> NUL))
    (fun c => acl_set_passwd c (s_password s) (Z.to_nat (u32 (s_password_length s)))) (fun client =>
  auth_step s client true
    (fun c => acl_set_chap_alg_list c (length algs) algs) (fun client =>
  auth_step s client true (fun c => acl_set_ip_sec c 1) (fun client =>
  auth_step s client true (fun c => acl_set_auth_rmt c (bidirectional_auth s)) (fun client =>
  Some (LOGIN_OK, put_client s client)))))).

(** The assignment to the parameter [auth_client] stays inside the function. *)
Definition check_for_authentication (s : iscsi_session) : option (iscsi_login_status * iscsi_session) :=
  '(st, client) ← acl_init TYPE_INITIATOR (num_auth_buffers s) (auth_buffers s) (auth_client_block s);
  let s := s <| auth_client_block := client |> in
  if decide (st <> AUTH_STATUS_NO_ERROR) then Some (LOGIN_FAILED, s)
  else configure_client s (Some client).

(** ** The exchange *)

(** [check_status_login_response]: the status, [*final], the session and the data. *)
Definition check_status_login_response (s : iscsi_session) (login_rsp data : list Z)
    (max_data_length final : Z) : option (iscsi_login_status * Z * iscsi_session * list Z) :=
  let class := hdr8 login_rsp OFF_status_class in
  if decide (class = ISCSI_STATUS_CLS_SUCCESS) then
    '(ret, s, data) ← iscsi_process_login_response s login_rsp data max_data_length;
    Some (ret, (if decide (ret <> LOGIN_OK) then 1%Z else final), s, data)
  else if decide (class = ISCSI_STATUS_CLS_REDIRECT) then
    '(_, s, data) ← iscsi_process_login_response s login_rsp data max_data_length;
    Some (LOGIN_REDIRECT, 1%Z, s, data)
  else Some (LOGIN_OK, 1%Z, s, data).

(** [done:] the client is finished if the context has it. *)
Definition ctx_finish (s : iscsi_session) (c : login_context) : option (iscsi_session * login_context) :=
  if ctx_auth_client c then
    '(st, client) ← acl_finish (Some (auth_client_block s));
    let s := put_client s client in
    Some (s, if decide (st <> AUTH_STATUS_NO_ERROR /\ ret c = LOGIN_OK) then c <| ret := LOGIN_FAILED |> else c)
  else Some (s, c).

(** The returned int, the session and the context. *)
Definition iscsi_login_begin (s : iscsi_session) (c : login_context)
    : option (Z * iscsi_session * login_context) :=
  let c := c <| ctx_auth_client := false |> <| received_pdu := 0%Z |> <| timeout := 0%Z |>
             <| final := 0%Z |> <| ret := LOGIN_FAILED |> in
  let s := s <| cmdsn := 1%Z |> <| exp_cmdsn := 1%Z |> <| max_cmdsn := 1%Z |> in
  let s := put_conn s ((conn s) <| current_stage := ISCSI_INITIAL_LOGIN_STAGE |>
                                <| partial_response := 0%Z |>) in
  if decide (0 < num_auth_buffers s)%Z then
    '(st, s) ← check_for_authentication s;
    Some ((if decide (st <> LOGIN_OK) then 1%Z else 0%Z), s, c <| ret := st |>)
  else Some (0%Z, s, c).

(** The returned int, the session, the context, the bytes put on the wire. *)
Definition iscsi_login_req (s : iscsi_session) (c : login_context) (net : list write_event) (end_rc : Z)
    : option (Z * iscsi_session * login_context * list Z) :=
  buf ← buf_write (buffer c) 0 (replicate (Z.to_nat (bufsize c)) 0%Z);
  let secs :=
    if decide (received_pdu c <> 0 /\ current_stage (conn s) = ISCSI_SECURITY_NEGOTIATION_STAGE)%Z
    then auth_timeout (conn s) else login_timeout (conn s) in
  let c := c <| final := 0%Z |> <| ret := LOGIN_FAILED |> <| max_data_length := bufsize c |>
             <| timeout := secs |> in
  '(ok, s, hdr, data) ← iscsi_make_login_pdu s buf (max_data_length c);
  let c := c <| pdu := hdr |> <| buffer := data |> in
  if negb ok then '(s, c) ← ctx_finish s c; Some (1%Z, s, c, [])
  else
    '(ok, out, _) ← iscsi_io_send_pdu (use_ipc s) end_rc hdr data net;
    if negb ok then '(s, c) ← ctx_finish s (c <| ret := LOGIN_IO_ERROR |>); Some (1%Z, s, c, out)
    else Some (0%Z, s, c, out).

(** [goto done] with the result [err]. *)
Definition rsp_done (s : iscsi_session) (c : login_context) (err : Z) (net : list read_event)
    : option (Z * iscsi_session * login_context * list read_event) :=
  '(s, c) ← ctx_finish s c; Some (err, s, c, net).

(** The part after a PDU was received. *)
Definition handle_rsp (s : iscsi_session) (c : login_context) (net : list read_event)
    : option (Z * iscsi_session * login_context * list read_event) :=
  let c := c <| received_pdu := 1%Z |> in
  let opcode := hdr8 (pdu c) OFF_opcode in
  if decide (opcode = Z.lor ISCSI_OP_LOGIN_RSP 0xC0) then
    rsp_done s (c <| ret := LOGIN_VERSION_MISMATCH |>) (- EIO) net
  else if decide (opcode <> ISCSI_OP_LOGIN_RSP) then
    rsp_done s (c <| ret := LOGIN_INVALID_PDU |>) (- EIO) net
  else
    let c := c <| status_class := hdr8 (pdu c) OFF_status_class |>
               <| status_detail := hdr8 (pdu c) OFF_status_detail |> in
    '(st, fin, s, data) ←
      check_status_login_response s (pdu c) (buffer c) (max_data_length c) (final c);
    let c := c <| ret := st |> <| final := fin |> <| buffer := data |> in
    if truth fin then rsp_done s c (- EIO) net else Some (0%Z, s, c, net).

(** The returned int, the session, the context and the events left. *)
Definition iscsi_login_rsp (s : iscsi_session) (c : login_context) (ipc : ipc_results)
    (net : list read_event) : option (Z * iscsi_session * login_context * list read_event) :=
  '(st, hdr, data, net) ← iscsi_io_recv_pdu (use_ipc s) ipc (pdu c) (buffer c) (max_data_length c) net;
  let c := c <| pdu := hdr |> <| buffer := data |> in
  match st with
  | RecvAgain => rsp_done s c (- EAGAIN) net
  | RecvFailed => rsp_done s (c <| ret := LOGIN_IO_ERROR |>) (- EIO) net
  | RecvOk _ => handle_rsp s c net
  end.

(** ** The driver: [iscsi_login]

    What the system does in one iteration: the results of the [writev]s, the
    clock when the timer is set, and for each [poll] its result, the clock
    after it and what has arrived on the connection. *)
Record poll_result := mk_poll {
  poll_ret : Z; revents : Z; poll_now : timeval; arrived : list read_event; poll_ipc : ipc_results
}.

Record login_round := mk_round {
  writes : list write_event; send_rc : Z; start : timeval; polls : list poll_result
}.

(** How an iteration goes on: [iscsi_login] returns, the loop condition is
    tested, or the program is still waiting in [poll]. *)
Inductive flow := Return | Again | Waiting.

(** The arguments of a call of [iscsi_login_rsp]. *)
Record rsp_call := mk_call {
  r_session : iscsi_session; r_ctx : login_context; r_ipc : ipc_results; r_net : list read_event
}.

(** The state of the driver: the caller's [status_class] and
    [status_detail] are stored when a response was handled.  [l_calls] is the
    history of the calls of [iscsi_login_rsp], for the specifications only. *)
Record login_state := mk_login {
  l_session : iscsi_session;
  l_ctx : login_context;
  l_out : option (Z * Z);
  l_net : list read_event;
  l_calls : list rsp_call
}.

Definition stop_with (st : login_state) (r : iscsi_login_status) : option (flow * login_state) :=
  Some (Return, mk_login (l_session st) ((l_ctx st) <| ret := r |>) (l_out st) (l_net st) (l_calls st)).

(** From [repoll:] to the loop condition. *)
Fixpoint poll_rsp (timer : timeval) (ps : list poll_result) (st : login_state) : option (flow * login_state) :=
  match ps with
  | [] => Some (Waiting, st)
  | p :: ps' =>
      if iscsi_timer_expired (poll_now p) (Some timer) then stop_with st LOGIN_FAILED
      else if decide (0 < poll_ret p)%Z then
        if truth (Z.land (revents p) (Z.lor POLLIN POLLPRI)) then
          let net := l_net st ++ arrived p in
          let calls := l_calls st ++ [mk_call (l_session st) (l_ctx st) (poll_ipc p) net] in
          '(r, s, c, net) ← iscsi_login_rsp (l_session st) (l_ctx st) (poll_ipc p) net;
          if decide (r = - EAGAIN)%Z then poll_rsp timer ps' (mk_login s c (l_out st) net calls)
          else
            let st := mk_login s c (Some (status_class c, status_detail c)) net calls in
            if truth r then Some (Return, st) else Some (Again, st)
        else if truth (Z.land (revents p) POLLHUP) then stop_with st LOGIN_FAILED
        else if truth (Z.land (revents p) POLLNVAL) then stop_with st LOGIN_IO_ERROR
        else if truth (Z.land (revents p) POLLERR) then stop_with st LOGIN_IO_ERROR
        else Some (Again, st)
      else if decide (poll_ret p < 0)%Z then stop_with st LOGIN_FAILED
      else Some (Again, st)
  end.

(** One iteration: the bytes put on the wire are a further result. *)
Definition login_iter (r : login_round) (st : login_state) : option (flow * login_state * list Z) :=
  '(rc, s, c, out) ← iscsi_login_req (l_session st) (l_ctx st) (writes r) (send_rc r);
  let st := mk_login s c (l_out st) (l_net st) (l_calls st) in
  if truth rc then Some (Return, st, out)
  else
    let timer := iscsi_timer_set (start r) (active_timeout (conn s)) in
    '(f, st) ← poll_rsp timer (polls r) st;
    Some (f, st, out).

(** [do ... while (conn->current_stage != ISCSI_FULL_FEATURE_PHASE)] and the
    code after it, over the rounds that take place. *)
Fixpoint login_loop (rs : list login_round) (st : login_state) : option (flow * login_state) :=
  match rs with
  | [] => Some (Waiting, st)
  | r :: rs' =>
      '(f, st, _) ← login_iter r st;
      match f with
      | Again =>
          if decide (current_stage (conn (l_session st)) <> ISCSI_FULL_FEATURE_PHASE) then login_loop rs' st
          else
            '(s, c) ← ctx_finish (l_session st) ((l_ctx st) <| ret := LOGIN_OK |>);
            Some (Return, mk_login s c (l_out st) (l_net st) (l_calls st))
      | _ => Some (f, st)
      end
  end.

Definition iscsi_login (s : iscsi_session) (c : login_context) (buffer : list Z) (bufsize : Z)
    (rs : list login_round) : option (flow * login_state) :=
  let s := put_conn s ((conn s) <| exp_statsn := 0%Z |>) in
  let c := mk_ctx buffer bufsize (status_class c) (status_detail c) (ctx_auth_client c) (pdu c)
             (received_pdu c) (max_data_length c) (timeout c) (final c) (ret c) in
  '(rc, s, c) ← iscsi_login_begin s c;
  let st := mk_login s c None [] [] in
  if truth rc then Some (Return, st) else login_loop rs st.

End Requests.
