(* ===== verification/LoginSafety.v ===== *)
(** * Login: memory safety and the state of the authentication

    Invariants of the response side of usr/login.c: no handler leaves the PDU
    buffer, the scan of the text terminates, and what the authentication
    client has verified is tracked through every call. *)
From S2P Require Import Prelude CString AuthText Acl AclFrame AclSafety AclProtocol AclTheorems.
From S2P Require Import Pdu LoginText Io Login.
From Stdlib Require Import Ascii Lia ZArith.
From stdpp Require Import base tactics numbers list strings option.

(** ** C strings in the data of a PDU

    [text_buf] is what the text handlers rely on: the byte behind the text is
    a NUL. *)
Definition text_buf (n pdu_end : nat) (data : list Z) : Prop :=
  length data = n /\ data !! pdu_end = Some NUL.

Lemma text_buf_set n pdu_end data i :
  text_buf n pdu_end data -> i < length data -> 
  exists data', buf_set data i NUL = Some data' /\ text_buf n pdu_end data'.
Proof.
  intros [Hl Hn] Hi. eexists. split; [by apply buf_set_Some|]. split; [by rewrite length_insert|].
  destruct (decide (i = pdu_end)) as [->|]; [by apply list_lookup_insert_eq|].
  by rewrite list_lookup_insert_ne.
Qed.

Lemma strchr_bound s c i : c <> NUL -> strchr s c = Some i -> i < length s.
Proof.
  revert i. induction s as [|x s IH]; intros i Hc H; cbn in H; [by rewrite decide_False in H|].
  case_decide; [injection H as <-; cbn; lia|]. destruct (strchr s c) as [j|]; [|done].
  injection H as <-. specialize (IH j Hc eq_refl). cbn. lia.
Qed.

Lemma cut_last_safe n pdu_end data a c :
  c <> NUL -> text_buf n pdu_end data -> a <= pdu_end ->
  safe (cut_last data a c) (fun '(data', p) =>
    text_buf n pdu_end data' /\ (forall i, p = Some i -> i <= pdu_end)).
Proof.
  intros Hc Hb Ha. unfold cut_last. pose proof Hb as [Hl Hnul].
  destruct (cstr_before data pdu_end a Hnul Ha) as (s & -> & Hn & Hs). rewrite bind_ret.
  destruct (strrchr s c) as [i|] eqn:E; [|by apply safe_ret].
  apply strrchr_bound in E; [|done]. apply lookup_lt_Some in Hnul.
  destruct (text_buf_set n pdu_end data (a + i) Hb) as (d & -> & Hd); [lia|]. rewrite bind_ret.
  apply safe_ret. split; [done|]. intros ? [= <-]. lia.
Qed.

Create HintDb handlers.

Section Safety.
Context `{AEnv : AuthEnv} {AEnvOk : AuthEnvOk AEnv} `{LEnv : LoginEnv}.

(** ** Calls of the authentication client during the login

    The login uses the calls that handle messages; they keep what the client
    was configured for. *)
Definition msg_call (call : acl_call) : bool :=
  match call with
  | CRecvBegin | CRecvTransitBit _ | CRecvKeyValue _ _ | CRecvEnd _ | CSendKeyVal _ _ _ _
  | CSendTransitBit | CGetDbgStatus => true
  | _ => false
  end.

(** What holds of the client: [V] is what a PASS stands for, [rmt] whether the
    target is authenticated. *)
Record client_good (start : nat) (rmt : Z) (V : Prop) (client : option iscsi_acl) : Prop := {
  good_ok : acl_ok client;
  good_inv : client_inv start V client;
  good_node : forall c, client = Some c -> signature c = ACL_SIGNATURE ->
    node_type c = TYPE_INITIATOR /\ auth_rmt c = rmt
}.

(** The T bit of the message being received. *)
Definition transit_is (T : bool) (client : option iscsi_acl) : Prop :=
  forall c, client = Some c -> signature c = ACL_SIGNATURE -> transit_bit (recv_key_block c) = T.

Lemma client_good_mono start rmt (V V' : Prop) client :
  (V -> V') -> client_good start rmt V client -> client_good start rmt V' client.
Proof.
  intros HV []. constructor; [done| |done]. intros c E Hs. eapply ctl_inv_mono; [exact HV|by apply good_inv0].
Qed.

Lemma client_good_none start rmt V : client_good start rmt V None.
Proof. constructor; by intros. Qed.

(** A message call keeps the role and the configuration. *)
Lemma with_client_rmt client f st client' c' :
  (forall c c1, f c = Some (st, c1) -> auth_rmt c1 = auth_rmt c) ->
  with_client client f = Some (st, client') -> client' = Some c' -> signature c' = ACL_SIGNATURE ->
  exists c, client = Some c /\ signature c = ACL_SIGNATURE /\ auth_rmt c' = auth_rmt c.
Proof.
  intros Hf H -> Hs. unfold with_client in H. destruct client as [c|]; [|done]. exists c.
  case_decide as Hsig.
  - injection H as _ ->. contradiction.
  - apply bind_Some in H as ([st1 c1] & E & H). injection H as -> ->. split; [done|]. split; [|by eapply Hf].
    by destruct (decide (signature c = ACL_SIGNATURE)).
Qed.

Lemma recv_begin_rmt c : auth_rmt (recv_begin c).2 = auth_rmt c.
Proof.
  unfold recv_begin. repeat case_decide; try done; case_match; try done.
  destruct (next_phase_message (c <| recv_in_progress_flag := true |>)) as [(_ & Hr & _) _]. exact Hr.
Qed.

Lemma recv_key_value_rmt c kt v st c' : recv_key_value c kt v = Some (st, c') -> auth_rmt c' = auth_rmt c.
Proof. unfold recv_key_value. intros H. branch_opt; done. Qed.

Lemma recv_key_value_transit c kt v st c' :
  recv_key_value c kt v = Some (st, c') -> transit_bit (recv_key_block c') = transit_bit (recv_key_block c).
Proof.
  unfold recv_key_value. intros H. branch_opt; try done;
    match goal with E : acl_set_key_value _ _ _ = _ |- _ => exact (set_key_value_transit _ _ _ _ E) end.
Qed.

Lemma send_key_val_rmt client kt kp buf off max st kp' buf' client' c' :
  acl_send_key_val client kt kp buf off max = Some (st, kp', buf', client') -> client' = Some c' ->
  signature c' = ACL_SIGNATURE ->
  exists c, client = Some c /\ signature c = ACL_SIGNATURE /\ auth_rmt c' = auth_rmt c.
Proof.
  intros H -> Hs. unfold acl_send_key_val in H. destruct client as [c|]; [|done]. exists c.
  case_decide as Hsig; [injection H as _ _ _ ->; contradiction|]. split; [done|].
  split; [by destruct (decide (signature c = ACL_SIGNATURE))|].
  case_match; [by injection H as _ _ _ <-|]. case_decide; [by injection H as _ _ _ <-|].
  apply bind_Some in H as ([v b] & _ & H). destruct v as [v|]; [|by injection H as _ _ _ <-].
  apply bind_Some in H as ([f b1] & _ & H). by destruct f; injection H as _ _ _ <-.
Qed.

Lemma msg_call_rmt start V call client st client' c' :
  msg_call call = true -> acl_ok client -> call_ok call -> client_inv start V client ->
  acl_exec call client = Some (st, client') -> client' = Some c' -> signature c' = ACL_SIGNATURE ->
  exists c, client = Some c /\ signature c = ACL_SIGNATURE /\ auth_rmt c' = auth_rmt c.
Proof.
  intros Hm Hok Hcall Hi H Hc' Hs. destruct call; try discriminate Hm; cbn [acl_exec] in H.
  - eapply with_client_rmt; [|exact H|done|done]. intros c c1 E. injection E as E. by rewrite <- (recv_begin_rmt c), E.
  - eapply with_client_rmt; [|exact H|done|done]. intros c c1 E. unfold recv_transit_bit in E.
    case_decide; by injection E as _ <-.
  - eapply with_client_rmt; [|exact H|done|done]. intros c c1. apply recv_key_value_rmt.
  - unfold acl_recv_end, with_client in H. destruct client as [c|]; [|by injection H as _ <-]. exists c.
    case_decide as Hsig; [injection H as _ <-; by injection Hc' as <-|].
    apply bind_Some in H as ([st1 c1] & E & H). injection H as _ <-. injection Hc' as ->.
    assert (signature c = ACL_SIGNATURE) as Hc by (by destruct (decide (signature c = ACL_SIGNATURE))).
    split; [done|]. split; [done|].
    destruct (recv_end_inv start V s c st1 c' (Hok c eq_refl Hc) Hcall (Hi c eq_refl Hc) E) as [_ Ho].
    exact (out_rmt _ _ _ Ho).
  - apply bind_Some in H as ([[[st1 kp] b] cl] & E & H). injection H as _ <-.
    by eapply send_key_val_rmt.
  - unfold acl_send_transit_bit in H. destruct client as [c|]; [|by injection H as _ <-]. exists c.
    case_decide as Hsig; [injection H as _ <-; by injection Hc' as <-|]. split; [done|].
    split; [by destruct (decide (signature c = ACL_SIGNATURE))|].
    destruct (negb (can_send c)); injection H as _ <-; by injection Hc' as <-.
  - eapply with_client_rmt; [|exact H|done|done]. intros c c1 E. unfold get_dbg_status in E.
    case_decide; by injection E as _ <-.
Qed.

(** The effect of a message call on what is known of the client. *)
Lemma exec_good start rmt V call client :
  msg_call call = true -> call_ok call -> client_good start rmt V client ->
  safe (acl_exec call client) (fun '(st, client') =>
    client_good start rmt (V \/ entry_verified start (mk_entry call client st client')) client' /\
    (is_Some client <-> is_Some client')).
Proof.
  intros Hm Hcall [Hok Hi Hn]. destruct (acl_exec_safe call client Hok Hcall) as ([st client'] & E & Hok').
  exists (st, client'). split; [done|]. split; [constructor; [done|by eapply acl_exec_inv|]|].
  - intros c' Hc' Hs. destruct (msg_call_rmt _ _ _ _ _ _ _ Hm Hok Hcall Hi E Hc' Hs) as (c & Hc & Hsc & Hr).
    destruct (Hn c Hc Hsc) as [Hnode Hrmt]. split; [|congruence].
    eapply exec_node; [exact Hok|exact Hcall|exact Hi| |exact E|exact Hc'|exact Hs].
    intros c0 H0 Hs0. by apply Hn.
  - destruct client as [c|].
    + split; [intros _|by eauto]. destruct call; try discriminate Hm; cbn [acl_exec] in E;
        unfold acl_recv_begin, acl_recv_transit_bit, acl_recv_key_value, acl_recv_end, acl_get_dbg_status,
          with_client, acl_send_key_val, acl_send_transit_bit in E; branch_opt; eauto.
    + split; [by intros []|]. intros [c' Hc']. destruct call; try discriminate Hm; cbn in E; by inv_opt.
Qed.

Lemma call_no_verify start call client st client' :
  is_recv_end call = false -> ~ entry_verified start (mk_entry call client st client').
Proof. intros Hr (s & c & c' & E & _). cbn in E. by subst call. Qed.

(** ** The session during the login *)

(** What the login does not change. *)
Definition config_of (s : iscsi_session) :=
  ((rdma s, use_ipc s, type s, isid s, target_name s, initiator_name s, initiator_alias s),
   (num_auth_buffers s, auth_buffers s, bidirectional_auth s, session_in s, active_timeout (conn s)),
   (s_username s, s_password s, s_password_length s, chap_algs s)).

Definition keeps (s s' : iscsi_session) : Prop :=
  config_of s' = config_of s /\ current_stage (conn s') = current_stage (conn s).

(** A handler that does not call the authentication client. *)
Definition plain (s s' : iscsi_session) : Prop :=
  keeps s s' /\ auth_client_block s' = auth_client_block s.

Definition good (start : nat) (V : Prop) (s : iscsi_session) : Prop :=
  client_good start (bidirectional_auth s) V (auth_client_of s).

#[global] Instance keeps_preorder : PreOrder keeps.
Proof. split; [done|]. intros s1 s2 s3 [] []. split; congruence. Qed.

Lemma keeps_fields s s' :
  config_of s' = config_of s ->
  num_auth_buffers s' = num_auth_buffers s /\ bidirectional_auth s' = bidirectional_auth s /\
  session_in s' = session_in s /\ type s' = type s /\ use_ipc s' = use_ipc s /\
  auth_buffers s' = auth_buffers s.
Proof. unfold config_of. intros H. injection H as. by split_and!. Qed.

Lemma plain_client s s' : plain s s' -> auth_client_of s' = auth_client_of s.
Proof. intros [[H _] Hb]. apply keeps_fields in H as (Hn & _). unfold auth_client_of. by rewrite Hn, Hb. Qed.

Lemma plain_good start V s s' : plain s s' -> good start V s -> good start V s'.
Proof.
  intros Hp. unfold good. rewrite (plain_client _ _ Hp). destruct Hp as [[H _] _].
  apply keeps_fields in H as (_ & -> & _). done.
Qed.

(** The client of the session is replaced by the result of a call on it. *)
Lemma put_client_of s client :
  (is_Some (auth_client_of s) <-> is_Some client) -> auth_client_of (put_client s client) = client.
Proof.
  unfold auth_client_of, put_client. destruct client as [c|]; intros [H1 H2].
  - assert (num_auth_buffers (s <| auth_client_block := c |>) = num_auth_buffers s) as -> by done.
    case_decide; [done|]. destruct H2 as [? ?]; [by eauto|done].
  - case_decide; [|done]. destruct H1 as [? ?]; [by eauto|done].
Qed.

Lemma put_client_keeps s client : keeps s (put_client s client).
Proof. by destruct client. Qed.

(** A message call on the session's client. *)
Lemma session_call start V call s :
  msg_call call = true -> call_ok call -> good start V s ->
  safe (acl_exec call (auth_client_of s)) (fun '(st, client) =>
    good start (V \/ entry_verified start (mk_entry call (auth_client_of s) st client)) (put_client s client) /\
    auth_client_of (put_client s client) = client).
Proof.
  intros Hm Hcall Hg. eapply safe_impl; [by apply exec_good|]. intros [st client] [Hg' Hsome].
  unfold good. rewrite put_client_of by done. split; [|done].
  destruct (put_client_keeps s client) as [Hk _]. apply keeps_fields in Hk as (_ & -> & _). done.
Qed.

(** The same for a call that cannot complete the authentication. *)
Lemma session_call_quiet start V call s :
  msg_call call = true -> is_recv_end call = false -> call_ok call -> good start V s ->
  safe (acl_exec call (auth_client_of s)) (fun '(st, client) =>
    good start V (put_client s client) /\ auth_client_of (put_client s client) = client).
Proof.
  intros Hm Hr Hcall Hg. eapply safe_impl; [by apply session_call|]. intros [st client] [Hg' Hc].
  split; [|done]. eapply client_good_mono; [|exact Hg']. intros [?|?]; [done|].
  by eapply call_no_verify in Hr; destruct Hr.
Qed.

(** ** Redirection *)
Lemma update_address_safe n pdu_end s data a :
  text_buf n pdu_end data -> a <= pdu_end ->
  safe (iscsi_update_address s data a) (fun '(_, s', data') => plain s s' /\ text_buf n pdu_end data').
Proof.
  intros Hb Ha. unfold iscsi_update_address.
  eapply safe_bind; [by apply (cut_last_safe n pdu_end)|]. intros [d1 tag] [Hd1 Htag].
  eapply safe_bind; [by apply (cut_last_safe n pdu_end)|]. intros [d2 port] [Hd2 Hport].
  eapply (safe_bind _ _ (fun _ => True)).
  { destruct port as [p|]; [|by apply safe_ret]. destruct Hd2 as [_ Hn].
    destruct (cstr_before d2 pdu_end p Hn) as (v & -> & _); [by apply Hport|by apply safe_ret]. }
  intros port_text _. pose proof Hd2 as [Hl2 Hn2]. pose proof (lookup_lt_Some _ _ _ Hn2) as Hlt.
  destruct (lookup_lt_is_Some_2 d2 a) as [c Hc]; [lia|]. rewrite Hc, bind_ret.
  eapply (safe_bind _ _ (fun b => forall d a', b = Some (d, a') -> text_buf n pdu_end d /\ a' <= pdu_end)).
  { case_decide as Hbr; [|apply safe_ret; by intros ? ? [= <- <-]].
    destruct (cstr_before d2 pdu_end a Hn2 Ha) as (v & -> & _ & Hv). rewrite bind_ret.
    destruct (strchr v (char "]")) as [i|] eqn:Ei; [|by apply safe_ret].
    apply strchr_bound in Ei; [|done].
    destruct (text_buf_set n pdu_end d2 (a + i) Hd2) as (d & -> & Hd); [lia|]. rewrite bind_ret.
    apply safe_ret. intros ? ? [= <- <-]. split; [done|].
    destruct (decide (a = pdu_end)) as [->|]; [|lia]. rewrite Hn2 in Hc. injection Hc as <-. discriminate Hbr. }
  intros bracket Hbk. destruct bracket as [[d a']|]; [|by apply safe_ret].
  destruct (Hbk d a' eq_refl) as [Hd Ha']. pose proof Hd as [_ Hn].
  destruct (cstr_before d pdu_end a' Hn Ha') as (host & -> & _). rewrite bind_ret.
  destruct (resolve_address host port_text); [|by apply safe_ret].
  destruct tag as [t|]; [|by apply safe_ret].
  destruct (cstr_before d pdu_end t Hn) as (v & -> & _); [by apply Htag|]. rewrite bind_ret. by apply safe_ret.
Qed.

(** The enumeration of the authentication keys. *)
Lemma next_key_type kt :
  (-1 <= kt <= 5)%Z ->
  kt = 5%Z /\ acl_get_next_key_type kt = (AUTH_STATUS_ERROR, kt) \/
  (kt < 5)%Z /\ acl_get_next_key_type kt = (AUTH_STATUS_NO_ERROR, kt + 1)%Z /\
  exists key, acl_get_key_name (kt + 1) = Some key /\ length key <= 10 /\ no_nul key.
Proof.
  intros Hkt. assert (kt = -1 \/ kt = 0 \/ kt = 1 \/ kt = 2 \/ kt = 3 \/ kt = 4 \/ kt = 5)%Z as Hc by lia.
  destruct Hc as [-> | [-> | [-> | [-> | [-> | [-> | ->]]]]]]; [right..|left; done];
    (split; [lia|]; split; [reflexivity|]; eexists; split; [reflexivity|]; split;
      [cbn; lia|by apply (bool_decide_unpack _)]).
Qed.

(** ** Handlers of keys *)
Definition handled (start : nat) (V : Prop) (T : bool) (n pdu_end : nat) (s : iscsi_session) (text : nat)
    (r : key_result) : Prop :=
  let '(st, s', data', text') := r in
  keeps s s' /\ good start V s' /\ transit_is T (auth_client_of s') /\ text_buf n pdu_end data' /\
  (st = LOGIN_OK -> text < text' <= pdu_end).

Section Handlers.
Context (start : nat) (V : Prop) (T : bool) (n pdu_end : nat) (s : iscsi_session) (data : list Z) (text : nat).
Hypothesis Hgood : good start V s.
Hypothesis Hbit : transit_is T (auth_client_of s).
Hypothesis Hbuf : text_buf n pdu_end data.

Notation ok := (handled start V T n pdu_end s text).

Lemma plain_handled st s' text' :
  plain s s' -> (st = LOGIN_OK -> text < text' <= pdu_end) -> ok (st, s', data, text').
Proof.
  intros Hp Ht. split_and!; [by apply Hp|by eapply plain_good| |done|done].
  by rewrite (plain_client _ _ Hp).
Qed.

(** A handler is given a value that ends inside the text. *)
Definition handler_safe (found : nat -> nat -> option key_result) : Prop :=
  forall value value_end, text < value -> value <= value_end <= pdu_end -> safe (found value value_end) ok.

Lemma on_key_safe param found other :
  handler_safe found -> safe other ok -> safe (on_key param data text pdu_end found other) ok.
Proof.
  intros Hf Ho. unfold on_key. destruct Hbuf as [Hl Hn]. pose proof (lookup_lt_Some _ _ _ Hn).
  destruct (find_key_value_safe param data text pdu_end) as (r & -> & Hr); [lia|]. rewrite bind_ret.
  destruct r as [[vs ve]|]; [|done]. destruct (Hr vs ve eq_refl) as (Hvs & Hve & _). apply Hf; lia.
Qed.

Lemma value_cstr value : value <= pdu_end -> exists v, cstr data value = Some v /\ no_nul v.
Proof.
  intros Hv. destruct Hbuf as [_ Hn]. destruct (cstr_before data pdu_end value Hn Hv) as (v & E & Hv' & _).
  eauto.
Qed.

(** Read the value as a C string. *)
Ltac with_value H :=
  let v := fresh "v" in let E := fresh "E" in let Hn := fresh "Hnul" in
  destruct (value_cstr _ H) as (v & E & Hn); try unfold key_number, key_yes; rewrite E; rewrite ?bind_ret.

Ltac plain_ret := apply safe_ret, plain_handled; [done|try done; intros _; lia].

Lemma skip_key_safe : handler_safe (skip_key s data).
Proof. intros value ve H1 H2. plain_ret. Qed.

Lemma key_tpgt_safe : handler_safe (key_tpgt s data).
Proof. intros value ve H1 H2. unfold key_tpgt. with_value (Nat.le_trans _ _ _ (proj1 H2) (proj2 H2)). plain_ret. Qed.

Lemma set_alias_safe value ve :
  text < value -> value <= ve <= pdu_end -> 
  safe ('(s, _) ← set_alias s data value ve; Some (LOGIN_OK, s, data, ve)) ok.
Proof.
  intros H1 H2. destruct Hbuf as [Hl Hn]. pose proof (lookup_lt_Some _ _ _ Hn). unfold set_alias.
  destruct (malloc (malloc_pos s)).
  - rewrite buf_prefix_Some by (rewrite length_drop; lia). rewrite !bind_ret. plain_ret.
  - rewrite bind_ret. plain_ret.
Qed.

Lemma op_alias_safe : handler_safe (op_alias s data).
Proof.
  intros value ve H1 H2. destruct Hbuf as [Hl Hn]. pose proof (lookup_lt_Some _ _ _ Hn). unfold op_alias.
  rewrite buf_prefix_Some by (rewrite length_drop; lia). rewrite bind_ret. case_decide; [plain_ret|].
  by apply set_alias_safe.
Qed.

Ltac value_in H := with_value (Nat.le_trans _ _ _ (proj1 H) (proj2 H)).

Lemma normal_key_safe bit value ve set :
  text < value -> value <= ve <= pdu_end -> safe set (plain s) -> safe (normal_key s bit data ve set) ok.
Proof.
  intros H1 H2 (s' & E & Hp). unfold normal_key. case_decide.
  - rewrite E, bind_ret. apply safe_ret, plain_handled; [done|intros _; lia].
  - rewrite bind_ret. plain_ret.
Qed.

Lemma flag_key_safe bit set : handler_safe (flag_key s bit data set).
Proof.
  intros value ve H1 H2. apply (normal_key_safe _ value); [done..|]. value_in H2. by apply safe_ret.
Qed.

Lemma number_key_safe bit set : handler_safe (number_key s bit data set).
Proof.
  intros value ve H1 H2. apply (normal_key_safe _ value); [done..|]. value_in H2. by apply safe_ret.
Qed.

Lemma op_max_recv_safe : handler_safe (op_max_recv s data).
Proof.
  intros value ve H1 H2. unfold op_max_recv. case_decide; [|plain_ret]. value_in H2.
  case_decide; plain_ret.
Qed.

Lemma digest_key_safe cur set :
  (forall d c, current_stage (set d c) = current_stage c /\ active_timeout (set d c) = active_timeout c) ->
  handler_safe (digest_key s data text cur set).
Proof.
  intros Hset value ve H1 H2. unfold digest_key. value_in H2.
  assert (forall d, plain s (put_conn s (set d (conn s)))) as Hp.
  { intros d. destruct (Hset d (conn s)) as [Hs Ha]. split; [|done]. split; [|done].
    unfold config_of. cbn. by rewrite Ha. }
  repeat case_decide; first [plain_ret | apply safe_ret, plain_handled; [apply Hp|intros _; lia]].
Qed.

Lemma must_be_safe values err : err <> LOGIN_OK -> handler_safe (must_be s data text values err).
Proof. intros He value ve H1 H2. unfold must_be. value_in H2. case_decide; plain_ret. Qed.

Lemma op_max_connections_safe : handler_safe (op_max_connections s data text).
Proof.
  intros value ve H1 H2. unfold op_max_connections. case_decide; [by apply must_be_safe|].
  apply (normal_key_safe _ value); [done..|]. by apply safe_ret.
Qed.

Lemma op_rdma_extensions_safe : handler_safe (op_rdma_extensions s data text).
Proof.
  intros value ve H1 H2. unfold op_rdma_extensions. destruct (rdma s); [by apply must_be_safe|plain_ret].
Qed.

Lemma rdma_min_safe cur set :
  (forall d c, current_stage (set d c) = current_stage c /\ active_timeout (set d c) = active_timeout c) ->
  handler_safe (rdma_min s data cur set).
Proof.
  intros Hset value ve H1 H2. unfold rdma_min. destruct (rdma s) eqn:Er; [|plain_ret]. value_in H2.
  apply safe_ret, plain_handled; [|intros _; lia]. split; [|done].
  destruct (Hset (u32 (Z.min cur (strtoul v 0).1)) (conn s)) as [Hs Ha]. split; [|done].
  unfold config_of. cbn. by rewrite Ha.
Qed.

Lemma key_address_safe : handler_safe (key_address s data text).
Proof.
  intros value ve H1 H2. unfold key_address.
  destruct (update_address_safe n pdu_end s data value) as ([[ok' s'] d] & -> & Hp & Hd); [done|lia|].
  rewrite bind_ret.
  destruct ok'; apply safe_ret; (split_and!; [apply Hp|by eapply plain_good| |done|done || (intros _; lia)]);
    by rewrite (plain_client _ _ Hp).
Qed.

(** The authentication keys. *)
Lemma auth_value_safe kt : handler_safe (fun value value_end =>
  v ← cstr data value;
  '(st, client) ← acl_recv_key_value (auth_client_of s) kt v;
  let s := put_client s client in
  if decide (st <> AUTH_STATUS_NO_ERROR) then Some (LOGIN_NEGOTIATION_FAILED, s, data, text)
  else Some (LOGIN_OK, s, data, value_end)).
Proof.
  intros value ve H1 H2. value_in H2.
  destruct (session_call_quiet start V (CRecvKeyValue kt v) s) as ([st client] & Ecall & Hg & Hc); [done..|].
  cbn [acl_exec] in Ecall. rewrite Ecall, bind_ret.
  assert (transit_is T client) as HT.
  { intros c' -> Hs. unfold acl_recv_key_value, with_client in Ecall.
    destruct (auth_client_of s) as [c|]; [|done]. case_decide as Hsig; [injection Ecall as _ ->; contradiction|].
    apply bind_Some in Ecall as ([st1 c1] & Er & Ecall). injection Ecall as -> ->.
    rewrite (recv_key_value_transit _ _ _ _ _ Er). apply Hbit; [done|].
    by destruct (decide (signature c = ACL_SIGNATURE)). }
  cbv zeta. case_decide; apply safe_ret;
    (split_and!; [apply put_client_keeps|done|by rewrite Hc|done|done || (intros _; lia)]).
Qed.

Lemma auth_key_loop_safe fuel : forall kt,
  (-1 <= kt <= 5)%Z -> (5 - kt < Z.of_nat fuel)%Z ->
  safe (auth_key_loop fuel kt s (auth_client_of s) data text pdu_end) ok.
Proof.
  induction fuel as [|fuel IH]; intros kt Hkt Hf; [lia|]. cbn [auth_key_loop].
  destruct (next_key_type kt Hkt) as [[-> ->]|(Hlt & -> & key & -> & _)].
  - rewrite decide_True by done. apply safe_ret, plain_handled; done.
  - rewrite decide_False by (intros Hne; by apply Hne). rewrite bind_ret.
    apply on_key_safe; [apply auth_value_safe|]. apply IH; lia.
Qed.

Lemma security_keys_safe : safe (get_security_text_keys s (auth_client_of s) data text pdu_end) ok.
Proof.
  unfold get_security_text_keys, get_auth_key_type. do 3 try apply on_key_safe.
  - intros value ve H1 H2. by apply (set_alias_safe value).
  - apply key_address_safe.
  - apply key_tpgt_safe.
  - by apply auth_key_loop_safe.
Qed.

(** The operational keys, one after the other. *)
Hint Resolve skip_key_safe key_tpgt_safe op_alias_safe flag_key_safe number_key_safe op_max_recv_safe
  op_max_connections_safe op_rdma_extensions_safe key_address_safe : handlers.

Ltac keys := repeat match goal with
  | |- safe (on_key _ _ _ _ _ _) _ => apply on_key_safe; [try by auto with handlers|]
  end.

Lemma op_keys_4_safe : safe (op_keys_4 s data text pdu_end) ok.
Proof.
  unfold op_keys_4. keys; try (apply must_be_safe; done); try (by apply rdma_min_safe).
  by apply safe_ret, plain_handled.
Qed.

Lemma op_keys_3_safe : safe (op_keys_3 s data text pdu_end) ok.
Proof.
  unfold op_keys_3. keys; try (intros value ve H1 H2; value_in H2; plain_ret). apply op_keys_4_safe.
Qed.

Lemma op_keys_safe : safe (get_op_params_text_keys s data text pdu_end) ok.
Proof.
  unfold get_op_params_text_keys, op_keys_1, op_keys_2. keys; try (by apply digest_key_safe).
  apply op_keys_3_safe.
Qed.

End Handlers.

(** ** Scanning the text of a response *)
Lemma skip_nuls_safe data pdu_end : forall k text,
  pdu_end < length data -> text + k = pdu_end ->
  exists t, skip_nuls k data text = Some t /\ text <= t <= pdu_end.
Proof.
  induction k as [|k IH]; intros text Hl Hk; cbn [skip_nuls]; [exists text; split; [done|lia]|].
  destruct (lookup_lt_is_Some_2 data text) as [b ->]; [lia|]. rewrite bind_ret.
  case_decide; [|exists text; split; [done|lia]].
  destruct (IH (S text)) as (t & -> & Ht); [done|lia|]. exists t. split; [done|lia].
Qed.

(** The scan ends within [pdu_end - text] keys. *)
Lemma scan_text_safe start V T n pdu_end fuel : forall s data text,
  good start V s -> transit_is T (auth_client_of s) -> text_buf n pdu_end data -> pdu_end - text <= fuel ->
  safe (scan_text fuel s data text pdu_end) (fun '(_, s', data') =>
    keeps s s' /\ good start V s' /\ transit_is T (auth_client_of s') /\ text_buf n pdu_end data').
Proof.
  induction fuel as [|fuel IH]; intros s data text Hg HT Hb Hf; cbn [scan_text];
    (case_decide as Hend; [by apply safe_ret|]); [lia|].
  pose proof Hb as [_ Hn]. apply lookup_lt_Some in Hn.
  destruct (skip_nuls_safe data pdu_end (pdu_end - text) text) as (t & -> & Ht); [done|lia|]. rewrite bind_ret.
  case_decide; [by apply safe_ret|].
  assert (forall r, handled start V T n pdu_end s t r ->
    safe (let '(ret, s', data', text') := r in
          if decide (ret <> LOGIN_OK) then Some (ret, s', data') else scan_text fuel s' data' text' pdu_end)
      (fun '(_, s', data') =>
        keeps s s' /\ good start V s' /\ transit_is T (auth_client_of s') /\ text_buf n pdu_end data')) as Hnext.
  { intros [[[ret s'] data'] text'] (Hk & Hg' & HT' & Hb' & Hadv).
    case_decide as Hret; [by apply safe_ret|].
    assert (ret = LOGIN_OK) as -> by (by destruct (decide (ret = LOGIN_OK))).
    specialize (Hadv eq_refl). eapply safe_impl; [apply IH; [done..|lia]|].
    intros [[? s''] ?] (Hk' & ?). split; [by transitivity s'|done]. }
  case_decide; [|case_decide; [|by apply safe_ret]].
  - eapply safe_bind; [by eapply security_keys_safe|exact Hnext].
  - eapply safe_bind; [by eapply op_keys_safe|exact Hnext].
Qed.

(** ** The authentication in a response *)
Lemma transit_exists client : exists T, transit_is T client.
Proof.
  destruct client as [c|]; [|exists true; by intros ?]. exists (transit_bit (recv_key_block c)).
  by intros ? [= <-].
Qed.

Lemma transit_unset T client :
  (forall c, client = Some c -> signature c <> ACL_SIGNATURE) -> transit_is T client.
Proof. intros H c E Hs. by destruct (H c E). Qed.

Lemma begin_security_safe start V s transit :
  good start V s ->
  safe (begin_security s transit) (fun '(st, s') => keeps s s' /\ good start V s' /\
    (st = LOGIN_OK -> current_stage (conn s) = ISCSI_SECURITY_NEGOTIATION_STAGE ->
     transit_is (truth transit) (auth_client_of s'))).
Proof.
  intros Hg. unfold begin_security. case_decide as Hst; [|by apply safe_ret].
  destruct (session_call_quiet start V CRecvBegin s) as ([st client] & E & Hg1 & Hc1); [done..|].
  cbn [acl_exec] in E. rewrite E, bind_ret. cbv zeta. pose proof (put_client_keeps s client) as Hk1.
  case_decide; [by apply safe_ret|].
  destruct (session_call_quiet start V (CRecvTransitBit transit) (put_client s client))
    as ([st2 client2] & E2 & Hg2 & Hc2); [done..|].
  cbn [acl_exec] in E2. rewrite Hc1 in E2. rewrite E2, bind_ret.
  assert (keeps s (put_client (put_client s client) client2)) as Hk2
    by (transitivity (put_client s client); [done|apply put_client_keeps]).
  case_decide as Hst2; [by apply safe_ret|]. apply safe_ret. split; [done|]. split; [done|].
  intros _ _. rewrite Hc2. intros c' -> Hs.
  unfold acl_recv_transit_bit, with_client in E2. destruct client as [c|]; [|done].
  case_decide as Hsig; [injection E2 as _ ->; contradiction|].
  cbn [mbind option_bind] in E2. unfold recv_transit_bit in E2.
  case_decide; [by injection E2 as <- _|]. injection E2 as _ <-. reflexivity.
Qed.

(** The client holds a message that proves the knowledge of the password. *)
Definition verified_now (start : nat) (s : iscsi_session) : Prop :=
  exists c alg, auth_client_of s = Some c /\ chap_verified start (session_in s) c alg.

(** [acl_recv_end] on a message with the T bit: CONTINUE is impossible and a
    PASS has evidence. *)
Lemma recv_end_transit start V s st client :
  good start V s -> transit_is true (auth_client_of s) -> session_wf (session_in s) ->
  acl_exec (CRecvEnd (session_in s)) (auth_client_of s) = Some (st, client) ->
  st = AUTH_STATUS_CONTINUE \/ st = AUTH_STATUS_PASS -> truth (bidirectional_auth s) = true ->
  V \/ verified_now start s.
Proof.
  intros [Hok Hi Hn] HT Hsw E Hst Hbi.
  destruct (exec_recv_end _ _ _ _ E) as (c & c' & Hc & -> & Hsig & Er); [by destruct Hst as [-> | ->]|].
  destruct (Hn c Hc Hsig) as [Hnode Hrmt].
  destruct (recv_end_inv start V _ c st c' (Hok c Hc Hsig) Hsw (Hi c Hc Hsig) Er) as [Hi' Ho].
  destruct Hst as [-> | ->].
  - pose proof (out_continue _ _ _ Ho Hnode eq_refl) as Hf. cbn in Hf.
    rewrite (HT c Hc Hsig) in Hf. discriminate Hf.
  - destruct (out_pass _ _ _ Ho eq_refl) as [_ Hp].
    destruct (inv_pass _ _ _ Hi') as [?|Hv]; [|exact Hp|by left|].
    + cbn. rewrite (out_rmt _ _ _ Ho). cbn. by rewrite Hrmt.
    + right. by exists c, (negotiated_chap_alg c').
Qed.

Lemma stage_status_safe start V T s :
  good start V s -> transit_is T (auth_client_of s) -> session_wf (session_in s) ->
  safe (check_security_stage_status s (auth_client_of s)) (fun '(st, s') => keeps s s' /\
    good start (V \/ verified_now start s) s' /\
    (st = LOGIN_OK -> T = true -> truth (bidirectional_auth s) = true -> V \/ verified_now start s)).
Proof.
  intros Hg HT Hsw. unfold check_security_stage_status.
  destruct (session_call start V (CRecvEnd (session_in s)) s) as ([st client] & E & Hg1 & Hc1); [done..|].
  pose proof E as E'. cbn [acl_exec] in E. rewrite E, bind_ret. cbv zeta.
  assert (good start (V \/ verified_now start s) (put_client s client)) as Hg2.
  { eapply client_good_mono; [|exact Hg1]. intros [?|(s0 & c & c' & [= <-] & Hb & _ & Hv)]; [by left|].
    right. by exists c, (negotiated_chap_alg c'). }
  destruct (session_call_quiet start (V \/ verified_now start s) CGetDbgStatus (put_client s client))
    as ([st2 client2] & E2 & Hg3 & Hc2); [done..|].
  cbn [acl_exec] in E2. rewrite Hc1 in E2. rewrite E2, bind_ret.
  assert (keeps s (put_client (put_client s client) client2)) as Hk
    by (transitivity (put_client s client); apply put_client_keeps).
  destruct st; apply safe_ret; try done; (split; [apply put_client_keeps|]; split; [done|]);
    intros _ ->; eapply recv_end_transit; eauto.
Qed.

(** ** The whole response *)
Definition rsp_end (login_rsp : list Z) : nat := Z.to_nat (ntoh24 login_rsp + 1).

(** The message of the response [login_rsp] with text [data] proves the
    knowledge of the password: its keys, scanned into the client, do. *)
Definition rsp_verified (start : nat) (s : iscsi_session) (login_rsp data : list Z) : Prop :=
  exists data0 s1 s2 data2, buf_set data (rsp_end login_rsp) NUL = Some data0 /\
    begin_security s (rsp_transit login_rsp) = Some (LOGIN_OK, s1) /\
    scan_text (rsp_end login_rsp) s1 data0 0 (rsp_end login_rsp) = Some (LOGIN_OK, s2, data2) /\
    session_in s2 = session_in s /\ verified_now start s2.

Lemma record_rsp_good start V s login_rsp : good start V s -> good start V (record_rsp s login_rsp).
Proof.
  unfold record_rsp. intros Hg. repeat case_decide; repeat case_match; exact Hg.
Qed.

Lemma record_rsp_config s login_rsp : config_of (record_rsp s login_rsp) = config_of s.
Proof. unfold record_rsp. repeat case_decide; repeat case_match; reflexivity. Qed.

Lemma record_rsp_stage s login_rsp :
  current_stage (conn (record_rsp s login_rsp)) =
    if truth (rsp_transit login_rsp) then rsp_next_stage login_rsp else current_stage (conn s).
Proof. unfold record_rsp. repeat case_decide; case_match; reflexivity. Qed.

(** What a response does: [V] is known before it. *)
Record rsp_outcome (start : nat) (V : Prop) (s : iscsi_session) (login_rsp data : list Z)
    (st : iscsi_login_status) (s' : iscsi_session) (data' : list Z) : Prop := {
  ro_config : config_of s' = config_of s;
  ro_length : length data' = length data;
  ro_good : good start (V \/ rsp_verified start s login_rsp data) s';
  ro_stage : current_stage (conn s') = current_stage (conn s) \/
    st = LOGIN_OK /\ rsp_transit login_rsp <> 0%Z /\
    current_stage (conn s') = rsp_next_stage login_rsp /\
    (current_stage (conn s) = ISCSI_SECURITY_NEGOTIATION_STAGE -> truth (bidirectional_auth s) = true ->
     V \/ rsp_verified start s login_rsp data);
  ro_accepted : st = LOGIN_OK -> check_login_rsp s login_rsp = LOGIN_OK /\
    exists s3, keeps s s3 /\ s' = record_rsp s3 login_rsp;
  ro_rejected : st <> LOGIN_OK -> current_stage (conn s') = current_stage (conn s)
}.

(** The PDU fields are recorded, and the stage advances with the T bit. *)
Lemma record_outcome start V s s3 login_rsp data d :
  check_login_rsp s login_rsp = LOGIN_OK -> keeps s s3 -> length d = length data -> good start (V \/ rsp_verified start s login_rsp data) s3 ->
  (truth (rsp_transit login_rsp) = true -> truth (bidirectional_auth s) = true ->
   current_stage (conn s) = ISCSI_SECURITY_NEGOTIATION_STAGE -> V \/ rsp_verified start s login_rsp data) ->
  rsp_outcome start V s login_rsp data LOGIN_OK (record_rsp s3 login_rsp) d.
Proof.
  intros Hchk Hk Hl Hg3 HV. pose proof Hk as [Hc3 Hs3].
  constructor; [by rewrite record_rsp_config|done|by apply record_rsp_good| |by eauto|done].
  rewrite record_rsp_stage. destruct (truth (rsp_transit login_rsp)) eqn:Ht; [right|left; congruence].
  split; [done|]. split; [|split; [done|by auto]].
  unfold truth in Ht. apply negb_true_iff in Ht. by apply Z.eqb_neq in Ht.
Qed.

(** The part after the text was scanned into [s2]. *)
Lemma after_scan_safe start V T s s2 login_rsp data d2 :
  check_login_rsp s login_rsp = LOGIN_OK -> keeps s s2 -> good start V s2 -> transit_is T (auth_client_of s2) -> length d2 = length data ->
  session_wf (session_in s2) ->
  (current_stage (conn s) = ISCSI_SECURITY_NEGOTIATION_STAGE -> T = truth (rsp_transit login_rsp)) ->
  (verified_now start s2 -> rsp_verified start s login_rsp data) ->
  safe ('(ret, s) ← (if decide (current_stage (conn s2) = ISCSI_SECURITY_NEGOTIATION_STAGE)
                     then check_security_stage_status s2 (auth_client_of s2) else Some (LOGIN_OK, s2));
        if decide (ret <> LOGIN_OK) then Some (ret, s, d2) else Some (LOGIN_OK, record_rsp s login_rsp, d2))
    (fun '(st, s', data') => rsp_outcome start V s login_rsp data st s' data').
Proof.
  intros Hchk Hk Hg2 HT Hl Hsw HTs Hnow. destruct (Hk) as [Hcfg Hstage]. case_decide as Hsec.
  - destruct (stage_status_safe start V T s2) as ([st3 s3] & E3 & Hk3 & Hg3 & Hv3); [done..|].
    rewrite E3, bind_ret.
    assert (good start (V \/ rsp_verified start s login_rsp data) s3) as Hg4
      by (eapply client_good_mono; [|exact Hg3]; intuition).
    case_decide as Hst3; apply safe_ret.
    + destruct Hk3 as [Hc3 Hs3]. constructor; [congruence|done|done|left; congruence|done|congruence].
    + apply record_outcome; [done|by transitivity s2|done|done|]. intros Ht Hbi Hs.
      apply keeps_fields in Hcfg as (_ & Hbi' & _). 
      destruct Hv3; [by destruct (decide (st3 = LOGIN_OK))|by rewrite HTs|congruence|by left|right; auto].
  - rewrite bind_ret. case_decide; [done|]. apply safe_ret, record_outcome; [done..| |].
    + eapply client_good_mono; [|exact Hg2]. by left.
    + intros _ _ Hs. destruct Hsec. congruence.
Qed.

Lemma process_rsp_safe start V s login_rsp data max :
  good start V s -> session_wf (session_in s) -> Forall is_byte login_rsp -> (max <= Z.of_nat (length data))%Z ->
  safe (iscsi_process_login_response s login_rsp data max) (fun '(st, s', data') =>
    rsp_outcome start V s login_rsp data st s' data').
Proof.
  intros Hg Hsw Hr Hmax. unfold iscsi_process_login_response. fold (rsp_end login_rsp).
  pose proof (ntoh24_range _ Hr) as Hrange.
  assert (forall st s' d, st <> LOGIN_OK -> keeps s s' -> good start V s' -> length d = length data ->
    rsp_outcome start V s login_rsp data st s' d) as Hplain.
  { intros st s' d Hst [Hk Hs] Hg' Hl. constructor; [done..| |by left|done|done].
    eapply client_good_mono; [|exact Hg']. by left. }
  case_decide as Hroom; [by apply safe_ret, Hplain|].
  assert (rsp_end login_rsp < length data) as Hlt by (unfold rsp_end; lia).
  destruct (buf_set data (rsp_end login_rsp) NUL) as [d0|] eqn:Ed0;
    [|unfold buf_set in Ed0; by rewrite decide_True in Ed0].
  rewrite bind_ret. pose proof (buf_set_inv _ _ _ _ Ed0) as [_ Ed].
  assert (text_buf (length data) (rsp_end login_rsp) d0) as Hb0.
  { rewrite Ed. split; [by rewrite length_insert|by apply list_lookup_insert_eq]. }
  cbv zeta. case_decide as Hchk; [apply safe_ret, Hplain; [done..|apply Hb0]|].
  destruct (begin_security_safe start V s (rsp_transit login_rsp) Hg) as ([st1 s1] & E1 & Hk1 & Hg1 & HT1).
  rewrite E1, bind_ret. case_decide as Hst1; [apply safe_ret, Hplain; [done..|apply Hb0]|].
  assert (st1 = LOGIN_OK) as -> by (by destruct (decide (st1 = LOGIN_OK))).
  assert (exists T, transit_is T (auth_client_of s1) /\
    (current_stage (conn s) = ISCSI_SECURITY_NEGOTIATION_STAGE -> T = truth (rsp_transit login_rsp)))
    as (T & HT & HTs).
  { destruct (decide (current_stage (conn s) = ISCSI_SECURITY_NEGOTIATION_STAGE)) as [Hsec|Hsec].
    - eexists. split; [by apply HT1|done].
    - destruct (transit_exists (auth_client_of s1)) as [T HT]. by exists T. }
  destruct (scan_text_safe start V T (length data) (rsp_end login_rsp) (rsp_end login_rsp) s1 d0 0)
    as ([[st2 s2] d2] & E2 & Hk2 & Hg2 & HT2 & Hb2); [done..|lia|].
  assert (keeps s s2) as Hk by (by transitivity s1).
  rewrite E2, bind_ret. case_decide as Hst2; [apply safe_ret, Hplain; [done..|apply Hb2]|].
  assert (st2 = LOGIN_OK) as -> by (by destruct (decide (st2 = LOGIN_OK))).
  apply (after_scan_safe start V T); try done; [apply Hb2| |].
  - destruct Hk as [Hk _]. by apply keeps_fields in Hk as (_ & _ & -> & _).
  - intros Hv. exists d0, s1, s2, d2. destruct Hk as [Hk _]. apply keeps_fields in Hk as (_ & _ & ? & _). done.
Qed.

End Safety.
