(* ===== verification/LoginReqSafety.v ===== *)
(** * Login: requests and the driver stay in their buffers

    Safety of the request side of usr/login.c, of the driver [iscsi_login],
    and the invariant of the driver: beyond the security stage a target that
    had to be authenticated was authenticated. *)
From S2P Require Import Prelude CString AuthText Acl AclFrame AclSafety AclProtocol AclTheorems.
From S2P Require Import Pdu LoginText Io Timer Login LoginReq LoginSafety.
From Stdlib Require Import Ascii Lia ZArith.
From stdpp Require Import base tactics numbers list strings option.

(** ** Headers and texts *)
Definition hdr_ok (h : list Z) : Prop :=
  length h = HDR_LEN /\ hdr8 h OFF_hlength = 0%Z /\ (0 <= ntoh24 h)%Z.

(** The bytes of a list of keys. *)
Definition texts_length (l : list (list Z * list Z)) : nat :=
  sum_list ((fun '(p, v) => length (text_pair p v)) <$> l).

Lemma hdr_ok_hton24 h v : hdr_ok h -> (0 <= v < 2 ^ 24)%Z -> hdr_ok (hton24 h v) /\ ntoh24 (hton24 h v) = v.
Proof.
  intros (Hl & Hh & _) Hv. pose proof (ntoh24_hton24 h v Hl Hv) as E. split; [|done].
  split; [by apply length_hton24|]. split; [|lia].
  rewrite hdr8_hton24 by (done || (unfold OFF_hlength, OFF_dlength; lia)). done.
Qed.

(** What a filling function may do to a PDU: [grow] bytes at most are added. *)
Definition filled (grow : nat) (max : Z) (h d h' d' : list Z) : Prop :=
  hdr_ok h' /\ (ntoh24 h <= ntoh24 h' <= ntoh24 h + Z.of_nat grow)%Z /\
  (ntoh24 h <= max -> ntoh24 h' <= max)%Z /\ length d' = length d /\
  (forall i, i < OFF_dlength \/ OFF_dlength + 3 <= i -> hdr8 h' i = hdr8 h i).

Lemma filled_refl grow max h d : hdr_ok h -> filled grow max h d h d.
Proof. intros Hh. split; [done|]. split; [lia|]. done. Qed.

Lemma filled_trans g1 g2 max h1 d1 h2 d2 h3 d3 :
  filled g1 max h1 d1 h2 d2 -> filled g2 max h2 d2 h3 d3 -> filled (g1 + g2) max h1 d1 h3 d3.
Proof.
  intros (? & ? & ? & ? & Hf1) (? & ? & ? & ? & Hf2). split; [done|]. split; [lia|]. split; [lia|].
  split; [congruence|]. intros i Hi. by rewrite Hf2, Hf1.
Qed.

Lemma filled_weaken g g' max h d h' d' : filled g max h d h' d' -> g <= g' -> filled g' max h d h' d'.
Proof. intros (? & ? & ? & ? & ?) Hle. split; [done|]. split; [lia|]. done. Qed.

Section Room.
Context (max : Z) (Hmax24 : (max <= 2 ^ 24)%Z).

Lemma add_texts_safe l : forall h d,
  hdr_ok h -> (max <= Z.of_nat (length d))%Z ->
  safe (add_texts h d max l) (fun '(_, h', d') => filled (texts_length l) max h d h' d').
Proof.
  induction l as [|[p v] l IH]; intros h d Hh Hd; cbn [add_texts]; [by apply safe_ret, filled_refl|].
  destruct Hh as (Hl & Hh0 & H0). rewrite iscsi_add_text_spec by done.
  assert (hdr_ok h) as Hok by done. pose proof (Nat.le_refl (texts_length ((p, v) :: l))) as Hlen.
  unfold texts_length in Hlen at 2. cbn in Hlen. fold (texts_length l) in Hlen.
  case_decide as Hroom; [|rewrite bind_ret; by apply safe_ret, filled_refl]. rewrite bind_ret.
  destruct (hdr_ok_hton24 h (ntoh24 h + Z.of_nat (length (text_pair p v))) Hok) as [Hok' En]; [lia|].
  assert (length (splice d (Z.to_nat (ntoh24 h)) (text_pair p v)) = length d) as Hsp
    by (apply length_splice; lia).
  eapply safe_impl; [apply IH; [done|by rewrite Hsp]|]. intros [[? h'] d'] Hf.
  eapply filled_weaken; [|exact Hlen]. eapply filled_trans; [|exact Hf].
  split; [done|]. split; [lia|]. split; [lia|]. split; [done|]. intros i Hi. by apply hdr8_hton24.
Qed.

(** The operational stage never leaves its buffer, whatever the length. *)
Definition fill_safe (h d : list Z) (r : option (bool * list Z * list Z)) : Prop :=
  safe r (fun '(_, h', d') => exists g, filled g max h d h' d').

Lemma add_texts_fill h d l : hdr_ok h -> (max <= Z.of_nat (length d))%Z -> fill_safe h d (add_texts h d max l).
Proof. intros. eapply safe_impl; [by apply add_texts_safe|]. intros [[? ?] ?] ?. eauto. Qed.

Lemma and_fill_safe h d r k :
  (max <= Z.of_nat (length d))%Z -> fill_safe h d r ->
  (forall h' d', hdr_ok h' -> (max <= Z.of_nat (length d'))%Z -> fill_safe h' d' (k h' d')) ->
  fill_safe h d (and_fill r k).
Proof.
  intros Hd Hr Hk. unfold and_fill. eapply safe_bind; [exact Hr|]. intros [[ok h'] d'] [g Hf].
  destruct ok; [|apply safe_ret; eauto]. pose proof Hf as (Hh & _ & _ & Hl & _).
  eapply safe_impl; [apply Hk; [done|lia]|]. intros [[? h''] d''] [g' Hf']. exists (g + g').
  by eapply filled_trans.
Qed.

Lemma ret_fill h d b : hdr_ok h -> fill_safe h d (Some (b, h, d)).
Proof. intros Hh. apply safe_ret. exists 0. by apply filled_refl. Qed.

Lemma fill_op_offer_safe s h d :
  hdr_ok h -> (max <= Z.of_nat (length d))%Z -> fill_safe h d (fill_op_offer s h d max).
Proof.
  intros Hh Hd. unfold fill_op_offer. apply and_fill_safe; [done|by apply add_texts_fill|]. intros h1 d1 Hh1 Hd1.
  case_decide; [|by apply add_texts_fill]. apply and_fill_safe; [done|by apply add_texts_fill|].
  intros h2 d2 Hh2 Hd2. unfold add_params_transport_specific. case_decide; by apply add_texts_fill.
Qed.

Lemma fill_op_params_safe s h d :
  hdr_ok h -> (max <= Z.of_nat (length d))%Z ->
  safe (fill_op_params_text s h d max) (fun '(_, s', h', d') =>
    s' = fill_op_stage s /\ exists g, filled g max h d h' d').
Proof.
  intros Hh Hd. unfold fill_op_params_text. cbv zeta.
  set (is_rdma := bool_decide _ && _). clearbody is_rdma.
  assert (forall c h d, hdr_ok h -> (max <= Z.of_nat (length d))%Z ->
    fill_safe h d (fill_crc_digest_text c h d max)) as Hdig by (intros; by apply add_texts_fill).
  eapply (safe_bind _ _ (fun '(_, h', d') => exists g, filled g max h d h' d'));
    [|intros [[ok h'] d'] Hf; apply safe_ret; split; [done|exact Hf]].
  destruct (negb _).
  - apply and_fill_safe; [done| |intros; by apply fill_op_offer_safe].
    destruct is_rdma; [by apply ret_fill|by apply Hdig].
  - apply and_fill_safe; [done|by apply add_texts_fill|]. intros h1 d1 Hh1 Hd1.
    destruct is_rdma; [by apply Hdig|by apply ret_fill].
Qed.

End Room.

Lemma cstr_splice_after b off l k :
  off + length l <= length b -> off + length l <= k -> cstr (splice b off l) k = cstr b k.
Proof.
  intros Hb Hk. unfold cstr, splice. f_equal.
  rewrite drop_app_ge by (rewrite length_take; lia). rewrite length_take, Nat.min_l by lia.
  rewrite drop_app_ge by lia. rewrite drop_drop. f_equal. lia.
Qed.

Section Requests.
Context `{AEnv : AuthEnv} {AEnvOk : AuthEnvOk AEnv} `{LEnv : LoginEnv}.
Context (max : Z) (Hmax24 : (max < 2 ^ 24)%Z).

(** One key of the security stage needs at most this room. *)
Definition key_room (kt : Z) : nat := 12 + send_val_max kt.

Lemma enum_auth_keys_safe start rmt V client h d kt key :
  client_good start rmt V client -> hdr_ok h -> (max <= Z.of_nat (length d))%Z ->
  acl_get_key_name kt = Some key -> length key <= 10 -> (ntoh24 h + 11 < max)%Z ->
  safe (enum_auth_keys client h d max kt) (fun '(client', h', d') =>
    client_good start rmt V client' /\ (is_Some client <-> is_Some client') /\
    filled (key_room kt) max h d h' d').
Proof.
  intros Hg Hh Hd Ekey Hkey Hroom. unfold enum_auth_keys. rewrite Ekey. cbn [from_option id].
  destruct Hh as (Hl & Hh0 & H0). assert (hdr_ok h) as Hok by done.
  unfold u32. rewrite wrap_small by lia.
  set (off := Z.to_nat (ntoh24 h) + length key + 1).
  set (m := Z.to_nat (max - (ntoh24 h + Z.of_nat (length key) + 1))).
  assert (call_ok (CSendKeyVal kt d off m)) as Hcall by (cbn; lia).
  destruct (acl_send_key_val_safe client kt false d off m) as ([[[st kp] d1] cl1] & E & _ & Hcase);
    [apply Hg|lia|lia|].
  destruct (exec_good start rmt V (CSendKeyVal kt d off m) client) as ([st' cl'] & E' & Hg' & Hsome); [done..|].
  cbn [acl_exec] in E'. rewrite E in E'. cbn in E'. injection E' as <- <-.
  apply (client_good_mono _ _ _ V) in Hg';
    [|intros [?|Hv]; [done|by eapply call_no_verify in Hv]].
  rewrite E, bind_ret. destruct Hcase as [[-> Hno]|(v & Hn & Hv1 & Hv2 & ->)].
  { rewrite decide_False by (intros [-> ->]; by specialize (Hno eq_refl)).
    apply safe_ret. split; [done|]. split; [done|]. by apply filled_refl. }
  assert (length (splice d off (v ++ [NUL])) = length d) as Hs1
    by (apply length_splice; rewrite length_app; cbn; lia).
  case_decide as Hst.
  2: { apply safe_ret. split; [done|]. split; [done|]. split; [done|]. split; [lia|]. done. }
  rewrite buf_write_Some, bind_ret by lia.
  assert (length (splice (splice d off (v ++ [NUL])) (Z.to_nat (ntoh24 h)) key) = length d) as Hs2
    by (rewrite length_splice; lia).
  rewrite buf_set_Some, bind_ret by lia. rewrite splice_one by lia.
  rewrite !cstr_splice_after by (rewrite ?Hs2, ?Hs1; cbn; lia).
  rewrite cstr_splice, bind_ret by (done || lia). apply safe_ret. split; [done|]. split; [done|].
  destruct (hdr_ok_hton24 h (ntoh24 h + Z.of_nat (length key) + 1 + (Z.of_nat (length v) + 1)) Hok)
    as [Hok' En]; [lia|].
  split; [done|]. unfold key_room. split; [lia|]. split; [lia|].
  split; [rewrite length_splice; cbn; lia|]. intros i Hi. by apply hdr8_hton24.
Qed.

(** All the keys: five strings and the challenge. *)
Definition keys_room : nat := 3500.

Fixpoint rooms (n : nat) (kt : Z) : nat :=
  match n with
  | O => 0
  | S n' => key_room (kt + 1) + rooms n' (kt + 1)
  end.

Lemma enum_keys_safe start rmt V n : forall kt client h d,
  client_good start rmt V client -> hdr_ok h -> (max <= Z.of_nat (length d))%Z ->
  (-1 <= kt)%Z -> (kt + Z.of_nat n = 5)%Z -> (ntoh24 h + Z.of_nat (rooms n kt) + 11 < max)%Z ->
  safe (enum_keys (S n) kt client h d max) (fun '(client', h', d') =>
    client_good start rmt V client' /\ (is_Some client <-> is_Some client') /\
    filled (rooms n kt) max h d h' d').
Proof.
  induction n as [|n IH]; intros kt client h d Hg Hh Hd Hkt Hn Hroom; cbn [enum_keys];
    (destruct (next_key_type kt) as [[-> ->]|(Hlt & -> & key & Ekey & Hkey & _)]; [lia|..]); try lia.
  - rewrite decide_True by done. apply safe_ret. split; [done|]. split; [done|]. by apply filled_refl.
  - rewrite decide_False by (intros Hne; by apply Hne).
    cbn [rooms] in Hroom.
    eapply safe_bind; [apply (enum_auth_keys_safe start rmt V _ _ _ _ key); try done; lia|].
    intros [[client1 h1] d1] (Hg1 & Hs1 & Hf1). pose proof Hf1 as (Hh1 & Hlen & _ & Hl1 & _).
    eapply safe_impl; [apply IH; try done; lia|]. intros [[client2 h2] d2] (Hg2 & Hs2 & Hf2).
    split; [done|]. split; [by rewrite Hs1|]. cbn [rooms]. by eapply filled_trans.
Qed.

Lemma rooms_all : rooms 6 (-1) = 3397.
Proof. reflexivity. Qed.

Lemma security_text_safe start V s h d :
  good start V s -> hdr_ok h -> (max <= Z.of_nat (length d))%Z ->
  (ntoh24 h + Z.of_nat keys_room < max)%Z ->
  safe (fill_security_params_text s h (auth_client_of s) d max false) (fun '(ok, t, s', h', d') =>
    keeps s s' /\ good start V s' /\ (exists g, filled g max h d h' d') /\
    (ok = true -> next_stage (conn s') = security_next_stage s t)).
Proof.
  intros Hg Hh Hd Hroom. unfold fill_security_params_text.
  destruct (session_call_quiet start V CSendTransitBit s) as ([st client] & E & Hg1 & Hc1); [done..|].
  cbn [acl_exec] in E. destruct (acl_send_transit_bit (auth_client_of s) false) as [[rc t] cl].
  injection E as <- <-. cbv zeta. pose proof (put_client_keeps s cl) as Hk1.
  case_decide.
  { apply safe_ret. split; [done|]. split; [done|]. split; [|done]. exists 0. by apply filled_refl. }
  set (s1 := put_conn _ _). assert (keeps s s1) as Hk2 by (destruct cl; done).
  assert (next_stage (conn s1) = security_next_stage s t) as Hnext by (destruct cl; reflexivity).
  assert (good start V s1) as Hg2 by exact Hg1.
  assert (auth_client_of s1 = cl) as Hc2 by exact Hc1. clearbody s1.
  assert (client_good start (bidirectional_auth s1) V cl) as Hgc by (rewrite <- Hc2; exact Hg2).
  destruct (enum_keys_safe start (bidirectional_auth s1) V 6 (-1) cl h d)
    as ([[cl2 h2] d2] & E2 & Hg3 & Hsome & Hf); [done..|rewrite rooms_all; unfold keys_room in *; lia|].
  unfold AUTH_KEY_TYPE_NONE. rewrite E2, bind_ret. apply safe_ret. split; [transitivity s1; [done|apply put_client_keeps]|].
  split; [|split; [by eauto|intros _; by destruct cl2]]. unfold good. rewrite put_client_of by (by rewrite Hc2).
  destruct (put_client_keeps s1 cl2) as [Hk3 _]. apply keeps_fields in Hk3 as (_ & -> & _). done.
Qed.

(** ** The login PDU *)

(** What the login needs of the configuration of the session. *)
Record config_ok (s : iscsi_session) : Prop := {
  cfg_isid : length (isid s) = 6;
  cfg_name : forall l, initiator_name s = Some l -> length l <= 1024;
  cfg_alias : forall l, initiator_alias s = Some l -> length l <= 1024;
  cfg_target : length (target_name s) <= 1024;
  cfg_in : session_wf (session_in s)
}.

Lemma config_ok_same s s' : config_of s' = config_of s -> config_ok s -> config_ok s'.
Proof.
  unfold config_of. intros E []. injection E as.
  constructor; by repeat match goal with H : _ s' = _ s |- _ => rewrite H; clear H end.
Qed.

Lemma login_header_ok s : length (isid s) = 6 -> hdr_ok (login_header s) /\ ntoh24 (login_header s) = 0%Z.
Proof.
  unfold login_header. destruct (isid s) as [|a [|b [|c [|d [|e [|f [|g l]]]]]]]; cbn [length]; try lia.
  intros _. split; [|reflexivity]. split; [reflexivity|]. split; [reflexivity|]. vm_compute. discriminate.
Qed.

Lemma hdr_ok_flags h f : hdr_ok h -> hdr_ok (hdr_put h OFF_flags [f]) /\ ntoh24 (hdr_put h OFF_flags [f]) = ntoh24 h.
Proof.
  intros (Hl & Hh & H0).
  assert (OFF_flags + length [f] <= length h) as Hle by (rewrite Hl; cbn; unfold HDR_LEN; lia).
  assert (forall i, 4 <= i -> hdr8 (hdr_put h OFF_flags [f]) i = hdr8 h i) as H8.
  { intros i Hi. rewrite hdr8_put by done. case_decide as Hd; [|done]. cbn in Hd. unfold OFF_flags in Hd. lia. }
  assert (ntoh24 (hdr_put h OFF_flags [f]) = ntoh24 h) as En
    by (unfold ntoh24, OFF_dlength; rewrite !H8 by lia; done).
  split; [|done]. split; [by rewrite length_hdr_put|]. split; [|by rewrite En].
  by rewrite H8 by (unfold OFF_hlength; lia).
Qed.

Lemma texts_length_app l1 l2 : texts_length (l1 ++ l2) = texts_length l1 + texts_length l2.
Proof. induction l1 as [|[p v] l1 IH]; [done|]. unfold texts_length in *. cbn. rewrite IH. lia. Qed.

Lemma texts_length_cons p v l : texts_length ((p, v) :: l) = length p + length v + 2 + texts_length l.
Proof. unfold texts_length. cbn. rewrite text_pair_length. lia. Qed.

Lemma first_texts_length s texts : config_ok s -> first_texts s = Some texts -> texts_length texts <= 3200.
Proof.
  intros [_ Hn Ha Ht _] E. unfold first_texts in E.
  destruct (non_empty (initiator_name s)) as [name|] eqn:En; [|done]. injection E as <-.
  assert (length name <= 1024) as Hname.
  { apply Hn. by destruct (initiator_name s) as [[|]|]. }
  assert (forall l, non_empty (initiator_alias s) = Some l -> length l <= 1024) as Halias.
  { intros l El. apply Ha. by destruct (initiator_alias s) as [[|]|]. }
  rewrite texts_length_cons, !texts_length_app, texts_length_cons.
  destruct (non_empty (initiator_alias s)) as [alias|]; [specialize (Halias _ eq_refl)|];
    repeat case_decide; rewrite ?texts_length_cons; cbn -[Nat.add]; lia.
Qed.

(** Beyond the first stages a target that had to prove its identity did. *)
Definition stage_inv (V : Prop) (s : iscsi_session) : Prop :=
  truth (bidirectional_auth s) = true -> (0 < num_auth_buffers s)%Z ->
  current_stage (conn s) = ISCSI_INITIAL_LOGIN_STAGE \/
  current_stage (conn s) = ISCSI_SECURITY_NEGOTIATION_STAGE \/ V.

Lemma stage_inv_keeps V s s' : keeps s s' -> stage_inv V s -> stage_inv V s'.
Proof.
  intros [Hc Hs] H Hb Hn. apply keeps_fields in Hc as (Hn' & Hb' & _). rewrite Hs. apply H; congruence.
Qed.

Lemma first_pdu_safe start V s h d :
  config_ok s -> good start V s -> hdr_ok h -> (max <= Z.of_nat (length d))%Z ->
  safe (first_pdu s h d max) (fun '(ok, s', h', d') =>
    config_of s' = config_of s /\ good start V s' /\ filled 3200 max h d h' d' /\
    (current_stage (conn s) = ISCSI_INITIAL_LOGIN_STAGE -> stage_inv V s')).
Proof.
  intros Hcfg Hg Hh Hd. unfold first_pdu.
  assert (current_stage (conn s) = ISCSI_INITIAL_LOGIN_STAGE -> stage_inv V s) as Hinit
    by (intros E ? ?; by left).
  destruct (first_texts s) as [texts|] eqn:Et.
  2: { apply safe_ret. split_and!; try done. by apply filled_refl. }
  pose proof (first_texts_length s texts Hcfg Et) as Hlen.
  destruct (add_texts_safe max (Z.lt_le_incl _ _ Hmax24) texts h d Hh Hd) as ([[ok h'] d'] & -> & Hf).
  rewrite bind_ret. apply (filled_weaken _ 3200) in Hf; [|done].
  destruct ok; apply safe_ret; split_and!; try done. intros _ Hb Hn.
  assert (num_auth_buffers s > 0)%Z as Hn' by exact (Z.lt_gt _ _ Hn).
  right. left. cbn. unfold auth_client_of. by rewrite decide_True by lia.
Qed.

(** The stages of a request and its T bit. *)
Definition stages_ok (s : iscsi_session) (transit : bool) : Prop :=
  let cur := current_stage (conn s) in
  let next := next_stage (conn s) in
  (cur = ISCSI_SECURITY_NEGOTIATION_STAGE \/ cur = ISCSI_OP_PARMS_NEGOTIATION_STAGE) /\
  (transit = true -> (cur < next)%Z /\
     (next = ISCSI_OP_PARMS_NEGOTIATION_STAGE \/ next = ISCSI_FULL_FEATURE_PHASE)).

Lemma fill_stage_safe start V s h d :
  good start V s -> hdr_ok h -> (max <= Z.of_nat (length d))%Z -> (ntoh24 h + Z.of_nat keys_room < max)%Z ->
  safe (fill_stage s h d max) (fun '(ok, t, s', h', d') =>
    keeps s s' /\ good start V s' /\ (exists g, filled g max h d h' d') /\ (ok = true -> stages_ok s' t)).
Proof.
  intros Hg Hh Hd Hroom. unfold fill_stage. case_decide as Hst; [|case_decide].
  - destruct (fill_op_params_safe max (Z.lt_le_incl _ _ Hmax24) s h d Hh Hd)
      as ([[[ok s'] h'] d'] & -> & -> & Hf). rewrite bind_ret. apply safe_ret.
    split; [split; [done|cbn; by rewrite Hst]|]. split; [exact Hg|]. split; [done|]. intros _.
    split; [by right|]. intros _. split; [reflexivity|]. by right.
  - eapply safe_impl; [by apply security_text_safe|]. intros [[[[ok t] s'] h'] d'] (Hk & Hg' & Hf & Hnx).
    split_and!; [done..|]. intros Hok. unfold stages_ok. destruct Hk as [_ ->]. rewrite Hnx by done.
    rewrite H. split; [by left|]. intros ->. unfold security_next_stage.
    repeat case_decide; (split; [reflexivity|by auto]).
  - apply safe_ret. split_and!; [done|done| |done]. exists 0. by apply filled_refl.
Qed.

(** The request is built in its buffer; the stage is that of the session, or
    the first one. *)
Lemma make_login_pdu_safe start V s d :
  config_ok s -> good start V s -> stage_inv V s -> (max <= Z.of_nat (length d))%Z -> (8192 <= max)%Z ->
  safe (iscsi_make_login_pdu s d max) (fun '(ok, s', h', d') =>
    config_of s' = config_of s /\ good start V s' /\ stage_inv V s' /\ hdr_ok h' /\
    (ntoh24 h' <= max)%Z /\ length d' = length d /\
    (ok = true -> exists t, stages_ok s' t /\ hdr8 h' OFF_flags = login_flags (conn s') t /\
       forall i, i = OFF_opcode \/ OFF_dlength + 3 <= i -> hdr8 h' i = hdr8 (login_header s) i)).
Proof.
  intros Hcfg Hg Hinv Hd H8k. unfold iscsi_make_login_pdu.
  destruct (login_header_ok s (cfg_isid _ Hcfg)) as [Hh H0].
  eapply (safe_bind _ _ (fun '(ok, s', h', d') => config_of s' = config_of s /\ good start V s' /\
    stage_inv V s' /\ filled 3200 max (login_header s) d h' d')).
  { case_decide as Hst.
    - eapply safe_impl; [by apply first_pdu_safe|]. intros [[[ok s'] h'] d'] (? & ? & ? & ?). by auto.
    - apply safe_ret. split_and!; try done; by apply filled_refl. }
  intros [[[ok s1] h1] d1] (Hc1 & Hg1 & Hi1 & Hf1). pose proof Hf1 as (Hh1 & Hl1 & Hm1 & Hd1 & Hfr1).
  destruct ok; cbn [negb]; [|apply safe_ret; split_and!; try done; lia].
  eapply safe_bind; [apply (fill_stage_safe start V); try done; unfold keys_room; lia|].
  intros [[[[ok t] s2] h2] d2] (Hk2 & Hg2 & (g & Hf2) & Hns). pose proof Hf2 as (Hh2 & Hl2 & Hm2 & Hd2 & Hfr2).
  pose proof (stage_inv_keeps _ _ _ Hk2 Hi1) as Hi2. destruct Hk2 as [Hk2 _].
  destruct ok; cbn [negb]; apply safe_ret.
  - destruct (hdr_ok_flags h2 (login_flags (conn s2) t) Hh2) as [Hh3 En].
    split_and!; try done; [congruence|rewrite En; lia|congruence|]. intros _. exists t.
    assert (OFF_flags + length [login_flags (conn s2) t] <= length h2) as Hle
      by (destruct Hh2 as [-> _]; cbn; unfold HDR_LEN; lia).
    split; [by apply Hns|]. split; [by rewrite hdr8_put by done|]. intros i Hi. unfold OFF_opcode, OFF_dlength in *.
    rewrite hdr8_put by done. cbn [length]. case_decide as Hin; [unfold OFF_flags in Hin; lia|].
    rewrite Hfr2, Hfr1; [done|unfold OFF_dlength; lia..].
  - split_and!; try done; [congruence|lia|congruence].
Qed.

End Requests.

(** ** Preparing the client *)
Section Begin.
Context `{AEnv : AuthEnv} {AEnvOk : AuthEnvOk AEnv} `{LEnv : LoginEnv}.

(** What [check_for_authentication] needs of the credentials. *)
Record auth_cfg (s : iscsi_session) : Prop := {
  ac_user : no_nul (s_username s);
  ac_pass : length (s_password s) = AUTH_STR_MAX_LEN;
  ac_pass_len : (0 <= s_password_length s <= 256)%Z;
  ac_block : acl_ok (Some (auth_client_block s))
}.

(** The client between two configuration calls. *)
Definition configuring (start : nat) (client : option iscsi_acl) : Prop :=
  acl_ok client /\ client_inv start False client /\ client_initiator client /\ is_Some client.

(** The result of the preparation. *)
Definition prepared (start : nat) (s : iscsi_session) (r : iscsi_login_status * iscsi_session) : Prop :=
  keeps s r.2 /\ (r.1 = LOGIN_OK -> good start False r.2) /\ acl_ok (Some (auth_client_block r.2)).

Lemma put_client_block s client :
  acl_ok (Some (auth_client_block s)) -> acl_ok client -> acl_ok (Some (auth_client_block (put_client s client))).
Proof. by destruct client. Qed.

Lemma auth_end_safe start s client :
  acl_ok (Some (auth_client_block s)) -> acl_ok client -> safe (auth_end s client) (prepared start s).
Proof.
  intros Hblk Hok. unfold auth_end. destruct (acl_finish_safe client Hok) as ([st client'] & -> & Hok').
  rewrite bind_ret. apply safe_ret. split; [apply put_client_keeps|]. split; [done|]. by apply put_client_block.
Qed.

Lemma with_client_some c f st client : with_client (Some c) f = Some (st, client) -> is_Some client.
Proof.
  unfold with_client. intros E. case_decide; [injection E as _ <-; eauto|].
  apply bind_Some in E as ([st1 c1] & _ & E). injection E as _ <-. eauto.
Qed.

Definition is_setter (call : acl_call) : bool :=
  match call with
  | CSetUserName _ | CSetPasswd _ _ | CSetAuthRmt _ | CSetIpSec _ | CSetChapAlgList _ _ => true
  | _ => false
  end.

Lemma setter_configuring start call client :
  is_setter call = true -> call_ok call -> configuring start client ->
  safe (acl_exec call client) (fun '(_, client') => configuring start client').
Proof.
  intros Hset Hcall (Hok & Hi & Hn & [c ->]).
  destruct (acl_exec_safe call (Some c) Hok Hcall) as ([st client'] & E & Hok').
  exists (st, client'). split; [done|]. split; [done|]. split; [|split].
  - pose proof (acl_exec_inv _ _ _ _ _ _ Hok Hcall Hi E) as Hi'. intros c' Hc' Hs.
    eapply ctl_inv_mono; [|by apply Hi']. intros [?|Hv]; [done|].
    assert (is_recv_end call = false) as Hre by (by destruct call). by eapply call_no_verify in Hv.
  - exact (exec_node start False call (Some c) st client' Hok Hcall Hi Hn E).
  - destruct call; try discriminate Hset; by eapply with_client_some.
Qed.

Lemma auth_step_safe start s client cond call k :
  acl_ok (Some (auth_client_block s)) -> is_setter call = true -> call_ok call -> configuring start client ->
  (forall client', configuring start client' -> safe (k client') (prepared start s)) ->
  safe (auth_step s client cond (acl_exec call) k) (prepared start s).
Proof.
  intros Hblk Hset Hcall Hc Hk. unfold auth_step. destruct cond; [|by apply Hk].
  eapply safe_bind; [by apply setter_configuring|]. intros [st client'] Hc'. case_decide; [|by apply Hk].
  by apply auth_end_safe, Hc'.
Qed.

(** The last call sets whether the target is authenticated. *)
Lemma set_auth_rmt_good start client rmt st client' :
  configuring start client -> acl_exec (CSetAuthRmt rmt) client = Some (st, client') ->
  st = AUTH_STATUS_NO_ERROR -> client_good start rmt False client'.
Proof.
  intros Hc E ->. destruct (setter_configuring start (CSetAuthRmt rmt) client) as (r & E' & Hc'); [done..|].
  rewrite E in E'. injection E' as <-. destruct Hc' as (Hok' & Hi' & Hn' & _). constructor; [done..|].
  intros c' Hc' Hs. split; [by apply Hn'|]. destruct Hc as (_ & Hi & _ & [c ->]).
  cbn [acl_exec] in E. unfold acl_set_auth_rmt, with_client in E. case_decide as Hsig; [by injection E|].
  apply bind_Some in E as ([st1 c1] & E & E'). injection E' as -> <-. injection Hc' as ->.
  eapply (set_auth_rmt_spec start False) in E as [_ E]; [by apply E|]. apply Hi; [done|].
  by destruct (decide (signature c = ACL_SIGNATURE)).
Qed.

Lemma configure_client_safe start s client :
  no_nul (s_username s) -> length (s_password s) = AUTH_STR_MAX_LEN -> (0 <= s_password_length s <= 256)%Z ->
  (0 < num_auth_buffers s)%Z -> acl_ok (Some (auth_client_block s)) -> configuring start client ->
  safe (configure_client s client) (prepared start s).
Proof.
  intros Huser Hpass Hlen Hnum Hblk Hc. unfold configure_client.
  destruct (lookup_lt_is_Some_2 (s_password s) 0) as [p0 Hp0]; [rewrite Hpass; unfold AUTH_STR_MAX_LEN; lia|].
  rewrite Hp0, bind_ret.
  assert (Z.to_nat (u32 (s_password_length s)) <= length (s_password s)) as Hpl.
  { unfold u32. rewrite wrap_small by lia. rewrite Hpass. unfold AUTH_STR_MAX_LEN. lia. }
  apply (auth_step_safe _ _ _ _ (CSetUserName (Some (s_username s)))); [done..|]. intros client2 Hc2.
  apply (auth_step_safe _ _ _ _ (CSetPasswd (s_password s) (Z.to_nat (u32 (s_password_length s)))));
    [done..|]. intros client3 Hc3.
  set (algs := acl_init_chap_digests _). clearbody algs.
  apply (auth_step_safe _ _ _ _ (CSetChapAlgList (length algs) algs)); [done|done|cbn; lia|done|]. intros client4 Hc4.
  apply (auth_step_safe _ _ _ _ (CSetIpSec 1)); [done..|]. intros client5 Hc5. unfold auth_step.
  destruct (setter_configuring start (CSetAuthRmt (bidirectional_auth s)) client5) as ([st6 client6] & E6 & Hc6);
    [done..|].
  cbn [acl_exec] in E6. rewrite E6, bind_ret. case_decide as Hst6; [by apply auth_end_safe, Hc6|].
  apply safe_ret. split; [apply put_client_keeps|]. split; [|by apply put_client_block, Hc6]. intros _. unfold good. cbn [fst snd]. rewrite put_client_of.
  - destruct (put_client_keeps s client6) as [Hk _]. apply keeps_fields in Hk as (_ & -> & _).
    eapply set_auth_rmt_good; [exact Hc5|exact E6|]. by destruct (decide (st6 = AUTH_STATUS_NO_ERROR)).
  - unfold auth_client_of. rewrite decide_True by done. destruct Hc6 as (_ & _ & _ & Hsome). split; [done|]. eauto.
Qed.

Lemma check_auth_safe s :
  auth_cfg s -> safe (check_for_authentication s) (prepared (rand_pos (auth_client_block s)) s).
Proof.
  intros [Huser Hpass Hlen Hblk]. unfold check_for_authentication.
  destruct (acl_init_safe TYPE_INITIATOR (num_auth_buffers s) (auth_buffers s) (auth_client_block s) Hblk)
    as ([st c1] & E & Hok1 & _).
  rewrite E, bind_ret. cbv zeta. case_decide as Hst; [apply safe_ret; by split|].
  assert (st = AUTH_STATUS_NO_ERROR) as -> by (by destruct (decide (st = AUTH_STATUS_NO_ERROR))).
  assert (num_auth_buffers s = 5%Z) as H5.
  { unfold acl_init in E. by case_decide; [|destruct (decide (num_auth_buffers s = 5%Z))]. }
  rewrite H5 in E. set (start := rand_pos (auth_client_block s)) in *.
  eapply safe_impl; [apply (configure_client_safe start); try done|].
  - change (0 < num_auth_buffers s)%Z. lia.
  - split; [done|]. split; [by eapply init_client_inv|]. split; [|eauto].
    apply acl_init_inv in E as (_ & _ & _ & Hn & _). by intros ? [= <-].
  - intros r (Hk & Hg & Hb). by split_and!.
Qed.

End Begin.
