(* ===== verification/LoginDriver.v ===== *)
(** * Login: the invariant of the driver

    [iscsi_login] over any behaviour of the network: it stays in its buffers,
    and a login that succeeds has gone through the authentication that the
    session asked for. *)
From S2P Require Import Prelude CString AuthText Acl AclFrame AclSafety AclProtocol AclTheorems.
From S2P Require Import Pdu LoginText Io Timer Login LoginReq LoginSafety LoginReqSafety.
From Stdlib Require Import Ascii Lia ZArith.
From stdpp Require Import base tactics numbers list strings option.

Section Driver.
Context `{AEnv : AuthEnv} {AEnvOk : AuthEnvOk AEnv} `{LEnv : LoginEnv}.

(** The PDU that arrived at a call of [iscsi_login_rsp] proves the knowledge of
    the incoming password. *)
Definition call_verified (start : nat) (call : rsp_call) : Prop :=
  exists n hdr data net, 
    iscsi_io_recv_pdu (use_ipc (r_session call)) (r_ipc call) (pdu (r_ctx call)) (buffer (r_ctx call))
      (max_data_length (r_ctx call)) (r_net call) = Some (RecvOk n, hdr, data, net) /\
    rsp_verified start (r_session call) hdr data.

(** The buffers of the context, before and after a request was made. *)
Record ctx_ok (c : login_context) : Prop := {
  ctx_pdu : length (pdu c) = HDR_LEN;
  ctx_size : (8192 <= bufsize c < 2 ^ 24)%Z;
  ctx_buf : (bufsize c <= Z.of_nat (length (buffer c)))%Z;
  ctx_no_client : ctx_auth_client c = false
}.

Definition ctx_sent (c : login_context) : Prop := max_data_length c = bufsize c /\ final c = 0%Z.

Lemma ctx_finish_none s c : ctx_auth_client c = false -> ctx_finish s c = Some (s, c).
Proof. unfold ctx_finish. by intros ->. Qed.

(** What is known of the session: [V] stands for the evidence so far. *)
Record sess_inv (start : nat) (V : Prop) (s : iscsi_session) : Prop := {
  si_config : config_ok s;
  si_good : good start V s;
  si_stage : stage_inv V s
}.

Lemma sess_inv_mono start (V V' : Prop) s : (V -> V') -> sess_inv start V s -> sess_inv start V' s.
Proof.
  intros HV [Hc Hg Hs]. constructor; [done|by eapply client_good_mono|].
  intros Hb Hn. destruct (Hs Hb Hn) as [?|[?|?]]; auto.
Qed.

(** ** Requests *)
Lemma send_pdu_total ipc rc h d net :
  hdr_ok h -> (ntoh24 h <= Z.of_nat (length d))%Z ->
  exists ok out net', iscsi_io_send_pdu ipc rc h d net = Some (ok, out, net').
Proof.
  intros (Hl & Hh & H0) Hd. unfold iscsi_io_send_pdu. rewrite decide_False by (intros Hx; by apply Hx).
  destruct (write_header net h) as [[ok out] net1]. destruct ok; cbn [negb]; [|by eauto].
  rewrite buf_prefix_Some, bind_ret by lia. destruct (write_data _ _ _ _) as [[ok2 out2] net2]. eauto.
Qed.

Lemma login_req_safe start V s c net rc :
  sess_inv start V s -> ctx_ok c ->
  safe (iscsi_login_req s c net rc) (fun '(r, s', c', _) =>
    sess_inv start V s' /\ config_of s' = config_of s /\ ctx_ok c' /\ ctx_sent c' /\
    (truth r = true -> ret c' <> LOGIN_OK) /\
    (truth r = false -> current_stage (conn s') <> ISCSI_INITIAL_LOGIN_STAGE)).
Proof.
  intros [Hcfg Hg Hst] [Hp Hsz Hb Hnc]. unfold iscsi_login_req.
  rewrite buf_write_Some, bind_ret by (rewrite length_replicate; lia).
  set (buf := splice _ 0 _).
  assert (length buf = length (buffer c)) as Hlb by (apply length_splice; rewrite length_replicate; lia).
  clearbody buf. cbv zeta. set (secs := if decide _ then _ else _). clearbody secs.
  set (c1 := c <| final := 0%Z |> <| ret := LOGIN_FAILED |> <| max_data_length := bufsize c |> <| timeout := secs |>).
  change (max_data_length c1) with (bufsize c).
  destruct (make_login_pdu_safe (bufsize c) (proj2 Hsz) start V s buf Hcfg Hg Hst)
    as ([[[ok s1] h1] d1] & -> & Hc1 & Hg1 & Hi1 & Hh1 & Hm1 & Hl1 & Hns); [lia|lia|]. rewrite bind_ret.
  assert (sess_inv start V s1) as Hs1 by (constructor; [by eapply config_ok_same|done|done]).
  set (c2 := c1 <| pdu := h1 |> <| buffer := d1 |>).
  assert (forall r, ctx_ok (c2 <| ret := r |>) /\ ctx_sent (c2 <| ret := r |>)) as Hc2.
  { intros r. split; [constructor|split]; cbn; try done; [apply Hh1|lia]. }
  assert (forall r, ctx_finish s1 (c2 <| ret := r |>) = Some (s1, c2 <| ret := r |>)) as Hfin
    by (intros r; by apply ctx_finish_none).
  destruct ok; cbn [negb].
  - destruct (send_pdu_total (use_ipc s1) rc h1 d1 net) as (ok & out & net' & ->); [done|lia|]. rewrite bind_ret.
    destruct ok; cbn [negb].
    + apply safe_ret. destruct (Hc2 LOGIN_FAILED) as [H1 H2]. split_and!; try done. intros _.
      destruct (Hns eq_refl) as (t & [Hcur _] & _). change (current_stage (conn s1) <> ISCSI_INITIAL_LOGIN_STAGE).
      by destruct Hcur as [-> | ->].
    + rewrite Hfin, bind_ret. apply safe_ret. destruct (Hc2 LOGIN_IO_ERROR) as [H1 H2]. by split_and!.
  - rewrite (Hfin LOGIN_FAILED : ctx_finish s1 c2 = _), bind_ret. apply safe_ret.
    destruct (Hc2 LOGIN_FAILED) as [H1 H2]. by split_and!.
Qed.

(** ** Responses *)
Lemma sess_rsp_outcome start V s rsp data st s' data' :
  sess_inv start V s -> current_stage (conn s) <> ISCSI_INITIAL_LOGIN_STAGE ->
  rsp_outcome start V s rsp data st s' data' ->
  sess_inv start (V \/ rsp_verified start s rsp data) s'.
Proof.
  intros [Hcfg Hg Hst] Hns [Ho1 Ho2 Ho3 Ho4 _ _]. constructor; [by eapply config_ok_same|done|].
  intros Hb Hn. apply keeps_fields in Ho1 as (Hn' & Hb' & _).
  destruct (Hst) as [?|[Hsec|?]]; [congruence..|done| |by right; right; left].
  destruct Ho4 as [E|(_ & _ & _ & Hv)]; [right; left; congruence|].
  right. right. apply Hv; congruence.
Qed.

(** [check_status_login_response]: only a success goes on, and LOGIN_OK with
    [final] set means that the target refused. *)
Lemma check_status_safe start V s rsp data max :
  sess_inv start V s -> current_stage (conn s) <> ISCSI_INITIAL_LOGIN_STAGE -> Forall is_byte rsp ->
  (max <= Z.of_nat (length data))%Z ->
  safe (check_status_login_response s rsp data max 0) (fun '(st, fin, s', data') =>
    sess_inv start (V \/ rsp_verified start s rsp data) s' /\ config_of s' = config_of s /\
    length data' = length data /\
    (truth fin = false -> st = LOGIN_OK /\ hdr8 rsp OFF_status_class = ISCSI_STATUS_CLS_SUCCESS) /\
    (truth fin = true -> st = LOGIN_OK -> hdr8 rsp OFF_status_class <> ISCSI_STATUS_CLS_SUCCESS)).
Proof.
  intros Hs Hns Hr Hmax. unfold check_status_login_response. cbv zeta.
  assert (safe (iscsi_process_login_response s rsp data max) (fun '(st, s', data') =>
    sess_inv start (V \/ rsp_verified start s rsp data) s' /\ config_of s' = config_of s /\
    length data' = length data)) as ([[st s'] data'] & E & Hs' & Hc' & Hl').
  { eapply safe_impl; [apply (process_rsp_safe start V); try done; [apply Hs|apply Hs]|].
    intros [[st s'] data'] Ho. split; [by eapply sess_rsp_outcome|]. destruct Ho. done. }
  case_decide as Hcls; [|case_decide as Hred].
  - rewrite E, bind_ret. apply safe_ret. split_and!; [done..| |]; by case_decide as Hst.
  - rewrite E, bind_ret. apply safe_ret. by split_and!.
  - apply safe_ret. split_and!; try done. eapply sess_inv_mono; [|exact Hs]. by left.
Qed.

(** The result of [iscsi_login_rsp]. *)
Definition rsp_result (start : nat) (V : Prop) (s : iscsi_session)
    (res : Z * iscsi_session * login_context * list read_event) : Prop :=
  let '(r, s', c', net') := res in
  sess_inv start V s' /\ config_of s' = config_of s /\ ctx_ok c' /\ net_bytes net' /\
  (r = - EAGAIN -> s' = s /\ ctx_sent c')%Z /\
  (r = 0 -> ret c' = LOGIN_OK /\ status_class c' = ISCSI_STATUS_CLS_SUCCESS)%Z /\
  (r <> 0 -> r <> - EAGAIN -> ret c' = LOGIN_OK -> status_class c' <> ISCSI_STATUS_CLS_SUCCESS)%Z.

Lemma rsp_done_error start V s s' c err net :
  sess_inv start V s' -> config_of s' = config_of s -> ctx_ok c -> net_bytes net -> err = (- EIO)%Z ->
  (ret c = LOGIN_OK -> status_class c <> ISCSI_STATUS_CLS_SUCCESS) ->
  safe (rsp_done s' c err net) (rsp_result start V s).
Proof.
  intros Hs Hcfg Hc Hn -> Hret. unfold rsp_done. rewrite ctx_finish_none, bind_ret by apply Hc.
  apply safe_ret. by split_and!.
Qed.

Lemma handle_rsp_safe start V s c net :
  sess_inv start V s -> current_stage (conn s) <> ISCSI_INITIAL_LOGIN_STAGE -> ctx_ok c -> ctx_sent c ->
  Forall is_byte (pdu c) -> net_bytes net ->
  safe (handle_rsp s c net) (rsp_result start (V \/ rsp_verified start s (pdu c) (buffer c)) s).
Proof.
  intros Hs Hns [Hp Hsz Hb Hnc] [Hmx Hfin] Hbytes Hn. unfold handle_rsp.
  assert (sess_inv start (V \/ rsp_verified start s (pdu c) (buffer c)) s) as Hs0
    by (eapply sess_inv_mono; [|exact Hs]; by left).
  assert (forall c', pdu c' = pdu c -> bufsize c' = bufsize c -> length (buffer c') = length (buffer c) ->
    ctx_auth_client c' = false -> ctx_ok c') as Hctx.
  { intros c' E1 E2 E3 E4. constructor; [by rewrite E1|by rewrite E2|rewrite E2, E3; done|done]. }
  cbv zeta. case_decide; [|case_decide].
  - by apply rsp_done_error.
  - by apply rsp_done_error.
  - change (pdu (c <| received_pdu := 1%Z |>)) with (pdu c). set (c1 := _ <| status_detail := _ |>).
    change (pdu c1) with (pdu c). change (buffer c1) with (buffer c).
    change (max_data_length c1) with (max_data_length c). change (final c1) with (final c).
    rewrite Hfin. assert (status_class c1 = hdr8 (pdu c) OFF_status_class) as Hcls by done.
    destruct (check_status_safe start V s (pdu c) (buffer c) (max_data_length c))
      as ([[[st fin] s'] data'] & E & Hs' & Hc' & Hl' & Hgo & Hstop); [done..|lia|].
    rewrite E, bind_ret.
    assert (ctx_ok (c1 <| ret := st |> <| final := fin |> <| buffer := data' |>)) as Hc1 by (by apply Hctx).
    destruct (truth fin) eqn:Ef.
    + apply rsp_done_error; try done. cbn. rewrite <- Hcls in Hstop. by apply Hstop.
    + destruct (Hgo eq_refl) as [-> Hok]. apply safe_ret. split_and!; try done.
Qed.

(** Receiving the PDU and handling it. *)
Lemma login_rsp_safe start V s c ipc net :
  sess_inv start V s -> current_stage (conn s) <> ISCSI_INITIAL_LOGIN_STAGE -> ctx_ok c -> ctx_sent c ->
  net_bytes net ->
  safe (iscsi_login_rsp s c ipc net)
    (rsp_result start (V \/ call_verified start (mk_call s c ipc net)) s).
Proof.
  intros Hs Hns Hc [Hmx Hfin] Hn. destruct (Hc) as [Hp Hsz Hb Hnc]. unfold iscsi_login_rsp.
  assert (sess_inv start (V \/ call_verified start (mk_call s c ipc net)) s) as Hs0
    by (eapply sess_inv_mono; [|exact Hs]; by left).
  assert (max_data_length c = Z.of_nat (Z.to_nat (bufsize c))) as Hmax by lia.
  destruct (recv_pdu_safe (use_ipc s) ipc (pdu c) (buffer c) (Z.to_nat (bufsize c)) net)
    as (st & hdr & data & net' & E & Hh & Hd & Hn' & Hrecv); [done|lia|done|].
  rewrite <- Hmax in E. rewrite E, bind_ret. cbv zeta.
  set (c1 := c <| pdu := hdr |> <| buffer := data |>).
  assert (forall r, ctx_ok (c1 <| ret := r |>)) as Hc1.
  { intros r. constructor; [exact Hh|exact Hsz| |exact Hnc].
    change (bufsize c <= Z.of_nat (length data))%Z. by rewrite Hd. }
  destruct st as [| |n].
  - unfold rsp_done. rewrite ctx_finish_none, bind_ret by done. apply safe_ret.
    split_and!; try done. exact (Hc1 (ret c)).
  - by apply rsp_done_error.
  - destruct (Hrecv n eq_refl) as [_ Hbytes _ _ _].
    eapply safe_impl; [apply (handle_rsp_safe start V); try done; exact (Hc1 (ret c))|].
    intros [[[r s'] c'] net''] (Hs' & Hrest). split; [|exact Hrest].
    eapply sess_inv_mono; [|exact Hs']. intros [?|Hv]; [by left|]. right. by exists n, hdr, data, net'.
Qed.

(** ** The loops *)
Definition evidence (start : nat) (st : login_state) : Prop := Exists (call_verified start) (l_calls st).

Record st_inv (start : nat) (st : login_state) : Prop := {
  sti_session : sess_inv start (evidence start st) (l_session st);
  sti_ctx : ctx_ok (l_ctx st);
  sti_net : net_bytes (l_net st)
}.

(** When [iscsi_login] returns LOGIN_OK and the status class is success, the
    login is complete. *)
Definition complete (f : flow) (st : login_state) : Prop :=
  f = Return -> ret (l_ctx st) = LOGIN_OK ->
  (exists d, l_out st = Some (ISCSI_STATUS_CLS_SUCCESS, d)) ->
  current_stage (conn (l_session st)) = ISCSI_FULL_FEATURE_PHASE.

Definition polls_ok (ps : list poll_result) : Prop := Forall (fun p => net_bytes (arrived p)) ps.

Definition rounds_ok (rs : list login_round) : Prop := Forall (fun r => polls_ok (polls r)) rs.

#[global] Instance rounds_ok_dec rs : Decision (rounds_ok rs).
Proof. unfold rounds_ok, polls_ok. apply _. Defined.

(** The outcome of a part of the driver. *)
Definition driver_ok (start : nat) (s : iscsi_session) (r : flow * login_state) : Prop :=
  st_inv start r.2 /\ complete r.1 r.2 /\ config_of (l_session r.2) = config_of s.

Lemma stop_with_safe start st r :
  st_inv start st -> r <> LOGIN_OK -> safe (stop_with st r) (driver_ok start (l_session st)).
Proof.
  intros [Hs Hc Hn] Hr. apply safe_ret. split; [|split; [intros _ E; by destruct (Hr E)|done]]. constructor; [exact Hs| |exact Hn].
  destruct Hc. by constructor.
Qed.

Lemma again_ok start st s : st_inv start st -> config_of (l_session st) = config_of s -> driver_ok start s (Again, st).
Proof. intros Hi Hc. split; [done|]. split; [done|exact Hc]. Qed.

Lemma poll_rsp_safe start timer ps : forall st,
  polls_ok ps -> st_inv start st -> current_stage (conn (l_session st)) <> ISCSI_INITIAL_LOGIN_STAGE ->
  ctx_sent (l_ctx st) -> safe (poll_rsp timer ps st) (driver_ok start (l_session st)).
Proof.
  induction ps as [|p ps IH]; intros st Hps Hst Hns Hsent; cbn [poll_rsp]; [by apply safe_ret|].
  apply Forall_cons_iff in Hps as [Hp Hps].
  case_match; [by apply stop_with_safe|]. case_decide; [|case_decide; [by apply stop_with_safe|by apply safe_ret, again_ok]].
  case_match; [|repeat (case_match; [by apply stop_with_safe|]); by apply safe_ret, again_ok].
  destruct (Hst) as [Hs Hc Hn]. cbv zeta. set (net := l_net st ++ arrived p).
  assert (net_bytes net) as Hnet by (by apply Forall_app).
  destruct (login_rsp_safe start (evidence start st) (l_session st) (l_ctx st) (poll_ipc p) net)
    as ([[[r s] c] net'] & E & Hs' & Hcfg & Hc' & Hn' & Hag & Hgo & Herr); [done..|].
  rewrite E, bind_ret. set (calls := l_calls st ++ _).
  assert (forall out, st_inv start (mk_login s c out net' calls)) as Hinv.
  { intros out. constructor; [|done|done]. eapply sess_inv_mono; [|exact Hs'].
    unfold evidence. cbn [l_calls]. subst calls. rewrite Exists_app, Exists_cons. intros [?|?]; auto. }
  case_decide as Hr.
  - destruct (Hag Hr) as [-> Hsent']. by apply (IH (mk_login (l_session st) c (l_out st) net' calls)).
  - case_match eqn:Ht; apply safe_ret; [|by apply again_ok]. split; [by apply Hinv|]. split; [|done].
    intros _ Hret [d Hd]. exfalso. cbn in Hret, Hd. injection Hd as Hd _.
    unfold truth in Ht. apply negb_true_iff, Z.eqb_neq in Ht. by apply (Herr Ht Hr Hret).
Qed.

Lemma login_iter_safe start r st :
  polls_ok (polls r) -> st_inv start st ->
  safe (login_iter r st) (fun '(f, st', _) => driver_ok start (l_session st) (f, st')).
Proof.
  intros Hp [Hs Hc Hn]. unfold login_iter.
  destruct (login_req_safe start (evidence start st) (l_session st) (l_ctx st) (writes r) (send_rc r))
    as ([[[rc s] c] out] & E & Hs' & Hcfg & Hc' & Hsent & Herr & Hns); [done..|].
  rewrite E, bind_ret. cbv zeta. set (st1 := mk_login s c (l_out st) (l_net st) (l_calls st)).
  assert (st_inv start st1) as Hst1 by (by constructor).
  destruct (truth rc).
  - apply safe_ret. split; [done|]. split; [|done]. intros _ Hret. by destruct (Herr eq_refl).
  - eapply safe_bind; [apply (poll_rsp_safe start _ _ st1); try done; by apply Hns|].
    intros [f st2] (Hi & Hd & Hcfg2). apply safe_ret. split; [done|]. split; [done|].
    cbn in *. congruence.
Qed.

Lemma login_loop_safe start rs : forall st,
  rounds_ok rs -> st_inv start st -> safe (login_loop rs st) (driver_ok start (l_session st)).
Proof.
  induction rs as [|r rs IH]; intros st Hrs Hst; cbn [login_loop]; [by apply safe_ret|].
  apply Forall_cons_iff in Hrs as [Hr Hrs].
  eapply safe_bind; [by apply login_iter_safe|]. intros [[f st1] out] (Hi & Hd & Hcfg). cbn in Hi, Hd, Hcfg.
  destruct f; try (by apply safe_ret). case_decide as Hst1.
  - eapply safe_impl; [by apply IH|]. intros [f st2] (Hi2 & Hd2 & Hcfg2). split_and!; [done..|].
    cbn in *. congruence.
  - destruct Hi as [Hs Hc Hn]. destruct (Hc) as [Hp Hsz Hb Hnc].
    rewrite ctx_finish_none, bind_ret by done. apply safe_ret. split; [|split; [|done]].
    + constructor; [exact Hs| |exact Hn]. by constructor.
    + intros _ _ _. cbn. by destruct (decide (current_stage (conn (l_session st1)) = ISCSI_FULL_FEATURE_PHASE)).
Qed.

(** ** The whole login *)

(** The client's memory, the credentials, the names and the buffer. *)
Record login_pre (s : iscsi_session) (c : login_context) (buffer : list Z) (bufsize : Z) : Prop := {
  pre_config : config_ok s;
  pre_auth : auth_cfg s;
  pre_pdu : length (pdu c) = HDR_LEN;
  pre_size : (8192 <= bufsize < 2 ^ 24)%Z;
  pre_buf : (bufsize <= Z.of_nat (length buffer))%Z
}.

(** The session and the context when [iscsi_login_begin] was called. *)
Lemma login_begin_safe s c :
  config_ok s -> ((0 < num_auth_buffers s)%Z -> auth_cfg s) ->
  safe (iscsi_login_begin s c) (fun '(rc, s', c') =>
    config_of s' = config_of s /\
    (truth rc = false -> sess_inv (rand_pos (auth_client_block s)) False s') /\
    (truth rc = true -> ret c' <> LOGIN_OK) /\
    ((0 < num_auth_buffers s)%Z -> acl_ok (Some (auth_client_block s'))) /\
    pdu c' = pdu c /\ bufsize c' = bufsize c /\ buffer c' = buffer c /\ ctx_auth_client c' = false).
Proof.
  intros Hcfg Hauth. unfold iscsi_login_begin. cbv zeta.
  set (s1 := put_conn _ _). assert (config_of s1 = config_of s) as E1 by done.
  assert ((0 < num_auth_buffers s1)%Z -> auth_cfg s1) as Hauth1 by (intros Hn; destruct (Hauth Hn); by constructor).
  assert (config_ok s1) as Hcfg1 by (by eapply config_ok_same).
  assert (current_stage (conn s1) = ISCSI_INITIAL_LOGIN_STAGE) as Hst by done.
  assert (auth_client_block s1 = auth_client_block s) as Eb by done. clearbody s1.
  case_decide as Hnum.
  - destruct (check_auth_safe s1 (Hauth1 Hnum)) as ([st s2] & E & [Hk2 Hs2] & Hg2 & Hb2). cbn [fst snd] in Hk2, Hs2, Hg2, Hb2.
    rewrite E, bind_ret. apply safe_ret. split; [congruence|]. split; [|split; [|done]].
    + case_decide as Hret; [done|]. intros _.
      assert (st = LOGIN_OK) as -> by (by destruct (decide (st = LOGIN_OK))). rewrite <- Eb.
      constructor; [by eapply config_ok_same|by apply Hg2|]. intros _ _. left. congruence.
    + case_decide as Hret; [intros _; exact Hret|done].
  - apply safe_ret. split; [done|]. split; [|split; [done|split; [|done]]].
    2: { intros Hn. exfalso. apply Hnum. unfold config_of in E1. injection E1. lia. }
    intros _. constructor; [done| |by intros ? ?].
    unfold good, auth_client_of. rewrite decide_False by done. apply client_good_none.
Qed.

Lemma iscsi_login_safe s c buf size rs :
  login_pre s c buf size -> rounds_ok rs ->
  safe (iscsi_login s c buf size rs) (fun r =>
    r.1 = Return /\ ret (l_ctx r.2) <> LOGIN_OK \/ driver_ok (rand_pos (auth_client_block s)) s r).
Proof.
  intros [Hcfg Hauth Hp Hsz Hb] Hrs. unfold iscsi_login. cbv zeta.
  set (s0 := put_conn s _). set (c0 := mk_ctx _ _ _ _ _ _ _ _ _ _ _).
  assert (config_of s0 = config_of s) as E0 by done.
  assert (auth_cfg s0) as Hauth0 by (destruct Hauth; by constructor).
  assert (config_ok s0) as Hcfg0 by (by eapply config_ok_same).
  change (auth_client_block s) with (auth_client_block s0). clearbody s0.
  destruct (login_begin_safe s0 c0 Hcfg0 (fun _ => Hauth0))
    as ([[rc s1] c1] & E & Hc1 & Hs1 & Hr1 & _ & Ep & Esz & Ebuf & Hnc).
  rewrite E, bind_ret. destruct (truth rc) eqn:Et.
  - apply safe_ret. left. split; [done|]. by apply Hr1.
  - eapply safe_impl; [apply (login_loop_safe (rand_pos (auth_client_block s0)) rs); [done|]|].
    + constructor; [|constructor|constructor]; cbn.
      * eapply sess_inv_mono; [|by apply Hs1]. done.
      * by rewrite Ep.
      * by rewrite Esz.
      * by rewrite Esz, Ebuf.
      * done.
    + intros r (Hi & Hd & Hcf). right. split; [done|]. split; [done|]. cbn in Hcf. congruence.
Qed.

End Driver.
