(* ===== verification/LoginTheorems.v ===== *)
(** * Properties of the login

    The theorems about usr/login.c, with a concrete target that takes an
    initiator through a mutual CHAP login for the witnesses. *)
From S2P Require Import Prelude CString AuthText Acl AclFrame AclSafety AclProtocol AclTheorems.
From S2P Require Import Pdu LoginText Io Timer Login LoginReq LoginSafety LoginReqSafety LoginDriver.
From Stdlib Require Import Ascii Lia ZArith.
From stdpp Require Import base tactics numbers list strings option sets.

(** ** A concrete target *)
Module Demo.
#[local] Existing Instance Toy.env.

#[export] Instance login_env : LoginEnv := {|
  getaddrinfo := fun host port => Some (host ++ port);
  malloc := fun _ => true
|}.

Definition conn0 : iscsi_conn := mk_conn 0 0 0 [] 15 45 30 0 0 0 262144 262144.

Definition params0 : session_params := mk_params 1 0 1 262144 16776192 1 1 2 0.

Definition session0 : iscsi_session :=
  mk_session false false 0 0 0 0 0 params0 ISCSI_SESSION_TYPE_NORMAL 1 [0; 2; 61; 0; 0; 0]%Z 0
    (str "iqn.2001-04.com.example:disk") None (Some (str "iqn.1993-08.org.debian:01:host")) None
    Toy.memory 5 Toy.desc 1 (str "initiator") (Toy.pad (str "secretsecret")) 12 Toy.session
    [AUTH_CHAP_ALG_SHA256; AUTH_CHAP_ALG_MD5; 0; 0; 0]%Z conn0 0.

Definition ctx0 : login_context := mk_ctx [] 0 9 9 true zero_hdr 0 0 0 0 LOGIN_OK.

Definition buffer0 : list Z := replicate 8192 7%Z.

(** A login response with its padding. *)
Definition rsp_bytes (flags : Z) (texts : list (list Z * list Z)) : list Z :=
  let data := concat ((fun '(p, v) => text_pair p v) <$> texts) in
  let h := hdr_put (hdr_put zero_hdr OFF_opcode [ISCSI_OP_LOGIN_RSP]) OFF_flags [flags] in
  let h := hdr_put (hton24 h (Z.of_nat (length data))) OFF_statsn (be_bytes 4 41) in
  h ++ data ++ replicate (Z.to_nat (pad_bytes (Z.of_nat (length data)))) 0%Z.

Definition t0 : timeval := mk_timeval 1000 0.
Definition t1 : timeval := mk_timeval 1001 500.

(** A response that arrives in two pieces. *)
Definition round (flags : Z) (texts : list (list Z * list Z)) : login_round :=
  let b := rsp_bytes flags texts in
  mk_round [WBytes 10000; WBytes 10000] 0 t0
    [mk_poll 1 POLLIN t1 [RBytes (take 13 b); REagain; RBytes (drop 13 b)] (mk_ipc 0 0)].

Definition rounds (secret : list Z) : list login_round :=
  [ round 0 [(str "TargetPortalGroupTag", str "1"); (str "AuthMethod", str "CHAP")];
    round 0 [(str "CHAP_A", str "5"); (str "CHAP_I", str "7"); (str "CHAP_C", str "0x0102030405060708")];
    round 0x81 [(str "CHAP_N", str "target"); (str "CHAP_R", Toy.response secret)];
    round 0x87 [(str "HeaderDigest", str "None"); (str "MaxRecvDataSegmentLength", str "8192");
                (str "InitialR2T", str "Yes"); (str "TargetAlias", str "disk")] ].

Definition login (secret : list Z) : option (flow * login_state) :=
  iscsi_login session0 ctx0 buffer0 8192 (rounds secret).

Definition result (o : option (flow * login_state)) :=
  '(f, st) ← o;
  Some (f, ret (l_ctx st), l_out st, current_stage (conn (l_session st)),
        max_xmit_dlength (conn (l_session st)), target_alias (l_session st), length (l_calls st)).

Example mutual_login_succeeds :
  result (login (str "othersecret!")) =
    Some (Return, LOGIN_OK, Some (0, 0)%Z, ISCSI_FULL_FEATURE_PHASE, 8192%Z, Some (str "disk"), 4).
Proof. vm_compute. reflexivity. Qed.

(** An impostor does not get past the security stage. *)
Example impostor_is_refused :
  result (login (str "wrong")) =
    Some (Return, LOGIN_AUTHENTICATION_FAILED, Some (0, 0)%Z, ISCSI_SECURITY_NEGOTIATION_STAGE,
          262144%Z, None, 3).
Proof. vm_compute. reflexivity. Qed.

(** Whether the login returned LOGIN_OK with status class success. *)
Definition accepted (o : option (flow * login_state)) : bool :=
  match o with
  | Some (Return, st) => bool_decide (ret (l_ctx st) = LOGIN_OK /\ l_out st = Some (0, 0)%Z)
  | _ => false
  end.

Lemma pre : login_pre session0 ctx0 buffer0 8192.
Proof.
  constructor.
  - constructor; [reflexivity| | | |].
    + intros l [= <-]. by apply (bool_decide_unpack _).
    + intros l [=].
    + by apply (bool_decide_unpack _).
    + exact Toy.session_ok.
  - constructor; [by apply (bool_decide_unpack _)|reflexivity|split; vm_compute; discriminate|].
    intros c [= <-] Hs. discriminate Hs.
  - reflexivity.
  - lia.
  - vm_compute. discriminate.
Qed.

Lemma rounds_bytes : rounds_ok (rounds (str "othersecret!")).
Proof. apply (bool_decide_unpack _). vm_compute. exact I. Qed.

(** A session without authentication, in the operational stage. *)
Definition plain_session (stage : Z) : iscsi_session :=
  put_conn (session0 <| num_auth_buffers := 0%Z |>) (conn0 <| current_stage := stage |>).

Lemma plain_start_good stage : good 0 False (plain_session stage).
Proof. apply client_good_none. Qed.

Lemma plain_config stage : config_ok (plain_session stage).
Proof. destruct (pre_config _ _ _ _ pre). by constructor. Qed.

(** The final response of the target, header and data. *)
Definition last_rsp : list Z := rsp_bytes 0x87 [(str "InitialR2T", str "Yes")].

End Demo.

(** ** The properties *)
Section Properties.
Context `{AEnv : AuthEnv} {AEnvOk : AuthEnvOk AEnv} `{LEnv : LoginEnv}.

(** C1: [iscsi_login] on a session that authenticates its target: when it
    returns LOGIN_OK with status class "success", the connection is in the
    full feature phase and one of the PDUs that arrived carried the user name
    and the digest over the challenge drawn since the login began, keyed with
    the incoming password.  This holds for any behaviour of the network. *)
Theorem login_authenticates_target s c buf size rs st d :
  login_pre s c buf size -> rounds_ok rs ->
  iscsi_login s c buf size rs = Some (Return, st) ->
  ret (l_ctx st) = LOGIN_OK -> l_out st = Some (ISCSI_STATUS_CLS_SUCCESS, d) ->
  truth (bidirectional_auth s) = true -> (0 < num_auth_buffers s)%Z ->
  current_stage (conn (l_session st)) = ISCSI_FULL_FEATURE_PHASE /\
  Exists (call_verified (rand_pos (auth_client_block s))) (l_calls st).
Proof.
  intros Hpre Hrs E Hret Hout Hbi Hnum.
  destruct (iscsi_login_safe s c buf size rs Hpre Hrs) as (r & E' & [[_ Hno]|(Hinv & Hdone & Hcfg)]);
    rewrite E in E'; injection E' as <-; [contradiction|].
  assert (current_stage (conn (l_session st)) = ISCSI_FULL_FEATURE_PHASE) as Hst by (apply Hdone; eauto).
  split; [done|]. destruct Hinv as [[_ _ Hstage] _ _]. apply keeps_fields in Hcfg as (Hn & Hb & _).
  cbn in *. destruct Hstage as [H|[H|H]]; [congruence..| | |exact H]; rewrite Hst in H; discriminate H.
Qed.

(** C6: for any result of the system calls and any bytes on the connection,
    [iscsi_login] and all it calls stay inside their buffers and every scan
    of received text ends. *)
Theorem login_memory_safe s c buf size rs :
  login_pre s c buf size -> rounds_ok rs -> is_Some (iscsi_login s c buf size rs).
Proof.
  intros Hpre Hrs. destruct (iscsi_login_safe s c buf size rs Hpre Hrs) as (r & -> & _). eauto.
Qed.

(** C7: the stages of the login: a success response is accepted only with the
    supported version, the stage of the connection and, with the T bit, a
    later next stage.  The stage then becomes the next stage exactly when the
    T bit is set, and the sequence number expected from the target is the one
    after the response's; a rejected response leaves the stage. *)
Theorem login_stage_rule start V s rsp data max :
  good start V s -> session_wf (session_in s) -> Forall is_byte rsp -> (max <= Z.of_nat (length data))%Z ->
  hdr8 rsp OFF_status_class = ISCSI_STATUS_CLS_SUCCESS ->
  exists st s' data', iscsi_process_login_response s rsp data max = Some (st, s', data') /\
  if decide (st = LOGIN_OK) then
    hdr8 rsp OFF_active_version = ISCSI_DRAFT20_VERSION /\
    rsp_current_stage rsp = current_stage (conn s) /\
    exp_statsn (conn s') = u32 (hdr32 rsp OFF_statsn + 1) /\
    (if truth (rsp_transit rsp)
     then (current_stage (conn s) < current_stage (conn s'))%Z /\
          current_stage (conn s') = rsp_next_stage rsp /\ partial_response (conn s') = 0%Z
     else current_stage (conn s') = current_stage (conn s) /\ partial_response (conn s') = 1%Z)
  else current_stage (conn s') = current_stage (conn s).
Proof.
  intros Hg Hsw Hr Hmax Hcls.
  destruct (process_rsp_safe start V s rsp data max Hg Hsw Hr Hmax) as ([[st s'] data'] & E & Ho).
  exists st, s', data'. split; [done|]. case_decide as Hst; [|by apply (ro_rejected _ _ _ _ _ _ _ _ Ho)].
  destruct (ro_accepted _ _ _ _ _ _ _ _ Ho Hst) as [Hchk (s3 & [_ Hs3] & ->)].
  unfold check_login_rsp in Hchk. rewrite decide_True in Hchk by done.
  do 2 (case_decide; [discriminate Hchk|]). rewrite record_rsp_stage.
  unfold record_rsp. rewrite decide_True by done.
  destruct (truth (rsp_transit rsp)); cbn [andb] in Hchk; [|by split_and!].
  case_bool_decide; [discriminate Hchk|]. split_and!; try done. lia.
Qed.

(** The values of a comma-separated list. *)
Fixpoint values (s : list Z) : list (list Z) :=
  match s with
  | [] => [[]]
  | c :: s' =>
      if decide (c = char ",") then [] :: values s'
      else match values s' with
           | v :: l => (c :: v) :: l
           | [] => [[c]]
           end
  end.

Lemma digest_key_spec s data text value value_end cur set v :
  cstr data value = Some v -> cur ∈ [ISCSI_DIGEST_NONE; ISCSI_DIGEST_CRC32C; ISCSI_DIGEST_CRC32C_NONE;
                                      ISCSI_DIGEST_NONE_CRC32C] ->
  digest_key s data text cur set value value_end =
    if decide (v ∈ values (digest_text cur)) then
      Some (LOGIN_OK, put_conn s (set (if decide (v = str "None") then ISCSI_DIGEST_NONE
                                       else ISCSI_DIGEST_CRC32C) (conn s)), data, value_end)
    else Some (LOGIN_NEGOTIATION_FAILED, s, data, text).
Proof.
  intros Hv Hcur. unfold digest_key. rewrite Hv, bind_ret.
  assert (values (digest_text cur) =
    if decide (cur = ISCSI_DIGEST_NONE) then [str "None"]
    else if decide (cur = ISCSI_DIGEST_CRC32C) then [str "CRC32C"]
    else if decide (cur = ISCSI_DIGEST_CRC32C_NONE) then [str "CRC32C"; str "None"]
    else [str "None"; str "CRC32C"]) as ->.
  { unfold digest_text. repeat case_decide; reflexivity. }
  repeat case_decide; subst; try done; exfalso; set_solver.
Qed.

(** A text pair at [text] is not taken for one of another key. *)
Lemma on_other_key param data text pdu_end found other :
  pdu_end <= length data -> take (length param + 1) (drop text data) <> param ++ [ISCSI_TEXT_SEPARATOR] ->
  on_key param data text pdu_end found other = other.
Proof.
  intros Hend Hne. unfold on_key. destruct (find_key_value_safe param data text pdu_end Hend) as (r & -> & Hr).
  rewrite bind_ret. destruct r as [[vs ve]|]; [|done]. by destruct (Hr vs ve eq_refl) as (_ & _ & H & _).
Qed.

Lemma on_this_key param value data rest text pdu_end found other :
  no_nul param -> no_nul value -> drop text data = text_pair param value ++ rest ->
  text + length (text_pair param value) <= pdu_end ->
  on_key param data text pdu_end found other =
    found (text + length param + 1) (text + length param + 1 + length value) /\
  cstr data (text + length param + 1) = Some value.
Proof.
  intros Hp Hv E Hl. rewrite text_pair_length in Hl. unfold on_key.
  rewrite (find_key_value_complete param value data rest text pdu_end Hp Hv E) by lia. split; [done|].
  unfold cstr. rewrite <- drop_drop, <- drop_drop, E. unfold text_pair. rewrite <- app_assoc, drop_app_length.
  cbn [drop app]. rewrite <- app_assoc. cbn [drop app]. by apply cstr_of_app.
Qed.

(** The two keys, the setting that each is about, and how it is stored. *)
Definition digest_param (header : bool) : list Z := if header then str "HeaderDigest" else str "DataDigest".
Definition digest_setting (header : bool) (c : iscsi_conn) : Z := if header then hdrdgst_en c else datadgst_en c.
Definition store_digest (header : bool) (d : Z) (c : iscsi_conn) : iscsi_conn :=
  if header then c <| hdrdgst_en := d |> else c <| datadgst_en := d |>.

(** C38: the digest negotiation: when the text of the target is at a
    HeaderDigest=value pair, get_op_params_text_keys accepts it exactly when
    the value is one of those that the login request offered for the header
    digest, and stores it as the header digest of the connection; DataDigest
    likewise for the data digest.  Nothing else of the session changes and the
    scan goes on behind the value; any other value fails the negotiation and
    leaves the session unchanged. *)
Theorem digest_negotiation s data rest text pdu_end (header : bool) v :
  drop text data = text_pair (digest_param header) v ++ rest -> no_nul v ->
  text + length (text_pair (digest_param header) v) <= pdu_end <= length data ->
  digest_setting header (conn s) ∈ [ISCSI_DIGEST_NONE; ISCSI_DIGEST_CRC32C; ISCSI_DIGEST_CRC32C_NONE;
                                     ISCSI_DIGEST_NONE_CRC32C] ->
  get_op_params_text_keys s data text pdu_end =
    if decide (v ∈ values (digest_text (digest_setting header (conn s)))) then
      Some (LOGIN_OK,
            put_conn s (store_digest header (if decide (v = str "None") then ISCSI_DIGEST_NONE
                                             else ISCSI_DIGEST_CRC32C) (conn s)),
            data, text + length (digest_param header) + 1 + length v)
    else Some (LOGIN_NEGOTIATION_FAILED, s, data, text).
Proof.
  intros E Hv [Hl Hend] Hcur. unfold get_op_params_text_keys, op_keys_1, op_keys_2.
  destruct header; do 8 (rewrite on_other_key; [|exact Hend|rewrite E; discriminate]).
  - destruct (on_this_key (str "HeaderDigest") v data rest text pdu_end
      (digest_key s data text (hdrdgst_en (conn s)) (fun d c => c <| hdrdgst_en := d |>))
      (on_key (str "DataDigest") data text pdu_end
         (digest_key s data text (datadgst_en (conn s)) (fun d c => c <| datadgst_en := d |>))
       (op_keys_3 s data text pdu_end))) as [-> Hc]; [apply (bool_decide_unpack _); vm_compute; exact I|done..|].
    by apply digest_key_spec.
  - rewrite on_other_key; [|exact Hend|rewrite E; discriminate].
    destruct (on_this_key (str "DataDigest") v data rest text pdu_end
      (digest_key s data text (datadgst_en (conn s)) (fun d c => c <| datadgst_en := d |>))
      (op_keys_3 s data text pdu_end)) as [-> Hc]; [apply (bool_decide_unpack _); vm_compute; exact I|done..|].
    by apply digest_key_spec.
Qed.

(** the header of a login request: an immediate login PDU with the session's
    ISID, whose flags name the stage that the connection is in; the T bit asks
    for a later stage, and without it the next stage is the current one. *)
Theorem login_request_header start V s d max s' h d' :
  config_ok s -> good start V s -> stage_inv V s -> (max <= Z.of_nat (length d))%Z ->
  (8192 <= max < 2 ^ 24)%Z ->
  iscsi_make_login_pdu s d max = Some (true, s', h, d') ->
  hdr8 h OFF_opcode = Z.lor ISCSI_OP_LOGIN ISCSI_OP_IMMEDIATE /\
  (forall i, i < 6 -> hdr8 h (OFF_isid + i) = nth i (isid s) 0%Z) /\
  rsp_current_stage h = current_stage (conn s') /\
  (rsp_transit h <> 0%Z -> (current_stage (conn s') < rsp_next_stage h)%Z /\
     rsp_next_stage h = next_stage (conn s')) /\
  (rsp_transit h = 0%Z -> rsp_next_stage h = current_stage (conn s')) /\ (0 <= ntoh24 h <= max)%Z.
Proof.
  intros Hcfg Hg Hst Hd Hmax E.
  destruct (make_login_pdu_safe max (proj2 Hmax) start V s d Hcfg Hg Hst Hd (proj1 Hmax))
    as ([[[ok s1] h1] d1] & E' & _ & _ & _ & Hh & Hle & _ & Hok).
  rewrite E in E'. injection E' as <- <- <- <-. destruct (Hok eq_refl) as (t & [Hcur Hnext] & Hflags & Hrest).
  assert (forall i, i = OFF_opcode \/ 8 <= i -> hdr8 h i = hdr8 (login_header s) i) as Hhdr
    by (intros i Hi; apply Hrest; unfold OFF_dlength; lia).
  pose proof (cfg_isid _ Hcfg) as Hisid. split; [|split].
  - rewrite Hhdr by auto. unfold login_header.
    by destruct (isid s) as [|? [|? [|? [|? [|? [|? [|? ?]]]]]]].
  - intros i Hi. rewrite Hhdr by (unfold OFF_isid; lia). unfold login_header, OFF_isid.
    destruct (isid s) as [|a [|b [|c [|e [|f [|g [|x l]]]]]]]; try discriminate Hisid.
    by do 6 (destruct i as [|i]; [reflexivity|]); lia.
  - unfold rsp_current_stage, rsp_transit, rsp_next_stage. rewrite Hflags. unfold login_flags.
    destruct t.
    + destruct (Hnext eq_refl) as [Hlt Hn].
      destruct Hcur as [Ec|Ec], Hn as [En|En]; rewrite Ec, En in Hlt; rewrite Ec, En; try (exfalso; lia);
        (split; [reflexivity|]); (split; [intros _; split; reflexivity|]); (split; [discriminate|]);
        (split; [apply Hh|done]).
    + destruct Hcur as [Ec|Ec]; rewrite Ec; (split; [reflexivity|]); (split; [intros []; reflexivity|]);
        (split; [reflexivity|]); (split; [apply Hh|done]).
Qed.

(** MaxRecvDataSegmentLength from the target bounds what is sent to it:
    with a limit in the node record the limit of the connection is never
    raised above the smaller of the two values, without one it is the
    target's. *)
Theorem target_limit_respected s data value value_end v :
  cstr data value = Some v -> rdma s = false -> (0 <= (strtoul v 0).1 < 2 ^ 31)%Z ->
  (0 <= max_xmit_dlength (conn s) < 2 ^ 31)%Z ->
  exists s', op_max_recv s data value value_end = Some (LOGIN_OK, s', data, value_end) /\
    max_xmit_dlength (conn s') =
      if decide (rec_max_xmit s = 0%Z) then (strtoul v 0).1
      else Z.min (strtoul v 0).1 (max_xmit_dlength (conn s)).
Proof.
  intros Hv Hr Hn Hx. unfold op_max_recv, key_number. rewrite decide_True by auto.
  rewrite Hv, !bind_ret. cbv zeta.
  rewrite (i32_small (strtoul v 0).1), (i32_small (max_xmit_dlength (conn s))) by lia.
  eexists. split; [reflexivity|]. unfold u32. rewrite wrap_small by lia.
  repeat case_decide; cbn; lia.
Qed.

(** C39: appending a key and looking it up: when [iscsi_add_text] succeeds the
    header announces the longer text, only the bytes of the key were written,
    and [iscsi_find_key_value] finds the value there; it fails, changing
    nothing, exactly when key and value do not fit. *)
Theorem add_text_then_find pdu data max param value :
  length pdu = HDR_LEN -> (0 <= ntoh24 pdu)%Z -> (max <= Z.of_nat (length data))%Z -> (max <= 2 ^ 24)%Z ->
  no_nul param -> no_nul value ->
  let off := Z.to_nat (ntoh24 pdu) in
  let n := length (text_pair param value) in
  exists ok pdu' data', iscsi_add_text pdu data max param value = Some (ok, pdu', data') /\
    ok = bool_decide (ntoh24 pdu + Z.of_nat n < max)%Z /\
    if ok then
      ntoh24 pdu' = (ntoh24 pdu + Z.of_nat n)%Z /\ data' = splice data off (text_pair param value) /\
      iscsi_find_key_value param data' off (off + n) =
        Some (Some (off + length param + 1, off + length param + 1 + length value)) /\
      cstr data' (off + length param + 1) = Some value
    else pdu' = pdu /\ data' = data.
Proof.
  intros Hpdu H0 Hmax H24 Hp Hv off n. rewrite iscsi_add_text_spec by done. fold off n.
  case_decide as Hroom; eexists _, _, _; (split; [reflexivity|]); split;
    try (symmetry; by apply bool_decide_eq_true || by apply bool_decide_eq_false); [|done].
  assert (n = length param + length value + 2) as Hn by apply text_pair_length.
  split; [apply ntoh24_hton24; [done|lia]|]. split; [done|].
  assert (drop off (splice data off (text_pair param value)) =
    text_pair param value ++ drop (off + n) data) as Hd by (apply drop_splice; lia).
  split; [by eapply find_key_value_complete; [..|exact Hd|lia]|].
  unfold cstr. rewrite <- (Nat.add_assoc off), <- drop_drop, Hd. unfold text_pair.
  rewrite <- app_assoc, <- drop_drop, drop_app_length. cbn. rewrite <- app_assoc. by apply cstr_of_app.
Qed.
End Properties.

(** ** Witnesses *)
#[local] Existing Instance Toy.env.
#[local] Existing Instance Toy.env_ok.
#[local] Existing Instance Demo.login_env.

Lemma login_authenticates_target_witness :
  exists st, iscsi_login Demo.session0 Demo.ctx0 Demo.buffer0 8192 (Demo.rounds (str "othersecret!")) =
      Some (Return, st) /\
    current_stage (conn (l_session st)) = ISCSI_FULL_FEATURE_PHASE /\
    Exists (call_verified (rand_pos (auth_client_block Demo.session0))) (l_calls st).
Proof.
  assert (Demo.accepted (iscsi_login Demo.session0 Demo.ctx0 Demo.buffer0 8192 (Demo.rounds (str "othersecret!"))) = true) as H
    by (vm_compute; reflexivity).
  destruct (iscsi_login Demo.session0 Demo.ctx0 Demo.buffer0 8192 (Demo.rounds (str "othersecret!"))) as [[[] st]|] eqn:E;
    try discriminate H.
  apply bool_decide_eq_true in H as [Hret Hout]. exists st. split; [reflexivity|].
  exact (login_authenticates_target Demo.session0 Demo.ctx0 Demo.buffer0 8192
    (Demo.rounds (str "othersecret!")) st 0 Demo.pre Demo.rounds_bytes E Hret Hout eq_refl eq_refl).
Defined.

Lemma login_memory_safe_witness :
  is_Some (iscsi_login Demo.session0 Demo.ctx0 Demo.buffer0 8192 (Demo.rounds (str "othersecret!"))).
Proof.
  exact (login_memory_safe Demo.session0 Demo.ctx0 Demo.buffer0 8192
    (Demo.rounds (str "othersecret!")) Demo.pre Demo.rounds_bytes).
Defined.

Lemma login_stage_rule_witness :
  exists st s' data', iscsi_process_login_response (Demo.plain_session 1) (take 48 Demo.last_rsp)
      (drop 48 Demo.last_rsp ++ [7; 7; 7]%Z) 19 = Some (st, s', data') /\
    if decide (st = LOGIN_OK) then current_stage (conn s') = 3%Z else current_stage (conn s') = 1%Z.
Proof.
  destruct (login_stage_rule 0 False (Demo.plain_session 1) (take 48 Demo.last_rsp)
    (drop 48 Demo.last_rsp ++ [7; 7; 7]%Z) 19) as (st & s' & data' & E & H).
  - apply Demo.plain_start_good.
  - exact Toy.session_ok.
  - apply (bool_decide_unpack _). vm_compute. exact I.
  - vm_compute. discriminate.
  - reflexivity.
  - exists st, s', data'. split; [exact E|]. destruct (decide (st = LOGIN_OK)); [|exact H].
    destruct H as (_ & _ & _ & _ & H & _). exact H.
Defined.

Lemma login_request_header_witness :
  exists s' h d', iscsi_make_login_pdu (Demo.plain_session (-1)) Demo.buffer0 8192 = Some (true, s', h, d') /\
    hdr8 h OFF_opcode = 0x43%Z /\ rsp_current_stage h = current_stage (conn s').
Proof.
  assert (match iscsi_make_login_pdu (Demo.plain_session (-1)) Demo.buffer0 8192 with
          | Some (b, _, _, _) => b | None => false end = true) as H by (vm_compute; reflexivity).
  destruct (iscsi_make_login_pdu (Demo.plain_session (-1)) Demo.buffer0 8192) as [[[[[] s'] h] d']|] eqn:E;
    try discriminate H.
  exists s', h, d'. split; [reflexivity|].
  destruct (login_request_header 0 False (Demo.plain_session (-1)) Demo.buffer0 8192 s' h d')
    as (H1 & _ & H2 & _).
  - apply Demo.plain_config.
  - apply Demo.plain_start_good.
  - intros _ _. left. reflexivity.
  - vm_compute. discriminate.
  - lia.
  - exact E.
  - split; [exact H1|exact H2].
Defined.

Lemma digest_negotiation_witness :
  let s := put_conn (Demo.plain_session 1) ((conn (Demo.plain_session 1)) <| hdrdgst_en := ISCSI_DIGEST_NONE_CRC32C |>) in
  get_op_params_text_keys s (str "HeaderDigest=CRC32C" ++ [NUL; NUL]) 0 20 =
    Some (LOGIN_OK, put_conn s ((conn s) <| hdrdgst_en := ISCSI_DIGEST_CRC32C |>),
          str "HeaderDigest=CRC32C" ++ [NUL; NUL], 19).
Proof.
  intros s. rewrite (digest_negotiation s _ [NUL] 0 20 true (str "CRC32C"));
    [reflexivity|reflexivity|apply (bool_decide_unpack _); vm_compute; exact I|vm_compute; lia|].
  apply (bool_decide_unpack _). vm_compute. exact I.
Defined.

Lemma target_limit_respected_witness :
  exists s', op_max_recv ((Demo.plain_session 1) <| rec_max_xmit := 1%Z |>) (str "65536" ++ [NUL]) 0 5 =
    Some (LOGIN_OK, s', str "65536" ++ [NUL], 5) /\ max_xmit_dlength (conn s') = 65536%Z.
Proof.
  destruct (target_limit_respected ((Demo.plain_session 1) <| rec_max_xmit := 1%Z |>) (str "65536" ++ [NUL]) 0 5
    (str "65536")) as (s' & E & H); [reflexivity|reflexivity|vm_compute; split; congruence..|].
  exists s'. split; [exact E|exact H].
Defined.

Lemma add_text_then_find_witness :
  exists pdu' data', iscsi_add_text (hton24 zero_hdr 3) (replicate 40 7%Z) 40 (str "InitialR2T") (str "No") =
      Some (true, pdu', data') /\
    iscsi_find_key_value (str "InitialR2T") data' 3 17 = Some (Some (14, 16)).
Proof.
  destruct (add_text_then_find (hton24 zero_hdr 3) (replicate 40 7%Z) 40 (str "InitialR2T") (str "No"))
    as (ok & pdu' & data' & E & Hok & H); [reflexivity|vm_compute; discriminate..| | |].
  - apply (bool_decide_unpack _). vm_compute. exact I.
  - apply (bool_decide_unpack _). vm_compute. exact I.
  - assert (ok = true) as Eok by (rewrite Hok; vm_compute; reflexivity). rewrite Eok in E, H.
    exists pdu', data'. split; [exact E|]. destruct H as (_ & _ & H & _). exact H.
Defined.
