(* ===== verification/SessionSetup.v ===== *)
(** * Preparing a session from its record (usr/initiator_common.c)

    Authentication buffers and credentials, the operational parameters and
    their limits, the limits of the drivers (be2iscsi.c, cxgbi.c, iser.c), and
    the parameters that are handed to the kernel. *)
From Stdlib Require Import ZArith Lia.
From stdpp Require Import base tactics numbers list option.
From S2P Require Import Prelude CString AuthText Acl Login LoginReq.

Definition EINVAL : Z := 22.
Definition EPERM : Z := 1.
Definition ENOSYS : Z := 38.

(** ** Credentials *)

(** [struct iscsi_auth_config]; user names by content, passwords as the buffers
    of AUTH_STR_MAX_LEN bytes that they are. *)
Record iscsi_auth_config := mk_auth_config {
  ac_username : list Z;
  ac_password : list Z;
  ac_password_length : Z;
  ac_username_in : list Z;
  ac_password_in : list Z;
  ac_password_in_length : Z;
  ac_chap_algs : list Z
}.

(** [strlcpy] into a buffer of 256 bytes, by content. *)
Definition strlcpy_name (s : list Z) : list Z := take (AUTH_STR_MAX_LEN - 1) s.

(** [if ((n = length)) memcpy(dst, src, n)]. *)
Definition copy_secret (dst src : list Z) (n : Z) : option (list Z) :=
  if decide (n = 0%Z) then Some dst
  else d ← buf_prefix src (Z.to_nat n); buf_write dst 0 d.

(** The descriptors that the session sets up, as [acl_init] reads them. *)
Definition session_auth_buffers `{AuthEnv} : list (option nat) :=
  [Some sizeof_iscsi_acl; Some AUTH_STR_BLOCK_MAX_LEN; Some AUTH_STR_BLOCK_MAX_LEN;
   Some AUTH_LARGE_BINARY_MAX_LEN; Some AUTH_LARGE_BINARY_MAX_LEN].

(** [username_in[0] || password_in_length]. *)
Definition has_incoming (cfg : iscsi_auth_config) : bool :=
  bool_decide (ac_username_in cfg <> []) || truth (ac_password_in_length cfg).

(** The lengths are [unsigned int] in the record and [int] in the session. *)
Definition iscsi_setup_authentication `{AuthEnv} (s : iscsi_session) (cfg : iscsi_auth_config)
    : option (Z * iscsi_session) :=
  if has_incoming cfg && bool_decide (ac_password_length cfg = 0%Z) then Some (EINVAL, s)
  else
    let s := s <| bidirectional_auth := if has_incoming cfg then 1%Z else 0%Z |> in
    let s := s <| s_username := strlcpy_name (ac_username cfg) |>
               <| s_password_length := i32 (ac_password_length cfg) |> in
    pw ← copy_secret (s_password s) (ac_password cfg) (s_password_length s);
    let s := s <| s_password := pw |> in
    pw_in ← copy_secret (password_in (session_in s)) (ac_password_in cfg) (i32 (ac_password_in_length cfg));
    let s := s <| session_in := mk_auth_session (strlcpy_name (ac_username_in cfg)) pw_in
                                  (i32 (ac_password_in_length cfg)) |>
               <| chap_algs := ac_chap_algs cfg |> in
    if truth (s_password_length s) || truth (password_in_length (session_in s)) then
      Some (0%Z, s <| auth_buffers := session_auth_buffers |> <| num_auth_buffers := 5%Z |>)
    else Some (0%Z, s <| num_auth_buffers := 0%Z |>).

(** ** Operational parameters *)
Record conn_operational_config := mk_conn_conf {
  MaxRecvDataSegmentLength : Z;
  MaxXmitDataSegmentLength : Z;
  HeaderDigest : Z;
  DataDigest : Z;
  IFMarker : Z;
  OFMarker : Z
}.
#[export] Instance eta_conn_conf : Eta conn_operational_config := fun c =>
  mk_conn_conf (MaxRecvDataSegmentLength c) (MaxXmitDataSegmentLength c) (HeaderDigest c) (DataDigest c)
    (IFMarker c) (OFMarker c).

Record session_operational_config := mk_session_conf {
  InitialR2T : Z;
  ImmediateData : Z;
  FirstBurstLength : Z;
  MaxBurstLength : Z;
  DefaultTime2Wait : Z;
  DefaultTime2Retain : Z;
  MaxOutstandingR2T : Z;
  ERL : Z;
  FastAbort : Z
}.
#[export] Instance eta_session_conf : Eta session_operational_config := fun c =>
  mk_session_conf (InitialR2T c) (ImmediateData c) (FirstBurstLength c) (MaxBurstLength c)
    (DefaultTime2Wait c) (DefaultTime2Retain c) (MaxOutstandingR2T c) (ERL c) (FastAbort c).

Definition ISCSI_MIN_MAX_RECV_SEG_LEN : Z := 512.
Definition ISCSI_MAX_MAX_RECV_SEG_LEN : Z := 16777215.
Definition ISCSI_MIN_FIRST_BURST_LEN : Z := 512.
Definition ISCSI_MAX_FIRST_BURST_LEN : Z := 16777215.
Definition ISCSI_MIN_MAX_BURST_LEN : Z := 512.
Definition ISCSI_MAX_MAX_BURST_LEN : Z := 16777215.
Definition DEF_INI_FIRST_BURST_LEN : Z := 262144.
Definition DEF_INI_MAX_BURST_LEN : Z := 16776192.
Definition DEF_INI_MAX_RECV_SEG_LEN : Z := 262144.

Definition CAP_RECOVERY_L0 : Z := 0x1.
Definition CAP_RECOVERY_L1 : Z := 0x2.
Definition CAP_MULTI_R2T : Z := 0x8.
Definition CAP_HDRDGST : Z := 0x10.
Definition CAP_DATADGST : Z := 0x20.
Definition CAP_TEXT_NEGO : Z := 0x80.
Definition CAP_MARKERS : Z := 0x100.
Definition CAP_DATA_PATH_OFFLOAD : Z := 0x800.
Definition CAP_LOGIN_OFFLOAD : Z := 0x4000.

Definition has_cap (caps cap : Z) : bool := truth (Z.land caps cap).

(** [param & ~0x3] on [unsigned int]. *)
Definition align_32_down (param : Z) : Z := Z.land (u32 param) 0xFFFFFFFC.

(** [x < lo || x > hi] on [uint32_t]. *)
Definition out_of (lo hi x : Z) : bool := bool_decide (x < lo)%Z || bool_decide (hi < x)%Z.

(** The [create_conn] functions of the drivers; [None] when the template has
    none.  The session is changed together with its [erl]. *)
Inductive create_conn := be2iscsi_create_conn | cxgbi_create_conn | iser_create_conn.

Definition cap_at (limit x : Z) : Z := if decide (limit < x)%Z then limit else x.

Definition run_create_conn (cc : create_conn) (s : iscsi_session) (erl : Z) : iscsi_session * Z :=
  match cc with
  | be2iscsi_create_conn =>
      let c := (conn s) <| max_recv_dlength := cap_at 65536 (max_recv_dlength (conn s)) |>
                        <| max_xmit_dlength := cap_at 65536 (max_xmit_dlength (conn s)) |> in
      let p := (params s) <| first_burst := cap_at 8192 (first_burst (params s)) |>
                          <| max_burst := cap_at 262144 (max_burst (params s)) |>
                          <| initial_r2t_en := 1%Z |> in
      (s <| conn := c |> <| params := p |>, 0%Z)
  | cxgbi_create_conn =>
      (put_conn s ((conn s) <| max_recv_dlength := cap_at 8192 (max_recv_dlength (conn s)) |>), erl)
  | iser_create_conn => (put_conn s ((conn s) <| hdrdgst_en := ISCSI_DIGEST_NONE |>), erl)
  end.

(** A segment length of the record: the value used, and the record, which gets
    the default when the value is out of range. *)
Definition seg_length (rec x : Z) : Z * Z :=
  if out_of ISCSI_MIN_MAX_RECV_SEG_LEN ISCSI_MAX_MAX_RECV_SEG_LEN x
  then (DEF_INI_MAX_RECV_SEG_LEN, DEF_INI_MAX_RECV_SEG_LEN) else (x, rec).

Definition copy_conn_params (c : iscsi_conn) (cc : conn_operational_config)
    : iscsi_conn * conn_operational_config :=
  let '(recv, rec_recv) := seg_length (MaxRecvDataSegmentLength cc) (align_32_down (MaxRecvDataSegmentLength cc)) in
  let x := align_32_down (MaxXmitDataSegmentLength cc) in
  let x := if decide (x = 0%Z) then ISCSI_DEF_MAX_RECV_SEG_LEN else x in
  let '(xmit, rec_xmit) := seg_length (MaxXmitDataSegmentLength cc) x in
  (c <| hdrdgst_en := u32 (HeaderDigest cc) |> <| datadgst_en := u32 (DataDigest cc) |>
     <| max_recv_dlength := recv |> <| max_xmit_dlength := xmit |>,
   cc <| MaxRecvDataSegmentLength := rec_recv |> <| MaxXmitDataSegmentLength := rec_xmit |>).

Definition copy_session_params (p : session_params) (sc : session_operational_config)
    : session_params * session_operational_config :=
  let p := p <| initial_r2t_en := u32 (InitialR2T sc) |> <| max_r2t := u32 (MaxOutstandingR2T sc) |>
             <| imm_data_en := u32 (ImmediateData sc) |> in
  let fb := align_32_down (FirstBurstLength sc) in
  let '(fb, sc) := if out_of ISCSI_MIN_FIRST_BURST_LEN ISCSI_MAX_FIRST_BURST_LEN fb
                   then (DEF_INI_FIRST_BURST_LEN, sc <| FirstBurstLength := DEF_INI_FIRST_BURST_LEN |>)
                   else (fb, sc) in
  let mb := align_32_down (MaxBurstLength sc) in
  let '(mb, sc) := if out_of ISCSI_MIN_MAX_BURST_LEN ISCSI_MAX_MAX_BURST_LEN mb
                   then (DEF_INI_MAX_BURST_LEN, sc <| MaxBurstLength := DEF_INI_MAX_BURST_LEN |>)
                   else (mb, sc) in
  let '(fb, sc) := if decide (mb < fb)%Z then (mb, sc <| FirstBurstLength := i32 mb |>) else (fb, sc) in
  (p <| first_burst := fb |> <| max_burst := mb |> <| def_time2wait := u32 (DefaultTime2Wait sc) |>
     <| def_time2retain := u32 (DefaultTime2Retain sc) |>, sc).

(** The discovery limits. *)
Definition copy_discovery (caps : Z) (s : iscsi_session) : iscsi_session :=
  if decide (type s = ISCSI_SESSION_TYPE_DISCOVERY) then
    let c := conn s in
    let c := if has_cap caps CAP_TEXT_NEGO then
               c <| max_recv_dlength := cap_at ISCSI_DEF_MAX_RECV_SEG_LEN (max_recv_dlength c) |>
             else c in
    put_conn s (c <| hdrdgst_en := ISCSI_DIGEST_NONE |> <| datadgst_en := ISCSI_DIGEST_NONE |>)
  else s.

(** The session, its [erl], and the records with their corrections. *)
Definition iscsi_copy_operational_params (caps : Z) (driver : option create_conn) (s : iscsi_session)
    (sc : session_operational_config) (cc : conn_operational_config)
    : iscsi_session * Z * session_operational_config * conn_operational_config :=
  let '(c, cc) := copy_conn_params (conn s) cc in
  let '(p, sc) := copy_session_params (params s) sc in
  let s := copy_discovery caps (s <| conn := c |> <| params := p |>) in
  let '(s, erl) := match driver with
                   | Some d => run_create_conn d s (ERL sc)
                   | None => (s, ERL sc)
                   end in
  (s, erl, sc, cc).

(** [iscsi_setup_portal]: the error code, the session and [failback_saddr]. *)
Definition iscsi_setup_portal `{LoginEnv} (s : iscsi_session) (failback_saddr address : list Z) (port : Z)
    : Z * iscsi_session * list Z :=
  match resolve_address address (sprintf_d port) with
  | None => (4%Z, s, failback_saddr)
  | Some a => (0%Z, put_conn s ((conn s) <| saddr := a |>), a)
  end.

(** ** Parameters for the kernel *)
Inductive kernel_value := VInt (z : Z) | VStr (s : option (list Z)).

(** The numbers of the parameters ([enum iscsi_param]). *)
Definition ISCSI_PARAM_MAX_RECV_DLENGTH : Z := 0.
Definition ISCSI_PARAM_MAX_XMIT_DLENGTH : Z := 1.
Definition ISCSI_PARAM_HDRDGST_EN : Z := 2.
Definition ISCSI_PARAM_DATADGST_EN : Z := 3.
Definition ISCSI_PARAM_INITIAL_R2T_EN : Z := 4.
Definition ISCSI_PARAM_MAX_R2T : Z := 5.
Definition ISCSI_PARAM_IMM_DATA_EN : Z := 6.
Definition ISCSI_PARAM_FIRST_BURST : Z := 7.
Definition ISCSI_PARAM_MAX_BURST : Z := 8.
Definition ISCSI_PARAM_PDU_INORDER_EN : Z := 9.
Definition ISCSI_PARAM_DATASEQ_INORDER_EN : Z := 10.
Definition ISCSI_PARAM_ERL : Z := 11.
Definition ISCSI_PARAM_IFMARKER_EN : Z := 12.
Definition ISCSI_PARAM_OFMARKER_EN : Z := 13.
Definition ISCSI_PARAM_EXP_STATSN : Z := 14.
Definition ISCSI_PARAM_TARGET_NAME : Z := 15.
Definition ISCSI_PARAM_TPGT : Z := 16.
Definition ISCSI_PARAM_PERSISTENT_ADDRESS : Z := 17.
Definition ISCSI_PARAM_PERSISTENT_PORT : Z := 18.
Definition ISCSI_PARAM_SESS_RECOVERY_TMO : Z := 19.
Definition ISCSI_PARAM_USERNAME : Z := 22.
Definition ISCSI_PARAM_USERNAME_IN : Z := 23.
Definition ISCSI_PARAM_PASSWORD : Z := 24.
Definition ISCSI_PARAM_PASSWORD_IN : Z := 25.
Definition ISCSI_PARAM_FAST_ABORT : Z := 26.
Definition ISCSI_PARAM_ABORT_TMO : Z := 27.
Definition ISCSI_PARAM_LU_RESET_TMO : Z := 28.
Definition ISCSI_PARAM_PING_TMO : Z := 30.
Definition ISCSI_PARAM_RECV_TMO : Z := 31.
Definition ISCSI_PARAM_IFACE_NAME : Z := 32.
Definition ISCSI_PARAM_INITIATOR_NAME : Z := 34.
Definition ISCSI_PARAM_TGT_RESET_TMO : Z := 35.
Definition ISCSI_PARAM_BOOT_ROOT : Z := 39.
Definition ISCSI_PARAM_BOOT_NIC : Z := 40.
Definition ISCSI_PARAM_BOOT_TARGET : Z := 41.
Definition ISCSI_PARAM_DISCOVERY_SESS : Z := 43.

Definition iscsi_session_clear_param (mask param : Z) : Z :=
  Z.land mask (Z.lxor (2 ^ 64 - 1) (u64 (Z.shiftl 1 param))).

(** The bit mask of the parameters that the transport takes. *)
Definition iscsi_session_init_params (caps : Z) : Z :=
  let mask := (2 ^ 64 - 1)%Z in
  let mask := if has_cap caps CAP_MULTI_R2T then mask
              else iscsi_session_clear_param mask ISCSI_PARAM_MAX_R2T in
  let mask := if has_cap caps CAP_HDRDGST then mask
              else iscsi_session_clear_param mask ISCSI_PARAM_HDRDGST_EN in
  let mask := if has_cap caps CAP_DATADGST then mask
              else iscsi_session_clear_param mask ISCSI_PARAM_DATADGST_EN in
  if has_cap caps CAP_MARKERS then mask
  else iscsi_session_clear_param (iscsi_session_clear_param mask ISCSI_PARAM_IFMARKER_EN)
         ISCSI_PARAM_OFMARKER_EN.

(** A row of the tables: parameter, value, [conn_only]. *)
Definition param_row : Type := Z * kernel_value * bool.

Definition neg_params_table (s : iscsi_session) : list param_row :=
  let c := conn s in
  let p := params s in
  [(ISCSI_PARAM_MAX_RECV_DLENGTH, VInt (max_recv_dlength c), false);
   (ISCSI_PARAM_MAX_XMIT_DLENGTH, VInt (max_xmit_dlength c), false);
   (ISCSI_PARAM_HDRDGST_EN, VInt (hdrdgst_en c), false);
   (ISCSI_PARAM_DATADGST_EN, VInt (datadgst_en c), true);
   (ISCSI_PARAM_INITIAL_R2T_EN, VInt (initial_r2t_en p), false);
   (ISCSI_PARAM_MAX_R2T, VInt (max_r2t p), false);
   (ISCSI_PARAM_IMM_DATA_EN, VInt (imm_data_en p), false);
   (ISCSI_PARAM_FIRST_BURST, VInt (first_burst p), false);
   (ISCSI_PARAM_MAX_BURST, VInt (max_burst p), false);
   (ISCSI_PARAM_PDU_INORDER_EN, VInt (pdu_inorder_en p), false);
   (ISCSI_PARAM_DATASEQ_INORDER_EN, VInt (dataseq_inorder_en p), false);
   (ISCSI_PARAM_ERL, VInt 0, false);
   (ISCSI_PARAM_IFMARKER_EN, VInt 0, false);
   (ISCSI_PARAM_OFMARKER_EN, VInt 0, false);
   (ISCSI_PARAM_EXP_STATSN, VInt (exp_statsn c), true);
   (ISCSI_PARAM_TPGT, VInt (portal_group_tag s), false)].

(** The loop on a table: [ipc] is [ipc->set_param].  The calls that were made,
    and whether all went well; [-ENOSYS] is ignored. *)
Fixpoint set_param_loop (ipc : Z -> kernel_value -> Z) (conn_id mask : Z) (tbl : list param_row)
    : bool * list (Z * kernel_value * Z) :=
  match tbl with
  | [] => (true, [])
  | (param, value, conn_only) :: tbl =>
      if truth conn_id && negb conn_only then set_param_loop ipc conn_id mask tbl
      else if negb (truth (Z.land mask (u64 (Z.shiftl 1 param)))) then set_param_loop ipc conn_id mask tbl
      else
        let rc := ipc param value in
        if decide (rc <> 0%Z /\ rc <> (- ENOSYS)%Z) then (false, [(param, value, rc)])
        else let '(ok, calls) := set_param_loop ipc conn_id mask tbl in (ok, (param, value, rc) :: calls)
  end.

Definition iscsi_session_set_neg_params (ipc : Z -> kernel_value -> Z) (caps conn_id : Z) (s : iscsi_session)
    : Z * list (Z * kernel_value * Z) :=
  let '(ok, calls) := set_param_loop ipc conn_id (iscsi_session_init_params caps) (neg_params_table s) in
  (if ok then 0%Z else EPERM, calls).

(** The fields of the record and of the session that only
    [iscsi_session_set_params] hands on. *)
Record kernel_record := mk_kernel_record {
  k_address : list Z;
  k_port : Z;
  k_replacement_timeout : Z;
  k_fast_abort : Z;
  k_abort_timeout : Z;
  k_lu_reset_timeout : Z;
  k_tgt_reset_timeout : Z;
  k_noop_out_timeout : Z;
  k_noop_out_interval : Z;
  k_iface_name : list Z;
  k_boot_root : list Z;
  k_boot_nic : list Z;
  k_boot_target : list Z
}.

Definition params_table (s : iscsi_session) (k : kernel_record) : list param_row :=
  [(ISCSI_PARAM_TARGET_NAME, VStr (Some (target_name s)), false);
   (ISCSI_PARAM_PERSISTENT_ADDRESS, VStr (Some (k_address k)), true);
   (ISCSI_PARAM_PERSISTENT_PORT, VInt (k_port k), true);
   (ISCSI_PARAM_SESS_RECOVERY_TMO, VInt (k_replacement_timeout k), false);
   (ISCSI_PARAM_USERNAME, VStr (Some (s_username s)), false);
   (ISCSI_PARAM_USERNAME_IN, VStr (Some (username_in (session_in s))), false);
   (ISCSI_PARAM_PASSWORD, VStr (Some (s_password s)), false);
   (ISCSI_PARAM_PASSWORD_IN, VStr (Some (password_in (session_in s))), false);
   (ISCSI_PARAM_FAST_ABORT, VInt (k_fast_abort k), false);
   (ISCSI_PARAM_ABORT_TMO, VInt (k_abort_timeout k), false);
   (ISCSI_PARAM_LU_RESET_TMO, VInt (k_lu_reset_timeout k), false);
   (ISCSI_PARAM_TGT_RESET_TMO, VInt (k_tgt_reset_timeout k), false);
   (ISCSI_PARAM_PING_TMO, VInt (k_noop_out_timeout k), true);
   (ISCSI_PARAM_RECV_TMO, VInt (k_noop_out_interval k), true);
   (ISCSI_PARAM_IFACE_NAME, VStr (Some (k_iface_name k)), false);
   (ISCSI_PARAM_INITIATOR_NAME, VStr (initiator_name s), false);
   (ISCSI_PARAM_BOOT_ROOT, VStr (Some (k_boot_root k)), false);
   (ISCSI_PARAM_BOOT_NIC, VStr (Some (k_boot_nic k)), false);
   (ISCSI_PARAM_BOOT_TARGET, VStr (Some (k_boot_target k)), false);
   (ISCSI_PARAM_DISCOVERY_SESS, VInt (type s), false)].

(** The return code, the calls, and whether pings are left to the daemon
    ([conn->userspace_nop = 1]); [supports_nop] is the answer of sysfs. *)
Definition iscsi_session_set_params (ipc : Z -> kernel_value -> Z) (caps conn_id : Z) (supports_nop : bool)
    (s : iscsi_session) (k : kernel_record) : Z * list (Z * kernel_value * Z) * bool :=
  let mask := iscsi_session_init_params caps in
  let mask := if supports_nop then mask
              else iscsi_session_clear_param (iscsi_session_clear_param mask ISCSI_PARAM_PING_TMO)
                     ISCSI_PARAM_RECV_TMO in
  let '(ok, calls) := set_param_loop ipc conn_id mask (params_table s k) in
  (if ok then 0%Z else EPERM, calls,
   bool_decide (Exists (fun call => call.1.1 = ISCSI_PARAM_PING_TMO /\ call.2 = (- ENOSYS)%Z) calls)).

Definition ISCSI_HOST_PARAM_HWADDRESS : Z := 0.
Definition ISCSI_HOST_PARAM_NETDEV_NAME : Z := 2.
Definition ISCSI_ERR_INVAL : Z := 7.

(** [host_set_param]: [rc] is what [ipc->set_host_param] returned. *)
Definition host_set_param (rc : Z) : Z :=
  if decide (rc <> 0%Z /\ rc <> (- ENOSYS)%Z /\ rc <> (- EINVAL)%Z) then ISCSI_ERR_INVAL else 0%Z.

(** [iscsi_host_set_params] sets two parameters; [ipc] is
    [ipc->set_host_param]. *)
Definition iscsi_host_set_params (ipc : Z -> list Z -> Z) (netdev hwaddress : list Z) : Z :=
  if decide (host_set_param (ipc ISCSI_HOST_PARAM_NETDEV_NAME netdev) <> 0%Z) then EPERM
  else if decide (host_set_param (ipc ISCSI_HOST_PARAM_HWADDRESS hwaddress) <> 0%Z) then EPERM
  else 0%Z.

(** ** Facts *)
Lemma align_32_down_spec x :
  (0 <= align_32_down x)%Z /\ (align_32_down x mod 4 = 0)%Z /\ (align_32_down x <= u32 x)%Z /\
  (u32 x - 3 <= align_32_down x)%Z.
Proof.
  unfold align_32_down. pose proof (wrap_range 32 x ltac:(lia)) as Hr. unfold u32 in *. set (y := wrap 32 x) in *.
  assert (E : Z.land y 0xFFFFFFFC = (y - y mod 4)%Z).
  { assert (Z.land y 0xFFFFFFFC = Z.shiftl (Z.shiftr y 2) 2) as ->.
    { apply Z.bits_inj_iff'. intros n Hn. rewrite Z.land_spec.
      destruct (decide (n < 2)%Z) as [Hlt | Hge].
      - rewrite Z.shiftl_spec_low by lia. assert (n = 0 \/ n = 1)%Z as [-> | ->] by lia; by rewrite andb_false_r.
      - rewrite Z.shiftl_spec, Z.shiftr_spec by lia. replace (n - 2 + 2)%Z with n by lia.
        destruct (decide (n < 32)%Z) as [H32 | H32].
        + replace 0xFFFFFFFC%Z with (Z.shiftl (Z.ones 30) 2) by reflexivity.
          rewrite Z.shiftl_spec, Z.ones_spec_low by lia. by rewrite andb_true_r.
        + assert (Z.testbit y n = false) as ->; [| done].
          destruct (decide (y = 0)%Z) as [-> |]; [apply Z.bits_0 |]. apply Z.bits_above_log2; [lia |].
          apply Z.log2_lt_pow2; [lia |]. apply Z.lt_le_trans with (2 ^ 32)%Z; [lia |]. apply Z.pow_le_mono_r; lia. }
    rewrite Z.shiftl_mul_pow2, Z.shiftr_div_pow2 by lia. change (2 ^ 2)%Z with 4%Z.
    pose proof (Z.div_mod y 4 ltac:(lia)). lia. }
  rewrite E. pose proof (Z.mod_pos_bound y 4 ltac:(lia)). pose proof (Z.div_mod y 4 ltac:(lia)).
  split; [lia |]. split; [| lia].
  replace (y - y mod 4)%Z with (y / 4 * 4)%Z by lia. apply Z.mod_mul. lia.
Qed.
