(* ===== verification/SessionTheorems.v ===== *)
(** * Preparing a session: properties *)
From Stdlib Require Import ZArith Lia.
From stdpp Require Import base tactics numbers list strings option.
From S2P Require Import Prelude CString AuthText Acl AclSafety Login LoginReq LoginSafety LoginReqSafety.
From S2P Require Import SessionSetup AclTheorems LoginTheorems.

(** ** Operational parameters *)

(** A length that RFC 7143 allows and that is a multiple of four. *)
Definition length_ok (x : Z) : Prop := (512 <= x <= 16777215)%Z /\ (x mod 4 = 0)%Z.

Record params_ok (s : iscsi_session) : Prop := {
  po_recv : length_ok (max_recv_dlength (conn s));
  po_xmit : length_ok (max_xmit_dlength (conn s));
  po_first : length_ok (first_burst (params s));
  po_max : length_ok (max_burst (params s));
  po_order : (first_burst (params s) <= max_burst (params s))%Z
}.

Lemma out_of_false lo hi x : out_of lo hi x = false -> (lo <= x <= hi)%Z.
Proof. unfold out_of. intros [H1 H2]%orb_false_elim. apply bool_decide_eq_false in H1, H2. lia. Qed.

Lemma out_of_in lo hi x : (lo <= x <= hi)%Z -> out_of lo hi x = false.
Proof. intros H. unfold out_of. rewrite !bool_decide_false by lia. done. Qed.

Lemma align_ok x : out_of 512 16777215 (align_32_down x) = false -> length_ok (align_32_down x).
Proof. intros H%out_of_false. destruct (align_32_down_spec x) as (_ & ? & _). done. Qed.

Lemma seg_length_ok rec x : (x mod 4 = 0)%Z -> length_ok (seg_length rec x).1.
Proof.
  intros Hx. unfold seg_length, ISCSI_MIN_MAX_RECV_SEG_LEN, ISCSI_MAX_MAX_RECV_SEG_LEN.
  destruct (out_of 512 16777215 x) eqn:E; cbn; [done |]. by apply out_of_false in E.
Qed.

Lemma copy_conn_ok c cc :
  length_ok (max_recv_dlength (copy_conn_params c cc).1) /\ length_ok (max_xmit_dlength (copy_conn_params c cc).1).
Proof.
  unfold copy_conn_params.
  pose proof (seg_length_ok (MaxRecvDataSegmentLength cc) (align_32_down (MaxRecvDataSegmentLength cc))) as Hr.
  set (x := if decide _ then _ else _).
  assert (Hx : (x mod 4 = 0)%Z).
  { unfold x. case_decide; [done |]. by destruct (align_32_down_spec (MaxXmitDataSegmentLength cc)) as (_ & ? & _). }
  pose proof (seg_length_ok (MaxXmitDataSegmentLength cc) x Hx) as Hs. clearbody x.
  destruct (align_32_down_spec (MaxRecvDataSegmentLength cc)) as (_ & Ha & _).
  specialize (Hr Ha).
  destruct (seg_length (MaxRecvDataSegmentLength cc) _), (seg_length (MaxXmitDataSegmentLength cc) _). by cbn in *.
Qed.

Lemma copy_session_ok p sc :
  let p' := (copy_session_params p sc).1 in
  length_ok (first_burst p') /\ length_ok (max_burst p') /\ (first_burst p' <= max_burst p')%Z.
Proof.
  unfold copy_session_params, ISCSI_MIN_FIRST_BURST_LEN, ISCSI_MAX_FIRST_BURST_LEN, ISCSI_MIN_MAX_BURST_LEN,
    ISCSI_MAX_MAX_BURST_LEN, DEF_INI_FIRST_BURST_LEN, DEF_INI_MAX_BURST_LEN.
  set (fb := align_32_down (FirstBurstLength sc)). set (mb := align_32_down (MaxBurstLength sc)).
  assert (H1 : out_of 512 16777215 fb = false -> length_ok fb) by apply align_ok.
  assert (H2 : out_of 512 16777215 mb = false -> length_ok mb) by apply align_ok. cbv zeta.
  assert (length_ok 262144) by done. assert (length_ok 16776192) by done.
  destruct (out_of 512 16777215 fb); cbn; fold mb; destruct (out_of 512 16777215 mb); case_decide; cbn; split_and!; try lia; auto.
Qed.

Lemma cap_at_ok limit x : length_ok limit -> length_ok x -> length_ok (cap_at limit x).
Proof. unfold cap_at. by case_decide. Qed.

Lemma driver_ok d s erl : params_ok s -> params_ok (run_create_conn d s erl).1.
Proof.
  intros [Hr Hx Hf Hm Ho]. assert (length_ok 65536) by done. assert (length_ok 8192) by done. assert (length_ok 262144) by done.
  destruct d; split; cbn; try done; try by apply cap_at_ok.
  unfold cap_at. repeat case_decide; lia.
Qed.

(** C28: the operational parameters of a session after
    [iscsi_copy_operational_params], whatever the record holds and whatever
    the driver: the segment and burst lengths are within the limits of the
    protocol and multiples of four, and the first burst is no longer than the
    maximal burst. *)
Theorem operational_params_in_range caps driver s sc cc s' erl sc' cc' :
  iscsi_copy_operational_params caps driver s sc cc = (s', erl, sc', cc') -> params_ok s'.
Proof.
  unfold iscsi_copy_operational_params.
  pose proof (copy_conn_ok (conn s) cc) as [Hr Hx]. destruct (copy_conn_params (conn s) cc) as [c cc1].
  pose proof (copy_session_ok (params s) sc) as (Hf & Hm & Ho). destruct (copy_session_params (params s) sc) as [p sc1].
  cbn in Hr, Hx, Hf, Hm, Ho.
  assert (H0 : params_ok (copy_discovery caps (s <| conn := c |> <| params := p |>))).
  { unfold copy_discovery. case_decide; [| by split]. destruct (has_cap caps CAP_TEXT_NEGO); split; cbn; try done.
    by apply cap_at_ok. }
  destruct driver as [d |]; [| by intros [= <- _ _ _]].
  pose proof (driver_ok d (copy_discovery caps (s <| conn := c |> <| params := p |>)) (ERL sc1) H0) as H1.
  destruct (run_create_conn d _ _) as [s1 erl1]. by intros [= <- _ _ _].
Qed.

(** ** Authentication *)
(** The buffers of the record and of the session, and what fits in them. *)
Record config_wf (cfg : iscsi_auth_config) : Prop := {
  cw_password : length (ac_password cfg) = AUTH_STR_MAX_LEN;
  cw_password_in : length (ac_password_in cfg) = AUTH_STR_MAX_LEN;
  cw_length : (0 <= ac_password_length cfg <= 256)%Z;
  cw_length_in : (0 <= ac_password_in_length cfg <= 256)%Z;
  cw_username : no_nul (ac_username cfg)
}.

Lemma copy_secret_spec dst src n :
  length dst = AUTH_STR_MAX_LEN -> length src = AUTH_STR_MAX_LEN -> (0 <= n <= 256)%Z ->
  copy_secret dst src n = Some (splice dst 0 (take (Z.to_nat n) src)) /\
  length (splice dst 0 (take (Z.to_nat n) src)) = AUTH_STR_MAX_LEN.
Proof.
  intros Hd Hs Hn. assert (Hl : length (splice dst 0 (take (Z.to_nat n) src)) = AUTH_STR_MAX_LEN).
  { rewrite length_splice; [done |]. rewrite length_take. lia. }
  split; [| done]. unfold copy_secret. case_decide as H0.
  - subst n. cbn. by rewrite splice_nil.
  - assert (AUTH_STR_MAX_LEN = Z.to_nat 256) as Ha by reflexivity.
    rewrite buf_prefix_Some, bind_ret by lia. rewrite buf_write_Some; [done |]. rewrite length_take. lia.
Qed.

(** The two last conjuncts of [auth_setup_correct], about [num_auth_buffers]. *)
Ltac auth_done :=
  cbn [num_auth_buffers auth_buffers];
  first [ match goal with
          | H : (truth ?a || truth ?b = true) |- context [decide ?P] =>
              rewrite decide_False; [done |]; intros [Hz1 Hz2]; revert H; cbn; rewrite Hz1, Hz2; done
          | H : (truth ?a || truth ?b = false) |- context [decide ?P] =>
              rewrite decide_True; [done |]; apply orb_false_elim in H as [Hz1 Hz2]; revert Hz1 Hz2; cbn;
              unfold truth; intros ->%negb_false_iff%Z.eqb_eq ->%negb_false_iff%Z.eqb_eq; done
          end
        | intros _; by apply bool_decide_eq_true
        | done ].

(** C35: setting up the authentication of a session: a record with incoming
    credentials and no outgoing password is refused with EINVAL and the session
    is left as it was; otherwise the credentials of the record are in the
    session, the target is to be authenticated exactly when there are incoming
    credentials, and with a password the five buffers are such that [acl_init]
    accepts them. *)
Theorem auth_setup_correct `{AuthEnv} s cfg :
  config_wf cfg -> length (s_password s) = AUTH_STR_MAX_LEN -> session_wf (session_in s) ->
  exists rc s', iscsi_setup_authentication s cfg = Some (rc, s') /\
    (has_incoming cfg = true -> ac_password_length cfg = 0%Z -> rc = EINVAL /\ s' = s) /\
    (has_incoming cfg = false \/ ac_password_length cfg <> 0%Z ->
       rc = 0%Z /\ bidirectional_auth s' = (if has_incoming cfg then 1 else 0)%Z /\
       s_username s' = take 255 (ac_username cfg) /\ s_password_length s' = ac_password_length cfg /\
       take (Z.to_nat (ac_password_length cfg)) (s_password s') =
         take (Z.to_nat (ac_password_length cfg)) (ac_password cfg) /\
       username_in (session_in s') = take 255 (ac_username_in cfg) /\
       password_in_length (session_in s') = ac_password_in_length cfg /\
       take (Z.to_nat (ac_password_in_length cfg)) (password_in (session_in s')) =
         take (Z.to_nat (ac_password_in_length cfg)) (ac_password_in cfg) /\
       session_wf (session_in s') /\
       (num_auth_buffers s' = if decide (ac_password_length cfg = 0 /\ ac_password_in_length cfg = 0)%Z then 0 else 5)%Z /\
       (num_auth_buffers s' = 5%Z -> desc_ok (auth_buffers s') = true)).
Proof.
  intros [Hp Hpi Hl Hli Hu] Hs [Hsi1 Hsi2]. unfold iscsi_setup_authentication.
  destruct (has_incoming cfg && bool_decide (ac_password_length cfg = 0%Z)) eqn:Ebad.
  - apply andb_prop in Ebad as [-> Ez%bool_decide_eq_true]. eexists _, _. split; [done |]. split; [done |].
    intros [? | ?]; [done | congruence].
  - cbv zeta. change (s_password_length (_ <| s_password_length := ?v |>)) with v.
    change (s_password (_ <| s_username := _ |> <| s_password_length := _ |>)) with (s_password s).
    rewrite !i32_small by lia.
    destruct (copy_secret_spec (s_password s) (ac_password cfg) (ac_password_length cfg)) as [-> Hlen1]; [done.. |].
    rewrite bind_ret.
    destruct (copy_secret_spec (password_in (session_in s)) (ac_password_in cfg) (ac_password_in_length cfg)) as [E2 Hlen2]; [done.. |].
    match goal with |- context [copy_secret ?d ?x ?n] =>
      change (copy_secret d x n) with (copy_secret (password_in (session_in s)) (ac_password_in cfg) (ac_password_in_length cfg)) end.
    rewrite E2, bind_ret.
    assert (Htake : forall dst n, (0 <= n <= 256)%Z -> forall src, length src = AUTH_STR_MAX_LEN ->
      take (Z.to_nat n) (splice dst 0 (take (Z.to_nat n) src)) = take (Z.to_nat n) src).
    { intros dst n Hn src Hsrc. assert (AUTH_STR_MAX_LEN = Z.to_nat 256) by reflexivity.
      assert (length (take (Z.to_nat n) src) = Z.to_nat n) as El by (rewrite length_take; lia).
      rewrite <- El at 1. apply take_splice_0. }
    pose proof (Htake (s_password s) _ Hl _ Hp) as Ht1. pose proof (Htake (password_in (session_in s)) _ Hli _ Hpi) as Ht2.
    assert (Hcase : has_incoming cfg = true -> ac_password_length cfg = 0%Z -> False).
    { intros Hi Hz. by rewrite Hi, bool_decide_true in Ebad. }
    assert (Hwf : forall u, session_wf (mk_auth_session u (splice (password_in (session_in s)) 0
      (take (Z.to_nat (ac_password_in_length cfg)) (ac_password_in cfg))) (ac_password_in_length cfg))).
    { intros u. split; [exact Hlen2 | cbn; lia]. }
    destruct (truth _ || truth _) eqn:Eo; (eexists _, _; split; [reflexivity |]; split; [by intros; exfalso; auto |]);
      intros _; (split_and!; [done | done | done | done | exact Ht1 | done | done | exact Ht2 | apply Hwf | | ]); auth_done.
Qed.

(** ** The parameters of the kernel *)

(** What [iscsi_session_init_params] means: a parameter is handed to the kernel
    unless the transport lacks the capability for it. *)
Definition supported (caps param : Z) : bool :=
  (has_cap caps CAP_MULTI_R2T || negb (param =? ISCSI_PARAM_MAX_R2T)%Z) &&
  (has_cap caps CAP_HDRDGST || negb (param =? ISCSI_PARAM_HDRDGST_EN)%Z) &&
  (has_cap caps CAP_DATADGST || negb (param =? ISCSI_PARAM_DATADGST_EN)%Z) &&
  (has_cap caps CAP_MARKERS || negb (param =? ISCSI_PARAM_IFMARKER_EN)%Z && negb (param =? ISCSI_PARAM_OFMARKER_EN)%Z).

Lemma u64_bit p : (0 <= p < 64)%Z -> u64 (Z.shiftl 1 p) = (2 ^ p)%Z.
Proof.
  intros Hp. rewrite Z.shiftl_1_l. apply wrap_small.
  split; [apply Z.pow_nonneg; lia | apply Z.pow_lt_mono_r; lia].
Qed.

Lemma truth_land_bit mask p : (0 <= p < 64)%Z -> truth (Z.land mask (u64 (Z.shiftl 1 p))) = Z.testbit mask p.
Proof.
  intros Hp. rewrite u64_bit by done. unfold truth. destruct (Z.testbit mask p) eqn:E.
  - apply negb_true_iff, Z.eqb_neq. intros H0. apply (f_equal (fun z => Z.testbit z p)) in H0.
    rewrite Z.land_spec, E, Z.pow2_bits_true, Z.bits_0 in H0 by lia. done.
  - apply negb_false_iff, Z.eqb_eq. apply Z.bits_inj_iff'. intros n Hn.
    rewrite Z.land_spec, Z.bits_0. destruct (decide (n = p)) as [-> | Hne]; [by rewrite E |].
    rewrite Z.pow2_bits_false by done. apply andb_false_r.
Qed.

Lemma testbit_all p : (0 <= p < 64)%Z -> Z.testbit (2 ^ 64 - 1) p = true.
Proof. intros Hp. replace (2 ^ 64 - 1)%Z with (Z.ones 64) by reflexivity. apply Z.ones_spec_low. lia. Qed.

Lemma testbit_clear mask q p :
  (0 <= p < 64)%Z -> (0 <= q < 64)%Z ->
  Z.testbit (iscsi_session_clear_param mask q) p = Z.testbit mask p && negb (p =? q)%Z.
Proof.
  intros Hp Hq. unfold iscsi_session_clear_param.
  rewrite u64_bit, Z.land_spec, Z.lxor_spec, testbit_all, Z.pow2_bits_eqb by lia.
  by rewrite xorb_true_l, Z.eqb_sym.
Qed.

Lemma mask_supported caps p :
  (0 <= p < 64)%Z -> truth (Z.land (iscsi_session_init_params caps) (u64 (Z.shiftl 1 p))) = supported caps p.
Proof.
  intros Hp. rewrite truth_land_bit by done. unfold iscsi_session_init_params, supported.
  set (all := (2 ^ 64 - 1)%Z). assert (Ha : Z.testbit all p = true) by (by apply testbit_all). clearbody all.
  assert (Hc : forall mask q, (0 <= q < 64)%Z ->
    Z.testbit (iscsi_session_clear_param mask q) p = Z.testbit mask p && negb (p =? q)%Z) by (intros; by apply testbit_clear).
  destruct (has_cap caps CAP_MULTI_R2T), (has_cap caps CAP_HDRDGST), (has_cap caps CAP_DATADGST), (has_cap caps CAP_MARKERS);
    cbn [orb negb andb]; rewrite ?Hc, Ha by done; cbn [andb]; rewrite ?andb_true_r, ?andb_assoc; done.
Qed.

(** The rows that are for this connection and this transport, in order. *)
Definition rows_for (conn_id caps : Z) (tbl : list param_row) : list param_row :=
  filter (fun row => (conn_id = 0%Z \/ row.2 = true) /\ supported caps row.1.1 = true) tbl.

(** The answer that stops the loop. *)
Definition refused (rc : Z) : Prop := rc <> 0%Z /\ rc <> (- ENOSYS)%Z.

#[global] Instance refused_dec rc : Decision (refused rc).
Proof. unfold refused. apply _. Defined.

(** The calls: each row with the answer, up to the first that is refused. *)
Fixpoint calls_until (ipc : Z -> kernel_value -> Z) (rows : list param_row) : list (Z * kernel_value * Z) :=
  match rows with
  | [] => []
  | (p, v, _) :: rows => (p, v, ipc p v) :: if decide (refused (ipc p v)) then [] else calls_until ipc rows
  end.

Lemma set_param_loop_calls ipc conn_id caps tbl :
  Forall (fun row : param_row => 0 <= row.1.1 < 64)%Z tbl ->
  set_param_loop ipc conn_id (iscsi_session_init_params caps) tbl =
    (bool_decide (Forall (fun row : param_row => ~ refused (ipc row.1.1 row.1.2)) (rows_for conn_id caps tbl)),
     calls_until ipc (rows_for conn_id caps tbl)).
Proof.
  induction 1 as [| [[p v] co] tbl Hp Htbl IH]; [done |]. cbn [set_param_loop]. cbn in Hp.
  rewrite mask_supported by done. unfold rows_for in *. rewrite filter_cons. cbn [fst snd].
  destruct (truth conn_id && negb co) eqn:Ec.
  { rewrite decide_False; [done |]. intros [[-> | ->] _]; [done |]. by rewrite andb_false_r in Ec. }
  destruct (supported caps p) eqn:Es; cbn [negb]; [| rewrite decide_False; [done | by intros []]].
  assert (Hrow : (conn_id = 0%Z \/ co = true) /\ true = true).
  { split; [| done]. unfold truth in Ec. destruct (Z.eqb_spec conn_id 0), co; auto; done. }
  rewrite (decide_True _ _ Hrow). cbn [calls_until]. destruct (decide (refused (ipc p v))) as [Hr | Hr].
  - rewrite decide_True by exact Hr. rewrite bool_decide_false; [done |].
    intros Hall. by inversion Hall.
  - rewrite decide_False by exact Hr. rewrite IH. f_equal. apply bool_decide_ext.
    split; [by constructor |]. intros Hall. by inversion Hall.
Qed.

(** handing the negotiated parameters to the kernel: the calls of
    [iscsi_session_set_neg_params] are the rows of the table that are for the
    connection and that the transport supports, in order, up to and including
    the first that the kernel refuses with something else than ENOSYS; the
    function returns 0 exactly when none is refused, and EPERM otherwise. *)
Theorem neg_params_calls ipc caps conn_id s :
  let rows := rows_for conn_id caps (neg_params_table s) in
  iscsi_session_set_neg_params ipc caps conn_id s =
    (if decide (Forall (fun row : param_row => ~ refused (ipc row.1.1 row.1.2)) rows) then 0%Z else EPERM,
     calls_until ipc rows).
Proof.
  cbv zeta. unfold iscsi_session_set_neg_params. rewrite set_param_loop_calls.
  - by destruct (decide (Forall _ _)) as [H | H]; [rewrite bool_decide_true | rewrite bool_decide_false].
  - repeat (apply Forall_cons; [by split |]). apply Forall_nil.
Qed.

(** ** Witnesses *)
Section Witnesses.
#[local] Existing Instances Toy.env Toy.env_ok Demo.login_env.

Definition conf0 : conn_operational_config := mk_conn_conf 0 0 0 0 0 0.
Definition sconf0 : session_operational_config := mk_session_conf 0 1 5 (-1) 2 0 1 0 1.
Definition toy_cfg : iscsi_auth_config :=
  mk_auth_config (str "user") (replicate 256 65%Z) 12 (str "target") (replicate 256 66%Z) 13 [5%Z].

Lemma operational_params_in_range_witness :
  exists s' erl sc' cc', iscsi_copy_operational_params 0 (Some be2iscsi_create_conn) Demo.session0 sconf0 conf0 =
    (s', erl, sc', cc') /\ params_ok s'.
Proof.
  eexists _, _, _, _. split; [reflexivity |].
  apply (operational_params_in_range 0 (Some be2iscsi_create_conn) Demo.session0 sconf0 conf0 _ _ _ _ eq_refl).
Defined.

Lemma auth_setup_correct_witness :
  exists rc s', iscsi_setup_authentication Demo.session0 toy_cfg = Some (rc, s') /\ rc = 0%Z /\
    bidirectional_auth s' = 1%Z /\ num_auth_buffers s' = 5%Z.
Proof.
  destruct (auth_setup_correct Demo.session0 toy_cfg) as (rc & s' & E & _ & H).
  - split; try (vm_compute; reflexivity); try (vm_compute; split; discriminate). by apply (bool_decide_unpack _).
  - vm_compute; reflexivity.
  - exact Toy.session_ok.
  - destruct H as (H1 & H2 & _ & _ & _ & _ & _ & _ & _ & H3 & _); [right; discriminate |].
    exists rc, s'. split; [exact E |]. split; [exact H1 |]. split; [exact H2 |]. exact H3.
Defined.
End Witnesses.
