(* ===== verification/StateM.v ===== *)
(** * A state monad with failure

    The handlers of the daemon change the session, the request queue and the
    timers through many calls.  A handler is a function from the world to its
    result and the new world; [None] is an access to memory that was released
    or never existed.  [wp m Q w] says that [m] runs from [w] and that its
    result satisfies [Q]. *)
From Stdlib Require Import ZArith Lia.
From stdpp Require Import base tactics numbers list option.
From S2P Require Import Prelude.

Definition M (W A : Type) : Type := W -> option (A * W).

Definition mret' {W A} (a : A) : M W A := fun w => Some (a, w).

Definition mthen {W A B} (m : M W A) (k : A -> M W B) : M W B :=
  fun w => match m w with Some (a, w') => k a w' | None => None end.

Definition mget {W} : M W W := fun w => Some (w, w).

Definition mmod {W} (f : W -> W) : M W unit := fun w => Some (tt, f w).

Definition mfail {W A} : M W A := fun _ => None.

Definition mopt {W A} (o : option A) : M W A := fun w => a ← o; Some (a, w).

Notation "'let!' x := m 'in' k" := (mthen m (fun x => k))
  (at level 200, x pattern at level 0, m at level 100, k at level 200, right associativity) : iscsi_scope.
Notation "m ;;; k" := (mthen m (fun _ => k)) (at level 195, right associativity) : iscsi_scope.

(** [if (c) m;] *)
Definition mwhen {W} (c : bool) (m : M W unit) : M W unit := if c then m else mret' tt.

Definition wp {W A} (m : M W A) (Q : A -> W -> Prop) (w : W) : Prop :=
  exists a w', m w = Some (a, w') /\ Q a w'.

Section Rules.
Context {W : Type}.
Implicit Types w : W.

Lemma wp_ret {A} (a : A) (Q : A -> W -> Prop) w : Q a w -> wp (mret' a) Q w.
Proof. intros H. by exists a, w. Qed.

Lemma wp_then {A B} (m : M W A) (k : A -> M W B) (Q : B -> W -> Prop) w :
  wp m (fun a w' => wp (k a) Q w') w -> wp (mthen m k) Q w.
Proof. intros (a & w1 & E & b & w2 & E2 & H). exists b, w2. unfold mthen. by rewrite E. Qed.

(** Use a specification [m] is known to have. *)
Lemma wp_use {A} (m : M W A) (P Q : A -> W -> Prop) w :
  wp m P w -> (forall a w', P a w' -> Q a w') -> wp m Q w.
Proof. intros (a & w1 & E & H) HPQ. exists a, w1. auto. Qed.

Lemma wp_bind {A B} (m : M W A) (k : A -> M W B) (P : A -> W -> Prop) (Q : B -> W -> Prop) w :
  wp m P w -> (forall a w', P a w' -> wp (k a) Q w') -> wp (mthen m k) Q w.
Proof. intros H HPQ. apply wp_then. eapply wp_use; [exact H | exact HPQ]. Qed.

Lemma wp_get (Q : W -> W -> Prop) w : Q w w -> wp mget Q w.
Proof. intros H. by exists w, w. Qed.

Lemma wp_mod (f : W -> W) (Q : unit -> W -> Prop) w : Q tt (f w) -> wp (mmod f) Q w.
Proof. intros H. by exists tt, (f w). Qed.

Lemma wp_opt {A} (o : option A) a (Q : A -> W -> Prop) w : o = Some a -> Q a w -> wp (mopt o) Q w.
Proof. intros -> H. by exists a, w. Qed.

Lemma wp_when (c : bool) (m : M W unit) (Q : unit -> W -> Prop) w :
  (c = true -> wp m Q w) -> (c = false -> Q tt w) -> wp (mwhen c m) Q w.
Proof. destruct c; cbn; intros H1 H2; [by apply H1 | by apply wp_ret, H2]. Qed.

Lemma wp_run {A} (m : M W A) Q w : wp m Q w -> is_Some (m w).
Proof. intros (a & w1 & -> & _). eauto. Qed.
End Rules.

(** The first step of a handler. *)
Ltac mstep :=
  lazymatch goal with
  | |- wp (mthen _ _) _ _ => apply wp_then; mstep
  | |- wp (mret' _) _ _ => apply wp_ret
  | |- wp mget _ _ => apply wp_get
  | |- wp (mmod _) _ _ => apply wp_mod
  | |- wp (mwhen _ _) _ _ => apply wp_when; intros ?
  | _ => idtac
  end.
