(* ===== verification/Initiator.v ===== *)
(** * The session state machine of the daemon (usr/initiator.c)

    One session with its leading connection, the management requests that wait
    for it, and the calls the daemon makes to the kernel, to the transport and
    to the system.  The handlers have the names of the source; every call to
    the outside is an [ask] that is answered by the oracle of the world, and
    while the daemon waits for the kernel's answer further kernel events may
    be queued ([__kipc_call] runs [ctldev_handle]).

    An access to the session after it was released, to a request after it was
    answered, or outside of a buffer makes a handler fail ([None]); so does a
    timer or a context that runs although the session that contains it was
    released. *)
From Stdlib Require Import ZArith Lia.
From stdpp Require Import base tactics numbers list option gmap.
From S2P Require Import Prelude CString AuthText Acl Pdu LoginText Io Timer Login LoginReq SessionSetup StateM.

(** ** Constants *)
Definition INVALID_SESSION_ID : Z := 4294967295.
Definition CONTEXT_POOL_MAX : nat := 32.
Definition ISCSI_CONN_ERR_REOPEN_DELAY : Z := 3.
Definition ISCSI_INTERNAL_ERR_REOPEN_DELAY : Z := 5.
Definition STOP_CONN_TERM : Z := 1.
Definition STOP_CONN_RECOVER : Z := 3.
Definition ENOMEM : Z := 12.
Definition EEXIST : Z := 17.
Definition ENOTCONN : Z := 107.
Definition EINPROGRESS : Z := 115.

Definition ISCSI_SUCCESS : Z := 0.
Definition ISCSI_ERR_SESS_NOT_FOUND : Z := 2.
Definition ISCSI_ERR_NOMEM : Z := 3.
Definition ISCSI_ERR_TRANS : Z := 4.
Definition ISCSI_ERR_LOGIN : Z := 5.
Definition ISCSI_ERR_TRANS_TIMEOUT : Z := 8.
Definition ISCSI_ERR_INTERNAL : Z := 9.
Definition ISCSI_ERR_PDU_TIMEOUT : Z := 11.
Definition ISCSI_ERR_TRANS_NOT_FOUND : Z := 12.
Definition ISCSI_ERR_SESS_EXISTS : Z := 15.
Definition ISCSI_ERR_FATAL_LOGIN : Z := 19.
Definition ISCSI_ERR_HOST_NOT_FOUND : Z := 23.
Definition ISCSI_ERR_LOGIN_AUTH_FAILED : Z := 24.
Definition ISCSI_ERR_BUSY : Z := 28.
Definition ISCSI_ERR_AGAIN : Z := 29.
Definition ISCSI_ERR_SESSION_NOT_CONNECTED : Z := 32.

Definition ISCSI_STATUS_CLS_TARGET_ERR : Z := 3.
Definition ISCSI_LOGIN_STATUS_TGT_MOVED_TEMP : Z := 1.
Definition ISCSI_LOGIN_STATUS_TGT_MOVED_PERM : Z := 2.
Definition ISCSI_LOGIN_STATUS_AUTH_FAILED : Z := 1.
Definition ISCSI_LOGIN_STATUS_TGT_FORBIDDEN : Z := 2.

Definition ISCSI_OPCODE_MASK : Z := 0x3F.
Definition ISCSI_OP_NOOP_OUT : Z := 0x00.
Definition ISCSI_OP_LOGOUT : Z := 0x06.
Definition ISCSI_OP_NOOP_IN : Z := 0x20.
Definition ISCSI_OP_LOGOUT_RSP : Z := 0x26.
Definition ISCSI_OP_ASYNC_EVENT : Z := 0x32.
Definition ISCSI_FLAG_CMD_FINAL : Z := 0x80.
Definition ISCSI_RESERVED_TAG : Z := 0xffffffff.
Definition ISCSI_LOGOUT_REASON_CLOSE_SESSION : Z := 0.
Definition ISCSI_FLAG_LOGOUT_REASON_MASK : Z := 0x7F.

Definition ISCSI_ASYNC_MSG_SCSI_EVENT : Z := 0.
Definition ISCSI_ASYNC_MSG_REQUEST_LOGOUT : Z := 1.
Definition ISCSI_ASYNC_MSG_DROPPING_CONNECTION : Z := 2.
Definition ISCSI_ASYNC_MSG_DROPPING_ALL_CONNECTIONS : Z := 3.
Definition ISCSI_ASYNC_MSG_PARAM_NEGOTIATION : Z := 4.

(** [ISCSI_ERR_INVALID_HOST] of [enum iscsi_err]. *)
Definition ISCSI_ERR_INVALID_HOST : Z := 1000 + 18.

(** ** Enumerations *)
Inductive iscsi_conn_state :=
| ISCSI_CONN_STATE_FREE | ISCSI_CONN_STATE_XPT_WAIT | ISCSI_CONN_STATE_IN_LOGIN
| ISCSI_CONN_STATE_LOGGED_IN | ISCSI_CONN_STATE_IN_LOGOUT | ISCSI_CONN_STATE_LOGOUT_REQUESTED
| ISCSI_CONN_STATE_CLEANUP_WAIT.

#[export] Instance conn_state_eq_dec : EqDecision iscsi_conn_state.
Proof. solve_decision. Defined.

Inductive iscsi_session_r_stage_e :=
| R_STAGE_NO_CHANGE | R_STAGE_SESSION_CLEANUP | R_STAGE_SESSION_REOPEN
| R_STAGE_SESSION_REDIRECT | R_STAGE_SESSION_DESTOYED.

#[export] Instance r_stage_eq_dec : EqDecision iscsi_session_r_stage_e.
Proof. solve_decision. Defined.

Inductive conn_login_status_e :=
| CONN_LOGIN_SUCCESS | CONN_LOGIN_FAILED | CONN_LOGIN_IO_ERR | CONN_LOGIN_RETRY
| CONN_LOGIN_IMM_RETRY | CONN_LOGIN_IMM_REDIRECT_RETRY | CONN_LOGIN_AUTH_FAILED.

(** ** Requests

    [queue_task_t]: the one inside the session that recovery uses, or a
    request of a management client, known by a number. *)
Inductive queue_task := reopen_qtask | request (n : nat).

#[export] Instance queue_task_eq_dec : EqDecision queue_task.
Proof. solve_decision. Defined.

(** What a context of the pool is used for: the event that is scheduled with
    its argument.  [EV_BUSY] is a context that was taken and is not, or no
    longer, scheduled. *)
Inductive ev_context :=
| EV_BUSY
| EV_CONN_RECV_PDU (pdu : list Z)
| EV_CONN_POLL (qtask : queue_task)
| EV_CONN_ERROR (error : Z)
| EV_CONN_LOGOUT_TIMER
| EV_CONN_STOP
| EV_CONN_LOGIN (state : iscsi_conn_state).

(** What [nop_out_timer] runs. *)
Inductive nop_callback := conn_send_nop_out_cb | conn_nop_out_timeout_cb.

(** ** Records *)

(** The parts of a node record that the daemon reads, beyond those of
    SessionSetup. *)
Record node_rec := mk_node_rec {
  n_name : list Z;
  n_tpgt : Z;
  n_iname : list Z;
  n_alias : list Z;
  n_netdev : list Z;
  n_hwaddress : list Z;
  n_auth : iscsi_auth_config;
  n_session : session_operational_config;
  n_conn : conn_operational_config;
  n_kernel : kernel_record;
  n_reopen_max : Z;
  n_initial_login_retry_max : Z;
  n_login_timeout : Z;
  n_logout_timeout : Z;
  n_auth_timeout : Z;
  n_noop_out_interval : Z;
  n_noop_out_timeout : Z;
  n_multiple : bool
}.
#[export] Instance eta_node_rec : Eta node_rec := fun r =>
  mk_node_rec (n_name r) (n_tpgt r) (n_iname r) (n_alias r) (n_netdev r) (n_hwaddress r) (n_auth r)
    (n_session r) (n_conn r) (n_kernel r) (n_reopen_max r) (n_initial_login_retry_max r)
    (n_login_timeout r) (n_logout_timeout r) (n_auth_timeout r) (n_noop_out_interval r)
    (n_noop_out_timeout r) (n_multiple r).

(** A transport: capabilities, the driver's [create_conn], and the template. *)
Record iscsi_transport := mk_transport {
  t_caps : Z;
  t_driver : option create_conn;
  t_rdma : bool;
  t_bind_ep_required : bool;
  t_kernel_ep : bool
}.

(** [iscsi_session] with its connection.  [lg] are the fields that the login
    code uses; [data] is [conn->data], which the login context points to;
    [reopen_conn] is [reopen_qtask.conn != NULL].  A timer is the delay it was
    started with and the argument of its callback.  [pool] has a free context
    as [None]; [pool_dangling] when entries point to released memory.
    [g_start] and [g_calls] are the history of the current login, for the
    specifications only. *)
Record daemon_session := mk_dsession {
  lg : iscsi_session;
  t : iscsi_transport;
  nrec : node_rec;
  login_ctx : login_context;
  ctx_qtask : option queue_task;
  data : list Z;
  state : iscsi_conn_state;
  r_stage : iscsi_session_r_stage_e;
  id : Z;
  hostno : Z;
  erl : Z;
  reopen_cnt : Z;
  reopen_max : Z;
  failback_saddr : list Z;
  reopen_conn : bool;
  notify_qtask : option queue_task;
  logout_qtask : option queue_task;
  login_timer : option (Z * queue_task);
  nop_out_timer : option (Z * nop_callback);
  pool : list (option ev_context);
  pool_dangling : bool;
  userspace_nop : Z;
  initial_connect_time : timeval;
  logout_timeout : Z;
  noop_out_interval : Z;
  noop_out_timeout : Z;
  g_start : nat;
  g_calls : list rsp_call
}.
#[export] Instance eta_dsession : Eta daemon_session := fun s =>
  mk_dsession (lg s) (t s) (nrec s) (login_ctx s) (ctx_qtask s) (data s) (state s) (r_stage s) (id s)
    (hostno s) (erl s) (reopen_cnt s) (reopen_max s) (failback_saddr s) (reopen_conn s)
    (notify_qtask s) (logout_qtask s) (login_timer s) (nop_out_timer s) (pool s) (pool_dangling s)
    (userspace_nop s) (initial_connect_time s) (logout_timeout s) (noop_out_interval s)
    (noop_out_timeout s) (g_start s) (g_calls s).

(** ** The outside *)

(** The calls to the kernel, the transport, sysfs and the system. *)
Inductive ext_call :=
| X_ep_disconnect | X_ep_connect | X_ep_poll
| X_has_leadconn | X_supports_nop | X_get_exp_statsn | X_get_host_no | X_get_transport | X_session_in_use
| X_create_session (pass_ep : bool) | X_create_conn | X_bind_conn | X_start_conn
| X_stop_conn (flag : Z) | X_destroy_conn | X_destroy_session | X_unbind_session
| X_set_param | X_set_host_param | X_set_net_config | X_set_net_params
| X_scan_host | X_autoscan | X_online_devs
| X_send_pdu | X_gettimeofday | X_calloc | X_session_running.

(** What the kernel may send for the connection. *)
Inductive kernel_event :=
| ISCSI_KEVENT_RECV_PDU (pdu : list Z)
| ISCSI_KEVENT_CONN_ERROR (error : Z)
| ISCSI_KEVENT_CONN_LOGIN_STATE (state : iscsi_conn_state)
| ISCSI_KEVENT_UNBIND_SESSION.

(** The answer to a call: its return code, a value that it stores, the clock,
    the results of [writev], the answers to single parameters, and the kernel
    events that arrive before it. *)
Record answer := mk_answer {
  a_rc : Z;
  a_out : Z;
  a_time : timeval;
  a_writes : list write_event;
  a_param : Z -> kernel_value -> Z;
  a_events : list kernel_event
}.

(** [dconfig]. *)
Record daemon_config := mk_dconfig {
  dc_initiator_name : option (list Z);
  dc_initiator_alias : option (list Z);
  dc_safe_logout : bool
}.

(** [w_qtasks]: the requests that are not answered yet, with
    [qtask->conn != NULL]; [w_answers] the responses written, in order;
    [w_retry] is the login request that waits for its host.  [w_loose]: a
    session was released while one of its actors (a timer or a context) was
    queued, and the queue of the actors points into the released memory. *)
Record world := mk_world {
  w_session : option daemon_session;
  w_qtasks : gmap nat bool;
  w_answers : list (nat * Z);
  w_ext : nat -> ext_call -> answer;
  w_pos : nat;
  w_retry : option (nat * node_rec * Z);
  w_config : daemon_config;
  w_loose : bool
}.
#[export] Instance eta_world : Eta world := fun w =>
  mk_world (w_session w) (w_qtasks w) (w_answers w) (w_ext w) (w_pos w) (w_retry w) (w_config w) (w_loose w).

(** Access to the session. *)
Definition the_session : M world daemon_session := fun w => s ← w_session w; Some (s, w).

Definition set_session (f : daemon_session -> daemon_session) : M world unit :=
  fun w => s ← w_session w; Some (tt, w <| w_session := Some (f s) |>).

(** ** The context pool *)

(** The first free context. *)
Fixpoint free_slot (pool : list (option ev_context)) (i : nat) : option nat :=
  match pool with
  | [] => None
  | None :: _ => Some i
  | Some _ :: pool => free_slot pool (S i)
  end.

Definition iscsi_ev_context_get : M world (option nat) :=
  let! s := the_session in
  match free_slot (pool s) 0 with
  | None => mret' None
  | Some i => set_session (fun s => s <| pool := <[i := Some EV_BUSY]> (pool s) |>) ;;; mret' (Some i)
  end.

Definition iscsi_ev_context_put (i : nat) : M world unit :=
  set_session (fun s => s <| pool := <[i := None]> (pool s) |>).

Definition iscsi_sched_ev_context (i : nat) (ev : ev_context) : M world unit :=
  set_session (fun s => s <| pool := <[i := Some ev]> (pool s) |>).

(** The events of [ctldev_handle], on the session of the event. *)
Definition event_context (e : kernel_event) : ev_context :=
  match e with
  | ISCSI_KEVENT_RECV_PDU pdu => EV_CONN_RECV_PDU pdu
  | ISCSI_KEVENT_CONN_ERROR error => EV_CONN_ERROR error
  | ISCSI_KEVENT_CONN_LOGIN_STATE st => EV_CONN_LOGIN st
  | ISCSI_KEVENT_UNBIND_SESSION => EV_CONN_STOP
  end.

(** No session of that id, or no free context: the event is dropped. *)
Definition ctldev_handle (e : kernel_event) (w : world) : world :=
  match w_session w with
  | None => w
  | Some s =>
      if decide (id s = INVALID_SESSION_ID) then w
      else match free_slot (pool s) 0 with
           | None => w
           | Some i => w <| w_session := Some (s <| pool := <[i := Some (event_context e)]> (pool s) |>) |>
           end
  end.

(** A call to the outside. *)
Definition ask (c : ext_call) : M world answer := fun w =>
  let a := w_ext w (w_pos w) c in
  Some (a, foldl (fun w e => ctldev_handle e w) (w <| w_pos := S (w_pos w) |>) (a_events a)).

Definition iscsi_flush_context_pool : M world unit :=
  let! s := the_session in
  if pool_dangling s then mfail
  else set_session (fun s => s <| pool := (fun _ => None) <$> pool s |>).

Definition conn_delete_timers : M world unit :=
  set_session (fun s => s <| login_timer := None |> <| nop_out_timer := None |>).

(** ** Requests *)

(** [qtask->conn = conn]. *)
Definition set_qtask_conn (q : queue_task) : M world unit :=
  match q with
  | reopen_qtask => set_session (fun s => s <| reopen_conn := true |>)
  | request n => fun w =>
      match w_qtasks w !! n with
      | None => None
      | Some _ => Some (tt, w <| w_qtasks := <[n := true]> (w_qtasks w) |>)
      end
  end.

(** [qtask->conn], which the callers follow. *)
Definition qtask_conn (q : queue_task) : M world unit :=
  match q with
  | reopen_qtask => let! s := the_session in if reopen_conn s then mret' tt else mfail
  | request n => fun w => match w_qtasks w !! n with Some true => Some (tt, w) | _ => None end
  end.

(** The response goes out and the request is released; the one inside the
    session has no connection to a client and is not allocated. *)
Definition mgmt_ipc_write_rsp (q : option queue_task) (err : Z) : M world unit :=
  match q with
  | None => mret' tt
  | Some reopen_qtask => the_session ;;; mret' tt
  | Some (request n) => fun w =>
      match w_qtasks w !! n with
      | None => None
      | Some _ => Some (tt, w <| w_qtasks := delete n (w_qtasks w) |> <| w_answers := w_answers w ++ [(n, err)] |>)
      end
  end.

(** ** Closing a session *)

(** Whether an actor inside the session is queued: a timer, or a context of the
    pool that is scheduled. *)
Definition is_scheduled (o : option ev_context) : bool :=
  match o with None | Some EV_BUSY => false | Some _ => true end.

Definition actors_queued (s : daemon_session) : bool :=
  bool_decide (is_Some (login_timer s)) || bool_decide (is_Some (nop_out_timer s)) || existsb is_scheduled (pool s).

(** The memory is released with whatever is still queued in it. *)
Definition __session_destroy : M world unit :=
  iscsi_flush_context_pool ;;;
  let! s := the_session in
  mmod (fun w => w <| w_session := None |> <| w_loose := w_loose w || actors_queued s |>).

(** From [cleanup:]. *)
Definition shutdown_cleanup (q : option queue_task) (err : Z) : M world Z :=
  let! s := the_session in
  let! rc :=
    (if decide (id s = INVALID_SESSION_ID) then mret' 0%Z
     else set_session (fun s => s <| r_stage := R_STAGE_SESSION_DESTOYED |>) ;;;
          let! a := ask X_destroy_session in mret' (a_rc a)) in
  if decide (rc <> 0%Z) then mret' ISCSI_ERR_INTERNAL
  else mgmt_ipc_write_rsp q err ;;; conn_delete_timers ;;; __session_destroy ;;; mret' ISCSI_SUCCESS.

Definition session_conn_shutdown (q : option queue_task) (err : Z) : M world Z :=
  ask X_ep_disconnect ;;;
  let! s := the_session in
  if decide (id s = INVALID_SESSION_ID) then shutdown_cleanup q err
  else
    let! lead := ask X_has_leadconn in
    if decide (a_rc lead = 0%Z) then shutdown_cleanup q err
    else
      let! s := the_session in
      let! rc :=
        (if decide (state s = ISCSI_CONN_STATE_IN_LOGIN \/ state s = ISCSI_CONN_STATE_IN_LOGOUT \/
                    state s = ISCSI_CONN_STATE_LOGGED_IN)
         then let! a := ask (X_stop_conn STOP_CONN_TERM) in mret' (a_rc a) else mret' 0%Z) in
      if decide (rc <> 0%Z) then mret' ISCSI_ERR_INTERNAL
      else
        let! a := ask X_destroy_conn in
        if decide (a_rc a <> 0%Z) then mret' ISCSI_ERR_INTERNAL else shutdown_cleanup q err.

(** ** Connecting *)
Definition queue_delayed_reopen (q : queue_task) (delay : Z) : M world unit :=
  qtask_conn q ;;; set_session (fun s => s <| login_timer := Some (delay, q) |>).

(** [a_out] is [errno]. *)
Definition iscsi_conn_connect (q : queue_task) : M world Z :=
  let! slot := iscsi_ev_context_get in
  match slot with
  | None => mret' ENOMEM
  | Some i =>
      let! a := ask X_ep_connect in
      if decide (a_rc a < 0 /\ a_out a <> EINPROGRESS)%Z then iscsi_ev_context_put i ;;; mret' ENOTCONN
      else
        iscsi_sched_ev_context i (EV_CONN_POLL q) ;;;
        set_session (fun s => s <| login_timer := Some (login_timeout (conn (lg s)), q) |>) ;;;
        mret' 0%Z
  end.

(** The last part, with the [delay] that the variable holds there: after a
    redirection it was never set, and [a_out] stands for what it contains. *)
Definition reopen_connect (q : queue_task) (redirected : bool) : M world unit :=
  mwhen (negb redirected) (set_session (fun s => s <| reopen_cnt := i32 (reopen_cnt s + 1) |>)) ;;;
  let! a := ask X_set_net_config in
  if decide (a_rc a <> 0%Z) then queue_delayed_reopen q (if redirected then a_out a else 0%Z)
  else
    let! rc := iscsi_conn_connect q in
    if decide (rc <> 0%Z) then queue_delayed_reopen q ISCSI_CONN_ERR_REOPEN_DELAY else mret' tt.

Definition set_time2wait (v : Z) : M world unit :=
  set_session (fun s => s <| lg := (lg s) <| params := (params (lg s)) <| def_time2wait := v |> |> |>).

Definition __session_conn_reopen (q : queue_task) (do_stop : Z) (redirected : bool) : M world unit :=
  set_qtask_conn q ;;;
  iscsi_flush_context_pool ;;;
  conn_delete_timers ;;;
  set_session (fun s => s <| state := ISCSI_CONN_STATE_XPT_WAIT |>) ;;;
  ask X_ep_disconnect ;;;
  let! rc := (if truth do_stop then let! a := ask (X_stop_conn do_stop) in mret' (a_rc a) else mret' 0%Z) in
  if decide (rc <> 0%Z) then queue_delayed_reopen q ISCSI_INTERNAL_ERR_REOPEN_DELAY
  else if redirected then reopen_connect q true
  else
    let! s := the_session in
    let delay := def_time2wait (params (lg s)) in
    set_time2wait 0 ;;;
    if truth delay then queue_delayed_reopen q delay else reopen_connect q false.

Definition session_conn_reopen (q : queue_task) (do_stop : Z) : M world unit :=
  set_session (fun s => s <| lg := put_conn (lg s) ((conn (lg s)) <| saddr := failback_saddr s |>) |>) ;;;
  __session_conn_reopen q do_stop false.

(** ** Login errors *)

(** [timeradd] and [timercmp(a, b, >)]. *)
Definition timeradd (a b : timeval) : timeval :=
  let sec := (tv_sec a + tv_sec b)%Z in
  let usec := (tv_usec a + tv_usec b)%Z in
  if decide (1000000 <= usec)%Z then mk_timeval (sec + 1) (usec - 1000000) else mk_timeval sec usec.

Definition timer_gt (a b : timeval) : bool :=
  if decide (tv_sec a = tv_sec b) then bool_decide (tv_usec b < tv_usec a)%Z
  else bool_decide (tv_sec b < tv_sec a)%Z.

Definition iscsi_retry_initial_login : M world bool :=
  let! s := the_session in
  let max := n_initial_login_retry_max (nrec s) in
  let! now := ask X_gettimeofday in
  if decide (a_rc now <> 0%Z) then mret' (bool_decide (reopen_cnt s < max)%Z)
  else
    let timeout := mk_timeval (i32 (max * login_timeout (conn (lg s)))) 0 in
    mret' (negb (timer_gt (a_time now) (timeradd (initial_connect_time s) timeout))).

Definition iscsi_login_is_fatal_err (err : Z) : bool :=
  bool_decide (err = ISCSI_ERR_LOGIN_AUTH_FAILED \/ err = ISCSI_ERR_FATAL_LOGIN).

(** [session_conn_shutdown] where the result is ignored. *)
Definition drop_session (q : option queue_task) (err : Z) : M world unit :=
  session_conn_shutdown q err ;;; mret' tt.

(** [if (iscsi_login_is_fatal_err(err) || !iscsi_retry_initial_login(conn))
    session_conn_shutdown(...) else retry]. *)
Definition unless_given_up (q : queue_task) (err : Z) (retry : M world unit) : M world unit :=
  let! go := (if iscsi_login_is_fatal_err err then mret' false else iscsi_retry_initial_login) in
  if go : bool then retry else drop_session (Some q) err.

Definition iscsi_login_eh (q : queue_task) (err : Z) : M world unit :=
  iscsi_flush_context_pool ;;;
  let! s := the_session in
  match state s with
  | ISCSI_CONN_STATE_XPT_WAIT =>
      match r_stage s with
      | R_STAGE_NO_CHANGE =>
          unless_given_up q err
            (let! s := the_session in
             session_conn_reopen q (if decide (id s < INVALID_SESSION_ID)%Z then STOP_CONN_TERM else 0%Z))
      | R_STAGE_SESSION_REDIRECT => unless_given_up q err (session_conn_reopen q 0)
      | R_STAGE_SESSION_REOPEN =>
          if decide (reopen_max s <> 0 /\ reopen_max s < reopen_cnt s)%Z then drop_session (Some q) err
          else session_conn_reopen q 0
      | R_STAGE_SESSION_CLEANUP => drop_session (Some q) err
      | R_STAGE_SESSION_DESTOYED => mret' tt
      end
  | ISCSI_CONN_STATE_IN_LOGIN =>
      match r_stage s with
      | R_STAGE_NO_CHANGE | R_STAGE_SESSION_REDIRECT =>
          unless_given_up q err (session_conn_reopen q STOP_CONN_RECOVER)
      | R_STAGE_SESSION_REOPEN => session_conn_reopen q STOP_CONN_RECOVER
      | R_STAGE_SESSION_CLEANUP => drop_session (Some q) ISCSI_ERR_PDU_TIMEOUT
      | R_STAGE_SESSION_DESTOYED => mret' tt
      end
  | _ => mret' tt
  end.

(** ** Errors of the connection *)
Definition __conn_error_handle : M world unit :=
  let! s := the_session in
  match logout_qtask s with
  | Some q => drop_session (Some q) ISCSI_SUCCESS
  | None =>
      match state s with
      | ISCSI_CONN_STATE_IN_LOGOUT | ISCSI_CONN_STATE_LOGGED_IN =>
          set_session (fun s => s <| state := ISCSI_CONN_STATE_CLEANUP_WAIT |>) ;;;
          mwhen (negb (bool_decide (0 < erl s)%Z))
            (set_session (fun s => s <| r_stage := R_STAGE_SESSION_REOPEN |>)) ;;;
          let! s := the_session in
          if decide (r_stage s = R_STAGE_SESSION_REOPEN) then
            session_conn_reopen reopen_qtask STOP_CONN_RECOVER
          else mret' tt
      | ISCSI_CONN_STATE_IN_LOGIN =>
          if decide (r_stage s = R_STAGE_SESSION_REOPEN) then
            iscsi_login_eh (default reopen_qtask (notify_qtask s)) ISCSI_ERR_TRANS
          else mret' tt
      | _ => mret' tt
      end
  end.

Definition session_conn_error (i : nat) (error : Z) : M world unit :=
  iscsi_ev_context_put i ;;;
  if decide (error = ISCSI_ERR_INVALID_HOST) then drop_session None ISCSI_SUCCESS
  else __conn_error_handle.

Definition iscsi_login_timedout (q : queue_task) : M world unit :=
  qtask_conn q ;;;
  let! s := the_session in
  iscsi_login_eh q
    match state s with
    | ISCSI_CONN_STATE_XPT_WAIT => ISCSI_ERR_TRANS_TIMEOUT
    | ISCSI_CONN_STATE_IN_LOGIN => ISCSI_ERR_PDU_TIMEOUT
    | _ => ISCSI_ERR_INTERNAL
    end.

Definition iscsi_login_redirect : M world unit :=
  let! s := the_session in
  mwhen (bool_decide (r_stage s = R_STAGE_NO_CHANGE))
    (set_session (fun s => s <| r_stage := R_STAGE_SESSION_REDIRECT |>)) ;;;
  let! q := mopt (ctx_qtask s) in
  __session_conn_reopen q STOP_CONN_RECOVER true.

(** ** Pings *)

(** The offsets of the target transfer tag and of the LUN. *)
Definition OFF_lun : nat := 8.
Definition OFF_itt : nat := 16.
Definition OFF_ttt : nat := 20.

Definition nopin_rsp_header (rhdr : list Z) : list Z :=
  let h := hdr_put zero_hdr OFF_opcode [Z.lor ISCSI_OP_NOOP_OUT ISCSI_OP_IMMEDIATE] in
  let h := hdr_put h OFF_flags [ISCSI_FLAG_CMD_FINAL] in
  let h := hdr_put h OFF_dlength [hdr8 rhdr OFF_dlength; hdr8 rhdr (OFF_dlength + 1); hdr8 rhdr (OFF_dlength + 2)] in
  let h := hdr_put h OFF_lun (take 8 (drop OFF_lun rhdr)) in
  let h := hdr_put h OFF_ttt (take 4 (drop OFF_ttt rhdr)) in
  hdr_put h OFF_itt (be_bytes 4 ISCSI_RESERVED_TAG).

Definition nopout_header : list Z :=
  let h := hdr_put zero_hdr OFF_opcode [Z.lor ISCSI_OP_NOOP_OUT ISCSI_OP_IMMEDIATE] in
  let h := hdr_put h OFF_flags [ISCSI_FLAG_CMD_FINAL] in
  hdr_put h OFF_ttt (be_bytes 4 ISCSI_RESERVED_TAG).

(** [iscsi_io_send_pdu] over the kernel. *)
Definition send_pdu (hdr pdu_data : list Z) : M world bool :=
  let! s := the_session in
  let! a := ask X_send_pdu in
  let! (ok, _, _) := mopt (iscsi_io_send_pdu (use_ipc (lg s)) (a_rc a) hdr pdu_data (a_writes a)) in
  mret' ok.

Definition __send_nopin_rsp (rhdr : list Z) : M world bool :=
  let! s := the_session in send_pdu (nopin_rsp_header rhdr) (data s).

Definition __send_nopout : M world bool := send_pdu nopout_header [].

Definition conn_nop_out_timeout : M world unit := __conn_error_handle.

Definition conn_send_nop_out : M world unit :=
  let! s := the_session in
  if decide (state s = ISCSI_CONN_STATE_IN_LOGOUT) then mret' tt
  else
    __send_nopout ;;;
    set_session (fun s => s <| nop_out_timer := Some (noop_out_timeout s, conn_nop_out_timeout_cb) |>).

(** ** Logged in *)

(** The child process answers the request after the scan and the daemon drops
    its copy; when the process cannot be created the daemon answers.
    [a_rc] is what [fork] returns to the daemon. *)
Definition session_scan_host (q : option queue_task) : M world unit :=
  let! a := ask X_scan_host in
  if decide (0 <= a_rc a)%Z then mgmt_ipc_write_rsp q ISCSI_SUCCESS
  else mgmt_ipc_write_rsp q ISCSI_ERR_INTERNAL.

(** [iscsi_session_set_neg_params] and the others over the kernel; the
    connection has the id 0. *)
Definition set_neg_params : M world Z :=
  let! s := the_session in
  let! a := ask X_set_param in
  mret' (iscsi_session_set_neg_params (a_param a) (t_caps (t s)) 0 (lg s)).1.

Definition set_params : M world Z :=
  let! s := the_session in
  let! nop := ask X_supports_nop in
  let! a := ask X_set_param in
  let '(rc, _, nops) := iscsi_session_set_params (a_param a) (t_caps (t s)) 0 (truth (a_rc nop)) (lg s)
                          (n_kernel (nrec s)) in
  mwhen nops (set_session (fun s => s <| userspace_nop := 1%Z |>)) ;;;
  mret' rc.

Definition host_set_params : M world Z :=
  let! s := the_session in
  let! a := ask X_set_host_param in
  mret' (iscsi_host_set_params (fun p v => a_param a p (VStr (Some v))) (n_netdev (nrec s)) (n_hwaddress (nrec s))).

(** [ipc->start_conn(...) || rc]: whether the call failed, and [rc]. *)
Definition start_conn : M world (bool * Z) :=
  let! a := ask X_start_conn in mret' (truth (a_rc a) || truth (a_out a), a_out a).

(** [iscsi_login_eh(conn, c->qtask, err)]. *)
Definition login_eh_ctx (err : Z) : M world unit :=
  let! s := the_session in
  let! q := mopt (ctx_qtask s) in
  iscsi_login_eh q err.

(** From the state change to the end of [setup_full_feature_phase]. *)
Definition enter_full_feature : M world unit :=
  set_session (fun s => s <| state := ISCSI_CONN_STATE_LOGGED_IN |>) ;;;
  let! s := the_session in
  (if decide (r_stage s = R_STAGE_NO_CHANGE \/ r_stage s = R_STAGE_SESSION_REDIRECT)
   then session_scan_host (ctx_qtask s)
   else
     set_session (fun s => s <| notify_qtask := None |>) ;;;
     ask X_online_devs ;;;
     mgmt_ipc_write_rsp (ctx_qtask s) ISCSI_SUCCESS) ;;;
  set_session (fun s => s <| reopen_cnt := 0%Z |> <| r_stage := R_STAGE_NO_CHANGE |>) ;;;
  let! s := the_session in
  mwhen (truth (userspace_nop s) && truth (noop_out_interval s))
    (set_session (fun s => s <| nop_out_timer := Some (noop_out_interval s, conn_send_nop_out_cb) |>)).

Definition setup_full_feature_phase : M world unit :=
  set_session (fun s => s <| login_timer := None |>) ;;;
  let! rc := set_neg_params in
  if truth rc then login_eh_ctx ISCSI_ERR_LOGIN
  else
    let! (failed, _) := start_conn in
    if failed : bool then login_eh_ctx ISCSI_ERR_INTERNAL else enter_full_feature.

(** ** Logging out *)
Definition iscsi_logout_timedout (i : nat) : M world unit := iscsi_ev_context_put i ;;; __conn_error_handle.

Definition logout_header : list Z :=
  let h := hdr_put zero_hdr OFF_opcode [Z.lor ISCSI_OP_LOGOUT ISCSI_OP_IMMEDIATE] in
  hdr_put h OFF_flags [Z.lor ISCSI_FLAG_CMD_FINAL
                         (Z.land ISCSI_LOGOUT_REASON_CLOSE_SESSION ISCSI_FLAG_LOGOUT_REASON_MASK)].

Definition iscsi_send_logout : M world Z :=
  let! s := the_session in
  if decide (state s <> ISCSI_CONN_STATE_LOGGED_IN) then mret' EINVAL
  else
    let! ok := send_pdu logout_header [] in
    if negb ok then mret' EIO
    else
      set_session (fun s => s <| state := ISCSI_CONN_STATE_IN_LOGOUT |>) ;;;
      let! slot := iscsi_ev_context_get in
      match slot with
      | None => mret' ENOMEM
      | Some i => iscsi_sched_ev_context i EV_CONN_LOGOUT_TIMER ;;; mret' 0%Z
      end.

Definition iscsi_stop (i : nat) : M world unit :=
  iscsi_ev_context_put i ;;;
  let! s := the_session in
  let! sent :=
    (if has_cap (t_caps (t s)) CAP_LOGIN_OFFLOAD then mret' false
     else let! rc := iscsi_send_logout in mret' (bool_decide (rc = 0%Z))) in
  if sent : bool then mret' tt
  else let! s := the_session in drop_session (logout_qtask s) ISCSI_SUCCESS.

(** ** Received PDUs *)
Definition iscsi_recv_nop_in (hdr : list Z) : M world unit :=
  let! s := the_session in
  if negb (truth (userspace_nop s)) then mret' tt
  else if decide (hdr32 hdr OFF_ttt = ISCSI_RESERVED_TAG) then
    set_session (fun s => s <| nop_out_timer := Some (noop_out_interval s, conn_send_nop_out_cb) |>)
  else __send_nopin_rsp hdr ;;; mret' tt.

Definition OFF_response : nat := 2.
Definition OFF_t2wait : nat := 40.
Definition OFF_async_event : nat := 36.
Definition OFF_param2 : nat := 40.

(** [ntohs] of a field. *)
Definition hdr16 (h : list Z) (off : nat) : Z := be_val (take 2 (drop off h)).

Definition iscsi_recv_logout_rsp (hdr : list Z) : M world unit :=
  mwhen (bool_decide (hdr8 hdr OFF_response = 2 \/ hdr8 hdr OFF_response = 3)%Z)
    (set_time2wait (hdr16 hdr OFF_t2wait)) ;;;
  __conn_error_handle.

(** [struct scsi_sense_hdr] and [scsi_normalize_sense] (usr/scsi.c); [None]
    inside when there is no valid sense data.  Reads outside of the buffer
    fail. *)
Record scsi_sense_hdr := mk_sense {
  response_code : Z;
  sense_key : Z;
  asc : Z;
  ascq : Z;
  additional_length : Z
}.

(** [if (sb_len > i) ... = sense_buffer[i]] on a field that was set to zero. *)
Definition sense_byte (buf : list Z) (sb_len : Z) (i : nat) : option Z :=
  if decide (Z.of_nat i < sb_len)%Z then buf !! i else Some 0%Z.

Definition scsi_normalize_sense (buf : list Z) (sb_len : Z) : option (option scsi_sense_hdr) :=
  if decide (sb_len = 0%Z) then Some None
  else
    b0 ← buf !! 0;
    let code := Z.land b0 0x7f in
    if decide (Z.land code 0x70 <> 0x70)%Z then Some None
    else if decide (0x72 <= code)%Z then
      key ← sense_byte buf sb_len 1;
      c ← sense_byte buf sb_len 2;
      q ← sense_byte buf sb_len 3;
      len ← sense_byte buf sb_len 7;
      Some (Some (mk_sense code (Z.land key 0xf) c q len))
    else
      key ← sense_byte buf sb_len 2;
      if decide (7 < sb_len)%Z then
        b7 ← buf !! 7;
        let sb_len := if decide (sb_len < b7 + 8)%Z then sb_len else (b7 + 8)%Z in
        c ← sense_byte buf sb_len 12;
        q ← sense_byte buf sb_len 13;
        Some (Some (mk_sense code (Z.land key 0xf) c q 0))
      else Some (Some (mk_sense code (Z.land key 0xf) 0 0 0)).

(** [(buf[0] << 8) | buf[1]] with [char] signed, as an [unsigned int], then
    passed as an [int]. *)
Definition i8 (b : Z) : Z := swrap 8 b.

Definition sense_length (buf : list Z) : option Z :=
  b0 ← buf !! 0; b1 ← buf !! 1;
  Some (i32 (u32 (Z.lor (Z.shiftl (i8 b0) 8) (i8 b1)))).

Definition async_scsi_event : M world unit :=
  let! s := the_session in
  let! senselen := mopt (sense_length (data s)) in
  let! sense := mopt (scsi_normalize_sense (drop 2 (data s)) senselen) in
  match sense with
  | None => mret' tt
  | Some sshdr =>
      if decide (asc sshdr = 0x3f /\ ascq sshdr = 0x0e)%Z then
        let! scan := ask X_autoscan in
        mwhen (truth (a_rc scan)) (session_scan_host None)
      else mret' tt
  end.

Definition iscsi_recv_async_msg (hdr : list Z) : M world unit :=
  let event := hdr8 hdr OFF_async_event in
  if decide (event = ISCSI_ASYNC_MSG_SCSI_EVENT) then async_scsi_event
  else if decide (event = ISCSI_ASYNC_MSG_REQUEST_LOGOUT) then iscsi_send_logout ;;; mret' tt
  else if decide (event = ISCSI_ASYNC_MSG_DROPPING_CONNECTION \/ event = ISCSI_ASYNC_MSG_DROPPING_ALL_CONNECTIONS) then
    set_time2wait (Z.land (hdr16 hdr OFF_param2) 0x0000FFFFF)
  else if decide (event = ISCSI_ASYNC_MSG_PARAM_NEGOTIATION) then __conn_error_handle
  else mret' tt.

(** ** The login exchange *)
Definition __login_response_status (st : iscsi_login_status) : conn_login_status_e :=
  match st with
  | LOGIN_OK => CONN_LOGIN_SUCCESS
  | LOGIN_REDIRECT => CONN_LOGIN_IMM_REDIRECT_RETRY
  | LOGIN_IO_ERROR | LOGIN_REDIRECTION_FAILED => CONN_LOGIN_RETRY
  | _ => CONN_LOGIN_FAILED
  end.

Definition __check_iscsi_status_class (class detail : Z) : M world conn_login_status_e :=
  if decide (class = ISCSI_STATUS_CLS_SUCCESS) then mret' CONN_LOGIN_SUCCESS
  else if decide (class = ISCSI_STATUS_CLS_REDIRECT) then
    if decide (detail = ISCSI_LOGIN_STATUS_TGT_MOVED_TEMP) then mret' CONN_LOGIN_IMM_RETRY
    else if decide (detail = ISCSI_LOGIN_STATUS_TGT_MOVED_PERM) then
      set_session (fun s => s <| failback_saddr := saddr (conn (lg s)) |>) ;;;
      mret' CONN_LOGIN_IMM_REDIRECT_RETRY
    else mret' CONN_LOGIN_RETRY
  else if decide (class = ISCSI_STATUS_CLS_INITIATOR_ERR) then
    if decide (detail = ISCSI_LOGIN_STATUS_AUTH_FAILED \/ detail = ISCSI_LOGIN_STATUS_TGT_FORBIDDEN)
    then mret' CONN_LOGIN_AUTH_FAILED
    else mret' CONN_LOGIN_FAILED
  else if decide (class = ISCSI_STATUS_CLS_TARGET_ERR) then mret' CONN_LOGIN_RETRY
  else mret' CONN_LOGIN_FAILED.

(** [failed:]. *)
Definition login_failed (err : Z) : M world unit :=
  set_session (fun s => s <| reopen_cnt := n_initial_login_retry_max (nrec s) |>) ;;;
  login_eh_ctx err.

Section Handlers.
Context `{AEnv : AuthEnv} `{LEnv : LoginEnv}.

(** The calls of login.c on the context, whose buffer is [conn->data]. *)
Definition put_login (s' : iscsi_session) (c' : login_context) : M world unit :=
  set_session (fun s => s <| lg := s' |> <| login_ctx := c' |> <| data := buffer c' |>).

Definition ctx_of (s : daemon_session) : login_context := (login_ctx s) <| buffer := data s |>.

Definition login_begin : M world Z :=
  let! s := the_session in
  let! (rc, s', c') := mopt (iscsi_login_begin (lg s) (ctx_of s)) in
  put_login s' c' ;;;
  set_session (fun s0 => s0 <| g_start := rand_pos (auth_client_block (lg s)) |> <| g_calls := [] |>) ;;;
  mret' rc.

Definition login_req : M world Z :=
  let! s := the_session in
  let! a := ask X_send_pdu in
  let! (rc, s', c', _) := mopt (iscsi_login_req (lg s) (ctx_of s) (a_writes a) (a_rc a)) in
  put_login s' c' ;;;
  mret' rc.

(** The PDU is in the context [i], which the end of the transfer puts back;
    [recv_pdu_begin] and [recv_pdu_end] succeed: [recv_context] is set, and no
    transfer is left open by an earlier call. *)
Definition login_rsp (i : nat) (pdu : list Z) : M world Z :=
  let! s := the_session in
  let ipc := mk_ipc 0 0 in
  let net := [RBytes pdu] in
  let! (rc, s', c', _) := mopt (iscsi_login_rsp (lg s) (ctx_of s) ipc net) in
  put_login s' c' ;;;
  set_session (fun s0 => s0 <| g_calls := g_calls s0 ++ [mk_call (lg s) (ctx_of s) ipc net] |>) ;;;
  iscsi_ev_context_put i ;;;
  mret' rc.

(** After a response that was accepted. *)
Definition login_continue : M world unit :=
  let! s := the_session in
  if decide (current_stage (conn (lg s)) <> ISCSI_FULL_FEATURE_PHASE) then
    set_session (fun s => s <| state := ISCSI_CONN_STATE_IN_LOGIN |>) ;;;
    let! rc := login_req in
    if truth rc then login_eh_ctx ISCSI_ERR_LOGIN else mret' tt
  else setup_full_feature_phase.

Definition iscsi_recv_login_rsp (i : nat) (pdu : list Z) : M world unit :=
  let! rc := login_rsp i pdu in
  if truth rc then
    let! s := the_session in
    match __login_response_status (ret (login_ctx s)) with
    | CONN_LOGIN_FAILED => login_failed ISCSI_ERR_FATAL_LOGIN
    | CONN_LOGIN_RETRY => login_eh_ctx ISCSI_ERR_LOGIN
    | CONN_LOGIN_IMM_REDIRECT_RETRY => iscsi_login_redirect
    | _ =>
        let! st := __check_iscsi_status_class (status_class (login_ctx s)) (status_detail (login_ctx s)) in
        match st with
        | CONN_LOGIN_AUTH_FAILED => login_failed ISCSI_ERR_LOGIN_AUTH_FAILED
        | CONN_LOGIN_FAILED => login_failed ISCSI_ERR_FATAL_LOGIN
        | CONN_LOGIN_IMM_REDIRECT_RETRY => iscsi_login_redirect
        | CONN_LOGIN_IMM_RETRY | CONN_LOGIN_RETRY => login_eh_ctx ISCSI_ERR_LOGIN
        | _ => login_continue
        end
    end
  else login_continue.

(** [iscsi_io_recv_pdu] outside of the login: whether a PDU was read, and the
    header, a local variable of the caller. *)
Definition recv_pdu (i : nat) (pdu : list Z) : M world (bool * list Z) :=
  let! s := the_session in
  let! (st, hdr, d, _) :=
    mopt (iscsi_io_recv_pdu (use_ipc (lg s)) (mk_ipc 0 0) zero_hdr (data s) ISCSI_DEF_MAX_RECV_SEG_LEN [RBytes pdu]) in
  set_session (fun s => s <| data := d |>) ;;;
  iscsi_ev_context_put i ;;;
  mret' (match st with RecvOk _ => true | _ => false end, hdr).

Definition session_conn_recv_pdu (i : nat) (pdu : list Z) : M world unit :=
  let! s := the_session in
  match state s with
  | ISCSI_CONN_STATE_IN_LOGIN => iscsi_recv_login_rsp i pdu
  | ISCSI_CONN_STATE_LOGGED_IN | ISCSI_CONN_STATE_IN_LOGOUT | ISCSI_CONN_STATE_LOGOUT_REQUESTED =>
      let! (ok, hdr) := recv_pdu i pdu in
      if negb ok then mret' tt
      else
        let opcode := Z.land (hdr8 hdr OFF_opcode) ISCSI_OPCODE_MASK in
        if decide (opcode = ISCSI_OP_NOOP_IN) then iscsi_recv_nop_in hdr
        else if decide (opcode = ISCSI_OP_LOGOUT_RSP) then iscsi_recv_logout_rsp hdr
        else if decide (opcode = ISCSI_OP_ASYNC_EVENT) then iscsi_recv_async_msg hdr
        else mret' tt
  | _ => iscsi_ev_context_put i
  end.

(** ** The connection is established *)

(** [retry_create:]; the session id is stored on success only. *)
Definition session_ipc_create : M world Z :=
  let! s := the_session in
  let pass_ep := t_kernel_ep (t s) in
  let! a := ask (X_create_session pass_ep) in
  let! a := (if pass_ep && bool_decide (a_rc a = - ENOSYS \/ a_rc a = - EINVAL)%Z
             then ask (X_create_session false) else mret' a) in
  mwhen (bool_decide (a_rc a = 0%Z)) (set_session (fun s => s <| id := u32 (a_out a) |>)) ;;;
  mret' (a_rc a).

Definition setup_offload_login_phase : M world unit :=
  set_session (fun s => s <| login_timer := None |>) ;;;
  let! rc := set_params in
  if truth rc then login_eh_ctx ISCSI_ERR_LOGIN else
  let! rc := set_neg_params in
  if truth rc then login_eh_ctx ISCSI_ERR_LOGIN else
  let! rc := host_set_params in
  if truth rc then login_eh_ctx ISCSI_ERR_LOGIN else
  set_session (fun s => s <| state := ISCSI_CONN_STATE_IN_LOGIN |>) ;;;
  let! (failed, rc) := start_conn in
  if failed : bool then
    if decide (rc = - EEXIST)%Z then
      let! s := the_session in drop_session (ctx_qtask s) ISCSI_ERR_SESS_EXISTS
    else login_eh_ctx ISCSI_ERR_INTERNAL
  else set_session (fun s => s <| notify_qtask := ctx_qtask s |>).

(** The zeroed login context. *)
Definition zero_ctx : login_context := mk_ctx [] 0 0 0 false zero_hdr 0 0 0 0 LOGIN_OK.

(** [iscsi_copy_operational_params] on the session and its record. *)
Definition copy_operational (s : daemon_session) : daemon_session :=
  let '(l, e, sc, cc) := iscsi_copy_operational_params (t_caps (t s)) (t_driver (t s)) (lg s)
                           (n_session (nrec s)) (n_conn (nrec s)) in
  s <| lg := l <| rec_max_xmit := MaxXmitDataSegmentLength cc |> |> <| erl := e |>
    <| nrec := (nrec s) <| n_session := sc |> <| n_conn := cc |> |>.

(** The last three bytes of the ISID from the session id. *)
Definition set_isid (s : daemon_session) : daemon_session :=
  s <| lg := (lg s) <| isid := take 3 (isid (lg s)) ++
         [Z.land (Z.shiftr (id s) 16) 0xff; Z.land (Z.shiftr (id s) 8) 0xff; Z.land (id s) 0xff] |> |>.

(** The last part of [session_conn_poll], for a login by the daemon. *)
Definition poll_start_login (q : queue_task) : M world unit :=
  let! rc := set_params in
  if truth rc then iscsi_login_eh q ISCSI_ERR_LOGIN else
  let! rc := host_set_params in
  if truth rc then iscsi_login_eh q ISCSI_ERR_LOGIN else
  let! rc := login_begin in
  if truth rc then iscsi_login_eh q ISCSI_ERR_LOGIN else
  set_session (fun s => s <| state := ISCSI_CONN_STATE_IN_LOGIN |>) ;;;
  let! rc := login_req in
  if truth rc then iscsi_login_eh q ISCSI_ERR_LOGIN else mret' tt.

(** From [iscsi_copy_operational_params] on. *)
Definition poll_bind (q : queue_task) : M world unit :=
  set_session (fun s => set_isid (copy_operational s)) ;;;
  let! a := ask X_bind_conn in
  if truth (a_rc a) || truth (a_out a) then iscsi_login_eh q ISCSI_ERR_LOGIN
  else
    set_session (fun s => s <| ctx_qtask := Some q |>
                            <| login_ctx := (login_ctx s) <| bufsize := ISCSI_DEF_MAX_RECV_SEG_LEN |> |>) ;;;
    let! a := ask X_get_exp_statsn in
    set_session (fun s => s <| lg := put_conn (lg s) ((conn (lg s)) <| exp_statsn := u32 (a_out a) |>) |>) ;;;
    let! s := the_session in
    if has_cap (t_caps (t s)) CAP_LOGIN_OFFLOAD then setup_offload_login_phase else poll_start_login q.

(** [goto cleanup] with the error of [session_ipc_create] or [create_conn]. *)
Definition poll_connected (q : queue_task) : M world unit :=
  set_session (fun s => s <| login_ctx := zero_ctx |> <| ctx_qtask := None |>) ;;;
  let! s := the_session in
  if decide (id s = INVALID_SESSION_ID) then
    let! rc := session_ipc_create in
    if truth rc then drop_session (Some q) ISCSI_ERR_INTERNAL
    else
      let! a := ask X_create_conn in
      if truth (a_rc a) then drop_session (Some q) ISCSI_ERR_INTERNAL else poll_bind q
  else poll_bind q.

Definition session_conn_poll (i : nat) (q : queue_task) : M world unit :=
  iscsi_ev_context_put i ;;;
  let! s := the_session in
  if decide (state s <> ISCSI_CONN_STATE_XPT_WAIT) then mret' tt
  else
    let! a := ask X_ep_poll in
    if decide (a_rc a = 0%Z) then
      let! slot := iscsi_ev_context_get in
      match slot with
      | None => iscsi_login_eh q ISCSI_ERR_INTERNAL
      | Some j => iscsi_sched_ev_context j (EV_CONN_POLL q)
      end
    else if decide (0 < a_rc a)%Z then poll_connected q
    else queue_delayed_reopen q ISCSI_CONN_ERR_REOPEN_DELAY.

(** ** Offloaded logins *)

(** [failed_login:]. *)
Definition offload_login_failed : M world unit :=
  let! s := the_session in
  set_session (fun s => s <| notify_qtask := None |>) ;;;
  mgmt_ipc_write_rsp (notify_qtask s) ISCSI_ERR_LOGIN ;;;
  ask X_destroy_conn ;;;
  ask X_destroy_session ;;;
  __session_destroy.

Definition session_conn_process_login (i : nat) (st : iscsi_conn_state) : M world unit :=
  iscsi_ev_context_put i ;;;
  let! s := the_session in
  if negb (has_cap (t_caps (t s)) CAP_LOGIN_OFFLOAD) then mret' tt
  else if decide (st = ISCSI_CONN_STATE_FREE) then offload_login_failed
  else if decide (state s = ISCSI_CONN_STATE_LOGGED_IN) then mret' tt
  else
    set_session (fun s => s <| state := ISCSI_CONN_STATE_LOGGED_IN |>) ;;;
    (if decide (r_stage s = R_STAGE_NO_CHANGE \/ r_stage s = R_STAGE_SESSION_REDIRECT) then
       session_scan_host (ctx_qtask s) ;;;
       set_session (fun s => s <| notify_qtask := None |>)
     else
       set_session (fun s => s <| notify_qtask := None |>) ;;;
       mgmt_ipc_write_rsp (ctx_qtask s) ISCSI_SUCCESS) ;;;
    set_session (fun s => s <| reopen_cnt := 0%Z |> <| r_stage := R_STAGE_NO_CHANGE |>).

(** ** Creating a session *)
Definition DEF_LOGIN_TIMEO : Z := 30.
Definition DEF_LOGOUT_TIMEO : Z := 15.
Definition DEF_NOOP_OUT_INTERVAL : Z := 5.
Definition DEF_NOOP_OUT_TIMEO : Z := 5.
Definition TARGET_NAME_MAXLEN : nat := 255.

(** [v ? v : def]. *)
Definition or_default (v def : Z) : Z := if truth v then v else def.

(** The memory of a new session ([calloc]). *)
Definition zero_conn : iscsi_conn := mk_conn 0 0 0 [] 0 0 0 0 0 0 0 0.
Definition zero_params : session_params := mk_params 0 0 0 0 0 0 0 0 0.

Definition zero_lg (tr : iscsi_transport) (pos : nat) : iscsi_session :=
  mk_session (t_rdma tr) true 0 0 0 0 0 zero_params ISCSI_SESSION_TYPE_NORMAL 0 [] 0 [] None None None
    (zero_acl pos) 0 [] 0 [] (replicate AUTH_STR_MAX_LEN 0%Z) 0
    (mk_auth_session [] (replicate AUTH_STR_MAX_LEN 0%Z) 0) [] zero_conn 0.

Definition zero_dsession (tr : iscsi_transport) (rec : node_rec) (pos : nat) : daemon_session :=
  mk_dsession (zero_lg tr pos) tr rec zero_ctx None (replicate (Z.to_nat ISCSI_DEF_MAX_RECV_SEG_LEN) 0%Z)
    ISCSI_CONN_STATE_FREE R_STAGE_NO_CHANGE INVALID_SESSION_ID 0 0 0 0 [] false None None None None
    [] false 0 (mk_timeval 0 0) 0 0 0 pos [].

(** [dconfig->initiator_name] unless the interface has one. *)
Definition initiator_name_of (rec : node_rec) (dc : daemon_config) : option (list Z) :=
  match n_iname rec with [] => dc_initiator_name dc | name => Some name end.

Definition initiator_alias_of (rec : node_rec) (dc : daemon_config) : option (list Z) :=
  match n_alias rec with [] => dc_initiator_alias dc | alias => Some alias end.

(** The fields that are set from the record, before the authentication. *)
Definition session_from_rec (tr : iscsi_transport) (rec : node_rec) (dc : daemon_config) (pos : nat) : iscsi_session :=
  (zero_lg tr pos) <| rec_max_xmit := MaxXmitDataSegmentLength (n_conn rec) |>
    <| portal_group_tag := n_tpgt rec |> <| type := ISCSI_SESSION_TYPE_NORMAL |>
    <| target_name := take (TARGET_NAME_MAXLEN - 1) (n_name rec) |>
    <| initiator_name := initiator_name_of rec dc |> <| initiator_alias := initiator_alias_of rec dc |>
    <| isid := [0x00; 0x02; 0x3D; 0; 0; 0]%Z |>.

(** The result of [iscsi_setup_authentication] is not looked at.  [pos] counts
    the random numbers drawn before, a ghost. *)
Definition __session_create (rec : node_rec) (tr : iscsi_transport) (pos : nat) : M world Z :=
  let! mem := ask X_calloc in
  if truth (a_rc mem) then mret' ISCSI_ERR_NOMEM
  else
    let! w := mget in
    let dc := w_config w in
    match initiator_name_of rec dc with
    | None => mret' ISCSI_ERR_INVAL
    | Some _ =>
        let! (_, l) := mopt (iscsi_setup_authentication (session_from_rec tr rec dc pos) (n_auth rec)) in
        let! rc := (if t_bind_ep_required tr then
                      let! a := ask X_get_host_no in
                      if decide (a_rc a = ISCSI_ERR_HOST_NOT_FOUND) then mret' ISCSI_ERR_HOST_NOT_FOUND else mret' 0%Z
                    else mret' 0%Z) in
        if decide (rc <> 0%Z) then mret' rc
        else mmod (fun w => w <| w_session := Some ((zero_dsession tr rec pos) <| lg := l |>) |>) ;;; mret' 0%Z
    end.

(** [iscsi_ev_context_alloc]: when the [k]-th [calloc] fails ([a_out] is [k])
    the earlier ones are released and their pointers stay in the pool. *)
Definition iscsi_ev_context_alloc : M world Z :=
  let! a := ask X_calloc in
  if truth (a_rc a) then
    set_session (fun s => s <| pool_dangling := bool_decide (0 < a_out a)%Z |>) ;;; mret' ENOMEM
  else set_session (fun s => s <| pool := replicate CONTEXT_POOL_MAX None |>) ;;; mret' 0%Z.

Definition conn_timeouts (rec : node_rec) (s : daemon_session) : daemon_session :=
  let interval := n_noop_out_interval rec in
  let timeout := if truth interval then or_default (n_noop_out_timeout rec) DEF_NOOP_OUT_TIMEO
                 else n_noop_out_timeout rec in
  let interval := if truth timeout then or_default interval DEF_NOOP_OUT_INTERVAL else interval in
  s <| logout_timeout := or_default (n_logout_timeout rec) DEF_LOGOUT_TIMEO |>
    <| lg := put_conn (lg s) ((conn (lg s)) <| login_timeout := or_default (n_login_timeout rec) DEF_LOGIN_TIMEO |>
                                            <| auth_timeout := n_auth_timeout rec |>) |>
    <| noop_out_interval := interval |> <| noop_out_timeout := timeout |>.

(** The fields that are set between the context pool and the portal. *)
Definition conn_init (s : daemon_session) : daemon_session :=
  copy_operational (conn_timeouts (nrec s)
    (s <| reopen_max := n_reopen_max (nrec s) |> <| state := ISCSI_CONN_STATE_FREE |> <| login_timer := None |>)).

Definition __session_conn_create : M world Z :=
  let! rc := iscsi_ev_context_alloc in
  if truth rc then mret' ISCSI_ERR_NOMEM
  else
    set_session conn_init ;;;
    let! s := the_session in
    let '(rc, l, fb) := iscsi_setup_portal (lg s) (failback_saddr s) (k_address (n_kernel (nrec s)))
                          (k_port (n_kernel (nrec s))) in
    set_session (fun s => s <| lg := l |> <| failback_saddr := fb |>) ;;;
    mret' rc.

(** What the transport does not support is switched off in the record. *)
Definition clamp_record (caps : Z) (rec : node_rec) : node_rec :=
  let sc := n_session rec in
  let cc := n_conn rec in
  let sc := if (negb (has_cap caps CAP_RECOVERY_L0) && truth (ERL sc)) ||
               (negb (has_cap caps CAP_RECOVERY_L1) && bool_decide (1 < ERL sc)%Z)
            then sc <| ERL := 0%Z |> else sc in
  let sc := if negb (has_cap caps CAP_MULTI_R2T) && truth (MaxOutstandingR2T sc)
            then sc <| MaxOutstandingR2T := 1%Z |> else sc in
  let cc := if negb (has_cap caps CAP_HDRDGST) && truth (HeaderDigest cc) then cc <| HeaderDigest := 0%Z |> else cc in
  let cc := if negb (has_cap caps CAP_DATADGST) && truth (DataDigest cc) then cc <| DataDigest := 0%Z |> else cc in
  let cc := if negb (has_cap caps CAP_MARKERS) && truth (IFMarker cc) then cc <| IFMarker := 0%Z |> else cc in
  let cc := if negb (has_cap caps CAP_MARKERS) && truth (OFMarker cc) then cc <| OFMarker := 0%Z |> else cc in
  rec <| n_session := sc |> <| n_conn := cc |>.

(** ** Management requests *)

(** The part of [__session_login_task] after the session was created. *)
Definition login_task_connect (n : nat) : M world Z :=
  set_qtask_conn (request n) ;;;
  let! a := ask X_set_net_params in
  if decide (a_rc a = ISCSI_ERR_AGAIN) then __session_destroy ;;; mret' ISCSI_ERR_HOST_NOT_FOUND
  else if truth (a_rc a) then __session_destroy ;;; mret' ISCSI_ERR_LOGIN
  else
    let! now := ask X_gettimeofday in
    mwhen (negb (truth (a_rc now))) (set_session (fun s => s <| initial_connect_time := a_time now |>)) ;;;
    set_session (fun s => s <| state := ISCSI_CONN_STATE_XPT_WAIT |>) ;;;
    let! rc := iscsi_conn_connect (request n) in
    mwhen (truth rc) (queue_delayed_reopen (request n) ISCSI_CONN_ERR_REOPEN_DELAY) ;;;
    mret' ISCSI_SUCCESS.

(** The error code and the record, which was changed in place. *)
Definition __session_login_task (tr : iscsi_transport) (rec : node_rec) (n pos : nat) : M world (Z * node_rec) :=
  let! run := ask X_session_running in
  if truth (a_rc run) && negb (n_multiple rec) then mret' (ISCSI_ERR_SESS_EXISTS, rec)
  else
    let! a := ask X_get_transport in
    if truth (a_rc a) then mret' (ISCSI_ERR_TRANS_NOT_FOUND, rec)
    else
      let rec := clamp_record (t_caps tr) rec in
      let! rc := __session_create rec tr pos in
      if decide (rc = ISCSI_ERR_HOST_NOT_FOUND) then mret' (rc, rec)
      else if decide (rc <> 0%Z) then mret' (ISCSI_ERR_LOGIN, rec)
      else
        let! rc := __session_conn_create in
        if truth rc then __session_destroy ;;; mret' (rc, rec)
        else let! rc := login_task_connect n in mret' (rc, rec).

(** [info] is [None] for a new request. *)
Definition queue_session_login_task_retry (n : nat) (rec : node_rec) (count : Z) (fresh : bool) : M world Z :=
  let! a := (if fresh then ask X_calloc else mret' (mk_answer 0 0 (mk_timeval 0 0) [] (fun _ _ => 0%Z) [])) in
  if truth (a_rc a) then mret' ISCSI_ERR_NOMEM
  else mmod (fun w => w <| w_retry := Some (n, rec, i32 (count + 1)) |>) ;;; mret' 0%Z.

Definition session_login_task (tr : iscsi_transport) (rec : node_rec) (n pos : nat) : M world Z :=
  let! (rc, rec) := __session_login_task tr rec n pos in
  if decide (rc = ISCSI_ERR_HOST_NOT_FOUND) then queue_session_login_task_retry n rec 0 true
  else mret' rc.

Definition session_login_task_retry (tr : iscsi_transport) (pos : nat) : M world unit :=
  let! w := mget in
  match w_retry w with
  | None => mret' tt
  | Some (n, rec, count) =>
      mmod (fun w => w <| w_retry := None |>) ;;;
      let! (rc, rec) := __session_login_task tr rec n pos in
      if decide (rc = ISCSI_ERR_HOST_NOT_FOUND /\ count <> n_login_timeout rec) then
        let! rc := queue_session_login_task_retry n rec count false in
        if truth rc then mgmt_ipc_write_rsp (Some (request n)) rc else mret' tt
      else if truth rc then mgmt_ipc_write_rsp (Some (request n)) rc
      else mret' tt
  end.

(** [sync_conn]. *)
Definition sync_conn : M world Z :=
  let! rc := __session_conn_create in
  if truth rc then mret' rc
  else set_session (fun s => s <| state := ISCSI_CONN_STATE_CLEANUP_WAIT |>) ;;; mret' 0%Z.

Definition iscsi_sync_session (tr : iscsi_transport) (rec : node_rec) (n pos : nat) (sid : Z) : M world Z :=
  let! a := ask X_get_transport in
  if truth (a_rc a) then mret' ISCSI_ERR_TRANS_NOT_FOUND
  else
    let! rc := __session_create rec tr pos in
    if truth rc then mret' ISCSI_ERR_LOGIN
    else
      set_session (fun s => s <| id := sid |>) ;;;
      let! a := ask X_get_host_no in
      if truth (a_rc a) then __session_destroy ;;; mret' (a_rc a)
      else
        set_session (fun s => s <| r_stage := R_STAGE_SESSION_REOPEN |>) ;;;
        let! rc := sync_conn in
        if truth rc then __session_destroy ;;; mret' rc
        else
          set_session (fun s => s <| notify_qtask := Some (request n) |>) ;;;
          session_conn_reopen (request n) STOP_CONN_RECOVER ;;;
          mret' 0%Z.

(** The state in which a logout is refused: the login, or the
    synchronisation, has not been answered yet. *)
Definition logout_too_early (s : daemon_session) : bool :=
  bool_decide (is_Some (notify_qtask s)) ||
  (bool_decide (state s = ISCSI_CONN_STATE_XPT_WAIT \/ state s = ISCSI_CONN_STATE_IN_LOGIN) &&
   bool_decide (r_stage s = R_STAGE_NO_CHANGE \/ r_stage s = R_STAGE_SESSION_REDIRECT)).

(** From [qtask->conn = conn] on.  [rc] of [iscsi_send_logout] is tested the
    way the source does. *)
Definition logout_start (n : nat) : M world Z :=
  set_qtask_conn (request n) ;;;
  set_session (fun s => s <| logout_qtask := Some (request n) |>) ;;;
  let! s := the_session in
  if decide (state s = ISCSI_CONN_STATE_LOGGED_IN) then
    let! a := ask X_unbind_session in
    if negb (truth (a_rc a)) then mret' ISCSI_SUCCESS
    else
      let! rc := (if has_cap (t_caps (t s)) CAP_LOGIN_OFFLOAD then mret' 0%Z else iscsi_send_logout) in
      if truth rc then mret' ISCSI_SUCCESS else session_conn_shutdown (Some (request n)) ISCSI_SUCCESS
  else session_conn_shutdown (Some (request n)) ISCSI_SUCCESS.

Definition session_logout_task (sid : Z) (n : nat) : M world Z :=
  let! w := mget in
  match w_session w with
  | None => mret' ISCSI_ERR_SESS_NOT_FOUND
  | Some s =>
      if decide (id s <> sid) then mret' ISCSI_ERR_SESS_NOT_FOUND
      else if bool_decide (is_Some (notify_qtask s)) && bool_decide (state s = ISCSI_CONN_STATE_XPT_WAIT) &&
              bool_decide (r_stage s = R_STAGE_SESSION_REOPEN) then mret' ISCSI_ERR_SESSION_NOT_CONNECTED
      else if logout_too_early s then mret' ISCSI_ERR_INTERNAL
      else
        let! busy := (if dc_safe_logout (w_config w) then
                        let! a := ask X_session_in_use in mret' (truth (a_rc a)) else mret' false) in
        if busy : bool then mret' ISCSI_ERR_BUSY
        else if decide (is_Some (logout_qtask s)) then mret' ISCSI_ERR_INTERNAL
        else logout_start n
  end.

(** [mgmt_ipc_handle]: a new request is handed to its task; when the task
    returns an error the request is answered and released here. *)
Definition mgmt_ipc_handle (n : nat) (task : M world Z) : M world unit :=
  mmod (fun w => w <| w_qtasks := <[n := false]> (w_qtasks w) |>) ;;;
  let! err := task in
  if decide (err = ISCSI_SUCCESS) then mret' tt else mgmt_ipc_write_rsp (Some (request n)) err.

(** ** Events *)
Inductive event :=
| ContextRuns (i : nat)
| LoginTimerRuns
| NopTimerRuns
| RetryTimerRuns (tr : iscsi_transport) (pos : nat)
| KernelSends (e : kernel_event)
| LoginRequest (n : nat) (tr : iscsi_transport) (rec : node_rec) (pos : nat)
| SyncRequest (n : nat) (tr : iscsi_transport) (rec : node_rec) (pos : nat) (sid : Z)
| LogoutRequest (n : nat) (sid : Z).

(** An actor of the pool runs: it leaves the queue, the context stays taken. *)
Definition run_context (i : nat) : M world unit :=
  let! s := the_session in
  match pool s !! i with
  | Some (Some ev) =>
      set_session (fun s => s <| pool := <[i := Some EV_BUSY]> (pool s) |>) ;;;
      match ev with
      | EV_BUSY => mret' tt
      | EV_CONN_RECV_PDU pdu => session_conn_recv_pdu i pdu
      | EV_CONN_POLL q => session_conn_poll i q
      | EV_CONN_ERROR e => session_conn_error i e
      | EV_CONN_LOGOUT_TIMER => iscsi_logout_timedout i
      | EV_CONN_STOP => iscsi_stop i
      | EV_CONN_LOGIN st => session_conn_process_login i st
      end
  | _ => mret' tt
  end.

Definition run_login_timer : M world unit :=
  let! s := the_session in
  match login_timer s with
  | Some (_, q) => set_session (fun s => s <| login_timer := None |>) ;;; iscsi_login_timedout q
  | None => mret' tt
  end.

Definition run_nop_timer : M world unit :=
  let! s := the_session in
  match nop_out_timer s with
  | Some (_, cb) =>
      set_session (fun s => s <| nop_out_timer := None |>) ;;;
      match cb with
      | conn_send_nop_out_cb => conn_send_nop_out
      | conn_nop_out_timeout_cb => conn_nop_out_timeout
      end
  | None => mret' tt
  end.

(** The loop over the actors follows the queue, also into released memory. *)
Definition run_actor (m : M world unit) : M world unit :=
  let! w := mget in if w_loose w then mfail else m.

Definition handle_event (e : event) : M world unit :=
  match e with
  | ContextRuns i => run_actor (run_context i)
  | LoginTimerRuns => run_actor run_login_timer
  | NopTimerRuns => run_actor run_nop_timer
  | RetryTimerRuns tr pos => session_login_task_retry tr pos
  | KernelSends k => mmod (ctldev_handle k)
  | LoginRequest n tr rec pos => mgmt_ipc_handle n (session_login_task tr rec n pos)
  | SyncRequest n tr rec pos sid => mgmt_ipc_handle n (iscsi_sync_session tr rec n pos sid)
  | LogoutRequest n sid => mgmt_ipc_handle n (session_logout_task sid n)
  end.

(** What can happen in a world: an actor runs when there is a session, or a
    released one that left actors in the queue; a request is new, and a session
    is created only when there is none, the model having one. *)
Definition enabled (w : world) (e : event) : Prop :=
  match e with
  | ContextRuns _ | LoginTimerRuns | NopTimerRuns => is_Some (w_session w) \/ w_loose w = true
  | RetryTimerRuns _ _ => w_session w = None
  | KernelSends _ => True
  | LoginRequest n _ _ _ | SyncRequest n _ _ _ _ => w_qtasks w !! n = None /\ w_session w = None /\ w_retry w = None
  | LogoutRequest n _ => w_qtasks w !! n = None
  end.

(** A history; events that cannot happen are left out. *)
#[global] Instance enabled_dec w e : Decision (enabled w e).
Proof. destruct e; cbn; apply _. Defined.

Fixpoint run_events (es : list event) : M world unit :=
  match es with
  | [] => mret' tt
  | e :: es =>
      let! w := mget in
      (if decide (enabled w e) then handle_event e else mret' tt) ;;; run_events es
  end.
End Handlers.
