(* ===== verification/InitiatorInv.v ===== *)
(** * The daemon: invariant and rules

    What holds of a session between two events, and the rules for the
    primitives of the handlers. *)
From Stdlib Require Import ZArith Lia.
From stdpp Require Import base tactics numbers list option gmap.
From S2P Require Import Prelude CString AuthText Acl AclFrame AclSafety AclProtocol AclTheorems.
From S2P Require Import Pdu LoginText Io Timer Login LoginReq LoginSafety LoginReqSafety LoginDriver.
From S2P Require Import SessionSetup SessionTheorems StateM Initiator.

(** ** The outside

    The kernel closes what it is asked to close, memory for contexts can be
    allocated, and what arrives is bytes. *)
Definition kernel_event_ok (e : kernel_event) : Prop :=
  match e with ISCSI_KEVENT_RECV_PDU pdu => Forall is_byte pdu | _ => True end.

Definition must_succeed (c : ext_call) : bool :=
  match c with
  | X_stop_conn flag => bool_decide (flag = STOP_CONN_TERM)
  | X_destroy_conn | X_destroy_session | X_calloc => true
  | _ => false
  end.

Definition answer_ok (c : ext_call) (a : answer) : Prop :=
  (must_succeed c = true -> a_rc a = 0%Z) /\ Forall kernel_event_ok (a_events a).

Definition ext_ok (ext : nat -> ext_call -> answer) : Prop := forall n c, answer_ok c (ext n c).

Section Invariant.
Context `{AEnv : AuthEnv} {AEnvOk : AuthEnvOk AEnv} `{LEnv : LoginEnv}.

(** ** The session *)

(** A request that is not answered; one whose connection is set. *)
Definition live (qs : gmap nat bool) (q : queue_task) : Prop :=
  match q with reopen_qtask => True | request n => is_Some (qs !! n) end.

Definition ready (qs : gmap nat bool) (s : daemon_session) (q : queue_task) : Prop :=
  match q with reopen_qtask => reopen_conn s = true | request n => qs !! n = Some true end.

(** What the contexts hold. *)
Definition context_ok (o : option ev_context) : Prop :=
  match o with Some (EV_CONN_RECV_PDU pdu) => Forall is_byte pdu | _ => True end.

Definition polls_ready (qs : gmap nat bool) (s : daemon_session) : Prop :=
  forall i q, pool s !! i = Some (Some (EV_CONN_POLL q)) -> ready qs s q.

(** The part that does not depend on the state of the connection. *)
Record base (qs : gmap nat bool) (s : daemon_session) : Prop := {
  b_soft : has_cap (t_caps (t s)) CAP_LOGIN_OFFLOAD = false;
  b_pool : pool_dangling s = false;
  b_contexts : Forall context_ok (pool s);
  b_data : (ISCSI_DEF_MAX_RECV_SEG_LEN <= Z.of_nat (length (data s)))%Z;
  b_config : config_ok (lg s);
  b_auth : (0 < num_auth_buffers (lg s))%Z -> auth_cfg (lg s);
  b_stage : r_stage s = R_STAGE_NO_CHANGE \/ r_stage s = R_STAGE_SESSION_REOPEN \/ r_stage s = R_STAGE_SESSION_REDIRECT;
  b_notify : forall q, notify_qtask s = Some q -> live qs q /\ r_stage s = R_STAGE_SESSION_REOPEN
}.

(** The target has proved its identity in the current login, if the session
    asks for it. *)
Definition authenticated (s : daemon_session) : Prop :=
  truth (bidirectional_auth (lg s)) = true -> (0 < num_auth_buffers (lg s))%Z ->
  Exists (call_verified (g_start s)) (g_calls s).

(** A login exchange is going on. *)
Record in_login (s : daemon_session) : Prop := {
  il_session : sess_inv (g_start s) (Exists (call_verified (g_start s)) (g_calls s)) (lg s);
  il_stage : current_stage (conn (lg s)) <> ISCSI_INITIAL_LOGIN_STAGE;
  il_ctx : ctx_ok (ctx_of s);
  il_sent : ctx_sent (ctx_of s)
}.

(** The login timer runs, for a request that can be followed. *)
Definition timer_set (qs : gmap nat bool) (s : daemon_session) : Prop :=
  exists d q, login_timer s = Some (d, q) /\ ready qs s q.

Definition ctx_live (qs : gmap nat bool) (s : daemon_session) : Prop :=
  exists q, ctx_qtask s = Some q /\ live qs q.

Definition state_ok (qs : gmap nat bool) (s : daemon_session) : Prop :=
  match state s with
  | ISCSI_CONN_STATE_XPT_WAIT => timer_set qs s /\ polls_ready qs s /\ logout_qtask s = None
  | ISCSI_CONN_STATE_IN_LOGIN => timer_set qs s /\ ctx_live qs s /\ in_login s /\ logout_qtask s = None
  | ISCSI_CONN_STATE_LOGGED_IN | ISCSI_CONN_STATE_IN_LOGOUT =>
      login_timer s = None /\ notify_qtask s = None /\ authenticated s /\
      (forall q, logout_qtask s = Some q -> live qs q)
  | ISCSI_CONN_STATE_CLEANUP_WAIT => login_timer s = None /\ logout_qtask s = None
  | ISCSI_CONN_STATE_FREE | ISCSI_CONN_STATE_LOGOUT_REQUESTED => False
  end.

Definition sess_ok (qs : gmap nat bool) (s : daemon_session) : Prop := base qs s /\ state_ok qs s.

(** The record of a login request. *)
Record rec_ok (rec : node_rec) : Prop := {
  ro_auth : config_wf (n_auth rec);
  ro_name : length (n_name rec) <= 1024;
  ro_iname : length (n_iname rec) <= 1024;
  ro_alias : length (n_alias rec) <= 1024
}.

Record dconfig_ok (dc : daemon_config) : Prop := {
  do_name : forall l, dc_initiator_name dc = Some l -> length l <= 1024;
  do_alias : forall l, dc_initiator_alias dc = Some l -> length l <= 1024
}.

(** Between two events. *)
Record world_ok (w : world) : Prop := {
  wo_ext : ext_ok (w_ext w);
  wo_config : dconfig_ok (w_config w);
  wo_session : forall s, w_session w = Some s -> sess_ok (w_qtasks w) s;
  wo_retry : forall n rec c, w_retry w = Some (n, rec, c) ->
    w_session w = None /\ is_Some (w_qtasks w !! n) /\ rec_ok rec;
  wo_loose : w_loose w = false
}.

(** Inside of a handler: the session is [s], the requests are [qs]. *)
Record at_session (w : world) (qs : gmap nat bool) (s : daemon_session) : Prop := {
  at_session_is : w_session w = Some s;
  at_qtasks : w_qtasks w = qs;
  at_ext : ext_ok (w_ext w);
  at_config : dconfig_ok (w_config w);
  at_retry : w_retry w = None;
  at_loose : w_loose w = false
}.

Lemma at_world w qs s : at_session w qs s -> sess_ok qs s -> world_ok w.
Proof.
  intros [H1 H2 H3 H4 H5 H6] Hs. constructor; [done | done | | |done].
  - intros s' E. rewrite H1 in E. injection E as <-. by rewrite H2.
  - intros n rec c E. congruence.
Qed.

Lemma world_at w s : world_ok w -> w_session w = Some s -> at_session w (w_qtasks w) s /\ sess_ok (w_qtasks w) s.
Proof.
  intros [H1 H2 H3 H4 H5] E. split; [| by apply H3]. constructor; try done.
  destruct (w_retry w) as [[[n rec] c] |] eqn:Er; [| done]. destruct (H4 n rec c eq_refl) as [Hn _]. congruence.
Qed.

(** ** The pool grows while the daemon waits for the kernel *)
Record pool_grows (p p' : list (option ev_context)) : Prop := {
  pg_keeps : forall i ev, p !! i = Some (Some ev) -> p' !! i = Some (Some ev);
  pg_new : forall i q, p' !! i = Some (Some (EV_CONN_POLL q)) -> p !! i = Some (Some (EV_CONN_POLL q));
  pg_ok : Forall context_ok p -> Forall context_ok p'
}.

#[global] Instance pool_grows_preorder : PreOrder pool_grows.
Proof. split; [by constructor |]. intros p1 p2 p3 [] []. constructor; auto. Qed.

Lemma free_slot_spec p : forall k i, free_slot p k = Some i -> exists j, i = k + j /\ p !! j = Some None.
Proof.
  induction p as [| [ev |] p IH]; intros k i H; cbn in H; [done | |].
  - destruct (IH _ _ H) as (j & -> & Hj). exists (S j). split; [lia | done].
  - injection H as <-. exists 0. split; [lia | done].
Qed.

Lemma insert_free_grows p i ev :
  p !! i = Some None -> (forall q, ev <> EV_CONN_POLL q) -> context_ok (Some ev) -> pool_grows p (<[i := Some ev]> p).
Proof.
  intros Hi Hq Hok. constructor.
  - intros j ev' Hj. rewrite list_lookup_insert_ne; [done |]. intros ->. congruence.
  - intros j q Hj. apply list_lookup_insert_Some in Hj as [(_ & [= E] & _) | [_ Hj]]; [by destruct (Hq q) | done].
  - intros Hp. by apply Forall_insert.
Qed.

Lemma event_context_ok e : kernel_event_ok e -> context_ok (Some (event_context e)).
Proof. by destruct e. Qed.

Lemma event_not_poll e q : event_context e <> EV_CONN_POLL q.
Proof. by destruct e. Qed.

Lemma ctldev_handle_at w qs s e :
  at_session w qs s -> kernel_event_ok e ->
  exists p, at_session (ctldev_handle e w) qs (s <| pool := p |>) /\ pool_grows (pool s) p.
Proof.
  intros [H1 H2 H3 H4 H5 H6] He. unfold ctldev_handle. rewrite H1.
  assert (Hsame : exists p, at_session w qs (s <| pool := p |>) /\ pool_grows (pool s) p).
  { exists (pool s). split; [| done]. constructor; try done. rewrite H1. by destruct s. }
  case_decide; [exact Hsame |]. destruct (free_slot (pool s) 0) as [i |] eqn:Ef; [| exact Hsame].
  apply free_slot_spec in Ef as (j & -> & Hj). exists (<[j := Some (event_context e)]> (pool s)). split; [by constructor |].
  apply insert_free_grows; [done | intros q; apply event_not_poll | by apply event_context_ok].
Qed.

Lemma deliver_at es : forall w qs s,
  at_session w qs s -> Forall kernel_event_ok es ->
  exists p, at_session (foldl (fun w e => ctldev_handle e w) w es) qs (s <| pool := p |>) /\ pool_grows (pool s) p.
Proof.
  induction es as [| e es IH]; intros w qs s Hw Hes; cbn.
  - exists (pool s). split; [| done]. by destruct s.
  - apply Forall_cons_iff in Hes as [He Hes].
    destruct (ctldev_handle_at w qs s e Hw He) as (p & Hp & Hg).
    destruct (IH _ _ _ Hp Hes) as (p' & Hp' & Hg'). exists p'. split; [exact Hp' | by etrans].
Qed.

(** ** Rules *)
Lemma wp_session w qs s (Q : daemon_session -> world -> Prop) : at_session w qs s -> Q s w -> wp the_session Q w.
Proof. intros [H1 _ _ _ _ _] HQ. exists s, w. unfold the_session. by rewrite H1. Qed.

Lemma wp_set w qs s f (Q : unit -> world -> Prop) :
  at_session w qs s -> (forall w', at_session w' qs (f s) -> Q tt w') -> wp (set_session f) Q w.
Proof.
  intros [H1 H2 H3 H4 H5 H6] HQ. exists tt, (w <| w_session := Some (f s) |>). unfold set_session. rewrite H1.
  split; [done |]. apply HQ. by constructor.
Qed.

Lemma wp_ask w qs s c (Q : answer -> world -> Prop) :
  at_session w qs s ->
  (forall w' p a, at_session w' qs (s <| pool := p |>) -> pool_grows (pool s) p -> answer_ok c a -> Q a w') ->
  wp (ask c) Q w.
Proof.
  intros Hw HQ. unfold ask. eexists _, _. split; [reflexivity |].
  assert (Ha : answer_ok c (w_ext w (w_pos w) c)) by apply Hw.
  destruct (deliver_at (a_events (w_ext w (w_pos w) c)) (w <| w_pos := S (w_pos w) |>) qs s) as (p & Hp & Hg).
  - destruct Hw. by constructor.
  - apply Ha.
  - by apply (HQ _ p).
Qed.
End Invariant.
