(* ===== verification/InitiatorSafety.v ===== *)
(** * The daemon: every handler keeps the invariant *)
From Stdlib Require Import ZArith Lia.
From stdpp Require Import base tactics numbers list option gmap.
From S2P Require Import Prelude CString AuthText Acl AclFrame AclSafety AclProtocol AclTheorems.
From S2P Require Import Pdu LoginText Io Timer Login LoginReq LoginSafety LoginReqSafety LoginDriver.
From S2P Require Import SessionSetup SessionTheorems StateM Initiator InitiatorInv.

Section Safety.
Context `{AEnv : AuthEnv} {AEnvOk : AuthEnvOk AEnv} `{LEnv : LoginEnv}.

(** ** Frames *)

(** The fields that [base] looks at. *)
Lemma base_same qs s s' :
  base qs s -> t s' = t s -> pool_dangling s' = pool_dangling s -> Forall context_ok (pool s') ->
  (ISCSI_DEF_MAX_RECV_SEG_LEN <= Z.of_nat (length (data s')))%Z -> config_ok (lg s') ->
  ((0 < num_auth_buffers (lg s'))%Z -> auth_cfg (lg s')) ->
  r_stage s' = r_stage s -> notify_qtask s' = notify_qtask s -> base qs s'.
Proof.
  intros [B1 B2 B3 B4 B5 B6 B7 B8] E1 E2 E3 E4 E5 E6 E7 E8. constructor; try assumption; try congruence.
  intros q. rewrite E7, E8. apply B8.
Qed.

Lemma base_pool qs s p : base qs s -> pool_grows (pool s) p -> base qs (s <| pool := p |>).
Proof. intros Hb Hg. apply (base_same qs s); try done; [apply Hg, Hb | apply Hb..]. Qed.

Lemma context_put qs s i o :
  base qs s -> context_ok o -> base qs (s <| pool := <[i := o]> (pool s) |>).
Proof. intros Hb Ho. apply (base_same qs s); try done; [by apply Forall_insert; [apply Hb |] | apply Hb..]. Qed.

Lemma context_free_all (p : list (option ev_context)) : Forall context_ok ((fun _ => None) <$> p).
Proof. by apply Forall_fmap, Forall_true. Qed.

Lemma base_flush qs s : base qs s -> base qs (s <| pool := (fun _ => None) <$> pool s |>).
Proof. intros Hb. apply (base_same qs s); try done; [apply context_free_all | apply Hb..]. Qed.

Lemma live_insert qs q n b : live qs q -> live (<[n := b]> qs) q.
Proof.
  destruct q as [| m]; [done |]. cbn. intros [x Hx]. destruct (decide (n = m)) as [-> | Hne].
  - rewrite lookup_insert_eq. eauto.
  - rewrite lookup_insert_ne by done. eauto.
Qed.

Lemma ready_live qs s q : ready qs s q -> live qs q.
Proof. destruct q; [done |]. cbn. intros ->. eauto. Qed.

Lemma base_insert qs s n b : base qs s -> base (<[n := b]> qs) s.
Proof.
  intros [B1 B2 B3 B4 B5 B6 B7 B8]. constructor; try done. intros q Hq. destruct (B8 q Hq) as [Hl ?].
  split; [by apply live_insert | done].
Qed.

(** ** Primitives *)
Lemma wp_flush w qs s (Q : unit -> world -> Prop) :
  at_session w qs s -> pool_dangling s = false ->
  (forall w', at_session w' qs (s <| pool := (fun _ => None) <$> pool s |>) -> Q tt w') ->
  wp iscsi_flush_context_pool Q w.
Proof.
  intros Hw Hp HQ. unfold iscsi_flush_context_pool. mstep. eapply wp_session; [exact Hw |]. rewrite Hp.
  by eapply wp_set.
Qed.

Lemma wp_put w qs s i (Q : unit -> world -> Prop) :
  at_session w qs s -> (forall w', at_session w' qs (s <| pool := <[i := None]> (pool s) |>) -> Q tt w') ->
  wp (iscsi_ev_context_put i) Q w.
Proof. intros Hw HQ. by eapply wp_set. Qed.

Lemma wp_get_context w qs s (Q : option nat -> world -> Prop) :
  at_session w qs s ->
  (forall w', at_session w' qs s -> Q None w') ->
  (forall w' i, pool s !! i = Some None -> at_session w' qs (s <| pool := <[i := Some EV_BUSY]> (pool s) |>) -> Q (Some i) w') ->
  wp iscsi_ev_context_get Q w.
Proof.
  intros Hw HN HS. unfold iscsi_ev_context_get. mstep. eapply wp_session; [exact Hw |].
  destruct (free_slot (pool s) 0) as [i |] eqn:E; [| mstep; by apply HN].
  apply free_slot_spec in E as (j & -> & Hj). mstep. eapply wp_set; [exact Hw |]. intros w' Hw'. mstep. by apply HS.
Qed.

(** ** Answering and closing *)
Definition answered (qs : gmap nat bool) (q : option queue_task) : gmap nat bool :=
  match q with Some (request n) => delete n qs | _ => qs end.

Lemma wp_write_rsp w qs s q err (Q : unit -> world -> Prop) :
  at_session w qs s -> (forall q', q = Some q' -> live qs q') ->
  (forall w', at_session w' (answered qs q) s -> Q tt w') ->
  wp (mgmt_ipc_write_rsp q err) Q w.
Proof.
  intros Hw Hl HQ. destruct q as [[| n] |]; cbn.
  - mstep. eapply wp_session; [exact Hw |]. mstep. by apply HQ.
  - destruct (Hl (request n) eq_refl) as [b Hb]. unfold wp. destruct Hw as [H1 H2 H3 H4 H5 H6]. rewrite H2, Hb.
    eexists _, _. split; [reflexivity |]. apply HQ. by constructor.
  - mstep. by apply HQ.
Qed.

(** The session is gone. *)
Definition closed (qs : gmap nat bool) (w : world) : Prop :=
  world_ok w /\ w_session w = None /\ w_qtasks w = qs /\ w_retry w = None.

(** No context is queued after a flush. *)
Lemma flushed_idle s :
  login_timer s = None -> nop_out_timer s = None -> actors_queued (s <| pool := (fun _ => None) <$> pool s |>) = false.
Proof.
  intros Ht Hn. unfold actors_queued. cbn. rewrite Ht, Hn, !bool_decide_false by (intros [x Hx]; discriminate Hx).
  cbn. induction (pool s); [done | by cbn].
Qed.

Lemma wp_destroy w qs s (Q : unit -> world -> Prop) :
  at_session w qs s -> pool_dangling s = false -> login_timer s = None -> nop_out_timer s = None ->
  (forall w', closed qs w' -> Q tt w') -> wp __session_destroy Q w.
Proof.
  intros Hw Hp Ht Hn HQ. unfold __session_destroy. mstep. eapply wp_flush; [exact Hw | exact Hp |].
  intros w' Hw'. mstep. eapply wp_session; [exact Hw' |]. mstep. apply HQ. destruct Hw' as [H1 H2 H3 H4 H5 H6].
  split; [| done]. constructor; try done.
  - intros n rec c E. cbn in E. congruence.
  - cbn. by rewrite H6, flushed_idle.
Qed.

Lemma wp_cleanup w qs s q err (Q : Z -> world -> Prop) :
  at_session w qs s -> pool_dangling s = false -> (forall q', q = Some q' -> live qs q') ->
  (forall w', closed (answered qs q) w' -> Q ISCSI_SUCCESS w') ->
  wp (shutdown_cleanup q err) Q w.
Proof.
  intros Hw Hp Hl HQ. unfold shutdown_cleanup. mstep. eapply wp_session; [exact Hw |].
  assert (Hend : forall w' s', at_session w' qs s' -> pool_dangling s' = false ->
    wp (mgmt_ipc_write_rsp q err ;;; conn_delete_timers ;;; __session_destroy ;;; mret' ISCSI_SUCCESS) Q w').
  { intros w' s' Hw' Hp'. mstep. eapply wp_write_rsp; [exact Hw' | exact Hl |]. intros w1 Hw1. mstep.
    eapply wp_set; [exact Hw1 |]. intros w2 Hw2. mstep. eapply wp_destroy; [exact Hw2 | exact Hp' | done | done |].
    intros w3 Hw3. mstep. by apply HQ. }
  mstep. case_decide.
  - mstep. rewrite decide_False by (intros Hx; by apply Hx). by eapply Hend.
  - mstep. eapply wp_set; [exact Hw |]. intros w1 Hw1. mstep. eapply wp_ask; [exact Hw1 |].
    intros w2 p a Hw2 Hg [Ha _]. mstep. rewrite Ha by done. rewrite decide_False by (intros Hx; by apply Hx).
    by eapply Hend.
Qed.

Lemma wp_shutdown w qs s q err (Q : Z -> world -> Prop) :
  at_session w qs s -> pool_dangling s = false -> (forall q', q = Some q' -> live qs q') ->
  (forall w', closed (answered qs q) w' -> Q ISCSI_SUCCESS w') ->
  wp (session_conn_shutdown q err) Q w.
Proof.
  intros Hw Hp Hl HQ. unfold session_conn_shutdown. mstep. eapply wp_ask; [exact Hw |]. intros w1 p1 a1 Hw1 _ _.
  mstep. eapply wp_session; [exact Hw1 |]. case_decide; [by eapply wp_cleanup |].
  mstep. eapply wp_ask; [exact Hw1 |]. intros w2 p2 a2 Hw2 _ _. case_decide; [by eapply wp_cleanup |].
  mstep. eapply wp_session; [exact Hw2 |]. mstep.
  assert (Hend : forall rc w' s', rc = 0%Z -> at_session w' qs s' -> pool_dangling s' = false ->
    wp (if decide (rc <> 0%Z) then mret' ISCSI_ERR_INTERNAL
        else let! a := ask X_destroy_conn in
             if decide (a_rc a <> 0%Z) then mret' ISCSI_ERR_INTERNAL else shutdown_cleanup q err) Q w').
  { intros rc w' s' -> Hw' Hp'. rewrite decide_False by (intros Hx; by apply Hx). mstep. eapply wp_ask; [exact Hw' |].
    intros w3 p3 a3 Hw3 _ [Ha _]. rewrite Ha by done. rewrite decide_False by (intros Hx; by apply Hx).
    by eapply wp_cleanup. }
  case_decide.
  - mstep. eapply wp_ask; [exact Hw2 |]. intros w3 p3 a3 Hw3 _ [Ha _]. mstep. eapply Hend; [by apply Ha | exact Hw3 | done].
  - mstep. by eapply Hend.
Qed.

Lemma drop_session_closes w qs s q err :
  at_session w qs s -> pool_dangling s = false -> (forall q', q = Some q' -> live qs q') ->
  wp (drop_session q err) (fun _ w' => closed (answered qs q) w') w.
Proof.
  intros Hw Hp Hl. unfold drop_session. mstep. eapply wp_shutdown; [exact Hw | exact Hp | exact Hl |].
  intros w' Hc. by mstep.
Qed.

Lemma drop_session_ok w qs s q err :
  at_session w qs s -> pool_dangling s = false -> (forall q', q = Some q' -> live qs q') ->
  wp (drop_session q err) (fun _ w' => world_ok w') w.
Proof.
  intros Hw Hp Hl. eapply wp_use; [by eapply drop_session_closes |]. by intros u w' [Hok _].
Qed.

(** ** Reopening *)

(** Waiting for the transport; the timer is not looked at. *)
Record waiting (qs : gmap nat bool) (s : daemon_session) : Prop := {
  wt_base : base qs s;
  wt_state : state s = ISCSI_CONN_STATE_XPT_WAIT;
  wt_polls : polls_ready qs s;
  wt_logout : logout_qtask s = None
}.

Lemma waiting_ok qs s : waiting qs s -> timer_set qs s -> sess_ok qs s.
Proof. intros [H1 H2 H3 H4] Ht. split; [done |]. unfold state_ok. by rewrite H2. Qed.

Lemma waiting_pool qs s p : waiting qs s -> pool_grows (pool s) p -> waiting qs (s <| pool := p |>).
Proof.
  intros [H1 H2 H3 H4] Hg. constructor; [by apply base_pool | done | | done].
  intros i q Hi. apply (H3 i q). by apply Hg.
Qed.

(** The session waits for the transport again. *)
Definition reopened (w : world) : Prop :=
  exists qs s, at_session w qs s /\ sess_ok qs s /\ state s = ISCSI_CONN_STATE_XPT_WAIT.

Lemma reopened_world w : reopened w -> world_ok w.
Proof. intros (qs & s & Hw & Hs & _). by eapply at_world. Qed.

Lemma wp_qtask_conn w qs s q (Q : unit -> world -> Prop) :
  at_session w qs s -> ready qs s q -> Q tt w -> wp (qtask_conn q) Q w.
Proof.
  intros Hw Hr HQ. destruct q as [| n]; cbn in Hr |- *.
  - mstep. eapply wp_session; [exact Hw |]. rewrite Hr. by mstep.
  - exists tt, w. destruct Hw as [_ -> _ _ _]. by rewrite Hr.
Qed.

Lemma wp_set_qtask_conn w qs s q (Q : unit -> world -> Prop) :
  at_session w qs s -> live qs q -> base qs s -> logout_qtask s = None ->
  (forall w' qs' s', at_session w' qs' s' -> base qs' s' -> ready qs' s' q -> pool s' = pool s ->
     logout_qtask s' = None -> state s' = state s -> lg s' = lg s -> Q tt w') ->
  wp (set_qtask_conn q) Q w.
Proof.
  intros Hw Hl Hb Hlo HQ. destruct q as [| n]; cbn.
  - eapply wp_set; [exact Hw |]. intros w' Hw'. eapply HQ; [exact Hw' | | done..].
    apply (base_same qs s); try done; apply Hb.
  - destruct Hl as [b Hl]. destruct Hw as [H1 H2 H3 H4 H5]. unfold wp. rewrite H2, Hl.
    eexists _, _. split; [reflexivity |]. eapply (HQ _ (<[n := true]> qs) s); try done.
    + by apply base_insert.
    + cbn. by rewrite lookup_insert_eq.
Qed.

Lemma queue_reopen_ok w qs s q delay :
  at_session w qs s -> waiting qs s -> ready qs s q ->
  wp (queue_delayed_reopen q delay) (fun _ w' => reopened w') w.
Proof.
  intros Hw Hs Hr. unfold queue_delayed_reopen. mstep. eapply wp_qtask_conn; [exact Hw | exact Hr |].
  eapply wp_set; [exact Hw |]. intros w' Hw'. eexists _, _. split; [exact Hw' |].
  split; [| apply Hs]. apply waiting_ok.
  - destruct Hs as [H1 H2 H3 H4]. constructor; try done. apply (base_same qs s); try done; apply H1.
  - exists delay, q. by split.
Qed.

Lemma connect_ok w qs s q :
  at_session w qs s -> waiting qs s -> ready qs s q ->
  wp (iscsi_conn_connect q) (fun rc w' => exists s', at_session w' qs s' /\ waiting qs s' /\ ready qs s' q /\
    (rc = 0%Z -> timer_set qs s')) w.
Proof.
  intros Hw Hs Hr. unfold iscsi_conn_connect. mstep. eapply wp_get_context; [exact Hw | |].
  - intros w' Hw'. mstep. exists s. by split_and!.
  - intros w1 i Hi Hw1. mstep. eapply wp_ask; [exact Hw1 |]. intros w2 p a Hw2 Hg _.
    assert (Hs1 : waiting qs (s <| pool := p |>)).
    { apply waiting_pool; [done |]. etrans; [| exact Hg]. by apply insert_free_grows. }
    case_decide.
    + mstep. eapply wp_put; [exact Hw2 |]. intros w3 Hw3. mstep. eexists. split; [exact Hw3 |]. split_and!; [| done | done].
      destruct Hs1 as [H1 H2 H3 H4]. constructor; [exact (context_put qs (s <| pool := p |>) i None H1 I) | done | | done].
      intros j q' Hj. cbn in Hj. apply list_lookup_insert_Some in Hj as [(_ & [=] & _) | [_ Hj]]. by apply (H3 j q').
    + mstep. eapply wp_set; [exact Hw2 |]. intros w3 Hw3. mstep. eapply wp_set; [exact Hw3 |]. intros w4 Hw4. mstep.
      eexists. split; [exact Hw4 |]. split_and!; [| done |].
      * destruct Hs1 as [H1 H2 H3 H4]. constructor; try done.
        -- apply (base_same qs (s <| pool := p |>)); try done; [| apply H1..].
           apply Forall_insert; [apply H1 | done].
        -- intros j q' Hj. cbn in Hj. apply list_lookup_insert_Some in Hj as [(_ & [= ->] & _) | [_ Hj]]; [exact Hr |].
           by apply (H3 j q').
      * intros _. eexists _, q. by split.
Qed.

Lemma reopen_connect_ok w qs s q redirected :
  at_session w qs s -> waiting qs s -> ready qs s q ->
  wp (reopen_connect q redirected) (fun _ w' => reopened w') w.
Proof.
  intros Hw Hs Hr. unfold reopen_connect.
  assert (Hrest : forall w' s', at_session w' qs s' -> waiting qs s' -> ready qs s' q ->
    wp (let! a := ask X_set_net_config in
        if decide (a_rc a <> 0%Z) then queue_delayed_reopen q (if redirected then a_out a else 0%Z)
        else let! rc := iscsi_conn_connect q in
             if decide (rc <> 0%Z) then queue_delayed_reopen q ISCSI_CONN_ERR_REOPEN_DELAY else mret' tt)
       (fun _ w' => reopened w') w').
  { intros w' s' Hw' Hs' Hr'. mstep. eapply wp_ask; [exact Hw' |]. intros w1 p a Hw1 Hg _.
    assert (Hs1 : waiting qs (s' <| pool := p |>)) by (by apply waiting_pool).
    case_decide; [by eapply queue_reopen_ok |].
    mstep. eapply wp_use; [by eapply connect_ok |]. intros rc w2 (s2 & Hw2 & Hs2 & Hr2 & Ht2).
    case_decide; [by eapply queue_reopen_ok |]. mstep. eexists _, _. split; [exact Hw2 |].
    split; [| apply Hs2]. apply waiting_ok; [done |]. apply Ht2. by destruct (decide (rc = 0%Z)). }
  mstep; [| by eapply Hrest]. eapply wp_set; [exact Hw |]. intros w1 Hw1. eapply Hrest; [exact Hw1 | | exact Hr].
  destruct Hs as [H1 H2 H3 H4]. constructor; try done. apply (base_same qs s); try done; apply H1.
Qed.

(** Changes of the parameters and addresses of the session. *)
Lemma waiting_lg qs s l :
  waiting qs s -> config_ok l -> ((0 < num_auth_buffers l)%Z -> auth_cfg l) -> waiting qs (s <| lg := l |>).
Proof.
  intros [H1 H2 H3 H4] Hc Ha. constructor; try done. apply (base_same qs s); try done; apply H1.
Qed.

Lemma __reopen_ok w qs s q do_stop redirected :
  at_session w qs s -> base qs s -> live qs q -> logout_qtask s = None ->
  wp (__session_conn_reopen q do_stop redirected) (fun _ w' => reopened w') w.
Proof.
  intros Hw Hb Hl Hlo. unfold __session_conn_reopen. mstep. eapply wp_set_qtask_conn; [exact Hw | done..|].
  clear w qs Hw Hb Hl. intros w qs s0 Hw Hb Hr _ Hlo' _ _. clear s Hlo. rename s0 into s.
  mstep. eapply wp_flush; [exact Hw | apply Hb |]. intros w1 Hw1.
  mstep. eapply wp_set; [exact Hw1 |]. intros w2 Hw2.
  mstep. eapply wp_set; [exact Hw2 |]. intros w3 Hw3. clear w1 w2 Hw1 Hw2.
  match type of Hw3 with at_session _ _ ?x => set (s3 := x) in * end.
  assert (Hs3 : waiting qs s3).
  { constructor; [| done | | done].
    - apply (base_same qs s); try done; [apply context_free_all | apply Hb..].
    - intros i q' Hi. cbn in Hi. rewrite list_lookup_fmap in Hi. by destruct (pool s !! i). }
  assert (Hr3 : ready qs s3 q) by exact Hr. clearbody s3.
  mstep. eapply wp_ask; [exact Hw3 |]. intros w4 p4 a4 Hw4 Hg4 _.
  assert (Hs4 : waiting qs (s3 <| pool := p4 |>)) by (by apply waiting_pool).
  assert (Hr4 : ready qs (s3 <| pool := p4 |>) q) by exact Hr3.
  set (s4 := s3 <| pool := p4 |>) in *. clearbody s4.
  assert (Hrest : forall rc w' s', at_session w' qs s' -> waiting qs s' -> ready qs s' q ->
    wp (if decide (rc <> 0%Z) then queue_delayed_reopen q ISCSI_INTERNAL_ERR_REOPEN_DELAY
        else if redirected then reopen_connect q true
        else
          let! s := the_session in
          let delay := def_time2wait (params (lg s)) in
          set_time2wait 0 ;;;
          if truth delay then queue_delayed_reopen q delay else reopen_connect q false) (fun _ w' => reopened w') w').
  { intros rc w' s' Hw' Hs' Hr'. case_decide; [by eapply queue_reopen_ok |].
    destruct redirected; [by eapply reopen_connect_ok |].
    mstep. eapply wp_session; [exact Hw' |]. cbv zeta. mstep. eapply wp_set; [exact Hw' |]. intros w5 Hw5.
    assert (Hs5 : waiting qs (s' <| lg := (lg s') <| params := (params (lg s')) <| def_time2wait := 0%Z |> |> |>)).
    { apply waiting_lg; [done | | ].
      - by eapply config_ok_same; [| apply Hs'].
      - intros Hn. destruct (b_auth _ _ (wt_base _ _ Hs') Hn). by constructor. }
    case_match; [by eapply queue_reopen_ok | by eapply reopen_connect_ok]. }
  mstep. destruct (truth do_stop).
  - mstep. eapply wp_ask; [exact Hw4 |]. intros w5 p5 a5 Hw5 Hg5 _. mstep.
    eapply Hrest; [exact Hw5 | by apply waiting_pool | exact Hr4].
  - mstep. by eapply Hrest.
Qed.

Lemma reopen_ok w qs s q do_stop :
  at_session w qs s -> base qs s -> live qs q -> logout_qtask s = None ->
  wp (session_conn_reopen q do_stop) (fun _ w' => reopened w') w.
Proof.
  intros Hw Hb Hl Hlo. unfold session_conn_reopen. mstep. eapply wp_set; [exact Hw |]. intros w1 Hw1.
  eapply __reopen_ok; [exact Hw1 | | done..]. apply (base_same qs s); try done; [apply Hb | apply Hb | |].
  - by eapply config_ok_same; [| apply Hb].
  - intros Hn. destruct (b_auth _ _ Hb Hn). by constructor.
Qed.

(** ** Login errors *)
(** The session was given up and the request answered, or a new connection is
    being made, with the timer running. *)
Definition settled (qs : gmap nat bool) (q : queue_task) (w : world) : Prop :=
  closed (answered qs (Some q)) w \/ reopened w.

Lemma settled_world qs q w : settled qs q w -> world_ok w.
Proof. intros [[Hw _] | Hw]; [done | by apply reopened_world]. Qed.

Lemma given_up_settles w qs s q err retry :
  at_session w qs s -> base qs s -> live qs q ->
  (forall w' p, at_session w' qs (s <| pool := p |>) -> pool_grows (pool s) p -> wp retry (fun _ w' => reopened w') w') ->
  wp (unless_given_up q err retry) (fun _ w' => settled qs q w') w.
Proof.
  intros Hw Hb Hl Hretry. unfold unless_given_up.
  assert (Hdrop : forall w' s', at_session w' qs s' -> pool_dangling s' = false ->
    wp (drop_session (Some q) err) (fun _ w' => settled qs q w') w').
  { intros w' s' Hw' Hp. eapply wp_use; [eapply drop_session_closes; [exact Hw' | exact Hp | by intros q' [= <-]] |].
    intros u w2 H2. by left. }
  mstep. destruct (iscsi_login_is_fatal_err err).
  - mstep. eapply Hdrop; [exact Hw | apply Hb].
  - unfold iscsi_retry_initial_login. mstep. eapply wp_session; [exact Hw |]. cbv zeta. mstep.
    eapply wp_ask; [exact Hw |]. intros w1 p a Hw1 Hg _.
    case_decide; mstep; (case_match;
      [eapply wp_use; [by eapply Hretry | by right] | eapply Hdrop; [exact Hw1 | apply Hb]]).
Qed.

Lemma login_eh_settles w qs s q err :
  at_session w qs s -> base qs s -> live qs q -> logout_qtask s = None ->
  state s = ISCSI_CONN_STATE_XPT_WAIT \/ state s = ISCSI_CONN_STATE_IN_LOGIN ->
  wp (iscsi_login_eh q err) (fun _ w' => settled qs q w') w.
Proof.
  intros Hw Hb Hl Hlo Hst. unfold iscsi_login_eh. mstep. eapply wp_flush; [exact Hw | apply Hb |]. intros w1 Hw1.
  match type of Hw1 with at_session _ _ ?x => set (s1 := x) in * end.
  mstep. eapply wp_session; [exact Hw1 |].
  assert (Hb1 : base qs s1) by (by apply base_flush).
  assert (Hlo1 : logout_qtask s1 = None) by done.
  assert (Hst1 : state s1 = ISCSI_CONN_STATE_XPT_WAIT \/ state s1 = ISCSI_CONN_STATE_IN_LOGIN) by exact Hst.
  clearbody s1. clear s Hw Hb Hlo Hst.
  assert (Hreopen : forall do_stop, wp (session_conn_reopen q do_stop) (fun _ w' => settled qs q w') w1).
  { intros ds. eapply wp_use; [by eapply reopen_ok |]. by right. }
  assert (Hdrop : wp (drop_session (Some q) err) (fun _ w' => settled qs q w') w1).
  { eapply wp_use; [eapply drop_session_closes; [exact Hw1 | apply Hb1 | by intros q' [= <-]] |]. by left. }
  assert (Hagain : forall do_stop, wp (unless_given_up q err (session_conn_reopen q do_stop)) (fun _ w' => settled qs q w') w1).
  { intros ds. eapply given_up_settles; [exact Hw1 | done | done |]. intros w' p Hw' Hg.
    eapply reopen_ok; [exact Hw' | by apply base_pool | done | done]. }
  destruct (b_stage _ _ Hb1) as [Es | [Es | Es]]; destruct Hst1 as [-> | ->]; rewrite Es; try done.
  - eapply given_up_settles; [exact Hw1 | done | done |]. intros w' p Hw' Hg. mstep. eapply wp_session; [exact Hw' |].
    eapply reopen_ok; [exact Hw' | by apply base_pool | done | done].
  - case_decide; [exact Hdrop | apply Hreopen].
Qed.

Lemma login_eh_ok w qs s q err :
  at_session w qs s -> base qs s -> live qs q -> logout_qtask s = None ->
  state s = ISCSI_CONN_STATE_XPT_WAIT \/ state s = ISCSI_CONN_STATE_IN_LOGIN ->
  wp (iscsi_login_eh q err) (fun _ w' => world_ok w') w.
Proof.
  intros. eapply wp_use; [by eapply login_eh_settles |]. intros u w'. apply settled_world.
Qed.


Lemma fatal_closes w qs s q err :
  at_session w qs s -> base qs s -> live qs q ->
  state s = ISCSI_CONN_STATE_XPT_WAIT \/ state s = ISCSI_CONN_STATE_IN_LOGIN ->
  r_stage s = R_STAGE_NO_CHANGE \/ r_stage s = R_STAGE_SESSION_REDIRECT -> iscsi_login_is_fatal_err err = true ->
  wp (iscsi_login_eh q err) (fun _ w' => closed (answered qs (Some q)) w') w.
Proof.
  intros Hw Hb Hl Hst Hr Hf. unfold iscsi_login_eh. mstep. eapply wp_flush; [exact Hw | apply Hb |]. intros w1 Hw1.
  mstep. eapply wp_session; [exact Hw1 |].
  match type of Hw1 with at_session _ _ ?x => change (state x) with (state s); change (r_stage x) with (r_stage s) end.
  assert (Hgo : forall retry, wp (unless_given_up q err retry) (fun _ w' => closed (answered qs (Some q)) w') w1).
  { intros retry. unfold unless_given_up. rewrite Hf. mstep.
    eapply drop_session_closes; [exact Hw1 | apply Hb | by intros q' [= <-]]. }
  destruct Hst as [-> | ->], Hr as [-> | ->]; apply Hgo.
Qed.

(** ** The invariant and the pool *)
Lemma sess_ok_contexts qs s p :
  sess_ok qs s -> Forall context_ok p ->
  (forall i q, p !! i = Some (Some (EV_CONN_POLL q)) -> pool s !! i = Some (Some (EV_CONN_POLL q))) ->
  sess_ok qs (s <| pool := p |>).
Proof.
  intros [Hb Hs] Hp Hq. split; [apply (base_same qs s); try done; apply Hb |].
  unfold state_ok in *. change (state (s <| pool := p |>)) with (state s). destruct (state s); try exact Hs.
  - destruct Hs as (H1 & H2 & H3). split_and!; [exact H1 | | exact H3]. intros i q Hi. apply (H2 i q), Hq, Hi.
  - destruct Hs as (H1 & H2 & [I1 I2 I3 I4] & H4). split_and!; [exact H1 | exact H2 | by constructor | exact H4].
Qed.

Lemma sess_ok_pool qs s p : sess_ok qs s -> pool_grows (pool s) p -> sess_ok qs (s <| pool := p |>).
Proof. intros Hs Hg. apply sess_ok_contexts; [done | apply Hg, Hs | apply Hg]. Qed.

Lemma sess_ok_put qs s i o :
  sess_ok qs s -> context_ok o -> (forall q, o <> Some (EV_CONN_POLL q)) -> sess_ok qs (s <| pool := <[i := o]> (pool s) |>).
Proof.
  intros Hs Ho Hq. apply sess_ok_contexts; [done | apply Forall_insert; [apply Hs | done] |].
  intros j q Hj. apply list_lookup_insert_Some in Hj as [(_ & E & _) | [_ Hj]]; [by destruct (Hq q) | done].
Qed.

(** Logged in, or logging out. *)
Definition is_up (s : daemon_session) : Prop :=
  state s = ISCSI_CONN_STATE_LOGGED_IN \/ state s = ISCSI_CONN_STATE_IN_LOGOUT.

Record up (qs : gmap nat bool) (s : daemon_session) : Prop := {
  up_base : base qs s;
  up_state : is_up s;
  up_timer : login_timer s = None;
  up_notify : notify_qtask s = None;
  up_auth : authenticated s;
  up_logout : forall q, logout_qtask s = Some q -> live qs q
}.

Lemma up_ok qs s : up qs s -> sess_ok qs s.
Proof. intros [H1 H2 H3 H4 H5 H6]. split; [done |]. unfold state_ok. by destruct H2 as [-> | ->]. Qed.

Lemma ok_up qs s : sess_ok qs s -> is_up s -> up qs s.
Proof.
  intros [Hb Hs] Hu. unfold state_ok in Hs. destruct Hu as [E | E]; rewrite E in Hs;
    destruct Hs as (H1 & H2 & H3 & H4); constructor; try done; [by left | by right].
Qed.

Lemma up_pool qs s p : up qs s -> pool_grows (pool s) p -> up qs (s <| pool := p |>).
Proof. intros [H1 H2 H3 H4 H5 H6] Hg. constructor; try done. by apply base_pool. Qed.

(** ** Errors of the connection *)
Lemma conn_error_ok w qs s :
  at_session w qs s -> sess_ok qs s -> wp __conn_error_handle (fun _ w' => world_ok w') w.
Proof.
  intros Hw Hok. destruct (Hok) as [Hb Hs]. unfold __conn_error_handle. mstep. eapply wp_session; [exact Hw |].
  destruct (logout_qtask s) as [q |] eqn:Eq.
  { eapply drop_session_ok; [exact Hw | apply Hb |]. intros q' [= <-].
    unfold state_ok in Hs. rewrite Eq in Hs. destruct (state s); naive_solver. }
  assert (Hstay : wp (mret' tt) (fun _ w' => world_ok w') w) by (mstep; by eapply at_world).
  assert (Hup : is_up s -> wp (set_session (fun s => s <| state := ISCSI_CONN_STATE_CLEANUP_WAIT |>) ;;;
          mwhen (negb (bool_decide (0 < erl s)%Z))
            (set_session (fun s => s <| r_stage := R_STAGE_SESSION_REOPEN |>)) ;;;
          let! s := the_session in
          if decide (r_stage s = R_STAGE_SESSION_REOPEN) then
            session_conn_reopen reopen_qtask STOP_CONN_RECOVER
          else mret' tt) (fun _ w' => world_ok w') w).
  { intros Hu. destruct (ok_up _ _ Hok Hu) as [_ _ Ht Hn _ _]. mstep. eapply wp_set; [exact Hw |]. intros w1 Hw1.
    match type of Hw1 with at_session _ _ ?x => set (s1 := x) in * end.
    assert (Hb1 : base qs s1) by (apply (base_same qs s); try done; apply Hb).
    assert (Hfin : forall w' s', at_session w' qs s' -> base qs s' -> logout_qtask s' = None -> login_timer s' = None ->
      state s' = ISCSI_CONN_STATE_CLEANUP_WAIT ->
      wp (let! s := the_session in
          if decide (r_stage s = R_STAGE_SESSION_REOPEN) then session_conn_reopen reopen_qtask STOP_CONN_RECOVER
          else mret' tt) (fun _ w' => world_ok w') w').
    { intros w' s' Hw' Hb' Hl' Ht' Hs'. mstep. eapply wp_session; [exact Hw' |]. case_decide.
      - eapply wp_use; [by eapply reopen_ok |]. intros u w2. apply reopened_world.
      - mstep. eapply at_world; [exact Hw' |]. split; [done |]. unfold state_ok. by rewrite Hs'. }
    mstep; [| by eapply Hfin]. eapply wp_set; [exact Hw1 |]. intros w2 Hw2. eapply Hfin; [exact Hw2 | | done..].
    destruct Hb1 as [B1 B2 B3 B4 B5 B6 B7 B8]. constructor; try done; [by right; left |].
    intros q Hq. exfalso. cbn in Hq. congruence. }
  destruct (state s) eqn:Es; try exact Hstay; try (apply Hup; unfold is_up; auto).
  clear Hup. case_decide; [| exact Hstay]. unfold state_ok in Hs. rewrite Es in Hs. destruct Hs as (_ & _ & _ & Hlo).
  eapply login_eh_ok; [exact Hw | exact Hb | | done | by right].
  destruct (notify_qtask s) as [q |] eqn:En; [| done]. by destruct (b_notify _ _ Hb q En).
Qed.

Lemma session_conn_error_ok w qs s i e :
  at_session w qs s -> sess_ok qs s -> wp (session_conn_error i e) (fun _ w' => world_ok w') w.
Proof.
  intros Hw Hs. unfold session_conn_error. mstep. eapply wp_put; [exact Hw |]. intros w1 Hw1.
  assert (Hs1 : sess_ok qs (s <| pool := <[i := None]> (pool s) |>)) by (by apply sess_ok_put).
  case_decide; [eapply drop_session_ok; [exact Hw1 | apply Hs | done] | by eapply conn_error_ok].
Qed.

Lemma login_timedout_settles w qs s q :
  at_session w qs s -> base qs s -> ready qs s q -> logout_qtask s = None ->
  state s = ISCSI_CONN_STATE_XPT_WAIT \/ state s = ISCSI_CONN_STATE_IN_LOGIN ->
  wp (iscsi_login_timedout q) (fun _ w' => settled qs q w') w.
Proof.
  intros Hw Hb Hr Hlo Hst. unfold iscsi_login_timedout. mstep. eapply wp_qtask_conn; [exact Hw | exact Hr |].
  mstep. eapply wp_session; [exact Hw |]. eapply login_eh_settles; try done. by eapply ready_live.
Qed.

(** ** PDUs of the daemon *)
Lemma wp_send_pdu w qs s h d (Q : bool -> world -> Prop) :
  at_session w qs s -> hdr_ok h -> (ntoh24 h <= Z.of_nat (length d))%Z ->
  (forall w' p ok, at_session w' qs (s <| pool := p |>) -> pool_grows (pool s) p -> Q ok w') ->
  wp (send_pdu h d) Q w.
Proof.
  intros Hw Hh Hd HQ. unfold send_pdu. mstep. eapply wp_session; [exact Hw |]. mstep. eapply wp_ask; [exact Hw |].
  intros w1 p a Hw1 Hg _. mstep.
  destruct (send_pdu_total (use_ipc (lg s)) (a_rc a) h d (a_writes a) Hh Hd) as (ok & out & net & E).
  eapply wp_opt; [exact E |]. apply wp_ret. by eapply HQ.
Qed.

Lemma hdr_ok_of h : length h = HDR_LEN -> hdr8 h OFF_hlength = 0%Z -> (0 <= ntoh24 h)%Z -> hdr_ok h.
Proof. by unfold hdr_ok. Qed.

Lemma nopin_rsp_ok rhdr :
  length rhdr = HDR_LEN -> Forall is_byte rhdr ->
  hdr_ok (nopin_rsp_header rhdr) /\ ntoh24 (nopin_rsp_header rhdr) = ntoh24 rhdr.
Proof.
  intros Hl Hb. pose proof (ntoh24_range rhdr Hb) as Hr. unfold HDR_LEN in Hl.
  do 48 (destruct rhdr as [| ? rhdr]; [discriminate |]). destruct rhdr; [| discriminate].
  split; [| reflexivity]. apply hdr_ok_of; [reflexivity | reflexivity |]. apply Hr.
Qed.

Lemma nop_out_ok w qs s :
  at_session w qs s -> sess_ok qs s -> wp conn_send_nop_out (fun _ w' => world_ok w') w.
Proof.
  intros Hw Hs. unfold conn_send_nop_out. mstep. eapply wp_session; [exact Hw |].
  case_decide; [mstep; by eapply at_world |]. mstep. unfold __send_nopout.
  eapply wp_send_pdu; [exact Hw | by apply hdr_ok_of | done |]. intros w1 p ok Hw1 Hg.
  eapply wp_set; [exact Hw1 |]. intros w2 Hw2. eapply at_world; [exact Hw2 |].
  pose proof (sess_ok_pool _ _ _ Hs Hg) as [Hb1 Hs1]. split.
  - apply (base_same qs (s <| pool := p |>)); try done; apply Hb1.
  - unfold state_ok in *. cbn. cbn in Hs1. destruct (state s); try exact Hs1.
    destruct Hs1 as (H1 & H2 & [I1 I2 I3 I4] & H4). split_and!; [exact H1 | exact H2 | by constructor | exact H4].
Qed.
End Safety.
