(* ===== verification/InitiatorLogin.v ===== *)
(** * The daemon: the login exchange keeps the invariant *)
From Stdlib Require Import ZArith Lia.
From stdpp Require Import base tactics numbers list option gmap.
From S2P Require Import Prelude CString AuthText Acl AclFrame AclSafety AclProtocol AclTheorems.
From S2P Require Import Pdu LoginText Io Timer Login LoginReq LoginSafety LoginReqSafety LoginDriver.
From S2P Require Import SessionSetup SessionTheorems StateM Initiator InitiatorInv InitiatorSafety.

Section Login.
Context `{AEnv : AuthEnv} {AEnvOk : AuthEnvOk AEnv} `{LEnv : LoginEnv}.

(** ** Frames of the login calls *)
Lemma auth_cfg_keep l l' :
  config_of l' = config_of l -> ((0 < num_auth_buffers l)%Z -> auth_cfg l) -> acl_ok (auth_client_of l') ->
  (0 < num_auth_buffers l')%Z -> auth_cfg l'.
Proof.
  intros E Ha Hok Hn. unfold config_of in E. injection E as _ _ _ _ _ _ _ E8 _ _ _ _ E13 E14 E15 _.
  destruct Ha as [A1 A2 A3 A4]; [lia |]. constructor; try congruence.
  unfold auth_client_of in Hok. by rewrite decide_True in Hok.
Qed.

(** What the login calls leave alone. *)
Record login_frame (s s' : daemon_session) : Prop := {
  lf_state : state s' = state s;
  lf_t : t s' = t s;
  lf_dangling : pool_dangling s' = pool_dangling s;
  lf_stage : r_stage s' = r_stage s;
  lf_ctx : ctx_qtask s' = ctx_qtask s;
  lf_timer : login_timer s' = login_timer s;
  lf_logout : logout_qtask s' = logout_qtask s;
  lf_notify : notify_qtask s' = notify_qtask s;
  lf_reopen : reopen_conn s' = reopen_conn s;
  lf_start : g_start s' = g_start s
}.

Lemma frame_live qs s s' : login_frame s s' -> ctx_live qs s -> ctx_live qs s'.
Proof. intros F (q & Hq & Hl). exists q. by rewrite (lf_ctx _ _ F). Qed.

Lemma frame_timer qs s s' : login_frame s s' -> timer_set qs s -> timer_set qs s'.
Proof.
  intros F (d & q & Ht & Hr). exists d, q. rewrite (lf_timer _ _ F). split; [done |].
  destruct q; [| done]. cbn in *. by rewrite (lf_reopen _ _ F).
Qed.

Definition evidence_of (s : daemon_session) : Prop := Exists (call_verified (g_start s)) (g_calls s).

(** A login is under way, and no request is outstanding on the wire. *)
Record exchange (qs : gmap nat bool) (s : daemon_session) : Prop := {
  ex_base : base qs s;
  ex_session : sess_inv (g_start s) (evidence_of s) (lg s);
  ex_ctx : ctx_ok (ctx_of s)
}.

Lemma base_login qs s s' :
  base qs s -> login_frame s s' -> Forall context_ok (pool s') -> ctx_ok (ctx_of s') -> data s' = buffer (ctx_of s') ->
  config_of (lg s') = config_of (lg s) -> acl_ok (auth_client_of (lg s')) -> base qs s'.
Proof.
  intros Hb F Hp [_ Hsz Hbuf _] Hd Hc Ha. apply (base_same qs s); try apply F; try done.
  - rewrite Hd. unfold ISCSI_DEF_MAX_RECV_SEG_LEN. lia.
  - by eapply config_ok_same; [| apply Hb].
  - eapply auth_cfg_keep; [exact Hc | apply Hb | exact Ha].
Qed.

Lemma login_req_ok w qs s :
  at_session w qs s -> exchange qs s ->
  wp login_req (fun rc w' => exists s', at_session w' qs s' /\ login_frame s s' /\ exchange qs s' /\
    (truth rc = false -> in_login s')) w.
Proof.
  intros Hw [Hb Hi Hc]. unfold login_req. mstep. eapply wp_session; [exact Hw |]. mstep. eapply wp_ask; [exact Hw |].
  intros w1 p a Hw1 Hg _. mstep.
  destruct (login_req_safe (g_start s) (evidence_of s) (lg s) (ctx_of s) (a_writes a) (a_rc a) Hi Hc)
    as ([[[rc l'] c'] out] & E & Hi' & Hcfg & Hc' & Hsent & _ & Hstage).
  eapply wp_opt; [exact E |]. unfold put_login. apply wp_then. eapply wp_set; [exact Hw1 |]. intros w2 Hw2. mstep.
  match type of Hw2 with at_session _ _ ?x => set (s2 := x) in * end. exists s2. split; [exact Hw2 |].
  assert (F : login_frame s s2) by (by constructor).
  assert (Ec : ctx_of s2 = c') by (by destruct c').
  split; [done |]. split.
  - constructor; [| exact Hi' | by rewrite Ec]. eapply base_login; try done.
    + apply Hg, Hb.
    + by rewrite Ec.
    + apply (good_ok _ _ _ _ (si_good _ _ _ Hi')).
  - intros Hrc. constructor; [exact Hi' | by apply Hstage | by rewrite Ec | by rewrite Ec].
Qed.

Lemma login_rsp_ok w qs s i pdu :
  at_session w qs s -> base qs s -> in_login s -> Forall is_byte pdu ->
  wp (login_rsp i pdu) (fun rc w' => exists s', at_session w' qs s' /\ login_frame s s' /\ exchange qs s') w.
Proof.
  intros Hw Hb [Hi Hst Hc Hsent] Hp. unfold login_rsp. mstep. eapply wp_session; [exact Hw |]. cbv zeta. mstep.
  set (net := [RBytes pdu]). assert (Hnet : net_bytes net) by (by apply Forall_singleton). clearbody net.
  destruct (login_rsp_safe (g_start s) (evidence_of s) (lg s) (ctx_of s) (mk_ipc 0 0) net Hi Hst Hc Hsent Hnet)
    as ([[[rc l'] c'] net'] & E & Hi' & Hcfg & Hc' & _).
  eapply wp_opt; [exact E |]. unfold put_login. apply wp_then. eapply wp_set; [exact Hw |]. intros w1 Hw1.
  mstep. eapply wp_set; [exact Hw1 |]. intros w2 Hw2. mstep. eapply wp_put; [exact Hw2 |]. intros w3 Hw3. mstep.
  match type of Hw3 with at_session _ _ ?x => set (s3 := x) in * end. exists s3. split; [exact Hw3 |].
  assert (F : login_frame s s3) by (by constructor).
  assert (Ec : ctx_of s3 = c') by (by destruct c').
  assert (Hi3 : sess_inv (g_start s3) (evidence_of s3) (lg s3)).
  { eapply sess_inv_mono; [| exact Hi']. unfold evidence_of. cbn. rewrite Exists_app, Exists_cons. tauto. }
  split; [done |]. constructor; [| exact Hi3 | by rewrite Ec]. eapply base_login; try done.
  - apply Forall_insert; [apply Hb | done].
  - by rewrite Ec.
  - apply (good_ok _ _ _ _ (si_good _ _ _ Hi3)).
Qed.

(** ** Logged in *)
Lemma wp_scan_host w qs s q (Q : unit -> world -> Prop) :
  at_session w qs s -> (forall q', q = Some q' -> live qs q') ->
  (forall w' p, at_session w' (answered qs q) (s <| pool := p |>) -> pool_grows (pool s) p -> Q tt w') ->
  wp (session_scan_host q) Q w.
Proof.
  intros Hw Hl HQ. unfold session_scan_host. mstep. eapply wp_ask; [exact Hw |]. intros w1 p a Hw1 Hg _.
  case_decide; (eapply wp_write_rsp; [exact Hw1 | exact Hl |]); intros w2 Hw2; by eapply HQ.
Qed.

(** The request of a login is answered: nothing else refers to it. *)
Lemma base_answered qs s q : base qs s -> notify_qtask s = None -> base (answered qs q) s.
Proof.
  intros [B1 B2 B3 B4 B5 B6 B7 B8] Hn. constructor; try done. intros q' Hq'. congruence.
Qed.

Lemma enter_full_feature_ok w qs s :
  at_session w qs s -> base qs s -> ctx_live qs s -> login_timer s = None -> logout_qtask s = None ->
  authenticated s -> wp enter_full_feature (fun _ w' => world_ok w') w.
Proof.
  intros Hw Hb (q & Eq & Hl) Ht Hlo Ha. unfold enter_full_feature. mstep. eapply wp_set; [exact Hw |]. intros w1 Hw1.
  mstep. eapply wp_session; [exact Hw1 |].
  match type of Hw1 with at_session _ _ ?x => set (s1 := x) in * end.
  assert (Hb1 : base qs s1) by (apply (base_same qs s); try done; apply Hb).
  assert (Hq : forall q', ctx_qtask s1 = Some q' -> live qs q') by (intros q' E; cbn in E; congruence).
  assert (Hfin : forall w' qs' s', at_session w' qs' s' -> base qs' s' -> notify_qtask s' = None ->
    login_timer s' = None -> logout_qtask s' = None -> authenticated s' -> state s' = ISCSI_CONN_STATE_LOGGED_IN ->
    wp (set_session (fun s => s <| reopen_cnt := 0%Z |> <| r_stage := R_STAGE_NO_CHANGE |>) ;;;
        let! s := the_session in
        mwhen (truth (userspace_nop s) && truth (noop_out_interval s))
          (set_session (fun s => s <| nop_out_timer := Some (noop_out_interval s, conn_send_nop_out_cb) |>)))
       (fun _ w' => world_ok w') w').
  { clear w w1 qs s s1 q Hw Hw1 Hb Hl Eq Ht Hlo Ha Hb1 Hq. intros w qs s Hw Hb Hn Ht Hlo Ha Hst.
    assert (Hend : forall w' s', at_session w' qs s' -> base qs s' -> notify_qtask s' = None ->
      login_timer s' = None -> logout_qtask s' = None -> authenticated s' -> state s' = ISCSI_CONN_STATE_LOGGED_IN -> world_ok w').
    { intros w' s' Hw' Hb' Hn' Ht' Hlo' Ha' Hst'. eapply at_world; [exact Hw' |]. apply up_ok. constructor; try done; [by left |].
      intros q E. congruence. }
    mstep. eapply wp_set; [exact Hw |]. intros w1 Hw1.
    assert (Hb1 : base qs (s <| reopen_cnt := 0%Z |> <| r_stage := R_STAGE_NO_CHANGE |>)).
    { destruct Hb as [B1 B2 B3 B4 B5 B6 B7 B8]. constructor; try done; [by left |]. intros q E. cbn in E. congruence. }
    mstep. eapply wp_session; [exact Hw1 |]. mstep; [| by eapply Hend].
    eapply wp_set; [exact Hw1 |]. intros w2 Hw2. eapply Hend; [exact Hw2 | | done..].
    eapply base_same; [exact Hb1 | try done; apply Hb1 ..]. }
  mstep. case_decide as Hstage.
  - assert (Hn : notify_qtask s1 = None).
    { destruct (notify_qtask s1) as [q' |] eqn:En; [| done]. destruct (b_notify _ _ Hb1 q' En) as [_ Er].
      destruct Hstage; congruence. }
    eapply wp_scan_host; [exact Hw1 | exact Hq |]. intros w2 p Hw2 Hg.
    eapply Hfin; [exact Hw2 | | done..]. apply base_answered; [by apply base_pool | done].
  - mstep. eapply wp_set; [exact Hw1 |]. intros w2 Hw2. mstep. eapply wp_ask; [exact Hw2 |]. intros w3 p a Hw3 Hg _.
    eapply wp_write_rsp; [exact Hw3 | exact Hq |]. intros w4 Hw4. eapply Hfin; [exact Hw4 | | done..].
    apply base_answered; [| done]. destruct Hb1 as [B1 B2 B3 B4 B5 B6 B7 B8]. constructor; try done. apply Hg, B3.
Qed.

Lemma login_eh_ctx_ok w qs s err :
  at_session w qs s -> base qs s -> ctx_live qs s -> logout_qtask s = None ->
  state s = ISCSI_CONN_STATE_XPT_WAIT \/ state s = ISCSI_CONN_STATE_IN_LOGIN ->
  wp (login_eh_ctx err) (fun _ w' => world_ok w') w.
Proof.
  intros Hw Hb (q & Eq & Hl) Hlo Hst. unfold login_eh_ctx. mstep. eapply wp_session; [exact Hw |]. mstep.
  eapply wp_opt; [exact Eq |]. by eapply login_eh_ok.
Qed.

(** The full feature phase is entered only with the evidence. *)
Lemma full_feature_authenticated s :
  sess_inv (g_start s) (evidence_of s) (lg s) -> current_stage (conn (lg s)) = ISCSI_FULL_FEATURE_PHASE ->
  authenticated s.
Proof. intros [_ _ Hst] Hf Hb Hn. destruct (Hst Hb Hn) as [E | [E | HV]]; [by rewrite Hf in E .. | exact HV]. Qed.

Lemma setup_full_feature_ok w qs s :
  at_session w qs s -> exchange qs s -> state s = ISCSI_CONN_STATE_IN_LOGIN -> ctx_live qs s ->
  logout_qtask s = None -> current_stage (conn (lg s)) = ISCSI_FULL_FEATURE_PHASE ->
  wp setup_full_feature_phase (fun _ w' => world_ok w') w.
Proof.
  intros Hw [Hb Hi Hc] Hst Hl Hlo Hff. unfold setup_full_feature_phase. mstep. eapply wp_set; [exact Hw |]. intros w1 Hw1.
  match type of Hw1 with at_session _ _ ?x => set (s1 := x) in * end.
  assert (Hb1 : base qs s1) by (apply (base_same qs s); try done; apply Hb).
  assert (Ha : authenticated s1) by exact (full_feature_authenticated s Hi Hff).
  mstep. unfold set_neg_params. mstep. eapply wp_session; [exact Hw1 |]. mstep. eapply wp_ask; [exact Hw1 |].
  intros w2 p a Hw2 Hg _. mstep.
  assert (Hb2 : base qs (s1 <| pool := p |>)) by (by apply base_pool).
  match goal with |- wp (if ?b then _ else _) _ _ => destruct b end; [eapply login_eh_ctx_ok; try done; by right |].
  mstep. unfold start_conn. mstep. eapply wp_ask; [exact Hw2 |]. intros w3 p3 a3 Hw3 Hg3 _.
  assert (Hb3 : base qs (s1 <| pool := p3 |>)) by exact (base_pool qs _ p3 Hb2 Hg3).
  apply wp_ret. destruct (truth (a_rc a3) || truth (a_out a3)).
  - eapply login_eh_ctx_ok; try done. by right.
  - by eapply enter_full_feature_ok.
Qed.

(** ** The exchange *)
Lemma login_continue_ok w qs s :
  at_session w qs s -> exchange qs s -> state s = ISCSI_CONN_STATE_IN_LOGIN -> ctx_live qs s -> timer_set qs s ->
  logout_qtask s = None -> wp login_continue (fun _ w' => world_ok w') w.
Proof.
  intros Hw He Hst Hl Ht Hlo. unfold login_continue. mstep. eapply wp_session; [exact Hw |].
  case_decide as Hff; [| eapply setup_full_feature_ok; try done; by destruct (decide (current_stage (conn (lg s)) = ISCSI_FULL_FEATURE_PHASE))].
  mstep. eapply wp_set; [exact Hw |]. intros w1 Hw1.
  assert (E1 : s <| state := ISCSI_CONN_STATE_IN_LOGIN |> = s) by (destruct s; cbn in Hst |- *; by rewrite <- Hst).
  rewrite E1 in Hw1. mstep. eapply wp_use; [by eapply login_req_ok |].
  intros rc w2 (s2 & Hw2 & F & He2 & Hin). pose proof (frame_live _ _ _ F Hl) as Hl2.
  pose proof (frame_timer _ _ _ F Ht) as Ht2. destruct F as [F1 _ _ _ _ _ F7 _ _ _].
  destruct (truth rc).
  - eapply login_eh_ctx_ok; [exact Hw2 | apply He2 | exact Hl2 | congruence | right; congruence].
  - mstep. eapply at_world; [exact Hw2 |]. split; [apply He2 |]. unfold state_ok. rewrite F1, Hst.
    split_and!; [done | done | by apply Hin | congruence].
Qed.

Lemma login_redirect_ok w qs s :
  at_session w qs s -> base qs s -> notify_qtask s = None \/ r_stage s <> R_STAGE_NO_CHANGE -> ctx_live qs s ->
  logout_qtask s = None -> wp iscsi_login_redirect (fun _ w' => world_ok w') w.
Proof.
  intros Hw Hb Hn (q & Eq & Hl) Hlo. unfold iscsi_login_redirect. mstep. eapply wp_session; [exact Hw |].
  assert (Hrest : forall w' s', at_session w' qs s' -> base qs s' -> logout_qtask s' = None ->
    wp (let! q := mopt (ctx_qtask s) in __session_conn_reopen q STOP_CONN_RECOVER true) (fun _ w' => world_ok w') w').
  { intros w' s' Hw' Hb' Hlo'. mstep. eapply wp_opt; [exact Eq |]. eapply wp_use; [by eapply __reopen_ok |].
    intros u w2. apply reopened_world. }
  mstep; [| by eapply Hrest]. eapply wp_set; [exact Hw |]. intros w1 Hw1. eapply Hrest; [exact Hw1 | | done].
  apply bool_decide_eq_true in H. destruct Hb as [B1 B2 B3 B4 B5 B6 B7 B8]. constructor; try done; [by right; right |].
  intros q' Eq'. destruct (B8 q' Eq') as [_ E]. congruence.
Qed.

Lemma wp_check_class w qs s class detail (Q : conn_login_status_e -> world -> Prop) :
  at_session w qs s -> (forall w' fb st, at_session w' qs (s <| failback_saddr := fb |>) -> Q st w') ->
  wp (__check_iscsi_status_class class detail) Q w.
Proof.
  intros Hw HQ. assert (Hsame : forall st, wp (mret' st) Q w).
  { intros st. mstep. apply (HQ w (failback_saddr s)). by destruct s. }
  unfold __check_iscsi_status_class. repeat (case_decide; [| try apply Hsame]); try apply Hsame.
  mstep. eapply wp_set; [exact Hw |]. intros w1 Hw1. mstep. by eapply HQ.
Qed.

Lemma recv_login_rsp_ok w qs s i pdu :
  at_session w qs s -> base qs s -> in_login s -> state s = ISCSI_CONN_STATE_IN_LOGIN -> ctx_live qs s ->
  timer_set qs s -> logout_qtask s = None -> Forall is_byte pdu ->
  wp (iscsi_recv_login_rsp i pdu) (fun _ w' => world_ok w') w.
Proof.
  intros Hw Hb Hin Hst Hl Ht Hlo Hp. unfold iscsi_recv_login_rsp. mstep. eapply wp_use; [by eapply login_rsp_ok |].
  intros rc w1 (s1 & Hw1 & F & He). pose proof (frame_live _ _ _ F Hl) as Hl1.
  pose proof (frame_timer _ _ _ F Ht) as Ht1. pose proof (lf_state _ _ F) as F1. pose proof (lf_logout _ _ F) as F7.
  rewrite Hst in F1. rewrite Hlo in F7. clear F w s Hw Hb Hin Hst Hl Ht Hlo.
  assert (Hbase : forall fb, base qs (s1 <| failback_saddr := fb |>)).
  { intros fb. apply (base_same qs s1); try done; apply He. }
  assert (Hcont : forall w' fb, at_session w' qs (s1 <| failback_saddr := fb |>) ->
    wp login_continue (fun _ w' => world_ok w') w').
  { intros w' fb Hw'. eapply login_continue_ok; [exact Hw' | | done..]. destruct He as [_ E2 E3]. by constructor. }
  assert (Heh : forall w' fb err, at_session w' qs (s1 <| failback_saddr := fb |>) ->
    wp (login_eh_ctx err) (fun _ w' => world_ok w') w').
  { intros w' fb err Hw'. eapply login_eh_ctx_ok; [exact Hw' | done.. | by right]. }
  assert (Hfailed : forall w' fb err, at_session w' qs (s1 <| failback_saddr := fb |>) ->
    wp (login_failed err) (fun _ w' => world_ok w') w').
  { intros w' fb err Hw'. unfold login_failed. mstep. eapply wp_set; [exact Hw' |]. intros w2 Hw2.
    eapply login_eh_ctx_ok; [exact Hw2 | | done.. | by right].
    apply (base_same qs (s1 <| failback_saddr := fb |>)); try done; apply Hbase. }
  assert (Hredir : forall w' fb, at_session w' qs (s1 <| failback_saddr := fb |>) ->
    wp iscsi_login_redirect (fun _ w' => world_ok w') w').
  { intros w' fb Hw'. eapply login_redirect_ok; [exact Hw' | done | | done..].
    destruct (notify_qtask s1) as [q |] eqn:En; [right | by left].
    destruct (b_notify _ _ (Hbase fb) q En) as [_ Hr]. by rewrite Hr. }
  assert (Hw1' : at_session w1 qs (s1 <| failback_saddr := failback_saddr s1 |>)) by (by destruct s1).
  destruct (truth rc); [| by eapply Hcont].
  mstep. eapply wp_session; [exact Hw1 |].
  destruct (__login_response_status (ret (login_ctx s1))); eauto;
    (mstep; eapply wp_check_class; [exact Hw1 |]; intros w2 fb st Hw2; destruct st; eauto).
Qed.
End Login.
