(* ===== verification/InitiatorEvents.v ===== *)
(** * The daemon: received PDUs, polls and requests keep the invariant *)
From Stdlib Require Import ZArith Lia.
From stdpp Require Import base tactics numbers list option gmap.
From S2P Require Import Prelude CString AuthText Acl AclFrame AclSafety AclProtocol AclTheorems.
From S2P Require Import Pdu LoginText Io Timer Login LoginReq LoginSafety LoginReqSafety LoginDriver.
From S2P Require Import SessionSetup SessionTheorems StateM Initiator InitiatorInv InitiatorSafety InitiatorLogin.

Section Events.
Context `{AEnv : AuthEnv} {AEnvOk : AuthEnvOk AEnv} `{LEnv : LoginEnv}.

(** ** Logging out *)
Lemma send_logout_ok w qs s :
  at_session w qs s -> sess_ok qs s ->
  wp iscsi_send_logout (fun rc w' => exists s', at_session w' qs s' /\ sess_ok qs s' /\ logout_qtask s' = logout_qtask s) w.
Proof.
  intros Hw Hs. unfold iscsi_send_logout. mstep. eapply wp_session; [exact Hw |].
  case_decide as Hst; [mstep; by exists s |].
  assert (Hup : up qs s).
  { apply ok_up; [done |]. left. by destruct (decide (state s = ISCSI_CONN_STATE_LOGGED_IN)). }
  mstep. eapply wp_send_pdu; [exact Hw | by apply hdr_ok_of | done |]. intros w1 p ok Hw1 Hg.
  assert (Hup1 : up qs (s <| pool := p |>)) by (by apply up_pool).
  destruct ok; cbn [negb]; [| mstep; eexists; split; [exact Hw1 |]; split; [by apply up_ok | done]].
  mstep. eapply wp_set; [exact Hw1 |]. intros w2 Hw2.
  match type of Hw2 with at_session _ _ ?x => set (s2 := x) in * end.
  assert (Hup2 : up qs s2).
  { destruct Hup1 as [U1 U2 U3 U4 U5 U6]. constructor; try done; [| by right].
    apply (base_same qs (s <| pool := p |>)); try done; apply U1. }
  mstep. eapply wp_get_context; [exact Hw2 | |].
  - intros w3 Hw3. mstep. exists s2. split; [done |]. split; [by apply up_ok | done].
  - intros w3 i Hi Hw3. mstep. eapply wp_set; [exact Hw3 |]. intros w4 Hw4. mstep. eexists. split; [exact Hw4 |].
    split; [| done]. apply up_ok. destruct Hup2 as [U1 U2 U3 U4 U5 U6]. constructor; try done.
    apply (base_same qs s2); try done; [| apply U1..]. by apply Forall_insert; [apply Forall_insert; [apply U1 |] |].
Qed.

Lemma sess_ok_logout qs s q : sess_ok qs s -> logout_qtask s = Some q -> live qs q.
Proof. intros [_ Hs] E. unfold state_ok in Hs. rewrite E in Hs. destruct (state s); naive_solver. Qed.

Lemma stop_ok w qs s i :
  at_session w qs s -> sess_ok qs s -> wp (iscsi_stop i) (fun _ w' => world_ok w') w.
Proof.
  intros Hw Hs. unfold iscsi_stop. mstep. eapply wp_put; [exact Hw |]. intros w1 Hw1.
  match type of Hw1 with at_session _ _ ?x => set (s1 := x) in * end.
  assert (Hs1 : sess_ok qs s1) by (by apply sess_ok_put). clearbody s1. clear w s Hw Hs.
  mstep. eapply wp_session; [exact Hw1 |].
  assert (Hdrop : forall w' s', at_session w' qs s' -> sess_ok qs s' ->
    wp (let! s := the_session in drop_session (logout_qtask s) ISCSI_SUCCESS) (fun _ w' => world_ok w') w').
  { intros w' s' Hw' Hs'. mstep. eapply wp_session; [exact Hw' |].
    eapply drop_session_ok; [exact Hw' | apply Hs' |]. intros q Eq. by eapply sess_ok_logout. }
  rewrite (b_soft _ _ (proj1 Hs1)). mstep. mstep. eapply wp_use; [by eapply send_logout_ok |].
  intros rc w2 (s2 & Hw2 & Hs2 & _). mstep. destruct (bool_decide (rc = 0%Z)); [mstep; by eapply at_world | by eapply Hdrop].
Qed.

Lemma logout_timedout_ok w qs s i :
  at_session w qs s -> sess_ok qs s -> wp (iscsi_logout_timedout i) (fun _ w' => world_ok w') w.
Proof.
  intros Hw Hs. unfold iscsi_logout_timedout. mstep. eapply wp_put; [exact Hw |]. intros w1 Hw1.
  eapply conn_error_ok; [exact Hw1 | by apply sess_ok_put].
Qed.

(** ** Received PDUs *)

(** Fields that the invariant of an established session does not look at. *)
Lemma up_change qs s s' :
  up qs s -> base qs s' -> state s' = state s -> login_timer s' = None -> notify_qtask s' = notify_qtask s ->
  bidirectional_auth (lg s') = bidirectional_auth (lg s) -> num_auth_buffers (lg s') = num_auth_buffers (lg s) ->
  g_start s' = g_start s -> g_calls s' = g_calls s -> logout_qtask s' = logout_qtask s -> sess_ok qs s'.
Proof.
  intros [U1 U2 U3 U4 U5 U6] Hb E1 E2 E3 E4 E5 E6 E7 E8. apply up_ok. constructor; try done.
  - unfold is_up. by rewrite E1.
  - by rewrite E3.
  - unfold authenticated. by rewrite E4, E5, E6, E7.
  - intros q. rewrite E8. apply U6.
Qed.

Lemma nop_in_ok w qs s hdr :
  at_session w qs s -> up qs s -> length hdr = HDR_LEN -> Forall is_byte hdr ->
  (ntoh24 hdr <= ISCSI_DEF_MAX_RECV_SEG_LEN)%Z -> wp (iscsi_recv_nop_in hdr) (fun _ w' => world_ok w') w.
Proof.
  intros Hw Hu Hl Hb Hn. unfold iscsi_recv_nop_in. mstep. eapply wp_session; [exact Hw |].
  destruct (truth (userspace_nop s)); cbn [negb]; [| mstep; eapply at_world; [exact Hw | by apply up_ok]].
  case_decide.
  - eapply wp_set; [exact Hw |]. intros w1 Hw1. eapply at_world; [exact Hw1 |].
    eapply up_change; [exact Hu | | try done; apply Hu ..]. apply (base_same qs s); try done; apply Hu.
  - mstep. unfold __send_nopin_rsp. mstep. eapply wp_session; [exact Hw |].
    destruct (nopin_rsp_ok hdr Hl Hb) as [Hok E]. eapply wp_send_pdu; [exact Hw | exact Hok | |].
    + rewrite E. pose proof (b_data _ _ (up_base _ _ Hu)). lia.
    + intros w1 p ok Hw1 Hg. mstep. eapply at_world; [exact Hw1 |]. by apply up_ok, up_pool.
Qed.

Lemma wp_time2wait w qs s v (Q : unit -> world -> Prop) :
  at_session w qs s -> up qs s -> (forall w' s', at_session w' qs s' -> sess_ok qs s' -> Q tt w') ->
  wp (set_time2wait v) Q w.
Proof.
  intros Hw Hu HQ. unfold set_time2wait. eapply wp_set; [exact Hw |]. intros w1 Hw1. eapply HQ; [exact Hw1 |].
  eapply up_change; [exact Hu | | try done; apply Hu ..].
  pose proof (up_base _ _ Hu) as Hb. apply (base_same qs s); try done; try apply Hb.
  - by eapply config_ok_same; [| apply Hb].
  - intros Hn. destruct (b_auth _ _ Hb Hn). by constructor.
Qed.

Lemma logout_rsp_ok w qs s hdr :
  at_session w qs s -> up qs s -> wp (iscsi_recv_logout_rsp hdr) (fun _ w' => world_ok w') w.
Proof.
  intros Hw Hu. unfold iscsi_recv_logout_rsp. mstep; [| eapply conn_error_ok; [exact Hw | by apply up_ok]].
  eapply wp_time2wait; [exact Hw | exact Hu |]. intros w1 s1 Hw1 Hs1. by eapply conn_error_ok.
Qed.

Lemma sense_byte_Some buf n i : i < length buf -> is_Some (sense_byte buf n i).
Proof. intros Hi. unfold sense_byte. case_decide; [by apply lookup_lt_is_Some_2 | eauto]. Qed.

Lemma normalize_sense_Some buf n : 14 <= length buf -> is_Some (scsi_normalize_sense buf n).
Proof.
  intros Hl. unfold scsi_normalize_sense. case_decide; [eauto |].
  destruct (lookup_lt_is_Some_2 buf 0 ltac:(lia)) as [b0 ->]. rewrite bind_ret. cbv zeta.
  case_decide; [eauto |]. case_decide.
  - destruct (sense_byte_Some buf n 1 ltac:(lia)) as [? ->], (sense_byte_Some buf n 2 ltac:(lia)) as [? ->],
      (sense_byte_Some buf n 3 ltac:(lia)) as [? ->], (sense_byte_Some buf n 7 ltac:(lia)) as [? ->]. cbn. eauto.
  - destruct (sense_byte_Some buf n 2 ltac:(lia)) as [? ->]. rewrite bind_ret. case_decide; [| eauto].
    destruct (lookup_lt_is_Some_2 buf 7 ltac:(lia)) as [b7 ->]. rewrite bind_ret. cbv zeta.
    match goal with |- context [sense_byte buf ?m 12] =>
      destruct (sense_byte_Some buf m 12 ltac:(lia)) as [? ->], (sense_byte_Some buf m 13 ltac:(lia)) as [? ->] end.
    cbn. eauto.
Qed.

Lemma sense_length_Some buf : 2 <= length buf -> is_Some (sense_length buf).
Proof.
  intros Hl. unfold sense_length. destruct (lookup_lt_is_Some_2 buf 0 ltac:(lia)) as [? ->],
    (lookup_lt_is_Some_2 buf 1 ltac:(lia)) as [? ->]. cbn. eauto.
Qed.

Lemma async_scsi_ok w qs s :
  at_session w qs s -> up qs s -> wp async_scsi_event (fun _ w' => world_ok w') w.
Proof.
  intros Hw Hu. unfold async_scsi_event. mstep. eapply wp_session; [exact Hw |].
  assert (Hlen : 16 <= length (data s)).
  { pose proof (b_data _ _ (up_base _ _ Hu)) as Hd. unfold ISCSI_DEF_MAX_RECV_SEG_LEN in Hd. lia. }
  destruct (sense_length_Some (data s)) as [n En]; [lia |].
  destruct (normalize_sense_Some (drop 2 (data s)) n) as [o Eo]; [rewrite length_drop; lia |].
  mstep. eapply wp_opt; [exact En |]. mstep. eapply wp_opt; [exact Eo |].
  assert (Hstay : forall w' p, at_session w' qs (s <| pool := p |>) -> pool_grows (pool s) p -> world_ok w').
  { intros w' p Hw' Hg. eapply at_world; [exact Hw' |]. by apply up_ok, up_pool. }
  destruct o as [sshdr |]; [| mstep; eapply at_world; [exact Hw | by apply up_ok]].
  case_decide; [| mstep; eapply at_world; [exact Hw | by apply up_ok]].
  mstep. eapply wp_ask; [exact Hw |]. intros w1 p a Hw1 Hg _. mstep; [| by eapply Hstay].
  eapply wp_scan_host; [exact Hw1 | done |]. intros w2 p2 Hw2 Hg2. eapply (Hstay w2 p2); [exact Hw2 |].
  etrans; [exact Hg | exact Hg2].
Qed.

Lemma async_msg_ok w qs s hdr :
  at_session w qs s -> up qs s -> wp (iscsi_recv_async_msg hdr) (fun _ w' => world_ok w') w.
Proof.
  intros Hw Hu. pose proof (up_ok _ _ Hu) as Hs. unfold iscsi_recv_async_msg. cbv zeta.
  case_decide; [by eapply async_scsi_ok |]. case_decide.
  { mstep. eapply wp_use; [by eapply send_logout_ok |]. intros rc w1 (s1 & Hw1 & Hs1 & _). mstep. by eapply at_world. }
  case_decide; [eapply wp_time2wait; [exact Hw | exact Hu |]; intros; by eapply at_world |].
  case_decide; [by eapply conn_error_ok |]. mstep. by eapply at_world.
Qed.

Lemma wp_recv_pdu w qs s i pdu (Q : bool * list Z -> world -> Prop) :
  at_session w qs s -> up qs s -> Forall is_byte pdu ->
  (forall w' s' ok hdr, at_session w' qs s' -> up qs s' ->
     (ok = true -> length hdr = HDR_LEN /\ Forall is_byte hdr /\ (ntoh24 hdr <= ISCSI_DEF_MAX_RECV_SEG_LEN)%Z) ->
     Q (ok, hdr) w') ->
  wp (recv_pdu i pdu) Q w.
Proof.
  intros Hw Hu Hp HQ. unfold recv_pdu. mstep. eapply wp_session; [exact Hw |]. mstep.
  pose proof (b_data _ _ (up_base _ _ Hu)) as Hd.
  destruct (recv_pdu_safe (use_ipc (lg s)) (mk_ipc 0 0) zero_hdr (data s) (Z.to_nat ISCSI_DEF_MAX_RECV_SEG_LEN) [RBytes pdu])
    as (st & hdr & d & net & E & Hh & Hdl & _ & Hrcv); [done | unfold ISCSI_DEF_MAX_RECV_SEG_LEN in *; lia | by apply Forall_singleton |].
  rewrite Z2Nat.id in E by done. eapply wp_opt; [exact E |]. apply wp_then. eapply wp_set; [exact Hw |]. intros w1 Hw1.
  mstep. eapply wp_put; [exact Hw1 |]. intros w2 Hw2. mstep. eapply HQ; [exact Hw2 | |].
  - destruct Hu as [U1 U2 U3 U4 U5 U6]. constructor; try done. apply (base_same qs s); try done.
    + apply Forall_insert; [apply U1 | done].
    + change (ISCSI_DEF_MAX_RECV_SEG_LEN <= Z.of_nat (length d))%Z. by rewrite Hdl.
    + apply U1.
    + apply U1.
  - destruct st as [| | n]; [done | done |]. intros _. destruct (Hrcv n eq_refl) as [R1 R2 R3 _ _]. split_and!; [done | done |].
    pose proof (ntoh24_range hdr R2). unfold ISCSI_DEF_MAX_RECV_SEG_LEN in *. lia.
Qed.

Lemma recv_pdu_event_ok w qs s i pdu :
  at_session w qs s -> sess_ok qs s -> Forall is_byte pdu ->
  wp (session_conn_recv_pdu i pdu) (fun _ w' => world_ok w') w.
Proof.
  intros Hw Hok Hp. destruct (Hok) as [Hb Hs]. unfold session_conn_recv_pdu. mstep. eapply wp_session; [exact Hw |].
  assert (Hput : wp (iscsi_ev_context_put i) (fun _ w' => world_ok w') w).
  { eapply wp_put; [exact Hw |]. intros w1 Hw1. eapply at_world; [exact Hw1 | by apply sess_ok_put]. }
  assert (Hrecv : up qs s -> wp (let! (ok, hdr) := recv_pdu i pdu in
      if negb ok then mret' tt
      else
        let opcode := Z.land (hdr8 hdr OFF_opcode) ISCSI_OPCODE_MASK in
        if decide (opcode = ISCSI_OP_NOOP_IN) then iscsi_recv_nop_in hdr
        else if decide (opcode = ISCSI_OP_LOGOUT_RSP) then iscsi_recv_logout_rsp hdr
        else if decide (opcode = ISCSI_OP_ASYNC_EVENT) then iscsi_recv_async_msg hdr
        else mret' tt) (fun _ w' => world_ok w') w).
  { intros Hu. mstep. eapply wp_recv_pdu; [exact Hw | exact Hu | exact Hp |]. intros w1 s1 ok hdr Hw1 Hu1 Hok1.
    destruct ok; cbn [negb]; [| mstep; eapply at_world; [exact Hw1 | by apply up_ok]].
    destruct (Hok1 eq_refl) as (H1 & H2 & H3). cbv zeta.
    case_decide; [by eapply nop_in_ok |]. case_decide; [by eapply logout_rsp_ok |].
    case_decide; [by eapply async_msg_ok |]. mstep. eapply at_world; [exact Hw1 | by apply up_ok]. }
  destruct (state s) eqn:Es; try exact Hput; unfold state_ok in Hs; rewrite Es in Hs; try done;
    try (apply Hrecv, ok_up; [done | unfold is_up; rewrite Es; auto]).
  destruct Hs as (H1 & H2 & H3 & H4). by eapply recv_login_rsp_ok.
Qed.
End Events.
