(* ===== verification/InitiatorTasks.v ===== *)
(** * The daemon: polls and management requests keep the invariant *)
From Stdlib Require Import ZArith Lia.
From stdpp Require Import base tactics numbers list option gmap.
From S2P Require Import Prelude CString AuthText Acl AclFrame AclSafety AclProtocol AclTheorems.
From S2P Require Import Pdu LoginText Io Timer Login LoginReq LoginSafety LoginReqSafety LoginDriver.
From S2P Require Import SessionSetup SessionTheorems StateM Initiator InitiatorInv InitiatorSafety InitiatorLogin InitiatorEvents.

Section Tasks.
Context `{AEnv : AuthEnv} {AEnvOk : AuthEnvOk AEnv} `{LEnv : LoginEnv}.

(** ** The operational parameters *)

(** The names and credentials of a session. *)
Definition cred_of (l : iscsi_session) :=
  (initiator_name l, initiator_alias l, target_name l, session_in l, num_auth_buffers l, isid l,
   (s_username l, s_password l, s_password_length l, auth_client_block l)).

Lemma cred_config l l' : cred_of l' = cred_of l -> config_ok l -> config_ok l'.
Proof.
  unfold cred_of. intros E [C1 C2 C3 C4 C5]. injection E as E1 E2 E3 E4 E5 E6 _ _ _ _.
  constructor; [congruence | intros x; rewrite E1; apply C2 | intros x; rewrite E2; apply C3 | by rewrite E3 | by rewrite E4].
Qed.

Lemma cred_auth l l' :
  cred_of l' = cred_of l -> ((0 < num_auth_buffers l)%Z -> auth_cfg l) -> (0 < num_auth_buffers l')%Z -> auth_cfg l'.
Proof.
  unfold cred_of. intros E Ha Hn. injection E as _ _ _ _ E5 _ E7 E8 E9 E10.
  destruct Ha as [A1 A2 A3 A4]; [lia |]. constructor; by rewrite ?E7, ?E8, ?E9, ?E10.
Qed.

Lemma copy_operational_cred caps d l sc cc : cred_of (iscsi_copy_operational_params caps d l sc cc).1.1.1 = cred_of l.
Proof.
  unfold iscsi_copy_operational_params. destruct (copy_conn_params (conn l) cc) as [c cc'], (copy_session_params (params l) sc) as [p sc'].
  assert (E : cred_of (copy_discovery caps (l <| conn := c |> <| params := p |>)) = cred_of l).
  { unfold copy_discovery. by case_decide. }
  destruct d as [d |]; [| exact E].
  destruct (run_create_conn d _ _) as [l' e] eqn:Er. cbn [fst]. transitivity (cred_of (copy_discovery caps (l <| conn := c |> <| params := p |>))); [| exact E].
  clear E. destruct d; cbn in Er; injection Er as <- <-; reflexivity.
Qed.

Lemma waiting_copy qs s :
  waiting qs s -> waiting qs (set_isid (copy_operational s)) /\
  (forall q, ready qs s q -> ready qs (set_isid (copy_operational s)) q) /\
  (timer_set qs s -> timer_set qs (set_isid (copy_operational s))).
Proof.
  intros [H1 H2 H3 H4]. unfold copy_operational.
  pose proof (copy_operational_cred (t_caps (t s)) (t_driver (t s)) (lg s) (n_session (nrec s)) (n_conn (nrec s))) as E.
  destruct (iscsi_copy_operational_params _ _ _ _ _) as [[[l e] sc] cc]. cbn [fst] in E.
  split; [| split; [by intros [| n] |]].
  - constructor; try done. apply (base_same qs s); try done; try apply H1.
    + eapply cred_config in E; [| apply H1]. destruct E as [C1 C2 C3 C4 C5]. constructor; try done.
      change (length (take 3 (isid l) ++ [Z.land (Z.shiftr (id s) 16) 255; Z.land (Z.shiftr (id s) 8) 255; Z.land (id s) 255]%Z) = 6).
      rewrite length_app, length_take, C1. done.
    + intros Hn. destruct (cred_auth _ _ E (b_auth _ _ H1) Hn). by constructor.
  - intros (d & [| n] & Ht & Hr); by eexists _, _.
Qed.

(** ** The connection is established *)

(** Waiting for the transport with a request in hand. *)
Record connecting (qs : gmap nat bool) (s : daemon_session) (q : queue_task) : Prop := {
  cn_waiting : waiting qs s;
  cn_timer : timer_set qs s;
  cn_ready : ready qs s q
}.

Lemma connecting_pool qs s q p : connecting qs s q -> pool_grows (pool s) p -> connecting qs (s <| pool := p |>) q.
Proof. intros [H1 H2 H3] Hg. constructor; [by apply waiting_pool | done | done]. Qed.

Lemma connecting_ok qs s q : connecting qs s q -> sess_ok qs s.
Proof. intros [H1 H2 H3]. by apply waiting_ok. Qed.

Lemma connecting_eh w qs s q err :
  at_session w qs s -> connecting qs s q -> wp (iscsi_login_eh q err) (fun _ w' => world_ok w') w.
Proof.
  intros Hw [[H1 H2 H3 H4] _ Hr]. eapply login_eh_ok; [exact Hw | done | by eapply ready_live | done | by left].
Qed.

Lemma connecting_drop w qs s q err :
  at_session w qs s -> connecting qs s q -> wp (drop_session (Some q) err) (fun _ w' => world_ok w') w.
Proof.
  intros Hw [[H1 _ _ _] _ Hr]. eapply drop_session_ok; [exact Hw | apply H1 |]. intros q' [= <-]. by eapply ready_live.
Qed.

Lemma wp_set_params w qs s q (Q : Z -> world -> Prop) :
  at_session w qs s -> connecting qs s q ->
  (forall w' s' rc, at_session w' qs s' -> connecting qs s' q -> ctx_qtask s' = ctx_qtask s ->
     login_ctx s' = login_ctx s -> Q rc w') ->
  wp set_params Q w.
Proof.
  intros Hw Hs HQ. unfold set_params. mstep. eapply wp_session; [exact Hw |]. mstep. eapply wp_ask; [exact Hw |].
  intros w1 p1 a1 Hw1 Hg1 _. mstep. eapply wp_ask; [exact Hw1 |]. intros w2 p2 a2 Hw2 Hg2 _.
  assert (Hs2 : connecting qs (s <| pool := p2 |>) q) by (apply connecting_pool; [done |]; etrans; [exact Hg1 | exact Hg2]).
  destruct (iscsi_session_set_params _ _ _ _ _ _) as [[rc calls] nops]. mstep; [| mstep; by eapply HQ].
  eapply wp_set; [exact Hw2 |]. intros w3 Hw3. mstep. eapply HQ; [exact Hw3 | | done | done].
  destruct Hs2 as [[W1 W2 W3 W4] T R]. constructor; [| done | done]. constructor; try done.
  apply (base_same qs (s <| pool := p2 |>)); try done; apply W1.
Qed.

Lemma login_begin_ok w qs s q :
  at_session w qs s -> connecting qs s q -> ctx_qtask s = Some q ->
  login_ctx s = zero_ctx <| bufsize := ISCSI_DEF_MAX_RECV_SEG_LEN |> ->
  wp login_begin (fun rc w' => exists s', at_session w' qs s' /\ connecting qs s' q /\ ctx_qtask s' = Some q /\
    (truth rc = false -> exchange qs s')) w.
Proof.
  intros Hw Hs Hq Hc. destruct (Hs) as [[Hb Hst Hpl Hlo] Ht Hr]. unfold login_begin. mstep. eapply wp_session; [exact Hw |]. mstep.
  destruct (login_begin_safe (lg s) (ctx_of s) (b_config _ _ Hb) (b_auth _ _ Hb))
    as ([[rc l'] c'] & E & Hcfg & Hi & _ & Hblk & Ep & Es & Ebuf & Hnc).
  eapply wp_opt; [exact E |]. unfold put_login. apply wp_then. eapply wp_set; [exact Hw |]. intros w1 Hw1.
  mstep. eapply wp_set; [exact Hw1 |]. intros w2 Hw2. mstep.
  match type of Hw2 with at_session _ _ ?x => set (s2 := x) in * end. exists s2. split; [exact Hw2 |].
  assert (Ed : data s2 = data s) by exact Ebuf.
  assert (Hb2 : base qs s2).
  { apply (base_same qs s); try done; [apply Hb | rewrite Ed; apply Hb | |].
    - by eapply config_ok_same; [exact Hcfg | apply Hb].
    - intros Hn. change (0 < num_auth_buffers l')%Z in Hn. change (auth_cfg l').
      unfold config_of in Hcfg. injection Hcfg as _ _ _ _ _ _ _ E8 _ _ _ _ E13 E14 E15 _. rewrite E8 in Hn.
      destruct (b_auth _ _ Hb Hn) as [A1 A2 A3 A4]. constructor; [congruence.. | by apply Hblk]. }
  split; [by constructor; [constructor | |] |]. split; [exact Hq |]. intros Hrc. constructor; [exact Hb2 | |].
  - eapply sess_inv_mono; [| by apply Hi]. done.
  - assert (Ec : ctx_of s2 = c') by (by destruct c'). rewrite Ec.
    constructor; [by rewrite Ep; unfold ctx_of; rewrite Hc | rewrite Es; unfold ctx_of; rewrite Hc; cbn; unfold ISCSI_DEF_MAX_RECV_SEG_LEN; lia | | done].
    rewrite Es, Ebuf. unfold ctx_of. rewrite Hc. apply Hb.
Qed.

Lemma poll_start_login_ok w qs s q :
  at_session w qs s -> connecting qs s q -> ctx_qtask s = Some q ->
  login_ctx s = zero_ctx <| bufsize := ISCSI_DEF_MAX_RECV_SEG_LEN |> ->
  wp (poll_start_login q) (fun _ w' => world_ok w') w.
Proof.
  intros Hw Hs Hq Hc. unfold poll_start_login. mstep. eapply wp_set_params; [exact Hw | exact Hs |].
  intros w1 s1 rc1 Hw1 Hs1 Eq1 Ec1. destruct (truth rc1); [by eapply connecting_eh |].
  mstep. unfold host_set_params. mstep. eapply wp_session; [exact Hw1 |]. mstep. eapply wp_ask; [exact Hw1 |].
  intros w2 p2 a2 Hw2 Hg2 _. mstep. pose proof (connecting_pool _ _ _ _ Hs1 Hg2) as Hs2.
  match goal with |- wp (if ?b then _ else _) _ _ => destruct b end; [by eapply connecting_eh |].
  mstep. eapply wp_use; [eapply login_begin_ok; [exact Hw2 | exact Hs2 | by rewrite <- Hq | by rewrite <- Hc] |].
  intros rc3 w3 (s3 & Hw3 & Hs3 & Eq3 & Hex). destruct (truth rc3); [by eapply connecting_eh |].
  specialize (Hex eq_refl). mstep. eapply wp_set; [exact Hw3 |]. intros w4 Hw4.
  match type of Hw4 with at_session _ _ ?x => set (s4 := x) in * end.
  assert (Hex4 : exchange qs s4).
  { destruct Hex as [X1 X2 X3]. constructor; [| done | done]. apply (base_same qs s3); try done; apply X1. }
  destruct Hs3 as [[W1 W2 W3 W4] (d & qt & Et & Hrt) R].
  mstep. eapply wp_use; [by eapply login_req_ok |]. intros rc5 w5 (s5 & Hw5 & F & Hex5 & Hin).
  destruct F as [F1 F2 F3 F4 F5 F6 F7 F8 F9 F10].
  assert (Hready : forall x, ready qs s3 x -> ready qs s5 x).
  { intros [| n] Hx; [| done]. cbn in *. by rewrite F9. }
  destruct (truth rc5).
  - eapply login_eh_ok; [exact Hw5 | apply Hex5 | by eapply ready_live, R | by rewrite F7 | right; by rewrite F1].
  - mstep. eapply at_world; [exact Hw5 |]. split; [apply Hex5 |]. unfold state_ok. rewrite F1. cbn.
    split_and!; [exists d, qt; rewrite F6; auto | exists q; rewrite F5; split; [done |]; by eapply ready_live | by apply Hin | by rewrite F7].
Qed.

Lemma poll_bind_ok w qs s q :
  at_session w qs s -> connecting qs s q -> login_ctx s = zero_ctx ->
  wp (poll_bind q) (fun _ w' => world_ok w') w.
Proof.
  intros Hw [Hwt Ht Hr] Hc. unfold poll_bind. mstep. eapply wp_set; [exact Hw |]. intros w1 Hw1.
  destruct (waiting_copy qs s Hwt) as (Hwt1 & Hr1 & Ht1). set (s1 := set_isid (copy_operational s)) in *.
  assert (Hs1 : connecting qs s1 q) by (constructor; auto).
  assert (Hc1 : login_ctx s1 = zero_ctx).
  { subst s1. unfold copy_operational. by destruct (iscsi_copy_operational_params _ _ _ _ _) as [[[l e] sc] cc]. }
  clearbody s1. mstep. eapply wp_ask; [exact Hw1 |]. intros w2 p2 a2 Hw2 Hg2 _.
  pose proof (connecting_pool _ _ _ _ Hs1 Hg2) as Hs2.
  destruct (truth (a_rc a2) || truth (a_out a2)); [by eapply connecting_eh |].
  mstep. eapply wp_set; [exact Hw2 |]. intros w3 Hw3. mstep. eapply wp_ask; [exact Hw3 |]. intros w4 p4 a4 Hw4 Hg4 _.
  mstep. eapply wp_set; [exact Hw4 |]. intros w5 Hw5.
  match type of Hw5 with at_session _ _ ?x => set (s5 := x) in * end.
  assert (Hs5 : connecting qs s5 q).
  { destruct Hs2 as [[W1 W2 W3 W4] T R]. constructor; [| done | done]. constructor; try done.
    - apply (base_same qs (s1 <| pool := p2 |>)); try done; try apply W1.
      + apply Hg4, W1.
      + by eapply config_ok_same; [| apply W1].
      + intros Hn. destruct (b_auth _ _ W1 Hn). by constructor.
    - intros i q' Hi. apply (W3 i q'). by apply Hg4. }
  mstep. eapply wp_session; [exact Hw5 |]. rewrite (b_soft _ _ (wt_base _ _ (cn_waiting _ _ _ Hs5))).
  eapply poll_start_login_ok; [exact Hw5 | exact Hs5 | done |].
  change (login_ctx s5) with ((login_ctx s1) <| bufsize := ISCSI_DEF_MAX_RECV_SEG_LEN |>). by rewrite Hc1.
Qed.

Lemma poll_connected_ok w qs s q :
  at_session w qs s -> connecting qs s q -> wp (poll_connected q) (fun _ w' => world_ok w') w.
Proof.
  intros Hw Hs. unfold poll_connected. mstep. eapply wp_set; [exact Hw |]. intros w1 Hw1.
  match type of Hw1 with at_session _ _ ?x => set (s1 := x) in * end.
  assert (Hs1 : connecting qs s1 q).
  { destruct Hs as [[W1 W2 W3 W4] T R]. constructor; [| done | done]. constructor; try done.
    apply (base_same qs s); try done; apply W1. }
  assert (Hc1 : login_ctx s1 = zero_ctx) by done. clearbody s1.
  mstep. eapply wp_session; [exact Hw1 |]. case_decide; [| by eapply poll_bind_ok].
  mstep. unfold session_ipc_create. mstep. eapply wp_session; [exact Hw1 |]. cbv zeta. mstep.
  assert (Hrest : forall w' s' a, at_session w' qs s' -> connecting qs s' q -> login_ctx s' = zero_ctx ->
    wp (mwhen (bool_decide (a_rc a = 0%Z)) (set_session (fun s => s <| id := u32 (a_out a) |>)) ;;; mret' (a_rc a))
       (fun rc w' => wp (if truth rc then drop_session (Some q) ISCSI_ERR_INTERNAL
          else let! a := ask X_create_conn in
            if truth (a_rc a) then drop_session (Some q) ISCSI_ERR_INTERNAL else poll_bind q) (fun _ w' => world_ok w') w') w').
  { intros w' s' a Hw' Hs' Hc'.
    assert (Hend : forall w' s', at_session w' qs s' -> connecting qs s' q -> login_ctx s' = zero_ctx ->
      wp (if truth (a_rc a) then drop_session (Some q) ISCSI_ERR_INTERNAL
          else let! a := ask X_create_conn in
            if truth (a_rc a) then drop_session (Some q) ISCSI_ERR_INTERNAL else poll_bind q) (fun _ w' => world_ok w') w').
    { intros w2 s2 Hw2 Hs2 Hc2. destruct (truth (a_rc a)); [by eapply connecting_drop |].
      mstep. eapply wp_ask; [exact Hw2 |]. intros w3 p3 a3 Hw3 Hg3 _. pose proof (connecting_pool _ _ _ _ Hs2 Hg3) as Hs3.
      destruct (truth (a_rc a3)); [by eapply connecting_drop | by eapply poll_bind_ok]. }
    mstep; [| mstep; by eapply Hend]. eapply wp_set; [exact Hw' |]. intros w2 Hw2. mstep. eapply Hend; [exact Hw2 | | done].
    destruct Hs' as [[W1 W2 W3 W4] T R]. constructor; [| done | done]. constructor; try done.
    apply (base_same qs s'); try done; apply W1. }
  eapply wp_ask; [exact Hw1 |]. intros w2 p2 a2 Hw2 Hg2 _. pose proof (connecting_pool _ _ _ _ Hs1 Hg2) as Hs2.
  mstep. destruct (t_kernel_ep (t s1) && _).
  - eapply wp_ask; [exact Hw2 |]. intros w3 p3 a3 Hw3 Hg3 _. eapply Hrest; [exact Hw3 | | done].
    exact (connecting_pool _ _ _ _ Hs2 Hg3).
  - mstep. by eapply Hrest.
Qed.

Lemma poll_ok w qs s i q :
  at_session w qs s -> sess_ok qs s -> (state s = ISCSI_CONN_STATE_XPT_WAIT -> ready qs s q) ->
  wp (session_conn_poll i q) (fun _ w' => world_ok w') w.
Proof.
  intros Hw Hok Hr. unfold session_conn_poll. mstep. eapply wp_put; [exact Hw |]. intros w1 Hw1.
  match type of Hw1 with at_session _ _ ?x => set (s1 := x) in * end.
  assert (Hok1 : sess_ok qs s1) by (by apply sess_ok_put).
  mstep. eapply wp_session; [exact Hw1 |]. case_decide as Hst; [mstep; by eapply at_world |].
  assert (Es : state s1 = ISCSI_CONN_STATE_XPT_WAIT) by (by destruct (decide (state s1 = ISCSI_CONN_STATE_XPT_WAIT))).
  assert (Hs1 : connecting qs s1 q).
  { destruct Hok1 as [Hb1 Hs1]. unfold state_ok in Hs1. rewrite Es in Hs1. destruct Hs1 as (H1 & H2 & H3).
    specialize (Hr Es). by constructor. }
  clearbody s1. clear w s Hw Hok Hr Hst.
  mstep. eapply wp_ask; [exact Hw1 |]. intros w2 p2 a2 Hw2 Hg2 _. pose proof (connecting_pool _ _ _ _ Hs1 Hg2) as Hs2.
  case_decide; [| case_decide; [by eapply poll_connected_ok |]].
  - mstep. eapply wp_get_context; [exact Hw2 | |].
    + intros w3 Hw3. by eapply connecting_eh.
    + intros w3 j Hj Hw3. eapply wp_set; [exact Hw3 |]. intros w4 Hw4. eapply at_world; [exact Hw4 |].
      destruct Hs2 as [[W1 W2 W3 W4] T R]. apply waiting_ok; [| done]. constructor; try done.
      * apply (base_same qs (s1 <| pool := p2 |>)); try done; [| apply W1..].
        by apply Forall_insert; [apply Forall_insert; [apply W1 |] |].
      * intros k q' Hk. cbn in Hk. apply list_lookup_insert_Some in Hk as [(_ & [= ->] & _) | [_ Hk]]; [exact R |].
        apply list_lookup_insert_Some in Hk as [(_ & [=] & _) | [_ Hk]]. by apply (W3 k q').
  - destruct Hs2 as [W T R]. eapply wp_use; [by eapply queue_reopen_ok |]. intros u w3. apply reopened_world.
Qed.
End Tasks.
