(* ===== verification/InitiatorRequests.v ===== *)
(** * The daemon: login, synchronisation and logout requests *)
From Stdlib Require Import ZArith Lia.
From stdpp Require Import base tactics numbers list option gmap.
From S2P Require Import Prelude CString AuthText Acl AclFrame AclSafety AclProtocol AclTheorems.
From S2P Require Import Pdu LoginText Io Timer Login LoginReq LoginSafety LoginReqSafety LoginDriver.
From S2P Require Import SessionSetup SessionTheorems StateM Initiator InitiatorInv InitiatorSafety InitiatorLogin InitiatorEvents InitiatorTasks.

Section Requests.
Context `{AEnv : AuthEnv} {AEnvOk : AuthEnvOk AEnv} `{LEnv : LoginEnv}.

(** ** Without a session *)
Record at_none (w : world) (qs : gmap nat bool) : Prop := {
  an_session : w_session w = None;
  an_qtasks : w_qtasks w = qs;
  an_ext : ext_ok (w_ext w);
  an_config : dconfig_ok (w_config w);
  an_retry : w_retry w = None;
  an_loose : w_loose w = false
}.

Lemma none_world w qs : at_none w qs -> world_ok w.
Proof. intros [H1 H2 H3 H4 H5 H6]. constructor; try done; congruence. Qed.

Lemma closed_none w qs : closed qs w -> at_none w qs.
Proof. intros ([H1 H2 H3 H4 H5] & Hs & Hq & Hr). by constructor. Qed.

Lemma deliver_none es : forall w, w_session w = None -> foldl (fun w e => ctldev_handle e w) w es = w.
Proof.
  induction es as [| e es IH]; intros w Hw; [done |]. cbn.
  assert (ctldev_handle e w = w) as -> by (unfold ctldev_handle; by rewrite Hw). by apply IH.
Qed.

Lemma wp_ask_none w qs c (Q : answer -> world -> Prop) :
  at_none w qs -> (forall w' a, at_none w' qs -> answer_ok c a -> Q a w') -> wp (ask c) Q w.
Proof.
  intros [H1 H2 H3 H4 H5] HQ. unfold ask. eexists _, _. split; [reflexivity |]. rewrite deliver_none by done.
  apply HQ; [by constructor | apply H3].
Qed.

Lemma wp_write_rsp_none w qs n err (Q : unit -> world -> Prop) :
  at_none w qs -> is_Some (qs !! n) -> (forall w', at_none w' (delete n qs) -> Q tt w') ->
  wp (mgmt_ipc_write_rsp (Some (request n)) err) Q w.
Proof.
  intros [H1 H2 H3 H4 H5] [b Hb] HQ. cbn. unfold wp. rewrite H2, Hb. eexists _, _. split; [reflexivity |].
  apply HQ. by constructor.
Qed.

(** ** Creating a session *)
Lemma setup_auth_config s cfg :
  config_wf cfg -> length (s_password s) = AUTH_STR_MAX_LEN -> num_auth_buffers s = 0%Z ->
  acl_ok (Some (auth_client_block s)) -> config_ok s ->
  exists rc s', iscsi_setup_authentication s cfg = Some (rc, s') /\ config_ok s' /\
    ((0 < num_auth_buffers s')%Z -> auth_cfg s').
Proof.
  intros [Hp Hpi Hl Hli Hu] Hs Hn Hblk Hc. unfold iscsi_setup_authentication.
  destruct (has_incoming cfg && _).
  { eexists _, _. split; [done |]. split; [done |]. rewrite Hn. lia. }
  cbv zeta. change (s_password_length (_ <| s_password_length := ?v |>)) with v.
  change (s_password (_ <| s_username := _ |> <| s_password_length := _ |>)) with (s_password s).
  rewrite !i32_small by lia.
  destruct (copy_secret_spec (s_password s) (ac_password cfg) (ac_password_length cfg)) as [-> Hlen1]; [done.. |].
  rewrite bind_ret. destruct Hc as [C1 C2 C3 C4 [C5 C6]].
  destruct (copy_secret_spec (password_in (session_in s)) (ac_password_in cfg) (ac_password_in_length cfg)) as [E2 Hlen2]; [done.. |].
  match goal with |- context [copy_secret ?d ?x ?n] =>
    change (copy_secret d x n) with (copy_secret (password_in (session_in s)) (ac_password_in cfg) (ac_password_in_length cfg)) end.
  rewrite E2, bind_ret.
  destruct (truth _ || truth _); (eexists _, _; split; [reflexivity |]);
    (split; [by constructor; try done; split; [exact Hlen2 | cbn; lia] |]); [| done].
  intros _. constructor; [by apply no_nul_take | exact Hlen1 | cbn; lia | exact Hblk].
Qed.

Lemma session_from_rec_config tr rec dc pos : rec_ok rec -> dconfig_ok dc -> config_ok (session_from_rec tr rec dc pos).
Proof.
  intros [R1 R2 R3 R4] [D1 D2]. constructor.
  - done.
  - intros l. cbn. unfold initiator_name_of. destruct (n_iname rec) eqn:E; [apply D1 |]. by intros [= <-].
  - intros l. cbn. unfold initiator_alias_of. destruct (n_alias rec) eqn:E; [apply D2 |]. by intros [= <-].
  - cbn. rewrite length_take. lia.
  - by split.
Qed.

(** A session that was just created. *)
Record fresh (st : iscsi_session_r_stage_e) (qs : gmap nat bool) (s : daemon_session) : Prop := {
  fr_base : base qs s;
  fr_stage : r_stage s = st;
  fr_notify : notify_qtask s = None;
  fr_logout : logout_qtask s = None;
  fr_no_polls : forall i q, pool s !! i <> Some (Some (EV_CONN_POLL q));
  fr_timers : login_timer s = None /\ nop_out_timer s = None
}.

Lemma fresh_pool {st} qs s p : fresh st qs s -> pool_grows (pool s) p -> fresh st qs (s <| pool := p |>).
Proof.
  intros [F1 F2 F3 F4 F5 F6] Hg. constructor; try done; [by apply base_pool |]. intros i q Hi. by eapply F5, Hg.
Qed.

Lemma wp_create w qs rec tr pos (Q : Z -> world -> Prop) :
  at_none w qs -> rec_ok rec -> has_cap (t_caps tr) CAP_LOGIN_OFFLOAD = false ->
  (forall w' rc, rc <> 0%Z -> at_none w' qs -> Q rc w') ->
  (forall w' s, at_session w' qs s -> fresh R_STAGE_NO_CHANGE qs s -> nrec s = rec -> Q 0%Z w') ->
  wp (__session_create rec tr pos) Q w.
Proof.
  intros Hw Hrec Hsoft HN HS. unfold __session_create. mstep. eapply wp_ask_none; [exact Hw |]. intros w1 a1 Hw1 [Ha1 _].
  rewrite Ha1 by done. cbn [truth Z.eqb negb]. mstep. mstep.
  destruct (initiator_name_of rec (w_config w1)) eqn:En; [| mstep; by apply HN].
  pose proof (session_from_rec_config tr rec (w_config w1) pos Hrec (an_config _ _ Hw1)) as Hc.
  destruct (setup_auth_config (session_from_rec tr rec (w_config w1) pos) (n_auth rec)) as (rc & l' & E & Hc' & Ha');
    [apply Hrec | done | done | by intros c [= <-] | done |].
  mstep. eapply wp_opt; [exact E |].
  assert (Hend : forall w', at_none w' qs ->
    wp (mmod (fun w => w <| w_session := Some ((zero_dsession tr rec pos) <| lg := l' |>) |>) ;;; mret' 0%Z) Q w').
  { intros w' [H1 H2 H3 H4 H5]. mstep. mstep. eapply HS; [by constructor | | done]. constructor; try done.
    constructor; try done. by left. }
  apply wp_then. destruct (t_bind_ep_required tr).
  - mstep. eapply wp_ask_none; [exact Hw1 |]. intros w2 a2 Hw2 _. case_decide; mstep.
    + rewrite decide_True by done. mstep. by apply HN.
    + rewrite decide_False by (intros Hx; by apply Hx). by apply Hend.
  - mstep. rewrite decide_False by (intros Hx; by apply Hx). by apply Hend.
Qed.

(** Changes that keep the names and the credentials. *)
Lemma fresh_change {st} qs s s' :
  fresh st qs s -> cred_of (lg s') = cred_of (lg s) -> t s' = t s -> pool_dangling s' = pool_dangling s ->
  Forall context_ok (pool s') -> data s' = data s -> r_stage s' = r_stage s -> notify_qtask s' = notify_qtask s ->
  logout_qtask s' = logout_qtask s -> (forall i q, pool s' !! i <> Some (Some (EV_CONN_POLL q))) ->
  (login_timer s = None -> login_timer s' = None) -> nop_out_timer s' = nop_out_timer s -> fresh st qs s'.
Proof.
  intros [F1 F2 F3 F4 F5 [F6 F7]] E1 E2 E3 E4 E5 E6 E7 E8 E9 E10 E11. constructor; try congruence; try done.
  2:{ split; [by apply E10 | congruence]. }
  apply (base_same qs s); try done; [rewrite E5; apply F1 | by eapply cred_config; [| apply F1] |].
  eapply cred_auth; [exact E1 | apply F1].
Qed.

Lemma fresh_copy {st} qs s : fresh st qs s -> fresh st qs (copy_operational s).
Proof.
  intros Hf. unfold copy_operational.
  pose proof (copy_operational_cred (t_caps (t s)) (t_driver (t s)) (lg s) (n_session (nrec s)) (n_conn (nrec s))) as E.
  destruct (iscsi_copy_operational_params _ _ _ _ _) as [[[l e] sc] cc]. cbn [fst] in E.
  apply (fresh_change qs s); try done; [apply Hf | apply Hf].
Qed.

Lemma no_polls_replicate n i q : replicate n None !! i <> Some (Some (EV_CONN_POLL q)).
Proof. intros [H _]%lookup_replicate. done. Qed.

Lemma fresh_conn_init {st} qs s : fresh st qs s -> fresh st qs (conn_init s).
Proof.
  intros Hf. apply fresh_copy. apply (fresh_change qs s); try done; [apply Hf | apply Hf].
Qed.

Lemma context_alloc_ok {st} w qs s :
  at_session w qs s -> fresh st qs s ->
  wp iscsi_ev_context_alloc (fun rc w' => rc = 0%Z /\ exists s', at_session w' qs s' /\ fresh st qs s') w.
Proof.
  intros Hw Hf. unfold iscsi_ev_context_alloc. mstep. eapply wp_ask; [exact Hw |].
  intros w1 p a Hw1 Hg [Ha _]. rewrite Ha by done. cbn [truth Z.eqb negb].
  mstep. eapply wp_set; [exact Hw1 |]. intros w2 Hw2. mstep. split; [done |]. eexists. split; [exact Hw2 |].
  apply (fresh_change qs s); try done; [by apply Forall_replicate | apply no_polls_replicate].
Qed.

Lemma set_conn_init_ok {st} w qs s :
  at_session w qs s -> fresh st qs s ->
  wp (set_session conn_init) (fun _ w' => exists s', at_session w' qs s' /\ fresh st qs s') w.
Proof.
  intros Hw Hf. eapply wp_set; [exact Hw |]. intros w2 Hw2. eexists. split; [exact Hw2 | by apply fresh_conn_init].
Qed.

Lemma setup_portal_cred l fb a p : cred_of (iscsi_setup_portal l fb a p).1.2 = cred_of l.
Proof. unfold iscsi_setup_portal. by destruct (resolve_address a (sprintf_d p)). Qed.

Lemma conn_create_ok {st} w qs s :
  at_session w qs s -> fresh st qs s ->
  wp __session_conn_create (fun rc w' => exists s', at_session w' qs s' /\ fresh st qs s') w.
Proof.
  intros Hw Hf. unfold __session_conn_create. eapply wp_bind; [by eapply context_alloc_ok |].
  intros rc w1 (-> & s1 & Hw1 & Hf1). cbn [truth Z.eqb negb]. eapply wp_bind; [by eapply set_conn_init_ok |].
  intros u w2 (s2 & Hw2 & Hf2). mstep. eapply wp_session; [exact Hw2 |].
  match goal with |- context [iscsi_setup_portal ?a ?b ?c ?d] =>
    pose proof (setup_portal_cred a b c d) as E; destruct (iscsi_setup_portal a b c d) as [[rc l] fb2] end.
  mstep. eapply wp_set; [exact Hw2 |]. intros w3 Hw3. mstep. eexists. split; [exact Hw3 |].
  apply (fresh_change qs s2); try done; apply Hf2.
Qed.

(** ** Login requests *)

(** How a task that creates a session ends: the request is taken over, or
    there is no session and the caller answers. *)
Definition task_done (n : nat) (rc : Z) (w : world) : Prop :=
  if truth rc then exists qs, at_none w qs /\ is_Some (qs !! n) else world_ok w.

Lemma fresh_insert {st} qs s n b : fresh st qs s -> fresh st (<[n := b]> qs) s.
Proof. intros [F1 F2 F3 F4 F5 F6]. constructor; try done. by apply base_insert. Qed.

Lemma destroy_task {st} w qs s n rc :
  at_session w qs s -> fresh st qs s -> is_Some (qs !! n) -> truth rc = true ->
  wp (__session_destroy ;;; mret' rc) (task_done n) w.
Proof.
  intros Hw Hf Hn Hrc. mstep. eapply wp_destroy; [exact Hw | apply Hf.. |]. intros w' Hw'. mstep.
  unfold task_done. rewrite Hrc. exists qs. split; [by apply closed_none | done].
Qed.

Lemma login_task_connect_ok {st} w qs s n :
  at_session w qs s -> fresh st qs s -> is_Some (qs !! n) ->
  wp (login_task_connect n) (task_done n) w.
Proof.
  intros Hw Hf [b Hb]. unfold login_task_connect. mstep. cbn [set_qtask_conn]. unfold wp at 1.
  destruct Hw as [H1 H2 H3 H4 H5 H6]. rewrite H2, Hb. eexists _, _. split; [reflexivity |].
  set (qs1 := <[n := true]> qs). set (w1 := w <| w_qtasks := qs1 |>).
  assert (Hw1 : at_session w1 qs1 s) by (by constructor). assert (Hf1 : fresh st qs1 s) by (by apply fresh_insert).
  assert (Hn1 : qs1 !! n = Some true) by (apply lookup_insert_eq). clearbody qs1 w1. clear w qs H1 H2 H3 H4 H5 H6 Hf b Hb.
  mstep. eapply wp_ask; [exact Hw1 |]. intros w2 p2 a2 Hw2 Hg2 _. pose proof (fresh_pool _ _ _ Hf1 Hg2) as Hf2.
  case_decide as Hag; [eapply destroy_task; [exact Hw2 | exact Hf2 | by eauto | done] |].
  destruct (truth (a_rc a2)); [eapply destroy_task; [exact Hw2 | exact Hf2 | by eauto | done] |].
  mstep. eapply wp_ask; [exact Hw2 |]. intros w3 p3 a3 Hw3 Hg3 _. pose proof (fresh_pool _ _ _ Hf2 Hg3) as Hf3.
  assert (Hend : forall w' s', at_session w' qs1 s' -> fresh st qs1 s' ->
    wp (set_session (fun s => s <| state := ISCSI_CONN_STATE_XPT_WAIT |>) ;;;
        let! rc := iscsi_conn_connect (request n) in
        mwhen (truth rc) (queue_delayed_reopen (request n) ISCSI_CONN_ERR_REOPEN_DELAY) ;;;
        mret' ISCSI_SUCCESS) (task_done n) w').
  { clear w1 w2 w3 s a2 a3 p2 p3 Hw1 Hw2 Hw3 Hg2 Hg3 Hf1 Hf2 Hf3 Hag. intros w s Hw Hf.
    mstep. eapply wp_set; [exact Hw |]. intros w1 Hw1.
    match type of Hw1 with at_session _ _ ?x => set (s1 := x) in * end.
    assert (Hwt : waiting qs1 s1).
    { destruct Hf as [F1 F2 F3 F4 F5 F6]. constructor; [apply (base_same qs1 s); try done; apply F1 | done | | done].
      intros i q Hi. by destruct (F5 i q). }
    mstep. eapply wp_use; [by eapply (connect_ok w1 qs1 s1 (request n)) |]. intros rc w2 (s2 & Hw2 & Hs2 & Hr2 & Ht2).
    mstep.
    - eapply wp_use; [by eapply queue_reopen_ok |]. intros u w3 Hw3. mstep. by apply reopened_world.
    - mstep. eapply (at_world w2); [exact Hw2 |]. apply waiting_ok; [done |]. apply Ht2.
      destruct (Z.eqb_spec rc 0) as [-> | Hne]; [done |]. exfalso. unfold truth in H.
      by apply negb_false_iff, Z.eqb_eq in H. }
  mstep; [| by eapply Hend]. eapply wp_set; [exact Hw3 |]. intros w4 Hw4. eapply Hend; [exact Hw4 |].
  apply (fresh_change qs1 _ _ Hf3); try done; apply Hf3.
Qed.

Lemma clamp_ok caps rec : rec_ok rec -> rec_ok (clamp_record caps rec).
Proof. intros [R1 R2 R3 R4]. by constructor. Qed.

Lemma __login_task_ok w qs tr rec n pos :
  at_none w qs -> is_Some (qs !! n) -> rec_ok rec -> has_cap (t_caps tr) CAP_LOGIN_OFFLOAD = false ->
  wp (__session_login_task tr rec n pos) (fun r w' => rec_ok r.2 /\ task_done n r.1 w') w.
Proof.
  intros Hw Hn Hrec Hsoft. unfold __session_login_task. mstep. eapply wp_ask_none; [exact Hw |]. intros w1 a1 Hw1 _.
  assert (Herr : forall w' rc rec', at_none w' qs -> rec_ok rec' -> truth rc = true ->
    wp (mret' (rc, rec')) (fun r w' => rec_ok r.2 /\ task_done n r.1 w') w').
  { intros w' rc rec' Hw' Hr' Hrc. mstep. split; [done |]. unfold task_done. cbn. rewrite Hrc. eauto. }
  destruct (truth (a_rc a1) && negb (n_multiple rec)); [by apply Herr |].
  mstep. eapply wp_ask_none; [exact Hw1 |]. intros w2 a2 Hw2 _. destruct (truth (a_rc a2)); [by apply Herr |].
  cbv zeta. pose proof (clamp_ok (t_caps tr) rec Hrec) as Hrec'. set (rec' := clamp_record (t_caps tr) rec) in *. clearbody rec'.
  mstep. eapply wp_create; [exact Hw2 | exact Hrec' | exact Hsoft | |].
  - intros w3 rc Hrc Hw3. case_decide as Hh; [apply Herr; try done; by rewrite Hh |]. rewrite decide_True by done. by apply Herr.
  - intros w3 s Hw3 Hf _. rewrite decide_False by done. rewrite decide_False by (intros Hx; by apply Hx).
    mstep. eapply wp_use; [by eapply conn_create_ok |]. intros rc w4 (s4 & Hw4 & Hf4). destruct (truth rc) eqn:Erc.
    + mstep. eapply wp_destroy; [exact Hw4 | apply Hf4.. |]. intros w5 Hw5. apply Herr; [by apply closed_none | done | done].
    + mstep. eapply wp_use; [by eapply login_task_connect_ok |]. intros rc5 w5 Hw5. mstep. by split.
Qed.

Lemma login_task_ok w qs tr rec n pos :
  at_none w qs -> is_Some (qs !! n) -> rec_ok rec -> has_cap (t_caps tr) CAP_LOGIN_OFFLOAD = false ->
  wp (session_login_task tr rec n pos) (task_done n) w.
Proof.
  intros Hw Hn Hrec Hsoft. unfold session_login_task. mstep. eapply wp_use; [by eapply __login_task_ok |].
  intros [rc rec'] w1 [Hr Hd]. cbn [fst snd] in *. case_decide as Hh; [| by apply wp_ret].
  rewrite Hh in Hd. destruct Hd as (qs' & Hw1 & Hn'). unfold queue_session_login_task_retry.
  mstep. eapply wp_ask_none; [exact Hw1 |]. intros w2 a2 Hw2 [Ha _]. rewrite Ha by done. cbn [truth Z.eqb negb].
  mstep. mstep. change (world_ok (w2 <| w_retry := Some (n, rec', i32 (0 + 1)) |>)). destruct Hw2 as [A1 A2 A3 A4 A5].
  constructor; try done; [intros s E; cbn in E; congruence |]. intros m r c [= <- <- <-]. cbn. by rewrite A2.
Qed.

Lemma retry_ok w tr pos :
  world_ok w -> w_session w = None -> has_cap (t_caps tr) CAP_LOGIN_OFFLOAD = false ->
  wp (session_login_task_retry tr pos) (fun _ w' => world_ok w') w.
Proof.
  intros Hw Hs Hsoft. unfold session_login_task_retry. mstep. mstep. destruct (w_retry w) as [[[n rec] count] |] eqn:Er; [| by mstep].
  destruct (wo_retry _ Hw n rec count Er) as (_ & Hn & Hrec). mstep. mstep.
  assert (Hw1 : at_none (w <| w_retry := None |>) (w_qtasks w)) by (destruct Hw; by constructor).
  mstep. eapply wp_use; [by eapply __login_task_ok |]. intros [rc rec'] w1 [Hr Hd]. cbn [fst snd] in *.
  assert (Hans : forall err, truth rc = true -> wp (mgmt_ipc_write_rsp (Some (request n)) err) (fun _ w' => world_ok w') w1).
  { intros err Hrc. unfold task_done in Hd. rewrite Hrc in Hd. destruct Hd as (qs' & Hw' & Hn').
    eapply wp_write_rsp_none; [exact Hw' | exact Hn' |]. intros w2 Hw2. by eapply none_world. }
  case_decide as Hh.
  - destruct Hh as [-> _]. destruct Hd as (qs' & Hw' & Hn'). unfold queue_session_login_task_retry. mstep. mstep. mstep.
    cbn [a_rc truth Z.eqb negb]. mstep. mstep. cbn [truth Z.eqb negb]. mstep. destruct Hw' as [A1 A2 A3 A4 A5].
    constructor; try done; [intros s E; cbn in E; congruence |]. intros m r c [= <- <- <-]. cbn. by rewrite A2.
  - destruct (truth rc) eqn:Erc; [by apply Hans |]. mstep. unfold task_done in Hd. by rewrite Erc in Hd.
Qed.
End Requests.
