(* ===== verification/InitiatorHistory.v ===== *)
(** * The daemon: histories of events

    Synchronisation and logout requests, the dispatch of the events, and the
    invariant along a history. *)
From Stdlib Require Import ZArith Lia.
From stdpp Require Import base tactics numbers list option gmap.
From S2P Require Import Prelude CString AuthText Acl AclFrame AclSafety AclProtocol AclTheorems.
From S2P Require Import Pdu LoginText Io Timer Login LoginReq LoginSafety LoginReqSafety LoginDriver.
From S2P Require Import SessionSetup SessionTheorems StateM Initiator InitiatorInv InitiatorSafety InitiatorLogin.
From S2P Require Import InitiatorEvents InitiatorTasks InitiatorRequests.

Section History.
Context `{AEnv : AuthEnv} {AEnvOk : AuthEnvOk AEnv} `{LEnv : LoginEnv}.

(** ** Synchronisation *)
Lemma fresh_reopen st qs s : fresh st qs s -> fresh R_STAGE_SESSION_REOPEN qs (s <| r_stage := R_STAGE_SESSION_REOPEN |>).
Proof.
  intros [[B1 B2 B3 B4 B5 B6 B7 B8] F2 F3 F4 F5 F6]. constructor; try done. constructor; try done; [by right; left |].
  intros q E. cbn in E. congruence.
Qed.

Lemma sync_conn_ok st w qs s :
  at_session w qs s -> fresh st qs s ->
  wp sync_conn (fun rc w' => exists s', at_session w' qs s' /\ fresh st qs s') w.
Proof.
  intros Hw Hf. unfold sync_conn. eapply wp_bind; [by eapply conn_create_ok |]. intros rc w1 (s1 & Hw1 & Hf1).
  destruct (truth rc); [mstep; eauto |]. mstep. eapply wp_set; [exact Hw1 |]. intros w2 Hw2. mstep.
  eexists. split; [exact Hw2 |]. apply (fresh_change qs s1); try done; apply Hf1.
Qed.

Lemma notify_base qs s q :
  fresh R_STAGE_SESSION_REOPEN qs s -> live qs q -> base qs (s <| notify_qtask := Some q |>).
Proof.
  intros [[B1 B2 B3 B4 B5 B6 B7 B8] F2 F3 F4 F5 F6] Hq. constructor; try done. by intros q' [= <-].
Qed.

Lemma sync_ok w qs tr rec n pos sid :
  at_none w qs -> is_Some (qs !! n) -> rec_ok rec -> has_cap (t_caps tr) CAP_LOGIN_OFFLOAD = false ->
  wp (iscsi_sync_session tr rec n pos sid) (task_done n) w.
Proof.
  intros Hw Hn Hrec Hsoft. unfold iscsi_sync_session. mstep. eapply wp_ask_none; [exact Hw |]. intros w1 a1 Hw1 _.
  assert (Herr : forall w' rc, at_none w' qs -> truth rc = true -> wp (mret' rc) (task_done n) w').
  { intros w' rc Hw' Hrc. mstep. unfold task_done. rewrite Hrc. eauto. }
  destruct (truth (a_rc a1)); [by apply Herr |]. mstep. eapply wp_create; [exact Hw1 | exact Hrec | exact Hsoft | |].
  { intros w2 rc Hrc Hw2. unfold truth. destruct (Z.eqb_spec rc 0); [done |]. by apply Herr. }
  intros w2 s Hw2 Hf _. cbn [truth Z.eqb negb]. mstep. eapply wp_set; [exact Hw2 |]. intros w3 Hw3.
  assert (Hf3 : fresh R_STAGE_NO_CHANGE qs (s <| id := sid |>)) by (apply (fresh_change qs s); try done; apply Hf).
  mstep. eapply wp_ask; [exact Hw3 |]. intros w4 p4 a4 Hw4 Hg4 _. pose proof (fresh_pool _ _ _ Hf3 Hg4) as Hf4.
  destruct (truth (a_rc a4)) eqn:E4; [by eapply destroy_task |].
  mstep. eapply wp_set; [exact Hw4 |]. intros w5 Hw5. apply fresh_reopen in Hf4.
  eapply wp_bind; [by eapply sync_conn_ok |]. intros rc w6 (s6 & Hw6 & Hf6).
  destruct (truth rc) eqn:E6; [by eapply destroy_task |].
  mstep. eapply wp_set; [exact Hw6 |]. intros w7 Hw7.
  eapply wp_bind; [eapply reopen_ok; [exact Hw7 | by apply notify_base | done | apply Hf6] |].
  intros u w8 Hw8. mstep. by apply reopened_world.
Qed.

(** ** A new request *)
Lemma ready_new qs s q n b : qs !! n = None -> ready qs s q -> ready (<[n := b]> qs) s q.
Proof. destruct q as [| m]; [done |]. cbn. intros Hn Hm. rewrite lookup_insert_ne by congruence. done. Qed.

Lemma sess_ok_new qs s n b : qs !! n = None -> sess_ok qs s -> sess_ok (<[n := b]> qs) s.
Proof.
  intros Hn [Hb Hs]. split; [by apply base_insert |]. unfold state_ok in *.
  assert (Ht : timer_set qs s -> timer_set (<[n := b]> qs) s).
  { intros (d & q & Ed & Hr). exists d, q. split; [done | by apply ready_new]. }
  destruct (state s); try done.
  - destruct Hs as (H1 & H2 & H3). split_and!; [by apply Ht | | done]. intros i q Hi. by apply ready_new, (H2 i).
  - destruct Hs as (H1 & (q & Eq & Hq) & H3 & H4). split_and!; try done; [by apply Ht |]. exists q. split; [done | by apply live_insert].
  - destruct Hs as (H1 & H2 & H3 & H4). split_and!; try done. intros q Eq. by apply live_insert, H4.
  - destruct Hs as (H1 & H2 & H3 & H4). split_and!; try done. intros q Eq. by apply live_insert, H4.
Qed.

(** ** Logout *)

Lemma shutdown_done w qs s q :
  at_session w qs s -> pool_dangling s = false -> live qs q ->
  wp (session_conn_shutdown (Some q) ISCSI_SUCCESS) (fun rc w' => rc = ISCSI_SUCCESS /\ world_ok w') w.
Proof.
  intros Hw Hp Hq. eapply wp_shutdown; [exact Hw | exact Hp | by intros q' [= <-] |]. by intros w' [Hw' _].
Qed.

Lemma take_request w qs s n b (Q : unit -> world -> Prop) :
  at_session w (<[n := b]> qs) s -> (forall w', at_session w' (<[n := true]> qs) s -> Q tt w') ->
  wp (set_qtask_conn (request n)) Q w.
Proof.
  intros [H1 H2 H3 H4 H5 H6] HQ. cbn [set_qtask_conn]. unfold wp. rewrite H2, lookup_insert_eq.
  eexists _, _. split; [reflexivity |]. apply HQ. constructor; try done. cbn. by rewrite insert_insert_eq.
Qed.

Lemma logged_in_logout qs s q :
  sess_ok qs s -> state s = ISCSI_CONN_STATE_LOGGED_IN -> live qs q -> sess_ok qs (s <| logout_qtask := Some q |>).
Proof.
  intros [Hb Hs] E Hq. split; [apply (base_same qs s); try done; apply Hb |]. unfold state_ok in *. cbn. rewrite E in *.
  destruct Hs as (H1 & H2 & H3 & H4). split_and!; try done. by intros q' [= <-].
Qed.

Lemma logout_start_ok w qs s n :
  at_session w (<[n := false]> qs) s -> qs !! n = None -> sess_ok qs s ->
  wp (logout_start n) (fun rc w' => rc = ISCSI_SUCCESS /\ world_ok w') w.
Proof.
  intros Hw Hn Hs. unfold logout_start. mstep. eapply take_request; [exact Hw |]. intros w1 Hw1.
  apply (sess_ok_new _ _ n true) in Hs; [| done]. set (qs1 := <[n := true]> qs) in *.
  assert (Hq : live qs1 (request n)) by (exists true; apply lookup_insert_eq). clearbody qs1. clear w qs Hw Hn.
  mstep. eapply wp_set; [exact Hw1 |]. intros w2 Hw2. mstep. eapply wp_session; [exact Hw2 |].
  case_decide as Est; [| eapply shutdown_done; [exact Hw2 | apply Hs | done]].
  pose proof (logged_in_logout _ _ (request n) Hs Est Hq) as Hs2.
  mstep. eapply wp_ask; [exact Hw2 |]. intros w3 p a Hw3 Hg _. pose proof (sess_ok_pool _ _ _ Hs2 Hg) as Hs3.
  destruct (truth (a_rc a)); cbn [negb]; [| mstep; split; [done | by eapply at_world]].
  assert (Es : has_cap (t_caps (t s)) CAP_LOGIN_OFFLOAD = false) by apply Hs.
  match goal with |- context [has_cap ?c ?d] => change (has_cap c d) with (has_cap (t_caps (t s)) CAP_LOGIN_OFFLOAD) end.
  rewrite Es. eapply wp_bind; [by eapply send_logout_ok |]. intros rc w4 (s4 & Hw4 & Hs4 & _).
  destruct (truth rc); [mstep; split; [done | by eapply at_world] |]. eapply shutdown_done; [exact Hw4 | apply Hs4 | done].
Qed.

(** How a logout ends: the request is taken over, or the session is as it
    was. *)
Definition logout_done (qs : gmap nat bool) (s : daemon_session) (rc : Z) (w : world) : Prop :=
  if decide (rc = ISCSI_SUCCESS) then world_ok w
  else exists p, at_session w qs (s <| pool := p |>) /\ pool_grows (pool s) p.

Lemma logout_ok w qs s n sid :
  at_session w (<[n := false]> qs) s -> qs !! n = None -> sess_ok qs s ->
  wp (session_logout_task sid n) (logout_done (<[n := false]> qs) s) w.
Proof.
  intros Hw Hn Hs. unfold session_logout_task. mstep. mstep. rewrite (at_session_is _ _ _ Hw).
  assert (Hsame : forall w' p rc, at_session w' (<[n := false]> qs) (s <| pool := p |>) -> pool_grows (pool s) p ->
    rc <> ISCSI_SUCCESS -> wp (mret' rc) (logout_done (<[n := false]> qs) s) w').
  { intros w' p rc Hw' Hg Hrc. mstep. unfold logout_done. rewrite decide_False by done. eauto. }
  assert (Hself : at_session w (<[n := false]> qs) (s <| pool := pool s |>)) by (by destruct s).
  case_decide; [by eapply Hsame |]. destruct (_ && _ && _); [by eapply Hsame |].
  destruct (logout_too_early s); [by eapply Hsame |].
  assert (Hgo : forall w' p, at_session w' (<[n := false]> qs) (s <| pool := p |>) -> pool_grows (pool s) p ->
    wp (if decide (is_Some (logout_qtask s)) then mret' ISCSI_ERR_INTERNAL else logout_start n)
       (logout_done (<[n := false]> qs) s) w').
  { intros w' p Hw' Hg. case_decide; [by eapply Hsame |]. eapply wp_use.
    - eapply logout_start_ok; [exact Hw' | done | by apply sess_ok_pool].
    - intros rc w2 [-> Hw2]. unfold logout_done. by rewrite decide_True. }
  destruct (dc_safe_logout (w_config w)); [| mstep; mstep; by eapply Hgo].
  mstep. mstep. eapply wp_ask; [exact Hw |]. intros w1 p a Hw1 Hg _. mstep.
  destruct (truth (a_rc a)); [by eapply Hsame | by eapply Hgo].
Qed.

(** ** Requests *)
Lemma handle_task_ok w n task :
  at_none w (w_qtasks w) ->
  (forall w', at_none w' (<[n := false]> (w_qtasks w)) -> wp task (task_done n) w') ->
  wp (mgmt_ipc_handle n task) (fun _ w' => world_ok w') w.
Proof.
  intros [H1 H2 H3 H4 H5 H6] Ht. unfold mgmt_ipc_handle. mstep. mstep.
  eapply wp_use; [apply Ht; by constructor |]. intros rc w1 Hd. unfold task_done, truth in Hd.
  case_decide as E; [subst rc; by mstep |]. destruct (Z.eqb_spec rc 0) as [| _]; [done |].
  destruct Hd as (qs & Hw1 & Hn). eapply wp_write_rsp_none; [exact Hw1 | exact Hn |]. intros w2 Hw2. by eapply none_world.
Qed.

Lemma handle_logout_ok w n sid :
  world_ok w -> w_qtasks w !! n = None ->
  wp (mgmt_ipc_handle n (session_logout_task sid n)) (fun _ w' => world_ok w') w.
Proof.
  intros Hw Hn. unfold mgmt_ipc_handle. mstep. mstep. set (w1 := w <| w_qtasks := _ |>).
  destruct (w_session w) as [s |] eqn:Es.
  - destruct (world_at _ _ Hw Es) as [Hat Hs].
    assert (Hw1 : at_session w1 (<[n := false]> (w_qtasks w)) s) by (destruct Hat; by constructor).
    eapply wp_use; [by eapply logout_ok |]. clearbody w1. intros rc w2 Hd. unfold logout_done in Hd.
    case_decide; [by mstep |]. destruct Hd as (p & Hw2 & Hg).
    eapply wp_write_rsp; [exact Hw2 | intros q' [= <-]; eexists; apply lookup_insert_eq |].
    intros w3 Hw3. cbn [answered] in Hw3. rewrite delete_insert_id in Hw3 by done. eapply at_world; [exact Hw3 |]. by apply sess_ok_pool.
  - unfold session_logout_task. mstep. mstep. change (w_session w1) with (w_session w). rewrite Es. mstep. rewrite decide_False by done.
    cbn [mgmt_ipc_write_rsp]. unfold wp. cbn. rewrite lookup_insert_eq. eexists _, _. split; [reflexivity |].
    destruct Hw as [H1 H2 H3 H4 H5]. constructor; try done; [intros s E; cbn in E; congruence |].
    intros m rec c E. cbn in E. destruct (H4 m rec c E) as (_ & Hm & Hrec). split_and!; [done | | done].
    cbn. rewrite delete_insert_id by done. done.
Qed.

(** ** Actors *)
Lemma run_context_ok w qs s i :
  at_session w qs s -> sess_ok qs s -> wp (run_context i) (fun _ w' => world_ok w') w.
Proof.
  intros Hw Hs. unfold run_context. mstep. eapply wp_session; [exact Hw |].
  destruct (pool s !! i) as [[ev |] |] eqn:Ei; [| mstep; by eapply at_world..].
  assert (Hev : context_ok (Some ev)) by (eapply Forall_lookup_1; [apply Hs | exact Ei]).
  assert (Hpoll : forall q, ev = EV_CONN_POLL q -> state s = ISCSI_CONN_STATE_XPT_WAIT -> ready qs s q).
  { intros q -> Est. destruct Hs as [_ Hst]. unfold state_ok in Hst. rewrite Est in Hst. by apply (proj1 (proj2 Hst) i). }
  mstep. eapply wp_set; [exact Hw |]. intros w1 Hw1.
  assert (Hs1 : sess_ok qs (s <| pool := <[i := Some EV_BUSY]> (pool s) |>)) by (by apply sess_ok_put).
  destruct ev as [| pdu | q | e | | | st].
  - mstep. by eapply at_world.
  - by eapply recv_pdu_event_ok.
  - eapply poll_ok; [exact Hw1 | exact Hs1 |]. intros Est. destruct q as [| m]; by apply (Hpoll _ eq_refl).
  - by eapply session_conn_error_ok.
  - by eapply logout_timedout_ok.
  - by eapply stop_ok.
  - unfold session_conn_process_login. mstep. eapply wp_put; [exact Hw1 |]. intros w2 Hw2. mstep. eapply wp_session; [exact Hw2 |].
    match goal with |- context [has_cap ?c ?d] => change (has_cap c d) with (has_cap (t_caps (t s)) CAP_LOGIN_OFFLOAD) end.
    rewrite (b_soft _ _ (proj1 Hs)). cbn [negb]. mstep. eapply at_world; [exact Hw2 | by apply sess_ok_put].
Qed.

(** A session that is being connected: the timer that watches it. *)
Definition is_connecting (s : daemon_session) : Prop :=
  state s = ISCSI_CONN_STATE_XPT_WAIT \/ state s = ISCSI_CONN_STATE_IN_LOGIN.

Lemma connecting_watched qs s :
  sess_ok qs s -> is_connecting s -> logout_qtask s = None /\ exists d q, login_timer s = Some (d, q) /\ ready qs s q.
Proof. intros [_ Hs] [E | E]; unfold state_ok in Hs; rewrite E in Hs; by destruct_and? Hs. Qed.

Lemma timer_connecting qs s d q : sess_ok qs s -> login_timer s = Some (d, q) -> is_connecting s.
Proof.
  intros [_ Hs] Et. unfold is_connecting, state_ok in *. rewrite Et in Hs. destruct (state s); auto; by destruct Hs.
Qed.

Lemma login_timer_settles w qs s d q :
  at_session w qs s -> sess_ok qs s -> login_timer s = Some (d, q) ->
  wp run_login_timer (fun _ w' => settled qs q w') w.
Proof.
  intros Hw Hs Et. pose proof (timer_connecting _ _ _ _ Hs Et) as Hc.
  destruct (connecting_watched _ _ Hs Hc) as (Hl & d' & q' & Et' & Hr).
  assert (q' = q) as -> by congruence. unfold run_login_timer. mstep. eapply wp_session; [exact Hw |]. rewrite Et.
  mstep. eapply wp_set; [exact Hw |]. intros w1 Hw1. eapply login_timedout_settles; [exact Hw1 | | | done | exact Hc].
  - apply (base_same qs s); try done; apply Hs.
  - by destruct q.
Qed.

Lemma run_login_timer_ok w qs s :
  at_session w qs s -> sess_ok qs s -> wp run_login_timer (fun _ w' => world_ok w') w.
Proof.
  intros Hw Hs. destruct (login_timer s) as [[d q] |] eqn:Et.
  - eapply wp_use; [by eapply login_timer_settles |]. intros u w'. apply settled_world.
  - unfold run_login_timer. mstep. eapply wp_session; [exact Hw |]. rewrite Et. mstep. by eapply at_world.
Qed.

Lemma sess_ok_nop qs s o : sess_ok qs s -> sess_ok qs (s <| nop_out_timer := o |>).
Proof.
  intros [Hb Hs]. split; [apply (base_same qs s); try done; apply Hb |].
  unfold state_ok in *. cbn. destruct (state s); try exact Hs.
  destruct Hs as (H1 & H2 & [I1 I2 I3 I4] & H4). split_and!; [exact H1 | exact H2 | by constructor | exact H4].
Qed.

Lemma run_nop_timer_ok w qs s :
  at_session w qs s -> sess_ok qs s -> wp run_nop_timer (fun _ w' => world_ok w') w.
Proof.
  intros Hw Hs. unfold run_nop_timer. mstep. eapply wp_session; [exact Hw |].
  destruct (nop_out_timer s) as [[d []] |]; [| | mstep; by eapply at_world].
  - mstep. eapply wp_set; [exact Hw |]. intros w1 Hw1. eapply nop_out_ok; [exact Hw1 | by apply sess_ok_nop].
  - mstep. eapply wp_set; [exact Hw |]. intros w1 Hw1. unfold conn_nop_out_timeout.
    eapply conn_error_ok; [exact Hw1 | by apply sess_ok_nop].
Qed.

(** ** Histories *)

(** The transport does not offload the login: the daemon does it itself. *)
Definition software_login (e : event) : Prop :=
  match e with
  | RetryTimerRuns tr _ | LoginRequest _ tr _ _ | SyncRequest _ tr _ _ _ => has_cap (t_caps tr) CAP_LOGIN_OFFLOAD = false
  | _ => True
  end.

(** The record has the form the database gives it; the kernel sends bytes. *)
Definition well_formed_event (e : event) : Prop :=
  match e with
  | KernelSends k => kernel_event_ok k
  | LoginRequest _ _ rec _ | SyncRequest _ _ rec _ _ => rec_ok rec
  | _ => True
  end.

(** An actor that runs belongs to the session. *)
Lemma actor_runs w m (Q : unit -> world -> Prop) :
  world_ok w -> is_Some (w_session w) \/ w_loose w = true ->
  (forall s, at_session w (w_qtasks w) s -> sess_ok (w_qtasks w) s -> wp m Q w) -> wp (run_actor m) Q w.
Proof.
  intros Hw Hen HQ. unfold run_actor. mstep. mstep. rewrite (wo_loose _ Hw).
  destruct Hen as [[s Es] | H]; [| by rewrite (wo_loose _ Hw) in H]. destruct (world_at _ _ Hw Es). by eapply HQ.
Qed.

Lemma handle_event_ok w e :
  world_ok w -> enabled w e -> software_login e -> well_formed_event e -> wp (handle_event e) (fun _ w' => world_ok w') w.
Proof.
  intros Hw Hen Hsoft He. assert (Hn : w_session w = None -> w_retry w = None -> at_none w (w_qtasks w)).
  { intros H1 H2. destruct Hw. by constructor. }
  destruct e as [i | | | tr pos | k | n tr rec pos | n tr rec pos sid | n sid]; cbn [handle_event enabled software_login well_formed_event] in *.
  - apply actor_runs; [exact Hw | exact Hen |]. intros s Hat Hs. by eapply run_context_ok.
  - apply actor_runs; [exact Hw | exact Hen |]. intros s Hat Hs. by eapply run_login_timer_ok.
  - apply actor_runs; [exact Hw | exact Hen |]. intros s Hat Hs. by eapply run_nop_timer_ok.
  - by apply retry_ok.
  - mstep. destruct (w_session w) as [s |] eqn:Es.
    + destruct (world_at _ _ Hw Es) as [Hat Hs]. destruct (ctldev_handle_at _ _ _ k Hat He) as (p & Hw1 & Hg).
      eapply at_world; [exact Hw1 | by apply sess_ok_pool].
    + unfold ctldev_handle. by rewrite Es.
  - destruct Hen as (Hq & Hs & Hr). apply handle_task_ok; [by apply Hn |]. intros w' Hw'.
    eapply login_task_ok; [exact Hw' | eexists; apply lookup_insert_eq | done | done].
  - destruct Hen as (Hq & Hs & Hr). apply handle_task_ok; [by apply Hn |]. intros w' Hw'.
    eapply sync_ok; [exact Hw' | eexists; apply lookup_insert_eq | done | done].
  - by apply handle_logout_ok.
Qed.

Lemma run_events_ok es : forall w,
  world_ok w -> Forall software_login es -> Forall well_formed_event es -> wp (run_events es) (fun _ w' => world_ok w') w.
Proof.
  induction es as [| e es IH]; intros w Hw Hsoft Hes; cbn [run_events]; [by mstep |].
  inversion_clear Hsoft. inversion_clear Hes. mstep. mstep. case_decide.
  - eapply wp_use; [by apply handle_event_ok |]. intros u w1 Hw1. by apply IH.
  - mstep. by apply IH.
Qed.
End History.
