(* ===== verification/InitiatorAccount.v ===== *)
(** * The daemon: what every handler respects

    [RespectsSteps R]: the relation [R] between worlds holds across each of the
    elementary effects of the handlers.  Then it holds across every handler.
    The instance is the account of the requests: each is answered once or still
    waits. *)
From Stdlib Require Import ZArith Lia.
From stdpp Require Import base tactics numbers list option gmap fin_maps.
From S2P Require Import Prelude CString AuthText Acl Pdu LoginText Io Timer Login LoginReq.
From S2P Require Import SessionSetup StateM Initiator.

(** [R] across a run. *)
Definition across {A} (R : relation world) (m : M world A) : Prop :=
  forall w a w', m w = Some (a, w') -> R w w'.

(** The effects of which the handlers are made. *)
Class RespectsSteps (R : relation world) : Prop := {
  rs_preorder :: PreOrder R;
  rs_session : forall w o, R w (w <| w_session := o |>);
  rs_loose : forall w b, R w (w <| w_loose := b |>);
  rs_pos : forall w n, R w (w <| w_pos := n |>);
  rs_retry : forall w o, R w (w <| w_retry := o |>);
  rs_take : forall w n b, is_Some (w_qtasks w !! n) -> R w (w <| w_qtasks := <[n := b]> (w_qtasks w) |>);
  rs_answer : forall w n err, is_Some (w_qtasks w !! n) ->
    R w (w <| w_qtasks := delete n (w_qtasks w) |> <| w_answers := w_answers w ++ [(n, err)] |>)
}.

Section Steps.
Context `{LEnv : LoginEnv} `{AEnv : AuthEnv} (R : relation world) `{!RespectsSteps R}.

Lemma across_ret {A} (a : A) : across R (mret' a).
Proof. intros w x w' [= <- <-]. reflexivity. Qed.

Lemma across_then {A B} (m : M world A) (k : A -> M world B) :
  across R m -> (forall a, across R (k a)) -> across R (mthen m k).
Proof.
  intros Hm Hk w b w2. unfold mthen. destruct (m w) as [[a w1] |] eqn:E; [| done]. intros E2.
  etrans; [by eapply Hm | by eapply Hk].
Qed.

Lemma across_get : across R mget.
Proof. intros w x w' [= <- <-]. reflexivity. Qed.

Lemma across_opt {A} (o : option A) : across R (mopt o).
Proof. intros w x w'. unfold mopt. destruct o; cbn; [| done]. intros [= <- <-]. reflexivity. Qed.

Lemma across_mod f : (forall w, R w (f w)) -> across R (mmod f).
Proof. intros Hf w x w' [= <- <-]. apply Hf. Qed.

Lemma across_when (c : bool) m : across R m -> across R (mwhen c m).
Proof. destruct c; [done |]. intros _. apply across_ret. Qed.

Lemma across_the_session : across R the_session.
Proof. intros w x w'. unfold the_session. destruct (w_session w); cbn; [| done]. intros [= <- <-]. reflexivity. Qed.

Lemma across_set_session f : across R (set_session f).
Proof.
  intros w x w'. unfold set_session. destruct (w_session w); cbn; [| done]. intros [= <- <-]. apply rs_session.
Qed.

Lemma across_ctldev e w : R w (ctldev_handle e w).
Proof.
  unfold ctldev_handle. repeat case_match; try reflexivity; apply rs_session.
Qed.

Lemma across_ask c : across R (ask c).
Proof.
  intros w a w'. unfold ask. intros [= _ <-]. etrans; [apply (rs_pos _ (S (w_pos w))) |].
  generalize (a_events (w_ext w (w_pos w) c)) (w <| w_pos := S (w_pos w) |>). intros es. induction es as [| e es IH]; intros w1; cbn; [reflexivity |].
  etrans; [apply across_ctldev | apply IH].
Qed.

Lemma across_write_rsp q err : across R (mgmt_ipc_write_rsp q err).
Proof.
  destruct q as [[| n] |]; cbn; [apply across_then; [apply across_the_session | intros; apply across_ret] | | apply across_ret].
  intros w a w'. destruct (w_qtasks w !! n) eqn:E; [| done]. intros [= <- <-]. by apply rs_answer.
Qed.

Lemma across_set_qtask_conn q : across R (set_qtask_conn q).
Proof.
  destruct q as [| n]; cbn; [apply across_set_session |].
  intros w a w'. destruct (w_qtasks w !! n) eqn:E; [| done]. intros [= <- <-]. by apply rs_take.
Qed.

Lemma across_qtask_conn q : across R (qtask_conn q).
Proof.
  destruct q as [| n]; cbn; [apply across_then; [apply across_the_session | intros s] |].
  - destruct (reopen_conn s); [apply across_ret | done].
  - intros w a w'. destruct (w_qtasks w !! n) as [[] |]; [| done..]. intros [= <- <-]. reflexivity.
Qed.

Lemma across_fail {A} : across R (mfail : M world A).
Proof. done. Qed.
End Steps.

#[export] Hint Resolve across_ret across_get across_opt across_the_session across_set_session across_ask
  across_write_rsp across_set_qtask_conn across_qtask_conn across_fail : daemon.

(** Through a handler: its steps in order, every branch, and the handlers it
    calls that have no lemma unfolded. *)
Ltac head_of m := lazymatch m with ?f _ => head_of f | _ => m end.
Ltac go :=
  lazymatch goal with
  | |- across ?R (mthen _ _) => apply (across_then R); [go | intros ?; go]
  | |- across ?R (mwhen _ _) => apply (across_when R); go
  | |- across _ (let '(_, _) := ?x in _) => destruct x; go
  | |- across _ (match ?x with _ => _ end) => destruct x; go
  | |- forall _, _ => intros ?; go
  | |- across ?R (mmod _) =>
      apply (across_mod R); intros ?; first [apply (rs_session (R := R))
        | etrans; [apply (rs_session (R := R)) | apply (rs_loose (R := R))] | apply (rs_retry (R := R)) | apply (across_ctldev R)]
  | |- across _ ?m =>
      first [solve [eauto 2 with daemon typeclass_instances]
            | let h := head_of m in unfold h; cbv beta zeta; go]
  end.

Section Handlers.
Context `{AEnv : AuthEnv} `{LEnv : LoginEnv} (R : relation world) `{!RespectsSteps R}.

Lemma across_shutdown q err : across R (session_conn_shutdown q err).
Proof. go. Qed.
#[local] Hint Resolve across_shutdown : daemon.

Lemma across_reopen q do_stop redirected : across R (__session_conn_reopen q do_stop redirected).
Proof. go. Qed.
#[local] Hint Resolve across_reopen : daemon.

Lemma across_login_eh q err : across R (iscsi_login_eh q err).
Proof. go. Qed.
#[local] Hint Resolve across_login_eh : daemon.

Lemma across_conn_error : across R __conn_error_handle.
Proof. go. Qed.
#[local] Hint Resolve across_conn_error : daemon.

Lemma across_recv_pdu i pdu : across R (session_conn_recv_pdu i pdu).
Proof. go. Qed.
#[local] Hint Resolve across_recv_pdu : daemon.

Lemma across_poll i q : across R (session_conn_poll i q).
Proof. go. Qed.
#[local] Hint Resolve across_poll : daemon.

Lemma across_login_task tr rec n pos : across R (__session_login_task tr rec n pos).
Proof. go. Qed.
#[local] Hint Resolve across_login_task : daemon.

Lemma across_task_request tr rec n pos : across R (session_login_task tr rec n pos).
Proof. go. Qed.

Lemma across_sync tr rec n pos sid : across R (iscsi_sync_session tr rec n pos sid).
Proof. go. Qed.

Lemma across_logout sid n : across R (session_logout_task sid n).
Proof. go. Qed.
#[local] Hint Resolve across_task_request across_sync across_logout : daemon.

(** Every event but a request. *)
Definition new_request (e : event) : option nat :=
  match e with LoginRequest n _ _ _ | SyncRequest n _ _ _ _ | LogoutRequest n _ => Some n | _ => None end.

Lemma across_event e : new_request e = None -> across R (handle_event e).
Proof. destruct e; cbn [new_request handle_event]; intros H; try discriminate H; clear H; go. Qed.

(** A request, once it is registered. *)
Lemma across_request n e w u w' :
  new_request e = Some n -> handle_event e w = Some (u, w') ->
  R (w <| w_qtasks := <[n := false]> (w_qtasks w) |>) w'.
Proof.
  intros Hn. assert (exists task, handle_event e = mgmt_ipc_handle n task /\ across R task) as (task & -> & Ht).
  { destruct e; try discriminate Hn; injection Hn as ->; eexists; (split; [reflexivity | go]). }
  unfold mgmt_ipc_handle. unfold mthen at 1. cbn [mmod]. revert u w'.
  assert (Hk : across R (let! err := task in if decide (err = ISCSI_SUCCESS) then mret' tt else mgmt_ipc_write_rsp (Some (request n)) err)).
  { apply (across_then R); [exact Ht | intros err; go]. }
  intros u w'. apply Hk.
Qed.
End Handlers.

(** ** The account of the requests *)
Definition requests_of (w : world) : list nat := (w_answers w).*1 ++ (map_to_list (w_qtasks w)).*1.

Definition same_account (w w' : world) : Prop := requests_of w' ≡ₚ requests_of w.

Lemma keys_delete (m : gmap nat bool) n b : m !! n = Some b -> (map_to_list m).*1 ≡ₚ n :: (map_to_list (delete n m)).*1.
Proof. intros H. by rewrite <- (map_to_list_delete m n b H). Qed.

Lemma keys_take (m : gmap nat bool) n b : is_Some (m !! n) -> (map_to_list (<[n := b]> m)).*1 ≡ₚ (map_to_list m).*1.
Proof.
  intros [c H]. rewrite (keys_delete m n c H), (keys_delete (<[n := b]> m) n b) by apply lookup_insert_eq.
  by rewrite delete_insert_eq.
Qed.

#[export] Instance same_account_respects : RespectsSteps same_account.
Proof.
  constructor; unfold same_account.
  - split; [by intros w |]. intros w1 w2 w3 H1 H2. by rewrite H2.
  - done.
  - done.
  - done.
  - done.
  - intros w n b Hn. unfold requests_of. cbn. by rewrite (keys_take _ n b Hn).
  - intros w n err [b Hn]. unfold requests_of. cbn. rewrite fmap_app, <- app_assoc. cbn. by rewrite (keys_delete _ n b Hn).
Qed.

(** A request that no longer waits was answered. *)
Lemma answered_of_account w w' n :
  same_account w w' -> is_Some (w_qtasks w !! n) -> w_qtasks w' !! n = None -> In n (w_answers w').*1.
Proof.
  unfold same_account, requests_of. intros Hp [b Hb] Hn. apply list_elem_of_In.
  assert (Hin : n ∈ (w_answers w').*1 ++ (map_to_list (w_qtasks w')).*1).
  { rewrite Hp. apply elem_of_app. right. apply list_elem_of_fmap. exists (n, b). split; [done |]. by apply elem_of_map_to_list. }
  apply elem_of_app in Hin as [Hin | Hin]; [done |]. apply list_elem_of_fmap in Hin as ([m c] & -> & Hm).
  apply elem_of_map_to_list in Hm. cbn in Hn. congruence.
Qed.

(** ** The answer that goes out when a session is given up *)

(** Neither the session nor the answers go. *)
Definition keeps {A} (m : M world A) : Prop :=
  forall w a w', m w = Some (a, w') -> w_answers w' = w_answers w /\ (is_Some (w_session w) -> is_Some (w_session w')).

(** If the session goes, the answers [l] went out. *)
Definition closes (l : list (nat * Z)) {A} (m : M world A) : Prop :=
  forall w a w', m w = Some (a, w') -> is_Some (w_session w) -> w_session w' = None -> w_answers w' = w_answers w ++ l.

Lemma keeps_ret {A} (a : A) : keeps (mret' a).
Proof. by intros w x w' [= _ <-]. Qed.

Lemma keeps_the_session : keeps the_session.
Proof. intros w x w'. unfold the_session. destruct (w_session w) eqn:E; [| done]. intros [= _ <-]. by rewrite E. Qed.

Lemma keeps_set_session f : keeps (set_session f).
Proof. intros w x w'. unfold set_session. destruct (w_session w); [| done]. intros [= _ <-]. split; [done |]. by eexists. Qed.

Lemma keeps_ask c : keeps (ask c).
Proof.
  intros w a w'. unfold ask. intros [= _ <-].
  change (w_answers w) with (w_answers (w <| w_pos := S (w_pos w) |>)).
  change (w_session w) with (w_session (w <| w_pos := S (w_pos w) |>)).
  generalize (a_events (w_ext w (w_pos w) c)) (w <| w_pos := S (w_pos w) |>). intros es.
  induction es as [| e es IH]; intros w1; [done |]. cbn [foldl]. destruct (IH (ctldev_handle e w1)) as [-> H].
  assert (w_answers (ctldev_handle e w1) = w_answers w1 /\ (is_Some (w_session w1) -> is_Some (w_session (ctldev_handle e w1)))) as [-> Hs].
  { unfold ctldev_handle. destruct (w_session w1) eqn:E; [| done]. repeat case_match; (split; [done |]); intros _; cbn; rewrite ?E; by eexists. }
  split; [done |]. auto.
Qed.

Lemma keeps_then {A B} (m : M world A) (k : A -> M world B) : keeps m -> (forall a, keeps (k a)) -> keeps (mthen m k).
Proof.
  intros Hm Hk w b w2. unfold mthen. destruct (m w) as [[a w1] |] eqn:E; [| done]. intros E2.
  destruct (Hm _ _ _ E), (Hk _ _ _ _ E2). split; [congruence | auto].
Qed.

Lemma closes_keeps l {A} (m : M world A) : keeps m -> closes l m.
Proof. intros Hm w a w' E Hs Hn. destruct (Hm _ _ _ E) as [_ H]. destruct (H Hs) as [s Es]. congruence. Qed.

Lemma closes_then l {A B} (m : M world A) (k : A -> M world B) : keeps m -> (forall a, closes l (k a)) -> closes l (mthen m k).
Proof.
  intros Hm Hk w b w2. unfold mthen. destruct (m w) as [[a w1] |] eqn:E; [| done]. intros E2 Hs Hn.
  destruct (Hm _ _ _ E) as [<- H]. eapply Hk; eauto.
Qed.

Ltac keep := repeat first [apply keeps_ret | apply keeps_the_session | apply keeps_set_session | apply keeps_ask | case_decide | apply keeps_then; [| intros ?]].

Lemma closes_end n err : closes [(n, err)]
  (mgmt_ipc_write_rsp (Some (request n)) err ;;; conn_delete_timers ;;; __session_destroy ;;; mret' ISCSI_SUCCESS).
Proof.
  intros w a w' E _ _. revert E. unfold mthen at 1. cbn [mgmt_ipc_write_rsp]. destruct (w_qtasks w !! n); [| done].
  unfold conn_delete_timers, __session_destroy, iscsi_flush_context_pool, set_session, the_session, mthen, mmod, mret'. cbn.
  destruct (w_session w) as [s |]; [| done]. cbn. destruct (pool_dangling s); [done |]. cbn. by intros [= _ <-].
Qed.

Lemma shutdown_closes n err : closes [(n, err)] (session_conn_shutdown (Some (request n)) err).
Proof.
  unfold session_conn_shutdown, shutdown_cleanup. pose proof (closes_end n err) as Hend.
  repeat first [ exact Hend | apply closes_keeps; solve [keep] | case_decide | apply closes_then; [solve [keep] | intros ?] ].
Qed.

(** A fatal error of the first login. *)
Lemma fatal_answers n err w s u w' :
  w_session w = Some s -> state s = ISCSI_CONN_STATE_XPT_WAIT \/ state s = ISCSI_CONN_STATE_IN_LOGIN ->
  r_stage s = R_STAGE_NO_CHANGE \/ r_stage s = R_STAGE_SESSION_REDIRECT -> iscsi_login_is_fatal_err err = true ->
  iscsi_login_eh (request n) err w = Some (u, w') -> w_session w' = None -> w_answers w' = w_answers w ++ [(n, err)].
Proof.
  intros Es Hst Hr Hf E Hn. revert E. unfold iscsi_login_eh, iscsi_flush_context_pool, mthen at 1 2 3, the_session at 1. rewrite Es. cbn [mbind option_bind].
  destruct (pool_dangling s); [done |]. unfold set_session at 1. rewrite Es. cbn [mbind option_bind].
  set (w1 := w <| w_session := _ |>). unfold the_session at 1. cbn [w1 w_session mbind option_bind]. intros E.
  change (w_answers w) with (w_answers w1).
  assert (forall retry, unless_given_up (request n) err retry w1 = Some (u, w') -> w_answers w' = w_answers w1 ++ [(n, err)]) as Hgo.
  { intros retry. unfold unless_given_up. rewrite Hf. change (drop_session (Some (request n)) err w1 = Some (u, w') -> w_answers w' = w_answers w1 ++ [(n, err)]).
    unfold drop_session, mthen. destruct (session_conn_shutdown _ _ w1) as [[rc w2] |] eqn:E2; [| done]. intros [= _ <-].
    eapply shutdown_closes; [exact E2 | by eexists | done]. }
  revert E. change (w_session w1) with (Some (s <| pool := (fun _ => None) <$> pool s |>)). cbn [mbind option_bind].
  change (state (s <| pool := _ |>)) with (state s). change (r_stage (s <| pool := _ |>)) with (r_stage s).
  destruct Hst as [-> | ->], Hr as [-> | ->]; apply Hgo.
Qed.
