(* ===== verification/InitiatorTheorems.v ===== *)
(** * The session state machine: what the daemon guarantees

    Properties of every history of events of [Initiator], and a demonstration
    with a target that authenticates itself. *)
From Stdlib Require Import ZArith Lia String.
From stdpp Require Import base tactics numbers list option gmap.
From S2P Require Import Prelude CString AuthText Acl AclFrame AclSafety AclProtocol AclTheorems.
From S2P Require Import Pdu LoginText Io Timer Login LoginReq LoginSafety LoginReqSafety LoginDriver LoginTheorems.
From S2P Require Import SessionSetup SessionTheorems StateM Initiator InitiatorInv InitiatorSafety InitiatorLogin.
From S2P Require Import InitiatorEvents InitiatorTasks InitiatorRequests InitiatorHistory InitiatorAccount.
#[local] Open Scope string_scope.
#[local] Open Scope list_scope.

(** ** A demonstration *)
Module DaemonDemo.
#[local] Existing Instance Toy.env.
#[local] Existing Instance Demo.login_env.

Definition tcp : iscsi_transport := mk_transport 0x1bb None false false false.

Definition rec : node_rec :=
  mk_node_rec (str "iqn.2001-04.com.example:disk") 1 [] [] [] []
    (mk_auth_config (str "initiator") (Toy.pad (str "secretsecret")) 12
                    (str "target") (Toy.pad (str "othersecret!")) 12 [AUTH_CHAP_ALG_SHA256; AUTH_CHAP_ALG_MD5; 0; 0; 0]%Z)
    (mk_session_conf 0 1 262144 16776192 2 0 1 0 1) (mk_conn_conf 262144 0 0 0 0 0)
    (mk_kernel_record (str "10.0.0.1") 3260 120 1 15 30 30 5 5 (str "default") [] [] [])
    0 8 15 15 45 5 5 false.

Definition reply (rc : Z) : answer :=
  mk_answer rc 0 (mk_timeval 1000 0) [WBytes 10000; WBytes 10000] (fun _ _ => 0%Z) [].

(** A kernel that does what it is asked for. *)
Definition kernel (n : nat) (c : ext_call) : answer :=
  match c with X_ep_poll => reply 1 | X_create_session _ => (reply 0) | _ => reply 0 end.

Definition dconfig : daemon_config := mk_dconfig (Some (str "iqn.1993-08.org.debian:01:host")) None false.

Definition start : world := mk_world None ∅ [] kernel 0 None dconfig false.

Definition pdu (flags : Z) (texts : list (list Z * list Z)) : list event :=
  [KernelSends (ISCSI_KEVENT_RECV_PDU (Demo.rsp_bytes flags texts)); ContextRuns 0].

Definition login (secret : list Z) : list event :=
  [LoginRequest 1 tcp rec 3; ContextRuns 0] ++
  pdu 0 [(str "TargetPortalGroupTag", str "1"); (str "AuthMethod", str "CHAP")] ++
  pdu 0 [(str "CHAP_A", str "5"); (str "CHAP_I", str "7"); (str "CHAP_C", str "0x0102030405060708")] ++
  pdu 0x81 [(str "CHAP_N", str "target"); (str "CHAP_R", Toy.response secret)] ++
  pdu 0x87 [(str "HeaderDigest", str "None"); (str "InitialR2T", str "Yes")].

Definition outcome (o : option (unit * world)) :=
  '(_, w) ← o;
  Some ((fun s => (state s, login_timer s, length (g_calls s))) <$> w_session w, w_answers w, map_to_list (w_qtasks w)).

(** The target proves its identity; the client is answered. *)
Example mutual_login : outcome (run_events (login (str "othersecret!")) start) =
  Some (Some (ISCSI_CONN_STATE_LOGGED_IN, None, 4), [(1, ISCSI_SUCCESS)], []).
Proof. vm_compute. reflexivity. Qed.

(** An impostor: the session is gone and the client has the error. *)
Example impostor_gets_nothing : outcome (run_events (login (str "wrong")) start) =
  Some (None, [(1, ISCSI_ERR_FATAL_LOGIN)], []).
Proof. vm_compute. reflexivity. Qed.

(** A lost connection is reopened, and the new login starts from nothing. *)
Example reconnects :
  outcome (run_events (login (str "othersecret!") ++
                       [KernelSends (ISCSI_KEVENT_CONN_ERROR 1011); ContextRuns 0; LoginTimerRuns; ContextRuns 0]) start) =
  Some (Some (ISCSI_CONN_STATE_IN_LOGIN, Some (15%Z, reopen_qtask), 0), [(1, ISCSI_SUCCESS)], []).
Proof. vm_compute. reflexivity. Qed.

(** The history up to the first login request, and the whole one. *)
Definition begun : list event := take 2 (login (str "othersecret!")).
Definition whole : list event := login (str "othersecret!").

Definition world_after (es : list event) : world := default start (snd <$> run_events es start).
Definition session_after (es : list event) : daemon_session :=
  default (zero_dsession tcp rec 0) (w_session (world_after es)).

Lemma begun_runs : run_events begun start = Some (tt, world_after begun) /\
  w_session (world_after begun) = Some (session_after begun).
Proof. split; vm_compute; reflexivity. Qed.

Lemma whole_runs : run_events whole start = Some (tt, world_after whole) /\
  w_session (world_after whole) = Some (session_after whole).
Proof. split; vm_compute; reflexivity. Qed.

Lemma kernel_ok : ext_ok kernel.
Proof. intros n c. split; [by destruct c | by destruct c; constructor]. Qed.

Lemma rec_is_ok : rec_ok rec.
Proof. split; [split | | |]; apply (bool_decide_unpack _); vm_compute; exact I. Qed.

Lemma whole_soft : Forall software_login whole.
Proof. repeat constructor. Qed.

Lemma whole_formed : Forall well_formed_event whole.
Proof.
  repeat constructor; try exact rec_is_ok; apply (bool_decide_unpack _); vm_compute; exact I.
Qed.

Lemma begun_soft : Forall software_login begun.
Proof. apply Forall_take, whole_soft. Qed.

Lemma begun_formed : Forall well_formed_event begun.
Proof. apply Forall_take, whole_formed. Qed.

(** A kernel that fails to unbind the session, and fails once to stop a
    connection. *)
Definition flaky (n : nat) (c : ext_call) : answer :=
  match c with
  | X_unbind_session | X_has_leadconn => reply 1
  | X_stop_conn _ => reply (if decide (n < 27) then 1 else 0)
  | _ => kernel n c
  end.

Definition flaky_start : world := start <| w_ext := flaky |>.
End DaemonDemo.

(** ** The properties

    They hold under four conditions, which each statement has: the transports do
    not offload the login ([software_login]; for those that do see
    [DaemonDefect.offload_failure_dangles]); the records have the form that the
    database gives them, and the kernel sends bytes ([well_formed_event]); the
    kernel closes what it is asked to close, and memory for contexts and login
    retries can be allocated ([ext_ok]); the daemon has just started ([idle]). *)
Section Properties.
Context `{AEnv : AuthEnv} {AEnvOk : AuthEnvOk AEnv} `{LEnv : LoginEnv}.

(** A daemon that has just started. *)
Record idle (w : world) : Prop := {
  id_session : w_session w = None;
  id_qtasks : w_qtasks w = ∅;
  id_answers : w_answers w = [];
  id_retry : w_retry w = None;
  id_config : dconfig_ok (w_config w);
  id_loose : w_loose w = false
}.

Lemma idle_ok w : idle w -> ext_ok (w_ext w) -> world_ok w.
Proof. intros [H1 H2 H3 H4 H5 H6] Hx. constructor; try done; [intros s E | intros n rec c E]; congruence. Qed.

Lemma reachable_ok es w0 u w :
  idle w0 -> ext_ok (w_ext w0) -> Forall software_login es -> Forall well_formed_event es ->
  run_events es w0 = Some (u, w) -> world_ok w.
Proof.
  intros Hi Hx Hs He E. destruct (run_events_ok es w0 (idle_ok w0 Hi Hx) Hs He) as (a & w' & E' & Hw). congruence.
Qed.

(** C3: No history of the daemon reaches memory that was released: whatever
    the events (login, synchronisation and logout requests, PDUs and errors
    from the kernel, timers, in any order), whatever the PDUs contain and
    whatever the other calls to the outside answer, every handler finds the
    session, the requests and the contexts it follows and stays inside its
    buffers, and no session is released while one of its timers or contexts is
    queued.  For transports that do not offload the login, records as the
    database gives them, a kernel that closes what it is asked to close, and
    memory for contexts. *)
Theorem daemon_memory_safe es w :
  idle w -> ext_ok (w_ext w) -> Forall software_login es -> Forall well_formed_event es ->
  exists w', run_events es w = Some (tt, w') /\ w_loose w' = false.
Proof.
  intros Hi Hx Hs He. destruct (run_events_ok es w (idle_ok w Hi Hx) Hs He) as ([] & w' & E & Hw). exists w'.
  split; [exact E | apply Hw].
Qed.

(** C2: A session that is logged in, or is logging out, and is to authenticate
    its target received, in the login that led there, a PDU with the configured
    name and the digest over the challenge of that login: no order of events,
    reconnections and redirections included, gets around it.  For transports
    that do not offload the login (with the others it is the hardware that
    logs in), records as the database gives them, a kernel that closes what it
    is asked to close, and memory for contexts. *)
Theorem logged_in_is_authenticated es w0 u w s :
  idle w0 -> ext_ok (w_ext w0) -> Forall software_login es -> Forall well_formed_event es ->
  run_events es w0 = Some (u, w) -> w_session w = Some s ->
  state s = ISCSI_CONN_STATE_LOGGED_IN \/ state s = ISCSI_CONN_STATE_IN_LOGOUT ->
  truth (bidirectional_auth (lg s)) = true -> (0 < num_auth_buffers (lg s))%Z ->
  Exists (call_verified (g_start s)) (g_calls s).
Proof.
  intros Hi Hx Hsoft He E Es Hst. destruct (world_at w s (reachable_ok _ _ _ _ Hi Hx Hsoft He E) Es) as [_ Hs].
  apply (up_auth _ _ (ok_up _ _ Hs Hst)).
Qed.

(** C4: A connection attempt cannot hang: a session that waits for the
    transport or for a login response has its login timer running, for a
    request that can be followed, and when the timer expires either the session
    is removed and the request answered, or a new attempt starts with the timer
    running again.  For transports that do not offload the login (for the
    others the daemon stops the timer and waits for the hardware), records as
    the database gives them, a kernel that closes what it is asked to close,
    and memory for contexts. *)
Theorem connecting_makes_progress es w0 u w s :
  idle w0 -> ext_ok (w_ext w0) -> Forall software_login es -> Forall well_formed_event es ->
  run_events es w0 = Some (u, w) -> w_session w = Some s -> is_connecting s ->
  exists d q w', login_timer s = Some (d, q) /\ handle_event LoginTimerRuns w = Some (tt, w') /\
    (w_session w' = None /\ (forall n, q = request n -> w_qtasks w' !! n = None /\ In n (w_answers w').*1) \/
     exists s' d' q', w_session w' = Some s' /\ state s' = ISCSI_CONN_STATE_XPT_WAIT /\ login_timer s' = Some (d', q')).
Proof.
  intros Hi Hx Hsoft He E Es Hc. pose proof (reachable_ok _ _ _ _ Hi Hx Hsoft He E) as Hok.
  destruct (world_at w s Hok Es) as [Hw Hs]. destruct (connecting_watched _ _ Hs Hc) as (_ & d & q & Et & Hr).
  destruct (login_timer_settles w _ s d q Hw Hs Et) as ([] & w' & Er & Hset).
  assert (handle_event LoginTimerRuns w = Some (tt, w')) as Eh.
  { cbn [handle_event]. unfold run_actor, mthen, mget. by rewrite (wo_loose _ Hok). }
  exists d, q, w'. split_and!; [done | exact Eh |]. destruct Hset as [(_ & Hn & Hq & _) | (qs & s' & Hw' & Hs' & Est)].
  - left. split; [done |]. intros n ->. cbn [answered] in Hq. rewrite Hq, lookup_delete_eq. split; [done |].
    pose proof (across_event same_account LoginTimerRuns eq_refl w tt w' Eh) as Hacc.
    eapply answered_of_account; [exact Hacc | | by rewrite Hq, lookup_delete_eq]. by eexists.
  - right. destruct (connecting_watched _ _ Hs' (or_introl Est)) as (_ & d' & q' & Et' & _).
    exists s', d', q'. split_and!; [apply Hw' | done | done].
Qed.


(** C33: A fatal error of the first login (the target refuses the
    authorisation, or the login cannot succeed), also after a redirection, is
    not retried: the session is removed, and the client that asked for it gets
    exactly that error as its answer, and nobody else one.  For transports that
    do not offload the login, records as the database gives them, a kernel that
    closes what it is asked to close, and memory for contexts. *)
Theorem fatal_login_error es w0 u w s n err :
  idle w0 -> ext_ok (w_ext w0) -> Forall software_login es -> Forall well_formed_event es ->
  run_events es w0 = Some (u, w) -> w_session w = Some s -> is_connecting s ->
  r_stage s = R_STAGE_NO_CHANGE \/ r_stage s = R_STAGE_SESSION_REDIRECT ->
  is_Some (w_qtasks w !! n) -> iscsi_login_is_fatal_err err = true ->
  exists w', iscsi_login_eh (request n) err w = Some (tt, w') /\ w_session w' = None /\ w_loose w' = false /\
    w_qtasks w' = delete n (w_qtasks w) /\ w_answers w' = w_answers w ++ [(n, err)].
Proof.
  intros Hi Hx Hsoft He E Es Hc Hst Hn Hf. destruct (world_at w s (reachable_ok _ _ _ _ Hi Hx Hsoft He E) Es) as [Hw Hs].
  destruct (fatal_closes w _ s (request n) err Hw (proj1 Hs) Hn Hc Hst Hf) as ([] & w' & Er & Hok & H1 & H2 & _).
  exists w'. split_and!; [exact Er | done | apply Hok | done |]. by eapply fatal_answers.
Qed.
End Properties.

(** ** Witnesses *)
Module DaemonWitness.
#[local] Existing Instance Toy.env.
#[local] Existing Instance Toy.env_ok.
#[local] Existing Instance Demo.login_env.
Import DaemonDemo.

Lemma start_idle : idle start.
Proof.
  constructor; try reflexivity. split; [| discriminate]. intros l [= <-].
  apply (bool_decide_unpack _). vm_compute. exact I.
Qed.

Lemma daemon_memory_safe_witness : exists w', run_events whole start = Some (tt, w') /\ w_loose w' = false.
Proof. apply daemon_memory_safe; [exact start_idle | exact kernel_ok | exact whole_soft | exact whole_formed]. Defined.

Lemma logged_in_is_authenticated_witness :
  state (session_after whole) = ISCSI_CONN_STATE_LOGGED_IN /\
  Exists (call_verified (g_start (session_after whole))) (g_calls (session_after whole)).
Proof.
  split; [vm_compute; reflexivity |].
  apply (logged_in_is_authenticated whole start tt (world_after whole)).
  - exact start_idle.
  - exact kernel_ok.
  - exact whole_soft.
  - exact whole_formed.
  - exact (proj1 whole_runs).
  - exact (proj2 whole_runs).
  - left. vm_compute. reflexivity.
  - vm_compute. reflexivity.
  - vm_compute. reflexivity.
Defined.

Lemma connecting_makes_progress_witness :
  exists d q w', login_timer (session_after begun) = Some (d, q) /\
    handle_event LoginTimerRuns (world_after begun) = Some (tt, w') /\
    (w_session w' = None /\ (forall n, q = request n -> w_qtasks w' !! n = None /\ In n (w_answers w').*1) \/
     exists s' d' q', w_session w' = Some s' /\ state s' = ISCSI_CONN_STATE_XPT_WAIT /\ login_timer s' = Some (d', q')).
Proof.
  apply (connecting_makes_progress begun start tt).
  - exact start_idle.
  - exact kernel_ok.
  - exact begun_soft.
  - exact begun_formed.
  - exact (proj1 begun_runs).
  - exact (proj2 begun_runs).
  - right. vm_compute. reflexivity.
Defined.


Lemma fatal_login_error_witness :
  exists w', iscsi_login_eh (request 1) ISCSI_ERR_FATAL_LOGIN (world_after begun) = Some (tt, w') /\
    w_session w' = None /\ w_loose w' = false /\ w_qtasks w' = delete 1 (w_qtasks (world_after begun)) /\
    w_answers w' = w_answers (world_after begun) ++ [(1, ISCSI_ERR_FATAL_LOGIN)].
Proof.
  apply (fatal_login_error begun start tt (world_after begun) (session_after begun)).
  - exact start_idle.
  - exact kernel_ok.
  - exact begun_soft.
  - exact begun_formed.
  - exact (proj1 begun_runs).
  - exact (proj2 begun_runs).
  - right. vm_compute. reflexivity.
  - left. vm_compute. reflexivity.
  - exists true. vm_compute. reflexivity.
  - reflexivity.
Defined.
End DaemonWitness.

(** ** Defects *)
Module DaemonDefect.
#[local] Existing Instance Toy.env.
#[local] Existing Instance Demo.login_env.
Import DaemonDemo.

(** The hypothesis that the kernel does not fail to stop a connection is
    needed: when the shutdown inside a logout fails, the request is answered
    and released while the connection keeps its address, and the next error of
    the connection writes to it again. *)
Theorem failed_logout_dangles :
  let logout := whole ++ [LogoutRequest 2 0] in
  outcome (run_events logout flaky_start) =
    Some (Some (ISCSI_CONN_STATE_IN_LOGOUT, None, 4), [(1, ISCSI_SUCCESS); (2, ISCSI_ERR_INTERNAL)], []) /\
  (w ← run_events logout flaky_start; s ← w_session w.2; logout_qtask s) = Some (request 2) /\
  run_events (logout ++ [KernelSends (ISCSI_KEVENT_CONN_ERROR 1011); ContextRuns 1]) flaky_start = None.
Proof. vm_compute. auto. Qed.

(** An adapter that does the login itself. *)
Definition offload : iscsi_transport := mk_transport (Z.lor 0x1bb CAP_LOGIN_OFFLOAD) None false false false.

(** The condition on the transports is needed: the adapter reports a login, the
    connection is lost and the login timer runs for the next attempt; when the
    adapter then reports that the login failed, the session is released without
    its timers, and the timer expires in released memory. *)
Theorem offload_failure_dangles :
  let login := [LoginRequest 1 offload rec 3; ContextRuns 0;
                KernelSends (ISCSI_KEVENT_CONN_LOGIN_STATE ISCSI_CONN_STATE_LOGGED_IN); ContextRuns 0;
                KernelSends (ISCSI_KEVENT_CONN_ERROR 1011); ContextRuns 0] in
  let failed := [KernelSends (ISCSI_KEVENT_CONN_LOGIN_STATE ISCSI_CONN_STATE_FREE); ContextRuns 0] in
  outcome (run_events login start) =
    Some (Some (ISCSI_CONN_STATE_XPT_WAIT, Some (2%Z, reopen_qtask), 0), [(1, ISCSI_SUCCESS)], []) /\
  (outcome (run_events (login ++ failed) start), w_loose ∘ snd <$> run_events (login ++ failed) start) =
    (Some (None, [(1, ISCSI_SUCCESS)], []), Some true) /\
  run_events (login ++ failed ++ [LoginTimerRuns]) start = None.
Proof. vm_compute. auto. Qed.
End DaemonDefect.
