(* ===== verification/ListHead.v ===== *)
(** * Intrusive doubly linked lists (include/list.h)

    A [struct list_head] is a node of a heap; the macros that find the
    structure around it ([list_container_of]) are the identity on addresses,
    because a structure is addressed by its node.  Following NULL or an
    address outside the heap is [None].  The second half shows that on a
    well-formed circular list the functions are insertion and removal on the
    sequence of its elements, and change no other list. *)
From stdpp Require Import base tactics list option gmap sets.
From S2P Require Import Prelude.

(** ** The functions of list.h *)
Record list_head := mk_list_head { next : option nat; prev : option nat }.

Notation heap := (gmap nat list_head).

(** [l->next = v] and [l->prev = v]. *)
Definition set_next (h : heap) (l : nat) (v : option nat) : option heap :=
  n ← h !! l; Some (<[l := mk_list_head v (prev n)]> h).
Definition set_prev (h : heap) (l : nat) (v : option nat) : option heap :=
  n ← h !! l; Some (<[l := mk_list_head (next n) v]> h).

(** [l->next] and [l->prev], followed. *)
Definition get_next (h : heap) (l : nat) : option nat := n ← h !! l; next n.
Definition get_prev (h : heap) (l : nat) : option nat := n ← h !! l; prev n.

Definition INIT_LIST_HEAD (h : heap) (list : nat) : option heap :=
  h ← set_next h list (Some list);
  set_prev h list (Some list).

Definition list_empty (h : heap) (head : nat) : option bool :=
  n ← h !! head; Some (bool_decide (next n = Some head)).

Definition list_first_entry (h : heap) (ptr : nat) : option nat := get_next h ptr.

Definition list_first_entry_or_null (h : heap) (ptr : nat) : option (option nat) :=
  e ← list_empty h ptr;
  if e : bool then Some None else Some <$> list_first_entry h ptr.

Definition __list_add (h : heap) (new prev next : nat) : option heap :=
  h ← set_prev h next (Some new);
  h ← set_next h new (Some next);
  h ← set_prev h new (Some prev);
  set_next h prev (Some new).

Definition list_add (h : heap) (new head : nat) : option heap :=
  nx ← get_next h head;
  __list_add h new head nx.

Definition list_add_tail (h : heap) (new head : nat) : option heap :=
  pv ← get_prev h head;
  __list_add h new pv head.

Definition __list_del (h : heap) (prev next : nat) : option heap :=
  h ← set_prev h next (Some prev);
  set_next h prev (Some next).

Definition list_del (h : heap) (entry : nat) : option heap :=
  pv ← get_prev h entry;
  nx ← get_next h entry;
  h ← __list_del h pv nx;
  h ← set_prev h entry None;
  set_next h entry None.

Definition list_del_init (h : heap) (entry : nat) : option heap :=
  pv ← get_prev h entry;
  nx ← get_next h entry;
  h ← __list_del h pv nx;
  INIT_LIST_HEAD h entry.

Definition list_move_tail (h : heap) (list head : nat) : option heap :=
  pv ← get_prev h list;
  nx ← get_next h list;
  h ← __list_del h pv nx;
  list_add_tail h list head.

(** ** Well-formed lists

    [links a l] are the neighbours on the way from [a] through [l]. *)
Definition link (h : heap) (x y : nat) : Prop := get_next h x = Some y /\ get_prev h y = Some x.

Fixpoint links (a : nat) (l : list nat) : list (nat * nat) :=
  match l with
  | [] => []
  | x :: l' => (a, x) :: links x l'
  end.

Definition path (h : heap) (a : nat) (l : list nat) : Prop :=
  Forall (fun p => link h p.1 p.2) (links a l).

(** The circular list at [head] has the elements [l]. *)
Definition is_list (h : heap) (head : nat) (l : list nat) : Prop :=
  NoDup (head :: l) /\ path h head (l ++ [head]).

(** The node before what follows [l], on a list at [a]. *)
Definition last_of (a : nat) (l : list nat) : nat := default a (last l).

(** Links between nodes outside [S] are kept, and so is the set of nodes. *)
Definition untouched (S : list nat) (h h' : heap) : Prop :=
  dom h' = dom h /\ forall x y, x ∉ S -> y ∉ S -> link h x y -> link h' x y.

Lemma last_of_snoc a l x : last_of a (l ++ [x]) = x.
Proof. unfold last_of. by rewrite last_snoc. Qed.

Lemma last_of_cons a x l : last_of a (x :: l) = last_of x l.
Proof. unfold last_of. destruct l; [done |]. rewrite last_cons_cons. by destruct (last_is_Some (n :: l)) as [_ [? ->]]. Qed.

Lemma last_of_in a l : last_of a l ∈ a :: l.
Proof.
  induction l as [| x l _] using rev_ind; [by left |].
  rewrite last_of_snoc. right. apply elem_of_app. right. by left.
Qed.

Lemma links_app a l1 l2 : links a (l1 ++ l2) = links a l1 ++ links (last_of a l1) l2.
Proof.
  revert a. induction l1 as [| x l1 IH]; intros a; [done |].
  cbn [links app]. by rewrite IH, last_of_cons.
Qed.

Lemma links_elem a l x y : (x, y) ∈ links a l -> x ∈ a :: l /\ y ∈ l.
Proof.
  revert a. induction l as [| z l IH]; intros a Hin; [by apply elem_of_nil in Hin |].
  apply elem_of_cons in Hin as [[= -> ->] | Hin]; [split; by left || by repeat constructor |].
  apply IH in Hin as [Hx Hy]. split; by right.
Qed.

(** In a list without repetitions the last node is not the source of a link. *)
Lemma links_source a l x y : NoDup (a :: l) -> (x, y) ∈ links a l -> x <> last_of a l.
Proof.
  revert a. induction l as [| z l IH]; intros a Hnd Hin; [by apply elem_of_nil in Hin |].
  rewrite last_of_cons. apply NoDup_cons in Hnd as [Ha Hnd].
  apply elem_of_cons in Hin as [[= -> ->] | Hin].
  - intros ->. apply Ha, last_of_in.
  - by apply (IH z).
Qed.

Lemma path_app h a l1 l2 : path h a (l1 ++ l2) <-> path h a l1 /\ path h (last_of a l1) l2.
Proof. unfold path. by rewrite links_app, Forall_app. Qed.

Lemma path_cons h a x l : path h a (x :: l) <-> link h a x /\ path h x l.
Proof. unfold path. cbn [links]. by rewrite Forall_cons. Qed.

Lemma path_mono h h' a l :
  (forall x y, (x, y) ∈ links a l -> link h x y -> link h' x y) -> path h a l -> path h' a l.
Proof.
  unfold path. rewrite !Forall_forall. intros Hm Hp [x y] Hin. apply Hm; [done |]. apply (Hp (x, y)), Hin.
Qed.

(** A list that shares no node with [S] is still there. *)
Lemma untouched_list S h h' head l :
  untouched S h h' -> (forall x, x ∈ head :: l -> x ∉ S) -> is_list h head l -> is_list h' head l.
Proof.
  intros [_ Hu] Hdis [Hnd Hp]. split; [done |]. revert Hp. apply path_mono.
  intros x y Hin. apply links_elem in Hin as [Hx Hy].
  apply Hu; apply Hdis; set_solver.
Qed.

Lemma untouched_trans S h1 h2 h3 : untouched S h1 h2 -> untouched S h2 h3 -> untouched S h1 h3.
Proof. intros [Hd1 H1] [Hd2 H2]. split; [congruence |]. eauto. Qed.

Lemma untouched_weaken S S' h h' : S ⊆ S' -> untouched S h h' -> untouched S' h h'.
Proof. intros HS [Hd Hu]. split; [done |]. intros x y Hx Hy. apply Hu; set_solver. Qed.

(** ** Assignments *)
Lemma set_next_spec h l v : l ∈ dom h ->
  exists h', set_next h l v = Some h' /\ dom h' = dom h /\
    (forall x, get_next h' x = if decide (x = l) then v else get_next h x) /\
    (forall x, get_prev h' x = get_prev h x).
Proof.
  intros [n Hn]%elem_of_dom. unfold set_next, get_next, get_prev. rewrite Hn. cbn.
  eexists. split; [done |]. split; [rewrite dom_insert_L; apply elem_of_dom_2 in Hn; set_solver |].
  split; intros x; case (decide (x = l)) as [-> | Hx];
    rewrite ?lookup_insert_eq, ?lookup_insert_ne by done; rewrite ?Hn; done.
Qed.

Lemma set_prev_spec h l v : l ∈ dom h ->
  exists h', set_prev h l v = Some h' /\ dom h' = dom h /\
    (forall x, get_prev h' x = if decide (x = l) then v else get_prev h x) /\
    (forall x, get_next h' x = get_next h x).
Proof.
  intros [n Hn]%elem_of_dom. unfold set_prev, get_next, get_prev. rewrite Hn. cbn.
  eexists. split; [done |]. split; [rewrite dom_insert_L; apply elem_of_dom_2 in Hn; set_solver |].
  split; intros x; case (decide (x = l)) as [-> | Hx];
    rewrite ?lookup_insert_eq, ?lookup_insert_ne by done; rewrite ?Hn; done.
Qed.

Lemma link_dom h x y : link h x y -> x ∈ dom h /\ y ∈ dom h.
Proof.
  unfold link, get_next, get_prev. intros [Hn Hp]. rewrite !elem_of_dom.
  destruct (h !! x); [| done]. destruct (h !! y); [| done]. eauto.
Qed.

(** Runs an assignment whose target is allocated. *)
Ltac assign spec :=
  match goal with
  | |- context [set_next ?h ?l ?v] =>
      let h' := fresh "h" in let E := fresh "E" in
      destruct (set_next_spec h l v) as (h' & E & ? & ? & ?); [spec | rewrite E; clear E; cbn [mbind option_bind]]
  | |- context [set_prev ?h ?l ?v] =>
      let h' := fresh "h" in let E := fresh "E" in
      destruct (set_prev_spec h l v) as (h' & E & ? & ? & ?); [spec | rewrite E; clear E; cbn [mbind option_bind]]
  end.

(** Reads the fields back through the assignments. *)
Ltac read_fields :=
  repeat match goal with
         | H : forall x, get_next ?h x = _ |- context [get_next ?h _] => rewrite H
         | H : forall x, get_prev ?h x = _ |- context [get_prev ?h _] => rewrite H
         end; repeat case_decide; try congruence; try done.

Lemma list_add_links h new p n :
  new ∈ dom h -> p ∈ dom h -> n ∈ dom h -> new <> p -> new <> n ->
  exists h', __list_add h new p n = Some h' /\ dom h' = dom h /\ link h' p new /\ link h' new n /\
    (forall x y, x <> p -> x <> new -> y <> n -> y <> new -> link h x y -> link h' x y).
Proof.
  intros Hnew Hp Hn Hnp Hnn. unfold __list_add.
  do 4 assign ltac:(congruence). eexists. split; [done |]. split; [congruence |].
  unfold link. split; [split; read_fields |]. split; [split; read_fields |].
  intros x y ???? [Hx Hy]. split; read_fields.
Qed.

Lemma list_del_links h p n :
  p ∈ dom h -> n ∈ dom h ->
  exists h', __list_del h p n = Some h' /\ dom h' = dom h /\ link h' p n /\
    (forall x y, x <> p -> y <> n -> link h x y -> link h' x y).
Proof.
  intros Hp Hn. unfold __list_del.
  do 2 assign ltac:(congruence). eexists. split; [done |]. split; [congruence |].
  unfold link. split; [split; read_fields |].
  intros x y ?? [Hx Hy]. split; read_fields.
Qed.

Lemma INIT_LIST_HEAD_spec h e :
  e ∈ dom h -> exists h', INIT_LIST_HEAD h e = Some h' /\ dom h' = dom h /\ is_list h' e [] /\
    (forall x y, x <> e -> y <> e -> link h x y -> link h' x y).
Proof.
  intros He. unfold INIT_LIST_HEAD. do 2 assign ltac:(congruence).
  eexists. split; [done |]. split; [congruence |]. split.
  - split; [apply NoDup_singleton |]. cbn. apply path_cons. split; [split; read_fields | constructor].
  - intros x y ?? [Hx Hy]. split; read_fields.
Qed.

(** ** Insertion and removal *)

(** A list cut at a position: [p] is the node before it and [n :: rest] what
    follows up to the head. *)
Lemma is_list_cut h head l1 l2 :
  is_list h head (l1 ++ l2) ->
  exists n rest, l2 ++ [head] = n :: rest /\ last_of n rest = head /\
    path h head l1 /\ link h (last_of head l1) n /\ path h n rest /\
    NoDup (head :: l1) /\ NoDup (n :: rest) /\ (forall x, x ∈ l1 -> x ∉ n :: rest).
Proof.
  intros [Hnd Hp]. rewrite <- app_assoc in Hp. apply path_app in Hp as [Hp1 Hp2].
  apply NoDup_cons in Hnd as [Hh Hnd]. apply NoDup_app in Hnd as (Hnd1 & Hdis & Hnd2).
  assert (Hnd2' : NoDup (l2 ++ [head])).
  { apply NoDup_app. split; [done |]. split; [set_solver | apply NoDup_singleton]. }
  assert (Hdis' : forall x, x ∈ l1 -> x ∉ l2 ++ [head]) by set_solver.
  assert (Hlast : last_of head (l2 ++ [head]) = head) by apply last_of_snoc.
  destruct (l2 ++ [head]) as [| n rest] eqn:E; [by destruct l2 |].
  apply path_cons in Hp2 as [Hl Hp2]. rewrite last_of_cons in Hlast.
  exists n, rest. split_and!; try done. apply NoDup_cons. split; [set_solver | done].
Qed.

Lemma source_ne hd l1 n rest x :
  (forall y, y ∈ l1 -> y ∉ n :: rest) -> last_of n rest = hd -> x ∈ n :: rest -> x <> last_of n rest ->
  x <> last_of hd l1.
Proof.
  intros Hdis Hlast Hx Hne ->. pose proof (last_of_in hd l1) as [? | ?]%elem_of_cons; [congruence |].
  by eapply Hdis.
Qed.

(** The node that follows the position before [l2]. *)
Definition first_of (a : nat) (l : list nat) : nat := default a (head l).

Lemma is_list_insert h new hd l1 l2 :
  is_list h hd (l1 ++ l2) -> new ∈ dom h -> new ∉ hd :: l1 ++ l2 ->
  exists h', __list_add h new (last_of hd l1) (first_of hd l2) = Some h' /\
    is_list h' hd (l1 ++ new :: l2) /\ untouched (new :: hd :: l1 ++ l2) h h'.
Proof.
  intros Hl Hnew Hfresh. pose proof (proj1 Hl) as Hnd.
  apply is_list_cut in Hl as (n & rest & E & Hlast & Hp1 & Hlink & Hp2 & Hnd1 & Hnd2 & Hdis).
  assert (Hn : first_of hd l2 = n) by (destruct l2; by injection E as -> _).
  assert (Hin : forall x, x ∈ n :: rest -> x ∈ hd :: l1 ++ l2) by (rewrite <- E; set_solver).
  pose proof (last_of_in hd l1) as Hpin. rewrite Hn.
  destruct (link_dom _ _ _ Hlink) as [Hpd Hnd'].
  destruct (list_add_links h new (last_of hd l1) n) as (h' & -> & Hdom & Hl1 & Hl2 & Hframe);
    [done | done | done | set_solver | set_solver |].
  exists h'. split; [done |]. split.
  - split; [rewrite <- Permutation_middle; rewrite NoDup_cons in Hnd |- *; rewrite NoDup_cons; set_solver |].
    rewrite <- app_assoc. cbn [app]. rewrite E. rewrite path_app, !path_cons.
    split; [| split; [done | split; [done |]]].
    + revert Hp1. apply path_mono. intros x y Hxy. pose proof (links_source _ _ _ _ Hnd1 Hxy).
      apply links_elem in Hxy as [Hx Hy]. apply Hframe; [done | set_solver | | set_solver].
      intros ->. apply (Hdis n Hy). by left.
    + revert Hp2. apply path_mono. intros x y Hxy. pose proof (links_source _ _ _ _ Hnd2 Hxy) as Hsrc.
      apply links_elem in Hxy as [Hx Hy]. apply NoDup_cons in Hnd2 as [Hn2 _].
      apply Hframe; [by eapply source_ne | set_solver | set_solver | set_solver].
  - split; [done |]. intros x y Hx Hy. apply Hframe; set_solver.
Qed.

Lemma NoDup_middle (hd e : nat) l1 l2 :
  NoDup (hd :: l1 ++ e :: l2) -> NoDup (hd :: l1 ++ l2) /\ e ∉ hd :: l1 ++ l2.
Proof.
  change (NoDup ((hd :: l1) ++ e :: l2) -> NoDup ((hd :: l1) ++ l2) /\ e ∉ (hd :: l1) ++ l2).
  rewrite <- Permutation_middle. intros Hnd. by apply NoDup_cons in Hnd as [??].
Qed.

Lemma is_list_remove h e hd l1 l2 :
  is_list h hd (l1 ++ e :: l2) ->
  get_prev h e = Some (last_of hd l1) /\ get_next h e = Some (first_of hd l2) /\
  exists h', __list_del h (last_of hd l1) (first_of hd l2) = Some h' /\
    is_list h' hd (l1 ++ l2) /\ untouched (hd :: l1 ++ e :: l2) h h'.
Proof.
  intros Hl. pose proof (NoDup_middle _ _ _ _ (proj1 Hl)) as [Hnd Hfresh].
  pose proof Hl as [_ Hpath]. rewrite <- app_assoc in Hpath. cbn [app] in Hpath.
  apply path_app in Hpath as [_ [[_ Hpe] Hpath]%path_cons].
  assert (Hl' : l1 ++ e :: l2 = (l1 ++ [e]) ++ l2) by (by rewrite <- app_assoc). rewrite Hl' in Hl.
  apply is_list_cut in Hl as (n & rest & E & Hlast & Hp1 & Hlink & Hp2 & Hnd1 & Hnd2 & Hdis).
  assert (Hn : first_of hd l2 = n) by (destruct l2; by injection E as -> _).
  assert (Hin : forall x, x ∈ n :: rest -> x ∈ hd :: l1 ++ l2) by (rewrite <- E; set_solver).
  rewrite last_of_snoc in Hlink. apply path_app in Hp1 as [Hp1 [Hle _]%path_cons].
  pose proof (last_of_in hd l1) as Hpin. rewrite Hn.
  split; [done |]. split; [apply Hlink |].
  destruct (list_del_links h (last_of hd l1) n) as (h' & -> & Hdom & Hl1 & Hframe);
    [apply (link_dom _ _ _ Hle) | apply (link_dom _ _ _ Hlink) |].
  assert (Hnd1' : NoDup (hd :: l1)) by (apply (NoDup_app (hd :: l1) [e]) in Hnd1; tauto).
  exists h'. split; [done |]. split.
  - split; [done |]. rewrite <- app_assoc, E, path_app, path_cons. split; [| split; [done |]].
    + revert Hp1. apply path_mono. intros x y Hxy. pose proof (links_source _ _ _ _ Hnd1' Hxy).
      apply links_elem in Hxy as [Hx Hy]. apply Hframe; [done |].
      intros ->. apply (Hdis n); [set_solver | by left].
    + revert Hp2. apply path_mono. intros x y Hxy. pose proof (links_source _ _ _ _ Hnd2 Hxy) as Hsrc.
      apply links_elem in Hxy as [Hx Hy]. apply NoDup_cons in Hnd2 as [Hn2 _].
      apply Hframe; [eapply source_ne; [| done | done | done]; set_solver | set_solver].
  - split; [done |]. intros x y Hx Hy. apply Hframe; set_solver.
Qed.

(** ** The functions on a well-formed list *)
Lemma list_empty_spec h hd l : is_list h hd l -> list_empty h hd = Some (bool_decide (l = [])).
Proof.
  intros [Hnd Hp]. unfold list_empty.
  assert (Hl : link h hd (first_of hd l)) by (destruct l; by apply path_cons in Hp as [? _]).
  destruct Hl as [Hn _]. unfold get_next in Hn. destruct (h !! hd); [| done]. cbn in *.
  f_equal. apply bool_decide_ext. rewrite Hn. destruct l; cbn in *; [done |].
  apply NoDup_cons in Hnd as [Hh _]. split; [| done]. intros [= ->]. set_solver.
Qed.

Lemma list_first_spec h hd x l : is_list h hd (x :: l) -> list_first_entry h hd = Some x.
Proof. intros [_ Hp]. by apply path_cons in Hp as [[? _] _]. Qed.

Lemma list_next_spec h hd l1 x l2 :
  is_list h hd (l1 ++ x :: l2) -> get_next h x = Some (first_of hd l2).
Proof. intros Hl. by apply is_list_remove in Hl as (_ & ? & _). Qed.

Lemma list_first_or_null_spec h hd l :
  is_list h hd l -> list_first_entry_or_null h hd = Some (head l).
Proof.
  intros Hl. unfold list_first_entry_or_null. rewrite (list_empty_spec _ _ _ Hl). cbn [mbind option_bind].
  destruct l; [done |]. rewrite bool_decide_false by done. by rewrite (list_first_spec _ _ _ _ Hl).
Qed.

Lemma list_add_spec h new hd l :
  is_list h hd l -> new ∈ dom h -> new ∉ hd :: l ->
  exists h', list_add h new hd = Some h' /\ is_list h' hd (new :: l) /\ untouched (new :: hd :: l) h h'.
Proof.
  intros Hl Hnew Hfresh. destruct (is_list_insert h new hd [] l) as (h' & Ha & ? & ?); [done.. |].
  exists h'. split; [| done]. unfold list_add. rewrite <- Ha.
  assert (get_next h hd = Some (first_of hd l)) as ->; [| done].
  destruct Hl as [_ Hp]. destruct l; by apply path_cons in Hp as [[? _] _].
Qed.

Lemma list_add_tail_spec h new hd l :
  is_list h hd l -> new ∈ dom h -> new ∉ hd :: l ->
  exists h', list_add_tail h new hd = Some h' /\ is_list h' hd (l ++ [new]) /\ untouched (new :: hd :: l) h h'.
Proof.
  intros Hl Hnew Hfresh.
  destruct (is_list_insert h new hd l []) as (h' & Ha & ? & Hu); [by rewrite app_nil_r | done | by rewrite app_nil_r |].
  rewrite app_nil_r in Hu. exists h'. split; [| done]. unfold list_add_tail. cbn in Ha. rewrite <- Ha.
  assert (get_prev h hd = Some (last_of hd l)) as ->; [| done].
  destruct Hl as [_ Hp]. apply path_app in Hp as [_ Hp]. by apply path_cons in Hp as [[_ ?] _].
Qed.

Lemma list_del_init_spec h e hd l1 l2 :
  is_list h hd (l1 ++ e :: l2) ->
  exists h', list_del_init h e = Some h' /\ is_list h' hd (l1 ++ l2) /\ untouched (hd :: l1 ++ e :: l2) h h'.
Proof.
  intros Hl. pose proof (NoDup_middle _ _ _ _ (proj1 Hl)) as [Hnd Hfresh].
  destruct (is_list_remove _ _ _ _ _ Hl) as (Hpe & Hne & h1 & Hdel & Hl1 & Hu1).
  unfold list_del_init. rewrite Hpe, Hne. cbn [mbind option_bind]. rewrite Hdel. cbn [mbind option_bind].
  destruct (INIT_LIST_HEAD_spec h1 e) as (h2 & -> & Hdom & _ & Hu2).
  { rewrite (proj1 Hu1). unfold get_prev in Hpe. apply elem_of_dom. by destruct (h !! e). }
  assert (Hu : untouched [e] h1 h2) by (split; [done |]; intros x y ??; apply Hu2; set_solver).
  exists h2. split; [done |]. split.
  - eapply untouched_list; [exact Hu | | done]. set_solver.
  - eapply untouched_trans; [done |]. eapply untouched_weaken; [| exact Hu]. set_solver.
Qed.

Lemma list_del_spec h e hd l1 l2 :
  is_list h hd (l1 ++ e :: l2) ->
  exists h', list_del h e = Some h' /\ is_list h' hd (l1 ++ l2) /\ untouched (hd :: l1 ++ e :: l2) h h'.
Proof.
  intros Hl. pose proof (NoDup_middle _ _ _ _ (proj1 Hl)) as [Hnd Hfresh].
  destruct (is_list_remove _ _ _ _ _ Hl) as (Hpe & Hne & h1 & Hdel & Hl1 & Hu1).
  unfold list_del. rewrite Hpe, Hne. cbn [mbind option_bind]. rewrite Hdel. cbn [mbind option_bind].
  assert (He : e ∈ dom h1).
  { rewrite (proj1 Hu1). unfold get_prev in Hpe. apply elem_of_dom. by destruct (h !! e). }
  assign ltac:(done). assign ltac:(congruence).
  assert (Hu : untouched [e] h1 h2).
  { split; [congruence |]. intros x y ?? [??]. split; read_fields; set_solver. }
  exists h2. split; [done |]. split.
  - eapply untouched_list; [exact Hu | | done]. set_solver.
  - eapply untouched_trans; [done |]. eapply untouched_weaken; [| exact Hu]. set_solver.
Qed.

Lemma links_of_source a l e x : x ∈ a :: l -> exists y, (x, y) ∈ links a (l ++ [e]).
Proof.
  revert a. induction l as [| z l IH]; intros a.
  - intros ->%list_elem_of_singleton. exists e. by left.
  - intros [-> | Hz]%elem_of_cons; [exists z; by left |]. destruct (IH z Hz) as [y Hy]. exists y. by right.
Qed.

(** A list has fewer elements than the heap has nodes. *)
Lemma is_list_size h hd l : is_list h hd l -> length l < size h.
Proof.
  intros [Hnd Hp].
  assert (Hsub : list_to_set (hd :: l) ⊆@{gset nat} dom h).
  { intros x Hx%elem_of_list_to_set. destruct (links_of_source hd l hd x Hx) as [y Hy].
    unfold path in Hp. rewrite Forall_forall in Hp. apply (Hp (x, y)) in Hy. by apply link_dom in Hy as [? _]. }
  apply subseteq_size in Hsub. rewrite size_list_to_set in Hsub by done.
  rewrite size_dom in Hsub. cbn in Hsub. lia.
Qed.
