(* ===== verification/Actor.v ===== *)
(** * Deferred work and timeouts (usr/actor.c)

    The scheduler of the daemon: [pend_list] holds the actors that wait for
    their time, [ready_list] those that run at the next [actor_poll].  Both
    are intrusive lists in the heap of [ListHead].  A callback is known by
    what it does to the scheduler: the calls that it makes, which are an
    argument of the run. *)
From Stdlib Require Import ZArith Lia.
From stdpp Require Import base tactics numbers list option gmap sets.
From S2P Require Import Prelude ListHead.

Inductive actor_state := ACTOR_INVALID | ACTOR_WAITING | ACTOR_SCHEDULED | ACTOR_NOTSCHEDULED.

#[export] Instance actor_state_eq_dec : EqDecision actor_state.
Proof. solve_decision. Defined.

(** [struct actor] without its node and the name, which only the log shows.
    [callback] and [data] are opaque values. *)
Record actor := mk_actor {
  state : actor_state;
  data : nat;
  callback : nat;
  ttschedule : Z
}.
#[export] Instance eta_actor : Eta actor := fun a =>
  mk_actor (state a) (data a) (callback a) (ttschedule a).

(** The two heads; every other address is an actor. *)
Definition pend_list : nat := 0.
Definition ready_list : nat := 1.

(** [alarm_at] is the instant for which SIGALRM was requested last. *)
Record sched := mk_sched {
  nodes : gmap nat list_head;
  actors : gmap nat actor;
  poll_in_progress : bool;
  alarm_at : option Z
}.
#[export] Instance eta_sched : Eta sched := fun s =>
  mk_sched (nodes s) (actors s) (poll_in_progress s) (alarm_at s).

Definition i64 : Z -> Z := swrap 64.

(** [alarm(seconds)], called at [now]; the argument is an [unsigned int]. *)
Definition alarm (now seconds : Z) (s : sched) : sched :=
  s <| alarm_at := if decide (u32 seconds = 0%Z) then None else Some (now + u32 seconds)%Z |>.

Definition set_actor (s : sched) (thread : nat) (a : actor) : sched :=
  s <| actors := <[thread := a]> (actors s) |>.

Definition actor_time_left (thread : actor) (current_time : Z) : Z :=
  if decide (current_time > ttschedule thread)%Z then 0%Z
  else u64 (ttschedule thread - current_time).

Definition time_after (a b : Z) : bool := bool_decide (i64 (i64 b - i64 a) < 0)%Z.

(** [__actor_init]: only logs when the actor was initialised before. *)
Definition __actor_init (s : sched) (thread cb dat : nat) : option sched :=
  a ← actors s !! thread;
  h ← INIT_LIST_HEAD (nodes s) thread;
  Some (set_actor (s <| nodes := h |>) thread
          (a <| state := ACTOR_NOTSCHEDULED |> <| callback := cb |> <| data := dat |>)).

Definition actor_delete (s : sched) (now : Z) (thread : nat) : option sched :=
  a ← actors s !! thread;
  s ← (if decide (state a = ACTOR_WAITING \/ state a = ACTOR_SCHEDULED) then
         h ← list_del_init (nodes s) thread;
         let s := s <| nodes := h |> in
         e ← list_empty h pend_list;
         Some (if e : bool then alarm now 0 s else s)
       else Some s);
  Some (set_actor s thread (a <| state := ACTOR_NOTSCHEDULED |>)).

(** The loop that looks for the first entry which is due after [due]. *)
Fixpoint find_later (fuel : nat) (s : sched) (pos : nat) (due : Z) : option (option nat) :=
  match fuel with
  | O => None
  | S fuel =>
      if decide (pos = pend_list) then Some None
      else
        a ← actors s !! pos;
        if time_after (ttschedule a) due then Some (Some pos)
        else nx ← get_next (nodes s) pos; find_later fuel s nx due
  end.

Definition actor_insert_on_pend_list (s : sched) (now : Z) (thread : nat) (delay_secs : Z) : option sched :=
  orig_head ← list_first_entry_or_null (nodes s) pend_list;
  a ← actors s !! thread;
  first ← get_next (nodes s) pend_list;
  next_thread ← find_later (S (size (nodes s))) s first (ttschedule a);
  h ← match next_thread with
      | Some nt => pv ← get_prev (nodes s) nt; __list_add (nodes s) thread pv nt
      | None => list_add_tail (nodes s) thread pend_list
      end;
  new_head ← list_first_entry h pend_list;
  let s := s <| nodes := h |> in
  Some (if decide (orig_head <> Some new_head) then alarm now delay_secs s else s).

(** The case of an actor that is in no list. *)
Definition actor_enqueue (s : sched) (current_time : Z) (thread : nat) (delay_secs : Z) (head : bool)
    : option sched :=
  a ← actors s !! thread;
  h ← INIT_LIST_HEAD (nodes s) thread;
  let s := s <| nodes := h |> in
  if decide (delay_secs = 0%Z) then
    let s := set_actor s thread (a <| state := ACTOR_SCHEDULED |>) in
    h ← (if head then list_add (nodes s) thread ready_list
         else list_add_tail (nodes s) thread ready_list);
    Some (s <| nodes := h |>)
  else
    let s := set_actor s thread (a <| state := ACTOR_WAITING |>
                                   <| ttschedule := i64 (current_time + delay_secs) |>) in
    actor_insert_on_pend_list s current_time thread delay_secs.

(** [clock] is what [clock_gettime] gives, [None] when it fails. *)
Definition actor_schedule_private (s : sched) (clock : option Z) (thread : nat) (delay_secs : Z) (head : bool)
    : option sched :=
  match clock with
  | None => Some s
  | Some current_time =>
      a ← actors s !! thread;
      match state a with
      | ACTOR_WAITING =>
          h ← list_del (nodes s) thread;
          actor_enqueue (s <| nodes := h |>) current_time thread delay_secs head
      | ACTOR_NOTSCHEDULED => actor_enqueue s current_time thread delay_secs head
      | ACTOR_SCHEDULED => Some s
      | ACTOR_INVALID => Some s
      end
  end.

Definition actor_schedule_head (s : sched) (clock : option Z) (thread : nat) : option sched :=
  actor_schedule_private s clock thread 0 true.

Definition actor_schedule (s : sched) (clock : option Z) (thread : nat) : option sched :=
  actor_schedule_private s clock thread 0 false.

Definition __actor_timer (s : sched) (clock : option Z) (thread : nat) (timeout_secs : Z) (cb dat : nat)
    : option sched :=
  s ← __actor_init s thread cb dat;
  actor_schedule_private s clock thread timeout_secs false.

Definition actor_timer_mod (s : sched) (now : Z) (clock : option Z) (thread : nat) (new_timeout_secs : Z)
    (dat : nat) : option sched :=
  s ← actor_delete s now thread;
  a ← actors s !! thread;
  actor_schedule_private (set_actor s thread (a <| data := dat |>)) clock thread new_timeout_secs false.

(** ** Calls of the interface, and callbacks *)

(** The calls that the rest of the daemon makes. *)
Inductive actor_call :=
| CInit (thread cb dat : nat)
| CDelete (thread : nat)
| CSchedule (thread : nat)
| CScheduleHead (thread : nat)
| CTimer (thread : nat) (secs : Z) (cb dat : nat)
| CTimerMod (thread : nat) (secs : Z) (dat : nat).

(** One call; [now] is the instant, [up] whether [clock_gettime] succeeds. *)
Definition actor_exec (c : actor_call) (now : Z) (up : bool) (s : sched) : option sched :=
  let clock := if up then Some now else None in
  match c with
  | CInit t cb d => __actor_init s t cb d
  | CDelete t => actor_delete s now t
  | CSchedule t => actor_schedule s clock t
  | CScheduleHead t => actor_schedule_head s clock t
  | CTimer t secs cb d => __actor_timer s clock t secs cb d
  | CTimerMod t secs d => actor_timer_mod s now clock t secs d
  end.

Record timed_call := mk_timed { tc_call : actor_call; tc_now : Z; tc_up : bool }.

Fixpoint actor_run (cs : list timed_call) (s : sched) : option sched :=
  match cs with
  | [] => Some s
  | c :: cs => s ← actor_exec (tc_call c) (tc_now c) (tc_up c) s; actor_run cs s
  end.

(** ** [actor_poll] *)

(** The loop that moves ripe actors to [ready_list]; a failed [assert] is
    [None]. *)
Fixpoint move_ripe (fuel : nat) (s : sched) (thread tmp : nat) (current_time : Z) : option sched :=
  match fuel with
  | O => None
  | S fuel =>
      if decide (thread = pend_list) then Some s
      else
        a ← actors s !! thread;
        let time_left := actor_time_left a current_time in
        if decide (time_left <> 0%Z) then Some (alarm current_time time_left s)
        else
          h ← list_del_init (nodes s) thread;
          h ← list_add_tail h thread ready_list;
          if decide (state a = ACTOR_WAITING) then
            let s := set_actor (s <| nodes := h |>) thread (a <| state := ACTOR_SCHEDULED |>) in
            tmp' ← get_next (nodes s) tmp;
            move_ripe fuel s tmp tmp' current_time
          else None
  end.

(** What an executed callback was given. *)
Record execution := mk_exec { ex_thread : nat; ex_callback : nat; ex_data : nat }.

(** The loop on [ready_list].  [behave] gives the calls that a callback makes,
    from the executions so far.  [None] is an access outside the lists; the
    flag tells whether the loop ended within [fuel] executions. *)
Fixpoint run_ready (fuel : nat) (behave : list execution -> list timed_call) (done : list execution)
    (s : sched) : option (bool * list execution * sched) :=
  e ← list_empty (nodes s) ready_list;
  if e : bool then Some (true, done, s)
  else
    match fuel with
    | O => Some (false, done, s)
    | S fuel =>
        thread ← list_first_entry (nodes s) ready_list;
        h ← list_del_init (nodes s) thread;
        a ← actors s !! thread;
        let s := set_actor (s <| nodes := h |>) thread (a <| state := ACTOR_NOTSCHEDULED |>) in
        let done := done ++ [mk_exec thread (callback a) (data a)] in
        s ← actor_run (behave done) s;
        run_ready fuel behave done s
    end.

Definition actor_poll (fuel : nat) (behave : list execution -> list timed_call) (clock : option Z) (s : sched)
    : option (bool * list execution * sched) :=
  if poll_in_progress s then Some (true, [], s)
  else
    match clock with
    | None => Some (true, [], s)
    | Some current_time =>
        thread ← get_next (nodes s) pend_list;
        tmp ← get_next (nodes s) thread;
        s ← move_ripe (S (size (nodes s))) s thread tmp current_time;
        e ← list_empty (nodes s) pend_list;
        let s := if e : bool then alarm current_time 0 s else s in
        '(fin, done, s) ← run_ready fuel behave [] (s <| poll_in_progress := true |>);
        Some (fin, done, s <| poll_in_progress := negb fin |>)
    end.
