(* ===== verification/ActorSpec.v ===== *)
(** * What the scheduler promises

    The abstract scheduler: the waiting actors as a list of (actor, due time)
    in the order in which they will run, the ready actors as a queue, and the
    pending alarm.  [ActorTheorems] shows that actor.c implements it. *)
From Stdlib Require Import ZArith Lia.
From stdpp Require Import base tactics numbers list sorting option gmap sets.
From S2P Require Import Prelude ListHead Actor.

Record queue := mk_queue {
  q_pend : list (nat * Z);
  q_ready : list nat;
  q_live : gset nat;
  q_info : gmap nat (nat * nat);
  q_alarm : option Z
}.
#[export] Instance eta_queue : Eta queue := fun q =>
  mk_queue (q_pend q) (q_ready q) (q_live q) (q_info q) (q_alarm q).

Definition waiting (q : queue) : list nat := (q_pend q).*1.

(** The state of an actor, as the two lists and the set of initialised actors
    tell it. *)
Definition status_of (q : queue) (t : nat) : actor_state :=
  if decide (t ∈ waiting q) then ACTOR_WAITING
  else if decide (t ∈ q_ready q) then ACTOR_SCHEDULED
  else if decide (t ∈ q_live q) then ACTOR_NOTSCHEDULED
  else ACTOR_INVALID.

(** Behind all that are due no later. *)
Fixpoint insert_due (t : nat) (due : Z) (l : list (nat * Z)) : list (nat * Z) :=
  match l with
  | [] => [(t, due)]
  | p :: l' => if decide (due < p.2)%Z then (t, due) :: p :: l' else p :: insert_due t due l'
  end.

Definition without (t : nat) (l : list (nat * Z)) : list (nat * Z) := filter (fun p => p.1 <> t) l.

Definition q_init (t cb dat : nat) (q : queue) : queue :=
  q <| q_live := {[t]} ∪ q_live q |> <| q_info := <[t := (cb, dat)]> (q_info q) |>.

(** Deleting the last waiting actor, or a ready one when none waits, cancels
    the alarm. *)
Definition q_delete (t : nat) (q : queue) : queue :=
  let q' := q <| q_pend := without t (q_pend q) |> <| q_ready := filter (fun x => x <> t) (q_ready q) |>
              <| q_live := {[t]} ∪ q_live q |> in
  if decide (t ∈ waiting q \/ t ∈ q_ready q) then
    if decide (q_pend q' = []) then q' <| q_alarm := None |> else q'
  else q'.

(** A new first entry sets the alarm. *)
Definition q_wait (now : Z) (t : nat) (delay : Z) (q : queue) : queue :=
  let p := without t (q_pend q) in
  let p' := insert_due t (now + delay) p in
  let q' := q <| q_pend := p' |> in
  if decide (head p'.*1 = head p.*1) then q' else q' <| q_alarm := Some (now + delay)%Z |>.

Definition q_schedule (now : Z) (up : bool) (t : nat) (delay : Z) (front : bool) (q : queue) : queue :=
  if negb up then q
  else if decide (status_of q t = ACTOR_INVALID \/ status_of q t = ACTOR_SCHEDULED) then q
  else if decide (delay = 0%Z) then
    q <| q_pend := without t (q_pend q) |>
      <| q_ready := if front then t :: q_ready q else q_ready q ++ [t] |>
  else q_wait now t delay q.

Definition q_set_data (t dat : nat) (q : queue) : queue :=
  q <| q_info := alter (fun i => (i.1, dat)) t (q_info q) |>.

Definition q_exec (c : actor_call) (now : Z) (up : bool) (q : queue) : queue :=
  match c with
  | CInit t cb d => q_init t cb d q
  | CDelete t => q_delete t q
  | CSchedule t => q_schedule now up t 0 false q
  | CScheduleHead t => q_schedule now up t 0 true q
  | CTimer t secs cb d => q_schedule now up t secs false (q_init t cb d q)
  | CTimerMod t secs d => q_schedule now up t secs false (q_set_data t d (q_delete t q))
  end.

Fixpoint q_run (cs : list timed_call) (q : queue) : queue :=
  match cs with
  | [] => q
  | c :: cs => q_run cs (q_exec (tc_call c) (tc_now c) (tc_up c) q)
  end.

(** The contract of the callers: the actor is allocated, a queued actor is not
    initialised again (the code calls that a bug), times are representable and
    the clock does not go back behind [last]. *)
Definition time_ok (z : Z) : Prop := (0 <= z < 2 ^ 62)%Z.
Definition secs_ok (z : Z) : Prop := (0 <= z < 2 ^ 32)%Z.

Definition idle (q : queue) (t : nat) : Prop := t ∉ waiting q /\ t ∉ q_ready q.

Definition call_ok (q : queue) (c : actor_call) : Prop :=
  match c with
  | CInit t _ _ => t ∈ dom (q_info q) /\ idle q t
  | CDelete t | CSchedule t | CScheduleHead t => t ∈ dom (q_info q)
  | CTimer t secs _ _ => t ∈ dom (q_info q) /\ idle q t /\ secs_ok secs
  | CTimerMod t secs _ => t ∈ dom (q_info q) /\ secs_ok secs
  end.

Fixpoint calls_ok (cs : list timed_call) (last : Z) (q : queue) : Prop :=
  match cs with
  | [] => True
  | c :: cs => call_ok q (tc_call c) /\ time_ok (tc_now c) /\ (last <= tc_now c)%Z /\
               calls_ok cs (tc_now c) (q_exec (tc_call c) (tc_now c) (tc_up c) q)
  end.

(** The instant after a sequence of calls. *)
Fixpoint last_now (cs : list timed_call) (last : Z) : Z :=
  match cs with
  | [] => last
  | c :: cs => last_now cs (tc_now c)
  end.

(** ** Polling *)

(** The actors that are due at [now], a prefix of the waiting ones. *)
Fixpoint split_due (now : Z) (l : list (nat * Z)) : list nat * list (nat * Z) :=
  match l with
  | [] => ([], [])
  | p :: l' => if decide (p.2 <= now)%Z then let '(r, w) := split_due now l' in (p.1 :: r, w) else ([], l)
  end.

Definition q_ripen (now : Z) (q : queue) : queue :=
  let '(ripe, rest) := split_due now (q_pend q) in
  q <| q_pend := rest |> <| q_ready := q_ready q ++ ripe |> <| q_alarm := snd <$> head rest |>.

Definition the_exec (q : queue) (t : nat) : execution :=
  match q_info q !! t with
  | Some (cb, d) => mk_exec t cb d
  | None => mk_exec t 0 0
  end.

Fixpoint q_run_ready (fuel : nat) (behave : list execution -> list timed_call) (done : list execution)
    (last : Z) (q : queue) : bool * list execution * queue * Z :=
  match q_ready q with
  | [] => (true, done, q, last)
  | t :: r =>
      match fuel with
      | O => (false, done, q, last)
      | S fuel =>
          let done := done ++ [the_exec q t] in
          q_run_ready fuel behave done (last_now (behave done) last) (q_run (behave done) (q <| q_ready := r |>))
      end
  end.

(** The callbacks keep the contract. *)
Fixpoint ready_ok (fuel : nat) (behave : list execution -> list timed_call) (done : list execution)
    (last : Z) (q : queue) : Prop :=
  match q_ready q, fuel with
  | t :: r, S fuel =>
      let done := done ++ [the_exec q t] in
      let q := q <| q_ready := r |> in
      calls_ok (behave done) last q /\
      ready_ok fuel behave done (last_now (behave done) last) (q_run (behave done) q)
  | _, _ => True
  end.

(** A poll at [now]: what was executed, the queue and the last instant. *)
Definition q_poll (fuel : nat) (behave : list execution -> list timed_call) (now : Z) (q : queue)
    : bool * list execution * queue * Z :=
  q_run_ready fuel behave [] now (q_ripen now q).

(** ** Histories of the daemon: calls and polls *)
Inductive event :=
| ECall (c : timed_call)
| EPoll (fuel : nat) (behave : list execution -> list timed_call) (now : Z).

(** The queue and the last instant after a history. *)
Fixpoint q_history (es : list event) (last : Z) (q : queue) : queue * Z :=
  match es with
  | [] => (q, last)
  | ECall c :: es => q_history es (tc_now c) (q_exec (tc_call c) (tc_now c) (tc_up c) q)
  | EPoll fuel behave now :: es =>
      let '(_, _, q, last) := q_poll fuel behave now q in q_history es last q
  end.

(** The contract along a history; every poll runs to its end. *)
Fixpoint history_ok (es : list event) (last : Z) (q : queue) : Prop :=
  match es with
  | [] => True
  | ECall c :: es =>
      call_ok q (tc_call c) /\ time_ok (tc_now c) /\ (last <= tc_now c)%Z /\
      history_ok es (tc_now c) (q_exec (tc_call c) (tc_now c) (tc_up c) q)
  | EPoll fuel behave now :: es =>
      time_ok now /\ (last <= now)%Z /\ ready_ok fuel behave [] now (q_ripen now q) /\
      let '(fin, _, q, last) := q_poll fuel behave now q in fin = true /\ history_ok es last q
  end.

(** The history in the program; the result collects the executions. *)
Fixpoint actor_history (es : list event) (s : sched) : option (list execution * sched) :=
  match es with
  | [] => Some ([], s)
  | ECall c :: es => s ← actor_exec (tc_call c) (tc_now c) (tc_up c) s; actor_history es s
  | EPoll fuel behave now :: es =>
      '(_, done, s) ← actor_poll fuel behave (Some now) s;
      '(done', s) ← actor_history es s;
      Some (done ++ done', s)
  end.

Fixpoint q_executed (es : list event) (last : Z) (q : queue) : list execution :=
  match es with
  | [] => []
  | ECall c :: es => q_executed es (tc_now c) (q_exec (tc_call c) (tc_now c) (tc_up c) q)
  | EPoll fuel behave now :: es =>
      let '(_, done, q, last) := q_poll fuel behave now q in done ++ q_executed es last q
  end.

(** Before anything happened: [n] allocated actors, none initialised. *)
Definition actor_start (n : nat) : sched :=
  mk_sched (list_to_map ((fun i => (i, mk_list_head (Some i) (Some i))) <$> seq 0 (2 + n)))
    (list_to_map ((fun i => (i, mk_actor ACTOR_INVALID 0 0 0)) <$> seq 2 n)) false None.

Definition queue_start (n : nat) : queue :=
  mk_queue [] [] ∅ (list_to_map ((fun i => (i, (0, 0))) <$> seq 2 n)) None.
