(* ===== verification/ActorRefine.v ===== *)
(** * The scheduler of actor.c implements the abstract scheduler: the proof *)
From Stdlib Require Import ZArith Lia.
From stdpp Require Import base tactics numbers list sorting option gmap sets.
From S2P Require Import Prelude ListHead Actor ActorSpec.

(** ** The two lists in memory *)
Record lists (h : gmap nat list_head) (P Q : list nat) : Prop := {
  ls_pend : is_list h pend_list P;
  ls_ready : is_list h ready_list Q;
  ls_dis : forall x, x ∈ pend_list :: P -> x ∉ ready_list :: Q
}.

Lemma lists_del_pend (del : gmap nat list_head -> nat -> option (gmap nat list_head)) h t l1 l2 Q :
  del = list_del \/ del = list_del_init -> lists h (l1 ++ t :: l2) Q ->
  exists h', del h t = Some h' /\ lists h' (l1 ++ l2) Q /\ dom h' = dom h.
Proof.
  intros Hdel [HP HQ Hd].
  assert (exists h', del h t = Some h' /\ is_list h' pend_list (l1 ++ l2) /\
                     untouched (pend_list :: l1 ++ t :: l2) h h') as (h' & -> & Hl & Hu).
  { destruct Hdel as [-> | ->]; [by apply list_del_spec | by apply list_del_init_spec]. }
  exists h'. split; [done |]. split; [| apply Hu]. split; [done | | set_solver].
  eapply untouched_list; [exact Hu | | done]. intros x Hx Hx'. by apply (Hd x).
Qed.

Lemma lists_del_ready h t l1 l2 P :
  lists h P (l1 ++ t :: l2) ->
  exists h', list_del_init h t = Some h' /\ lists h' P (l1 ++ l2) /\ dom h' = dom h.
Proof.
  intros [HP HQ Hd]. destruct (list_del_init_spec _ _ _ _ _ HQ) as (h' & -> & Hl & Hu).
  exists h'. split; [done |]. split; [| apply Hu]. split; [| done | set_solver].
  eapply untouched_list; [exact Hu | | done]. set_solver.
Qed.

Lemma lists_init h t P Q :
  lists h P Q -> t ∈ dom h -> t ∉ pend_list :: P -> t ∉ ready_list :: Q ->
  exists h', INIT_LIST_HEAD h t = Some h' /\ lists h' P Q /\ dom h' = dom h.
Proof.
  intros [HP HQ Hd] Ht HtP HtQ. destruct (INIT_LIST_HEAD_spec h t Ht) as (h' & -> & Hdom & _ & Hu).
  assert (untouched [t] h h') by (split; [done |]; intros x y ??; apply Hu; set_solver).
  exists h'. split; [done |]. split; [| done].
  split; [eapply untouched_list; [done | set_solver | done].. | done].
Qed.

Lemma lists_add_ready h t (front : bool) P Q :
  lists h P Q -> t ∈ dom h -> t ∉ pend_list :: P -> t ∉ ready_list :: Q ->
  exists h', (if front then list_add h t ready_list else list_add_tail h t ready_list) = Some h' /\
    lists h' P (if front then t :: Q else Q ++ [t]) /\ dom h' = dom h.
Proof.
  intros [HP HQ Hd] Ht HtP HtQ.
  assert (exists h', (if front then list_add h t ready_list else list_add_tail h t ready_list) = Some h' /\
            is_list h' ready_list (if front then t :: Q else Q ++ [t]) /\
            untouched (t :: ready_list :: Q) h h') as (h' & -> & Hl & Hu).
  { destruct front; [by apply list_add_spec | by apply list_add_tail_spec]. }
  exists h'. split; [done |]. split; [| apply Hu]. split; [| done | destruct front; set_solver].
  eapply untouched_list; [exact Hu | | done]. set_solver.
Qed.

Lemma lists_insert_pend h t l1 l2 Q :
  lists h (l1 ++ l2) Q -> t ∈ dom h -> t ∉ pend_list :: l1 ++ l2 -> t ∉ ready_list :: Q ->
  exists h', __list_add h t (last_of pend_list l1) (first_of pend_list l2) = Some h' /\
    lists h' (l1 ++ t :: l2) Q /\ dom h' = dom h.
Proof.
  intros [HP HQ Hd] Ht HtP HtQ. destruct (is_list_insert _ t _ _ _ HP) as (h' & -> & Hl & Hu); [done | done |].
  exists h'. split; [done |]. split; [| apply Hu]. split; [done | | set_solver].
  eapply untouched_list; [exact Hu | | done]. set_solver.
Qed.

(** ** The abstract operations *)
Definition due_le (p p' : nat * Z) : Prop := (p.2 <= p'.2)%Z.

Lemma insert_due_split t d l :
  exists l1 l2, l = l1 ++ l2 /\ insert_due t d l = l1 ++ (t, d) :: l2 /\ Forall (fun p => p.2 <= d)%Z l1 /\
    match l2 with [] => True | p :: _ => (d < p.2)%Z end.
Proof.
  induction l as [| p l (l1 & l2 & -> & IH & H1 & H2)]; cbn; [exists [], []; by repeat constructor |].
  case_decide; [exists [], (p :: l1 ++ l2); by repeat constructor |].
  exists (p :: l1), l2. rewrite IH. split; [done |]. split; [done |]. split; [constructor; [lia | done] | done].
Qed.

Lemma insert_due_perm t d l : insert_due t d l ≡ₚ (t, d) :: l.
Proof.
  destruct (insert_due_split t d l) as (l1 & l2 & -> & -> & _). by rewrite <- Permutation_middle.
Qed.

Lemma insert_due_sorted t d l : StronglySorted due_le l -> StronglySorted due_le (insert_due t d l).
Proof.
  induction 1 as [| p l Hs IH Hp]; cbn; [by repeat constructor |].
  case_decide as Hd.
  - constructor; [by constructor |]. constructor; [unfold due_le; cbn; lia |].
    eapply Forall_impl; [exact Hp |]. unfold due_le. cbn. lia.
  - constructor; [done |]. rewrite insert_due_perm. constructor; [unfold due_le; cbn; lia | done].
Qed.

Lemma list_filter_all {A} (P : A -> Prop) `{forall x, Decision (P x)} l : Forall P l -> filter P l = l.
Proof.
  induction 1 as [| x l Hx _ IH]; [done |]. by rewrite filter_cons_True, IH.
Qed.

Lemma without_fst t l : (without t l).*1 = filter (fun x => x <> t) l.*1.
Proof.
  unfold without. induction l as [| p l IH]; [done |]. rewrite fmap_cons, !filter_cons.
  case_decide; [rewrite fmap_cons |]; by rewrite IH.
Qed.

Lemma filter_ne_middle (t : nat) l1 l2 :
  NoDup (l1 ++ t :: l2) -> filter (fun x => x <> t) (l1 ++ t :: l2) = l1 ++ l2.
Proof.
  intros Hnd. apply NoDup_app in Hnd as (_ & Hdis & Hnd). apply NoDup_cons in Hnd as [Ht _].
  rewrite filter_app, filter_cons_False by tauto.
  rewrite !list_filter_all; [done | |]; apply Forall_forall; intros x Hx ->; [done |].
  apply (Hdis t Hx). by left.
Qed.

Lemma filter_ne_id (t : nat) (l : list nat) : t ∉ l -> filter (fun x => x <> t) l = l.
Proof. intros Ht. apply list_filter_all, Forall_forall. intros x Hx ->. done. Qed.

Lemma without_id t l : t ∉ l.*1 -> without t l = l.
Proof.
  intros Ht. apply list_filter_all, Forall_forall. intros p Hp <-. apply Ht, list_elem_of_fmap. eauto.
Qed.

Lemma StronglySorted_filter {A} (R : A -> A -> Prop) (P : A -> Prop) `{forall x, Decision (P x)} l :
  StronglySorted R l -> StronglySorted R (filter P l).
Proof.
  induction 1 as [| x l Hs IH Hx]; [constructor |]. rewrite filter_cons. case_decide; [| done].
  constructor; [done |]. apply Forall_forall. intros y [_ Hy]%list_elem_of_filter.
  by eapply Forall_forall in Hx.
Qed.

(** ** The invariant of the abstract scheduler *)
Definition due_ok (last : Z) (p : nat * Z) : Prop := (0 <= p.2 < last + 2 ^ 32)%Z /\ (p.2 < 2 ^ 63)%Z.

Definition alarm_covers (q : queue) : Prop :=
  match q_pend q with
  | [] => True
  | p :: _ => exists a, q_alarm q = Some a /\ (a <= p.2)%Z
  end.

Record q_wf (last : Z) (q : queue) : Prop := {
  wf_nodup : NoDup (waiting q ++ q_ready q);
  wf_live : forall t, t ∈ waiting q ++ q_ready q -> t ∈ q_live q;
  wf_info : q_live q ⊆ dom (q_info q);
  wf_sorted : StronglySorted due_le (q_pend q);
  wf_due : Forall (due_ok last) (q_pend q);
  wf_alarm : alarm_covers q
}.

Lemma q_wf_later last now q : (last <= now)%Z -> q_wf last q -> q_wf now q.
Proof.
  intros Hle []. split; try done. eapply Forall_impl; [done |]. unfold due_ok. intros p. lia.
Qed.

(** ** The relation between the two schedulers *)
Record refines (s : sched) (q : queue) : Prop := {
  rf_lists : lists (nodes s) (waiting q) (q_ready q);
  rf_dom : dom (actors s) = dom (q_info q);
  rf_alloc : dom (actors s) ⊆ dom (nodes s);
  rf_heads : pend_list ∉ dom (actors s) /\ ready_list ∉ dom (actors s);
  rf_actor : forall t a, actors s !! t = Some a ->
    q_info q !! t = Some (callback a, data a) /\ state a = status_of q t;
  rf_due : forall t d, (t, d) ∈ q_pend q -> exists a, actors s !! t = Some a /\ ttschedule a = d;
  rf_alarm : alarm_at s = q_alarm q
}.

Section Facts.
Context (last : Z) (s : sched) (q : queue) (Hwf : q_wf last q) (Hrf : refines s q).

Lemma rf_lookup t : t ∈ dom (q_info q) -> exists a, actors s !! t = Some a /\
  q_info q !! t = Some (callback a, data a) /\ state a = status_of q t.
Proof.
  intros Ht. rewrite <- (rf_dom _ _ Hrf) in Ht. apply elem_of_dom in Ht as [a Ha].
  exists a. split; [done |]. by apply (rf_actor _ _ Hrf).
Qed.

Lemma queued_info t : t ∈ waiting q ++ q_ready q -> t ∈ dom (q_info q).
Proof. intros Ht. by apply (wf_info _ _ Hwf), (wf_live _ _ Hwf). Qed.

Lemma not_head t : t ∈ dom (q_info q) -> t <> pend_list /\ t <> ready_list /\ t ∈ dom (nodes s).
Proof.
  intros Ht. rewrite <- (rf_dom _ _ Hrf) in Ht. destruct (rf_heads _ _ Hrf) as [Hp Hr].
  split; [congruence |]. split; [congruence |]. by apply (rf_alloc _ _ Hrf).
Qed.

Lemma idle_fresh t : t ∈ dom (q_info q) -> idle q t ->
  t ∉ pend_list :: waiting q /\ t ∉ ready_list :: q_ready q.
Proof using Hrf. clear Hwf. intros Ht [??]. destruct (not_head t Ht) as (? & ? & _). set_solver. Qed.
End Facts.

Lemma status_waiting q t : t ∈ waiting q -> status_of q t = ACTOR_WAITING.
Proof. intros Ht. unfold status_of. by rewrite decide_True. Qed.

Lemma status_ready q t : NoDup (waiting q ++ q_ready q) -> t ∈ q_ready q -> status_of q t = ACTOR_SCHEDULED.
Proof.
  intros Hnd Ht. unfold status_of. rewrite decide_False, decide_True; [done | done |].
  intros Hw. apply NoDup_app in Hnd as (_ & Hd & _). by apply (Hd t).
Qed.

Lemma status_idle q t : idle q t -> status_of q t = ACTOR_NOTSCHEDULED \/ status_of q t = ACTOR_INVALID.
Proof. intros [Hw Hr]. unfold status_of. rewrite !decide_False by done. case_decide; auto. Qed.

(** An actor that the operation does not concern keeps its status. *)
Lemma status_same q q' t :
  (t ∈ waiting q' <-> t ∈ waiting q) -> (t ∈ q_ready q' <-> t ∈ q_ready q) -> (t ∈ q_live q' <-> t ∈ q_live q) ->
  status_of q' t = status_of q t.
Proof.
  intros Hw Hr Hl. unfold status_of.
  rewrite (decide_ext _ _ _ _ Hw), (decide_ext _ _ _ _ Hr), (decide_ext _ _ _ _ Hl). done.
Qed.

(** ** The invariant is kept *)
Lemma covers_sub q q' :
  alarm_covers q -> StronglySorted due_le (q_pend q) -> (forall p, p ∈ q_pend q' -> p ∈ q_pend q) ->
  q_alarm q' = q_alarm q -> alarm_covers q'.
Proof.
  unfold alarm_covers. intros Hc Hs Hsub Ha. destruct (q_pend q') as [| p' l']; [done |].
  assert (Hp' : p' ∈ q_pend q) by (apply Hsub; by left).
  destruct (q_pend q) as [| p l]; [by apply elem_of_nil in Hp' |].
  destruct Hc as (a & Haq & Hle). exists a. split; [congruence |].
  apply elem_of_cons in Hp' as [-> | Hp']; [done |].
  apply StronglySorted_inv in Hs as [_ Hf]. eapply Forall_forall in Hf; [| exact Hp']. unfold due_le in Hf. lia.
Qed.

Lemma covers_head q q' :
  head (q_pend q') = head (q_pend q) -> q_alarm q' = q_alarm q -> alarm_covers q -> alarm_covers q'.
Proof.
  unfold alarm_covers. intros Hh Ha. destruct (q_pend q'), (q_pend q); try done. injection Hh as ->. by rewrite Ha.
Qed.

Lemma without_sub t l p : p ∈ without t l -> p ∈ l.
Proof. by intros [_ ?]%list_elem_of_filter. Qed.

Lemma waiting_without t q x : x ∈ (without t (q_pend q)).*1 <-> x ∈ waiting q /\ x <> t.
Proof. rewrite without_fst, list_elem_of_filter. unfold waiting. tauto. Qed.

Lemma Forall_without P t l : Forall P l -> Forall P (without t l).
Proof. rewrite !Forall_forall. intros Hf p Hp. by apply Hf, (without_sub t). Qed.

Lemma q_init_wf last q t cb d : t ∈ dom (q_info q) -> q_wf last q -> q_wf last (q_init t cb d q).
Proof.
  intros Ht []. split; try done; cbn.
  - intros t' Ht'. apply elem_of_union_r. by apply wf_live0.
  - rewrite dom_insert_L. set_solver.
Qed.

Lemma q_set_data_wf last q t d : q_wf last q -> q_wf last (q_set_data t d q).
Proof. intros []. split; try done. cbn. by rewrite dom_alter_L. Qed.

Lemma q_delete_wf last q t : t ∈ dom (q_info q) -> q_wf last q -> q_wf last (q_delete t q).
Proof.
  intros Ht [Hnd Hlive Hinfo Hs Hdue Hc].
  set (q1 := q <| q_pend := without t (q_pend q) |> <| q_ready := filter (fun x => x <> t) (q_ready q) |>
               <| q_live := {[t]} ∪ q_live q |>).
  assert (Hq1 : q_wf last q1).
  { split; cbn.
    - unfold waiting. cbn. rewrite without_fst, <- filter_app. by apply NoDup_filter.
    - unfold waiting. cbn. intros x. rewrite without_fst, <- filter_app. intros [_ Hx]%list_elem_of_filter.
      apply elem_of_union_r. by apply Hlive.
    - set_solver.
    - by apply StronglySorted_filter.
    - by apply Forall_without.
    - eapply covers_sub; [done | done | | done]. intros p. apply without_sub. }
  unfold q_delete. fold q1. case_decide; [| done]. case_decide as Hnil; [| done].
  destruct Hq1. split; try done. unfold alarm_covers. cbn. cbn in Hnil. by rewrite Hnil.
Qed.

Lemma head_insert_due t d l :
  t ∉ l.*1 -> head (insert_due t d l).*1 = head l.*1 -> head (insert_due t d l) = head l.
Proof.
  destruct l as [| p l]; cbn; [done |]. intros Ht. case_decide; [| done]. cbn. intros [= ->]. set_solver.
Qed.

Lemma q_wait_wf last now t delay q :
  (0 <= last <= now)%Z -> time_ok now -> secs_ok delay -> t ∈ q_live q -> t ∉ q_ready q ->
  q_wf last q -> q_wf now (q_wait now t delay q).
Proof.
  intros Hlast Hnow Hdelay Hl Hr Hq. apply (q_wf_later _ now) in Hq; [| lia].
  destruct Hq as [Hnd Hlive Hinfo Hs Hdue Hc].
  set (p := without t (q_pend q)). set (p' := insert_due t (now + delay) p).
  assert (Htp : t ∉ p.*1) by (unfold p; rewrite waiting_without; tauto).
  assert (Hp' : p' ≡ₚ (t, (now + delay)%Z) :: p) by apply insert_due_perm.
  assert (Hsp : StronglySorted due_le p) by (by apply StronglySorted_filter).
  assert (Hq1 : alarm_covers (q <| q_pend := p' |>) \/ head p'.*1 <> head p.*1).
  { destruct (decide (head p'.*1 = head p.*1)) as [E |]; [left | by right].
    apply head_insert_due in E; [| done]. fold p' in E.
    assert (Hcp : alarm_covers (q <| q_pend := p |>)).
    { eapply covers_sub; [exact Hc | done | | done]. intros x. apply without_sub. }
    eapply covers_head; [| | exact Hcp]; done. }
  unfold q_wait. fold p p'.
  assert (Hrest : forall al, alarm_covers (q <| q_pend := p' |> <| q_alarm := al |>) ->
    q_wf now (q <| q_pend := p' |> <| q_alarm := al |>)).
  { intros al Hal. split; [| | done | by apply insert_due_sorted | | done]; unfold waiting; cbn.
    - rewrite Hp'. cbn. apply NoDup_cons. split.
      + rewrite elem_of_app. tauto.
      + unfold p. rewrite without_fst. apply NoDup_app in Hnd as (Hn1 & Hd & Hn2). apply NoDup_app.
        split; [by apply NoDup_filter |]. split; [| done]. intros x [_ Hx]%list_elem_of_filter. by apply Hd.
    - intros x. rewrite Hp'. cbn. intros [-> | Hx]%elem_of_cons; [done |]. apply Hlive.
      apply elem_of_app in Hx as [Hx | Hx]; apply elem_of_app; [left | by right].
      by apply waiting_without in Hx as [? _].
    - rewrite Hp'. constructor; [| by apply Forall_without].
      unfold due_ok, time_ok, secs_ok in *. cbn. lia. }
  case_decide as E.
  - apply (Hrest (q_alarm q)). by destruct Hq1.
  - apply Hrest. unfold alarm_covers. cbn. unfold p'. unfold p' in E. clear -E.
    destruct p as [| y l]; cbn in *; [eauto with lia |]. case_decide; cbn in *; [eauto with lia | done].
Qed.

Lemma q_schedule_wf last now up t delay front q :
  (0 <= last <= now)%Z -> time_ok now -> secs_ok delay -> q_wf last q -> q_wf now (q_schedule now up t delay front q).
Proof.
  intros Hlast Hnow Hdelay Hq. unfold q_schedule. destruct up; cbn [negb]; [| apply (q_wf_later last); [lia | done]].
  case_decide as Hst; [apply (q_wf_later last); [lia | done] |].
  assert (Hl : t ∈ q_live q /\ t ∉ q_ready q).
  { destruct Hq. unfold status_of in Hst. repeat case_decide; try tauto. split; [apply wf_live0, elem_of_app; auto |].
    intros Hr. apply NoDup_app in wf_nodup0 as (_ & Hd & _). by apply (Hd t). }
  destruct Hl as [Hl Hr]. case_decide; [| by apply (q_wait_wf last)].
  apply (q_wf_later _ now) in Hq; [| lia]. destruct Hq as [Hnd Hlive Hinfo Hs Hdue Hc].
  apply NoDup_app in Hnd as (Hn1 & Hd & Hn2).
  assert (Hperm : (if front then t :: q_ready q else q_ready q ++ [t]) ≡ₚ t :: q_ready q).
  { destruct front; [done |]. by rewrite <- Permutation_cons_append. }
  split; [| | done | by apply StronglySorted_filter | by apply Forall_without |]; unfold waiting; cbn.
  - rewrite Hperm, without_fst. apply NoDup_app. split; [by apply NoDup_filter |]. split.
    + intros x [Hne Hx]%list_elem_of_filter. apply not_elem_of_cons. split; [done | by apply Hd].
    + by apply NoDup_cons.
  - intros x. rewrite Hperm, elem_of_app, waiting_without, elem_of_cons.
    intros [[Hx _] | [-> | Hx]]; [| done |]; apply Hlive, elem_of_app; auto.
  - eapply covers_sub; [exact Hc | done | | done]. intros p. apply without_sub.
Qed.

(** ** The operations *)

(** An operation on [t] changes the lists, the structure of [t] and the alarm. *)
Lemma refines_update s q s' q' t a a' :
  refines s q -> actors s !! t = Some a ->
  actors s' = <[t := a']> (actors s) -> dom (nodes s') = dom (nodes s) ->
  lists (nodes s') (waiting q') (q_ready q') ->
  q_info q' = <[t := (callback a', data a')]> (q_info q) -> state a' = status_of q' t ->
  (forall x, x <> t -> status_of q' x = status_of q x) ->
  (forall p, p ∈ q_pend q' -> p.1 <> t -> p ∈ q_pend q) ->
  (forall d, (t, d) ∈ q_pend q' -> ttschedule a' = d) ->
  alarm_at s' = q_alarm q' -> refines s' q'.
Proof.
  intros [Hl Hdom Halloc Hheads Hact Hdue Hal] Ha Ea Eh Hl' Ei Hst Hoth Hp Hpt Hal'.
  assert (Hda : dom (actors s') = dom (actors s)).
  { rewrite Ea, dom_insert_L. apply elem_of_dom_2 in Ha. set_solver. }
  assert (Hti : t ∈ dom (q_info q)) by (rewrite <- Hdom; by eapply elem_of_dom_2).
  split; [done | | by rewrite Hda, Eh | by rewrite Hda | | | done].
  - rewrite Hda, Hdom, Ei, dom_insert_L. set_solver.
  - intros x b. rewrite Ea, Ei. destruct (decide (x = t)) as [-> | Hx].
    + rewrite !lookup_insert_eq. by intros [= <-].
    + rewrite !lookup_insert_ne by done. rewrite Hoth by done. apply Hact.
  - intros x d Hin. rewrite Ea. destruct (decide (x = t)) as [-> | Hx].
    + rewrite lookup_insert_eq. eauto.
    + rewrite lookup_insert_ne by done. apply Hdue. by apply Hp.
Qed.

Lemma status_init q t cb d x : x <> t -> status_of (q_init t cb d q) x = status_of q x.
Proof. intros Hx. apply status_same; [done | done |]. cbn. set_solver. Qed.

Lemma actor_init_refines last s q t cb d :
  q_wf last q -> refines s q -> t ∈ dom (q_info q) -> idle q t ->
  exists s', __actor_init s t cb d = Some s' /\ refines s' (q_init t cb d q) /\
    poll_in_progress s' = poll_in_progress s.
Proof.
  intros Hwf Hrf Ht Hidle. destruct (rf_lookup _ _ Hrf t Ht) as (a & Ha & Hi & Hst).
  destruct (not_head _ _ Hrf t Ht) as (_ & _ & Hn). destruct (idle_fresh _ _ Hrf t Ht Hidle) as [HtP HtQ].
  destruct (lists_init _ t _ _ (rf_lists _ _ Hrf) Hn HtP HtQ) as (h' & Hinit & Hl & Hdom).
  unfold __actor_init. rewrite Ha. cbn [mbind option_bind]. rewrite Hinit. cbn [mbind option_bind].
  eexists. split; [done |]. split; [| done].
  eapply (refines_update s q); [done | exact Ha | done | done | done | done | | | done | | apply Hrf].
  - cbn. unfold status_of. destruct Hidle. cbn. rewrite !decide_False by done. by rewrite decide_True by set_solver.
  - intros x Hx. by apply status_init.
  - intros dd Hin. cbn in Hin. destruct Hidle as [Hw _]. exfalso. apply Hw, list_elem_of_fmap. by exists (t, dd).
Qed.

Lemma waiting_split q t : NoDup (waiting q) -> t ∈ waiting q ->
  exists l1 l2, waiting q = l1 ++ t :: l2 /\ (without t (q_pend q)).*1 = l1 ++ l2.
Proof.
  intros Hnd Ht. apply list_elem_of_split in Ht as (l1 & l2 & E). exists l1, l2. split; [done |].
  rewrite without_fst. fold (waiting q). rewrite E in Hnd |- *. by apply filter_ne_middle.
Qed.

(** What [actor_delete] does to the lists and the alarm. *)
Lemma delete_status q t x : x <> t -> status_of (q_delete t q) x = status_of q x.
Proof.
  intros Hx. unfold q_delete. set (q1 := q <| q_pend := without t (q_pend q) |> <| q_ready := filter (fun x => x <> t) (q_ready q) |>
               <| q_live := {[t]} ∪ q_live q |>).
  assert (status_of q1 x = status_of q x).
  { apply status_same; [unfold q1, waiting at 1; cbn; rewrite waiting_without; tauto
                       | cbn; rewrite list_elem_of_filter; tauto | cbn; set_solver]. }
  repeat case_decide; done.
Qed.

Lemma q_delete_fields t q :
  q_pend (q_delete t q) = without t (q_pend q) /\
  q_ready (q_delete t q) = filter (fun x => x <> t) (q_ready q) /\
  q_live (q_delete t q) = {[t]} ∪ q_live q /\ q_info (q_delete t q) = q_info q.
Proof. unfold q_delete. by repeat case_decide. Qed.

Lemma unlink_queued last s q t :
  q_wf last q -> refines s q -> t ∈ waiting q \/ t ∈ q_ready q ->
  exists h', list_del_init (nodes s) t = Some h' /\
    lists h' (without t (q_pend q)).*1 (filter (fun x => x <> t) (q_ready q)) /\ dom h' = dom (nodes s).
Proof.
  intros [Hnd _ _ _ _ _] Hrf Hin. apply NoDup_app in Hnd as (Hn1 & Hd & Hn2).
  destruct Hin as [Hw | Hr].
  - destruct (waiting_split q t Hn1 Hw) as (l1 & l2 & E & ->).
    rewrite filter_ne_id by (by apply Hd). apply lists_del_pend; [by right |]. rewrite <- E. apply Hrf.
  - assert (Hw : t ∉ waiting q) by (intros Hw; by apply (Hd t)).
    rewrite without_id by done. apply list_elem_of_split in Hr as (l1 & l2 & E). rewrite E in Hn2 |- *.
    rewrite filter_ne_middle by done. apply lists_del_ready. rewrite <- E. apply Hrf.
Qed.

Lemma status_queued last q t :
  q_wf last q -> (status_of q t = ACTOR_WAITING \/ status_of q t = ACTOR_SCHEDULED) <->
                 (t ∈ waiting q \/ t ∈ q_ready q).
Proof. intros _. unfold status_of. repeat case_decide; naive_solver. Qed.

Lemma actor_delete_refines last s q now t :
  q_wf last q -> refines s q -> t ∈ dom (q_info q) ->
  exists s', actor_delete s now t = Some s' /\ refines s' (q_delete t q) /\
    poll_in_progress s' = poll_in_progress s.
Proof.
  intros Hwf Hrf Ht. destruct (rf_lookup _ _ Hrf t Ht) as (a & Ha & Hi & Hst).
  destruct (q_delete_fields t q) as (Ep & Er & El & Ei).
  assert (Hfin : forall s', actors s' = <[t := a <| state := ACTOR_NOTSCHEDULED |>]> (actors s) ->
    dom (nodes s') = dom (nodes s) ->
    lists (nodes s') (without t (q_pend q)).*1 (filter (fun x => x <> t) (q_ready q)) ->
    alarm_at s' = q_alarm (q_delete t q) -> refines s' (q_delete t q)).
  { intros s' Ea Eh Hl Hal.
    eapply (refines_update s q); [done | exact Ha | done | done | | | | | | | done].
    - unfold waiting. by rewrite Ep, Er.
    - rewrite Ei. cbn. by rewrite insert_id.
    - cbn. unfold status_of, waiting. rewrite Ep, Er, El.
      rewrite decide_False by (rewrite waiting_without; tauto).
      rewrite decide_False by (rewrite list_elem_of_filter; tauto). by rewrite decide_True by set_solver.
    - intros x. apply delete_status.
    - intros p. rewrite Ep. intros Hp _. by apply without_sub in Hp.
    - intros d. rewrite Ep. intros [Hne _]%list_elem_of_filter. done. }
  unfold actor_delete. rewrite Ha. cbn [mbind option_bind]. rewrite Hst.
  destruct (decide (t ∈ waiting q \/ t ∈ q_ready q)) as [Hin | Hout].
  - rewrite decide_True by (by eapply status_queued).
    destruct (unlink_queued _ s q t Hwf Hrf Hin) as (h' & -> & Hl & Hdom). cbn [mbind option_bind].
    rewrite (list_empty_spec _ _ _ (ls_pend _ _ _ Hl)). cbn [mbind option_bind].
    assert (Hal : q_alarm (q_delete t q) =
      if bool_decide ((without t (q_pend q)).*1 = []) then None else q_alarm q).
    { unfold q_delete. rewrite decide_True by done. cbn [q_pend].
      case_bool_decide as E; case_decide as E'; try done.
      - by apply fmap_nil_inv in E.
      - destruct E. cbn in E'. by rewrite E'. }
    eexists. split; [done |]. split; [| by case_bool_decide].
    apply Hfin; rewrite ?Hal; case_bool_decide; try done. apply Hrf.
  - rewrite decide_False by (by rewrite (status_queued last)). cbn [mbind option_bind].
    eexists. split; [done |]. split; [| done]. apply Decidable.not_or in Hout as [Hw Hr].
    apply Hfin; [done | done | | cbn].
    + rewrite without_id, filter_ne_id by done. apply Hrf.
    + unfold q_delete. rewrite decide_False by tauto. apply Hrf.
Qed.

Lemma i64_small z : (- 2 ^ 63 <= z < 2 ^ 63)%Z -> i64 z = z.
Proof. intros Hz. apply swrap_small; [lia | exact Hz]. Qed.

Lemma time_after_spec a b : (0 <= a < 2 ^ 63)%Z -> (0 <= b < 2 ^ 63)%Z -> time_after a b = bool_decide (b < a)%Z.
Proof.
  intros Ha Hb. unfold time_after. rewrite (i64_small a), (i64_small b) by lia. rewrite i64_small by lia.
  apply bool_decide_ext. lia.
Qed.

Definition dues_in (s : sched) (l : list (nat * Z)) : Prop :=
  Forall (fun p => (exists a, actors s !! p.1 = Some a /\ ttschedule a = p.2) /\ (0 <= p.2 < 2 ^ 63)%Z) l.

Lemma find_later_spec s due l1 l2 :
  (0 <= due < 2 ^ 63)%Z -> forall l0 fuel,
  is_list (nodes s) pend_list (l0 ++ (l1 ++ l2).*1) -> dues_in s (l1 ++ l2) ->
  Forall (fun p => p.2 <= due)%Z l1 -> match l2 with [] => True | p :: _ => (due < p.2)%Z end ->
  length l1 < fuel ->
  find_later fuel s (first_of pend_list (l1 ++ l2).*1) due = Some (head l2.*1).
Proof.
  intros Hdue. induction l1 as [| p l1 IH]; intros l0 fuel Hl Hd H1 H2 Hfuel.
  - destruct fuel; [lia |]. cbn [app] in *. destruct l2 as [| [x d] l2]; [done |].
    cbn [fmap list_fmap first_of head default find_later].
    rewrite decide_False by (destruct Hl as [Hnd _]; apply NoDup_cons in Hnd as [Hn _]; set_solver).
    apply Forall_cons in Hd as [((a & Ha & Htt) & Hr) _]. cbn in *. subst d. rewrite Ha. cbn [mbind option_bind].
    by rewrite time_after_spec, bool_decide_true by done.
  - destruct fuel; [lia |]. cbn [app] in *. destruct p as [x d]. cbn [fmap list_fmap] in Hl.
    cbn [fmap list_fmap first_of head default find_later].
    rewrite decide_False by (destruct Hl as [Hnd _]; apply NoDup_cons in Hnd as [Hn _]; set_solver).
    apply Forall_cons in Hd as [((a & Ha & Htt) & Hr) Hd]. apply Forall_cons in H1 as [Hle H1].
    cbn in Ha, Hr, Hle, Htt. subst d. cbn. rewrite Ha. cbn [mbind option_bind].
    rewrite time_after_spec, bool_decide_false by (done || lia).
    rewrite (list_next_spec _ _ _ x _ Hl). cbn [mbind option_bind].
    apply (IH (l0 ++ [x])); [by rewrite <- app_assoc | done | done | done | cbn in Hfuel; lia].
Qed.

Lemma insert_refines s l Q t a due now delay :
  lists (nodes s) l.*1 Q -> actors s !! t = Some a -> ttschedule a = due -> dues_in s l ->
  (0 <= due < 2 ^ 63)%Z -> t ∈ dom (nodes s) -> t ∉ pend_list :: l.*1 -> t ∉ ready_list :: Q ->
  exists h', lists h' (insert_due t due l).*1 Q /\ dom h' = dom (nodes s) /\
    actor_insert_on_pend_list s now t delay =
      Some (if decide (head (insert_due t due l).*1 = head l.*1) then s <| nodes := h' |>
            else alarm now delay (s <| nodes := h' |>)).
Proof.
  intros Hl Ha Hd Hdues Hdue Hn HtP HtQ.
  destruct (insert_due_split t due l) as (l1 & l2 & El & -> & H1 & H2). rewrite El in Hl, Hdues, HtP |- *.
  assert (Hsize := is_list_size _ _ _ (ls_pend _ _ _ Hl)). rewrite length_fmap, length_app in Hsize.
  pose proof Hl as [HP _ _]. pose proof HP as Hcut. rewrite fmap_app in Hl, HtP, Hcut |- *.
  destruct (lists_insert_pend _ t _ _ _ Hl Hn HtP HtQ) as (h' & Hadd & Hl' & Hdom).
  exists h'. rewrite fmap_app. split; [exact Hl' |]. split; [done |].
  unfold actor_insert_on_pend_list. rewrite (list_first_or_null_spec _ _ _ HP), Ha. cbn [mbind option_bind].
  rewrite Hd.
  assert (Hfirst : get_next (nodes s) pend_list = Some (first_of pend_list (l1 ++ l2).*1)).
  { destruct HP as [_ HP]. destruct (l1 ++ l2).*1; by apply path_cons in HP as [[? _] _]. }
  rewrite Hfirst. cbn [mbind option_bind].
  rewrite (find_later_spec s due l1 l2 Hdue []) by (done || lia). cbn [mbind option_bind].
  assert (Hput : match head l2.*1 with
                 | Some nt => pv ← get_prev (nodes s) nt; __list_add (nodes s) t pv nt
                 | None => list_add_tail (nodes s) t pend_list
                 end = Some h').
  { destruct l2 as [| [x d] l2]; cbn in Hadd |- *.
    - cbn in Hcut. rewrite app_nil_r in Hcut. unfold list_add_tail.
      destruct Hcut as [_ Hp]. apply path_app in Hp as [_ Hp]. apply path_cons in Hp as [[_ ->] _]. done.
    - apply (is_list_remove _ x) in Hcut as (-> & _). done. }
  rewrite Hput. cbn [mbind option_bind].
  assert (Hhead : list_first_entry h' pend_list = head (l1.*1 ++ ((t, due) :: l2).*1)).
  { destruct Hl' as [HP' _ _]. destruct l1; [by apply list_first_spec in HP' | by apply list_first_spec in HP']. }
  rewrite Hhead. rewrite fmap_app. destruct (head (l1.*1 ++ ((t, due) :: l2).*1)) eqn:E; [| by destruct l1].
  cbn [mbind option_bind]. f_equal. repeat case_decide; congruence.
Qed.

Lemma u32_small z : (0 <= z < 2 ^ 32)%Z -> u32 z = z.
Proof. intros Hz. by apply wrap_small. Qed.

Lemma alarm_spec now z s : (0 <= z < 2 ^ 32)%Z -> z <> 0%Z -> alarm now z s = s <| alarm_at := Some (now + z)%Z |>.
Proof. intros Hz Hne. unfold alarm. rewrite u32_small by done. by rewrite decide_False. Qed.

Lemma rf_dues last s q : q_wf last q -> refines s q -> dues_in s (q_pend q).
Proof.
  intros Hwf Hrf. apply Forall_forall. intros [t d] Hin. split; [by apply (rf_due _ _ Hrf) |].
  pose proof (wf_due _ _ Hwf) as Hd. rewrite Forall_forall in Hd. apply Hd in Hin. unfold due_ok in Hin. cbn in *. lia.
Qed.

Lemma schedule_status now t delay front q x :
  x <> t -> status_of (q_schedule now true t delay front q) x = status_of q x.
Proof.
  intros Hx. unfold q_schedule. cbn [negb]. case_decide; [done |]. case_decide.
  - apply status_same; [| | done].
    + unfold waiting at 1. cbn. rewrite waiting_without. tauto.
    + destruct front; set_solver.
  - assert (Hq : status_of (q <| q_pend := insert_due t (now + delay) (without t (q_pend q)) |>) x = status_of q x).
    { apply status_same; [| done | done]. unfold waiting at 1. cbn. rewrite insert_due_perm. cbn.
      rewrite elem_of_cons, waiting_without. tauto. }
    unfold q_wait. by case_decide.
Qed.

Lemma enqueue_refines last s s1 q now t delay front a :
  q_wf last q -> refines s q -> actors s !! t = Some a -> time_ok now -> secs_ok delay ->
  t ∈ q_live q -> t ∉ q_ready q ->
  lists (nodes s1) (without t (q_pend q)).*1 (q_ready q) -> dom (nodes s1) = dom (nodes s) ->
  actors s1 = actors s -> alarm_at s1 = alarm_at s ->
  exists s', actor_enqueue s1 now t delay front = Some s' /\
    refines s' (q_schedule now true t delay front q) /\ poll_in_progress s' = poll_in_progress s1.
Proof.
  intros Hwf Hrf Ha Hnow Hdelay Hlive Hnr Hl Hdom Ea Eal.
  assert (Ht : t ∈ dom (q_info q)) by (by apply (wf_info _ _ Hwf)).
  destruct (not_head _ _ Hrf t Ht) as (Hh1 & Hh2 & Hn).
  assert (HtP : t ∉ pend_list :: (without t (q_pend q)).*1).
  { apply not_elem_of_cons. split; [done |]. rewrite waiting_without. tauto. }
  assert (HtQ : t ∉ ready_list :: q_ready q) by (by apply not_elem_of_cons).
  destruct (rf_actor _ _ Hrf t a Ha) as [Hi Hst].
  assert (Hnst : status_of q t <> ACTOR_INVALID /\ status_of q t <> ACTOR_SCHEDULED).
  { unfold status_of. repeat case_decide; done. }
  unfold actor_enqueue. rewrite Ea, Ha. cbn [mbind option_bind].
  destruct (lists_init _ t _ _ Hl) as (h1 & -> & Hl1 & Hdom1); [by rewrite Hdom | done | done |].
  cbn [mbind option_bind].
  pose proof (schedule_status now t delay front q) as Hoth.
  assert (Eq : q_schedule now true t delay front q =
    if decide (delay = 0%Z) then
      q <| q_pend := without t (q_pend q) |> <| q_ready := if front then t :: q_ready q else q_ready q ++ [t] |>
    else q_wait now t delay q).
  { unfold q_schedule. cbn [negb]. by rewrite decide_False by tauto. }
  rewrite Eq in Hoth |- *. clear Eq. case_decide as Hd0.
  - cbn [nodes]. change (nodes (set_actor (s1 <| nodes := h1 |>) t (a <| state := ACTOR_SCHEDULED |>))) with h1.
    destruct (lists_add_ready h1 t front _ _ Hl1) as (h2 & -> & Hl2 & Hdom2); [by rewrite Hdom1, Hdom | done | done |].
    cbn [mbind option_bind]. eexists. split; [done |]. split; [| done].
    eapply (refines_update s q); [done | exact Ha | | | exact Hl2 | | | exact Hoth | | |].
    + cbn. by rewrite Ea.
    + cbn. congruence.
    + cbn. by rewrite insert_id.
    + cbn. unfold status_of, waiting. cbn. rewrite decide_False by (rewrite waiting_without; tauto).
      rewrite decide_True; [done |]. destruct front; set_solver.
    + cbn. intros p Hp _. by apply without_sub in Hp.
    + cbn. intros d [Hne _]%list_elem_of_filter. done.
    + cbn. rewrite Eal. apply Hrf.
  - set (a' := a <| state := ACTOR_WAITING |> <| ttschedule := i64 (now + delay) |>).
    set (s2 := set_actor (s1 <| nodes := h1 |>) t a').
    unfold time_ok, secs_ok in *. assert (Hdue : i64 (now + delay) = (now + delay)%Z) by (apply i64_small; lia).
    destruct (insert_refines s2 (without t (q_pend q)) (q_ready q) t a' (now + delay) now delay)
      as (h2 & Hl2 & Hdom2 & ->).
    { done. } { unfold s2. cbn. by rewrite lookup_insert_eq. } { done. }
    { pose proof (rf_dues _ _ _ Hwf Hrf) as Hdues. unfold dues_in in *. rewrite Forall_forall in Hdues |- *.
      intros p [Hne Hp]%list_elem_of_filter. unfold s2. cbn. rewrite lookup_insert_ne, Ea by done. by apply Hdues. }
    { lia. } { cbn. by rewrite Hdom1, Hdom. } { done. } { done. }
    eexists. split; [done |]. split; [| by case_decide].
    unfold q_wait in *. rewrite alarm_spec by lia.
    set (p' := insert_due t (now + delay) (without t (q_pend q))) in *.
    assert (Hp' : p' ≡ₚ (t, (now + delay)%Z) :: without t (q_pend q)) by apply insert_due_perm.
    eapply (refines_update s q _ _ t a a'); [done | exact Ha | | | | | | exact Hoth | | |].
    + case_decide; cbn; by rewrite Ea.
    + case_decide; cbn; rewrite Hdom2; cbn; congruence.
    + by case_decide.
    + assert (q_info q = <[t:=(callback a', data a')]> (q_info q)) by (symmetry; by apply insert_id).
      by case_decide.
    + assert (ACTOR_WAITING = status_of (q <| q_pend := p' |>) t).
      { symmetry. apply status_waiting. unfold waiting. cbn. rewrite Hp'. by left. }
      by case_decide.
    + assert (Hsub : forall p, p ∈ p' -> p.1 <> t -> p ∈ q_pend q).
      { intros p. rewrite Hp'. intros [-> | Hp]%elem_of_cons Hne; [done |]. by apply without_sub in Hp. }
      by case_decide.
    + assert (Hat : forall d, (t, d) ∈ p' -> ttschedule a' = d).
      { intros d. rewrite Hp'. intros [[= ->] | [Hne _]%list_elem_of_filter]%elem_of_cons; done. }
      by case_decide.
    + case_decide; cbn; [rewrite Eal; apply Hrf | done].
Qed.

Lemma schedule_refines last s q now up t delay front :
  q_wf last q -> refines s q -> t ∈ dom (q_info q) -> time_ok now -> secs_ok delay ->
  exists s', actor_schedule_private s (if up : bool then Some now else None) t delay front = Some s' /\
    refines s' (q_schedule now up t delay front q) /\ poll_in_progress s' = poll_in_progress s.
Proof.
  intros Hwf Hrf Ht Hnow Hdelay. destruct up; [| by exists s].
  destruct (rf_lookup _ _ Hrf t Ht) as (a & Ha & Hi & Hst). unfold actor_schedule_private.
  rewrite Ha. cbn [mbind option_bind]. rewrite Hst.
  pose proof (wf_nodup _ _ Hwf) as Hnd. apply NoDup_app in Hnd as (Hn1 & Hd & Hn2).
  assert (Hw : status_of q t = ACTOR_WAITING -> t ∈ waiting q /\ t ∈ q_live q /\ t ∉ q_ready q).
  { unfold status_of. repeat case_decide; try done. intros _. split; [done |]. split; [| by apply Hd].
    apply (wf_live _ _ Hwf), elem_of_app. by left. }
  assert (Hno : status_of q t = ACTOR_NOTSCHEDULED -> t ∉ waiting q /\ t ∈ q_live q /\ t ∉ q_ready q).
  { unfold status_of. by repeat case_decide. }
  destruct (status_of q t) eqn:E.
  - exists s. unfold q_schedule. rewrite E. cbn. by rewrite decide_True by auto.
  - destruct (Hw eq_refl) as (HW & HL & HR). destruct (waiting_split q t Hn1 HW) as (l1 & l2 & El & Ew).
    destruct (lists_del_pend list_del (nodes s) t l1 l2 (q_ready q)) as (h & -> & Hl & Hdom);
      [by left | rewrite <- El; apply Hrf |]. cbn [mbind option_bind].
    change (poll_in_progress s) with (poll_in_progress (s <| nodes := h |>)).
    eapply (enqueue_refines last s (s <| nodes := h |>)); try done. by rewrite Ew.
  - exists s. unfold q_schedule. rewrite E. cbn. by rewrite decide_True by auto.
  - destruct (Hno eq_refl) as (HW & HL & HR).
    eapply (enqueue_refines last s s); try done. rewrite without_id by done. apply Hrf.
Qed.

Lemma set_data_refines s q t a d :
  refines s q -> actors s !! t = Some a ->
  refines (set_actor s t (a <| data := d |>)) (q_set_data t d q).
Proof.
  intros Hrf Ha. destruct (rf_actor _ _ Hrf t a Ha) as [Hi Hst].
  eapply (refines_update s q); [done | exact Ha | done | done | apply Hrf | | done | done | done | | apply Hrf].
  - cbn. apply map_eq. intros x. destruct (decide (x = t)) as [-> | Hx].
    + by rewrite lookup_alter_eq, lookup_insert_eq, Hi.
    + by rewrite lookup_alter_ne, lookup_insert_ne.
  - cbn. intros d' Hd'. destruct (rf_due _ _ Hrf t d' Hd') as (b & Hb & <-). congruence.
Qed.

(** One call keeps the invariant and the relation. *)
Lemma exec_refines last s q c now up :
  q_wf last q -> refines s q -> call_ok q c -> time_ok now -> (0 <= last <= now)%Z ->
  exists s', actor_exec c now up s = Some s' /\ refines s' (q_exec c now up q) /\ q_wf now (q_exec c now up q) /\
    poll_in_progress s' = poll_in_progress s.
Proof.
  intros Hwf Hrf Hok Hnow Hlast. assert (Hz : secs_ok 0) by (unfold secs_ok; lia).
  destruct c as [t cb d | t | t | t | t secs cb d | t secs d]; cbn [call_ok actor_exec q_exec] in *.
  - destruct Hok as [Ht Hidle]. destruct (actor_init_refines last s q t cb d) as (s' & -> & ? & ?); [done.. |].
    exists s'. split_and!; try done. apply (q_wf_later last); [lia |]. by apply q_init_wf.
  - destruct (actor_delete_refines last s q now t) as (s' & -> & ? & ?); [done.. |].
    exists s'. split_and!; try done. apply (q_wf_later last); [lia |]. by apply q_delete_wf.
  - destruct (schedule_refines last s q now up t 0 false) as (s' & Hs & ? & ?); [done.. |].
    exists s'. split_and!; try done. by apply (q_schedule_wf last).
  - destruct (schedule_refines last s q now up t 0 true) as (s' & Hs & ? & ?); [done.. |].
    exists s'. split_and!; try done. by apply (q_schedule_wf last).
  - destruct Hok as (Ht & Hidle & Hsecs). unfold __actor_timer.
    destruct (actor_init_refines last s q t cb d) as (s1 & -> & Hrf1 & Hp1); [done.. |]. cbn [mbind option_bind].
    pose proof (q_init_wf last q t cb d Ht Hwf) as Hwf1.
    destruct (schedule_refines last s1 _ now up t secs false Hwf1 Hrf1) as (s' & Hs & ? & ?); [| done | done |].
    { cbn. rewrite dom_insert_L. set_solver. }
    exists s'. split_and!; try done; [by apply (q_schedule_wf last) | congruence].
  - destruct Hok as (Ht & Hsecs). unfold actor_timer_mod.
    destruct (actor_delete_refines last s q now t) as (s1 & -> & Hrf1 & Hp1); [done.. |]. cbn [mbind option_bind].
    pose proof (q_delete_wf last q t Ht Hwf) as Hwf1.
    assert (Ht1 : t ∈ dom (q_info (q_delete t q))) by (destruct (q_delete_fields t q) as (_ & _ & _ & ->); done).
    destruct (rf_lookup _ _ Hrf1 t Ht1) as (a & Ha & _). rewrite Ha. cbn [mbind option_bind].
    pose proof (set_data_refines s1 _ t a d Hrf1 Ha) as Hrf2. pose proof (q_set_data_wf last _ t d Hwf1) as Hwf2.
    destruct (schedule_refines last _ _ now up t secs false Hwf2 Hrf2) as (s' & Hs & ? & Hp); [| done | done |].
    { cbn. by rewrite dom_alter_L. }
    exists s'. split_and!; try done; [by apply (q_schedule_wf last) | cbn in Hp; congruence].
Qed.

Lemma run_refines cs : forall last s q,
  q_wf last q -> refines s q -> calls_ok cs last q -> (0 <= last)%Z ->
  exists s', actor_run cs s = Some s' /\ refines s' (q_run cs q) /\ q_wf (last_now cs last) (q_run cs q) /\
    poll_in_progress s' = poll_in_progress s /\ (0 <= last_now cs last)%Z.
Proof.
  induction cs as [| c cs IH]; intros last s q Hwf Hrf Hok Hlast; [by exists s |].
  destruct Hok as (Hc & Hnow & Hle & Hok). cbn [actor_run q_run last_now].
  destruct (exec_refines last s q (tc_call c) (tc_now c) (tc_up c)) as (s1 & -> & Hrf1 & Hwf1 & Hp1); [done.. |].
  cbn [mbind option_bind].
  destruct (IH (tc_now c) s1 _ Hwf1 Hrf1 Hok) as (s' & -> & ? & ? & ? & ?); [lia |].
  exists s'. split_and!; try done. congruence.
Qed.

(** ** Polling *)
Lemma split_due_spec now l :
  exists l1, l = l1 ++ (split_due now l).2 /\ (split_due now l).1 = l1.*1 /\ Forall (fun p => p.2 <= now)%Z l1 /\
    match (split_due now l).2 with [] => True | p :: _ => (now < p.2)%Z end.
Proof.
  induction l as [| p l (l1 & Hl & Hr & Hf & Hh)]; [by exists [] |]. cbn. case_decide as Hd.
  - destruct (split_due now l) as [r w]. cbn in *. exists (p :: l1). subst. split_and!; try done. by constructor.
  - exists []. cbn. split_and!; try done. lia.
Qed.

(** The queue after the loop that moves ripe actors. *)
Definition q_move (now : Z) (q : queue) : queue :=
  q <| q_pend := (split_due now (q_pend q)).2 |> <| q_ready := q_ready q ++ (split_due now (q_pend q)).1 |>
    <| q_alarm := match (split_due now (q_pend q)).2 with [] => q_alarm q | p :: _ => Some p.2 end |>.

(** One actor moved. *)
Definition q_shift (p : nat * Z) (l : list (nat * Z)) (q : queue) : queue :=
  q <| q_pend := l |> <| q_ready := q_ready q ++ [p.1] |>.

Lemma q_move_shift now p l q :
  q_pend q = p :: l -> (p.2 <= now)%Z -> q_move now q = q_move now (q_shift p l q).
Proof.
  intros E Hle. unfold q_move, q_shift. rewrite E. cbn. rewrite decide_True by done.
  destruct (split_due now l) as [r w]. cbn. by rewrite <- app_assoc.
Qed.

Lemma q_shift_wf last p l q : q_pend q = p :: l -> q_wf last q -> q_wf last (q_shift p l q).
Proof.
  intros E [Hnd Hlive Hinfo Hs Hdue Hc].
  assert (Hperm : waiting (q_shift p l q) ++ q_ready (q_shift p l q) ≡ₚ waiting q ++ q_ready q).
  { unfold waiting. cbn. rewrite E. cbn. rewrite (Permutation_app_comm (q_ready q) [p.1]).
    by rewrite Permutation_middle. }
  split; [by rewrite Hperm | intros t; rewrite Hperm; apply Hlive | done | | |]; cbn.
  - rewrite E in Hs. by apply StronglySorted_inv in Hs as [? _].
  - rewrite E in Hdue. by apply Forall_cons in Hdue as [_ ?].
  - eapply covers_sub; [exact Hc | done | | done]. cbn. intros x Hx. rewrite E. by right.
Qed.

Lemma shift_status p l q x :
  NoDup (waiting q) -> q_pend q = p :: l -> x <> p.1 -> status_of (q_shift p l q) x = status_of q x.
Proof.
  intros Hnd E Hx. apply status_same; [| | done].
  - unfold waiting. cbn. rewrite E. cbn. rewrite elem_of_cons. tauto.
  - cbn. rewrite elem_of_app, list_elem_of_singleton. tauto.
Qed.
