(* ===== verification/ActorPoll.v ===== *)
(** * [actor_poll] implements the abstract poll: the proof *)
From Stdlib Require Import ZArith Lia.
From stdpp Require Import base tactics numbers list sorting option gmap sets.
From S2P Require Import Prelude ListHead Actor ActorSpec ActorRefine.

(** ** Ripe actors *)
Lemma time_left_spec a now :
  (0 <= now)%Z -> (0 <= ttschedule a < 2 ^ 63)%Z ->
  actor_time_left a now = if decide (ttschedule a <= now)%Z then 0%Z else (ttschedule a - now)%Z.
Proof.
  intros Hnow Ha. unfold actor_time_left. repeat case_decide; try lia.
  - replace (ttschedule a - now)%Z with 0%Z by lia. done.
  - unfold u64. apply wrap_small. lia.
Qed.

(** The node after the first one, where the loop goes next. *)
Definition after_first (l : list (nat * Z)) (tmp : nat) : nat :=
  match l with [] => tmp | _ :: l' => first_of pend_list l'.*1 end.

Lemma shift_refines last s q p l :
  q_wf last q -> refines s q -> q_pend q = p :: l ->
  exists a h1 h2, actors s !! p.1 = Some a /\ ttschedule a = p.2 /\ state a = ACTOR_WAITING /\
    list_del_init (nodes s) p.1 = Some h1 /\ list_add_tail h1 p.1 ready_list = Some h2 /\
    refines (set_actor (s <| nodes := h2 |>) p.1 (a <| state := ACTOR_SCHEDULED |>)) (q_shift p l q).
Proof.
  intros Hwf Hrf E. pose proof (wf_nodup _ _ Hwf) as Hnd. pose proof Hnd as Hnd0.
  apply NoDup_app in Hnd as (Hn1 & Hd & Hn2).
  assert (Ew : waiting q = [] ++ p.1 :: l.*1) by (unfold waiting; by rewrite E).
  assert (Hpw : p.1 ∈ waiting q) by (rewrite Ew; by left).
  assert (Hpi : p.1 ∈ dom (q_info q)) by (apply (queued_info last q Hwf); apply elem_of_app; by left).
  destruct (rf_lookup _ _ Hrf _ Hpi) as (a & Ha & Hi & Hst). rewrite status_waiting in Hst by done.
  destruct (rf_due _ _ Hrf p.1 p.2) as (b & Hb & Htt); [rewrite E; destruct p; by left |].
  assert (b = a) as -> by congruence.
  destruct (lists_del_pend list_del_init (nodes s) p.1 [] l.*1 (q_ready q)) as (h1 & Hdel & Hl1 & Hdom1);
    [by right | rewrite <- Ew; apply Hrf |]. cbn [app] in Hl1.
  destruct (not_head _ _ Hrf _ Hpi) as (Hh1 & Hh2 & Hn).
  rewrite Ew in Hn1. cbn in Hn1. apply NoDup_cons in Hn1 as [Hpl Hn1].
  destruct (lists_add_ready h1 p.1 false l.*1 (q_ready q) Hl1) as (h2 & Hadd & Hl2 & Hdom2).
  { by rewrite Hdom1. } { by apply not_elem_of_cons. } { apply not_elem_of_cons. split; [done | by apply Hd]. }
  exists a, h1, h2. split_and!; try done.
  eapply (refines_update s q); [done | exact Ha | done | cbn; congruence | exact Hl2 | | | | | | apply Hrf].
  - cbn. by rewrite insert_id.
  - cbn. symmetry. apply status_ready.
    + apply (wf_nodup last). by apply q_shift_wf.
    + cbn. apply elem_of_app. right. by left.
  - intros x Hx. apply shift_status; [by rewrite Ew; apply NoDup_cons | done | done].
  - cbn. intros y Hy _. rewrite E. by right.
  - cbn. intros d Hd'. exfalso. apply Hpl, list_elem_of_fmap. by exists (p.1, d).
Qed.

Lemma move_ripe_refines now l : forall s q fuel tmp,
  q_pend q = l -> q_wf now q -> refines s q -> (0 <= now)%Z -> length l < fuel ->
  (l <> [] -> tmp = after_first l tmp) ->
  exists s', move_ripe fuel s (first_of pend_list l.*1) tmp now = Some s' /\ refines s' (q_move now q) /\
    poll_in_progress s' = poll_in_progress s.
Proof.
  induction l as [| p l IH]; intros s q fuel tmp E Hwf Hrf Hnow Hfuel Htmp; (destruct fuel; [cbn in Hfuel; lia |]).
  - cbn. exists s. split; [done |]. split; [| done]. unfold q_move. rewrite E. cbn. rewrite app_nil_r.
    destruct Hrf. by rewrite <- E.
  - destruct (shift_refines now s q p l Hwf Hrf E) as (a & h1 & h2 & Ha & Htt & Hst & Hdel & Hadd & Hrf1).
    change (first_of pend_list (p :: l).*1) with p.1. cbn [move_ripe].
    assert (Hpi : p.1 ∈ dom (q_info q)).
    { apply (queued_info now q Hwf), elem_of_app. left. unfold waiting. rewrite E. by left. }
    destruct (not_head _ _ Hrf _ Hpi) as (Hh1 & _). rewrite decide_False by done.
    rewrite Ha. cbn [mbind option_bind].
    pose proof (wf_due _ _ Hwf) as Hdue. rewrite E in Hdue. apply Forall_cons in Hdue as [Hdue _].
    unfold due_ok in Hdue. rewrite time_left_spec by lia. rewrite Htt. destruct (decide (p.2 <= now)%Z) as [Hle | Hgt].
    + rewrite decide_False by tauto. rewrite Hdel. cbn [mbind option_bind]. rewrite Hadd. cbn [mbind option_bind].
      rewrite decide_True by done. rewrite Htmp by done. cbn [after_first].
      rewrite (q_move_shift now p l q) by done.
      pose proof (q_shift_wf _ _ _ _ E Hwf) as Hwf1.
      assert (Hnx : exists tmp', get_next h2 (first_of pend_list l.*1) = Some tmp' /\ (l <> [] -> tmp' = after_first l tmp')).
      { destruct (rf_lists _ _ Hrf1) as [HP _ _]. unfold waiting in HP. cbn in HP. destruct l as [| y l]; cbn.
        - destruct HP as [_ HP]. apply path_cons in HP as [[HP _] _]. cbn. eexists. split; [exact HP | done].
        - apply (list_next_spec _ _ []) in HP. eexists. split; [exact HP | done]. }
      destruct Hnx as (tmp' & Hnx & Htmp'). cbn [nodes]. change (nodes (set_actor (s <| nodes := h2 |>) p.1 _)) with h2.
      rewrite Hnx. cbn [mbind option_bind].
      destruct (IH _ (q_shift p l q) fuel tmp' eq_refl Hwf1 Hrf1 Hnow) as (s' & Hm & Hr & Hp); [cbn in Hfuel; lia | done |].
      exists s'. split; [exact Hm |]. split; [done |]. by rewrite Hp.
    + rewrite decide_True by lia. eexists. split; [done |]. rewrite alarm_spec by lia. split; [| done].
      unfold q_move. rewrite E. cbn. rewrite decide_False by done. cbn. rewrite app_nil_r.
      destruct Hrf as [???? Hact Hd _]. split; try done; cbn.
      * change (lists (nodes s) (p :: l).*1 (q_ready q)). by rewrite <- E.
      * intros t a' Ha'. change (status_of _ t) with (status_of (q <| q_pend := p :: l |>) t).
        rewrite <- E. by apply Hact.
      * intros t d. rewrite <- E. apply Hd.
      * f_equal. lia.
Qed.

Lemma q_ripen_wf now q : q_wf now q -> q_wf now (q_ripen now q).
Proof.
  intros [Hnd Hlive Hinfo Hs Hdue Hc]. unfold q_ripen.
  destruct (split_due_spec now (q_pend q)) as (l1 & Hl & Hr & Hf & Hh).
  destruct (split_due now (q_pend q)) as [ripe rest]. cbn in *. subst ripe.
  assert (Hperm : rest.*1 ++ q_ready q ++ l1.*1 ≡ₚ waiting q ++ q_ready q).
  { unfold waiting. rewrite Hl, fmap_app, app_assoc. rewrite (Permutation_app_comm _ l1.*1). by rewrite app_assoc. }
  split; unfold waiting; cbn.
  - by rewrite Hperm.
  - intros t. rewrite Hperm. apply Hlive.
  - done.
  - clear - Hs Hl. rewrite Hl in Hs. clear Hl. induction l1; [done |]. cbn in Hs. apply IHl1.
    by apply StronglySorted_inv in Hs as [? _].
  - rewrite Hl in Hdue. by apply Forall_app in Hdue as [_ ?].
  - unfold alarm_covers. cbn. destruct rest; [done |]. eexists. split; [done |]. cbn. lia.
Qed.

(** ** The loop on the ready list *)
Lemma pop_ready_wf last t r q : q_ready q = t :: r -> q_wf last q -> q_wf last (q <| q_ready := r |>).
Proof.
  intros E [Hnd Hlive Hinfo Hs Hdue Hc]. rewrite E in Hnd, Hlive.
  split; [| | done | done | done | done]; unfold waiting in *; cbn.
  - rewrite <- Permutation_middle in Hnd. by apply NoDup_cons in Hnd as [_ ?].
  - intros x Hx. apply Hlive. rewrite elem_of_app in Hx |- *. set_solver.
Qed.

Lemma pop_ready_refines last s q t r :
  q_wf last q -> refines s q -> q_ready q = t :: r ->
  exists a h, list_first_entry (nodes s) ready_list = Some t /\ list_del_init (nodes s) t = Some h /\
    actors s !! t = Some a /\ the_exec q t = mk_exec t (callback a) (data a) /\
    refines (set_actor (s <| nodes := h |>) t (a <| state := ACTOR_NOTSCHEDULED |>)) (q <| q_ready := r |>).
Proof.
  intros Hwf Hrf E. pose proof (wf_nodup _ _ Hwf) as Hnd. apply NoDup_app in Hnd as (Hn1 & Hd & Hn2).
  assert (Hin : t ∈ waiting q ++ q_ready q) by (apply elem_of_app; right; rewrite E; by left).
  assert (Hti : t ∈ dom (q_info q)) by (by apply (queued_info last q Hwf)).
  destruct (rf_lookup _ _ Hrf t Hti) as (a & Ha & Hi & Hst).
  pose proof (rf_lists _ _ Hrf) as Hl. rewrite E in Hl, Hn2. apply NoDup_cons in Hn2 as [Htr Hn2].
  destruct (lists_del_ready (nodes s) t [] r (waiting q) Hl) as (h & Hdel & Hl' & Hdom).
  exists a, h. split; [apply (list_first_spec _ _ _ r), Hl |]. split_and!; try done.
  { unfold the_exec. by rewrite Hi. }
  assert (Htw : t ∉ waiting q) by (intros Hw; apply (Hd t Hw); rewrite E; by left).
  eapply (refines_update s q); [done | exact Ha | done | done | exact Hl' | | | | | | apply Hrf].
  - cbn. by rewrite insert_id.
  - cbn. unfold status_of, waiting in *. cbn. rewrite !decide_False by done.
    by rewrite decide_True by (by apply (wf_live _ _ Hwf)).
  - intros x Hx. apply status_same; [done | cbn; rewrite E, elem_of_cons; tauto | done].
  - done.
  - cbn. intros d Hd'. exfalso. apply Htw, list_elem_of_fmap. by exists (t, d).
Qed.

Lemma run_ready_refines behave fuel : forall done last s q fin done' q' last',
  q_wf last q -> refines s q -> ready_ok fuel behave done last q -> (0 <= last)%Z ->
  q_run_ready fuel behave done last q = (fin, done', q', last') ->
  exists s', run_ready fuel behave done s = Some (fin, done', s') /\ refines s' q' /\ q_wf last' q' /\
    poll_in_progress s' = poll_in_progress s /\ (0 <= last')%Z /\ (fin = true -> q_ready q' = []).
Proof.
  induction fuel as [| fuel IH]; intros done last s q fin done' q' last' Hwf Hrf Hok Hlast Hq;
    cbn [run_ready q_run_ready ready_ok] in *;
    rewrite (list_empty_spec _ _ _ (ls_ready _ _ _ (rf_lists _ _ Hrf))); cbn [mbind option_bind];
    destruct (q_ready q) as [| t r] eqn:E; cbn [bool_decide].
  - injection Hq as <- <- <- <-. by exists s.
  - injection Hq as <- <- <- <-. by exists s.
  - injection Hq as <- <- <- <-. by exists s.
  - destruct (pop_ready_refines last s q t r Hwf Hrf E) as (a & h & Hf & Hdel & Ha & He & Hrf1).
    rewrite bool_decide_false by done. rewrite Hf. cbn [mbind option_bind]. rewrite Hdel. cbn [mbind option_bind].
    rewrite Ha. cbn [mbind option_bind]. rewrite <- He. destruct Hok as [Hcs Hok].
    pose proof (pop_ready_wf last t r q E Hwf) as Hwf1.
    destruct (run_refines _ _ _ _ Hwf1 Hrf1 Hcs Hlast) as (s2 & -> & Hrf2 & Hwf2 & Hp2 & Hl2). cbn [mbind option_bind].
    destruct (IH _ _ s2 _ _ _ _ _ Hwf2 Hrf2 Hok Hl2 Hq) as (s' & -> & ? & ? & Hp & ? & ?).
    exists s'. split_and!; try done. by rewrite Hp, Hp2.
Qed.

(** ** [actor_poll] *)
Lemma poll_refines fuel behave now last s q fin done q' last' :
  q_wf last q -> refines s q -> poll_in_progress s = false -> (0 <= last <= now)%Z ->
  ready_ok fuel behave [] now (q_ripen now q) -> q_poll fuel behave now q = (fin, done, q', last') ->
  exists s', actor_poll fuel behave (Some now) s = Some (fin, done, s') /\ refines s' q' /\ q_wf last' q' /\
    poll_in_progress s' = negb fin /\ (0 <= last')%Z /\ (fin = true -> q_ready q' = []).
Proof.
  intros Hwf Hrf Hpp Hlast Hok Hq. apply (q_wf_later _ now) in Hwf; [| lia].
  unfold actor_poll. rewrite Hpp. pose proof (ls_pend _ _ _ (rf_lists _ _ Hrf)) as HP.
  pose proof (is_list_size _ _ _ HP) as Hsize. unfold waiting in Hsize. rewrite length_fmap in Hsize.
  assert (Hfirst : get_next (nodes s) pend_list = Some (first_of pend_list (q_pend q).*1)).
  { destruct HP as [_ HP]. unfold waiting in HP. destruct (q_pend q); by apply path_cons in HP as [[? _] _]. }
  rewrite Hfirst. cbn [mbind option_bind].
  assert (Hnx : exists tmp, get_next (nodes s) (first_of pend_list (q_pend q).*1) = Some tmp /\
                  (q_pend q <> [] -> tmp = after_first (q_pend q) tmp)).
  { unfold waiting in HP. destruct (q_pend q) as [| p l]; cbn in *; [by eexists |].
    apply (list_next_spec _ _ []) in HP. by eexists. }
  destruct Hnx as (tmp & -> & Htmp). cbn [mbind option_bind].
  destruct (move_ripe_refines now (q_pend q) s q (S (size (nodes s))) tmp) as (s1 & -> & Hrf1 & Hp1); try done; try lia.
  cbn [mbind option_bind]. rewrite (list_empty_spec _ _ _ (ls_pend _ _ _ (rf_lists _ _ Hrf1))). cbn [mbind option_bind].
  set (s2 := (if bool_decide (waiting (q_move now q) = []) then alarm now 0 s1 else s1) <| poll_in_progress := true |>).
  assert (Hrf2 : refines s2 (q_ripen now q)).
  { unfold s2, q_ripen, q_move, waiting in *. destruct (split_due now (q_pend q)) as [ripe [| p rest]]; cbn in *;
      destruct Hrf1; by split. }
  unfold q_poll in Hq.
  destruct (run_ready_refines behave fuel [] now s2 (q_ripen now q) fin done q' last') as (s' & -> & Hrf' & ? & ? & ? & ?);
    [by apply q_ripen_wf | done | done | lia | done |].
  cbn [mbind option_bind]. eexists. split; [done |]. split_and!; try done. destruct Hrf'. by split.
Qed.

(** ** Histories *)
Lemma history_refines es : forall last s q,
  q_wf last q -> refines s q -> poll_in_progress s = false -> (0 <= last)%Z -> history_ok es last q ->
  exists s', actor_history es s = Some (q_executed es last q, s') /\ refines s' (q_history es last q).1 /\
    q_wf (q_history es last q).2 (q_history es last q).1 /\ poll_in_progress s' = false /\
    (0 <= (q_history es last q).2)%Z.
Proof.
  induction es as [| [c | fuel behave now] es IH]; intros last s q Hwf Hrf Hpp Hlast Hok; cbn in *.
  - by exists s.
  - destruct Hok as (Hc & Hnow & Hle & Hok).
    destruct (exec_refines last s q (tc_call c) (tc_now c) (tc_up c)) as (s1 & -> & Hrf1 & Hwf1 & Hp1); [done.. |].
    cbn [mbind option_bind]. apply IH; [done | done | congruence | lia | done].
  - destruct Hok as (Hnow & Hle & Hok & Hrest).
    destruct (q_poll fuel behave now q) as [[[fin done] q1] last1] eqn:Eq. destruct Hrest as [-> Hrest].
    destruct (poll_refines fuel behave now last s q true done q1 last1) as (s1 & -> & Hrf1 & Hwf1 & Hp1 & Hl1 & _); try done.
    cbn [mbind option_bind]. destruct (IH last1 s1 q1) as (s' & -> & ? & ? & ? & ?); try done.
    by exists s'.
Qed.
