(* ===== verification/ActorTheorems.v ===== *)
(** * The scheduler: properties *)
From Stdlib Require Import ZArith Lia.
From stdpp Require Import base tactics numbers list sorting option gmap sets.
From S2P Require Import Prelude ListHead Actor ActorSpec ActorRefine ActorPoll.

(** ** The start *)
Lemma start_lookup {A} (f : nat -> A) m n x :
  (list_to_map ((fun i => (i, f i)) <$> seq m n) : gmap nat A) !! x =
    if decide (m <= x < m + n) then Some (f x) else None.
Proof.
  revert m. induction n as [| n IH]; intros m; cbn.
  - rewrite lookup_empty, decide_False; [done | lia].
  - destruct (decide (x = m)) as [-> | Hx].
    + rewrite lookup_insert_eq, decide_True; [done | lia].
    + rewrite lookup_insert_ne, IH by done. repeat case_decide; try done; lia.
Qed.

Lemma start_dom {A} (f : nat -> A) m n x :
  x ∈ dom (list_to_map ((fun i => (i, f i)) <$> seq m n) : gmap nat A) <-> m <= x < m + n.
Proof.
  rewrite elem_of_dom, start_lookup. case_decide; [by split; eauto | split; [by intros [??] | done]].
Qed.

Lemma start_wf n : q_wf 0 (queue_start n).
Proof. split; cbn; try done; try constructor. set_solver. Qed.

Lemma start_refines n : refines (actor_start n) (queue_start n).
Proof.
  split; cbn [nodes actors q_info q_pend actor_start queue_start q_alarm alarm_at].
  - assert (Hself : forall e, e < 2 -> is_list (nodes (actor_start n)) e []).
    { intros e He. split; [apply NoDup_singleton |]. cbn [app]. apply path_cons. split; [| constructor].
      unfold link, get_next, get_prev, actor_start. cbn [nodes].
      rewrite (start_lookup (fun i => mk_list_head (Some i) (Some i))), decide_True by lia. done. }
    split; [apply Hself; unfold pend_list; lia | apply Hself; unfold ready_list; lia |]. set_solver.
  - apply set_eq. intros x. by rewrite !start_dom.
  - intros x. rewrite !start_dom. lia.
  - rewrite !start_dom. unfold pend_list, ready_list. lia.
  - intros t a. rewrite !start_lookup. case_decide; [| done]. intros [= <-]. split; [done |].
    unfold status_of. cbn. rewrite !decide_False; set_solver.
  - intros t d Hin. by apply elem_of_nil in Hin.
  - done.
Qed.

(** ** How many callbacks a poll runs *)
Definition call_adds (c : actor_call) : nat :=
  match c with
  | CSchedule _ | CScheduleHead _ => 1
  | CTimer _ secs _ _ | CTimerMod _ secs _ => if decide (secs = 0%Z) then 1 else 0
  | CInit _ _ _ | CDelete _ => 0
  end.

(** The calls of a sequence that make an actor ready at once. *)
Definition adds (cs : list timed_call) : nat := sum_list (call_adds ∘ tc_call <$> cs).

(** The same for all callbacks of an execution. *)
Fixpoint total (behave : list execution -> list timed_call) (past : list execution) (l : list execution) : nat :=
  match l with
  | [] => 0
  | e :: l => adds (behave (past ++ [e])) + total behave (past ++ [e]) l
  end.

Lemma schedule_length now up t delay front q :
  length (q_ready (q_schedule now up t delay front q)) <=
    length (q_ready q) + if decide (delay = 0%Z) then 1 else 0.
Proof.
  unfold q_schedule, q_wait. destruct up; cbn [negb]; [| lia]. repeat case_decide; cbn; try lia.
  destruct front; rewrite ?length_app; cbn; lia.
Qed.

Lemma exec_length c now up q :
  length (q_ready (q_exec c now up q)) <= length (q_ready q) + call_adds c.
Proof.
  assert (Hdel : forall t, length (q_ready (q_delete t q)) <= length (q_ready q)).
  { intros t. destruct (q_delete_fields t q) as (_ & -> & _). apply length_filter. }
  destruct c; cbn [q_exec call_adds]; try (etrans; [apply schedule_length |]); cbn; try lia; try done.
  - specialize (Hdel thread). lia.
  - specialize (Hdel thread). lia.
Qed.

Lemma run_length cs : forall q, length (q_ready (q_run cs q)) <= length (q_ready q) + adds cs.
Proof.
  induction cs as [| c cs IH]; intros q; [cbn; lia |]. cbn [q_run]. etrans; [apply IH |].
  pose proof (exec_length (tc_call c) (tc_now c) (tc_up c) q). unfold adds. cbn. lia.
Qed.

Lemma total_snoc behave past l e :
  total behave past (l ++ [e]) = total behave past l + adds (behave (past ++ l ++ [e])).
Proof.
  revert past. induction l as [| x l IH]; intros past; cbn; [lia |]. rewrite IH.
  rewrite <- !app_assoc. cbn. lia.
Qed.

Lemma run_ready_ends behave k fuel : forall done last q,
  (forall l, total behave [] l <= k) -> length (q_ready q) + (k - total behave [] done) <= fuel ->
  (q_run_ready fuel behave done last q).1.1.1 = true.
Proof.
  induction fuel as [| fuel IH]; intros done last q Hk Hfuel; cbn [q_run_ready];
    destruct (q_ready q) as [| t r] eqn:E; cbn in *; try done; try lia.
  apply IH; [done |]. pose proof (run_length (behave (done ++ [the_exec q t])) (q <| q_ready := r |>)) as Hr.
  cbn in Hr. pose proof (Hk (done ++ [the_exec q t])) as Ht. rewrite total_snoc in Ht |- *. cbn in Ht |- *. lia.
Qed.

(** ** Which actors a poll runs *)
Definition spares (t : nat) (c : actor_call) : Prop :=
  match c with CDelete t' | CTimerMod t' _ _ => t' <> t | _ => True end.

Lemma schedule_keeps_ready now up t delay front q x :
  x ∈ q_ready q -> x ∈ q_ready (q_schedule now up t delay front q).
Proof.
  intros Hx. unfold q_schedule, q_wait. destruct up; cbn [negb]; [| done]. repeat case_decide; cbn; try done.
  destruct front; set_solver.
Qed.

Lemma exec_keeps_ready c now up q x : spares x c -> x ∈ q_ready q -> x ∈ q_ready (q_exec c now up q).
Proof.
  intros Hs Hx. assert (Hdel : forall t, t <> x -> x ∈ q_ready (q_delete t q)).
  { intros t Ht. destruct (q_delete_fields t q) as (_ & -> & _). by apply list_elem_of_filter. }
  destruct c; cbn [q_exec spares] in *; try apply schedule_keeps_ready; try done; by apply Hdel.
Qed.

Lemma run_keeps_ready cs x : forall q,
  Forall (spares x ∘ tc_call) cs -> x ∈ q_ready q -> x ∈ q_ready (q_run cs q).
Proof.
  induction cs as [| c cs IH]; intros q Hs Hx; [done |]. apply Forall_cons in Hs as [Hc Hs].
  cbn [q_run]. apply IH; [done |]. by apply exec_keeps_ready.
Qed.

Lemma run_ready_done behave x fuel : forall done last q done' q' last',
  (forall l, Forall (spares x ∘ tc_call) (behave l)) ->
  q_run_ready fuel behave done last q = (true, done', q', last') ->
  (x ∈ ex_thread <$> done \/ x ∈ q_ready q) -> x ∈ ex_thread <$> done'.
Proof.
  induction fuel as [| fuel IH]; intros done last q done' q' last' Hs Hq Hx; cbn [q_run_ready] in Hq;
    destruct (q_ready q) as [| t r] eqn:E; try done.
  - simplify_eq; set_solver.
  - simplify_eq.
  - simplify_eq; set_solver.
  - eapply IH; [done | exact Hq |]. rewrite fmap_app, elem_of_app.
    assert (He : ex_thread (the_exec q t) = t) by (unfold the_exec; by destruct (q_info q !! t) as [[]|]).
    cbn. rewrite He. destruct Hx as [Hx | [-> | Hx]%elem_of_cons]; [by do 2 left | left; right; by left |].
    right. apply run_keeps_ready; [done |]. done.
Qed.

Lemma ripen_ready now q t :
  StronglySorted due_le (q_pend q) -> (t ∈ q_ready q \/ exists d, (t, d) ∈ q_pend q /\ (d <= now)%Z) ->
  t ∈ q_ready (q_ripen now q).
Proof.
  intros Hs Ht. unfold q_ripen. destruct (split_due_spec now (q_pend q)) as (l1 & Hl & Hr & Hf & Hh).
  destruct (split_due now (q_pend q)) as [ripe rest]. cbn in *. apply elem_of_app.
  destruct Ht as [? | (d & Hin & Hd)]; [by left | right]. rewrite Hr. rewrite Hl in Hin.
  apply elem_of_app in Hin as [Hin | Hin]; [apply list_elem_of_fmap; by exists (t, d) |].
  exfalso. assert (Hsr : StronglySorted due_le rest).
  { rewrite Hl in Hs. clear -Hs. induction l1; [done |]. cbn in Hs. by apply StronglySorted_inv in Hs as [? _]; auto. }
  destruct rest as [| p rest]; [by apply elem_of_nil in Hin |].
  apply elem_of_cons in Hin as [<- | Hin]; [cbn in Hh; lia |].
  apply StronglySorted_inv in Hsr as [_ Hall]. rewrite Forall_forall in Hall. apply Hall in Hin.
  unfold due_le in Hin. cbn in Hin. lia.
Qed.

(** ** The properties *)

(** C24: actor.c implements the abstract scheduler.  For every history of calls
    and polls that keeps the contract of the interface, the program on its
    linked lists never follows a bad pointer or fails the assertion, runs the
    same callbacks with the same data in the same order, and ends in the
    corresponding state. *)
Theorem actor_refines_queue n es :
  history_ok es 0 (queue_start n) ->
  exists s, actor_history es (actor_start n) = Some (q_executed es 0 (queue_start n), s) /\
    refines s (q_history es 0 (queue_start n)).1.
Proof.
  intros Hok. destruct (history_refines es 0 (actor_start n) (queue_start n)) as (s & ? & ? & _);
    [apply start_wf | apply start_refines | done | lia | done |]. eauto.
Qed.

(** C25: the lists in memory after any history: both are well-formed circular
    lists, no actor is in both or twice in one, the state field tells the list
    that an actor is in, the waiting actors are sorted by their time, and when
    one waits an alarm was requested for no later than the first one is due, so
    that no timer is lost. *)
Theorem timers_are_kept n es done s :
  history_ok es 0 (queue_start n) -> actor_history es (actor_start n) = Some (done, s) ->
  exists P Q, is_list (nodes s) pend_list P /\ is_list (nodes s) ready_list Q /\ NoDup (P ++ Q) /\
    (forall t a, actors s !! t = Some a ->
       (state a = ACTOR_WAITING <-> t ∈ P) /\ (state a = ACTOR_SCHEDULED <-> t ∈ Q)) /\
    (exists due, P = due.*1 /\ StronglySorted due_le due /\
       (forall t d, (t, d) ∈ due -> ttschedule <$> actors s !! t = Some d) /\
       match due with
       | [] => True
       | p :: _ => exists at_, alarm_at s = Some at_ /\ (at_ <= p.2)%Z
       end).
Proof.
  intros Hok Hh. destruct (history_refines es 0 (actor_start n) (queue_start n)) as (s' & Hs & Hrf & Hwf & _);
    [apply start_wf | apply start_refines | done | lia | done |].
  rewrite Hs in Hh. injection Hh as _ ->. set (q := (q_history es 0 (queue_start n)).1) in *.
  pose proof (rf_lists _ _ Hrf) as [HP HQ _]. pose proof (wf_nodup _ _ Hwf) as Hnd.
  exists (waiting q), (q_ready q). split_and!; try done.
  - intros t a Ha. destruct (rf_actor _ _ Hrf t a Ha) as [_ ->]. split; split.
    + unfold status_of. by repeat case_decide.
    + apply status_waiting.
    + unfold status_of. by repeat case_decide.
    + by apply status_ready.
  - exists (q_pend q). split; [done |]. split; [apply (wf_sorted _ _ Hwf) |]. split.
    + intros t d Hin. destruct (rf_due _ _ Hrf t d Hin) as (a & -> & <-). done.
    + rewrite (rf_alarm _ _ Hrf). apply (wf_alarm _ _ Hwf).
Qed.

(** C26: an actor that is ready, or whose time has come, is executed by the
    next poll: [actor_poll] returns after at most as many callbacks as were
    queued plus the actors that callbacks make ready at once, and an actor that
    was due and that no callback deletes or restarts is among the executed
    ones. *)
Theorem due_actor_runs n es fuel behave now k t :
  history_ok es 0 (queue_start n) ->
  let q := (q_history es 0 (queue_start n)).1 in
  ((q_history es 0 (queue_start n)).2 <= now)%Z ->
  ready_ok fuel behave [] now (q_ripen now q) ->
  (forall l, total behave [] l <= k) -> length (q_ready q) + length (q_pend q) + k <= fuel ->
  (t ∈ q_ready q \/ exists d, (t, d) ∈ q_pend q /\ (d <= now)%Z) ->
  (forall l, Forall (spares t ∘ tc_call) (behave l)) ->
  exists s s' done done', actor_history es (actor_start n) = Some (done, s) /\
    actor_poll fuel behave (Some now) s = Some (true, done', s') /\
    t ∈ ex_thread <$> done' /\ is_list (nodes s') ready_list [] /\ poll_in_progress s' = false.
Proof.
  intros Hok q Hnow Hready Hk Hfuel Ht Hsp.
  destruct (history_refines es 0 (actor_start n) (queue_start n)) as (s & Hs & Hrf & Hwf & Hpp & Hl0);
    [apply start_wf | apply start_refines | done | lia | done |]. fold q in Hrf, Hwf.
  destruct (q_poll fuel behave now q) as [[[fin done'] q'] last'] eqn:Eq.
  assert (Hlen : length (q_ready (q_ripen now q)) <= length (q_ready q) + length (q_pend q)).
  { unfold q_ripen. destruct (split_due_spec now (q_pend q)) as (l1 & Hl & Hr & _).
    destruct (split_due now (q_pend q)) as [ripe rest]. cbn in *. rewrite length_app, Hr, length_fmap.
    rewrite Hl, length_app. lia. }
  assert (fin = true) as ->.
  { pose proof (run_ready_ends behave k fuel [] now (q_ripen now q) Hk) as He. cbn in He.
    unfold q_poll in Eq. rewrite Eq in He. cbn in He. apply He. lia. }
  destruct (poll_refines fuel behave now _ s q true done' q' last' Hwf Hrf Hpp) as (s' & Hp & Hrf' & _ & Hpp' & _ & Hemp);
    [lia | done | done |].
  exists s, s', (q_executed es 0 (queue_start n)), done'. split_and!; try done.
  - eapply run_ready_done; [done | exact Eq |]. right. apply ripen_ready; [apply (wf_sorted _ _ Hwf) | done].
  - rewrite <- (Hemp eq_refl). apply Hrf'.
Qed.

(** ** A run

    Actor 2 waits until 105 and actor 3 until 103, actor 4 is ready; the poll
    at 103 runs 4, whose callback restarts its own timer, and then 3. *)
Module Demo.

Definition history : list event :=
  [ECall (mk_timed (CTimer 2 5 20 21) 100 true);
   ECall (mk_timed (CTimer 3 3 30 31) 100 true);
   ECall (mk_timed (CInit 4 40 41) 100 true);
   ECall (mk_timed (CSchedule 4) 101 true)].

Definition behave (done : list execution) : list timed_call :=
  match done with
  | [_] => [mk_timed (CTimerMod 4 10 42) 103 true]
  | _ => []
  end.

Example executed :
  fst <$> actor_history (history ++ [EPoll 5 behave 103; EPoll 5 (fun _ => []) 113]) (actor_start 3) =
    Some [mk_exec 4 40 41; mk_exec 3 30 31; mk_exec 2 20 21; mk_exec 4 40 42].
Proof. vm_compute. reflexivity. Qed.

Lemma history_is_ok : history_ok (history ++ [EPoll 5 behave 103]) 0 (queue_start 3).
Proof.
  unfold time_ok. cbn [history app history_ok tc_call tc_now tc_up].
  repeat match goal with |- _ /\ _ => split end;
    try (vm_compute; (done || tauto));
    try (apply (bool_decide_unpack _); vm_compute; exact I).
Qed.

End Demo.

Lemma total_zero behave : (forall l, adds (behave l) = 0) -> forall l past, total behave past l = 0.
Proof. intros Hz l. induction l as [| e l IH]; intros past; cbn; [done |]. by rewrite Hz, IH. Qed.

Lemma history_ok_app es1 es2 : forall last q, history_ok (es1 ++ es2) last q ->
  history_ok es1 last q /\ history_ok es2 (q_history es1 last q).2 (q_history es1 last q).1.
Proof.
  induction es1 as [| [c | fuel behave now] es1 IH]; intros last q Hok; [done | |]; cbn [app history_ok q_history] in *.
  - destruct Hok as (? & ? & ? & Hok). by apply IH in Hok as [??].
  - destruct Hok as (? & ? & ? & Hok). destruct (q_poll fuel behave now q) as [[[fin done] q1] last1].
    destruct Hok as [? Hok]. by apply IH in Hok as [??].
Qed.

Lemma demo_prefix_ok : history_ok Demo.history 0 (queue_start 3).
Proof. destruct (history_ok_app Demo.history _ _ _ Demo.history_is_ok) as [H _]. exact H. Qed.

Lemma demo_poll_ok :
  ready_ok 5 Demo.behave [] 103 (q_ripen 103 (q_history Demo.history 0 (queue_start 3)).1).
Proof.
  destruct (history_ok_app Demo.history _ _ _ Demo.history_is_ok) as [_ H]. cbn [history_ok] in H.
  destruct H as (_ & _ & H & _). exact H.
Qed.

Lemma actor_refines_queue_witness :
  exists s, actor_history (Demo.history ++ [EPoll 5 Demo.behave 103]) (actor_start 3) =
      Some (q_executed (Demo.history ++ [EPoll 5 Demo.behave 103]) 0 (queue_start 3), s) /\
    refines s (q_history (Demo.history ++ [EPoll 5 Demo.behave 103]) 0 (queue_start 3)).1.
Proof. exact (actor_refines_queue 3 _ Demo.history_is_ok). Defined.

Lemma timers_are_kept_witness : exists done s,
  actor_history Demo.history (actor_start 3) = Some (done, s) /\
  exists P Q, is_list (nodes s) pend_list P /\ is_list (nodes s) ready_list Q /\ NoDup (P ++ Q).
Proof.
  destruct (actor_history Demo.history (actor_start 3)) as [[done s] |] eqn:E; [| vm_compute in E; discriminate].
  exists done, s. split; [reflexivity |].
  destruct (timers_are_kept 3 Demo.history done s demo_prefix_ok E) as (P & Q & HP & HQ & Hnd & _).
  exists P, Q. split; [exact HP | split; [exact HQ | exact Hnd]].
Defined.

Lemma due_actor_runs_witness :
  exists s s' done done', actor_history Demo.history (actor_start 3) = Some (done, s) /\
    actor_poll 5 Demo.behave (Some 103%Z) s = Some (true, done', s') /\
    3 ∈ ex_thread <$> done' /\ is_list (nodes s') ready_list [] /\ poll_in_progress s' = false.
Proof.
  apply (due_actor_runs 3 Demo.history 5 Demo.behave 103 0 3 demo_prefix_ok).
  - vm_compute. discriminate.
  - exact demo_poll_ok.
  - intros l. rewrite total_zero; [lia |]. intros [| ? [| ??]]; reflexivity.
  - vm_compute. lia.
  - right. exists 103%Z. split; [| lia]. apply (bool_decide_unpack _). vm_compute. exact I.
  - intros [| ? [| ??]]; repeat constructor. cbn. lia.
Defined.
