(* ===== verification/Idbm.v ===== *)
(** * The record database: parameters, printing and parsing

    The engine of usr/idbm.c.  A record in memory is known by its fields: the
    path of a field in the C structure is its name.  A [recinfo] describes one
    parameter: the key in the file, the field it belongs to and its type; the
    tables of [recinfo]s are in IdbmTables. *)
From Stdlib Require Import ZArith Lia Ascii.
From stdpp Require Import base tactics numbers list strings option gmap.
From S2P Require Import Prelude CString Login.

Definition IDBM_HIDE : Z := 0.
Definition IDBM_SHOW : Z := 1.
Definition IDBM_MASKED : Z := 2.
Definition MAX_KEYS : nat := 256.
Definition NAME_MAXVAL : nat := 128.
Definition VALUE_MAXVAL : nat := 256.
Definition ISCSI_ERR_NOMEM : Z := 3.
Definition ISCSI_ERR_INVAL : Z := 7.

(** ** Records in memory

    An integer, the content of a character array, or an array of integers.  A
    field that is absent is zero, as after [memset]. *)
Inductive fval := FInt (z : Z) | FStr (s : list Z) | FArr (l : list Z).

Notation memory := (gmap string fval).

Definition get_int (m : memory) (f : string) : Z := match m !! f with Some (FInt z) => z | _ => 0 end.
Definition get_str (m : memory) (f : string) : list Z := match m !! f with Some (FStr s) => s | _ => [] end.
Definition get_arr (m : memory) (f : string) : list Z := match m !! f with Some (FArr l) => l | _ => [] end.

(** ** Parameters *)
Inductive param_type := TYPE_INT | TYPE_INT_O | TYPE_STR | TYPE_UINT8 | TYPE_UINT16 | TYPE_UINT32 | TYPE_INT_LIST.

#[export] Instance param_type_eq_dec : EqDecision param_type.
Proof. solve_decision. Defined.

(** [data] is the field that the pointer refers to; [tbl] is the table that
    [opts\[0\]] points to for a list. *)
Record recinfo := mk_recinfo {
  ri_type : param_type;
  ri_name : list Z;
  ri_value : list Z;
  ri_data : option string;
  ri_data_len : nat;
  ri_visible : Z;
  ri_opts : list (list Z);
  ri_tbl : list (list Z * Z);
  ri_can_modify : bool
}.
#[export] Instance eta_recinfo : Eta recinfo := fun i =>
  mk_recinfo (ri_type i) (ri_name i) (ri_value i) (ri_data i) (ri_data_len i) (ri_visible i) (ri_opts i)
    (ri_tbl i) (ri_can_modify i).

(** An entry that [memset] left. *)
Definition zero_recinfo : recinfo := mk_recinfo TYPE_INT [] [] None 0 0 [] [] false.

(** [strlcpy] into an array of [n] characters, by content. *)
Definition strlcpy_to (n : nat) (s : list Z) : list Z := take (n - 1) s.

(** The macros that fill one entry of the table. *)
Definition recinfo_entry (ty : param_type) (key value : list Z) (f : string) (len : nat) (show : Z)
    (opts : list (list Z)) (tbl : list (list Z * Z)) (can : bool) : recinfo :=
  mk_recinfo ty (strlcpy_to NAME_MAXVAL key) value (Some f) len show opts tbl can.

Definition __recinfo_str (key : list Z) (r : memory) (f : string) (len : nat) (show : Z) (can : bool) : recinfo :=
  recinfo_entry TYPE_STR key (strlcpy_to VALUE_MAXVAL (get_str r f)) f len show [] [] can.

Definition __recinfo_int (key : list Z) (r : memory) (f : string) (show : Z) (can : bool) : recinfo :=
  recinfo_entry TYPE_INT key (fmt_d (i32 (get_int r f))) f 4 show [] [] can.

Definition __recinfo_uint8 (key : list Z) (r : memory) (f : string) (show : Z) (can : bool) : recinfo :=
  recinfo_entry TYPE_UINT8 key (fmt_lu (u32 (get_int r f))) f 1 show [] [] can.

Definition __recinfo_uint16 (key : list Z) (r : memory) (f : string) (show : Z) (can : bool) : recinfo :=
  recinfo_entry TYPE_UINT16 key (fmt_lu (u32 (get_int r f))) f 2 show [] [] can.

Definition __recinfo_uint32 (key : list Z) (r : memory) (f : string) (show : Z) (can : bool) : recinfo :=
  recinfo_entry TYPE_UINT32 key (fmt_lu (u32 (get_int r f))) f 4 show [] [] can.

(** The value of option [z]: empty when there is none of that number. *)
Definition opt_value (opts : list (list Z)) (z : Z) : list Z :=
  if decide (0 <= z)%Z then default [] (opts !! Z.to_nat z) else [].

(** [__recinfo_int_o2] to [__recinfo_int_o6]. *)
Definition __recinfo_int_o (key : list Z) (r : memory) (f : string) (show : Z) (opts : list (list Z)) (can : bool)
    : recinfo :=
  recinfo_entry TYPE_INT_O key (strlcpy_to VALUE_MAXVAL (opt_value opts (get_int r f))) f 4 show opts [] can.

(** [(unsigned)~0]. *)
Definition UNSET : Z := 2 ^ 32 - 1.

(** The name of a value in the table: the first entry with that value. *)
Fixpoint tbl_name (tbl : list (list Z * Z)) (v : Z) : option (list Z) :=
  match tbl with
  | [] => None
  | (n, x) :: tbl => if decide (x = v) then Some n else tbl_name tbl v
  end.

Definition list_item (tbl : list (list Z * Z)) (v : Z) : list Z :=
  if decide (v = UNSET) then [] else match tbl_name tbl (i32 v) with Some n => n ++ str "," | None => [] end.

(** [if (strrchr(s, ',')) *strrchr(s, ',') = 0]. *)
Definition cut_comma (s : list Z) : list Z :=
  match strrchr s (char ",") with Some i => take i s | None => s end.

Definition __recinfo_int_list (key : list Z) (r : memory) (f : string) (count : nat) (show : Z)
    (tbl : list (list Z * Z)) (can : bool) : recinfo :=
  recinfo_entry TYPE_INT_LIST key (cut_comma (concat (list_item tbl <$> get_arr r f))) f (4 * count) show [] tbl can.

(** ** Changing a parameter *)

(** A store of [w] bits into a field, the low bytes of it if it is wider. *)
Definition store_low (w old v : Z) : Z := (old - wrap w old + wrap w v)%Z.

(** [strsep(&s, ", \n")] until it returns NULL. *)
Definition is_sep (c : Z) : bool := bool_decide (c = char "," \/ c = char " " \/ c = 10%Z).

Fixpoint tokens (s tok : list Z) : list (list Z) :=
  match s with
  | [] => [tok]
  | c :: s => if is_sep c then tok :: tokens s [] else tokens s (tok ++ [c])
  end.

(** The entry of the table with that name. *)
Fixpoint tbl_find (tbl : list (list Z * Z)) (name : list Z) (j : nat) : option (nat * Z) :=
  match tbl with
  | [] => None
  | (n, v) :: tbl => if decide (name = n) then Some (j, v) else tbl_find tbl name (S j)
  end.

(** The loop over the tokens: [cap] values fit, [seen] are the entries of the
    table that were used. *)
Fixpoint list_values (tbl : list (list Z * Z)) (cap : nat) (toks : list (list Z)) (seen : list nat) (vals : list Z)
    : list Z :=
  match toks with
  | [] => vals
  | tok :: toks =>
      if decide (tok = []) then list_values tbl cap toks seen vals
      else if decide (cap <= length vals) then vals
      else match tbl_find tbl tok 0 with
           | Some (j, v) =>
               if decide (j ∈ seen) then list_values tbl cap toks seen vals
               else list_values tbl cap toks (j :: seen) (vals ++ [u32 v])
           | None => list_values tbl cap toks seen vals
           end
  end.

(** The index of an option. *)
Fixpoint opt_index (opts : list (list Z)) (value : list Z) (j : nat) : option nat :=
  match opts with
  | [] => None
  | o :: opts => if decide (value = o) then Some j else opt_index opts value (S j)
  end.

(** What the [switch] does for an entry of the right name. *)
Inductive stored := Stored (m : memory) | NextKey | UnknownValue | NoMemory.

Section Update.
Context `{LEnv : LoginEnv}.

Definition store_number (w : option Z) (f : string) (value : list Z) (m : memory) : memory :=
  let v := (strtoul value 10).1 in
  <[f := FInt (match w with Some w => store_low w (get_int m f) v | None => i32 v end)]> m.

Definition store_list (e : recinfo) (f : string) (value : list Z) (m : memory) : stored :=
  if negb (malloc (length value + 1)) then NoMemory
  else if negb (malloc (ri_data_len e)) then NoMemory
  else if negb (malloc (length (ri_tbl e))) then NoMemory
  else
    let cap := ri_data_len e / 4 in
    let vals := list_values (ri_tbl e) cap (tokens value []) [] [] in
    Stored (<[f := FArr (vals ++ replicate (cap - length vals) UNSET)]> m).

Definition store_value (e : recinfo) (value : list Z) (m : memory) : stored :=
  match ri_data e with
  | None => match ri_type e with TYPE_INT_O => UnknownValue | _ => NextKey end
  | Some f =>
      match ri_type e with
      | TYPE_INT => Stored (store_number None f value m)
      | TYPE_UINT8 => Stored (store_number (Some 8%Z) f value m)
      | TYPE_UINT16 => Stored (store_number (Some 16%Z) f value m)
      | TYPE_UINT32 => Stored (store_number (Some 32%Z) f value m)
      | TYPE_STR => Stored (<[f := FStr (strlcpy_to (ri_data_len e) value)]> m)
      | TYPE_INT_O =>
          match opt_index (ri_opts e) value 0 with
          | Some j => Stored (<[f := FInt (Z.of_nat j)]> m)
          | None => UnknownValue
          end
      | TYPE_INT_LIST => store_list e f value m
      end
  end.

(** The loop over the table. *)
Fixpoint update_loop (info : list recinfo) (name value : list Z) (m : memory) : Z * list recinfo * memory :=
  match info with
  | [] => (ISCSI_ERR_INVAL, [], m)
  | e :: info =>
      if decide (name = ri_name e) then
        match store_value e value m with
        | Stored m' => (0%Z, e <| ri_value := strlcpy_to VALUE_MAXVAL value |> :: info, m')
        | NextKey => let '(rc, info', m') := update_loop info name value m in (rc, e :: info', m')
        | UnknownValue => (ISCSI_ERR_INVAL, e :: info, m)
        | NoMemory => (ISCSI_ERR_NOMEM, e :: info, m)
        end
      else let '(rc, info', m') := update_loop info name value m in (rc, e :: info', m')
  end.

(** The parameters that carry a password. *)
Definition password_params : list (list Z) :=
  [str "node.session.auth.password"; str "node.session.auth.password_in";
   str "discovery.sendtargets.auth.password"; str "discovery.sendtargets.auth.password_in";
   str "discovery.slp.auth.password"; str "discovery.slp.auth.password_in";
   str "host.auth.password"; str "host.auth.password_in"].

(** [snprintf(passwd_len, 8, "%.7" PRIi32, len & 0xffff)]. *)
Definition passwd_len (n : nat) : list Z :=
  let d := fmt_lu (Z.land (Z.of_nat n) 0xffff) in take 7 (replicate (7 - length d) (char "0") ++ d).

Definition idbm_rec_update_param (info : list recinfo) (name value : list Z) (m : memory) : Z * list recinfo * memory :=
  let '(rc, info, m) := update_loop info name value m in
  if truth rc then (rc, info, m)
  else if decide (name ∈ password_params) then
    update_loop info (name ++ str "_length") (passwd_len (length value)) m
  else (0%Z, info, m).

Fixpoint idbm_verify_param (info : list recinfo) (name : list Z) : Z :=
  match info with
  | [] => ISCSI_ERR_INVAL
  | e :: info =>
      if decide (name = ri_name e) then if ri_can_modify e then 0%Z else ISCSI_ERR_INVAL
      else idbm_verify_param info name
  end.

(** ** Reading a file *)

(** [fgets(buffer, n + 1, f)]: the characters read and what is left; [None]
    at the end of the file. *)
Fixpoint read_line (n : nat) (f : list Z) : list Z * list Z :=
  match n, f with
  | O, _ | _, [] => ([], f)
  | S n, c :: f => if decide (c = 10%Z) then ([c], f) else let '(l, f') := read_line n f in (c :: l, f')
  end.

Definition fgets (size : nat) (f : list Z) : option (list Z * list Z) :=
  match f with [] => None | _ => Some (read_line (size - 1) f) end.

(** [strstrip] (usr/iscsi_util.c): the offset of the first character that is
    no space, and the buffer with the trailing spaces cut off. *)
Definition rstrip (s : list Z) : list Z := reverse (skip_space (reverse s)).

Definition strstrip (b : list Z) : option (nat * list Z) :=
  s ← cstr_of b;
  if decide (s = []) then Some (0, b)
  else
    let kept := rstrip s in
    b' ← buf_set b (length kept) NUL;
    Some (length kept - length (skip_space kept), b').

(** The loops of the parser, on the rest of the buffer.  [None]: the end of
    the buffer or of the array that is written. *)
Fixpoint scan_name (l name : list Z) : option (list Z * list Z) :=
  match l with
  | [] => None
  | c :: l' =>
      if decide (c = NUL) then Some (name, l)
      else if isspace c || bool_decide (c = char "=") then Some (name, l)
      else if decide (length name < NAME_MAXVAL) then scan_name l' (name ++ [c]) else None
  end.

Fixpoint scan_text_value (l value : list Z) : option (list Z) :=
  match l with
  | [] => None
  | c :: l' =>
      if decide (c = NUL) then if decide (length value < VALUE_MAXVAL) then Some value else None
      else if decide (length value < VALUE_MAXVAL) then scan_text_value l' (value ++ [c]) else None
  end.

Fixpoint skip_blank (l : list Z) : option (list Z) :=
  match l with
  | [] => None
  | c :: l' => if isspace c then skip_blank l' else Some l
  end.

(** The name and the value of a line; [Some None] for a line that is skipped. *)
Definition parse_text (l : list Z) : option (option (list Z * list Z)) :=
  '(name, l) ← scan_name l [];
  c ← head l;
  if decide (c = NUL) then Some None
  else if decide (length name < NAME_MAXVAL) then
    l ← skip_blank (tail l);
    c ← head l;
    if decide (c <> NUL /\ c <> char "=") then Some None
    else
      l ← skip_blank (tail l);
      c ← head l;
      if decide (c = NUL) then Some None
      else value ← scan_text_value l []; Some (Some (name, value))
  else None.

(** One line, with the NUL that [fgets] writes. *)
Definition parse_line (line : list Z) : option (option (list Z * list Z)) :=
  let b := line ++ [NUL] in
  s ← cstr_of b;
  last_char ← last s;
  if decide (last_char <> 10%Z) then Some None
  else
    '(off, b) ← strstrip b;
    c ← b !! off;
    if decide (c = NUL \/ c = 10%Z \/ c = char "#") then Some None
    else parse_text (drop off b).

(** The loop over the lines; the result of an update is not looked at.  The
    fuel is the length of the file. *)
Definition BUFFER_SIZE : nat := 2048.

Fixpoint config_loop (fuel : nat) (info : list recinfo) (m : memory) (f : list Z) : option (list recinfo * memory) :=
  match fgets BUFFER_SIZE f with
  | None => Some (info, m)
  | Some (line, f') =>
      match fuel with
      | O => None
      | S fuel =>
          p ← parse_line line;
          match p with
          | None => config_loop fuel info m f'
          | Some (name, value) =>
              let '(_, info, m) := idbm_rec_update_param info name value m in config_loop fuel info m f'
          end
      end
  end.

Definition idbm_recinfo_config (info : list recinfo) (m : memory) (f : list Z) : option (list recinfo * memory) :=
  config_loop (length f) info m f.
End Update.

(** ** Printing a record *)
Definition line_of (name value : list Z) : list Z := name ++ str " = " ++ value ++ [10%Z].

(** The first character of the field is not NUL. *)
Definition data_nonzero (e : recinfo) (m : memory) : bool :=
  match ri_data e with
  | Some f => match m !! f with
              | Some (FStr s) => bool_decide (s <> [])
              | Some (FInt z) => truth (u8 z)
              | Some (FArr (z :: _)) => truth (u8 z)
              | _ => false
              end
  | None => false
  end.

Definition print_entry (show to_stdout : bool) (m : memory) (e : recinfo) : list Z :=
  if decide (ri_visible e = IDBM_HIDE) then []
  else if negb show && bool_decide (ri_visible e = IDBM_MASKED) && data_nonzero e m
       then line_of (ri_name e) (str "********")
  else if decide (ri_value e <> []) then line_of (ri_name e) (ri_value e)
  else if to_stdout then line_of (ri_name e) (str "<empty>") else [].

Definition ISCSI_BEGIN_REC : list Z := str "# BEGIN RECORD 2.1.6".
Definition ISCSI_END_REC : list Z := str "# END RECORD".

Definition print_info (info : list recinfo) (m : memory) (show to_stdout : bool) : list Z :=
  ISCSI_BEGIN_REC ++ [10%Z] ++ concat (print_entry show to_stdout m <$> info) ++ ISCSI_END_REC ++ [10%Z].
