(* ===== verification/IdbmTables.v ===== *)
(** * The record database: the tables of parameters

    The parameters of discovery, node, interface, host and flash records
    (usr/idbm.c), with the keys of usr/idbm_fields.h, the default values, and the
    operations on a node record. *)
From Stdlib Require Import ZArith Lia Ascii.
From stdpp Require Import base tactics numbers list strings option gmap.
From S2P Require Import Prelude CString Login Idbm.

(** ** Keys *)
Definition NODE_NAME : list Z := str "node.name".
Definition NODE_TPGT : list Z := str "node.tpgt".
Definition NODE_STARTUP : list Z := str "node.startup".
Definition NODE_LEADING_LOGIN : list Z := str "node.leading_login".
Definition NODE_DISC_ADDR : list Z := str "node.discovery_address".
Definition NODE_DISC_PORT : list Z := str "node.discovery_port".
Definition NODE_DISC_TYPE : list Z := str "node.discovery_type".
Definition SESSION_INIT_CMDSN : list Z := str "node.session.initial_cmdsn".
Definition SESSION_INIT_LOGIN_RETRY : list Z := str "node.session.initial_login_retry_max".
Definition SESSION_CMDS_MAX : list Z := str "node.session.cmds_max".
Definition SESSION_XMIT_THREAD_PRIORITY : list Z := str "node.session.xmit_thread_priority".
Definition SESSION_QDEPTH : list Z := str "node.session.queue_depth".
Definition SESSION_NR_SESSIONS : list Z := str "node.session.nr_sessions".
Definition SESSION_AUTH_METHOD : list Z := str "node.session.auth.authmethod".
Definition SESSION_USERNAME : list Z := str "node.session.auth.username".
Definition SESSION_PASSWORD : list Z := str "node.session.auth.password".
Definition SESSION_PASSWORD_LEN : list Z := str "node.session.auth.password_length".
Definition SESSION_USERNAME_IN : list Z := str "node.session.auth.username_in".
Definition SESSION_PASSWORD_IN : list Z := str "node.session.auth.password_in".
Definition SESSION_PASSWORD_IN_LEN : list Z := str "node.session.auth.password_in_length".
Definition SESSION_CHAP_ALGS : list Z := str "node.session.auth.chap_algs".
Definition SESSION_REPLACEMENT_TMO : list Z := str "node.session.timeo.replacement_timeout".
Definition SESSION_ABORT_TMO : list Z := str "node.session.err_timeo.abort_timeout".
Definition SESSION_LU_RESET_TMO : list Z := str "node.session.err_timeo.lu_reset_timeout".
Definition SESSION_TGT_RESET_TMO : list Z := str "node.session.err_timeo.tgt_reset_timeout".
Definition SESSION_HOST_RESET_TMO : list Z := str "node.session.err_timeo.host_reset_timeout".
Definition SESSION_FAST_ABORT : list Z := str "node.session.iscsi.FastAbort".
Definition SESSION_INITIAL_R2T : list Z := str "node.session.iscsi.InitialR2T".
Definition SESSION_IMM_DATA : list Z := str "node.session.iscsi.ImmediateData".
Definition SESSION_FIRST_BURST : list Z := str "node.session.iscsi.FirstBurstLength".
Definition SESSION_MAX_BURST : list Z := str "node.session.iscsi.MaxBurstLength".
Definition SESSION_DEF_TIME2RETAIN : list Z := str "node.session.iscsi.DefaultTime2Retain".
Definition SESSION_DEF_TIME2WAIT : list Z := str "node.session.iscsi.DefaultTime2Wait".
Definition SESSION_MAX_CONNS : list Z := str "node.session.iscsi.MaxConnections".
Definition SESSION_MAX_R2T : list Z := str "node.session.iscsi.MaxOutstandingR2T".
Definition SESSION_ERL : list Z := str "node.session.iscsi.ERL".
Definition SESSION_SCAN : list Z := str "node.session.scan".
Definition SESSION_REOPEN_MAX : list Z := str "node.session.reopen_max".
Definition CONN_ADDR : list Z := str "node.conn[%d].address".
Definition CONN_PORT : list Z := str "node.conn[%d].port".
Definition CONN_STARTUP : list Z := str "node.conn[%d].startup".
Definition CONN_WINDOW_SIZE : list Z := str "node.conn[%d].tcp.window_size".
Definition CONN_SERVICE_TYPE : list Z := str "node.conn[%d].tcp.type_of_service".
Definition CONN_LOGOUT_TMO : list Z := str "node.conn[%d].timeo.logout_timeout".
Definition CONN_LOGIN_TMO : list Z := str "node.conn[%d].timeo.login_timeout".
Definition CONN_AUTH_TMO : list Z := str "node.conn[%d].timeo.auth_timeout".
Definition CONN_NOP_INT : list Z := str "node.conn[%d].timeo.noop_out_interval".
Definition CONN_NOP_TMO : list Z := str "node.conn[%d].timeo.noop_out_timeout".
Definition CONN_MAX_XMIT_DLEN : list Z := str "node.conn[%d].iscsi.MaxXmitDataSegmentLength".
Definition CONN_MAX_RECV_DLEN : list Z := str "node.conn[%d].iscsi.MaxRecvDataSegmentLength".
Definition CONN_HDR_DIGEST : list Z := str "node.conn[%d].iscsi.HeaderDigest".
Definition CONN_DATA_DIGEST : list Z := str "node.conn[%d].iscsi.DataDigest".
Definition CONN_IFMARKER : list Z := str "node.conn[%d].iscsi.IFMarker".
Definition CONN_OFMARKER : list Z := str "node.conn[%d].iscsi.OFMarker".
Definition IFACE_HWADDR : list Z := str "iface.hwaddress".
Definition IFACE_ISCSINAME : list Z := str "iface.iscsi_ifacename".
Definition IFACE_NETNAME : list Z := str "iface.net_ifacename".
Definition IFACE_TRANSPORTNAME : list Z := str "iface.transport_name".
Definition IFACE_INAME : list Z := str "iface.initiatorname".
Definition IFACE_BOOT_PROTO : list Z := str "iface.bootproto".
Definition IFACE_IPADDR : list Z := str "iface.ipaddress".
Definition IFACE_PREFIX_LEN : list Z := str "iface.prefix_len".
Definition IFACE_SUBNET_MASK : list Z := str "iface.subnet_mask".
Definition IFACE_GATEWAY : list Z := str "iface.gateway".
Definition IFACE_VLAN_ID : list Z := str "iface.vlan_id".
Definition IFACE_VLAN_PRIORITY : list Z := str "iface.vlan_priority".
Definition IFACE_VLAN_STATE : list Z := str "iface.vlan_state".
Definition IFACE_LINKLOCAL : list Z := str "iface.ipv6_linklocal".
Definition IFACE_ROUTER : list Z := str "iface.ipv6_router".
Definition IFACE_IPV6_AUTOCFG : list Z := str "iface.ipv6_autocfg".
Definition IFACE_LINKLOCAL_AUTOCFG : list Z := str "iface.linklocal_autocfg".
Definition IFACE_ROUTER_AUTOCFG : list Z := str "iface.router_autocfg".
Definition IFACE_STATE : list Z := str "iface.state".
Definition IFACE_NUM : list Z := str "iface.iface_num".
Definition IFACE_MTU : list Z := str "iface.mtu".
Definition IFACE_PORT : list Z := str "iface.port".
Definition IFACE_DELAYED_ACK : list Z := str "iface.delayed_ack".
Definition IFACE_TCP_NAGLE : list Z := str "iface.tcp_nagle".
Definition IFACE_TCP_WSF_STATE : list Z := str "iface.tcp_wsf_state".
Definition IFACE_TCP_WSF : list Z := str "iface.tcp_wsf".
Definition IFACE_TCP_TIMER_SCALE : list Z := str "iface.tcp_timer_scale".
Definition IFACE_TCP_TIMESTAMP : list Z := str "iface.tcp_timestamp".
Definition IFACE_DHCP_DNS : list Z := str "iface.dhcp_dns".
Definition IFACE_DHCP_SLP_DA : list Z := str "iface.dhcp_slp_da".
Definition IFACE_TOS_STATE : list Z := str "iface.tos_state".
Definition IFACE_TOS : list Z := str "iface.tos".
Definition IFACE_GRAT_ARP : list Z := str "iface.gratuitous_arp".
Definition IFACE_DHCP_ALT_CID : list Z := str "iface.dhcp_alt_client_id_state".
Definition IFACE_DHCP_ALT_CID_STR : list Z := str "iface.dhcp_alt_client_id".
Definition IFACE_DHCP_REQ_VID : list Z := str "iface.dhcp_req_vendor_id_state".
Definition IFACE_DHCP_VID : list Z := str "iface.dhcp_vendor_id_state".
Definition IFACE_DHCP_VID_STR : list Z := str "iface.dhcp_vendor_id".
Definition IFACE_DHCP_LEARN_IQN : list Z := str "iface.dhcp_learn_iqn".
Definition IFACE_FRAGMENTATION : list Z := str "iface.fragmentation".
Definition IFACE_IN_FORWARD : list Z := str "iface.incoming_forwarding".
Definition IFACE_TTL : list Z := str "iface.ttl".
Definition IFACE_GRAT_NEIGHBOR_ADV : list Z := str "iface.gratuitous_neighbor_adv".
Definition IFACE_REDIRECT : list Z := str "iface.redirect".
Definition IFACE_MLD : list Z := str "iface.mld".
Definition IFACE_FLOW_LABEL : list Z := str "iface.flow_label".
Definition IFACE_TRAFFIC_CLASS : list Z := str "iface.traffic_class".
Definition IFACE_HOP_LIMIT : list Z := str "iface.hop_limit".
Definition IFACE_ND_REACHABLE_TMO : list Z := str "iface.nd_reachable_tmo".
Definition IFACE_ND_REXMIT_TIME : list Z := str "iface.nd_rexmit_time".
Definition IFACE_ND_STALE_TMO : list Z := str "iface.nd_stale_tmo".
Definition IFACE_DUP_ADDR_DETECT_CNT : list Z := str "iface.dup_addr_detect_cnt".
Definition IFACE_RTR_ADV_LINK_MTU : list Z := str "iface.router_adv_link_mtu".
Definition IFACE_DEF_TMF_TMO : list Z := str "iface.def_task_mgmt_timeout".
Definition IFACE_HDRDGST : list Z := str "iface.header_digest".
Definition IFACE_DATADGST : list Z := str "iface.data_digest".
Definition IFACE_IMM_DATA : list Z := str "iface.immediate_data".
Definition IFACE_INITIAL_R2T : list Z := str "iface.initial_r2t".
Definition IFACE_DSEQ_INORDER : list Z := str "iface.data_seq_inorder".
Definition IFACE_DPDU_INORDER : list Z := str "iface.data_pdu_inorder".
Definition IFACE_ERL : list Z := str "iface.erl".
Definition IFACE_MAX_RECV_DLEN : list Z := str "iface.max_receive_data_len".
Definition IFACE_FIRST_BURST : list Z := str "iface.first_burst_len".
Definition IFACE_MAX_R2T : list Z := str "iface.max_outstanding_r2t".
Definition IFACE_MAX_BURST : list Z := str "iface.max_burst_len".
Definition IFACE_CHAP_AUTH : list Z := str "iface.chap_auth".
Definition IFACE_BIDI_CHAP : list Z := str "iface.bidi_chap".
Definition IFACE_STRICT_LOGIN_COMP : list Z := str "iface.strict_login_compliance".
Definition IFACE_DISCOVERY_AUTH : list Z := str "iface.discovery_auth".
Definition IFACE_DISCOVERY_LOGOUT : list Z := str "iface.discovery_logout".
Definition DISC_STARTUP : list Z := str "discovery.startup".
Definition DISC_TYPE : list Z := str "discovery.type".
Definition DISC_ST_ADDR : list Z := str "discovery.sendtargets.address".
Definition DISC_ST_PORT : list Z := str "discovery.sendtargets.port".
Definition DISC_ST_AUTH_METHOD : list Z := str "discovery.sendtargets.auth.authmethod".
Definition DISC_ST_USERNAME : list Z := str "discovery.sendtargets.auth.username".
Definition DISC_ST_PASSWORD : list Z := str "discovery.sendtargets.auth.password".
Definition DISC_ST_PASSWORD_LEN : list Z := str "discovery.sendtargets.auth.password_length".
Definition DISC_ST_USERNAME_IN : list Z := str "discovery.sendtargets.auth.username_in".
Definition DISC_ST_PASSWORD_IN : list Z := str "discovery.sendtargets.auth.password_in".
Definition DISC_ST_PASSWORD_IN_LEN : list Z := str "discovery.sendtargets.auth.password_in_length".
Definition DISC_ST_LOGIN_TMO : list Z := str "discovery.sendtargets.timeo.login_timeout".
Definition DISC_ST_REOPEN_MAX : list Z := str "discovery.sendtargets.reopen_max".
Definition DISC_ST_DISC_DAEMON_POLL_INVAL : list Z := str "discovery.sendtargets.discoveryd_poll_inval".
Definition DISC_ST_USE_DISC_DAEMON : list Z := str "discovery.sendtargets.use_discoveryd".
Definition DISC_ST_AUTH_TMO : list Z := str "discovery.sendtargets.timeo.auth_timeout".
Definition DISC_ST_ACTIVE_TMO : list Z := str "discovery.sendtargets.timeo.active_timeout".
Definition DISC_ST_MAX_RECV_DLEN : list Z := str "discovery.sendtargets.iscsi.MaxRecvDataSegmentLength".
Definition DISC_ISNS_DISC_DAEMON_POLL_INVAL : list Z := str "discovery.isns.discoveryd_poll_inval".
Definition DISC_ISNS_USE_DISC_DAEMON : list Z := str "discovery.isns.use_discoveryd".
Definition DISC_ISNS_ADDR : list Z := str "discovery.sendtargets.address".
Definition DISC_ISNS_PORT : list Z := str "discovery.sendtargets.port".
Definition HOST_AUTH_INDEX : list Z := str "host.auth.tbl_idx".
Definition HOST_AUTH_USERNAME : list Z := str "host.auth.username".
Definition HOST_AUTH_PASSWORD : list Z := str "host.auth.password".
Definition HOST_AUTH_PASSWORD_LEN : list Z := str "host.auth.password_length".
Definition HOST_AUTH_USERNAME_IN : list Z := str "host.auth.username_in".
Definition HOST_AUTH_PASSWORD_IN : list Z := str "host.auth.password_in".
Definition HOST_AUTH_PASSWORD_IN_LEN : list Z := str "host.auth.password_in_length".
Definition FLASHNODE_SESS_AUTO_SND_TGT_DISABLE : list Z := str "flashnode.session.auto_snd_tgt_disable".
Definition FLASHNODE_SESS_DISCOVERY_SESS : list Z := str "flashnode.session.discovery_session".
Definition FLASHNODE_SESS_PORTAL_TYPE : list Z := str "flashnode.session.portal_type".
Definition FLASHNODE_SESS_ENTRY_EN : list Z := str "flashnode.session.entry_enable".
Definition FLASHNODE_SESS_IMM_DATA_EN : list Z := str "flashnode.session.immediate_data".
Definition FLASHNODE_SESS_INITIAL_R2T_EN : list Z := str "flashnode.session.initial_r2t".
Definition FLASHNODE_SESS_DATASEQ_INORDER : list Z := str "flashnode.session.data_seq_in_order".
Definition FLASHNODE_SESS_PDU_INORDER : list Z := str "flashnode.session.data_pdu_in_order".
Definition FLASHNODE_SESS_CHAP_AUTH_EN : list Z := str "flashnode.session.chap_auth_en".
Definition FLASHNODE_SESS_DISCOVERY_LOGOUT_EN : list Z := str "flashnode.session.discovery_logout_en".
Definition FLASHNODE_SESS_BIDI_CHAP_EN : list Z := str "flashnode.session.bidi_chap_en".
Definition FLASHNODE_SESS_DISCOVERY_AUTH_OPTIONAL : list Z := str "flashnode.session.discovery_auth_optional".
Definition FLASHNODE_SESS_ERL : list Z := str "flashnode.session.erl".
Definition FLASHNODE_SESS_FIRST_BURST : list Z := str "flashnode.session.first_burst_len".
Definition FLASHNODE_SESS_DEF_TIME2WAIT : list Z := str "flashnode.session.def_time2wait".
Definition FLASHNODE_SESS_DEF_TIME2RETAIN : list Z := str "flashnode.session.def_time2retain".
Definition FLASHNODE_SESS_MAX_R2T : list Z := str "flashnode.session.max_outstanding_r2t".
Definition FLASHNODE_SESS_ISID : list Z := str "flashnode.session.isid".
Definition FLASHNODE_SESS_TSID : list Z := str "flashnode.session.tsid".
Definition FLASHNODE_SESS_MAX_BURST : list Z := str "flashnode.session.max_burst_len".
Definition FLASHNODE_SESS_DEF_TASKMGMT_TMO : list Z := str "flashnode.session.def_taskmgmt_tmo".
Definition FLASHNODE_SESS_ALIAS : list Z := str "flashnode.session.targetalias".
Definition FLASHNODE_SESS_NAME : list Z := str "flashnode.session.targetname".
Definition FLASHNODE_SESS_TPGT : list Z := str "flashnode.session.tpgt".
Definition FLASHNODE_SESS_DISCOVERY_PARENT_IDX : list Z := str "flashnode.session.discovery_parent_idx".
Definition FLASHNODE_SESS_DISCOVERY_PARENT_TYPE : list Z := str "flashnode.session.discovery_parent_type".
Definition FLASHNODE_SESS_CHAP_OUT_IDX : list Z := str "flashnode.session.chap_out_idx".
Definition FLASHNODE_SESS_CHAP_IN_IDX : list Z := str "flashnode.session.chap_in_idx".
Definition FLASHNODE_SESS_USERNAME : list Z := str "flashnode.session.username".
Definition FLASHNODE_SESS_USERNAME_IN : list Z := str "flashnode.session.username_in".
Definition FLASHNODE_SESS_PASSWORD : list Z := str "flashnode.session.password".
Definition FLASHNODE_SESS_PASSWORD_IN : list Z := str "flashnode.session.password_in".
Definition FLASHNODE_SESS_IS_BOOT_TGT : list Z := str "flashnode.session.is_boot_target".
Definition FLASHNODE_CONN_IS_FW_ASSIGNED_IPV6 : list Z := str "flashnode.conn[%d].is_fw_assigned_ipv6".
Definition FLASHNODE_CONN_HDR_DGST_EN : list Z := str "flashnode.conn[%d].header_digest_en".
Definition FLASHNODE_CONN_DATA_DGST_EN : list Z := str "flashnode.conn[%d].data_digest_en".
Definition FLASHNODE_CONN_SNACK_REQ_EN : list Z := str "flashnode.conn[%d].snack_req_en".
Definition FLASHNODE_CONN_TCP_TIMESTAMP_STAT : list Z := str "flashnode.conn[%d].tcp_timestamp_stat".
Definition FLASHNODE_CONN_TCP_NAGLE_DISABLE : list Z := str "flashnode.conn[%d].tcp_nagle_disable".
Definition FLASHNODE_CONN_TCP_WSF_DISABLE : list Z := str "flashnode.conn[%d].tcp_wsf_disable".
Definition FLASHNODE_CONN_TCP_TIMER_SCALE : list Z := str "flashnode.conn[%d].tcp_timer_scale".
Definition FLASHNODE_CONN_TCP_TIMESTAMP_EN : list Z := str "flashnode.conn[%d].tcp_timestamp_en".
Definition FLASHNODE_CONN_IP_FRAG_DISABLE : list Z := str "flashnode.conn[%d].fragment_disable".
Definition FLASHNODE_CONN_MAX_RECV_DLENGTH : list Z := str "flashnode.conn[%d].max_recv_dlength".
Definition FLASHNODE_CONN_MAX_XMIT_DLENGTH : list Z := str "flashnode.conn[%d].max_xmit_dlength".
Definition FLASHNODE_CONN_KEEPALIVE_TMO : list Z := str "flashnode.conn[%d].keepalive_tmo".
Definition FLASHNODE_CONN_PORT : list Z := str "flashnode.conn[%d].port".
Definition FLASHNODE_CONN_IPADDR : list Z := str "flashnode.conn[%d].ipaddress".
Definition FLASHNODE_CONN_REDIRECT_IPADDR : list Z := str "flashnode.conn[%d].redirect_ipaddr".
Definition FLASHNODE_CONN_MAX_SEGMENT_SIZE : list Z := str "flashnode.conn[%d].max_segment_size".
Definition FLASHNODE_CONN_LOCAL_PORT : list Z := str "flashnode.conn[%d].local_port".
Definition FLASHNODE_CONN_IPV4_TOS : list Z := str "flashnode.conn[%d].ipv4_tos".
Definition FLASHNODE_CONN_IPV6_TC : list Z := str "flashnode.conn[%d].ipv6_traffic_class".
Definition FLASHNODE_CONN_IPV6_FLOW_LABEL : list Z := str "flashnode.conn[%d].ipv6_flow_label".
Definition FLASHNODE_CONN_LINK_LOCAL_IPV6 : list Z := str "flashnode.conn[%d].link_local_ipv6".
Definition FLASHNODE_CONN_TCP_XMIT_WSF : list Z := str "flashnode.conn[%d].tcp_xmit_wsf".
Definition FLASHNODE_CONN_TCP_RECV_WSF : list Z := str "flashnode.conn[%d].tcp_recv_wsf".
Definition FLASHNODE_CONN_STATSN : list Z := str "flashnode.conn[%d].statsn".
Definition FLASHNODE_CONN_EXP_STATSN : list Z := str "flashnode.conn[%d].exp_statsn".

(** [sprintf(key, fmt, i)] for the only connection: [%d] is replaced by 0. *)
Fixpoint key_of (fmt : list Z) : list Z :=
  match fmt with
  | [] => []
  | c :: (d :: fmt') as rest =>
      if decide (c = char "%" /\ d = char "d") then char "0" :: fmt' else c :: key_of rest
  | c :: fmt' => c :: key_of fmt'
  end.

(** ** Sizes *)
Definition TARGET_NAME_MAXLEN : nat := 255.
Definition NI_MAXHOST : nat := 1025.
Definition IFNAMSIZ : nat := 16.
Definition ISCSI_MAX_IFACE_LEN : nat := 65.
Definition ISCSI_MAX_STR_LEN : nat := 80.
Definition ISCSI_TRANSPORT_NAME_MAXLEN : nat := 16.
Definition ISCSI_HWADDRESS_BUF_SIZE : nat := 18.
Definition AUTH_STR_MAX_LEN : nat := 256.
Definition AUTH_CHAP_ALG_MAX_COUNT : nat := 5.
Definition ISCSI_CHAP_AUTH_NAME_MAX_LEN : nat := 256.
Definition ISCSI_CHAP_AUTH_SECRET_MAX_LEN : nat := 256.

Definition chap_algs : list (list Z * Z) :=
  [(str "MD5", 5%Z); (str "SHA1", 6%Z); (str "SHA256", 7%Z); (str "SHA3-256", 8%Z)].

(** ** Types of interfaces *)
Inductive iscsi_iface_type := ISCSI_IFACE_TYPE_IPV4 | ISCSI_IFACE_TYPE_IPV6.

#[export] Instance iface_type_eq_dec : EqDecision iscsi_iface_type.
Proof. solve_decision. Defined.

(** [strstr(s, t) != NULL]. *)
Fixpoint contains (s t : list Z) : bool :=
  bool_decide (take (length t) s = t) || match s with [] => false | _ :: s => contains s t end.

(** [iface_get_iptype] (usr/iface.c); [p] is the path of the interface in the
    record. *)
Definition iface_get_iptype (p : string) (r : memory) : iscsi_iface_type :=
  let ipaddress := get_str r (p +:+ "ipaddress") in
  if decide (ipaddress = [] \/ ipaddress = str "<empty>") then
    if contains (get_str r (p +:+ "name")) (str "ipv6") then ISCSI_IFACE_TYPE_IPV6 else ISCSI_IFACE_TYPE_IPV4
  else if decide (get_str r (p +:+ "bootproto") <> str "dhcp" /\ strchr ipaddress (char ".") = None)
       then ISCSI_IFACE_TYPE_IPV6 else ISCSI_IFACE_TYPE_IPV4.

(** ** Tables *)
Definition node_rows_head (r : memory) : list recinfo :=
  [ __recinfo_str NODE_NAME r "name" TARGET_NAME_MAXLEN IDBM_SHOW false;
    __recinfo_int NODE_TPGT r "tpgt" IDBM_SHOW false;
    __recinfo_int_o NODE_STARTUP r "startup" IDBM_SHOW [str "manual"; str "automatic"; str "onboot"] true;
    __recinfo_int_o NODE_LEADING_LOGIN r "leading_login" IDBM_SHOW [str "No"; str "Yes"] true;
    __recinfo_str IFACE_HWADDR r "iface.hwaddress" ISCSI_HWADDRESS_BUF_SIZE IDBM_SHOW true;
    __recinfo_str IFACE_IPADDR r "iface.ipaddress" NI_MAXHOST IDBM_SHOW true;
    __recinfo_str IFACE_ISCSINAME r "iface.name" ISCSI_MAX_IFACE_LEN IDBM_SHOW true;
    __recinfo_str IFACE_NETNAME r "iface.netdev" IFNAMSIZ IDBM_SHOW true;
    __recinfo_str IFACE_GATEWAY r "iface.gateway" NI_MAXHOST IDBM_SHOW true;
    __recinfo_str IFACE_SUBNET_MASK r "iface.subnet_mask" NI_MAXHOST IDBM_SHOW true;
    __recinfo_uint8 IFACE_PREFIX_LEN r "iface.prefix_len" IDBM_SHOW true;
    __recinfo_str IFACE_TRANSPORTNAME r "iface.transport_name" ISCSI_TRANSPORT_NAME_MAXLEN IDBM_SHOW true;
    __recinfo_str IFACE_INAME r "iface.iname" (TARGET_NAME_MAXLEN + 1) IDBM_SHOW true;
    __recinfo_str IFACE_STATE r "iface.state" ISCSI_MAX_STR_LEN IDBM_SHOW true;
    __recinfo_uint16 IFACE_VLAN_ID r "iface.vlan_id" IDBM_SHOW true;
    __recinfo_uint8 IFACE_VLAN_PRIORITY r "iface.vlan_priority" IDBM_SHOW true;
    __recinfo_str IFACE_VLAN_STATE r "iface.vlan_state" ISCSI_MAX_STR_LEN IDBM_SHOW true;
    __recinfo_int IFACE_NUM r "iface.iface_num" IDBM_SHOW true;
    __recinfo_uint16 IFACE_MTU r "iface.mtu" IDBM_SHOW true;
    __recinfo_uint16 IFACE_PORT r "iface.port" IDBM_SHOW true ].

Definition node_rows_ipv4 (r : memory) : list recinfo :=
  [ __recinfo_str IFACE_BOOT_PROTO r "iface.bootproto" ISCSI_MAX_STR_LEN IDBM_SHOW true;
    __recinfo_str IFACE_DHCP_ALT_CID r "iface.dhcp_alt_client_id_state" ISCSI_MAX_STR_LEN IDBM_SHOW true;
    __recinfo_str IFACE_DHCP_ALT_CID_STR r "iface.dhcp_alt_client_id" ISCSI_MAX_STR_LEN IDBM_SHOW true;
    __recinfo_str IFACE_DHCP_DNS r "iface.dhcp_dns" ISCSI_MAX_STR_LEN IDBM_SHOW true;
    __recinfo_str IFACE_DHCP_LEARN_IQN r "iface.dhcp_learn_iqn" ISCSI_MAX_STR_LEN IDBM_SHOW true;
    __recinfo_str IFACE_DHCP_REQ_VID r "iface.dhcp_req_vendor_id_state" ISCSI_MAX_STR_LEN IDBM_SHOW true;
    __recinfo_str IFACE_DHCP_VID r "iface.dhcp_vendor_id_state" ISCSI_MAX_STR_LEN IDBM_SHOW true;
    __recinfo_str IFACE_DHCP_VID_STR r "iface.dhcp_vendor_id" ISCSI_MAX_STR_LEN IDBM_SHOW true;
    __recinfo_str IFACE_DHCP_SLP_DA r "iface.dhcp_slp_da" ISCSI_MAX_STR_LEN IDBM_SHOW true;
    __recinfo_str IFACE_FRAGMENTATION r "iface.fragmentation" ISCSI_MAX_STR_LEN IDBM_SHOW true;
    __recinfo_str IFACE_GRAT_ARP r "iface.gratuitous_arp" ISCSI_MAX_STR_LEN IDBM_SHOW true;
    __recinfo_str IFACE_IN_FORWARD r "iface.incoming_forwarding" ISCSI_MAX_STR_LEN IDBM_SHOW true;
    __recinfo_str IFACE_TOS_STATE r "iface.tos_state" ISCSI_MAX_STR_LEN IDBM_SHOW true;
    __recinfo_uint8 IFACE_TOS r "iface.tos" IDBM_SHOW true;
    __recinfo_uint8 IFACE_TTL r "iface.ttl" IDBM_SHOW true ].

Definition node_rows_ipv6 (r : memory) : list recinfo :=
  [ __recinfo_str IFACE_IPV6_AUTOCFG r "iface.ipv6_autocfg" NI_MAXHOST IDBM_SHOW true;
    __recinfo_str IFACE_LINKLOCAL_AUTOCFG r "iface.linklocal_autocfg" NI_MAXHOST IDBM_SHOW true;
    __recinfo_str IFACE_ROUTER_AUTOCFG r "iface.router_autocfg" NI_MAXHOST IDBM_SHOW true;
    __recinfo_str IFACE_LINKLOCAL r "iface.ipv6_linklocal" NI_MAXHOST IDBM_SHOW true;
    __recinfo_str IFACE_ROUTER r "iface.ipv6_router" NI_MAXHOST IDBM_SHOW true;
    __recinfo_uint8 IFACE_DUP_ADDR_DETECT_CNT r "iface.dup_addr_detect_cnt" IDBM_SHOW true;
    __recinfo_uint32 IFACE_FLOW_LABEL r "iface.flow_label" IDBM_SHOW true;
    __recinfo_str IFACE_GRAT_NEIGHBOR_ADV r "iface.gratuitous_neighbor_adv" ISCSI_MAX_STR_LEN IDBM_SHOW true;
    __recinfo_uint8 IFACE_HOP_LIMIT r "iface.hop_limit" IDBM_SHOW true;
    __recinfo_str IFACE_MLD r "iface.mld" ISCSI_MAX_STR_LEN IDBM_SHOW true;
    __recinfo_uint32 IFACE_ND_REACHABLE_TMO r "iface.nd_reachable_tmo" IDBM_SHOW true;
    __recinfo_uint32 IFACE_ND_REXMIT_TIME r "iface.nd_rexmit_time" IDBM_SHOW true;
    __recinfo_uint32 IFACE_ND_STALE_TMO r "iface.nd_stale_tmo" IDBM_SHOW true;
    __recinfo_uint32 IFACE_RTR_ADV_LINK_MTU r "iface.router_adv_link_mtu" IDBM_SHOW true;
    __recinfo_uint8 IFACE_TRAFFIC_CLASS r "iface.traffic_class" IDBM_SHOW true ].

Definition node_rows_tail (r : memory) : list recinfo :=
  [ __recinfo_str IFACE_DELAYED_ACK r "iface.delayed_ack" ISCSI_MAX_STR_LEN IDBM_SHOW true;
    __recinfo_str IFACE_TCP_NAGLE r "iface.nagle" ISCSI_MAX_STR_LEN IDBM_SHOW true;
    __recinfo_str IFACE_TCP_WSF_STATE r "iface.tcp_wsf_state" ISCSI_MAX_STR_LEN IDBM_SHOW true;
    __recinfo_uint8 IFACE_TCP_WSF r "iface.tcp_wsf" IDBM_SHOW true;
    __recinfo_uint8 IFACE_TCP_TIMER_SCALE r "iface.tcp_timer_scale" IDBM_SHOW true;
    __recinfo_str IFACE_TCP_TIMESTAMP r "iface.tcp_timestamp" ISCSI_MAX_STR_LEN IDBM_SHOW true;
    __recinfo_str IFACE_REDIRECT r "iface.redirect" ISCSI_MAX_STR_LEN IDBM_SHOW true;
    __recinfo_uint16 IFACE_DEF_TMF_TMO r "iface.def_task_mgmt_tmo" IDBM_SHOW true;
    __recinfo_str IFACE_HDRDGST r "iface.header_digest" ISCSI_MAX_STR_LEN IDBM_SHOW true;
    __recinfo_str IFACE_DATADGST r "iface.data_digest" ISCSI_MAX_STR_LEN IDBM_SHOW true;
    __recinfo_str IFACE_IMM_DATA r "iface.immediate_data" ISCSI_MAX_STR_LEN IDBM_SHOW true;
    __recinfo_str IFACE_INITIAL_R2T r "iface.initial_r2t" ISCSI_MAX_STR_LEN IDBM_SHOW true;
    __recinfo_str IFACE_DSEQ_INORDER r "iface.data_seq_inorder" ISCSI_MAX_STR_LEN IDBM_SHOW true;
    __recinfo_str IFACE_DPDU_INORDER r "iface.data_pdu_inorder" ISCSI_MAX_STR_LEN IDBM_SHOW true;
    __recinfo_uint8 IFACE_ERL r "iface.erl" IDBM_SHOW true;
    __recinfo_uint32 IFACE_MAX_RECV_DLEN r "iface.max_recv_dlength" IDBM_SHOW true;
    __recinfo_uint32 IFACE_FIRST_BURST r "iface.first_burst_len" IDBM_SHOW true;
    __recinfo_uint16 IFACE_MAX_R2T r "iface.max_out_r2t" IDBM_SHOW true;
    __recinfo_uint32 IFACE_MAX_BURST r "iface.max_burst_len" IDBM_SHOW true;
    __recinfo_str IFACE_CHAP_AUTH r "iface.chap_auth" ISCSI_MAX_STR_LEN IDBM_SHOW true;
    __recinfo_str IFACE_BIDI_CHAP r "iface.bidi_chap" ISCSI_MAX_STR_LEN IDBM_SHOW true;
    __recinfo_str IFACE_STRICT_LOGIN_COMP r "iface.strict_login_comp" ISCSI_MAX_STR_LEN IDBM_SHOW true;
    __recinfo_str IFACE_DISCOVERY_AUTH r "iface.discovery_auth" ISCSI_MAX_STR_LEN IDBM_SHOW true;
    __recinfo_str IFACE_DISCOVERY_LOGOUT r "iface.discovery_logout" ISCSI_MAX_STR_LEN IDBM_SHOW true;
    __recinfo_str NODE_DISC_ADDR r "disc_address" NI_MAXHOST IDBM_SHOW false;
    __recinfo_int NODE_DISC_PORT r "disc_port" IDBM_SHOW false;
    __recinfo_int_o NODE_DISC_TYPE r "disc_type" IDBM_SHOW [str "send_targets"; str "isns"; str "offload_send_targets"; str "slp"; str "static"; str "fw"] false;
    __recinfo_int SESSION_INIT_CMDSN r "session.initial_cmdsn" IDBM_SHOW true;
    __recinfo_int SESSION_INIT_LOGIN_RETRY r "session.initial_login_retry_max" IDBM_SHOW true;
    __recinfo_int SESSION_XMIT_THREAD_PRIORITY r "session.xmit_thread_priority" IDBM_SHOW true;
    __recinfo_int SESSION_CMDS_MAX r "session.cmds_max" IDBM_SHOW true;
    __recinfo_int SESSION_QDEPTH r "session.queue_depth" IDBM_SHOW true;
    __recinfo_int SESSION_NR_SESSIONS r "session.nr_sessions" IDBM_SHOW true;
    __recinfo_int_o SESSION_AUTH_METHOD r "session.auth.authmethod" IDBM_SHOW [str "None"; str "CHAP"] true;
    __recinfo_str SESSION_USERNAME r "session.auth.username" AUTH_STR_MAX_LEN IDBM_SHOW true;
    __recinfo_str SESSION_PASSWORD r "session.auth.password" AUTH_STR_MAX_LEN IDBM_MASKED true;
    __recinfo_int SESSION_PASSWORD_LEN r "session.auth.password_length" IDBM_HIDE true;
    __recinfo_str SESSION_USERNAME_IN r "session.auth.username_in" AUTH_STR_MAX_LEN IDBM_SHOW true;
    __recinfo_str SESSION_PASSWORD_IN r "session.auth.password_in" AUTH_STR_MAX_LEN IDBM_MASKED true;
    __recinfo_int SESSION_PASSWORD_IN_LEN r "session.auth.password_in_length" IDBM_HIDE true;
    __recinfo_int_list SESSION_CHAP_ALGS r "session.auth.chap_algs" AUTH_CHAP_ALG_MAX_COUNT IDBM_SHOW chap_algs true;
    __recinfo_int SESSION_REPLACEMENT_TMO r "session.timeo.replacement_timeout" IDBM_SHOW true;
    __recinfo_int SESSION_ABORT_TMO r "session.err_timeo.abort_timeout" IDBM_SHOW true;
    __recinfo_int SESSION_LU_RESET_TMO r "session.err_timeo.lu_reset_timeout" IDBM_SHOW true;
    __recinfo_int SESSION_TGT_RESET_TMO r "session.err_timeo.tgt_reset_timeout" IDBM_SHOW true;
    __recinfo_int SESSION_HOST_RESET_TMO r "session.err_timeo.host_reset_timeout" IDBM_SHOW true;
    __recinfo_int_o SESSION_FAST_ABORT r "session.iscsi.FastAbort" IDBM_SHOW [str "No"; str "Yes"] true;
    __recinfo_int_o SESSION_INITIAL_R2T r "session.iscsi.InitialR2T" IDBM_SHOW [str "No"; str "Yes"] true;
    __recinfo_int_o SESSION_IMM_DATA r "session.iscsi.ImmediateData" IDBM_SHOW [str "No"; str "Yes"] true;
    __recinfo_int SESSION_FIRST_BURST r "session.iscsi.FirstBurstLength" IDBM_SHOW true;
    __recinfo_int SESSION_MAX_BURST r "session.iscsi.MaxBurstLength" IDBM_SHOW true;
    __recinfo_int SESSION_DEF_TIME2RETAIN r "session.iscsi.DefaultTime2Retain" IDBM_SHOW true;
    __recinfo_int SESSION_DEF_TIME2WAIT r "session.iscsi.DefaultTime2Wait" IDBM_SHOW true;
    __recinfo_int SESSION_MAX_CONNS r "session.iscsi.MaxConnections" IDBM_SHOW true;
    __recinfo_int SESSION_MAX_R2T r "session.iscsi.MaxOutstandingR2T" IDBM_SHOW true;
    __recinfo_int SESSION_ERL r "session.iscsi.ERL" IDBM_SHOW true;
    __recinfo_int_o SESSION_SCAN r "session.scan" IDBM_SHOW [str "manual"; str "auto"] true;
    __recinfo_int SESSION_REOPEN_MAX r "session.reopen_max" IDBM_SHOW true ].

Definition node_rows_conn (r : memory) : list recinfo :=
  [ __recinfo_str (key_of CONN_ADDR) r "conn[0].address" NI_MAXHOST IDBM_SHOW false;
    __recinfo_int (key_of CONN_PORT) r "conn[0].port" IDBM_SHOW false;
    __recinfo_int_o (key_of CONN_STARTUP) r "conn[0].startup" IDBM_SHOW [str "manual"; str "automatic"; str "onboot"] true;
    __recinfo_int (key_of CONN_WINDOW_SIZE) r "conn[0].tcp.window_size" IDBM_SHOW true;
    __recinfo_int (key_of CONN_SERVICE_TYPE) r "conn[0].tcp.type_of_service" IDBM_SHOW true;
    __recinfo_int (key_of CONN_LOGOUT_TMO) r "conn[0].timeo.logout_timeout" IDBM_SHOW true;
    __recinfo_int (key_of CONN_LOGIN_TMO) r "conn[0].timeo.login_timeout" IDBM_SHOW true;
    __recinfo_int (key_of CONN_AUTH_TMO) r "conn[0].timeo.auth_timeout" IDBM_SHOW true;
    __recinfo_int (key_of CONN_NOP_INT) r "conn[0].timeo.noop_out_interval" IDBM_SHOW true;
    __recinfo_int (key_of CONN_NOP_TMO) r "conn[0].timeo.noop_out_timeout" IDBM_SHOW true;
    __recinfo_int (key_of CONN_MAX_XMIT_DLEN) r "conn[0].iscsi.MaxXmitDataSegmentLength" IDBM_SHOW true;
    __recinfo_int (key_of CONN_MAX_RECV_DLEN) r "conn[0].iscsi.MaxRecvDataSegmentLength" IDBM_SHOW true;
    __recinfo_int_o (key_of CONN_HDR_DIGEST) r "conn[0].iscsi.HeaderDigest" IDBM_SHOW [str "None"; str "CRC32C"; str "CRC32C,None"; str "None,CRC32C"] true;
    __recinfo_int_o (key_of CONN_DATA_DIGEST) r "conn[0].iscsi.DataDigest" IDBM_SHOW [str "None"; str "CRC32C"; str "CRC32C,None"; str "None,CRC32C"] true;
    __recinfo_int_o (key_of CONN_IFMARKER) r "conn[0].iscsi.IFMarker" IDBM_SHOW [str "No"; str "Yes"] true;
    __recinfo_int_o (key_of CONN_OFMARKER) r "conn[0].iscsi.OFMarker" IDBM_SHOW [str "No"; str "Yes"] true ].

Definition node_rows (t : iscsi_iface_type) (r : memory) : list recinfo :=
  node_rows_head r ++
  match t with ISCSI_IFACE_TYPE_IPV4 => node_rows_ipv4 r | ISCSI_IFACE_TYPE_IPV6 => node_rows_ipv6 r end ++
  node_rows_tail r ++ node_rows_conn r.

Definition idbm_recinfo_node (r : memory) : list recinfo := node_rows (iface_get_iptype "iface." r) r.

Definition iface_rows_head (r : memory) : list recinfo :=
  [ __recinfo_str IFACE_ISCSINAME r "name" ISCSI_MAX_IFACE_LEN IDBM_SHOW false;
    __recinfo_str IFACE_NETNAME r "netdev" IFNAMSIZ IDBM_SHOW true;
    __recinfo_str IFACE_IPADDR r "ipaddress" NI_MAXHOST IDBM_SHOW true;
    __recinfo_uint8 IFACE_PREFIX_LEN r "prefix_len" IDBM_SHOW true;
    __recinfo_str IFACE_HWADDR r "hwaddress" ISCSI_HWADDRESS_BUF_SIZE IDBM_SHOW true;
    __recinfo_str IFACE_TRANSPORTNAME r "transport_name" ISCSI_TRANSPORT_NAME_MAXLEN IDBM_SHOW true;
    __recinfo_str IFACE_INAME r "iname" (TARGET_NAME_MAXLEN + 1) IDBM_SHOW true;
    __recinfo_str IFACE_STATE r "state" ISCSI_MAX_STR_LEN IDBM_SHOW true;
    __recinfo_uint16 IFACE_VLAN_ID r "vlan_id" IDBM_SHOW true;
    __recinfo_uint8 IFACE_VLAN_PRIORITY r "vlan_priority" IDBM_SHOW true;
    __recinfo_str IFACE_VLAN_STATE r "vlan_state" ISCSI_MAX_STR_LEN IDBM_SHOW true;
    __recinfo_int IFACE_NUM r "iface_num" IDBM_SHOW true;
    __recinfo_uint16 IFACE_MTU r "mtu" IDBM_SHOW true;
    __recinfo_uint16 IFACE_PORT r "port" IDBM_SHOW true ].

Definition iface_rows_ipv4 (r : memory) : list recinfo :=
  [ __recinfo_str IFACE_BOOT_PROTO r "bootproto" ISCSI_MAX_STR_LEN IDBM_SHOW true;
    __recinfo_str IFACE_SUBNET_MASK r "subnet_mask" NI_MAXHOST IDBM_SHOW true;
    __recinfo_str IFACE_GATEWAY r "gateway" NI_MAXHOST IDBM_SHOW true;
    __recinfo_str IFACE_DHCP_ALT_CID r "dhcp_alt_client_id_state" ISCSI_MAX_STR_LEN IDBM_SHOW true;
    __recinfo_str IFACE_DHCP_ALT_CID_STR r "dhcp_alt_client_id" ISCSI_MAX_STR_LEN IDBM_SHOW true;
    __recinfo_str IFACE_DHCP_DNS r "dhcp_dns" ISCSI_MAX_STR_LEN IDBM_SHOW true;
    __recinfo_str IFACE_DHCP_LEARN_IQN r "dhcp_learn_iqn" ISCSI_MAX_STR_LEN IDBM_SHOW true;
    __recinfo_str IFACE_DHCP_REQ_VID r "dhcp_req_vendor_id_state" ISCSI_MAX_STR_LEN IDBM_SHOW true;
    __recinfo_str IFACE_DHCP_VID r "dhcp_vendor_id_state" ISCSI_MAX_STR_LEN IDBM_SHOW true;
    __recinfo_str IFACE_DHCP_VID_STR r "dhcp_vendor_id" ISCSI_MAX_STR_LEN IDBM_SHOW true;
    __recinfo_str IFACE_DHCP_SLP_DA r "dhcp_slp_da" ISCSI_MAX_STR_LEN IDBM_SHOW true;
    __recinfo_str IFACE_FRAGMENTATION r "fragmentation" ISCSI_MAX_STR_LEN IDBM_SHOW true;
    __recinfo_str IFACE_GRAT_ARP r "gratuitous_arp" ISCSI_MAX_STR_LEN IDBM_SHOW true;
    __recinfo_str IFACE_IN_FORWARD r "incoming_forwarding" ISCSI_MAX_STR_LEN IDBM_SHOW true;
    __recinfo_str IFACE_TOS_STATE r "tos_state" ISCSI_MAX_STR_LEN IDBM_SHOW true;
    __recinfo_uint8 IFACE_TOS r "tos" IDBM_SHOW true;
    __recinfo_uint8 IFACE_TTL r "ttl" IDBM_SHOW true ].

Definition iface_rows_ipv6 (r : memory) : list recinfo :=
  [ __recinfo_str IFACE_IPV6_AUTOCFG r "ipv6_autocfg" NI_MAXHOST IDBM_SHOW true;
    __recinfo_str IFACE_LINKLOCAL_AUTOCFG r "linklocal_autocfg" NI_MAXHOST IDBM_SHOW true;
    __recinfo_str IFACE_ROUTER_AUTOCFG r "router_autocfg" NI_MAXHOST IDBM_SHOW true;
    __recinfo_str IFACE_LINKLOCAL r "ipv6_linklocal" NI_MAXHOST IDBM_SHOW true;
    __recinfo_str IFACE_ROUTER r "ipv6_router" NI_MAXHOST IDBM_SHOW true;
    __recinfo_uint8 IFACE_DUP_ADDR_DETECT_CNT r "dup_addr_detect_cnt" IDBM_SHOW true;
    __recinfo_uint32 IFACE_FLOW_LABEL r "flow_label" IDBM_SHOW true;
    __recinfo_str IFACE_GRAT_NEIGHBOR_ADV r "gratuitous_neighbor_adv" ISCSI_MAX_STR_LEN IDBM_SHOW true;
    __recinfo_uint8 IFACE_HOP_LIMIT r "hop_limit" IDBM_SHOW true;
    __recinfo_str IFACE_MLD r "mld" ISCSI_MAX_STR_LEN IDBM_SHOW true;
    __recinfo_uint32 IFACE_ND_REACHABLE_TMO r "nd_reachable_tmo" IDBM_SHOW true;
    __recinfo_uint32 IFACE_ND_REXMIT_TIME r "nd_rexmit_time" IDBM_SHOW true;
    __recinfo_uint32 IFACE_ND_STALE_TMO r "nd_stale_tmo" IDBM_SHOW true;
    __recinfo_uint32 IFACE_RTR_ADV_LINK_MTU r "router_adv_link_mtu" IDBM_SHOW true;
    __recinfo_uint8 IFACE_TRAFFIC_CLASS r "traffic_class" IDBM_SHOW true ].

Definition iface_rows_tail (r : memory) : list recinfo :=
  [ __recinfo_str IFACE_DELAYED_ACK r "delayed_ack" ISCSI_MAX_STR_LEN IDBM_SHOW true;
    __recinfo_str IFACE_TCP_NAGLE r "nagle" ISCSI_MAX_STR_LEN IDBM_SHOW true;
    __recinfo_str IFACE_TCP_WSF_STATE r "tcp_wsf_state" ISCSI_MAX_STR_LEN IDBM_SHOW true;
    __recinfo_uint8 IFACE_TCP_WSF r "tcp_wsf" IDBM_SHOW true;
    __recinfo_uint8 IFACE_TCP_TIMER_SCALE r "tcp_timer_scale" IDBM_SHOW true;
    __recinfo_str IFACE_TCP_TIMESTAMP r "tcp_timestamp" ISCSI_MAX_STR_LEN IDBM_SHOW true;
    __recinfo_str IFACE_REDIRECT r "redirect" ISCSI_MAX_STR_LEN IDBM_SHOW true;
    __recinfo_uint16 IFACE_DEF_TMF_TMO r "def_task_mgmt_tmo" IDBM_SHOW true;
    __recinfo_str IFACE_HDRDGST r "header_digest" ISCSI_MAX_STR_LEN IDBM_SHOW true;
    __recinfo_str IFACE_DATADGST r "data_digest" ISCSI_MAX_STR_LEN IDBM_SHOW true;
    __recinfo_str IFACE_IMM_DATA r "immediate_data" ISCSI_MAX_STR_LEN IDBM_SHOW true;
    __recinfo_str IFACE_INITIAL_R2T r "initial_r2t" ISCSI_MAX_STR_LEN IDBM_SHOW true;
    __recinfo_str IFACE_DSEQ_INORDER r "data_seq_inorder" ISCSI_MAX_STR_LEN IDBM_SHOW true;
    __recinfo_str IFACE_DPDU_INORDER r "data_pdu_inorder" ISCSI_MAX_STR_LEN IDBM_SHOW true;
    __recinfo_uint8 IFACE_ERL r "erl" IDBM_SHOW true;
    __recinfo_uint32 IFACE_MAX_RECV_DLEN r "max_recv_dlength" IDBM_SHOW true;
    __recinfo_uint32 IFACE_FIRST_BURST r "first_burst_len" IDBM_SHOW true;
    __recinfo_uint16 IFACE_MAX_R2T r "max_out_r2t" IDBM_SHOW true;
    __recinfo_uint32 IFACE_MAX_BURST r "max_burst_len" IDBM_SHOW true;
    __recinfo_str IFACE_CHAP_AUTH r "chap_auth" ISCSI_MAX_STR_LEN IDBM_SHOW true;
    __recinfo_str IFACE_BIDI_CHAP r "bidi_chap" ISCSI_MAX_STR_LEN IDBM_SHOW true;
    __recinfo_str IFACE_STRICT_LOGIN_COMP r "strict_login_comp" ISCSI_MAX_STR_LEN IDBM_SHOW true;
    __recinfo_str IFACE_DISCOVERY_AUTH r "discovery_auth" ISCSI_MAX_STR_LEN IDBM_SHOW true;
    __recinfo_str IFACE_DISCOVERY_LOGOUT r "discovery_logout" ISCSI_MAX_STR_LEN IDBM_SHOW true ].

Definition iface_rows (t : iscsi_iface_type) (r : memory) : list recinfo :=
  iface_rows_head r ++
  match t with ISCSI_IFACE_TYPE_IPV4 => iface_rows_ipv4 r | ISCSI_IFACE_TYPE_IPV6 => iface_rows_ipv6 r end ++
  iface_rows_tail r.

Definition idbm_recinfo_iface (r : memory) : list recinfo := iface_rows (iface_get_iptype "" r) r.

Definition discovery_rows_head (r : memory) : list recinfo :=
  [ __recinfo_int_o DISC_STARTUP r "startup" IDBM_SHOW [str "manual"; str "automatic"] true;
    __recinfo_int_o DISC_TYPE r "type" IDBM_SHOW [str "sendtargets"; str "isns"; str "offload_send_targets"; str "slp"; str "static"; str "fw"] false ].

Definition discovery_rows_sendtargets (r : memory) : list recinfo :=
  [ __recinfo_str DISC_ST_ADDR r "address" NI_MAXHOST IDBM_SHOW false;
    __recinfo_int DISC_ST_PORT r "port" IDBM_SHOW false;
    __recinfo_int_o DISC_ST_AUTH_METHOD r "u.sendtargets.auth.authmethod" IDBM_SHOW [str "None"; str "CHAP"] true;
    __recinfo_str DISC_ST_USERNAME r "u.sendtargets.auth.username" AUTH_STR_MAX_LEN IDBM_SHOW true;
    __recinfo_str DISC_ST_PASSWORD r "u.sendtargets.auth.password" AUTH_STR_MAX_LEN IDBM_MASKED true;
    __recinfo_int DISC_ST_PASSWORD_LEN r "u.sendtargets.auth.password_length" IDBM_HIDE true;
    __recinfo_str DISC_ST_USERNAME_IN r "u.sendtargets.auth.username_in" AUTH_STR_MAX_LEN IDBM_SHOW true;
    __recinfo_str DISC_ST_PASSWORD_IN r "u.sendtargets.auth.password_in" AUTH_STR_MAX_LEN IDBM_MASKED true;
    __recinfo_int DISC_ST_PASSWORD_IN_LEN r "u.sendtargets.auth.password_in_length" IDBM_HIDE true;
    __recinfo_int_list SESSION_CHAP_ALGS r "u.sendtargets.auth.chap_algs" AUTH_CHAP_ALG_MAX_COUNT IDBM_SHOW chap_algs true;
    __recinfo_int DISC_ST_LOGIN_TMO r "u.sendtargets.conn_timeo.login_timeout" IDBM_SHOW true;
    __recinfo_int_o DISC_ST_USE_DISC_DAEMON r "u.sendtargets.use_discoveryd" IDBM_SHOW [str "No"; str "Yes"] true;
    __recinfo_int DISC_ST_DISC_DAEMON_POLL_INVAL r "u.sendtargets.discoveryd_poll_inval" IDBM_SHOW true;
    __recinfo_int DISC_ST_REOPEN_MAX r "u.sendtargets.reopen_max" IDBM_SHOW true;
    __recinfo_int DISC_ST_AUTH_TMO r "u.sendtargets.conn_timeo.auth_timeout" IDBM_SHOW true;
    __recinfo_int DISC_ST_ACTIVE_TMO r "u.sendtargets.conn_timeo.active_timeout" IDBM_SHOW true;
    __recinfo_int DISC_ST_MAX_RECV_DLEN r "u.sendtargets.conn_conf.MaxRecvDataSegmentLength" IDBM_SHOW true ].

Definition discovery_rows_isns (r : memory) : list recinfo :=
  [ __recinfo_str DISC_ISNS_ADDR r "address" NI_MAXHOST IDBM_SHOW false;
    __recinfo_int DISC_ISNS_PORT r "port" IDBM_SHOW false;
    __recinfo_int_o DISC_ISNS_USE_DISC_DAEMON r "u.isns.use_discoveryd" IDBM_SHOW [str "No"; str "Yes"] true;
    __recinfo_int DISC_ISNS_DISC_DAEMON_POLL_INVAL r "u.isns.discoveryd_poll_inval" IDBM_SHOW true ].

Definition DISCOVERY_TYPE_SENDTARGETS : Z := 0.
Definition DISCOVERY_TYPE_ISNS : Z := 1.
Definition DISCOVERY_TYPE_SLP : Z := 3.
Definition DISCOVERY_TYPE_STATIC : Z := 4.

Definition idbm_recinfo_discovery (r : memory) : list recinfo :=
  discovery_rows_head r ++
  (if decide (get_int r "type" = DISCOVERY_TYPE_SENDTARGETS) then discovery_rows_sendtargets r
   else if decide (get_int r "type" = DISCOVERY_TYPE_ISNS) then discovery_rows_isns r else []).

Definition chap_rows_head (r : memory) : list recinfo :=
  [ __recinfo_uint16 HOST_AUTH_INDEX r "chap_tbl_idx" IDBM_SHOW true ].

Definition chap_rows_out (r : memory) : list recinfo :=
  [ __recinfo_str HOST_AUTH_USERNAME r "username" ISCSI_CHAP_AUTH_NAME_MAX_LEN IDBM_SHOW true;
    __recinfo_str HOST_AUTH_PASSWORD r "password" ISCSI_CHAP_AUTH_SECRET_MAX_LEN IDBM_MASKED true;
    __recinfo_int HOST_AUTH_PASSWORD_LEN r "password_length" IDBM_HIDE true ].

Definition chap_rows_in (r : memory) : list recinfo :=
  [ __recinfo_str HOST_AUTH_USERNAME_IN r "username" ISCSI_CHAP_AUTH_NAME_MAX_LEN IDBM_SHOW true;
    __recinfo_str HOST_AUTH_PASSWORD_IN r "password" ISCSI_CHAP_AUTH_SECRET_MAX_LEN IDBM_MASKED true;
    __recinfo_int HOST_AUTH_PASSWORD_IN_LEN r "password_length" IDBM_HIDE true ].

Definition CHAP_TYPE_OUT : Z := 0.

Definition idbm_recinfo_host_chap (r : memory) : list recinfo :=
  chap_rows_head r ++ (if decide (get_int r "chap_type" = CHAP_TYPE_OUT) then chap_rows_out r else chap_rows_in r).

Definition flashnode_rows_sess (r : memory) : list recinfo :=
  [ __recinfo_uint8 FLASHNODE_SESS_AUTO_SND_TGT_DISABLE r "sess.auto_snd_tgt_disable" IDBM_SHOW true;
    __recinfo_uint8 FLASHNODE_SESS_DISCOVERY_SESS r "sess.discovery_session" IDBM_SHOW true;
    __recinfo_str FLASHNODE_SESS_PORTAL_TYPE r "sess.portal_type" 5 IDBM_SHOW true;
    __recinfo_uint8 FLASHNODE_SESS_ENTRY_EN r "sess.entry_enable" IDBM_SHOW true;
    __recinfo_uint8 FLASHNODE_SESS_IMM_DATA_EN r "sess.immediate_data" IDBM_SHOW true;
    __recinfo_uint8 FLASHNODE_SESS_INITIAL_R2T_EN r "sess.initial_r2t" IDBM_SHOW true;
    __recinfo_uint8 FLASHNODE_SESS_DATASEQ_INORDER r "sess.data_seq_in_order" IDBM_SHOW true;
    __recinfo_uint8 FLASHNODE_SESS_PDU_INORDER r "sess.data_pdu_in_order" IDBM_SHOW true;
    __recinfo_uint8 FLASHNODE_SESS_CHAP_AUTH_EN r "sess.chap_auth_en" IDBM_SHOW true;
    __recinfo_uint8 FLASHNODE_SESS_DISCOVERY_LOGOUT_EN r "sess.discovery_logout_en" IDBM_SHOW true;
    __recinfo_uint8 FLASHNODE_SESS_BIDI_CHAP_EN r "sess.bidi_chap_en" IDBM_SHOW true;
    __recinfo_uint8 FLASHNODE_SESS_DISCOVERY_AUTH_OPTIONAL r "sess.discovery_auth_optional" IDBM_SHOW true;
    __recinfo_uint8 FLASHNODE_SESS_ERL r "sess.erl" IDBM_SHOW true;
    __recinfo_uint32 FLASHNODE_SESS_FIRST_BURST r "sess.first_burst_len" IDBM_SHOW true;
    __recinfo_uint16 FLASHNODE_SESS_DEF_TIME2WAIT r "sess.def_time2wait" IDBM_SHOW true;
    __recinfo_uint16 FLASHNODE_SESS_DEF_TIME2RETAIN r "sess.def_time2retain" IDBM_SHOW true;
    __recinfo_uint16 FLASHNODE_SESS_MAX_R2T r "sess.max_outstanding_r2t" IDBM_SHOW true;
    __recinfo_str FLASHNODE_SESS_ISID r "sess.isid" 16 IDBM_SHOW true;
    __recinfo_uint16 FLASHNODE_SESS_TSID r "sess.tsid" IDBM_SHOW true;
    __recinfo_uint32 FLASHNODE_SESS_MAX_BURST r "sess.max_burst_len" IDBM_SHOW true;
    __recinfo_uint16 FLASHNODE_SESS_DEF_TASKMGMT_TMO r "sess.def_taskmgmt_tmo" IDBM_SHOW true;
    __recinfo_str FLASHNODE_SESS_ALIAS r "sess.targetalias" TARGET_NAME_MAXLEN IDBM_SHOW true;
    __recinfo_str FLASHNODE_SESS_NAME r "sess.targetname" TARGET_NAME_MAXLEN IDBM_SHOW true;
    __recinfo_uint16 FLASHNODE_SESS_DISCOVERY_PARENT_IDX r "sess.discovery_parent_idx" IDBM_SHOW true;
    __recinfo_str FLASHNODE_SESS_DISCOVERY_PARENT_TYPE r "sess.discovery_parent_type" ISCSI_MAX_STR_LEN IDBM_SHOW true;
    __recinfo_uint16 FLASHNODE_SESS_TPGT r "sess.tpgt" IDBM_SHOW true;
    __recinfo_uint16 FLASHNODE_SESS_CHAP_OUT_IDX r "sess.chap_out_idx" IDBM_SHOW true;
    __recinfo_uint16 FLASHNODE_SESS_CHAP_IN_IDX r "sess.chap_in_idx" IDBM_SHOW true;
    __recinfo_str FLASHNODE_SESS_USERNAME r "sess.username" AUTH_STR_MAX_LEN IDBM_SHOW true;
    __recinfo_str FLASHNODE_SESS_USERNAME_IN r "sess.username_in" AUTH_STR_MAX_LEN IDBM_SHOW true;
    __recinfo_str FLASHNODE_SESS_PASSWORD r "sess.password" AUTH_STR_MAX_LEN IDBM_SHOW true;
    __recinfo_str FLASHNODE_SESS_PASSWORD_IN r "sess.password_in" AUTH_STR_MAX_LEN IDBM_SHOW true;
    __recinfo_uint8 FLASHNODE_SESS_IS_BOOT_TGT r "sess.is_boot_target" IDBM_SHOW true ].

Definition flashnode_rows_conn (r : memory) : list recinfo :=
  [ __recinfo_uint8 (key_of FLASHNODE_CONN_IS_FW_ASSIGNED_IPV6) r "conn[0].is_fw_assigned_ipv6" IDBM_SHOW true;
    __recinfo_uint8 (key_of FLASHNODE_CONN_HDR_DGST_EN) r "conn[0].header_digest_en" IDBM_SHOW true;
    __recinfo_uint8 (key_of FLASHNODE_CONN_DATA_DGST_EN) r "conn[0].data_digest_en" IDBM_SHOW true;
    __recinfo_uint8 (key_of FLASHNODE_CONN_SNACK_REQ_EN) r "conn[0].snack_req_en" IDBM_SHOW true;
    __recinfo_uint8 (key_of FLASHNODE_CONN_TCP_TIMESTAMP_STAT) r "conn[0].tcp_timestamp_stat" IDBM_SHOW true;
    __recinfo_uint8 (key_of FLASHNODE_CONN_TCP_NAGLE_DISABLE) r "conn[0].tcp_nagle_disable" IDBM_SHOW true;
    __recinfo_uint8 (key_of FLASHNODE_CONN_TCP_WSF_DISABLE) r "conn[0].tcp_wsf_disable" IDBM_SHOW true;
    __recinfo_uint8 (key_of FLASHNODE_CONN_TCP_TIMER_SCALE) r "conn[0].tcp_timer_scale" IDBM_SHOW true;
    __recinfo_uint8 (key_of FLASHNODE_CONN_TCP_TIMESTAMP_EN) r "conn[0].tcp_timestamp_en" IDBM_SHOW true;
    __recinfo_uint8 (key_of FLASHNODE_CONN_IP_FRAG_DISABLE) r "conn[0].fragment_disable" IDBM_SHOW true;
    __recinfo_uint32 (key_of FLASHNODE_CONN_MAX_XMIT_DLENGTH) r "conn[0].max_xmit_dlength" IDBM_SHOW true;
    __recinfo_uint32 (key_of FLASHNODE_CONN_MAX_RECV_DLENGTH) r "conn[0].max_recv_dlength" IDBM_SHOW true;
    __recinfo_uint16 (key_of FLASHNODE_CONN_KEEPALIVE_TMO) r "conn[0].keepalive_tmo" IDBM_SHOW true;
    __recinfo_uint16 (key_of FLASHNODE_CONN_PORT) r "conn[0].port" IDBM_SHOW true;
    __recinfo_str (key_of FLASHNODE_CONN_IPADDR) r "conn[0].ipaddress" NI_MAXHOST IDBM_SHOW true;
    __recinfo_str (key_of FLASHNODE_CONN_REDIRECT_IPADDR) r "conn[0].redirect_ipaddr" NI_MAXHOST IDBM_SHOW true;
    __recinfo_uint32 (key_of FLASHNODE_CONN_MAX_SEGMENT_SIZE) r "conn[0].max_segment_size" IDBM_SHOW true;
    __recinfo_uint16 (key_of FLASHNODE_CONN_LOCAL_PORT) r "conn[0].local_port" IDBM_SHOW true;
    __recinfo_uint8 (key_of FLASHNODE_CONN_IPV4_TOS) r "conn[0].ipv4_tos" IDBM_SHOW true;
    __recinfo_uint8 (key_of FLASHNODE_CONN_IPV6_TC) r "conn[0].ipv6_traffic_class" IDBM_SHOW true;
    __recinfo_uint16 (key_of FLASHNODE_CONN_IPV6_FLOW_LABEL) r "conn[0].ipv6_flow_lbl" IDBM_SHOW true;
    __recinfo_str (key_of FLASHNODE_CONN_LINK_LOCAL_IPV6) r "conn[0].link_local_ipv6" NI_MAXHOST IDBM_SHOW true;
    __recinfo_uint32 (key_of FLASHNODE_CONN_TCP_XMIT_WSF) r "conn[0].tcp_xmit_wsf" IDBM_SHOW true;
    __recinfo_uint32 (key_of FLASHNODE_CONN_TCP_RECV_WSF) r "conn[0].tcp_recv_wsf" IDBM_SHOW true;
    __recinfo_uint32 (key_of FLASHNODE_CONN_STATSN) r "conn[0].stat_sn" IDBM_SHOW true;
    __recinfo_uint32 (key_of FLASHNODE_CONN_EXP_STATSN) r "conn[0].exp_stat_sn" IDBM_SHOW true ].

Definition idbm_recinfo_flashnode (r : memory) : list recinfo := flashnode_rows_sess r ++ flashnode_rows_conn r.
