(* ===== verification/IdbmOps.v ===== *)
(** * The record database: defaults and files

    The operations of usr/idbm.c on the records of nodes and discovery sources,
    and those of usr/iface.c on the records of interfaces.  The part of the file
    system that the database uses is a map from paths to nodes; what the system
    refuses for other reasons (permissions, space) and what another process does
    with the lock file are parameters. *)
From Stdlib Require Import ZArith Lia Ascii.
From stdpp Require Import base tactics numbers list strings option gmap.
From S2P Require Import Prelude StateM CString Login Idbm IdbmTables.

Definition ISCSI_ERR_IDBM : Z := 6.

(** ** Default values *)
Definition set_ints (p : string) (l : list (string * Z)) (m : memory) : memory :=
  foldl (fun m '(f, z) => <[p +:+ f := FInt z]> m) m l.

Definition idbm_setup_session_defaults (p : string) (m : memory) : memory :=
  set_ints p
    [("InitialR2T", 0%Z); ("ImmediateData", 1%Z); ("FirstBurstLength", 262144%Z); ("MaxBurstLength", 16776192%Z);
     ("DefaultTime2Wait", 2%Z); ("DefaultTime2Retain", 0%Z); ("MaxConnections", 1%Z); ("MaxOutstandingR2T", 1%Z);
     ("ERL", 0%Z); ("FastAbort", 1%Z)] m.

Definition CONFIG_DIGEST_NEVER : Z := 0.

Definition idbm_setup_conn_defaults (p : string) (m : memory) : memory :=
  set_ints p
    [("MaxXmitDataSegmentLength", 0%Z); ("MaxRecvDataSegmentLength", 262144%Z); ("HeaderDigest", CONFIG_DIGEST_NEVER);
     ("DataDigest", CONFIG_DIGEST_NEVER); ("IFMarker", 0%Z); ("OFMarker", 0%Z)] m.

(** The list of algorithms: MD5, the other places unset. *)
Definition AUTH_CHAP_ALG_MD5 : Z := 5.
Definition default_algs : fval := FArr (AUTH_CHAP_ALG_MD5 :: replicate (AUTH_CHAP_ALG_MAX_COUNT - 1) UNSET).

Definition ISCSI_STARTUP_MANUAL : Z := 0.
Definition ISCSI_STARTUP_ONBOOT : Z := 2.

Definition idbm_discovery_setup_defaults (type : Z) : memory :=
  let m := set_ints "" [("startup", ISCSI_STARTUP_MANUAL); ("type", type); ("iscsid_req_tmo", (-1)%Z)] ∅ in
  if decide (type = DISCOVERY_TYPE_SENDTARGETS) then
    let m := set_ints "u.sendtargets."
               [("discoveryd_poll_inval", 30%Z); ("use_discoveryd", 0%Z); ("reopen_max", 5%Z); ("auth.authmethod", 0%Z);
                ("auth.password_length", 0%Z); ("auth.password_in_length", 0%Z)] m in
    let m := <["u.sendtargets.auth.chap_algs" := default_algs]> m in
    let m := set_ints "u.sendtargets.conn_timeo."
               [("login_timeout", 15%Z); ("auth_timeout", 45%Z); ("active_timeout", 30%Z)] m in
    let m := idbm_setup_session_defaults "u.sendtargets.session_conf." m in
    let m := idbm_setup_conn_defaults "u.sendtargets.conn_conf." m in
    <["u.sendtargets.conn_conf.MaxRecvDataSegmentLength" := FInt 32768]> m
  else if decide (type = DISCOVERY_TYPE_SLP) then
    set_ints "u.slp."
      [("interfaces", 0%Z); ("scopes", 0%Z); ("poll_interval", 300%Z); ("auth.authmethod", 0%Z);
       ("auth.password_length", 0%Z); ("auth.password_in_length", 0%Z)] m
  else if decide (type = DISCOVERY_TYPE_ISNS) then
    set_ints "u.isns." [("use_discoveryd", 0%Z); ("discoveryd_poll_inval", (-1)%Z)] m
  else m.

(** [iface_init] and [iface_setup_defaults] (usr/iface.c). *)
Definition DEFAULT_IFACENAME : list Z := str "default".

Definition iface_init (p : string) (m : memory) : memory :=
  if decide (get_str m (p +:+ "name") = []) then <[p +:+ "name" := FStr DEFAULT_IFACENAME]> m else m.

Definition iface_setup_defaults (p : string) (m : memory) : memory :=
  iface_init p (<[p +:+ "transport_name" := FStr (str "tcp")]> m).

Definition PORTAL_GROUP_TAG_UNKNOWN : Z := -1.

Definition idbm_node_setup_defaults : memory :=
  let m := set_ints ""
             [("tpgt", PORTAL_GROUP_TAG_UNKNOWN); ("disc_type", DISCOVERY_TYPE_STATIC); ("leading_login", 0%Z)] ∅ in
  let m := set_ints "session."
             [("cmds_max", 128%Z); ("xmit_thread_priority", (-20)%Z); ("initial_cmdsn", 0%Z); ("queue_depth", 32%Z);
              ("nr_sessions", 1%Z); ("initial_login_retry_max", 4%Z); ("reopen_max", 0%Z); ("auth.authmethod", 0%Z)] m in
  let m := <["session.auth.chap_algs" := default_algs]> m in
  let m := set_ints "session."
             [("auth.password_length", 0%Z); ("auth.password_in_length", 0%Z); ("err_timeo.abort_timeout", 15%Z);
              ("err_timeo.lu_reset_timeout", 30%Z); ("err_timeo.tgt_reset_timeout", 30%Z);
              ("err_timeo.host_reset_timeout", 60%Z); ("timeo.replacement_timeout", 120%Z); ("info", 0%Z); ("sid", 0%Z);
              ("multiple", 0%Z); ("scan", 1%Z)] m in
  let m := idbm_setup_session_defaults "session.iscsi." m in
  let m := set_ints "conn[0]."
             [("startup", ISCSI_STARTUP_MANUAL); ("port", 3260%Z); ("tcp.window_size", 524288%Z);
              ("tcp.type_of_service", 0%Z); ("timeo.login_timeout", 30%Z); ("timeo.logout_timeout", 15%Z);
              ("timeo.auth_timeout", 45%Z); ("timeo.noop_out_interval", 5%Z); ("timeo.noop_out_timeout", 5%Z)] m in
  let m := idbm_setup_conn_defaults "conn[0].iscsi." m in
  iface_setup_defaults "iface." m.

(** ** Printing *)
Inductive print_type :=
  | IDBM_PRINT_TYPE_DISCOVERY
  | IDBM_PRINT_TYPE_NODE
  | IDBM_PRINT_TYPE_IFACE
  | IDBM_PRINT_TYPE_HOST_CHAP
  | IDBM_PRINT_TYPE_FLASHNODE.

Definition recinfo_of (t : print_type) (rec : memory) : list recinfo :=
  match t with
  | IDBM_PRINT_TYPE_DISCOVERY => idbm_recinfo_discovery rec
  | IDBM_PRINT_TYPE_NODE => idbm_recinfo_node rec
  | IDBM_PRINT_TYPE_IFACE => idbm_recinfo_iface rec
  | IDBM_PRINT_TYPE_HOST_CHAP => idbm_recinfo_host_chap rec
  | IDBM_PRINT_TYPE_FLASHNODE => idbm_recinfo_flashnode rec
  end.

(** The size of a [recinfo_t] on a 64-bit machine. *)
Definition RECINFO_SIZE : nat := 480.

Section Print.
Context `{LEnv : LoginEnv}.

Definition idbm_recinfo_alloc (max_keys : nat) : option (list recinfo) :=
  if malloc (RECINFO_SIZE * max_keys) then Some (replicate max_keys zero_recinfo) else None.

(** A table written to the beginning of an allocated one. *)
Definition fill (l info : list recinfo) : list recinfo := l ++ drop (length l) info.

(** What is written to the file. *)
Definition idbm_print (t : print_type) (rec : memory) (show to_stdout : bool) : list Z :=
  match idbm_recinfo_alloc MAX_KEYS with
  | None => []
  | Some info => print_info (fill (recinfo_of t rec) info) rec show to_stdout
  end.
End Print.

(** ** The file system *)
Notation path := (list Z).

Inductive fsnode := Dir | File (content : list Z) | Link (target : path).

Inductive fsop := OpMkdir | OpUnlink | OpRmdir | OpRead | OpWrite | OpSymlink | OpScandir.

Notation filesys := (gmap path fsnode).

(** What the database asks of the system: its root directory; whether an
    operation that is possible is also permitted; whether the directory of the
    lock is there or can be made; whether another process has the lock at the
    [i]-th attempt; whether [link] fails for another reason. *)
Class DbEnv := {
  db_root : path;
  sys_ok : fsop -> path -> bool;
  lock_dir_ready : bool;
  other_holds : nat -> bool;
  link_error : nat -> bool
}.

(** [idbm_t.refs]; [owned]: the lock file is the one this process linked;
    [stolen]: how often this process removed the lock file of another one. *)
Record dbstate := mk_dbstate { fs : filesys; refs : Z; owned : bool; stolen : nat }.
#[export] Instance eta_dbstate : Eta dbstate := fun s => mk_dbstate (fs s) (refs s) (owned s) (stolen s).

Definition PATH_MAX : nat := 4096.

(** [snprintf(portal, PATH_MAX, ...)]. *)
Definition to_path (s : list Z) : path := take (PATH_MAX - 1) s.

Definition SLASH : Z := char "/".
Definition parent (p : path) : path := match strrchr p SLASH with Some i => take i p | None => [] end.

Definition is_dir (n : option fsnode) : bool := match n with Some Dir => true | _ => false end.

(** [stat] follows a link. *)
Definition resolve (f : filesys) (p : path) : path := match f !! p with Some (Link t) => t | _ => p end.
Definition stat (f : filesys) (p : path) : option fsnode := f !! resolve f p.

(** The names in a directory. *)
Definition children (f : filesys) (p : path) : list path :=
  filter (fun q => parent q = p /\ q <> p) (elements (dom f)).

Section Files.
Context `{LEnv : LoginEnv} `{DEnv : DbEnv}.
Local Open Scope iscsi_scope.

Definition mkdir (p : path) (f : filesys) : option filesys :=
  if sys_ok OpMkdir p && bool_decide (f !! p = None) && is_dir (f !! parent p) then Some (<[p := Dir]> f) else None.

Definition unlink (p : path) (f : filesys) : option filesys :=
  match f !! p with
  | Some Dir | None => None
  | Some _ => if sys_ok OpUnlink p then Some (delete p f) else None
  end.

Definition rmdir (p : path) (f : filesys) : option filesys :=
  if sys_ok OpRmdir p && is_dir (f !! p) && bool_decide (children f p = []) then Some (delete p f) else None.

Definition symlink (target p : path) (f : filesys) : option filesys :=
  if sys_ok OpSymlink p && bool_decide (f !! p = None) && is_dir (f !! parent p) then Some (<[p := Link target]> f)
  else None.

(** [fopen(p, "r")]; a directory can be opened and has nothing to read. *)
Definition fopen_r (p : path) (f : filesys) : option (list Z) :=
  if sys_ok OpRead p then match stat f p with Some (File c) => Some c | Some _ => Some [] | None => None end else None.

(** [fopen(p, "w")], what is written, and [fclose]. *)
Definition write_file (p : path) (content : list Z) (f : filesys) : option filesys :=
  let q := resolve f p in
  if sys_ok OpWrite p && negb (is_dir (f !! q)) && is_dir (f !! parent q) then Some (<[q := File content]> f) else None.

(** A system call: [true] when it succeeds. *)
Definition syscall (op : filesys -> option filesys) : M dbstate bool :=
  let! s := mget in
  match op (fs s) with
  | Some f => mmod (fun s => s <| fs := f |>) ;;; mret' true
  | None => mret' false
  end.

Definition mstat (p : path) : M dbstate (option fsnode) := let! s := mget in mret' (stat (fs s) p).

(** [if (access(p, F_OK) != 0) if (mkdir(p) != 0) ...] *)
Definition ensure_dir (p : path) : M dbstate Z :=
  let! st := mstat p in
  match st with
  | Some _ => mret' 0%Z
  | None => let! ok := syscall (mkdir p) in mret' (if ok then 0%Z else ISCSI_ERR_IDBM)
  end.

(** ** The lock *)
Fixpoint lock_loop (n i : nat) : M dbstate Z :=
  match n with
  | O => mmod (fun s => s <| refs := 1%Z |>) ;;; mret' 0%Z
  | S n =>
      let! s := mget in
      if link_error i then mret' ISCSI_ERR_IDBM
      else if other_holds i || owned s then lock_loop n (S i)
      else mmod (fun s => s <| owned := true |> <| refs := 1%Z |>) ;;; mret' 0%Z
  end.

Definition LOCK_ATTEMPTS : nat := 3000.

Definition idbm_lock : M dbstate Z :=
  let! s := mget in
  if decide (0 < refs s)%Z then mmod (fun s => s <| refs := (refs s + 1)%Z |>) ;;; mret' 0%Z
  else if lock_dir_ready then lock_loop LOCK_ATTEMPTS 0 else mret' ISCSI_ERR_IDBM.

Definition idbm_unlock : M dbstate unit :=
  let! s := mget in
  if decide (1 < refs s)%Z then mmod (fun s => s <| refs := (refs s - 1)%Z |>)
  else mmod (fun s => s <| refs := 0%Z |> <| owned := false |> <| stolen := if owned s then stolen s else S (stolen s) |>).

(** ** Paths *)
Definition NODE_CONFIG_DIR : path := db_root ++ str "/nodes".
Definition ISNS_CONFIG_DIR : path := db_root ++ str "/isns".
Definition STATIC_CONFIG_DIR : path := db_root ++ str "/static".
Definition FW_CONFIG_DIR : path := db_root ++ str "/fw".
Definition ST_CONFIG_DIR : path := db_root ++ str "/send_targets".
Definition IFACE_CONFIG_DIR : path := db_root ++ str "/ifaces".

(** "%s/%s/%s,%d" and "%s/%s/%s,%d,%d" and "%s/%s/%s,%d,%d/%s". *)
Definition target_path (name : list Z) : path := to_path (NODE_CONFIG_DIR ++ str "/" ++ name).

Definition old_portal (name ip : list Z) (port : Z) : list Z :=
  NODE_CONFIG_DIR ++ str "/" ++ name ++ str "/" ++ ip ++ str "," ++ fmt_d (i32 port).

Definition portal_dir (name ip : list Z) (port tpgt : Z) : list Z := old_portal name ip port ++ str "," ++ fmt_d (i32 tpgt).

Definition portal_conf (name ip : list Z) (port tpgt : Z) (iface : list Z) : list Z :=
  portal_dir name ip port tpgt ++ str "/" ++ iface.

(** ** Node records *)
Definition __idbm_rec_read (out_rec : memory) (conf : path) (disable_lock : bool) : M dbstate (Z * memory) :=
  match idbm_recinfo_alloc MAX_KEYS with
  | None => mret' (ISCSI_ERR_NOMEM, out_rec)
  | Some info =>
      let! rc := if disable_lock then mret' 0%Z else idbm_lock in
      if truth rc then mret' (rc, out_rec)
      else
        let! res :=
          let! s := mget in
          match fopen_r conf (fs s) with
          | None => mret' (ISCSI_ERR_IDBM, out_rec)
          | Some f =>
              let rec := idbm_node_setup_defaults in
              let! (_, rec) := mopt (idbm_recinfo_config (fill (idbm_recinfo_node rec) info) rec f) in
              mret' (0%Z, rec)
          end in
        mwhen (negb disable_lock) idbm_unlock ;;; mret' res
  end.

Definition idbm_rec_read (out_rec : memory) (targetname : list Z) (tpgt : Z) (ip : list Z) (port : Z) (iface : list Z)
    (disable_lock : bool) : M dbstate (Z * memory) :=
  if negb (malloc PATH_MAX) then mret' (ISCSI_ERR_IDBM, out_rec)
  else
    let portal := to_path (old_portal targetname ip port) in
    let! st := mstat portal in
    match st with
    | Some _ => __idbm_rec_read out_rec portal disable_lock
    | None =>
        let portal := to_path (portal_conf targetname ip port tpgt iface) in
        if decide (iface = []) then mret' (ISCSI_ERR_INVAL, out_rec)
        else
          let! st := mstat portal in
          match st with
          | Some _ => __idbm_rec_read out_rec portal disable_lock
          | None => mret' (ISCSI_ERR_IDBM, out_rec)
          end
    end.

(** [open_conf:] *)
Definition open_conf (p : path) (rec : memory) : M dbstate Z :=
  let! ok := syscall (write_file p (idbm_print IDBM_PRINT_TYPE_NODE rec true false)) in
  mret' (if ok then 0%Z else ISCSI_ERR_IDBM).

(** [mkdir_portal:] *)
Definition mkdir_portal (rec : memory) : M dbstate Z :=
  let name := get_str rec "name" in
  let ip := get_str rec "conn[0].address" in
  let port := get_int rec "conn[0].port" in
  let tpgt := get_int rec "tpgt" in
  let! rc := ensure_dir (to_path (portal_dir name ip port tpgt)) in
  if truth rc then mret' rc else open_conf (to_path (portal_conf name ip port tpgt (get_str rec "iface.name"))) rec.

(** What is done with the lock held. *)
Definition rec_write_locked (rec : memory) : M dbstate Z :=
  let portal := to_path (old_portal (get_str rec "name") (get_str rec "conn[0].address") (get_int rec "conn[0].port")) in
  let unknown := bool_decide (get_int rec "tpgt" = PORTAL_GROUP_TAG_UNKNOWN) in
  let! st := mstat portal in
  match st with
  | None => if unknown then open_conf portal rec else mkdir_portal rec
  | Some Dir => mret' ISCSI_ERR_INVAL
  | Some _ =>
      if unknown then open_conf portal rec
      else
        let! ok := syscall (unlink portal) in
        if ok then mkdir_portal rec else mret' ISCSI_ERR_IDBM
  end.

Definition idbm_rec_write (rec : memory) (disable_lock : bool) : M dbstate Z :=
  if negb (malloc PATH_MAX) then mret' ISCSI_ERR_NOMEM
  else
    let! rc := ensure_dir (to_path NODE_CONFIG_DIR) in
    if truth rc then mret' rc
    else
      let! rc := ensure_dir (target_path (get_str rec "name")) in
      if truth rc then mret' rc
      else
        let! rc := if disable_lock then mret' 0%Z else idbm_lock in
        if truth rc then mret' rc
        else
          let! rc := rec_write_locked rec in
          mwhen (negb disable_lock) idbm_unlock ;;; mret' rc.

(** ** Discovery records *)

(** [disc_type_to_config_vals]. *)
Definition config_root (type : Z) : path := if decide (type = DISCOVERY_TYPE_ISNS) then ISNS_CONFIG_DIR else ST_CONFIG_DIR.
Definition config_name (type : Z) : list Z :=
  if decide (type = DISCOVERY_TYPE_ISNS) then str "isns_config" else str "st_config".

Definition disc_portal (type : Z) (addr : list Z) (port : Z) : path :=
  to_path (config_root type ++ str "/" ++ addr ++ str "," ++ fmt_d (i32 port)).

(** [strlcat(portal, "/", PATH_MAX); strlcat(portal, config, PATH_MAX)]. *)
Definition append_path (p : path) (name : list Z) : path := to_path (p ++ str "/" ++ name).

Definition idbm_open_rec_r (portal : path) (config : list Z) (f : filesys) : option (list Z) :=
  match stat f portal with
  | None => None
  | Some n => fopen_r (if is_dir (Some n) then append_path portal config else portal) f
  end.

Definition idbm_discovery_read (out_rec : memory) (drec_type : Z) (addr : list Z) (port : Z) : M dbstate (Z * memory) :=
  if decide (1 < drec_type)%Z then mret' (ISCSI_ERR_INVAL, out_rec)
  else
    let out_rec := <["iscsid_req_tmo" := FInt (-1)]> ∅ in
    match idbm_recinfo_alloc MAX_KEYS with
    | None => mret' (ISCSI_ERR_NOMEM, out_rec)
    | Some info =>
        if negb (malloc PATH_MAX) then mret' (ISCSI_ERR_NOMEM, out_rec)
        else
          let! rc := idbm_lock in
          if truth rc then mret' (rc, out_rec)
          else
            let! res :=
              let! s := mget in
              match idbm_open_rec_r (disc_portal drec_type addr port) (config_name drec_type) (fs s) with
              | None => mret' (ISCSI_ERR_IDBM, out_rec)
              | Some f =>
                  let rec := idbm_discovery_setup_defaults drec_type in
                  let! (_, rec) := mopt (idbm_recinfo_config (fill (idbm_recinfo_discovery rec) info) rec f) in
                  mret' (0%Z, rec)
              end in
            idbm_unlock ;;; mret' res
    end.

Definition idbm_open_rec_w (portal : path) (config content : list Z) : M dbstate bool :=
  let! st := mstat portal in
  let! ready := match st with
                | None => syscall (mkdir portal)
                | Some Dir => mret' true
                | Some _ => let! ok := syscall (unlink portal) in
                            if ok then syscall (mkdir portal) else mret' false
                end in
  if ready then syscall (write_file (append_path portal config) content) else mret' false.

Definition idbm_discovery_write (rec : memory) : M dbstate Z :=
  let type := get_int rec "type" in
  if decide (1 < type)%Z then mret' ISCSI_ERR_INVAL
  else if negb (malloc PATH_MAX) then mret' ISCSI_ERR_NOMEM
  else
    let! rc := idbm_lock in
    if truth rc then mret' rc
    else
      let! rc :=
        let! rc := ensure_dir (to_path (config_root type)) in
        if truth rc then mret' rc
        else
          let! ok := idbm_open_rec_w (disc_portal type (get_str rec "address") (get_int rec "port")) (config_name type)
                       (idbm_print IDBM_PRINT_TYPE_DISCOVERY rec true false) in
          mret' (if ok then 0%Z else ISCSI_ERR_IDBM) in
      idbm_unlock ;;; mret' rc.

Definition idbm_add_discovery (newrec : memory) : M dbstate Z :=
  idbm_discovery_read ∅ (get_int newrec "type") (get_str newrec "address") (get_int newrec "port") ;;;
  idbm_discovery_write newrec.

(** ** Links from discovery sources to nodes *)
Definition DISCOVERY_TYPE_FW : Z := 5.

(** "%s,%s,%d,%d,%s" of a node record. *)
Definition link_name (rec : memory) : list Z :=
  get_str rec "name" ++ str "," ++ get_str rec "conn[0].address" ++ str "," ++ fmt_d (i32 (get_int rec "conn[0].port"))
  ++ str "," ++ fmt_d (i32 (get_int rec "tpgt")) ++ str "," ++ get_str rec "iface.name".

(** The path of the discovery source of a record. *)
Definition source_dir (root : path) (rec : memory) : list Z :=
  root ++ str "/" ++ get_str rec "disc_address" ++ str "," ++ fmt_d (i32 (get_int rec "disc_port")).

Definition setup_disc_to_node_link (rec : memory) : M dbstate (Z * path) :=
  let type := get_int rec "disc_type" in
  if decide (type = DISCOVERY_TYPE_SENDTARGETS) then
    mret' (0%Z, to_path (source_dir ST_CONFIG_DIR rec ++ str "/" ++ link_name rec))
  else if decide (type = DISCOVERY_TYPE_FW) then
    let! rc := ensure_dir FW_CONFIG_DIR in mret' (rc, to_path (FW_CONFIG_DIR ++ str "/" ++ link_name rec))
  else if decide (type = DISCOVERY_TYPE_STATIC) then
    let! rc := ensure_dir STATIC_CONFIG_DIR in mret' (rc, to_path (STATIC_CONFIG_DIR ++ str "/" ++ link_name rec))
  else if decide (type = DISCOVERY_TYPE_ISNS) then
    let! rc := ensure_dir ISNS_CONFIG_DIR in
    let old := to_path (ISNS_CONFIG_DIR ++ str "/" ++ link_name rec) in
    let! st := mstat old in
    match st with
    | Some _ => mret' (rc, old)
    | None =>
        let! st := mstat (to_path (source_dir ISNS_CONFIG_DIR rec)) in
        mret' (rc, if is_dir st then to_path (source_dir ISNS_CONFIG_DIR rec ++ str "/" ++ link_name rec) else old)
    end
  else mret' (ISCSI_ERR_INVAL, []).

Definition conf_of (rec : memory) : path :=
  to_path (portal_conf (get_str rec "name") (get_str rec "conn[0].address") (get_int rec "conn[0].port")
             (get_int rec "tpgt") (get_str rec "iface.name")).

Definition portal_of (rec : memory) : path :=
  to_path (portal_dir (get_str rec "name") (get_str rec "conn[0].address") (get_int rec "conn[0].port")
             (get_int rec "tpgt")).

(** The size of a [node_rec_t] is not modelled: one is allocated or not. *)
Definition NODE_REC_SIZE : nat := 24000.

Definition idbm_remove_disc_to_node_link (rec : memory) : M dbstate Z :=
  if negb (malloc NODE_REC_SIZE) then mret' ISCSI_ERR_NOMEM
  else
    let! (rc, tmprec) := __idbm_rec_read ∅ (conf_of rec) false in
    if truth rc then mret' 0%Z
    else
      let! (rc, portal) := setup_disc_to_node_link tmprec in
      if truth rc then mret' rc
      else
        let! rc := idbm_lock in
        if truth rc then mret' rc
        else
          let! rc :=
            let! st := mstat portal in
            match st with
            | Some _ => let! ok := syscall (unlink portal) in mret' (if ok then 0%Z else ISCSI_ERR_IDBM)
            | None => mret' 0%Z
            end in
          idbm_unlock ;;; mret' rc.

(** [scandir(portal, &namelist, st_disc_filter, alphasort)]: the number of
    names, [None] when the directory cannot be read. *)
Definition st_disc_filter (p q : path) : bool := bool_decide (q <> p ++ str "/" ++ str "st_config").

Definition scandir (p : path) (f : filesys) : option nat :=
  if sys_ok OpScandir p && is_dir (f !! p) then Some (length (filter (fun q => st_disc_filter p q) (children f p)))
  else None.

(** After the file is removed: the directory of the portal when it is empty,
    then that of the target.  The result says whether the lock was released. *)
Definition remove_dirs (rec : memory) : M dbstate bool :=
  let portal := portal_of rec in
  let! st := mstat portal in
  let! s := mget in
  let! cont := match st with
               | None => mret' (Some true)
               | Some _ =>
                   match scandir portal (fs s) with
                   | None => mret' None
                   | Some O => let! ok := syscall (rmdir portal) in mret' (Some ok)
                   | Some _ => mret' (Some true)
                   end
               end in
  match cont with
  | None => mret' false
  | Some true => syscall (rmdir (target_path (get_str rec "name"))) ;;; mret' true
  | Some false => mret' true
  end.

(** The file of a record that is to be removed. *)
Definition find_conf (rec : memory) : M dbstate (option path) :=
  let portal := to_path (old_portal (get_str rec "name") (get_str rec "conn[0].address") (get_int rec "conn[0].port")) in
  let! st := mstat portal in
  match st with
  | Some _ => mret' (Some portal)
  | None => let! st := mstat (conf_of rec) in mret' (match st with Some _ => Some (conf_of rec) | None => None end)
  end.

Definition idbm_delete_node (rec : memory) : M dbstate Z :=
  if negb (malloc PATH_MAX) then mret' ISCSI_ERR_NOMEM
  else
    let! rc := idbm_remove_disc_to_node_link rec in
    if truth rc then mret' rc
    else
      let! rc := idbm_lock in
      if truth rc then mret' rc
      else
        let! conf := find_conf rec in
        match conf with
        | None => idbm_unlock ;;; mret' ISCSI_ERR_IDBM
        | Some conf =>
            let! ok := syscall (unlink conf) in
            if negb ok then idbm_unlock ;;; mret' ISCSI_ERR_IDBM
            else
              let! unlock := remove_dirs rec in
              mwhen unlock idbm_unlock ;;; mret' 0%Z
        end.

(** ** Adding a node *)

(** [newrec->disc_type = drec->type] and the other two. *)
Definition set_source (newrec drec : memory) : memory :=
  <["disc_address" := FStr (get_str drec "address")]>
    (<["disc_port" := FInt (get_int drec "port")]> (<["disc_type" := FInt (get_int drec "type")]> newrec)).

(** An existing record: [None] for the null pointer [drec->type]. *)
Definition replace_existing (rec newrec : memory) (drec : option memory) : M dbstate (Z * memory) :=
  let! rc := idbm_delete_node rec in
  if truth rc then mret' (rc, newrec)
  else
    let! drec := mopt drec in
    mret' (0%Z,
           if decide (get_int drec "type" = DISCOVERY_TYPE_FW)
           then <["conn[0].startup" := FInt ISCSI_STARTUP_ONBOOT]> (<["startup" := FInt ISCSI_STARTUP_ONBOOT]> newrec)
           else newrec).

(** Writing the record and linking it to its source. *)
Definition write_and_link (newrec : memory) (drec : option memory) : M dbstate Z :=
  let newrec := match drec with Some d => set_source newrec d | None => newrec end in
  let! rc := idbm_rec_write newrec true in
  if truth rc || bool_decide (drec = None) || bool_decide (get_int newrec "tpgt" = PORTAL_GROUP_TAG_UNKNOWN)
  then mret' rc
  else if negb (malloc (2 * PATH_MAX)) then mret' ISCSI_ERR_NOMEM
  else
    let! (rc, link) := setup_disc_to_node_link newrec in
    if truth rc then mret' rc
    else
      let! s := mget in
      let! ok := syscall (symlink (portal_of newrec) link) in
      mret' (if ok || bool_decide (is_Some (fs s !! link)) then 0%Z else ISCSI_ERR_IDBM).

Definition idbm_add_node (newrec : memory) (drec : option memory) (overwrite : bool) : M dbstate Z :=
  let! rc := idbm_lock in
  if truth rc then mret' rc
  else
    let! (found, rec) := idbm_rec_read ∅ (get_str newrec "name") (get_int newrec "tpgt")
                           (get_str newrec "conn[0].address") (get_int newrec "conn[0].port")
                           (get_str newrec "iface.name") true in
    let! rc :=
      if negb (truth found) && negb overwrite then mret' 0%Z
      else
        let! (rc, newrec) := if negb (truth found) then replace_existing rec newrec drec else mret' (0%Z, newrec) in
        if truth rc then mret' rc else write_and_link newrec drec in
    idbm_unlock ;;; mret' rc.

(** ** Setting parameters *)

(** A [struct user_param]. *)
Definition user_param : Type := list Z * list Z.

Fixpoint verify_all (info : list recinfo) (params : list user_param) : Z :=
  match params with
  | [] => 0%Z
  | (name, _) :: params => let rc := idbm_verify_param info name in if truth rc then rc else verify_all info params
  end.

Fixpoint update_all (info : list recinfo) (params : list user_param) (rec : memory) : Z * memory :=
  match params with
  | [] => (0%Z, rec)
  | (name, value) :: params =>
      let '(rc, info, rec) := idbm_rec_update_param info name value rec in
      if truth rc then (rc, rec) else update_all info params rec
  end.

Definition idbm_node_set_rec_from_param (params : list user_param) (rec : memory) (verify : bool) : Z * memory :=
  if decide (params = []) then (0%Z, rec)
  else match idbm_recinfo_alloc MAX_KEYS with
       | None => (ISCSI_ERR_NOMEM, rec)
       | Some info =>
           let info := fill (idbm_recinfo_node rec) info in
           let rc := if verify then verify_all info params else 0%Z in
           if truth rc then (rc, rec) else update_all info params rec
       end.

Definition idbm_node_set_param (params : list user_param) (rec : memory) : M dbstate (Z * memory) :=
  let '(rc, rec) := idbm_node_set_rec_from_param params rec true in
  if truth rc then mret' (rc, rec) else let! rc := idbm_rec_write rec true in mret' (rc, rec).

Definition idbm_discovery_set_param (params : list user_param) (rec : memory) : M dbstate (Z * memory) :=
  match idbm_recinfo_alloc MAX_KEYS with
  | None => mret' (ISCSI_ERR_NOMEM, rec)
  | Some info =>
      let info := fill (idbm_recinfo_discovery rec) info in
      let rc := verify_all info params in
      if truth rc then mret' (rc, rec)
      else
        let '(rc, rec) := update_all info params rec in
        if truth rc then mret' (rc, rec) else let! rc := idbm_discovery_write rec in mret' (rc, rec)
  end.

(** ** The configuration file *)

(** The default records of the database. *)
Record defaults := mk_defaults { nrec : memory; drec_st : memory; drec_slp : memory; drec_isns : memory }.

(** The length of a password that is not empty. *)
Definition password_length_of (p : string) (m : memory) : memory :=
  let password := get_str m (p +:+ "password") in
  let m := if decide (password = []) then m else <[p +:+ "password_length" := FInt (Z.of_nat (length password))]> m in
  let password_in := get_str m (p +:+ "password_in") in
  if decide (password_in = []) then m else <[p +:+ "password_in_length" := FInt (Z.of_nat (length password_in))]> m.

(** The tables of the database are part of [idbm_t] and hold [MAX_KEYS]
    entries. *)
Definition read_config (rows : memory -> list recinfo) (rec : memory) (f : list Z) : option memory :=
  '(_, rec) ← idbm_recinfo_config (fill (rows rec) (replicate MAX_KEYS zero_recinfo)) rec f;
  Some rec.

Definition idbm_sync_config (config_file : option path) : M dbstate defaults :=
  let d := mk_defaults idbm_node_setup_defaults (idbm_discovery_setup_defaults DISCOVERY_TYPE_SENDTARGETS)
             (idbm_discovery_setup_defaults DISCOVERY_TYPE_SLP) (idbm_discovery_setup_defaults DISCOVERY_TYPE_ISNS) in
  let! s := mget in
  match (p ← config_file; fopen_r p (fs s)) with
  | None => mret' d
  | Some f =>
      let! st := mopt (read_config idbm_recinfo_discovery (drec_st d) f) in
      let! slp := mopt (read_config idbm_recinfo_discovery (drec_slp d) f) in
      let! isns := mopt (read_config idbm_recinfo_discovery (drec_isns d) f) in
      let! node := mopt (read_config idbm_recinfo_node (nrec d) f) in
      mret' (mk_defaults (password_length_of "session.auth." node) (password_length_of "u.sendtargets.auth." st)
               (password_length_of "u.slp.auth." slp) isns)
  end.

Definition idbm_node_setup_from_conf (config_file : option path) : M dbstate memory :=
  let! d := idbm_sync_config config_file in mret' (nrec d).

(** ** Interfaces (usr/iface.c) *)
Definition default_ifaces : list (list Z * list Z) := [(DEFAULT_IFACENAME, str "tcp"); (str "iser", str "iser")].

Definition iface_match_default (iface : memory) : bool :=
  bool_decide (get_str iface "name" ∈ default_ifaces.*1).

(** The path of an interface, cut off ([snprintf]) or not ([sprintf] into
    [PATH_MAX] bytes: [None] when it does not fit). *)
Definition iface_conf_text (iface : memory) : list Z := IFACE_CONFIG_DIR ++ str "/" ++ get_str iface "name".

Definition sprintf_path (s : list Z) : option path := if decide (length s < PATH_MAX) then Some s else None.

Definition __iface_conf_read (iface : memory) : M dbstate (Z * memory) :=
  if negb (malloc PATH_MAX) then mret' (ISCSI_ERR_NOMEM, iface)
  else match idbm_recinfo_alloc MAX_KEYS with
       | None => mret' (ISCSI_ERR_NOMEM, iface)
       | Some info =>
           let! s := mget in
           match fopen_r (to_path (iface_conf_text iface)) (fs s) with
           | None =>
               if decide (get_str iface "name" = DEFAULT_IFACENAME) then mret' (0%Z, iface_setup_defaults "" iface)
               else mret' (ISCSI_ERR_IDBM, iface)
           | Some f =>
               let iface := iface_init "" iface in
               let! (_, iface) := mopt (idbm_recinfo_config (fill (idbm_recinfo_iface iface) info) iface f) in
               mret' (0%Z, iface)
           end
       end.

Definition iface_conf_delete (iface : memory) : M dbstate Z :=
  if iface_match_default iface then mret' ISCSI_ERR_INVAL
  else if negb (malloc PATH_MAX) then mret' ISCSI_ERR_NOMEM
  else
    let! p := mopt (sprintf_path (iface_conf_text iface)) in
    let! rc := idbm_lock in
    if truth rc then mret' rc
    else
      let! ok := syscall (unlink p) in
      idbm_unlock ;;; mret' (if ok then 0%Z else ISCSI_ERR_IDBM).

(** The file is truncated before the lock is taken. *)
Definition iface_conf_write (iface : memory) : M dbstate Z :=
  if iface_match_default iface then mret' ISCSI_ERR_INVAL
  else if negb (malloc PATH_MAX) then mret' ISCSI_ERR_NOMEM
  else
    let! p := mopt (sprintf_path (iface_conf_text iface)) in
    let! ok := syscall (write_file p []) in
    if negb ok then mret' ISCSI_ERR_IDBM
    else
      let! rc := idbm_lock in
      if truth rc then mret' rc
      else
        mmod (fun s => s <| fs := <[resolve (fs s) p := File (idbm_print IDBM_PRINT_TYPE_IFACE iface true false)]> (fs s) |>) ;;;
        idbm_unlock ;;; mret' 0%Z.

Definition iface_conf_update (params : list user_param) (iface : memory) : M dbstate (Z * memory) :=
  if iface_match_default iface then mret' (ISCSI_ERR_INVAL, iface)
  else match idbm_recinfo_alloc MAX_KEYS with
       | None => mret' (ISCSI_ERR_NOMEM, iface)
       | Some info =>
           let info := fill (idbm_recinfo_iface iface) info in
           let rc := verify_all info params in
           if truth rc then mret' (rc, iface)
           else
             let '(rc, iface) := update_all info params iface in
             if truth rc then mret' (rc, iface) else let! rc := iface_conf_write iface in mret' (rc, iface)
       end.
End Files.
