(* ===== verification/IdbmParse.v ===== *)
(** * The record database: what is printed is read back

    Lines that [idbm_print] writes and [idbm_recinfo_config] takes apart; how an
    update acts on the fields of a record; tables in which the keys and the
    fields are distinct. *)
From Stdlib Require Import ZArith Lia Ascii.
From stdpp Require Import base tactics numbers list strings option gmap.
From S2P Require Import Prelude CString Login Idbm.

Lemma truth_false z : truth z = false -> z = 0%Z.
Proof. unfold truth. by destruct (Z.eqb_spec z 0). Qed.

(** ** Keys and values that a line can carry *)
Definition key_char (c : Z) : bool := bool_decide (c <> NUL) && negb (isspace c) && bool_decide (c <> char "=").

Definition good_key (k : list Z) : bool :=
  match k with
  | [] => false
  | c :: _ => bool_decide (c <> char "#") && bool_decide (length k < NAME_MAXVAL) && forallb key_char k
  end.

Definition value_char (c : Z) : bool := bool_decide (c <> NUL /\ c <> 10%Z).
Definition not_space (c : option Z) : bool := match c with Some c => negb (isspace c) | None => false end.

Definition text_value (v : list Z) : bool := not_space (head v) && not_space (last v) && forallb value_char v.

Definition good_value (v : list Z) : bool :=
  not_space (head v) && not_space (last v) && bool_decide (length v < VALUE_MAXVAL) && forallb value_char v.

Lemma good_text_value v : good_value v = true -> text_value v = true.
Proof. unfold good_value, text_value. rewrite !andb_true_iff. tauto. Qed.

Lemma forallb_Forall {A} (p : A -> bool) l : forallb p l = true <-> Forall (fun x => p x = true) l.
Proof.
  induction l as [|x l IH]; cbn; [by split|].
  rewrite andb_true_iff, IH, Forall_cons. done.
Qed.

(** ** One line *)
Lemma scan_name_spec k : forall acc c rest,
  forallb key_char k = true -> length acc + length k < NAME_MAXVAL ->
  (c = NUL \/ isspace c = true \/ c = char "=") ->
  scan_name (k ++ c :: rest) acc = Some (acc ++ k, c :: rest).
Proof.
  induction k as [|x k IH]; intros acc c rest Hk Hl Hc; cbn [app scan_name].
  - rewrite app_nil_r. case_decide; [done|].
    destruct Hc as [?|[->| ->]]; [done| |]; [done|]. by rewrite bool_decide_true, orb_true_r by done.
  - cbn in Hk. apply andb_true_iff in Hk as [Hx Hk]. unfold key_char in Hx.
    apply andb_true_iff in Hx as [Hx He]. apply andb_true_iff in Hx as [Hn Hs].
    rewrite bool_decide_eq_true in Hn, He. apply negb_true_iff in Hs.
    rewrite decide_False by done. rewrite Hs, bool_decide_false by done. cbn [orb].
    cbn [length] in Hl. rewrite decide_True by lia.
    rewrite IH by (rewrite ?length_app; cbn; done || lia). by rewrite <- app_assoc.
Qed.

Lemma scan_value_spec v : forall acc rest,
  forallb value_char v = true -> length acc + length v < VALUE_MAXVAL ->
  scan_text_value (v ++ NUL :: rest) acc = Some (acc ++ v).
Proof.
  induction v as [|x v IH]; intros acc rest Hv Hl; cbn [app scan_text_value].
  - rewrite app_nil_r. cbn in Hl. by rewrite !decide_True by (done || lia).
  - cbn in Hv, Hl. apply andb_true_iff in Hv as [Hx Hv]. unfold value_char in Hx. rewrite bool_decide_eq_true in Hx.
    rewrite decide_False by tauto. rewrite decide_True by lia.
    rewrite IH by (rewrite ?length_app; cbn; done || lia). by rewrite <- app_assoc.
Qed.

Lemma rstrip_keep s c : last s = Some c -> isspace c = false -> rstrip s = s.
Proof.
  intros Hl Hs. unfold rstrip. destruct s as [|x s _] using rev_ind; [done|].
  rewrite last_snoc in Hl. injection Hl as ->. rewrite reverse_snoc. cbn [skip_space]. rewrite Hs.
  by rewrite reverse_cons, reverse_involutive.
Qed.

Lemma rstrip_space s c : isspace c = true -> rstrip (s ++ [c]) = rstrip s.
Proof. intros H. unfold rstrip. rewrite reverse_snoc. cbn [skip_space]. by rewrite H. Qed.

Lemma head_app_l {A} (k l : list A) : k <> [] -> head (k ++ l) = head k.
Proof. by destruct k. Qed.

Lemma key_no_nul k : forallb key_char k = true -> no_nul k.
Proof.
  rewrite forallb_Forall. intros H. eapply Forall_impl; [exact H|]. intros c. unfold key_char.
  rewrite !andb_true_iff, bool_decide_eq_true. intros [[? _] _]. done.
Qed.

Lemma value_no_nul v : forallb value_char v = true -> no_nul v.
Proof.
  rewrite forallb_Forall. intros H. eapply Forall_impl; [exact H|]. intros c. unfold value_char. rewrite bool_decide_eq_true. tauto.
Qed.

(** The parser on a line after [strstrip]. *)
Lemma parse_text_line k v rest :
  forallb key_char k = true -> length k < NAME_MAXVAL -> text_value v = true ->
  parse_text (k ++ str " = " ++ v ++ NUL :: rest) =
  (value ← scan_text_value (v ++ NUL :: rest) []; Some (Some (k, value))).
Proof.
  intros Hk Hl Hv. unfold text_value in Hv. rewrite !andb_true_iff in Hv. destruct Hv as [[Hh _] Hvc].
  unfold parse_text. change (str " = ") with [32; 61; 32]%Z. cbn [app].
  rewrite scan_name_spec by (cbn; auto || lia). cbn [mbind option_bind app head tail].
  rewrite decide_False by done. rewrite decide_True by done.
  cbn [skip_blank]. change (isspace 61) with false. change (isspace 32) with true. cbn [mbind option_bind head tail].
  rewrite decide_False by (intros [_ []]; done).
  cbn [skip_blank]. change (isspace 32) with true. cbv iota.
  destruct v as [|c v]; [done|]. cbn in Hh. apply negb_true_iff in Hh.
  cbn [app skip_blank]. rewrite Hh. cbn [mbind option_bind head].
  rewrite decide_False.
  2:{ cbn in Hvc. apply andb_true_iff in Hvc as [Hc _]. unfold value_char in Hc. rewrite bool_decide_eq_true in Hc. tauto. }
  done.
Qed.

Lemma parse_line_scan k v :
  good_key k = true -> text_value v = true ->
  parse_line (line_of k v) = (value ← scan_text_value (v ++ [NUL; NUL]) []; Some (Some (k, value))).
Proof.
  intros Hk Hv. pose proof Hv as Hv'. unfold text_value in Hv. rewrite !andb_true_iff in Hv.
  destruct Hv as [[Hh Hla] Hvc].
  destruct k as [|x k]; [done|]. unfold good_key in Hk. rewrite !andb_true_iff, !bool_decide_eq_true in Hk.
  destruct Hk as [[Hx Hkl] Hkc]. pose proof (key_no_nul _ Hkc) as Hkn. pose proof (value_no_nul _ Hvc) as Hvn.
  set (kept := (x :: k) ++ str " = " ++ v).
  assert (line_of (x :: k) v = kept ++ [10%Z]) as Hline by (unfold line_of, kept; by rewrite <- !app_assoc).
  assert (no_nul (kept ++ [10%Z])) as Hnn.
  { unfold kept. rewrite !no_nul_app. repeat split; try done; by repeat constructor. }
  unfold parse_line. rewrite Hline, <- app_assoc. cbn [app].
  replace (kept ++ [10; NUL]%Z) with ((kept ++ [10%Z]) ++ [NUL]) by by rewrite <- app_assoc.
  rewrite (cstr_of_app _ [] Hnn). cbn [mbind option_bind]. rewrite last_snoc. cbn [mbind option_bind].
  rewrite decide_False by (intros H; by apply H).
  unfold strstrip. rewrite (cstr_of_app _ [] Hnn). cbn [mbind option_bind]. rewrite decide_False by (by destruct kept).
  rewrite rstrip_space by done.
  destruct (last v) as [c|] eqn:Hc; [|done]. cbn in Hla. apply negb_true_iff in Hla.
  rewrite (rstrip_keep kept c); [|unfold kept; by rewrite !last_app, Hc|done].
  rewrite buf_set_Some by (rewrite !length_app; cbn; lia). cbn [mbind option_bind].
  assert (skip_space kept = kept) as ->.
  { unfold kept. cbn. cbn in Hkc. apply andb_true_iff in Hkc as [Hxk _]. unfold key_char in Hxk.
    rewrite !andb_true_iff, negb_true_iff in Hxk. destruct Hxk as [[_ ->] _]. done. }
  rewrite Nat.sub_diag. rewrite <- app_assoc. cbn [app].
  rewrite insert_app_r_alt, Nat.sub_diag by lia. cbn [insert list_insert].
  assert ((kept ++ [NUL; NUL]) !! 0 = Some x) as -> by done. cbn [mbind option_bind].
  rewrite decide_False.
  2:{ cbn in Hkc. apply andb_true_iff in Hkc as [Hxk _]. unfold key_char in Hxk.
      rewrite !andb_true_iff, !bool_decide_eq_true, negb_true_iff in Hxk. destruct Hxk as [[? Hs] _].
      intros [?|[->|?]]; done. }
  rewrite drop_0. unfold kept. rewrite <- !app_assoc. by apply parse_text_line.
Qed.

Lemma parse_line_of k v : good_key k = true -> good_value v = true -> parse_line (line_of k v) = Some (Some (k, v)).
Proof.
  intros Hk Hv. rewrite parse_line_scan by (done || by apply good_text_value).
  unfold good_value in Hv. rewrite !andb_true_iff, bool_decide_eq_true in Hv. destruct Hv as [[_ Hl] Hc].
  by rewrite (scan_value_spec v [] [NUL]).
Qed.

(** A value that is too long leaves the array. *)
Lemma scan_value_long v : forall acc rest,
  forallb value_char v = true -> length acc <= VALUE_MAXVAL -> VALUE_MAXVAL <= length acc + length v ->
  scan_text_value (v ++ NUL :: rest) acc = None.
Proof.
  induction v as [|x v IH]; intros acc rest Hv Ha Hl; cbn [app scan_text_value].
  - rewrite decide_True by done. cbn in Hl. by rewrite decide_False by lia.
  - cbn in Hv, Hl. apply andb_true_iff in Hv as [Hx Hv]. unfold value_char in Hx. rewrite bool_decide_eq_true in Hx.
    rewrite decide_False by tauto. destruct (decide (length acc < VALUE_MAXVAL)); [|done].
    apply IH; [done| |]; rewrite length_app; cbn; lia.
Qed.

Lemma parse_line_long k v :
  good_key k = true -> text_value v = true -> VALUE_MAXVAL <= length v -> parse_line (line_of k v) = None.
Proof.
  intros Hk Hv Hl. rewrite parse_line_scan by done. unfold text_value in Hv. rewrite !andb_true_iff in Hv.
  by rewrite (scan_value_long v [] [NUL]) by (tauto || cbn; lia).
Qed.

(** ** Files of lines *)
Lemma read_line_spec l : forall n rest,
  10%Z ∉ l -> length l < n -> read_line n (l ++ 10%Z :: rest) = (l ++ [10%Z], rest).
Proof.
  induction l as [|c l IH]; intros n rest Hl Hn; (destruct n as [|n]; [cbn in Hn; lia|]); cbn [app read_line].
  - by rewrite decide_True.
  - apply not_elem_of_cons in Hl as [Hc Hl]. rewrite decide_False by done.
    rewrite IH by (done || cbn in Hn; lia). done.
Qed.

Lemma read_line_progress n f : f <> [] -> 0 < n -> length (read_line n f).2 < length f.
Proof.
  destruct f as [|c f]; [done|]. destruct n as [|n]; [lia|]. intros _ _.
  revert c f. induction n as [|n IH]; intros c f; cbn [read_line].
  - case_decide; cbn; lia.
  - case_decide; [cbn; lia|]. destruct f as [|d f]; [cbn; lia|]. specialize (IH d f).
    change (let '(l, f') := read_line (S n) (d :: f) in (c :: l, f')) with
      (let '(l, f') := read_line (S n) (d :: f) in (c :: l, f')).
    cbn [read_line] in IH |- *. destruct (decide (d = 10%Z)); [cbn; lia|].
    destruct (read_line n f) as [l f'] eqn:E. cbn in IH |- *. lia.
Qed.

Lemma key_no_newline k : forallb key_char k = true -> 10%Z ∉ k.
Proof.
  rewrite forallb_Forall, Forall_forall. intros H Hi. by specialize (H _ Hi).
Qed.

Lemma value_no_newline v : forallb value_char v = true -> 10%Z ∉ v.
Proof.
  rewrite forallb_Forall, Forall_forall. intros H Hi. by specialize (H _ Hi).
Qed.

(** A line is read by one [fgets]. *)
Lemma fgets_text k v rest :
  good_key k = true -> forallb value_char v = true -> length (line_of k v) < BUFFER_SIZE ->
  fgets BUFFER_SIZE (line_of k v ++ rest) = Some (line_of k v, rest).
Proof.
  intros Hk Hvc Hlen. destruct k as [|x k]; [done|].
  unfold good_key in Hk. rewrite !andb_true_iff, !bool_decide_eq_true in Hk. destruct Hk as [[_ Hkl] Hkc].
  apply key_no_newline in Hkc. apply value_no_newline in Hvc.
  assert (line_of (x :: k) v = ((x :: k) ++ str " = " ++ v) ++ [10%Z]) as -> by (unfold line_of; by rewrite <- !app_assoc).
  rewrite <- app_assoc. cbn [app fgets]. f_equal.
  change (x :: (k ++ str " = " ++ v) ++ 10%Z :: rest) with (((x :: k) ++ str " = " ++ v) ++ 10%Z :: rest).
  rewrite read_line_spec; [done| |].
  - rewrite !elem_of_app. intros [?|[H|?]]; [done| |done]. apply list_elem_of_In in H. by repeat (destruct H as [H|H]; [done|]).
  - unfold line_of in Hlen. rewrite !length_app in *. cbn [length] in Hlen |- *. lia.
Qed.

Lemma fgets_line k v rest :
  good_key k = true -> good_value v = true ->
  fgets BUFFER_SIZE (line_of k v ++ rest) = Some (line_of k v, rest).
Proof.
  intros Hk Hv. unfold good_value in Hv. rewrite !andb_true_iff, bool_decide_eq_true in Hv.
  apply fgets_text; [done|tauto|]. destruct k as [|x k]; [done|]. unfold good_key in Hk.
  rewrite !andb_true_iff, !bool_decide_eq_true in Hk. unfold line_of. rewrite !length_app.
  change (length (str " = ")) with 3. unfold BUFFER_SIZE, NAME_MAXVAL, VALUE_MAXVAL in *. cbn [length] in *. lia.
Qed.

Section Lines.
Context `{LEnv : LoginEnv}.

(** What the lines of a file do to a record. *)
Fixpoint apply_lines (info : list recinfo) (m : memory) (ls : list (list Z * list Z)) : list recinfo * memory :=
  match ls with
  | [] => (info, m)
  | (k, v) :: ls => let '(_, info, m) := idbm_rec_update_param info k v m in apply_lines info m ls
  end.

Definition good_line (l : list Z * list Z) : bool := good_key l.1 && good_value l.2.
Definition lines_text (ls : list (list Z * list Z)) : list Z := concat ((fun l => line_of l.1 l.2) <$> ls).

(** [n] bounds the lines that are left. *)
Lemma config_lines ls : forall fuel info m rest,
  Forall (fun l => good_line l = true) ls -> length (lines_text ls ++ rest) <= fuel ->
  exists fuel', length rest <= fuel' /\
    config_loop fuel info m (lines_text ls ++ rest) =
    config_loop fuel' (apply_lines info m ls).1 (apply_lines info m ls).2 rest.
Proof.
  induction ls as [|[k v] ls IH]; intros fuel info m rest Hg Hf.
  { exists fuel. split; [by cbn in Hf|done]. }
  apply Forall_cons in Hg as [Hl Hg]. unfold good_line in Hl. cbn in Hl. apply andb_true_iff in Hl as [Hk Hv].
  unfold lines_text in *. rewrite fmap_cons in *. cbn [concat fst snd] in *. rewrite <- app_assoc in *.
  assert (0 < length (line_of k v)) as Hpos by (unfold line_of; rewrite !length_app; cbn; lia).
  destruct fuel as [|fuel]; [rewrite length_app in Hf; lia|].
  cbn [config_loop]. rewrite fgets_line by done. cbn [config_loop].
  rewrite parse_line_of by done. cbn [mbind option_bind apply_lines].
  destruct (idbm_rec_update_param info k v m) as [[rc info'] m'].
  apply IH; [done|]. rewrite length_app in Hf. lia.
Qed.

(** A line that is skipped. *)
Lemma config_skip fuel info m l rest :
  10%Z ∉ l -> length l < BUFFER_SIZE - 1 -> parse_line (l ++ [10%Z]) = Some None ->
  config_loop (S fuel) info m (l ++ 10%Z :: rest) = config_loop fuel info m rest.
Proof.
  intros Hl Hn Hp. cbn [config_loop].
  assert (fgets BUFFER_SIZE (l ++ 10%Z :: rest) = Some (l ++ [10%Z], rest)) as ->.
  { unfold fgets. destruct (l ++ 10%Z :: rest) eqn:E; [by destruct l|]. rewrite <- E. by rewrite read_line_spec. }
  by rewrite Hp.
Qed.

(** The lines that are printed with the passwords. *)
Definition shown (e : recinfo) : bool := bool_decide (ri_visible e <> IDBM_HIDE /\ ri_value e <> []).

Definition printed (info : list recinfo) : list (list Z * list Z) :=
  (fun e => (ri_name e, ri_value e)) <$> filter (fun e => shown e) info.

Lemma print_entries m info : concat (print_entry true false m <$> info) = lines_text (printed info).
Proof.
  unfold lines_text, printed. induction info as [|e info IH]; [done|].
  rewrite fmap_cons. cbn [concat]. rewrite IH. rewrite filter_cons.
  unfold print_entry. cbn [negb andb].
  destruct (decide (shown e)) as [Hs|Hs]; unfold shown in Hs; rewrite bool_decide_spec in Hs.
  - destruct Hs as [Hh Hv]. by rewrite decide_False, decide_True by done.
  - destruct (decide (ri_visible e = IDBM_HIDE)); [done|]. by rewrite decide_False by tauto.
Qed.

Ltac skip_line := first [by apply (bool_decide_unpack _) | by apply Nat.ltb_lt | by vm_compute].

(** Reading what was printed. *)
Lemma config_print rows info m r :
  Forall (fun l => good_line l = true) (printed rows) ->
  idbm_recinfo_config info m (print_info rows r true false) = Some (apply_lines info m (printed rows)).
Proof.
  intros Hg. unfold print_info, idbm_recinfo_config. rewrite print_entries. cbn [app].
  set (f := ISCSI_BEGIN_REC ++ _). assert (length f <> 0) as Hf by (unfold f; rewrite length_app; cbn; lia).
  destruct (length f) as [|n] eqn:En; [done|]. unfold f.
  rewrite config_skip by skip_line.
  destruct (config_lines (printed rows) n info m (ISCSI_END_REC ++ [10%Z]) Hg) as (n' & Hn' & ->).
  { unfold f in En. rewrite length_app in En. cbn [length] in En. rewrite length_app in En |- *.
    change (length ISCSI_BEGIN_REC) with 20 in En. lia. }
  destruct n' as [|n']; [cbn in Hn'; lia|].
  rewrite config_skip by skip_line.
  destruct n'; cbn [config_loop fgets]; by destruct (apply_lines info m (printed rows)).
Qed.
End Lines.

(** ** Files whose lines are short *)

(** Every line has at most [n] characters, the current one at most [k] more. *)
Fixpoint lines_within (n k : nat) (f : list Z) : bool :=
  match f with
  | [] => true
  | c :: f => if decide (c = 10%Z) then lines_within n n f
              else match k with O => false | S k => lines_within n k f end
  end.

Lemma read_line_within n f : forall k m,
  lines_within n k f = true -> k < m -> f <> [] ->
  (exists l f', read_line m f = (l ++ [10%Z], f') /\ f = l ++ 10%Z :: f' /\ length l <= k /\ lines_within n n f' = true) \/
  (read_line m f = (f, []) /\ last f <> Some 10%Z).
Proof.
  induction f as [|c f IH]; intros k m Hw Hk Hne; [done|]. destruct m as [|m]; [lia|]. cbn [lines_within read_line] in *.
  destruct (decide (c = 10%Z)) as [->|Hc].
  { left. exists [], f. repeat split; [cbn; lia|done]. }
  destruct k as [|k]; [done|]. destruct (decide (f = [])) as [->|Hf].
  { right. split; [by destruct m|]. cbn. congruence. }
  destruct (IH k m Hw ltac:(lia) Hf) as [(l & f' & Hr & -> & Hl & Hw')|[Hr Hla]]; rewrite Hr.
  - left. exists (c :: l), f'. repeat split; [cbn; lia|done].
  - right. split; [done|]. rewrite last_cons. destruct (last f); congruence.
Qed.

(** The parser never leaves its arrays on a short text that is followed by
    blanks only. *)
Lemma skip_blank_total s rest : exists s', skip_blank (s ++ NUL :: rest) = Some (s' ++ NUL :: rest) /\ length s' <= length s.
Proof.
  induction s as [|c s IH]; cbn [app skip_blank].
  - exists []. by change (isspace NUL) with false.
  - destruct (isspace c).
    + destruct IH as (s' & -> & H). exists s'. split; [done|]. cbn. lia.
    + by exists (c :: s).
Qed.

Lemma skip_blank_spaces sp : Forall (fun c => isspace c = true) sp -> skip_blank (sp ++ [NUL]) = Some [NUL].
Proof. induction 1 as [|c sp Hc _ IH]; cbn [app skip_blank]; [done|]. by rewrite Hc. Qed.

Lemma scan_name_total s : forall acc rest, length acc + length s < NAME_MAXVAL ->
  exists name s', scan_name (s ++ NUL :: rest) acc = Some (name, s' ++ NUL :: rest) /\ length name < NAME_MAXVAL /\
    length s' <= length s.
Proof.
  induction s as [|c s IH]; intros acc rest Hl; cbn [app scan_name].
  - exists acc, []. rewrite decide_True by done. cbn in Hl. repeat split; cbn; lia.
  - destruct (decide (c = NUL)); [exists acc, (c :: s); repeat split; cbn in *; lia|].
    destruct (_ || _); [exists acc, (c :: s); repeat split; cbn in *; lia|].
    rewrite decide_True by (cbn in Hl; lia).
    destruct (IH (acc ++ [c]) rest) as (name & s' & -> & H1 & H2).
    { rewrite length_app. cbn in *. lia. }
    exists name, s'. repeat split; [done|]. cbn. lia.
Qed.

Lemma scan_value_total s : forall acc rest, length acc + length s < VALUE_MAXVAL ->
  exists v, scan_text_value (s ++ NUL :: rest) acc = Some v.
Proof.
  induction s as [|c s IH]; intros acc rest Hl; cbn [app scan_text_value].
  - cbn in Hl. rewrite !decide_True by (done || lia). eauto.
  - cbn in Hl. destruct (decide (c = NUL)); rewrite decide_True by lia; [eauto|]. apply IH. rewrite length_app. cbn. lia.
Qed.

Lemma parse_text_total s sp :
  length s < NAME_MAXVAL -> Forall (fun c => isspace c = true) sp -> is_Some (parse_text (s ++ NUL :: sp ++ [NUL])).
Proof.
  intros Hl Hsp. unfold parse_text. destruct (scan_name_total s [] (sp ++ [NUL]) Hl) as (name & s1 & -> & Hn & Hl1).
  cbn [mbind option_bind]. destruct s1 as [|c s1]; cbn [app head mbind option_bind]; [by rewrite decide_True|].
  destruct (decide (c = NUL)); [eauto|]. rewrite decide_True by done. cbn [tail].
  destruct (skip_blank_total s1 (sp ++ [NUL])) as (s2 & -> & Hl2). cbn [mbind option_bind].
  destruct s2 as [|d s2]; cbn [app head tail mbind option_bind].
  - rewrite decide_False by tauto. rewrite skip_blank_spaces by done. cbn [mbind option_bind head]. by rewrite decide_True.
  - destruct (decide (d <> NUL /\ d <> char "=")); [eauto|].
    destruct (skip_blank_total s2 (sp ++ [NUL])) as (s3 & -> & Hl3). cbn [mbind option_bind].
    destruct s3 as [|x s3]; cbn [app head mbind option_bind]; [by rewrite decide_True|].
    destruct (decide (x = NUL)); [eauto|]. change (x :: s3 ++ NUL :: sp ++ [NUL]) with ((x :: s3) ++ NUL :: sp ++ [NUL]).
    destruct (scan_value_total (x :: s3) [] (sp ++ [NUL])) as (v & ->); [|cbn [mbind option_bind]; eauto].
    unfold NAME_MAXVAL, VALUE_MAXVAL in *. cbn [length] in *. lia.
Qed.

Lemma skip_space_split s : exists sp, s = sp ++ skip_space s /\ Forall (fun c => isspace c = true) sp.
Proof.
  induction s as [|c s IH]; [by exists []|]. cbn [skip_space]. destruct (isspace c) eqn:E.
  - destruct IH as (sp & Hs & Hf). exists (c :: sp). cbn. rewrite <- Hs. by split; [|constructor].
  - by exists [].
Qed.

Lemma rstrip_split s : exists sp, s = rstrip s ++ sp /\ Forall (fun c => isspace c = true) sp.
Proof.
  destruct (skip_space_split (reverse s)) as (sp & Hs & Hf). exists (reverse sp). split.
  - unfold rstrip. rewrite <- reverse_app, <- Hs. by rewrite reverse_involutive.
  - by apply Forall_reverse.
Qed.

Lemma parse_line_total l : no_nul l -> length l < NAME_MAXVAL -> is_Some (parse_line (l ++ [10%Z])).
Proof.
  intros Hn Hl. unfold parse_line. assert (no_nul (l ++ [10%Z])) as Hnn by (apply no_nul_app; split; [done|by repeat constructor]).
  rewrite (cstr_of_app _ [] Hnn). cbn [mbind option_bind]. rewrite last_snoc. cbn [mbind option_bind].
  rewrite decide_False by (intros H; by apply H). unfold strstrip. rewrite (cstr_of_app _ [] Hnn). cbn [mbind option_bind].
  rewrite decide_False by (by destruct l). rewrite rstrip_space by done.
  destruct (rstrip_split l) as (sp & Hsp & Hf). set (kept := rstrip l) in *.
  assert (length kept <= length l) as Hk by (rewrite Hsp, length_app; lia).
  rewrite buf_set_Some by (rewrite !length_app; cbn; lia). cbn [mbind option_bind].
  assert (exists sp', Forall (fun c => isspace c = true) sp' /\
    <[length kept := NUL]> ((l ++ [10%Z]) ++ [NUL]) = kept ++ NUL :: sp' ++ [NUL]) as (sp' & Hf' & ->).
  { rewrite Hsp, <- !app_assoc. rewrite insert_app_r_alt, Nat.sub_diag by lia. destruct sp as [|c sp]; [by exists []|].
    exists (sp ++ [10%Z]). apply Forall_cons in Hf as [_ Hf]. split; [apply Forall_app; by repeat constructor|].
    cbn. by rewrite <- app_assoc. }
  set (off := length kept - length (skip_space kept)).
  destruct (skip_space_split kept) as (pre & Hpre & _).
  assert (off = length pre) as -> by (unfold off; rewrite Hpre at 1; rewrite length_app; lia).
  rewrite Hpre, <- app_assoc. rewrite drop_app_length.
  destruct ((pre ++ skip_space kept ++ NUL :: sp' ++ [NUL]) !! length pre) as [c|] eqn:Ec.
  2:{ apply lookup_ge_None in Ec. rewrite length_app in Ec. rewrite length_app in Ec. cbn in Ec. lia. }
  cbn [mbind option_bind]. case_decide; [eauto|]. apply parse_text_total; [|done].
  assert (length (skip_space kept) <= length kept) by (rewrite Hpre at 2; rewrite length_app; lia). lia.
Qed.

Section Total.
Context `{LEnv : LoginEnv}.

Lemma config_total f : forall fuel info m,
  length f <= fuel -> no_nul f -> lines_within (NAME_MAXVAL - 1) (NAME_MAXVAL - 1) f = true ->
  is_Some (config_loop fuel info m f).
Proof.
  intros fuel. revert f. induction fuel as [|fuel IH]; intros f info m Hl Hn Hw.
  { destruct f; [cbn; eauto|cbn in Hl; lia]. }
  cbn [config_loop]. destruct (decide (f = [])) as [->|Hne]; [cbn; eauto|].
  assert (fgets BUFFER_SIZE f = Some (read_line (BUFFER_SIZE - 1) f)) as -> by (by destruct f).
  destruct (read_line_within _ f _ (BUFFER_SIZE - 1) Hw) as [(l & f' & -> & -> & Hll & Hw')|[-> Hla]];
    [by apply Nat.ltb_lt|done| |].
  - apply no_nul_app in Hn as [Hnl Hn']. apply no_nul_cons in Hn' as [_ Hn'].
    destruct (parse_line_total l Hnl) as [p ->]; [unfold NAME_MAXVAL in *; lia|]. cbn [mbind option_bind].
    rewrite length_app in Hl. cbn in Hl. destruct p as [[k v]|]; [|apply IH; [lia|done|done]].
    destruct (idbm_rec_update_param info k v m) as [[rc i] m']. apply IH; [lia|done|done].
  - assert (parse_line f = Some None) as ->.
    { unfold parse_line. rewrite (cstr_of_app f []) by done. cbn [mbind option_bind].
      destruct (last f) as [c|] eqn:E; [|by apply last_None in E]. cbn [mbind option_bind]. rewrite decide_True; [done|congruence]. }
    cbn [mbind option_bind]. apply IH; [cbn; lia|constructor|done].
Qed.
End Total.
