(* ===== verification/IdbmUpdate.v ===== *)
(** * The record database: updates of a table

    An update changes the field of its parameter only, and does not depend on the
    texts in the table.  What [idbm_print] wrote for a field makes the update
    store the field again. *)
From Stdlib Require Import ZArith Lia Ascii.
From stdpp Require Import base tactics numbers list strings option gmap.
From S2P Require Import Prelude CString Login Idbm IdbmParse.

(** ** Entries without their texts *)
Definition shape (e : recinfo) : recinfo := e <| ri_value := [] |>.

Section Update.
Context `{LEnv : LoginEnv}.

Lemma store_value_shape e e' v m : shape e = shape e' -> store_value e v m = store_value e' v m.
Proof. destruct e, e'. intros [=]. subst. done. Qed.

Lemma shape_name e e' : shape e = shape e' -> ri_name e = ri_name e'.
Proof. destruct e, e'. by intros [=]. Qed.

Lemma shape_value e v : shape (e <| ri_value := v |>) = shape e.
Proof. by destruct e. Qed.

Lemma update_loop_keeps info name v m : shape <$> (update_loop info name v m).1.2 = shape <$> info.
Proof.
  induction info as [|e info IH]; [done|]. cbn [update_loop].
  destruct (decide (name = ri_name e)).
  - destruct (store_value e v m); try done.
    destruct (update_loop info name v m) as [[rc i] m']. cbn in IH |- *. by rewrite IH.
  - destruct (update_loop info name v m) as [[rc i] m']. cbn in IH |- *. by rewrite IH.
Qed.

Lemma update_loop_shape info : forall info' name v m,
  shape <$> info = shape <$> info' ->
  (update_loop info name v m).2 = (update_loop info' name v m).2 /\
  (update_loop info name v m).1.1 = (update_loop info' name v m).1.1.
Proof.
  induction info as [|e info IH]; intros [|e' info'] name v m Hs; try done.
  rewrite !fmap_cons in Hs. assert (shape e = shape e') as He by congruence.
  assert (shape <$> info = shape <$> info') as Hs' by congruence. cbn [update_loop].
  rewrite (shape_name _ _ He), (store_value_shape _ _ v m He). specialize (IH info' name v m Hs').
  destruct (update_loop info name v m) as [[rc i] m'], (update_loop info' name v m) as [[rc' i'] m'']. cbn in IH.
  destruct (decide (name = ri_name e')); [|done]. by destruct (store_value e' v m).
Qed.

(** An update of a parameter with the length of a password. *)
Lemma update_param_keeps info name v m : shape <$> (idbm_rec_update_param info name v m).1.2 = shape <$> info.
Proof.
  unfold idbm_rec_update_param. pose proof (update_loop_keeps info name v m) as H.
  destruct (update_loop info name v m) as [[rc i] m']. cbn in H.
  destruct (truth rc); [done|]. case_decide; [|done]. by rewrite update_loop_keeps.
Qed.

Lemma update_param_shape info info' name v m :
  shape <$> info = shape <$> info' ->
  (idbm_rec_update_param info name v m).2 = (idbm_rec_update_param info' name v m).2 /\
  (idbm_rec_update_param info name v m).1.1 = (idbm_rec_update_param info' name v m).1.1.
Proof.
  intros Hs. unfold idbm_rec_update_param. pose proof (update_loop_shape info info' name v m Hs) as H.
  pose proof (update_loop_keeps info name v m) as H1. pose proof (update_loop_keeps info' name v m) as H2.
  destruct (update_loop info name v m) as [[rc i] m1], (update_loop info' name v m) as [[rc' i'] m2].
  cbn in H, H1, H2. destruct H as [-> ->]. destruct (truth rc'); [done|]. case_decide; [|done].
  apply update_loop_shape. congruence.
Qed.

Definition upd (info : list recinfo) (m : memory) (l : list Z * list Z) : memory :=
  (idbm_rec_update_param info l.1 l.2 m).2.

Lemma apply_lines_foldl ls : forall info info' m,
  shape <$> info = shape <$> info' -> (apply_lines info m ls).2 = foldl (upd info') m ls.
Proof.
  induction ls as [|[k v] ls IH]; intros info info' m Hs; [done|]. cbn [apply_lines foldl].
  unfold upd at 2. cbn [fst snd]. rewrite <- (proj1 (update_param_shape info info' k v m Hs)).
  pose proof (update_param_keeps info k v m) as Hk.
  destruct (idbm_rec_update_param info k v m) as [[rc i] m1]. cbn in Hk |- *. apply IH. congruence.
Qed.

(** ** An update changes one field *)
Lemma store_value_one e v m m' :
  store_value e v m = Stored m' -> exists f x, ri_data e = Some f /\ m' = <[f := x]> m.
Proof.
  unfold store_value. destruct (ri_data e) as [f|]; [|by destruct (ri_type e)].
  intros H. exists f. destruct (ri_type e); try (injection H as <-; eexists; split; [done|]; reflexivity).
  - destruct (opt_index _ _ _); [|done]. injection H as <-. eauto.
  - unfold store_list in H. destruct (negb _); [done|]. destruct (negb _); [done|]. destruct (negb _); [done|].
    injection H as <-. eauto.
Qed.

Lemma update_loop_frame info name v m f :
  (forall e, e ∈ info -> ri_name e = name -> ri_data e <> Some f) ->
  (update_loop info name v m).2 !! f = m !! f.
Proof.
  induction info as [|e info IH]; intros Hf; [done|]. cbn [update_loop].
  assert ((update_loop info name v m).2 !! f = m !! f) as IH'.
  { apply IH. intros e' He'. apply Hf. by right. }
  destruct (decide (name = ri_name e)) as [Hn|Hn].
  - destruct (store_value e v m) as [m'| | |] eqn:Es; try done.
    + apply store_value_one in Es as (g & x & Hg & ->). cbn [snd]. rewrite lookup_insert_ne; [done|].
      intros ->. by apply (Hf e); [left| |].
    + by destruct (update_loop info name v m) as [[? ?] ?].
  - by destruct (update_loop info name v m) as [[? ?] ?].
Qed.

(** The parameters that a line with key [k] changes. *)
Definition targets (k n : list Z) : Prop := n = k \/ (k ∈ password_params /\ n = k ++ str "_length").

Lemma shape_elem (info info' : list recinfo) e :
  shape <$> info = shape <$> info' -> e ∈ info -> exists e', e' ∈ info' /\ shape e = shape e'.
Proof.
  intros Hs He. assert (shape e ∈ shape <$> info') as H.
  { rewrite <- Hs. apply list_elem_of_fmap. eauto. }
  apply list_elem_of_fmap in H as (e' & ? & ?). eauto.
Qed.

Lemma shape_data e e' : shape e = shape e' -> ri_data e = ri_data e'.
Proof. destruct e, e'. by intros [=]. Qed.

Lemma update_param_frame info k v m f :
  (forall e, e ∈ info -> targets k (ri_name e) -> ri_data e <> Some f) ->
  (idbm_rec_update_param info k v m).2 !! f = m !! f.
Proof.
  intros Hf. unfold idbm_rec_update_param.
  pose proof (update_loop_keeps info k v m) as Hk.
  assert ((update_loop info k v m).2 !! f = m !! f) as H1.
  { apply update_loop_frame. intros e He Hn. apply Hf; [done|]. by left. }
  destruct (update_loop info k v m) as [[rc i] m1]. cbn in H1, Hk.
  destruct (truth rc); [done|]. case_decide as Hp; [|done]. rewrite update_loop_frame; [done|].
  intros e He Hn. destruct (shape_elem i info e) as (e' & He' & Hs); [done|done|].
  rewrite (shape_data _ _ Hs). apply Hf; [done|]. right. by rewrite <- (shape_name _ _ Hs).
Qed.

Lemma foldl_frame info ls : forall m f,
  (forall e l, e ∈ info -> l ∈ ls -> targets l.1 (ri_name e) -> ri_data e <> Some f) ->
  foldl (upd info) m ls !! f = m !! f.
Proof.
  induction ls as [|l ls IH]; intros m f Hf; [done|]. cbn [foldl].
  rewrite IH by (intros e l' He Hl; apply Hf; [done|by right]).
  unfold upd. apply update_param_frame. intros e He. apply Hf; [done|by left].
Qed.

(** The first entry with the name is the one that is updated. *)
Lemma update_loop_hit l1 e l2 v m m' :
  ri_name e ∉ ri_name <$> l1 -> store_value e v m = Stored m' ->
  (update_loop (l1 ++ e :: l2) (ri_name e) v m).1.1 = 0%Z /\ (update_loop (l1 ++ e :: l2) (ri_name e) v m).2 = m'.
Proof.
  induction l1 as [|x l1 IH]; intros Hn Hs; cbn [app update_loop].
  - rewrite decide_True by done. by rewrite Hs.
  - rewrite fmap_cons in Hn. apply not_elem_of_cons in Hn as [Hx Hn]. rewrite decide_False by done.
    specialize (IH Hn Hs). by destruct (update_loop _ _ _ _) as [[? ?] ?].
Qed.
End Update.
