(* ===== verification/IdbmRestore.v ===== *)
(** * The record database: fields survive a round trip

    For every type of parameter: what the table shows for a field is a text that
    a line can carry, and an update with it stores the field again.  Then a whole
    table: what [idbm_print] writes restores the record. *)
From Stdlib Require Import ZArith Lia Ascii.
From stdpp Require Import base tactics numbers list strings option gmap.
From S2P Require Import Prelude CString Login Idbm IdbmParse IdbmUpdate.

(** ** Numbers *)
Lemma digit_facts c : (48 <= c <= 57)%Z -> isspace c = false /\ value_char c = true.
Proof.
  intros Hc. split; [unfold isspace; lia|]. unfold value_char. apply bool_decide_eq_true. unfold NUL. lia.
Qed.

Lemma strtoul_fmt_lu0 n : (0 <= n <= ULONG_MAX)%Z -> (strtoul (fmt_lu n) 10).1 = n.
Proof.
  intros Hn. unfold strtoul. rewrite scan_fmt_lu by lia. by replace (Z.ltb ULONG_MAX n) with false by lia.
Qed.

Lemma scan_number_neg s n rest :
  scan_number s 10 = Some (false, n, rest) -> not_space (head s) = true ->
  head s <> Some (char "+") -> scan_number (char "-" :: s) 10 = Some (true, n, rest).
Proof.
  unfold scan_number. intros H Hs Hp. cbn [skip_space]. change (isspace (char "-")) with false. cbv iota.
  destruct s as [|c s]; [done|]. cbn in Hs. apply negb_true_iff in Hs. cbn [skip_space] in H. rewrite Hs in H.
  unfold split_sign in H |- *. rewrite Z.eqb_refl. cbn in Hp.
  destruct (Z.eqb_spec c (char "-")) as [->|]; [by destruct (split_base 10 s) as [b [|? ?]]; try case_match; try case_match|].
  destruct (Z.eqb_spec c (char "+")) as [->|]; [done|].
  destruct (split_base 10 (c :: s)) as [b [|d u]]; [done|]. destruct (bool_decide _); [|done].
  destruct (scan_digits b (d :: u) 0) as [v r]. congruence.
Qed.

Lemma strtoul_fmt_d z : (- 2 ^ 31 <= z < 2 ^ 31)%Z -> i32 (strtoul (fmt_d z) 10).1 = z.
Proof.
  intros Hz. unfold fmt_d. destruct (Z.ltb_spec z 0) as [Hn|Hn].
  - unfold strtoul. rewrite (scan_number_neg _ (- z) []).
    + replace (Z.ltb ULONG_MAX (- z)) with false by (unfold ULONG_MAX; lia). cbn [fst].
      unfold i32, swrap, u64, wrap. rewrite Z.opp_involutive.
      replace (z mod 2 ^ 64)%Z with (z + 2 ^ 64)%Z by (apply (Z.mod_unique_pos _ _ (-1)); lia).
      rewrite <- (Z.mod_unique_pos _ _ (2 ^ 32) (z + 2 ^ 31)); lia.
    + apply scan_fmt_lu. lia.
    + destruct (fmt_lu_digits (- z)) as [Hne Hall]. destruct (fmt_lu (- z)); [done|].
      apply Forall_cons in Hall as [Hc _]. cbn. by rewrite (proj1 (digit_facts _ Hc)).
    + destruct (fmt_lu_digits (- z)) as [Hne Hall]. destruct (fmt_lu (- z)); [done|].
      apply Forall_cons in Hall as [Hc _]. cbn. intros [=Hp]. change (char "+") with 43%Z in Hp. lia.
  - rewrite strtoul_fmt_lu0 by (unfold ULONG_MAX; lia). by apply i32_small.
Qed.

(** The texts of numbers are values that a line can carry. *)
Lemma dec_digits_length fuel : forall n acc, length (dec_digits fuel n acc) <= fuel + length acc.
Proof.
  induction fuel as [|fuel IH]; intros n acc; cbn [dec_digits]; [lia|].
  case_match; [cbn; lia|]. specialize (IH (n / 10)%Z ((48 + n mod 10)%Z :: acc)). cbn in IH |- *. lia.
Qed.

Lemma good_value_digits s :
  s <> [] -> Forall (fun c => 48 <= c <= 57)%Z s -> length s < VALUE_MAXVAL -> good_value s = true.
Proof.
  intros Hne Hall Hl. unfold good_value. rewrite !andb_true_iff, bool_decide_eq_true, forallb_Forall.
  repeat split; try done.
  - destruct s; [done|]. apply Forall_cons in Hall as [Hc _]. cbn. by rewrite (proj1 (digit_facts _ Hc)).
  - destruct s as [|x s _] using rev_ind; [done|]. rewrite last_snoc. apply Forall_app in Hall as [_ Hc].
    apply Forall_cons in Hc as [Hc _]. cbn. by rewrite (proj1 (digit_facts _ Hc)).
  - eapply Forall_impl; [exact Hall|]. intros c Hc. by apply digit_facts.
Qed.

Lemma fmt_lu_short n : (0 <= n < 2 ^ 64)%Z -> length (fmt_lu n) <= 65.
Proof.
  intros Hn. unfold fmt_lu. etrans; [apply dec_digits_length|]. cbn [length].
  destruct (Z.eq_dec n 0%Z) as [->|Hz]; [cbn; lia|].
  assert (Z.log2 n < 64)%Z by (apply Z.log2_lt_pow2; lia). lia.
Qed.

Lemma good_value_fmt_lu n : (0 <= n < 2 ^ 64)%Z -> good_value (fmt_lu n) = true.
Proof.
  intros Hn. destruct (fmt_lu_digits n) as [Hne Hall]. apply good_value_digits; [done|done|].
  pose proof (fmt_lu_short n Hn). unfold VALUE_MAXVAL. lia.
Qed.

Lemma good_value_fmt_d z : (- 2 ^ 31 <= z < 2 ^ 31)%Z -> good_value (fmt_d z) = true.
Proof.
  intros Hz. unfold fmt_d. destruct (Z.ltb_spec z 0); [|by apply good_value_fmt_lu; lia].
  assert (good_value (fmt_lu (- z)) = true) as Hg by (apply good_value_fmt_lu; lia).
  pose proof (fmt_lu_short (- z) ltac:(lia)) as Hs. destruct (fmt_lu_digits (- z)) as [Hne _].
  unfold good_value in Hg |- *. rewrite !andb_true_iff, !bool_decide_eq_true in *. destruct Hg as [[[_ Hl] _] Hv].
  repeat split; [|unfold VALUE_MAXVAL; cbn [length]; lia|done].
  rewrite last_cons. by destruct (last (fmt_lu (- z))).
Qed.

(** ** Lists of names *)
Definition name_ok (n : list Z) : bool :=
  bool_decide (n <> []) && bool_decide (length n < 20) &&
  forallb (fun c => negb (is_sep c) && negb (isspace c) && value_char c) n.

Definition tbl_ok (tbl : list (list Z * Z)) : bool :=
  bool_decide (NoDup tbl.*1) && bool_decide (NoDup tbl.*2) && forallb name_ok tbl.*1 &&
  forallb (fun v => bool_decide (0 <= v < 2 ^ 31)%Z) tbl.*2.

(** Distinct values of the table, the other places unset. *)
Definition list_ok (tbl : list (list Z * Z)) (cap : nat) (l : list Z) : Prop :=
  exists vals, l = vals ++ replicate (cap - length vals) UNSET /\ length vals <= cap /\ NoDup vals /\
    Forall (fun v => v ∈ tbl.*2) vals.

Definition list_text (tbl : list (list Z * Z)) (l : list Z) : list Z := cut_comma (concat (list_item tbl <$> l)).

(** The names before the last one, each with its comma. *)
Definition with_commas (ns : list (list Z)) : list Z := concat ((fun n => n ++ str ",") <$> ns).

Lemma cut_comma_last ns n : cut_comma (with_commas (ns ++ [n])) = with_commas ns ++ n.
Proof.
  unfold cut_comma, with_commas. rewrite fmap_app, concat_app. cbn [fmap list_fmap concat].
  rewrite app_nil_r, app_assoc. change (str ",") with [char ","]. rewrite strrchr_last by (done || apply not_elem_of_nil).
  by rewrite take_app_length.
Qed.

Lemma tbl_name_in tbl n v : NoDup tbl.*2 -> (n, v) ∈ tbl -> tbl_name tbl v = Some n.
Proof.
  induction tbl as [|[n' v'] tbl IH]; intros Hd Hi; [by apply not_elem_of_nil in Hi|].
  rewrite fmap_cons in Hd. apply NoDup_cons in Hd as [Hn Hd]. cbn [tbl_name].
  apply elem_of_cons in Hi as [[= -> ->]|Hi]; [by rewrite decide_True|].
  rewrite decide_False; [by apply IH|]. intros ->. apply Hn. apply list_elem_of_fmap. by exists (n, v).
Qed.

Lemma tbl_find_in tbl : forall n v j, NoDup tbl.*1 -> (n, v) ∈ tbl ->
  exists i, tbl !! i = Some (n, v) /\ tbl_find tbl n j = Some (j + i, v).
Proof.
  induction tbl as [|[n' v'] tbl IH]; intros n v j Hd Hi; [by apply not_elem_of_nil in Hi|].
  rewrite fmap_cons in Hd. apply NoDup_cons in Hd as [Hn Hd]. cbn [tbl_find].
  apply elem_of_cons in Hi as [[= -> ->]|Hi].
  - exists 0. rewrite decide_True by done. by rewrite Nat.add_0_r.
  - rewrite decide_False.
    + destruct (IH n v (S j) Hd Hi) as (i & Hi' & ->). exists (S i). split; [done|]. do 2 f_equal. lia.
    + intros ->. apply Hn. apply list_elem_of_fmap. by exists (n', v).
Qed.

Lemma list_values_spec tbl cap ns : forall vals seen vals0,
  NoDup tbl.*1 -> Forall2 (fun n v => (n, v) ∈ tbl /\ n <> [] /\ u32 v = v) ns vals ->
  NoDup (vals0 ++ vals) -> length (vals0 ++ vals) <= cap ->
  (forall j, j ∈ seen -> exists n v, tbl !! j = Some (n, v) /\ v ∈ vals0) ->
  list_values tbl cap ns seen vals0 = vals0 ++ vals.
Proof.
  induction ns as [|n ns IH]; intros vals seen vals0 Hd Hf Hn Hl Hs.
  { apply Forall2_nil_inv_l in Hf as ->. by rewrite app_nil_r. }
  apply Forall2_cons_inv_l in Hf as (v & vals' & (Hi & Hne & Hu) & Hf & ->). cbn [list_values].
  rewrite length_app in Hl. cbn in Hl. rewrite decide_False, decide_False by (done || lia).
  destruct (tbl_find_in tbl n v 0 Hd Hi) as (i & Hti & ->). cbn [Nat.add].
  apply NoDup_app in Hn as (Hn0 & Hdis & Hn1). apply NoDup_cons in Hn1 as [Hv Hn1].
  rewrite decide_False.
  2:{ intros (n' & v' & Ht & Hv')%Hs. rewrite Hti in Ht. injection Ht as <- <-.
      apply (Hdis v Hv'). by left. }
  rewrite Hu, (IH vals' (i :: seen) (vals0 ++ [v])); [by rewrite <- app_assoc|done|done| | |].
  - rewrite <- app_assoc. apply NoDup_app. repeat split; [done| |by apply NoDup_cons].
    intros x Hx. apply Hdis. done.
  - rewrite <- app_assoc, length_app. cbn. lia.
  - intros j [->|(n' & v' & ? & ?)%Hs]%elem_of_cons; [exists n, v|exists n', v']; (split; [done|]);
      apply elem_of_app; [right; by left|by left].
Qed.

Lemma tokens_comma n : forall acc s,
  Forall (fun c => is_sep c = false) n -> tokens (n ++ str "," ++ s) acc = (acc ++ n) :: tokens s [].
Proof.
  induction n as [|c n IH]; intros acc s Hn; cbn [app].
  - change (str "," ++ s) with (char "," :: s). cbn [tokens].
    change (is_sep (char ",")) with true. by rewrite app_nil_r.
  - apply Forall_cons in Hn as [Hc Hn]. cbn [tokens]. rewrite Hc, IH by done. by rewrite <- app_assoc.
Qed.

Lemma tokens_plain n : forall acc, Forall (fun c => is_sep c = false) n -> tokens n acc = [acc ++ n].
Proof.
  induction n as [|c n IH]; intros acc Hn; cbn [tokens]; [by rewrite app_nil_r|].
  apply Forall_cons in Hn as [Hc Hn]. rewrite Hc, IH by done. by rewrite <- app_assoc.
Qed.

Lemma tokens_names ns n :
  Forall (fun n => Forall (fun c => is_sep c = false) n) (ns ++ [n]) -> tokens (with_commas ns ++ n) [] = ns ++ [n].
Proof.
  induction ns as [|x ns IH]; intros Hf.
  - apply Forall_cons in Hf as [Hf _]. unfold with_commas. cbn [fmap list_fmap concat app]. by rewrite tokens_plain.
  - cbn [app] in Hf. apply Forall_cons in Hf as [Hx Hf]. unfold with_commas in *. rewrite fmap_cons. cbn [concat].
    rewrite <- !app_assoc, tokens_comma by done. cbn [app]. by rewrite IH.
Qed.

Lemma tbl_ok_inv tbl : tbl_ok tbl = true ->
  NoDup tbl.*1 /\ NoDup tbl.*2 /\ forall n v, (n, v) ∈ tbl -> name_ok n = true /\ (0 <= v < 2 ^ 31)%Z.
Proof.
  unfold tbl_ok. rewrite !andb_true_iff, !bool_decide_eq_true, !forallb_Forall, !Forall_forall.
  intros [[[H1 H2] H3] H4]. repeat split; try done; try (apply H3; apply list_elem_of_fmap; by exists (n, v)).
  all: specialize (H4 v ltac:(apply list_elem_of_fmap; by exists (n, v))); rewrite bool_decide_eq_true in H4; lia.
Qed.

(** The names of values of the table. *)
Lemma names_of tbl vals : tbl_ok tbl = true -> Forall (fun v => v ∈ tbl.*2) vals ->
  exists ns, Forall2 (fun n v => (n, v) ∈ tbl /\ n <> [] /\ u32 v = v) ns vals /\
    Forall (fun n => name_ok n = true) ns /\ concat (list_item tbl <$> vals) = with_commas ns.
Proof.
  intros Ht. destruct (tbl_ok_inv tbl Ht) as (Hd1 & Hd2 & Hr).
  induction vals as [|v vals IH]; intros Hf; [by exists []|].
  apply Forall_cons in Hf as [Hv Hf]. destruct (IH Hf) as (ns & H2 & Hn & Hc).
  apply list_elem_of_fmap in Hv as ([n v'] & -> & Hi). cbn [snd]. destruct (Hr n v' Hi) as [Hno Hv].
  exists (n :: ns). split; [|split].
  - constructor; [|done]. split; [done|]. split; [|unfold u32; rewrite wrap_small; lia].
    unfold name_ok in Hno. rewrite !andb_true_iff, !bool_decide_eq_true in Hno. tauto.
  - by constructor.
  - rewrite fmap_cons. cbn [concat]. unfold with_commas. rewrite fmap_cons. cbn [concat]. fold (with_commas ns). rewrite Hc.
    f_equal. unfold list_item. rewrite decide_False by (unfold UNSET; lia).
    rewrite i32_small by lia. by rewrite (tbl_name_in tbl n v').
Qed.

Lemma name_ok_inv n : name_ok n = true ->
  n <> [] /\ length n < 20 /\ Forall (fun c => is_sep c = false) n /\ Forall (fun c => isspace c = false) n /\
  Forall (fun c => value_char c = true) n.
Proof.
  unfold name_ok. rewrite !andb_true_iff, !bool_decide_eq_true, forallb_Forall. intros [[H1 H2] H3].
  repeat split; try done; (eapply Forall_impl; [exact H3|]); intros c; cbn;
    rewrite !andb_true_iff, !negb_true_iff; tauto.
Qed.

Lemma list_item_unset tbl k : concat (list_item tbl <$> replicate k UNSET) = [].
Proof. induction k; [done|]. cbn [replicate]. by rewrite fmap_cons. Qed.

(** The text of a list of values, as names joined by commas. *)
Lemma list_text_names tbl cap l :
  tbl_ok tbl = true -> list_ok tbl cap l ->
  exists vals, l = vals ++ replicate (cap - length vals) UNSET /\
    ((vals = [] /\ list_text tbl l = []) \/
     exists ns n, list_text tbl l = with_commas ns ++ n /\ Forall (fun n => name_ok n = true) (ns ++ [n]) /\
       length (ns ++ [n]) <= cap /\ list_values tbl cap (ns ++ [n]) [] [] = vals).
Proof.
  intros Ht (vals & -> & Hl & Hn & Hf). exists vals. split; [done|].
  destruct (names_of tbl vals Ht Hf) as (ns & H2 & Hns & Hc).
  unfold list_text. rewrite fmap_app, concat_app, list_item_unset, app_nil_r, Hc.
  destruct ns as [|n ns _] using rev_ind.
  { left. apply Forall2_nil_inv_l in H2 as ->. done. }
  right. exists ns, n. rewrite cut_comma_last. repeat split; [done| |].
  - by rewrite (Forall2_length _ _ _ H2).
  - rewrite (list_values_spec tbl cap (ns ++ [n]) vals [] []); [done| |done|done|done|].
    + by apply tbl_ok_inv.
    + intros j Hj. by apply not_elem_of_nil in Hj.
Qed.

Lemma with_commas_facts ns :
  Forall (fun n => name_ok n = true) ns ->
  length (with_commas ns) <= 20 * length ns /\ forallb value_char (with_commas ns) = true.
Proof.
  induction ns as [|n ns IH]; intros Hf; [done|]. apply Forall_cons in Hf as [Hn Hf].
  destruct (IH Hf) as [IHl IHv]. destruct (name_ok_inv n Hn) as (_ & Hl & _ & _ & Hv).
  unfold with_commas in *. rewrite fmap_cons. cbn [concat length]. rewrite !length_app. split.
  - change (length (str ",")) with 1. lia.
  - rewrite !forallb_app, IHv. apply forallb_Forall in Hv. by rewrite Hv.
Qed.

Lemma good_value_names ns n :
  Forall (fun n => name_ok n = true) (ns ++ [n]) -> length (ns ++ [n]) <= 8 -> good_value (with_commas ns ++ n) = true.
Proof.
  intros Hf Hl. apply Forall_app in Hf as [Hns Hn]. apply Forall_cons in Hn as [Hn _].
  destruct (with_commas_facts ns Hns) as [Hwl Hwv]. destruct (name_ok_inv n Hn) as (Hne & Hnl & _ & Hsp & Hv).
  unfold good_value. rewrite !andb_true_iff, bool_decide_eq_true. rewrite length_app in Hl. cbn in Hl. repeat split.
  - destruct ns as [|x ns].
    + destruct n; [done|]. apply Forall_cons in Hsp as [Hc _].
      unfold with_commas. cbn [fmap list_fmap concat app head not_space]. by rewrite Hc.
    + apply Forall_cons in Hns as [Hx _]. destruct (name_ok_inv x Hx) as (Hxe & _ & _ & Hxs & _).
      unfold with_commas. rewrite fmap_cons. cbn [concat]. rewrite <- !app_assoc. destruct x; [done|].
      apply Forall_cons in Hxs as [Hc _]. cbn [app head not_space]. by rewrite Hc.
  - rewrite last_app. destruct n as [|c n _] using rev_ind; [done|]. rewrite last_snoc.
    apply Forall_app in Hsp as [_ Hc]. apply Forall_cons in Hc as [Hc _]. cbn [not_space]. by rewrite Hc.
  - rewrite length_app. unfold VALUE_MAXVAL. lia.
  - rewrite forallb_app, Hwv. by apply forallb_Forall in Hv as ->.
Qed.

(** ** Fields *)

(** The text of a field in the table. *)
Definition field_text (e : recinfo) (r : memory) : list Z :=
  match ri_data e with
  | None => []
  | Some f =>
      match ri_type e with
      | TYPE_STR => strlcpy_to VALUE_MAXVAL (get_str r f)
      | TYPE_INT => fmt_d (i32 (get_int r f))
      | TYPE_UINT8 | TYPE_UINT16 | TYPE_UINT32 => fmt_lu (u32 (get_int r f))
      | TYPE_INT_O => strlcpy_to VALUE_MAXVAL (opt_value (ri_opts e) (get_int r f))
      | TYPE_INT_LIST => list_text (ri_tbl e) (get_arr r f)
      end
  end.

(** The field of a parameter in a record. *)
Definition field_of (e : recinfo) (m : memory) : fval :=
  match ri_data e with
  | None => FInt 0
  | Some f => match ri_type e with
              | TYPE_STR => FStr (get_str m f)
              | TYPE_INT_LIST => FArr (get_arr m f)
              | _ => FInt (get_int m f)
              end
  end.

(** The values a field can hold and keep: a number of its width; a string that
    fits and that a line can carry; one of the options; distinct names of the
    table. *)
Definition field_ok (e : recinfo) (r : memory) : Prop :=
  match ri_data e with
  | None => False
  | Some f =>
      match ri_type e with
      | TYPE_STR => get_str r f = [] \/ (good_value (get_str r f) = true /\ length (get_str r f) < ri_data_len e)
      | TYPE_INT => (- 2 ^ 31 <= get_int r f < 2 ^ 31)%Z
      | TYPE_UINT8 => (0 <= get_int r f < 2 ^ 8)%Z
      | TYPE_UINT16 => (0 <= get_int r f < 2 ^ 16)%Z
      | TYPE_UINT32 => (0 <= get_int r f < 2 ^ 32)%Z
      | TYPE_INT_O => (0 <= get_int r f < Z.of_nat (length (ri_opts e)))%Z
      | TYPE_INT_LIST => list_ok (ri_tbl e) (ri_data_len e / 4) (get_arr r f)
      end
  end.

(** Entries of a table with which all this works. *)
Definition entry_ok (e : recinfo) : bool :=
  good_key (ri_name e) && bool_decide (is_Some (ri_data e)) &&
  match ri_type e with
  | TYPE_INT_O => bool_decide (NoDup (ri_opts e)) && forallb good_value (ri_opts e)
  | TYPE_INT_LIST => tbl_ok (ri_tbl e) && bool_decide (ri_data_len e / 4 <= 8)
  | _ => true
  end.

Lemma opt_index_lookup opts : forall j k o, NoDup opts -> opts !! j = Some o -> opt_index opts o k = Some (k + j).
Proof.
  induction opts as [|x opts IH]; intros j k o Hd Hj; [done|]. apply NoDup_cons in Hd as [Hx Hd]. cbn [opt_index].
  destruct j as [|j]; cbn in Hj.
  - injection Hj as ->. rewrite decide_True by done. by rewrite Nat.add_0_r.
  - rewrite decide_False; [rewrite (IH j (S k) o Hd Hj); f_equal; lia|].
    intros ->. apply Hx. by apply list_elem_of_lookup_2 in Hj.
Qed.

Lemma store_low_small w old v : (0 <= w)%Z -> (0 <= old < 2 ^ w)%Z -> (0 <= v < 2 ^ w)%Z -> store_low w old v = v.
Proof. intros Hw Ho Hv. unfold store_low. rewrite !wrap_small by done. lia. Qed.

Lemma good_value_short v : good_value v = true -> length v < VALUE_MAXVAL.
Proof. unfold good_value. rewrite !andb_true_iff, bool_decide_eq_true. tauto. Qed.

Lemma strlcpy_to_short n s : length s < n -> strlcpy_to n s = s.
Proof. intros H. unfold strlcpy_to. apply take_ge. lia. Qed.

Lemma get_int_insert m f z : get_int (<[f := FInt z]> m) f = z.
Proof. unfold get_int. by rewrite lookup_insert_eq. Qed.

Lemma get_str_insert m f s : get_str (<[f := FStr s]> m) f = s.
Proof. unfold get_str. by rewrite lookup_insert_eq. Qed.

Lemma get_arr_insert m f l : get_arr (<[f := FArr l]> m) f = l.
Proof. unfold get_arr. by rewrite lookup_insert_eq. Qed.

Section Rows.
Context `{LEnv : LoginEnv}.
Context (Hmalloc : forall n, malloc n = true).

(** A number of [w] bits. *)
Lemma store_uint w f r m :
  (w = 8 \/ w = 16 \/ w = 32)%Z -> (0 <= get_int r f < 2 ^ w)%Z -> (0 <= get_int m f < 2 ^ w)%Z ->
  good_value (fmt_lu (u32 (get_int r f))) = true /\
  get_int (store_number (Some w) f (fmt_lu (u32 (get_int r f))) m) f = get_int r f.
Proof.
  intros Hw Hr Hm. assert (2 ^ w <= 2 ^ 32)%Z by (apply Z.pow_le_mono_r; lia).
  unfold u32. rewrite wrap_small by lia. split; [apply good_value_fmt_lu; lia|].
  unfold store_number. rewrite get_int_insert, strtoul_fmt_lu0 by (unfold ULONG_MAX; lia).
  apply store_low_small; lia.
Qed.

Lemma store_row_list e f r m :
  ri_data e = Some f -> ri_type e = TYPE_INT_LIST -> entry_ok e = true ->
  list_ok (ri_tbl e) (ri_data_len e / 4) (get_arr r f) -> list_text (ri_tbl e) (get_arr r f) <> [] ->
  good_value (list_text (ri_tbl e) (get_arr r f)) = true /\
  store_list e f (list_text (ri_tbl e) (get_arr r f)) m = Stored (<[f := FArr (get_arr r f)]> m).
Proof.
  intros Hd Ht He Hok Hne. unfold entry_ok in He. rewrite Ht, !andb_true_iff, !bool_decide_eq_true in He.
  destruct He as [_ [Htbl Hcap]].
  destruct (list_text_names _ _ _ Htbl Hok) as (vals & Harr & [[-> Htx]|(ns & n & Htx & Hn & Hl & Hvals)]); [done|].
  rewrite Htx. split; [apply good_value_names; [done|lia]|].
  unfold store_list. rewrite !Hmalloc. cbn [negb]. rewrite tokens_names.
  - by rewrite Hvals, <- Harr.
  - eapply Forall_impl; [exact Hn|]. intros x Hx. by apply name_ok_inv.
Qed.

(** The text of a field that can be kept stores it again. *)
Lemma store_row e r m :
  entry_ok e = true -> field_ok e r -> field_ok e m -> field_text e r <> [] ->
  good_value (field_text e r) = true /\
  exists m', store_value e (field_text e r) m = Stored m' /\ field_of e m' = field_of e r.
Proof.
  intros He Hr Hm Hne. unfold field_ok, field_text, field_of, store_value in *.
  destruct (ri_data e) as [f|] eqn:Hd; [|done].
  destruct (ri_type e) eqn:Ht.
  - rewrite i32_small by done. split; [by apply good_value_fmt_d|]. eexists. split; [done|].
    unfold store_number. by rewrite get_int_insert, strtoul_fmt_d.
  - unfold entry_ok in He. rewrite Ht, !andb_true_iff, !bool_decide_eq_true, forallb_Forall in He. destruct He as [_ [Hnd Hg]].
    unfold opt_value in *. rewrite decide_True in * by lia.
    destruct (lookup_lt_is_Some_2 (ri_opts e) (Z.to_nat (get_int r f)) ltac:(lia)) as [o Ho]. rewrite Ho in *.
    cbn [from_option id] in *.
    rewrite Forall_lookup in Hg. specialize (Hg _ _ Ho). rewrite strlcpy_to_short by by apply good_value_short.
    split; [done|]. rewrite (opt_index_lookup _ _ 0 o Hnd Ho). cbn [Nat.add]. eexists. split; [done|].
    rewrite get_int_insert. f_equal. lia.
  - destruct Hr as [Hr|[Hg Hl]]; [by rewrite Hr in Hne|]. rewrite strlcpy_to_short in * by by apply good_value_short.
    split; [done|]. eexists. split; [done|]. by rewrite get_str_insert, strlcpy_to_short.
  - destruct (store_uint 8 f r m) as [Hg Hs]; [auto|done|done|]. split; [done|]. eexists. split; [done|]. by rewrite Hs.
  - destruct (store_uint 16 f r m) as [Hg Hs]; [auto|done|done|]. split; [done|]. eexists. split; [done|]. by rewrite Hs.
  - destruct (store_uint 32 f r m) as [Hg Hs]; [auto|done|done|]. split; [done|]. eexists. split; [done|]. by rewrite Hs.
  - destruct (store_row_list e f r m) as [Hg ->]; [done..|]. split; [done|]. eexists. split; [done|]. by rewrite get_arr_insert.
Qed.
End Rows.

(** ** Tables *)

(** No parameter that is printed is the length of a password. *)
Definition length_keys : list (list Z) := (fun p => p ++ str "_length") <$> password_params.

Definition no_length_key (e : recinfo) : bool :=
  bool_decide (ri_visible e = IDBM_HIDE) || bool_decide (ri_name e ∉ length_keys).

(** What the round trip needs of a table of parameters: its form does not
    depend on the record, its texts show the fields of the record, the keys and
    the fields are distinct. *)
Class RecordTable (T : memory -> list recinfo) := {
  table_shape : forall r, shape <$> T r = shape <$> T ∅;
  table_text : forall r, Forall (fun e => ri_value e = field_text e r) (T r);
  table_entries : forallb entry_ok (T ∅) = true;
  table_keys : bool_decide (NoDup (ri_name <$> T ∅)) = true;
  table_fields : bool_decide (NoDup (ri_data <$> T ∅)) = true;
  table_lengths : forallb no_length_key (T ∅) = true
}.

Lemma NoDup_fmap_eq {A B} (g : A -> B) l x y : NoDup (g <$> l) -> x ∈ l -> y ∈ l -> g x = g y -> x = y.
Proof.
  intros Hd Hx Hy Hg. apply list_elem_of_lookup in Hx as [i Hi], Hy as [j Hj].
  assert (i = j) as ->; [|congruence].
  apply (NoDup_lookup _ _ _ (g x) Hd); rewrite list_lookup_fmap; [by rewrite Hi|by rewrite Hj, Hg].
Qed.

Lemma fmap_shape {B} (g : recinfo -> B) (info info' : list recinfo) :
  (forall e, g (shape e) = g e) -> shape <$> info = shape <$> info' -> g <$> info = g <$> info'.
Proof.
  intros Hg Hs. transitivity (g <$> (shape <$> info)).
  - rewrite <- list_fmap_compose. apply list_fmap_ext. intros i e _. symmetry. apply Hg.
  - rewrite Hs, <- list_fmap_compose. apply list_fmap_ext. intros i e _. apply Hg.
Qed.

Section Tables.
Context `{LEnv : LoginEnv}.
Context (Hmalloc : forall n, malloc n = true).
Context (T : memory -> list recinfo) `{HT : !RecordTable T}.
Implicit Types (r m : memory) (e : recinfo).

Lemma table_elem r m e : e ∈ T r -> exists e', e' ∈ T m /\ shape e = shape e'.
Proof. apply shape_elem. by rewrite (table_shape (T := T) r), (table_shape (T := T) m). Qed.

Lemma entry_shape e e' : shape e = shape e' -> entry_ok e = entry_ok e' /\ no_length_key e = no_length_key e'.
Proof. destruct e, e'. intros [=]. subst. done. Qed.

Lemma table_entry r e : e ∈ T r -> entry_ok e = true /\ no_length_key e = true.
Proof.
  intros He. destruct (table_elem r ∅ e He) as (e' & He' & Hs). destruct (entry_shape _ _ Hs) as [-> ->].
  pose proof table_entries as H1. pose proof table_lengths as H2. rewrite forallb_Forall, Forall_forall in H1, H2. auto.
Qed.

Lemma table_value r e : e ∈ T r -> ri_value e = field_text e r.
Proof. pose proof (table_text r) as H. rewrite Forall_forall in H. apply H. Qed.

Lemma table_names r : NoDup (ri_name <$> T r).
Proof.
  rewrite (fmap_shape ri_name (T r) (T ∅)); [|done|apply table_shape].
  pose proof table_keys as H. by rewrite bool_decide_eq_true in H.
Qed.

(** Two entries with the same field. *)
Lemma same_field r m e e' f : e ∈ T r -> e' ∈ T m -> ri_data e = Some f -> ri_data e' = Some f -> shape e = shape e'.
Proof.
  intros He He' Hf Hf'. destruct (table_elem r ∅ e He) as (x & Hx & Hsx).
  destruct (table_elem m ∅ e' He') as (y & Hy & Hsy). rewrite Hsx, Hsy. f_equal.
  pose proof table_fields as Hd. rewrite bool_decide_eq_true in Hd.
  apply (NoDup_fmap_eq ri_data (T ∅)); [done|done|done|].
  rewrite <- (shape_data _ _ Hsx), <- (shape_data _ _ Hsy). congruence.
Qed.

Lemma same_name r m e e' : e ∈ T r -> e' ∈ T m -> ri_name e = ri_name e' -> shape e = shape e'.
Proof.
  intros He He' Hn. destruct (table_elem r m e He) as (x & Hx & Hsx). rewrite Hsx. f_equal.
  apply (NoDup_fmap_eq ri_name (T m)); [apply table_names|done|done|]. rewrite <- Hn. symmetry. by apply shape_name.
Qed.

(** The unused entries behind a table. *)
Definition unused (l : list recinfo) : Prop := Forall (fun e => e = zero_recinfo) l.

Lemma printed_unused rows l : unused l -> printed (rows ++ l) = printed rows.
Proof.
  intros Hu. unfold printed. rewrite filter_app, fmap_app.
  assert (filter (fun e => shown e) l = []) as ->; [|by rewrite app_nil_r].
  induction Hu as [|e l -> _ IH]; [done|]. rewrite filter_cons_False; [done|].
  unfold shown. rewrite bool_decide_false; [intros []|]. cbn. intros [H _]. done.
Qed.

Lemma entry_of_field m l e f : unused l -> e ∈ T m ++ l -> ri_data e = Some f -> e ∈ T m.
Proof.
  intros Hu He Hf. apply elem_of_app in He as [He|He]; [done|]. unfold unused in Hu. rewrite Forall_forall in Hu.
  rewrite (Hu e He) in Hf. done.
Qed.

(** A line that is for another parameter leaves the field alone. *)
Lemma other_line_frame r m l e f ls :
  unused l -> e ∈ T r -> ri_data e = Some f ->
  (forall p, p ∈ ls -> ~ targets p.1 (ri_name e)) ->
  forall m0, foldl (upd (T m ++ l)) m0 ls !! f = m0 !! f.
Proof.
  intros Hu He Hf Hls m0. apply foldl_frame. intros x p Hx Hp Ht Hd.
  pose proof (entry_of_field m l x f Hu Hx Hd) as Hx'.
  rewrite (shape_name x e) in Ht by by apply (same_field m r x e f). by apply (Hls p).
Qed.

Lemma printed_elem rows p : p ∈ printed rows -> exists e, e ∈ rows /\ shown e = true /\ p = (ri_name e, ri_value e).
Proof.
  unfold printed. intros (e & -> & He)%list_elem_of_fmap. apply list_elem_of_filter in He as [Hs He].
  exists e. split; [done|]. split; [|done]. by apply Is_true_true.
Qed.

Lemma shown_visible e : shown e = true -> ri_visible e <> IDBM_HIDE /\ ri_value e <> [].
Proof. unfold shown. by rewrite bool_decide_eq_true. Qed.

(** A visible parameter is not the target of a line of another one. *)
Lemma not_target r rows e :
  e ∈ T r -> ri_visible e <> IDBM_HIDE -> ri_name e ∉ ri_name <$> rows ->
  forall p, p ∈ printed rows -> ~ targets p.1 (ri_name e).
Proof.
  intros He Hv Hn p (x & Hx & _ & ->)%printed_elem. cbn [fst]. intros [Heq|[Hp Heq]].
  - apply Hn. rewrite Heq. apply list_elem_of_fmap. eauto.
  - destruct (table_entry r e He) as [_ Hk]. unfold no_length_key in Hk.
    rewrite orb_true_iff, !bool_decide_eq_true in Hk. destruct Hk as [?|Hk]; [done|].
    apply Hk. rewrite Heq. unfold length_keys. apply list_elem_of_fmap. eauto.
Qed.

Lemma field_of_ext e m m' f : ri_data e = Some f -> m !! f = m' !! f -> field_of e m = field_of e m'.
Proof. intros Hd H. unfold field_of, get_str, get_arr, get_int. by rewrite Hd, H. Qed.

Lemma field_ok_ext e m m' f : ri_data e = Some f -> m !! f = m' !! f -> field_ok e m -> field_ok e m'.
Proof. intros Hd H. unfold field_ok, get_str, get_arr, get_int. by rewrite Hd, H. Qed.

Lemma field_of_shape e e' m : shape e = shape e' -> field_of e m = field_of e' m.
Proof. destruct e, e'. intros [=]. subst. done. Qed.

Lemma field_ok_shape e e' m : shape e = shape e' -> field_ok e m -> field_ok e' m.
Proof. destruct e, e'. intros [=]. subst. done. Qed.

(** The position of an entry in a table. *)
Lemma table_split r m l e : e ∈ T r ->
  exists e' l1 l2, T m ++ l = l1 ++ e' :: l2 /\ ri_name e ∉ ri_name <$> l1 /\ ri_name e = ri_name e' /\ shape e = shape e'.
Proof.
  intros He. destruct (table_elem r m e He) as (e' & He' & Hs). apply list_elem_of_split in He' as (l1 & l2 & Hl).
  exists e', l1, (l2 ++ l). rewrite Hl, <- app_assoc. split; [done|]. split; [|by split; [apply shape_name|]].
  pose proof (table_names m) as Hn. rewrite Hl, fmap_app, fmap_cons in Hn. apply NoDup_app in Hn as (_ & Hn & _).
  rewrite (shape_name _ _ Hs). intros Hi. apply (Hn _ Hi). by left.
Qed.

(** An update with the text of the parameter itself. *)
Lemma update_own r m l e f v m1 m2 :
  unused l -> e ∈ T r -> ri_data e = Some f -> store_value e v m1 = Stored m2 ->
  upd (T m ++ l) m1 (ri_name e, v) !! f = m2 !! f.
Proof.
  intros Hu He Hf Hs. unfold upd, idbm_rec_update_param. cbn [fst snd].
  destruct (table_split r m l e He) as (e' & l1 & l2 & Hl & Hn & Hne & Hsh).
  rewrite (store_value_shape e e') in Hs by done.
  pose proof (update_loop_keeps (T m ++ l) (ri_name e) v m1) as Hk.
  destruct (update_loop_hit l1 e' l2 v m1 m2) as [H1 H2]; [by rewrite <- Hne|done|]. rewrite <- Hl, <- Hne in H1, H2.
  destruct (update_loop (T m ++ l) (ri_name e) v m1) as [[rc i] m']. cbn in H1, H2, Hk. subst rc m'. cbn [truth Z.eqb negb].
  case_decide as Hp; [|done]. apply update_loop_frame. intros x Hx Hxn Hxd.
  destruct (shape_elem i (T m ++ l) x Hk Hx) as (y & Hy & Hsy).
  rewrite (shape_data _ _ Hsy) in Hxd. rewrite (shape_name _ _ Hsy) in Hxn.
  apply (entry_of_field m l y f Hu) in Hy; [|done].
  rewrite (shape_name y e) in Hxn by by apply (same_field m r y e f).
  apply (f_equal length) in Hxn. rewrite length_app in Hxn. change (length (str "_length")) with 7 in Hxn. lia.
Qed.

(** The lines of a table. *)
Lemma printed_app a b : printed (a ++ b) = printed a ++ printed b.
Proof. unfold printed. by rewrite filter_app, fmap_app. Qed.

Lemma printed_cons e b : printed (e :: b) = (if shown e then [(ri_name e, ri_value e)] else []) ++ printed b.
Proof.
  unfold printed. rewrite filter_cons. destruct (shown e) eqn:E; [rewrite decide_True by done|rewrite decide_False by by intros []]; done.
Qed.

Lemma restore_visible r m l e :
  unused l -> e ∈ T r -> ri_visible e <> IDBM_HIDE -> field_ok e r -> field_ok e m ->
  field_of e (foldl (upd (T m ++ l)) m (printed (T r))) = field_of e (if decide (field_text e r = []) then m else r).
Proof.
  intros Hu He Hv Hr Hm. destruct (table_entry r e He) as [Hok _].
  assert (exists f, ri_data e = Some f) as [f Hf].
  { unfold entry_ok in Hok. rewrite !andb_true_iff, bool_decide_eq_true in Hok. by destruct Hok as [[_ [f ?]] _]; exists f. }
  pose proof (table_names r) as Hnd. pose proof He as He'. apply list_elem_of_split in He' as (a & b & Hab).
  rewrite Hab in Hnd |- *. rewrite fmap_app, fmap_cons in Hnd. apply NoDup_app in Hnd as (_ & Hna & Hnb).
  apply NoDup_cons in Hnb as [Hnb _].
  assert (ri_name e ∉ ri_name <$> a) as Hna' by (intros H; apply (Hna _ H); by left).
  rewrite printed_app, printed_cons, foldl_app, foldl_app.
  set (ma := foldl (upd (T m ++ l)) m (printed a)).
  assert (ma !! f = m !! f) as Hma by (apply (other_line_frame r m l e); auto; by apply (not_target r)).
  match goal with |- field_of e (foldl _ ?x _) = _ => set (mb := x) end.
  rewrite (field_of_ext e (foldl (upd (T m ++ l)) mb (printed b)) mb f Hf)
    by (apply (other_line_frame r m l e); auto; by apply (not_target r)).
  unfold mb, shown. rewrite (table_value r e He). destruct (decide (field_text e r = [])) as [Ht|Ht].
  - rewrite bool_decide_false by tauto. cbn [foldl]. by apply (field_of_ext e _ _ f).
  - rewrite bool_decide_true by done. cbn [foldl].
    destruct (store_row Hmalloc e r ma) as (_ & m2 & Hs & Hfe); [done|done|by eapply field_ok_ext|done|].
    rewrite <- Hfe. apply (field_of_ext e _ _ f Hf). by apply (update_own r).
Qed.

(** The lengths of the passwords are not printed but set with the password. *)
Lemma passwd_len_value n : n < VALUE_MAXVAL -> i32 (strtoul (passwd_len n) 10).1 = Z.of_nat n.
Proof.
  intros Hn. assert (Forall (fun n => i32 (strtoul (passwd_len n) 10).1 = Z.of_nat n) (seq 0 VALUE_MAXVAL)) as H.
  { apply (bool_decide_unpack _). by vm_compute. }
  rewrite Forall_forall in H. apply H, elem_of_seq. lia.
Qed.

Lemma update_password r m l ep el fl v m1 m2 :
  unused l -> ep ∈ T r -> el ∈ T r -> ri_name ep ∈ password_params -> ri_name el = ri_name ep ++ str "_length" ->
  ri_type el = TYPE_INT -> ri_data el = Some fl -> store_value ep v m1 = Stored m2 -> length v < VALUE_MAXVAL ->
  get_int (upd (T m ++ l) m1 (ri_name ep, v)) fl = Z.of_nat (length v).
Proof.
  intros Hu Hep Hel Hp Hn Ht Hd Hs Hlen. unfold upd, idbm_rec_update_param. cbn [fst snd].
  destruct (table_split r m l ep Hep) as (e' & l1 & l2 & Hl & Hn1 & Hne & Hsh).
  rewrite (store_value_shape ep e') in Hs by done.
  pose proof (update_loop_keeps (T m ++ l) (ri_name ep) v m1) as Hk.
  destruct (update_loop_hit l1 e' l2 v m1 m2) as [H1 H2]; [by rewrite <- Hne|done|]. rewrite <- Hl, <- Hne in H1, H2.
  destruct (update_loop (T m ++ l) (ri_name ep) v m1) as [[rc i] m']. cbn in H1, H2, Hk. subst rc m'. cbn [truth Z.eqb negb].
  rewrite decide_True by done. rewrite <- Hn.
  rewrite (proj1 (update_loop_shape i (T m ++ l) (ri_name el) (passwd_len (length v)) m2 Hk)).
  destruct (table_split r m l el Hel) as (x & k1 & k2 & Hkl & Hkn & Hkne & Hksh).
  assert (store_value x (passwd_len (length v)) m2 = Stored (store_number None fl (passwd_len (length v)) m2)) as Hst.
  { rewrite <- (store_value_shape el x) by done. unfold store_value. by rewrite Hd, Ht. }
  rewrite Hkl, Hkne. rewrite (proj2 (update_loop_hit k1 x k2 _ m2 _ ltac:(by rewrite <- Hkne) Hst)).
  unfold store_number. rewrite get_int_insert. by apply passwd_len_value.
Qed.

Lemma restore_password r m l ep el fp fl :
  unused l -> ep ∈ T r -> el ∈ T r -> ri_name ep ∈ password_params -> ri_name el = ri_name ep ++ str "_length" ->
  ri_visible ep <> IDBM_HIDE -> ri_visible el = IDBM_HIDE ->
  ri_type ep = TYPE_STR -> ri_data ep = Some fp -> ri_type el = TYPE_INT -> ri_data el = Some fl -> field_ok ep r ->
  get_int (foldl (upd (T m ++ l)) m (printed (T r))) fl =
  if decide (get_str r fp = []) then get_int m fl else Z.of_nat (length (get_str r fp)).
Proof.
  intros Hu Hep Hel Hp Hn Hv Hh Ht Hd Htl Hdl Hr.
  assert (forall rows, rows ⊆ T r -> ri_name ep ∉ ri_name <$> rows -> forall m0,
    foldl (upd (T m ++ l)) m0 (printed rows) !! fl = m0 !! fl) as Hframe.
  { intros rows Hsub Hni m0. apply (other_line_frame r m l el); [done..|].
    intros p (x & Hx & Hsx & ->)%printed_elem. cbn [fst]. apply shown_visible in Hsx as [Hvx _]. intros [Heq|[_ Heq]].
    - apply Hvx. assert (shape x = shape el) as Hs by (apply (same_name r r); auto).
      apply (f_equal ri_visible) in Hs. change (ri_visible x = ri_visible el) in Hs. congruence.
    - rewrite Hn in Heq. apply app_inv_tail in Heq. apply Hni. rewrite Heq. apply list_elem_of_fmap. eauto. }
  pose proof (table_names r) as Hnd. pose proof Hep as He'. apply list_elem_of_split in He' as (a & b & Hab).
  rewrite Hab in Hnd |- *. rewrite fmap_app, fmap_cons in Hnd. apply NoDup_app in Hnd as (_ & Hna & Hnb).
  apply NoDup_cons in Hnb as [Hnb _].
  assert (ri_name ep ∉ ri_name <$> a) as Hna' by (intros H; apply (Hna _ H); by left).
  rewrite printed_app, printed_cons, foldl_app, foldl_app. unfold get_int at 1.
  rewrite (Hframe b) by (done || rewrite Hab; intros ? ?; apply elem_of_app; right; by right).
  set (ma := foldl (upd (T m ++ l)) m (printed a)).
  assert (ma !! fl = m !! fl) as Hma by (apply (Hframe a); [rewrite Hab; intros ? ?; apply elem_of_app; by left|done]).
  unfold shown. rewrite (table_value r ep Hep).
  assert (field_text ep r = strlcpy_to VALUE_MAXVAL (get_str r fp)) as Htx by (unfold field_text; by rewrite Hd, Ht).
  unfold field_ok in Hr. rewrite Hd, Ht in Hr. destruct Hr as [Hr|[Hg Hlen]].
  - rewrite decide_True by done. rewrite bool_decide_false by (rewrite Htx, Hr; tauto). cbn [foldl]. by rewrite Hma.
  - assert (get_str r fp <> []) as Hne by (intros E; by rewrite E in Hg). rewrite decide_False by done.
    pose proof (good_value_short _ Hg) as Hgl. rewrite strlcpy_to_short in Htx by done. rewrite Htx.
    rewrite bool_decide_true by done. cbn [foldl]. fold (get_int (upd (T m ++ l) ma (ri_name ep, get_str r fp)) fl).
    eapply update_password; try done. unfold store_value. by rewrite Hd, Ht.
Qed.

Lemma printed_good r :
  (forall e, e ∈ T r -> ri_visible e <> IDBM_HIDE -> field_ok e r) -> Forall (fun p => good_line p = true) (printed (T r)).
Proof.
  intros Hok. apply Forall_forall. intros p (e & He & Hs & ->)%printed_elem. apply shown_visible in Hs as [Hv Hne].
  destruct (table_entry r e He) as [Heo _]. rewrite (table_value r e He) in Hne |- *.
  destruct (store_row Hmalloc e r r) as [Hg _]; auto. unfold good_line. cbn [fst snd]. rewrite Hg, andb_true_r.
  unfold entry_ok in Heo. rewrite !andb_true_iff in Heo. tauto.
Qed.

(** Reading a record that was printed. *)
Lemma config_restores r m l l' :
  unused l' -> (forall e, e ∈ T r -> ri_visible e <> IDBM_HIDE -> field_ok e r) ->
  exists info, idbm_recinfo_config (T m ++ l) m (print_info (T r ++ l') r true false) =
    Some (info, foldl (upd (T m ++ l)) m (printed (T r))).
Proof.
  intros Hu Hok. rewrite config_print; rewrite printed_unused by done; [|by apply printed_good].
  exists (apply_lines (T m ++ l) m (printed (T r))).1. f_equal.
  rewrite <- (apply_lines_foldl (printed (T r)) (T m ++ l) (T m ++ l)) by done. by destruct (apply_lines _ _ _).
Qed.
End Tables.
