(* ===== verification/IdbmFiles.v ===== *)
(** * The record database: records in files

    The tables of usr/idbm.c satisfy what the round trip needs; what writing a
    node record does to the files; what is read from them. *)
From Stdlib Require Import ZArith Lia Ascii.
From stdpp Require Import base tactics numbers list strings option gmap.
From S2P Require Import Prelude StateM CString Login Idbm IdbmTables IdbmOps IdbmParse IdbmUpdate IdbmRestore.

(** ** The tables of the database *)
Ltac solve_table :=
  split; [intros r; reflexivity | intros r; repeat (constructor; [reflexivity|]); constructor
         | vm_compute; reflexivity ..].

#[export] Instance node_table t : RecordTable (node_rows t).
Proof. destruct t; solve_table. Qed.

#[export] Instance iface_table t : RecordTable (iface_rows t).
Proof. destruct t; solve_table. Qed.

Definition sendtargets_rows (r : memory) : list recinfo := discovery_rows_head r ++ discovery_rows_sendtargets r.
Definition isns_rows (r : memory) : list recinfo := discovery_rows_head r ++ discovery_rows_isns r.

#[export] Instance sendtargets_table : RecordTable sendtargets_rows.
Proof. solve_table. Qed.

#[export] Instance isns_table : RecordTable isns_rows.
Proof. solve_table. Qed.

(** ** Fields of a record, by computation *)
Definition list_okb (tbl : list (list Z * Z)) (cap : nat) (l : list Z) : bool :=
  let vals := filter (fun v => v <> UNSET) l in
  bool_decide (l = vals ++ replicate (cap - length vals) UNSET) && bool_decide (length vals <= cap) &&
  bool_decide (NoDup vals) && forallb (fun v => bool_decide (v ∈ tbl.*2)) vals.

Definition in_range (lo z hi : Z) : bool := Z.leb lo z && Z.ltb z hi.

Definition field_okb (e : recinfo) (r : memory) : bool :=
  match ri_data e with
  | None => false
  | Some f =>
      match ri_type e with
      | TYPE_STR => bool_decide (get_str r f = []) ||
                    (good_value (get_str r f) && bool_decide (length (get_str r f) < ri_data_len e))
      | TYPE_INT => in_range (- 2 ^ 31) (get_int r f) (2 ^ 31)
      | TYPE_UINT8 => in_range 0 (get_int r f) (2 ^ 8)
      | TYPE_UINT16 => in_range 0 (get_int r f) (2 ^ 16)
      | TYPE_UINT32 => in_range 0 (get_int r f) (2 ^ 32)
      | TYPE_INT_O => in_range 0 (get_int r f) (Z.of_nat (length (ri_opts e)))
      | TYPE_INT_LIST => list_okb (ri_tbl e) (ri_data_len e / 4) (get_arr r f)
      end
  end.

Lemma list_okb_ok tbl cap l : list_okb tbl cap l = true -> list_ok tbl cap l.
Proof.
  unfold list_okb. rewrite !andb_true_iff, !bool_decide_eq_true, forallb_Forall. intros [[[H1 H2] H3] H4].
  exists (filter (fun v => v <> UNSET) l). repeat split; try done.
  eapply Forall_impl; [exact H4|]. intros v. cbn. by rewrite bool_decide_eq_true.
Qed.

Lemma field_okb_ok e r : field_okb e r = true -> field_ok e r.
Proof.
  unfold field_okb, field_ok, in_range. destruct (ri_data e) as [f|]; [|done].
  destruct (ri_type e); rewrite ?andb_true_iff, ?Z.leb_le, ?Z.ltb_lt; try done.
  - rewrite orb_true_iff, andb_true_iff, !bool_decide_eq_true. done.
  - apply list_okb_ok.
Qed.

(** Every parameter of the record that is written has a value that can be kept. *)
Definition node_ok (rec : memory) : Prop :=
  forall e, e ∈ idbm_recinfo_node rec -> ri_visible e <> IDBM_HIDE -> field_ok e rec.

Lemma default_node_ok t e : e ∈ node_rows t idbm_node_setup_defaults -> field_ok e idbm_node_setup_defaults.
Proof.
  intros He. assert (forallb (fun e => field_okb e idbm_node_setup_defaults) (node_rows t idbm_node_setup_defaults) = true)
    as H by (destruct t; vm_compute; reflexivity).
  rewrite forallb_Forall, Forall_forall in H. by apply field_okb_ok, H.
Qed.

Lemma default_iptype : iface_get_iptype "iface." idbm_node_setup_defaults = ISCSI_IFACE_TYPE_IPV4.
Proof. by vm_compute. Qed.

(** ** The file system *)
Section FileSystem.
Context `{LEnv : LoginEnv} `{DEnv : DbEnv}.

(** The directory of the nodes holds no symbolic links. *)
Definition no_links (f : filesys) : Prop := forall p t, NODE_CONFIG_DIR `prefix_of` p -> f !! p <> Some (Link t).

Lemma stat_plain f p : no_links f -> NODE_CONFIG_DIR `prefix_of` p -> stat f p = f !! p /\ resolve f p = p.
Proof.
  intros Hn Hp. unfold stat, resolve. specialize (Hn p). destruct (f !! p) as [[| |t]|] eqn:E; rewrite ?E; try done.
  by destruct (Hn t Hp).
Qed.

Lemma no_links_insert f p n : no_links f -> (forall t, n <> Link t) -> no_links (<[p := n]> f).
Proof.
  intros Hn Hl q t Hq. destruct (decide (p = q)) as [->|Hd].
  - rewrite lookup_insert_eq. intros [=]. by apply (Hl t).
  - rewrite lookup_insert_ne by done. by apply Hn.
Qed.

Lemma no_links_delete f p : no_links f -> no_links (delete p f).
Proof. intros Hn q t Hq H. apply lookup_delete_Some in H as [_ H]. by apply (Hn q t). Qed.

Lemma fs_set s f : fs (s <| fs := f |>) = f.
Proof. done. Qed.

(** A system call changes only the files. *)
Lemma syscall_inv op s b s' :
  syscall op s = Some (b, s') ->
  if b then exists f, op (fs s) = Some f /\ s' = s <| fs := f |> else op (fs s) = None /\ s' = s.
Proof.
  unfold syscall, mthen, mget, mmod, mret'. destruct (op (fs s)) as [f|]; intros [= <- <-]; eauto.
Qed.

Lemma mkdir_inv p f f' : mkdir p f = Some f' -> f !! p = None /\ f' = <[p := Dir]> f.
Proof.
  unfold mkdir. destruct (_ && _) eqn:E; intros [= <-]. rewrite !andb_true_iff, bool_decide_eq_true in E. tauto.
Qed.

Lemma ensure_dir_inv p s s' :
  ensure_dir p s = Some (0%Z, s') -> s' = s \/ (fs s !! resolve (fs s) p = None /\ s' = s <| fs := <[p := Dir]> (fs s) |>).
Proof.
  unfold ensure_dir, mstat, mthen, mget, mret'. unfold stat at 1. destruct (fs s !! resolve (fs s) p) as [n|] eqn:E.
  - intros [= <-]. by left.
  - destruct (syscall (mkdir p) s) as [[b s1]|] eqn:Es; [|done]. apply syscall_inv in Es.
    destruct b; intros [= <-]. destruct Es as (f & Hf & ->). apply mkdir_inv in Hf as [Hp ->]. by right.
Qed.

Lemma write_file_inv p c f f' : write_file p c f = Some f' -> f' = <[resolve f p := File c]> f.
Proof. unfold write_file. case_match; by intros [= <-]. Qed.

Lemma unlink_inv p f f' : unlink p f = Some f' -> f' = delete p f.
Proof. unfold unlink. repeat case_match; by intros [= <-]. Qed.
End FileSystem.

(** ** Writing a node record *)
Section WriteRecord.
Context `{LEnv : LoginEnv} `{DEnv : DbEnv}.
Implicit Types rec : memory.

Definition old_of rec : list Z :=
  old_portal (get_str rec "name") (get_str rec "conn[0].address") (get_int rec "conn[0].port").
Definition dir_of rec : list Z :=
  portal_dir (get_str rec "name") (get_str rec "conn[0].address") (get_int rec "conn[0].port") (get_int rec "tpgt").
Definition conf_text rec : list Z :=
  portal_conf (get_str rec "name") (get_str rec "conn[0].address") (get_int rec "conn[0].port") (get_int rec "tpgt")
    (get_str rec "iface.name").

(** The file of a record: in the directory of its portal, or, without a portal
    group, in place of it. *)
Definition rec_file rec : path :=
  if decide (get_int rec "tpgt" = PORTAL_GROUP_TAG_UNKNOWN) then old_of rec else conf_text rec.

Definition path_fits rec : Prop := length (conf_text rec) < PATH_MAX.

Lemma to_path_fits s : length s < PATH_MAX -> to_path s = s.
Proof. intros H. unfold to_path. apply take_ge. lia. Qed.

Lemma paths_of rec : path_fits rec ->
  to_path (old_of rec) = old_of rec /\ to_path (dir_of rec) = dir_of rec /\ to_path (conf_text rec) = conf_text rec /\
  old_of rec <> dir_of rec /\ old_of rec <> conf_text rec /\ dir_of rec <> conf_text rec.
Proof.
  intros H. unfold path_fits, conf_text, portal_conf, dir_of, portal_dir in *. fold (old_of rec) in *.
  rewrite !length_app in H. change (length (str ",")) with 1 in H. change (length (str "/")) with 1 in H.
  assert (forall a b : list Z, length a <> length b -> a <> b) as Hne by (intros a b Hl ->; done).
  rewrite !to_path_fits by (rewrite ?length_app; change (length (str ",")) with 1; change (length (str "/")) with 1; lia).
  repeat split; apply Hne; rewrite !length_app; change (length (str ",")) with 1; change (length (str "/")) with 1; lia.
Qed.

Lemma prefix_old rec : NODE_CONFIG_DIR `prefix_of` old_of rec.
Proof. unfold old_of, old_portal. by eexists. Qed.

Lemma prefix_dir rec : NODE_CONFIG_DIR `prefix_of` dir_of rec.
Proof. unfold dir_of, portal_dir. apply prefix_app_r, prefix_old. Qed.

Lemma prefix_conf rec : NODE_CONFIG_DIR `prefix_of` conf_text rec.
Proof. unfold conf_text, portal_conf. apply prefix_app_r, prefix_dir. Qed.

(** What a step did: the files of others are as before. *)
Definition keeps_files (own : list path) (f f' : filesys) : Prop :=
  forall q c, q ∉ own -> f !! q = Some (File c) -> f' !! q = Some (File c).

Lemma open_conf_inv p rec s s' :
  no_links (fs s) -> NODE_CONFIG_DIR `prefix_of` p -> open_conf p rec s = Some (0%Z, s') ->
  fs s' = <[p := File (idbm_print IDBM_PRINT_TYPE_NODE rec true false)]> (fs s) /\ refs s' = refs s.
Proof.
  intros Hn Hp. unfold open_conf, mthen, mret'. destruct (syscall _ s) as [[b s1]|] eqn:E; [|done].
  apply syscall_inv in E. destruct b; intros [= <-]. destruct E as (f & Hf & ->). apply write_file_inv in Hf as ->.
  destruct (stat_plain (fs s) p Hn Hp) as [_ ->]. done.
Qed.

Lemma ensure_dir_keeps p s s' :
  ensure_dir p s = Some (0%Z, s') ->
  (no_links (fs s) -> no_links (fs s')) /\ keeps_files [] (fs s) (fs s') /\
  (forall q, q <> p -> fs s' !! q = fs s !! q).
Proof.
  intros [->|[Hp ->]]%ensure_dir_inv; [split; [done|]; split; [by intros q c _|done]|]. rewrite fs_set. split; [intros Hn; by apply no_links_insert|].
  split.
  - intros q c _ Hq. destruct (decide (p = q)) as [->|Hd]; [|by rewrite lookup_insert_ne].
    assert (resolve (fs s) q = q) as Hr by (unfold resolve; by rewrite Hq). rewrite Hr in Hp. congruence.
  - intros q Hq. by rewrite lookup_insert_ne.
Qed.

Lemma mkdir_portal_inv rec s s' :
  no_links (fs s) -> path_fits rec -> fs s !! old_of rec = None -> mkdir_portal rec s = Some (0%Z, s') ->
  fs s' !! conf_text rec = Some (File (idbm_print IDBM_PRINT_TYPE_NODE rec true false)) /\
  fs s' !! old_of rec = None /\ no_links (fs s') /\ keeps_files [conf_text rec] (fs s) (fs s').
Proof.
  intros Hn Hfit Hold. destruct (paths_of rec Hfit) as (_ & Hd & Hc & Hod & Hoc & _).
  unfold mkdir_portal, mthen at 1. fold (dir_of rec) (conf_text rec). rewrite Hd, Hc.
  destruct (ensure_dir (dir_of rec) s) as [[rc s1]|] eqn:E; [|done].
  destruct (truth rc) eqn:Erc. { intros [= ->]. done. }
  apply truth_false in Erc as ->.
  destruct (ensure_dir_keeps _ _ _ E) as (Hn1 & Hk1 & Hf1). specialize (Hn1 Hn).
  intros (Hfs & _)%open_conf_inv; [|done|apply prefix_conf]. rewrite Hfs. repeat split.
  - by rewrite lookup_insert_eq.
  - rewrite lookup_insert_ne by done. by rewrite Hf1.
  - by apply no_links_insert.
  - intros q c Hq H. apply not_elem_of_cons in Hq as [Hq _]. rewrite lookup_insert_ne by done.
    apply Hk1; [apply not_elem_of_nil|done].
Qed.

Lemma rec_write_locked_inv rec s s' :
  no_links (fs s) -> path_fits rec -> rec_write_locked rec s = Some (0%Z, s') ->
  fs s' !! rec_file rec = Some (File (idbm_print IDBM_PRINT_TYPE_NODE rec true false)) /\
  (get_int rec "tpgt" <> PORTAL_GROUP_TAG_UNKNOWN -> fs s' !! old_of rec = None) /\
  no_links (fs s') /\ keeps_files [old_of rec; rec_file rec] (fs s) (fs s').
Proof.
  intros Hn Hfit. destruct (paths_of rec Hfit) as (Ho & _). pose proof (prefix_old rec) as Hpo.
  unfold rec_write_locked, mthen at 1, mstat, mthen at 1, mget, mret' at 1. fold (old_of rec). rewrite Ho.
  destruct (stat_plain (fs s) _ Hn Hpo) as [-> _]. unfold rec_file.
  assert (forall s1 : dbstate, fs s1 !! old_of rec = None -> no_links (fs s1) -> get_int rec "tpgt" <> PORTAL_GROUP_TAG_UNKNOWN ->
    keeps_files [old_of rec] (fs s) (fs s1) -> mkdir_portal rec s1 = Some (0%Z, s') ->
    fs s' !! conf_text rec = Some (File (idbm_print IDBM_PRINT_TYPE_NODE rec true false)) /\
    (get_int rec "tpgt" <> PORTAL_GROUP_TAG_UNKNOWN -> fs s' !! old_of rec = None) /\
    no_links (fs s') /\ keeps_files [old_of rec; conf_text rec] (fs s) (fs s')) as Hmk.
  { intros s1 Hs1 Hn1 Ht Hk1 (H1 & H2 & H3 & H4)%mkdir_portal_inv; [|done..]. repeat split; try done.
    intros q c Hq Hc. apply not_elem_of_cons in Hq as [Hqo Hq]. apply H4; [done|]. apply Hk1; [|done].
    by apply not_elem_of_cons; split; [|apply not_elem_of_nil]. }
  assert (open_conf (old_of rec) rec s = Some (0%Z, s') -> get_int rec "tpgt" = PORTAL_GROUP_TAG_UNKNOWN ->
    fs s' !! old_of rec = Some (File (idbm_print IDBM_PRINT_TYPE_NODE rec true false)) /\
    (get_int rec "tpgt" <> PORTAL_GROUP_TAG_UNKNOWN -> fs s' !! old_of rec = None) /\
    no_links (fs s') /\ keeps_files [old_of rec; old_of rec] (fs s) (fs s')) as Hop.
  { intros (Hfs & _)%open_conf_inv Ht; [|done..]. rewrite Hfs. repeat split; [by rewrite lookup_insert_eq|done|by apply no_links_insert|].
    intros q c Hq Hc. apply not_elem_of_cons in Hq as [Hqo Hq]. by rewrite lookup_insert_ne. }
  destruct (fs s !! old_of rec) as [n|] eqn:E.
  - destruct n as [|c|t]; [done| |by destruct (Hn _ t Hpo)]. case_bool_decide as Ht.
    + rewrite decide_True by done. auto.
    + rewrite decide_False by done. unfold mthen.
      destruct (syscall (unlink (old_of rec)) s) as [[b s1]|] eqn:Es; [|done]. apply syscall_inv in Es.
      destruct b; [|done]. destruct Es as (f & ->%unlink_inv & ->).
      apply Hmk; rewrite ?fs_set; [by rewrite lookup_delete_eq|by apply no_links_delete|done|].
      intros q c' Hq Hc. apply not_elem_of_cons in Hq as [Hqo _]. by rewrite lookup_delete_ne.
  - case_bool_decide as Ht; [rewrite decide_True by done; auto|]. rewrite decide_False by done.
    apply (Hmk s); try done. by intros q c _.
Qed.

Lemma idbm_rec_write_inv rec s s' :
  no_links (fs s) -> path_fits rec -> idbm_rec_write rec true s = Some (0%Z, s') ->
  fs s' !! rec_file rec = Some (File (idbm_print IDBM_PRINT_TYPE_NODE rec true false)) /\
  (get_int rec "tpgt" <> PORTAL_GROUP_TAG_UNKNOWN -> fs s' !! old_of rec = None) /\
  no_links (fs s') /\ keeps_files [old_of rec; rec_file rec] (fs s) (fs s').
Proof.
  intros Hn Hfit. unfold idbm_rec_write. destruct (negb _); [done|].
  unfold mthen at 1. destruct (ensure_dir (to_path NODE_CONFIG_DIR) s) as [[rc s1]|] eqn:E1; [|done].
  destruct (truth rc) eqn:Er. { intros [= ->]. done. }
  apply truth_false in Er as ->.
  unfold mthen at 1. destruct (ensure_dir _ s1) as [[rc s2]|] eqn:E2; [|done].
  destruct (truth rc) eqn:Er2. { intros [= ->]. done. }
  apply truth_false in Er2 as ->.
  destruct (ensure_dir_keeps _ _ _ E1) as (Hn1 & Hk1 & _). destruct (ensure_dir_keeps _ _ _ E2) as (Hn2 & Hk2 & _).
  unfold mthen at 1, mret' at 1. cbn [truth Z.eqb negb]. unfold mthen at 1.
  destruct (rec_write_locked rec s2) as [[rc s3]|] eqn:E3; [|done]. cbn [mwhen negb]. unfold mthen, mret'.
  intros [= -> ->]. apply rec_write_locked_inv in E3 as (H1 & H2 & H3 & H4); [|auto..].
  repeat split; try done. intros q c Hq Hc. apply H4; [done|]. apply Hk2; [apply not_elem_of_nil|].
  apply Hk1; [apply not_elem_of_nil|done].
Qed.

(** ** Reading it back *)
Context (Hmalloc : forall n, malloc n = true).

Lemma info_alloc : idbm_recinfo_alloc MAX_KEYS = Some (replicate MAX_KEYS zero_recinfo).
Proof. unfold idbm_recinfo_alloc. by rewrite Hmalloc. Qed.

Lemma unused_rest n : unused (drop n (replicate MAX_KEYS zero_recinfo)).
Proof. unfold unused. apply Forall_drop, Forall_replicate. done. Qed.

(** The record that is read from a file with content [c]. *)
Lemma rec_read_file out p c s info rec' :
  no_links (fs s) -> NODE_CONFIG_DIR `prefix_of` p -> sys_ok OpRead p = true -> fs s !! p = Some (File c) ->
  idbm_recinfo_config
    (fill (node_rows ISCSI_IFACE_TYPE_IPV4 idbm_node_setup_defaults) (replicate MAX_KEYS zero_recinfo))
    idbm_node_setup_defaults c = Some (info, rec') ->
  __idbm_rec_read out p true s = Some ((0%Z, rec'), s).
Proof.
  intros Hn Hp Hs Hf Hc. unfold __idbm_rec_read. rewrite info_alloc. unfold mthen at 1, mret' at 1. cbn [truth Z.eqb negb].
  unfold mthen, mget, fopen_r. rewrite Hs. destruct (stat_plain (fs s) p Hn Hp) as [-> _]. rewrite Hf.
  unfold idbm_recinfo_node. rewrite default_iptype. unfold mopt. rewrite Hc. done.
Qed.

(** [idbm_rec_read] finds the file. *)
Lemma rec_read_finds out rec s c info rec' :
  no_links (fs s) -> path_fits rec -> get_str rec "iface.name" <> [] -> sys_ok OpRead (rec_file rec) = true ->
  fs s !! rec_file rec = Some (File c) ->
  (get_int rec "tpgt" <> PORTAL_GROUP_TAG_UNKNOWN -> fs s !! old_of rec = None) ->
  idbm_recinfo_config
    (fill (node_rows ISCSI_IFACE_TYPE_IPV4 idbm_node_setup_defaults) (replicate MAX_KEYS zero_recinfo))
    idbm_node_setup_defaults c = Some (info, rec') ->
  idbm_rec_read out (get_str rec "name") (get_int rec "tpgt") (get_str rec "conn[0].address") (get_int rec "conn[0].port")
    (get_str rec "iface.name") true s = Some ((0%Z, rec'), s).
Proof.
  intros Hn Hfit Hi Hs Hf Ho Hc. destruct (paths_of rec Hfit) as (Hpo & _ & Hpc & _).
  unfold idbm_rec_read. rewrite Hmalloc. cbn [negb]. fold (old_of rec) (conf_text rec). rewrite Hpo, Hpc.
  unfold mthen at 1, mstat, mthen at 1, mget, mret' at 1.
  destruct (stat_plain (fs s) _ Hn (prefix_old rec)) as [-> _]. unfold rec_file in *.
  destruct (decide (get_int rec "tpgt" = PORTAL_GROUP_TAG_UNKNOWN)) as [Ht|Ht].
  - rewrite Hf. eapply rec_read_file; try done. apply prefix_old.
  - rewrite (Ho Ht), decide_False by done. unfold mthen, mret'.
    destruct (stat_plain (fs s) _ Hn (prefix_conf rec)) as [-> _]. rewrite Hf.
    eapply rec_read_file; try done. apply prefix_conf.
Qed.
End WriteRecord.

(** ** Records survive *)
Section RoundTrip.
Context `{LEnv : LoginEnv} `{DEnv : DbEnv}.
Context (Hmalloc : forall n, malloc n = true).

Lemma tail_elem t r i e : node_rows_tail r !! i = Some e -> e ∈ node_rows t r.
Proof.
  intros H. unfold node_rows. apply elem_of_app. right. apply elem_of_app. right. apply elem_of_app. left.
  by apply list_elem_of_lookup_2 in H.
Qed.

(** What is read from the text of an IPv4 record. *)
Lemma read_printed rec :
  iface_get_iptype "iface." rec = ISCSI_IFACE_TYPE_IPV4 -> node_ok rec ->
  exists info rec',
    idbm_recinfo_config
      (fill (node_rows ISCSI_IFACE_TYPE_IPV4 idbm_node_setup_defaults) (replicate MAX_KEYS zero_recinfo))
      idbm_node_setup_defaults (idbm_print IDBM_PRINT_TYPE_NODE rec true false) = Some (info, rec') /\
    (forall e, e ∈ idbm_recinfo_node rec -> ri_visible e <> IDBM_HIDE ->
       field_of e rec' = field_of e (if decide (field_text e rec = []) then idbm_node_setup_defaults else rec)) /\
    get_int rec' "session.auth.password_length" = Z.of_nat (length (get_str rec "session.auth.password")) /\
    get_int rec' "session.auth.password_in_length" = Z.of_nat (length (get_str rec "session.auth.password_in")).
Proof.
  intros Ht Hok. unfold node_ok, idbm_recinfo_node in Hok. rewrite Ht in Hok.
  unfold idbm_print. rewrite (info_alloc Hmalloc). cbn [recinfo_of]. unfold idbm_recinfo_node. rewrite Ht. unfold fill.
  set (m := idbm_node_setup_defaults). set (T := node_rows ISCSI_IFACE_TYPE_IPV4) in *.
  destruct (config_restores Hmalloc T rec m (drop (length (T m)) (replicate MAX_KEYS zero_recinfo))
              (drop (length (T rec)) (replicate MAX_KEYS zero_recinfo)) (unused_rest _) Hok) as [info Hc].
  exists info. eexists. split; [exact Hc|]. split; [|split].
  - intros e He Hv. apply (restore_visible Hmalloc T); [apply unused_rest|done|done|by apply Hok|].
    destruct (table_elem T rec m e He) as (e' & He' & Hs). apply (field_ok_shape e' e); [done|]. by apply default_node_ok in He'.
  - erewrite (restore_password T rec m _ _ _ "session.auth.password" "session.auth.password_length"
      (unused_rest _) (tail_elem _ rec 35 _ eq_refl) (tail_elem _ rec 36 _ eq_refl)); try reflexivity; try done.
    + case_decide as E; [by rewrite E|done].
    + apply (bool_decide_unpack _). by vm_compute.
    + apply Hok; [|done]. by apply (tail_elem _ rec 35).
  - erewrite (restore_password T rec m _ _ _ "session.auth.password_in" "session.auth.password_in_length"
      (unused_rest _) (tail_elem _ rec 38 _ eq_refl) (tail_elem _ rec 39 _ eq_refl)); try reflexivity; try done.
    + case_decide as E; [by rewrite E|done].
    + apply (bool_decide_unpack _). by vm_compute.
    + apply Hok; [|done]. by apply (tail_elem _ rec 38).
Qed.
End RoundTrip.
