(* ===== verification/IdbmLock.v ===== *)
(** * The record database: the lock

    [idbm_lock] counts its holders; the operations of the database release the
    lock as often as they take it. *)
From Stdlib Require Import ZArith Lia Ascii.
From stdpp Require Import base tactics numbers list strings option gmap.
From S2P Require Import Prelude StateM CString Login Idbm IdbmTables IdbmOps.

Section Lock.
Context `{LEnv : LoginEnv} `{DEnv : DbEnv}.

(** The lock is held as often after the operation as before. *)
Definition balanced {A} (m : M dbstate A) : Prop :=
  forall s a s', (0 <= refs s)%Z -> m s = Some (a, s') -> refs s' = refs s.

Lemma balanced_ret {A} (a : A) : balanced (mret' a).
Proof. by intros s b s' _ [= _ <-]. Qed.

Lemma balanced_get : balanced mget.
Proof. by intros s b s' _ [= _ <-]. Qed.

Lemma balanced_opt {A} (o : option A) : balanced (mopt o).
Proof. intros s b s' _. unfold mopt. destruct o; cbn; by intros [= _ <-]. Qed.

Lemma balanced_then {A B} (m : M dbstate A) (k : A -> M dbstate B) :
  balanced m -> (forall a, balanced (k a)) -> balanced (mthen m k).
Proof.
  intros Hm Hk s b s' Hr. unfold mthen. destruct (m s) as [[a s1]|] eqn:E; [|done]. intros H.
  pose proof (Hm _ _ _ Hr E) as E1. rewrite <- E1 in Hr |- *. by apply (Hk a _ b).
Qed.

Lemma balanced_syscall op : balanced (syscall op).
Proof.
  intros s b s' _. unfold syscall, mthen, mget, mmod, mret'. destruct (op (fs s)); by intros [= _ <-].
Qed.

Lemma balanced_mod_fs g : balanced (mmod (fun s => s <| fs := g s |>)).
Proof. by intros s b s' _ [= _ <-]. Qed.

Lemma lock_loop_refs n : forall i s rc s',
  lock_loop n i s = Some (rc, s') -> refs s' = if truth rc then refs s else 1%Z.
Proof.
  induction n as [|n IH]; intros i s rc s'; cbn [lock_loop].
  { unfold mthen, mmod, mret'. by intros [= <- <-]. }
  unfold mthen at 1, mget. destruct (link_error i); [by intros [= <- <-]|].
  destruct (_ || _); [apply IH|]. unfold mthen, mmod, mret'. by intros [= <- <-].
Qed.

(** [idbm_lock]: one holder more, or an error and nothing changed. *)
Lemma idbm_lock_refs s rc s' :
  (0 <= refs s)%Z -> idbm_lock s = Some (rc, s') -> refs s' = (if truth rc then refs s else refs s + 1)%Z.
Proof.
  intros Hr. unfold idbm_lock, mthen at 1, mget. destruct (decide (0 < refs s)%Z) as [Hp|Hp].
  { unfold mthen, mmod, mret'. by intros [= <- <-]. }
  destruct lock_dir_ready; [|by intros [= <- <-]]. intros ->%lock_loop_refs. destruct (truth rc); lia.
Qed.

Lemma idbm_unlock_refs s a s' : (0 < refs s)%Z -> idbm_unlock s = Some (a, s') -> refs s' = (refs s - 1)%Z.
Proof.
  intros Hr. unfold idbm_unlock, mthen, mget, mmod. destruct (decide (1 < refs s)%Z).
  - by intros [= _ <-].
  - intros [= _ <-]. change (0 = refs s - 1)%Z. lia.
Qed.

(** A section between [idbm_lock] and [idbm_unlock]. *)
Lemma balanced_locked {A B} (body : M dbstate A) (fail : Z -> B) (done : A -> B) :
  balanced body ->
  balanced (let! rc := idbm_lock in
            if truth rc then mret' (fail rc) else let! a := body in idbm_unlock ;;; mret' (done a)).
Proof.
  intros Hb s b s' Hr. unfold mthen at 1. destruct (idbm_lock s) as [[rc s1]|] eqn:E1; [|discriminate].
  apply idbm_lock_refs in E1; [|assumption]. destruct (truth rc). { by intros [= _ <-]. }
  unfold mthen. destruct (body s1) as [[a s2]|] eqn:E2; [|discriminate]. apply Hb in E2; [|lia].
  destruct (idbm_unlock s2) as [[u s3]|] eqn:E3; [|discriminate]. apply idbm_unlock_refs in E3; [|lia].
  intros [= _ <-]. lia.
Qed.
End Lock.

Create HintDb lock.
#[export] Hint Resolve balanced_ret balanced_get balanced_opt balanced_syscall balanced_mod_fs : lock.

(** Go through the steps of an operation. *)
Ltac balance :=
  repeat first
    [ solve [auto with lock]
    | apply balanced_locked
    | apply balanced_then; [|intros]
    | case_match ].

Section Operations.
Context `{LEnv : LoginEnv} `{DEnv : DbEnv}.

Lemma balanced_stat p : balanced (mstat p).
Proof. unfold mstat. balance. Qed.

Lemma balanced_ensure_dir p : balanced (ensure_dir p).
Proof. unfold ensure_dir. pose proof balanced_stat. balance. Qed.

Hint Resolve balanced_stat balanced_ensure_dir : lock.

Lemma balanced_rec_write_locked rec : balanced (rec_write_locked rec).
Proof. unfold rec_write_locked, mkdir_portal, open_conf. balance. Qed.

Hint Resolve balanced_rec_write_locked : lock.

(** The same without the lock. *)
Lemma balanced_maybe_locked {A B} (b : bool) (body : M dbstate A) (fail : Z -> B) (done : A -> B) :
  balanced body ->
  balanced (let! rc := if b then mret' 0%Z else idbm_lock in
            if truth rc then mret' (fail rc)
            else let! a := body in mwhen (negb b) idbm_unlock ;;; mret' (done a)).
Proof. intros Hb. destruct b; cbn [negb mwhen]; [|by apply balanced_locked]. balance. Qed.

Lemma balanced_rec_write rec b : balanced (idbm_rec_write rec b).
Proof.
  unfold idbm_rec_write. destruct (negb _); [balance|]. apply balanced_then; [balance|]. intros rc.
  destruct (truth rc); [balance|]. apply balanced_then; [balance|]. intros rc'. destruct (truth rc'); [balance|].
  apply (balanced_maybe_locked b (rec_write_locked rec) id id). balance.
Qed.

Lemma balanced__rec_read out p b : balanced (__idbm_rec_read out p b).
Proof.
  unfold __idbm_rec_read. destruct (idbm_recinfo_alloc MAX_KEYS) as [info|]; [|balance].
  match goal with |- balanced (mthen _ (fun rc => if truth rc then _ else mthen ?body _)) =>
    apply (balanced_maybe_locked b body (fun rc => (rc, out)) id) end. balance.
Qed.

Hint Resolve balanced__rec_read balanced_rec_write : lock.

Lemma balanced_rec_read out name tpgt ip port iface b : balanced (idbm_rec_read out name tpgt ip port iface b).
Proof. unfold idbm_rec_read. balance. Qed.

Lemma balanced_discovery_read out t addr port : balanced (idbm_discovery_read out t addr port).
Proof.
  unfold idbm_discovery_read. case_decide; [balance|]. destruct (idbm_recinfo_alloc MAX_KEYS) as [info|]; [|balance].
  destruct (negb _); [balance|].
  match goal with |- balanced (mthen _ (fun rc => if truth rc then _ else mthen ?body _)) =>
    apply (balanced_locked body (fun rc => (rc, _)) id) end. balance.
Qed.

Lemma balanced_discovery_write rec : balanced (idbm_discovery_write rec).
Proof.
  unfold idbm_discovery_write. case_decide; [balance|]. destruct (negb _); [balance|].
  match goal with |- balanced (mthen _ (fun rc => if truth rc then _ else mthen ?body _)) =>
    apply (balanced_locked body id id) end. unfold idbm_open_rec_w. balance.
Qed.

Hint Resolve balanced_rec_read balanced_discovery_read balanced_discovery_write : lock.

Lemma balanced_setup_link rec : balanced (setup_disc_to_node_link rec).
Proof. unfold setup_disc_to_node_link. balance. Qed.

Hint Resolve balanced_setup_link : lock.

Lemma balanced_remove_link rec : balanced (idbm_remove_disc_to_node_link rec).
Proof.
  unfold idbm_remove_disc_to_node_link. destruct (negb _); [balance|]. apply balanced_then; [balance|]. intros [rc tmprec].
  destruct (truth rc); [balance|]. apply balanced_then; [balance|]. intros [rc' portal]. destruct (truth rc'); [balance|].
  match goal with |- balanced (mthen _ (fun rc => if truth rc then _ else mthen ?body _)) =>
    apply (balanced_locked body id id) end. balance.
Qed.

Hint Resolve balanced_remove_link : lock.

Lemma balanced_remove_dirs rec : balanced (remove_dirs rec).
Proof. unfold remove_dirs. balance. Qed.

Lemma balanced_find_conf rec : balanced (find_conf rec).
Proof. unfold find_conf. balance. Qed.

Lemma balanced_iface_write iface : balanced (iface_conf_write iface).
Proof.
  unfold iface_conf_write. destruct (iface_match_default iface); [balance|]. destruct (negb _); [balance|].
  apply balanced_then; [balance|]. intros p. apply balanced_then; [balance|]. intros ok. destruct (negb ok); [balance|].
  match goal with |- balanced (mthen _ (fun rc => if truth rc then _ else mthen ?body _)) =>
    apply (balanced_locked body id (fun _ => 0%Z)) end. balance.
Qed.

Lemma balanced_iface_delete iface : balanced (iface_conf_delete iface).
Proof.
  unfold iface_conf_delete. destruct (iface_match_default iface); [balance|]. destruct (negb _); [balance|].
  apply balanced_then; [balance|]. intros p.
  match goal with |- balanced (mthen _ (fun rc => if truth rc then _ else mthen ?body _)) =>
    apply (balanced_locked body id (fun ok : bool => if ok then 0%Z else ISCSI_ERR_IDBM)) end. balance.
Qed.

(** [idbm_delete_node] may keep the lock: it does when the directory of the
    portal cannot be read. *)
Lemma delete_node_refs rec s rc s' :
  (0 <= refs s)%Z -> idbm_delete_node rec s = Some (rc, s') ->
  refs s' = refs s \/ (rc = 0%Z /\ refs s' = (refs s + 1)%Z).
Proof.
  intros Hr. unfold idbm_delete_node. destruct (negb (malloc PATH_MAX)). { intros [= _ <-]. by left. }
  unfold mthen at 1. destruct (idbm_remove_disc_to_node_link rec s) as [[rc0 s0]|] eqn:E0; [|done].
  apply balanced_remove_link in E0; [|done]. destruct (truth rc0). { intros [= _ <-]. by left. }
  unfold mthen at 1. destruct (idbm_lock s0) as [[rc1 s1]|] eqn:E1; [|done].
  apply idbm_lock_refs in E1; [|lia]. destruct (truth rc1). { intros [= _ <-]. left. lia. }
  unfold mthen at 1. destruct (find_conf rec s1) as [[conf s2]|] eqn:E2; [|done].
  apply balanced_find_conf in E2; [|lia].
  assert (forall (x : Z) s3 (r : Z) s'', refs s3 = (refs s + 1)%Z -> (idbm_unlock ;;; mret' r)%iscsi s3 = Some (x, s'') ->
    refs s'' = refs s) as Hun.
  { intros x s3 r s'' H3. unfold mthen. destruct (idbm_unlock s3) as [[u s4]|] eqn:E4; [|done].
    apply idbm_unlock_refs in E4; [|lia]. intros [= _ <-]. lia. }
  destruct conf as [conf|]; [|intros H; left; eapply (Hun _ s2); [lia|exact H]].
  unfold mthen at 1. destruct (syscall (unlink conf) s2) as [[ok s3]|] eqn:E3; [|done].
  apply balanced_syscall in E3; [|lia]. destruct (negb ok); [intros H; left; eapply (Hun _ s3); [lia|exact H]|].
  unfold mthen at 1. destruct (remove_dirs rec s3) as [[u s4]|] eqn:E4; [|done]. apply balanced_remove_dirs in E4; [|lia].
  destruct u; cbn [mwhen].
  - intros H. left. eapply (Hun _ s4); [lia|exact H].
  - unfold mthen, mret'. intros [= <- <-]. right. split; [done|lia].
Qed.

(** Some call of [idbm_delete_node] reported success and kept the lock. *)
Definition deletion_kept_lock : Prop :=
  exists rec s s', idbm_delete_node rec s = Some (0%Z, s') /\ refs s' = (refs s + 1)%Z.

(** [idbm_add_node] keeps the lock only through a deletion that does. *)
Lemma replace_existing_refs rec newrec drec s a s' :
  (0 <= refs s)%Z -> replace_existing rec newrec drec s = Some (a, s') ->
  refs s' = refs s \/ (deletion_kept_lock /\ refs s' = (refs s + 1)%Z).
Proof.
  intros Hr. unfold replace_existing, mthen at 1. destruct (idbm_delete_node rec s) as [[rc s1]|] eqn:E; [|done].
  intros H. assert (refs s' = refs s1) as ->.
  { revert H. assert (0 <= refs s1)%Z as Hr1 by (apply delete_node_refs in E; lia).
    destruct (truth rc); [by intros [= _ <-]|]. apply (balanced_then (mopt drec)); [balance|intros d; balance|done]. }
  destruct (delete_node_refs rec s rc s1 Hr E) as [?|[-> ?]]; [by left|]. right. split; [|done]. by exists rec, s, s1.
Qed.

Lemma balanced_write_and_link newrec drec : balanced (write_and_link newrec drec).
Proof. unfold write_and_link. destruct drec; balance. Qed.

Lemma add_node_refs newrec drec overwrite s rc s' :
  (0 <= refs s)%Z -> idbm_add_node newrec drec overwrite s = Some (rc, s') ->
  refs s' = refs s \/ (overwrite = true /\ deletion_kept_lock /\ refs s' = (refs s + 1)%Z).
Proof.
  intros Hr. unfold idbm_add_node, mthen at 1. destruct (idbm_lock s) as [[rc1 s1]|] eqn:E1; [|done].
  apply idbm_lock_refs in E1; [|done]. destruct (truth rc1). { intros [= _ <-]. by left. }
  unfold mthen at 1. destruct (idbm_rec_read _ _ _ _ _ _ _ s1) as [[[found rec] s2]|] eqn:E2; [|done].
  apply balanced_rec_read in E2; [|lia]. unfold mthen at 1.
  match goal with |- context [match ?m s2 with _ => _ end] => destruct (m s2) as [[rc3 s3]|] eqn:E3; [|done] end.
  assert (refs s3 = refs s2 \/ (overwrite = true /\ deletion_kept_lock /\ refs s3 = (refs s2 + 1)%Z)) as H3.
  { revert E3. destruct (truth found), overwrite; cbn [negb andb].
    1,2: intros E3; left; change (write_and_link newrec drec s2 = Some (rc3, s3)) in E3; apply balanced_write_and_link in E3; [done|lia].
    - unfold mthen at 1. destruct (replace_existing rec newrec drec s2) as [[[rc4 nr] s4]|] eqn:E4; [|done].
      apply replace_existing_refs in E4; [|lia]. intros E5. assert (refs s3 = refs s4) as ->.
      { revert E5. destruct (truth rc4); [by intros [= _ <-]|]. apply balanced_write_and_link. lia. }
      destruct E4 as [?|[? ?]]; [by left|by right].
    - intros [= _ <-]. by left. }
  unfold mthen. destruct (idbm_unlock s3) as [[u s4]|] eqn:E4; [|done]. apply idbm_unlock_refs in E4; [|lia].
  intros [= _ <-]. destruct H3 as [?|(? & ? & ?)]; [left; lia|right; split_and!; [done..|lia]].
Qed.
End Operations.
