(* ===== verification/IdbmTheorems.v ===== *)
(** * The record database: theorems

    Records that are written are read back; updates respect the parameters that
    identify a record; the arrays of the parser; the lock; and the defects that
    the model shows. *)
From Stdlib Require Import ZArith Lia Ascii.
From stdpp Require Import base tactics numbers list strings option gmap.
From S2P Require Import Prelude StateM CString Login Idbm IdbmTables IdbmOps IdbmParse IdbmUpdate IdbmRestore.
From S2P Require Import IdbmFiles IdbmLock.

(** ** Setting parameters *)
Section SetParam.
Context `{LEnv : LoginEnv}.

Lemma verify_param_modifiable info name :
  idbm_verify_param info name = 0%Z <-> exists e, find (fun e => bool_decide (name = ri_name e)) info = Some e /\ ri_can_modify e = true.
Proof.
  induction info as [|e info IH]; cbn [idbm_verify_param find].
  { split; [done|]. by intros (? & ? & _). }
  destruct (decide (name = ri_name e)) as [Hn|Hn].
  - rewrite bool_decide_true by done. destruct (ri_can_modify e) eqn:E.
    + split; [eauto|done].
    + split; [done|]. intros (x & [= <-] & ?). congruence.
  - by rewrite bool_decide_false.
Qed.

Lemma verify_all_ok info params :
  verify_all info params = 0%Z -> forall p, p ∈ params -> idbm_verify_param info p.1 = 0%Z.
Proof.
  induction params as [|[n v] params IH]; intros H p Hp; [by apply not_elem_of_nil in Hp|]. cbn [verify_all] in H.
  destruct (truth (idbm_verify_param info n)) eqn:E; [by rewrite H in E|].
  apply elem_of_cons in Hp as [->|Hp]; [|by apply IH]. by apply truth_false.
Qed.

Lemma update_all_frame params : forall (info : list recinfo) (m : memory) (f : string),
  (forall e p, e ∈ info -> p ∈ params -> targets p.1 (ri_name e) -> ri_data e <> Some f) ->
  (update_all info params m).2 !! f = m !! f.
Proof.
  induction params as [|[n v] params IH]; intros info m f Hf; [done|]. cbn [update_all].
  pose proof (update_param_keeps info n v m) as Hk.
  assert ((idbm_rec_update_param info n v m).2 !! f = m !! f) as H1.
  { apply update_param_frame. intros e He Ht. apply (Hf e (n, v)); [done|by left|done]. }
  destruct (idbm_rec_update_param info n v m) as [[rc i] m']. cbn in H1, Hk. destruct (truth rc); [done|].
  rewrite IH; [done|]. intros e p He Hp Ht. destruct (shape_elem i info e Hk He) as (e' & He' & Hs).
  rewrite (shape_data _ _ Hs). rewrite (shape_name _ _ Hs) in Ht. apply (Hf e' p); [done|by right|done].
Qed.

(** A parameter that cannot be modified keeps its field. *)
Lemma unmodifiable_kept T `{HT : !RecordTable T} r l params e f :
  unused l -> e ∈ T r -> ri_data e = Some f -> ri_can_modify e = false -> ri_name e ∉ length_keys ->
  verify_all (T r ++ l) params = 0%Z -> (update_all (T r ++ l) params r).2 !! f = r !! f.
Proof.
  intros Hu He Hf Hm Hnl Hv. apply update_all_frame. intros x p Hx Hp Ht Hd.
  apply (entry_of_field T r l x f Hu) in Hx; [|done].
  rewrite (shape_name x e) in Ht by by apply (same_field T r r x e f).
  destruct Ht as [Heq|[Hpp Heq]].
  - apply verify_all_ok with (p := p) in Hv; [|done]. apply verify_param_modifiable in Hv as (y & Hy & Hmod).
    apply find_some in Hy as [Hy Hn]. apply bool_decide_eq_true in Hn. apply list_elem_of_In in Hy.
    assert (y ∈ T r) as Hyt.
    { apply elem_of_app in Hy as [Hy|Hy]; [done|]. unfold unused in Hu. rewrite Forall_forall in Hu.
      by rewrite (Hu y Hy) in Hmod. }
    assert (shape y = shape e) as Hs by (apply (same_name T r r); [done..|congruence]).
    apply (f_equal ri_can_modify) in Hs. change (ri_can_modify y = ri_can_modify e) in Hs. congruence.
  - apply Hnl. rewrite Heq. unfold length_keys. apply list_elem_of_fmap. eauto.
Qed.

Lemma node_identity_keys t r e : e ∈ node_rows t r -> ri_can_modify e = false -> ri_name e ∉ length_keys /\ is_Some (ri_data e).
Proof.
  intros He Hm. destruct (table_elem (node_rows t) r ∅ e He) as (e' & He' & Hs). rewrite (shape_name _ _ Hs), (shape_data _ _ Hs).
  assert (ri_can_modify e' = false) as Hm'.
  { apply (f_equal ri_can_modify) in Hs. change (ri_can_modify e = ri_can_modify e') in Hs. congruence. }
  assert (Forall (fun e => ri_can_modify e = false -> ri_name e ∉ length_keys /\ is_Some (ri_data e)) (node_rows t ∅)) as H.
  { apply (bool_decide_unpack _). destruct t; by vm_compute. }
  rewrite Forall_forall in H. by apply H.
Qed.

(** What [idbm_node_set_rec_from_param] leaves alone. *)
Lemma set_params_keeps params rec e :
  e ∈ idbm_recinfo_node rec -> ri_can_modify e = false ->
  field_of e (idbm_node_set_rec_from_param params rec true).2 = field_of e rec.
Proof.
  intros He Hm. unfold idbm_node_set_rec_from_param. destruct (decide (params = [])); [done|].
  unfold idbm_recinfo_alloc. destruct (malloc _); [|done].
  destruct (node_identity_keys _ _ _ He Hm) as [Hnl [f Hf]].
  destruct (truth (verify_all _ params)) eqn:Ev; [done|]. apply truth_false in Ev.
  apply (field_of_ext e _ _ f Hf). unfold idbm_recinfo_node, fill in *.
  by apply (unmodifiable_kept (node_rows (iface_get_iptype "iface." rec)) rec _ params e f); [apply unused_rest|..].
Qed.

(** Requests for other parameters are refused. *)
Lemma set_params_refused params rec p :
  p ∈ params -> (forall e, e ∈ idbm_recinfo_node rec -> ri_name e = p.1 -> ri_can_modify e = false) ->
  (idbm_node_set_rec_from_param params rec true).2 = rec /\ (idbm_node_set_rec_from_param params rec true).1 <> 0%Z.
Proof.
  intros Hp Hall. unfold idbm_node_set_rec_from_param. destruct (decide (params = [])) as [->|_]; [by apply not_elem_of_nil in Hp|].
  unfold idbm_recinfo_alloc. destruct (malloc _); [|done].
  destruct (truth (verify_all _ params)) eqn:Ev; [|exfalso].
  - split; [done|]. intros E. cbn [fst] in E. by rewrite E in Ev.
  - apply truth_false in Ev.
    apply verify_all_ok with (p := p) in Ev; [|done]. apply verify_param_modifiable in Ev as (y & Hy & Hmod).
    apply find_some in Hy as [Hy Hn]. apply bool_decide_eq_true in Hn. apply list_elem_of_In in Hy. unfold fill in Hy.
    apply elem_of_app in Hy as [Hy|Hy]; [rewrite (Hall y) in Hmod; done|].
    pose proof (unused_rest (length (idbm_recinfo_node rec))) as Hu. unfold unused in Hu. rewrite Forall_forall in Hu.
    by rewrite (Hu y Hy) in Hmod.
Qed.
End SetParam.

(** The row of a parameter that identifies a record. *)
Lemma head_elem t r i e : node_rows_head r !! i = Some e -> e ∈ node_rows t r.
Proof. intros H. unfold node_rows. apply elem_of_app. left. by apply list_elem_of_lookup_2 in H. Qed.

Lemma conn_elem t r i e : node_rows_conn r !! i = Some e -> e ∈ node_rows t r.
Proof.
  intros H. unfold node_rows. do 3 (apply elem_of_app; right). by apply list_elem_of_lookup_2 in H.
Qed.

(** C10: idbm_node_set_rec_from_param with verification ([verify] set, as
    idbm_node_set_param and so "iscsiadm -o update" call it) never changes a
    parameter that is used to look up the record: name, portal group, address and
    port keep their values whatever is asked for, so the record stays in the
    directory of its portal, also through idbm_node_set_param.  If one of the names
    is unknown or cannot be modified the call fails and no parameter of the record
    changes at all.  Without verification, as the tools call it for a record that
    they are about to make, nothing is refused: [DbExample.unverified_update_moves]. *)
Theorem identity_is_kept `{LEnv : LoginEnv} `{DEnv : DbEnv} (params : list user_param) (rec : memory) :
  let '(rc, rec') := idbm_node_set_rec_from_param params rec true in
  (forall e, e ∈ idbm_recinfo_node rec -> ri_can_modify e = false -> field_of e rec' = field_of e rec) /\
  dir_of rec' = dir_of rec /\
  ((exists p, p ∈ params /\ forall e, e ∈ idbm_recinfo_node rec -> ri_name e = p.1 -> ri_can_modify e = false) ->
   rec' = rec /\ rc <> 0%Z) /\
  (forall s rc2 rec2 s2, idbm_node_set_param params rec s = Some ((rc2, rec2), s2) -> rec2 = rec').
Proof.
  pose proof (set_params_keeps params rec) as Hk. pose proof (set_params_refused params rec) as Hr.
  unfold idbm_node_set_param.
  destruct (idbm_node_set_rec_from_param params rec true) as [rc rec']. cbn [fst snd] in Hk, Hr. split; [done|]. split.
  - assert (FStr (get_str rec' "name") = FStr (get_str rec "name")) as [= E1] by exact (Hk _ (head_elem _ rec 0 _ eq_refl) eq_refl).
    assert (FInt (get_int rec' "tpgt") = FInt (get_int rec "tpgt")) as [= E2] by exact (Hk _ (head_elem _ rec 1 _ eq_refl) eq_refl).
    assert (FStr (get_str rec' "conn[0].address") = FStr (get_str rec "conn[0].address")) as [= E3]
      by exact (Hk _ (conn_elem _ rec 0 _ eq_refl) eq_refl).
    assert (FInt (get_int rec' "conn[0].port") = FInt (get_int rec "conn[0].port")) as [= E4]
      by exact (Hk _ (conn_elem _ rec 1 _ eq_refl) eq_refl).
    unfold dir_of. by rewrite E1, E2, E3, E4.
  - split; [intros (p & Hp & Hall); by apply (Hr p)|]. intros s rc2 rec2 s2.
    destruct (truth rc); [by intros [= _ <- _]|].
    unfold mthen. destruct (idbm_rec_write rec' true s) as [[rc3 s3]|]; [|done]. by intros [= _ <- _].
Qed.

(** C9: A node record that idbm_rec_write stored is what idbm_rec_read returns
    for its target, portal and interface: every parameter that is printed has the
    value it had (a parameter whose text is empty gets its default), the lengths
    of the passwords are those of the passwords, and no other file of the database
    changed.  The conditions: memory is available and the file can be opened; the
    record names an interface, its path fits PATH_MAX and no links lie under the
    nodes; the interface is of the type that the table is built for (IPv4: for IPv6
    see [ipv6_parameters_lost]); the text format can carry the values ([node_ok]);
    the caller holds the lock ([disable_lock]). *)
Theorem record_is_read_back `{LEnv : LoginEnv} `{DEnv : DbEnv} (rec out : memory) (s s' : dbstate) :
  (forall n, malloc n = true) -> sys_ok OpRead (rec_file rec) = true ->
  no_links (fs s) -> path_fits rec -> get_str rec "iface.name" <> [] ->
  iface_get_iptype "iface." rec = ISCSI_IFACE_TYPE_IPV4 -> node_ok rec ->
  idbm_rec_write rec true s = Some (0%Z, s') ->
  exists rec',
    idbm_rec_read out (get_str rec "name") (get_int rec "tpgt") (get_str rec "conn[0].address")
      (get_int rec "conn[0].port") (get_str rec "iface.name") true s' = Some ((0%Z, rec'), s') /\
    (forall e, e ∈ idbm_recinfo_node rec -> ri_visible e <> IDBM_HIDE ->
       field_of e rec' = field_of e (if decide (field_text e rec = []) then idbm_node_setup_defaults else rec)) /\
    get_int rec' "session.auth.password_length" = Z.of_nat (length (get_str rec "session.auth.password")) /\
    get_int rec' "session.auth.password_in_length" = Z.of_nat (length (get_str rec "session.auth.password_in")) /\
    keeps_files [old_of rec; rec_file rec] (fs s) (fs s').
Proof.
  intros Hm Hs Hn Hfit Hi Ht Hok Hw. apply idbm_rec_write_inv in Hw as (Hf & Ho & Hn' & Hk); [|done..].
  destruct (read_printed Hm rec Ht Hok) as (info & rec' & Hc & H1 & H2 & H3).
  exists rec'. split; [|by repeat split]. by eapply (rec_read_finds Hm).
Qed.

(** C12: The parser of record and configuration files.  It stays inside name[128]
    and value[256] and reads the whole file when the text has no NUL and no line is
    longer than 127 characters.  A line may have 2047 characters, but the copy into
    value has no bound: a value of 256 characters or more, which the line buffer
    accepts, is written beyond the array. *)
Theorem parser_buffers `{LEnv : LoginEnv} (info : list recinfo) (m : memory) :
  (forall f, no_nul f -> lines_within (NAME_MAXVAL - 1) (NAME_MAXVAL - 1) f = true ->
     is_Some (idbm_recinfo_config info m f)) /\
  (forall k v rest, good_key k = true -> text_value v = true -> VALUE_MAXVAL <= length v ->
     length (line_of k v) < BUFFER_SIZE -> idbm_recinfo_config info m (line_of k v ++ rest) = None).
Proof.
  split.
  - intros f Hn Hw. by apply config_total.
  - intros k v rest Hk Hv Hl Hb. unfold idbm_recinfo_config.
    assert (length (line_of k v ++ rest) <> 0) as H0 by (rewrite length_app; unfold line_of; rewrite !length_app; cbn; lia).
    destruct (length (line_of k v ++ rest)) as [|n]; [done|]. cbn [config_loop].
    rewrite fgets_text; [|done|unfold text_value in Hv; rewrite !andb_true_iff in Hv; tauto|done].
    by rewrite parse_line_long.
Qed.


(** ** An example *)
Module DbExample.
#[export] Instance login_env : LoginEnv := {| getaddrinfo := fun _ _ => None; malloc := fun _ => true |}.

#[export] Instance db_env : DbEnv :=
  {| db_root := str "/etc/iscsi"; sys_ok := fun _ _ => true; lock_dir_ready := true;
     other_holds := fun _ => false; link_error := fun _ => false |}.

Definition start : dbstate := mk_dbstate {[db_root := Dir]} 0 false 0.

Definition node : memory :=
  <["name" := FStr (str "iqn.2003-01.org.linux-iscsi:disk1")]>
    (<["tpgt" := FInt 1]> (<["conn[0].address" := FStr (str "192.168.0.7")]>
      (<["session.auth.username" := FStr (str "joe the user")]>
        (<["session.auth.password" := FStr (str "a long secret")]> idbm_node_setup_defaults)))).

Definition written : dbstate := match idbm_rec_write node true start with Some (_, s) => s | None => start end.

Lemma start_no_links : no_links (fs start).
Proof. intros p t _ H. cbn in H. by apply lookup_singleton_Some in H as [_ ?]. Qed.

Lemma node_is_ok : node_ok node.
Proof.
  intros e He _. assert (forallb (fun e => field_okb e node) (idbm_recinfo_node node) = true) as H by (vm_compute; reflexivity).
  rewrite forallb_Forall, Forall_forall in H. by apply field_okb_ok, H.
Qed.

Lemma node_written : idbm_rec_write node true start = Some (0%Z, written).
Proof.
  assert (fst <$> idbm_rec_write node true start = Some 0%Z) as H by (vm_compute; reflexivity).
  unfold written. destruct (idbm_rec_write node true start) as [[rc s]|]; [|done]. by injection H as ->.
Qed.

Lemma record_is_read_back_witness :
  exists rec', idbm_rec_read ∅ (get_str node "name") (get_int node "tpgt") (get_str node "conn[0].address")
                 (get_int node "conn[0].port") (get_str node "iface.name") true written = Some ((0%Z, rec'), written) /\
    get_int rec' "session.auth.password_length" = 13%Z.
Proof.
  destruct (record_is_read_back node ∅ start written) as (rec' & H & _ & Hl & _).
  - done.
  - done.
  - apply start_no_links.
  - apply Nat.ltb_lt. vm_compute. reflexivity.
  - vm_compute. discriminate.
  - vm_compute. reflexivity.
  - apply node_is_ok.
  - apply node_written.
  - exists rec'. split; [exact H|]. rewrite Hl. vm_compute. reflexivity.
Defined.

(** Without verification the name of a record can be changed. *)
Example unverified_update_moves :
  let '(rc, rec) := idbm_node_set_rec_from_param [(str "node.name", str "iqn.2003-01.org.linux-iscsi:disk2")] node false in
  rc = 0%Z /\ get_str rec "name" = str "iqn.2003-01.org.linux-iscsi:disk2".
Proof. vm_compute. by split. Qed.
End DbExample.

(** ** Defects *)

(** A node record with an IPv6 interface is printed with the IPv6 parameters, but
    __idbm_rec_read builds its table from a default record, whose interface counts
    as IPv4: all the IPv6 parameters are ignored when the record is read. *)
Theorem ipv6_parameters_lost `{LEnv : LoginEnv} (rec : memory) :
  (forall n, malloc n = true) -> iface_get_iptype "iface." rec = ISCSI_IFACE_TYPE_IPV6 -> node_ok rec ->
  exists info rec',
    idbm_recinfo_config (fill (idbm_recinfo_node idbm_node_setup_defaults) (replicate MAX_KEYS zero_recinfo))
      idbm_node_setup_defaults (idbm_print IDBM_PRINT_TYPE_NODE rec true false) = Some (info, rec') /\
    forall e, e ∈ node_rows_ipv6 rec -> field_of e rec' = field_of e idbm_node_setup_defaults.
Proof.
  intros Hm Ht Hok. unfold node_ok, idbm_recinfo_node in Hok. rewrite Ht in Hok. unfold idbm_print, idbm_recinfo_alloc.
  rewrite Hm. cbn [recinfo_of]. unfold idbm_recinfo_node, fill. rewrite Ht, default_iptype.
  set (T := node_rows ISCSI_IFACE_TYPE_IPV6) in *. rewrite config_print; rewrite printed_unused by apply unused_rest;
    [|by apply (printed_good Hm T)].
  set (ls := printed (T rec)). match goal with |- context [apply_lines ?i ?m ls] => set (info := i); set (m0 := m) end.
  exists (apply_lines info m0 ls).1, (apply_lines info m0 ls).2. split; [by destruct (apply_lines info m0 ls)|].
  intros e He. rewrite (apply_lines_foldl ls info info m0 eq_refl).
  assert (Forall (fun x => Forall (fun y => ri_data x <> ri_data y) (node_rows ISCSI_IFACE_TYPE_IPV4 ∅)) (node_rows_ipv6 ∅)) as Hdis.
  { apply (bool_decide_unpack _). by vm_compute. }
  assert (shape <$> node_rows_ipv6 rec = shape <$> node_rows_ipv6 ∅) as Hs6 by done.
  destruct (shape_elem _ _ e Hs6 He) as (e' & He' & Hse).
  destruct (ri_data e) as [f|] eqn:Hf; [|unfold field_of; by rewrite Hf].
  apply (field_of_ext e _ _ f Hf). apply foldl_frame. intros x l Hx _ _ Hxd. unfold info in Hx.
  apply (entry_of_field (node_rows ISCSI_IFACE_TYPE_IPV4) m0 _ x f (unused_rest _)) in Hx; [|done].
  destruct (table_elem (node_rows ISCSI_IFACE_TYPE_IPV4) m0 ∅ x Hx) as (x' & Hx' & Hsx).
  rewrite Forall_forall in Hdis. specialize (Hdis e' He'). rewrite Forall_forall in Hdis. apply (Hdis x' Hx').
  rewrite <- (shape_data _ _ Hse), <- (shape_data _ _ Hsx). congruence.
Qed.

(** When the lock is never free, idbm_lock gives up after 3000 attempts and
    returns 0 all the same; the matching idbm_unlock then removes the lock file of
    the other process. *)
Theorem lock_timeout_is_success `{DEnv : DbEnv} (s : dbstate) :
  lock_dir_ready = true -> (forall i, other_holds i = true /\ link_error i = false) -> refs s = 0%Z -> owned s = false ->
  exists s1 s2, idbm_lock s = Some (0%Z, s1) /\ refs s1 = 1%Z /\ owned s1 = false /\
    idbm_unlock s1 = Some (tt, s2) /\ stolen s2 = S (stolen s).
Proof.
  intros Hd Ho Hr Hw.
  assert (forall n i, lock_loop n i s = Some (0%Z, s <| refs := 1%Z |>)) as Hloop.
  { induction n as [|n IH]; intros i; [done|]. cbn [lock_loop]. unfold mthen at 1, mget.
    destruct (Ho i) as [Ho1 Ho2]. rewrite Ho1, Ho2. cbn [orb]. apply IH. }
  exists (s <| refs := 1%Z |>), (s <| refs := 0%Z |> <| stolen := S (stolen s) |>). split; [|split; [|split; [|split]]].
  - unfold idbm_lock, mthen at 1, mget. rewrite decide_False by lia. rewrite Hd. apply Hloop.
  - done.
  - done.
  - unfold idbm_unlock, mthen, mget, mmod. rewrite decide_False by done. destruct s. cbn in Hw. by subst.
  - done.
Qed.

(** idbm_delete_node returns without releasing the lock when the directory of the
    portal cannot be scanned: the record of the example is removed, the call
    returns 0, and the lock stays. *)
Module LockLeak.
Import DbExample.

Definition no_scandir : DbEnv :=
  {| db_root := str "/etc/iscsi"; sys_ok := fun op _ => match op with OpScandir => false | _ => true end;
     lock_dir_ready := true; other_holds := fun _ => false; link_error := fun _ => false |}.

Theorem delete_node_keeps_lock :
  exists s', idbm_delete_node (DEnv := no_scandir) node written = Some (0%Z, s') /\
    refs written = 0%Z /\ refs s' = 1%Z /\ owned s' = true.
Proof.
  assert ((fun r => (r.1, refs r.2, owned r.2)) <$> idbm_delete_node (DEnv := no_scandir) node written
          = Some (0, 1, true)%Z) as H by (vm_compute; reflexivity).
  destruct (idbm_delete_node (DEnv := no_scandir) node written) as [[rc s']|]; [|done]. injection H as -> H1 H2.
  exists s'. split; [done|]. split; [vm_compute; reflexivity|done].
Qed.
End LockLeak.

(** iface_conf_write empties the file of the interface before it takes the lock:
    when the lock cannot be had the old record is lost. *)
Theorem failed_lock_empties_interface `{LEnv : LoginEnv} `{DEnv : DbEnv} (iface : memory) (s : dbstate) (c : list Z) :
  malloc PATH_MAX = true -> iface_match_default iface = false -> length (iface_conf_text iface) < PATH_MAX ->
  sys_ok OpWrite (iface_conf_text iface) = true -> fs s !! iface_conf_text iface = Some (File c) ->
  is_dir (fs s !! parent (iface_conf_text iface)) = true -> refs s = 0%Z -> lock_dir_ready = false ->
  exists s', iface_conf_write iface s = Some (ISCSI_ERR_IDBM, s') /\ fs s' !! iface_conf_text iface = Some (File []).
Proof.
  intros Hm Hd Hl Hs Hf Hp Hr Hlk. exists (s <| fs := <[iface_conf_text iface := File []]> (fs s) |>).
  split; [|by rewrite fs_set, lookup_insert_eq].
  unfold iface_conf_write. rewrite Hd, Hm. cbn [negb]. unfold sprintf_path. rewrite decide_True by done.
  unfold mthen at 1, mopt. cbn [mbind option_bind]. unfold mthen at 1, syscall, mthen at 1, mget at 1.
  unfold write_file. assert (resolve (fs s) (iface_conf_text iface) = iface_conf_text iface) as -> by (unfold resolve; by rewrite Hf).
  rewrite Hs, Hf, Hp. cbn [is_dir negb andb]. unfold mthen, mmod, mret'.
  set (s1 := s <| fs := _ |>). assert (idbm_lock s1 = Some (ISCSI_ERR_IDBM, s1)) as Hlock; [|cbn [negb]; by rewrite Hlock].
  unfold idbm_lock, mthen, mget. change (refs s1) with (refs s). rewrite decide_False by lia. by rewrite Hlk.
Qed.

(** idbm_print is void: when the table cannot be allocated nothing is printed, and
    the record that is being written ends up empty. *)
Theorem print_without_memory `{LEnv : LoginEnv} (t : print_type) (rec : memory) (show to_stdout : bool) :
  malloc (RECINFO_SIZE * MAX_KEYS) = false -> idbm_print t rec show to_stdout = [].
Proof. intros H. unfold idbm_print, idbm_recinfo_alloc. by rewrite H. Qed.
