(* ===== verification/NetConfig.v ===== *)
(** * Interfaces: the network configuration of an offload adapter

    usr/iface.c, from line 1168: a table of iovecs is sized by counting the
    parameters of an interface ([iface_get_param_count]) and then filled
    ([iface_build_net_config]); usr/iscsiadm.c, [iface_apply_net_config], puts the
    two together.  An interface is a record of IdbmTables. *)
From Stdlib Require Import ZArith Lia Ascii.
From stdpp Require Import base tactics numbers list strings option gmap.
From S2P Require Import Prelude CString Login Idbm IdbmTables.

(** ** Parameters of include/iscsi_if.h *)
Definition ISCSI_NET_PARAM_IPV4_ADDR : Z := 1.
Definition ISCSI_NET_PARAM_IPV4_SUBNET : Z := 2.
Definition ISCSI_NET_PARAM_IPV4_GW : Z := 3.
Definition ISCSI_NET_PARAM_IPV4_BOOTPROTO : Z := 4.
Definition ISCSI_NET_PARAM_IPV6_LINKLOCAL : Z := 6.
Definition ISCSI_NET_PARAM_IPV6_ADDR : Z := 7.
Definition ISCSI_NET_PARAM_IPV6_ROUTER : Z := 8.
Definition ISCSI_NET_PARAM_IPV6_ADDR_AUTOCFG : Z := 9.
Definition ISCSI_NET_PARAM_IPV6_LINKLOCAL_AUTOCFG : Z := 10.
Definition ISCSI_NET_PARAM_IPV6_ROUTER_AUTOCFG : Z := 11.
Definition ISCSI_NET_PARAM_IFACE_ENABLE : Z := 12.
Definition ISCSI_NET_PARAM_VLAN_ENABLED : Z := 15.
Definition ISCSI_NET_PARAM_VLAN_TAG : Z := 16.
Definition ISCSI_NET_PARAM_MTU : Z := 19.
Definition ISCSI_NET_PARAM_PORT : Z := 20.
Definition ISCSI_NET_PARAM_DELAYED_ACK_EN : Z := 24.
Definition ISCSI_NET_PARAM_TCP_NAGLE_DISABLE : Z := 25.
Definition ISCSI_NET_PARAM_TCP_WSF_DISABLE : Z := 26.
Definition ISCSI_NET_PARAM_TCP_WSF : Z := 27.
Definition ISCSI_NET_PARAM_TCP_TIMER_SCALE : Z := 28.
Definition ISCSI_NET_PARAM_TCP_TIMESTAMP_EN : Z := 29.
Definition ISCSI_NET_PARAM_IPV4_DHCP_DNS_ADDR_EN : Z := 31.
Definition ISCSI_NET_PARAM_IPV4_DHCP_SLP_DA_EN : Z := 32.
Definition ISCSI_NET_PARAM_IPV4_TOS_EN : Z := 33.
Definition ISCSI_NET_PARAM_IPV4_TOS : Z := 34.
Definition ISCSI_NET_PARAM_IPV4_GRAT_ARP_EN : Z := 35.
Definition ISCSI_NET_PARAM_IPV4_DHCP_ALT_CLIENT_ID_EN : Z := 36.
Definition ISCSI_NET_PARAM_IPV4_DHCP_ALT_CLIENT_ID : Z := 37.
Definition ISCSI_NET_PARAM_IPV4_DHCP_REQ_VENDOR_ID_EN : Z := 38.
Definition ISCSI_NET_PARAM_IPV4_DHCP_USE_VENDOR_ID_EN : Z := 39.
Definition ISCSI_NET_PARAM_IPV4_DHCP_VENDOR_ID : Z := 40.
Definition ISCSI_NET_PARAM_IPV4_DHCP_LEARN_IQN_EN : Z := 41.
Definition ISCSI_NET_PARAM_IPV4_FRAGMENT_DISABLE : Z := 42.
Definition ISCSI_NET_PARAM_IPV4_IN_FORWARD_EN : Z := 43.
Definition ISCSI_NET_PARAM_IPV4_TTL : Z := 44.
Definition ISCSI_NET_PARAM_IPV6_GRAT_NEIGHBOR_ADV_EN : Z := 45.
Definition ISCSI_NET_PARAM_IPV6_MLD_EN : Z := 46.
Definition ISCSI_NET_PARAM_IPV6_FLOW_LABEL : Z := 47.
Definition ISCSI_NET_PARAM_IPV6_TRAFFIC_CLASS : Z := 48.
Definition ISCSI_NET_PARAM_IPV6_HOP_LIMIT : Z := 49.
Definition ISCSI_NET_PARAM_IPV6_ND_REACHABLE_TMO : Z := 50.
Definition ISCSI_NET_PARAM_IPV6_ND_REXMIT_TIME : Z := 51.
Definition ISCSI_NET_PARAM_IPV6_ND_STALE_TMO : Z := 52.
Definition ISCSI_NET_PARAM_IPV6_DUP_ADDR_DETECT_CNT : Z := 53.
Definition ISCSI_NET_PARAM_IPV6_RTR_ADV_LINK_MTU : Z := 54.
Definition ISCSI_NET_PARAM_REDIRECT_EN : Z := 55.
Definition ISCSI_IFACE_PARAM_DEF_TASKMGMT_TMO : Z := 0.
Definition ISCSI_IFACE_PARAM_HDRDGST_EN : Z := 1.
Definition ISCSI_IFACE_PARAM_DATADGST_EN : Z := 2.
Definition ISCSI_IFACE_PARAM_IMM_DATA_EN : Z := 3.
Definition ISCSI_IFACE_PARAM_INITIAL_R2T_EN : Z := 4.
Definition ISCSI_IFACE_PARAM_DATASEQ_INORDER_EN : Z := 5.
Definition ISCSI_IFACE_PARAM_PDU_INORDER_EN : Z := 6.
Definition ISCSI_IFACE_PARAM_ERL : Z := 7.
Definition ISCSI_IFACE_PARAM_MAX_RECV_DLENGTH : Z := 8.
Definition ISCSI_IFACE_PARAM_FIRST_BURST : Z := 9.
Definition ISCSI_IFACE_PARAM_MAX_R2T : Z := 10.
Definition ISCSI_IFACE_PARAM_MAX_BURST : Z := 11.
Definition ISCSI_IFACE_PARAM_CHAP_AUTH_EN : Z := 12.
Definition ISCSI_IFACE_PARAM_BIDI_CHAP_EN : Z := 13.
Definition ISCSI_IFACE_PARAM_DISCOVERY_AUTH_OPTIONAL : Z := 14.
Definition ISCSI_IFACE_PARAM_DISCOVERY_LOGOUT_EN : Z := 15.
Definition ISCSI_IFACE_PARAM_STRICT_LOGIN_COMP_EN : Z := 16.
Definition ISCSI_NET_PARAM : Z := 2.
Definition ISCSI_IFACE_PARAM : Z := 5.
Definition ISCSI_NET_PARAM_DISABLE : Z := 1.
Definition ISCSI_NET_PARAM_ENABLE : Z := 2.
Definition ISCSI_BOOTPROTO_STATIC : Z := 1.
Definition ISCSI_BOOTPROTO_DHCP : Z := 2.
Definition ISCSI_IPV6_AUTOCFG_DISABLE : Z := 1.
Definition ISCSI_IPV6_AUTOCFG_ND_ENABLE : Z := 2.
Definition ISCSI_IPV6_AUTOCFG_DHCPV6_ENABLE : Z := 3.
Definition ISCSI_IPV6_LINKLOCAL_AUTOCFG_ENABLE : Z := 1.
Definition ISCSI_IPV6_LINKLOCAL_AUTOCFG_DISABLE : Z := 2.
Definition ISCSI_IPV6_ROUTER_AUTOCFG_ENABLE : Z := 1.
Definition ISCSI_IPV6_ROUTER_AUTOCFG_DISABLE : Z := 2.
Definition ISCSI_MAX_VLAN_ID : Z := 4095.
Definition ISCSI_MAX_VLAN_PRIORITY : Z := 7.

Definition iface_type_val (t : iscsi_iface_type) : Z :=
  match t with ISCSI_IFACE_TYPE_IPV4 => 1%Z | ISCSI_IFACE_TYPE_IPV6 => 2%Z end.

(** A [struct iscsi_iface_param_info] in a netlink attribute. *)
Record param_info := mk_param_info {
  pi_iface_num : Z;
  pi_len : nat;
  pi_param : Z;
  pi_iface_type : Z;
  pi_param_type : Z;
  pi_value : list Z
}.

(** The addresses that [inet_pton] reads: 4 and 16 bytes. *)
Class NetEnv := {
  inet_pton4 : list Z -> option (list Z);
  inet_pton6 : list Z -> option (list Z)
}.

(** What a function did with the iovec: nothing; or an attribute was stored, or
    the null pointer after a failure. *)
Inductive fillres := Untouched | Wrote (attr : option param_info).

(** The bytes of a number in memory. *)
Fixpoint le_bytes (n : nat) (v : Z) : list Z :=
  match n with O => [] | S n => (v mod 256)%Z :: le_bytes n (v / 256) end.

Section NetConfig.
Context `{LEnv : LoginEnv} `{NEnv : NetEnv}.

(** ** Counting *)

(** [IFACE_NET_PARAM_EN_CNT]. *)
Definition en_cnt (iface : memory) (f : string) : nat :=
  if bool_decide (get_str iface f = str "disable" \/ get_str iface f = str "enable") then 1 else 0.

Definition int_cnt (iface : memory) (f : string) : nat := if truth (get_int iface f) then 1 else 0.

Definition str_cnt (iface : memory) (f : string) : nat := if bool_decide (get_str iface f = []) then 0 else 1.

Definition iface_get_common_param_count (iface : memory) : nat :=
  (if bool_decide (get_str iface "vlan_state" <> str "disable") then 1 + int_cnt iface "vlan_id" else 1) +
  int_cnt iface "mtu" + int_cnt iface "port" +
  list_sum (en_cnt iface <$>
    ["delayed_ack"; "nagle"; "tcp_wsf_state"; "tcp_timestamp"; "redirect"; "header_digest"; "data_digest";
     "immediate_data"; "initial_r2t"; "data_seq_inorder"; "data_pdu_inorder"; "chap_auth"; "bidi_chap";
     "strict_login_comp"; "discovery_auth"; "discovery_logout"]) +
  list_sum (int_cnt iface <$>
    ["tcp_wsf"; "tcp_timer_scale"; "def_task_mgmt_tmo"; "erl"; "max_recv_dlength"; "first_burst_len"; "max_burst_len";
     "max_out_r2t"]).

(** [strstr(s, t) != NULL] on a field. *)
Definition has (iface : memory) (f : string) (t : list Z) : bool := contains (get_str iface f) t.

Definition ipv4_addr_count (iface : memory) : nat :=
  if has iface "bootproto" (str "dhcp") then 1
  else if has iface "ipaddress" (str ".") then
    1 + 1 + (if has iface "subnet_mask" (str ".") then 1 else 0) + (if has iface "gateway" (str ".") then 1 else 0)
  else 1 - 1.

Definition ipv4_count (iface : memory) : nat :=
  list_sum (en_cnt iface <$> ["dhcp_dns"; "dhcp_slp_da"; "tos_state"; "gratuitous_arp"; "dhcp_alt_client_id_state"]) +
  str_cnt iface "dhcp_alt_client_id" +
  list_sum (en_cnt iface <$> ["dhcp_req_vendor_id_state"; "dhcp_vendor_id_state"]) + str_cnt iface "dhcp_vendor_id" +
  list_sum (en_cnt iface <$> ["dhcp_learn_iqn"; "fragmentation"; "incoming_forwarding"]) +
  int_cnt iface "tos" + int_cnt iface "ttl" + iface_get_common_param_count iface.

(** One of the three IPv6 addresses. *)
Definition autocfg_count (auto given : bool) : nat := if auto then 1 else if given then 1 + 1 else 1 - 1.

Definition ipv6_addr_count (iface : memory) : nat :=
  autocfg_count (has iface "ipv6_autocfg" (str "nd") || has iface "ipv6_autocfg" (str "dhcpv6"))
    (has iface "ipaddress" (str ":")) +
  autocfg_count (has iface "linklocal_autocfg" (str "auto")) (has iface "ipv6_linklocal" (str ":")) +
  autocfg_count (has iface "router_autocfg" (str "auto")) (has iface "ipv6_router" (str ":")).

Definition ipv6_count (iface : memory) : nat :=
  list_sum (en_cnt iface <$> ["gratuitous_neighbor_adv"; "mld"]) +
  list_sum (int_cnt iface <$>
    ["flow_label"; "traffic_class"; "hop_limit"; "nd_reachable_tmo"; "nd_rexmit_time"; "nd_stale_tmo";
     "dup_addr_detect_cnt"; "router_adv_link_mtu"]) +
  iface_get_common_param_count iface.

(** [if (count) { count++; ... }]. *)
Definition with_state (addr rest : nat) : nat := if decide (addr = 0) then 0 else addr + 1 + rest.

Definition __iface_get_param_count (primary iface : memory) : nat :=
  if decide (get_str primary "hwaddress" <> get_str iface "hwaddress") then 0
  else if decide (get_str iface "state" = str "disable") then 1
  else match iface_get_iptype "" iface with
       | ISCSI_IFACE_TYPE_IPV4 => with_state (ipv4_addr_count iface) (ipv4_count iface)
       | ISCSI_IFACE_TYPE_IPV6 => with_state (ipv6_addr_count iface) (ipv6_count iface)
       end.

(** [all]: the records that [iface_for_each_iface] goes through, or the
    interface alone. *)
Definition iface_get_param_count (iface : memory) (all : option (list memory)) : nat :=
  list_sum (__iface_get_param_count iface <$> default [iface] all).

(** ** Filling *)

(** [iscsi_nla_alloc(param, sizeof(struct iscsi_iface_param_info) + n)], with the
    header of the attribute and the alignment. *)
Definition nla_alloc (n : nat) : bool := malloc ((n + 12 + 4 + 3) / 4 * 4).

Definition iface_fill_int_param_val (iface_num : Z) (t : iscsi_iface_type) (param param_type : Z) (param_len : nat)
    (param_val : Z) : fillres :=
  if negb (nla_alloc param_len) then Wrote None
  else if decide (param_len = 1 \/ param_len = 2 \/ param_len = 4) then
    Wrote (Some (mk_param_info iface_num param_len param (iface_type_val t) param_type (le_bytes param_len param_val)))
  else Wrote None.

Definition iface_fill_vlan_id (iface : memory) (t : iscsi_iface_type) : fillres :=
  if negb (nla_alloc 2) then Wrote None
  else
    let id := get_int iface "vlan_id" in
    let prio := get_int iface "vlan_priority" in
    let vlan := if decide (id <= ISCSI_MAX_VLAN_ID /\ prio <= ISCSI_MAX_VLAN_PRIORITY)%Z
                then u16 (Z.lor (Z.shiftl prio 13) (Z.land id ISCSI_MAX_VLAN_ID)) else 0%Z in
    Wrote (Some (mk_param_info (get_int iface "iface_num") 2 ISCSI_NET_PARAM_VLAN_TAG (iface_type_val t) ISCSI_NET_PARAM
                   (le_bytes 2 vlan))).

Definition iface_fill_param_state (iface_num : Z) (t : iscsi_iface_type) (param param_type : Z) (param_val : list Z)
    : fillres :=
  if decide (param_val = []) then Untouched
  else if negb (nla_alloc 1) then Wrote None
  else
    let info v := Wrote (Some (mk_param_info iface_num 1 param (iface_type_val t) param_type [v])) in
    if decide (param_val = str "disable") then info ISCSI_NET_PARAM_DISABLE
    else if decide (param_val = str "enable") then info ISCSI_NET_PARAM_ENABLE
    else Wrote None.

Definition iface_fill_net_bootproto (iface : memory) : fillres :=
  if negb (nla_alloc 1) then Wrote None
  else Wrote (Some (mk_param_info (get_int iface "iface_num") 1 ISCSI_NET_PARAM_IPV4_BOOTPROTO
                      (iface_type_val ISCSI_IFACE_TYPE_IPV4) ISCSI_NET_PARAM
                      [if decide (get_str iface "bootproto" = str "dhcp") then ISCSI_BOOTPROTO_DHCP
                       else ISCSI_BOOTPROTO_STATIC])).

(** The three automatic settings of IPv6 do not set the number of the
    interface. *)
Definition autocfg_info (param v : Z) : fillres :=
  if negb (nla_alloc 1) then Wrote None
  else Wrote (Some (mk_param_info 0 1 param (iface_type_val ISCSI_IFACE_TYPE_IPV6) ISCSI_NET_PARAM [v])).

Definition iface_fill_net_autocfg (iface : memory) : fillres :=
  autocfg_info ISCSI_NET_PARAM_IPV6_ADDR_AUTOCFG
    (if decide (get_str iface "ipv6_autocfg" = str "nd") then ISCSI_IPV6_AUTOCFG_ND_ENABLE
     else if decide (get_str iface "ipv6_autocfg" = str "dhcpv6") then ISCSI_IPV6_AUTOCFG_DHCPV6_ENABLE
     else ISCSI_IPV6_AUTOCFG_DISABLE).

Definition iface_fill_linklocal_autocfg (iface : memory) : fillres :=
  autocfg_info ISCSI_NET_PARAM_IPV6_LINKLOCAL_AUTOCFG
    (if has iface "linklocal_autocfg" (str "auto") then ISCSI_IPV6_LINKLOCAL_AUTOCFG_ENABLE
     else ISCSI_IPV6_LINKLOCAL_AUTOCFG_DISABLE).

Definition iface_fill_router_autocfg (iface : memory) : fillres :=
  autocfg_info ISCSI_NET_PARAM_IPV6_ROUTER_AUTOCFG
    (if has iface "router_autocfg" (str "auto") then ISCSI_IPV6_ROUTER_AUTOCFG_ENABLE
     else ISCSI_IPV6_ROUTER_AUTOCFG_DISABLE).

Definition iface_fill_net_ipv4_addr (iface_num param : Z) (param_val : list Z) : fillres :=
  if negb (nla_alloc 4) then Wrote None
  else match inet_pton4 param_val with
       | Some v =>
           if decide (Forall (fun b => b = 0%Z) v) then Wrote None
           else Wrote (Some (mk_param_info iface_num 4 param (iface_type_val ISCSI_IFACE_TYPE_IPV4) ISCSI_NET_PARAM v))
       | None => Wrote None
       end.

Definition iface_fill_net_ipv6_addr (iface_num param : Z) (param_val : list Z) : fillres :=
  if negb (nla_alloc 16) then Wrote None
  else match inet_pton6 param_val with
       | Some v => Wrote (Some (mk_param_info iface_num 16 param (iface_type_val ISCSI_IFACE_TYPE_IPV6) ISCSI_NET_PARAM v))
       | None => Wrote None
       end.

Definition iface_fill_str_param_val (iface_num : Z) (t : iscsi_iface_type) (param : Z) (param_val : list Z) : fillres :=
  if decide (param_val = []) then Untouched
  else if negb (nla_alloc (length param_val)) then Wrote None
  else Wrote (Some (mk_param_info iface_num (length param_val) param (iface_type_val t) ISCSI_NET_PARAM param_val)).

(** The macros. *)
Definition iface_set_param_state (iface : memory) (t : iscsi_iface_type) (param param_type : Z) (f : string) : fillres :=
  iface_fill_param_state (get_int iface "iface_num") t param param_type (get_str iface f).

Definition iface_set_param_intval (iface : memory) (t : iscsi_iface_type) (param param_type : Z) (len : nat) (f : string)
    : fillres :=
  if truth (get_int iface f)
  then iface_fill_int_param_val (get_int iface "iface_num") t param param_type len (get_int iface f) else Untouched.

Definition iface_set_net_param_strval (iface : memory) (t : iscsi_iface_type) (param : Z) (f : string) : fillres :=
  iface_fill_str_param_val (get_int iface "iface_num") t param (get_str iface f).

Definition iface_set_net_param_ipv4_addr (iface : memory) (param : Z) (f : string) : fillres :=
  if has iface f (str ".") then iface_fill_net_ipv4_addr (get_int iface "iface_num") param (get_str iface f) else Untouched.

Definition iface_set_net_param_ipv6_addr (iface : memory) (param : Z) (f : string) : fillres :=
  if has iface f (str ":") then iface_fill_net_ipv6_addr (get_int iface "iface_num") param (get_str iface f) else Untouched.

(** The parameters in the order of the code. *)
Definition ipv4_addr_params (iface : memory) : list fillres :=
  if has iface "bootproto" (str "dhcp") then [iface_fill_net_bootproto iface]
  else if has iface "ipaddress" (str ".") then
    [ iface_fill_net_bootproto iface;
      iface_set_net_param_ipv4_addr iface ISCSI_NET_PARAM_IPV4_ADDR "ipaddress";
      iface_set_net_param_ipv4_addr iface ISCSI_NET_PARAM_IPV4_SUBNET "subnet_mask";
      iface_set_net_param_ipv4_addr iface ISCSI_NET_PARAM_IPV4_GW "gateway" ]
  else [].

Definition ipv4_params (iface : memory) : list fillres :=
  [ iface_set_param_state iface ISCSI_IFACE_TYPE_IPV4 ISCSI_NET_PARAM_IPV4_DHCP_DNS_ADDR_EN ISCSI_NET_PARAM "dhcp_dns";
    iface_set_param_state iface ISCSI_IFACE_TYPE_IPV4 ISCSI_NET_PARAM_IPV4_DHCP_SLP_DA_EN ISCSI_NET_PARAM "dhcp_slp_da";
    iface_set_param_state iface ISCSI_IFACE_TYPE_IPV4 ISCSI_NET_PARAM_IPV4_TOS_EN ISCSI_NET_PARAM "tos_state";
    iface_set_param_intval iface ISCSI_IFACE_TYPE_IPV4 ISCSI_NET_PARAM_IPV4_TOS ISCSI_NET_PARAM 1 "tos";
    iface_set_param_state iface ISCSI_IFACE_TYPE_IPV4 ISCSI_NET_PARAM_IPV4_GRAT_ARP_EN ISCSI_NET_PARAM "gratuitous_arp";
    iface_set_param_state iface ISCSI_IFACE_TYPE_IPV4 ISCSI_NET_PARAM_IPV4_DHCP_ALT_CLIENT_ID_EN ISCSI_NET_PARAM "dhcp_alt_client_id_state";
    iface_set_net_param_strval iface ISCSI_IFACE_TYPE_IPV4 ISCSI_NET_PARAM_IPV4_DHCP_ALT_CLIENT_ID "dhcp_alt_client_id";
    iface_set_param_state iface ISCSI_IFACE_TYPE_IPV4 ISCSI_NET_PARAM_IPV4_DHCP_REQ_VENDOR_ID_EN ISCSI_NET_PARAM "dhcp_req_vendor_id_state";
    iface_set_param_state iface ISCSI_IFACE_TYPE_IPV4 ISCSI_NET_PARAM_IPV4_DHCP_USE_VENDOR_ID_EN ISCSI_NET_PARAM "dhcp_vendor_id_state";
    iface_set_net_param_strval iface ISCSI_IFACE_TYPE_IPV4 ISCSI_NET_PARAM_IPV4_DHCP_VENDOR_ID "dhcp_vendor_id";
    iface_set_param_state iface ISCSI_IFACE_TYPE_IPV4 ISCSI_NET_PARAM_IPV4_DHCP_LEARN_IQN_EN ISCSI_NET_PARAM "dhcp_learn_iqn";
    iface_set_param_state iface ISCSI_IFACE_TYPE_IPV4 ISCSI_NET_PARAM_IPV4_FRAGMENT_DISABLE ISCSI_NET_PARAM "fragmentation";
    iface_set_param_state iface ISCSI_IFACE_TYPE_IPV4 ISCSI_NET_PARAM_IPV4_IN_FORWARD_EN ISCSI_NET_PARAM "incoming_forwarding";
    iface_set_param_intval iface ISCSI_IFACE_TYPE_IPV4 ISCSI_NET_PARAM_IPV4_TTL ISCSI_NET_PARAM 1 "ttl" ].

Definition autocfg_params (auto given : bool) (autocfg addr : fillres) : list fillres :=
  if auto then [autocfg] else if given then [autocfg; addr] else [].

Definition ipv6_addr_params (iface : memory) : list fillres :=
  autocfg_params (has iface "ipv6_autocfg" (str "nd") || has iface "ipv6_autocfg" (str "dhcpv6"))
    (has iface "ipaddress" (str ":")) (iface_fill_net_autocfg iface)
    (iface_set_net_param_ipv6_addr iface ISCSI_NET_PARAM_IPV6_ADDR "ipaddress") ++
  autocfg_params (has iface "linklocal_autocfg" (str "auto")) (has iface "ipv6_linklocal" (str ":"))
    (iface_fill_linklocal_autocfg iface)
    (iface_set_net_param_ipv6_addr iface ISCSI_NET_PARAM_IPV6_LINKLOCAL "ipv6_linklocal") ++
  autocfg_params (has iface "router_autocfg" (str "auto")) (has iface "ipv6_router" (str ":"))
    (iface_fill_router_autocfg iface)
    (iface_set_net_param_ipv6_addr iface ISCSI_NET_PARAM_IPV6_ROUTER "ipv6_router").

Definition ipv6_params (iface : memory) : list fillres :=
  [ iface_set_param_state iface ISCSI_IFACE_TYPE_IPV6 ISCSI_NET_PARAM_IPV6_GRAT_NEIGHBOR_ADV_EN ISCSI_NET_PARAM "gratuitous_neighbor_adv";
    iface_set_param_state iface ISCSI_IFACE_TYPE_IPV6 ISCSI_NET_PARAM_IPV6_MLD_EN ISCSI_NET_PARAM "mld";
    iface_set_param_intval iface ISCSI_IFACE_TYPE_IPV6 ISCSI_NET_PARAM_IPV6_FLOW_LABEL ISCSI_NET_PARAM 4 "flow_label";
    iface_set_param_intval iface ISCSI_IFACE_TYPE_IPV6 ISCSI_NET_PARAM_IPV6_TRAFFIC_CLASS ISCSI_NET_PARAM 1 "traffic_class";
    iface_set_param_intval iface ISCSI_IFACE_TYPE_IPV6 ISCSI_NET_PARAM_IPV6_HOP_LIMIT ISCSI_NET_PARAM 1 "hop_limit";
    iface_set_param_intval iface ISCSI_IFACE_TYPE_IPV6 ISCSI_NET_PARAM_IPV6_ND_REACHABLE_TMO ISCSI_NET_PARAM 4 "nd_reachable_tmo";
    iface_set_param_intval iface ISCSI_IFACE_TYPE_IPV6 ISCSI_NET_PARAM_IPV6_ND_REXMIT_TIME ISCSI_NET_PARAM 4 "nd_rexmit_time";
    iface_set_param_intval iface ISCSI_IFACE_TYPE_IPV6 ISCSI_NET_PARAM_IPV6_ND_STALE_TMO ISCSI_NET_PARAM 4 "nd_stale_tmo";
    iface_set_param_intval iface ISCSI_IFACE_TYPE_IPV6 ISCSI_NET_PARAM_IPV6_DUP_ADDR_DETECT_CNT ISCSI_NET_PARAM 1 "dup_addr_detect_cnt";
    iface_set_param_intval iface ISCSI_IFACE_TYPE_IPV6 ISCSI_NET_PARAM_IPV6_RTR_ADV_LINK_MTU ISCSI_NET_PARAM 4 "router_adv_link_mtu" ].

Definition common_params (iface : memory) (t : iscsi_iface_type) : list fillres :=
  [ iface_set_param_state iface t ISCSI_NET_PARAM_IFACE_ENABLE ISCSI_NET_PARAM "state";
    iface_set_param_state iface t ISCSI_NET_PARAM_VLAN_ENABLED ISCSI_NET_PARAM "vlan_state";
    (if bool_decide (get_str iface "vlan_state" <> str "disable" /\ get_int iface "vlan_id" <> 0%Z)
     then iface_fill_vlan_id iface t else Untouched);
    iface_set_param_intval iface t ISCSI_NET_PARAM_MTU ISCSI_NET_PARAM 2 "mtu";
    iface_set_param_intval iface t ISCSI_NET_PARAM_PORT ISCSI_NET_PARAM 2 "port";
    iface_set_param_state iface t ISCSI_NET_PARAM_DELAYED_ACK_EN ISCSI_NET_PARAM "delayed_ack";
    iface_set_param_state iface t ISCSI_NET_PARAM_TCP_NAGLE_DISABLE ISCSI_NET_PARAM "nagle";
    iface_set_param_state iface t ISCSI_NET_PARAM_TCP_WSF_DISABLE ISCSI_NET_PARAM "tcp_wsf_state";
    iface_set_param_intval iface t ISCSI_NET_PARAM_TCP_WSF ISCSI_NET_PARAM 1 "tcp_wsf";
    iface_set_param_intval iface t ISCSI_NET_PARAM_TCP_TIMER_SCALE ISCSI_NET_PARAM 1 "tcp_timer_scale";
    iface_set_param_state iface t ISCSI_NET_PARAM_TCP_TIMESTAMP_EN ISCSI_NET_PARAM "tcp_timestamp";
    iface_set_param_state iface t ISCSI_NET_PARAM_REDIRECT_EN ISCSI_NET_PARAM "redirect";
    iface_set_param_intval iface t ISCSI_IFACE_PARAM_DEF_TASKMGMT_TMO ISCSI_IFACE_PARAM 2 "def_task_mgmt_tmo";
    iface_set_param_state iface t ISCSI_IFACE_PARAM_HDRDGST_EN ISCSI_IFACE_PARAM "header_digest";
    iface_set_param_state iface t ISCSI_IFACE_PARAM_DATADGST_EN ISCSI_IFACE_PARAM "data_digest";
    iface_set_param_state iface t ISCSI_IFACE_PARAM_IMM_DATA_EN ISCSI_IFACE_PARAM "immediate_data";
    iface_set_param_state iface t ISCSI_IFACE_PARAM_INITIAL_R2T_EN ISCSI_IFACE_PARAM "initial_r2t";
    iface_set_param_state iface t ISCSI_IFACE_PARAM_DATASEQ_INORDER_EN ISCSI_IFACE_PARAM "data_seq_inorder";
    iface_set_param_state iface t ISCSI_IFACE_PARAM_PDU_INORDER_EN ISCSI_IFACE_PARAM "data_pdu_inorder";
    iface_set_param_intval iface t ISCSI_IFACE_PARAM_ERL ISCSI_IFACE_PARAM 1 "erl";
    iface_set_param_intval iface t ISCSI_IFACE_PARAM_MAX_RECV_DLENGTH ISCSI_IFACE_PARAM 4 "max_recv_dlength";
    iface_set_param_intval iface t ISCSI_IFACE_PARAM_FIRST_BURST ISCSI_IFACE_PARAM 4 "first_burst_len";
    iface_set_param_intval iface t ISCSI_IFACE_PARAM_MAX_R2T ISCSI_IFACE_PARAM 2 "max_out_r2t";
    iface_set_param_intval iface t ISCSI_IFACE_PARAM_MAX_BURST ISCSI_IFACE_PARAM 4 "max_burst_len";
    iface_set_param_state iface t ISCSI_IFACE_PARAM_CHAP_AUTH_EN ISCSI_IFACE_PARAM "chap_auth";
    iface_set_param_state iface t ISCSI_IFACE_PARAM_BIDI_CHAP_EN ISCSI_IFACE_PARAM "bidi_chap";
    iface_set_param_state iface t ISCSI_IFACE_PARAM_STRICT_LOGIN_COMP_EN ISCSI_IFACE_PARAM "strict_login_comp";
    iface_set_param_state iface t ISCSI_IFACE_PARAM_DISCOVERY_AUTH_OPTIONAL ISCSI_IFACE_PARAM "discovery_auth";
    iface_set_param_state iface t ISCSI_IFACE_PARAM_DISCOVERY_LOGOUT_EN ISCSI_IFACE_PARAM "discovery_logout" ].

(** The table and the two counters: of the whole message and of the
    interface. *)
Record net_config := mk_net_config { iovs : list (option param_info); nc_count : nat; lcount : nat }.
#[export] Instance eta_net_config : Eta net_config := fun c => mk_net_config (iovs c) (nc_count c) (lcount c).

(** One parameter: what the function writes goes to [iovs\[2 + count\]]. *)
Definition apply_param (c : net_config) (r : fillres) : option net_config :=
  match r with
  | Untouched => Some c
  | Wrote attr =>
      if decide (2 + nc_count c < length (iovs c)) then
        let c := c <| iovs := <[2 + nc_count c := attr]> (iovs c) |> in
        Some (match attr with
              | Some _ => c <| nc_count := S (nc_count c) |> <| lcount := S (lcount c) |>
              | None => c
              end)
      else None
  end.

Fixpoint apply_params (c : net_config) (l : list fillres) : option net_config :=
  match l with
  | [] => Some c
  | r :: l => c ← apply_param c r; apply_params c l
  end.

(** [if (count) { ... }] *)
Definition apply_if_any (c : net_config) (l : list fillres) : option net_config :=
  if decide (lcount c = 0) then Some c else apply_params c l.

Definition __iface_build_net_config (primary : memory) (c : net_config) (iface : memory) : option net_config :=
  if decide (get_str primary "hwaddress" <> get_str iface "hwaddress") then Some c
  else
    let iface := if truth (get_int iface "port") then iface else <["port" := FInt 3260]> iface in
    let t := iface_get_iptype "" iface in
    let c := c <| lcount := 0 |> in
    if decide (get_str iface "state" = str "disable") then
      apply_param c (iface_set_param_state iface t ISCSI_NET_PARAM_IFACE_ENABLE ISCSI_NET_PARAM "state")
    else
      c ← match t with
          | ISCSI_IFACE_TYPE_IPV4 => c ← apply_params c (ipv4_addr_params iface); apply_if_any c (ipv4_params iface)
          | ISCSI_IFACE_TYPE_IPV6 => c ← apply_params c (ipv6_addr_params iface); apply_if_any c (ipv6_params iface)
          end;
      apply_if_any c (common_params iface t).

Fixpoint build_all (primary : memory) (c : net_config) (l : list memory) : option net_config :=
  match l with
  | [] => Some c
  | iface :: l => c ← __iface_build_net_config primary c iface; build_all primary c l
  end.

Definition iface_build_net_config (iface : memory) (all : option (list memory)) (v : list (option param_info))
    : option net_config :=
  build_all iface (mk_net_config v 0 0) (default [iface] all).

(** The table is sized and filled. *)
Definition net_table (iface : memory) (all : option (list memory)) : option net_config :=
  iface_build_net_config iface all (replicate (iface_get_param_count iface all + 2) None).
End NetConfig.

(** ** The adapter *)

(** What sysfs and the kernel answer: the directory of hosts in the order of
    [scandir], an entry that is not called host<n> as [None], with the interface
    that [iscsi_sysfs_get_hostinfo_by_host_no] finds; the handle of a transport;
    whether the control device opens, and the result of the request. *)
Class AdapterEnv := {
  host_dir : list (option (Z * memory));
  get_transport_by_name : list Z -> option Z;
  ctldev_open : bool;
  set_net_config : Z -> Z -> list (option param_info) -> Z
}.

Definition ISCSI_SUCCESS : Z := 0.
Definition ISCSI_ERR : Z := 1.
Definition ISCSI_ERR_HOST_NOT_FOUND : Z := 23.
Definition DEFAULT_HWADDRESS : list Z := str "default".
Definition DEFAULT_NETDEV : list Z := str "default".
Definition DEFAULT_IPADDRESS : list Z := str "default".

(** [strcasecmp(a, b) == 0]. *)
Definition tolower (c : Z) : Z := if decide (65 <= c <= 90)%Z then (c + 32)%Z else c.
Definition same_nocase (a b : list Z) : bool := bool_decide (map tolower a = map tolower b).

Section Adapter.
Context `{LEnv : LoginEnv} `{NEnv : NetEnv} `{KEnv : AdapterEnv}.

(** [sizeof(struct host_info)]. *)
Variable sizeof_host_info : nat.

(** The search stops at the first host that [fn] accepts, and at an entry that is
    not a host. *)
Fixpoint host_loop (fn : memory -> bool) (dir : list (option (Z * memory))) : option Z :=
  match dir with
  | Some (host_no, info) :: dir => if fn info then Some host_no else host_loop fn dir
  | _ => None
  end.

Definition iscsi_sysfs_for_each_host (fn : memory -> bool) : option Z :=
  if negb (malloc sizeof_host_info) then None else host_loop fn host_dir.

(** The number of the host, (uint32_t)-1 without one, and the error. *)
Definition no_host : Z := 4294967295.

Definition host_lookup (fn : memory -> bool) : Z * Z :=
  match iscsi_sysfs_for_each_host fn with
  | Some host_no => (host_no, 0%Z)
  | None => (no_host, ISCSI_ERR_HOST_NOT_FOUND)
  end.

Definition get_host_no_from (fn : memory -> bool) : Z * Z :=
  if negb (malloc sizeof_host_info) then (no_host, ISCSI_ERR_NOMEM) else host_lookup fn.

Definition get_host_no_from_netdev (netdev : list Z) : Z * Z :=
  get_host_no_from (fun info => bool_decide (netdev = get_str info "netdev")).

Definition get_host_no_from_ipaddress (address : list Z) : Z * Z :=
  get_host_no_from (fun info => bool_decide (address = get_str info "ipaddress")).

Definition iscsi_sysfs_get_host_no_from_hwaddress (hwaddress : list Z) : Z * Z :=
  if negb (malloc sizeof_host_info) then (no_host, ISCSI_ERR_NOMEM)
  else if decide (ISCSI_HWADDRESS_BUF_SIZE - 1 < length hwaddress) then (no_host, ISCSI_ERR_INVAL)
  else host_lookup (fun info => same_nocase hwaddress (get_str info "hwaddress")).

(** A field that names something: not empty and not "default". *)
Definition names (iface : memory) (f : string) (def : list Z) : bool :=
  bool_decide (get_str iface f <> []) && negb (same_nocase (get_str iface f) def).

Definition iscsi_sysfs_get_host_no_from_hwinfo (iface : memory) : Z * Z :=
  if names iface "hwaddress" DEFAULT_HWADDRESS then iscsi_sysfs_get_host_no_from_hwaddress (get_str iface "hwaddress")
  else if names iface "netdev" DEFAULT_NETDEV then get_host_no_from_netdev (get_str iface "netdev")
  else if names iface "ipaddress" DEFAULT_IPADDRESS then get_host_no_from_ipaddress (get_str iface "ipaddress")
  else (no_host, ISCSI_ERR_INVAL).

(** The result and the request to the kernel: handle, host and table. *)
Record applied := mk_applied { ap_rc : Z; ap_sent : option (Z * Z * list (option param_info)) }.

Definition sizeof_iovec : nat := 16.

(** [None]: the table is overrun. *)
Definition iface_apply_net_config (iface : memory) (all : option (list memory)) : option applied :=
  let param_count := iface_get_param_count iface all in
  if decide (param_count = 0) then Some (mk_applied ISCSI_SUCCESS None)
  else if negb (malloc ((param_count + 2) * sizeof_iovec)) then Some (mk_applied ISCSI_ERR_NOMEM None)
  else
    c ← net_table iface all;
    let free_buf rc sent := mk_applied (if truth rc then ISCSI_ERR else ISCSI_SUCCESS) sent in
    Some (
      if decide (nc_count c = 0) then free_buf ISCSI_ERR None
      else match get_transport_by_name (get_str iface "transport_name") with
           | None => free_buf ISCSI_ERR None
           | Some handle =>
               let '(host_no, rc) := iscsi_sysfs_get_host_no_from_hwinfo iface in
               if decide (host_no = 0%Z) then free_buf rc None
               else if negb ctldev_open then free_buf ISCSI_ERR None
               else free_buf (set_net_config handle host_no (iovs c)) (Some (handle, host_no, iovs c))
           end).
End Adapter.
