(* ===== verification/NetConfigTheorems.v ===== *)
(** * Interfaces: the network configuration fits its table

    [iface_get_param_count] and [iface_build_net_config] (usr/iface.c) go through
    the same parameters twice.  For the interfaces whose port is set and whose
    switches are empty, "enable" or "disable" the two agree: the table that was
    allocated is large enough and gets the parameters in the order of the code.
    Outside of that domain the table is overrun. *)
From Stdlib Require Import ZArith Lia Ascii.
From stdpp Require Import base tactics numbers list strings option gmap.
From S2P Require Import Prelude CString Login Idbm IdbmTables NetConfig.

(** The parameters that [iface_fill_param_state] fills and that are counted only
    when they are "enable" or "disable". *)
Definition switches : list string :=
  ["delayed_ack"; "nagle"; "tcp_wsf_state"; "tcp_timestamp"; "redirect"; "header_digest"; "data_digest";
   "immediate_data"; "initial_r2t"; "data_seq_inorder"; "data_pdu_inorder"; "chap_auth"; "bidi_chap";
   "strict_login_comp"; "discovery_auth"; "discovery_logout"; "dhcp_dns"; "dhcp_slp_da"; "tos_state";
   "gratuitous_arp"; "dhcp_alt_client_id_state"; "dhcp_req_vendor_id_state"; "dhcp_vendor_id_state";
   "dhcp_learn_iqn"; "fragmentation"; "incoming_forwarding"; "gratuitous_neighbor_adv"; "mld"].

Definition countable_iface (iface : memory) : Prop :=
  get_int iface "port" <> 0%Z /\
  Forall (fun f => get_str iface f = [] \/ get_str iface f = str "enable" \/ get_str iface f = str "disable") switches.

#[export] Instance countable_iface_dec iface : Decision (countable_iface iface).
Proof. unfold countable_iface. apply _. Defined.

(** The attributes that a list of results holds, and the places it needs. *)
Definition attrs (l : list fillres) : list param_info :=
  omap (fun r => match r with Untouched => None | Wrote a => a end) l.

Definition writes1 (r : fillres) : nat := match r with Untouched => 0 | Wrote _ => 1 end.

Definition writes (l : list fillres) : nat := list_sum (writes1 <$> l).

Lemma writes1_le r : writes1 r <= 1.
Proof. destruct r; cbn; lia. Qed.

Lemma attrs_writes l : length (attrs l) <= writes l.
Proof.
  unfold writes, attrs. induction l as [|[|[a|]] l IH]; cbn; unfold list_sum in *; lia.
Qed.

Lemma writes_app l k : writes (l ++ k) = writes l + writes k.
Proof. unfold writes. rewrite fmap_app. apply list_sum_app. Qed.

Lemma sum_cons {A} (f : A -> nat) x l : list_sum (f <$> x :: l) = f x + list_sum (f <$> l).
Proof. done. Qed.

(** ** Filling the table *)

(** The table holds [l] behind its two reserved entries, and nothing else. *)
Definition holds (c : net_config) (l : list param_info) : Prop :=
  nc_count c = length l /\ exists free, iovs c = [None; None] ++ (Some <$> l) ++ replicate free None.

Lemma apply_param_spec c r l :
  holds c l -> 2 + nc_count c + writes1 r <= length (iovs c) ->
  exists c', apply_param c r = Some c' /\ holds c' (l ++ attrs [r]) /\ length (iovs c') = length (iovs c) /\
             lcount c' = lcount c + length (attrs [r]).
Proof.
  intros [Hn [free Ht]] Hroom. destruct r as [|a]; cbn [writes1] in Hroom.
  { exists c. cbn. rewrite app_nil_r, Nat.add_0_r. split_and!; try done. split; [done|by exists free]. }
  unfold apply_param. rewrite decide_True by lia. eexists. split; [done|].
  assert (exists k, free = S k) as [k ->].
  { destruct free as [|k]; [|by exists k]. rewrite Ht, !length_app, length_fmap in Hroom. cbn in Hroom. lia. }
  assert (<[2 + nc_count c := a]> (iovs c) = [None; None] ++ (Some <$> l) ++ a :: replicate k None) as E.
  { rewrite Ht, Hn. change (2 + length l) with (length [@None param_info; None] + length l). rewrite insert_app_r.
    f_equal. replace (length l) with (length (Some <$> l) + 0) by (rewrite length_fmap; lia). by rewrite insert_app_r. }
  destruct a as [a|]; unfold holds; split_and!; try (cbn; lia); try apply length_insert.
  - rewrite length_app. cbn. lia.
  - exists k. etrans; [exact E|]. cbn [attrs omap list_omap]. by rewrite fmap_app, <- !app_assoc.
  - rewrite length_app. cbn. lia.
  - exists (S k). etrans; [exact E|]. by rewrite app_nil_r.
Qed.

Lemma apply_params_spec rs : forall c l,
  holds c l -> 2 + nc_count c + writes rs <= length (iovs c) ->
  exists c', apply_params c rs = Some c' /\ holds c' (l ++ attrs rs) /\ length (iovs c') = length (iovs c) /\
             lcount c' = lcount c + length (attrs rs).
Proof.
  induction rs as [|r rs IH]; intros c l Hh Hroom; cbn [apply_params].
  - exists c. cbn. rewrite app_nil_r. repeat split; try apply Hh; lia.
  - change (writes (r :: rs)) with (writes1 r + writes rs) in Hroom.
    destruct (apply_param_spec c r l Hh ltac:(lia)) as (c1 & -> & Hh1 & Hlen & Hl). cbn [mbind option_bind].
    pose proof (attrs_writes [r]) as Hw. change (writes [r]) with (writes1 r + 0) in Hw.
    destruct (IH c1 _ Hh1) as (c2 & E & Hh2 & Hlen2 & Hl2).
    { destruct Hh1 as [-> _], Hh as [Hn _]. rewrite length_app, Hlen. lia. }
    exists c2. rewrite E. split; [done|].
    replace (attrs (r :: rs)) with (attrs [r] ++ attrs rs) by (by destruct r as [|[|]]).
    rewrite app_assoc, length_app. repeat split; try apply Hh2; lia.
Qed.

(** ** Counting and filling agree *)
Section Fits.
Context `{LEnv : LoginEnv} `{NEnv : NetEnv}.

Lemma writes_state iface t p pt f :
  countable_iface iface -> f ∈ switches -> writes1 (iface_set_param_state iface t p pt f) <= en_cnt iface f.
Proof.
  intros [_ Hs] Hf. unfold iface_set_param_state, iface_fill_param_state, en_cnt.
  destruct (proj1 (List.Forall_forall _ _) Hs f (proj1 (list_elem_of_In _ _) Hf)) as [E|E].
  - rewrite E, decide_True by done. cbn. lia.
  - rewrite bool_decide_true by tauto. apply writes1_le.
Qed.

Lemma writes_int iface t p pt n f : writes1 (iface_set_param_intval iface t p pt n f) <= int_cnt iface f.
Proof. unfold iface_set_param_intval, int_cnt. destruct (truth _); [apply writes1_le|done]. Qed.

Lemma writes_str iface t p f : writes1 (iface_set_net_param_strval iface t p f) <= str_cnt iface f.
Proof.
  unfold iface_set_net_param_strval, str_cnt, iface_fill_str_param_val.
  destruct (get_str iface f) eqn:E; [done|]. rewrite bool_decide_false by done. apply writes1_le.
Qed.

Lemma writes_ipv4 iface p f :
  writes1 (iface_set_net_param_ipv4_addr iface p f) <= if has iface f (str ".") then 1 else 0.
Proof. unfold iface_set_net_param_ipv4_addr. destruct (has _ _ _); [apply writes1_le|done]. Qed.

(** Replaces the places of each parameter by their bound. *)
Ltac bound_writes :=
  repeat match goal with
  | |- context [writes1 ?r] =>
      let H := fresh "Hw" in
      first
        [ match r with
          | iface_set_param_state ?i ?t ?p ?pt ?f =>
              pose proof (writes_state i t p pt f ltac:(assumption) ltac:(apply (bool_decide_unpack _); vm_compute; exact I)) as H
          | iface_set_param_intval ?i ?t ?p ?pt ?n ?f => pose proof (writes_int i t p pt n f) as H
          | iface_set_net_param_strval ?i ?t ?p ?f => pose proof (writes_str i t p f) as H
          | iface_set_net_param_ipv4_addr ?i ?p ?f => pose proof (writes_ipv4 i p f) as H
          end
        | pose proof (writes1_le r) as H ];
      generalize dependent (writes1 r); intros
  end.

Lemma writes_ipv4_addr iface : writes (ipv4_addr_params iface) <= ipv4_addr_count iface.
Proof.
  unfold ipv4_addr_params, ipv4_addr_count, writes.
  destruct (has iface "bootproto" _); [|destruct (has iface "ipaddress" _)]; unfold list_sum; cbn [fmap list_fmap foldr];
    bound_writes; repeat match goal with H : context [has iface ?f ?t] |- _ => destruct (has iface f t) end; lia.
Qed.

Lemma writes_autocfg auto given a b : writes (autocfg_params auto given a b) <= autocfg_count auto given.
Proof. unfold writes, autocfg_count, list_sum. destruct auto, given; cbn; bound_writes; lia. Qed.

Lemma writes_ipv6_addr iface : writes (ipv6_addr_params iface) <= ipv6_addr_count iface.
Proof.
  unfold ipv6_addr_params, ipv6_addr_count. rewrite !writes_app.
  repeat match goal with |- context [writes (autocfg_params ?x ?y ?a ?b)] =>
    pose proof (writes_autocfg x y a b); generalize dependent (writes (autocfg_params x y a b)); intros end. lia.
Qed.

Lemma writes_common iface t :
  countable_iface iface -> writes (common_params iface t) <= 1 + iface_get_common_param_count iface.
Proof.
  intros Hc. unfold common_params, iface_get_common_param_count, writes, list_sum. cbn [fmap list_fmap foldr].
  assert (writes1 (if bool_decide (get_str iface "vlan_state" <> str "disable" /\ get_int iface "vlan_id" <> 0%Z)
                   then iface_fill_vlan_id iface t else Untouched) <=
          (if bool_decide (get_str iface "vlan_state" <> str "disable") then int_cnt iface "vlan_id" else 0)) as Hv.
  { case_bool_decide as Hd; [|cbn; lia]. destruct Hd as [Hs Hi]. rewrite bool_decide_true by done.
    unfold int_cnt. replace (truth (get_int iface "vlan_id")) with true; [apply writes1_le|].
    unfold truth. by destruct (Z.eqb_spec (get_int iface "vlan_id") 0). }
  generalize dependent (writes1 (if bool_decide (get_str iface "vlan_state" <> str "disable" /\ get_int iface "vlan_id" <> 0%Z)
                   then iface_fill_vlan_id iface t else Untouched)). intros n Hv.
  pose proof (writes1_le (iface_set_param_state iface t ISCSI_NET_PARAM_VLAN_ENABLED ISCSI_NET_PARAM "vlan_state")) as H1.
  generalize dependent (writes1 (iface_set_param_state iface t ISCSI_NET_PARAM_VLAN_ENABLED ISCSI_NET_PARAM "vlan_state")).
  intros k H1. bound_writes. destruct (bool_decide (get_str iface "vlan_state" <> _)); lia.
Qed.

Lemma writes_v4 iface :
  countable_iface iface ->
  writes (ipv4_params iface) + iface_get_common_param_count iface <= ipv4_count iface.
Proof.
  intros Hc. unfold ipv4_params, ipv4_count, writes, list_sum. generalize (iface_get_common_param_count iface).
  intros k. cbn [fmap list_fmap foldr]. bound_writes. lia.
Qed.

Lemma writes_v6 iface :
  countable_iface iface ->
  writes (ipv6_params iface) + iface_get_common_param_count iface <= ipv6_count iface.
Proof.
  intros Hc. unfold ipv6_params, ipv6_count, writes, list_sum. generalize (iface_get_common_param_count iface).
  intros k. cbn [fmap list_fmap foldr]. bound_writes. lia.
Qed.

(** What the kernel is asked to set for one interface: nothing for an interface
    of another adapter, its state when it is disabled; the other parameters only
    follow when there is an address to set. *)
Definition wanted (primary iface : memory) : list param_info :=
  if decide (get_str primary "hwaddress" <> get_str iface "hwaddress") then []
  else
    let t := iface_get_iptype "" iface in
    if decide (get_str iface "state" = str "disable") then
      attrs [iface_set_param_state iface t ISCSI_NET_PARAM_IFACE_ENABLE ISCSI_NET_PARAM "state"]
    else
      let (addr, rest) := match t with
                          | ISCSI_IFACE_TYPE_IPV4 => (ipv4_addr_params iface, ipv4_params iface)
                          | ISCSI_IFACE_TYPE_IPV6 => (ipv6_addr_params iface, ipv6_params iface)
                          end in
      if decide (attrs addr = []) then [] else attrs addr ++ attrs rest ++ attrs (common_params iface t).

(** The three lists of an interface, one after the other. *)
Lemma apply_three c addr rest common l :
  holds c l -> lcount c = 0 ->
  2 + nc_count c + writes addr + (if decide (attrs addr = []) then 0 else writes rest + writes common) <= length (iovs c) ->
  exists c', (c1 ← (c0 ← apply_params c addr; apply_if_any c0 rest); apply_if_any c1 common) = Some c' /\
             holds c' (l ++ (if decide (attrs addr = []) then [] else attrs addr ++ attrs rest ++ attrs common)) /\
             length (iovs c') = length (iovs c).
Proof.
  intros Hh Hl. pose proof (attrs_writes addr) as Ha. pose proof (attrs_writes rest) as Hr.
  case_decide as E; intros Hroom; destruct (apply_params_spec addr c l Hh ltac:(lia)) as (c1 & -> & Hh1 & Hlen1 & Hl1);
    cbn [mbind option_bind]; unfold apply_if_any at 2.
  - rewrite E in *. cbn [length] in *. rewrite decide_True by lia. cbn [mbind option_bind]. unfold apply_if_any.
    rewrite decide_True by lia. eauto.
  - assert (length (attrs addr) <> 0) by (by destruct (attrs addr)). rewrite decide_False by lia.
    pose proof Hh1 as [Hn1 _]. pose proof Hh as [Hn _]. rewrite length_app in Hn1.
    destruct (apply_params_spec rest c1 _ Hh1 ltac:(lia)) as (c2 & -> & Hh2 & Hlen2 & Hl2).
    cbn [mbind option_bind]. unfold apply_if_any. rewrite decide_False by lia.
    pose proof Hh2 as [Hn2 _]. rewrite !length_app in Hn2.
    destruct (apply_params_spec common c2 _ Hh2 ltac:(lia)) as (c3 & -> & Hh3 & Hlen3 & Hl3).
    exists c3. rewrite <- !app_assoc in Hh3. split_and!; [done..|lia].
Qed.

(** The places that the parameters of an interface need. *)
Definition places (primary iface : memory) : nat :=
  if decide (get_str primary "hwaddress" <> get_str iface "hwaddress") then 0
  else if decide (get_str iface "state" = str "disable") then 1
  else
    let t := iface_get_iptype "" iface in
    let (addr, rest) := match t with
                        | ISCSI_IFACE_TYPE_IPV4 => (ipv4_addr_params iface, ipv4_params iface)
                        | ISCSI_IFACE_TYPE_IPV6 => (ipv6_addr_params iface, ipv6_params iface)
                        end in
    writes addr + (if decide (attrs addr = []) then 0 else writes rest + writes (common_params iface t)).

Lemma with_state_enough addr rest common a r :
  writes addr <= a -> writes rest + writes common <= 1 + r ->
  writes addr + (if decide (attrs addr = []) then 0 else writes rest + writes common) <= with_state a r.
Proof.
  intros Ha Hr. unfold with_state. repeat case_decide; try lia.
  pose proof (attrs_writes addr). destruct (attrs addr); [done|]. cbn in *. lia.
Qed.

Lemma places_counted primary iface :
  countable_iface iface -> places primary iface <= __iface_get_param_count primary iface.
Proof.
  intros Hc. unfold places, __iface_get_param_count. do 2 (case_decide; [done|]).
  pose proof (writes_common iface (iface_get_iptype "" iface) Hc) as Hw. destruct (iface_get_iptype "" iface).
  - apply with_state_enough; [apply writes_ipv4_addr|]. pose proof (writes_v4 iface Hc). lia.
  - apply with_state_enough; [apply writes_ipv6_addr|]. pose proof (writes_v6 iface Hc). lia.
Qed.

Lemma wanted_places primary iface : length (wanted primary iface) <= places primary iface.
Proof.
  unfold wanted, places. case_decide; [done|]. case_decide.
  - pose proof (attrs_writes [iface_set_param_state iface (iface_get_iptype "" iface) ISCSI_NET_PARAM_IFACE_ENABLE
      ISCSI_NET_PARAM "state"]) as Hb. etrans; [exact Hb|]. unfold writes, list_sum. cbn [fmap list_fmap foldr].
    rewrite Nat.add_0_r. apply writes1_le.
  - destruct (match iface_get_iptype "" iface with ISCSI_IFACE_TYPE_IPV4 => _ | _ => _ end) as [addr rest].
    pose proof (attrs_writes addr). pose proof (attrs_writes rest).
    pose proof (attrs_writes (common_params iface (iface_get_iptype "" iface))).
    case_decide; cbn [length]; rewrite ?length_app; lia.
Qed.

Lemma build_one primary iface c l :
  countable_iface iface -> holds c l -> 2 + nc_count c + places primary iface <= length (iovs c) ->
  exists c', __iface_build_net_config primary c iface = Some c' /\ holds c' (l ++ wanted primary iface) /\
             length (iovs c') = length (iovs c).
Proof.
  intros [Hp _] Hh. unfold __iface_build_net_config, places, wanted.
  case_decide as Hhw; [intros; exists c; by rewrite app_nil_r|].
  assert (truth (get_int iface "port") = true) as -> by
    (unfold truth; by destruct (Z.eqb_spec (get_int iface "port") 0)).
  assert (holds (c <| lcount := 0 |>) l) as Hh0 by exact Hh.
  case_decide as Hst; intros Hroom.
  - edestruct (apply_param_spec _ (iface_set_param_state iface (iface_get_iptype "" iface) ISCSI_NET_PARAM_IFACE_ENABLE
      ISCSI_NET_PARAM "state") _ Hh0) as (c' & E & Hh' & Hlen & _); [|by exists c'].
    etrans; [|exact Hroom]. apply Nat.add_le_mono_l, writes1_le.
  - destruct (iface_get_iptype "" iface);
      change (length (iovs c)) with (length (iovs (c <| lcount := 0 |>))); apply apply_three; [done|done| |done|done| ];
      by rewrite <- Nat.add_assoc.
Qed.

Lemma build_list primary ifs : forall c l,
  Forall countable_iface ifs -> holds c l -> 2 + nc_count c + list_sum (places primary <$> ifs) <= length (iovs c) ->
  exists c', build_all primary c ifs = Some c' /\ holds c' (l ++ concat (wanted primary <$> ifs)).
Proof.
  induction ifs as [|iface ifs IH]; intros c l Hok Hh Hroom; cbn [build_all].
  - exists c. cbn. by rewrite app_nil_r.
  - apply Forall_cons in Hok as [Hi Hok]. rewrite sum_cons in Hroom.
    destruct (build_one primary iface c l Hi Hh ltac:(lia)) as (c1 & -> & Hh1 & Hlen). cbn [mbind option_bind].
    destruct (IH c1 _ Hok Hh1) as (c2 & -> & Hh2).
    { pose proof (wanted_places primary iface). destruct Hh1 as [-> _], Hh as [Hn _].
      rewrite length_app, Hlen. lia. }
    exists c2. cbn [fmap list_fmap concat]. by rewrite app_assoc.
Qed.

Lemma places_sum primary ifs :
  Forall countable_iface ifs ->
  list_sum (places primary <$> ifs) <= list_sum (__iface_get_param_count primary <$> ifs).
Proof.
  induction 1 as [|iface ifs Hi _ IH]; [done|]. pose proof (places_counted primary iface Hi).
  rewrite !sum_cons. lia.
Qed.

Lemma wanted_sum primary ifs : length (concat (wanted primary <$> ifs)) <= list_sum (places primary <$> ifs).
Proof.
  induction ifs as [|iface ifs IH]; [done|]. pose proof (wanted_places primary iface).
  rewrite sum_cons, fmap_cons. cbn [concat]. rewrite length_app. lia.
Qed.

Lemma table_fits iface all :
  Forall countable_iface (default [iface] all) ->
  exists c, net_table iface all = Some c /\ holds c (concat (wanted iface <$> default [iface] all)).
Proof.
  intros Hok. unfold net_table, iface_build_net_config, iface_get_param_count.
  pose proof (places_sum iface _ Hok) as Hp.
  apply (build_list iface _ _ [] Hok).
  - split; [done|]. eexists. cbn [iovs]. by rewrite Nat.add_comm, replicate_add.
  - cbn [nc_count iovs]. rewrite length_replicate. lia.
Qed.

Context `{KEnv : AdapterEnv}.

(** C18: the network configuration of an adapter.  For one interface or for all the
    records, whatever the addresses and numbers, when each has its port set and its
    switches empty, "enable" or "disable": the table that [iface_get_param_count]
    sizes is never overrun while it is filled, and a request to the kernel has,
    behind the two reserved entries, exactly the parameters of the interfaces of this
    adapter, in order (none for an interface without an address), and empty
    entries after them. *)
Theorem net_config_fits sizeof_host_info iface all :
  Forall countable_iface (default [iface] all) ->
  exists r, iface_apply_net_config sizeof_host_info iface all = Some r /\
    forall handle host v, ap_sent r = Some (handle, host, v) ->
      exists params free, params <> [] /\ params = concat (wanted iface <$> default [iface] all) /\
        v = [None; None] ++ (Some <$> params) ++ replicate free None.
Proof.
  intros Hok. unfold iface_apply_net_config. destruct (table_fits iface all Hok) as (c & -> & Hn & free & Ht).
  case_decide; [eexists; split; [done|]; cbn; congruence|].
  destruct (malloc _); cbn [negb]; [|eexists; split; [done|]; cbn; congruence].
  eexists. split; [done|]. intros handle host v Hs.
  assert (nc_count c <> 0 /\ v = iovs c) as [Hc ->] by (repeat case_match; naive_solver).
  exists (concat (wanted iface <$> default [iface] all)), free. split_and!; [|done..].
  intros E. by rewrite E in Hn.
Qed.
End Fits.

(** ** Concrete interfaces *)
Module NetExample.
Local Instance env : LoginEnv := {| getaddrinfo _ _ := None; malloc _ := true |}.
Local Instance net : NetEnv := {| inet_pton4 _ := Some [192; 168; 0; 5]%Z; inet_pton6 _ := None |}.

Definition static (port : Z) : memory :=
  {[ "name" := FStr (str "nic0"); "hwaddress" := FStr (str "00:11"); "state" := FStr (str "enable");
     "vlan_state" := FStr (str "disable"); "ipaddress" := FStr (str "192.168.0.5"); "port" := FInt port ]}.

(** An adapter that is host [n]. *)
Definition adapter (n : Z) : AdapterEnv :=
  {| host_dir := [Some (n, static 3260)]; get_transport_by_name _ := Some 1%Z; ctldev_open := true;
     set_net_config _ _ _ := 0%Z |}.

(** The same adapter with an IPv6 interface that has no address, and another
    adapter. *)
Definition records : list memory :=
  [ static 3260;
    <["name" := FStr (str "nic1-ipv6")]> (<["ipaddress" := FStr []]> (static 3260));
    <["hwaddress" := FStr (str "00:22")]> (static 3260) ].

Lemma records_countable : Forall countable_iface records.
Proof. apply (bool_decide_unpack _). vm_compute. exact I. Qed.

Lemma net_config_fits_witness :
  Forall countable_iface records /\
  exists r, @iface_apply_net_config env net (adapter 2) 100 (static 3260) (Some records) = Some r /\
    forall handle host v, ap_sent r = Some (handle, host, v) ->
      exists params free, params <> [] /\ params = concat (wanted (static 3260) <$> records) /\
        v = [None; None] ++ (Some <$> params) ++ replicate free None.
Proof.
  split; [apply records_countable|].
  apply (@net_config_fits env net (adapter 2) 100 (static 3260) (Some records)), records_countable.
Defined.

(** Five parameters are sent: boot protocol, address, state, VLAN state and
    port. *)
Lemma records_sent :
  (fun r => pi_param <$> omap id (from_option (fun s => s.2) [] (ap_sent r))) <$>
    @iface_apply_net_config env net (adapter 2) 100 (static 3260) (Some records) =
  Some [ISCSI_NET_PARAM_IPV4_BOOTPROTO; ISCSI_NET_PARAM_IPV4_ADDR; ISCSI_NET_PARAM_IFACE_ENABLE;
        ISCSI_NET_PARAM_VLAN_ENABLED; ISCSI_NET_PARAM_PORT].
Proof. vm_compute. reflexivity. Qed.

(** Without a port the default 3260 is put in place after the parameters were
    counted: five are filled into a table of four. *)
Lemma default_port_overruns :
  iface_get_param_count (static 0) None = 4 /\
  @iface_apply_net_config env net (adapter 2) 100 (static 0) None = None.
Proof. split; vm_compute; reflexivity. Qed.

(** A switch that is neither "enable" nor "disable" is not counted, and its
    failed attribute is stored behind the table when it is the last one. *)
Lemma unknown_switch_overruns :
  let iface := <["discovery_logout" := FStr (str "on")]> (static 3260) in
  iface_get_param_count iface None = 5 /\ @iface_apply_net_config env net (adapter 2) 100 iface None = None.
Proof. split; vm_compute; reflexivity. Qed.

(** The automatic IPv6 address of any interface is sent for interface 0. *)
Lemma autocfg_names_interface_0 iface a : iface_fill_net_autocfg iface = Wrote (Some a) -> pi_iface_num a = 0%Z.
Proof. unfold iface_fill_net_autocfg, autocfg_info. case_match; naive_solver. Qed.

(** Host 0 is taken for a failed search: nothing is sent and the call
    succeeds. *)
Lemma host_0_is_skipped :
  @iface_apply_net_config env net (adapter 0) 100 (static 3260) None = Some (mk_applied ISCSI_SUCCESS None).
Proof. vm_compute. reflexivity. Qed.

(** A search that did fail is not noticed: the request goes to host
    4294967295. *)
Lemma missing_host_is_used :
  (fun r => (fun s => s.1.2) <$> ap_sent r) <$>
    @iface_apply_net_config env net (adapter 2) 100
      (<["hwaddress" := FStr (str "00:33")]> (static 3260)) None = Some (Some no_host).
Proof. vm_compute. reflexivity. Qed.
End NetExample.
