(* ===== verification/StrBuffer.v ===== *)
(** * Growing string buffers (usr/local_strings.c)

    A buffer is the memory that was allocated for it, [None] for the null
    pointer, with the length of the allocation and of the data.  A write through
    the null pointer or outside of the allocation is [None]. *)
From Stdlib Require Import ZArith Lia Ascii.
From stdpp Require Import base tactics numbers list strings option.
From S2P Require Import Prelude Login.

Definition ENOMEM : Z := 12.

Record str_buffer := mk_str_buffer { allocated_length : nat; data_length : nat; buffer : option (list Z) }.
#[export] Instance eta_str_buffer : Eta str_buffer :=
  fun s => mk_str_buffer (allocated_length s) (data_length s) (buffer s).

Section Operations.
Context `{LEnv : LoginEnv}.

(** The argument is never NULL: all callers pass the address of a variable or of
    what they just allocated. *)
Definition str_init_buffer (initial_allocation : nat) : str_buffer :=
  if decide (initial_allocation = 0) then mk_str_buffer 0 0 None
  else if malloc initial_allocation then mk_str_buffer initial_allocation 0 (Some (replicate initial_allocation 0%Z))
  else mk_str_buffer 0 0 None.

(** [sizeof(struct str_buffer)]. *)
Definition sizeof_str_buffer : nat := 24.

Definition str_alloc_buffer (initial_allocation : nat) : option str_buffer :=
  if malloc sizeof_str_buffer then Some (str_init_buffer initial_allocation) else None.

Definition str_free_buffer (s : str_buffer) : str_buffer := mk_str_buffer 0 0 None.

Definition str_enlarge_data (s : str_buffer) (length : nat) : Z * str_buffer :=
  let s := s <| data_length := data_length s + length |> in
  if decide (allocated_length s < data_length s) then
    if negb (malloc (data_length s)) then (ENOMEM, s)
    else
      (0%Z, s <| buffer := Some (default [] (buffer s) ++ replicate (data_length s - allocated_length s) 0%Z) |>
              <| allocated_length := data_length s |>)
  else (0%Z, s).

Definition str_remove_initial (s : str_buffer) (length : nat) : option str_buffer :=
  if decide (length = 0) then Some s
  else
    b ← buffer s;
    let amount := data_length s - length in
    rest ← buf_prefix (drop length b) amount;
    b ← buf_write b 0 rest;
    b ← buf_set b amount NUL;
    Some (s <| buffer := Some b |> <| data_length := amount |>).

Definition str_truncate_buffer (s : str_buffer) (length : nat) : option str_buffer :=
  if decide (data_length s = 0) then Some s
  else if decide (length <= data_length s) then
    b ← buffer s;
    b ← buf_set b length NUL;
    Some (s <| data_length := length |> <| buffer := Some b |>)
  else if decide (length <= allocated_length s) then
    b ← buffer s;
    b ← buf_write b (data_length s) (replicate (length - data_length s) 0%Z);
    Some (s <| buffer := Some b |> <| data_length := length |>)
  else Some s.

Definition str_unused_length (s : str_buffer) : nat := allocated_length s - data_length s.
End Operations.

(** ** The bytes of a buffer *)

(** The allocation has the length that is noted, and holds the data. *)
Definition buffer_wf (s : str_buffer) : Prop :=
  length (default [] (buffer s)) = allocated_length s /\ data_length s <= allocated_length s /\
  (allocated_length s = 0 <-> buffer s = None).

Definition contents (s : str_buffer) : list Z := take (data_length s) (default [] (buffer s)).

Lemma length_contents s : buffer_wf s -> length (contents s) = data_length s.
Proof. intros (Hl & Hd & _). unfold contents. rewrite length_take. lia. Qed.

Lemma init_wf `{LEnv : LoginEnv} n : buffer_wf (str_init_buffer n) /\ contents (str_init_buffer n) = [].
Proof.
  unfold str_init_buffer, buffer_wf, contents. case_decide; [|destruct (malloc n)]; cbn; rewrite ?length_replicate;
    split_and!; first [done|lia|split; (done || lia)].
Qed.

Lemma enlarge_spec `{LEnv : LoginEnv} s n s' :
  buffer_wf s -> str_enlarge_data s n = (0%Z, s') ->
  buffer_wf s' /\ data_length s' = data_length s + n /\ take (data_length s) (default [] (buffer s')) = contents s.
Proof.
  intros (Hl & Hd & Hn). unfold str_enlarge_data. cbn. case_decide as Hlt; [destruct (malloc _); [|done]|]; intros [= <-].
  - unfold buffer_wf, contents. cbn. rewrite length_app, length_replicate. split_and!; try lia; [split; [lia|done]|].
    by rewrite take_app_le by lia.
  - unfold buffer_wf. cbn. split_and!; try lia; done.
Qed.

Lemma remove_initial_spec s n :
  buffer_wf s -> n <= data_length s ->
  exists s', str_remove_initial s n = Some s' /\ buffer_wf s' /\ contents s' = drop n (contents s).
Proof.
  intros (Hl & Hd & Hn) Hle. unfold str_remove_initial. case_decide as H0.
  { exists s. by subst. }
  destruct (buffer s) as [b|] eqn:E; cbn in Hl; [|destruct Hn as [_ Hn]; specialize (Hn eq_refl); lia].
  cbn. rewrite buf_prefix_Some by (rewrite length_drop; lia). cbn.
  rewrite buf_write_Some by (rewrite length_take, length_drop; lia). cbn.
  assert (length (take (data_length s - n) (drop n b)) = data_length s - n) as Hlen by (rewrite length_take, length_drop; lia).
  rewrite buf_set_Some by (rewrite length_splice; lia). eexists. split; [done|]. unfold buffer_wf, contents. cbn.
  rewrite length_insert, length_splice, E by lia. split_and!; try lia.
  - destruct Hn as [Hn _]. split; [intros Hz; specialize (Hn Hz); done|done].
  - rewrite take_insert_ge by lia. rewrite <- Hlen at 1. rewrite take_splice_0. cbn. by rewrite <- skipn_firstn_comm.
Qed.

Lemma truncate_spec s n :
  buffer_wf s -> n < data_length s \/ data_length s = 0 ->
  exists s', str_truncate_buffer s n = Some s' /\ buffer_wf s' /\ contents s' = take n (contents s).
Proof.
  intros (Hl & Hd & Hn) Hle. unfold str_truncate_buffer. case_decide as H0.
  { exists s. split_and!; try done. unfold contents. by rewrite H0, !take_0, take_nil. }
  destruct Hle as [Hle|]; [|done]. rewrite decide_True by lia.
  destruct (buffer s) as [b|] eqn:E; cbn in Hl; [|destruct Hn as [_ Hn]; specialize (Hn eq_refl); lia].
  cbn. rewrite buf_set_Some by lia. eexists. split; [done|]. unfold buffer_wf, contents. cbn. rewrite length_insert, E.
  split_and!; try lia.
  - destruct Hn as [Hn _]. split; [intros Hz; specialize (Hn Hz); done|done].
  - rewrite take_insert_ge by lia. cbn. rewrite take_take. f_equal. lia.
Qed.
