(* ===== verification/Discovery.v ===== *)
(** * SendTargets discovery: the targets in the responses

    usr/discovery.c, [add_portal] to [process_sendtargets_response].  The text of
    the responses is collected in a string buffer; pointers into it are offsets.
    [rec_list] is the list of the node records found so far. *)
From Stdlib Require Import ZArith Lia Ascii.
From stdpp Require Import base tactics numbers list strings option gmap.
From S2P Require Import Prelude CString Pdu LoginText Io Login Idbm IdbmTables StateM IdbmOps StrBuffer.

Section Parser.
Context `{LEnv : LoginEnv}.

(** [getaddrinfo] without a service. *)
Variable getaddrinfo_host : list Z -> option (list Z).

(** What [idbm_node_setup_from_conf] puts into a new record. *)
Variable conf : memory.

(** [resolve_address] with a port that may be NULL. *)
Definition resolve_portal (host : list Z) (port : option (list Z)) : option (list Z) :=
  match port with Some port => resolve_address host port | None => getaddrinfo_host host end.

(** [if (s && *s) atoi(s) else d]. *)
Definition number_or (s : option (list Z)) (d : Z) : Z :=
  match s with Some (c :: s) => atoi (c :: s) | _ => d end.

(** The record that [add_portal] fills. *)
Definition portal_record (drec : memory) (targetname address : list Z) (port tag : option (list Z)) : memory :=
  let rec := set_source conf drec in
  let rec := <["name" := FStr (take (TARGET_NAME_MAXLEN - 1) targetname)]> rec in
  let rec := <["tpgt" := FInt (number_or tag PORTAL_GROUP_TAG_UNKNOWN)]> rec in
  let rec := <["conn[0].port" := FInt (number_or port ISCSI_LISTEN_PORT)]> rec in
  <["conn[0].address" := FStr (take (NI_MAXHOST - 1) address)]> rec.

Definition add_portal (rec_list : list memory) (drec : memory) (targetname address : list Z) (port tag : option (list Z))
    : bool * list memory :=
  match resolve_portal address port with
  | None => (false, rec_list)
  | Some _ =>
      if negb (malloc NODE_REC_SIZE) then (false, rec_list)
      else (true, rec_list ++ [portal_record drec targetname address port tag])
  end.

(** ** Scanning *)

(** [while (text < end && p( *text)) text++]; [n] is [end - text]. *)
Fixpoint skip (p : Z -> bool) (b : list Z) (text n : nat) : option nat :=
  match n with
  | O => Some text
  | S n => c ← b !! text; if p c then skip p b (S text) n else Some text
  end.

Definition is_nul (c : Z) : bool := bool_decide (c = NUL).

Definition skip_nul (b : list Z) (text end_ : nat) : option nat := skip is_nul b text (end_ - text).
Definition skip_text (b : list Z) (text end_ : nat) : option nat := skip (fun c => negb (is_nul c)) b text (end_ - text).

(** [strncmp(text, l, strlen(l)) == 0]. *)
Fixpoint prefix_at (l : list Z) (b : list Z) (text : nat) : option bool :=
  match l with
  | [] => Some true
  | x :: l => c ← b !! text; if decide (c = x) then prefix_at l b (S text) else Some false
  end.

(** [if ((p = strrchr(text, c))) { *p = '\0'; p++; }] *)
Definition cut (b : list Z) (text : nat) (c : Z) : option (option nat * list Z) :=
  line ← cstr b text;
  match strrchr line c with
  | None => Some (None, b)
  | Some i => b ← buf_set b (text + i) NUL; Some (Some (S (text + i)), b)
  end.

(** The string at a pointer that may be NULL. *)
Definition cstr_opt (b : list Z) (p : option nat) : option (option (list Z)) :=
  match p with Some p => Some <$> cstr b p | None => Some None end.

(** ** One target *)
Definition TARGET_ADDRESS : list Z := str "TargetAddress=".

(** The body of the loop over the lines that follow the name. *)
Definition address_line (drec : memory) (b : list Z) (name text : nat) (rec_list : list memory)
    : option (bool * list Z * list memory) :=
  hit ← prefix_at TARGET_ADDRESS b text;
  if negb hit then Some (true, b, rec_list)
  else
    '(tag, b) ← cut b text (char ",");
    '(port, b) ← cut b text (char ":");
    c ← b !! (text + 14);
    '(address, b) ← (if decide (c = char "[") then '(_, b) ← cut b text (char "]"); Some (S (text + 14), b)
                     else Some (text + 14, b));
    targetname ← cstr b name;
    address ← cstr b address;
    port ← cstr_opt b port;
    tag ← cstr_opt b tag;
    let '(ok, rec_list) := add_portal rec_list drec targetname address port tag in
    Some (ok, b, rec_list).

Fixpoint address_lines (fuel : nat) (drec : memory) (b : list Z) (name text end_ : nat) (rec_list : list memory)
    : option (bool * list Z * list memory) :=
  if decide (end_ <= text) then Some (true, b, rec_list)
  else
    match fuel with
    | O => None
    | S fuel =>
        line ← cstr b text;
        '(ok, b, rec_list) ← address_line drec b name text rec_list;
        if negb ok then Some (false, b, rec_list)
        else address_lines fuel drec b name (text + length line + 1) end_ rec_list
    end.

Definition add_target_record (drec : memory) (b : list Z) (name end_ : nat) (rec_list : list memory)
    : option (bool * list Z * list memory) :=
  nul ← skip_text b name end_;
  if decide (TARGET_NAME_MAXLEN < nul - name) then Some (false, b, rec_list)
  else
    text ← skip_nul b nul end_;
    if decide (end_ <= text) then
      if decide (get_str drec "address" = []) then Some (false, b, rec_list)
      else
        targetname ← cstr b name;
        let '(ok, rec_list) :=
          add_portal rec_list drec targetname (get_str drec "address") (Some (fmt_d (i32 (get_int drec "port")))) None in
        Some (ok, b, rec_list)
    else address_lines (end_ - text) drec b name text end_ rec_list.

(** ** A response *)
Definition TARGET_NAME : list Z := str "TargetName=".

(** [while ((nul > start) && *nul) nul--]. *)
Fixpoint last_nul (b : list Z) (nul : nat) : option nat :=
  match nul with
  | O => Some 0
  | S k => c ← b !! nul; if is_nul c then Some nul else last_nul b k
  end.

(** What is left when the loop over the lines ends: [ok] is false when a target
    could not be added; [record] is the start of the last target. *)
Record scan := mk_scan { ok : bool; text_ : list Z; found : list memory; record : option nat }.

Fixpoint find_records (fuel : nat) (drec : memory) (b : list Z) (nul text : nat) (record : option nat)
    (rec_list : list memory) : option scan :=
  match fuel with
  | O => None
  | S fuel =>
      text ← skip_nul b text nul;
      if decide (text = nul) then Some (mk_scan true b rec_list record)
      else
        hit ← prefix_at TARGET_NAME b text;
        '(ok, b, rec_list) ← match record with
                             | Some r => if hit : bool then add_target_record drec b (r + 11) text rec_list
                                         else Some (true, b, rec_list)
                             | None => Some (true, b, rec_list)
                             end;
        if negb ok then Some (mk_scan false b rec_list record)
        else
          next ← skip_text b text nul;
          find_records fuel drec b nul next (if hit : bool then Some text else record) rec_list
  end.

Definition process_sendtargets_response (sendtargets : str_buffer) (final : bool) (drec : memory) (rec_list : list memory)
    : option (str_buffer * list memory) :=
  if decide (data_length sendtargets = 0) then Some (sendtargets, rec_list)
  else
    b ← buffer sendtargets;
    nul ← last_nul b (data_length sendtargets - 1);
    if decide (nul = 0) then Some (sendtargets, rec_list)
    else
      r ← find_records (S nul) drec b nul 0 None rec_list;
      let sendtargets := sendtargets <| buffer := Some (text_ r) |> in
      if negb (ok r) then s ← str_truncate_buffer sendtargets 0; Some (s, found r)
      else
        match record r with
        | None => Some (sendtargets, found r)
        | Some start =>
            if final then
              '(_, b, rec_list) ← add_target_record drec (text_ r) (start + 11) nul (found r);
              s ← str_truncate_buffer (sendtargets <| buffer := Some b |>) 0;
              Some (s, rec_list)
            else s ← str_remove_initial sendtargets start; Some (s, found r)
        end.

(** ** PDUs *)
Definition ISCSI_OP_TEXT : Z := 0x04.
Definition ISCSI_OP_TEXT_RSP : Z := 0x24.
Definition ISCSI_FLAG_CMD_FINAL : Z := 0x80.
Definition ISCSI_RESERVED_TAG : Z := 0xffffffff.
Definition OFF_itt : nat := 16.
Definition OFF_ttt : nat := 20.
Definition DISCOVERY_NEED_RECONNECT : Z := i32 0xdead0001.

(** [session->itt] is 1 throughout a discovery session. *)
Definition DISC_ITT : Z := 1.

Definition iscsi_make_text_pdu (s : iscsi_session) : list Z * iscsi_session :=
  let h := hdr_put zero_hdr OFF_opcode [ISCSI_OP_TEXT] in
  let h := hdr_put h OFF_itt (be_bytes 4 DISC_ITT) in
  let h := hdr_put h OFF_ttt (be_bytes 4 ISCSI_RESERVED_TAG) in
  let h := hdr_put h OFF_cmdsn (be_bytes 4 (cmdsn s)) in
  let h := hdr_put h OFF_exp_statsn (be_bytes 4 (exp_statsn (conn s))) in
  (h, s <| cmdsn := u32 (cmdsn s + 1) |>).

(** The events of the socket while a PDU is sent, and [ipc->send_pdu_end]. *)
Record sending := mk_sending { snd_events : list write_event; snd_rc : Z }.

(** Success, the session, the bytes put on the wire. *)
Definition send_text (s : iscsi_session) (hdr data : list Z) (w : sending) : option (bool * iscsi_session * list Z) :=
  '(ok, out, _) ← iscsi_io_send_pdu (use_ipc s) (snd_rc w) hdr data (snd_events w);
  Some (ok, s, out).

Definition request_targets (s : iscsi_session) (w : sending) : option (bool * iscsi_session * list Z) :=
  let (hdr, s) := iscsi_make_text_pdu s in
  '(ok, hdr, data) ← iscsi_add_text hdr (replicate 64 0%Z) 64 (str "SendTargets") (str "All");
  if negb ok then Some (false, s, [])
  else
    let hdr := hdr_put hdr OFF_ttt (be_bytes 4 ISCSI_RESERVED_TAG) in
    send_text s (hdr_put hdr OFF_flags [ISCSI_FLAG_CMD_FINAL]) data w.

(** [ttt] is copied as it is in the header of the response. *)
Definition iterate_targets (s : iscsi_session) (ttt : list Z) (w : sending) : option (bool * iscsi_session * list Z) :=
  let (hdr, s) := iscsi_make_text_pdu s in
  let hdr := hdr_put hdr OFF_ttt ttt in
  send_text s (hdr_put hdr OFF_flags [ISCSI_FLAG_CMD_FINAL]) (replicate 64 0%Z) w.

(** The state of a discovery run. *)
Record discovery := mk_discovery {
  d_session : iscsi_session; sendtargets : str_buffer; active : Z; rec_list : list memory
}.
#[export] Instance eta_discovery : Eta discovery := fun d =>
  mk_discovery (d_session d) (sendtargets d) (active d) (rec_list d).

Definition rsp_ttt (pdu : list Z) : list Z := take 4 (drop OFF_ttt pdu).

Definition rsp_final (pdu : list Z) : bool :=
  truth (Z.land (hdr8 pdu OFF_flags) ISCSI_FLAG_CMD_FINAL) || bool_decide (be_val (rsp_ttt pdu) = ISCSI_RESERVED_TAG).

(** The data of a response is appended to the buffer and processed. *)
Definition take_response (drec : memory) (s : str_buffer) (rec_list : list memory) (final : bool) (data : list Z)
    : option (option (str_buffer * list memory) * str_buffer) :=
  let curr_data_length := data_length s in
  let '(rc, s) := str_enlarge_data s (length data) in
  if truth rc then Some (None, s)
  else
    s ← (if decide (data = []) then Some s
         else b ← buffer s; b ← buf_write b curr_data_length data; Some (s <| buffer := Some b |>));
    r ← process_sendtargets_response s final drec rec_list;
    Some (Some r, s).

Definition process_recvd_pdu (pdu : list Z) (drec : memory) (d : discovery) (data : list Z) (w : sending)
    : option (Z * discovery * list Z) :=
  if decide (hdr8 pdu OFF_opcode <> ISCSI_OP_TEXT_RSP) then Some (DISCOVERY_NEED_RECONNECT, d, [])
  else
    data ← buf_prefix data (Z.to_nat (ntoh24 pdu));
    '(r, s) ← take_response drec (sendtargets d) (rec_list d) (rsp_final pdu) data;
    match r with
    | None => Some (0%Z, d <| sendtargets := s |>, [])
    | Some (s, recs) =>
        let d := d <| sendtargets := s |> <| rec_list := recs |> in
        if rsp_final pdu then Some (0%Z, d <| active := 0%Z |>, [])
        else
          '(ok, sess, out) ← iterate_targets (d_session d) (rsp_ttt pdu) w;
          let d := d <| d_session := sess |> in
          Some (if ok : bool then 0%Z else DISCOVERY_NEED_RECONNECT, d, out)
    end.
End Parser.
