(* ===== verification/DiscoverySafety.v ===== *)
(** * SendTargets discovery: the parser stays inside its buffer

    Whatever bytes a target sends: every function of Discovery ends and touches
    only memory between the start of its text and a NUL that bounds it.  The only
    writes are NULs, so that strings never grow. *)
From Stdlib Require Import ZArith Lia Ascii.
From stdpp Require Import base tactics numbers list strings option gmap.
From S2P Require Import Prelude CString Login Idbm IdbmTables StateM IdbmOps StrBuffer Discovery.

(** [b'] is [b] with some NULs written before [k]. *)
Definition keeps (k : nat) (b b' : list Z) : Prop :=
  length b' = length b /\ (forall i, b !! i = Some NUL -> b' !! i = Some NUL) /\ (forall i, k <= i -> b' !! i = b !! i).

#[export] Instance keeps_refl k : Reflexive (keeps k).
Proof. by intros b. Qed.

#[export] Instance keeps_trans k : Transitive (keeps k).
Proof.
  intros a b c (L1 & N1 & S1) (L2 & N2 & S2). split_and!; [congruence|auto|].
  intros i Hi. rewrite S2, S1; auto.
Qed.

Lemma keeps_set k b i : i < k -> keeps k b (<[i := NUL]> b).
Proof.
  intros Hi. split_and!; [apply length_insert| |].
  - intros j Hj. destruct (decide (i = j)) as [->|]; [apply list_lookup_insert_eq; by eapply lookup_lt_Some|].
    by rewrite list_lookup_insert_ne.
  - intros j Hj. by rewrite list_lookup_insert_ne by lia.
Qed.

Lemma keeps_nul k b b' : keeps k b b' -> b !! k = Some NUL -> b' !! k = Some NUL.
Proof. intros (_ & N & _). auto. Qed.

(** ** Strings and scans before a NUL *)
Lemma cstr_no_nul b i s : cstr b i = Some s -> no_nul s.
Proof. intros H. by apply cstr_inv in H as (rest & _ & ?). Qed.

Lemma skip_spec p b n : forall text,
  text + n <= length b ->
  exists t, skip p b text n = Some t /\ text <= t <= text + n /\
    (t < text + n -> exists c, b !! t = Some c /\ p c = false) /\
    (forall i, text <= i < t -> exists c, b !! i = Some c /\ p c = true).
Proof.
  induction n as [|n IH]; intros text Hlen; cbn [skip].
  - exists text. split_and!; (lia || done || (intros; lia)).
  - destruct (lookup_lt_is_Some_2 b text ltac:(lia)) as [c Hc]. rewrite Hc. cbn. destruct (p c) eqn:Ep.
    + destruct (IH (S text) ltac:(lia)) as (t & -> & Hr & Hstop & Hall). exists t. split_and!; [done|lia|lia| |].
      * intros. apply Hstop. lia.
      * intros i Hi. destruct (decide (i = text)) as [->|]; [eauto|apply Hall; lia].
    + exists text. split_and!; [done|lia|lia|eauto|intros; lia].
Qed.

Lemma prefix_at_spec l : forall b k text,
  b !! k = Some NUL -> text <= k -> no_nul l ->
  exists r, prefix_at l b text = Some r /\
    (r = true -> text + length l <= k /\ forall i, i < length l -> b !! (text + i) = l !! i).
Proof.
  induction l as [|x l IH]; intros b k text Hk Ht Hn; cbn [prefix_at].
  - exists true. cbn. split; [done|]. intros _. split; [lia|intros; lia].
  - apply no_nul_cons in Hn as [Hx Hn].
    destruct (lookup_lt_is_Some_2 b text) as [c Hc]; [apply lookup_lt_Some in Hk; lia|]. rewrite Hc. cbn.
    case_decide as E; [subst c|by exists false].
    assert (text <> k) by congruence. destruct (IH b k (S text) Hk ltac:(lia) Hn) as (r & -> & Hr).
    exists r. split; [done|]. intros Ert. destruct (Hr Ert) as [Hle Hall]. cbn [length]. split; [lia|].
    intros [|i] Hi; [by rewrite Nat.add_0_r|]. change ((x :: l) !! S i) with (l !! i).
    rewrite <- (Hall i) by lia. f_equal. lia.
Qed.

Lemma cut_spec b k text c :
  b !! k = Some NUL -> text <= k -> c <> NUL ->
  exists p b', cut b text c = Some (p, b') /\ keeps k b b' /\ (forall q, p = Some q -> q <= k).
Proof.
  intros Hk Ht Hc. unfold cut. destruct (cstr_before b k text Hk Ht) as (s & -> & _ & Hs). cbn.
  destruct (strrchr s c) as [i|] eqn:E; [|exists None, b; split_and!; done].
  apply strrchr_bound in E; [|done]. apply lookup_lt_Some in Hk. rewrite buf_set_Some by lia. cbn.
  eexists _, _. split; [done|]. split; [apply keeps_set; lia|]. intros q [= <-]. lia.
Qed.

Lemma cstr_opt_before b k p :
  b !! k = Some NUL -> (forall q, p = Some q -> q <= k) -> exists s, cstr_opt b p = Some s.
Proof.
  intros Hk Hp. destruct p as [q|]; cbn; [|eauto].
  destruct (cstr_before b k q Hk (Hp q eq_refl)) as (s & -> & _). cbn. eauto.
Qed.

(** ** The parser *)
Section Safety.
Context `{LEnv : LoginEnv}.
Variable getaddrinfo_host : list Z -> option (list Z).
Variables conf drec : memory.

Let line := address_line getaddrinfo_host conf drec.
Let lines n := address_lines getaddrinfo_host conf n drec.
Let target := add_target_record getaddrinfo_host conf drec.

Lemma address_line_safe b k name text recs :
  b !! k = Some NUL -> text <= k -> name <= k ->
  exists ok b' recs', line b name text recs = Some (ok, b', recs') /\ keeps k b b' /\ recs `prefix_of` recs'.
Proof.
  intros Hk Ht Hn. unfold line, address_line.
  destruct (prefix_at_spec TARGET_ADDRESS b k text Hk Ht ltac:(apply (bool_decide_unpack _); vm_compute; exact I))
    as (hit & -> & Hhit). cbn [mbind option_bind].
  destruct hit; cbn [negb]; [|exists true, b, recs; split_and!; done]. destruct (Hhit eq_refl) as [Hle _].
  change (length TARGET_ADDRESS) with 14 in Hle.
  destruct (cut_spec b k text (char ",") Hk Ht ltac:(done)) as (tag & b1 & -> & K1 & T1). cbn [mbind option_bind].
  pose proof (keeps_nul _ _ _ K1 Hk) as Hk1.
  destruct (cut_spec b1 k text (char ":") Hk1 Ht ltac:(done)) as (port & b2 & -> & K2 & P2). cbn [mbind option_bind].
  pose proof (keeps_nul _ _ _ K2 Hk1) as Hk2.
  destruct (lookup_lt_is_Some_2 b2 (text + 14)) as [c Hc]; [apply lookup_lt_Some in Hk2; lia|]. rewrite Hc. cbn [mbind option_bind].
  assert (exists a b3, (if decide (c = char "[") then '(_, b) ← cut b2 text (char "]"); Some (S (text + 14), b)
                        else Some (text + 14, b2)) = Some (a, b3) /\ a <= k /\ keeps k b2 b3) as (a & b3 & -> & Ha & K3).
  { case_decide as E; [|eexists _, _; split_and!; done].
    destruct (cut_spec b2 k text (char "]") Hk2 Ht ltac:(done)) as (p & b3 & -> & K3 & _). cbn.
    eexists _, _. split_and!; try done. assert (text + 14 <> k) by (intros E2; rewrite E2, Hk2 in Hc; by injection Hc as <-). lia. }
  cbn [mbind option_bind]. pose proof (keeps_nul _ _ _ K3 Hk2) as Hk3.
  destruct (cstr_before b3 k name Hk3 Hn) as (sn & -> & _). destruct (cstr_before b3 k a Hk3 Ha) as (sa & -> & _).
  destruct (cstr_opt_before b3 k port Hk3 P2) as (sp & ->). destruct (cstr_opt_before b3 k tag Hk3 T1) as (st & ->).
  cbn [mbind option_bind]. unfold add_portal. repeat case_match; simplify_eq; eexists _, _, _;
    (split_and!; [done|by do 2 (etrans; [done|])|]); try done; by apply prefix_app_r.
Qed.

Lemma address_lines_safe fuel : forall b k name text end_ recs,
  b !! k = Some NUL -> name <= k -> end_ <= S k -> end_ - text <= fuel ->
  exists ok b' recs', lines fuel b name text end_ recs = Some (ok, b', recs') /\ keeps k b b' /\ recs `prefix_of` recs'.
Proof.
  unfold lines. induction fuel as [|fuel IH]; intros b k name text end_ recs Hk Hn He Hf; cbn [address_lines];
    (case_decide as Hend; [exists true, b, recs; split_and!; done|]); [lia|].
  destruct (cstr_before b k text Hk ltac:(lia)) as (s & -> & _ & Hs). cbn [mbind option_bind].
  destruct (address_line_safe b k name text recs Hk ltac:(lia) Hn) as (ok & b1 & recs1 & E & K1 & P1).
  unfold line in E. rewrite E. cbn [mbind option_bind]. destruct ok; cbn [negb]; [|eexists _, _, _; split_and!; done].
  destruct (IH b1 k name (text + length s + 1) end_ recs1) as (ok & b2 & recs2 & E2 & K2 & P2);
    [by eapply keeps_nul|done..|lia|].
  exists ok, b2, recs2. split_and!; [done|by etrans|by etrans].
Qed.

Lemma add_target_record_safe b k name end_ recs :
  b !! k = Some NUL -> name <= k -> name <= end_ -> end_ <= S k ->
  exists ok b' recs', target b name end_ recs = Some (ok, b', recs') /\ keeps k b b' /\ recs `prefix_of` recs'.
Proof.
  intros Hk Hn Hne He. unfold target, add_target_record, skip_text, skip_nul. pose proof (lookup_lt_Some _ _ _ Hk) as Hlen.
  destruct (skip_spec (fun c => negb (is_nul c)) b (end_ - name) name ltac:(lia)) as (nul & -> & Hnul & _). cbn [mbind option_bind].
  case_decide; [exists false, b, recs; split_and!; done|].
  destruct (skip_spec is_nul b (end_ - nul) nul ltac:(lia)) as (text & -> & Htext & _). cbn [mbind option_bind].
  case_decide.
  - case_decide; [exists false, b, recs; split_and!; done|].
    destruct (cstr_before b k name Hk Hn) as (s & -> & _). cbn [mbind option_bind]. unfold add_portal.
    repeat case_match; simplify_eq; eexists _, _, _; (split_and!; [done|done|]); try done; by apply prefix_app_r.
  - by apply address_lines_safe.
Qed.

(** Between two lines: at the start, at a NUL or at the end; the last target
    starts before. *)
Definition between (b : list Z) (nul text : nat) (record : option nat) : Prop :=
  text <= nul /\ (text = 0 \/ text = nul \/ b !! text = Some NUL) /\ forall r, record = Some r -> r + 11 <= text.

Lemma find_records_safe fuel : forall b nul text record recs,
  b !! nul = Some NUL -> between b nul text record -> nul - text < fuel ->
  exists r, find_records getaddrinfo_host conf fuel drec b nul text record recs = Some r /\
    length (text_ r) = length b /\ text_ r !! nul = Some NUL /\ recs `prefix_of` found r /\
    forall s, Discovery.record r = Some s -> s + 11 <= nul.
Proof.
  induction fuel as [|fuel IH]; intros b nul p record recs Hk (Hp & Hat & Hrec) Hf; [lia|]. cbn [find_records].
  pose proof (lookup_lt_Some _ _ _ Hk) as Hlen. unfold skip_nul.
  destruct (skip_spec is_nul b (nul - p) p ltac:(lia)) as (text & -> & Ht & Hstop & Hskip). cbn [mbind option_bind].
  case_decide as Hend.
  { eexists. split; [done|]. cbn. split_and!; try done. intros s Hs. specialize (Hrec s Hs). lia. }
  assert (text < nul) as Hlt by lia. destruct (Hstop ltac:(lia)) as (c & Hc & Hcn).
  assert (b !! text <> Some NUL) as Hne by (rewrite Hc; intros [= ->]; done).
  destruct (prefix_at_spec TARGET_NAME b nul text Hk ltac:(lia) ltac:(apply (bool_decide_unpack _); vm_compute; exact I))
    as (hit & -> & Hhit). cbn [mbind option_bind].
  assert (exists ok b' recs', match record with
            | Some r => if hit : bool then add_target_record getaddrinfo_host conf drec b (r + 11) text recs
                        else Some (true, b, recs)
            | None => Some (true, b, recs)
            end = Some (ok, b', recs') /\ keeps (text - 1) b b' /\ recs `prefix_of` recs')
    as (ok & b' & recs' & -> & (L & N & S) & P).
  { destruct record as [r|]; [|by exists true, b, recs]. destruct hit; [|by exists true, b, recs].
    specialize (Hrec r eq_refl). destruct Hat as [->|[->|Hat]]; [lia..|].
    assert (p <> text) by congruence. destruct (Hskip (text - 1) ltac:(lia)) as (z & Hz & Hzn).
    apply add_target_record_safe; [|lia..]. apply bool_decide_eq_true in Hzn. by rewrite Hz, Hzn. }
  cbn [mbind option_bind]. destruct ok; cbn [negb].
  2:{ eexists. split; [done|]. cbn. split_and!; [done|auto|done|]. intros s Hs. specialize (Hrec s Hs). lia. }
  unfold skip_text. destruct (skip_spec (fun c => negb (is_nul c)) b' (nul - text) text ltac:(lia)) as (next & -> & Hn & Hns & _).
  cbn [mbind option_bind].
  assert (next = nul \/ b' !! next = Some NUL) as Hnext.
  { destruct (decide (next = nul)); [by left|]. destruct (Hns ltac:(lia)) as (z & Hz & Hzn). right.
    apply negb_false_iff, bool_decide_eq_true in Hzn. by rewrite Hz, Hzn. }
  assert (text < next) as Hadv.
  { destruct (decide (next = text)) as [->|]; [|lia]. destruct Hnext as [?|Hnul]; [lia|]. rewrite S in Hnul by lia. congruence. }
  destruct (IH b' nul next (if hit : bool then Some text else record) recs') as (r & E & ? & ? & ? & ?); [auto| |lia|].
  - split_and!; [lia|tauto|]. intros r. destruct hit; [|intros Hr; specialize (Hrec r Hr); lia]. intros [= <-].
    destruct (Hhit eq_refl) as [Hle Hall]. change (length TARGET_NAME) with 11 in *.
    destruct Hnext as [->|Hnul]; [lia|]. destruct (decide (next < text + 11)) as [Hbad|]; [|lia].
    specialize (Hall (next - text) ltac:(lia)). replace (text + (next - text)) with next in Hall by lia.
    rewrite <- S, Hnul in Hall by lia. symmetry in Hall. apply list_elem_of_lookup_2 in Hall.
    exfalso. revert Hall. apply (bool_decide_unpack _). vm_compute. exact I.
  - exists r. split_and!; [done|congruence|done|by etrans|done].
Qed.

Lemma last_nul_spec b n :
  n < length b -> exists nul, last_nul b n = Some nul /\ nul <= n /\ (nul <> 0 -> b !! nul = Some NUL) /\
    (forall i, nul < i <= n -> b !! i <> Some NUL).
Proof.
  induction n as [|n IH]; intros Hn; cbn [last_nul].
  - exists 0. split_and!; (done || lia || (intros; lia)).
  - destruct (lookup_lt_is_Some_2 b (S n) Hn) as [c Hc]. rewrite Hc. cbn. destruct (is_nul c) eqn:E.
    + apply bool_decide_eq_true in E as ->. exists (S n). split_and!; (done || lia || (intros; lia)).
    + apply bool_decide_eq_false in E. destruct (IH ltac:(lia)) as (nul & -> & Hle & Hz & Hr). exists nul.
      split_and!; [done|lia|done|]. intros i Hi. destruct (decide (i = S n)) as [->|]; [congruence|apply Hr; lia].
Qed.

Lemma buffer_some s : buffer_wf s -> data_length s <> 0 -> exists b, buffer s = Some b /\ length b = allocated_length s.
Proof.
  intros (Hl & Hd & Hn) H0. destruct (buffer s) as [b|] eqn:E; [by exists b|]. destruct Hn as [_ Hn]. specialize (Hn eq_refl). lia.
Qed.

Lemma set_buffer_wf s b b' :
  buffer_wf s -> buffer s = Some b -> length b' = length b -> buffer_wf (s <| buffer := Some b' |>).
Proof.
  intros (Hl & Hd & Hn) E Hb. unfold buffer_wf in *. rewrite E in *. cbn in *. split_and!; [lia|lia|].
  split; [|done]. intros Hz. destruct Hn as [Hn _]. by specialize (Hn Hz).
Qed.

Lemma process_safe s final recs :
  buffer_wf s ->
  exists s' recs', process_sendtargets_response getaddrinfo_host conf s final drec recs = Some (s', recs') /\
    buffer_wf s' /\ recs `prefix_of` recs'.
Proof.
  intros Hwf. unfold process_sendtargets_response. case_decide as H0; [by exists s, recs|].
  destruct (buffer_some s Hwf H0) as (b & Eb & Hlen). rewrite Eb. cbn [mbind option_bind]. pose proof Hwf as (_ & Hd & _).
  destruct (last_nul_spec b (data_length s - 1) ltac:(lia)) as (nul & -> & Hle & Hz & _). cbn [mbind option_bind].
  case_decide as Hn0; [by exists s, recs|].
  destruct (find_records_safe (S nul) b nul 0 None recs (Hz Hn0)) as (r & -> & Hl & Hk & Hp & Hs); [|lia|].
  { split_and!; [lia|tauto|done]. }
  cbn [mbind option_bind]. pose proof (set_buffer_wf s b (text_ r) Hwf Eb Hl) as Hwf1.
  destruct (ok r); cbn [negb].
  2:{ destruct (truncate_spec (s <| buffer := Some (text_ r) |>) 0 Hwf1) as (s' & -> & Hw & _); [left; cbn; lia|].
      cbn. by exists s', (found r). }
  destruct (record r) as [st|] eqn:Er; [|by exists (s <| buffer := Some (text_ r) |>), (found r)].
  specialize (Hs st eq_refl). destruct final.
  - destruct (add_target_record_safe (text_ r) nul (st + 11) nul (found r) Hk ltac:(lia) ltac:(lia) ltac:(lia))
      as (ok' & b' & recs' & E & (L & _) & P). unfold target in E. rewrite E. cbn [mbind option_bind].
    pose proof (set_buffer_wf _ (text_ r) b' Hwf1 eq_refl L) as Hwf2.
    destruct (truncate_spec _ 0 Hwf2) as (s' & -> & Hw & _); [left; cbn; lia|]. cbn. exists s', recs'. split_and!; [done|done|by etrans].
  - destruct (remove_initial_spec _ st Hwf1) as (s' & -> & Hw & _); [cbn; lia|]. cbn. by exists s', (found r).
Qed.
End Safety.
