(* ===== verification/DiscoveryRoundtrip.v ===== *)
(** * SendTargets discovery: the targets are found

    The text of a list of targets, sent in any number of responses that break
    it anywhere, gives exactly the records of their portals.  A buffer is written
    as a concatenation of what is before, at and behind a position. *)
From Stdlib Require Import ZArith Lia Ascii.
From stdpp Require Import base tactics numbers list strings option gmap.
From S2P Require Import Prelude CString Login Idbm IdbmTables StateM IdbmOps StrBuffer Discovery DiscoverySafety.

(** ** Targets and their text *)

(** A portal: a name or an IPv4 address, or an IPv6 address in brackets. *)
Record portal := mk_portal { p_v6 : bool; p_addr : list Z; p_port : option Z; p_tag : option Z }.
Record target := mk_target { t_name : list Z; t_portals : list portal }.

Definition host_text (p : portal) : list Z := if p_v6 p then char "[" :: p_addr p ++ [char "]"] else p_addr p.
Definition suffix (c : Z) (n : option Z) : list Z := match n with Some n => c :: fmt_lu n | None => [] end.
Definition portal_text (p : portal) : list Z :=
  TARGET_ADDRESS ++ host_text p ++ suffix (char ":") (p_port p) ++ suffix (char ",") (p_tag p).

(** Keys end with NUL. *)
Definition flat (lines : list (list Z)) : list Z := concat ((fun l => l ++ [NUL]) <$> lines).
Definition lines_of (t : target) : list (list Z) := (TARGET_NAME ++ t_name t) :: (portal_text <$> t_portals t).
Definition targets_text (ts : list target) : list Z := flat (concat (lines_of <$> ts)).

Definition number_ok (n : option Z) : Prop := match n with Some n => (0 <= n < 2 ^ 31)%Z | None => True end.

(** The code takes the last colon for the one before the port, so that an IPv6
    address needs a port. *)
Definition portal_ok (p : portal) : Prop :=
  no_nul (p_addr p) /\ char "," ∉ p_addr p /\ number_ok (p_port p) /\ number_ok (p_tag p) /\
  length (p_addr p) < NI_MAXHOST /\
  if p_v6 p then char "]" ∉ p_addr p /\ p_port p <> None
  else char ":" ∉ p_addr p /\ head (p_addr p) <> Some (char "[").

Definition target_ok (t : target) : Prop :=
  no_nul (t_name t) /\ length (t_name t) < TARGET_NAME_MAXLEN /\ Forall portal_ok (t_portals t).

#[export] Instance portal_ok_dec p : Decision (portal_ok p).
Proof. unfold portal_ok, number_ok. destruct (p_port p), (p_tag p), (p_v6 p); apply _. Defined.
#[export] Instance target_ok_dec t : Decision (target_ok t).
Proof. unfold target_ok. apply _. Defined.

Lemma flat_cons l ls : flat (l :: ls) = l ++ NUL :: flat ls.
Proof. unfold flat. cbn. by rewrite <- app_assoc. Qed.

Lemma flat_app ls ks : flat (ls ++ ks) = flat ls ++ flat ks.
Proof. unfold flat. by rewrite fmap_app, concat_app. Qed.

(** A sequence of keys that is broken anywhere: whole keys and the start of the
    next one. *)
Lemma flat_break ls : forall x y,
  Forall no_nul ls -> x ++ y = flat ls ->
  exists more rest part, ls = more ++ rest /\ x = flat more ++ part /\ no_nul part /\ part ++ y = flat rest.
Proof.
  induction ls as [|l ls IH]; intros x y Hn E.
  - apply app_eq_nil in E as [-> ->]. exists [], [], []. split_and!; [done..|constructor|done].
  - apply Forall_cons in Hn as [Hl Hn]. rewrite flat_cons in E.
    destruct (decide (length x <= length l)) as [Hx|Hx].
    + exists [], (l :: ls), x. rewrite flat_cons. split_and!; try done.
      apply (f_equal (take (length x))) in E. rewrite take_app_length, take_app_le in E by lia.
      rewrite E. by apply no_nul_take.
    + replace (l ++ NUL :: flat ls) with ((l ++ [NUL]) ++ flat ls) in E by (by rewrite <- app_assoc).
      assert (exists x', x = (l ++ [NUL]) ++ x' /\ x' ++ y = flat ls) as (x' & -> & E').
      { exists (drop (length (l ++ [NUL])) x).
        assert (take (length (l ++ [NUL])) x = l ++ [NUL]) as Ht.
        { apply (f_equal (take (length (l ++ [NUL])))) in E. rewrite take_app_length in E.
          rewrite take_app_le in E by (rewrite length_app; cbn; lia). done. }
        split; [by rewrite <- Ht at 1; rewrite take_drop|].
        apply (f_equal (drop (length (l ++ [NUL])))) in E. rewrite drop_app_length in E.
        by rewrite drop_app_le in E by (rewrite length_app; cbn; lia). }
      destruct (IH x' y Hn E') as (more & rest & part & -> & -> & Hp & Ep).
      exists (l :: more), rest, part. rewrite flat_cons. split_and!; try done. by rewrite <- !app_assoc.
Qed.

(** ** Reading a known text *)
Lemma cstr_at x s y : no_nul s -> cstr (x ++ s ++ NUL :: y) (length x) = Some s.
Proof. intros Hs. unfold cstr. rewrite drop_app_length. by apply cstr_of_app. Qed.

Lemma cstr_at' x s y i : i = length x -> no_nul s -> cstr (x ++ s ++ NUL :: y) i = Some s.
Proof. intros ->. apply cstr_at. Qed.

Lemma prefix_at_app l x y : prefix_at l (x ++ l ++ y) (length x) = Some true.
Proof.
  revert x. induction l as [|c l IH]; intros x; cbn [prefix_at]; [done|].
  change ((c :: l) ++ y) with (c :: l ++ y).
  rewrite list_lookup_middle by done. cbn. rewrite decide_True by done.
  specialize (IH (x ++ [c])). rewrite <- app_assoc, length_app, Nat.add_1_r in IH. exact IH.
Qed.

(** [cut] at the last [c] of a line. *)
Lemma cut_hit x a c b y :
  c <> NUL -> no_nul a -> no_nul b -> c ∉ b ->
  cut (x ++ (a ++ c :: b) ++ NUL :: y) (length x) c = Some (Some (S (length x + length a)), x ++ a ++ NUL :: b ++ NUL :: y).
Proof.
  intros Hc Ha Hb Hn. unfold cut. rewrite cstr_at by (apply no_nul_app; split; [done|by apply no_nul_cons]).
  cbn [mbind option_bind]. rewrite strrchr_last by done.
  rewrite buf_set_Some by (rewrite !length_app; cbn; lia). cbn [mbind option_bind]. do 2 f_equal.
  rewrite insert_app_r, <- app_assoc. f_equal.
  replace (length a) with (length a + 0) by lia. by rewrite insert_app_r.
Qed.

Lemma cut_miss x a c y :
  c <> NUL -> no_nul a -> c ∉ a -> cut (x ++ a ++ NUL :: y) (length x) c = Some (None, x ++ a ++ NUL :: y).
Proof. intros Hc Ha Hn. unfold cut. rewrite cstr_at by done. cbn [mbind option_bind]. by rewrite strrchr_none. Qed.

(** Cutting an optional number off the end of a line: the line keeps its place,
    the number follows behind a NUL. *)
Lemma fmt_lu_not_in n c : (c < 48 \/ 57 < c)%Z -> c ∉ fmt_lu n.
Proof.
  intros Hc Hin. destruct (fmt_lu_digits n) as [_ H]. apply list_elem_of_In in Hin.
  rewrite List.Forall_forall in H. specialize (H c Hin). cbn in H. lia.
Qed.

Definition behind (n : option Z) (y : list Z) : list Z := match n with Some n => fmt_lu n ++ NUL :: y | None => y end.

Lemma cut_suffix x a c n y :
  (c < 48 \/ 57 < c)%Z -> c <> NUL -> no_nul a -> (n = None -> c ∉ a) ->
  cut (x ++ (a ++ suffix c n) ++ NUL :: y) (length x) c =
    Some ((fun _ => S (length x + length a)) <$> n, x ++ a ++ NUL :: behind n y).
Proof.
  intros Hd Hc Ha Hn. destruct n as [n|]; cbn [suffix behind].
  - rewrite cut_hit; try done; [apply fmt_lu_no_nul|by apply fmt_lu_not_in].
  - rewrite app_nil_r. rewrite cut_miss by auto. done.
Qed.

Lemma behind_suffix n y : NUL :: behind n y = suffix NUL n ++ NUL :: y.
Proof. by destruct n. Qed.

Lemma length_suffix c d n : length (suffix c n) = length (suffix d n).
Proof. by destruct n. Qed.

(** The number that was cut off is read back. *)
Lemma cstr_behind x n y i : S (length x) = i -> cstr_opt (x ++ NUL :: behind n y) ((fun _ => i) <$> n) = Some (fmt_lu <$> n).
Proof.
  intros <-. destruct n as [n|]; [|done]. cbn [behind cstr_opt fmap option_fmap option_map].
  replace (x ++ NUL :: fmt_lu n ++ NUL :: y) with ((x ++ [NUL]) ++ fmt_lu n ++ NUL :: y) by (by rewrite <- app_assoc).
  rewrite (cstr_at' _ (fmt_lu n)); [done|rewrite length_app; cbn; lia|apply fmt_lu_no_nul].
Qed.

Section Targets.
Context `{LEnv : LoginEnv}.
Variable getaddrinfo_host : list Z -> option (list Z).
Variables conf drec : memory.

(** The portal can be resolved. *)
Definition reachable (p : portal) : Prop :=
  is_Some (resolve_portal getaddrinfo_host (p_addr p) (fmt_lu <$> p_port p)).

(** The record of a portal. *)
Definition record_of (name : list Z) (p : portal) : memory :=
  portal_record conf drec name (p_addr p) (fmt_lu <$> p_port p) (fmt_lu <$> p_tag p).

Hypothesis Hmem : malloc NODE_REC_SIZE = true.

Lemma add_portal_ok recs name addr port tag :
  is_Some (resolve_portal getaddrinfo_host addr port) ->
  add_portal getaddrinfo_host conf recs drec name addr port tag = (true, recs ++ [portal_record conf drec name addr port tag]).
Proof. intros [a Ha]. unfold add_portal. by rewrite Ha, Hmem. Qed.

(** The address of a line, once tag and port are cut off. *)
Lemma address_ok x p y :
  portal_ok p ->
  exists h a, length h = length (TARGET_ADDRESS ++ host_text p) /\
    (c ← (x ++ (TARGET_ADDRESS ++ host_text p) ++ NUL :: y) !! (length x + 14);
     if decide (c = char "[")
     then '(_, b) ← cut (x ++ (TARGET_ADDRESS ++ host_text p) ++ NUL :: y) (length x) (char "]");
          Some (S (length x + 14), b)
     else Some (length x + 14, x ++ (TARGET_ADDRESS ++ host_text p) ++ NUL :: y)) = Some (a, x ++ h ++ NUL :: y) /\
    cstr (x ++ h ++ NUL :: y) a = Some (p_addr p).
Proof.
  intros (Hn & _ & _ & _ & _ & Hp). unfold host_text. destruct (p_v6 p).
  - destruct Hp as [Hb _]. exists (TARGET_ADDRESS ++ char "[" :: p_addr p ++ [NUL]), (S (length x + 14)).
    split; [rewrite !length_app; cbn; rewrite !length_app; cbn; lia|].
    assert ((x ++ (TARGET_ADDRESS ++ char "[" :: p_addr p ++ [char "]"]) ++ NUL :: y) !! (length x + 14) = Some (char "[")) as ->.
    { rewrite lookup_app_r, Nat.add_comm, Nat.add_sub by lia. rewrite <- app_assoc. done. }
    cbn [mbind option_bind]. rewrite decide_True by done.
    replace (TARGET_ADDRESS ++ char "[" :: p_addr p ++ [char "]"]) with ((TARGET_ADDRESS ++ char "[" :: p_addr p) ++ char "]" :: [])
      by (by rewrite <- app_assoc).
    rewrite cut_hit; try done; [|apply no_nul_app; split; [|by apply no_nul_cons]|constructor|apply not_elem_of_nil].
    2:{ apply (bool_decide_unpack _). vm_compute. exact I. }
    cbn [mbind option_bind]. split; [by rewrite <- !app_assoc; cbn; rewrite <- !app_assoc|].
    replace (x ++ (TARGET_ADDRESS ++ char "[" :: p_addr p ++ [NUL]) ++ NUL :: y)
      with ((x ++ TARGET_ADDRESS ++ [char "["]) ++ p_addr p ++ NUL :: NUL :: y) by (by rewrite <- !app_assoc; cbn; rewrite <- !app_assoc).
    apply cstr_at'; [rewrite !length_app; cbn; lia|done].
  - destruct Hp as [_ Hh]. exists (TARGET_ADDRESS ++ p_addr p), (length x + 14). split; [done|].
    assert (exists c, (x ++ (TARGET_ADDRESS ++ p_addr p) ++ NUL :: y) !! (length x + 14) = Some c /\ c <> char "[") as (c & -> & Hc).
    { rewrite lookup_app_r, Nat.add_comm, Nat.add_sub by lia. rewrite <- app_assoc.
      change ((TARGET_ADDRESS ++ p_addr p ++ NUL :: y) !! 14) with ((p_addr p ++ NUL :: y) !! 0).
      destruct (p_addr p) as [|z l]; [by exists NUL|]. exists z. split; [done|]. intros ->. by apply Hh. }
    cbn [mbind option_bind]. rewrite decide_False by done. split; [done|].
    replace (x ++ (TARGET_ADDRESS ++ p_addr p) ++ NUL :: y) with ((x ++ TARGET_ADDRESS) ++ p_addr p ++ NUL :: y)
      by (by rewrite <- !app_assoc).
    apply cstr_at'; [rewrite !length_app; cbn; lia|done].
Qed.

Lemma host_no_nul p : portal_ok p -> no_nul (TARGET_ADDRESS ++ host_text p).
Proof.
  intros (Hn & _). apply no_nul_app. split; [apply (bool_decide_unpack _); vm_compute; exact I|].
  unfold host_text. destruct (p_v6 p); [|done]. apply no_nul_cons. split; [done|]. apply no_nul_app. split; [done|].
  apply (bool_decide_unpack _). vm_compute. exact I.
Qed.

Lemma suffix_no_nul c n : c <> NUL -> no_nul (suffix c n).
Proof. intros Hc. destruct n; [|constructor]. apply no_nul_cons. split; [done|apply fmt_lu_no_nul]. Qed.

(** Characters that the head of a line does not have. *)
Lemma comma_not_in p : portal_ok p -> char "," ∉ TARGET_ADDRESS ++ host_text p ++ suffix (char ":") (p_port p).
Proof.
  intros (_ & Hc & _). rewrite !not_elem_of_app. split_and!; [apply (bool_decide_unpack _); vm_compute; exact I| |].
  - unfold host_text. destruct (p_v6 p); [|done]. rewrite not_elem_of_cons, not_elem_of_app. split_and!; [done|done|].
    apply (bool_decide_unpack _). vm_compute. exact I.
  - destruct (p_port p); [|apply not_elem_of_nil]. cbn. rewrite not_elem_of_cons. split; [done|apply fmt_lu_not_in; left; done].
Qed.

Lemma colon_not_in p : portal_ok p -> p_port p = None -> char ":" ∉ TARGET_ADDRESS ++ host_text p.
Proof.
  intros (_ & _ & _ & _ & _ & Hp) Hnone. unfold host_text. destruct (p_v6 p); [by destruct Hp|].
  rewrite not_elem_of_app. split; [apply (bool_decide_unpack _); vm_compute; exact I|apply Hp].
Qed.

Lemma address_line_ok n1 tname n2 x p y recs :
  x = n1 ++ tname ++ NUL :: n2 -> no_nul tname -> portal_ok p -> reachable p ->
  exists l, length l = length (portal_text p) /\
    address_line getaddrinfo_host conf drec (x ++ portal_text p ++ NUL :: y) (length n1) (length x) recs =
      Some (true, x ++ l ++ NUL :: y, recs ++ [record_of tname p]).
Proof.
  intros Hx Htn Hp Hr. pose proof (host_no_nul p Hp) as Hhn. unfold address_line, portal_text.
  rewrite <- app_assoc, prefix_at_app. cbn [mbind option_bind negb].
  replace (TARGET_ADDRESS ++ (host_text p ++ suffix (char ":") (p_port p) ++ suffix (char ",") (p_tag p)) ++ NUL :: y)
    with (((TARGET_ADDRESS ++ host_text p ++ suffix (char ":") (p_port p)) ++ suffix (char ",") (p_tag p)) ++ NUL :: y)
    by (by rewrite <- !app_assoc).
  rewrite cut_suffix; [|by left|done| |intros _; by apply comma_not_in].
  2:{ rewrite app_assoc. apply no_nul_app. split; [done|by apply suffix_no_nul]. }
  cbn [mbind option_bind]. rewrite (app_assoc TARGET_ADDRESS (host_text p) (suffix (char ":") (p_port p))).
  rewrite cut_suffix; [|by right|done|done|intros; by apply colon_not_in]. cbn [mbind option_bind].
  destruct (address_ok x p (behind (p_port p) (behind (p_tag p) y)) Hp) as (h & a & Hh & E & Ha).
  destruct (_ !! (length x + 14)) as [c|]; [|done]. cbn [mbind option_bind] in E |- *. rewrite E. cbn [mbind option_bind].
  assert (cstr (x ++ h ++ NUL :: behind (p_port p) (behind (p_tag p) y)) (length n1) = Some tname) as ->.
  { rewrite Hx, <- !app_assoc. cbn. by apply cstr_at. }
  cbn [mbind option_bind]. rewrite Ha. cbn [mbind option_bind].
  assert (cstr_opt (x ++ h ++ NUL :: behind (p_port p) (behind (p_tag p) y))
            ((fun _ => S (length x + length (TARGET_ADDRESS ++ host_text p))) <$> p_port p) = Some (fmt_lu <$> p_port p)) as ->.
  { rewrite app_assoc. apply cstr_behind. rewrite length_app, Hh. lia. }
  cbn [mbind option_bind].
  assert (cstr_opt (x ++ h ++ NUL :: behind (p_port p) (behind (p_tag p) y))
            ((fun _ => S (length x + length ((TARGET_ADDRESS ++ host_text p) ++ suffix (char ":") (p_port p)))) <$> p_tag p) =
          Some (fmt_lu <$> p_tag p)) as ->.
  { rewrite behind_suffix, 2!app_assoc. apply cstr_behind.
    rewrite !length_app, Hh, !length_app, (length_suffix NUL (char ":")). lia. }
  cbn [mbind option_bind]. rewrite add_portal_ok by done.
  exists (h ++ suffix NUL (p_port p) ++ suffix NUL (p_tag p)). split.
  - rewrite !length_app, Hh, !length_app, (length_suffix NUL (char ":")), (length_suffix NUL (char ",")). lia.
  - do 2 f_equal. rewrite 2!behind_suffix, <- !app_assoc. done.
Qed.

Lemma portal_text_no_nul p : portal_ok p -> no_nul (portal_text p).
Proof.
  intros Hp. unfold portal_text. rewrite app_assoc. apply no_nul_app. split; [by apply host_no_nul|].
  apply no_nul_app. split; by apply suffix_no_nul.
Qed.

Lemma address_lines_ok n1 tname ps : forall n2 x recs fuel y end_,
  x = n1 ++ tname ++ NUL :: n2 -> no_nul tname -> Forall portal_ok ps -> Forall reachable ps ->
  let stop := length x + length (flat (portal_text <$> ps)) in
  end_ = stop \/ S end_ = stop -> end_ - length x <= fuel ->
  exists x', length x' = stop /\
    address_lines getaddrinfo_host conf fuel drec (x ++ flat (portal_text <$> ps) ++ y) (length n1) (length x) end_ recs =
      Some (true, x' ++ y, recs ++ (record_of tname <$> ps)).
Proof.
  induction ps as [|p ps IH]; intros n2 x recs fuel y end_ Hx Htn Hok Hr stop Hend Hf; subst stop.
  - exists x. cbn in *. split; [lia|]. rewrite app_nil_r. destruct fuel; cbn [address_lines]; by rewrite decide_True by lia.
  - apply Forall_cons in Hok as [Hp Hok]. apply Forall_cons in Hr as [Hrp Hr].
    rewrite fmap_cons, flat_cons in *. rewrite length_app in Hend. cbn [length] in Hend.
    assert (14 <= length (portal_text p)) as H14 by (unfold portal_text; rewrite length_app; cbn; lia).
    destruct fuel as [|fuel]; [lia|]. cbn [address_lines]. rewrite decide_False by lia.
    rewrite <- app_assoc, <- app_comm_cons, cstr_at by (by apply portal_text_no_nul). cbn [mbind option_bind].
    destruct (address_line_ok n1 tname n2 x p (flat (portal_text <$> ps) ++ y) recs Hx Htn Hp Hrp) as (l & Hl & ->).
    cbn [mbind option_bind negb].
    destruct (IH (n2 ++ l ++ [NUL]) (x ++ l ++ [NUL]) (recs ++ [record_of tname p]) fuel y end_) as (x' & Hx' & E).
    + by rewrite Hx, <- !app_assoc.
    + done.
    + done.
    + done.
    + rewrite !length_app. cbn. lia.
    + rewrite !length_app. cbn. lia.
    + exists x'. rewrite !length_app in *. cbn [length] in *. split; [lia|].
      rewrite <- !app_assoc in E. cbn [app] in E. rewrite fmap_cons, <- E. f_equal. lia.
Qed.

(** What discovery records for a target: its portals, or the address that was
    asked. *)
Definition default_port : option (list Z) := Some (fmt_d (i32 (get_int drec "port"))).

Definition records_of (t : target) : list memory :=
  match t_portals t with
  | [] => [portal_record conf drec (t_name t) (get_str drec "address") default_port None]
  | ps => record_of (t_name t) <$> ps
  end.

Definition target_reachable (t : target) : Prop :=
  match t_portals t with
  | [] => get_str drec "address" <> [] /\ is_Some (resolve_portal getaddrinfo_host (get_str drec "address") default_port)
  | ps => Forall reachable ps
  end.

Lemma skip_text_at x s y end_ :
  no_nul s -> length x + length s <= end_ -> skip_text (x ++ s ++ NUL :: y) (length x) end_ = Some (length x + length s).
Proof.
  unfold skip_text. intros Hs He. replace (end_ - length x) with (length s + (end_ - length x - length s)) by lia.
  generalize (end_ - length x - length s). intros n. clear He. revert x. induction s as [|c s IH]; intros x.
  - cbn. rewrite Nat.add_0_r. destruct n; [done|]. cbn [skip]. rewrite list_lookup_middle by done. done.
  - apply no_nul_cons in Hs as [Hc Hs]. cbn [length Nat.add skip app]. rewrite list_lookup_middle by done. cbn [mbind option_bind].
    unfold is_nul. rewrite bool_decide_false by done. cbn [negb].
    specialize (IH Hs (x ++ [c])). rewrite <- app_assoc, length_app, Nat.add_1_r in IH. cbn [app] in IH.
    etrans; [exact IH|]. f_equal. cbn. lia.
Qed.

Lemma skip_nul_at x c y end_ :
  c <> NUL -> length x < end_ -> skip_nul (x ++ NUL :: c :: y) (length x) end_ = Some (S (length x)).
Proof.
  intros Hc He. unfold skip_nul. destruct (end_ - length x) as [|n] eqn:E; [lia|]. cbn [skip].
  rewrite list_lookup_middle by done. cbn [mbind option_bind]. change (is_nul NUL) with true. cbn iota.
  destruct n; [done|]. cbn [skip].
  replace (x ++ NUL :: c :: y) with ((x ++ [NUL]) ++ c :: y) by (by rewrite <- app_assoc).
  rewrite list_lookup_middle by (rewrite length_app; cbn; lia). cbn [mbind option_bind].
  unfold is_nul. by rewrite bool_decide_false by done.
Qed.

Lemma add_target_ok x t y recs end_ :
  target_ok t -> target_reachable t ->
  let stop := length x + length (flat (lines_of t)) in
  end_ = stop \/ S end_ = stop ->
  exists x', length x' = stop /\
    add_target_record getaddrinfo_host conf drec (x ++ flat (lines_of t) ++ y) (length x + 11) end_ recs =
      Some (true, x' ++ y, recs ++ records_of t).
Proof.
  intros (Hn & Hlen & Hps) Hr stop Hend. subst stop. unfold lines_of, records_of, target_reachable in *.
  rewrite flat_cons in *. set (ps := t_portals t) in *.
  assert (length x + 11 = length (x ++ TARGET_NAME)) as -> by (rewrite length_app; done).
  assert (x ++ ((TARGET_NAME ++ t_name t) ++ NUL :: flat (portal_text <$> ps)) ++ y =
          (x ++ TARGET_NAME) ++ t_name t ++ NUL :: flat (portal_text <$> ps) ++ y) as E0.
  { by rewrite <- !app_assoc. }
  assert (length x + length ((TARGET_NAME ++ t_name t) ++ NUL :: flat (portal_text <$> ps)) =
          length (x ++ TARGET_NAME) + length (t_name t) + 1 + length (flat (portal_text <$> ps))) as E1.
  { rewrite !length_app. cbn [length]. lia. }
  rewrite E0. rewrite E1 in *. clear E0 E1. generalize dependent (x ++ TARGET_NAME). clear x. intros x Hend.
  unfold add_target_record. rewrite skip_text_at by (done || lia). cbn [mbind option_bind].
  rewrite decide_False by lia.
  destruct ps as [|p ps'] eqn:Eps.
  - cbn in Hend |- *. destruct Hr as [Ha Hr]. rewrite Nat.add_0_r in Hend.
    assert (skip_nul (x ++ t_name t ++ NUL :: y) (length x + length (t_name t)) end_ = Some end_) as ->.
    { unfold skip_nul. rewrite app_assoc, <- length_app.
      destruct (end_ - length (x ++ t_name t)) as [|[|k]] eqn:Ek; rewrite length_app in *; cbn [skip]; [f_equal; lia| |lia].
      rewrite list_lookup_middle by (rewrite length_app; lia). cbn. f_equal. lia. }
    cbn [mbind option_bind]. rewrite decide_True, decide_False, cstr_at by done. cbn [mbind option_bind].
    rewrite add_portal_ok by done. exists (x ++ t_name t ++ [NUL]). rewrite !length_app, <- !app_assoc. cbn. split; [lia|done].
  - assert (exists z, flat (portal_text <$> ps) = char "T" :: z /\ 13 <= length z) as (z & Ez & Hz).
    { rewrite Eps, fmap_cons, flat_cons. unfold portal_text at 1. rewrite <- app_assoc.
      eexists. split; [reflexivity|]. cbn [length app]. rewrite length_app. cbn. lia. }
    rewrite <- Eps in *. clear Eps p ps'. rewrite Ez in Hend. cbn [length] in Hend.
    assert (skip_nul (x ++ t_name t ++ NUL :: flat (portal_text <$> ps) ++ y) (length x + length (t_name t)) end_ =
            Some (length (x ++ t_name t ++ [NUL]))) as ->.
    { rewrite Ez. cbn [app]. rewrite app_assoc, <- length_app, skip_nul_at; [|done|rewrite length_app; lia].
      rewrite !length_app. cbn. f_equal. lia. }
    cbn [mbind option_bind]. rewrite decide_False by (rewrite !length_app; cbn; lia).
    replace (x ++ t_name t ++ NUL :: flat (portal_text <$> ps) ++ y) with
      ((x ++ t_name t ++ [NUL]) ++ flat (portal_text <$> ps) ++ y) by (by rewrite <- !app_assoc).
    destruct (address_lines_ok x (t_name t) ps [] (x ++ t_name t ++ [NUL]) recs (end_ - length (x ++ t_name t ++ [NUL])) y end_)
      as (x' & Hx' & E); try done.
    { rewrite Ez, !length_app. cbn. lia. }
    exists x'. rewrite E. rewrite !length_app in Hx'. cbn [length] in Hx'. split; [lia|]. by destruct ps.
Qed.

(** ** The keys of a response, one by one *)
Inductive item := IName (name : list Z) | IPortal (p : portal).

Definition line_of (i : item) : list Z := match i with IName n => TARGET_NAME ++ n | IPortal p => portal_text p end.
Definition items_of (t : target) : list item := IName (t_name t) :: (IPortal <$> t_portals t).
Definition with_portal (t : target) (p : portal) : target := mk_target (t_name t) (t_portals t ++ [p]).

(** The targets that a sequence of keys completes, and the one it leaves open. *)
Fixpoint walk (cur : target) (l : list item) : list target * target :=
  match l with
  | [] => ([], cur)
  | IName n :: l => let (done, last) := walk (mk_target n []) l in (cur :: done, last)
  | IPortal p :: l => walk (with_portal cur p) l
  end.

Lemma lines_items t : lines_of t = line_of <$> items_of t.
Proof. unfold lines_of, items_of. cbn. f_equal. by rewrite <- list_fmap_compose. Qed.

Lemma walk_items l : forall cur done last,
  walk cur l = (done, last) -> items_of cur ++ l = concat (items_of <$> done) ++ items_of last.
Proof.
  induction l as [|[n|p] l IH]; intros cur done last; cbn [walk].
  - intros [= <- <-]. by rewrite app_nil_r.
  - destruct (walk (mk_target n []) l) as [d t] eqn:E. intros [= <- <-]. rewrite fmap_cons. cbn [concat].
    rewrite <- app_assoc. f_equal. by apply (IH (mk_target n [])).
  - intros E. rewrite <- (IH _ _ _ E). unfold items_of, with_portal. cbn. by rewrite fmap_app, <- app_assoc.
Qed.

Lemma walk_portals cur ps : forall l, walk cur ((IPortal <$> ps) ++ l) = walk (mk_target (t_name cur) (t_portals cur ++ ps)) l.
Proof.
  revert cur. induction ps as [|p ps IH]; intros cur l; cbn.
  - rewrite app_nil_r. by destruct cur.
  - rewrite IH. cbn. by rewrite <- app_assoc.
Qed.

Lemma walk_app l : forall cur k,
  walk cur (l ++ k) = let (d1, c1) := walk cur l in let (d2, c2) := walk c1 k in (d1 ++ d2, c2).
Proof.
  induction l as [|[n|p] l IH]; intros cur k; cbn [walk app].
  - by destruct (walk cur k).
  - rewrite IH. destruct (walk (mk_target n []) l) as [d1 c1], (walk c1 k) as [d2 c2]. done.
  - apply IH.
Qed.

(** The keys of whole targets. *)
Lemma walk_targets ts : forall cur, exists done last,
  walk cur (concat (items_of <$> ts)) = (done, last) /\ done ++ [last] = cur :: ts.
Proof.
  induction ts as [|t ts IH]; intros cur; [|rewrite fmap_cons; cbn [concat]].
  - by exists [], cur.
  - unfold items_of at 1. cbn [app walk]. rewrite walk_portals. cbn [t_name t_portals app].
    destruct (IH (mk_target (t_name t) (t_portals t))) as (d & last & E & Hd). rewrite E. exists (cur :: d), last. split; [done|]. cbn. rewrite Hd. by destruct t.
Qed.

(** ** The loop over the keys *)
Lemma prefix_at_drop l : forall b i, prefix_at l b i = prefix_at l (drop i b) 0.
Proof.
  induction l as [|c l IH]; intros b i; cbn [prefix_at]; [done|].
  rewrite (lookup_drop b i 0), Nat.add_0_r. destruct (b !! i) as [z|] eqn:E; [|done]. cbn. case_decide; [|done].
  rewrite IH, (IH (drop i b) 1), drop_drop. f_equal. f_equal. lia.
Qed.

Lemma address_is_no_name x y : prefix_at TARGET_NAME (x ++ TARGET_ADDRESS ++ y) (length x) = Some false.
Proof. by rewrite prefix_at_drop, drop_app_length. Qed.

Lemma line_head i : exists z, line_of i = char "T" :: z.
Proof. destruct i; eexists; reflexivity. Qed.

Lemma flat_length ls : length ls <= length (flat ls).
Proof. induction ls as [|l ls IH]; [done|]. rewrite flat_cons, length_app. cbn. lia. Qed.

Lemma flat_nul ls : ls <> [] -> exists z, flat ls = z ++ [NUL].
Proof.
  destruct ls as [|l ls _] using rev_ind; [done|]. intros _. rewrite flat_app. exists (flat ls ++ l).
  unfold flat at 2. cbn. by rewrite app_nil_r, app_assoc.
Qed.

(** From the NUL behind one key to the start of the next. *)
Lemma skip_to_next x z l y end_ :
  z <> [] -> length x + length (flat z) <= end_ ->
  (exists k, l = char "T" :: k) -> skip_nul (x ++ flat z ++ l ++ y) (length x + length (flat z) - 1) end_ = Some (length x + length (flat z)).
Proof.
  intros Hz He [k ->]. destruct (flat_nul z Hz) as [w E]. rewrite E in *. clear E. rewrite length_app in *.
  cbn [length] in *.
  replace (x ++ (w ++ [NUL]) ++ (char "T" :: k) ++ y) with ((x ++ w) ++ NUL :: char "T" :: k ++ y) by (by rewrite <- !app_assoc).
  replace (length x + (length w + 1) - 1) with (length (x ++ w)) by (rewrite length_app; lia).
  rewrite skip_nul_at by (done || (rewrite length_app; lia)). f_equal. rewrite length_app. lia.
Qed.

Lemma lines_of_not_nil t : lines_of t <> [].
Proof. done. Qed.

Lemma flat_with_portal t p : flat (lines_of (with_portal t p)) = flat (lines_of t) ++ portal_text p ++ [NUL].
Proof.
  unfold lines_of, with_portal. cbn [t_name t_portals]. rewrite fmap_app, app_comm_cons, flat_app. f_equal.
  unfold flat. cbn. by rewrite app_nil_r.
Qed.

Definition good (t : target) : Prop := target_ok t /\ target_reachable t.

Lemma find_records_ok tail l : forall cur x recs fuel done last,
  walk cur l = (done, last) -> Forall good done -> Forall (fun i => no_nul (line_of i)) l -> length l < fuel ->
  exists x', find_records getaddrinfo_host conf fuel drec (x ++ flat (lines_of cur) ++ flat (line_of <$> l) ++ tail)
      (length x + length (flat (lines_of cur)) + length (flat (line_of <$> l)) - 1)
      (length x + length (flat (lines_of cur)) - 1) (Some (length x)) recs =
    Some (mk_scan true (x' ++ flat (lines_of last) ++ tail) (recs ++ concat (records_of <$> done)) (Some (length x'))) /\
    length x' + length (flat (lines_of last)) = length x + length (flat (lines_of cur)) + length (flat (line_of <$> l)).
Proof.
  induction l as [|i l IH]; intros cur x recs fuel done last Hw Hg Hn Hf; (destruct fuel as [|fuel]; [cbn in Hf; lia|]);
    cbn [find_records].
  - injection Hw as <- <-. exists x. cbn [fmap list_fmap flat concat]. rewrite app_nil_r. cbn [length app].
    rewrite Nat.add_0_r. unfold skip_nul. rewrite Nat.sub_diag. cbn [skip mbind option_bind]. by rewrite decide_True.
  - apply Forall_cons in Hn as [Hi Hn]. cbn [length] in Hf. rewrite fmap_cons, flat_cons, length_app. cbn [length].
    pose proof (flat_length (lines_of cur)) as Hc. cbn [length] in Hc.
    assert (0 < length (lines_of cur)) by (cbn; lia).
    rewrite <- app_assoc, skip_to_next; [|done|lia|apply line_head]. cbn [mbind option_bind].
    destruct (line_head i) as [z Hz]. assert (0 < length (line_of i)) by (rewrite Hz; cbn; lia).
    rewrite decide_False by lia. destruct i as [n|p]; cbn [line_of] in *.
    + cbn [walk] in Hw. destruct (walk (mk_target n []) l) as [d t] eqn:E. injection Hw as <- <-.
      apply Forall_cons in Hg as [[Hok Hr] Hg].
      set (rest := (TARGET_NAME ++ n) ++ (NUL :: flat (line_of <$> l)) ++ tail).
      assert (prefix_at TARGET_NAME (x ++ flat (lines_of cur) ++ rest) (length x + length (flat (lines_of cur))) = Some true) as ->.
      { rewrite app_assoc, <- length_app. unfold rest. rewrite <- (app_assoc TARGET_NAME). apply prefix_at_app. }
      cbn [mbind option_bind].
      destruct (add_target_ok x cur rest recs (length x + length (flat (lines_of cur))) Hok Hr) as (x1 & Hx1 & ->); [by left|].
      cbn [mbind option_bind negb]. rewrite <- Hx1. unfold rest. cbn [app].
      rewrite skip_text_at by (done || lia). cbn [mbind option_bind].
      destruct (IH (mk_target n []) x1 (recs ++ records_of cur) fuel d t E Hg Hn ltac:(lia)) as (x2 & E2 & Hl).
      exists x2. unfold lines_of in E2 at 1 2 3, Hl at 2. cbn [t_name t_portals] in E2, Hl.
      assert (flat [TARGET_NAME ++ n] = (TARGET_NAME ++ n) ++ [NUL]) as F by (unfold flat; cbn; by rewrite app_nil_r).
      cbn [fmap list_fmap] in E2, Hl. rewrite F in E2, Hl. rewrite !length_app in E2, Hl. cbn [length] in E2, Hl.
      rewrite fmap_cons. cbn [concat]. split; [|rewrite length_app; lia].
      rewrite (app_assoc recs (records_of cur)), <- E2, <- !app_assoc, length_app. cbn [app]. f_equal; lia.
    + cbn [walk] in Hw.
      set (rest := (NUL :: flat (line_of <$> l)) ++ tail).
      assert (prefix_at TARGET_NAME (x ++ flat (lines_of cur) ++ portal_text p ++ rest) (length x + length (flat (lines_of cur))) =
              Some false) as ->.
      { rewrite app_assoc, <- length_app. unfold portal_text. rewrite <- (app_assoc TARGET_ADDRESS). apply address_is_no_name. }
      cbn [mbind option_bind negb].
      assert (skip_text (x ++ flat (lines_of cur) ++ portal_text p ++ rest) (length x + length (flat (lines_of cur)))
                (length x + length (flat (lines_of cur)) + (length (portal_text p) + S (length (flat (line_of <$> l)))) - 1) =
              Some (length x + length (flat (lines_of cur)) + length (portal_text p))) as ->.
      { rewrite app_assoc, <- (length_app x). unfold rest. cbn [app]. apply skip_text_at; [done|]. rewrite !length_app. lia. }
      cbn [mbind option_bind].
      destruct (IH (with_portal cur p) x recs fuel done last Hw Hg Hn ltac:(lia)) as (x2 & E2 & Hl).
      rewrite flat_with_portal, !length_app in E2, Hl. cbn [length] in E2, Hl. exists x2. split; [|lia].
      rewrite <- E2. unfold rest. rewrite <- !app_assoc. cbn [app]. f_equal; lia.
Qed.

(** The first key names the first target. *)
Lemma find_first n l tail recs done last :
  walk (mk_target n []) l = (done, last) -> Forall good done -> Forall (fun i => no_nul (line_of i)) (IName n :: l) ->
  let text := flat (line_of <$> IName n :: l) in
  exists x', find_records getaddrinfo_host conf (S (length text - 1)) drec (text ++ tail) (length text - 1) 0 None recs =
    Some (mk_scan true (x' ++ flat (lines_of last) ++ tail) (recs ++ concat (records_of <$> done)) (Some (length x'))) /\
    length x' + length (flat (lines_of last)) = length text.
Proof.
  intros Hw Hg Hn text. pose proof Hn as Hn'. apply Forall_cons in Hn' as [Hi Hl]. cbn [line_of] in Hi. cbn [find_records].
  assert (text = (TARGET_NAME ++ n) ++ NUL :: flat (line_of <$> l)) as E by (unfold text; by rewrite fmap_cons, flat_cons).
  assert (11 + length n + S (length (flat (line_of <$> l))) = length text) as Hlen by (rewrite E, !length_app; cbn; lia).
  pose proof (flat_length (line_of <$> l)) as Hfl. rewrite length_fmap in Hfl.
  assert (skip_nul (text ++ tail) 0 (length text - 1) = Some 0) as ->.
  { unfold skip_nul. rewrite Nat.sub_0_r. destruct (length text - 1) as [|k] eqn:Ek; [lia|]. by rewrite E. }
  cbn [mbind option_bind]. rewrite decide_False by lia.
  assert (prefix_at TARGET_NAME (text ++ tail) 0 = Some true) as ->.
  { rewrite E, <- !app_assoc. apply (prefix_at_app TARGET_NAME []). }
  cbn [mbind option_bind negb].
  assert (skip_text (text ++ tail) 0 (length text - 1) = Some (length (TARGET_NAME ++ n))) as ->.
  { rewrite E, <- app_assoc. apply (skip_text_at [] (TARGET_NAME ++ n)); [done|]. rewrite !length_app. cbn. lia. }
  cbn [mbind option_bind].
  destruct (find_records_ok tail l (mk_target n []) [] recs (length text - 1) done last Hw Hg Hl ltac:(lia)) as (x' & E2 & Hx').
  assert (flat (lines_of (mk_target n [])) = (TARGET_NAME ++ n) ++ [NUL]) as F.
  { unfold lines_of, flat. cbn. by rewrite app_nil_r. }
  rewrite F in E2, Hx'. rewrite length_app in E2, Hx'. cbn [length app Nat.add] in E2, Hx'.
  assert (length (TARGET_NAME ++ n) = 11 + length n) as Hn11 by (by rewrite length_app).
  exists x'. split; [|lia]. rewrite <- E2. f_equal; [|lia..]. rewrite E, <- !app_assoc. done.
Qed.

(** The last NUL of the data ends its last key. *)
Lemma last_nul_ok ls part junk :
  ls <> [] -> no_nul part -> last_nul (flat ls ++ part ++ junk) (length (flat ls ++ part) - 1) = Some (length (flat ls) - 1).
Proof.
  intros Hls Hp. destruct (flat_nul ls Hls) as [z ->]. rewrite !length_app. cbn [length].
  destruct (last_nul_spec ((z ++ [NUL]) ++ part ++ junk) (length z + 1 + length part - 1)) as (nul & -> & Hle & Hz & Hr).
  { rewrite !length_app. cbn. lia. }
  f_equal. assert (((z ++ [NUL]) ++ part ++ junk) !! length z = Some NUL) as Hk.
  { rewrite <- app_assoc. by apply list_lookup_middle. }
  destruct (decide (nul < length z)) as [Hlt|]; [by destruct (Hr (length z) ltac:(lia))|].
  destruct (decide (nul = length z)) as [->|]; [lia|]. exfalso.
  specialize (Hz ltac:(lia)). rewrite lookup_app_r in Hz by (rewrite length_app; cbn; lia). rewrite length_app in Hz. cbn in Hz.
  rewrite lookup_app_l in Hz by lia. apply list_elem_of_lookup_2, list_elem_of_In in Hz.
  unfold no_nul in Hp. rewrite List.Forall_forall in Hp. by apply (Hp NUL).
Qed.

Lemma process_ok s n l part final recs done last :
  buffer_wf s -> contents s = flat (line_of <$> IName n :: l) ++ part -> no_nul part ->
  walk (mk_target n []) l = (done, last) -> Forall good done -> Forall (fun i => no_nul (line_of i)) (IName n :: l) ->
  (final = true -> good last /\ part = []) ->
  exists s', process_sendtargets_response getaddrinfo_host conf s final drec recs =
    Some (s', recs ++ concat (records_of <$> if final then done ++ [last] else done)) /\
    buffer_wf s' /\ contents s' = if final then [] else flat (lines_of last) ++ part.
Proof.
  intros Hwf Hc Hp Hw Hg Hn Hfin. set (text := flat (line_of <$> IName n :: l)) in *.
  pose proof (length_contents s Hwf) as Hlen. rewrite Hc, length_app in Hlen.
  assert (11 < length text) as Ht.
  { unfold text. rewrite fmap_cons, flat_cons, length_app. cbn [line_of length]. rewrite length_app.
    change (length TARGET_NAME) with 11. lia. }
  unfold process_sendtargets_response. rewrite decide_False by lia.
  destruct (buffer_some s Hwf ltac:(lia)) as (b & Eb & Hb). rewrite Eb. cbn [mbind option_bind].
  set (junk := drop (data_length s) b).
  assert (b = text ++ part ++ junk) as Ebt.
  { rewrite <- (take_drop (data_length s) b). rewrite app_assoc. f_equal.
    rewrite <- Hc. unfold contents. by rewrite Eb. }
  rewrite Ebt. rewrite <- Hlen, <- length_app.
  unfold text at 1 2. rewrite last_nul_ok by done. cbn [mbind option_bind]. fold text. rewrite decide_False by lia.
  destruct (find_first n l (part ++ junk) recs done last Hw Hg Hn) as (x' & E & Hx'). fold text in E, Hx'. rewrite E.
  cbn [mbind option_bind ok negb record text_ found].
  assert (buffer_wf (s <| buffer := Some (x' ++ flat (lines_of last) ++ part ++ junk) |>)) as Hwf1.
  { eapply set_buffer_wf; [done..|]. rewrite Ebt, !length_app. lia. }
  destruct final.
  - destruct (Hfin eq_refl) as [[Hok Hr] ->].
    destruct (add_target_ok x' last ([] ++ junk) (recs ++ concat (records_of <$> done)) (length text - 1) Hok Hr)
      as (x2 & Hx2 & E2); [right; lia|]. rewrite E2. cbn [mbind option_bind].
    eassert (buffer_wf _) as Hwf2 by (eapply (set_buffer_wf _ _ (x2 ++ [] ++ junk) Hwf1); [done|]; rewrite !length_app; lia).
    destruct (truncate_spec _ 0 Hwf2) as (s' & -> & Hw' & Hc'); [left; cbn; lia|]. cbn [mbind option_bind].
    exists s'. split_and!; [|done|by rewrite Hc'].
    do 2 f_equal. rewrite fmap_app, concat_app. cbn. by rewrite app_nil_r, app_assoc.
  - destruct (remove_initial_spec _ (length x') Hwf1) as (s' & -> & Hw' & Hc'); [cbn; lia|]. cbn [mbind option_bind].
    exists s'. split_and!; [done..|]. rewrite Hc'.
    change (drop (length x') (take (data_length s) (x' ++ flat (lines_of last) ++ part ++ junk)) = flat (lines_of last) ++ part).
    replace (data_length s) with (length (x' ++ flat (lines_of last) ++ part)) by (rewrite !length_app; lia).
    replace (x' ++ flat (lines_of last) ++ part ++ junk) with ((x' ++ flat (lines_of last) ++ part) ++ junk)
      by (by rewrite <- !app_assoc).
    by rewrite take_app_length, drop_app_length.
Qed.

(** ** Responses that break the keys *)

(** What is still to come: [rest] are the keys behind those of the open target
    [cur], [all] the targets that the whole gives. *)
Definition plan (cur : option target) (rest : list item) (all : list target) : Prop :=
  match cur with
  | None => rest = concat (items_of <$> all)
  | Some t => exists done last, walk t rest = (done, last) /\ all = done ++ [last]
  end.

Definition open_items (cur : option target) : list item := from_option items_of [] cur.

Lemma plan_first cur more rest all i l :
  open_items cur ++ more = i :: l -> plan cur (more ++ rest) all ->
  exists n, i = IName n /\ plan (Some (mk_target n [])) (l ++ rest) all.
Proof.
  destruct cur as [t|]; cbn [open_items from_option plan].
  - unfold items_of. cbn [app]. intros [= <- <-] (done & last & Hw & ->). exists (t_name t). split; [done|].
    exists done, last. split; [|done]. rewrite <- app_assoc, walk_portals. cbn. by destruct t.
  - cbn [app]. intros -> Ha. destruct all as [|t all]; [done|]. rewrite fmap_cons in Ha. cbn in Ha. injection Ha as -> Hl.
    exists (t_name t). split; [done|]. destruct (walk_targets all t) as (done & last & E & Hd). exists done, last.
    rewrite Hl. split; [|done]. rewrite walk_portals. cbn. destruct t. exact E.
Qed.

(** Without a whole key the data waits. *)
Lemma process_partial s final recs :
  buffer_wf s -> no_nul (contents s) ->
  process_sendtargets_response getaddrinfo_host conf s final drec recs = Some (s, recs).
Proof.
  intros Hwf Hn. unfold process_sendtargets_response. case_decide as H0; [done|].
  destruct (buffer_some s Hwf H0) as (b & Eb & Hb). rewrite Eb. cbn [mbind option_bind]. pose proof Hwf as (_ & Hd & _).
  destruct (last_nul_spec b (data_length s - 1) ltac:(lia)) as (nul & -> & Hle & Hz & _). cbn [mbind option_bind].
  destruct (decide (nul = 0)) as [->|Hne]; [done|]. exfalso. specialize (Hz Hne).
  unfold contents in Hn. rewrite Eb in Hn. cbn in Hn. unfold no_nul in Hn. rewrite List.Forall_forall in Hn.
  apply (Hn NUL); [|done]. apply list_elem_of_In, (list_elem_of_lookup_2 _ nul). by rewrite lookup_take_lt by lia.
Qed.

Lemma no_nul_flat part ls : no_nul part -> part = flat ls -> ls = [].
Proof.
  intros Hp ->. destruct ls as [|l ls]; [done|]. rewrite flat_cons in Hp. apply no_nul_app in Hp as [_ Hp].
  by apply no_nul_cons in Hp as [Hp _].
Qed.

(** One response: the targets that it completes. *)
Lemma response_step s recs final part more rest cur all :
  buffer_wf s -> contents s = flat (line_of <$> open_items cur ++ more) ++ part -> no_nul part ->
  Forall (fun i => no_nul (line_of i)) (open_items cur ++ more) -> plan cur (more ++ rest) all -> Forall good all ->
  (final = true -> rest = [] /\ part = []) ->
  exists s' done all', process_sendtargets_response getaddrinfo_host conf s final drec recs =
      Some (s', recs ++ concat (records_of <$> done)) /\ buffer_wf s' /\ all = done ++ all' /\
    if final then all' = []
    else exists cur', contents s' = flat (line_of <$> open_items cur') ++ part /\ plan cur' rest all' /\
           Forall (fun i => no_nul (line_of i)) (open_items cur').
Proof.
  intros Hwf Hc Hp Hn Hplan Hg Hfin. destruct (open_items cur ++ more) as [|i l] eqn:E.
  - apply app_eq_nil in E as [Ec ->]. destruct cur; [done|]. cbn in Hplan. cbn in Hc.
    exists s, [], all. rewrite process_partial by (by rewrite ?Hc). cbn. rewrite app_nil_r. split_and!; [done..|].
    destruct final; [|exists None; split_and!; [done..|constructor]].
    destruct (Hfin eq_refl) as [-> _]. destruct all as [|t all]; [done|]. rewrite fmap_cons in Hplan. done.
  - destruct (plan_first cur more rest all i l E Hplan) as (n & -> & done & last & Hw & ->). rewrite walk_app in Hw.
    destruct (walk (mk_target n []) l) as [d1 c1] eqn:E1. destruct (walk c1 rest) as [d2 c2] eqn:E2. injection Hw as <- <-.
    rewrite <- app_assoc in Hg. apply Forall_app in Hg as [Hg1 Hg2].
    destruct (process_ok s n l part final recs d1 c1 Hwf Hc Hp E1 Hg1 Hn) as (s' & Hs & Hwf' & Hc').
    { intros Hf. destruct (Hfin Hf) as [-> ->]. cbn in E2. injection E2 as <- <-.
      by apply Forall_app in Hg2 as [_ [Hg2 _]%Forall_cons]. }
    destruct final.
    + destruct (Hfin eq_refl) as [-> ->]. cbn in E2. injection E2 as <- <-.
      exists s', (d1 ++ [c1]), []. rewrite !app_nil_r. by split_and!.
    + exists s', d1, (d2 ++ [c2]). split_and!; [done|done|by rewrite app_assoc|]. exists (Some c1). cbn [open_items from_option].
      rewrite <- lines_items. split_and!; [done|by exists d2, c2|].
      pose proof (walk_items l (mk_target n []) d1 c1 E1) as Hi. change (items_of (mk_target n []) ++ l) with (IName n :: l) in Hi.
      rewrite Hi in Hn. by apply Forall_app in Hn as [_ Hn].
Qed.
End Targets.
