(* ===== verification/DiscoveryDriver.v ===== *)
(** * SendTargets discovery: the session and the exchange

    usr/discovery.c, [iscsi_destroy_session] to [discovery_sendtargets].  The
    answers of the kernel, of the transport and of the network are functions of
    the calls made before ([DiscKernel]); the results of [poll] come as lists, and
    a run whose list is used up is still waiting. *)
From Stdlib Require Import ZArith Lia Ascii.
From stdpp Require Import base tactics numbers list strings option gmap.
From S2P Require Import Prelude StateM CString Acl Pdu Io Timer Login LoginReq SessionSetup Idbm IdbmTables IdbmOps StrBuffer Discovery.

Definition ISCSI_ERR : Z := 1.
Definition ISCSI_ERR_TRANS : Z := 4.
Definition ISCSI_ERR_TRANS_TIMEOUT : Z := 8.
Definition ISCSI_ERR_INTERNAL : Z := 9.
Definition ISCSI_ERR_PDU_TIMEOUT : Z := 11.
Definition ISCSI_ERR_FATAL_LOGIN : Z := 19.
Definition ISCSI_ERR_LOGIN_AUTH_FAILED : Z := 24.
Definition ISCSI_ERR_AGAIN : Z := 29.
Definition INVALID_SESSION_ID : Z := 4294967295.
Definition ISCSI_CONN_STATE_LOGGED_IN : Z := 3.

(** ** The calls *)
Inductive dcall :=
| IoSocket | IoTcpConnect | TimedOut | IoClose | IoDisconnect | CtldevOpen | CtldevClose | HostNo | HostRc | SetNetParams
| EpConnect | EpPoll | EpDisconnect | CreateSession | NewSid | CreateConn | NewCid | BindConn | BindRc
| StopConn | DestroyConn | DestroySession | HasLeadconn | SetParam (p : Z) (v : kernel_value)
| StartConn | StartRc | RecvConnState | ConnState | Sleep (seconds : Z) | Login.

(** A poll and what follows it: the events of the next request, and the clock
    when the timer is set again. *)
Record disc_poll := mk_disc_poll { dp_poll : poll_result; dp_send : sending; dp_now : timeval }.

Class DiscKernel := {
  answer : list dcall -> dcall -> Z;
  login_rounds : list dcall -> list login_round;
  wait_start : list dcall -> timeval;
  wait_polls : list dcall -> list poll_result;
  request_events : list dcall -> sending;
  exchange_start : list dcall -> timeval;
  exchange_polls : list dcall -> list disc_poll
}.

(** [struct iscsi_session] with the fields that only discovery uses, the history of
    the calls, the buffer of the caller and what is left to read on the
    connection. *)
Record dsession := mk_ds {
  ds : iscsi_session;
  ds_id : Z;
  ds_conn_id : Z;
  ds_hostno : Z;
  ds_bind_ep : Z;
  socket_fd : Z;
  failback_saddr : list Z;
  reopen_cnt : Z;
  ds_data : list Z;
  ds_net : list read_event;
  hist : list dcall
}.
#[export] Instance eta_dsession : Eta dsession := fun d =>
  mk_ds (ds d) (ds_id d) (ds_conn_id d) (ds_hostno d) (ds_bind_ep d) (socket_fd d) (failback_saddr d) (reopen_cnt d)
    (ds_data d) (ds_net d) (hist d).

(** The configuration: the capabilities and the limits of the driver, the
    [iscsi_sendtargets_config]. *)
Record disc_config := mk_disc_config {
  t_caps : Z;
  t_create_conn : option create_conn;
  t_supports_nop : bool;
  session_conf : session_operational_config;
  conn_conf : conn_operational_config;
  k_record : kernel_record
}.

Section Driver.
Context `{AEnv : AuthEnv} `{LEnv : LoginEnv} `{Kernel : DiscKernel}.
Variable cfg : disc_config.

Definition ask (c : dcall) : M dsession Z :=
  fun w => Some (answer (hist w) c, w <| hist := hist w ++ [c] |>).

Definition upd (f : dsession -> dsession) : M dsession unit := mmod f.

(** ** Taking a session down *)

(** [iscsi_io_tcp_disconnect]. *)
Definition io_disconnect : M dsession unit :=
  let! w := mget in
  if decide (0 <= socket_fd w)%Z then ask IoDisconnect ;;; upd (fun w => w <| socket_fd := (-1)%Z |>) else mret' tt.

Definition close_ipc : M dsession unit :=
  let! w := mget in
  if decide (0 <= socket_fd w)%Z then ask CtldevClose ;;; upd (fun w => w <| socket_fd := (-1)%Z |>) else mret' tt.

(** The label [done]. *)
Definition destroy_done : M dsession unit :=
  upd (fun w => w <| ds := (ds w) <| target_alias := None |> |>) ;;;
  close_ipc ;;;
  upd (fun w => w <| ds_id := INVALID_SESSION_ID |>).

Definition iscsi_destroy_session : M dsession unit :=
  let! w := mget in
  if decide (ds_id w = INVALID_SESSION_ID) then mret' tt
  else if negb (has_cap (t_caps cfg) CAP_TEXT_NEGO) then io_disconnect ;;; destroy_done
  else
    ask EpDisconnect ;;;
    let! rc := ask StopConn in
    if truth rc then destroy_done
    else
      let! rc := ask DestroyConn in
      if truth rc then destroy_done else ask DestroySession ;;; destroy_done.

(** ** Connecting *)

(** [iscsi_io_tcp_connect] makes a socket ([IoSocket]) and connects it; a socket
    whose connection timed out stays open. *)
Definition iscsi_io_connect : M dsession bool :=
  let! fd := ask IoSocket in
  upd (fun w => w <| socket_fd := fd |>) ;;;
  let! rc := ask IoTcpConnect in
  let! timedout := ask TimedOut in
  if truth timedout then mret' false
  else if decide (rc < 0)%Z then ask IoClose ;;; mret' false
  else mret' true.

(** The loop of [ep_poll]; [n] is how often it may still sleep ([login_timeout] is
    not negative). *)
Fixpoint ep_poll_loop (n : nat) : M dsession Z :=
  let! rc := ask EpPoll in
  if decide (rc < 0)%Z then mret' ISCSI_ERR_TRANS
  else if decide (rc = 0)%Z then
    match n with
    | O => mret' ISCSI_ERR_TRANS_TIMEOUT
    | S n => ask (Sleep 1) ;;; ep_poll_loop n
    end
  else mret' 0%Z.

(** The label [disconnect] and what follows it. *)
Definition lead_disconnect (rc : Z) : M dsession Z :=
  ask EpDisconnect ;;;
  let! w := mget in
  mwhen (bool_decide (ds_id w <> INVALID_SESSION_ID)) (
    let! has := ask HasLeadconn in
    mwhen (truth has) (ask DestroyConn ;;; mret' tt)) ;;;
  mwhen (bool_decide (ds_id w <> INVALID_SESSION_ID)) (
    ask DestroySession ;;; upd (fun w => w <| ds_id := INVALID_SESSION_ID |>)) ;;;
  close_ipc ;;; mret' rc.

Definition set_isid (id : Z) (l : list Z) : list Z :=
  <[5 := Z.land id 0xff]> (<[4 := Z.land (Z.shiftr id 8) 0xff]> (<[3 := Z.land (Z.shiftr id 16) 0xff]> l)).

(** The kernel structures, once the endpoint is connected. *)
Definition create_kernel_session : M dsession Z :=
  let! rc := ask CreateSession in
  if truth rc then lead_disconnect ISCSI_ERR_INTERNAL
  else
    let! id := ask NewSid in
    upd (fun w => w <| ds_id := u32 id |> <| ds := (ds w) <| isid := set_isid (u32 id) (isid (ds w)) |> |>) ;;;
    let! rc := ask CreateConn in
    if truth rc then lead_disconnect ISCSI_ERR_INTERNAL
    else
      let! cid := ask NewCid in
      upd (fun w => w <| ds_conn_id := u32 cid |>) ;;;
      let! ret := ask BindConn in
      let! rc := ask BindRc in
      if truth ret || truth rc then lead_disconnect ISCSI_ERR_INTERNAL else mret' 0%Z.

Definition iscsi_create_leading_conn : M dsession Z :=
  if negb (has_cap (t_caps cfg) CAP_TEXT_NEGO) then
    upd (fun w => w <| ds := (ds w) <| use_ipc := false |> |>) ;;;
    let! ok := iscsi_io_connect in
    if negb ok then mret' ISCSI_ERR_TRANS
    else upd (fun w => w <| ds_id := 1%Z |>) ;;; mret' 0%Z
  else
    upd (fun w => w <| ds := (ds w) <| use_ipc := true |> |>) ;;;
    let! fd := ask CtldevOpen in
    upd (fun w => w <| socket_fd := fd |>) ;;;
    if decide (fd < 0)%Z then mret' ISCSI_ERR_INTERNAL
    else
      let! host_no := ask HostNo in
      let! rc := ask HostRc in
      mwhen (negb (truth rc)) (upd (fun w => w <| ds_bind_ep := 1%Z |> <| ds_hostno := u32 host_no |>)) ;;;
      let! rc := ask SetNetParams in
      if truth rc then close_ipc ;;; mret' (if decide (rc <> ISCSI_ERR_AGAIN) then ISCSI_ERR_INTERNAL else rc)
      else
        let! rc := ask EpConnect in
        if decide (rc < 0)%Z then close_ipc ;;; mret' ISCSI_ERR_TRANS
        else
          let! w := mget in
          let! rc := ep_poll_loop (Z.to_nat (login_timeout (conn (ds w)))) in
          if truth rc then lead_disconnect rc else create_kernel_session.

(** ** Waiting for an offloaded login *)

(** [None] for the result: still waiting. *)
Fixpoint wait_loop (timer : timeval) (ps : list poll_result) : M dsession (option Z) :=
  match ps with
  | [] => mret' None
  | p :: ps =>
      if iscsi_timer_expired (poll_now p) (Some timer) then mret' (Some ISCSI_ERR_INTERNAL)
      else if decide (0 < poll_ret p)%Z then
        if truth (Z.land (revents p) (Z.lor POLLIN POLLPRI)) then
          let! status := ask RecvConnState in
          if decide (status = - EAGAIN)%Z then wait_loop timer ps
          else if decide (status < 0)%Z then mret' (Some ISCSI_ERR_TRANS)
          else
            let! state := ask ConnState in
            mret' (Some (if decide (state <> ISCSI_CONN_STATE_LOGGED_IN) then ISCSI_ERR_TRANS else 0%Z))
        else if truth (Z.land (revents p) POLLHUP) then mret' (Some ISCSI_ERR_TRANS)
        else if truth (Z.land (revents p) POLLNVAL) then mret' (Some ISCSI_ERR_INTERNAL)
        else if truth (Z.land (revents p) POLLERR) then mret' (Some ISCSI_ERR_INTERNAL)
        else mret' (Some (poll_ret p))
      else if decide (poll_ret p < 0)%Z then mret' (Some ISCSI_ERR_INTERNAL)
      else mret' (Some (poll_ret p))
  end.

Definition iscsi_wait_for_login : M dsession (option Z) :=
  if negb (has_cap (t_caps cfg) CAP_LOGIN_OFFLOAD) then mret' (Some 0%Z)
  else
    let! w := mget in
    wait_loop (iscsi_timer_set (wait_start (hist w)) (active_timeout (conn (ds w)))) (wait_polls (hist w)).

(** ** Logging in *)
Definition ISCSI_LOGIN_STATUS_TGT_MOVED_TEMP : Z := 1.
Definition ISCSI_LOGIN_STATUS_TGT_MOVED_PERM : Z := 2.
Definition ISCSI_LOGIN_STATUS_AUTH_FAILED : Z := 1.
Definition ISCSI_LOGIN_STATUS_TGT_FORBIDDEN : Z := 2.

(** How an attempt ends: with a session, with the label [login_failed], at one of
    the labels from which it is tried again (with the number of failures), or it
    is still waiting. *)
Inductive label := SetAddress | Reconnect | RedirectReconnect.
Inductive attempt := Ready | LoginFailed (rc : Z) | Again (l : label) (failures : nat) | StillWaiting.

Definition login_delay (login_failures : nat) : Z :=
  if decide (login_failures = 0) then 0%Z
  else if decide (login_failures < 10) then 1%Z
  else if decide (login_failures < 20) then 2%Z
  else if decide (login_failures < 26) then 5%Z
  else if decide (login_failures < 34) then 15%Z
  else 60%Z.

(** The login context of [iscsi_login] is a local variable. *)
Definition fresh_ctx : login_context := mk_ctx [] 0 0 0 false zero_hdr 0 0 0 0 LOGIN_FAILED.

(** [iscsi_login]: status, class and detail; the caller's buffer is zeroed
    first. *)
Definition run_login : M dsession (option (iscsi_login_status * Z * Z)) :=
  let! w := mget in
  let data := replicate (length (ds_data w)) 0%Z in
  let! r := mopt (iscsi_login (ds w) fresh_ctx data (Z.of_nat (length data)) (login_rounds (hist w))) in
  ask Login ;;;
  let '(f, st) := r in
  upd (fun w => w <| ds := l_session st |> <| ds_data := LoginReq.buffer (l_ctx st) |> <| ds_net := l_net st |>) ;;;
  mret' (match f with
         | Return => let '(c, d) := default (0%Z, 0%Z) (l_out st) in Some (ret (l_ctx st), c, d)
         | _ => None
         end).

(** The label [start_conn]. *)
Definition start_conn : M dsession attempt :=
  let! w := mget in
  let '(rc, calls) := iscsi_session_set_neg_params (fun p v => answer (hist w) (SetParam p v)) (t_caps cfg) (ds_conn_id w) (ds w) in
  upd (fun w => w <| hist := hist w ++ ((fun c => SetParam c.1.1 c.1.2) <$> calls) |>) ;;;
  if truth rc then mret' (LoginFailed ISCSI_ERR_INTERNAL)
  else
    let! ret := ask StartConn in
    let! rc := ask StartRc in
    if truth ret || truth rc then mret' (LoginFailed ISCSI_ERR_INTERNAL)
    else
      let! rc := iscsi_wait_for_login in
      mret' (match rc with None => StillWaiting | Some rc => if truth rc then LoginFailed rc else Ready end).

(** The two switches on the result of the login. *)
Definition after_login (failures : nat) (status : iscsi_login_status) (class detail : Z) : M dsession attempt :=
  if bool_decide (status = LOGIN_OK) || bool_decide (status = LOGIN_REDIRECT) then
    if decide (class = ISCSI_STATUS_CLS_SUCCESS) then
      if negb (has_cap (t_caps cfg) CAP_TEXT_NEGO) then mret' Ready else start_conn
    else if decide (class = ISCSI_STATUS_CLS_REDIRECT) then
      if decide (detail = ISCSI_LOGIN_STATUS_TGT_MOVED_TEMP) then mret' (Again RedirectReconnect failures)
      else if decide (detail = ISCSI_LOGIN_STATUS_TGT_MOVED_PERM) then
        upd (fun w => w <| failback_saddr := saddr (conn (ds w)) |>) ;;; mret' (Again RedirectReconnect failures)
      else mret' (Again SetAddress failures)
    else if decide (class = ISCSI_STATUS_CLS_INITIATOR_ERR) then
      if decide (detail = ISCSI_LOGIN_STATUS_AUTH_FAILED \/ detail = ISCSI_LOGIN_STATUS_TGT_FORBIDDEN)
      then mret' (LoginFailed ISCSI_ERR_LOGIN_AUTH_FAILED) else mret' (LoginFailed ISCSI_ERR_FATAL_LOGIN)
    else mret' (Again Reconnect (S failures))
  else if bool_decide (status = LOGIN_IO_ERROR) || bool_decide (status = LOGIN_REDIRECTION_FAILED) then
    mret' (Again SetAddress (S failures))
  else mret' (LoginFailed ISCSI_ERR_FATAL_LOGIN).

(** From the label [redirect_reconnect]. *)
Definition one_attempt (failures : nat) : M dsession attempt :=
  upd (fun w => w <| ds := (ds w) <| cmdsn := 1%Z |> <| portal_group_tag := PORTAL_GROUP_TAG_UNKNOWN |> |>) ;;;
  iscsi_destroy_session ;;;
  mwhen (truth (login_delay failures)) (ask (Sleep (login_delay failures)) ;;; mret' tt) ;;;
  let! rc := iscsi_create_leading_conn in
  if truth rc then mret' (Again Reconnect (S failures))
  else
    upd (fun w => w <| ds := (iscsi_copy_operational_params (t_caps cfg) (t_create_conn cfg) (ds w) (session_conf cfg)
                                (conn_conf cfg)).1.1.1 |>) ;;;
    let! rc := (if has_cap (t_caps cfg) CAP_TEXT_NEGO then
                  let! w := mget in
                  let '(rc, calls, _) := iscsi_session_set_params (fun p v => answer (hist w) (SetParam p v)) (t_caps cfg)
                                           (ds_conn_id w) (t_supports_nop cfg) (ds w) (k_record cfg) in
                  upd (fun w => w <| hist := hist w ++ ((fun c => SetParam c.1.1 c.1.2) <$> calls) |>) ;;; mret' rc
                else mret' 0%Z) in
    if truth rc then mret' (LoginFailed ISCSI_ERR_INTERNAL)
    else if has_cap (t_caps cfg) CAP_LOGIN_OFFLOAD then start_conn
    else
      let! r := run_login in
      match r with
      | None => mret' StillWaiting
      | Some (status, class, detail) => after_login failures status class detail
      end.

(** The labels: [failback_saddr] is restored, an attempt is counted.  [None] for
    the result: still waiting; running out of fuel is a failure of the monad. *)
Definition at_label (l : label) : M dsession bool :=
  match l with
  | RedirectReconnect => mret' true
  | _ =>
      mwhen (match l with SetAddress => true | _ => false end)
        (upd (fun w => w <| ds := put_conn (ds w) ((conn (ds w)) <| saddr := failback_saddr w |>) |>)) ;;;
      upd (fun w => w <| reopen_cnt := (reopen_cnt w - 1)%Z |>) ;;;
      let! w := mget in
      mret' (bool_decide (0 <= reopen_cnt w)%Z)
  end.

Fixpoint attempts (fuel : nat) (l : label) (failures : nat) : M dsession (option Z) :=
  match fuel with
  | O => mfail
  | S fuel =>
      let! go := at_label l in
      if negb go then iscsi_destroy_session ;;; mret' (Some ISCSI_ERR_PDU_TIMEOUT)
      else
        let! a := one_attempt failures in
        match a with
        | Ready => mret' (Some 0%Z)
        | LoginFailed rc => iscsi_destroy_session ;;; mret' (Some rc)
        | Again l failures => attempts fuel l failures
        | StillWaiting => mret' None
        end
  end.

Definition iscsi_create_session (fuel : nat) : M dsession (option Z) := attempts fuel SetAddress 0.

(** ** Asking for the targets *)
Variable getaddrinfo_host : list Z -> option (list Z).
Variable conf : memory.

(** How the exchange goes on: [discovery_sendtargets] returns, connects again, or
    waits in [poll]. *)
Inductive disc_flow := DReturn (rc : Z) | DReconnect | DWaiting.

(** The exchange: its state, the header and the data buffer, what is left on
    the connection. *)
Record exchange_state := mk_exchange { ex : discovery; ex_pdu : list Z; ex_data : list Z; ex_net : list read_event }.

(** From the label [repoll]. *)
Fixpoint exchange (drec : memory) (timer : timeval) (ps : list disc_poll) (st : exchange_state)
    : option (disc_flow * exchange_state) :=
  match ps with
  | [] => Some (DWaiting, st)
  | dp :: ps =>
      let p := dp_poll dp in
      if iscsi_timer_expired (poll_now p) (Some timer) then Some (DReconnect, st)
      else if decide (0 < poll_ret p)%Z then
        let hangup st :=
          if truth (Z.land (revents p) POLLHUP) then DReturn ISCSI_ERR_TRANS
          else if truth (Z.land (revents p) POLLNVAL) then DReconnect
          else if truth (Z.land (revents p) POLLERR) then DReconnect
          else DReturn 0%Z in
        if truth (Z.land (revents p) (Z.lor POLLIN POLLPRI)) then
          '(r, hdr, data, net) ← iscsi_io_recv_pdu (use_ipc (d_session (ex st))) (poll_ipc p) (ex_pdu st) (ex_data st)
                                   (Z.of_nat (length (ex_data st))) (ex_net st ++ arrived p);
          let st := mk_exchange (ex st) hdr data net in
          match r with
          | RecvAgain => exchange drec timer ps st
          | RecvFailed => Some (DReturn ISCSI_ERR_PDU_TIMEOUT, st)
          | RecvOk _ =>
              '(rc, d, _) ← process_recvd_pdu getaddrinfo_host conf hdr drec (ex st) data (dp_send dp);
              let st := mk_exchange d hdr data net in
              if decide (rc = DISCOVERY_NEED_RECONNECT) then Some (DReconnect, st)
              else if truth (active d) then
                exchange drec (iscsi_timer_set (dp_now dp) (active_timeout (conn (d_session d)))) ps st
              else Some (hangup st, st)
          end
        else Some (hangup st, st)
      else if decide (poll_ret p < 0)%Z then Some (DReturn ISCSI_ERR, st)
      else Some (DReturn 0%Z, st)
  end.

(** From the label [reconnect] to the end; [None] for the result: still waiting. *)
Fixpoint discover (fuel : nat) (drec : memory) (sendtargets : str_buffer) (rec_list : list memory)
    : M dsession (option Z * list memory) :=
  match fuel with
  | O => mfail
  | S fuel =>
      let! rc := iscsi_create_session fuel in
      match rc with
      | None => mret' (None, rec_list)
      | Some rc =>
          if truth rc then iscsi_destroy_session ;;; mret' (Some rc, rec_list)
          else
            let! sendtargets := mopt (str_truncate_buffer sendtargets 0) in
            let! w := mget in
            let! r := mopt (request_targets (ds w) (request_events (hist w))) in
            let '(ok, s, _) := r in
            upd (fun w => w <| ds := s |>) ;;;
            if negb ok then discover fuel drec sendtargets rec_list
            else
              let! w := mget in
              let timer := iscsi_timer_set (exchange_start (hist w)) (active_timeout (conn (ds w))) in
              let! r := mopt (exchange drec timer (exchange_polls (hist w))
                                (mk_exchange (mk_discovery (ds w) sendtargets 1%Z rec_list) zero_hdr (ds_data w) (ds_net w))) in
              let '(f, st) := r in
              upd (fun w => w <| ds := d_session (ex st) |> <| ds_data := ex_data st |> <| ds_net := ex_net st |>) ;;;
              match f with
              | DWaiting => mret' (None, Discovery.rec_list (ex st))
              | DReconnect => discover fuel drec (Discovery.sendtargets (ex st)) (Discovery.rec_list (ex st))
              | DReturn rc => iscsi_destroy_session ;;; mret' (Some rc, Discovery.rec_list (ex st))
              end
      end
  end.
End Driver.
