(* ===== verification/DiscoveryTheorems.v ===== *)
(** * SendTargets discovery: properties

    The exchange with the target, from the bytes on the connection to the records
    of the targets. *)
From Stdlib Require Import ZArith Lia Ascii.
From stdpp Require Import base tactics numbers list strings option gmap.
From S2P Require Import Prelude StateM CString Acl AclTheorems Pdu LoginText Io IoTheorems Timer Login LoginReq LoginTheorems SessionSetup Idbm IdbmTables IdbmOps StrBuffer Discovery DiscoverySafety DiscoveryRoundtrip DiscoveryDriver.

(** ** Text requests *)
Lemma text_hdr_shape s :
  length (iscsi_make_text_pdu s).1 = HDR_LEN /\ hdr8 (iscsi_make_text_pdu s).1 OFF_hlength = 0%Z /\
  ntoh24 (iscsi_make_text_pdu s).1 = 0%Z.
Proof. by split_and!. Qed.

Lemma iterate_shape s ttt :
  length ttt = 4 ->
  let h := hdr_put (hdr_put (iscsi_make_text_pdu s).1 OFF_ttt ttt) OFF_flags [ISCSI_FLAG_CMD_FINAL] in
  length h = HDR_LEN /\ hdr8 h OFF_hlength = 0%Z /\ ntoh24 h = 0%Z.
Proof. intros H. do 4 (destruct ttt as [|? ttt]; [done|]). destruct ttt; [|done]. by split_and!. Qed.

Lemma send_pdu_safe use_ipc rc hdr data net :
  hdr8 hdr OFF_hlength = 0%Z -> Z.to_nat (ntoh24 hdr) <= length data ->
  exists ok out net', iscsi_io_send_pdu use_ipc rc hdr data net = Some (ok, out, net').
Proof.
  intros Hh Hl. unfold iscsi_io_send_pdu. rewrite decide_False by (rewrite Hh; intros Hx; by apply Hx).
  destruct (write_header net hdr) as [[ok out] net1]. destruct ok; cbn [negb]; [|eauto].
  rewrite buf_prefix_Some by done. cbn [mbind option_bind].
  destruct (write_data _ _ _ _) as [[ok out2] net2]. eauto.
Qed.

Lemma length_rsp_ttt pdu : length pdu = HDR_LEN -> length (rsp_ttt pdu) = 4.
Proof. intros H. unfold rsp_ttt. rewrite length_take, length_drop, H. done. Qed.

(** The session that a text request leaves. *)
Definition next_cmd (s : iscsi_session) : iscsi_session := s <| cmdsn := u32 (cmdsn s + 1) |>.

Lemma iterate_safe s pdu w :
  length pdu = HDR_LEN ->
  exists ok out, iterate_targets s (rsp_ttt pdu) w = Some (ok, next_cmd s, out).
Proof.
  intros Hl. destruct (iterate_shape s (rsp_ttt pdu) (length_rsp_ttt pdu Hl)) as (_ & Hh & Hn).
  unfold iterate_targets, send_text.
  destruct (send_pdu_safe (use_ipc (next_cmd s)) (snd_rc w) _ (replicate 64 0%Z) (snd_events w) Hh) as (ok & out & net' & E).
  { rewrite Hn. cbn. lia. }
  exists ok, out. change (iscsi_make_text_pdu s) with ((iscsi_make_text_pdu s).1, next_cmd s). cbn iota.
  rewrite E. done.
Qed.

(** The socket takes a request of 48 bytes at once. *)
Definition takes_request (w : sending) : Prop := snd_events w = [WBytes HDR_LEN].

Lemma iterate_ok s pdu w :
  length pdu = HDR_LEN -> use_ipc s = false -> takes_request w ->
  exists out, iterate_targets s (rsp_ttt pdu) w = Some (true, next_cmd s, out).
Proof.
  intros Hl Hu Hw. destruct (iterate_shape s (rsp_ttt pdu) (length_rsp_ttt pdu Hl)) as (H48 & Hh & Hn).
  unfold iterate_targets, send_text. change (iscsi_make_text_pdu s) with ((iscsi_make_text_pdu s).1, next_cmd s). cbn iota.
  set (h := hdr_put _ OFF_flags _) in *. unfold iscsi_io_send_pdu.
  rewrite decide_False by (rewrite Hh; intros Hx; by apply Hx). rewrite Hw.
  assert (exists n2, write_header [WBytes HDR_LEN] h = (true, h, n2)) as (n2 & ->).
  { destruct h as [|z h']; [done|]. cbn [write_header]. rewrite H48, Nat.min_id. rewrite decide_False by done.
    rewrite drop_ge, take_ge by lia. cbn [write_header]. rewrite app_nil_r. eauto. }
  cbn [negb]. rewrite Hn. cbn [buf_prefix Z.to_nat].
  rewrite buf_prefix_Some by (cbn; lia). cbn [mbind option_bind]. unfold pad_bytes. rewrite Hh. cbn.
  destruct n2; cbn; by rewrite Hu; eexists.
Qed.

(** ** A response *)

(** What holds of the buffer even after an allocation failed: the data may then
    be longer than the memory. *)
Definition alloc_wf (s : str_buffer) : Prop :=
  length (default [] (buffer s)) = allocated_length s /\ (allocated_length s = 0 <-> buffer s = None).

Lemma buffer_alloc_wf s : buffer_wf s -> alloc_wf s.
Proof. intros (Hl & _ & Hn). done. Qed.

Section Exchange.
Context `{AEnv : AuthEnv} `{LEnv : LoginEnv}.
Variable getaddrinfo_host : list Z -> option (list Z).
Variables conf drec : memory.

Lemma enlarge_wf s n rc s' :
  alloc_wf s -> str_enlarge_data s n = (rc, s') ->
  data_length s' = data_length s + n /\ (if truth rc then alloc_wf s' else buffer_wf s') /\
  (truth rc = true -> malloc (data_length s + n) = false).
Proof.
  intros (Hl & Hn). unfold str_enlarge_data. cbn. case_decide; [destruct (malloc _) eqn:Em|]; intros [= <- <-]; cbn.
  - split_and!; [done| |done]. unfold buffer_wf. cbn. rewrite length_app, length_replicate. split_and!; [lia|done|].
    split; [lia|done].
  - split_and!; [done|done|done].
  - split_and!; [done| |done]. unfold buffer_wf. cbn. split_and!; [done|lia|done].
Qed.

Lemma take_response_safe s recs final data :
  alloc_wf s ->
  exists r s', take_response getaddrinfo_host conf drec s recs final data = Some (r, s') /\ alloc_wf s' /\
    forall s2 recs2, r = Some (s2, recs2) -> buffer_wf s2 /\ recs `prefix_of` recs2.
Proof.
  intros Hwf. unfold take_response. destruct (str_enlarge_data s (length data)) as [rc s1] eqn:E.
  destruct (enlarge_wf s (length data) rc s1 Hwf E) as (Hd & Hw & _). destruct (truth rc); [by eexists None, _|].
  assert (exists s2, (if decide (data = []) then Some s1
            else b ← buffer s1; b ← buf_write b (data_length s) data; Some (s1 <| buffer := Some b |>)) = Some s2 /\
            buffer_wf s2) as (s2 & -> & Hw2).
  { case_decide as E0; [by exists s1|]. assert (0 < length data) by (destruct data; [done|cbn; lia]).
    destruct (buffer_some s1 Hw ltac:(lia)) as (b & Eb & Hb). rewrite Eb. pose proof Hw as (_ & Hle & _).
    cbn. rewrite buf_write_Some by lia. cbn. eexists. split; [done|]. eapply set_buffer_wf; [done..|].
    rewrite length_splice; lia. }
  cbn [mbind option_bind]. destruct (process_safe getaddrinfo_host conf drec s2 final recs Hw2) as (s3 & recs3 & -> & Hw3 & Hp).
  cbn [mbind option_bind]. eexists _, _. split; [done|]. split; [by apply buffer_alloc_wf|]. intros ? ? [= <- <-]. done.
Qed.

Lemma process_recvd_pdu_safe pdu d data w :
  length pdu = HDR_LEN -> Z.to_nat (ntoh24 pdu) <= length data -> alloc_wf (sendtargets d) ->
  exists rc d' out, process_recvd_pdu getaddrinfo_host conf pdu drec d data w = Some (rc, d', out) /\
    alloc_wf (sendtargets d') /\ rec_list d `prefix_of` rec_list d'.
Proof.
  intros Hl Hd Hwf. unfold process_recvd_pdu. case_decide; [by eexists _, d, _|].
  rewrite buf_prefix_Some by done. cbn [mbind option_bind].
  destruct (take_response_safe (sendtargets d) (rec_list d) (rsp_final pdu) (take (Z.to_nat (ntoh24 pdu)) data) Hwf)
    as (r & s' & -> & Hw & Hr). cbn [mbind option_bind].
  destruct r as [[s2 recs2]|]; [|by eexists _, _, _]. destruct (Hr s2 recs2 eq_refl) as [Hw2 Hp].
  destruct (rsp_final pdu); [eexists _, _, _; split; [done|]; cbn; split; [by apply buffer_alloc_wf|done]|].
  cbn [d_session]. destruct (iterate_safe (d_session d) pdu w Hl) as (ok & out & E).
  change (d_session (d <| sendtargets := s2 |> <| rec_list := recs2 |>)) with (d_session d). rewrite E. cbn [mbind option_bind].
  eexists _, _, _. split; [done|]. cbn. split; [by apply buffer_alloc_wf|done].
Qed.

(** ** The exchange *)
Definition polls_bytes (ps : list disc_poll) : Prop := Forall (fun dp => net_bytes (arrived (dp_poll dp))) ps.

Lemma exchange_safe ps : forall timer st,
  polls_bytes ps -> net_bytes (ex_net st) -> length (ex_pdu st) = HDR_LEN -> alloc_wf (sendtargets (ex st)) ->
  exists f st', exchange getaddrinfo_host conf drec timer ps st = Some (f, st') /\
    rec_list (ex st) `prefix_of` rec_list (ex st') /\ length (ex_data st') = length (ex_data st).
Proof.
  induction ps as [|dp ps IH]; intros timer st Hps Hn Hl Hwf; cbn [exchange]; [by eexists _, st|].
  apply Forall_cons in Hps as [Hp Hps]. case_match; [by eexists _, st|].
  case_decide; [|case_decide; by eexists _, st]. case_match; [|by eexists _, st].
  destruct (recv_pdu_safe (use_ipc (d_session (ex st))) (poll_ipc (dp_poll dp)) (ex_pdu st) (ex_data st)
    (length (ex_data st)) (ex_net st ++ arrived (dp_poll dp)) Hl ltac:(lia)) as (r & hdr & data & net & -> & Hh & Hdl & Hnet & Hr).
  { by apply Forall_app. }
  cbn [mbind option_bind]. destruct r as [| |n].
  - destruct (IH timer (mk_exchange (ex st) hdr data net)) as (f & st' & E & Hpre & Hlen); [done..|].
    exists f, st'. cbn in *. split_and!; [done|done|lia].
  - eexists _, _. split; [done|]. cbn. done.
  - destruct (Hr n eq_refl) as [_ _ Hle _ _]. cbn [ex].
    destruct (process_recvd_pdu_safe hdr (ex st) data (dp_send dp) Hh ltac:(lia) Hwf) as (rc & d & out & -> & Hw & Hpre).
    cbn [mbind option_bind]. case_decide; [eexists _, _; split; [done|]; by cbn|].
    destruct (truth (active d)); [|eexists _, _; split; [done|]; by cbn].
    destruct (IH (iscsi_timer_set (dp_now dp) (active_timeout (conn (d_session d)))) (mk_exchange d hdr data net))
      as (f & st' & E & Hpre2 & Hlen); [done..|].
    exists f, st'. cbn in *. split_and!; [done|by etrans|lia].
Qed.

(** ** All targets are found *)
Record response := mk_response { r_hdr : list Z; r_data : list Z }.

(** A text response whose data fits into [n] bytes. *)
Definition response_ok (n : nat) (final : bool) (r : response) : Prop :=
  length (r_hdr r) = HDR_LEN /\ hdr8 (r_hdr r) OFF_hlength = 0%Z /\ hdr8 (r_hdr r) OFF_opcode = ISCSI_OP_TEXT_RSP /\
  ntoh24 (r_hdr r) = Z.of_nat (length (r_data r)) /\ length (r_data r) <= n /\ rsp_final (r_hdr r) = final.

(** Only the last one is final. *)
Fixpoint sequence_ok (n : nat) (rs : list response) : Prop :=
  match rs with
  | [] => False
  | [r] => response_ok n true r
  | r :: rs => response_ok n false r /\ sequence_ok n rs
  end.

(** Each poll returns in time with one response, in any pieces; the socket takes
    the next request. *)
Fixpoint delivers (tmo : Z) (timer : timeval) (ps : list disc_poll) (rs : list response) : Prop :=
  match ps, rs with
  | dp :: ps, r :: rs =>
      iscsi_timer_expired (poll_now (dp_poll dp)) (Some timer) = false /\ (0 < poll_ret (dp_poll dp))%Z /\
      revents (dp_poll dp) = POLLIN /\ clean_in (arrived (dp_poll dp)) /\
      stream (arrived (dp_poll dp)) = wire (r_hdr r) (r_data r) /\ takes_request (dp_send dp) /\
      delivers tmo (iscsi_timer_set (dp_now dp) tmo) ps rs
  | [], [] => True
  | _, _ => False
  end.

Lemma stream_app n1 n2 : stream (n1 ++ n2) = stream n1 ++ stream n2.
Proof. unfold stream. by rewrite fmap_app, concat_app. Qed.

Hypothesis Hmem : forall n, malloc n = true.

Lemma take_response_ok s recs final data :
  buffer_wf s ->
  exists s1, buffer_wf s1 /\ contents s1 = contents s ++ data /\
    take_response getaddrinfo_host conf drec s recs final data =
      (r ← process_sendtargets_response getaddrinfo_host conf s1 final drec recs; Some (Some r, s1)).
Proof.
  intros Hwf. unfold take_response. destruct (str_enlarge_data s (length data)) as [rc s1] eqn:E.
  assert (rc = 0%Z) as ->.
  { unfold str_enlarge_data in E. rewrite Hmem in E. cbn in E. case_decide; by injection E. }
  destruct (enlarge_spec s (length data) s1 Hwf E) as (Hw & Hd & Ht). cbn [truth negb Z.eqb]. pose proof Hw as (Hl & Hle & _).
  destruct (decide (data = [])) as [->|Hne].
  - exists s1. cbn [mbind option_bind]. cbn in Hd. rewrite app_nil_r. split_and!; [done| |done].
    rewrite <- Ht. unfold contents. f_equal. lia.
  - assert (0 < length data) by (destruct data; [done|cbn; lia]).
    destruct (buffer_some s1 Hw ltac:(lia)) as (b & Eb & Hb). rewrite Eb in *. cbn [mbind option_bind default] in *.
    rewrite buf_write_Some by lia. cbn [mbind option_bind].
    exists (s1 <| buffer := Some (splice b (data_length s) data) |>).
    split; [eapply set_buffer_wf; [done|done|]; apply length_splice; lia|]. split; [|done].
    unfold contents at 1. cbn. rewrite Hd. unfold splice. rewrite app_assoc.
    rewrite take_app_le by (rewrite length_app, length_take; lia).
    rewrite take_ge by (rewrite length_app, length_take; lia). f_equal. cbn in Ht. done.
Qed.

Lemma exchange_ok tmo ps : forall timer st rs cur part rest all,
  delivers tmo timer ps rs -> sequence_ok (length (ex_data st)) rs ->
  use_ipc (d_session (ex st)) = false -> active_timeout (conn (d_session (ex st))) = tmo -> active (ex st) = 1%Z ->
  length (ex_pdu st) = HDR_LEN -> clean_in (ex_net st) -> stream (ex_net st) = [] ->
  buffer_wf (sendtargets (ex st)) -> contents (sendtargets (ex st)) = flat (line_of <$> open_items cur) ++ part ->
  no_nul part -> part ++ concat (r_data <$> rs) = flat (line_of <$> rest) ->
  Forall (fun i => no_nul (line_of i)) (open_items cur ++ rest) ->
  plan cur rest all -> Forall (good getaddrinfo_host drec) all ->
  exists st', exchange getaddrinfo_host conf drec timer ps st = Some (DReturn 0, st') /\
    rec_list (ex st') = rec_list (ex st) ++ concat (records_of conf drec <$> all).
Proof.
  induction ps as [|dp ps IH]; intros timer st rs cur part rest all Hd Hseq Hipc Htmo Hact Hpdu Hclean Hstr Hwf Hc Hpart Htext Hn Hplan Hgood;
    (destruct rs as [|r rs]; [done|]); [done|].
  destruct Hd as (Htime & Hret & Hrev & Harr & Hwire & Hsend & Hd). cbn [exchange]. rewrite Htime, decide_True, Hrev by done.
  change (truth (Z.land POLLIN (Z.lor POLLIN POLLPRI))) with true. cbn iota.
  assert (exists final, response_ok (length (ex_data st)) final r /\
            match rs with [] => final = true | _ => final = false /\ sequence_ok (length (ex_data st)) rs end)
    as (final & (Hh48 & Hhl & Hop & Hdl & Hfit & Hfinal) & Hrest).
  { destruct rs as [|r2 rs2]; [by exists true|]. destruct Hseq as [? ?]. by exists false. }
  rewrite Hipc.
  destruct (recv_pdu_clean (poll_ipc (dp_poll dp)) (ex_pdu st) (ex_data st) (r_hdr r) (r_data r) []
    (ex_net st ++ arrived (dp_poll dp)) (length (ex_data st))) as (net & -> & Hcl2 & Hst2); try done.
  { by apply Forall_app. }
  { by rewrite stream_app, Hstr, Hwire, app_nil_r. }
  cbn [mbind option_bind]. rewrite drop_ge, app_nil_r by done.
  unfold process_recvd_pdu. rewrite decide_False by (rewrite Hop; intros Hx; by apply Hx).
  rewrite Hdl, Nat2Z.id, buf_prefix_Some by (rewrite length_app; lia). cbn [mbind option_bind ex]. rewrite take_app_length, Hfinal.
  destruct (take_response_ok (sendtargets (ex st)) (rec_list (ex st)) final (r_data r) Hwf) as (s1 & Hw1 & Hc1 & ->).
  rewrite fmap_cons in Htext. cbn [concat] in Htext. rewrite app_assoc in Htext.
  destruct (flat_break (line_of <$> rest) (part ++ r_data r) (concat (r_data <$> rs))) as (m & k & part' & Hmk & Hx & Hp' & Hk).
  { apply Forall_fmap. apply Forall_app in Hn as [_ Hn]. done. }
  { done. }
  apply fmap_app_inv in Hmk as (more & rest' & -> & -> & ->).
  rewrite app_assoc in Hn. apply Forall_app in Hn as [Hn1 Hn2].
  assert (contents s1 = flat (line_of <$> open_items cur ++ more) ++ part') as Hc2.
  { by rewrite Hc1, Hc, <- app_assoc, Hx, fmap_app, flat_app, <- app_assoc. }
  assert (final = true -> rest' = [] /\ part' = []) as Hfin.
  { intros ->. destruct rs; [|by destruct Hrest]. cbn in Hk. rewrite app_nil_r in Hk.
    pose proof (no_nul_flat part' _ Hp' Hk) as E0. apply fmap_nil_inv in E0 as ->. done. }
  destruct (response_step getaddrinfo_host conf drec (Hmem _) s1 (rec_list (ex st)) final part' more rest' cur all
    Hw1 Hc2 Hp' Hn1 Hplan Hgood Hfin) as (s2 & fin & all' & Es & Hw2 & -> & Hcase). rewrite Es.
  cbn [mbind option_bind]. destruct final.
  - subst all'. cbn [active sendtargets rec_list]. eexists. split; [done|]. cbn. by rewrite app_nil_r.
  - destruct Hcase as (cur' & Hc' & Hplan' & Hn').
    destruct (iterate_ok (d_session (ex st)) (r_hdr r) (dp_send dp) Hh48 Hipc Hsend) as (out & Eit).
    change (d_session ((ex st) <| sendtargets := s2 |> <| rec_list := rec_list (ex st) ++ concat (records_of conf drec <$> fin) |>))
      with (d_session (ex st)). rewrite Eit. cbn [mbind option_bind]. rewrite decide_False by done.
    set (d := _ <| d_session := _ |>). change (active d) with (active (ex st)). rewrite Hact. change (truth 1) with true. cbn iota.
    change (active_timeout (conn (d_session d))) with (active_timeout (conn (d_session (ex st)))). rewrite Htmo.
    destruct rs as [|r2 rs2]; [done|]. destruct Hrest as [_ Hseq2].
    edestruct (IH (iscsi_timer_set (dp_now dp) tmo) (mk_exchange d (r_hdr r)
      (r_data r ++ replicate (length (ex_data st) - length (r_data r)) 0%Z) net) (r2 :: rs2) cur' part' rest' all')
      as (st' & E & Hrec); try done.
    + cbn [ex_data]. rewrite length_app, length_replicate.
      by replace (length (r_data r) + (length (ex_data st) - length (r_data r))) with (length (ex_data st)) by lia.
    + apply Forall_app. by split.
    + by apply Forall_app in Hgood as [_ Hgood].
    + exists st'. split; [exact E|]. rewrite Hrec. cbn. by rewrite fmap_app, concat_app, app_assoc.
Qed.

(** ** What is recorded *)
Definition expected_record (name addr : list Z) (port tag : Z) : memory :=
  <["conn[0].address" := FStr addr]> (<["conn[0].port" := FInt port]> (<["tpgt" := FInt tag]>
    (<["name" := FStr name]> (set_source conf drec)))).

Definition expected_records (t : target) : list memory :=
  match t_portals t with
  | [] => [expected_record (t_name t) (get_str drec "address") (get_int drec "port") PORTAL_GROUP_TAG_UNKNOWN]
  | ps => (fun p => expected_record (t_name t) (p_addr p) (default ISCSI_LISTEN_PORT (p_port p))
                      (default PORTAL_GROUP_TAG_UNKNOWN (p_tag p))) <$> ps
  end.

(** The source that was asked: a port and an address that fits. *)
Definition source_ok : Prop :=
  (0 <= get_int drec "port" < 2 ^ 31)%Z /\ length (get_str drec "address") < NI_MAXHOST.

Lemma number_or_fmt n d : number_ok n -> number_or (fmt_lu <$> n) d = default d n.
Proof.
  destruct n as [n|]; [|done]. intros Hn. change (number_or (Some (fmt_lu n)) d = n).
  destruct (fmt_lu_digits n) as [Hne _].
  assert (number_or (Some (fmt_lu n)) d = atoi (fmt_lu n)) as -> by (by destruct (fmt_lu n)). by apply atoi_fmt_lu.
Qed.

Lemma records_expected t : source_ok -> target_ok t -> records_of conf drec t = expected_records t.
Proof.
  intros [Hp Ha] (Hn & Hl & Hps). unfold records_of, expected_records.
  assert (forall addr port tag, length addr < NI_MAXHOST -> portal_record conf drec (t_name t) addr port tag =
    expected_record (t_name t) addr (number_or port ISCSI_LISTEN_PORT) (number_or tag PORTAL_GROUP_TAG_UNKNOWN)) as E.
  { intros addr port tag Hlen. unfold portal_record, expected_record. rewrite !take_ge by lia. done. }
  destruct (t_portals t) as [|p ps]; [|generalize dependent (p :: ps); intros l Hps].
  - rewrite E by done. do 2 f_equal. unfold default_port. rewrite i32_small by lia. unfold fmt_d.
    rewrite (proj2 (Z.ltb_ge _ _)) by lia. by rewrite (number_or_fmt (Some (get_int drec "port"))).
  - apply list_fmap_ext. intros i q Hq. apply list_elem_of_lookup_2, list_elem_of_In in Hq.
    rewrite List.Forall_forall in Hps. destruct (Hps q Hq) as (_ & _ & H1 & H2 & H3 & _).
    unfold record_of. rewrite E by done. by rewrite !number_or_fmt.
Qed.

Lemma targets_text_items ts : targets_text ts = flat (line_of <$> concat (items_of <$> ts)).
Proof.
  unfold targets_text. f_equal. induction ts as [|t ts IH]; [done|]. rewrite !fmap_cons. cbn [concat].
  by rewrite fmap_app, IH, lines_items.
Qed.

Lemma target_lines_no_nul t : target_ok t -> Forall (fun i => no_nul (line_of i)) (items_of t).
Proof.
  intros (Hn & _ & Hp). unfold items_of. apply Forall_cons. split.
  - apply no_nul_app. split; [apply (bool_decide_unpack _); vm_compute; exact I|done].
  - apply Forall_fmap. eapply Forall_impl; [exact Hp|]. intros p. apply portal_text_no_nul.
Qed.

(** The exchange finds every target.  The text of a list of targets,
    with names, IPv4 or IPv6 addresses, ports and portal group tags, is sent in
    any number of responses that break it at any byte, and each response arrives
    in any pieces: the exchange ends with success, and the records found are
    those of the portals, in order, with exactly their name, address, port and
    tag (the default port and the unknown tag where they are missing, the portal
    that was asked for a target without address).  IPv6 addresses need a port. *)
Lemma exchange_finds timer ps st rs ts :
  delivers (active_timeout (conn (d_session (ex st)))) timer ps rs -> sequence_ok (length (ex_data st)) rs ->
  concat (r_data <$> rs) = targets_text ts -> Forall (good getaddrinfo_host drec) ts -> source_ok ->
  use_ipc (d_session (ex st)) = false -> active (ex st) = 1%Z -> length (ex_pdu st) = HDR_LEN -> ex_net st = [] ->
  buffer_wf (sendtargets (ex st)) -> contents (sendtargets (ex st)) = [] ->
  exists st', exchange getaddrinfo_host conf drec timer ps st = Some (DReturn 0, st') /\
    rec_list (ex st') = rec_list (ex st) ++ concat (expected_records <$> ts).
Proof.
  intros Hd Hseq Htext Hgood Hsrc Hipc Hact Hpdu Hnet Hwf Hc.
  assert (clean_in (ex_net st) /\ stream (ex_net st) = []) as [Hcl Hst] by (rewrite Hnet; by split; [constructor|]).
  edestruct (exchange_ok _ ps timer st rs None [] (concat (items_of <$> ts)) ts Hd Hseq Hipc eq_refl Hact Hpdu Hcl Hst Hwf)
    as (st' & E & Hr); [by rewrite Hc|constructor| | |done|done|].
  - cbn [app]. by rewrite Htext, targets_text_items.
  - cbn [open_items from_option app]. apply Forall_concat, Forall_fmap. eapply Forall_impl; [exact Hgood|].
    intros t [Ht _]. by apply target_lines_no_nul.
  - exists st'. split; [exact E|]. rewrite Hr. f_equal. f_equal. apply list_fmap_ext. intros i t Ht.
    apply list_elem_of_lookup_2, list_elem_of_In in Ht. rewrite List.Forall_forall in Hgood.
    destruct (Hgood t Ht) as [Hok _]. by apply records_expected.
Qed.

(** C20: whatever bytes a target sends, and whatever allocation fails, the
    exchange ends or waits, and stays inside its buffers: the header, the data of
    a PDU, the text collected from the responses and the strings found in it.  The
    list of records only grows. *)
Theorem discovery_memory_safe ps timer st :
  polls_bytes ps -> net_bytes (ex_net st) -> length (ex_pdu st) = HDR_LEN -> alloc_wf (sendtargets (ex st)) ->
  exists f st', exchange getaddrinfo_host conf drec timer ps st = Some (f, st') /\
    rec_list (ex st) `prefix_of` rec_list (ex st').
Proof.
  intros H1 H2 H3 H4. destruct (exchange_safe ps timer st H1 H2 H3 H4) as (f & st' & E & Hp & _).
  by exists f, st'.
Qed.
End Exchange.

(** ** An exchange

    Two targets: one without portals, one with three.  The text comes in two
    responses that break a key, each in pieces. *)
Module DiscExample.
Local Instance auth_env : AuthEnv := Toy.env.
Local Instance login_env : LoginEnv := {| getaddrinfo host _ := if decide (host = str "bad") then None else Some host; malloc _ := true |}.

Definition any_host (host : list Z) : option (list Z) := Some host.

Definition targets : list target := [
  mk_target (str "iqn.2001-04.com.example:a") [];
  mk_target (str "iqn.2001-04.com.example:b")
    [ mk_portal false (str "10.0.0.1") (Some 3261%Z) (Some 2%Z);
      mk_portal true (str "fe80::1") (Some 3260%Z) None;
      mk_portal false (str "disks.example") None None ] ].

Definition asked : memory := {[ "address" := FStr (str "192.168.1.1"); "port" := FInt 3260 ]}.

Definition rsp_hdr (flags : Z) (data : list Z) : list Z :=
  hton24 (hdr_put (hdr_put zero_hdr OFF_opcode [ISCSI_OP_TEXT_RSP]) OFF_flags [flags]) (Z.of_nat (length data)).

Definition rsp (flags : Z) (data : list Z) : response := mk_response (rsp_hdr flags data) data.

Definition text : list Z := targets_text targets.
Definition responses : list response := [rsp 0 (take 60 text); rsp 0x80 (drop 60 text)].

Definition t0 : timeval := mk_timeval 1000 0.
Definition t1 : timeval := mk_timeval 1001 500.

Definition poll_of (r : response) : disc_poll :=
  let b := wire (r_hdr r) (r_data r) in
  mk_disc_poll (mk_poll 1 POLLIN t1 [RBytes (take 13 b); REagain; RBytes (drop 13 b)] (mk_ipc 0 0)) (mk_sending [WBytes HDR_LEN] 0) t0.

Definition timer0 : timeval := iscsi_timer_set t0 30.

Definition start_with (s : str_buffer) : exchange_state :=
  mk_exchange (mk_discovery Demo.session0 s 1 []) zero_hdr (replicate 512 0%Z) [].

Definition state0 : exchange_state := start_with (mk_str_buffer 0 0 None).

Definition run (ps : list disc_poll) (st : exchange_state) : option (disc_flow * exchange_state) :=
  exchange any_host ∅ asked timer0 ps st.

(** What is printed of a record. *)
Definition view (r : memory) : list Z * list Z * Z * Z :=
  (get_str r "name", get_str r "conn[0].address", get_int r "conn[0].port", get_int r "tpgt").

Definition result (o : option (disc_flow * exchange_state)) :=
  '(f, st) ← o; Some (f, view <$> rec_list (ex st)).

Example exchange_runs :
  result (run (poll_of <$> responses) state0) = Some (DReturn 0, [
    (str "iqn.2001-04.com.example:a", str "192.168.1.1", 3260%Z, (-1)%Z);
    (str "iqn.2001-04.com.example:b", str "10.0.0.1", 3261%Z, 2%Z);
    (str "iqn.2001-04.com.example:b", str "fe80::1", 3260%Z, (-1)%Z);
    (str "iqn.2001-04.com.example:b", str "disks.example", 3260%Z, (-1)%Z) ]).
Proof. vm_compute. reflexivity. Qed.

Lemma targets_good : Forall (good any_host asked) targets.
Proof.
  repeat apply Forall_cons_2; [..|constructor]; (split; [apply (bool_decide_unpack _); vm_compute; exact I|]).
  - split; [done|]. by eexists.
  - repeat apply Forall_cons_2; [..|constructor]; by eexists.
Qed.

Lemma delivered : delivers (active_timeout (conn (d_session (ex state0)))) timer0 (poll_of <$> responses) responses.
Proof.
  assert (forall r, 13 < length (wire (r_hdr r) (r_data r)) -> clean_in (arrived (dp_poll (poll_of r)))) as Hc.
  { intros r Hr. repeat apply Forall_cons_2; [| done | |constructor]; intros E; apply (f_equal length) in E;
      rewrite ?length_take, ?length_drop in E; cbn [length] in E; lia. }
  split_and!; try done; try (vm_compute; reflexivity); try (apply Hc, (bool_decide_unpack _); vm_compute; exact I).
  split_and!; try done; try (vm_compute; reflexivity); try (apply Hc, (bool_decide_unpack _); vm_compute; exact I).
Qed.

(** Bytes that are no SendTargets text, from a target that stops in the middle. *)
Definition garbage : list disc_poll :=
  [ poll_of (rsp 0 (str "TargetAddress=[,:]" ++ [0; 0]%Z ++ str "TargetName=")); poll_of (rsp 0 [0%Z]);
    mk_disc_poll (mk_poll 1 (Z.lor POLLIN POLLHUP) t1 [RBytes [255; 128; 0]%Z; REof] (mk_ipc 0 0)) (mk_sending [] 0) t0 ].

Lemma discovery_memory_safe_witness :
  exists f st', exchange any_host ∅ asked timer0 garbage state0 = Some (f, st') /\
    rec_list (ex state0) `prefix_of` rec_list (ex st').
Proof.
  apply (discovery_memory_safe (LEnv := login_env) any_host ∅ asked garbage timer0 state0).
  - apply (bool_decide_unpack _). vm_compute. exact I.
  - constructor.
  - reflexivity.
  - apply (bool_decide_unpack _). vm_compute. exact I.
Defined.

(** ** What the code does not get right *)

Definition answer_of (lines : list (list Z)) : list disc_poll := [poll_of (rsp 0x80 (flat lines))].

(** An IPv6 address without a port, a form that the comment in
    [add_target_record] lists: the last group is taken for the port. *)
Example ipv6_without_port :
  result (run (answer_of [str "TargetName=iqn.x"; str "TargetAddress=[fe80::1],2"]) state0) =
    Some (DReturn 0, [(str "iqn.x", str "fe80:", 1%Z, 2%Z)]).
Proof. vm_compute. reflexivity. Qed.

(** A target whose portal cannot be resolved is to be ignored; all targets that
    follow it in the response are lost with it, and success is returned. *)
Example unresolved_portal_drops_the_rest :
  result (run (answer_of [str "TargetName=iqn.a"; str "TargetAddress=10.0.0.1:3260,1"; str "TargetName=iqn.b";
                          str "TargetAddress=bad:3260,1"; str "TargetName=iqn.c"; str "TargetAddress=10.0.0.3:3260,1"]) state0) =
    Some (DReturn 0, [(str "iqn.a", str "10.0.0.1", 3260%Z, 1%Z)]).
Proof. vm_compute. reflexivity. Qed.

(** A name of TARGET_NAME_MAXLEN characters passes the check on its length and
    loses its last character. *)
Example longest_name_is_cut :
  result (run (answer_of [TARGET_NAME ++ replicate 254 (char "a") ++ [char "z"]; str "TargetAddress=10.0.0.1"]) state0) =
    Some (DReturn 0, [(replicate 254 (char "a"), str "10.0.0.1", 3260%Z, (-1)%Z)]).
Proof. vm_compute. reflexivity. Qed.

(** The milliseconds that [poll] is asked to wait are rounded: it can return 0
    before the timer has expired.  The exchange then ends with success, with the
    targets found so far. *)
Example poll_ends_early :
  iscsi_timer_msecs_until (mk_timeval 1000 600) (Some timer0) = 29999%Z /\
  result (run [poll_of (rsp 0 (take 80 text));
               mk_disc_poll (mk_poll 0 0 (mk_timeval 1029 999700) [] (mk_ipc 0 0)) (mk_sending [] 0) t0] state0) =
    Some (DReturn 0, [(str "iqn.2001-04.com.example:a", str "192.168.1.1", 3260%Z, (-1)%Z)]).
Proof. vm_compute. split; reflexivity. Qed.
End DiscExample.

(** After a failed [realloc] the buffer keeps the length that it did not get: a
    truncation, which every reconnect starts with, writes through the null
    pointer. *)
Lemma failed_enlarge_truncate `{LEnv : LoginEnv} n :
  0 < n -> malloc n = false ->
  exists s, str_enlarge_data (mk_str_buffer 0 0 None) n = (ENOMEM, s) /\ str_truncate_buffer s 0 = None.
Proof.
  intros Hn Hm. unfold str_enlarge_data. cbn. rewrite decide_True, Hm by done. eexists. split; [done|].
  unfold str_truncate_buffer. cbn. rewrite decide_False by lia. by rewrite decide_True by lia.
Qed.
