(* ===== verification/DiscoverySession.v ===== *)
(** * SendTargets discovery: the session

    How a discovery session comes up, is tried again and goes away. *)
From Stdlib Require Import ZArith Lia Ascii.
From stdpp Require Import base tactics numbers list strings option gmap.
From S2P Require Import Prelude StateM CString Acl AclTheorems Pdu LoginText Io IoTheorems Timer Login LoginReq LoginTheorems SessionSetup Idbm IdbmTables IdbmOps StrBuffer Discovery DiscoverySafety DiscoveryRoundtrip DiscoveryDriver DiscoveryTheorems.

(** ** The session *)
Section Session.
Context `{AEnv : AuthEnv} `{LEnv : LoginEnv} `{Kernel : DiscKernel}.
Variable cfg : disc_config.

Lemma close_ipc_spec w :
  exists w', close_ipc w = Some (tt, w') /\ (socket_fd w' < 0)%Z /\ ds_id w' = ds_id w /\ reopen_cnt w' = reopen_cnt w /\ ds w' = ds w.
Proof.
  unfold close_ipc. cbv [mthen mget mmod upd ask mret']. case_decide; eexists; split; try done; cbn; split_and!; try done; lia.
Qed.

Lemma destroy_done_spec w :
  exists w', destroy_done w = Some (tt, w') /\ (socket_fd w' < 0)%Z /\ ds_id w' = INVALID_SESSION_ID /\ reopen_cnt w' = reopen_cnt w.
Proof.
  unfold destroy_done. cbv [mthen mmod upd].
  destruct (close_ipc_spec (w <| ds := (ds w) <| target_alias := None |> |>)) as (w1 & -> & H1 & H2 & H3 & _).
  eexists. split; [done|]. by cbn.
Qed.

Lemma destroy_spec w :
  exists w', iscsi_destroy_session cfg w = Some (tt, w') /\ ds_id w' = INVALID_SESSION_ID /\ reopen_cnt w' = reopen_cnt w /\
    (ds_id w <> INVALID_SESSION_ID -> (socket_fd w' < 0)%Z).
Proof.
  unfold iscsi_destroy_session. cbv [mthen mget mret' ask]. case_decide; [by exists w|].
  assert (forall w1, reopen_cnt w1 = reopen_cnt w -> exists w', destroy_done w1 = Some (tt, w') /\
    ds_id w' = INVALID_SESSION_ID /\ reopen_cnt w' = reopen_cnt w /\ (ds_id w <> INVALID_SESSION_ID -> (socket_fd w' < 0)%Z)) as Hd.
  { intros w1 H1. destruct (destroy_done_spec w1) as (w' & -> & ? & ? & ?). exists w'. split_and!; [done|done|congruence|done]. }
  case_match.
  - unfold io_disconnect. cbv [mthen mget mmod upd ask mret']. case_decide; by apply Hd.
  - repeat case_match; by apply Hd.
Qed.

(** ** A portal that refuses connections *)
Definition attempt_calls (k : nat) : list dcall :=
  (if truth (login_delay k) then [Sleep (login_delay k)] else []) ++ [IoSocket; IoTcpConnect; TimedOut; IoClose].

Lemma refused_attempt k w :
  has_cap (t_caps cfg) CAP_TEXT_NEGO = false ->
  (forall h, answer h TimedOut = 0%Z /\ (answer h IoTcpConnect < 0)%Z) -> ds_id w = INVALID_SESSION_ID ->
  exists w', one_attempt cfg k w = Some (Again Reconnect (S k), w') /\ hist w' = hist w ++ attempt_calls k /\
    ds_id w' = INVALID_SESSION_ID /\ reopen_cnt w' = reopen_cnt w.
Proof.
  intros Hcap Hans Hid. unfold one_attempt, iscsi_destroy_session, iscsi_create_leading_conn, iscsi_io_connect, attempt_calls.
  cbv [mthen mret' mget mmod mwhen ask upd]. rewrite Hcap. cbn [negb].
  rewrite decide_True by exact Hid. cbn iota.
  destruct (truth (login_delay k)); rewrite (proj1 (Hans _)); change (truth 0) with false; cbn iota;
    rewrite decide_True by apply (proj2 (Hans _)); cbn [negb];
    (eexists; split; [reflexivity|]); cbn; rewrite <- ?app_assoc; done.
Qed.

Lemma at_label_counts l w :
  l <> RedirectReconnect ->
  exists w1, at_label l w = Some (bool_decide (0 <= reopen_cnt w - 1)%Z, w1) /\ hist w1 = hist w /\
    ds_id w1 = ds_id w /\ reopen_cnt w1 = (reopen_cnt w - 1)%Z.
Proof. destruct l; intros ?; [| |done]; by eexists. Qed.

Lemma refused_attempts n : forall l k w fuel,
  has_cap (t_caps cfg) CAP_TEXT_NEGO = false ->
  (forall h, answer h TimedOut = 0%Z /\ (answer h IoTcpConnect < 0)%Z) -> ds_id w = INVALID_SESSION_ID ->
  reopen_cnt w = Z.of_nat n -> l <> RedirectReconnect -> n < fuel ->
  exists w', attempts cfg fuel l k w = Some (Some ISCSI_ERR_PDU_TIMEOUT, w') /\
    hist w' = hist w ++ concat (attempt_calls <$> seq k n) /\ ds_id w' = INVALID_SESSION_ID.
Proof.
  induction n as [|n IH]; intros l k w fuel Hcap Hans Hid Hn Hl Hf; (destruct fuel as [|fuel]; [lia|]); cbn [attempts].
  all: destruct (at_label_counts l w Hl) as (w1 & E1 & Hh1 & Hid1 & Hr1); rewrite Hid in Hid1.
  all: unfold mthen; rewrite E1, Hn.
  - rewrite bool_decide_false by lia. cbn [negb]. destruct (destroy_spec w1) as (w2 & E2 & Hid2 & _ & _).
    unfold iscsi_destroy_session in *. cbv [mthen mget] in *. rewrite decide_True in * by exact Hid1. injection E2 as <-.
    eexists. split; [reflexivity|]. cbn. by rewrite app_nil_r.
  - rewrite bool_decide_true by lia. cbn [negb].
    destruct (refused_attempt k w1 Hcap Hans Hid1) as (w2 & -> & Hh2 & Hid2 & Hr2).
    destruct (IH Reconnect (S k) w2 fuel Hcap Hans Hid2) as (w3 & -> & Hh3 & Hid3); [lia|done|lia|].
    exists w3. split; [done|]. split; [|done]. rewrite Hh3, Hh2, Hh1. cbn [seq fmap list_fmap concat]. by rewrite <- app_assoc.
Qed.

(** Bringing up a session on a portal that refuses connections. *)
Lemma refused_session n w fuel :
  has_cap (t_caps cfg) CAP_TEXT_NEGO = false ->
  (forall h, answer h TimedOut = 0%Z /\ (answer h IoTcpConnect < 0)%Z) ->
  ds_id w = INVALID_SESSION_ID -> reopen_cnt w = Z.of_nat n -> n < fuel ->
  exists w', iscsi_create_session cfg fuel w = Some (Some ISCSI_ERR_PDU_TIMEOUT, w') /\
    hist w' = hist w ++ concat (attempt_calls <$> seq 0 n) /\ ds_id w' = INVALID_SESSION_ID.
Proof. intros. by apply refused_attempts. Qed.

(** ** The whole run *)

(** The socket takes the header and the text of the first request. *)
Definition takes_first (w : sending) : Prop := snd_events w = [WBytes HDR_LEN; WBytes 16].

Lemma request_ok s w :
  use_ipc s = false -> takes_first w -> exists out, request_targets s w = Some (true, next_cmd s, out).
Proof.
  intros Hu Hw. unfold request_targets, iscsi_make_text_pdu, send_text.
  destruct (be_bytes 4 (cmdsn s)) as [|a1 [|a2 [|a3 [|a4 [|]]]]] eqn:E1; try done.
  destruct (be_bytes 4 (exp_statsn (conn s))) as [|b1 [|b2 [|b3 [|b4 [|]]]]] eqn:E2; try done.
  change (s <| cmdsn := u32 (cmdsn s + 1) |>) with (next_cmd s).
  rewrite Hw. change (use_ipc (next_cmd s)) with (use_ipc s). rewrite Hu. generalize (next_cmd s) (snd_rc w). intros s' r.
  eexists. vm_compute. reflexivity.
Qed.

Variable getaddrinfo_host : list Z -> option (list Z).
Variables conf drec : memory.
Hypothesis Hmem : forall n, malloc n = true.

(** The timer of the exchange. *)
Definition first_timer (w : dsession) : timeval := iscsi_timer_set (exchange_start (hist w)) (active_timeout (conn (ds w))).

(** C19: a SendTargets discovery as a whole.  When a session comes up, the target
    takes the request for all targets and answers it with the text of a list of
    targets, in any number of responses and in any pieces, the run ends with
    success, with the records of exactly these targets behind those found before,
    and no session is left. *)
Theorem discovery_complete fuel s recs w w1 rs ts :
  iscsi_create_session cfg fuel w = Some (Some 0%Z, w1) -> buffer_wf s ->
  use_ipc (ds w1) = false -> ds_net w1 = [] -> takes_first (request_events (hist w1)) ->
  delivers (active_timeout (conn (ds w1))) (first_timer w1) (exchange_polls (hist w1)) rs ->
  sequence_ok (length (ds_data w1)) rs -> concat (r_data <$> rs) = targets_text ts ->
  Forall (good getaddrinfo_host drec) ts -> source_ok drec ->
  exists w', discover cfg getaddrinfo_host conf (S fuel) drec s recs w =
      Some ((Some 0%Z, recs ++ concat (expected_records conf drec <$> ts)), w') /\ ds_id w' = INVALID_SESSION_ID.
Proof.
  intros Hc Hwf Hipc Hnet Hreq Hd Hseq Htext Hgood Hsrc. cbn [discover]. unfold mthen at 1. rewrite Hc.
  change (truth 0) with false. cbn iota.
  destruct (truncate_spec s 0 Hwf) as (s0 & Es & Hw0 & Hc0); [lia|]. unfold mthen at 1, mopt. rewrite Es. cbn [mbind option_bind].
  unfold mthen at 1, mget. destruct (request_ok (ds w1) (request_events (hist w1)) Hipc Hreq) as (out & ->).
  cbv [mthen mopt upd mmod mget]. cbn [mbind option_bind negb ds hist ds_data ds_net].
  set (st := mk_exchange _ _ _ _).
  edestruct (exchange_finds getaddrinfo_host conf drec Hmem (first_timer w1) (exchange_polls (hist w1)) st rs ts)
    as (st' & Ex & Hr); try done.
  match goal with |- context [exchange _ _ _ ?timer ?polls st] =>
    change timer with (first_timer w1); change polls with (exchange_polls (hist w1)) end.
  rewrite Ex. cbn [mbind option_bind].
  match goal with |- context [iscsi_destroy_session cfg ?v] => destruct (destroy_spec v) as (w' & -> & Hid & _) end.
  exists w'. rewrite Hr. done.
Qed.
End Session.

(** ** A run over TCP

    The target asks for a mutual CHAP login and answers with the two responses of
    [DiscExample]. *)
Module SessionExample.
Import DiscExample.
Local Instance auth_env : AuthEnv := Toy.env.
Local Instance login_env : LoginEnv := DiscExample.login_env.

(** A target; [connected] is what [connect] returns. *)
Definition tcp (connected : Z) : DiscKernel := {|
  answer _ c := match c with IoSocket => 5%Z | IoTcpConnect => connected | _ => 0%Z end;
  login_rounds _ := Demo.rounds (str "othersecret!");
  wait_start _ := t0;
  wait_polls _ := [];
  request_events _ := mk_sending [WBytes HDR_LEN; WBytes 16] 0;
  exchange_start _ := t0;
  exchange_polls _ := poll_of <$> responses
|}.

Definition config : disc_config :=
  mk_disc_config 0 None true (mk_session_conf 1 0 262144 16776192 2 0 1 0 1) (mk_conn_conf 32768 0 0 0 0 0)
    (mk_kernel_record [] 3260 120 1 15 30 30 5 5 [] [] [] []).

Definition world0 : dsession := mk_ds Demo.session0 INVALID_SESSION_ID 0 0 0 (-1) [] 6 (replicate 8192 7%Z) [] [].

Definition run_tcp : option ((option Z * list memory) * dsession) :=
  discover (Kernel := tcp 0) config any_host ∅ 3 asked (mk_str_buffer 0 0 None) [] world0.

Definition summary (x : (option Z * list memory) * dsession) :=
  let '(rc, recs, w) := x in (rc, view <$> recs, hist w, ds_id w, socket_fd w, use_ipc (ds w)).

Example tcp_run :
  option_map summary run_tcp =
    Some (Some 0%Z, [
        (str "iqn.2001-04.com.example:a", str "192.168.1.1", 3260%Z, (-1)%Z);
        (str "iqn.2001-04.com.example:b", str "10.0.0.1", 3261%Z, 2%Z);
        (str "iqn.2001-04.com.example:b", str "fe80::1", 3260%Z, (-1)%Z);
        (str "iqn.2001-04.com.example:b", str "disks.example", 3260%Z, (-1)%Z) ],
      [IoSocket; IoTcpConnect; TimedOut; Login; IoDisconnect], INVALID_SESSION_ID, (-1)%Z, false).
Proof. vm_compute. reflexivity. Qed.

(** The session that the login leaves. *)
Definition logged : dsession := from_option snd world0 (iscsi_create_session (Kernel := tcp 0) config 2 world0).

Lemma logged_spec : iscsi_create_session (Kernel := tcp 0) config 2 world0 = Some (Some 0%Z, logged).
Proof. vm_compute. reflexivity. Qed.

(** What the exchange needs of the session that the login left. *)
Lemma logged_timeout : active_timeout (conn (ds logged)) = 30%Z.
Proof. vm_compute. reflexivity. Qed.

Lemma logged_length : length (ds_data logged) = 8192.
Proof. vm_compute. reflexivity. Qed.

Lemma logged_delivers :
  delivers (active_timeout (conn (ds logged))) (first_timer (Kernel := tcp 0) logged) (poll_of <$> responses) responses.
Proof. unfold first_timer. rewrite logged_timeout. exact delivered. Qed.

Lemma logged_sequence : sequence_ok (length (ds_data logged)) responses.
Proof. rewrite logged_length. split; apply (bool_decide_unpack _); vm_compute; exact I. Qed.

Lemma discovery_complete_witness :
  exists w', discover (Kernel := tcp 0) config any_host ∅ 3 asked (mk_str_buffer 0 0 None) [] world0 =
      Some ((Some 0%Z, [] ++ concat (expected_records ∅ asked <$> targets)), w') /\ ds_id w' = INVALID_SESSION_ID.
Proof.
  apply (discovery_complete (LEnv := login_env) (Kernel := tcp 0) config any_host ∅ asked (fun _ => eq_refl) 2 (mk_str_buffer 0 0 None) []
           world0 logged responses targets).
  - exact logged_spec.
  - apply (bool_decide_unpack _). vm_compute. exact I.
  - vm_compute. reflexivity.
  - vm_compute. reflexivity.
  - reflexivity.
  - exact logged_delivers.
  - exact logged_sequence.
  - vm_compute. reflexivity.
  - exact targets_good.
  - split; [split|]; vm_compute; try done; lia.
Defined.

(** A target that answers every login with a temporary redirection to itself. *)
Definition redirect_bytes : list Z :=
  let data := text_pair (str "TargetAddress") (str "10.0.0.9:3260,1") in
  let h := hdr_put (hdr_put zero_hdr OFF_opcode [ISCSI_OP_LOGIN_RSP]) OFF_status_class [1; 1]%Z in
  hton24 h (Z.of_nat (length data)) ++ data ++ replicate (Z.to_nat (pad_bytes (Z.of_nat (length data)))) 0%Z.

Definition redirecting : DiscKernel := {|
  answer _ _ := 0%Z;
  login_rounds _ := [mk_round [WBytes 10000; WBytes 10000] 0 t0 [mk_poll 1 POLLIN t1 [RBytes redirect_bytes] (mk_ipc 0 0)]];
  wait_start _ := t0; wait_polls _ := []; request_events _ := mk_sending [] 0; exchange_start _ := t0; exchange_polls _ := []
|}.

(** Redirections are not counted as attempts and are followed at once: 200 logins
    do not use up the 6 attempts. *)
Example redirections_do_not_count :
  iscsi_create_session (Kernel := redirecting) config 200 world0 = None /\
  option_map fst (one_attempt (Kernel := redirecting) config 0 world0) = Some (Again RedirectReconnect 0) /\
  option_map fst (at_label RedirectReconnect world0) = Some true.
Proof. vm_compute. split_and!; reflexivity. Qed.
End SessionExample.

(** ** What the code does not get right *)
Section Defects.
Context `{AEnv : AuthEnv} `{LEnv : LoginEnv} `{Kernel : DiscKernel}.
Variable cfg : disc_config.

(** When [poll] returns 0 before the timer has expired, [iscsi_wait_for_login]
    reports that an offloaded login has succeeded. *)
Lemma wait_ends_early timer p ps w :
  iscsi_timer_expired (poll_now p) (Some timer) = false -> poll_ret p = 0%Z ->
  wait_loop timer (p :: ps) w = Some (Some 0%Z, w).
Proof. intros Ht Hp. cbn [wait_loop]. by rewrite Ht, Hp. Qed.

(** The socket of a connection that timed out is not closed. *)
Lemma timeout_leaves_socket w :
  (forall h, answer h TimedOut = 1%Z) ->
  exists w', iscsi_io_connect w = Some (false, w') /\ hist w' = hist w ++ [IoSocket; IoTcpConnect; TimedOut] /\
    socket_fd w' = answer (hist w) IoSocket.
Proof.
  intros H. unfold iscsi_io_connect. cbv [mthen mret' ask upd mmod]. cbn. rewrite H. cbn. eexists. split; [done|].
  cbn. by rewrite <- !app_assoc.
Qed.
End Defects.
