(* ===== verification/DiscoverySetup.v ===== *)
(** * SendTargets discovery: setting up and the whole operation

    usr/discovery.c, [request_initiator_name], [iscsi_alloc_session] and
    [discovery_sendtargets]. *)
From Stdlib Require Import ZArith Lia Ascii.
From stdpp Require Import base tactics numbers list strings option gmap.
From S2P Require Import Prelude StateM CString Acl AclTheorems Pdu LoginText Io Timer Login LoginReq LoginTheorems SessionSetup SessionTheorems Initiator.
From S2P Require Import Idbm IdbmTables IdbmOps StrBuffer Discovery DiscoveryDriver DiscoverySafety DiscoveryRoundtrip DiscoveryTheorems DiscoverySession.

Definition ISCSI_ERR_TRANS_NOT_FOUND : Z := 12.

(** [struct iscsi_sendtargets_config]. *)
Record sendtargets_config := mk_sendtargets_config {
  st_login_timeout : Z;
  st_auth_timeout : Z;
  st_active_timeout : Z;
  st_reopen_max : Z;
  st_session_conf : session_operational_config;
  st_conn_conf : conn_operational_config;
  st_auth : iscsi_auth_config
}.

(** The two static arrays [initiator_name] and [initiator_alias]. *)
Record names := mk_names { n_initiator : list Z; n_initiator_alias : list Z }.

(** The two answers of the daemon: the result of [iscsid_exec_req] and
    [rsp.u.config.var]. *)
Record iscsid_answers := mk_iscsid { q_name : Z * list Z; q_alias : Z * list Z }.

Definition request_initiator_name (q : iscsid_answers) : Z * names :=
  let n := mk_names [] [] in
  if truth (q_name q).1 then ((q_name q).1, n)
  else
    let n := mk_names (q_name q).2 [] in
    if truth (q_alias q).1 then (0%Z, n) else (0%Z, mk_names (n_initiator n) (q_alias q).2).

Section Setup.
Context `{AEnv : AuthEnv} `{LEnv : LoginEnv} `{Kernel : DiscKernel}.
Variable sizeof_iscsi_session : nat.

(** The fields of the leading connection, then [iscsi_copy_operational_params]
    with the corrections that it makes in the configuration. *)
Definition leading_conn (config : sendtargets_config) (tr : iscsi_transport) (pos : nat)
    : iscsi_session * sendtargets_config :=
  let s := (zero_lg tr pos) <| use_ipc := false |> in
  let s := put_conn s ((conn s) <| login_timeout := st_login_timeout config |> <| auth_timeout := st_auth_timeout config |>
                                <| active_timeout := st_active_timeout config |>) in
  let '(s, _, sc, cc) := iscsi_copy_operational_params (Initiator.t_caps tr) (t_driver tr) s (st_session_conf config)
                           (st_conn_conf config) in
  (s, mk_sendtargets_config (st_login_timeout config) (st_auth_timeout config) (st_active_timeout config)
        (st_reopen_max config) sc cc (st_auth config)).

(** The name of the initiator: that of the interface, or the one that the daemon
    gives; the alias stays what it is in the first case. *)
Definition choose_name (iname : list Z) (q : iscsid_answers) (n : names) : Z * names :=
  if decide (iname <> []) then (0%Z, mk_names iname (n_initiator_alias n))
  else
    let '(rc, n) := request_initiator_name q in
    if truth rc then (rc, n)
    else if decide (n_initiator n = []) then (ISCSI_ERR_INVAL, n) else (0%Z, n).

(** The error code, the names, and the session with the corrected
    configuration. *)
Definition iscsi_alloc_session (config : sendtargets_config) (transport : option iscsi_transport) (iname : list Z)
    (q : iscsid_answers) (n : names) (pos : nat) : option (Z * names * option (dsession * sendtargets_config)) :=
  if negb (malloc sizeof_iscsi_session) then Some (ISCSI_ERR_NOMEM, n, None)
  else
    match transport with
    | None => Some (ISCSI_ERR_TRANS_NOT_FOUND, n, None)
    | Some tr =>
        let '(s, config) := leading_conn config tr pos in
        let s := s <| isid := [0x00; 0x02; 0x3D; 0; 0; 0]%Z |> in
        let '(rc, n) := choose_name iname q n in
        if truth rc then Some (rc, n, None)
        else
          let s := s <| initiator_name := Some (n_initiator n) |> <| initiator_alias := Some (n_initiator_alias n) |>
                     <| portal_group_tag := PORTAL_GROUP_TAG_UNKNOWN |> <| type := ISCSI_SESSION_TYPE_DISCOVERY |> in
          '(rc, s) ← iscsi_setup_authentication s (st_auth config);
          if truth rc then Some (rc, n, None)
          else Some (0%Z, n, Some (mk_ds s INVALID_SESSION_ID 0 0 0 (-1) [] (i32 (st_reopen_max config + 1)) [] [] [], config))
    end.

(** What the driver of the session is given. *)
Definition driver_config (config : sendtargets_config) (tr : iscsi_transport) (supports_nop : bool) (k : kernel_record)
    : disc_config :=
  mk_disc_config (Initiator.t_caps tr) (t_driver tr) supports_nop (st_session_conf config) (st_conn_conf config) k.

Variable getaddrinfo_host : list Z -> option (list Z).
Variable conf : memory.

(** How the operation ended: the result ([None] when it is still waiting), the
    records, the names, and the calls made. *)
Record outcome := mk_outcome { o_rc : option Z; o_records : list memory; o_names : names; o_calls : list dcall }.

(** [fuel] bounds the attempts to bring up a session. *)
Definition discovery_sendtargets (fuel : nat) (drec : memory) (config : sendtargets_config) (transport : option iscsi_transport)
    (supports_nop : bool) (k : kernel_record) (iname : list Z) (q : iscsid_answers) (n : names) (pos : nat)
    (rec_list : list memory) : option outcome :=
  '(rc, n, session) ← iscsi_alloc_session config transport iname q n pos;
  match session, transport with
  | Some (w, config), Some tr =>
      let data_len := Z.to_nat (max_recv_dlength (conn (ds w))) in
      if negb (malloc data_len) then Some (mk_outcome (Some ISCSI_ERR_NOMEM) rec_list n [])
      else
        let w := w <| ds_data := replicate data_len 0%Z |> in
        let sendtargets := str_init_buffer 0 in
        let '(rc, s, failback) := iscsi_setup_portal (ds w) (failback_saddr w) (get_str drec "address") (get_int drec "port") in
        let w := w <| ds := s |> <| failback_saddr := failback |> in
        if truth rc then
          '(_, w) ← iscsi_destroy_session (driver_config config tr supports_nop k) w;
          Some (mk_outcome (Some rc) rec_list n (hist w))
        else
          '(r, w) ← discover (driver_config config tr supports_nop k) getaddrinfo_host conf fuel drec sendtargets rec_list w;
          Some (mk_outcome r.1 r.2 n (hist w))
  | _, _ => Some (mk_outcome (Some rc) rec_list n [])
  end.

(** ** The session that is set up *)

Lemma setup_authentication_keeps s cfg rc s' :
  iscsi_setup_authentication s cfg = Some (rc, s') -> type s' = type s /\ conn s' = conn s.
Proof.
  unfold iscsi_setup_authentication. case_match; [by intros [= _ <-]|].
  destruct (copy_secret _ _ _) as [pw|]; [|done]. cbn [mbind option_bind].
  destruct (copy_secret _ _ _) as [pw2|]; [|done]. cbn [mbind option_bind]. case_match; by intros [= _ <-].
Qed.

Lemma choose_name_spec iname q n rc n' :
  choose_name iname q n = (rc, n') -> truth rc = false -> n_initiator n' <> [].
Proof.
  unfold choose_name. case_decide; [by intros [= _ <-]|]. destruct (request_initiator_name q) as [rc1 n1].
  destruct (truth rc1) eqn:E; [by intros [= <- <-]; rewrite E|]. case_decide; [by intros [= <- _]|]. by intros [= _ <-].
Qed.

(** A new session is a discovery session in its first state, with a name, and with
    one attempt more than [reopen_max]; the receive buffer has the length that
    the configuration gives. *)
Lemma alloc_session_spec config tr iname q n pos rc n' w config' :
  iscsi_alloc_session config (Some tr) iname q n pos = Some (rc, n', Some (w, config')) ->
  rc = 0%Z /\ type (ds w) = ISCSI_SESSION_TYPE_DISCOVERY /\ ds_id w = INVALID_SESSION_ID /\ hist w = [] /\
  reopen_cnt w = i32 (st_reopen_max config' + 1) /\ n_initiator n' <> [] /\ socket_fd w = (-1)%Z /\
  leading_conn config tr pos = ((leading_conn config tr pos).1, config') /\ conn (ds w) = conn (leading_conn config tr pos).1.
Proof.
  unfold iscsi_alloc_session. case_match; [done|]. destruct (leading_conn config tr pos) as [s c2] eqn:El.
  destruct (choose_name iname q n) as [rc1 n1] eqn:En. destruct (truth rc1) eqn:Et; [done|].
  pose proof (choose_name_spec _ _ _ _ _ En Et) as Hn.
  destruct (iscsi_setup_authentication _ _) as [[rc2 s2]|] eqn:Ea; [|done]. cbn [mbind option_bind].
  apply setup_authentication_keeps in Ea as [Ht Hc]. destruct (truth rc2); [done|]. intros [= <- <- <- <-]. cbn.
  split_and!; try done.
Qed.

Lemma leading_conn_reopen config tr pos : st_reopen_max (leading_conn config tr pos).2 = st_reopen_max config.
Proof. unfold leading_conn. by destruct (iscsi_copy_operational_params _ _ _ _ _) as [[[? ?] ?] ?]. Qed.

(** ** Correcting the configuration

    [iscsi_copy_operational_params] writes its corrections into the
    configuration, and every attempt calls it again; a second call finds nothing
    to correct and gives the same values. *)
Lemma aligned_fix x : (0 <= x < 2 ^ 31)%Z -> (x mod 4 = 0)%Z -> align_32_down (i32 x) = x.
Proof.
  intros Hx Hm. rewrite i32_small by lia. destruct (align_32_down_spec x) as (_ & Ha & H1 & H2).
  unfold u32 in *. rewrite wrap_small in * by lia. pose proof (Z.div_mod x 4). pose proof (Z.div_mod (align_32_down x) 4). lia.
Qed.

Lemma copy_conn_again c c2 cc :
  copy_conn_params c2 (copy_conn_params c cc).2 = ((copy_conn_params c2 cc).1, (copy_conn_params c cc).2).
Proof.
  unfold copy_conn_params, seg_length. set (x := align_32_down (MaxRecvDataSegmentLength cc)).
  set (y := align_32_down (MaxXmitDataSegmentLength cc)).
  destruct (out_of _ _ x) eqn:Ex; destruct (out_of _ _ (if decide (y = 0%Z) then _ else y)) eqn:Ey; cbn;
    fold x; fold y; rewrite ?Ex, ?Ey; try reflexivity; by destruct cc.
Qed.

Lemma copy_session_again p p2 sc :
  copy_session_params p2 (copy_session_params p sc).2 = ((copy_session_params p2 sc).1, (copy_session_params p sc).2).
Proof.
  destruct sc as [a1 a2 a3 a4 a5 a6 a7 a8 a9]. unfold copy_session_params. cbn.
  destruct (align_32_down_spec a4) as (_ & Hm4 & _). remember (align_32_down a3) as fb eqn:Efb. remember (align_32_down a4) as mb eqn:Emb.
  assert (out_of ISCSI_MIN_MAX_BURST_LEN ISCSI_MAX_MAX_BURST_LEN mb = false -> align_32_down (i32 mb) = mb) as Hmb.
  { intros H%out_of_false. unfold ISCSI_MIN_MAX_BURST_LEN, ISCSI_MAX_MAX_BURST_LEN in H. apply aligned_fix; [lia|done]. }
  destruct (out_of ISCSI_MIN_FIRST_BURST_LEN ISCSI_MAX_FIRST_BURST_LEN fb) eqn:Ef; cbn; rewrite <- ?Emb;
    destruct (out_of ISCSI_MIN_MAX_BURST_LEN ISCSI_MAX_MAX_BURST_LEN mb) eqn:Em; cbn;
    try (case_decide as Hlt; cbn); rewrite <- ?Emb, <- ?Efb, ?Hmb by done;
    change (out_of ISCSI_MIN_FIRST_BURST_LEN ISCSI_MAX_FIRST_BURST_LEN mb) with (out_of ISCSI_MIN_MAX_BURST_LEN ISCSI_MAX_MAX_BURST_LEN mb);
    rewrite ?Em, ?Ef; cbn; rewrite <- ?Emb, ?Em; cbn; try (case_decide; try (exfalso; lia)); try done.
  - change (align_32_down DEF_INI_FIRST_BURST_LEN) with DEF_INI_FIRST_BURST_LEN.
    change (out_of _ _ DEF_INI_FIRST_BURST_LEN) with false. cbn. rewrite <- Emb, Em. by rewrite decide_False.
  - change (align_32_down DEF_INI_MAX_BURST_LEN) with DEF_INI_MAX_BURST_LEN.
    change (out_of _ _ DEF_INI_MAX_BURST_LEN) with false. cbn. by rewrite decide_False.
Qed.

(** The limits of the drivers on the segments that are received. *)
Definition driver_recv (d : option create_conn) (x : Z) : Z :=
  match d with Some be2iscsi_create_conn => cap_at 65536 x | Some cxgbi_create_conn => cap_at 8192 x | _ => x end.

Lemma cap_at_le limit x : (cap_at limit x <= x)%Z.
Proof. unfold cap_at. case_decide; lia. Qed.

Lemma driver_recv_mono d x y : (x <= y)%Z -> (driver_recv d x <= driver_recv d y)%Z.
Proof. intros H. destruct d as [[]|]; cbn; unfold cap_at; repeat case_decide; lia. Qed.

Lemma copy_recv caps d s sc cc :
  exists x, max_recv_dlength (conn (iscsi_copy_operational_params caps d s sc cc).1.1.1) = driver_recv d x /\
    (x <= max_recv_dlength (copy_conn_params (conn s) cc).1)%Z /\
    (type s <> ISCSI_SESSION_TYPE_DISCOVERY -> x = max_recv_dlength (copy_conn_params (conn s) cc).1) /\
    (iscsi_copy_operational_params caps d s sc cc).2 = (copy_conn_params (conn s) cc).2.
Proof.
  unfold iscsi_copy_operational_params. destruct (copy_conn_params (conn s) cc) as [c cc2].
  destruct (copy_session_params (params s) sc) as [p sc2]. set (s1 := s <| conn := c |> <| params := p |>).
  exists (max_recv_dlength (conn (copy_discovery caps s1))). split_and!.
  - by destruct d as [[]|].
  - unfold copy_discovery. case_decide; [|done]. cbn. case_match; [apply cap_at_le|done].
  - intros Ht. unfold copy_discovery. by rewrite decide_False.
  - by destruct d as [[]|].
Qed.

Lemma copy_conn_recv c c2 cc : max_recv_dlength (copy_conn_params c2 cc).1 = max_recv_dlength (copy_conn_params c cc).1.
Proof. unfold copy_conn_params. destruct (seg_length _ _), (seg_length _ _). done. Qed.

(** The receive buffer, allocated from the configuration before the session is
    known to be one for discovery, is never shorter than what a login announces. *)
Lemma buffer_covers_announced config tr pos s :
  let (s0, config') := leading_conn config tr pos in
  (max_recv_dlength (conn (iscsi_copy_operational_params (Initiator.t_caps tr) (t_driver tr) s (st_session_conf config')
     (st_conn_conf config')).1.1.1) <= max_recv_dlength (conn s0))%Z.
Proof.
  unfold leading_conn. set (z := put_conn _ _).
  destruct (copy_recv (Initiator.t_caps tr) (t_driver tr) z (st_session_conf config) (st_conn_conf config)) as (x & E & _ & Hx & Ec).
  destruct (iscsi_copy_operational_params _ _ z _ _) as [[[s0 erl] sc] cc]. cbn [fst snd] in E, Ec.
  cbn [st_session_conf st_conn_conf]. rewrite E, Hx by done. subst cc.
  destruct (copy_recv (Initiator.t_caps tr) (t_driver tr) s sc (copy_conn_params (conn z) (st_conn_conf config)).2)
    as (y & -> & Hy & _). apply driver_recv_mono. rewrite copy_conn_again in Hy. cbn [fst] in Hy.
  by rewrite (copy_conn_recv (conn z) (conn s)) in Hy.
Qed.

(** C21: a portal that refuses connections.  The discovery ends after exactly
    [reopen_max] + 1 attempts with ISCSI_ERR_PDU_TIMEOUT and without new records;
    each attempt waits for the time that the number of failures gives, opens one
    socket and closes it again. *)
Theorem refused_portal fuel drec config tr nop k iname q n pos recs n' w config' :
  has_cap (Initiator.t_caps tr) CAP_TEXT_NEGO = false ->
  (forall h, answer h TimedOut = 0%Z /\ (answer h IoTcpConnect < 0)%Z) ->
  iscsi_alloc_session config (Some tr) iname q n pos = Some (0%Z, n', Some (w, config')) ->
  malloc (Z.to_nat (max_recv_dlength (conn (ds w)))) = true ->
  is_Some (resolve_address (get_str drec "address") (sprintf_d (get_int drec "port"))) ->
  (0 <= st_reopen_max config < 2 ^ 31 - 1)%Z -> (Z.to_nat (st_reopen_max config) + 3 <= fuel) ->
  discovery_sendtargets fuel drec config (Some tr) nop k iname q n pos recs =
    Some (mk_outcome (Some ISCSI_ERR_PDU_TIMEOUT) recs n'
            (concat (attempt_calls <$> seq 0 (S (Z.to_nat (st_reopen_max config)))))).
Proof.
  intros Hcap Hans Ha Hm [a Hres] Hr Hf. pose proof Ha as Hs. apply alloc_session_spec in Hs as (_ & _ & Hid & Hh & Hcnt & _ & _ & El & _).
  assert (st_reopen_max config' = st_reopen_max config) as Er.
  { by rewrite <- (leading_conn_reopen config tr pos), El. }
  unfold discovery_sendtargets. rewrite Ha. cbn [mbind option_bind]. rewrite Hm. cbn [negb].
  unfold iscsi_setup_portal. rewrite Hres. change (truth 0) with false. cbn iota.
  set (w0 := w <| ds_data := _ |> <| ds := _ |> <| failback_saddr := _ |>). destruct fuel as [|fuel]; [lia|].
  destruct (refused_session (driver_config config' tr nop k) (S (Z.to_nat (st_reopen_max config))) w0 fuel) as (w1 & E & Hh1 & Hid1);
    [done|done|exact Hid| |lia|].
  { change (reopen_cnt w0) with (reopen_cnt w). rewrite Hcnt, Er, i32_small by lia. lia. }
  cbn [discover]. unfold mthen at 1. rewrite E. change (truth ISCSI_ERR_PDU_TIMEOUT) with true. cbn iota.
  unfold mthen, iscsi_destroy_session at 1, mget, mthen. rewrite decide_True by done. cbn [mret' mbind option_bind].
  change (hist w0) with (hist w) in Hh1. rewrite Hh in Hh1. cbn. by rewrite Hh1.
Qed.
End Setup.

(** ** Whole runs *)
Module SetupExample.
Import DiscExample SessionExample.
Local Instance auth_env : AuthEnv := Toy.env.
Local Instance login_env : LoginEnv := DiscExample.login_env.

Definition transport : iscsi_transport := mk_transport 0 None false false false.

Definition st_config : sendtargets_config :=
  mk_sendtargets_config 15 45 30 5 (mk_session_conf 1 0 262144 16776192 2 0 1 0 1) (mk_conn_conf 32768 0 0 0 0 0)
    (mk_auth_config (str "initiator") (str "secretsecret") 12 (str "target") (str "othersecret!") 12
       [AUTH_CHAP_ALG_SHA256; AUTH_CHAP_ALG_MD5; 0; 0; 0]%Z).

Definition k_rec : kernel_record := mk_kernel_record [] 3260 120 1 15 30 30 5 5 [] [] [] [].
Definition iscsid : iscsid_answers := mk_iscsid (0%Z, str "iqn.1993-08.org.debian:01:host") (1%Z, []).

Definition sendtargets_run (Kernel : DiscKernel) : option outcome :=
  discovery_sendtargets 3000 any_host ∅ 9 asked st_config (Some transport) true k_rec [] iscsid (mk_names [] []) 3 [].

(** The daemon names the initiator, the target and the initiator authenticate each
    other, and the four portals are found. *)
Example sendtargets_succeeds :
  ((fun o => (o_rc o, view <$> o_records o, o_calls o)) <$> sendtargets_run (tcp 0)) =
    Some (Some 0%Z, view <$> concat (expected_records ∅ asked <$> targets),
      [IoSocket; IoTcpConnect; TimedOut; Login; IoDisconnect]).
Proof. vm_compute. reflexivity. Qed.

Definition alloc_run := iscsi_alloc_session 3000 st_config (Some transport) [] iscsid (mk_names [] []) 3.
Definition alloc_world : dsession := match alloc_run with Some (_, _, Some (w, _)) => w | _ => world0 end.
Definition alloc_config : sendtargets_config := match alloc_run with Some (_, _, Some (_, c)) => c | _ => st_config end.
Definition alloc_names : names := match alloc_run with Some (_, n, _) => n | _ => mk_names [] [] end.

Lemma alloc_run_spec :
  iscsi_alloc_session 3000 st_config (Some transport) [] iscsid (mk_names [] []) 3 = Some (0%Z, alloc_names, Some (alloc_world, alloc_config)).
Proof. vm_compute. reflexivity. Qed.

Lemma refused_portal_witness :
  discovery_sendtargets (Kernel := tcp (-1)) 3000 any_host ∅ 9 asked st_config (Some transport) true k_rec [] iscsid
      (mk_names [] []) 3 [] =
    Some (mk_outcome (Some ISCSI_ERR_PDU_TIMEOUT) [] alloc_names
            (concat (attempt_calls <$> seq 0 (S (Z.to_nat (st_reopen_max st_config)))))).
Proof.
  apply (refused_portal (Kernel := tcp (-1)) 3000 any_host ∅ 9 asked st_config transport true k_rec [] iscsid (mk_names [] [])
    3 [] alloc_names alloc_world alloc_config).
  - reflexivity.
  - intros h. split; [reflexivity|]. cbn. lia.
  - exact alloc_run_spec.
  - reflexivity.
  - by eexists.
  - cbn. lia.
  - cbn. lia.
Defined.
End SetupExample.
