(* ===== verification/Md5Sine.v ===== *)
(** * The constants of MD5 (RFC 1321, section 3.4)

    The RFC takes the 64 constants of the rounds from the sine function: the
    integer part of 4294967296 times abs(sin(i)), for i in radians.  [sine_constant]
    is this definition, on the real numbers; [sine_table] computes it, with a ball
    around sin(k) and cos(k) for each k: a centre and a radius, both integers in
    units of 2^-160.  The first balls come from the series of sine and cosine at 1,
    the others by the addition formulas. *)
From Stdlib Require Import ZArith List Lia Reals Lra.
Import ListNotations.
#[local] Open Scope Z_scope.

Module Sine.
(** [T[i + 1]] of the RFC. *)
Definition sine_constant (i : nat) : Z := Zfloor (2 ^ 32 * Rabs (sin (INR (S i)))).

(** ** Balls *)
Definition prec : Z := 160.
Definition scale : Z := 2 ^ prec.

Record ball := mk_ball { centre : Z; radius : Z }.

Definition inside (x : R) (b : ball) : Prop := (Rabs (x * IZR scale - IZR (centre b)) <= IZR (radius b))%R.

Definition ball_add (a b : ball) : ball := mk_ball (centre a + centre b) (radius a + radius b).
Definition ball_opp (a : ball) : ball := mk_ball (- centre a) (radius a).
Definition ball_mul (a b : ball) : ball :=
  mk_ball (centre a * centre b / scale)
    ((Z.abs (centre a) * radius b + Z.abs (centre b) * radius a + radius a * radius b) / scale + 2).

(** The ball over the numbers between two fractions. *)
Definition ball_between (nl dl nh dh : Z) : ball :=
  mk_ball (scale * nl / dl) (scale * nh / dh + 1 - scale * nl / dl).

Lemma scale_pos : (0 < IZR scale)%R.
Proof. apply (IZR_lt 0). reflexivity. Qed.

Lemma div_bounds (n d : Z) : 0 < d -> (IZR (n / d) * IZR d <= IZR n <= (IZR (n / d) + 1) * IZR d)%R.
Proof.
  intros Hd. pose proof (Z.div_mod n d ltac:(lia)) as E. pose proof (Z.mod_pos_bound n d Hd) as B.
  rewrite <- (plus_IZR _ 1), <- !mult_IZR. split; apply IZR_le; nia.
Qed.

Lemma ball_add_ok x y a b : inside x a -> inside y b -> inside (x + y) (ball_add a b).
Proof.
  unfold inside. cbn [ball_add centre radius]. rewrite !plus_IZR. intros Hx Hy.
  pose proof (Rabs_triang (x * IZR scale - IZR (centre a)) (y * IZR scale - IZR (centre b))) as T.
  replace ((x + y) * IZR scale - (IZR (centre a) + IZR (centre b)))%R
    with ((x * IZR scale - IZR (centre a)) + (y * IZR scale - IZR (centre b)))%R by ring. lra.
Qed.

Lemma ball_opp_ok x a : inside x a -> inside (- x) (ball_opp a).
Proof.
  unfold inside. cbn [ball_opp centre radius]. rewrite opp_IZR. intros Hx. rewrite <- Rabs_Ropp.
  replace (- (- x * IZR scale - - IZR (centre a)))%R with (x * IZR scale - IZR (centre a))%R by ring. exact Hx.
Qed.

(** What the product of two numbers is off the product of the centres. *)
Lemma product_error (X Y cx cy rx ry : R) :
  (Rabs (X - cx) <= rx -> Rabs (Y - cy) <= ry -> Rabs (X * Y - cx * cy) <= Rabs cx * ry + Rabs cy * rx + rx * ry)%R.
Proof.
  intros Hx Hy. replace (X * Y - cx * cy)%R with (cx * (Y - cy) + cy * (X - cx) + (X - cx) * (Y - cy))%R by ring.
  pose proof (Rabs_triang (cx * (Y - cy) + cy * (X - cx)) ((X - cx) * (Y - cy))) as T1.
  pose proof (Rabs_triang (cx * (Y - cy)) (cy * (X - cx))) as T2.
  rewrite Rabs_mult in T1. rewrite !Rabs_mult in T2.
  pose proof (Rmult_le_compat_l _ _ _ (Rabs_pos cx) Hy). pose proof (Rmult_le_compat_l _ _ _ (Rabs_pos cy) Hx).
  pose proof (Rmult_le_compat _ _ _ _ (Rabs_pos (X - cx)) (Rabs_pos (Y - cy)) Hx Hy).
  lra.
Qed.

Lemma Rabs_between (x r : R) : (Rabs x <= r -> - r <= x <= r)%R.
Proof. unfold Rabs. destruct (Rcase_abs x); lra. Qed.

Lemma ball_mul_ok x y a b : inside x a -> inside y b -> inside (x * y) (ball_mul a b).
Proof.
  unfold inside. intros Hx Hy. cbn [ball_mul centre radius].
  pose proof (product_error _ _ _ _ _ _ Hx Hy) as P. rewrite !Rabs_Zabs, <- !mult_IZR, <- !plus_IZR in P.
  set (e := Z.abs (centre a) * radius b + Z.abs (centre b) * radius a + radius a * radius b) in *.
  set (m := centre a * centre b) in *. apply Rabs_between in P.
  pose proof (div_bounds m scale eq_refl) as [C1 C2]. pose proof (div_bounds e scale eq_refl) as [_ E2].
  pose proof scale_pos as HS. rewrite plus_IZR. revert P C1 C2 E2 HS.
  generalize (IZR (m / scale)) (IZR (e / scale)) (IZR m) (IZR e) (IZR scale). intros cm ce M E S P C1 C2 E2 HS.
  replace (x * S * (y * S))%R with (x * y * S * S)%R in P by ring.
  apply Rabs_le. split; apply (Rmult_le_reg_r S); try exact HS; nra.
Qed.

Lemma ball_between_ok x (nl dl nh dh : Z) :
  0 < dl -> 0 < dh -> (IZR nl / IZR dl <= x <= IZR nh / IZR dh)%R -> inside x (ball_between nl dl nh dh).
Proof.
  intros Hl Hh [H1 H2]. unfold inside. cbn [ball_between centre radius].
  pose proof (div_bounds (scale * nl) dl Hl) as [L _]. pose proof (div_bounds (scale * nh) dh Hh) as [_ U].
  rewrite minus_IZR, plus_IZR. rewrite mult_IZR in L, U.
  apply (IZR_lt 0) in Hl, Hh. pose proof scale_pos as HS.
  apply (Rmult_le_compat_r (IZR dl)) in H1; [|lra]. apply (Rmult_le_compat_r (IZR dh)) in H2; [|lra].
  unfold Rdiv in H1, H2. rewrite Rmult_assoc, Rinv_l, Rmult_1_r in H1, H2 by lra.
  assert (IZR (scale * nl / dl) <= x * IZR scale)%R by (apply (Rmult_le_reg_r (IZR dl)); [lra|nra]).
  assert (x * IZR scale <= IZR (scale * nh / dh) + 1)%R by (apply (Rmult_le_reg_r (IZR dh)); [lra|nra]).
  apply Rabs_le. lra.
Qed.

(** ** Sine and cosine of 1

    The partial sum of the series to the term [n], as a fraction, with the sign of
    the last term: of sine ([o = 1]), of cosine ([o = 0]). *)
Fixpoint series (o : Z) (n : nat) : Z * Z * Z :=
  match n with
  | O => (1, 1, 1)
  | S k => let '(num, den, s) := series o k in
           let m := (2 * Z.of_nat n + o) * (2 * Z.of_nat n + o - 1) in
           (num * m - s, den * m, - s)
  end.

Definition numerator (o : Z) (n : nat) : Z := (fst (fst (series o n))).
Definition denominator (o : Z) (n : nat) : Z := (snd (fst (series o n))).

Lemma fact_two n : INR (fact (S (S n))) = (INR (fact n) * (INR (S n) * INR (S (S n))))%R.
Proof. rewrite !fact_simpl, !mult_INR. ring. Qed.

Lemma series_ok (o : nat) n : (o <= 1)%nat ->
  let '(num, den, s) := series (Z.of_nat o) n in
  IZR den = INR (fact (2 * n + o)) /\ IZR s = ((-1) ^ n)%R /\
  (sum_f_R0 (fun i => (-1) ^ i * (1 ^ (2 * i + o) / INR (fact (2 * i + o)))) n * IZR den = IZR num)%R.
Proof.
  intros Ho. induction n as [|n IH].
  - assert (o = 0 \/ o = 1)%nat as [->| ->] by lia; cbn; repeat split; field.
  - cbn [series]. destruct (series (Z.of_nat o) n) as [[num den] s]. destruct IH as (Hd & Hs & Hn).
    assert (Hf : INR (fact (2 * S n + o)) = (IZR den * IZR ((2 * Z.of_nat (S n) + Z.of_nat o) * (2 * Z.of_nat (S n) + Z.of_nat o - 1)))%R).
    { replace (2 * S n + o)%nat with (S (S (2 * n + o))) by lia. rewrite fact_two, Hd, mult_IZR, !INR_IZR_INZ.
      rewrite (Rmult_comm (IZR (Z.of_nat (S (2 * n + o))))). do 3 f_equal; lia. }
    rewrite minus_IZR, opp_IZR, !mult_IZR in *. split; [symmetry; exact Hf|]. split; [rewrite Hs; cbn; ring|].
    cbn [sum_f_R0]. rewrite Rmult_plus_distr_r, <- Rmult_assoc, Hn, <- Hf, pow1. unfold Rminus. f_equal.
    rewrite Hs. cbn [pow]. field. apply INR_fact_neq_0.
Qed.

Lemma partial_sum (o : nat) n : (o <= 1)%nat -> 0 < denominator (Z.of_nat o) n /\
  sum_f_R0 (fun i => (-1) ^ i * (1 ^ (2 * i + o) / INR (fact (2 * i + o))))%R n =
    (IZR (numerator (Z.of_nat o) n) / IZR (denominator (Z.of_nat o) n))%R.
Proof.
  intros Ho. pose proof (series_ok o n Ho) as H. unfold numerator, denominator.
  destruct (series (Z.of_nat o) n) as [[num den] s]. cbn [fst snd]. destruct H as (Hd & _ & Hn).
  pose proof (INR_fact_lt_0 (2 * n + o)) as Hp. rewrite <- Hd in Hp. split; [apply lt_IZR, Hp|].
  rewrite <- Hn. field. lra.
Qed.

Definition terms : nat := 19.

(** The partial sums to an odd term are below the limit, the others above. *)
Definition ball_one (o : Z) : ball :=
  ball_between (numerator o (2 * terms + 1)) (denominator o (2 * terms + 1))
    (numerator o (2 * (terms + 1))) (denominator o (2 * (terms + 1))).

Lemma sin_one : inside (sin 1) (ball_one 1).
Proof.
  destruct (partial_sum 1 (2 * terms + 1) ltac:(lia)) as [D1 S1], (partial_sum 1 (2 * (terms + 1)) ltac:(lia)) as [D2 S2].
  apply ball_between_ok; [exact D1|exact D2|]. change 1 with (Z.of_nat 1). rewrite <- S1, <- S2.
  apply (pre_sin_bound 1 terms); lra.
Qed.

Lemma cos_one : inside (cos 1) (ball_one 0).
Proof.
  destruct (partial_sum 0 (2 * terms + 1) ltac:(lia)) as [D1 S1], (partial_sum 0 (2 * (terms + 1)) ltac:(lia)) as [D2 S2].
  apply ball_between_ok; [exact D1|exact D2|]. change 0 with (Z.of_nat 0). rewrite <- S1, <- S2.
  pose proof (pre_cos_bound 1 terms ltac:(lra) ltac:(lra)) as H. unfold cos_approx, cos_term in H.
  erewrite (sum_eq _ _ (2 * terms + 1)), (sum_eq _ _ (2 * (terms + 1))); [exact H|intros i _..]; cbn beta; now rewrite Nat.add_0_r.
Qed.

(** ** All of them

    The balls around sin(k) and cos(k), from those of the number before. *)
Fixpoint balls (s1 c1 : ball) (n : nat) (s c : ball) : list ball :=
  match n with
  | O => []
  | S n => s :: balls s1 c1 n (ball_add (ball_mul s c1) (ball_mul c s1)) (ball_add (ball_mul c c1) (ball_opp (ball_mul s s1)))
  end.

Lemma balls_ok s1 c1 n k s c :
  inside (sin 1) s1 -> inside (cos 1) c1 -> inside (sin (INR k)) s -> inside (cos (INR k)) c ->
  Forall2 (fun i b => inside (sin (INR i)) b) (seq k n) (balls s1 c1 n s c).
Proof.
  intros Hs1 Hc1. revert k s c. induction n as [|n IH]; intros k s c Hs Hc; [constructor|]. cbn [seq balls].
  constructor; [exact Hs|]. apply IH; rewrite S_INR.
  - rewrite sin_plus. auto using ball_add_ok, ball_mul_ok.
  - rewrite cos_plus. apply ball_add_ok; auto using ball_opp_ok, ball_mul_ok.
Qed.

(** The integer part of 2^32 abs(x), where the ball leaves no doubt. *)
Definition decides (b : ball) (t : Z) : bool :=
  (t * scale <=? 2 ^ 32 * (Z.abs (centre b) - radius b)) && (2 ^ 32 * (Z.abs (centre b) + radius b) <? (t + 1) * scale).

Lemma decides_ok x b t : inside x b -> decides b t = true -> Zfloor (2 ^ 32 * Rabs x) = t.
Proof.
  intros Hx H. apply andb_prop in H as [H1 H2]. apply Z.leb_le, IZR_le in H1. apply Z.ltb_lt, IZR_lt in H2.
  apply Zfloor_eq. rewrite !mult_IZR in H1, H2. rewrite minus_IZR in H1. rewrite !plus_IZR in H2. rewrite abs_IZR in H1, H2.
  unfold inside in Hx. pose proof (Rabs_triang_inv (x * IZR scale) (IZR (centre b))) as T1.
  pose proof (Rabs_triang_inv (IZR (centre b)) (x * IZR scale)) as T2. rewrite Rabs_minus_sym in T2.
  rewrite Rabs_mult, (Rabs_pos_eq (IZR scale)) in T1, T2 by (left; exact scale_pos).
  pose proof scale_pos as HS. change (IZR (2 ^ 32)) with (IZR 4294967296) in *.
  replace (2 ^ 32)%R with 4294967296%R by (cbn; ring).
  split; [apply (Rmult_le_reg_r (IZR scale))|apply (Rmult_lt_reg_r (IZR scale))]; try exact HS; nra.
Qed.

Definition literals : list Z :=
  [0xd76aa478; 0xe8c7b756; 0x242070db; 0xc1bdceee; 0xf57c0faf; 0x4787c62a; 0xa8304613; 0xfd469501;
   0x698098d8; 0x8b44f7af; 0xffff5bb1; 0x895cd7be; 0x6b901122; 0xfd987193; 0xa679438e; 0x49b40821;
   0xf61e2562; 0xc040b340; 0x265e5a51; 0xe9b6c7aa; 0xd62f105d; 0x02441453; 0xd8a1e681; 0xe7d3fbc8;
   0x21e1cde6; 0xc33707d6; 0xf4d50d87; 0x455a14ed; 0xa9e3e905; 0xfcefa3f8; 0x676f02d9; 0x8d2a4c8a;
   0xfffa3942; 0x8771f681; 0x6d9d6122; 0xfde5380c; 0xa4beea44; 0x4bdecfa9; 0xf6bb4b60; 0xbebfbc70;
   0x289b7ec6; 0xeaa127fa; 0xd4ef3085; 0x04881d05; 0xd9d4d039; 0xe6db99e5; 0x1fa27cf8; 0xc4ac5665;
   0xf4292244; 0x432aff97; 0xab9423a7; 0xfc93a039; 0x655b59c3; 0x8f0ccc92; 0xffeff47d; 0x85845dd1;
   0x6fa87e4f; 0xfe2ce6e0; 0xa3014314; 0x4e0811a1; 0xf7537e82; 0xbd3af235; 0x2ad7d2bb; 0xeb86d391].

Lemma literals_decided : forallb (fun bt => decides (fst bt) (snd bt)) (combine (balls (ball_one 1) (ball_one 0) 64 (ball_one 1) (ball_one 0)) literals) = true.
Proof. vm_compute. reflexivity. Qed.

Lemma decided_constants k n bs ts :
  Forall2 (fun i b => inside (sin (INR i)) b) (seq (S k) n) bs -> length ts = n ->
  forallb (fun bt => decides (fst bt) (snd bt)) (combine bs ts) = true -> map sine_constant (seq k n) = ts.
Proof.
  revert k bs ts. induction n as [|n IH]; intros k bs ts Hb Hl Hd; destruct ts as [|t ts]; try discriminate; [reflexivity|].
  inversion Hb as [|? b ? bs' Hi Hr]; subst. cbn in Hd. apply andb_prop in Hd as [H1 H2]. cbn [seq map]. f_equal.
  - exact (decides_ok _ _ _ Hi H1).
  - apply (IH (S k) bs'); [exact Hr|injection Hl; auto|exact H2].
Qed.

(** The 64 constants, as the RFC's own code has them. *)
Lemma sine_table : map sine_constant (seq 0 64) = literals.
Proof.
  eapply (decided_constants 0 64); [|reflexivity|exact literals_decided].
  apply balls_ok; [apply sin_one|apply cos_one|apply sin_one|apply cos_one].
Qed.
End Sine.
