(* ===== verification/Md5.v ===== *)
(** * MD5 (utils/md5.c)

    The digest that iscsi-iname computes.  [in] is kept as its 64 bytes: the words
    are little endian, as on the machines on which [byteSwap] is empty (on the
    others it makes them so).  Writes outside of [in] are [None]. *)
From Stdlib Require Import ZArith Lia Ascii.
From stdpp Require Import base tactics numbers list strings option.
From S2P Require Import Prelude Md5Sine.

Definition word4 : Type := Z * Z * Z * Z.

Record MD5Context := mk_md5 { md5_buf : word4; bytes0 : Z; bytes1 : Z; md5_in : list Z }.
#[export] Instance eta_md5 : Eta MD5Context := fun c => mk_md5 (md5_buf c) (bytes0 c) (bytes1 c) (md5_in c).

(** ** The transformation *)
Definition F1 (x y z : Z) : Z := Z.lxor z (Z.land x (Z.lxor y z)).
Definition F2 (x y z : Z) : Z := F1 z x y.
Definition F3 (x y z : Z) : Z := Z.lxor (Z.lxor x y) z.
Definition F4 (x y z : Z) : Z := Z.lxor y (Z.lor x (u32 (Z.lnot z))).

(** The new value of [w]. *)
Definition MD5STEP (f : Z -> Z -> Z -> Z) (w x y z input s : Z) : Z :=
  let w := u32 (w + u32 (f x y z + input)) in
  u32 (Z.lor (u32 (Z.shiftl w s)) (Z.shiftr w (32 - s)) + x).

(** The steps of a round: the index into [in], the constant, the rotation.  From one
    step to the next the variables change places: a, b, c, d become d, a, b, c. *)
Definition round1 : list (Z * Z * Z) :=
  [(0, 0xd76aa478, 7); (1, 0xe8c7b756, 12); (2, 0x242070db, 17); (3, 0xc1bdceee, 22);
   (4, 0xf57c0faf, 7); (5, 0x4787c62a, 12); (6, 0xa8304613, 17); (7, 0xfd469501, 22);
   (8, 0x698098d8, 7); (9, 0x8b44f7af, 12); (10, 0xffff5bb1, 17); (11, 0x895cd7be, 22);
   (12, 0x6b901122, 7); (13, 0xfd987193, 12); (14, 0xa679438e, 17); (15, 0x49b40821, 22)]%Z.

Definition round2 : list (Z * Z * Z) :=
  [(1, 0xf61e2562, 5); (6, 0xc040b340, 9); (11, 0x265e5a51, 14); (0, 0xe9b6c7aa, 20);
   (5, 0xd62f105d, 5); (10, 0x02441453, 9); (15, 0xd8a1e681, 14); (4, 0xe7d3fbc8, 20);
   (9, 0x21e1cde6, 5); (14, 0xc33707d6, 9); (3, 0xf4d50d87, 14); (8, 0x455a14ed, 20);
   (13, 0xa9e3e905, 5); (2, 0xfcefa3f8, 9); (7, 0x676f02d9, 14); (12, 0x8d2a4c8a, 20)]%Z.

Definition round3 : list (Z * Z * Z) :=
  [(5, 0xfffa3942, 4); (8, 0x8771f681, 11); (11, 0x6d9d6122, 16); (14, 0xfde5380c, 23);
   (1, 0xa4beea44, 4); (4, 0x4bdecfa9, 11); (7, 0xf6bb4b60, 16); (10, 0xbebfbc70, 23);
   (13, 0x289b7ec6, 4); (0, 0xeaa127fa, 11); (3, 0xd4ef3085, 16); (6, 0x04881d05, 23);
   (9, 0xd9d4d039, 4); (12, 0xe6db99e5, 11); (15, 0x1fa27cf8, 16); (2, 0xc4ac5665, 23)]%Z.

Definition round4 : list (Z * Z * Z) :=
  [(0, 0xf4292244, 6); (7, 0x432aff97, 10); (14, 0xab9423a7, 15); (5, 0xfc93a039, 21);
   (12, 0x655b59c3, 6); (3, 0x8f0ccc92, 10); (10, 0xffeff47d, 15); (1, 0x85845dd1, 21);
   (8, 0x6fa87e4f, 6); (15, 0xfe2ce6e0, 10); (6, 0xa3014314, 15); (13, 0x4e0811a1, 21);
   (4, 0xf7537e82, 6); (11, 0xbd3af235, 10); (2, 0x2ad7d2bb, 15); (9, 0xeb86d391, 21)]%Z.

(** [in[i]]. *)
Definition in_word (b : list Z) (i : Z) : Z :=
  let byte k := nth (4 * Z.to_nat i + k) b 0%Z in
  Z.lor (byte 0) (Z.lor (Z.shiftl (byte 1) 8) (Z.lor (Z.shiftl (byte 2) 16) (Z.shiftl (byte 3) 24))).

Definition step (f : Z -> Z -> Z -> Z) (b : list Z) (st : word4) (r : Z * Z * Z) : word4 :=
  let '(w, x, y, z) := st in
  let '(i, k, s) := r in
  (z, MD5STEP f w x y z (u32 (in_word b i + k)) s, x, y).

Definition MD5Transform (buf : word4) (b : list Z) : word4 :=
  let st := foldl (step F1 b) buf round1 in
  let st := foldl (step F2 b) st round2 in
  let st := foldl (step F3 b) st round3 in
  let '(a', b', c', d') := foldl (step F4 b) st round4 in
  let '(a, b, c, d) := buf in
  (u32 (a + a'), u32 (b + b'), u32 (c + c'), u32 (d + d')).

(** ** The context *)

(** [in] is not written. *)
Definition MD5Init (ctx : MD5Context) : MD5Context :=
  mk_md5 (0x67452301, 0xefcdab89, 0x98badcfe, 0x10325476)%Z 0 0 (md5_in ctx).

(** The loop over the chunks; the remaining bytes go to [in]. *)
Fixpoint update_chunks (fuel : nat) (ctx : MD5Context) (data : list Z) : option MD5Context :=
  if decide (length data < 64) then
    b ← buf_write (md5_in ctx) 0 data;
    Some (ctx <| md5_in := b |>)
  else
    match fuel with
    | O => None
    | S fuel =>
        b ← buf_write (md5_in ctx) 0 (take 64 data);
        update_chunks fuel (ctx <| md5_in := b |> <| md5_buf := MD5Transform (md5_buf ctx) b |>) (drop 64 data)
    end.

(** The byte count, with the carry from low to high. *)
Definition count_bytes (ctx : MD5Context) (len : Z) : MD5Context :=
  let t := bytes0 ctx in
  let ctx := ctx <| bytes0 := u32 (t + len) |> in
  if decide (bytes0 ctx < t)%Z then ctx <| bytes1 := u32 (bytes1 ctx + 1) |> else ctx.

Definition MD5Update (ctx : MD5Context) (data : list Z) : option MD5Context :=
  let t := bytes0 ctx in
  let ctx := count_bytes ctx (Z.of_nat (length data)) in
  let t := Z.to_nat (64 - Z.land t 0x3f) in
  if decide (length data < t) then
    b ← buf_write (md5_in ctx) (64 - t) data;
    Some (ctx <| md5_in := b |>)
  else
    b ← buf_write (md5_in ctx) (64 - t) (take t data);
    update_chunks (length data) (ctx <| md5_in := b |> <| md5_buf := MD5Transform (md5_buf ctx) b |>) (drop t data).

(** A word in memory. *)
Definition le_word (v : Z) : list Z :=
  [Z.land v 0xff; Z.land (Z.shiftr v 8) 0xff; Z.land (Z.shiftr v 16) 0xff; Z.land (Z.shiftr v 24) 0xff].

Definition MD5Final (ctx : MD5Context) : option (list Z) :=
  let count := Z.land (bytes0 ctx) 0x3f in
  let p := Z.to_nat count in
  b ← buf_set (md5_in ctx) p 0x80;
  let p := S p in
  let count := (56 - 1 - count)%Z in
  '(buf, b, p, count) ← (if decide (count < 0)%Z then
                           b ← buf_write b p (replicate (Z.to_nat (count + 8)) 0%Z);
                           Some (MD5Transform (md5_buf ctx) b, b, 0, 56%Z)
                         else Some (md5_buf ctx, b, p, count));
  b ← buf_write b p (replicate (Z.to_nat count) 0%Z);
  b ← buf_write b 56 (le_word (u32 (Z.shiftl (bytes0 ctx) 3)));
  b ← buf_write b 60 (le_word (Z.lor (u32 (Z.shiftl (bytes1 ctx) 3)) (Z.shiftr (bytes0 ctx) 29)));
  let '(a, b, c, d) := MD5Transform buf b in
  Some (le_word a ++ le_word b ++ le_word c ++ le_word d).

(** How the functions are used: a context, the pieces of a message, the digest. *)
Definition md5_stream (ctx : MD5Context) (chunks : list (list Z)) : option (list Z) :=
  ctx ← foldl (fun c d => c ← c; MD5Update c d) (Some (MD5Init ctx)) chunks;
  MD5Final ctx.

(** The first [n] blocks of a message, through [g]. *)
Fixpoint blocks (g : word4 -> list Z -> word4) (n : nat) (st : word4) (m : list Z) : word4 :=
  match n with O => st | S n => blocks g n (g st (take 64 m)) (drop 64 m) end.

(** ** The algorithm of RFC 1321

    The message with its padding, in blocks of 16 words; 64 operations for a
    block. *)
Module Rfc.
Definition rotl (x s : Z) : Z := ((x * 2 ^ s) mod 2 ^ 32 + x / 2 ^ (32 - s))%Z.

(** [x & y | ~x & z] and the like, on words. *)
Definition not32 (x : Z) : Z := (2 ^ 32 - 1 - x)%Z.
Definition F (x y z : Z) : Z := Z.lor (Z.land x y) (Z.land (not32 x) z).
Definition G (x y z : Z) : Z := Z.lor (Z.land x z) (Z.land y (not32 z)).
Definition H (x y z : Z) : Z := Z.lxor x (Z.lxor y z).
Definition I (x y z : Z) : Z := Z.lxor y (Z.lor x (not32 z)).

(** The table T: the integer part of 4294967296 times abs(sin(i + 1)). *)
Definition T (i : nat) : Z := Sine.sine_constant i.

Definition index (i : nat) : nat :=
  if decide (i < 16) then i
  else if decide (i < 32) then (5 * i + 1) mod 16
  else if decide (i < 48) then (3 * i + 5) mod 16
  else (7 * i) mod 16.

Definition shifts (i : nat) : Z :=
  nth (i mod 4) (if decide (i < 16) then [7; 12; 17; 22]%Z
                 else if decide (i < 32) then [5; 9; 14; 20]%Z
                 else if decide (i < 48) then [4; 11; 16; 23]%Z
                 else [6; 10; 15; 21]%Z) 0%Z.

Definition func (i : nat) : Z -> Z -> Z -> Z :=
  if decide (i < 16) then F else if decide (i < 32) then G else if decide (i < 48) then H else I.

(** Four bytes, the low-order byte first. *)
Definition word (l : list Z) (i : nat) : Z :=
  (nth (4 * i) l 0 + 2 ^ 8 * nth (4 * i + 1) l 0 + 2 ^ 16 * nth (4 * i + 2) l 0 + 2 ^ 24 * nth (4 * i + 3) l 0)%Z.

Definition operation (X : list Z) (st : word4) (i : nat) : word4 :=
  let '(a, b, c, d) := st in
  (d, ((b + rotl ((a + func i b c d + word X (index i) + T i) mod 2 ^ 32) (shifts i)) mod 2 ^ 32)%Z, b, c).

Definition block (st : word4) (X : list Z) : word4 :=
  let '(a, b, c, d) := st in
  let '(a', b', c', d') := foldl (operation X) st (seq 0 64) in
  ((a + a') mod 2 ^ 32, (b + b') mod 2 ^ 32, (c + c') mod 2 ^ 32, (d + d') mod 2 ^ 32)%Z.

(** [n] bytes of a number, the low-order byte first. *)
Fixpoint le_bytes (n : nat) (v : Z) : list Z :=
  match n with O => [] | S n => (v mod 256)%Z :: le_bytes n (v / 256)%Z end.

(** A 1 bit, zeros up to 56 bytes modulo 64, the number of bits modulo 2^64. *)
Definition padding (m : list Z) : list Z :=
  0x80%Z :: replicate ((119 - length m mod 64) mod 64) 0%Z ++ le_bytes 8 ((8 * Z.of_nat (length m)) mod 2 ^ 64)%Z.

Definition start : word4 := (0x67452301, 0xefcdab89, 0x98badcfe, 0x10325476)%Z.

Definition md5 (m : list Z) : list Z :=
  let p := m ++ padding m in
  let '(a, b, c, d) := blocks block (length p / 64) start p in
  le_bytes 4 a ++ le_bytes 4 b ++ le_bytes 4 c ++ le_bytes 4 d.
End Rfc.
