(* ===== verification/Md5Theorems.v ===== *)
(** * MD5: properties

    The code computes the digest of RFC 1321, in whatever pieces the message is
    given. *)
From Stdlib Require Import ZArith Lia Ascii.
From stdpp Require Import base tactics numbers list strings option.
From S2P Require Import Prelude CString Md5Sine Md5.

(** ** Words *)
Definition is_word (x : Z) : Prop := (0 <= x < 2 ^ 32)%Z.
Definition words (st : word4) : Prop := let '(a, b, c, d) := st in is_word a /\ is_word b /\ is_word c /\ is_word d.

Lemma u32_word x : is_word (u32 x).
Proof. apply (wrap_range 32). lia. Qed.

Lemma not32_lnot x : is_word x -> Rfc.not32 x = u32 (Z.lnot x).
Proof. unfold is_word, Rfc.not32, u32, wrap. intros H. apply (Z.mod_unique_pos _ _ (-1)); unfold Z.lnot; lia. Qed.

Lemma word_bits x n : is_word x -> (32 <= n)%Z -> Z.testbit x n = false.
Proof.
  intros [H1 H2] Hn. destruct (decide (x = 0%Z)) as [->|]; [apply Z.bits_0|].
  apply Z.bits_above_log2; [done|]. apply Z.log2_lt_pow2 in H2; lia.
Qed.

Lemma not32_bits x n : is_word x -> (0 <= n)%Z -> Z.testbit (Rfc.not32 x) n = bool_decide (n < 32)%Z && negb (Z.testbit x n).
Proof.
  intros Hx Hn. rewrite not32_lnot by done. unfold u32, wrap. destruct (decide (n < 32)%Z) as [Hlt|Hge].
  - rewrite bool_decide_true, Z.mod_pow2_bits_low, Z.lnot_spec by lia. done.
  - rewrite bool_decide_false, Z.mod_pow2_bits_high by lia. done.
Qed.

Ltac by_bits x y z :=
  let n := fresh "n" in let Hn := fresh "Hn" in
  apply Z.bits_inj'; intros n Hn;
  repeat first [rewrite Z.lxor_spec | rewrite Z.land_spec | rewrite Z.lor_spec | rewrite not32_bits by done];
  destruct (decide (n < 32)%Z) as [Hlt|Hge];
  [ rewrite bool_decide_true by done; by destruct (Z.testbit x n), (Z.testbit y n), (Z.testbit z n)
  | rewrite bool_decide_false by done; by rewrite !word_bits by (done || lia) ].

Lemma F1_F x y z : is_word x -> is_word y -> is_word z -> F1 x y z = Rfc.F x y z.
Proof. intros Hx Hy Hz. unfold F1, Rfc.F. by_bits x y z. Qed.

Lemma F2_G x y z : is_word x -> is_word y -> is_word z -> F2 x y z = Rfc.G x y z.
Proof. intros Hx Hy Hz. unfold F2, F1, Rfc.G. by_bits x y z. Qed.

Lemma F3_H x y z : F3 x y z = Rfc.H x y z.
Proof. unfold F3, Rfc.H. by rewrite Z.lxor_assoc. Qed.

Lemma F4_I x y z : is_word z -> F4 x y z = Rfc.I x y z.
Proof. intros Hz. unfold F4, Rfc.I. by rewrite not32_lnot. Qed.

Lemma lor_disjoint a b s : (0 <= s)%Z -> (a mod 2 ^ s = 0)%Z -> (0 <= b < 2 ^ s)%Z -> Z.lor a b = (a + b)%Z.
Proof.
  intros Hs Ha Hb. rewrite <- Z.add_lor_land. assert (Z.land a b = 0%Z) as ->; [|lia].
  apply Z.bits_inj'. intros n Hn. rewrite Z.land_spec, Z.bits_0. destruct (decide (n < s)%Z).
  - apply Z.mod_divide in Ha as [k ->]; [|lia]. by rewrite Z.mul_pow2_bits_low.
  - destruct (decide (b = 0%Z)) as [->|]; [by rewrite Z.bits_0, andb_false_r|].
    rewrite (Z.bits_above_log2 b), andb_false_r; [done|lia|]. destruct Hb as [Hb0 Hb]. apply Z.log2_lt_pow2 in Hb; lia.
Qed.

Lemma rotate_ok w s : is_word w -> (0 < s < 32)%Z -> Z.lor (u32 (Z.shiftl w s)) (Z.shiftr w (32 - s)) = Rfc.rotl w s.
Proof.
  intros [H1 H2] Hs. unfold Rfc.rotl, u32, wrap. rewrite Z.shiftl_mul_pow2, Z.shiftr_div_pow2 by lia.
  apply (lor_disjoint _ _ s); [lia| |].
  - replace (2 ^ 32)%Z with (2 ^ (32 - s) * 2 ^ s)%Z by (rewrite <- Z.pow_add_r by lia; f_equal; lia).
    rewrite Z.mul_mod_distr_r by lia. apply Z.mod_mul. lia.
  - split; [apply Z.div_pos; lia|]. apply Z.div_lt_upper_bound; [lia|]. rewrite <- Z.pow_add_r by lia.
    by replace (32 - s + s)%Z with 32%Z by lia.
Qed.

(** ** One block *)

(** A step of the code with function [f] and row [r] is operation [i]. *)
Definition same_step (f : Z -> Z -> Z -> Z) (r : Z * Z * Z) (i : nat) : Prop :=
  r = (Z.of_nat (Rfc.index i), Rfc.T i, Rfc.shifts i) /\ (0 < Rfc.shifts i < 32)%Z /\
  (forall x y z, is_word x -> is_word y -> is_word z -> f x y z = Rfc.func i x y z).

Lemma byte_sum a b c d :
  is_byte a -> is_byte b -> is_byte c -> is_byte d ->
  Z.lor a (Z.lor (Z.shiftl b 8) (Z.lor (Z.shiftl c 16) (Z.shiftl d 24))) = (a + 2 ^ 8 * b + 2 ^ 16 * c + 2 ^ 24 * d)%Z.
Proof.
  unfold is_byte. intros Ha Hb Hc Hd. rewrite !Z.shiftl_mul_pow2 by lia.
  rewrite (Z.lor_comm (c * 2 ^ 16)), (lor_disjoint (d * 2 ^ 24) (c * 2 ^ 16) 24);
    [|lia|by rewrite Z.mod_mul by lia|lia].
  rewrite (Z.lor_comm (b * 2 ^ 8)), (lor_disjoint _ (b * 2 ^ 8) 16); [|lia| |lia].
  2:{ replace (d * 2 ^ 24 + c * 2 ^ 16)%Z with ((d * 2 ^ 8 + c) * 2 ^ 16)%Z by lia. by apply Z.mod_mul. }
  rewrite (Z.lor_comm a), (lor_disjoint _ a 8); [lia|lia| |lia].
  replace (d * 2 ^ 24 + c * 2 ^ 16 + b * 2 ^ 8)%Z with ((d * 2 ^ 16 + c * 2 ^ 8 + b) * 2 ^ 8)%Z by lia. by apply Z.mod_mul.
Qed.

Lemma nth_byte l i : Forall is_byte l -> is_byte (nth i l 0%Z).
Proof.
  intros H. destruct (decide (i < length l)).
  - rewrite List.Forall_forall in H. by apply H, nth_In.
  - rewrite nth_overflow by lia. unfold is_byte. lia.
Qed.

Lemma in_word_ok b i : Forall is_byte b -> in_word b (Z.of_nat i) = Rfc.word b i.
Proof.
  intros Hb. unfold in_word, Rfc.word. rewrite Nat2Z.id, Nat.add_0_r. apply byte_sum; by apply nth_byte.
Qed.

Lemma step_ok f r i b st :
  same_step f r i -> Forall is_byte b -> words st -> step f b st r = Rfc.operation b st i /\ words (Rfc.operation b st i).
Proof.
  intros (-> & Hs & Hf) Hb. destruct st as [[[a x] y] z]. intros (Ha & Hx & Hy & Hz). unfold step, Rfc.operation.
  split; [|split_and!; try done; by apply Z.mod_pos_bound].
  unfold MD5STEP. rewrite rotate_ok by (apply u32_word || done). rewrite Hf, in_word_ok by done.
  unfold u32, wrap. rewrite (Z.add_comm (Rfc.rotl _ _) x).
  rewrite (Zplus_mod_idemp_r (Rfc.word b (Rfc.index i) + Rfc.T i)), (Zplus_mod_idemp_r (Rfc.func i x y z + _)).
  by rewrite !Z.add_assoc.
Qed.

Lemma steps_ok f rs ks b : forall st,
  Forall2 (same_step f) rs ks -> Forall is_byte b -> words st ->
  foldl (step f b) st rs = foldl (Rfc.operation b) st ks /\ words (foldl (Rfc.operation b) st ks).
Proof.
  intros st H Hb. revert st. induction H as [|r i rs ks Hr _ IH]; intros st Hst; [done|]. cbn [foldl].
  destruct (step_ok f r i b st Hr Hb Hst) as [-> Hw]. by apply IH.
Qed.

(** A round of the code: 16 operations from [k] on. *)
Definition rows_ok (rs : list (Z * Z * Z)) (k : nat) : Prop :=
  k + 16 <= 64 /\
  Forall2 (fun r i => r = (Z.of_nat (Rfc.index i), nth i Sine.literals 0%Z, Rfc.shifts i) /\ (0 < Rfc.shifts i < 32)%Z) rs (seq k 16).

Lemma T_literal i : i < 64 -> Rfc.T i = nth i Sine.literals 0%Z.
Proof.
  intros Hi. unfold Rfc.T. rewrite <- Sine.sine_table.
  rewrite (nth_indep _ _ (Sine.sine_constant 0)) by (rewrite length_map, length_seq; lia).
  by rewrite map_nth, seq_nth by lia.
Qed.

Lemma rounds_ok : rows_ok round1 0 /\ rows_ok round2 16 /\ rows_ok round3 32 /\ rows_ok round4 48.
Proof. unfold rows_ok. split_and!; try lia; repeat apply Forall2_cons_2; try apply Forall2_nil_2; by vm_compute. Qed.

Lemma round_ok f g rs k b st :
  rows_ok rs k -> (forall i, k <= i < k + 16 -> Rfc.func i = g) ->
  (forall x y z, is_word x -> is_word y -> is_word z -> f x y z = g x y z) ->
  Forall is_byte b -> words st ->
  foldl (step f b) st rs = foldl (Rfc.operation b) st (seq k 16) /\ words (foldl (Rfc.operation b) st (seq k 16)).
Proof.
  intros [Hk Hr] Hg Hf. apply steps_ok. apply Forall2_same_length_lookup in Hr as [Hl Hr].
  apply Forall2_same_length_lookup. split; [done|]. intros j r i Er Ei. destruct (Hr j r i Er Ei) as [-> Hs].
  apply lookup_seq in Ei as [-> Hj]. rewrite <- T_literal by lia. split_and!; try done; try lia. rewrite Hg by lia. exact Hf.
Qed.

Ltac func_is := let i := fresh in let Hi := fresh in intros i Hi; unfold Rfc.func; repeat case_decide; (done || lia).

Lemma all_rounds st b :
  words st -> Forall is_byte b ->
  foldl (step F4 b) (foldl (step F3 b) (foldl (step F2 b) (foldl (step F1 b) st round1) round2) round3) round4 =
    foldl (Rfc.operation b) st (seq 0 64) /\ words (foldl (Rfc.operation b) st (seq 0 64)).
Proof.
  intros Hst Hb. destruct rounds_ok as (R1 & R2 & R3 & R4).
  change (seq 0 64) with (((seq 0 16 ++ seq 16 16) ++ seq 32 16) ++ seq 48 16). rewrite !foldl_app.
  destruct (round_ok F1 Rfc.F round1 0 b st R1 ltac:(func_is) ltac:(apply F1_F) Hb Hst) as [E1 H1].
  rewrite E1. revert H1. generalize (foldl (Rfc.operation b) st (seq 0 16)). clear E1. intros s1 H1.
  destruct (round_ok F2 Rfc.G round2 16 b s1 R2 ltac:(func_is) ltac:(apply F2_G) Hb H1) as [E2 H2].
  rewrite E2. revert H2. generalize (foldl (Rfc.operation b) s1 (seq 16 16)). clear E2. intros s2 H2.
  destruct (round_ok F3 Rfc.H round3 32 b s2 R3 ltac:(func_is) ltac:(by intros; apply F3_H) Hb H2) as [E3 H3].
  rewrite E3. revert H3. generalize (foldl (Rfc.operation b) s2 (seq 32 16)). clear E3. intros s3 H3.
  exact (round_ok F4 Rfc.I round4 48 b s3 R4 ltac:(func_is) ltac:(by intros; apply F4_I) Hb H3).
Qed.

Lemma transform_ok st b :
  words st -> Forall is_byte b -> MD5Transform st b = Rfc.block st b /\ words (Rfc.block st b).
Proof.
  intros Hst Hb. destruct (all_rounds st b Hst Hb) as [E Hw]. unfold MD5Transform, Rfc.block. rewrite E. clear E.
  destruct (foldl (Rfc.operation b) st (seq 0 64)) as [[[a' b'] c'] d'], st as [[[a0 b0] c0] d0].
  split; [done|]. split_and!; by apply Z.mod_pos_bound.
Qed.

(** ** Blocks of a message *)
Lemma blocks_app g n : forall st m r, 64 * n <= length m -> blocks g n st (m ++ r) = blocks g n st m.
Proof.
  induction n as [|n IH]; intros st m r Hl; cbn [blocks]; [done|]. rewrite take_app_le, drop_app_le by lia. apply IH.
  rewrite length_drop. lia.
Qed.

Lemma blocks_snoc g n : forall st m, blocks g (S n) st m = g (blocks g n st m) (take 64 (drop (64 * n) m)).
Proof.
  induction n as [|n IH]; intros st m; [done|].
  change (blocks g (S (S n)) st m) with (blocks g (S n) (g st (take 64 m)) (drop 64 m)). rewrite IH. cbn [blocks].
  rewrite drop_drop. do 3 f_equal. lia.
Qed.

(** A message and one more block. *)
Lemma blocks_next g st m b :
  length m mod 64 = 0 -> length b = 64 ->
  blocks g (length (m ++ b) / 64) st (m ++ b) = g (blocks g (length m / 64) st m) b.
Proof.
  intros Hm Hb. assert (length m = 64 * (length m / 64)) as E by (pose proof (Nat.div_mod_eq (length m) 64); lia).
  replace (length (m ++ b) / 64) with (S (length m / 64)).
  - rewrite blocks_snoc, blocks_app by lia. f_equal. rewrite <- E, drop_app_length. by rewrite take_ge by lia.
  - rewrite length_app, Hb. replace (length m + 64) with (length m + 1 * 64) by lia. rewrite Nat.div_add by lia. lia.
Qed.

Lemma blocks_ok n : forall st m,
  words st -> Forall is_byte m -> blocks MD5Transform n st m = blocks Rfc.block n st m /\ words (blocks Rfc.block n st m).
Proof.
  induction n as [|n IH]; intros st m Hst Hm; cbn [blocks]; [done|].
  destruct (transform_ok st (take 64 m) Hst) as [-> Hw]; [by apply Forall_take|]. apply IH; [done|by apply Forall_drop].
Qed.

(** ** What a context has taken in *)
Definition rest (m : list Z) : list Z := drop (64 * (length m / 64)) m.

Record absorbed (ctx : MD5Context) (m : list Z) : Prop := {
  ab_buf : md5_buf ctx = blocks MD5Transform (length m / 64) Rfc.start m;
  ab_bytes0 : bytes0 ctx = (Z.of_nat (length m) mod 2 ^ 32)%Z;
  ab_bytes1 : bytes1 ctx = (Z.of_nat (length m) / 2 ^ 32 mod 2 ^ 32)%Z;
  ab_len : length (md5_in ctx) = 64;
  ab_in : take (length m mod 64) (md5_in ctx) = rest m
}.

Lemma length_rest m : length (rest m) = length m mod 64.
Proof. unfold rest. rewrite length_drop. pose proof (Nat.div_mod_eq (length m) 64). lia. Qed.

Lemma rest_nil m : length m mod 64 = 0 -> rest m = [].
Proof. intros H. apply length_zero_iff_nil. by rewrite length_rest. Qed.

(** Bytes that do not fill a block. *)
Lemma small_append m d : length m mod 64 + length d < 64 -> length (m ++ d) / 64 = length m / 64 /\ rest (m ++ d) = rest m ++ d.
Proof.
  intros H. assert (length (m ++ d) / 64 = length m / 64) as E.
  { rewrite length_app. pose proof (Nat.div_mod_eq (length m) 64). symmetry. apply (Nat.div_unique _ _ _ (length m mod 64 + length d)); lia. }
  split; [done|]. unfold rest. rewrite E, drop_app_le; [done|]. pose proof (Nat.div_mod_eq (length m) 64). lia.
Qed.

Lemma absorb_small ctx m d b0 b1 b :
  absorbed ctx m -> length m mod 64 + length d < 64 ->
  buf_write (md5_in ctx) (length m mod 64) d = Some b ->
  b0 = (Z.of_nat (length (m ++ d)) mod 2 ^ 32)%Z -> b1 = (Z.of_nat (length (m ++ d)) / 2 ^ 32 mod 2 ^ 32)%Z ->
  absorbed (mk_md5 (md5_buf ctx) b0 b1 b) (m ++ d).
Proof.
  intros [Hb _ _ Hl Hi] Hd Hw -> ->. destruct (small_append m d Hd) as [Hq Hr].
  rewrite buf_write_Some in Hw by lia. apply (inj Some) in Hw as <-.
  assert (length (m ++ d) mod 64 = length m mod 64 + length d) as Hmod.
  { rewrite <- length_rest, Hr, length_app, length_rest. done. }
  split; cbn [md5_buf bytes0 bytes1 md5_in]; try done.
  - rewrite Hq, Hb, blocks_app; [done|]. pose proof (Nat.div_mod_eq (length m) 64). lia.
  - rewrite length_splice; lia.
  - rewrite Hmod, Hr, <- Hi. unfold splice. rewrite app_assoc, take_app_le by (rewrite length_app, length_take; lia).
    apply take_ge. rewrite length_app, length_take. lia.
Qed.

(** What is left after whole blocks. *)
Lemma last_chunk ctx m data :
  length m mod 64 = 0 -> md5_buf ctx = blocks MD5Transform (length m / 64) Rfc.start m -> length (md5_in ctx) = 64 ->
  bytes0 ctx = (Z.of_nat (length (m ++ data)) mod 2 ^ 32)%Z -> bytes1 ctx = (Z.of_nat (length (m ++ data)) / 2 ^ 32 mod 2 ^ 32)%Z ->
  length data < 64 ->
  exists ctx', (b ← buf_write (md5_in ctx) 0 data; Some (ctx <| md5_in := b |>)) = Some ctx' /\ absorbed ctx' (m ++ data).
Proof.
  destruct ctx as [buf b0 b1 b]. cbn [md5_buf bytes0 bytes1 md5_in]. intros Hm Hb Hl H0 H1 Hd.
  rewrite buf_write_Some by lia. cbn [mbind option_bind]. eexists. split; [done|].
  apply (absorb_small (mk_md5 buf (Z.of_nat (length m) mod 2 ^ 32)%Z (Z.of_nat (length m) / 2 ^ 32 mod 2 ^ 32)%Z b) m data b0 b1);
    [|lia| |done|done].
  - split; try done. cbn [md5_in]. by rewrite rest_nil, Hm, take_0 by done.
  - rewrite Hm. apply buf_write_Some. cbn [md5_in]. lia.
Qed.

(** The loop over whole blocks. *)
Lemma chunks_ok fuel : forall ctx m data,
  length m mod 64 = 0 -> md5_buf ctx = blocks MD5Transform (length m / 64) Rfc.start m -> length (md5_in ctx) = 64 ->
  bytes0 ctx = (Z.of_nat (length (m ++ data)) mod 2 ^ 32)%Z -> bytes1 ctx = (Z.of_nat (length (m ++ data)) / 2 ^ 32 mod 2 ^ 32)%Z ->
  length data < 64 * S fuel ->
  exists ctx', update_chunks fuel ctx data = Some ctx' /\ absorbed ctx' (m ++ data).
Proof.
  induction fuel as [|fuel IH]; intros ctx m data Hm Hb Hl H0 H1 Hf; cbn [update_chunks]; case_decide as Hd; try lia.
  1,2: by apply last_chunk.
  rewrite buf_write_Some by (rewrite length_take; lia). cbn [mbind option_bind].
  assert (length (take 64 data) = 64) as H64 by (rewrite length_take; lia).
  assert (splice (md5_in ctx) 0 (take 64 data) = take 64 data) as Es.
  { unfold splice. rewrite take_0, app_nil_l, drop_ge by lia. apply app_nil_r. }
  destruct (IH (ctx <| md5_in := splice (md5_in ctx) 0 (take 64 data) |>
                    <| md5_buf := MD5Transform (md5_buf ctx) (splice (md5_in ctx) 0 (take 64 data)) |>)
    (m ++ take 64 data) (drop 64 data)) as (ctx' & E & Ha).
  - rewrite length_app, H64. replace (length m + 64) with (length m + 1 * 64) by lia. by rewrite Nat.Div0.mod_add.
  - cbn [md5_buf]. by rewrite Es, blocks_next, Hb by done.
  - cbn. rewrite Es. done.
  - rewrite <- app_assoc, take_drop. done.
  - rewrite <- app_assoc, take_drop. done.
  - rewrite length_drop. lia.
  - exists ctx'. rewrite <- app_assoc, take_drop in Ha. done.
Qed.

(** ** The counters *)
Lemma count_carry L n :
  (0 <= L)%Z -> (0 <= n < 2 ^ 32)%Z ->
  let t := (L mod 2 ^ 32)%Z in
  u32 (t + n) = ((L + n) mod 2 ^ 32)%Z /\
  (if decide (u32 (t + n) < t)%Z then u32 (L / 2 ^ 32 mod 2 ^ 32 + 1) else (L / 2 ^ 32) mod 2 ^ 32)%Z =
    ((L + n) / 2 ^ 32 mod 2 ^ 32)%Z.
Proof.
  intros HL Hn t. unfold u32, wrap. pose proof (Z.mod_pos_bound L (2 ^ 32) ltac:(lia)) as Ht. fold t in Ht.
  assert (L = 2 ^ 32 * (L / 2 ^ 32) + t)%Z as EL by (apply Z.div_mod; lia).
  split; [unfold t; apply Zplus_mod_idemp_l|].
  destruct (decide (2 ^ 32 <= t + n)%Z) as [Hc|Hc].
  - assert ((t + n) mod 2 ^ 32 = t + n - 2 ^ 32)%Z as -> by (symmetry; apply (Z.mod_unique_pos _ _ 1); lia).
    rewrite decide_True by lia. rewrite Zplus_mod_idemp_l. f_equal. apply (Z.div_unique_pos _ _ _ (t + n - 2 ^ 32)); lia.
  - rewrite Z.mod_small by lia. rewrite decide_False by lia. f_equal. apply (Z.div_unique_pos _ _ _ (t + n)); lia.
Qed.

Lemma count_ok ctx m data :
  absorbed ctx m -> (Z.of_nat (length data) < 2 ^ 32)%Z ->
  count_bytes ctx (Z.of_nat (length data)) =
    mk_md5 (md5_buf ctx) (Z.of_nat (length (m ++ data)) mod 2 ^ 32) (Z.of_nat (length (m ++ data)) / 2 ^ 32 mod 2 ^ 32) (md5_in ctx).
Proof.
  intros [_ H0 H1 _ _] Hlen.
  destruct (count_carry (Z.of_nat (length m)) (Z.of_nat (length data)) ltac:(lia) ltac:(lia)) as [E0 E1].
  rewrite <- Nat2Z.inj_add, <- length_app in E0, E1. unfold count_bytes. cbn. rewrite <- E1, <- E0, H0, H1. case_decide; [done|]. by rewrite <- H1.
Qed.

Lemma low6 n : Z.land (Z.of_nat n mod 2 ^ 32) 0x3f = Z.of_nat (n mod 64).
Proof.
  change 0x3f%Z with (Z.ones 6). rewrite Z.land_ones by lia. rewrite Nat2Z.inj_mod.
  apply (Z.mod_mod_divide (Z.of_nat n) (2 ^ 32) (2 ^ 6)). by exists (2 ^ 26)%Z.
Qed.

Lemma update_ok ctx m data :
  absorbed ctx m -> (Z.of_nat (length data) < 2 ^ 32)%Z ->
  exists ctx', MD5Update ctx data = Some ctx' /\ absorbed ctx' (m ++ data).
Proof.
  intros Ha Hlen. pose proof Ha as [Hb H0 H1 Hl Hi]. destruct ctx as [buf b0 b1 b]. cbn [md5_buf bytes0 bytes1 md5_in] in *.
  unfold MD5Update. rewrite (count_ok _ _ _ Ha Hlen). cbn [bytes0 md5_buf]. rewrite H0, low6.
  pose proof (Nat.mod_upper_bound (length m) 64 ltac:(lia)) as Hr.
  replace (Z.to_nat (64 - Z.of_nat (length m mod 64))) with (64 - length m mod 64) by lia.
  replace (64 - (64 - length m mod 64)) with (length m mod 64) by lia. cbn [md5_in].
  case_decide as Hd.
  - rewrite buf_write_Some by lia. cbn [mbind option_bind]. eexists. split; [done|].
    apply (absorb_small (mk_md5 buf b0 b1 b) m data _ _ _ Ha); [lia| |done|done]. cbn [md5_in]. apply buf_write_Some. lia.
  - set (t := 64 - length m mod 64) in *. rewrite buf_write_Some by (rewrite length_take; lia). cbn [mbind option_bind].
    assert (length (take t data) = t) as Ht by (rewrite length_take; lia).
    assert (splice b (length m mod 64) (take t data) = rest m ++ take t data) as Es.
    { unfold splice. rewrite Hi, Ht, drop_ge by lia. by rewrite app_nil_r. }
    pose proof (Nat.div_mod_eq (length m) 64) as Hdm.
    assert (m ++ take t data = take (64 * (length m / 64)) m ++ rest m ++ take t data) as Em.
    { unfold rest. by rewrite app_assoc, take_drop. }
    assert (length (take (64 * (length m / 64)) m) = 64 * (length m / 64)) as Hq by (rewrite length_take; lia).
    destruct (chunks_ok (length data) (mk_md5 (MD5Transform buf (rest m ++ take t data))
      (Z.of_nat (length (m ++ data)) mod 2 ^ 32) (Z.of_nat (length (m ++ data)) / 2 ^ 32 mod 2 ^ 32) (rest m ++ take t data))
      (m ++ take t data) (drop t data)) as (ctx' & E & Hab).
    + rewrite length_app, Ht. replace (length m + t) with (0 + (length m / 64 + 1) * 64) by lia. by rewrite Nat.Div0.mod_add.
    + cbn [md5_buf]. rewrite Em, blocks_next.
      * rewrite Hq, Nat.mul_comm, Nat.div_mul by lia. f_equal. rewrite Hb. rewrite <- (take_drop (64 * (length m / 64)) m) at 2.
        rewrite blocks_app by lia. f_equal. f_equal. lia.
      * rewrite Hq, Nat.mul_comm. apply Nat.Div0.mod_mul.
      * rewrite length_app, length_rest, Ht. lia.
    + cbn [md5_in]. rewrite length_app, length_rest, Ht. lia.
    + by rewrite <- app_assoc, take_drop.
    + by rewrite <- app_assoc, take_drop.
    + rewrite length_drop. lia.
    + exists ctx'. rewrite Es. rewrite <- app_assoc, take_drop in Hab. by split.
Qed.

(** ** The padding *)
Lemma write_at pre tail l n :
  n = length pre -> length l <= length tail -> buf_write (pre ++ tail) n l = Some (pre ++ l ++ drop (length l) tail).
Proof.
  intros -> Hl. rewrite buf_write_Some by (rewrite length_app; lia). unfold splice. rewrite take_app_length, <- drop_drop, drop_app_length.
  done.
Qed.

Lemma set_at pre tail x n : n = length pre -> 0 < length tail -> buf_set (pre ++ tail) n x = Some ((pre ++ [x]) ++ drop 1 tail).
Proof.
  intros -> Hl. unfold buf_set. rewrite decide_True by (rewrite length_app; lia). destruct tail as [|y tail]; [cbn in Hl; lia|].
  rewrite insert_app_r_alt, Nat.sub_diag by lia. cbn. by rewrite <- app_assoc.
Qed.

Lemma le_word_bytes v : le_word v = Rfc.le_bytes 4 v.
Proof.
  unfold le_word. cbn [Rfc.le_bytes]. change 0xff%Z with (Z.ones 8). rewrite !Z.land_ones, !Z.shiftr_div_pow2 by lia.
  rewrite !Z.div_div by lia. done.
Qed.

Lemma le_bytes_mod n : forall v, Rfc.le_bytes n (v mod 256 ^ Z.of_nat n) = Rfc.le_bytes n v.
Proof.
  induction n as [|n IH]; intros v; [done|]. cbn [Rfc.le_bytes]. rewrite Nat2Z.inj_succ, Z.pow_succ_r by lia. f_equal.
  - apply Z.mod_mod_divide. by apply Z.divide_factor_l.
  - rewrite <- (IH (v / 256)%Z). f_equal. rewrite Z.rem_mul_r by lia. rewrite Z.add_comm, (Z.mul_comm 256), Z.div_add_l by lia.
    rewrite (Z.div_small (v mod 256)) by (apply Z.mod_pos_bound; lia). lia.
Qed.

Lemma le_bytes_split v : Rfc.le_bytes 8 v = Rfc.le_bytes 4 v ++ Rfc.le_bytes 4 (v / 2 ^ 32).
Proof. cbn [Rfc.le_bytes app]. rewrite !Z.div_div by lia. done. Qed.

(** The two words of the length are the 64 bits of RFC 1321. *)
Lemma length_words L :
  (0 <= L)%Z ->
  le_word (u32 (Z.shiftl (L mod 2 ^ 32) 3)) ++
    le_word (Z.lor (u32 (Z.shiftl (L / 2 ^ 32 mod 2 ^ 32) 3)) (Z.shiftr (L mod 2 ^ 32) 29)) =
  Rfc.le_bytes 8 ((8 * L) mod 2 ^ 64).
Proof.
  intros HL. change (2 ^ 64)%Z with (256 ^ Z.of_nat 8)%Z. rewrite (le_bytes_mod 8 (8 * L)), le_bytes_split, !le_word_bytes. f_equal.
  - rewrite <- (le_bytes_mod 4 (8 * L)). f_equal. unfold u32, wrap. rewrite Z.shiftl_mul_pow2 by lia.
    rewrite Zmult_mod_idemp_l. f_equal. lia.
  - rewrite <- (le_bytes_mod 4 (8 * L / 2 ^ 32)). f_equal. change (256 ^ Z.of_nat 4)%Z with (2 ^ 32)%Z.
    rewrite Z.shiftl_mul_pow2, Z.shiftr_div_pow2 by lia. unfold u32, wrap. rewrite Zmult_mod_idemp_l.
    set (h := (L / 2 ^ 32)%Z). set (l := (L mod 2 ^ 32)%Z).
    assert (L = 2 ^ 32 * h + l)%Z as EL by (apply Z.div_mod; lia).
    assert (0 <= l < 2 ^ 32)%Z as Hl by (apply Z.mod_pos_bound; lia).
    assert (0 <= l / 2 ^ 29 < 2 ^ 3)%Z as Hq by (split; [apply Z.div_pos; lia|apply Z.div_lt_upper_bound; lia]).
    assert ((h * 2 ^ 3) mod 2 ^ 32 = h mod 2 ^ 29 * 2 ^ 3)%Z as ->.
    { change (2 ^ 32)%Z with (2 ^ 29 * 2 ^ 3)%Z. by rewrite Z.mul_mod_distr_r. }
    rewrite (lor_disjoint _ _ 3); [|lia|by apply Z.mod_mul|done].
    assert (8 * L / 2 ^ 32 = 8 * h + l / 2 ^ 29)%Z as ->.
    { symmetry. pose proof (Z.div_mod l (2 ^ 29) ltac:(lia)). pose proof (Z.mod_pos_bound l (2 ^ 29) ltac:(lia)).
      apply (Z.div_unique_pos _ _ _ (8 * (l mod 2 ^ 29))); lia. }
    pose proof (Z.div_mod h (2 ^ 29) ltac:(lia)). pose proof (Z.mod_pos_bound h (2 ^ 29) ltac:(lia)).
    apply (Z.mod_unique_pos _ _ (h / 2 ^ 29)); lia.
Qed.

(** The writes that complete the last block. *)
Lemma finish {A} pre tail p k w1 w2 (K : list Z -> option A) :
  length pre = p -> p + k = 56 -> length tail = 64 - p -> length w1 = 4 -> length w2 = 4 ->
  (b ← buf_write (pre ++ tail) p (replicate k 0%Z); b ← buf_write b 56 w1; b ← buf_write b 60 w2; K b) =
    K (pre ++ replicate k 0%Z ++ w1 ++ w2).
Proof.
  intros Hp Hk Ht H1 H2. rewrite write_at by (rewrite ?length_replicate; lia). cbn [mbind option_bind].
  rewrite app_assoc, write_at by (rewrite ?length_app, ?length_drop, ?length_replicate; lia). cbn [mbind option_bind].
  rewrite app_assoc, write_at by (rewrite ?length_app, ?length_drop, ?length_replicate; lia). cbn [mbind option_bind].
  f_equal. rewrite drop_ge, app_nil_r by (rewrite ?length_drop, ?length_replicate; lia). by rewrite <- !app_assoc.
Qed.

Lemma le_bytes_ok n : forall v, Forall is_byte (Rfc.le_bytes n v) /\ length (Rfc.le_bytes n v) = n.
Proof.
  induction n as [|n IH]; intros v; cbn; [done|]. destruct (IH (v / 256)%Z) as [H1 H2]. split; [|lia].
  constructor; [|done]. unfold is_byte. pose proof (Z.mod_pos_bound v 256). lia.
Qed.

Lemma padding_bytes m : Forall is_byte (Rfc.padding m).
Proof.
  unfold Rfc.padding. constructor; [done|]. apply Forall_app. split; [|apply le_bytes_ok].
  apply Forall_replicate. done.
Qed.

Lemma digest_ok m X :
  Forall is_byte m -> X = blocks MD5Transform (length (m ++ Rfc.padding m) / 64) Rfc.start (m ++ Rfc.padding m) ->
  (let '(a, b, c, d) := X in Some (le_word a ++ le_word b ++ le_word c ++ le_word d)) = Some (Rfc.md5 m).
Proof.
  intros Hm ->. unfold Rfc.md5.
  destruct (blocks_ok (length (m ++ Rfc.padding m) / 64) Rfc.start (m ++ Rfc.padding m)) as [-> _].
  { by unfold words, is_word, Rfc.start. }
  { apply Forall_app. split; [done|apply padding_bytes]. }
  destruct (blocks Rfc.block _ _ _) as [[[a b] c] d]. by rewrite !le_word_bytes.
Qed.

(** The whole blocks of a message. *)
Lemma whole_blocks m :
  exists q, m = q ++ rest m /\ length q mod 64 = 0 /\ length q / 64 = length m / 64.
Proof.
  exists (take (64 * (length m / 64)) m). unfold rest. rewrite take_drop. pose proof (Nat.div_mod_eq (length m) 64) as E.
  rewrite length_take, Nat.min_l, Nat.mul_comm by lia. split_and!; [done|apply Nat.Div0.mod_mul|by apply Nat.div_mul].
Qed.

(** The last blocks. *)
Lemma final_ok ctx m : absorbed ctx m -> Forall is_byte m -> MD5Final ctx = Some (Rfc.md5 m).
Proof.
  intros [Hb H0 H1 Hl Hi] Hm. unfold MD5Final. rewrite H0, H1, low6, Nat2Z.id.
  pose proof (Nat.mod_upper_bound (length m) 64 ltac:(lia)) as Hr. pose proof (length_rest m) as Hlr.
  rewrite <- (take_drop (length m mod 64) (md5_in ctx)), Hi.
  assert (length (drop (length m mod 64) (md5_in ctx)) = 64 - length m mod 64) as Hlt by (rewrite length_drop; lia).
  generalize dependent (drop (length m mod 64) (md5_in ctx)). intros tail Hlt. clear Hi Hl.
  rewrite set_at by lia. cbn [mbind option_bind].
  destruct (whole_blocks m) as (q & Eq & Hq & Eqd).
  assert (md5_buf ctx = blocks MD5Transform (length q / 64) Rfc.start q) as Hbq.
  { rewrite Hb, Eqd. rewrite Eq at 2. apply blocks_app. pose proof (Nat.div_mod_eq (length q) 64). lia. }
  set (w2 := le_word (Z.lor _ _)). set (w1 := le_word (u32 _)).
  assert (w1 ++ w2 = Rfc.le_bytes 8 ((8 * Z.of_nat (length m)) mod 2 ^ 64)) as Hw by (apply length_words; lia).
  assert (length w1 = 4 /\ length w2 = 4) as [Hw1 Hw2] by done. clearbody w1 w2.
  case_decide as Hc.
  - rewrite write_at by (rewrite ?length_app, ?length_drop, ?length_replicate; cbn [length]; lia). cbn [mbind option_bind].
    match goal with |- context [buf_write ?b 0 _] => change (buf_write b 0) with (buf_write ([] ++ b) 0) end.
    rewrite (finish [] _ 0 (Z.to_nat 56) w1 w2) by (done || (rewrite ?length_app, ?length_drop, ?length_replicate; cbn [length]; lia)).
    apply digest_ok; [done|]. unfold Rfc.padding. rewrite <- Hw.
    rewrite (Nat.mod_small (119 - length m mod 64)) by lia.
    replace (119 - length m mod 64) with ((63 - length m mod 64) + 56) by lia. rewrite replicate_add.
    set (b1 := (rest m ++ [128%Z]) ++ replicate (63 - length m mod 64) 0%Z).
    set (b2 := replicate 56 0%Z ++ w1 ++ w2).
    assert (m ++ 128%Z :: (replicate (63 - length m mod 64) 0%Z ++ replicate 56 0%Z) ++ w1 ++ w2 = (q ++ b1) ++ b2) as ->.
    { rewrite Eq at 1. unfold b1, b2. by rewrite <- !app_assoc. }
    assert (length b1 = 64) as Hb1 by (unfold b1; rewrite !length_app, length_replicate; cbn [length]; lia).
    assert (length b2 = 64) as Hb2 by (unfold b2; rewrite !length_app, length_replicate; lia).
    assert (length (q ++ b1) mod 64 = 0) as Hq1.
    { rewrite length_app, Hb1. replace (length q + 64) with (length q + 1 * 64) by lia. by rewrite Nat.Div0.mod_add. }
    rewrite blocks_next, blocks_next by done. f_equal. rewrite Hbq. f_equal.
    unfold b1. f_equal. rewrite drop_ge, app_nil_r by (rewrite length_drop, length_replicate; lia). f_equal. lia.
  - cbn [mbind option_bind]. rewrite finish by (rewrite ?length_app, ?length_drop; cbn [length]; lia). apply digest_ok; [done|].
    unfold Rfc.padding. rewrite <- Hw.
    replace ((119 - length m mod 64) mod 64) with (55 - length m mod 64).
    2:{ replace (119 - length m mod 64) with (55 - length m mod 64 + 1 * 64) by lia. rewrite Nat.Div0.mod_add. by rewrite (Nat.mod_small (55 - _)) by lia. }
    set (b1 := (rest m ++ [128%Z]) ++ replicate (55 - length m mod 64) 0%Z ++ w1 ++ w2).
    assert (m ++ 128%Z :: replicate (55 - length m mod 64) 0%Z ++ w1 ++ w2 = q ++ b1) as ->.
    { rewrite Eq at 1. unfold b1. by rewrite <- !app_assoc. }
    rewrite blocks_next, <- Hbq; [|done|unfold b1; rewrite !length_app, length_replicate; cbn [length]; lia].
    f_equal. unfold b1. do 2 f_equal. f_equal. lia.
Qed.

Lemma init_absorbs ctx : length (md5_in ctx) = 64 -> absorbed (MD5Init ctx) [].
Proof. by split. Qed.

Definition chunk_ok (d : list Z) : Prop := Forall is_byte d /\ (Z.of_nat (length d) < 2 ^ 32)%Z.

Lemma updates_ok chunks : forall ctx m,
  absorbed ctx m -> Forall chunk_ok chunks ->
  exists ctx', foldl (fun c d => c ← c; MD5Update c d) (Some ctx) chunks = Some ctx' /\ absorbed ctx' (m ++ concat chunks).
Proof.
  induction chunks as [|d chunks IH]; intros ctx m Ha Hc; cbn [foldl concat]; [exists ctx; by rewrite app_nil_r|].
  apply Forall_cons_iff in Hc as [[_ Hd] Hc]. destruct (update_ok ctx m d Ha Hd) as (c1 & E & H1). cbn [mbind option_bind].
  rewrite E. destruct (IH c1 (m ++ d) H1 Hc) as (c2 & E2 & H2). exists c2. by rewrite app_assoc.
Qed.

Lemma md5_stream_ok ctx chunks :
  length (md5_in ctx) = 64 -> Forall chunk_ok chunks -> md5_stream ctx chunks = Some (Rfc.md5 (concat chunks)).
Proof.
  intros Hl Hc. unfold md5_stream. destruct (updates_ok chunks (MD5Init ctx) [] (init_absorbs ctx Hl) Hc) as (c & -> & Ha).
  cbn [mbind option_bind app]. apply final_ok; [exact Ha|]. apply Forall_concat. eapply List.Forall_impl; [|exact Hc]. by intros d [Hd _].
Qed.

(** C27: the digest code is MD5.  Whatever the memory of the context held, and
    however a message is cut into pieces of less than 2^32 bytes, MD5Init,
    MD5Update for each piece and MD5Final stay inside the context and give the
    digest of RFC 1321 of the whole message; the functions of the code, the order
    in which it takes the words, its constants, its rotations and its counters
    agree with the definitions there.  The reference shares no table with the code:
    its constants are the integer parts of 2^32 abs(sin(i)) of the real sine
    function. *)
Theorem md5_correct ctx chunks :
  length (md5_in ctx) = 64 -> Forall chunk_ok chunks -> md5_stream ctx chunks = Some (Rfc.md5 (concat chunks)).
Proof. apply md5_stream_ok. Qed.

(** The test suite of RFC 1321. *)
Module TestSuite.
Definition hex (s : string) : list Z :=
  let v c := if decide (c < char "a")%Z then (c - char "0")%Z else (c - char "a" + 10)%Z in
  (fix pairs l := match l with a :: b :: l => (16 * v a + v b)%Z :: pairs l | _ => [] end) (str s).

Definition ctx0 : MD5Context := mk_md5 (1, 2, 3, 4)%Z 5 6 (replicate 64 7%Z).

Example rfc1321_suite :
  md5_stream ctx0 [] = Some (hex "d41d8cd98f00b204e9800998ecf8427e") /\
  md5_stream ctx0 [str "a"] = Some (hex "0cc175b9c0f1b6a831c399e269772661") /\
  md5_stream ctx0 [str "abc"] = Some (hex "900150983cd24fb0d6963f7d28e17f72") /\
  md5_stream ctx0 [str "message digest"] = Some (hex "f96b697d7cb7938d525a2f31aaf161d0") /\
  md5_stream ctx0 [str "abcdefghijklmnopqrstuvwxyz"] = Some (hex "c3fcd3d76192e4007dfb496cca67e13b") /\
  md5_stream ctx0 [str "ABCDEFGHIJKLMNOPQRSTUVWXYZabcdefghijklmnopqrstuvwxyz0123456789"] = Some (hex "d174ab98d277d9f5a5611c2c9f419d9f") /\
  md5_stream ctx0 [str "12345678901234567890123456789012345678901234567890123456789012345678901234567890"] =
    Some (hex "57edf4a22be3c955ac49da2e2107b67a").
Proof. vm_compute. split_and!; reflexivity. Qed.

Definition pieces : list (list Z) := [str "message "; []; replicate 70 (char "x"); str "digest"].

Lemma md5_correct_witness : md5_stream ctx0 pieces = Some (Rfc.md5 (concat pieces)).
Proof.
  apply (md5_correct ctx0 pieces); [reflexivity|]. apply (bool_decide_unpack _). vm_compute. exact I.
Defined.
End TestSuite.
