(* ===== verification/Iname.v ===== *)
(** * iscsi-iname (utils/iscsi-iname.c)

    The program prints a name for the initiator: a prefix and six bytes of an MD5
    digest over random bytes, the time and the identity of the host. *)
From Stdlib Require Import ZArith Lia Ascii.
From stdpp Require Import base tactics numbers list strings option.
From S2P Require Import Prelude CString AuthText Md5 Md5Theorems.

Definition PREFIX_MAX_LEN : nat := 210.

(** What the system answers: the bytes read from the random device ([None] when it
    cannot be opened, [[]] when the read fails), the time, the host id and
    [struct utsname] as they lie in memory, and one more random byte. *)
Record system := mk_system {
  sys_entropy : option (list Z);
  sys_time : option (list Z * list Z);
  sys_hostid : list Z;
  sys_uname : option (list Z * list Z * list Z * list Z * list Z);
  sys_choice : option Z
}.

(** The exit code and what was printed on the standard output. *)
Record exit_with := mk_exit { code : Z; stdout : list Z }.

(** The prefix, or the end of the program; [args] is [argv] from 1 on. *)
Definition HELP : list Z := [10%Z] ++ str "Generates a unique iSCSI node name on every invocation." ++ [10%Z].

Definition get_prefix (args : list (list Z)) : exit_with + list Z :=
  match args with
  | [] => inr (str "iqn.2016-04.com.open-iscsi")
  | a :: _ =>
      if decide (a = str "-h") then inl (mk_exit 0 HELP)
      else if decide (a = str "--help") then inl (mk_exit 0 HELP)
      else if decide (a = str "-p") then
        match args with
        | [_; prefix] => if decide (PREFIX_MAX_LEN < length prefix) then inl (mk_exit 1 []) else inr prefix
        | _ => inl (mk_exit 1 [])
        end
      else inl (mk_exit 0 [])
  end.

(** The pieces given to [MD5Update]. *)
Definition collected (s : system) (time uname : list (list Z)) : list (list Z) :=
  (match sys_entropy s with Some (c :: l) => [c :: l] | _ => [] end) ++ time ++ [sys_hostid s] ++ uname.

(** [%x] of a byte. *)
Definition hex_char (n : Z) : Z := nth (Z.to_nat n) (str "0123456789abcdef") 0%Z.
Definition fmt_x (n : Z) : list Z := if decide (n < 16)%Z then [hex_char n] else [hex_char (n / 16); hex_char (n mod 16)].

(** The context is cleared by [memset]. *)
Definition zero_context : MD5Context := mk_md5 (0, 0, 0, 0)%Z 0 0 (replicate 64 0%Z).

Definition print_name (prefix digest : list Z) (choice : option Z) : option (list Z) :=
  let bytes := match choice with Some e => Z.to_nat (e mod (16 - 6)) | None => 0 end in
  six ← buf_prefix (drop bytes digest) 6;
  Some (prefix ++ str ":" ++ concat (fmt_x <$> six) ++ [10%Z]).

Definition iname_main (args : list (list Z)) (s : system) : option exit_with :=
  match get_prefix args with
  | inl e => Some e
  | inr prefix =>
      match sys_time s with
      | None => Some (mk_exit 1 [])
      | Some (sec, usec) =>
          match sys_uname s with
          | None => Some (mk_exit 1 [])
          | Some (sysname, nodename, release, version, machine) =>
              digest ← md5_stream zero_context (collected s [sec; usec] [sysname; nodename; release; version; machine]);
              out ← print_name prefix digest (sys_choice s);
              Some (mk_exit 0 out)
          end
      end
  end.

(** ** Properties *)
Lemma length_md5 m : length (Rfc.md5 m) = 16.
Proof. unfold Rfc.md5. destruct (blocks _ _ _ _) as [[[a b] c] d]. done. Qed.

Lemma md5_bytes m : Forall is_byte (Rfc.md5 m).
Proof.
  unfold Rfc.md5. destruct (blocks _ _ _ _) as [[[a b] c] d]. repeat (apply Forall_app; split); apply le_bytes_ok.
Qed.

Lemma fmt_x_length n : 1 <= length (fmt_x n) <= 2.
Proof. unfold fmt_x. case_decide; cbn; lia. Qed.

Lemma fmt_x_total l : length l <= length (concat (fmt_x <$> l)) <= 2 * length l.
Proof.
  induction l as [|n l IH]; [cbn; lia|]. rewrite fmap_cons. cbn [concat length]. rewrite length_app.
  pose proof (fmt_x_length n). lia.
Qed.

Definition system_ok (s : system) : Prop :=
  Forall chunk_ok (from_option (fun l => [l]) [] (sys_entropy s)) /\
  (forall a b, sys_time s = Some (a, b) -> Forall chunk_ok [a; b]) /\ chunk_ok (sys_hostid s) /\
  (forall a b c d e, sys_uname s = Some (a, b, c, d, e) -> Forall chunk_ok [a; b; c; d; e]) /\
  (forall e, sys_choice s = Some e -> is_byte e).

Lemma get_prefix_length args prefix : get_prefix args = inr prefix -> length prefix <= PREFIX_MAX_LEN.
Proof.
  unfold get_prefix, PREFIX_MAX_LEN. destruct args as [|a [|p [|? ?]]]; intros H; repeat case_decide; try discriminate;
    injection H as <-; (vm_compute; lia) || lia.
Qed.

Lemma iname_runs args s prefix a b u :
  system_ok s -> get_prefix args = inr prefix -> sys_time s = Some (a, b) -> sys_uname s = Some u ->
  exists k six, k <= 9 /\
    six = take 6 (drop k (Rfc.md5 (concat (collected s [a; b] (let '(x1, x2, x3, x4, x5) := u in [x1; x2; x3; x4; x5]))))) /\
    length six = 6 /\
    iname_main args s = Some (mk_exit 0 (prefix ++ str ":" ++ concat (fmt_x <$> six) ++ [10%Z])).
Proof.
  intros (He & Ht & Hh & Hu & Hc) Hp Et Eu. destruct u as [[[[x1 x2] x3] x4] x5]. unfold iname_main. rewrite Hp, Et, Eu.
  rewrite md5_stream_ok; [|done|].
  2:{ unfold collected. apply Forall_app. split; [by destruct (sys_entropy s) as [[|? ?]|]; [constructor| |constructor]|].
      apply Forall_app. split; [by apply Ht|]. apply Forall_app. split; [by apply Forall_singleton|]. by apply Hu. }
  cbn [mbind option_bind]. set (digest := Rfc.md5 _). assert (length digest = 16) as Hd by apply length_md5. clearbody digest.
  unfold print_name. set (k := match sys_choice s with Some e => _ | None => 0 end).
  assert (k <= 9) as Hk.
  { unfold k. destruct (sys_choice s) as [e|]; [|lia]. pose proof (Z.mod_pos_bound e (16 - 6)). lia. }
  rewrite buf_prefix_Some by (rewrite length_drop; lia). cbn [mbind option_bind].
  exists k, (take 6 (drop k digest)). split_and!; [done|done|rewrite length_take, length_drop; lia|done].
Qed.

(** the name that iscsi-iname prints.  When the time and the name of the
    host can be read, the program ends with code 0 and prints the prefix, a
    colon and six bytes of the digest (RFC 1321) of everything it collected, in
    hexadecimal; the name has between 7 characters more than the prefix and 13
    more, so never more than the 223 that iSCSI allows. *)
Theorem iname_prints_name args s prefix a b u :
  system_ok s -> get_prefix args = inr prefix -> sys_time s = Some (a, b) -> sys_uname s = Some u ->
  exists k six name, k <= 9 /\
    six = take 6 (drop k (Rfc.md5 (concat (collected s [a; b] (let '(x1, x2, x3, x4, x5) := u in [x1; x2; x3; x4; x5]))))) /\
    name = prefix ++ str ":" ++ concat (fmt_x <$> six) /\
    iname_main args s = Some (mk_exit 0 (name ++ [10%Z])) /\
    length prefix + 7 <= length name <= length prefix + 13 /\ length name <= 223.
Proof.
  intros Hs Hp Et Eu. destruct (iname_runs args s prefix a b u Hs Hp Et Eu) as (k & six & Hk & E6 & H6 & E).
  exists k, six, (prefix ++ str ":" ++ concat (fmt_x <$> six)). pose proof (get_prefix_length args prefix Hp) as Hl.
  unfold PREFIX_MAX_LEN in Hl. pose proof (fmt_x_total six) as Hx. rewrite H6 in Hx.
  split_and!; [done|done|done|by rewrite E, <- !app_assoc|..]; rewrite !length_app; change (length (str ":")) with 1; lia.
Qed.

Module InameExample.
Definition host : system :=
  mk_system (Some (str "0123456789abcdef")) (Some (replicate 8 1%Z, replicate 8 2%Z)) (replicate 8 3%Z)
    (Some (replicate 65 4%Z, replicate 65 5%Z, replicate 65 6%Z, replicate 65 7%Z, replicate 65 8%Z)) (Some 23%Z).

Definition uname0 := (replicate 65 4%Z, replicate 65 5%Z, replicate 65 6%Z, replicate 65 7%Z, replicate 65 8%Z).

Lemma host_ok : system_ok host.
Proof.
  unfold system_ok. split_and!.
  - apply (bool_decide_unpack _). vm_compute. exact I.
  - intros a b [= <- <-]. apply (bool_decide_unpack _). vm_compute. exact I.
  - apply (bool_decide_unpack _). vm_compute. exact I.
  - intros a b c d e [= <- <- <- <- <-]. apply (bool_decide_unpack _). vm_compute. exact I.
  - intros e [= <-]. apply (bool_decide_unpack _). vm_compute. exact I.
Qed.

Lemma iname_prints_name_witness :
  exists k six name, k <= 9 /\
    six = take 6 (drop k (Rfc.md5 (concat (collected host [replicate 8 1%Z; replicate 8 2%Z]
                                             (let '(x1, x2, x3, x4, x5) := uname0 in [x1; x2; x3; x4; x5]))))) /\
    name = str "iqn.2020-01.org.example" ++ str ":" ++ concat (fmt_x <$> six) /\
    iname_main [str "-p"; str "iqn.2020-01.org.example"] host = Some (mk_exit 0 (name ++ [10%Z])) /\
    length (str "iqn.2020-01.org.example") + 7 <= length name <= length (str "iqn.2020-01.org.example") + 13 /\
    length name <= 223.
Proof.
  apply (iname_prints_name [str "-p"; str "iqn.2020-01.org.example"] host (str "iqn.2020-01.org.example")
           (replicate 8 1%Z) (replicate 8 2%Z) uname0); [exact host_ok|reflexivity|reflexivity|reflexivity].
Defined.

(** Bytes are printed without a leading zero, so that different digests give the
    same name. *)
Example names_collide :
  concat (fmt_x <$> [0x01; 0x23; 0x45; 0x67; 0x89; 0xab]%Z) = concat (fmt_x <$> [0x12; 0x03; 0x45; 0x67; 0x89; 0xab]%Z) /\
  length (concat (fmt_x <$> [1; 2; 3; 4; 5; 6]%Z)) = 6.
Proof. by vm_compute. Qed.
End InameExample.
