(* ===== verification/Ipc.v ===== *)
(** * Management requests (usr/mgmt_ipc.c, usr/iscsid_req.c)

    iscsiadm and the daemon exchange a request and a response, both C structures,
    over a local socket.  [mgmt_ipc_handle] is the side of the daemon; the tasks
    on sessions are those of [Initiator] and are an argument here.
    [iscsid_exec_req] is the side of the client.  The structures are their bytes:
    the command is at 0, the length of the payload of a request and the error of
    a response at 4, the unions at 8. *)
From Stdlib Require Import ZArith Lia Ascii.
From stdpp Require Import base tactics numbers list strings option.
From S2P Require Import Prelude CString Login.

Definition ISCSI_SUCCESS : Z := 0.
Definition ISCSI_ERR : Z := 1.
Definition ISCSI_ERR_ACCESS : Z := 13.
Definition ISCSI_ERR_INVALID_MGMT_REQ : Z := 16.
Definition ISCSI_ERR_ISCSID_COMM_ERR : Z := 18.
Definition ISCSI_ERR_ISCSID_NOTCONN : Z := 20.
Definition ISCSI_ERR_REQ_TIMEDOUT : Z := 33.

Definition MGMT_IPC_CONN_ADD : Z := 5.
Definition MGMT_IPC_CONN_REMOVE : Z := 6.
Definition MGMT_IPC_CONFIG_INAME : Z := 8.
Definition MGMT_IPC_CONFIG_IALIAS : Z := 9.
Definition MGMT_IPC_CONFIG_FILE : Z := 10.
Definition MGMT_IPC_NOTIFY_ADD_NODE : Z := 16.
Definition MGMT_IPC_NOTIFY_DEL_PORTAL : Z := 19.
Definition __MGMT_IPC_MAX_COMMAND : Z := 20.

(** The commands whose tasks are in other files: login, logout, statistics, stop,
    synchronisation, session information, discovery by the adapter. *)
Definition session_commands : list Z := [1; 2; 7; 11; 12; 13; 15]%Z.

Definition EXTMSG_MAX : Z := 64 * 1024.
Definition PEERUSER_MAX : nat := 64.
Definition VALUE_MAXLEN : nat := 255.

(** ** 32-bit fields *)
Definition le32 (v : Z) : list Z := [v mod 2 ^ 8; v / 2 ^ 8 mod 2 ^ 8; v / 2 ^ 16 mod 2 ^ 8; v / 2 ^ 24 mod 2 ^ 8]%Z.

Definition get_u32 (b : list Z) (off : nat) : Z :=
  (nth off b 0 + 2 ^ 8 * nth (off + 1) b 0 + 2 ^ 16 * nth (off + 2) b 0 + 2 ^ 24 * nth (off + 3) b 0)%Z.

Definition put_u32 (b : list Z) (off : nat) (v : Z) : list Z := splice b off (le32 (u32 v)).

(** ** Reading a request *)

(** What happens on the socket of a client: bytes arrive, a read is interrupted or
    fails, the client closes. *)
Inductive ipc_event := IBytes (l : list Z) | IEintr | IError | IEof.

(** [DataWaits]: the read blocks. *)
Inductive data_result := DataOk (data : list Z) | DataEIO | DataWaits.

Fixpoint mgmt_ipc_read_data (net : list ipc_event) (got : list Z) (len : nat) : data_result * list ipc_event :=
  if decide (len = 0) then (DataOk got, net)
  else
    match net with
    | [] => (DataWaits, [])
    | IEintr :: net => mgmt_ipc_read_data net got len
    | IError :: net | IEof :: net | IBytes [] :: net => (DataEIO, net)
    | IBytes l :: net =>
        if decide (length l <= len) then mgmt_ipc_read_data net (got ++ l) (len - length l)
        else (DataOk (got ++ take len l), IBytes (drop len l) :: net)
    end.

Record queue_task := mk_qtask { q_req : list Z; q_rsp : list Z; q_payload : option (list Z) }.
#[export] Instance eta_qtask : Eta queue_task := fun q => mk_qtask (q_req q) (q_rsp q) (q_payload q).

Inductive req_result := ReqOk (req : list Z) (payload : option (list Z)) | ReqFailed | ReqWaits.

(** ** The handlers *)

(** A handler answers, keeps the request, or returns an error. *)
Inductive handled := Answered (rsp : list Z) | Kept | Returned (err : Z).

(** [mgmt_ipc_write_rsp]: the bytes written to the client. *)
Definition write_rsp (q : queue_task) (err : Z) : list Z := put_u32 (q_rsp q) 4 err.

(** [strcpy(qtask->rsp.u.config.var, s)]. *)
Definition copy_config (q : queue_task) (s : list Z) : option queue_task :=
  if decide (length s < VALUE_MAXLEN) then b ← buf_write (q_rsp q) 8 (s ++ [NUL]); Some (q <| q_rsp := b |>) else None.

(** The strings of the daemon; [None] is NULL. *)
Record dconfig := mk_dconfig { d_name : option (list Z); d_alias : option (list Z); d_config_file : option (list Z) }.

Definition mgmt_ipc_cfg_initiatorname (dc : dconfig) (q : queue_task) : option handled :=
  q ← match d_name dc with Some s => copy_config q s | None => Some q end;
  Some (Answered (write_rsp q ISCSI_SUCCESS)).

Definition mgmt_ipc_cfg_initiatoralias (dc : dconfig) (q : queue_task) : option handled :=
  s ← d_alias dc;
  q ← copy_config q s;
  Some (Answered (write_rsp q ISCSI_SUCCESS)).

Definition mgmt_ipc_cfg_filename (dc : dconfig) (q : queue_task) : option handled :=
  s ← d_config_file dc;
  q ← copy_config q s;
  Some (Answered (write_rsp q ISCSI_SUCCESS)).

(** ** Lists of strings

    A pass over the payload; [fill] is false in the first one, in which [argv] is
    not yet allocated.  [left] is what the code leaves it: the length of the
    payload.  The result is the list of the starts with the payload, -1, an access
    outside of the payload, or the fuel is used up. *)
Inductive pass := PassDone (argv : list nat) (payload : list Z) | PassBad | PassOutside | PassFuel.

Definition end_string (payload : list Z) (endp : option nat) : option (list Z) :=
  match endp with Some p => buf_set payload p NUL | None => Some payload end.

Fixpoint parse_pass (fuel : nat) (fill : bool) (payload : list Z) (left : Z) (data : nat) (endp : option nat) (argv : list nat)
    : pass :=
  match fuel with
  | O => PassFuel
  | S fuel =>
      if decide (left = 0%Z) then
        match end_string payload endp with Some b => PassDone argv b | None => PassOutside end
      else if decide (left < 4)%Z then PassBad
      else if decide (length payload < data + 4) then PassOutside
      else
        let len := get_u32 payload data in
        let data := data + 4 in
        match end_string payload endp with
        | None => PassOutside
        | Some payload =>
            if decide (left < len)%Z then PassBad
            else
              parse_pass fuel fill payload left (data + Z.to_nat len)
                (if fill then Some (data + Z.to_nat len) else endp) (argv ++ [data])
        end
  end.

(** The number of strings, -1, or [None] for an access outside of the payload.
    Each turn of the loop goes on by four bytes, so that the length of the
    payload is fuel enough. *)
Definition mgmt_ipc_parse_strings (payload : list Z) (payload_len : Z) : option Z :=
  let fuel := S (length payload) in
  match parse_pass fuel false payload payload_len 0 None [] with
  | PassDone _ b =>
      match parse_pass fuel true b payload_len 0 None [] with
      | PassDone argv _ => Some (Z.of_nat (length argv))
      | PassBad => Some (-1)%Z
      | _ => None
      end
  | PassBad => Some (-1)%Z
  | _ => None
  end.

(** The four handlers are dummies that return ISCSI_SUCCESS. *)
Definition mgmt_ipc_notify_common (q : queue_task) : option handled :=
  argc ← mgmt_ipc_parse_strings (default [] (q_payload q)) (get_u32 (q_req q) 4);
  Some (Answered (write_rsp q (if decide (0 < argc)%Z then ISCSI_SUCCESS else ISCSI_ERR))).

Section Daemon.
Context `{LEnv : LoginEnv}.
Variables sizeof_req sizeof_rsp : nat.
Variable session_task : Z -> queue_task -> handled.
Variable dc : dconfig.

Definition mgmt_ipc_read_req (net : list ipc_event) : req_result :=
  match mgmt_ipc_read_data net [] sizeof_req with
  | (DataOk req, net) =>
      let payload_len := get_u32 req 4 in
      if decide (0 < payload_len)%Z then
        if decide (EXTMSG_MAX < payload_len)%Z then ReqFailed
        else if negb (malloc (Z.to_nat payload_len + 1)) then ReqFailed
        else
          match mgmt_ipc_read_data net [] (Z.to_nat payload_len) with
          | (DataOk payload, _) => ReqOk req (Some (payload ++ [0%Z]))
          | (DataEIO, _) => ReqFailed
          | (DataWaits, _) => ReqWaits
          end
      else ReqOk req None
  | (DataEIO, _) => ReqFailed
  | (DataWaits, _) => ReqWaits
  end.

(** [mgmt_ipc_functions], with the call of the handler; [None] inside: no handler. *)
Definition mgmt_ipc_functions (command : Z) (q : queue_task) : option (option handled) :=
  if decide (command ∈ session_commands) then Some (Some (session_task command q))
  else if decide (command = MGMT_IPC_CONN_ADD \/ command = MGMT_IPC_CONN_REMOVE) then Some (Some (Returned ISCSI_ERR))
  else if decide (command = MGMT_IPC_CONFIG_INAME) then Some <$> mgmt_ipc_cfg_initiatorname dc q
  else if decide (command = MGMT_IPC_CONFIG_IALIAS) then Some <$> mgmt_ipc_cfg_initiatoralias dc q
  else if decide (command = MGMT_IPC_CONFIG_FILE) then Some <$> mgmt_ipc_cfg_filename dc q
  else if decide (MGMT_IPC_NOTIFY_ADD_NODE <= command <= MGMT_IPC_NOTIFY_DEL_PORTAL)%Z then Some <$> mgmt_ipc_notify_common q
  else Some None.

(** [mgmt_peeruser]: the name of the user behind the connection, cut to the buffer;
    [pw_name] is what [getpwuid] finds. *)
Definition mgmt_peeruser (pw_name : option (list Z)) : option (list Z) := take (PEERUSER_MAX - 1) <$> pw_name.

(** What becomes of a connection: nothing was accepted, it is closed without an
    answer, answered and closed, kept by a task, or still read. *)
Inductive ipc_outcome := NotAccepted | Closed | Replied (rsp : list Z) | KeptByTask | StillReading.

(** With the ghost: whether the request was handed to a handler. *)
Definition mgmt_ipc_handle (mem accepted : bool) (pw_name : option (list Z)) (net : list ipc_event) : option (ipc_outcome * bool) :=
  if negb mem then Some (NotAccepted, false)
  else if negb accepted then Some (NotAccepted, false)
  else
    let q := mk_qtask (replicate sizeof_req 0%Z) (replicate sizeof_rsp 0%Z) None in
    match mgmt_peeruser pw_name with
    | Some user =>
        if decide (user <> str "root") then Some (Replied (write_rsp q ISCSI_ERR_ACCESS), false)
        else
          match mgmt_ipc_read_req net with
          | ReqFailed => Some (Closed, false)
          | ReqWaits => Some (StillReading, false)
          | ReqOk req payload =>
              let command := get_u32 req 0 in
              let q := mk_qtask req (put_u32 (q_rsp q) 0 command) payload in
              h ← (if decide (0 < command < __MGMT_IPC_MAX_COMMAND)%Z then mgmt_ipc_functions command q else Some None);
              match h with
              | None => Some (Replied (write_rsp q ISCSI_ERR_INVALID_MGMT_REQ), false)
              | Some (Answered rsp) => Some (Replied rsp, true)
              | Some Kept => Some (KeptByTask, true)
              | Some (Returned err) =>
                  Some (if decide (err = ISCSI_SUCCESS) then KeptByTask else Replied (write_rsp q err), true)
              end
          end
    | None => Some (Replied (write_rsp q ISCSI_ERR_ACCESS), false)
    end.
End Daemon.

(** ** The client *)
Section Client.
Variables sizeof_req sizeof_rsp : nat.

Inductive connect_result := Connected | Refused | ConnectError.

(** What the client does until it is connected. *)
Inductive client_call := Connect | StartDaemon | SleepSeconds (n : Z) | CloseSocket.

Definition MAXSLEEP : Z := 128.

(** The loop with exponential backoff; [k] is the number of the attempt. *)
Fixpoint connect_loop (fuel : nat) (answers : nat -> connect_result) (start_iscsid : bool) (k : nat) (nsec : Z)
    : option (Z * list client_call) :=
  match fuel with
  | O => None
  | S fuel =>
      if decide (MAXSLEEP < nsec)%Z then Some (ISCSI_ERR_ISCSID_NOTCONN, [CloseSocket])
      else
        let delay := if decide (nsec <= MAXSLEEP / 2)%Z then [SleepSeconds nsec] else [] in
        let again calls := '(rc, rest) ← connect_loop fuel answers start_iscsid (S k) (Z.shiftl nsec 1); Some (rc, calls ++ rest) in
        match answers k with
        | Connected => Some (ISCSI_SUCCESS, [Connect])
        | Refused =>
            if start_iscsid && bool_decide (nsec = 1%Z) then again ([Connect; StartDaemon] ++ delay)
            else Some (ISCSI_ERR_ISCSID_NOTCONN, [Connect; CloseSocket])
        | ConnectError => again (Connect :: delay)
        end
  end.

(** [nsec] passes 128 after eight attempts. *)
Definition ipc_connect (socket_ok : bool) (answers : nat -> connect_result) (start_iscsid : bool) : option (Z * list client_call) :=
  if negb socket_ok then Some (ISCSI_ERR_ISCSID_NOTCONN, []) else connect_loop 9 answers start_iscsid 0 1.

(** [written] is what [write] returns. *)
Definition iscsid_request (socket_ok : bool) (answers : nat -> connect_result) (start_iscsid : bool) (written : Z)
    : option (Z * list client_call) :=
  '(err, calls) ← ipc_connect socket_ok answers start_iscsid;
  if truth err then Some (err, calls)
  else if decide (written <> Z.of_nat sizeof_req) then Some (ISCSI_ERR_ISCSID_COMM_ERR, calls ++ [CloseSocket])
  else Some (ISCSI_SUCCESS, calls).

(** A poll and, when there is something to read, the [recv] after it. *)
Inductive rsp_event := PollTimeout | PollError (eintr : bool) | PollIn (received : list Z) | PollInFailed | PollOther.

Inductive rsp_result := RspDone (err : Z) (rsp : list Z) (closed : bool) | RspWaits.

(** [len] is a [size_t]; [recv] writes to the start of the structure each time. *)
Fixpoint response_loop (es : list rsp_event) (cmd : Z) (rsp : list Z) (len iscsi_err : Z) : option rsp_result :=
  let finish rsp iscsi_err :=
    Some (RspDone (if bool_decide (iscsi_err = 0%Z) && bool_decide (cmd <> get_u32 rsp 0) then ISCSI_ERR_ISCSID_COMM_ERR
                   else iscsi_err) rsp true) in
  if decide (len = 0%Z) then finish rsp iscsi_err
  else
    match es with
    | [] => Some RspWaits
    | PollTimeout :: _ => Some (RspDone ISCSI_ERR_REQ_TIMEDOUT rsp false)
    | PollError true :: es | PollOther :: es => response_loop es cmd rsp len iscsi_err
    | PollError false :: _ => Some (RspDone ISCSI_ERR_ISCSID_COMM_ERR rsp false)
    | PollInFailed :: _ => finish rsp iscsi_err
    | PollIn l :: es =>
        rsp ← buf_write rsp 0 l;
        response_loop es cmd rsp ((len - Z.of_nat (length l)) mod 2 ^ 64)%Z (i32 (get_u32 rsp 4))
    end.

Definition iscsid_response (es : list rsp_event) (cmd : Z) (rsp : list Z) : option rsp_result :=
  response_loop es cmd rsp (Z.of_nat sizeof_rsp) ISCSI_ERR_ISCSID_COMM_ERR.

(** A request without data besides its command: what is sent. *)
Definition simple_req (command : Z) : list Z := put_u32 (replicate sizeof_req 0%Z) 0 command.

Definition iscsid_exec_req (command : Z) (rsp : list Z) (socket_ok : bool) (answers : nat -> connect_result)
    (start_iscsid : bool) (written : Z) (es : list rsp_event) : option rsp_result :=
  '(err, _) ← iscsid_request socket_ok answers start_iscsid written;
  if truth err then Some (RspDone err rsp (negb (bool_decide (err = ISCSI_ERR_ISCSID_NOTCONN) && negb socket_ok)))
  else iscsid_response es command rsp.
End Client.
