(* ===== verification/IpcTheorems.v ===== *)
(** * Management requests: properties *)
From Stdlib Require Import ZArith Lia Ascii.
From stdpp Require Import base tactics numbers list strings option.
From S2P Require Import Prelude CString Pdu Login Ipc.

(** ** Fields *)
Lemma length_le32 v : length (le32 v) = 4.
Proof. done. Qed.

Lemma nth_splice_in b off l i : off + length l <= length b -> i < length l -> nth (off + i) (splice b off l) 0%Z = nth i l 0%Z.
Proof. intros Hl Hi. rewrite nth_splice, decide_True by lia. f_equal. lia. Qed.

Lemma nth_splice_out b off l i :
  off + length l <= length b -> i < off \/ off + length l <= i -> nth i (splice b off l) 0%Z = nth i b 0%Z.
Proof. intros Hl Hi. by rewrite nth_splice, decide_False by lia. Qed.

Lemma le32_value v : (0 <= v < 2 ^ 32)%Z ->
  (v mod 2 ^ 8 + 2 ^ 8 * (v / 2 ^ 8 mod 2 ^ 8) + 2 ^ 16 * (v / 2 ^ 16 mod 2 ^ 8) + 2 ^ 24 * (v / 2 ^ 24 mod 2 ^ 8) = v)%Z.
Proof.
  intros Hv. rewrite (Z.mod_small (v / 2 ^ 24)) by (split; [apply Z.div_pos; lia|apply Z.div_lt_upper_bound; lia]).
  pose proof (Z.div_mod v (2 ^ 8)). pose proof (Z.div_mod (v / 2 ^ 8) (2 ^ 8)). pose proof (Z.div_mod (v / 2 ^ 16) (2 ^ 8)).
  rewrite !Z.div_div in * by lia. change (2 ^ 8 * 2 ^ 8)%Z with (2 ^ 16)%Z in *. change (2 ^ 16 * 2 ^ 8)%Z with (2 ^ 24)%Z in *. lia.
Qed.

Lemma get_put b off v : off + 4 <= length b -> get_u32 (put_u32 b off v) off = u32 v.
Proof.
  intros Hl. unfold get_u32, put_u32. pose proof (nth_splice_in b off (le32 (u32 v)) 0 Hl ltac:(rewrite length_le32; lia)) as E0.
  rewrite Nat.add_0_r in E0. rewrite E0, !nth_splice_in by (rewrite ?length_le32; lia).
  cbn [nth le32]. apply le32_value. apply (wrap_range 32). lia.
Qed.

Lemma get_put_ne b off off' v :
  off + 4 <= length b -> off' + 4 <= off \/ off + 4 <= off' -> get_u32 (put_u32 b off v) off' = get_u32 b off'.
Proof.
  intros Hl Ho. unfold get_u32, put_u32. rewrite !nth_splice_out by (rewrite ?length_le32; lia). done.
Qed.

Lemma length_put b off v : off + 4 <= length b -> length (put_u32 b off v) = length b.
Proof. intros H. apply length_splice. rewrite length_le32. lia. Qed.

(** ** Reading *)

(** Bytes in pieces, reads interrupted in between. *)
Definition pieces (net : list ipc_event) : Prop := Forall (fun e => match e with IBytes l => l <> [] | IEintr => True | _ => False end) net.
Definition bytes_of (net : list ipc_event) : list Z := concat ((fun e => match e with IBytes l => l | _ => [] end) <$> net).

Lemma read_data_ok net : forall got len,
  pieces net -> len <= length (bytes_of net) ->
  exists net', mgmt_ipc_read_data net got len = (DataOk (got ++ take len (bytes_of net)), net') /\
    pieces net' /\ bytes_of net' = drop len (bytes_of net).
Proof.
  induction net as [|e net IH]; intros got len Hp Hl.
  - cbn in Hl. assert (len = 0) as -> by lia. exists []. cbn. by rewrite app_nil_r.
  - cbn [mgmt_ipc_read_data]. case_decide as H0.
    { subst. exists (e :: net). by rewrite take_0, app_nil_r, drop_0. }
    apply Forall_cons_iff in Hp as [He Hp]. unfold bytes_of in *. rewrite fmap_cons in *. cbn [concat] in *.
    destruct e as [l| | |]; try done; [|by apply IH].
    destruct l as [|x l]; [done|]. rewrite length_app in Hl. case_decide as Hle.
    + destruct (IH (got ++ x :: l) (len - length (x :: l)) Hp ltac:(lia)) as (net' & -> & Hp' & Hb').
      exists net'. rewrite take_app_ge, drop_app_ge by lia. by rewrite <- app_assoc.
    + exists (IBytes (drop len (x :: l)) :: net). rewrite take_app_le, drop_app_le by lia. split_and!; [done| |done].
      constructor; [|done]. intros E. apply (f_equal length) in E. rewrite length_drop in E. cbn in E, Hle. lia.
Qed.

Lemma nth_zero n i : nth i (replicate n 0%Z) 0%Z = 0%Z.
Proof. revert i. induction n as [|n IH]; intros [|i]; cbn; by try apply IH. Qed.

Section Daemon.
Context `{LEnv : LoginEnv}.
Variables sizeof_req sizeof_rsp : nat.
Variable session_task : Z -> queue_task -> handled.
Variable dc : dconfig.
Hypothesis Hreq : 8 <= sizeof_req.
Hypothesis Hrsp : 8 + VALUE_MAXLEN <= sizeof_rsp.

Lemma root_only user : take (PEERUSER_MAX - 1) user = str "root" -> user = str "root".
Proof.
  intros H. assert (length (take (PEERUSER_MAX - 1) user) = 4) as Hl by (by rewrite H).
  rewrite length_take in Hl. unfold PEERUSER_MAX in *. rewrite take_ge in H by lia. done.
Qed.

(** C22: only root gets anything done.  When the user behind a connection is not
    root, or cannot be found out, the daemon hands no request to a handler, and
    what the client receives is the same whatever it sent: the error
    ISCSI_ERR_ACCESS. *)
Theorem requests_need_root mem accepted pw_name net :
  pw_name <> Some (str "root") ->
  exists o, mgmt_ipc_handle sizeof_req sizeof_rsp session_task dc mem accepted pw_name net = Some (o, false) /\
    (o = NotAccepted \/ exists rsp, o = Replied rsp /\ get_u32 rsp 4 = ISCSI_ERR_ACCESS /\
                          rsp = write_rsp (mk_qtask [] (replicate sizeof_rsp 0%Z) None) ISCSI_ERR_ACCESS).
Proof.
  intros Hu. unfold mgmt_ipc_handle. destruct mem; cbn [negb]; [|eauto]. destruct accepted; cbn [negb]; [|eauto].
  set (q := mk_qtask (replicate sizeof_req 0%Z) _ _).
  assert (exists o, Some (Replied (write_rsp q ISCSI_ERR_ACCESS), false) = Some (o, false) /\
    (o = NotAccepted \/ exists rsp, o = Replied rsp /\ get_u32 rsp 4 = ISCSI_ERR_ACCESS /\
                          rsp = write_rsp (mk_qtask [] (replicate sizeof_rsp 0%Z) None) ISCSI_ERR_ACCESS)) as Hd.
  { eexists. split; [done|]. right. eexists. split_and!; [done| |done]. unfold write_rsp.
    rewrite get_put; [done|]. cbn. rewrite length_replicate. unfold VALUE_MAXLEN in Hrsp. lia. }
  destruct pw_name as [user|]; [|exact Hd]. cbn [mgmt_peeruser fmap option_fmap option_map].
  rewrite decide_True; [exact Hd|]. intros E. apply Hu. f_equal. by apply root_only.
Qed.

Lemma length_simple_req c : length (simple_req sizeof_req c) = sizeof_req.
Proof. unfold simple_req. rewrite length_put; rewrite length_replicate; lia. Qed.

Lemma simple_req_fields c :
  (0 <= c < 2 ^ 32)%Z -> get_u32 (simple_req sizeof_req c) 0 = c /\ get_u32 (simple_req sizeof_req c) 4 = 0%Z.
Proof.
  intros Hc. unfold simple_req. split.
  - rewrite get_put by (rewrite length_replicate; lia). by apply wrap_small.
  - rewrite get_put_ne by (rewrite ?length_replicate; lia). unfold get_u32. by rewrite !nth_zero.
Qed.

(** A request without payload is read from any pieces. *)
Lemma read_simple_req net c :
  (0 <= c < 2 ^ 32)%Z -> pieces net -> bytes_of net = simple_req sizeof_req c ->
  mgmt_ipc_read_req sizeof_req net = ReqOk (simple_req sizeof_req c) None.
Proof.
  intros Hc Hp Hb. unfold mgmt_ipc_read_req. pose proof (length_simple_req c) as Hl.
  destruct (read_data_ok net [] sizeof_req Hp) as (net' & -> & _); [by rewrite Hb, Hl|].
  rewrite Hb, take_ge by lia. cbn [app]. rewrite (proj2 (simple_req_fields c Hc)). done.
Qed.

Lemma copy_config_ok q s :
  length (q_rsp q) = sizeof_rsp -> length s < VALUE_MAXLEN ->
  copy_config q s = Some (q <| q_rsp := splice (q_rsp q) 8 (s ++ [NUL]) |>).
Proof.
  intros Hq Hs. unfold copy_config. rewrite decide_True by done. rewrite buf_write_Some; [done|]. rewrite length_app. cbn [length]. lia.
Qed.

(** The response to a request for a string of the configuration. *)
Definition config_rsp (command : Z) (s : list Z) : list Z :=
  put_u32 (splice (put_u32 (replicate sizeof_rsp 0%Z) 0 command) 8 (s ++ [NUL])) 4 ISCSI_SUCCESS.

Lemma config_rsp_fields c s :
  (0 <= c < 2 ^ 32)%Z -> no_nul s -> length s < VALUE_MAXLEN ->
  length (config_rsp c s) = sizeof_rsp /\ get_u32 (config_rsp c s) 0 = c /\ get_u32 (config_rsp c s) 4 = 0%Z /\
  cstr (config_rsp c s) 8 = Some s.
Proof.
  intros Hc Hn Hl. unfold VALUE_MAXLEN in *. unfold config_rsp. set (b0 := put_u32 (replicate sizeof_rsp 0%Z) 0 c).
  assert (length b0 = sizeof_rsp) as L0 by (unfold b0; rewrite length_put; rewrite length_replicate; lia).
  assert (length (s ++ [NUL]) = length s + 1) as Ls by (rewrite length_app; done).
  assert (length (splice b0 8 (s ++ [NUL])) = sizeof_rsp) as L1 by (rewrite length_splice; lia).
  split_and!.
  - rewrite length_put; lia.
  - rewrite get_put_ne by lia. unfold get_u32. rewrite !nth_splice_out by lia. fold (get_u32 b0 0).
    change (get_u32 b0 0 = c). unfold b0. rewrite get_put by (rewrite length_replicate; lia). by apply wrap_small.
  - rewrite get_put by lia. done.
  - unfold put_u32. unfold cstr. unfold splice at 1. rewrite drop_app_ge by (rewrite length_take; lia).
    rewrite length_take, L1, Nat.min_l by lia. change (8 - 4) with 4. rewrite drop_app_ge by (rewrite length_le32; lia).
    rewrite length_le32, Nat.sub_diag, drop_0. change (4 + 4) with 8. rewrite drop_splice by lia.
    rewrite <- app_assoc. by apply cstr_of_app.
Qed.

Lemma dispatch_iname q : mgmt_ipc_functions session_task dc MGMT_IPC_CONFIG_INAME q = Some <$> mgmt_ipc_cfg_initiatorname dc q.
Proof. reflexivity. Qed.

Lemma dispatch_ialias q : mgmt_ipc_functions session_task dc MGMT_IPC_CONFIG_IALIAS q = Some <$> mgmt_ipc_cfg_initiatoralias dc q.
Proof. reflexivity. Qed.

Lemma dispatch_file q : mgmt_ipc_functions session_task dc MGMT_IPC_CONFIG_FILE q = Some <$> mgmt_ipc_cfg_filename dc q.
Proof. reflexivity. Qed.

Lemma handle_config net c name :
  pieces net -> bytes_of net = simple_req sizeof_req c -> no_nul name -> length name < VALUE_MAXLEN ->
  c = MGMT_IPC_CONFIG_INAME /\ d_name dc = Some name \/ c = MGMT_IPC_CONFIG_IALIAS /\ d_alias dc = Some name \/
  c = MGMT_IPC_CONFIG_FILE /\ d_config_file dc = Some name ->
  mgmt_ipc_handle sizeof_req sizeof_rsp session_task dc true true (Some (str "root")) net =
    Some (Replied (config_rsp c name), true).
Proof.
  intros Hp Hb Hn Hl Hc. assert (0 <= c < 2 ^ 32)%Z as Hc32 by (destruct Hc as [[-> _]|[[-> _]|[-> _]]]; done).
  unfold mgmt_ipc_handle. cbn [negb]. change (mgmt_peeruser (Some (str "root"))) with (Some (str "root")). cbn iota.
  rewrite decide_False by (by intros Hx; apply Hx). rewrite (read_simple_req net c Hc32 Hp Hb), (proj1 (simple_req_fields c Hc32)).
  cbn [q_rsp]. set (q := mk_qtask (simple_req sizeof_req c) _ None).
  assert (length (q_rsp q) = sizeof_rsp) as Hq.
  { cbn. rewrite length_put; rewrite length_replicate; unfold VALUE_MAXLEN in Hrsp; lia. }
  assert (mgmt_ipc_functions session_task dc c q = Some (Some (Answered (config_rsp c name)))) as E.
  { unfold config_rsp. pose proof (copy_config_ok q name Hq Hl) as Ec. unfold VALUE_MAXLEN in *.
    destruct Hc as [[-> Hd]|[[-> Hd]|[-> Hd]]]; rewrite ?dispatch_iname, ?dispatch_ialias, ?dispatch_file;
      unfold mgmt_ipc_cfg_initiatorname, mgmt_ipc_cfg_initiatoralias, mgmt_ipc_cfg_filename; rewrite Hd; cbn [mbind option_bind];
      by rewrite Ec. }
  rewrite E. rewrite decide_True by (destruct Hc as [[-> _]|[[-> _]|[-> _]]]; done). done.
Qed.

(** A [poll] that a signal interrupts, or that returns without something to read. *)
Definition idle_poll (e : rsp_event) : Prop := e = PollError true \/ e = PollOther.

(** A response that is received at once. *)
Lemma response_at_once cmd rsp rsp0 idle es :
  length rsp = sizeof_rsp -> length rsp0 = sizeof_rsp -> 0 < sizeof_rsp -> Forall idle_poll idle ->
  iscsid_response sizeof_rsp (idle ++ PollIn rsp :: es) cmd rsp0 =
    Some (RspDone (if bool_decide (i32 (get_u32 rsp 4) = 0%Z) && bool_decide (cmd <> get_u32 rsp 0)
                   then ISCSI_ERR_ISCSID_COMM_ERR else i32 (get_u32 rsp 4)) rsp true).
Proof.
  intros Hl H0 Hs Hi. unfold iscsid_response. induction Hi as [|e idle He _ IH].
  2:{ cbn [app response_loop]. rewrite decide_False by lia. by destruct He as [-> | ->]. }
  cbn [app response_loop]. rewrite decide_False by lia. rewrite buf_write_Some by lia.
  cbn [mbind option_bind]. assert (splice rsp0 0 rsp = rsp) as ->.
  { unfold splice. rewrite take_0, drop_ge by lia. apply app_nil_r. }
  rewrite Hl, Z.sub_diag. change (0 mod 2 ^ 64)%Z with 0%Z. destruct es; cbn [response_loop]; by rewrite decide_True by done.
Qed.

(** C23: asking the daemon for a string of its configuration (the name or the
    alias of the initiator, the configuration file).  When the client is connected
    and root, its request is read from whatever pieces it arrives in, and the
    client ends with success and exactly the string that the daemon has, for
    strings shorter than the 255 bytes of the response, after any number of
    interrupted or empty polls.  The client needs the response whole in one recv, as
    MSG_WAITALL delivers it unless a signal arrives meanwhile: for a response in two
    parts see [IpcExample.response_in_two_parts]. *)
Theorem config_roundtrip net c name answers start calls rsp0 idle es :
  c = MGMT_IPC_CONFIG_INAME /\ d_name dc = Some name \/ c = MGMT_IPC_CONFIG_IALIAS /\ d_alias dc = Some name \/
  c = MGMT_IPC_CONFIG_FILE /\ d_config_file dc = Some name ->
  no_nul name -> length name < VALUE_MAXLEN -> pieces net -> bytes_of net = simple_req sizeof_req c ->
  ipc_connect true answers start = Some (ISCSI_SUCCESS, calls) -> length rsp0 = sizeof_rsp -> Forall idle_poll idle ->
  exists rsp,
    mgmt_ipc_handle sizeof_req sizeof_rsp session_task dc true true (Some (str "root")) net = Some (Replied rsp, true) /\
    iscsid_exec_req sizeof_req sizeof_rsp c rsp0 true answers start (Z.of_nat sizeof_req) (idle ++ PollIn rsp :: es) =
      Some (RspDone ISCSI_SUCCESS rsp true) /\ cstr rsp 8 = Some name.
Proof.
  intros Hc Hn Hl Hp Hb Hcon H0 Hi. assert (0 <= c < 2 ^ 32)%Z as Hc32 by (destruct Hc as [[-> _]|[[-> _]|[-> _]]]; done).
  destruct (config_rsp_fields c name Hc32 Hn Hl) as (L & F0 & F4 & Fs).
  exists (config_rsp c name). split; [by apply handle_config|]. split; [|done].
  unfold iscsid_exec_req, iscsid_request. rewrite Hcon. cbn [mbind option_bind]. change (truth ISCSI_SUCCESS) with false. cbn iota.
  rewrite decide_False by (intros Hx; by apply Hx). cbn [mbind option_bind]. change (truth ISCSI_SUCCESS) with false. cbn iota.
  unfold VALUE_MAXLEN in Hrsp. rewrite response_at_once by (done || lia). rewrite F0, F4. change (i32 0) with 0%Z.
  rewrite (bool_decide_false (c <> c)) by (intros Hx; by apply Hx). by rewrite andb_false_r.
Qed.
End Daemon.

(** ** Lists of strings *)
Definition encode (ss : list (list Z)) : list Z := concat ((fun s => le32 (Z.of_nat (length s)) ++ s) <$> ss).

(** The count of the bytes that are left is never lowered, so that a pass over a
    payload does not come to an end. *)
Lemma pass_never_done fuel fill : forall payload left data endp argv,
  left <> 0%Z -> forall argv' b, parse_pass fuel fill payload left data endp argv <> PassDone argv' b.
Proof.
  induction fuel as [|fuel IH]; intros payload left data endp argv Hl argv' b; [done|]. cbn [parse_pass].
  rewrite decide_False by done. destruct (end_string payload endp); repeat case_decide; try done. by apply IH.
Qed.

Lemma get_u32_at pre v rest : (0 <= v < 2 ^ 32)%Z -> get_u32 (pre ++ le32 v ++ rest) (length pre) = v.
Proof.
  intros Hv. unfold get_u32. rewrite !(app_nth2 pre) by lia.
  replace (length pre - length pre) with 0 by lia. replace (length pre + 1 - length pre) with 1 by lia.
  replace (length pre + 2 - length pre) with 2 by lia. replace (length pre + 3 - length pre) with 3 by lia.
  cbn [le32 app nth]. by apply le32_value.
Qed.

Lemma pass_runs_over fuel : forall ss pre x left argv,
  Forall (fun s => Z.of_nat (length s) <= left)%Z ss -> (4 <= left < 2 ^ 32)%Z -> length ss < fuel ->
  parse_pass fuel false (pre ++ encode ss ++ [x]) left (length pre) None argv = PassOutside.
Proof.
  induction fuel as [|fuel IH]; intros ss pre x left argv Hs Hl Hf; [lia|]. cbn [parse_pass].
  rewrite decide_False by lia. rewrite decide_False by lia. destruct ss as [|s ss].
  - rewrite decide_True; [done|]. rewrite !length_app. cbn. lia.
  - apply Forall_cons_iff in Hs as [Hs1 Hs]. unfold encode. rewrite fmap_cons. cbn [concat]. fold (encode ss).
    rewrite decide_False by (rewrite !length_app, length_le32; lia). rewrite <- !app_assoc, get_u32_at by lia.
    cbn [end_string]. rewrite decide_False by lia. rewrite Nat2Z.id.
    replace (pre ++ le32 (Z.of_nat (length s)) ++ s ++ encode ss ++ [x]) with ((pre ++ le32 (Z.of_nat (length s)) ++ s) ++ encode ss ++ [x])
      by (by rewrite <- !app_assoc).
    replace (length pre + 4 + length s) with (length (pre ++ le32 (Z.of_nat (length s)) ++ s))
      by (rewrite !length_app, length_le32; lia).
    apply IH; [done|done|]. cbn in Hf. lia.
Qed.

Lemma encode_bounds ss : Forall (fun s => length s + 4 <= length (encode ss)) ss /\ 4 * length ss <= length (encode ss).
Proof.
  induction ss as [|s ss [IH1 IH2]]; [by split; [constructor|cbn; lia]|].
  assert (length (encode (s :: ss)) = length s + 4 + length (encode ss)) as E.
  { unfold encode. rewrite fmap_cons. cbn [concat]. rewrite !length_app, length_le32. lia. }
  rewrite E. split; [|cbn; lia]. constructor; [lia|]. eapply List.Forall_impl; [|exact IH1]. cbn. intros. lia.
Qed.

(** notifications cannot work.  The parser of their strings never lowers the
    count of the bytes that are left: for every payload it returns -1 or reads
    outside of it, never a list of strings; and for every list of strings that is
    encoded as the comment says (a 32-bit length, then the string) it does read
    outside of the payload. *)
Theorem notification_overrun ss x :
  ss <> [] -> (Z.of_nat (length (encode ss)) <= EXTMSG_MAX)%Z ->
  mgmt_ipc_parse_strings (encode ss ++ [x]) (Z.of_nat (length (encode ss))) = None /\
  forall payload n k, n <> 0%Z -> mgmt_ipc_parse_strings payload n = Some k -> k = (-1)%Z.
Proof.
  intros Hne Hmax. destruct (encode_bounds ss) as [Hs Hn]. unfold EXTMSG_MAX in Hmax.
  assert (0 < length ss) by (destruct ss; [done|cbn; lia]). split.
  - unfold mgmt_ipc_parse_strings. pose proof (pass_runs_over (S (length (encode ss ++ [x]))) ss [] x (Z.of_nat (length (encode ss))) []) as E.
    cbn [app length] in E. rewrite E; [done| |lia|rewrite length_app; lia].
    eapply List.Forall_impl; [|exact Hs]. cbn. intros. lia.
  - intros payload n k Hz. unfold mgmt_ipc_parse_strings.
    destruct (parse_pass _ false payload n 0 None []) eqn:E; [by apply pass_never_done in E|by intros [= <-]|done|done].
Qed.

(** ** Connecting *)

Definition is_connect (c : client_call) : bool := match c with Connect => true | _ => false end.
Definition connects (calls : list client_call) : nat := length (List.filter is_connect calls).

Definition connect_result_ok (rc : Z) (calls : list client_call) (n : nat) : Prop :=
  (rc = ISCSI_SUCCESS \/ rc = ISCSI_ERR_ISCSID_NOTCONN /\ exists pre, calls = pre ++ [CloseSocket]) /\ connects calls <= n.

Lemma ok_again rc calls n pre :
  connects pre = 1 -> connect_result_ok rc calls n -> connect_result_ok rc (pre ++ calls) (S n).
Proof.
  intros Hp [Hr Hn]. unfold connect_result_ok, connects in *. rewrite List.filter_app, length_app. split; [|lia].
  destruct Hr as [->|(-> & p & ->)]; [by left|]. right. split; [done|]. exists (pre ++ p). by rewrite app_assoc.
Qed.

Lemma loop_ends answers start fuel : forall k nsec,
  (0 < nsec)%Z -> (MAXSLEEP < nsec * 2 ^ (Z.of_nat fuel))%Z ->
  exists rc calls, connect_loop (S fuel) answers start k nsec = Some (rc, calls) /\ connect_result_ok rc calls fuel.
Proof.
  induction fuel as [|fuel IH]; intros k nsec Hp Hn.
  { cbn [connect_loop]. rewrite decide_True by lia. eexists _, _. split; [done|]. split; [right; split; [done|by exists []]|cbn; lia]. }
  destruct (IH (S k) (Z.shiftl nsec 1)) as (rc & calls & E & Hok).
  { rewrite Z.shiftl_mul_pow2 by lia. lia. }
  { rewrite Z.shiftl_mul_pow2 by lia. rewrite Nat2Z.inj_succ, Z.pow_succ_r in Hn by lia. lia. }
  remember (S fuel) as f eqn:Ef. cbn [connect_loop]. case_decide.
  { eexists _, _. split; [done|]. split; [right; split; [done|by exists []]|cbn; lia]. }
  rewrite E. cbn [mbind option_bind]. destruct (answers k).
  - eexists _, _. split; [done|]. split; [by left|cbn; lia].
  - destruct (start && _).
    + eexists _, _. split; [done|]. subst f. apply ok_again; [|done]. by case_decide.
    + eexists _, _. split; [done|]. split; [right; split; [done|by exists [Connect]]|cbn; lia].
  - eexists _, _. split; [done|]. subst f. apply ok_again; [|done]. by case_decide.
Qed.

(** The client gives up after at most eight attempts, and closes the socket when it
    does. *)
Lemma connect_ends answers start :
  exists rc calls, ipc_connect true answers start = Some (rc, calls) /\ connect_result_ok rc calls 8.
Proof. apply (loop_ends answers start 8 0 1); unfold MAXSLEEP; lia. Qed.

(** ** Runs *)
Module IpcExample.
Local Instance env : LoginEnv := {| getaddrinfo _ _ := None; malloc _ := true |}.

Definition tasks (command : Z) (q : queue_task) : handled := if decide (command = 1%Z) then Kept else Returned 21%Z.
Definition daemon : dconfig := mk_dconfig (Some (str "iqn.1993-08.org.debian:01:host")) None (Some (str "/etc/iscsi/iscsid.conf")).
Definition request_bytes : list Z := simple_req 16 MGMT_IPC_CONFIG_INAME.
Definition arriving : list ipc_event := [IBytes (take 3 request_bytes); IEintr; IBytes (drop 3 request_bytes)].

Lemma requests_need_root_witness :
  exists o, mgmt_ipc_handle 16 264 tasks daemon true true (Some (str "nobody")) arriving = Some (o, false) /\
    (o = NotAccepted \/ exists rsp, o = Replied rsp /\ get_u32 rsp 4 = ISCSI_ERR_ACCESS /\
                          rsp = write_rsp (mk_qtask [] (replicate 264 0%Z) None) ISCSI_ERR_ACCESS).
Proof.
  apply (requests_need_root 16 264 tasks daemon); [lia|unfold VALUE_MAXLEN; lia|].
  apply (bool_decide_unpack _). vm_compute. exact I.
Defined.

(** The daemon is started on the second attempt. *)
Definition starts (k : nat) : connect_result := match k with 0 => Refused | 1 => ConnectError | _ => Connected end.

Lemma config_roundtrip_witness :
  exists rsp,
    mgmt_ipc_handle 16 264 tasks daemon true true (Some (str "root")) arriving = Some (Replied rsp, true) /\
    iscsid_exec_req 16 264 MGMT_IPC_CONFIG_INAME (replicate 264 7%Z) true starts true (Z.of_nat 16) [PollError true; PollOther; PollIn rsp] =
      Some (RspDone ISCSI_SUCCESS rsp true) /\ cstr rsp 8 = Some (str "iqn.1993-08.org.debian:01:host").
Proof.
  apply (config_roundtrip 16 264 tasks daemon ltac:(lia) ltac:(unfold VALUE_MAXLEN; lia) arriving MGMT_IPC_CONFIG_INAME
    (str "iqn.1993-08.org.debian:01:host") starts true [Connect; StartDaemon; SleepSeconds 1; Connect; SleepSeconds 2; Connect]
    (replicate 264 7%Z) [PollError true; PollOther] []).
  - left. split; reflexivity.
  - apply (bool_decide_unpack _). vm_compute. exact I.
  - apply (bool_decide_unpack _). vm_compute. exact I.
  - repeat constructor; discriminate.
  - reflexivity.
  - reflexivity.
  - reflexivity.
  - repeat constructor; (left; reflexivity) || (right; reflexivity).
Defined.

Lemma notification_overrun_witness :
  mgmt_ipc_parse_strings (encode [str "iqn.x"; str "10.0.0.1"] ++ [0%Z]) (Z.of_nat (length (encode [str "iqn.x"; str "10.0.0.1"]))) =
    None /\
  forall payload n k, n <> 0%Z -> mgmt_ipc_parse_strings payload n = Some k -> k = (-1)%Z.
Proof. apply (notification_overrun [str "iqn.x"; str "10.0.0.1"] 0%Z); [discriminate|vm_compute; discriminate]. Defined.

(** A name of 255 characters, which the configuration file allows, does not fit
    into the response; neither does an alias that is missing. *)
Example long_name_overflows :
  mgmt_ipc_handle 16 264 tasks (mk_dconfig (Some (replicate 255 (char "a"))) None None) true true (Some (str "root")) arriving = None.
Proof. vm_compute. reflexivity. Qed.

(** A response that [recv] delivers in two parts: the second is written over the
    first, and bytes of the string are taken for the error. *)
Definition good_rsp : list Z := config_rsp 264 MGMT_IPC_CONFIG_INAME (str "iqn.1993-08.org.debian:01:host").

Example response_in_two_parts :
  option_map (fun r => match r with RspDone err _ closed => (err, closed) | RspWaits => (0%Z, false) end)
    (iscsid_response 264 [PollIn (take 8 good_rsp); PollIn (drop 8 good_rsp)] MGMT_IPC_CONFIG_INAME (replicate 264 0%Z)) =
    Some (859388209%Z, true).
Proof. vm_compute. reflexivity. Qed.

(** The socket stays open after a timeout. *)
Example timeout_leaks : iscsid_response 264 [PollTimeout] 8 [] = Some (RspDone ISCSI_ERR_REQ_TIMEDOUT [] false).
Proof. reflexivity. Qed.
End IpcExample.
