(* ===== verification/SessionInfo.v ===== *)
(** * Sessions of the kernel as iscsiadm sees them

    usr/iscsi_sysfs.c reads the attributes of a session from sysfs
    ([iscsi_sysfs_get_sessioninfo_by_id]) and runs a function over all sessions
    ([iscsi_sysfs_for_each_session], in one process or in one child per session);
    usr/iscsi_util.c compares a session with a node record; usr/session_info.c
    links the sessions in a list.  The tree of sysfs, the transports and the
    resolver are parameters. *)
From Stdlib Require Import ZArith Lia Ascii.
From stdpp Require Import base tactics numbers list strings option gmap.
From S2P Require Import Prelude StateM CString Login Idbm IdbmTables IdbmOps.

Definition ISCSI_ERR_NO_OBJS_FOUND : Z := 21.
Definition ISCSI_ERR_SYSFS_LOOKUP : Z := 22.
Definition ISCSI_ERR_CHILD_TERMINATED : Z := 31.
Definition EIO : Z := 5.
Definition ECHILD : Z := 10.
Definition ISCSID_RESP_POLL_TIMEOUT : Z := 60000.

(** ** Attributes *)

(** The kernel: the names in /sys/class/iscsi_session, sorted; the text of an
    attribute; the host of a session; the transport of a host with its
    [use_boot_info]; what [iface_get_by_net_binding] leaves in an interface. *)
Record sysfs := mk_sysfs {
  session_dir : list (list Z);
  attr_value : list Z -> list Z -> list Z -> option (list Z);
  host_of_sid : Z -> option Z;
  transport_of_host : Z -> option (list Z * bool);
  net_binding : memory -> memory
}.

Definition ISCSI_SESSION_SUBSYS : list Z := str "iscsi_session".
Definition ISCSI_CONN_SUBSYS : list Z := str "iscsi_connection".
Definition ISCSI_HOST_SUBSYS : list Z := str "iscsi_host".

Section Attributes.
Variable sys : sysfs.

Definition sysfs_get_value (id subsys param : list Z) : option (list Z) :=
  v ← attr_value sys id subsys param;
  if decide (take 6 v = str "<NULL>" \/ take 6 v = str "(null)") then None else Some v.

(** The error and what is left in the caller's variable. *)
Definition sysfs_get_int (id subsys param : list Z) : Z * Z :=
  match sysfs_get_value id subsys param with
  | None => (EIO, -1)%Z
  | Some v => (0%Z, atoi v)
  end.

Definition sysfs_get_str (id subsys param : list Z) (value_size : nat) : Z * list Z :=
  match sysfs_get_value id subsys param with
  | None | Some [] => (EIO, [])
  | Some v => (0%Z, take (value_size - 1) (if decide (last v = Some 10%Z) then take (length v - 1) v else v))
  end.

(** ** The interface of a session *)
Definition ISCSI_MAX_IFACE_LEN : nat := 65.
Definition ISCSI_HWADDRESS_BUF_SIZE : nat := 18.
Definition IFNAMSIZ : nat := 16.
Definition ISCSI_MAX_STR_LEN : nat := 80.
Definition BOOT_NAME_MAXLEN : nat := 256.

(** A string attribute read into a field: the error and the record. *)
Definition read_field (id subsys param : list Z) (f : string) (size : nat) (m : memory) : Z * memory :=
  let '(ret, v) := sysfs_get_str id subsys param size in (ret, <[f := FStr v]> m).

Definition iscsi_sysfs_read_boot (session : list Z) (iface : memory) : memory :=
  let '(ret, _) := sysfs_get_str session ISCSI_SESSION_SUBSYS (str "boot_target") BOOT_NAME_MAXLEN in
  if truth ret then iface
  else
    let '(ret, boot_nic) := sysfs_get_str session ISCSI_SESSION_SUBSYS (str "boot_nic") BOOT_NAME_MAXLEN in
    if truth ret then iface
    else
      let '(ret, boot_root) := sysfs_get_str session ISCSI_SESSION_SUBSYS (str "boot_root") BOOT_NAME_MAXLEN in
      if truth ret then iface
      else
        let '(ret, boot_content) := sysfs_get_str boot_nic boot_root (str "vlan") BOOT_NAME_MAXLEN in
        let iface := if truth ret then iface else <["vlan_id" := FInt (u16 (atoi boot_content))]> iface in
        let '(_, iface) := read_field boot_nic boot_root (str "subnet-mask") "subnet_mask" NI_MAXHOST iface in
        let '(_, iface) := read_field boot_nic boot_root (str "gateway") "gateway" NI_MAXHOST iface in
        iface.

(** With a session and without [iface_kern_id]. *)
Definition iscsi_sysfs_read_iface (iface : memory) (host_no : Z) (session : list Z) : memory :=
  let t := transport_of_host sys host_no in
  let iface := match t with Some (name, _) => <["transport_name" := FStr name]> iface | None => iface end in
  let host_id := str "host" ++ fmt_d (i32 host_no) in
  let '(_, iface) := read_field host_id ISCSI_HOST_SUBSYS (str "hwaddress") "hwaddress" ISCSI_HWADDRESS_BUF_SIZE iface in
  let '(_, iface) := read_field host_id ISCSI_HOST_SUBSYS (str "ipaddress") "ipaddress" NI_MAXHOST iface in
  let '(_, iface) := read_field host_id ISCSI_HOST_SUBSYS (str "netdev") "netdev" IFNAMSIZ iface in
  let '(ret, iface) :=
    read_field session ISCSI_SESSION_SUBSYS (str "initiatorname") "iname" (TARGET_NAME_MAXLEN + 1) iface in
  let '(_, iface) :=
    if truth ret then read_field host_id ISCSI_HOST_SUBSYS (str "initiatorname") "iname" (TARGET_NAME_MAXLEN + 1) iface
    else (0%Z, iface) in
  let '(_, iface) := read_field host_id ISCSI_HOST_SUBSYS (str "port_state") "port_state" ISCSI_MAX_STR_LEN iface in
  let '(_, iface) := read_field host_id ISCSI_HOST_SUBSYS (str "port_speed") "port_speed" ISCSI_MAX_STR_LEN iface in
  let '(ret, iface) := read_field session ISCSI_SESSION_SUBSYS (str "ifacename") "name" ISCSI_MAX_IFACE_LEN iface in
  let iface := if truth ret then net_binding sys iface else iface in
  match t with Some (_, true) => iscsi_sysfs_read_boot session iface | _ => iface end.
End Attributes.

(** ** A session *)

(** [struct session_info], with [tmo] and [chap] written out. *)
Record session_info := mk_session_info {
  i_iface : memory;
  i_sid : Z;
  i_iscsid_req_tmo : Z;
  i_abort_tmo : Z;
  i_lu_reset_tmo : Z;
  i_recovery_tmo : Z;
  i_tgt_reset_tmo : Z;
  i_username : list Z;
  i_password : list Z;
  i_username_in : list Z;
  i_password_in : list Z;
  i_targetname : list Z;
  i_tpgt : Z;
  i_address : list Z;
  i_port : Z;
  i_persistent_address : list Z;
  i_persistent_port : Z
}.
#[export] Instance eta_session_info : Eta session_info := fun i =>
  mk_session_info (i_iface i) (i_sid i) (i_iscsid_req_tmo i) (i_abort_tmo i) (i_lu_reset_tmo i) (i_recovery_tmo i)
    (i_tgt_reset_tmo i) (i_username i) (i_password i) (i_username_in i) (i_password_in i) (i_targetname i) (i_tpgt i)
    (i_address i) (i_port i) (i_persistent_address i) (i_persistent_port i).

(** [calloc(1, sizeof(struct session_info))]. *)
Definition zero_info : session_info := mk_session_info ∅ 0 0 0 0 0 0 [] [] [] [] [] 0 [] 0 [] 0.

(** [sscanf(s, "session%d", &sid)]. *)
Definition scan_session (s : list Z) : option Z :=
  if decide (take 7 s = str "session") then
    match scan_number (drop 7 s) 10 with Some _ => Some (atoi (drop 7 s)) | None => None end
  else None.

Section Info.
Variable sys : sysfs.
Local Open Scope Z_scope.

Definition session_str (session param : list Z) (size : nat) : Z * list Z :=
  sysfs_get_str sys session ISCSI_SESSION_SUBSYS param size.
Definition session_int (session param : list Z) : Z * Z := sysfs_get_int sys session ISCSI_SESSION_SUBSYS param.

(** [recovery_tmo], [lu_reset_tmo], [tgt_reset_tmo] and [abort_tmo], with the
    results that the code tests. *)
Definition read_timeouts (session : list Z) : Z * Z * Z * Z :=
  let '(ret, v) := session_int session (str "recovery_tmo") in
  let recovery_tmo := if truth ret then -1 else v in
  let '(ret, v) := session_int session (str "lu_reset_tmo") in
  let lu_reset_tmo := if truth ret then -1 else v in
  let '(ret, tgt_reset_tmo) := session_int session (str "tgt_reset_tmo") in
  let lu_reset_tmo := if truth ret then -1 else lu_reset_tmo in
  let '(_, v) := session_int session (str "abort_tmo") in
  let abort_tmo := if truth ret then -1 else v in
  (recovery_tmo, lu_reset_tmo, tgt_reset_tmo, abort_tmo).

(** The attributes of the connection: [address] and [persistent_address], then
    [port] and [persistent_port]. *)
Definition conn_id (sid : Z) : list Z := str "connection" ++ fmt_d sid ++ str ":0".

Definition read_addresses (sid : Z) : list Z * list Z :=
  let '(pers, persistent) := sysfs_get_str sys (conn_id sid) ISCSI_CONN_SUBSYS (str "persistent_address") (NI_MAXHOST + 1) in
  let '(ret, address) := sysfs_get_str sys (conn_id sid) ISCSI_CONN_SUBSYS (str "address") (NI_MAXHOST + 1) in
  if truth ret then (if negb (truth pers) then (persistent, persistent) else (address, persistent))
  else if truth pers then (address, address) else (address, persistent).

Definition read_ports (sid : Z) : Z * Z :=
  let '(pers, persistent) := sysfs_get_int sys (conn_id sid) ISCSI_CONN_SUBSYS (str "persistent_port") in
  let '(ret, port) := sysfs_get_int sys (conn_id sid) ISCSI_CONN_SUBSYS (str "port") in
  if truth ret then (if negb (truth pers) then (persistent, persistent) else (port, persistent))
  else if truth pers then (port, port) else (port, persistent).

(** The structure is the caller's and keeps what is not written. *)
Definition iscsi_sysfs_get_sessioninfo_by_id (info : session_info) (session : list Z) : Z * session_info :=
  match scan_session session with
  | None => (ISCSI_ERR_INVAL, info)
  | Some sid =>
      let '(ret, name) := session_str session (str "targetname") (TARGET_NAME_MAXLEN + 1) in
      let info := info <| i_sid := sid |> <| i_targetname := name |> in
      if truth ret then (ISCSI_ERR_SYSFS_LOOKUP, info)
      else
        let info := info <| i_username := (session_str session (str "username") AUTH_STR_MAX_LEN).2 |>
                         <| i_password := (session_str session (str "password") AUTH_STR_MAX_LEN).2 |>
                         <| i_username_in := (session_str session (str "username_in") AUTH_STR_MAX_LEN).2 |>
                         <| i_password_in := (session_str session (str "password_in") AUTH_STR_MAX_LEN).2 |> in
        let '(recovery, lu_reset, tgt_reset, abort) := read_timeouts session in
        let '(ret, tpgt) := session_int session (str "tpgt") in
        let info := info <| i_recovery_tmo := recovery |> <| i_lu_reset_tmo := lu_reset |>
                         <| i_tgt_reset_tmo := tgt_reset |> <| i_abort_tmo := abort |> <| i_tpgt := tpgt |> in
        if truth ret then (ISCSI_ERR_SYSFS_LOOKUP, info)
        else
          let '(address, persistent_address) := read_addresses sid in
          let '(port, persistent_port) := read_ports sid in
          let info := info <| i_address := address |> <| i_persistent_address := persistent_address |>
                           <| i_port := port |> <| i_persistent_port := persistent_port |> in
          match host_of_sid sys sid with
          | None => (ISCSI_ERR_SYSFS_LOOKUP, info)
          | Some host_no => (0, info <| i_iface := iscsi_sysfs_read_iface sys (i_iface info) host_no session |>)
          end
  end.
End Info.

(** ** Running a function over the sessions *)
Section ForEach.
Context {W : Type}.
Variable kernel : W -> sysfs.
Local Open Scope iscsi_scope.
Local Open Scope Z_scope.

(** The loop in one process: the result and [*nr_found]. *)
Fixpoint session_loop (fn : session_info -> M W Z) (names : list (list Z)) (info : session_info) (nr_found : Z) : M W (Z * Z) :=
  match names with
  | [] => mret' (0, nr_found)
  | name :: names =>
      let! w := mget in
      let '(rc, info) := iscsi_sysfs_get_sessioninfo_by_id (kernel w) info name in
      if truth rc then session_loop fn names info nr_found
      else
        let! rc := fn info in
        if decide (0 < rc) then mret' (rc, nr_found)
        else session_loop fn names info (if decide (rc = 0) then nr_found + 1 else nr_found)
  end.

(** [in_parallel] unset; [mem]: the structure could be allocated. *)
Definition iscsi_sysfs_for_each_session (mem : bool) (fn : session_info -> M W Z) (nr_found : Z) : M W (Z * Z) :=
  if negb mem then mret' (ISCSI_ERR_NOMEM, nr_found)
  else
    let! w := mget in
    session_loop fn (session_dir (kernel w)) (zero_info <| i_iscsid_req_tmo := ISCSID_RESP_POLL_TIMEOUT |>) nr_found.

(** [in_parallel] set: how a child ends, and how the [i]-th [fork] does. *)
Inductive child_end := Exited (status : Z) | Killed.
Inductive fork_result := ForkFailed | ForkOk (killed : bool).

(** A child works on a copy of the memory of its parent. *)
Fixpoint fork_loop (fork : nat -> fork_result) (fn : session_info -> M W Z) (names : list (list Z)) (info : session_info)
    (i : nat) (w : W) : option (list child_end) :=
  match names with
  | [] => Some []
  | name :: names =>
      let '(rc, info) := iscsi_sysfs_get_sessioninfo_by_id (kernel w) info name in
      if truth rc then fork_loop fork fn names info (S i) w
      else
        match fork i with
        | ForkFailed => fork_loop fork fn names info (S i) w
        | ForkOk true => (Killed ::.) <$> fork_loop fork fn names info (S i) w
        | ForkOk false =>
            '(rc, _) ← fn info w;
            (Exited (rc mod 256) ::.) <$> fork_loop fork fn names info (S i) w
        end
  end.

(** One turn of the loop around [wait]. *)
Definition reap_one (acc : Z * Z) (c : child_end) : Z * Z :=
  let '(rc, nr_found) := acc in
  match c with
  | Killed => (if decide (rc = 0) then ISCSI_ERR_CHILD_TERMINATED else rc, nr_found)
  | Exited status =>
      if decide (status <> 0 /\ status <> 255) then (if decide (rc = 0) then status else rc, nr_found)
      else if decide (status = 0) then (rc, nr_found + 1)
      else (rc, nr_found)
  end.

(** [order]: the order in which [wait] returns the children; [wait_errno]: why
    it returns no more. *)
Definition for_each_session_parallel (mem : bool) (fork : nat -> fork_result) (order : list child_end -> list child_end)
    (wait_errno : Z) (fn : session_info -> M W Z) (nr_found : Z) : M W (Z * Z) :=
  if negb mem then mret' (ISCSI_ERR_NOMEM, nr_found)
  else
    let! w := mget in
    let! children := mopt (fork_loop fork fn (session_dir (kernel w))
                             (zero_info <| i_iscsid_req_tmo := ISCSID_RESP_POLL_TIMEOUT |>) 0 w) in
    let '(rc, nr_found) := foldl reap_one (0, nr_found) (order children) in
    mret' (if decide (session_dir (kernel w) <> [] /\ wait_errno <> ECHILD) then wait_errno else rc, nr_found).
End ForEach.

(** ** Comparing a session with a record *)

(** An interface inside a record: the prefix of its fields; [None]: NULL. *)
Definition iface_ref : Type := option (string * memory).

Definition iface_match (pattern iface : iface_ref) : bool :=
  match pattern, iface with
  | Some (pp, pm), Some (ip, im) =>
      let pname := get_str pm (pp +:+ "name") in
      let ptransport := get_str pm (pp +:+ "transport_name") in
      if decide (pname = []) then true
      else if decide (pname = get_str im (ip +:+ "name")) then
        if decide (pname = DEFAULT_IFACENAME) then true
        else if decide (ptransport = []) then true
        else bool_decide (ptransport = get_str im (ip +:+ "transport_name"))
      else false
  | _, _ => true
  end.

(** The address that [getaddrinfo] puts first ([ai_addr], [ai_addrlen] bytes). *)
Class Resolver := resolve_addr : list Z -> option (list Z).

Section Match.
Context `{Res : Resolver}.

Definition iscsi_addr_match (address1 address2 : list Z) : bool :=
  if decide (address1 = []) then true
  else if decide (address1 = address2) then true
  else
    match resolve_addr address1 with
    | None => false
    | Some res1 =>
        match resolve_addr address2 with
        | None => false
        | Some res2 => bool_decide (res1 = res2)
        end
    end.

Definition MATCH_ANY_SID : Z := 0.

Definition __iscsi_match_session (rec : option memory) (targetname address : list Z) (port : Z) (iface : iface_ref) (sid : Z) : bool :=
  match rec with
  | None => true
  | Some rec =>
      let rsid := u32 (get_int rec "session.sid") in
      let rport := get_int rec "conn[0].port" in
      if truth rsid && truth (u32 sid) && negb (bool_decide (rsid = u32 sid)) then false
      else if bool_decide (get_str rec "name" <> []) && bool_decide (get_str rec "name" <> targetname) then false
      else if negb (iscsi_addr_match (get_str rec "conn[0].address") address) then false
      else if bool_decide (rport <> (-1)%Z) && bool_decide (port <> rport) then false
      else iface_match (Some ("iface.", rec)) iface
  end.

Definition iscsi_match_session (rec : option memory) (info : session_info) : bool :=
  __iscsi_match_session rec (i_targetname info) (i_persistent_address info) (i_persistent_port info)
    (Some ("", i_iface info)) (i_sid info).

Definition iscsi_match_session_count (rec : option memory) (info : session_info) : Z :=
  if iscsi_match_session rec info then 0%Z else (-1)%Z.

Definition iscsi_match_target (rec : option memory) (info : session_info) : bool :=
  __iscsi_match_session rec (i_targetname info) (i_persistent_address info) (i_persistent_port info) None MATCH_ANY_SID.
End Match.

(** ** The list of sessions (usr/session_info.c) *)

(** The session behind which a new one is linked; a session of the same target,
    address and port ends the search. *)
Fixpoint match_index (l : list session_info) (info : session_info) (i : nat) (m : option nat) : option nat :=
  match l with
  | [] => m
  | curr :: l =>
      if decide (i_targetname curr = i_targetname info) then
        if decide (i_address curr = i_address info /\ i_port curr = i_port info) then Some i
        else match_index l info (S i) (Some i)
      else match_index l info (S i) m
  end.

(** [match_fn] with its data; [mem]: [calloc] succeeds. *)
Definition session_info_create_list (match_fn : option (session_info -> bool)) (mem : bool) (info : session_info)
    (l : list session_info) : Z * list session_info :=
  if (match match_fn with Some f => negb (f info) | None => false end) then ((-1)%Z, l)
  else if negb mem then (ISCSI_ERR_NOMEM, l)
  else
    match match_index l info 0 None with
    | Some i => (0%Z, take (S i) l ++ info :: drop (S i) l)
    | None => (0%Z, l ++ [info])
    end.
