(* ===== verification/SessionInfoTheorems.v ===== *)
(** * Theorems about the sessions of the kernel

    The information of one session does not depend on the session read before
    it into the same structure; what [iscsi_sysfs_for_each_session] computes is
    a fold over the readable sessions, in one process and with one child per
    session; the list of sessions is complete and its targets are contiguous. *)
From Stdlib Require Import ZArith Lia Ascii.
From stdpp Require Import base tactics numbers list strings option gmap.
From S2P Require Import Prelude StateM CString Login Idbm IdbmTables IdbmOps SessionInfo.

(** ** One session *)

(** What the structure holds besides the interface and the caller's timeout. *)
Definition own_fields (i : session_info) : session_info := i <| i_iface := ∅ |> <| i_iscsid_req_tmo := 0%Z |>.

Section Info.
Variable sys : sysfs.

(** Whatever the structure held, the result and the fields are those of the session. *)
Lemma sessioninfo_fresh info1 info2 session :
  let r1 := iscsi_sysfs_get_sessioninfo_by_id sys info1 session in
  let r2 := iscsi_sysfs_get_sessioninfo_by_id sys info2 session in
  r1.1 = r2.1 /\ (r1.1 = 0%Z -> own_fields r1.2 = own_fields r2.2).
Proof.
  cbn zeta. unfold iscsi_sysfs_get_sessioninfo_by_id.
  destruct (scan_session session) as [sid|]; [|by split].
  destruct (session_str _ _ _ _) as [ret name], (truth ret); [by split|].
  destruct (read_timeouts _ _) as [[[recovery lu_reset] tgt_reset] abort].
  destruct (session_int _ _ _) as [ret' tpgt], (truth ret'); [by split|].
  destruct (read_addresses _ _), (read_ports _ _), (host_of_sid _ _); by split.
Qed.
End Info.

(** ** All sessions *)

(** The sessions that can be read, in the order of the directory. *)
Fixpoint readable (sys : sysfs) (names : list (list Z)) (info : session_info) : list session_info :=
  match names with
  | [] => []
  | name :: names =>
      let '(rc, info) := iscsi_sysfs_get_sessioninfo_by_id sys info name in
      if truth rc then readable sys names info else info :: readable sys names info
  end.

Definition first_info : session_info := zero_info <| i_iscsid_req_tmo := ISCSID_RESP_POLL_TIMEOUT |>.

Definition sessions (sys : sysfs) : list session_info := readable sys (session_dir sys) first_info.

(** A function run over a list until it fails. *)
Fixpoint run_over {W} (fn : session_info -> M W Z) (l : list session_info) (nr : Z) (w : W) : option (Z * Z * W) :=
  match l with
  | [] => Some (0%Z, nr, w)
  | i :: l =>
      '(rc, w) ← fn i w;
      if decide (0 < rc)%Z then Some (rc, nr, w) else run_over fn l (if decide (rc = 0%Z) then (nr + 1)%Z else nr) w
  end.

Section ForEach.
Context {W : Type}.
Variable kernel : W -> sysfs.
Variable fn : session_info -> M W Z.
Hypothesis same_kernel : forall i w rc w', fn i w = Some (rc, w') -> kernel w' = kernel w.

Lemma session_loop_run names info nr w :
  session_loop kernel fn names info nr w = run_over fn (readable (kernel w) names info) nr w.
Proof.
  revert info nr w. induction names as [|name names IH]; intros info nr w; [done|].
  cbn [session_loop readable]. unfold mthen at 1, mget.
  destruct (iscsi_sysfs_get_sessioninfo_by_id _ _ _) as [rc info'], (truth rc); [apply IH|].
  cbn [run_over]. unfold mthen. destruct (fn info' w) as [[rc' w']|] eqn:E; [|done]. cbn.
  destruct (decide (0 < rc')%Z); [done|]. rewrite IH. by rewrite (same_kernel _ _ _ _ E).
Qed.

Lemma for_each_session_run nr w :
  iscsi_sysfs_for_each_session kernel true fn nr w = run_over fn (sessions (kernel w)) nr w.
Proof. unfold iscsi_sysfs_for_each_session, mthen, mget. cbn. apply session_loop_run. Qed.
End ForEach.

(** A function that only looks at the session. *)
Definition look {W} (p : session_info -> Z) (i : session_info) : M W Z := mret' (p i).

Section Look.
Context {W : Type}.
Implicit Types p : session_info -> Z.

Lemma run_look p i l nr (w : W) :
  run_over (look p) (i :: l) nr w =
  if decide (0 < p i)%Z then Some (p i, nr, w) else run_over (look p) l (if decide (p i = 0%Z) then (nr + 1)%Z else nr) w.
Proof. done. Qed.

(** No session fails: the matching ones are counted. *)
Lemma look_counts p l nr (w : W) :
  Forall (fun i => p i <= 0)%Z l -> run_over (look p) l nr w = Some (0%Z, (nr + Z.of_nat (length (filter (fun i => p i = 0%Z) l)))%Z, w).
Proof.
  intros H. revert nr. induction H as [|i l Hi _ IH]; intros nr; [cbn; by rewrite Z.add_0_r|].
  rewrite run_look, decide_False by lia. rewrite IH, filter_cons. destruct (decide (p i = 0%Z)); [|done]. cbn [length]. by rewrite Nat2Z.inj_succ, <- Z.add_1_l, Z.add_assoc.
Qed.

(** A function that answers 1 for what is sought finds whether it is there. *)
Lemma look_finds (b : session_info -> bool) l nr (w : W) :
  exists nr', run_over (look (fun i => if b i then 1%Z else 0%Z)) l nr w = Some (if existsb b l then 1%Z else 0%Z, nr', w).
Proof.
  revert nr. induction l as [|i l IH]; intros nr; [eexists; done|].
  rewrite run_look. cbn [existsb]. destruct (b i); cbn; [eauto|]. apply IH.
Qed.
End Look.

(** ** Children *)
Section Parallel.
Context {W : Type}.
Variable kernel : W -> sysfs.
Implicit Types p : session_info -> Z.

(** The sessions for which a child was made, and whether it was killed; a session
    whose [fork] fails has none. *)
Fixpoint spawned (fork : nat -> fork_result) (sys : sysfs) (names : list (list Z)) (info : session_info) (i : nat)
    : list (session_info * bool) :=
  match names with
  | [] => []
  | name :: names =>
      let '(rc, info) := iscsi_sysfs_get_sessioninfo_by_id sys info name in
      if truth rc then spawned fork sys names info (S i)
      else
        match fork i with
        | ForkFailed => spawned fork sys names info (S i)
        | ForkOk killed => (info, killed) :: spawned fork sys names info (S i)
        end
  end.

Definition children (fork : nat -> fork_result) (sys : sysfs) : list (session_info * bool) :=
  spawned fork sys (session_dir sys) first_info 0.

(** A function whose answer depends on the session only; it may change the state, but
    not the sessions of the kernel. *)
Definition answers (fn : session_info -> M W Z) (p : session_info -> Z) : Prop :=
  forall i w, exists w', fn i w = Some (p i, w') /\ kernel w' = kernel w.

Definition ends p (c : session_info * bool) : child_end := if c.2 then Killed else Exited (p c.1 mod 256).

Lemma fork_loop_spawned fork fn p names info i w :
  answers fn p -> fork_loop kernel fork fn names info i w = Some (ends p <$> spawned fork (kernel w) names info i).
Proof.
  intros Ha. revert info i. induction names as [|name names IH]; intros info i; [done|]. cbn [fork_loop spawned].
  destruct (iscsi_sysfs_get_sessioninfo_by_id _ _ _) as [rc info'], (truth rc); [apply IH|].
  destruct (fork i) as [|[]]; [apply IH|by rewrite IH|]. destruct (Ha info' w) as (w' & -> & _). cbn. by rewrite IH.
Qed.

Lemma spawned_all fork sys names info i :
  (forall i, fork i = ForkOk false) -> spawned fork sys names info i = (fun x => (x, false)) <$> readable sys names info.
Proof.
  intros Hf. revert info i. induction names as [|name names IH]; intros info i; [done|]. cbn [spawned readable].
  destruct (iscsi_sysfs_get_sessioninfo_by_id _ _ _) as [rc info'], (truth rc); [apply IH|]. rewrite Hf. cbn. by rewrite IH.
Qed.

Lemma spawned_readable fork sys names info i x k : (x, k) ∈ spawned fork sys names info i -> x ∈ readable sys names info.
Proof.
  revert info i. induction names as [|name names IH]; intros info i; [by intros ?%elem_of_nil|]. cbn [spawned readable].
  destruct (iscsi_sysfs_get_sessioninfo_by_id _ _ _) as [rc info'], (truth rc); [apply IH|].
  rewrite elem_of_cons. destruct (fork i); [intros H; right; by eapply IH|].
  intros [[= -> _]|H]%elem_of_cons; [by left|right; by eapply IH].
Qed.

(** The loop in one process does what it does with the plain answers. *)
Lemma run_answers fn p l nr w :
  answers fn p -> exists w', run_over fn l nr w = (fun '(rc, nr, _) => (rc, nr, w')) <$> run_over (look p) l nr w.
Proof.
  intros Ha. revert nr w. induction l as [|i l IH]; intros nr w; [by exists w|]. rewrite run_look. cbn [run_over].
  destruct (Ha i w) as (w1 & -> & _). cbn [mbind option_bind]. destruct (decide (0 < p i)%Z); [by exists w1|].
  destruct (IH (if decide (p i = 0%Z) then (nr + 1)%Z else nr) w1) as (w' & ->). exists w'.
  assert (forall l nr (u v : W), (fun '(rc, nr, _) => (rc, nr, w')) <$> run_over (look p) l nr u =
    ((fun '(rc, nr, _) => (rc, nr, w')) <$> run_over (look p) l nr v : option (Z * Z * W))) as E.
  { clear. intros l. induction l as [|i l IH]; intros nr u v; [done|]. rewrite !run_look. destruct (decide _); [done|]. apply IH. }
  apply E.
Qed.

(** A session is an error, a match or neither: what the children report. *)
Definition is_match (c : child_end) : bool := match c with Exited 0%Z => true | _ => false end.
Definition is_failure (c : child_end) : bool :=
  match c with Killed => true | Exited s => bool_decide (s <> 0%Z /\ s <> 255%Z) end.

Lemma reap_step rc nr c :
  (reap_one (rc, nr) c).2 = (if is_match c then nr + 1 else nr)%Z /\
  ((reap_one (rc, nr) c).1 = 0%Z <-> rc = 0%Z /\ is_failure c = false).
Proof.
  destruct c as [s|]; cbn [reap_one is_match is_failure].
  - destruct (decide (s <> 0 /\ s <> 255)%Z) as [D|D]; [rewrite bool_decide_true by done | rewrite bool_decide_false by done].
    + destruct s; [lia| |]; (split; [done|]; cbn; case_decide; split; [lia | intros []; done | lia | intros []; done]).
    + destruct (decide (s = 0%Z)) as [->|N]; [cbn; tauto|]. assert (s = 255%Z) as -> by lia. cbn; tauto.
  - split; [done|]. cbn. case_decide; unfold ISCSI_ERR_CHILD_TERMINATED; split; [lia | intros []; done | lia | intros []; done].
Qed.

Lemma reap_all l rc nr :
  (foldl reap_one (rc, nr) l).2 = (nr + Z.of_nat (length (filter is_match l)))%Z /\
  ((foldl reap_one (rc, nr) l).1 = 0%Z <-> rc = 0%Z /\ Forall (fun c => is_failure c = false) l).
Proof.
  revert rc nr. induction l as [|c l IH]; intros rc nr; cbn [foldl]; [cbn; rewrite Forall_nil; split; [lia|tauto]|].
  destruct (reap_step rc nr c) as [E1 E2], (reap_one (rc, nr) c) as [rc' nr'] eqn:R. cbn in E1, E2.
  destruct (IH rc' nr') as [-> ->]. rewrite E2, E1, Forall_cons.
  split; [|tauto]. destruct (is_match c) eqn:M.
  - rewrite filter_cons_True by (rewrite M; exact I). cbn [length]. lia.
  - rewrite filter_cons_False by (rewrite M; intros []). done.
Qed.

(** The values that [fn] may answer survive [exit]. *)
Lemma exit_status p i :
  (-1 <= p i < 255)%Z ->
  is_match (Exited (p i mod 256)) = bool_decide (p i = 0%Z) /\ is_failure (Exited (p i mod 256)) = bool_decide (0 < p i)%Z.
Proof.
  intros H. destruct (decide (p i = -1)%Z) as [->|E]; [done|]. rewrite Z.mod_small by lia.
  destruct (p i) as [|s|s]; [done| |lia]. cbn. split; [done|]. apply bool_decide_ext. lia.
Qed.
End Parallel.

(** ** The list of sessions *)

(** The sessions of a target are next to each other. *)
Definition grouped (l : list session_info) : Prop :=
  forall i j k x y z, i < j < k -> l !! i = Some x -> l !! j = Some y -> l !! k = Some z ->
    i_targetname x = i_targetname z -> i_targetname y = i_targetname x.

Lemma match_index_spec l info i m r :
  match_index l info i m = r ->
  (forall k, r = Some k -> m = Some k \/ exists x, i <= k /\ l !! (k - i) = Some x /\ i_targetname x = i_targetname info) /\
  (r = None -> m = None /\ Forall (fun x => i_targetname x <> i_targetname info) l).
Proof.
  revert i m r. induction l as [|x l IH]; intros i m r; cbn [match_index].
  { intros <-. split; [intros k ->; by left | by intros ->]. }
  destruct (decide _) as [E|E]; [case_decide as D|].
  - intros <-. split; [|done]. intros k [= <-]. right. exists x. by rewrite Nat.sub_diag.
  - intros H. destruct (IH _ _ _ H) as [H1 H2]. split; [|intros ->; destruct (H2 eq_refl); done].
    intros k Hk. right. destruct (H1 k Hk) as [[= <-]|(y & Hi & Hy & Hn)]; [exists x; by rewrite Nat.sub_diag|].
    exists y. split_and!; [lia| |done]. replace (k - i) with (S (k - S i)) by lia. done.
  - intros H. destruct (IH _ _ _ H) as [H1 H2]. split.
    + intros k Hk. destruct (H1 k Hk) as [->|(y & Hi & Hy & Hn)]; [by left|]. right.
      exists y. split_and!; [lia| |done]. replace (k - i) with (S (k - S i)) by lia. done.
    + intros ->. destruct (H2 eq_refl). split; [done|]. by constructor.
Qed.

(** The new session stands behind one of its target: the names in the new list are
    those of the old one, one of them twice. *)
Lemma grouped_insert l info i x :
  grouped l -> l !! i = Some x -> i_targetname x = i_targetname info -> grouped (take (S i) l ++ info :: drop (S i) l).
Proof.
  intros G Hx Hn. pose proof (lookup_lt_Some _ _ _ Hx).
  set (f p := if decide (p <= i) then p else p - 1).
  assert (forall p y, (take (S i) l ++ info :: drop (S i) l) !! p = Some y ->
                      exists y', l !! f p = Some y' /\ i_targetname y' = i_targetname y) as F.
  { intros p y. unfold f. case_decide as D.
    - rewrite lookup_app_l by (rewrite length_take; lia). rewrite lookup_take, decide_True by lia. eauto.
    - rewrite lookup_app_r by (rewrite length_take; lia). rewrite length_take, Nat.min_l by lia.
      destruct (decide (p = S i)) as [->|]; [rewrite Nat.sub_diag; intros [= <-]; exists x; by rewrite Nat.sub_succ, Nat.sub_0_r|].
      rewrite lookup_cons_ne_0, lookup_drop by lia. replace (S i + Nat.pred (p - S i)) with (p - 1) by lia. eauto. }
  intros p q r y1 y2 y3 Hpqr H1 H2 H3 E.
  destruct (F _ _ H1) as (z1 & L1 & E1), (F _ _ H2) as (z2 & L2 & E2), (F _ _ H3) as (z3 & L3 & E3).
  rewrite <- E1, <- E3 in E. rewrite <- E1, <- E2. assert (f p <= f q <= f r) as Hf by (unfold f; repeat case_decide; lia).
  destruct (decide (f p = f q)) as [Ef|]; [rewrite Ef in L1; congruence|].
  destruct (decide (f q = f r)) as [Ef|]; [rewrite Ef in L2; congruence|].
  eapply (G (f p) (f q) (f r)); eauto. lia.
Qed.

Lemma grouped_snoc l info :
  grouped l -> Forall (fun x => i_targetname x <> i_targetname info) l -> grouped (l ++ [info]).
Proof.
  intros G N p q r y1 y2 y3 Hpqr H1 H2 H3 E.
  destruct (decide (r < length l)).
  - rewrite lookup_app_l in H1, H2, H3 by lia. eapply (G p q r); eauto.
  - apply lookup_lt_Some in H3 as L. rewrite length_app in L. cbn in L.
    assert (r = length l) as -> by lia. rewrite lookup_app_r, Nat.sub_diag in H3 by lia. injection H3 as <-.
    rewrite lookup_app_l in H1 by lia. rewrite Forall_lookup in N. by destruct (N _ _ H1).
Qed.

Lemma create_list_ok info l l' rc :
  session_info_create_list None true info l = (rc, l') -> grouped l -> rc = 0%Z /\ grouped l' /\ l' ≡ₚ info :: l.
Proof.
  unfold session_info_create_list. cbn. destruct (match_index l info 0 None) as [i|] eqn:E; intros [= <- <-] G;
    destruct (match_index_spec _ _ _ _ _ E) as [H1 H2].
  - destruct (H1 i eq_refl) as [[=]|(x & _ & Hx & Hn)]. rewrite Nat.sub_0_r in Hx.
    split_and!; [done | by eapply grouped_insert |]. rewrite <- Permutation_middle. by rewrite take_drop.
  - destruct (H2 eq_refl) as [_ N]. split_and!; [done | by apply grouped_snoc |]. by rewrite <- Permutation_cons_append.
Qed.

(** ** Theorems *)

(** How many sessions a function accepts. *)
Definition accepted (p : session_info -> Z) (l : list session_info) : Z := Z.of_nat (length (filter (fun i => p i = 0%Z) l)).

(** The sessions whose child was not killed. *)
Definition survivors (cs : list (session_info * bool)) : list session_info := (filter (fun c => c.2 = false) cs).*1.

Lemma accepted_children p cs :
  Forall (fun c => -1 <= p c.1 < 255)%Z cs ->
  Z.of_nat (length (filter is_match (ends p <$> cs))) = accepted p (survivors cs) /\
  (Forall (fun c => is_failure c = false) (ends p <$> cs) <-> Forall (fun c => c.2 = false /\ (p c.1 <= 0)%Z) cs).
Proof.
  unfold accepted, survivors. induction 1 as [|[i k] cs Hi _ [IH1 IH2]]; [done|]. rewrite fmap_cons, !Forall_cons, IH2.
  cbn [fst] in Hi. destruct (exit_status p i Hi) as [M F]. destruct k.
  { change (ends p (i, true)) with Killed. rewrite !filter_cons_False by (cbn; congruence || (intros [])). split; [done|]. cbn. intuition congruence. }
  change (ends p (i, false)) with (Exited (p i mod 256)). rewrite F. rewrite (filter_cons_True (fun c => c.2 = false)) by done.
  cbn [fmap list_fmap fst snd]. split; [|rewrite bool_decide_eq_false; intuition lia].
  destruct (decide (p i = 0%Z)) as [E|E].
  - rewrite (filter_cons_True (fun i => p i = 0%Z)) by done.
    rewrite filter_cons_True by (rewrite M; by apply bool_decide_pack). cbn [length]. lia.
  - rewrite (filter_cons_False (fun i => p i = 0%Z)) by done.
    rewrite filter_cons_False by (rewrite M; by intros ?%bool_decide_unpack). done.
Qed.

Lemma survivors_all l : survivors ((fun x => (x, false)) <$> l) = l.
Proof. unfold survivors. induction l as [|i l IH]; [done|]. rewrite fmap_cons, filter_cons_True by done. cbn. by rewrite IH. Qed.

(** A function that fails on some session makes the loop fail. *)
Lemma look_fails {W} p l nr (w : W) :
  ~ Forall (fun i => p i <= 0)%Z l -> exists rc nr', run_over (look p) l nr w = Some (rc, nr', w) /\ (0 < rc)%Z.
Proof.
  revert nr. induction l as [|i l IH]; intros nr N; [by destruct N|]. rewrite run_look.
  destruct (decide (0 < p i)%Z); [eauto|]. apply IH. intros F. apply N. constructor; [lia|done].
Qed.

(** What iscsi_sysfs_for_each_session does in one process with such a function. *)
Lemma sequential_run {W} (kernel : W -> sysfs) fn p nr w :
  answers kernel fn p ->
  exists seq_rc seq_nr w', iscsi_sysfs_for_each_session kernel true fn nr w = Some ((seq_rc, seq_nr), w') /\
    (seq_rc = 0%Z <-> Forall (fun i => p i <= 0)%Z (sessions (kernel w))) /\
    (seq_rc = 0%Z -> seq_nr = (nr + accepted p (sessions (kernel w)))%Z).
Proof.
  intros Ha. rewrite (for_each_session_run kernel fn).
  2:{ intros i v rc v' E. destruct (Ha i v) as (v'' & E' & Hk). rewrite E in E'. by injection E' as _ ->. }
  destruct (run_answers kernel fn p (sessions (kernel w)) nr w Ha) as (w' & ->).
  destruct (decide (Forall (fun i => p i <= 0)%Z (sessions (kernel w)))) as [A|A].
  - rewrite look_counts by done. by eexists _, _, _.
  - destruct (look_fails p _ nr w A) as (rc' & nr' & -> & H). eexists _, _, _. split_and!; [done| |lia].
    split; [lia|done].
Qed.

(** C17: iscsi_sysfs_for_each_session with one child per session, for a function
    whose answer depends on the session only (it may have side effects) and is -1 (no
    match), 0 or an error code below 255, and for any outcome of the forks and any
    order in which the children end: *nr_found grows by the sessions that matched
    among those whose child was made and not killed, and the result is 0 exactly when
    no child was killed and none reported an error (another error of [wait] than ECHILD
    is returned instead); a session whose fork fails is passed over.  If every child
    is made and none killed, the run in one process agrees: it fails exactly when the
    other does, and when they succeed the counts are the same. *)
Theorem sessions_in_parallel {W} (kernel : W -> sysfs) (fn : session_info -> M W Z) (p : session_info -> Z)
    (fork : nat -> fork_result) (order : list child_end -> list child_end) (wait_errno nr : Z) (w : W) :
  answers kernel fn p -> (forall l, order l ≡ₚ l) -> Forall (fun i => -1 <= p i < 255)%Z (sessions (kernel w)) ->
  let cs := children fork (kernel w) in
  exists rc,
    for_each_session_parallel kernel true fork order wait_errno fn nr w =
      Some ((rc, nr + accepted p (survivors cs))%Z, w) /\
    (session_dir (kernel w) <> [] -> wait_errno <> ECHILD -> rc = wait_errno) /\
    (session_dir (kernel w) = [] \/ wait_errno = ECHILD ->
       (rc = 0%Z <-> Forall (fun c => c.2 = false /\ (p c.1 <= 0)%Z) cs) /\
       ((forall i, fork i = ForkOk false) ->
          exists seq_rc seq_nr w',
            iscsi_sysfs_for_each_session kernel true fn nr w = Some ((seq_rc, seq_nr), w') /\
            survivors cs = sessions (kernel w) /\
            (seq_rc = 0%Z <-> rc = 0%Z) /\ (rc = 0%Z -> seq_nr = (nr + accepted p (sessions (kernel w)))%Z))).
Proof.
  intros Ha Ho Hp cs. unfold for_each_session_parallel. cbn [negb]. unfold mthen, mget, mopt, mret'. fold first_info.
  rewrite (fork_loop_spawned kernel fork fn p) by done. fold (children fork (kernel w)). fold cs. cbn [mbind option_bind].
  assert (Forall (fun c => -1 <= p c.1 < 255)%Z cs) as Hcs.
  { apply Forall_forall. intros [x k] Hx. rewrite Forall_forall in Hp. apply Hp. by eapply spawned_readable. }
  destruct (accepted_children p cs Hcs) as [C F]. destruct (reap_all (order (ends p <$> cs)) 0 nr) as [R1 R2].
  destruct (foldl reap_one (0%Z, nr) (order (ends p <$> cs))) as [rc nr']. cbn [fst snd] in R1, R2.
  rewrite (Ho (ends p <$> cs)), C in R1. rewrite (Ho (ends p <$> cs)), F in R2. subst nr'.
  eexists. split; [done|]. split; [intros; by rewrite decide_True by done|].
  intros Hw. rewrite decide_False by tauto. split; [tauto|]. intros Hf.
  destruct (sequential_run kernel fn p nr w Ha) as (seq_rc & seq_nr & w' & E & H1 & H2). exists seq_rc, seq_nr, w'.
  assert (cs = (fun x => (x, false)) <$> sessions (kernel w)) as Ecs by (by apply spawned_all).
  rewrite Ecs, Forall_fmap in R2. split; [done|]. split; [rewrite Ecs; apply survivors_all|].
  assert (Forall ((fun c : session_info * bool => c.2 = false /\ (p c.1 <= 0)%Z) ∘ (fun x => (x, false))) (sessions (kernel w)) <->
    Forall (fun i => p i <= 0)%Z (sessions (kernel w))) as R3.
  { split; intros H; (eapply Forall_impl; [exact H|]); cbn; tauto. }
  split; [|intros; apply H2]; tauto.
Qed.

(** The world of a process that builds a list of sessions. *)
Definition link_session (i : session_info) : M (sysfs * list session_info) Z := fun '(k, l) =>
  let '(rc, l) := session_info_create_list None true i l in Some (rc, (k, l)).

Lemma link_all k infos l nr :
  grouped l ->
  exists l', run_over link_session infos nr (k, l) = Some (0%Z, (nr + Z.of_nat (length infos))%Z, (k, l')) /\
    grouped l' /\ l' ≡ₚ infos ++ l.
Proof.
  revert l nr. induction infos as [|i infos IH]; intros l nr G; [exists l; cbn; by rewrite Z.add_0_r|].
  destruct (session_info_create_list None true i l) as [rc l1] eqn:E.
  destruct (create_list_ok _ _ _ _ E G) as (-> & G1 & P1). cbn [run_over].
  assert (link_session i (k, l) = Some (0%Z, (k, l1))) as -> by (unfold link_session; by rewrite E). cbn [mbind option_bind].
  rewrite decide_False, decide_True by done. destruct (IH l1 (nr + 1)%Z G1) as (l' & -> & G' & P'). exists l'.
  split_and!; [|done|].
  - cbn [length]. by rewrite Nat2Z.inj_succ, <- Z.add_1_l, Z.add_assoc.
  - rewrite P', P1. symmetry. apply Permutation_middle.
Qed.

(** C16: The list of sessions that session_info_create_list builds from sysfs has
    every session that can be read, once, and the sessions of a target stand next
    to each other; *nr_found is their number. *)
Theorem session_list_complete (k : sysfs) :
  exists l, iscsi_sysfs_for_each_session fst true link_session 0 (k, []) = Some ((0%Z, Z.of_nat (length l)), (k, l)) /\
    l ≡ₚ sessions k /\ grouped l.
Proof.
  rewrite for_each_session_run.
  - destruct (link_all k (sessions k) [] 0) as (l & R & G & P); [intros ???????; done|]. exists l.
    rewrite app_nil_r in P. cbn [fst]. rewrite R, <- (Permutation_length P). by split_and!.
  - intros i [k' l] rc w'. unfold link_session. destruct (session_info_create_list _ _ _ _). by intros [= _ <-].
Qed.

(** ** Examples *)
Module SessionsExample.
(** Three sessions; the first and the third are of one target, the second has no
    readable [tgt_reset_tmo]. *)
Definition attrs (id subsys param : list Z) : option (list Z) :=
  if decide (id = str "session3" /\ param = str "tgt_reset_tmo") then None
  else if decide (param = str "targetname") then Some (if decide (id = str "session3") then str "iqn.b" else str "iqn.a")
  else if decide (param = str "address" \/ param = str "persistent_address") then Some (str "10.0.0.1")
  else if decide (subsys = ISCSI_SESSION_SUBSYS \/ subsys = ISCSI_CONN_SUBSYS) then Some (str "30")
  else None.

Definition kernel : sysfs :=
  mk_sysfs [str "session1"; str "session3"; str "session4"] attrs (fun _ => Some 2%Z) (fun _ => Some (str "tcp", false)) id.

Definition is_a (i : session_info) : Z := if decide (i_targetname i = str "iqn.a") then 0%Z else (-1)%Z.

Lemma three_sessions : i_sid <$> sessions kernel = [1; 3; 4]%Z.
Proof. vm_compute. reflexivity. Qed.

(** A function that counts its calls; the second [fork] fails. *)
Definition noting (i : session_info) : M (sysfs * nat) Z := fun '(k, n) => Some (is_a i, (k, S n)).

Definition second_fails (i : nat) : fork_result := if decide (i = 1) then ForkFailed else ForkOk false.

Lemma sessions_in_parallel_witness :
  exists rc,
    for_each_session_parallel fst true second_fails (@reverse child_end) ECHILD noting 0 (kernel, 5) =
      Some ((rc, 0 + accepted is_a (survivors (children second_fails kernel)))%Z, (kernel, 5)) /\
    (rc = 0%Z <-> Forall (fun c => c.2 = false /\ (is_a c.1 <= 0)%Z) (children second_fails kernel)) /\
    i_sid <$> survivors (children second_fails kernel) = [1; 4]%Z.
Proof.
  destruct (sessions_in_parallel fst noting is_a second_fails (@reverse child_end) ECHILD 0 (kernel, 5))
    as (rc & E & _ & H).
  - intros i [k n]. by exists (k, S n).
  - intros l. apply reverse_Permutation.
  - apply Forall_forall. intros i _. unfold is_a. case_decide; lia.
  - exists rc. split; [exact E|]. split; [apply H; right; reflexivity|]. vm_compute. reflexivity.
Defined.

(** [lu_reset_tmo] and [abort_tmo] of session 3 can be read, but the attribute
    [tgt_reset_tmo] is missing: the code stores -1 for all three. *)
Lemma timeouts_lost :
  (fun i => (i_recovery_tmo i, i_lu_reset_tmo i, i_tgt_reset_tmo i, i_abort_tmo i)) <$> sessions kernel =
  [(30, 30, 30, 30); (30, -1, -1, -1); (30, 30, 30, 30)]%Z.
Proof. vm_compute. reflexivity. Qed.

(** A session whose address does not match is linked behind the last one of its
    target, also when an earlier one has its address. *)
Definition at_address (a : string) (port : Z) : session_info :=
  zero_info <| i_targetname := str "iqn.a" |> <| i_address := str a |> <| i_port := port |>.

Lemma not_by_address :
  (fun i => (i_address i, i_port i)) <$>
    (session_info_create_list None true (at_address "A" 3) [at_address "A" 1; at_address "B" 2]).2 =
  [(str "A", 1); (str "B", 2); (str "A", 3)]%Z.
Proof. vm_compute. reflexivity. Qed.
End SessionsExample.
