(* ===== verification/IdbmWalk.v ===== *)
(** * The record database: running a function over the records

    [idbm_for_each_rec] and [idbm_for_each_drec] (usr/idbm.c) walk through the
    directories of the database; [__for_each_matched_rec], [link_recs] and
    [link_startup_recs] (usr/iscsiadm.c) are run that way.  The names of a
    directory are those it has when it is opened, in an order that the file
    system chooses. *)
From Stdlib Require Import ZArith Lia Ascii.
From stdpp Require Import base tactics numbers list strings option gmap.
From S2P Require Import Prelude StateM CString Login Idbm IdbmTables IdbmOps SessionInfo.

Definition COMMA : Z := char ",".

Section Walk.
Context `{LEnv : LoginEnv} `{DEnv : DbEnv}.
Variable dir_order : path -> list path -> list path.
Local Open Scope iscsi_scope.

(** [opendir] and the [readdir]s after it, without "." and "..". *)
Definition child_name (p q : path) : list Z := drop (S (length p)) q.

Definition opendir (p : path) (f : filesys) : option (list (list Z)) :=
  let d := resolve f p in
  if sys_ok OpScandir p && is_dir (f !! d) then Some (child_name d <$> dir_order d (children f d)) else None.

(** ** Node records *)

(** The function that is run over the records, on data of type [A]. *)
Context {A : Type}.
Variable fn : memory -> A -> M dbstate (Z * A).

(** [node_rec_t rec]: what is not read is not used. *)
Fixpoint iface_loop (dir : list Z) (names : list (list Z)) (ruw_lock : bool) (rc found : Z) (a : A) : M dbstate (Z * Z * A) :=
  match names with
  | [] => mret' (rc, found, a)
  | name :: names =>
      let! (err, rec) := __idbm_rec_read ∅ (to_path (dir ++ str "/" ++ name)) ruw_lock in
      if truth err then iface_loop dir names ruw_lock rc found a
      else
        let! (curr_rc, a) := fn rec a in
        if bool_decide (0 < curr_rc)%Z && bool_decide (rc = 0%Z) then iface_loop dir names ruw_lock curr_rc found a
        else iface_loop dir names ruw_lock rc (if decide (curr_rc = 0%Z) then (found + 1)%Z else found) a
  end.

Definition idbm_for_each_iface (targetname : list Z) (tpgt : Z) (ip : list Z) (port : Z) (ruw_lock : bool) (found : Z) (a : A)
    : M dbstate (Z * Z * A) :=
  if negb (malloc PATH_MAX) then mret' (ISCSI_ERR_NOMEM, found, a)
  else if decide (0 <= tpgt)%Z then
    let dir := portal_dir targetname ip port tpgt in
    let! s := mget in
    match opendir (to_path dir) (fs s) with
    | None => mret' (ISCSI_ERR_IDBM, found, a)
    | Some names => iface_loop dir names ruw_lock 0 found a
    end
  else
    let portal := to_path (old_portal targetname ip port) in
    let! st := mstat portal in
    match st with
    | None => mret' (ISCSI_ERR_IDBM, found, a)
    | Some _ =>
        let! (rc, rec) := __idbm_rec_read ∅ portal ruw_lock in
        if truth rc then mret' (rc, found, a)
        else
          let! (rc, a) := fn rec a in
          mret' (if decide (rc = (-1)%Z) then 0%Z else rc, if decide (rc = 0%Z) then (found + 1)%Z else found, a)
    end.

Definition portal_fn (targetname : list Z) (tpgt : Z) (ip : list Z) (port : Z) (ruw_lock : bool) (found : Z) (a : A)
    : M dbstate (Z * Z * A) :=
  let! rc := if ruw_lock then idbm_lock else mret' 0%Z in
  if truth rc then mret' (rc, found, a)
  else
    let! res := idbm_for_each_iface targetname tpgt ip port ruw_lock found a in
    mwhen ruw_lock idbm_unlock ;;; mret' res.

(** "ip,port" or "ip,port,tpgt"; [None]: no comma. *)
Definition parse_portal (name : list Z) : option (list Z * Z * Z) :=
  i ← strchr name COMMA;
  let tmp_port := drop (S i) name in
  match strchr tmp_port COMMA with
  | Some j => Some (take i name, atoi (take j tmp_port), atoi (drop (S j) tmp_port))
  | None => Some (take i name, atoi tmp_port, (-1)%Z)
  end.

Fixpoint portal_loop (targetname : list Z) (names : list (list Z)) (ruw_lock : bool) (rc found : Z) (a : A)
    : M dbstate (Z * Z * A) :=
  match names with
  | [] => mret' (rc, found, a)
  | name :: names =>
      match parse_portal name with
      | None => portal_loop targetname names ruw_lock rc found a
      | Some (ip, port, tpgt) =>
          let! (curr_rc, found, a) := portal_fn targetname tpgt ip port ruw_lock found a in
          portal_loop targetname names ruw_lock
            (if bool_decide (0 < curr_rc)%Z && bool_decide (rc = 0%Z) then curr_rc else rc) found a
      end
  end.

Definition idbm_for_each_portal (targetname : list Z) (ruw_lock : bool) (found : Z) (a : A) : M dbstate (Z * Z * A) :=
  if negb (malloc PATH_MAX) then mret' (ISCSI_ERR_NOMEM, found, a)
  else
    let! s := mget in
    match opendir (target_path targetname) (fs s) with
    | None => mret' (ISCSI_ERR_IDBM, found, a)
    | Some names => portal_loop targetname names ruw_lock 0 found a
    end.

Fixpoint node_loop (names : list (list Z)) (ruw_lock : bool) (rc found : Z) (a : A) : M dbstate (Z * Z * A) :=
  match names with
  | [] => mret' (rc, found, a)
  | name :: names =>
      let! (curr_rc, found, a) := idbm_for_each_portal name ruw_lock found a in
      node_loop names ruw_lock (if bool_decide (0 < curr_rc)%Z && bool_decide (rc = 0%Z) then curr_rc else rc) found a
  end.

(** [idbm_for_each_rec], with [idbm_for_each_node]: the result, [*found] and the data. *)
Definition idbm_for_each_rec (ruw_lock : bool) (a : A) : M dbstate (Z * Z * A) :=
  let! s := mget in
  match opendir NODE_CONFIG_DIR (fs s) with
  | None => mret' (0%Z, 0%Z, a)
  | Some names => node_loop names ruw_lock 0 0 a
  end.

(** ** Discovery records *)
Fixpoint drec_loop (type : Z) (names : list (list Z)) (found : Z) (a : A) : M dbstate (Z * A) :=
  match names with
  | [] => mret' (found, a)
  | name :: names =>
      match strchr name COMMA with
      | None => drec_loop type names found a
      | Some i =>
          let tmp_port := drop i name in
          if bool_decide (is_Some (strchr tmp_port (char ":")) \/ is_Some (strchr tmp_port (char ".")))
          then drec_loop type names found a
          else
            let! (err, drec) := idbm_discovery_read ∅ type (take i name) (atoi (drop 1 tmp_port)) in
            if truth err then drec_loop type names found a
            else
              let! (rc, a) := fn drec a in
              drec_loop type names (if decide (rc = 0%Z) then (found + 1)%Z else found) a
      end
  end.

Definition idbm_for_each_drec (type : Z) (config_root : path) (a : A) : M dbstate (Z * A) :=
  let! s := mget in
  match opendir config_root (fs s) with
  | None => mret' (0%Z, a)
  | Some names => drec_loop type names 0 a
  end.

Definition idbm_for_each_st_drec (a : A) : M dbstate (Z * A) := idbm_for_each_drec DISCOVERY_TYPE_SENDTARGETS ST_CONFIG_DIR a.
Definition idbm_for_each_isns_drec (a : A) : M dbstate (Z * A) := idbm_for_each_drec DISCOVERY_TYPE_ISNS ISNS_CONFIG_DIR a.
End Walk.

(** ** iscsiadm *)
Section Matched.
Context `{LEnv : LoginEnv} `{DEnv : DbEnv} `{Res : Resolver}.
Variable dir_order : path -> list path -> list path.
Local Open Scope iscsi_scope.

Definition rec_match_fn {A} (match_rec : option memory) (fn : memory -> A -> M dbstate (Z * A)) (rec : memory) (a : A)
    : M dbstate (Z * A) :=
  if negb (__iscsi_match_session match_rec (get_str rec "name") (get_str rec "conn[0].address") (get_int rec "conn[0].port")
             (Some ("iface.", rec)) (get_int rec "session.sid"))
  then mret' ((-1)%Z, a)
  else fn rec a.

Definition for_each_matched_rec {A} (rec : option memory) (fn : memory -> A -> M dbstate (Z * A)) (a : A) : M dbstate (Z * A) :=
  let! (rc, nr_found, a) := idbm_for_each_rec dir_order (rec_match_fn rec fn) true a in
  mret' (if truth rc then rc else if decide (nr_found = 0%Z) then ISCSI_ERR_NO_OBJS_FOUND else rc, a).

(** A copy of the record at the end of the list. *)
Definition link_recs (rec : memory) (l : list memory) : M dbstate (Z * list memory) :=
  if negb (malloc NODE_REC_SIZE) then mret' (ISCSI_ERR_NOMEM, l) else mret' (0%Z, l ++ [rec]).

Definition ISCSI_STARTUP_AUTOMATIC : Z := 1.

Definition startup_matches (startup : Z) (mode : list Z) : bool :=
  bool_decide (mode = str "automatic" /\ startup = ISCSI_STARTUP_AUTOMATIC) ||
  bool_decide (mode = str "onboot" /\ startup = ISCSI_STARTUP_ONBOOT) ||
  bool_decide (mode = str "manual" /\ startup = ISCSI_STARTUP_MANUAL) ||
  bool_decide (mode = str "all").

(** The startup of the node or that of its connection. *)
Definition match_startup_mode (rec : memory) (mode : list Z) : Z :=
  if startup_matches (get_int rec "startup") mode then 0%Z
  else if startup_matches (get_int rec "conn[0].startup") mode then 0%Z
  else (-1)%Z.

(** [struct startup_data]: the two lists. *)
Record startup_data := mk_startup { all_logins : list memory; leading_logins : list memory }.

Definition link_startup_recs (mode : list Z) (rec : memory) (d : startup_data) : M dbstate (Z * startup_data) :=
  if truth (match_startup_mode rec mode) then mret' ((-1)%Z, d)
  else if negb (malloc NODE_REC_SIZE) then mret' (ISCSI_ERR_NOMEM, d)
  else
    mret' (0%Z, if truth (get_int rec "leading_login") then mk_startup (all_logins d) (leading_logins d ++ [rec])
                else mk_startup (all_logins d ++ [rec]) (leading_logins d)).
End Matched.
