(* ===== verification/IdbmWalkTheorems.v ===== *)
(** * Theorems about walks through the record database

    In a well-formed database [idbm_for_each_rec] reads the file of every record
    once: its result is that of a fold over the records. *)
From Stdlib Require Import ZArith Lia Ascii.
From stdpp Require Import base tactics numbers list strings option gmap.
From S2P Require Import Prelude StateM CString Login Idbm IdbmTables IdbmOps IdbmFiles IdbmTheorems SessionInfo IdbmWalk.

(** ** Names *)
Lemma strchr_first a c b : c <> NUL -> c ∉ a -> strchr (a ++ c :: b) c = Some (length a).
Proof.
  intros Hc. induction a as [|x a IH]; intros Ha; cbn [strchr app]; [by rewrite decide_True|].
  apply not_elem_of_cons in Ha as [Hx Ha]. rewrite decide_False by done. by rewrite IH.
Qed.

Lemma strchr_none a c : c <> NUL -> c ∉ a -> strchr a c = None.
Proof.
  intros Hc. induction a as [|x a IH]; intros Ha; cbn [strchr]; [by rewrite decide_False|].
  apply not_elem_of_cons in Ha as [Hx Ha]. rewrite decide_False by done. by rewrite IH.
Qed.

Lemma comma_digits n : COMMA ∉ fmt_lu n.
Proof.
  intros H. destruct (fmt_lu_digits n) as [_ F]. rewrite Forall_forall in F. apply F in H. change COMMA with 44%Z in H. lia.
Qed.

Lemma fmt_d_nat n : (0 <= n)%Z -> fmt_d n = fmt_lu n.
Proof. intros H. unfold fmt_d. by rewrite (proj2 (Z.ltb_ge n 0)). Qed.

Lemma drop_middle {B} (a b : list B) c : drop (S (length a)) (a ++ c :: b) = b.
Proof. induction a; [done | by cbn]. Qed.

(** What is printed is what is parsed. *)
Definition portal_name (ip : list Z) (port : Z) (tpgt : option Z) : list Z :=
  ip ++ str "," ++ fmt_lu port ++ match tpgt with Some t => str "," ++ fmt_lu t | None => [] end.

Definition portal_ok (ip : list Z) (port : Z) (tpgt : option Z) : Prop :=
  COMMA ∉ ip /\ (0 <= port < 2 ^ 31)%Z /\ forall t, tpgt = Some t -> (0 <= t < 2 ^ 31)%Z.

Lemma parse_portal_name ip port tpgt :
  portal_ok ip port tpgt -> parse_portal (portal_name ip port tpgt) = Some (ip, port, default (-1)%Z tpgt).
Proof.
  intros (Hip & Hport & Ht). unfold parse_portal, portal_name. change (str ",") with [COMMA]. cbn [app].
  rewrite strchr_first by done. cbn [mbind option_bind].
  rewrite take_app_length, drop_middle. destruct tpgt as [t|]; cbn [default].
  - rewrite strchr_first by (done || apply comma_digits). rewrite take_app_length, drop_middle.
    rewrite !atoi_fmt_lu by (done || by apply Ht). done.
  - rewrite app_nil_r, strchr_none by (done || apply comma_digits). by rewrite atoi_fmt_lu.
Qed.

(** ** Paths *)
Lemma child_split p q : p <> [] -> parent q = p -> q = p ++ str "/" ++ child_name p q.
Proof.
  intros Hp. unfold parent. destruct (strrchr q SLASH) as [i|] eqn:E; [|by intros <-]. intros <-.
  assert (q !! i = Some SLASH) as Hs.
  { clear Hp. revert i E. induction q as [|x q IH]; intros i E; cbn in E; [by rewrite decide_False in E|].
    destruct (strrchr q SLASH) as [j|]; [injection E as <-; by apply IH|].
    case_decide; [by simplify_eq|done]. }
  pose proof (lookup_lt_Some _ _ _ Hs). unfold child_name. rewrite length_take, Nat.min_l by lia.
  change (str "/") with [SLASH]. cbn [app]. by rewrite (take_drop_middle q i SLASH Hs).
Qed.

Section Walks.
Context `{LEnv : LoginEnv} `{DEnv : DbEnv}.
Context (Hmalloc : forall n, malloc n = true).
Context (Hread : forall p, sys_ok OpRead p = true) (Hscan : forall p, sys_ok OpScandir p = true).
Variable dir_order : path -> list path -> list path.
Context (Horder : forall p l, dir_order p l ≡ₚ l).

(** The record in a file. *)
Definition file_rec (c : list Z) : option memory :=
  snd <$> idbm_recinfo_config
    (fill (node_rows ISCSI_IFACE_TYPE_IPV4 idbm_node_setup_defaults) (replicate MAX_KEYS zero_recinfo))
    idbm_node_setup_defaults c.

(** A database of nodes: targets, portals "ip,port,tpgt" with one file per interface,
    or a file "ip,port" as older versions wrote it; every file can be parsed. *)
Record node_db (f : filesys) : Prop := {
  db_links : no_links f;
  db_nodes : f !! NODE_CONFIG_DIR = Some Dir;
  db_fits : forall p n, f !! p = Some n -> NODE_CONFIG_DIR `prefix_of` p -> length p < PATH_MAX;
  db_target : forall t, t ∈ children f NODE_CONFIG_DIR -> f !! t = Some Dir;
  db_portal : forall t p, t ∈ children f NODE_CONFIG_DIR -> p ∈ children f t ->
    exists ip port tpgt, child_name t p = portal_name ip port tpgt /\ portal_ok ip port tpgt /\
      match tpgt with
      | Some _ => f !! p = Some Dir /\ forall q, q ∈ children f p -> exists c, f !! q = Some (File c) /\ is_Some (file_rec c)
      | None => exists c, f !! p = Some (File c) /\ is_Some (file_rec c)
      end
}.

(** The files of the records, in the order of the directories. *)
Definition portal_files (f : filesys) (p : path) : list path :=
  if is_dir (f !! p) then dir_order p (children f p) else [p].
Definition target_files (f : filesys) (t : path) : list path :=
  dir_order t (children f t) ≫= portal_files f.
Definition node_files (f : filesys) : list path :=
  dir_order NODE_CONFIG_DIR (children f NODE_CONFIG_DIR) ≫= target_files f.

Definition rec_at (f : filesys) (q : path) : memory :=
  match f !! q with Some (File c) => default ∅ (file_rec c) | _ => ∅ end.

(** ** The lock *)

(** The lock can be taken, or is already held. *)
Definition lockable (s : dbstate) : Prop :=
  (0 < refs s)%Z \/
  (refs s = 0%Z /\ owned s = false /\ lock_dir_ready = true /\ link_error 0 = false /\ other_holds 0 = false).

Lemma lock_first n s :
  link_error 0 = false -> other_holds 0 = false -> owned s = false ->
  lock_loop (S n) 0 s = Some (0%Z, s <| owned := true |> <| refs := 1%Z |>).
Proof. intros Hl Ho Hs. cbn [lock_loop]. unfold mthen, mget, mmod, mret'. by rewrite Hl, Ho, Hs. Qed.

Lemma lock_attempts : exists n, LOCK_ATTEMPTS = S n.
Proof. by exists 2999. Qed.

Lemma lock_unlock s :
  lockable s -> exists s1, idbm_lock s = Some (0%Z, s1) /\ fs s1 = fs s /\ lockable s1 /\ idbm_unlock s1 = Some (tt, s).
Proof.
  destruct s as [f r o st]. unfold lockable, idbm_lock, idbm_unlock, mthen at 1, mget. cbn [refs owned].
  intros [H|(-> & -> & Hd & Hl & Ho)].
  - rewrite decide_True by done. eexists. split; [done|]. cbn. split_and!; [done | left; lia |].
    unfold mthen, mget, mmod. cbn. rewrite decide_True by lia. do 2 f_equal. unfold update_field. cbn. f_equal. lia.
  - rewrite decide_False by lia. rewrite Hd. destruct lock_attempts as [n ->]. rewrite lock_first by done.
    eexists. split; [done|]. split_and!; [done | by left | done].
Qed.

Lemma read_file s q c rec ruw_lock :
  lockable s -> no_links (fs s) -> NODE_CONFIG_DIR `prefix_of` q -> length q < PATH_MAX -> fs s !! q = Some (File c) ->
  file_rec c = Some rec -> __idbm_rec_read ∅ (to_path q) ruw_lock s = Some ((0%Z, rec), s).
Proof.
  intros Hs Hn Hp Hl Hq Hc. rewrite to_path_fits by done. unfold file_rec in Hc. apply fmap_Some in Hc as ([info rec'] & Hc & ->).
  destruct ruw_lock; [by eapply rec_read_file|]. destruct (lock_unlock s Hs) as (s1 & L & E & _ & U).
  assert (__idbm_rec_read ∅ q true s1 = Some ((0%Z, rec'), s1)) as R by (eapply rec_read_file; rewrite ?E; done).
  revert R. unfold __idbm_rec_read. rewrite info_alloc by done. unfold mthen, mret', mwhen. rewrite L. cbn [truth Z.eqb negb].
  intros R. match type of R with match ?m with _ => _ end = _ => destruct m as [[res s2]|] end; [|done].
  injection R as -> ->. by rewrite U.
Qed.

(** ** Walks *)
Context {A : Type}.
Variable visit : memory -> A -> Z * A.

Definition run_visit (rec : memory) (a : A) : M dbstate (Z * A) := mret' (visit rec a).

(** [if (curr_rc > 0 && !rc) rc = curr_rc;] *)
Definition first_error (rc curr_rc : Z) : Z := if bool_decide (0 < curr_rc)%Z && bool_decide (rc = 0%Z) then curr_rc else rc.

(** One record: the first error, the number of records and the data. *)
Definition visit_one (acc : Z * Z * A) (rec : memory) : Z * Z * A :=
  let '(rc, found, a) := acc in
  let '(curr_rc, a) := visit rec a in
  (first_error rc curr_rc, if decide (curr_rc = 0%Z) then (found + 1)%Z else found, a).

Definition visit_all (acc : Z * Z * A) (recs : list memory) : Z * Z * A := foldl visit_one acc recs.

(** A part of the walk visits [recs] and leaves the database as it was. *)
Definition visits (m : M dbstate (Z * Z * A)) (found : Z) (a : A) (recs : list memory) (s : dbstate) : Prop :=
  exists curr_rc found' a',
    m s = Some ((curr_rc, found', a'), s) /\
    forall rc, visit_all (rc, found, a) recs = (first_error rc curr_rc, found', a').

Lemma first_error_assoc rc c1 c2 : (0 <= c1)%Z -> first_error rc (first_error c1 c2) = first_error (first_error rc c1) c2.
Proof.
  intros H. unfold first_error.
  destruct (bool_decide_reflect (0 < c2)%Z), (bool_decide_reflect (c1 = 0%Z)), (bool_decide_reflect (rc = 0%Z)),
    (bool_decide_reflect (0 < c1)%Z); cbn; subst; repeat case_bool_decide; cbn in *; try lia; done.
Qed.

(** The errors of a list of records, from an error or from none. *)
Lemma visit_from rc found a recs :
  let '(c, found', a') := visit_all (0%Z, found, a) recs in
  (0 <= c)%Z /\ visit_all (rc, found, a) recs = (first_error rc c, found', a').
Proof.
  induction recs as [|r recs IH] using rev_ind; cbn.
  { split; [lia|]. unfold first_error. by rewrite bool_decide_false by lia. }
  unfold visit_all in *. rewrite !foldl_app. cbn. destruct (foldl visit_one (0%Z, found, a) recs) as [[c f'] a'].
  destruct IH as [Hc ->]. cbn. destruct (visit r a') as [c2 a2]. rewrite first_error_assoc by done. split; [|done].
  unfold first_error. destruct (bool_decide_reflect (0 < c2)%Z); cbn; [|done]. case_bool_decide; lia.
Qed.

Lemma visit_one_error rc found a rec :
  visit_one (rc, found, a) rec =
  (first_error rc (visit rec a).1, if decide ((visit rec a).1 = 0%Z) then (found + 1)%Z else found, (visit rec a).2).
Proof. unfold visit_one. by destruct (visit rec a). Qed.

(** The files of one directory. *)
Lemma iface_loop_visits p qs ruw_lock rc found a s :
  lockable s -> no_links (fs s) -> p <> [] -> NODE_CONFIG_DIR `prefix_of` p ->
  Forall (fun q => parent q = p /\ length q < PATH_MAX /\ exists c, fs s !! q = Some (File c) /\ is_Some (file_rec c)) qs ->
  iface_loop run_visit p (child_name p <$> qs) ruw_lock rc found a s =
  Some (visit_all (rc, found, a) (rec_at (fs s) <$> qs), s).
Proof.
  intros Hs Hn Hp Hpre F. revert rc found a. induction F as [|q qs (Hq & Hl & c & Hc & rec & Hrec) _ IH]; intros rc found a; [done|].
  rewrite !fmap_cons. cbn [iface_loop]. rewrite <- child_split by done. unfold mthen at 1.
  rewrite (read_file s q c rec ruw_lock Hs Hn); [|rewrite (child_split p q Hp Hq); by apply prefix_app_r|done..].
  cbn [truth Z.eqb negb]. unfold mthen, run_visit at 1, mret' at 1.
  assert (rec_at (fs s) q = rec) as -> by (unfold rec_at; by rewrite Hc, Hrec).
  unfold visit_all. cbn [foldl]. rewrite visit_one_error. destruct (visit rec a) as [curr a']. cbn [fst snd].
  fold (visit_all (first_error rc curr, if decide (curr = 0%Z) then (found + 1)%Z else found, a') (rec_at (fs s) <$> qs)).
  rewrite <- IH. unfold first_error. destruct (bool_decide_reflect (0 < curr)%Z); cbn; [|done].
  rewrite (decide_False (P := curr = 0%Z)) by lia. by destruct (bool_decide (rc = 0%Z)).
Qed.

(** ** The three levels *)
Lemma elem_children f p q : q ∈ children f p <-> is_Some (f !! q) /\ parent q = p /\ q <> p.
Proof. unfold children. rewrite list_elem_of_filter, elem_of_elements, elem_of_dom. tauto. Qed.

Lemma nodes_not_nil : NODE_CONFIG_DIR <> [].
Proof. unfold NODE_CONFIG_DIR. by destruct db_root. Qed.

Lemma child_of f p q :
  p <> [] -> NODE_CONFIG_DIR `prefix_of` p -> q ∈ children f p ->
  q = p ++ str "/" ++ child_name p q /\ q <> [] /\ NODE_CONFIG_DIR `prefix_of` q /\ is_Some (f !! q) /\ parent q = p.
Proof.
  intros Hp Hpre Hq. apply elem_children in Hq as (Hd & Hpar & _). pose proof (child_split p q Hp Hpar) as E.
  split_and!; [done | | |done|done].
  - rewrite E. by destruct p.
  - rewrite E. by apply prefix_app_r.
Qed.

Lemma opendir_dir f d :
  no_links f -> NODE_CONFIG_DIR `prefix_of` d -> f !! d = Some Dir ->
  opendir dir_order d f = Some (child_name d <$> dir_order d (children f d)).
Proof. intros Hn Hp Hd. unfold opendir. destruct (stat_plain f d Hn Hp) as [_ ->]. by rewrite Hscan, Hd. Qed.

Lemma portal_path t p ip port tpgt :
  parent t = NODE_CONFIG_DIR -> t <> [] -> parent p = t -> child_name t p = portal_name ip port tpgt -> portal_ok ip port tpgt ->
  p = match tpgt with
      | Some g => portal_dir (child_name NODE_CONFIG_DIR t) ip port g
      | None => old_portal (child_name NODE_CONFIG_DIR t) ip port
      end.
Proof.
  intros Ht Htn Hp Hname (_ & Hport & Hg). rewrite (child_split t p Htn Hp) at 1. rewrite Hname.
  rewrite (child_split NODE_CONFIG_DIR t nodes_not_nil Ht) at 1. unfold portal_name, portal_dir, old_portal.
  rewrite (i32_small port) by lia. rewrite fmt_d_nat by lia. destruct tpgt as [g|].
  - specialize (Hg g eq_refl). rewrite i32_small, fmt_d_nat by lia. by rewrite <- !app_assoc.
  - by rewrite app_nil_r, <- !app_assoc.
Qed.

Section Db.
Variable s : dbstate.
Context (Hdb : node_db (fs s)) (Hlock : lockable s).

Lemma iface_visits t p ip port tpgt ruw_lock found a s' :
  t ∈ children (fs s) NODE_CONFIG_DIR -> p ∈ children (fs s) t ->
  child_name t p = portal_name ip port tpgt -> portal_ok ip port tpgt ->
  match tpgt with
  | Some _ => fs s !! p = Some Dir /\ forall q, q ∈ children (fs s) p -> exists c, fs s !! q = Some (File c) /\ is_Some (file_rec c)
  | None => exists c, fs s !! p = Some (File c) /\ is_Some (file_rec c)
  end ->
  fs s' = fs s -> lockable s' ->
  visits (idbm_for_each_iface dir_order run_visit (child_name NODE_CONFIG_DIR t) (default (-1)%Z tpgt) ip port ruw_lock found a)
    found a (rec_at (fs s) <$> portal_files (fs s) p) s'.
Proof.
  intros Ht Hp Hname Hok Hfile Efs Hl.
  apply child_of in Ht as (Et & Ht0 & Htp & Htd & Htpar); [|apply nodes_not_nil|done].
  apply child_of in Hp as (Ep & Hp0 & Hpp & [n Hpd] & Hppar); [|done..].
  pose proof (portal_path t p ip port tpgt Htpar Ht0 Hppar Hname Hok) as Epath.
  assert (length p < PATH_MAX) as Hlen by (by eapply db_fits).
  unfold idbm_for_each_iface. rewrite Hmalloc. cbn [negb]. destruct tpgt as [g|]; cbn [default from_option id]; unfold id.
  - destruct Hok as (_ & _ & Hg). specialize (Hg g eq_refl). rewrite decide_True by lia. rewrite <- Epath.
    destruct Hfile as [Hdir Hfiles]. unfold visits, mthen at 1, mget. rewrite to_path_fits, Efs by done.
    rewrite opendir_dir by (done || apply Hdb).
    rewrite iface_loop_visits; rewrite ?Efs; [|done|apply Hdb|done|done|].
    + unfold portal_files. rewrite Hdir. cbn [is_dir].
      destruct (visit_all (0%Z, found, a) _) as [[c found'] a'] eqn:E. exists c, found', a'. split; [done|].
      intros rc. pose proof (visit_from rc found a (rec_at (fs s) <$> dir_order p (children (fs s) p))) as V.
      rewrite E in V. apply V.
    + rewrite Horder, Forall_forall. intros q Hq. destruct (Hfiles q Hq) as (c & Hc & Hrec).
      apply child_of in Hq as (_ & _ & Hqp & _ & Hqpar); [|done..]. split_and!; [done| |by exists c]. by eapply db_fits.
  - rewrite decide_False by lia. rewrite <- Epath. destruct Hfile as (c & Hc & rec & Hrec).
    unfold visits, mthen at 1, mstat, mthen at 1, mget, mret' at 1.
    rewrite to_path_fits by done. rewrite Efs. destruct (stat_plain (fs s) p (db_links _ Hdb) Hpp) as [-> _]. rewrite Hc.
    unfold mthen at 1. rewrite <- (to_path_fits p Hlen), (read_file s' p c rec); rewrite ?Efs; [|done|apply Hdb|done..].
    cbn [truth Z.eqb negb]. unfold mthen, run_visit, mret'. destruct (visit rec a) as [curr a'] eqn:V.
    unfold portal_files. rewrite (to_path_fits p Hlen), Hc. cbn [is_dir fmap list_fmap].
    assert (rec_at (fs s) p = rec) as -> by (unfold rec_at; by rewrite Hc, Hrec).
    eexists _, _, _. split; [done|]. intros rc. unfold visit_all. cbn [foldl]. rewrite visit_one_error, V. cbn [fst snd].
    f_equal. f_equal. unfold first_error. destruct (decide (curr = (-1)%Z)) as [->|]; [done|]. done.
Qed.

Lemma portal_visits t p ruw_lock found a :
  t ∈ children (fs s) NODE_CONFIG_DIR -> p ∈ children (fs s) t ->
  exists ip port tpgt, parse_portal (child_name t p) = Some (ip, port, tpgt) /\
    visits (portal_fn dir_order run_visit (child_name NODE_CONFIG_DIR t) tpgt ip port ruw_lock found a) found a
      (rec_at (fs s) <$> portal_files (fs s) p) s.
Proof.
  intros Ht Hp. destruct (db_portal _ Hdb t p Ht Hp) as (ip & port & tpgt & Hname & Hok & Hfile).
  exists ip, port, (default (-1)%Z tpgt). split; [by rewrite Hname; apply parse_portal_name|].
  unfold portal_fn. destruct ruw_lock.
  - destruct (lock_unlock s Hlock) as (s1 & L & E & Hl & U).
    destruct (iface_visits t p ip port tpgt true found a s1) as (c & found' & a' & R & V); [done..|].
    exists c, found', a'. split; [|done]. unfold mthen at 1. rewrite L. cbn [truth Z.eqb negb].
    unfold mthen at 1. rewrite R. unfold mthen, mwhen. by rewrite U.
  - destruct (iface_visits t p ip port tpgt false found a s) as (c & found' & a' & R & V); [done..|].
    exists c, found', a'. split; [|done]. unfold mthen at 1, mret' at 1. cbn [truth Z.eqb negb].
    unfold mthen at 1. by rewrite R.
Qed.

Lemma visit_all_app acc l1 l2 : visit_all acc (l1 ++ l2) = visit_all (visit_all acc l1) l2.
Proof. apply foldl_app. Qed.

Lemma portal_loop_visits t ps ruw_lock rc found a :
  t ∈ children (fs s) NODE_CONFIG_DIR -> Forall (fun p => p ∈ children (fs s) t) ps ->
  portal_loop dir_order run_visit (child_name NODE_CONFIG_DIR t) (child_name t <$> ps) ruw_lock rc found a s =
  Some (visit_all (rc, found, a) (rec_at (fs s) <$> (ps ≫= portal_files (fs s))), s).
Proof.
  intros Ht F. revert rc found a. induction F as [|p ps Hp _ IH]; intros rc found a; [done|].
  rewrite fmap_cons, bind_cons, fmap_app, visit_all_app. cbn [portal_loop].
  destruct (portal_visits t p ruw_lock found a Ht Hp) as (ip & port & tpgt & -> & c & found' & a' & R & V).
  unfold mthen. rewrite R, V. fold (first_error rc c). apply IH.
Qed.

Lemma target_visits t ruw_lock found a :
  t ∈ children (fs s) NODE_CONFIG_DIR ->
  visits (idbm_for_each_portal dir_order run_visit (child_name NODE_CONFIG_DIR t) ruw_lock found a) found a
    (rec_at (fs s) <$> target_files (fs s) t) s.
Proof.
  intros Ht. pose proof Ht as Ht'. apply child_of in Ht' as (Et & _ & Htp & _ & _); [|apply nodes_not_nil|done].
  pose proof (db_target _ Hdb t Ht) as Hd.
  unfold visits, idbm_for_each_portal. rewrite Hmalloc. cbn [negb]. unfold mthen, mget, target_path. rewrite <- Et.
  rewrite to_path_fits by (by eapply db_fits). rewrite opendir_dir by (done || apply Hdb).
  rewrite portal_loop_visits; [|done|rewrite Horder; by apply Forall_forall].
  fold (target_files (fs s) t). destruct (visit_all (0%Z, found, a) _) as [[c found'] a'] eqn:E.
  exists c, found', a'. split; [done|]. intros rc.
  pose proof (visit_from rc found a (rec_at (fs s) <$> target_files (fs s) t)) as V. rewrite E in V. apply V.
Qed.

Lemma node_loop_visits ts ruw_lock rc found a :
  Forall (fun t => t ∈ children (fs s) NODE_CONFIG_DIR) ts ->
  node_loop dir_order run_visit (child_name NODE_CONFIG_DIR <$> ts) ruw_lock rc found a s =
  Some (visit_all (rc, found, a) (rec_at (fs s) <$> (ts ≫= target_files (fs s))), s).
Proof.
  intros F. revert rc found a. induction F as [|t ts Ht _ IH]; intros rc found a; [done|].
  rewrite fmap_cons, bind_cons, fmap_app, visit_all_app. cbn [node_loop].
  destruct (target_visits t ruw_lock found a Ht) as (c & found' & a' & R & V).
  unfold mthen. rewrite R, V. fold (first_error rc c). apply IH.
Qed.

Lemma for_each_rec_visits ruw_lock a :
  idbm_for_each_rec dir_order run_visit ruw_lock a s =
  Some (visit_all (0%Z, 0%Z, a) (rec_at (fs s) <$> node_files (fs s)), s).
Proof.
  unfold idbm_for_each_rec, mthen, mget. rewrite opendir_dir by (done || apply Hdb).
  apply node_loop_visits. rewrite Horder. by apply Forall_forall.
Qed.

(** ** The files *)

(** A file of the database: below a portal, or in the place of one. *)
Definition node_file (q : path) : Prop :=
  exists t p, t ∈ children (fs s) NODE_CONFIG_DIR /\ p ∈ children (fs s) t /\
    if is_dir (fs s !! p) then q ∈ children (fs s) p else q = p.

Lemma elem_ordered p q l : q ∈ dir_order p l <-> q ∈ l.
Proof. by rewrite Horder. Qed.

Lemma elem_portal_files p q :
  q ∈ portal_files (fs s) p <-> if is_dir (fs s !! p) then q ∈ children (fs s) p else q = p.
Proof. unfold portal_files. destruct (is_dir _); [apply elem_ordered | apply list_elem_of_singleton]. Qed.

Lemma elem_target_files t q :
  q ∈ target_files (fs s) t <-> exists p, p ∈ children (fs s) t /\ q ∈ portal_files (fs s) p.
Proof.
  unfold target_files. rewrite list_elem_of_bind. setoid_rewrite elem_ordered.
  split; intros (p & ? & ?); by exists p.
Qed.

Lemma elem_node_files q : q ∈ node_files (fs s) <-> node_file q.
Proof.
  unfold node_files, node_file. rewrite list_elem_of_bind. setoid_rewrite elem_ordered.
  setoid_rewrite elem_target_files. setoid_rewrite elem_portal_files. split.
  - intros (t & (p & Hp & Hq) & Ht). by exists t, p.
  - intros (t & p & Ht & Hp & Hq). exists t. split; [by exists p|done].
Qed.

Lemma nodup_ordered p q : NoDup (dir_order p (children (fs s) q)).
Proof. rewrite Horder. apply NoDup_filter, NoDup_elements. Qed.

Lemma parent_child p q : q ∈ children (fs s) p -> parent q = p /\ q <> p.
Proof. intros H. apply elem_children in H. tauto. Qed.

(** A file belongs to one portal of one target. *)
Lemma file_portal t1 t2 p1 p2 q :
  t1 ∈ children (fs s) NODE_CONFIG_DIR -> t2 ∈ children (fs s) NODE_CONFIG_DIR ->
  p1 ∈ children (fs s) t1 -> p2 ∈ children (fs s) t2 ->
  q ∈ portal_files (fs s) p1 -> q ∈ portal_files (fs s) p2 -> t1 = t2 /\ p1 = p2.
Proof.
  intros [T1 N1]%parent_child [T2 N2]%parent_child [P1 M1]%parent_child [P2 M2]%parent_child H1 H2.
  rewrite elem_portal_files in H1, H2. destruct (is_dir (fs s !! p1)), (is_dir (fs s !! p2)).
  - apply parent_child in H1 as [<- _], H2 as [<- _]. split; congruence.
  - subst q. apply parent_child in H1 as [H1 _]. congruence.
  - subst q. apply parent_child in H2 as [H2 _]. congruence.
  - split; congruence.
Qed.

Lemma nodup_node_files : NoDup (node_files (fs s)).
Proof.
  apply NoDup_bind; [| |apply nodup_ordered].
  - intros t1 t2 q Ht1 Ht2 H1 H2. rewrite elem_ordered in Ht1, Ht2. rewrite elem_target_files in H1, H2.
    destruct H1 as (p1 & Hp1 & H1), H2 as (p2 & Hp2 & H2). by destruct (file_portal t1 t2 p1 p2 q).
  - intros t Ht. rewrite elem_ordered in Ht. apply NoDup_bind; [| |apply nodup_ordered].
    + intros p1 p2 q Hp1 Hp2 H1 H2. rewrite elem_ordered in Hp1, Hp2. by destruct (file_portal t t p1 p2 q).
    + intros p _. unfold portal_files. destruct (is_dir _); [apply nodup_ordered | apply NoDup_singleton].
Qed.

Lemma node_file_content q : q ∈ node_files (fs s) -> exists c, fs s !! q = Some (File c) /\ file_rec c = Some (rec_at (fs s) q).
Proof.
  rewrite elem_node_files. intros (t & p & Ht & Hp & Hq). destruct (db_portal _ Hdb t p Ht Hp) as (ip & port & tpgt & _ & _ & H).
  assert (exists c, fs s !! q = Some (File c) /\ is_Some (file_rec c)) as (c & Hc & rec & Hr).
  { destruct tpgt; [destruct H as [Hd H]; rewrite Hd in Hq; by apply H|].
    destruct H as (c & Hc & Hr). rewrite Hc in Hq. cbn in Hq. subst q. by exists c. }
  exists c. split; [done|]. unfold rec_at. by rewrite Hc, Hr.
Qed.
End Db.
End Walks.

(** Collecting the records in a list, as [link_recs] does. *)
Lemma link_recs_visits `{LEnv : LoginEnv} (Hmalloc : forall n, malloc n = true) :
  link_recs = run_visit (fun rec l => (0%Z, l ++ [rec])).
Proof. unfold link_recs, run_visit. by rewrite Hmalloc. Qed.

Lemma collect_all l recs found :
  visit_all (fun rec l => (0%Z, l ++ [rec])) (0%Z, found, l) recs = (0%Z, (found + Z.of_nat (length recs))%Z, l ++ recs).
Proof.
  revert l found. induction recs as [|r recs IH]; intros l found; [cbn; by rewrite Z.add_0_r, app_nil_r|].
  unfold visit_all in *. cbn [foldl]. rewrite visit_one_error. cbn [fst snd]. change (first_error 0 0) with 0%Z.
  rewrite decide_True by done. rewrite IH, <- app_assoc. cbn [app length]. by rewrite Nat2Z.inj_succ, <- Z.add_1_l, Z.add_assoc.
Qed.

(** C13: idbm_for_each_rec runs its function once over every record of the
    database, whatever the order of the directories, with or without the lock, and
    leaves the database and the lock as they were: link_recs collects the contents
    of exactly the files of records, those of interfaces below a portal and the
    portals of older versions, and the number of records is right. *)
Theorem every_record_is_visited `{LEnv : LoginEnv} `{DEnv : DbEnv} (dir_order : path -> list path -> list path)
    (s : dbstate) (ruw_lock : bool) :
  (forall n, malloc n = true) -> (forall p, sys_ok OpRead p = true) -> (forall p, sys_ok OpScandir p = true) ->
  (forall p l, dir_order p l ≡ₚ l) -> node_db (fs s) -> lockable s ->
  exists files recs,
    idbm_for_each_rec dir_order link_recs ruw_lock [] s = Some ((0%Z, Z.of_nat (length files), recs), s) /\
    NoDup files /\ (forall q, q ∈ files <-> node_file s q) /\
    Forall2 (fun q rec => exists c, fs s !! q = Some (File c) /\ file_rec c = Some rec) files recs.
Proof.
  intros Hm Hr Hs Ho Hdb Hl. exists (node_files dir_order (fs s)), (rec_at (fs s) <$> node_files dir_order (fs s)).
  split_and!.
  - rewrite link_recs_visits, for_each_rec_visits by done. rewrite collect_all, length_fmap. done.
  - by apply nodup_node_files.
  - intros q. by apply elem_node_files.
  - apply Forall2_fmap_r, Forall_Forall2_diag, Forall_forall. intros q Hq. by eapply node_file_content.
Qed.

(** ** An example: the database with one record *)
Module WalkExample.
Import DbExample.

Definition target_dir : path := NODE_CONFIG_DIR ++ str "/iqn.2003-01.org.linux-iscsi:disk1".
Definition portal : path := target_dir ++ str "/192.168.0.7,3260,1".
Definition conf : path := portal ++ str "/default".

Lemma written_dirs :
  children (fs written) NODE_CONFIG_DIR = [target_dir] /\ children (fs written) target_dir = [portal] /\
  children (fs written) portal = [conf] /\ fs written !! NODE_CONFIG_DIR = Some Dir /\
  fs written !! target_dir = Some Dir /\ fs written !! portal = Some Dir.
Proof. vm_compute. repeat split; reflexivity. Qed.

Lemma written_fits : forall p n, fs written !! p = Some n -> length p < PATH_MAX.
Proof.
  assert (forallb (fun '(p, _) => Nat.ltb (length p) PATH_MAX) (map_to_list (fs written)) = true) as H by (vm_compute; reflexivity).
  rewrite forallb_forall in H. intros p n Hp. apply elem_of_map_to_list, list_elem_of_In, H, Nat.ltb_lt in Hp. done.
Qed.

Lemma written_conf : exists c, fs written !! conf = Some (File c) /\ is_Some (file_rec c).
Proof.
  assert (match fs written !! conf with Some (File c) => bool_decide (is_Some (file_rec c)) | _ => false end = true) as H
    by (vm_compute; reflexivity).
  destruct (fs written !! conf) as [[|c|]|]; [done| |done..]. exists c. split; [done|]. by apply bool_decide_eq_true in H.
Qed.

Lemma written_db : node_db (fs written).
Proof.
  destruct written_dirs as (E1 & E2 & E3 & D1 & D2 & D3). split; [|done|by eauto using written_fits| |].
  - intros p t Hp H. assert (forallb (fun '(_, n) => match n with Link _ => false | _ => true end) (map_to_list (fs written)) = true)
      as F by (vm_compute; reflexivity).
    rewrite forallb_forall in F. by apply elem_of_map_to_list, list_elem_of_In, F in H.
  - intros t. rewrite E1. intros ->%list_elem_of_singleton. done.
  - intros t p. rewrite E1. intros ->%list_elem_of_singleton. rewrite E2. intros ->%list_elem_of_singleton.
    exists (str "192.168.0.7"), 3260%Z, (Some 1%Z). split; [vm_compute; reflexivity|]. split.
    { split_and!; [apply (bool_decide_eq_true_1 _); vm_compute; reflexivity | lia | lia | intros t [= <-]; lia]. }
    split; [done|]. intros q. rewrite E3. intros ->%list_elem_of_singleton. apply written_conf.
Qed.

Lemma every_record_is_visited_witness :
  exists files recs,
    idbm_for_each_rec (fun _ l => reverse l) link_recs true [] written = Some ((0%Z, Z.of_nat (length files), recs), written) /\
    NoDup files /\ (forall q, q ∈ files <-> node_file written q) /\
    Forall2 (fun q rec => exists c, fs written !! q = Some (File c) /\ file_rec c = Some rec) files recs.
Proof.
  apply (every_record_is_visited (fun _ l => reverse l) written true); [done..| | |].
  - intros _ l. apply reverse_Permutation.
  - exact written_db.
  - right. vm_compute. repeat split; reflexivity.
Defined.
End WalkExample.
