(* ===== verification/SessionMgmt.v ===== *)
(** * Logging in to and out of lists of portals

    usr/session_mgmt.c: iscsiadm sends the requests for all portals to the daemon
    before it waits for the answers; usr/iscsiadm.c: [login_portals],
    [login_by_startup] and [logout_by_startup] use it.  A request is that of Ipc;
    what the daemon answers, and what becomes of the sessions in the kernel
    meanwhile, is a parameter. *)
From Stdlib Require Import ZArith Lia Ascii.
From stdpp Require Import base tactics numbers list strings option gmap.
From S2P Require Import Prelude StateM CString Login Idbm IdbmTables IdbmOps SessionInfo IdbmWalk Ipc.

Definition MGMT_IPC_SESSION_LOGIN : Z := 1.
Definition MGMT_IPC_SESSION_LOGOUT : Z := 2.
Definition ISCSI_ERR_SESS_EXISTS : Z := 15.
Definition ISCSI_ERR_FATAL_LOGIN : Z := 19.
Definition ISCSI_ERR_INTERNAL : Z := 9.
Definition ISCSI_ERR_LOGOUT : Z := 10.
Definition ISCSI_ERR_BUSY : Z := 28.

(** What a request asks for. *)
Inductive req_data := ByRec (rec : memory) | BySid (sid : Z).

(** What iscsiadm does, as the user and the daemon see it: the [k]-th request; its
    socket is closed without waiting for an answer; the wait for an answer ends, with
    the socket closed or not; the message with the result. *)
Inductive call := Sent (k : nat) (command : Z) (d : req_data) | Dropped (k : nat) | Waited (k : nat) (err : Z) (closed : bool)
  | LogLogin (rec : memory) (rc : Z) | LogLogout (sid : Z) (rc : Z).

(** The [k]-th request: whether memory is there for it; the socket, the
    connection, [write]; the answer ([poll] and [recv]); what the daemon did to the
    sessions when the request had been sent and when it was answered. *)
Record daemon_env := mk_denv {
  e_calloc : bool;
  e_socket : bool;
  e_connect : nat -> connect_result;
  e_written : Z;
  e_answer : list rsp_event;
  e_on_send : sysfs -> sysfs;
  e_on_answer : sysfs -> sysfs
}.

Record world := mk_world {
  w_next : nat;
  w_open : list nat;
  w_kernel : sysfs;
  w_db : dbstate;
  w_calls : list call
}.
#[export] Instance eta_world : Eta world := fun w =>
  mk_world (w_next w) (w_open w) (w_kernel w) (w_db w) (w_calls w).

(** [struct iscsid_async_req]: the request whose socket it holds, and its record or
    session. *)
Definition async_req (D : Type) : Type := nat * D.

(** A session that an adapter made from its flash memory; [f_in_use]: the answer of
    [iscsi_check_session_use_count]; [f_open]: netlink can be opened; [f_logout]: what
    the kernel answers. *)
Record flash_env := mk_fenv { f_in_use : Z -> bool; f_open : bool; f_logout : Z -> Z -> Z }.

Section Management.
Context `{LEnv : LoginEnv} `{DEnv : DbEnv} `{Res : Resolver}.
Variables sizeof_req sizeof_rsp : nat.
Variable env : nat -> daemon_env.
(** Whether [calloc] finds memory to read sessions into, and for the copy of one;
    the order of directories. *)
Variable session_mem : bool.
Variable copy_mem : session_info -> bool.
Variable dir_order : path -> list path -> list path.
Variable flash : flash_env.
Local Open Scope iscsi_scope.

Definition note (c : call) : M world unit := mmod (fun w => w <| w_calls := w_calls w ++ [c] |>).

(** An operation on the database. *)
Definition on_db {A} (m : M dbstate A) : M world A := fun w =>
  match m (w_db w) with Some (a, s) => Some (a, w <| w_db := s |>) | None => None end.

(** ** Requests (usr/iscsid_req.c) *)

(** [iscsid_req_by_rec_async] and [iscsid_req_by_sid_async]: the result and the socket. *)
Definition iscsid_req_async (command : Z) (d : req_data) : M world (Z * nat) :=
  let! w := mget in
  let k := w_next w in
  let e := env k in
  mmod (fun w => w <| w_next := S k |>) ;;;
  let! (err, _) := mopt (iscsid_request sizeof_req (e_socket e) (e_connect e) true (e_written e)) in
  if truth err then mret' (err, k)
  else
    note (Sent k command d) ;;;
    mmod (fun w => w <| w_open := k :: w_open w |> <| w_kernel := e_on_send e (w_kernel w) |>) ;;;
    mret' (err, k).

(** [iscsid_req_wait]; [None] when no answer ever comes. *)
Definition iscsid_req_wait (command : Z) (k : nat) : M world Z :=
  let! r := mopt (iscsid_response sizeof_rsp (e_answer (env k)) command (replicate sizeof_rsp 0%Z)) in
  match r with
  | RspWaits => mfail
  | RspDone err _ closed =>
      mmod (fun w => w <| w_open := if closed then filter (fun j => j <> k) (w_open w) else w_open w |>
                       <| w_kernel := e_on_answer (env k) (w_kernel w) |>) ;;;
      note (Waited k err closed) ;;; mret' err
  end.

(** [iscsid_req_by_rec] and [iscsid_req_by_sid]. *)
Definition iscsid_req (command : Z) (d : req_data) : M world Z :=
  let! (err, k) := iscsid_req_async command d in
  if truth err then mret' err else iscsid_req_wait command k.

Definition close_socket (k : nat) : M world unit :=
  mmod (fun w => w <| w_open := filter (fun j => j <> k) (w_open w) |>) ;;; note (Dropped k).

(** ** Lists of requests *)
Fixpoint iscsid_reqs_close {D} (l : list (async_req D)) : M world unit :=
  match l with
  | [] => mret' tt
  | (k, _) :: l => close_socket k ;;; iscsid_reqs_close l
  end.

(** [if (err && !ret) ret = err;] *)
Definition keep_first (ret err : Z) : Z := if truth err && negb (truth ret) then err else ret.

Fixpoint login_wait_loop (l : list (async_req memory)) (ret : Z) : M world Z :=
  match l with
  | [] => mret' ret
  | (k, rec) :: l =>
      let! err := iscsid_req_wait MGMT_IPC_SESSION_LOGIN k in
      note (LogLogin rec err) ;;; login_wait_loop l (keep_first ret err)
  end.

Definition iscsid_login_reqs_wait (l : list (async_req memory)) : M world Z := login_wait_loop l 0.

Fixpoint logout_wait_loop (l : list (async_req Z)) (ret : Z) : M world Z :=
  match l with
  | [] => mret' ret
  | (k, sid) :: l =>
      let! err := iscsid_req_wait MGMT_IPC_SESSION_LOGOUT k in
      note (LogLogout sid err) ;;; logout_wait_loop l (if truth err then err else ret)
  end.

Definition iscsid_logout_reqs_wait (l : list (async_req Z)) : M world Z := logout_wait_loop l 0.

(** ** Logging in *)

(** A list of requests to add to; [None]: the caller wants to wait for each one. *)
Definition login_list : Type := option (list (async_req memory)).

(** The record is the caller's: [session.multiple] is set in it. *)
Definition __iscsi_login_portal (data : option memory) (l : login_list) (rec : memory) : M world (Z * login_list * memory) :=
  let rec := match data with
             | Some pattern =>
                 if truth (get_int rec "session.multiple") then rec
                 else <["session.multiple" := FInt (get_int pattern "session.multiple")]> rec
             | None => rec
             end in
  let! w := mget in
  match (if e_calloc (env (w_next w)) then l else None) with
  | Some reqs =>
      let! (rc, k) := iscsid_req_async MGMT_IPC_SESSION_LOGIN (ByRec rec) in
      if truth rc then note (LogLogin rec rc) ;;; mret' (rc, l, rec) else mret' (0%Z, Some (reqs ++ [(k, rec)]), rec)
  | None =>
      let! rc := iscsid_req MGMT_IPC_SESSION_LOGIN (ByRec rec) in
      note (LogLogin rec rc) ;;; mret' (rc, l, rec)
  end.

Fixpoint login_times (n : nat) (data : option memory) (l : login_list) (rec : memory) (rc : Z) : M world (Z * login_list * memory) :=
  match n with
  | O => mret' (rc, l, rec)
  | S n =>
      let! (err, l, rec) := __iscsi_login_portal data l rec in
      login_times n data l rec (keep_first rc err)
  end.

Definition count_sessions (rec : memory) : M world (Z * Z) :=
  iscsi_sysfs_for_each_session w_kernel session_mem (fun i => mret' (iscsi_match_session_count (Some rec) i)) 0.

Definition iscsi_login_portal (data : option memory) (l : login_list) (rec : memory) : M world (Z * login_list * memory) :=
  if (match data with Some p => truth (get_int p "session.multiple") | None => false end) then __iscsi_login_portal data l rec
  else
    let! (rc, session_count) := count_sessions rec in
    let nr_sessions := get_int rec "session.nr_sessions" in
    if truth rc then mret' (rc, l, rec)
    else if decide (nr_sessions <= session_count)%Z then mret' (ISCSI_ERR_SESS_EXISTS, l, rec)
    else
      let rec := if decide (1 < nr_sessions)%Z then <["session.multiple" := FInt 1]> rec else rec in
      login_times (Z.to_nat (nr_sessions - session_count)) data l rec 0.

Definition iscsi_login_portal_nowait (rec : memory) : M world Z :=
  let! (err, l, _) := iscsi_login_portal None (Some []) rec in
  if decide (0 < err)%Z then mret' err
  else iscsid_reqs_close (default [] l) ;;; mret' 0%Z.

(** The function that is run over a list of portals. *)
Definition login_fn : Type := login_list -> memory -> M world (Z * login_list * memory).

Fixpoint login_each (fn : login_fn) (recs : list memory) (l : login_list) (ret nr_found : Z)
    : M world (Z * Z * login_list * list memory) :=
  match recs with
  | [] => mret' (ret, nr_found, l, [])
  | rec :: recs =>
      let! (err, l, rec) := fn l rec in
      let ret := if decide (0 < err)%Z then keep_first ret err else ret in
      let! (ret, nr_found, l, recs) := login_each fn recs l ret (if decide (err = 0%Z) then (nr_found + 1)%Z else nr_found) in
      mret' (ret, nr_found, l, rec :: recs)
  end.

(** The result, [*nr_found] and the records of the list; [iscsi_login_portals] frees
    these, [iscsi_login_portals_safe] leaves them to its caller. *)
Definition __iscsi_login_portals (fn : login_fn) (wait : bool) (recs : list memory) : M world (Z * Z * list memory) :=
  let! (ret, nr_found, l, recs) := login_each fn recs (Some []) 0 0 in
  if wait then
    let! err := iscsid_login_reqs_wait (default [] l) in
    mret' (keep_first ret err, nr_found, recs)
  else iscsid_reqs_close (default [] l) ;;; mret' (ret, nr_found, recs).

Definition iscsi_login_portals (fn : login_fn) (wait : bool) (recs : list memory) : M world (Z * Z) :=
  let! (ret, nr_found, _) := __iscsi_login_portals fn wait recs in mret' (ret, nr_found).

Definition iscsi_login_portals_safe : login_fn -> bool -> list memory -> M world (Z * Z * list memory) := __iscsi_login_portals.

(** ** Logging out *)
Definition logout_list : Type := option (list (async_req Z)).

Definition iscsi_logout_portal (info : session_info) (l : logout_list) : M world (Z * logout_list) :=
  let sid := i_sid info in
  let! w := mget in
  match (if e_calloc (env (w_next w)) then l else None) with
  | None =>
      let! rc := iscsid_req MGMT_IPC_SESSION_LOGOUT (BySid sid) in
      note (LogLogout sid rc) ;;; mret' (rc, l)
  | Some reqs =>
      let! (rc, k) := iscsid_req_async MGMT_IPC_SESSION_LOGOUT (BySid sid) in
      if truth rc then note (LogLogout sid rc) ;;; mret' (rc, l) else mret' (0%Z, Some (reqs ++ [(k, sid)]))
  end.

Definition logout_fn : Type := logout_list -> session_info -> M world (Z * logout_list).

Fixpoint logout_each (fn : logout_fn) (infos : list session_info) (l : logout_list) (ret nr_found : Z) : M world (Z * Z * logout_list) :=
  match infos with
  | [] => mret' (ret, nr_found, l)
  | info :: infos =>
      let! (err, l) := fn l info in
      logout_each fn infos l (if decide (0 < err)%Z then keep_first ret err else ret)
        (if decide (err = 0%Z) then (nr_found + 1)%Z else nr_found)
  end.

(** The sessions, linked by [session_info_create_list]. *)
Definition read_sessions : M world (Z * list session_info) := fun w =>
  match iscsi_sysfs_for_each_session fst session_mem
          (fun i '(k, l) => let '(rc, l) := session_info_create_list None (copy_mem i) i l in Some (rc, (k, l))) 0 (w_kernel w, []) with
  | Some (rc, _, (_, l)) => Some ((rc, l), w)
  | None => None
  end.

Definition iscsi_logout_portals (fn : logout_fn) (wait : bool) : M world (Z * Z) :=
  let! (err, infos) := read_sessions in
  if decide (infos = []) then mret' (if truth err then err else ISCSI_ERR_NO_OBJS_FOUND, 0%Z)
  else
    let! (ret, nr_found, l) := logout_each fn infos (Some []) err 0 in
    if decide (nr_found = 0%Z) then mret' (ISCSI_ERR_NO_OBJS_FOUND, nr_found)
    else if wait then
      let! err := iscsid_logout_reqs_wait (default [] l) in
      mret' (keep_first ret err, nr_found)
    else iscsid_reqs_close (default [] l) ;;; mret' (ret, nr_found).

Definition iscsi_check_for_running_session (rec : memory) : M world Z :=
  let! (rc, _) := iscsi_sysfs_for_each_session w_kernel session_mem
                    (fun i => mret' (if iscsi_match_session (Some rec) i then 1%Z else 0%Z)) 0 in
  mret' (if truth rc then 1%Z else 0%Z).

(** ** iscsiadm *)
Definition login_portals (pattern_rec : option memory) (wait : bool) : M world Z :=
  let! (err, recs) := on_db (for_each_matched_rec dir_order pattern_rec link_recs []) in
  if decide (err = ISCSI_ERR_NO_OBJS_FOUND) then mret' err
  else if truth err && bool_decide (recs = []) then mret' err
  else
    let! (rc, _) := iscsi_login_portals (iscsi_login_portal pattern_rec) wait recs in
    mret' (keep_first err rc).

Definition __logout_by_startup (mode : list Z) (l : logout_list) (info : session_info) : M world (Z * logout_list) :=
  let! (err, rec) := on_db (idbm_rec_read ∅ (i_targetname info) (i_tpgt info) (i_persistent_address info)
                              (i_persistent_port info) (get_str (i_iface info) "name") false) in
  if truth err then mret' ((-1)%Z, l)
  else if decide (get_str rec "iface.transport_name" <> get_str (i_iface info) "transport_name") then mret' ((-1)%Z, l)
  else if decide (get_int rec "startup" = ISCSI_STARTUP_ONBOOT) then mret' ((-1)%Z, l)
  else if decide (get_int rec "disc_type" = DISCOVERY_TYPE_FW) then mret' ((-1)%Z, l)
  else if truth (match_startup_mode rec mode) then mret' ((-1)%Z, l)
  else iscsi_logout_portal info l.

Definition logout_by_startup (mode : option (list Z)) : M world Z :=
  match mode with
  | None => mret' ISCSI_ERR_INVAL
  | Some mode =>
      if decide (mode = str "automatic" \/ mode = str "all" \/ mode = str "manual") then
        let! (rc, _) := iscsi_logout_portals (__logout_by_startup mode) true in mret' rc
      else mret' ISCSI_ERR_INVAL
  end.

(** 1: made by a program, 0: by the kernel, -1: unknown. *)
Definition iscsi_sysfs_session_user_created (k : sysfs) (sid : Z) : Z :=
  let '(err, pid) := sysfs_get_int k (str "session" ++ fmt_d (i32 sid)) ISCSI_SESSION_SUBSYS (str "creator") in
  if truth err then (-1)%Z else if decide (pid = (-1)%Z) then 0%Z else 1%Z.

Definition iscsi_sysfs_get_transport_by_sid (k : sysfs) (sid : Z) : option (list Z * bool) :=
  host_no ← host_of_sid k sid; transport_of_host k host_no.

Definition iscsi_logout_flashnode_sid (host_no sid : Z) : Z :=
  if f_in_use flash sid then ISCSI_ERR_BUSY
  else if negb (f_open flash) then ISCSI_ERR_INTERNAL
  else if decide (f_logout flash host_no sid < 0)%Z then ISCSI_ERR_LOGOUT
  else f_logout flash host_no sid.

Definition iscsi_logout_matched_portal (pattern_rec : option memory) (l : logout_list) (info : session_info)
    : M world (Z * logout_list) :=
  let! w := mget in
  match iscsi_sysfs_get_transport_by_sid (w_kernel w) (i_sid info) with
  | None => mret' ((-1)%Z, l)
  | Some _ =>
      if negb (iscsi_match_session pattern_rec info) then mret' ((-1)%Z, l)
      else
        match host_of_sid (w_kernel w) (i_sid info) with
        | None => mret' ((-1)%Z, l)
        | Some host_no =>
            if decide (iscsi_sysfs_session_user_created (w_kernel w) (i_sid info) = 0%Z)
            then mret' (iscsi_logout_flashnode_sid host_no (i_sid info), l)
            else iscsi_logout_portal info l
        end
  end.

(** A session with the target of a record, whatever its interface. *)
Definition target_has_session (rec : memory) : M world bool :=
  let! (rc, _) := iscsi_sysfs_for_each_session w_kernel session_mem
                    (fun i => mret' (if iscsi_match_target (Some rec) i then 1%Z else 0%Z)) 0 in
  mret' (truth rc).

Definition __do_leading_login (pattern_iface : memory) (l : login_list) (rec : memory) : M world (Z * login_list * memory) :=
  if negb (iface_match (Some ("", pattern_iface)) (Some ("iface.", rec))) then mret' ((-1)%Z, l, rec)
  else
    let! found := target_has_session rec in
    if (found : bool) then mret' ((-1)%Z, l, rec) else iscsi_login_portal None l rec.

(** The errors are only logged. *)
Fixpoint leading_ifaces (ifaces : list memory) (recs : list memory) : M world (list memory) :=
  match ifaces with
  | [] => mret' recs
  | iface :: ifaces =>
      let! (_, _, recs) := iscsi_login_portals_safe (__do_leading_login iface) true recs in
      leading_ifaces ifaces recs
  end.

Fixpoint missed_logins (recs : list memory) (missed : Z) : M world Z :=
  match recs with
  | [] => mret' missed
  | rec :: recs =>
      let! found := target_has_session rec in
      missed_logins recs (if found : bool then missed else (missed + 1)%Z)
  end.

(** [ifaces]: the interfaces that [iface_link_ifaces] finds. *)
Definition login_by_startup (ifaces : list memory) (mode : option (list Z)) (wait : bool) : M world Z :=
  match mode with
  | None => mret' ISCSI_ERR_INVAL
  | Some mode =>
      if decide (mode = str "automatic" \/ mode = str "all" \/ mode = str "manual" \/ mode = str "onboot") then
        let! (err, _, d) := on_db (idbm_for_each_rec dir_order (link_startup_recs mode) false (mk_startup [] [])) in
        if decide (all_logins d = [] /\ leading_logins d = []) then
          mret' (if truth err then err else ISCSI_ERR_NO_OBJS_FOUND)
        else
          let rc := err in
          let! rc :=
            if decide (all_logins d = []) then mret' rc
            else
              let! (err, _) := iscsi_login_portals (iscsi_login_portal None) wait (all_logins d) in
              mret' (keep_first rc err) in
          if decide (leading_logins d = []) then mret' rc
          else
            let! recs := leading_ifaces ifaces (leading_logins d) in
            let! missed := missed_logins recs 0 in
            mret' (if decide (missed <> 0%Z) then keep_first rc ISCSI_ERR_FATAL_LOGIN else rc)
      else mret' ISCSI_ERR_INVAL
  end.
End Management.
