(* ===== verification/SessionMgmtTheorems.v ===== *)
(** * Theorems about logging in and out

    Whatever the daemon answers, every request that iscsiadm sent is waited for or
    dropped exactly once, and the sockets that stay open are exactly those on which
    [poll] failed; the result is 0 only when every answer was a success; a portal
    gets the sessions that it lacks and no more. *)
From Stdlib Require Import ZArith Lia Ascii.
From stdpp Require Import base tactics numbers list strings option gmap.
From S2P Require Import Prelude StateM CString Login Idbm IdbmTables IdbmOps SessionInfo SessionInfoTheorems IdbmWalk Ipc IpcTheorems SessionMgmt.

(** ** What happened *)
Definition sent (cs : list call) : list nat := omap (fun c => match c with Sent k _ _ => Some k | _ => None end) cs.
Definition ended (cs : list call) : list nat :=
  omap (fun c => match c with Dropped k | Waited k _ _ => Some k | _ => None end) cs.

(** The requests whose socket [iscsid_response] left open. *)
Definition leaked (cs : list call) : list nat := omap (fun c => match c with Waited k _ false => Some k | _ => None end) cs.

(** No failure is reported. *)
Definition quiet (c : call) : Prop :=
  match c with Waited _ err closed => err = 0%Z /\ closed = true | LogLogin _ rc | LogLogout _ rc => rc = 0%Z | _ => True end.

(** Since the state with [calls0] and [open0]: the requests [pend] wait for an
    answer, all others have ended; their sockets and the leaked ones are open; nothing
    failed if [G] holds. *)
Definition inv (calls0 : list call) (open0 : list nat) (w : world) (pend : list nat) (G : Prop) : Prop :=
  exists cs,
    w_calls w = calls0 ++ cs /\ sent cs ≡ₚ ended cs ++ pend /\ w_open w ≡ₚ pend ++ leaked cs ++ open0 /\
    NoDup (pend ++ leaked cs ++ open0) /\ Forall (fun k => k < w_next w) (pend ++ leaked cs ++ open0) /\
    (G -> Forall quiet cs).

Lemma leaked_app cs cs' : leaked (cs ++ cs') = leaked cs ++ leaked cs'.
Proof. apply omap_app. Qed.

Lemma leaked_ended c : ended [c] = [] -> leaked [c] = [].
Proof. by destruct c. Qed.


Section Inv.
Variable calls0 : list call.
Variable open0 : list nat.
Notation inv := (inv calls0 open0).

Lemma inv_weaken w pend (G G' : Prop) : inv w pend G -> (G' -> G) -> inv w pend G'.
Proof. intros (cs & ? & ? & ? & ? & ? & ?) HG. exists cs. split_and!; auto. Qed.

Lemma inv_perm w pend pend' G : inv w pend G -> pend ≡ₚ pend' -> inv w pend' G.
Proof. intros (cs & ? & S & O & N & F & ?) P. exists cs. rewrite P in S, O, N, F. by split_and!. Qed.

(** A message changes neither sockets nor requests. *)
Lemma inv_note w pend G c (rc : Z) :
  inv w pend G -> sent [c] = [] -> ended [c] = [] -> (rc = 0%Z -> quiet c) ->
  inv (w <| w_calls := w_calls w ++ [c] |>) pend (G /\ rc = 0%Z).
Proof.
  intros (cs & C & S & O & N & F & Q) Hs He Hq. exists (cs ++ [c]). cbn. rewrite C, app_assoc.
  rewrite leaked_app, (leaked_ended c He), app_nil_r. split_and!; [done| |done..|].
  - unfold sent, ended in *. rewrite !omap_app, Hs, He, !app_nil_r. done.
  - intros [HG Hrc]. apply Forall_app. split; [by apply Q|]. repeat constructor. by apply Hq.
Qed.

(** A request is sent. *)
Lemma inv_send w pend G command d kern :
  inv w pend G ->
  inv (w <| w_next := S (w_next w) |> <| w_calls := w_calls w ++ [Sent (w_next w) command d] |>
         <| w_open := w_next w :: w_open w |> <| w_kernel := kern |>) (pend ++ [w_next w]) G.
Proof.
  intros (cs & C & S & O & N & F & Q). exists (cs ++ [Sent (w_next w) command d]). cbn. rewrite C, app_assoc.
  rewrite leaked_app. change (leaked [Sent _ _ _]) with (@nil nat). rewrite app_nil_r. split_and!; [done| | | | |].
  - unfold sent, ended in *. rewrite !omap_app, app_nil_r, S, app_assoc. done.
  - rewrite O. solve_Permutation.
  - rewrite <- app_assoc. cbn. rewrite <- Permutation_middle. constructor; [|done].
    intros H. rewrite Forall_forall in F. apply F in H. lia.
  - rewrite <- app_assoc. cbn. rewrite <- Permutation_middle. constructor; [lia|]. eapply Forall_impl; [exact F|]. cbn. lia.
  - intros HG. apply Forall_app. split; [by apply Q|]. by repeat constructor.
Qed.

(** Its socket is closed. *)
Lemma filter_keeps (P : nat -> Prop) `{!forall x, Decision (P x)} l : Forall P l -> filter P l = l.
Proof. induction 1 as [|x l Hx _ IH]; [done|]. by rewrite filter_cons_True, IH. Qed.

Lemma filter_out (k : nat) (rest opened : list nat) :
  opened ≡ₚ k :: rest -> NoDup (k :: rest) -> filter (fun j => j <> k) opened ≡ₚ rest.
Proof.
  intros P N. rewrite P. apply NoDup_cons in N as [Hk _]. rewrite filter_cons_False by (intros H; by apply H).
  rewrite filter_keeps; [done|]. apply Forall_forall. intros x Hx ->. done.
Qed.

Lemma inv_end w k pend G kern c (err : Z) :
  inv w (k :: pend) G -> sent [c] = [] -> ended [c] = [k] -> leaked [c] = [] -> (err = 0%Z -> quiet c) ->
  inv (w <| w_open := filter (fun j => j <> k) (w_open w) |> <| w_kernel := kern |> <| w_calls := w_calls w ++ [c] |>) pend
    (G /\ err = 0%Z).
Proof.
  intros (cs & C & S & O & N & F & Q) Hs He Hl Hq. exists (cs ++ [c]). cbn. rewrite C, app_assoc.
  rewrite leaked_app, Hl, app_nil_r. split_and!; [done| | | | |].
  - unfold sent, ended in *. rewrite !omap_app, Hs, He, app_nil_r, S, <- app_assoc. done.
  - by apply filter_out.
  - by apply NoDup_cons in N as [_ N].
  - by apply Forall_cons in F as [_ F].
  - intros [HG Hrc]. apply Forall_app. split; [by apply Q|]. repeat constructor. by apply Hq.
Qed.

(** Or it stays open, after a failure. *)
Lemma inv_leak w k pend G kern (err : Z) :
  inv w (k :: pend) G -> err <> 0%Z ->
  inv (w <| w_open := w_open w |> <| w_kernel := kern |> <| w_calls := w_calls w ++ [Waited k err false] |>) pend
    (G /\ err = 0%Z).
Proof.
  intros (cs & C & S & O & N & F & Q) Herr. exists (cs ++ [Waited k err false]). cbn. rewrite C, app_assoc.
  assert ((k :: pend) ++ leaked cs ++ open0 ≡ₚ pend ++ leaked (cs ++ [Waited k err false]) ++ open0) as P.
  { rewrite leaked_app. change (leaked [Waited k err false]) with [k]. cbn. solve_Permutation. }
  rewrite P in O, N, F. split_and!; [done| |done..|].
  - unfold sent, ended in *. rewrite !omap_app, app_nil_r, S, <- app_assoc. done.
  - by intros [_ ?].
Qed.
End Inv.

(** ** The operations *)
Section Operations.
Context `{LEnv : LoginEnv} `{DEnv : DbEnv} `{Res : Resolver}.
Variables sizeof_req sizeof_rsp : nat.
Variable env : nat -> daemon_env.
Variable session_mem : bool.
Variable copy_mem : session_info -> bool.
Local Open Scope iscsi_scope.

(** The wait for an answer, which has no time limit, ends: with an answer (an error
    code of include/iscsi_err.h, or success), with the end of the connection, or with a
    failure of [poll]. *)
Definition answered (command : Z) (k : nat) : Prop :=
  exists err rsp closed, (0 <= err)%Z /\
    iscsid_response sizeof_rsp (e_answer (env k)) command (replicate sizeof_rsp 0%Z) = Some (RspDone err rsp closed).

(** The socket stays open only when [poll] failed or timed out. *)
Lemma response_left_open es cmd : forall rsp len e err rsp',
  response_loop es cmd rsp len e = Some (RspDone err rsp' false) ->
  err = ISCSI_ERR_REQ_TIMEDOUT \/ err = ISCSI_ERR_ISCSID_COMM_ERR.
Proof.
  induction es as [|ev es IH]; intros rsp len e err rsp'; cbn [response_loop]; (case_decide; [done|]); [done|].
  destruct ev as [|[]|l| |]; try apply IH; try (intros [= <- _]; auto; done); [].
  destruct (buf_write rsp 0 l); [apply IH|done].
Qed.

Hypothesis login_answered : forall k, answered MGMT_IPC_SESSION_LOGIN k.
Hypothesis logout_answered : forall k, answered MGMT_IPC_SESSION_LOGOUT k.

Variable calls0 : list call.
Variable open0 : list nat.
Notation inv := (inv calls0 open0).

Notation iscsid_req_async := (iscsid_req_async sizeof_req env).
Notation iscsid_req_wait := (iscsid_req_wait sizeof_rsp env).
Notation iscsid_req := (iscsid_req sizeof_req sizeof_rsp env).

Lemma request_ends socket_ok answers start written :
  exists err calls, iscsid_request sizeof_req socket_ok answers start written = Some (err, calls) /\ (0 <= err)%Z.
Proof.
  unfold iscsid_request. destruct socket_ok; [|eexists _, _; split; [done|unfold ISCSI_ERR_ISCSID_NOTCONN; lia]].
  destruct (connect_ends answers start) as (rc & calls & -> & [Hr _]). cbn [mbind option_bind].
  destruct Hr as [->|[-> _]]; cbn [truth]; [|eexists _, _; split; [done|unfold ISCSI_ERR_ISCSID_NOTCONN; lia]].
  unfold ISCSI_SUCCESS. cbn. case_decide; eexists _, _; (split; [done|]); unfold ISCSI_ERR_ISCSID_COMM_ERR; lia.
Qed.

Lemma inv_next w pend G : inv w pend G -> inv (w <| w_next := S (w_next w) |>) pend G.
Proof.
  intros (cs & C & S & O & N & F & Q). exists cs. split_and!; try done. eapply Forall_impl; [exact F|]. cbn. lia.
Qed.

Lemma req_async_ok command d w pend G :
  inv w pend G ->
  wp (iscsid_req_async command d) (fun '(rc, k) w' =>
    (0 <= rc)%Z /\ w_next w' = S (w_next w) /\ inv w' (if truth rc then pend else pend ++ [k]) G) w.
Proof.
  intros H. unfold SessionMgmt.iscsid_req_async. mstep. mstep.
  destruct (request_ends (e_socket (env (w_next w))) (e_connect (env (w_next w))) true (e_written (env (w_next w))))
    as (err & calls & E & Herr).
  apply wp_then. eapply wp_opt; [exact E|]. cbn beta iota. destruct (truth err) eqn:T.
  - mstep. rewrite T. split_and!; [done|done|]. by apply inv_next.
  - unfold note. mstep. mstep. mstep. rewrite T. split_and!; [done|done|].
    exact (inv_send _ _ w pend G command d (e_on_send (env (w_next w)) (w_kernel w)) H).
Qed.

Lemma req_wait_ok command k w pend G :
  answered command k -> inv w (k :: pend) G ->
  wp (iscsid_req_wait command k) (fun err w' => (0 <= err)%Z /\ w_next w' = w_next w /\ inv w' pend (G /\ err = 0%Z)) w.
Proof.
  intros (err & rsp & closed & Herr & E) H. unfold SessionMgmt.iscsid_req_wait.
  apply wp_then. eapply wp_opt; [exact E|]. cbn beta iota. unfold note. mstep. mstep. mstep. split_and!; [done|done|].
  destruct closed.
  - exact (inv_end _ _ w k pend G (e_on_answer (env k) (w_kernel w)) (Waited k err true) err H eq_refl eq_refl eq_refl (fun e => conj e eq_refl)).
  - apply (inv_leak _ _ w k pend G (e_on_answer (env k) (w_kernel w)) err H).
    apply response_left_open in E as [-> | ->]; discriminate.
Qed.

Lemma req_ok command d w pend G :
  (forall k, answered command k) -> inv w pend G ->
  wp (iscsid_req command d) (fun rc w' => (0 <= rc)%Z /\ w_next w' = S (w_next w) /\ inv w' pend (G /\ (rc = 0%Z))) w.
Proof.
  intros Ha H. unfold SessionMgmt.iscsid_req. eapply wp_bind; [by apply req_async_ok|].
  intros [rc k] w' (Hrc & Hn & Hi). destruct (truth rc) eqn:T.
  - mstep. split_and!; [done|done|]. by eapply inv_weaken; [exact Hi|intros []].
  - eapply wp_use; [apply (req_wait_ok command k _ pend G); [done|]|].
    + eapply inv_perm; [exact Hi|]. symmetry. apply Permutation_cons_append.
    + intros err w'' (? & Hn' & ?). rewrite Hn'. done.
Qed.

Lemma note_ok w pend G c (rc : Z) Q :
  inv w pend G -> sent [c] = [] -> ended [c] = [] -> (rc = 0%Z -> quiet c) ->
  (forall w', w_next w' = w_next w -> w_kernel w' = w_kernel w -> inv w' pend (G /\ rc = 0%Z) -> Q tt w') ->
  wp (note c) Q w.
Proof. intros H Hs He Hq HQ. unfold note. mstep. apply HQ; [done|done|]. by apply inv_note. Qed.


Lemma keep_first_0 ret err : keep_first ret err = 0%Z -> ret = 0%Z /\ err = 0%Z.
Proof. unfold keep_first, truth. destruct (Z.eqb_spec err 0), (Z.eqb_spec ret 0); cbn; lia. Qed.

Lemma keep_first_pos ret err : (0 <= ret)%Z -> (0 <= err)%Z -> (0 <= keep_first ret err)%Z.
Proof. unfold keep_first. destruct (_ && _); lia. Qed.



(** ** Logging in *)
Definition pending {D} (l : option (list (async_req D))) : list nat := (default [] l).*1.

Lemma pending_snoc {D} (reqs : list (async_req D)) k d : pending (Some (reqs ++ [(k, d)])) = pending (Some reqs) ++ [k].
Proof. unfold pending. cbn. by rewrite fmap_app. Qed.

Lemma login_once_ok data l rec w G :
  inv w (pending l) G ->
  wp (__iscsi_login_portal sizeof_req sizeof_rsp env data l rec) (fun '(rc, l', _) w' =>
    (0 <= rc)%Z /\ w_next w' = S (w_next w) /\ inv w' (pending l') (G /\ rc = 0%Z)) w.
Proof.
  intros H. unfold __iscsi_login_portal. set (rec' := match data with Some _ => _ | None => _ end). mstep. cbn beta.
  match goal with |- wp (match ?x with Some _ => _ | None => _ end) _ _ => destruct x as [reqs|] eqn:El end.
  - assert (l = Some reqs) as -> by (by destruct (e_calloc _)). eapply wp_bind; [by apply req_async_ok|].
    intros [rc k] w' (Hrc & Hn & Hi). destruct (truth rc) eqn:T.
    + apply wp_then. eapply (note_ok _ _ _ (LogLogin rec' rc) rc); [exact Hi|done..|].
      intros w'' Hn' _ Hi'. mstep. split_and!; [done|congruence|done].
    + mstep. rewrite pending_snoc. split_and!; [done|done|]. eapply inv_weaken; [exact Hi|]. tauto.
  - eapply wp_bind; [by apply req_ok|]. intros rc w' (Hrc & Hn & Hi). apply wp_then.
    eapply (note_ok _ _ _ (LogLogin rec' rc) rc); [exact Hi|done..|].
    intros w'' Hn' _ Hi'. mstep. split_and!; [done|congruence|]. eapply inv_weaken; [exact Hi'|]. tauto.
Qed.

Lemma login_times_ok n data l rec rc w G :
  (0 <= rc)%Z -> inv w (pending l) (G /\ rc = 0%Z) ->
  wp (login_times sizeof_req sizeof_rsp env n data l rec rc) (fun '(rc', l', _) w' =>
    (0 <= rc')%Z /\ w_next w' = n + w_next w /\ inv w' (pending l') (G /\ rc' = 0%Z)) w.
Proof.
  revert l rec rc w. induction n as [|n IH]; intros l rec rc w Hr H; cbn [login_times]; [by mstep|].
  eapply wp_bind; [by apply login_once_ok|]. intros [[err l'] rec'] w' (Herr & Hn & Hi).
  eapply wp_use; [apply (IH l' rec' (keep_first rc err)); [by apply keep_first_pos|]|].
  - eapply inv_weaken; [exact Hi|]. intros [HG HE]. apply keep_first_0 in HE. tauto.
  - intros [[rc' l''] ?] w'' (? & Hn' & ?). split_and!; [done|lia|done].
Qed.

(** The sessions of the kernel that match a record. *)
Definition matching (rec : memory) (k : sysfs) : Z := accepted (iscsi_match_session_count (Some rec)) (sessions k).

Lemma count_sessions_ok rec w :
  session_mem = true -> count_sessions session_mem rec w = Some ((0%Z, matching rec (w_kernel w)), w).
Proof.
  intros ->. change (count_sessions true rec w) with
    (iscsi_sysfs_for_each_session w_kernel true (look (iscsi_match_session_count (Some rec))) 0 w).
  rewrite (for_each_session_run w_kernel (look (iscsi_match_session_count (Some rec)))) by (intros ???? [= _ <-]; done).
  rewrite look_counts; [done|]. apply Forall_forall. intros i _. unfold iscsi_match_session_count. destruct (iscsi_match_session _ _); lia.
Qed.

(** How many requests a portal gets: one when a further session is asked for, else
    as many as sessions are missing. *)
Definition wanted (data : option memory) (rec : memory) (k : sysfs) : nat :=
  if (match data with Some p => truth (get_int p "session.multiple") | None => false end) then 1
  else Z.to_nat (get_int rec "session.nr_sessions" - matching rec k).

Lemma login_portal_ok data l rec w G :
  session_mem = true -> inv w (pending l) G ->
  wp (iscsi_login_portal sizeof_req sizeof_rsp env session_mem data l rec) (fun '(rc, l', _) w' =>
    (0 <= rc)%Z /\ w_next w' = wanted data rec (w_kernel w) + w_next w /\ inv w' (pending l') (G /\ rc = 0%Z)) w.
Proof.
  intros Hm H. unfold iscsi_login_portal, wanted. destruct (match data with Some _ => _ | None => _ end); [by apply login_once_ok|].
  apply wp_then. eexists _, _. split; [by apply count_sessions_ok|]. cbn [truth Z.eqb negb].
  case_decide as D.
  - mstep. unfold ISCSI_ERR_SESS_EXISTS. split_and!; [lia|lia|]. eapply inv_weaken; [exact H|]. tauto.
  - apply login_times_ok; [lia|]. eapply inv_weaken; [exact H|]. tauto.
Qed.

(** What the functions for a list of portals promise. *)
Definition login_fn_ok (fn : login_fn) : Prop :=
  forall l rec w G, inv w (pending l) G ->
    wp (fn l rec) (fun '(rc, l', _) w' => (-1 <= rc)%Z /\ inv w' (pending l') (G /\ (rc <= 0)%Z)) w.



Lemma login_portal_fn data : login_fn_ok (iscsi_login_portal sizeof_req sizeof_rsp env session_mem data).
Proof.
  intros l rec w G H. destruct (decide (session_mem = true)) as [E|E].
  - eapply wp_use; [by apply login_portal_ok|]. intros [[rc l'] rec'] w' (Hrc & _ & Hi). split; [lia|].
    eapply inv_weaken; [exact Hi|]. intros [HG HR]. split; [done|lia].
  - assert (session_mem = false) as -> by (by destruct session_mem). unfold iscsi_login_portal.
    destruct (match data with Some _ => _ | None => _ end).
    + eapply wp_use; [by apply login_once_ok|]. intros [[rc l'] rec'] w' (Hrc & _ & Hi). split; [lia|].
      eapply inv_weaken; [exact Hi|]. intros [HG HR]. split; [done|lia].
    + apply wp_then. eexists _, _. split; [done|]. apply wp_ret. unfold ISCSI_ERR_NOMEM. split; [lia|].
      eapply inv_weaken; [exact H|]. tauto.
Qed.








Lemma leading_login_fn iface : login_fn_ok (__do_leading_login sizeof_req sizeof_rsp env session_mem iface).
Proof.
  intros l rec w G H. unfold __do_leading_login.
  assert (wp (mret' ((-1)%Z, l, rec)) (fun '(rc, l', _) w' => (-1 <= rc)%Z /\ inv w' (pending l') (G /\ (rc <= 0)%Z)) w) as Skip.
  { mstep. split; [lia|]. eapply inv_weaken; [exact H|]. tauto. }
  destruct (negb _); [done|]. apply wp_then.
  assert (exists b, target_has_session session_mem rec w = Some (b, w)) as (b & E).
  { unfold target_has_session, mthen. destruct session_mem; [|by eexists].
    destruct (look_finds (iscsi_match_target (Some rec)) (sessions (w_kernel w)) 0 w) as (nr & R).
    pose proof (for_each_session_run w_kernel (look (fun i => if iscsi_match_target (Some rec) i then 1%Z else 0%Z))
      ltac:(intros ???? [= _ <-]; done) 0 w) as E. rewrite R in E.
    match goal with |- context [iscsi_sysfs_for_each_session ?a ?b ?c ?d ?e] =>
      change (iscsi_sysfs_for_each_session a b c d e) with
        (iscsi_sysfs_for_each_session w_kernel true (look (fun i => if iscsi_match_target (Some rec) i then 1%Z else 0%Z)) 0 w) end.
    rewrite E. by eexists. }
  exists b, w. split; [exact E|]. destruct b; [done|]. by apply login_portal_fn.
Qed.
End Operations.

(** ** Theorems *)







(** ** Runs *)
Module MgmtExample.
Import SessionsExample.
#[export] Instance resolver : Resolver := fun _ => None.

(** A daemon that answers every request of one kind with success; [refuses k]: the
    [k]-th connection is refused. *)
Definition answer (command : Z) : list rsp_event := [PollIn (le32 command ++ replicate 12 0%Z)].

Definition daemon (command : Z) (refuses : nat -> bool) (k : nat) : daemon_env :=
  mk_denv true true (fun _ => if refuses k then Refused else Connected) 16 (answer command) id id.

Definition portal : memory :=
  <["name" := FStr (str "iqn.a")]> (<["conn[0].address" := FStr (str "10.0.0.1")]>
    (<["conn[0].port" := FInt 30]> (<["session.nr_sessions" := FInt 4]> ∅))).

Definition start : world := mk_world 0 [] kernel (mk_dbstate ∅ 0 false 0) [].



(** The same, with a failure of [poll] in the wait for the answer to request 1. *)
Definition broken (k : nat) : daemon_env :=
  if decide (k = 1) then mk_denv true true (fun _ => Connected) 16 [PollError true; PollError false] id id
  else daemon MGMT_IPC_SESSION_LOGIN (fun _ => false) k.



(** The socket of request 1 stays open, and the failure is returned. *)
Lemma broken_run :
  (fun '(r, w') => (r, sent (w_calls w'), ended (w_calls w'), w_open w')) <$>
    iscsi_login_portals 16 broken (iscsi_login_portal 16 16 broken true None) true [portal] start =
  Some ((ISCSI_ERR_ISCSID_COMM_ERR, 1%Z), [0; 1], [0; 1], [1]).
Proof. vm_compute. reflexivity. Qed.


(** What the user and the daemon see of it. *)
Lemma login_run :
  (fun '(r, w') => (r, sent (w_calls w'), ended (w_calls w'), w_open w')) <$>
    iscsi_login_portals 16 (daemon MGMT_IPC_SESSION_LOGIN (fun _ => false))
      (iscsi_login_portal 16 16 (daemon MGMT_IPC_SESSION_LOGIN (fun _ => false)) true None) true [portal] start =
  Some ((0, 1)%Z, [0; 1], [0; 1], []).
Proof. vm_compute. reflexivity. Qed.

(** The second of two requests is refused: [iscsi_login_portal_nowait] returns the
    error and neither closes the socket of the first one nor frees it. *)
Lemma nowait_leaves_socket :
  (fun '(err, w') => (err, sent (w_calls w'), ended (w_calls w'), w_open w')) <$>
    iscsi_login_portal_nowait 16 16 (daemon MGMT_IPC_SESSION_LOGIN (fun k => bool_decide (k = 1))) true portal start =
  Some (ISCSI_ERR_ISCSID_NOTCONN, [0], [], [0]).
Proof. vm_compute. reflexivity. Qed.

(** The daemon cannot be reached: all logouts fail with ISCSI_ERR_ISCSID_NOTCONN, the
    result is that there is no session. *)
Lemma logout_error_lost :
  (fun '(r, w') => (r, w_calls w')) <$>
    iscsi_logout_portals 16 (daemon MGMT_IPC_SESSION_LOGOUT (fun _ => true)) true (fun _ => true)
      (iscsi_logout_matched_portal 16 16 (daemon MGMT_IPC_SESSION_LOGOUT (fun _ => true))
         (mk_fenv (fun _ => false) true (fun _ _ => 0%Z)) (Some portal)) true start =
  Some ((ISCSI_ERR_NO_OBJS_FOUND, 0%Z), [LogLogout 1 ISCSI_ERR_ISCSID_NOTCONN; LogLogout 4 ISCSI_ERR_ISCSID_NOTCONN]).
Proof. vm_compute. reflexivity. Qed.
End MgmtExample.
